(* ===== verification/_CoqProject ===== *)
-Q . S2P
Prelude.v
PyStr.v
Digest.v
Uuid.v
Json.v
Enums.v
Float64.v
PyFloat.v
PyTime.v
JsonParse.v
Base64.v
Fsrs.v
Learning.v
EvidenceTwin.v
Retrieval.v
ContextCompiler.v
McpIds.v
ObjectKeys.v
Ledger.v
Store.v
Outbox.v
RequestContext.v
Deletion.v
AuthSnapshot.v
ServiceAuth.v
TenantContext.v
RowPolicies.v
Errors.v
Policy.v
ExternalAccess.v
Jobs.v
Parsers.v
Storage.v
Ingestion.v
Processor.v
LearningService.v
Sources.v
Pointers.v
Memory.v
Document.v
Documents.v
ConversationCrypto.v
Conversations.v
Lanes.v
ContextService.v
McpService.v
McpRoutes.v
McpFlight.v
Pagination.v
Isolation.v
Idempotency.v
WebRoutes.v
SourceRoutes.v
DocumentRoutes.v
Export.v
AccountRoutes.v
Notion.v
Config.v
Oidc.v
Auth.v
NotionHttp.v
ModelRouter.v
Workers.v
Providers.v
