(* ===== verification/Prelude.v ===== *)
(** * A verification library for Memdot

    Memdot is a personal memory and learning service: sources are uploaded,
    parsed and indexed; conversations, memories, documents and courses are kept
    in a PostgreSQL ledger; retrieval packs evidence into a context for a model;
    learner events drive an evidence projection and a review schedule; external
    clients reach all this through MCP.  The Python program lives in
    packages/domain-python (pure domain code, [memdot_domain]), services/core
    ([memdot_core]: the services over the ledger), packages/provider-adapters,
    services/workers and services/model-router.
    This library translates its core logic into Rocq functions and proves what
    makes them correct.

    ** How the program is modelled

    - A call returns or raises: [Prelude.res].  The exceptions are [Prelude.exn].
    - [PyStr], [Json], [Digest], [Uuid], [Float64] are what the code uses of the
      Python standard library: strings (code points below 256), [json.dumps] and
      dictionaries as association lists, SHA-256, SHA-1 and HMAC on bytes,
      [uuid.UUID], IEEE binary64.  They are executable, so witnesses compute.
    - [Ledger] has a record for every table (services/core db/models) with its
      unique constraints; [Store] has the session: a service function is a state
      and error computation [Store.M] over a [World] (the rows, and a counter of
      the clock readings and fresh identifiers drawn, which the class [Env]
      supplies).  A request that raises is rolled back, so a raise carries no
      state.  [Store.keeps] and its hint database [frame] say which tables a
      computation leaves alone; the tactics [stepM], [draw], [framed] take a run
      apart.
    - Enumerations of strings are instances of the class [Enums.StrEnum].

    ** The parts

    Learning core.  [Fsrs] (memdot_domain/fsrs.py): the review scheduler in
    binary64; every review keeps a card well formed, better ratings schedule
    later, and an uncapped streak overflows the calendar.  [Learning]
    (learning.py): eligibility of events and the prerequisite cycle check, whose
    fuel is one more than the number of nodes and proved enough.  [EvidenceTwin]
    (evidence_twin.py): the replay of events does not depend on their order or
    repetition, and mastery is what the eligible grades say.

    Retrieval core.  [Retrieval] (retrieval.py): reciprocal-rank fusion, exact
    and monotone.  [ContextCompiler] (context_compiler.py): packing under the
    budgets, digests that bind the evidence.  [McpIds] (mcp.py): public
    identifiers and their round trip.

    Storage.  [ObjectKeys] (object_keys.py and the in-memory stores): keys bound
    to accounts.  [Storage] (ports/object_storage.py, storage/s3.py): the port
    as the class [ObjectStoragePort] with [ObjectStorageLaws]; the memory store
    and the S3 adapter (over a parameter for boto3) are instances, and the
    services are stated against the class.

    Jobs.  [Outbox] (jobs/service.py and its SQL functions): claims and
    acknowledgements as functions on the rows and interleavings of workers as
    the relation [Outbox.steps]; leases exclude each other and publication is
    final.  [Jobs] (jobs/service.py): idempotent enqueueing, numbered attempts.
    [AuthSnapshot] (jobs/auth_snapshot.py): signed snapshots of authority.
    [Parsers] (parsers/, ports/parser.py) and [Ingestion]
    (ingestion/orchestrator.py, normalize.py and the SQL pointer function): a run
    from the job's attempt to the active-parse pointer, which moves only to a
    good run; two defects of the run are proved.

    Requests and deletion.  [RequestContext] (request_context.py,
    auth/sessions.py, db/tenant.py, tenant_seal.py): sessions and tenant seals.
    [Deletion] (deletion/service.py): tombstones that take effect at once and
    survive a restore.

    Workers.  [Processor] (jobs/processor.py): the dispatch of claimed events.
    Ingestion runs only under standing signed authority; the status of the job
    is not looked at; a deletion event moves its workflow one step only, and
    raises unless its account has a system actor, which no code makes.  The
    dispatch is run as the owner of the ledger: only the tenant context a
    deletion begins is modelled, not the policies over its queries.

    Services.  [LearningService] (learning/service.py): the prerequisite graph
    stays acyclic, an attempt is graded once by its sealed answer, and no
    sequence of calls brings a concept to demonstrated.  [Sources]
    (sources/service.py): uploads, whose completion is idempotent and hands a
    dispatchable event to the workers; revisions, cancel, retry, reprocess.
    [PyFloat] and [PyTime] are the texts of floats and datetimes they store.

    [Memory] (memory/service.py): proposals are decided once; no call brings a
    memory into being, because the pointer is moved before the session flushes.
    [Document] (memdot_domain/document.py): validation, the Markdown round trip
    and an HTML export without raw HTML.
    [Pointers] is the SQL function both move a pointer with, and [Documents]
    (documents/service.py) meets the same fate: no document is ever written.

    Conversations.  [ConversationCrypto] (conversations/crypto.py): encryption
    of turn payloads over a parameter for AES-GCM ([Cryptography], with the laws
    [AeadLaws]); the plaintext is JSON, which [JsonParse] parses back.
    [Conversations] (conversations/service.py): appends are idempotent under a
    client key and read back, a deleted conversation disappears, and a
    conversation takes no third turn.

    Retrieval over the ledger.  [Lanes] (retrieval/): the temporal, graph and
    hashed bag-of-words lanes, every candidate of which stands for a row of the
    account in an eligible space ([Lanes.backed]), and the filters.
    [ContextService] (context/service.py): receipts are stored as answered.
    [McpService] (mcp/service.py): what external clients search, fetch, propose
    and record; nothing private is listed or fetched, interactions are no
    evidence, and a retry is answered only when it repeats its instant.

    External access.  [ServiceAuth] (auth/service_auth.py): signed envelopes,
    which parse back to what was sealed and are accepted once while their nonce
    is kept; [Base64] is the decoder of Python's library.  [TenantContext]
    (db/tenant.py and its SQL functions): a sealed context opens exactly the rows
    of its account.  [ExternalAccess] (auth/bearer.py, auth/grant_resolve.py,
    external_context.py): an external request acts only under a standing grant;
    decoding a JWT is the class [Jwt].

    Policies and the MCP routes.  [RowPolicies]: row-level security, and the run
    of a service under it ([RowPolicies.under_policy]).  [Errors] (errors.py):
    problem documents.  [Policy] (policy.py): the rate limiter grants at most
    twice its limit in a window and recovers, the breaker counts requests.
    [McpRoutes] (mcp/routes.py) composes the process, the external context and
    the services under the policies: what search lists is open to the client,
    what fetch returns shows the row it was asked for ([McpService.shows]), any
    memory of the account is fetched whatever its space, and no proposal is ever
    filed.  [McpFlight] interleaves the handlers over one breaker, a request
    being the three steps of its handler; a request that an exception leaves
    keeps its slot for good.
    [Pagination] (pagination.py): a cursor opens only for the account and the
    query it was made for, and gives back its place.

    First-party requests.  [Isolation]: the consequences of row-level security;
    what runs in a tenant scope leaves the rows of other accounts alone in every
    table and does not depend on them ([Isolation.others_kept],
    [Isolation.own_alike]), the access of a run is what the SQL functions
    answer, and without a scope ([Isolation.unsealed]) nothing is seen.  [Idempotency] (idempotency.py):
    keyed requests.  [WebRoutes] (deps.py and the checks of every router): the
    session of a request, its rate limit and recent authentication; a handler is
    [WebRoutes.endpoint] over the process and the ledger.  [SourceRoutes],
    [DocumentRoutes] and [AccountRoutes] are the handlers of sources/, of
    documents/, memory/, conversations/ and context/, and of learning/,
    deletion/ and export/.  Services that query before their tenant scope are
    run unsealed, as they are: their routes refuse.  [Export]
    (export/service.py): a requested export stays pending.  [Notion] (notion/):
    the adapter, the bindings and their synchronisation; a page that changed is
    never brought up to date.

    Start-up and sign-in.  [Config] (memdot_domain/config_guards.py, settings.py):
    what a deployment refuses of its settings.  [Oidc] (auth/oidc.py): the
    OpenID client over a class for the issuer ([Oidc.Provider]).  [Auth] (auth/
    routes.py, sessions.py, activation.py, bootstrap.py and their SQL functions):
    the login, attestation, logout and rotation of browsers as steps of the
    ledger ([Auth.auth_step]); a challenge answers one login, and a cookie that
    was logged out or rotated opens nothing afterwards, in any order of steps.

    Around the core.  [NotionHttp] (provider-adapters/notion_http.py,
    notion_adapter.py): the provider over a class for the transport, with urllib
    over a parameter and the emulator as instances; following the cursors lists
    every page once, and the emulator lists what the fixture lists.
    [ModelRouter] (services/model-router/): what the completion handler answers
    and refuses.  [Workers] (services/workers/ and the text parser of the
    adapters): the pipeline accepts every text with a line that is not blank,
    and the upsert of projections.  [Providers] (openbao_transit.py,
    local_lexical_retrieval.py, tex_stub.py): the transit client decrypts what it
    encrypted, over a parameter for the cipher's server, and the substring
    search is exact.

    ** Hypotheses

    A digest or UUIDv5 that must distinguish two texts is assumed not to collide
    on them, as a hypothesis of the theorem at hand; the witnesses instantiate
    it.  Row lists are assumed to satisfy the primary keys where needed
    ([Outbox.keyed], [Store.unique_rows]).

    ** Not modelled

    The operations routes and the caches of key sets, the validation of
    request bodies (Pydantic, FastAPI: a handler is given a body that passed),
    ORM infrastructure and migrations, CHECK constraints and triggers of the
    database, foreign keys other than those a pointer function meets, the
    network behind the provider adapters (urlopen, boto3, the issuer), the
    cipher itself, the canary runner, start-up and telemetry, the compose
    scripts, and code points of 256 and above. *)

From Stdlib Require Import ZArith Lia.
From stdpp Require Export base tactics list strings sorting gmap sets.

(** ** Python outcomes

    A call returns a value or raises.  The exceptions the modelled code raises
    or lets through are the constructors of [exn]; the message of a
    [ValueError] or a [RuntimeError] is kept because callers compare it. *)

Inductive exn : Type :=
| ValueError (msg : string)
| KeyError
| TypeError
| RuntimeError (msg : string)
| OverflowError
| ZeroDivisionError
| NoResultFound
| MultipleResultsFound
| IntegrityError (constraint : string)
| DatabaseError (msg : string)
| ResourceLimitExceeded (code : string)
| Refused (name code : string).

#[export] Instance exn_eq_dec : EqDecision exn.
Proof. solve_decision. Defined.

Inductive res (A : Type) : Type :=
| Ok (a : A)
| Raise (e : exn).
Arguments Ok {_} _.
Arguments Raise {_} _.

#[export] Instance res_eq_dec `{EqDecision A} : EqDecision (res A).
Proof. solve_decision. Defined.

#[export] Instance res_ret : MRet res := fun A a => Ok a.
#[export] Instance res_bind : MBind res :=
  fun A B k m => match m with Ok a => k a | Raise e => Raise e end.
#[export] Instance res_fmap : FMap res :=
  fun A B f m => match m with Ok a => Ok (f a) | Raise e => Raise e end.

(** [raise_if c e] is Python's [if c: raise e]. *)
Definition raise_if (c : bool) (e : exn) : res unit :=
  if c then Raise e else Ok tt.

Definition of_option {A} (e : exn) (o : option A) : res A :=
  match o with Some a => Ok a | None => Raise e end.

Definition is_ok {A} (r : res A) : bool :=
  match r with Ok _ => true | Raise _ => false end.

Lemma bind_step {A B} (r : res A) (k : A -> res B) a : r = Ok a -> (r ≫= k) = k a.
Proof. by intros ->. Qed.

Lemma bind_Ok {A B} (m : res A) (k : A -> res B) b :
  m ≫= k = Ok b <-> exists a, m = Ok a /\ k a = Ok b.
Proof.
  destruct m as [a|e]; simpl; split.
  - eauto.
  - intros (a' & [= ->] & Hk). exact Hk.
  - discriminate.
  - intros (a' & [=] & _).
Qed.

Lemma bind_Raise {A B} (m : res A) (k : A -> res B) e :
  m ≫= k = Raise e <-> m = Raise e \/ exists a, m = Ok a /\ k a = Raise e.
Proof. destruct m as [a|e']; simpl; naive_solver. Qed.

Lemma raise_if_Ok c e u : raise_if c e = Ok u <-> c = false.
Proof. destruct c, u; simpl; naive_solver. Qed.

Lemma raise_if_Raise c e e' : raise_if c e = Raise e' <-> c = true /\ e = e'.
Proof. destruct c; simpl; naive_solver. Qed.

Lemma of_option_Ok {A} e (o : option A) a : of_option e o = Ok a <-> o = Some a.
Proof. destruct o; simpl; naive_solver. Qed.

Create HintDb py discriminated.
Create Rewrite HintDb py.
#[export] Hint Rewrite @bind_Ok @raise_if_Ok @raise_if_Raise @of_option_Ok : py.

(** ** Tactics of the development *)

(** Split the boolean tests of a hypothesis or goal. *)
Ltac split_bool :=
  repeat match goal with
  | H : andb _ _ = true |- _ => apply andb_prop in H; destruct H
  | H : orb _ _ = false |- _ => apply orb_false_elim in H; destruct H
  | H : negb _ = true |- _ => apply negb_true_iff in H
  | H : negb _ = false |- _ => apply negb_false_iff in H
  | H : bool_decide _ = true |- _ => apply bool_decide_eq_true in H
  | H : bool_decide _ = false |- _ => apply bool_decide_eq_false in H
  | H : Is_true _ |- _ => apply Is_true_true_1 in H
  end.

(** Case on the matches of a hypothesis that holds a computation, closing the
    branches that disagree with its result. *)
Ltac run H :=
  repeat (let E := fresh "E" in
          match type of H with
          | context [match ?x with _ => _ end] => destruct x eqn:E; simpl in H
          end; try discriminate H; simplify_eq/=).

(** Case on the matches of the goal. *)
Ltac run_goal :=
  repeat (let E := fresh "E" in
          match goal with
          | |- context [match ?x with _ => _ end] => destruct x eqn:E; simpl
          end; simplify_eq/=).

(** ** Lists *)

Section lists.
  Context {A : Type}.
  Implicit Types (l : list A) (P : A -> bool).

  (** [first P l]: the first element that satisfies [P] (Python's
      [next(x for x in l if P(x))]). *)
Fixpoint first P l : option A :=
    match l with
    | [] => None
    | x :: l => if P x then Some x else first P l
    end.

Definition keep P l : list A := List.filter P l.

Lemma NoDup_map_eq {B} (f : A -> B) l x y : NoDup (map f l) -> x ∈ l -> y ∈ l -> f x = f y -> x = y.
  Proof.
    intros Hnd (i & Hi)%list_elem_of_lookup_1 (j & Hj)%list_elem_of_lookup_1 Hf.
    assert (i = j) as <-; [|congruence]. rewrite NoDup_alt in Hnd. change (map f l) with (f <$> l) in Hnd.
    apply (Hnd i j (f x)); rewrite list_lookup_fmap; [by rewrite Hi|by rewrite Hj, Hf].
  Qed.

Lemma elem_of_keep P l x : x ∈ keep P l <-> x ∈ l /\ P x = true.
  Proof.
    unfold keep. rewrite !list_elem_of_In. apply List.filter_In.
  Qed.

Lemma keep_app P l k : keep P (l ++ k) = keep P l ++ keep P k.
  Proof. apply List.filter_app. Qed.

Lemma keep_sublist P l : sublist (keep P l) l.
  Proof.
    induction l as [|x l IH]; simpl; [constructor|].
    destruct (P x); by constructor.
  Qed.

Lemma keep_map_sublist {B} (f : A -> B) P l : sublist (map f (keep P l)) (map f l).
  Proof.
    induction l as [|x l IH]; simpl; [constructor|].
    destruct (P x); simpl; by constructor.
  Qed.

Lemma keep_all P l : (forall x, x ∈ l -> P x = true) -> keep P l = l.
  Proof.
    induction l as [|x l IH]; simpl; intros H; [done|].
    rewrite (H x) by set_solver. f_equal. apply IH. set_solver.
  Qed.

Lemma keep_none P l : (forall x, x ∈ l -> P x = false) -> keep P l = [].
  Proof.
    induction l as [|x l IH]; simpl; intros H; [done|].
    rewrite (H x) by set_solver. apply IH. set_solver.
  Qed.

Lemma keep_map P (g : A -> A) l : (forall x, P (g x) = P x) -> keep P (map g l) = map g (keep P l).
Proof.
  intros Hg. unfold keep. induction l as [|x l IH]; simpl; [done|]. rewrite Hg.
  destruct (P x); simpl; by rewrite IH.
Qed.

Lemma first_Some P l x : first P l = Some x -> x ∈ l /\ P x = true.
  Proof.
    induction l as [|y l IH]; simpl; [done|].
    destruct (P y) eqn:E; [intros [= ->]; set_solver|].
    intros H%IH. set_solver.
  Qed.

Lemma first_None P l : first P l = None <-> forall x, x ∈ l -> P x = false.
  Proof.
    induction l as [|y l IH]; simpl; [set_solver|].
    destruct (P y) eqn:E.
    - split; [done|]. intros H. rewrite (H y) in E by set_solver. done.
    - rewrite IH. set_solver.
  Qed.

  (** Python's [sorted]: stable insertion sort on a boolean order. *)
Fixpoint insert_by (leb : A -> A -> bool) (x : A) l : list A :=
    match l with
    | [] => [x]
    | y :: l' => if leb x y then x :: l else y :: insert_by leb x l'
    end.

Definition sort_by (leb : A -> A -> bool) l : list A :=
    foldr (insert_by leb) [] l.

Lemma insert_by_perm leb x l : insert_by leb x l ≡ₚ x :: l.
  Proof.
    induction l as [|y l IH]; simpl; [done|].
    destruct (leb x y); [done|]. rewrite IH. constructor.
  Qed.

  (** Inserting keeps the elements before and after in place. *)
Lemma insert_by_split leb x l : exists l1 l2, l = l1 ++ l2 /\ insert_by leb x l = l1 ++ x :: l2.
  Proof.
    induction l as [|y l (l1 & l2 & -> & IH)]; simpl; [by exists [], []|].
    destruct (leb x y); [by exists [], (y :: l1 ++ l2)|].
    exists (y :: l1), l2. by rewrite IH.
  Qed.

Lemma sort_by_perm leb l : sort_by leb l ≡ₚ l.
  Proof.
    induction l as [|x l IH]; simpl; [done|]. by rewrite insert_by_perm, IH.
  Qed.

Lemma elem_of_sort_by leb l x : x ∈ sort_by leb l <-> x ∈ l.
  Proof. by rewrite sort_by_perm. Qed.

  Section order.
    Context (leb : A -> A -> bool).
    Context (leb_total : forall x y, leb x y = true \/ leb y x = true).
    Context (leb_trans : forall x y z, leb x y = true -> leb y z = true -> leb x z = true).
Let R x y : Prop := leb x y = true.

Lemma insert_by_sorted x l :
      StronglySorted R l -> StronglySorted R (insert_by leb x l).
    Proof.
      induction 1 as [|y l Hl IH Hy]; simpl; [repeat constructor|].
      destruct (leb x y) eqn:E.
      - constructor; [by constructor|]. constructor; [done|].
        eapply Forall_impl; [exact Hy|]. intros z Hz. by eapply leb_trans.
      - constructor; [done|]. rewrite Forall_forall in Hy |- *.
        intros z. rewrite insert_by_perm, elem_of_cons. intros [->|Hz]; [|eauto].
        destruct (leb_total x y) as [H|H]; [congruence|done].
    Qed.

Lemma sort_by_sorted l : StronglySorted R (sort_by leb l).
    Proof. induction l; simpl; [constructor|]. by apply insert_by_sorted. Qed.

Lemma sort_by_id l : StronglySorted R l -> sort_by leb l = l.
    Proof.
      induction 1 as [|x l Hl IH Hx]; simpl; [done|]. unfold sort_by in IH |- *. simpl. rewrite IH.
      destruct l as [|y l]; simpl; [done|]. inversion Hx as [|? ? Hxy]; subst.
      by rewrite (Hxy : leb x y = true).
    Qed.

    (** A list whose elements the order separates has one sorted permutation,
        so sorting does not see the order of its input. *)
Lemma sort_by_unique l k :
      (forall x y, x ∈ l -> y ∈ l -> leb x y = true -> leb y x = true -> x = y) ->
      l ≡ₚ k -> sort_by leb l = sort_by leb k.
    Proof.
      intros Hanti Hp.
      assert (Hs : StronglySorted R (sort_by leb l)) by apply sort_by_sorted.
      assert (Hs' : StronglySorted R (sort_by leb k)) by apply sort_by_sorted.
      assert (Hp' : sort_by leb l ≡ₚ sort_by leb k) by by rewrite !sort_by_perm.
      assert (Ha : forall x y, x ∈ sort_by leb l -> y ∈ sort_by leb l ->
        leb x y = true -> leb y x = true -> x = y).
      { intros x y. rewrite !elem_of_sort_by. apply Hanti. }
      revert Hs Hs' Hp' Ha. generalize (sort_by leb l), (sort_by leb k).
      clear. intros l k Hl. revert k.
      induction Hl as [|x l Hl IH Hx]; intros k Hk Hp Ha.
      - symmetry. by apply Permutation_nil.
      - destruct Hk as [|y k Hk Hy].
        { symmetry in Hp. by apply Permutation_nil_cons in Hp. }
        assert (x = y) as ->.
        { assert (x ∈ y :: k) as Hxk by (rewrite <- Hp; set_solver).
          assert (y ∈ x :: l) as Hyl by (rewrite Hp; set_solver).
          apply elem_of_cons in Hxk as [?|Hxk]; [done|].
          apply elem_of_cons in Hyl as [?|Hyl]; [done|].
          rewrite Forall_forall in Hx, Hy.
          apply Ha; [set_solver..| |]; [by apply Hx|by apply Hy]. }
        f_equal. apply IH; [done| |].
        + by apply Permutation_cons_inv in Hp.
        + intros; apply Ha; set_solver.
    Qed.
  End order.
End lists.

(** *** Keeping twice, and keeping by a key *)

Lemma keep_keep {A} (p q : A -> bool) l : (forall x, q x = true -> p x = true) -> keep q (keep p l) = keep q l.
Proof.
  intros Hpq. unfold keep. induction l as [|x l IH]; cbn [List.filter]; [done|].
  destruct (p x) eqn:Hp; cbn [List.filter]; [by destruct (q x); rewrite IH|].
  destruct (q x) eqn:Hq; [|done]. by rewrite (Hpq x Hq) in Hp.
Qed.

Lemma keep_ext {A} (p q : A -> bool) l : (forall x, x ∈ l -> p x = q x) -> keep p l = keep q l.
Proof.
  unfold keep. induction l as [|x l IH]; intros Hpq; [done|]. cbn [List.filter]. rewrite (Hpq x (list_elem_of_here _ _)), IH; [done|].
  intros y Hy. apply Hpq. by apply list_elem_of_further.
Qed.

Lemma keep_swap {A} (p q : A -> bool) l : keep p (keep q l) = keep q (keep p l).
Proof.
  unfold keep. induction l as [|x l IH]; [done|]. cbn [List.filter].
  destruct (p x) eqn:Hp, (q x) eqn:Hq; cbn [List.filter]; by rewrite ?Hp, ?Hq, IH.
Qed.

(** The row a key names is all a query by the key finds. *)
Lemma keep_unique {A B} (key : A -> B) (p : A -> bool) l x : NoDup (map key l) -> x ∈ l -> p x = true ->
  (forall y, p y = true -> key y = key x) -> keep p l = [x].
Proof.
  intros Hn Hin Hx Hp. unfold keep. induction l as [|y l IH]; [by apply elem_of_nil in Hin|]. cbn [map List.filter] in *.
  apply NoDup_cons in Hn as [Hy Hn].
  assert (Hnone : forall m, key x ∉ map key m -> List.filter p m = []).
  { intros m. induction m as [|z m IHm]; intros Hz; [done|]. cbn [List.filter map] in *. destruct (p z) eqn:E; [|apply IHm; set_solver].
    exfalso. apply Hz. rewrite (Hp z E). set_solver. }
  apply elem_of_cons in Hin as [->|Hin].
  - by rewrite Hx, Hnone.
  - destruct (p y) eqn:E; [|by apply IH]. exfalso. apply Hy. rewrite (Hp y E). apply list_elem_of_fmap. by exists x.
Qed.

Lemma keep_head {A} (p : A -> bool) l x l' : keep p l = x :: l' -> x ∈ l /\ p x = true.
Proof. intros Hk. rewrite <- elem_of_keep, Hk. set_solver. Qed.

#[export] Hint Rewrite @elem_of_keep @elem_of_sort_by : py.

(** ** Booleans and decisions *)

Lemma bool_decide_spec (P : Prop) `{!Decision P} : reflect P (bool_decide P).
Proof. apply bool_decide_reflect. Qed.

(** [opt_eqb o o']: Python's [==] on values that may be [None]. *)
Definition opt_eqb {A} `{EqDecision A} (o o' : option A) : bool := bool_decide (o = o').
