(* ===== verification/PyStr.v ===== *)
(** * Python strings

    A Python [str] is modelled by [string], one [ascii] per code point, so the
    model covers the strings whose code points are below 256 (Latin-1).  On
    that range the functions below are what Python computes: [lower] maps the
    ASCII capitals and the capitals of the Latin-1 block, and white space is
    the set [str.isspace] recognises. *)

From S2P Require Import Prelude.
From Stdlib Require Import Ascii String ZArith Lia DecimalString DecimalZ.
From stdpp Require Import list strings.
#[global] Arguments String.append !s1 s2 / : simpl nomatch.

Definition code (c : ascii) : N := N_of_ascii c.

(** [str.lower] on one code point. *)
Definition lower_char (c : ascii) : ascii :=
  let n := code c in
  if ((65 <=? n)%N && (n <=? 90)%N) ||
     ((192 <=? n)%N && (n <=? 222)%N && negb (n =? 215)%N)
  then ascii_of_N (n + 32) else c.

(** [str.isspace] on one code point. *)
Definition is_space (c : ascii) : bool :=
  let n := code c in
  ((9 <=? n)%N && (n <=? 13)%N) || ((28 <=? n)%N && (n <=? 32)%N) ||
  (n =? 133)%N || (n =? 160)%N.

Fixpoint smap (f : ascii -> ascii) (s : string) : string :=
  match s with "" => "" | String c s => String (f c) (smap f s) end.

Definition lower (s : string) : string := smap lower_char s.

Fixpoint lstrip_by (p : ascii -> bool) (s : string) : string :=
  match s with
  | "" => ""
  | String c s' => if p c then lstrip_by p s' else s
  end.

Fixpoint rstrip_by (p : ascii -> bool) (s : string) : string :=
  match s with
  | "" => ""
  | String c s' =>
      match rstrip_by p s' with
      | "" => if p c then "" else String c ""
      | r => String c r
      end
  end.

(** [s.strip()] and [s.rstrip("/")]. *)
Definition strip (s : string) : string := rstrip_by is_space (lstrip_by is_space s).
Definition rstrip_slash (s : string) : string := rstrip_by (Ascii.eqb "/"%char) s.

(** The truth value of a string. *)
Definition truthy (s : string) : bool := negb (String.eqb s "").

(** [s.startswith(p)], [s.endswith(p)] and [p in s]. *)
Fixpoint startswith (p s : string) : bool :=
  match p, s with
  | "", _ => true
  | String a p', String c s' => Ascii.eqb a c && startswith p' s'
  | _, _ => false
  end.

Fixpoint contains (p s : string) : bool :=
  startswith p s ||
  match s with "" => false | String _ s' => contains p s' end.

Fixpoint endswith (p s : string) : bool :=
  String.eqb p s ||
  match s with "" => false | String _ s' => endswith p s' end.

(** [c in s] for a one-character string. *)
Fixpoint has_char (c : ascii) (s : string) : bool :=
  match s with "" => false | String a s' => Ascii.eqb c a || has_char c s' end.

(** [s.split(c)] for a one-character separator. *)
Fixpoint split (c : ascii) (s : string) : list string :=
  match s with
  | "" => [""]
  | String a s' =>
      if Ascii.eqb c a then "" :: split c s'
      else match split c s' with
           | p :: ps => String a p :: ps
           | [] => [String a ""]
           end
  end.

(** [sep.join(parts)]. *)
Fixpoint join (sep : string) (parts : list string) : string :=
  match parts with
  | [] => ""
  | [p] => p
  | p :: ps => p +:+ sep +:+ join sep ps
  end.

(** [s[:n]] and [s[n:]] for a non-negative [n]. *)
Fixpoint take_str (n : nat) (s : string) : string :=
  match n, s with
  | S n, String c s' => String c (take_str n s')
  | _, _ => ""
  end.

Fixpoint drop_str (n : nat) (s : string) : string :=
  match n, s with
  | S n, String _ s' => drop_str n s'
  | _, _ => s
  end.

(** [s.replace(a, b)] for one-character strings. *)
Definition replace_char (a b : ascii) (s : string) : string :=
  smap (fun c => if Ascii.eqb a c then b else c) s.

(** [str(n)] for an integer. *)
Definition str_of_Z (z : Z) : string := NilZero.string_of_int (Z.to_int z).

(** Python's order on strings: lexicographic on code points. *)
Definition str_leb (s t : string) : bool := String.leb s t.

(** ** Lemmas *)

Lemma append_nil_r s : s +:+ "" = s.
Proof. induction s; simpl; congruence. Qed.

Lemma append_assoc s t u : (s +:+ t) +:+ u = s +:+ (t +:+ u).
Proof. induction s; simpl; congruence. Qed.

Lemma length_append s t : String.length (s +:+ t) = (String.length s + String.length t)%nat.
Proof. induction s; simpl; congruence. Qed.

Lemma append_inj_l p s t : p +:+ s = p +:+ t -> s = t.
Proof. induction p; simpl; [done|]. intros [= H]; auto. Qed.

Lemma append_inj_len s s' t t' :
  String.length s = String.length s' -> s +:+ t = s' +:+ t' -> s = s' /\ t = t'.
Proof.
  revert s'. induction s as [|c s IH]; intros [|c' s']; simpl; try done.
  intros [= Hl] [= -> He]. destruct (IH s' Hl He) as [-> ->]. done.
Qed.

Lemma truthy_true s : truthy s = true <-> s <> "".
Proof. unfold truthy. rewrite negb_true_iff, String.eqb_neq. done. Qed.

Lemma truthy_false s : truthy s = false <-> s = "".
Proof. unfold truthy. rewrite negb_false_iff, String.eqb_eq. done. Qed.

Lemma startswith_spec p s : startswith p s = true <-> exists t, s = p +:+ t.
Proof.
  revert s. induction p as [|a p IH]; intros s; simpl.
  - split; [eauto|done].
  - destruct s as [|c s].
    + split; [done|]. intros (t & [=]).
    + rewrite andb_true_iff, Ascii.eqb_eq, IH. split.
      * intros (-> & t & ->). eauto.
      * intros (t & [= -> ->]). eauto.
Qed.

Lemma contains_spec p s : contains p s = true <-> exists a b, s = a +:+ p +:+ b.
Proof.
  induction s as [|c s IH]; simpl.
  - rewrite orb_false_r, startswith_spec. split.
    + intros (t & Ht). exists "", t. done.
    + intros (a & b & H). exists b. destruct a; [done|discriminate].
  - rewrite orb_true_iff, startswith_spec, IH. split.
    + intros [(t & ->) | (a & b & ->)]; [by exists "", t|by exists (String c a), b].
    + intros ([|c' a] & b & H); simpl in H; [left; eauto|].
      right. injection H as -> ->. eauto.
Qed.

Lemma has_char_app c s t : has_char c (s +:+ t) = has_char c s || has_char c t.
Proof. induction s as [|a s IH]; simpl; [done|]. by rewrite IH, orb_assoc. Qed.

Lemma contains_app_l p s t : contains p s = true -> contains p (t +:+ s) = true.
Proof.
  rewrite !contains_spec. intros (a & b & ->). exists (t +:+ a), b.
  by rewrite append_assoc.
Qed.

Lemma split_no_sep c s : has_char c s = false -> split c s = [s].
Proof.
  induction s as [|a s IH]; simpl; [done|].
  intros [Ha Hs]%orb_false_elim. rewrite Ha. by rewrite (IH Hs).
Qed.

Lemma split_app c s t :
  has_char c s = false -> split c (s +:+ String c t) = s :: split c t.
Proof.
  induction s as [|a s IH]; simpl.
  - intros _. by rewrite Ascii.eqb_refl.
  - intros [Ha Hs]%orb_false_elim. rewrite Ha. by rewrite (IH Hs).
Qed.

Lemma split_not_nil c s : split c s <> [].
Proof. destruct s as [|a s]; simpl; [done|]. destruct (Ascii.eqb c a); [done|]. by destruct (split c s). Qed.

(** Splitting undoes joining when no part holds the separator. *)
Lemma split_join c parts :
  parts <> [] -> Forall (fun p => has_char c p = false) parts ->
  split c (join (String c "") parts) = parts.
Proof.
  intros Hne H. induction H as [|p ps Hp Hps IH]; [done|].
  destruct ps as [|q ps]; [by apply split_no_sep|].
  change (join (String c "") (p :: q :: ps)) with (p +:+ String c (join (String c "") (q :: ps))).
  rewrite split_app by done. by rewrite IH.
Qed.

Lemma length_take_str n s : (String.length (take_str n s) <= n)%nat.
Proof. revert s. induction n; intros [|c s]; simpl; [lia..|]. specialize (IHn s). lia. Qed.

Lemma take_drop_str n s : take_str n s +:+ drop_str n s = s.
Proof. revert s. induction n; intros [|c s]; simpl; [done..|]. by rewrite IHn. Qed.

Lemma take_str_all n s : (String.length s <= n)%nat -> take_str n s = s.
Proof. revert s. induction n; intros [|c s]; simpl; intros; try done; [lia|]. f_equal. apply IHn. lia. Qed.

Lemma take_str_not_empty n s : (0 < n)%nat -> s <> "" -> take_str n s <> "".
Proof. destruct n; [lia|]. by destruct s. Qed.

Lemma to_int_nonnil z : Z.to_int z <> Decimal.Pos Decimal.Nil /\ Z.to_int z <> Decimal.Neg Decimal.Nil.
Proof.
  assert (Hp : forall p, Pos.to_uint p <> Decimal.Nil)
    by apply DecimalPos.Unsigned.to_uint_nonnil.
  destruct z as [|p|p]; split; simpl; try done; intros [= H]; by apply (Hp p).
Qed.

(** Printing an integer in decimal loses nothing. *)
Lemma str_of_Z_inj z z' : str_of_Z z = str_of_Z z' -> z = z'.
Proof.
  unfold str_of_Z. intros H%(f_equal NilZero.int_of_string).
  rewrite !NilZero.isi in H by apply to_int_nonnil.
  injection H as H. apply (f_equal Z.of_int) in H.
  by rewrite !DecimalZ.of_to in H.
Qed.

Lemma str_leb_total s t : str_leb s t = true \/ str_leb t s = true.
Proof. destruct (String.leb_total s t); auto. Qed.

Lemma str_leb_trans s t u : str_leb s t = true -> str_leb t u = true -> str_leb s u = true.
Proof.
  unfold str_leb. intros H1 H2.
  assert (String.le s u) as H.
  { transitivity t; [apply Is_true_true|apply Is_true_true]; done. }
  by apply Is_true_true in H.
Qed.

Lemma str_leb_antisym s t : str_leb s t = true -> str_leb t s = true -> s = t.
Proof. apply String.leb_antisym. Qed.

(** ** [str.splitlines] *)

(** The line boundaries of [str.splitlines] among the Latin-1 code points. *)
Definition is_line_break (c : ascii) : bool :=
  let n := code c in
  ((10 <=? n)%N && (n <=? 13)%N) || ((28 <=? n)%N && (n <=? 30)%N) || (n =? 133)%N.

Fixpoint srev_onto (s acc : string) : string :=
  match s with "" => acc | String c s => srev_onto s (String c acc) end.
Definition srev (s : string) : string := srev_onto s "".

(** [cur] is the line read so far, reversed; [after_cr] is true just after a
    carriage return, whose line feed belongs to the same break. *)
Fixpoint splitlines_from (cur : string) (after_cr : bool) (s : string) : list string :=
  match s with
  | "" => if truthy cur then [srev cur] else []
  | String c s =>
      if after_cr && (code c =? 10)%N then splitlines_from "" false s
      else if is_line_break c then srev cur :: splitlines_from "" (code c =? 13)%N s
      else splitlines_from (String c cur) false s
  end.

Definition splitlines (s : string) : list string := splitlines_from "" false s.

(** ** [int(s)] *)

(** Single underscores between digits are dropped; [None] when one is not
    between two characters that are no underscores. *)
Fixpoint drop_underscores (prev : bool) (s : string) : option string :=
  match s with
  | "" => Some ""
  | String c s' =>
      if Ascii.eqb c "_" then
        if prev && match s' with String d _ => negb (Ascii.eqb d "_") | "" => false end
        then drop_underscores false s' else None
      else match drop_underscores true s' with Some r => Some (String c r) | None => None end
  end.

Definition py_int (s : string) : option Z :=
  let s := strip s in
  let body s := match drop_underscores false s with Some d => NilZero.uint_of_string d | None => None end in
  match s with
  | String "-" s' => match body s' with Some u => Some (- Z.of_uint u)%Z | None => None end
  | String "+" s' => match body s' with Some u => Some (Z.of_uint u) | None => None end
  | _ => match body s with Some u => Some (Z.of_uint u) | None => None end
  end.

Example py_int_ex : (py_int " -1_000 ", py_int "1__0", py_int "+7", py_int "") =
  (Some (-1000)%Z, None, Some 7%Z, None).
Proof. reflexivity. Qed.
