(* ===== verification/Digest.v ===== *)
(** * The digests of the standard library the code calls

    [hashlib.sha256], [hashlib.sha1] (through [uuid.uuid5]) and [hmac.new(...,
    hashlib.sha256)], executable on byte lists (a byte is a [Z] in [0, 256)),
    and the lower-case hexadecimal form [hexdigest] returns.  A word is a [Z]
    reduced modulo 2^32 after every addition. *)

From S2P Require Import Prelude PyStr.
From Stdlib Require Import Ascii ZArith Lia.
From stdpp Require Import list strings.
Open Scope Z_scope.

(** [s.encode("utf-8")]: one byte below 128, two from 128 to 255. *)
Definition utf8_char (c : ascii) : list Z :=
  let n := Z.of_N (code c) in
  if n <? 128 then [n] else [192 + n / 64; 128 + n mod 64].

Fixpoint utf8 (s : string) : list Z :=
  match s with "" => [] | String c s => utf8_char c ++ utf8 s end.

Definition w32 (x : Z) : Z := Z.land x 4294967295.
Definition add32 (x y : Z) : Z := w32 (x + y).
Definition rotr (n x : Z) : Z := Z.lor (Z.shiftr x n) (w32 (Z.shiftl x (32 - n))).
Definition rotl (n x : Z) : Z := rotr (32 - n) x.
Definition not32 (x : Z) : Z := Z.lxor x 4294967295.

(** Big-endian bytes. *)
Fixpoint be_bytes (n : nat) (x : Z) : list Z :=
  match n with
  | O => []
  | S n => Z.land (Z.shiftr x (8 * Z.of_nat n)) 255 :: be_bytes n x
  end.

Definition be_word (bs : list Z) : Z := foldl (fun a b => a * 256 + b) 0 bs.

(** The padding both digests share. *)
Definition pad (m : list Z) : list Z :=
  let len := Z.of_nat (length m) in
  m ++ 128 :: replicate (Z.to_nat ((55 - len) mod 64)) 0 ++ be_bytes 8 (8 * len).

Fixpoint chunks (fuel : nat) (n : nat) (l : list Z) : list (list Z) :=
  match fuel, l with
  | S fuel, _ :: _ => take n l :: chunks fuel n (drop n l)
  | _, _ => []
  end.

Definition words_of (block : list Z) : list Z := be_word <$> chunks 16 4 block.

Definition bytes_of_words (ws : list Z) : list Z := List.flat_map (be_bytes 4) ws.

Definition nthz (l : list Z) (i : nat) : Z := List.nth i l 0.

(** [ws] holds the schedule so far, the latest word first. *)
Fixpoint extend (next : list Z -> Z) (n : nat) (ws : list Z) : list Z :=
  match n with O => ws | S n => extend next n (next ws :: ws) end.

(** ** SHA-256 *)

(** The constants are the first 32 bits of the fractional parts of roots of the
    first primes: cube roots for the rounds, square roots for the state. *)
Definition is_prime (n : Z) : bool :=
  forallb (fun d => negb (n mod Z.of_nat d =? 0)) (seq 2 (Z.to_nat (Z.sqrt n) - 1)).

Definition primes (k : nat) : list Z :=
  take k (List.filter is_prime (Z.of_nat <$> seq 2 400)).

(** The integer cube root, bit by bit from the top. *)
Definition cbrt (x : Z) : Z :=
  foldl (fun r b => let c := r + 2 ^ b in if c * c * c <=? x then c else r) 0
    (rev (Z.of_nat <$> seq 0 36)).

Definition k256 : list Z :=
  Eval vm_compute in (fun p => cbrt (p * 2 ^ 96) mod 2 ^ 32) <$> primes 64.

Definition state256 : Type := Z * Z * Z * Z * Z * Z * Z * Z.

Definition roots256 : list Z :=
  Eval vm_compute in (fun p => Z.sqrt (p * 2 ^ 64) mod 2 ^ 32) <$> primes 8.

Definition init256 : state256 :=
  let h i := nthz roots256 i in (h 0%nat, h 1%nat, h 2%nat, h 3%nat, h 4%nat, h 5%nat, h 6%nat, h 7%nat).

Definition next256 (ws : list Z) : Z :=
  let w2 := nthz ws 1 in let w15 := nthz ws 14 in
  let s0 := Z.lxor (Z.lxor (rotr 7 w15) (rotr 18 w15)) (Z.shiftr w15 3) in
  let s1 := Z.lxor (Z.lxor (rotr 17 w2) (rotr 19 w2)) (Z.shiftr w2 10) in
  w32 (nthz ws 15 + s0 + nthz ws 6 + s1).

Definition round256 (st : state256) (kw : Z * Z) : state256 :=
  let '(a, b, c, d, e, f, g, h) := st in
  let s1 := Z.lxor (Z.lxor (rotr 6 e) (rotr 11 e)) (rotr 25 e) in
  let ch := Z.lxor (Z.land e f) (Z.land (not32 e) g) in
  let t1 := h + s1 + ch + kw.1 + kw.2 in
  let s0 := Z.lxor (Z.lxor (rotr 2 a) (rotr 13 a)) (rotr 22 a) in
  let maj := Z.lxor (Z.lxor (Z.land a b) (Z.land a c)) (Z.land b c) in
  (w32 (t1 + s0 + maj), a, b, c, add32 d t1, e, f, g).

Definition block256 (st : state256) (block : list Z) : state256 :=
  let ws := rev (extend next256 48 (rev (words_of block))) in
  let '(a, b, c, d, e, f, g, h) := foldl round256 st (zip k256 ws) in
  let '(a', b', c', d', e', f', g', h') := st in
  (add32 a a', add32 b b', add32 c c', add32 d d',
   add32 e e', add32 f f', add32 g g', add32 h h').

Definition sha256 (m : list Z) : list Z :=
  let p := pad m in
  let '(a, b, c, d, e, f, g, h) := foldl block256 init256 (chunks (length p) 64 p) in
  bytes_of_words [a; b; c; d; e; f; g; h].

(** ** SHA-1 *)

Definition state1 : Type := Z * Z * Z * Z * Z.

Definition next1 (ws : list Z) : Z :=
  rotl 1 (Z.lxor (Z.lxor (nthz ws 2) (nthz ws 7)) (Z.lxor (nthz ws 13) (nthz ws 15))).

Definition round1 (st : state1) (iw : nat * Z) : state1 :=
  let '(a, b, c, d, e) := st in
  let '(f, k) :=
    if (iw.1 <? 20)%nat then (Z.lxor (Z.land b c) (Z.land (not32 b) d), 0x5A827999)
    else if (iw.1 <? 40)%nat then (Z.lxor (Z.lxor b c) d, 0x6ED9EBA1)
    else if (iw.1 <? 60)%nat then
      (Z.lxor (Z.lxor (Z.land b c) (Z.land b d)) (Z.land c d), 0x8F1BBCDC)
    else (Z.lxor (Z.lxor b c) d, 0xCA62C1D6) in
  (w32 (rotl 5 a + f + e + k + iw.2), a, rotl 30 b, c, d).

Definition block1 (st : state1) (block : list Z) : state1 :=
  let ws := rev (extend next1 64 (rev (words_of block))) in
  let '(a, b, c, d, e) := foldl round1 st (zip (seq 0 80) ws) in
  let '(a', b', c', d', e') := st in
  (add32 a a', add32 b b', add32 c c', add32 d d', add32 e e').

Definition sha1 (m : list Z) : list Z :=
  let p := pad m in
  let '(a, b, c, d, e) :=
    foldl block1 (0x67452301, 0xEFCDAB89, 0x98BADCFE, 0x10325476, 0xC3D2E1F0)
      (chunks (length p) 64 p) in
  bytes_of_words [a; b; c; d; e].

(** ** HMAC *)

Definition hmac_sha256 (key msg : list Z) : list Z :=
  let k0 := if (64 <? length key)%nat then sha256 key else key in
  let k := k0 ++ replicate (64 - length k0) 0 in
  sha256 ((Z.lxor 0x5c <$> k) ++ sha256 ((Z.lxor 0x36 <$> k) ++ msg)).

(** ** Hexadecimal *)

Definition hex_digit (n : Z) : ascii :=
  ascii_of_N (Z.to_N (if n <? 10 then 48 + n else 87 + n)).

Fixpoint hex (bs : list Z) : string :=
  match bs with
  | [] => ""
  | b :: bs => String (hex_digit (b / 16)) (String (hex_digit (b mod 16)) (hex bs))
  end.

Definition sha256_hex (m : list Z) : string := hex (sha256 m).
Definition hmac_hex (key msg : list Z) : string := hex (hmac_sha256 key msg).

Example sha256_abc : sha256_hex (utf8 "abc") =
  "ba7816bf8f01cfea414140de5dae2223b00361a396177a9cb410ff61f20015ad".
Proof. vm_compute. reflexivity. Qed.

Example sha256_two_blocks :
  sha256_hex (utf8 "abcdbcdecdefdefgefghfghighijhijkijkljklmklmnlmnomnopnopq") =
  "248d6a61d20638b8e5c026930c3e6039a33ce45964ff2167f6ecedd419db06c1".
Proof. vm_compute. reflexivity. Qed.

Example sha1_abc : hex (sha1 (utf8 "abc")) = "a9993e364706816aba3e25717850c26c9cd0d89d".
Proof. vm_compute. reflexivity. Qed.

Example hmac_jefe : hmac_hex (utf8 "Jefe") (utf8 "what do ya want for nothing?") =
  "5bdcc146bf60754e6a042426089575c75a003f089d2739839dec58b964ec3843".
Proof. vm_compute. reflexivity. Qed.

(** ** Shape of the digests *)

Lemma length_be_bytes n x : length (be_bytes n x) = n.
Proof. induction n; simpl; congruence. Qed.

Lemma length_bytes_of_words ws : length (bytes_of_words ws) = (4 * length ws)%nat.
Proof.
  unfold bytes_of_words. induction ws as [|w ws IH]; [done|].
  cbn [List.flat_map]. rewrite length_app, length_be_bytes, IH. simpl. lia.
Qed.

Lemma length_sha256 m : length (sha256 m) = 32%nat.
Proof.
  unfold sha256. destruct (foldl block256 _ _) as [[[[[[[a b] c] d] e] f] g] h].
  by rewrite length_bytes_of_words.
Qed.

Lemma length_sha1 m : length (sha1 m) = 20%nat.
Proof.
  unfold sha1. destruct (foldl block1 _ _) as [[[[a b] c] d] e].
  by rewrite length_bytes_of_words.
Qed.

Lemma length_hex bs : String.length (hex bs) = (2 * length bs)%nat.
Proof. induction bs; simpl in *; lia. Qed.

(** Every SHA-256 hex digest is 64 characters long. *)
Lemma length_sha256_hex m : String.length (sha256_hex m) = 64%nat.
Proof. unfold sha256_hex. by rewrite length_hex, length_sha256. Qed.

Lemma length_hmac_hex k m : String.length (hmac_hex k m) = 64%nat.
Proof. unfold hmac_hex, hmac_sha256. by rewrite length_hex, length_sha256. Qed.

Lemma be_bytes_byte n x : Forall (fun b => 0 <= b < 256) (be_bytes n x).
Proof.
  induction n as [|n IH]; simpl; constructor; [|done].
  change 255 with (Z.ones 8). rewrite Z.land_ones by lia.
  apply Z.mod_pos_bound. lia.
Qed.

Lemma bytes_of_words_byte ws : Forall (fun b => 0 <= b < 256) (bytes_of_words ws).
Proof.
  unfold bytes_of_words. induction ws as [|w ws IH]; [constructor|].
  cbn [List.flat_map]. apply Forall_app. split; [apply be_bytes_byte|done].
Qed.

Lemma sha1_byte m : Forall (fun b => 0 <= b < 256) (sha1 m).
Proof.
  unfold sha1. destruct (foldl block1 _ _) as [[[[a b] c] d] e].
  apply bytes_of_words_byte.
Qed.

Lemma sha256_byte m : Forall (fun b => 0 <= b < 256) (sha256 m).
Proof.
  unfold sha256. destruct (foldl block256 _ _) as [[[[[[[a b] c] d] e] f] g] h].
  apply bytes_of_words_byte.
Qed.

#[global] Opaque sha256 sha1 hmac_sha256.

(** ** What a digest of a text binds

    Nothing is assumed of SHA-256 but what a theorem says: that two given
    messages are not a collision. *)

Definition no_collision (m m' : list Z) : Prop := sha256 m = sha256 m' -> m = m'.

(** [hashlib.sha256(s.encode("utf-8")).hexdigest()]. *)
Definition sha256_str (s : string) : string := sha256_hex (utf8 s).

Lemma hex_digit_inj a b : 0 <= a < 16 -> 0 <= b < 16 -> hex_digit a = hex_digit b -> a = b.
Proof.
  intros Ha Hb H. apply Z2Nat.inj; [lia..|].
  assert (Ha' : (Z.to_nat a < 16)%nat) by lia. assert (Hb' : (Z.to_nat b < 16)%nat) by lia.
  rewrite <- (Z2Nat.id a), <- (Z2Nat.id b) in H by lia.
  revert Ha' Hb' H. generalize (Z.to_nat a), (Z.to_nat b). clear. intros n m Hn Hm.
  do 16 (destruct n as [|n]; [do 16 (destruct m as [|m]; [vm_compute; done|]); lia|]). lia.
Qed.

Lemma hex_inj l k : Forall (fun b => 0 <= b < 256) l -> Forall (fun b => 0 <= b < 256) k ->
  hex l = hex k -> l = k.
Proof.
  intros Hl. revert k. induction Hl as [|a l Ha Hl IH]; intros k Hk; destruct Hk as [|b k Hb Hk];
    simpl; try done.
  intros [= H1 H2 H]. f_equal; [|by apply IH].
  apply hex_digit_inj in H1; [|split; [apply Z.div_pos|apply Z.div_lt_upper_bound]; lia..].
  apply hex_digit_inj in H2; [|apply Z.mod_pos_bound; lia..].
  rewrite (Z.div_mod a 16), (Z.div_mod b 16) by lia. congruence.
Qed.

Lemma code_bound c : 0 <= Z.of_N (code c) < 256.
Proof. unfold code. pose proof (N_ascii_bounded c). lia. Qed.

Lemma code_inj c d : code c = code d -> c = d.
Proof. unfold code. intros H. by rewrite <- (ascii_N_embedding c), H, ascii_N_embedding. Qed.

Lemma utf8_inj s t : utf8 s = utf8 t -> s = t.
Proof.
  revert t. induction s as [|c s IH]; intros [|d t]; simpl; unfold utf8_char.
  - done.
  - by destruct (_ <? 128).
  - by destruct (_ <? 128).
  - pose proof (code_bound c) as Hc. pose proof (code_bound d) as Hd.
    set (a := Z.of_N (code c)) in *. set (b := Z.of_N (code d)) in *.
    assert (Hab : a = b -> c = d) by (intros H; apply code_inj; lia).
    destruct (Z.ltb_spec a 128), (Z.ltb_spec b 128); simpl; intros [= H1 H2].
    + rewrite (Hab H1). f_equal. by apply IH.
    + assert (2 <= b / 64) by (apply Z.div_le_lower_bound; lia). lia.
    + assert (2 <= a / 64) by (apply Z.div_le_lower_bound; lia). lia.
    + assert (a / 64 = b / 64) as Hq by lia. assert (a mod 64 = b mod 64) as Hm by lia.
      assert (Heq : a = b) by (rewrite (Z.div_mod a 64), (Z.div_mod b 64) by lia; congruence).
      rewrite (Hab Heq). f_equal. by apply IH.
Qed.

Lemma sha256_str_inj s t : no_collision (utf8 s) (utf8 t) -> sha256_str s = sha256_str t -> s = t.
Proof.
  unfold sha256_str, sha256_hex. intros Hc H%hex_inj; [|apply sha256_byte..].
  by apply utf8_inj, Hc.
Qed.

Lemma hmac_byte k m : Forall (fun b => 0 <= b < 256) (hmac_sha256 k m).
Proof. Transparent hmac_sha256. unfold hmac_sha256. apply sha256_byte. Opaque hmac_sha256. Qed.
