(* ===== verification/Uuid.v ===== *)
(** * UUIDs (packages/domain-python/src/memdot_domain/ids.py)

    A [uuid.UUID] is its 128-bit integer.  [str_uuid] and [parse_uuid] are the
    standard library's [str(u)] and [uuid.UUID(s)]; [new_uuid7] and
    [uuid5] build the identifiers of the ledger.  The clock and the random
    bytes [new_uuid7] draws are its arguments. *)

From S2P Require Import Prelude PyStr Digest.
From Stdlib Require Import Ascii ZArith Lia.
From stdpp Require Import list strings.
Open Scope Z_scope.

Notation uuid := Z (only parsing).

Definition uuid_max : Z := 2 ^ 128.
Definition is_uuid (u : uuid) : Prop := 0 <= u < uuid_max.

(** ** Printing and parsing *)

Definition str_uuid (u : uuid) : string :=
  let h := hex (be_bytes 16 u) in
  take_str 8 h +:+ "-" +:+ take_str 4 (drop_str 8 h) +:+ "-" +:+
  take_str 4 (drop_str 12 h) +:+ "-" +:+ take_str 4 (drop_str 16 h) +:+ "-" +:+
  drop_str 20 h.

(** [s.replace(p, "")], left to right without overlaps; [skip] counts the
    characters of a match still to drop. *)
Fixpoint remove_str (p : string) (skip : nat) (s : string) : string :=
  match s with
  | "" => ""
  | String c s' =>
      match skip with
      | S k => remove_str p k s'
      | O => if startswith p s then remove_str p (String.length p - 1) s'
             else String c (remove_str p 0 s')
      end
  end.

Definition hex_value (c : ascii) : option Z :=
  let n := Z.of_N (code c) in
  if (48 <=? n) && (n <=? 57) then Some (n - 48)
  else if (97 <=? n) && (n <=? 102) then Some (n - 87)
  else if (65 <=? n) && (n <=? 70) then Some (n - 55)
  else None.

(** Digits with single underscores between them; [prev] tells whether the
    character before was a digit. *)
Fixpoint hex_digits (prev : bool) (acc : Z) (s : string) : option Z :=
  match s with
  | "" => if prev then Some acc else None
  | String c s' =>
      if Ascii.eqb c "_" then (if prev then hex_digits false acc s' else None)
      else match hex_value c with
           | Some d => hex_digits true (acc * 16 + d) s'
           | None => None
           end
  end.

(** [int(s, 16)]. *)
Definition int_base16 (s : string) : option Z :=
  let s := strip s in
  let '(neg, s) :=
    match s with
    | String "-" s' => (true, s')
    | String "+" s' => (false, s')
    | _ => (false, s)
    end in
  let s :=
    match s with
    | String "0" (String "x" (String "_" s')) | String "0" (String "X" (String "_" s')) => s'
    | String "0" (String "x" s') | String "0" (String "X" s') => s'
    | _ => s
    end in
  match hex_digits false 0 s with
  | Some n => Some (if neg then - n else n)
  | None => None
  end.

Definition is_brace (c : ascii) : bool := Ascii.eqb c "{" || Ascii.eqb c "}".

(** [uuid.UUID(s)]; [None] is the [ValueError]. *)
Definition parse_uuid (s : string) : option uuid :=
  let s := remove_str "uuid:" 0 (remove_str "urn:" 0 s) in
  let s := rstrip_by is_brace (lstrip_by is_brace s) in
  let s := remove_str "-" 0 s in
  if (String.length s =? 32)%nat then
    match int_base16 s with
    | Some n => if (0 <=? n) && (n <? uuid_max) then Some n else None
    | None => None
    end
  else None.

(** ** Generators *)

Definition new_uuid7 (unix_ts_ms rand_a rand_b : Z) : uuid :=
  let rand_a := Z.land rand_a 0x0FFF in
  let rand_b := Z.land rand_b 0x3FFFFFFFFFFFFFFF in
  Z.lor (Z.lor (Z.lor (Z.lor (Z.shiftl unix_ts_ms 80) (Z.shiftl 0x7 76))
                      (Z.shiftl rand_a 64)) (Z.shiftl 0x2 62)) rand_b.

(** [uuid.UUID(bytes=digest[:16], version=5)]. *)
Definition with_version5 (i : Z) : uuid :=
  let i := Z.ldiff i (Z.shiftl 0xc000 48) in
  let i := Z.lor i (Z.shiftl 0x8000 48) in
  let i := Z.ldiff i (Z.shiftl 0xf000 64) in
  Z.lor i (Z.shiftl 5 76).

Definition deterministic_uuid5 (namespace : uuid) (name : string) : uuid :=
  with_version5 (be_word (take 16 (sha1 (be_bytes 16 namespace ++ utf8 name)))).

Definition SOURCE_REVISION_NAMESPACE : uuid := 0x6ba7b8109dad11d180b400c04fd430c8.
Definition PARSE_RUN_NAMESPACE : uuid := 0x6ba7b8119dad11d180b400c04fd430c8.
Definition ELEMENT_NAMESPACE : uuid := 0x6ba7b8129dad11d180b400c04fd430c8.

Definition source_revision_id (source_id : uuid) (snapshot_sha256 : string) : uuid :=
  deterministic_uuid5 source_id snapshot_sha256.

Definition parse_run_id (revision_id : uuid) (profile_hash : string) : uuid :=
  deterministic_uuid5 revision_id profile_hash.

Definition element_id (parse_run : uuid) (canonical_locator content_hash : string) : uuid :=
  deterministic_uuid5 parse_run (canonical_locator +:+ ":" +:+ content_hash).

Example uuid5_dns : str_uuid (deterministic_uuid5 SOURCE_REVISION_NAMESPACE "python.org") =
  "886313e1-3b8a-5372-9b90-0c9aee199e5d".
Proof. vm_compute. reflexivity. Qed.

(** ** Lemmas on the hexadecimal form *)

Fixpoint all_chars (P : ascii -> bool) (s : string) : bool :=
  match s with "" => true | String c s => P c && all_chars P s end.

Lemma all_chars_app P s t : all_chars P (s +:+ t) = all_chars P s && all_chars P t.
Proof. induction s as [|c s IH]; simpl; [done|]. by rewrite IH, andb_assoc. Qed.

Lemma all_chars_impl (P Q : ascii -> bool) s :
  (forall c, P c = true -> Q c = true) -> all_chars P s = true -> all_chars Q s = true.
Proof. intros HPQ. induction s; simpl; [done|]. rewrite !andb_true_iff. naive_solver. Qed.

Lemma all_chars_take P n s : all_chars P s = true -> all_chars P (take_str n s) = true.
Proof. revert s. induction n; intros [|c s]; simpl; try done. rewrite !andb_true_iff. naive_solver. Qed.

Lemma all_chars_drop P n s : all_chars P s = true -> all_chars P (drop_str n s) = true.
Proof. revert s. induction n; intros [|c s]; simpl; try done. rewrite !andb_true_iff. naive_solver. Qed.

Definition is_hex (c : ascii) : bool := if hex_value c then true else false.

Lemma hex_value_digit n : 0 <= n < 16 -> hex_value (hex_digit n) = Some n.
Proof.
  intros H. destruct n as [|p|p]; [reflexivity| |lia].
  do 4 (destruct p as [p|p|]; try reflexivity); lia.
Qed.

Definition is_byte (b : Z) : Prop := 0 <= b < 256.

Lemma hex_is_hex bs : Forall is_byte bs -> all_chars is_hex (hex bs) = true.
Proof.
  induction 1 as [|b bs Hb _ IH]; simpl; [done|]. unfold is_byte in Hb.
  unfold is_hex at 1 2. rewrite !hex_value_digit; [done|..].
  - apply Z.mod_pos_bound. lia.
  - split; [apply Z.div_pos; lia|apply Z.div_lt_upper_bound; lia].
Qed.

Lemma hex_value_not_underscore c : is_hex c = true -> Ascii.eqb c "_" = false.
Proof. unfold is_hex. destruct (Ascii.eqb_spec c "_") as [->|]; [discriminate|done]. Qed.

Lemma hex_digits_app acc prev bs s :
  Forall is_byte bs ->
  hex_digits prev acc (hex bs +:+ s) =
  hex_digits (match bs with [] => prev | _ => true end) (foldl (fun a b => a * 256 + b) acc bs) s.
Proof.
  intros H. revert prev acc. induction H as [|b bs Hb _ IH]; intros prev acc; [done|].
  unfold is_byte in Hb.
  assert (0 <= b / 16 < 16) by (split; [apply Z.div_pos; lia|apply Z.div_lt_upper_bound; lia]).
  assert (0 <= b mod 16 < 16) by (apply Z.mod_pos_bound; lia).
  simpl. rewrite !hex_value_digit by done.
  rewrite !(hex_value_not_underscore (hex_digit _)) by (unfold is_hex; by rewrite hex_value_digit).
  rewrite IH. f_equal; [by destruct bs|]. f_equal.
  rewrite (Z.div_mod b 16) at 3 by lia. lia.
Qed.

Lemma be_word_bytes n x : 0 <= x < 2 ^ (8 * Z.of_nat n) ->
  forall acc, foldl (fun a b => a * 256 + b) acc (be_bytes n x) = acc * 2 ^ (8 * Z.of_nat n) + x.
Proof.
  revert x. induction n as [|n IH]; intros x Hx acc.
  - simpl in *. lia.
  - assert (Hpow : 2 ^ (8 * Z.of_nat (S n)) = 256 * 2 ^ (8 * Z.of_nat n)).
    { replace (8 * Z.of_nat (S n)) with (8 + 8 * Z.of_nat n) by lia.
      rewrite Z.pow_add_r by lia. done. }
    set (k := 2 ^ (8 * Z.of_nat n)) in *.
    assert (0 < k) by (apply Z.pow_pos_nonneg; lia).
    cbn [be_bytes foldl].
    assert (Hd : Z.land (Z.shiftr x (8 * Z.of_nat n)) 255 = x / k).
    { change 255 with (Z.ones 8). rewrite Z.land_ones, Z.shiftr_div_pow2 by lia.
      apply Z.mod_small. split; [apply Z.div_pos; lia|].
      apply Z.div_lt_upper_bound; [lia|]. change (2 ^ 8) with 256. fold k. lia. }
    rewrite Hd.
    assert (Hb : be_bytes n x = be_bytes n (x mod k)).
    { clear IH Hd. unfold k. clearbody k. clear Hx Hpow.
      assert (Hg : forall m, (m <= n)%nat -> be_bytes m x = be_bytes m (x mod 2 ^ (8 * Z.of_nat n))).
      { induction m as [|m IHm]; intros Hm; [done|]. cbn [be_bytes]. f_equal; [|apply IHm; lia].
        apply Z.bits_inj'. intros i Hi. rewrite !Z.land_spec, !Z.shiftr_spec by lia.
        destruct (Z.lt_ge_cases i 8) as [Hi8|Hi8].
        - rewrite Z.mod_pow2_bits_low by lia. done.
        - change 255 with (Z.ones 8). rewrite Z.ones_spec_high by lia.
          by rewrite !andb_false_r. }
      by apply Hg. }
    rewrite Hb, IH by (apply Z.mod_pos_bound; lia).
    rewrite (Z.div_mod x k) at 3 by lia. fold k. lia.
Qed.

Lemma be_word_be_bytes16 u : is_uuid u -> be_word (be_bytes 16 u) = u.
Proof.
  intros H. unfold be_word. rewrite be_word_bytes; [simpl; lia|].
  exact H.
Qed.

(** ** The round trip *)

Lemma remove_str_none a p s : has_char a s = false -> remove_str (String a p) 0 s = s.
Proof.
  induction s as [|c s IH]; simpl; [done|].
  intros [Hc Hs]%orb_false_elim. rewrite Hc. simpl. by rewrite IH.
Qed.

Lemma all_chars_has_char P c s : all_chars P s = true -> P c = false -> has_char c s = false.
Proof.
  intros Hs Hc. induction s as [|a s IH]; simpl in *; [done|]. split_bool.
  rewrite IH by done. destruct (Ascii.eqb_spec c a) as [->|]; [congruence|done].
Qed.

Lemma remove_dash_cons c s :
  remove_str "-" 0 (String c s) =
  if Ascii.eqb "-" c then remove_str "-" 0 s else String c (remove_str "-" 0 s).
Proof. unfold remove_str at 1. unfold startswith. by rewrite andb_true_r. Qed.

Lemma remove_dash_app s t :
  remove_str "-" 0 (s +:+ t) = remove_str "-" 0 s +:+ remove_str "-" 0 t.
Proof.
  induction s as [|c s IH]; [done|].
  change (String c s +:+ t) with (String c (s +:+ t)). rewrite !remove_dash_cons, IH.
  by destruct (Ascii.eqb "-" c).
Qed.

Lemma lstrip_by_none p s : all_chars (fun c => negb (p c)) s = true -> lstrip_by p s = s.
Proof. destruct s as [|c s]; simpl; [done|]. rewrite andb_true_iff. intros [H _]. by destruct (p c). Qed.

Lemma rstrip_by_none p s : all_chars (fun c => negb (p c)) s = true -> rstrip_by p s = s.
Proof.
  induction s as [|c s IH]; simpl; [done|]. rewrite andb_true_iff. intros [H Hs].
  rewrite IH by done. destruct (p c); [done|]. by destruct s.
Qed.

Lemma int_base16_hex bs :
  Forall is_byte bs -> bs <> [] -> int_base16 (hex bs) = Some (be_word bs).
Proof.
  intros Hbs Hne. pose proof (hex_is_hex bs Hbs) as Hh.
  assert (Hd : hex_digits false 0 (hex bs) = Some (be_word bs)).
  { rewrite <- (append_nil_r (hex bs)), hex_digits_app by done. by destruct bs. }
  assert (Hs : strip (hex bs) = hex bs).
  { unfold strip. rewrite lstrip_by_none, rstrip_by_none; [done|..];
    (eapply all_chars_impl; [|exact Hh]); intros c; unfold is_hex; clear;
    by destruct c as [[] [] [] [] [] [] [] []]. }
  unfold int_base16. rewrite Hs. clear Hs.
  destruct bs as [|b bs]; [done|]. revert Hd Hh. simpl hex.
  generalize (hex_digit (b / 16)), (hex_digit (b mod 16)), (hex bs). clear.
  intros c d s Hd Hh. simpl all_chars in Hh. split_bool.
  assert (Hc : c <> "-"%char /\ c <> "+"%char) by (by split; intros ->).
  assert (Hx : d <> "x"%char /\ d <> "X"%char) by (by split; intros ->).
  destruct Hc as [Hc1 Hc2], Hx as [Hx1 Hx2].
  destruct c as [[] [] [] [] [] [] [] []]; try done; try (by rewrite Hd);
  destruct d as [[] [] [] [] [] [] [] []]; try done; by rewrite Hd.
Qed.

Lemma str_uuid_chars u :
  all_chars (fun c => is_hex c || Ascii.eqb c "-") (str_uuid u) = true.
Proof.
  assert (Hh : all_chars (fun c => is_hex c || Ascii.eqb c "-") (hex (be_bytes 16 u)) = true).
  { eapply all_chars_impl; [|apply hex_is_hex, be_bytes_byte]. intros c ->. done. }
  unfold str_uuid. rewrite !all_chars_app.
  rewrite !all_chars_take, !all_chars_drop; try done; by apply all_chars_drop.
Qed.

Lemma str_uuid_dashes u : remove_str "-" 0 (str_uuid u) = hex (be_bytes 16 u).
Proof.
  unfold str_uuid. set (h := hex (be_bytes 16 u)).
  assert (Hh : all_chars is_hex h = true) by apply hex_is_hex, be_bytes_byte.
  assert (Hr : forall s, all_chars is_hex s = true -> remove_str "-" 0 s = s).
  { intros s Hs. apply remove_str_none. by eapply all_chars_has_char. }
  rewrite !remove_dash_app.
  rewrite !(Hr (take_str _ _)) by auto using all_chars_take, all_chars_drop.
  rewrite (Hr (drop_str _ _)) by auto using all_chars_drop.
  change (remove_str "-" 0 "-") with "". cbn [String.append].
  assert (Hsplit : forall n m s, take_str n (drop_str m s) +:+ drop_str (m + n) s = drop_str m s).
  { intros n m. induction m as [|m IH]; intros [|c s]; simpl; try done.
    - by destruct n.
    - apply (take_drop_str n (String c s)).
    - by destruct n. }
  pose proof (Hsplit 4%nat 16%nat h) as H16. pose proof (Hsplit 4%nat 12%nat h) as H12.
  pose proof (Hsplit 4%nat 8%nat h) as H8. simpl Nat.add in *.
  rewrite H16, H12, H8. apply take_drop_str.
Qed.

(** [uuid.UUID(str(u)) == u]. *)
Lemma parse_str_uuid u : is_uuid u -> parse_uuid (str_uuid u) = Some u.
Proof.
  intros Hu. unfold parse_uuid. pose proof (str_uuid_chars u) as Hc.
  rewrite (remove_str_none "u" "rn:") by by eapply all_chars_has_char.
  rewrite (remove_str_none "u" "uid:") by by eapply all_chars_has_char.
  assert (Hb : all_chars (fun c => negb (is_brace c)) (str_uuid u) = true).
  { eapply all_chars_impl; [|exact Hc]. intros c. by destruct c as [[] [] [] [] [] [] [] []]. }
  rewrite lstrip_by_none, rstrip_by_none, str_uuid_dashes by done.
  rewrite length_hex, length_be_bytes, int_base16_hex, be_word_be_bytes16;
    [|done|apply be_bytes_byte|done].
  simpl Nat.eqb. cbn beta iota. unfold is_uuid in Hu.
  by rewrite (proj2 (Z.leb_le 0 u)), (proj2 (Z.ltb_lt u uuid_max)) by lia.
Qed.

Lemma str_uuid_inj u v : is_uuid u -> is_uuid v -> str_uuid u = str_uuid v -> u = v.
Proof.
  intros Hu Hv H. apply (f_equal parse_uuid) in H.
  rewrite !parse_str_uuid in H by done. congruence.
Qed.

Lemma length_str_uuid u : String.length (str_uuid u) = 36%nat.
Proof.
  unfold str_uuid. set (h := hex (be_bytes 16 u)).
  assert (Hl : String.length h = 32%nat)
    by (unfold h; by rewrite length_hex, length_be_bytes).
  clearbody h. do 32 (destruct h as [|? h]; [discriminate|]). by destruct h.
Qed.

Lemma str_uuid_no_colon u : has_char ":" (str_uuid u) = false.
Proof. eapply all_chars_has_char; [apply str_uuid_chars|done]. Qed.

Lemma str_uuid_no_slash u : has_char "/" (str_uuid u) = false.
Proof. eapply all_chars_has_char; [apply str_uuid_chars|done]. Qed.

Lemma str_uuid_no_dot u : has_char "." (str_uuid u) = false.
Proof. eapply all_chars_has_char; [apply str_uuid_chars|done]. Qed.

(** ** Layout of the generated identifiers *)

Lemma lor_shiftl a k b : 0 <= k -> 0 <= b < 2 ^ k -> Z.lor (Z.shiftl a k) b = a * 2 ^ k + b.
Proof.
  intros Hk Hb. rewrite Z.shiftl_mul_pow2 by done.
  assert (Hland : Z.land (a * 2 ^ k) b = 0).
  { apply Z.bits_inj'. intros n Hn. rewrite Z.land_spec, Z.bits_0.
    destruct (Z.lt_ge_cases n k).
    - by rewrite Z.mul_pow2_bits_low by lia.
    - replace b with (b mod 2 ^ k) by (apply Z.mod_small; lia).
      rewrite Z.mod_pow2_bits_high by lia. apply andb_false_r. }
  by rewrite <- Z.lxor_lor, Z.add_nocarry_lxor by done.
Qed.

Lemma land_ones_bound x n : 0 <= n -> 0 <= Z.land x (Z.ones n) < 2 ^ n.
Proof. intros Hn. rewrite Z.land_ones by done. apply Z.mod_pos_bound. by apply Z.pow_pos_nonneg. Qed.

Lemma new_uuid7_value ms a b :
  new_uuid7 ms a b =
  ms * 2 ^ 80 + (7 * 2 ^ 76 + (Z.land a 0x0FFF * 2 ^ 64 + (2 * 2 ^ 62 + Z.land b 0x3FFFFFFFFFFFFFFF))).
Proof.
  pose proof (land_ones_bound a 12 ltac:(lia)) as Ha.
  pose proof (land_ones_bound b 62 ltac:(lia)) as Hb.
  change (Z.ones 12) with 0x0FFF in Ha. change (Z.ones 62) with 0x3FFFFFFFFFFFFFFF in Hb.
  unfold new_uuid7. cbv zeta.
  set (a' := Z.land a _) in *. set (b' := Z.land b _) in *. clearbody a' b'.
  assert (H1 : Z.lor (Z.shiftl 2 62) b' = 2 * 2 ^ 62 + b') by (apply lor_shiftl; lia).
  assert (H2 : Z.lor (Z.shiftl a' 64) (2 * 2 ^ 62 + b') = a' * 2 ^ 64 + (2 * 2 ^ 62 + b'))
    by (apply lor_shiftl; lia).
  assert (H3 : Z.lor (Z.shiftl 7 76) (a' * 2 ^ 64 + (2 * 2 ^ 62 + b')) =
               7 * 2 ^ 76 + (a' * 2 ^ 64 + (2 * 2 ^ 62 + b'))) by (apply lor_shiftl; lia).
  rewrite <- !Z.lor_assoc, H1, H2, H3. apply lor_shiftl; lia.
Qed.

(** The fields RFC 9562 fixes, read back from a generated identifier. *)
Lemma new_uuid7_fields ms a b :
  0 <= ms < 2 ^ 48 ->
  let u := new_uuid7 ms a b in
  is_uuid u /\ u / 2 ^ 80 = ms /\ (u / 2 ^ 76) mod 16 = 7 /\ (u / 2 ^ 62) mod 4 = 2.
Proof.
  intros Hms. cbv zeta. rewrite new_uuid7_value.
  pose proof (land_ones_bound a 12 ltac:(lia)) as Ha.
  pose proof (land_ones_bound b 62 ltac:(lia)) as Hb.
  change (Z.ones 12) with 0x0FFF in Ha. change (Z.ones 62) with 0x3FFFFFFFFFFFFFFF in Hb.
  set (a' := Z.land a _) in *. set (b' := Z.land b _) in *. clearbody a' b'.
  split; [unfold is_uuid, uuid_max; lia|].
  split; [symmetry; apply (Z.div_unique _ _ _ (7 * 2 ^ 76 + (a' * 2 ^ 64 + (2 * 2 ^ 62 + b')))); lia|].
  split.
  - rewrite <- (Z.div_unique _ (2 ^ 76) (ms * 16 + 7) (a' * 2 ^ 64 + (2 * 2 ^ 62 + b'))) by lia.
    symmetry. apply (Z.mod_unique _ _ ms); lia.
  - rewrite <- (Z.div_unique _ (2 ^ 62) (ms * 2 ^ 18 + 7 * 2 ^ 14 + a' * 4 + 2) b') by lia.
    symmetry. apply (Z.mod_unique _ _ (ms * 2 ^ 16 + 7 * 2 ^ 12 + a')); lia.
Qed.

(** Identifiers sort by their millisecond, whatever random bytes were drawn. *)
Lemma new_uuid7_sortable ms ms' a b a' b' :
  ms < ms' -> new_uuid7 ms a b < new_uuid7 ms' a' b'.
Proof.
  rewrite !new_uuid7_value.
  pose proof (land_ones_bound a 12 ltac:(lia)). pose proof (land_ones_bound b 62 ltac:(lia)).
  pose proof (land_ones_bound a' 12 ltac:(lia)). pose proof (land_ones_bound b' 62 ltac:(lia)).
  change (Z.ones 12) with 0x0FFF in *. change (Z.ones 62) with 0x3FFFFFFFFFFFFFFF in *. lia.
Qed.

Lemma be_word_bound bs : Forall is_byte bs -> 0 <= be_word bs < 2 ^ (8 * Z.of_nat (length bs)).
Proof.
  unfold be_word. induction bs as [|b bs IH] using rev_ind; [simpl; lia|].
  rewrite Forall_app, Forall_singleton. intros [Hbs Hb].
  rewrite foldl_app, length_app. simpl. specialize (IH Hbs). unfold is_byte in Hb.
  replace (8 * Z.of_nat (length bs + 1)) with (8 * Z.of_nat (length bs) + 8) by lia.
  rewrite Z.pow_add_r by lia. change (2 ^ 8) with 256. nia.
Qed.

Lemma testbit_high x m n : 0 <= x < 2 ^ m -> 0 <= m <= n -> Z.testbit x n = false.
Proof.
  intros Hx Hn. replace x with (x mod 2 ^ m) by (apply Z.mod_small; lia).
  apply Z.mod_pow2_bits_high. lia.
Qed.

(** Reading a field of at most four bits is reading its bits. *)
Lemma field_bits x k w v :
  0 <= k -> 0 <= w <= 4 -> 0 <= v < 2 ^ w ->
  (forall j, 0 <= j < w -> Z.testbit x (j + k) = Z.testbit v j) ->
  (x / 2 ^ k) mod 2 ^ w = v.
Proof.
  intros Hk Hw Hv Hj. rewrite <- Z.shiftr_div_pow2 by exact Hk.
  apply Z.bits_inj'. intros n Hn. destruct (Z.lt_ge_cases n w).
  - rewrite Z.mod_pow2_bits_low, Z.shiftr_spec by lia. apply Hj. lia.
  - rewrite Z.mod_pow2_bits_high by lia. symmetry. eapply testbit_high; [exact Hv|lia].
Qed.

Lemma with_version5_bit i n : 0 <= n -> Z.testbit (with_version5 i) n =
  (((Z.testbit i n && negb (Z.testbit 0xc000 (n - 48))) || Z.testbit 0x8000 (n - 48))
    && negb (Z.testbit 0xf000 (n - 64))) || Z.testbit 5 (n - 76).
Proof.
  intros Hn. unfold with_version5.
  by rewrite Z.lor_spec, Z.ldiff_spec, Z.lor_spec, Z.ldiff_spec, !Z.shiftl_spec by done.
Qed.

(** A name-based identifier is a version-5 UUID. *)
Lemma uuid5_version ns name :
  let u := deterministic_uuid5 ns name in
  is_uuid u /\ (u / 2 ^ 76) mod 2 ^ 4 = 5 /\ (u / 2 ^ 62) mod 2 ^ 2 = 2.
Proof.
  unfold deterministic_uuid5.
  set (bs := take 16 _).
  assert (Hi : 0 <= be_word bs < 2 ^ 128).
  { assert (Hl : length bs = 16%nat) by (unfold bs; by rewrite length_take, length_sha1).
    replace 128 with (8 * Z.of_nat (length bs)) by (rewrite Hl; done).
    apply be_word_bound. unfold bs. apply Forall_take, sha1_byte. }
  clearbody bs. revert Hi. generalize (be_word bs). clear. intros i Hi. cbv zeta.
  split; [|split].
  - assert (Hb : with_version5 i = with_version5 i mod 2 ^ 128).
    { apply Z.bits_inj'. intros n Hn. destruct (Z.lt_ge_cases n 128).
      { by rewrite Z.mod_pow2_bits_low by lia. }
      rewrite Z.mod_pow2_bits_high, with_version5_bit by lia.
      rewrite (testbit_high i 128 n), (testbit_high 0x8000 16 (n - 48)),
        (testbit_high 5 3 (n - 76)) by lia. done. }
    unfold is_uuid, uuid_max. rewrite Hb. apply Z.mod_pos_bound. lia.
  - apply field_bits; [lia..|]. intros j Hj. rewrite with_version5_bit by lia.
    assert (j = 0 \/ j = 1 \/ j = 2 \/ j = 3) as [->|[->|[->| ->]]] by lia;
    cbn; by rewrite ?andb_false_r, ?orb_true_r.
  - apply field_bits; [lia..|]. intros j Hj. rewrite with_version5_bit by lia.
    assert (j = 0 \/ j = 1) as [->| ->] by lia;
    cbn; by rewrite ?andb_false_r, ?orb_true_r.
Qed.

Lemma parse_uuid_bound t u : parse_uuid t = Some u -> is_uuid u.
Proof.
  unfold parse_uuid. repeat case_match; try done. intros [= <-]. split_bool. unfold is_uuid. lia.
Qed.

(** Compared by their arguments; [vm_compute] evaluates them. *)
#[global] Opaque str_uuid parse_uuid.
