(* ===== verification/Json.v ===== *)
(** * Python objects of a JSON payload and [json.dumps]

    A [dict[str, object]] payload holds null, booleans, integers, floats,
    strings, lists and dictionaries.  A float is carried by the text
    [float.__repr__] prints for it (finite floats), which is all the modelled
    code looks at.  [dumps] is
    [json.dumps(v, sort_keys=True, separators=(",", ":"))] with the default
    [ensure_ascii=True]: the text every digest of the program is computed on.
    [py_str] is [str(v)] and [py_bool] the truth value. *)

From Stdlib Require Import Ascii ZArith Lia DecimalString.
From stdpp Require Import list strings.
From S2P Require Import Prelude PyStr.

Inductive json : Type :=
| JNull
| JBool (b : bool)
| JInt (z : Z)
| JFloat (text : string)
| JStr (s : string)
| JList (l : list json)
| JObj (kvs : list (string * json)).

Section json_ind.
  Context (P : json -> Prop).
  Context (Hnull : P JNull) (Hbool : forall b, P (JBool b)) (Hint : forall z, P (JInt z))
    (Hfloat : forall t, P (JFloat t)) (Hstr : forall s, P (JStr s))
    (Hlist : forall l, Forall P l -> P (JList l))
    (Hobj : forall kvs, Forall (fun kv => P kv.2) kvs -> P (JObj kvs)).

Fixpoint json_nested_ind (v : json) : P v :=
    match v with
    | JNull => Hnull
    | JBool b => Hbool b
    | JInt z => Hint z
    | JFloat t => Hfloat t
    | JStr s => Hstr s
    | JList l =>
        Hlist l ((fix go l : Forall P l :=
          match l with [] => Forall_nil_2 P | x :: l => Forall_cons_2 P x l (json_nested_ind x) (go l) end) l)
    | JObj kvs =>
        Hobj kvs ((fix go l : Forall (fun kv => P kv.2) l :=
          match l with
          | [] => Forall_nil_2 _
          | x :: l => Forall_cons_2 (fun kv : string * json => P kv.2) x l (json_nested_ind x.2) (go l)
          end) kvs)
    end.
End json_ind.

#[export] Instance json_eq_dec : EqDecision json.
Proof.
  refine (fix go (v w : json) {struct v} : {v = w} + {v <> w} :=
    match v, w with
    | JNull, JNull => left eq_refl
    | JBool a, JBool b => cast_if (decide (a = b))
    | JInt a, JInt b => cast_if (decide (a = b))
    | JFloat a, JFloat b => cast_if (decide (a = b))
    | JStr a, JStr b => cast_if (decide (a = b))
    | JList a, JList b => cast_if (@list_eq_dec _ go a b)
    | JObj a, JObj b =>
        cast_if (@list_eq_dec _ (fun p q => @prod_eq_dec string _ json go p q) a b)
    | _, _ => right _
    end); clear go; abstract congruence.
Defined.

(** ** Dictionary access *)

Notation dict := (list (string * json)) (only parsing).

Definition dict_lookup {A} (k : string) (d : list (string * A)) : option A :=
  match first (fun kv => String.eqb kv.1 k) d with Some kv => Some kv.2 | None => None end.

(** [d.get(k)] and [d.get(k, default)]. *)
Definition dict_get (k : string) (d : dict) : json := default JNull (dict_lookup k d).
Definition dict_get_or (k : string) (v : json) (d : dict) : json := default v (dict_lookup k d).

(** [d[k] = v]: the place of an existing key is kept. *)
Fixpoint dict_set {A} (k : string) (v : A) (d : list (string * A)) : list (string * A) :=
  match d with
  | [] => [(k, v)]
  | (k', v') :: d => if String.eqb k' k then (k, v) :: d else (k', v') :: dict_set k v d
  end.

Lemma dict_lookup_set {A} k k' (v : A) d :
  dict_lookup k' (dict_set k v d) = if String.eqb k k' then Some v else dict_lookup k' d.
Proof.
  unfold dict_lookup. induction d as [|[a b] d IH]; simpl.
  - by destruct (String.eqb k k').
  - destruct (String.eqb a k) eqn:E; simpl.
    + apply String.eqb_eq in E as ->. by destruct (String.eqb k k').
    + destruct (String.eqb a k') eqn:E'; [|exact IH].
      apply String.eqb_eq in E' as ->. by rewrite String.eqb_sym, E.
Qed.

(** ** Truth value and [str] *)

Definition py_bool (v : json) : bool :=
  match v with
  | JNull => false
  | JBool b => b
  | JInt z => negb (Z.eqb z 0)
  | JFloat t => negb (String.eqb t "0.0" || String.eqb t "-0.0")
  | JStr s => truthy s
  | JList l => match l with [] => false | _ => true end
  | JObj d => match d with [] => false | _ => true end
  end.

Definition dquote : ascii := "034"%char.
Definition squote : ascii := "039"%char.

Definition hex2 (c : ascii) : string :=
  let n := N.to_nat (code c) in
  let d k := match String.get k "0123456789abcdef" with Some c => c | None => "0"%char end in
  String (d (n / 16)) (String (d (n mod 16)) "").

(** One character of [repr] of a string quoted with [q]. *)
Definition repr_char (q c : ascii) : string :=
  let n := code c in
  if Ascii.eqb c q || Ascii.eqb c "\" then String "\" (String c "")
  else if (n =? 10)%N then "\n" else if (n =? 13)%N then "\r" else if (n =? 9)%N then "\t"
  else if (n <? 32)%N || ((127 <=? n)%N && (n <=? 160)%N) || (n =? 173)%N then "\x" +:+ hex2 c
  else String c "".

Fixpoint flat_str (f : ascii -> string) (s : string) : string :=
  match s with "" => "" | String c s => f c +:+ flat_str f s end.

Definition repr_str (s : string) : string :=
  let q := if has_char squote s && negb (has_char dquote s) then dquote else squote in
  String q (flat_str (repr_char q) s +:+ String q "").

Fixpoint py_repr (v : json) : string :=
  match v with
  | JNull => "None"
  | JBool b => if b then "True" else "False"
  | JInt z => str_of_Z z
  | JFloat t => t
  | JStr s => repr_str s
  | JList l => "[" +:+ join ", " (map py_repr l) +:+ "]"
  | JObj d => "{" +:+ join ", " (map (fun kv => repr_str kv.1 +:+ ": " +:+ py_repr kv.2) d) +:+ "}"
  end.

Definition py_str (v : json) : string := match v with JStr s => s | _ => py_repr v end.

(** ** [json.dumps] *)

Definition esc_char (c : ascii) : string :=
  let n := code c in
  if Ascii.eqb c dquote then String "\" (String dquote "")
  else if Ascii.eqb c "\" then "\\"
  else if (n =? 10)%N then "\n" else if (n =? 13)%N then "\r" else if (n =? 9)%N then "\t"
  else if (n =? 8)%N then "\b" else if (n =? 12)%N then "\f"
  else if (n <? 32)%N || (126 <? n)%N then "\u00" +:+ hex2 c
  else String c "".

Definition print_str (s : string) : string :=
  String dquote (flat_str esc_char s +:+ String dquote "").

Fixpoint print (v : json) : string :=
  match v with
  | JNull => "null"
  | JBool b => if b then "true" else "false"
  | JInt z => str_of_Z z
  | JFloat t => t
  | JStr s => print_str s
  | JList l => "[" +:+ join "," (map print l) +:+ "]"
  | JObj d => "{" +:+ join "," (map (fun kv => print_str kv.1 +:+ ":" +:+ print kv.2) d) +:+ "}"
  end.

Definition key_leb {A} (a b : string * A) : bool := str_leb a.1 b.1.

(** [sort_keys=True]: the items of every dictionary, sorted by key. *)
Fixpoint canon (v : json) : json :=
  match v with
  | JList l => JList (map canon l)
  | JObj d => JObj (sort_by key_leb (map (fun kv => (kv.1, canon kv.2)) d))
  | v => v
  end.

Definition dumps (v : json) : string := print (canon v).

Definition is_float_char (c : ascii) : bool :=
  let n := code c in
  ((48 <=? n)%N && (n <=? 57)%N) || Ascii.eqb c "." || Ascii.eqb c "e" || Ascii.eqb c "+" || Ascii.eqb c "-".

Fixpoint str_all (p : ascii -> bool) (s : string) : bool :=
  match s with "" => true | String c s => p c && str_all p s end.

(** The text of a finite float: its characters, and the point or exponent
    [repr] always prints. *)
Definition float_text (t : string) : bool :=
  str_all is_float_char t && (has_char "." t || has_char "e" t).

(** Payloads a Python program can hold: floats print as floats, keys are
    distinct. *)
Fixpoint wf (v : json) : Prop :=
  match v with
  | JFloat t => float_text t = true
  | JList l => fold_right and True (map wf l)
  | JObj d => NoDup (map fst d) /\ fold_right and True (map (fun kv => wf kv.2) d)
  | _ => True
  end.

Example dumps_ex :
  dumps (JObj [("b", JList [JInt 1; JNull]); ("a", JStr (String (ascii_of_nat 233) "x"))]) =
  "{" +:+ print_str "a" +:+ ":" +:+ String dquote ("\u00e9x" +:+ String dquote "") +:+ ","
  +:+ print_str "b" +:+ ":[1,null]}".
Proof. vm_compute. reflexivity. Qed.

(** ** [dumps] loses nothing

    The text is prefix-free up to the characters that can follow a value, so
    two payloads print alike only when they are equal up to the order of
    dictionary keys. *)

Definition delim (s : string) : Prop :=
  match s with "" => True | String c _ => c = ","%char \/ c = "]"%char \/ c = "}"%char end.

(** [f] is prefix-free at [v] among the values that satisfy [W]. *)
Definition prefix_inj {A} (W : A -> Prop) (f : A -> string) (v : A) : Prop :=
  forall w s t, W w -> delim s -> delim t -> f v +:+ s = f w +:+ t -> v = w /\ s = t.

(** Reading back one escaped character. *)
Definition unhex (h l : ascii) : ascii :=
  let d c := if (code c <? 58)%N then (code c - 48)%N else (code c - 87)%N in
  ascii_of_N (d h * 16 + d l).

Definition unesc_char (s : string) : option (ascii * string) :=
  match s with
  | String c s1 =>
      if Ascii.eqb c "\" then
        match s1 with
        | String d s2 =>
            if Ascii.eqb d "u" then
              match s2 with
              | String _ (String _ (String h (String l r))) => Some (unhex h l, r)
              | _ => None
              end
            else if Ascii.eqb d "n" then Some ("010"%char, s2)
            else if Ascii.eqb d "r" then Some ("013"%char, s2)
            else if Ascii.eqb d "t" then Some ("009"%char, s2)
            else if Ascii.eqb d "b" then Some ("008"%char, s2)
            else if Ascii.eqb d "f" then Some ("012"%char, s2)
            else Some (d, s2)
        | _ => None
        end
      else Some (c, s1)
  | _ => None
  end.

Lemma unesc_esc c r : unesc_char (esc_char c +:+ r) = Some (c, r).
Proof. by destruct c as [[] [] [] [] [] [] [] []]. Qed.

Lemma esc_char_quote c r r' : esc_char c +:+ r <> String dquote r'.
Proof. by destruct c as [[] [] [] [] [] [] [] []]. Qed.

Lemma flat_esc_inj a b s t :
  flat_str esc_char a +:+ String dquote s = flat_str esc_char b +:+ String dquote t ->
  a = b /\ s = t.
Proof.
  revert b. induction a as [|c a IH]; intros [|d b]; cbn [flat_str].
  - intros H. by injection H.
  - rewrite append_assoc. intros H. symmetry in H. by apply esc_char_quote in H.
  - rewrite append_assoc. by intros ?%esc_char_quote.
  - rewrite !append_assoc. intros H. apply (f_equal unesc_char) in H.
    rewrite !unesc_esc in H. injection H as -> H. by destruct (IH _ H) as [-> ->].
Qed.

Lemma print_str_inj a b s t : print_str a +:+ s = print_str b +:+ t -> a = b /\ s = t.
Proof.
  unfold print_str. simpl. rewrite !append_assoc. intros H. injection H as H.
  by apply flat_esc_inj in H.
Qed.

Lemma token_inj p a b s t :
  (forall c, p c = true -> c <> ","%char /\ c <> "]"%char /\ c <> "}"%char) ->
  str_all p a = true -> str_all p b = true -> delim s -> delim t ->
  a +:+ s = b +:+ t -> a = b /\ s = t.
Proof.
  intros Hp. revert b. induction a as [|c a IH]; intros [|d b] Ha Hb Hs Ht; simpl in *.
  - done.
  - intros ->. apply andb_prop in Hb as [Hd _]. apply Hp in Hd. simpl in Hs. naive_solver.
  - intros <-. apply andb_prop in Ha as [Hc _]. apply Hp in Hc. simpl in Ht. naive_solver.
  - intros [= -> H]. apply andb_prop in Ha as [_ Ha]. apply andb_prop in Hb as [_ Hb].
    by destruct (IH b Ha Hb Hs Ht H) as [-> ->].
Qed.

Lemma float_char_delim c : is_float_char c = true -> c <> ","%char /\ c <> "]"%char /\ c <> "}"%char.
Proof. by destruct c as [[] [] [] [] [] [] [] []]. Qed.

(** The text of an integer: digits and a sign, never a point or exponent. *)
Definition is_int_char (c : ascii) : bool :=
  ((48 <=? code c)%N && (code c <=? 57)%N) || Ascii.eqb c "-".

Lemma str_of_Z_chars z : str_all is_int_char (str_of_Z z) = true /\ str_of_Z z <> "".
Proof.
  assert (Hu : forall u, str_all is_int_char (NilEmpty.string_of_uint u) = true).
  { induction u; simpl; try rewrite IHu; done. }
  assert (Hz : forall u, str_all is_int_char (NilZero.string_of_uint u) = true /\
                         NilZero.string_of_uint u <> "").
  { intros []; simpl; split; try done; apply Hu. }
  unfold str_of_Z. destruct (Z.to_int z) as [u|u]; simpl; [apply Hz|].
  split; [|done]. apply Hz.
Qed.

Lemma str_all_impl (p q : ascii -> bool) s :
  (forall c, p c = true -> q c = true) -> str_all p s = true -> str_all q s = true.
Proof. intros Hpq. induction s; simpl; [done|]. rewrite !andb_true_iff. naive_solver. Qed.

Lemma str_all_has_char p c s : p c = false -> str_all p s = true -> has_char c s = false.
Proof.
  intros Hc. induction s as [|a s IH]; simpl; [done|]. intros [Ha Hs]%andb_prop.
  rewrite (IH Hs), orb_false_r. apply Ascii.eqb_neq. intros ->. congruence.
Qed.

Lemma int_float_text z : float_text (str_of_Z z) = false.
Proof.
  unfold float_text. destruct (str_of_Z_chars z) as [H _].
  rewrite (str_all_has_char is_int_char "." _ eq_refl H).
  rewrite (str_all_has_char is_int_char "e" _ eq_refl H). apply andb_false_r.
Qed.

Lemma int_char_float c : is_int_char c = true -> is_float_char c = true.
Proof. by destruct c as [[] [] [] [] [] [] [] []]. Qed.

Lemma str_of_Z_float_chars z : str_all is_float_char (str_of_Z z) = true.
Proof. eapply str_all_impl; [apply int_char_float|apply str_of_Z_chars]. Qed.

(** The first character of a value's text, which tells its kind. *)
Definition head (s : string) : option ascii := match s with "" => None | String c _ => Some c end.

Definition number_head (o : option ascii) : Prop :=
  match o with Some c => is_float_char c = true | None => False end.

Lemma number_text_head s : str_all is_float_char s = true -> s <> "" -> number_head (head s).
Proof. destruct s; simpl; [done|]. by intros [H _]%andb_prop. Qed.

Lemma head_app s t : s <> "" -> head (s +:+ t) = head s.
Proof. by destruct s. Qed.

Lemma float_text_chars t : float_text t = true -> str_all is_float_char t = true /\ t <> "".
Proof. unfold float_text. intros [H1 H2]%andb_prop. split; [done|]. by intros ->. Qed.

Lemma print_head v : wf v -> print v <> "" /\
  match v with
  | JInt _ | JFloat _ => number_head (head (print v))
  | JNull => head (print v) = Some "n"%char
  | JBool b => head (print v) = Some (if b then "t" else "f")%char
  | JStr _ => head (print v) = Some dquote
  | JList _ => head (print v) = Some "["%char
  | JObj _ => head (print v) = Some "{"%char
  end.
Proof.
  destruct v as [|[]|z|t|s|l|d]; simpl; intros Hw; try done.
  - destruct (str_of_Z_chars z) as [_ Hne]. split; [done|].
    apply number_text_head; [apply str_of_Z_float_chars|done].
  - apply float_text_chars in Hw as [Hc Hne]. split; [done|]. by apply number_text_head.
Qed.

Lemma print_head_close v c s : wf v -> delim (String c "") -> head (print v +:+ s) <> Some c.
Proof.
  intros Hw Hc Hh. destruct (print_head v Hw) as [Hne Hv]. rewrite head_app in Hh by done.
  simpl in Hc. destruct v as [|[]| | | | |]; rewrite Hh in Hv; simpl in Hv;
    destruct Hc as [->|[->| ->]]; discriminate Hv.
Qed.

(** Lists of prefix-free items, between separators and a closing bracket. *)
Section items.
  Context {A : Type} (W : A -> Prop) (f : A -> string) (close : ascii).
  Context (Hclose : close = "]"%char \/ close = "}"%char).
  Context (Hhead : forall a s c, W a -> delim (String c "") -> head (f a +:+ s) <> Some c).

Lemma delim_close s : delim (String close s).
  Proof. destruct Hclose as [->| ->]; simpl; tauto. Qed.

Definition items (l : list A) : string := join "," (map f l).

  (** What follows the first item. *)
Definition tail (l : list A) (s : string) : string :=
    match l with [] => String close s | _ => String "," (items l +:+ String close s) end.

Lemma items_cons a l s : items (a :: l) +:+ String close s = f a +:+ tail l s.
  Proof. destruct l as [|b l]; [done|]. unfold items. simpl. by rewrite !append_assoc. Qed.

Lemma delim_tail l s : delim (tail l s).
  Proof. destruct l; [apply delim_close|simpl; tauto]. Qed.

Lemma items_inj l l' s t :
    Forall (prefix_inj W f) l -> Forall W l -> Forall W l' ->
    items l +:+ String close s = items l' +:+ String close t -> l = l' /\ s = t.
  Proof.
    intros Hl. revert l'. induction Hl as [|a l Ha Hl IH]; intros [|b l'] Hw Hw' H.
    - by injection H.
    - exfalso. rewrite items_cons in H. inversion Hw'; subst.
      apply (Hhead b (tail l' t) close); [done|apply (delim_close "")|by rewrite <- H].
    - exfalso. rewrite items_cons in H. inversion Hw; subst.
      apply (Hhead a (tail l s) close); [done|apply (delim_close "")|by rewrite H].
    - rewrite !items_cons in H. inversion Hw; inversion Hw'; subst.
      destruct (Ha b _ _ ltac:(done) (delim_tail l s) (delim_tail l' t) H) as [-> Ht].
      destruct l as [|a' l], l' as [|b' l']; simpl in Ht; try discriminate Ht.
      + by injection Ht as ->.
      + exfalso. injection Ht as Hc _. destruct Hclose as [Hd|Hd]; rewrite Hd in Hc; discriminate Hc.
      + exfalso. injection Ht as Hc _. destruct Hclose as [Hd|Hd]; rewrite Hd in Hc; discriminate Hc.
      + injection Ht as Ht. destruct (IH (b' :: l')) as [-> ->]; done.
  Qed.
End items.

Lemma wf_list l : wf (JList l) <-> Forall wf l.
Proof. simpl. induction l; simpl; [done|]. rewrite Forall_cons. tauto. Qed.

Lemma wf_obj d : wf (JObj d) <-> NoDup (map fst d) /\ Forall (fun kv => wf kv.2) d.
Proof.
  simpl. apply and_iff_compat_l. induction d; simpl; [done|]. rewrite Forall_cons. tauto.
Qed.

Definition print_item (kv : string * json) : string := print_str kv.1 +:+ ":" +:+ print kv.2.

Lemma print_item_head kv s c : wf kv.2 -> delim (String c "") -> head (print_item kv +:+ s) <> Some c.
Proof. intros _ Hc. simpl in *. intros [= <-]. naive_solver. Qed.

Lemma print_item_inj kv : prefix_inj wf print kv.2 -> prefix_inj (fun kv => wf kv.2) print_item kv.
Proof.
  intros H [k w] s t Hw Hs Ht. destruct kv as [k' v]. unfold print_item. cbn [fst snd].
  rewrite !append_assoc. intros [-> Hv]%print_str_inj.
  injection Hv as Hv. cbn [snd] in H. destruct (H w s t Hw Hs Ht Hv) as [-> ->]. done.
Qed.

Lemma print_kind v w s t : wf v -> wf w -> print v +:+ s = print w +:+ t ->
  head (print v) = head (print w).
Proof.
  intros Hv Hw H. apply (f_equal head) in H.
  rewrite !head_app in H; [done|by apply print_head..].
Qed.

Lemma number_inj a b s t :
  str_all is_float_char a = true -> str_all is_float_char b = true -> delim s -> delim t ->
  a +:+ s = b +:+ t -> a = b /\ s = t.
Proof. apply token_inj, float_char_delim. Qed.

(** [print] is prefix-free on payloads. *)
Lemma print_prefix_inj v : wf v -> prefix_inj wf print v.
Proof.
  induction v as [|b|z|f|a|l IH|d IH] using json_nested_ind; intros Hv w s t Hw Hs Ht H;
    pose proof (print_kind _ _ _ _ Hv Hw H) as Hk;
    destruct (print_head _ Hv) as [_ Hv1], (print_head _ Hw) as [_ Hw1];
    rewrite Hk in Hv1; clear Hk;
    destruct w as [|b'|z'|f'|a'|l'|d'];
    repeat match goal with
    | b : bool |- _ => destruct b
    end;
    try (rewrite Hv1 in Hw1; first [discriminate Hw1 | exfalso; discriminate Hw1]);
    try (rewrite Hw1 in Hv1; first [discriminate Hv1 | exfalso; discriminate Hv1]).
  all: clear Hv1 Hw1; cbn [print] in H.
  - apply (append_inj_l "null") in H. done.
  - apply (append_inj_l "true") in H. done.
  - apply (append_inj_l "false") in H. done.
  - destruct (number_inj _ _ _ _ (str_of_Z_float_chars z) (str_of_Z_float_chars z') Hs Ht H)
      as [->%str_of_Z_inj ->]. done.
  - exfalso. apply float_text_chars in Hw as Hc.
    destruct (number_inj _ _ _ _ (str_of_Z_float_chars z) (proj1 Hc) Hs Ht H) as [Hz _].
    simpl in Hw. by rewrite <- Hz, int_float_text in Hw.
  - exfalso. apply float_text_chars in Hv as Hc.
    destruct (number_inj _ _ _ _ (proj1 Hc) (str_of_Z_float_chars z') Hs Ht H) as [Hz _].
    simpl in Hv. by rewrite Hz, int_float_text in Hv.
  - apply float_text_chars in Hv as [Hv _], Hw as [Hw _].
    destruct (number_inj _ _ _ _ Hv Hw Hs Ht H) as [-> ->]. done.
  - apply print_str_inj in H as [-> ->]. done.
  - rewrite !append_assoc in H. apply (append_inj_l "[") in H.
    apply wf_list in Hv, Hw. assert (Hl : Forall (prefix_inj wf print) l).
    { rewrite Forall_forall in IH, Hv |- *. naive_solver. }
    destruct (items_inj wf print "]" ltac:(by left) (fun a s c => print_head_close a c s)
      l l' s t Hl Hv Hw H) as [-> ->]. done.
  - rewrite !append_assoc in H. apply (append_inj_l "{") in H.
    apply wf_obj in Hv as [_ Hv], Hw as [_ Hw].
    assert (Hl : Forall (prefix_inj (fun kv => wf kv.2) print_item) d).
    { rewrite Forall_forall in IH, Hv |- *. intros kv Hkv. apply print_item_inj. naive_solver. }
    destruct (items_inj _ print_item "}" ltac:(by right) (fun a s c => print_item_head a s c)
      d d' s t Hl Hv Hw H) as [-> ->]. done.
Qed.

Lemma print_inj v w : wf v -> wf w -> print v = print w -> v = w.
Proof.
  intros Hv Hw H.
  destruct (print_prefix_inj v Hv w "" "" Hw I I) as [-> _]; [|done].
  by rewrite !append_nil_r.
Qed.

(** ** Sorting the keys *)

Lemma key_leb_total {A} (a b : string * A) : key_leb a b = true \/ key_leb b a = true.
Proof. apply str_leb_total. Qed.

Lemma key_leb_trans {A} (a b c : string * A) :
  key_leb a b = true -> key_leb b c = true -> key_leb a c = true.
Proof. apply str_leb_trans. Qed.

Lemma map_fst_pair {A B} (f : A -> B) (d : list (string * A)) :
  map fst (map (fun kv => (kv.1, f kv.2)) d) = map fst d.
Proof. rewrite map_map. by apply map_ext. Qed.

Lemma canon_wf v : wf v -> wf (canon v).
Proof.
  induction v as [|b|z|f|a|l IH|d IH] using json_nested_ind; try done.
  - rewrite wf_list. intros Hl. cbn [canon]. rewrite wf_list. rewrite Forall_map.
    rewrite Forall_forall in IH, Hl |- *. naive_solver.
  - rewrite wf_obj. intros [Hnd Hd]. cbn [canon]. rewrite wf_obj. split.
    + rewrite sort_by_perm. by rewrite map_fst_pair.
    + rewrite sort_by_perm, Forall_map. rewrite Forall_forall in IH, Hd |- *. naive_solver.
Qed.

Lemma sort_keys_perm {A} (d d' : list (string * A)) :
  NoDup (map fst d) -> d ≡ₚ d' -> sort_by key_leb d = sort_by key_leb d'.
Proof.
  intros Hnd. apply sort_by_unique; [apply key_leb_total|apply key_leb_trans|].
  intros [k x] [k' y] Hx Hy H1 H2. assert (k = k') as -> by (by apply str_leb_antisym).
  f_equal. apply elem_of_Permutation in Hx as [d1 Hd1]. rewrite Hd1 in Hnd, Hy.
  cbn in Hnd. apply NoDup_cons in Hnd as [Hnin _]. apply elem_of_cons in Hy as [[= ->]|Hy]; [done|].
  exfalso. apply Hnin. apply list_elem_of_fmap. by exists (k', y).
Qed.

(** Two payloads have the same text exactly when they agree up to the order
    of dictionary keys. *)
Lemma dumps_inj v w : wf v -> wf w -> dumps v = dumps w <-> canon v = canon w.
Proof.
  intros Hv Hw. unfold dumps. split; [|by intros ->].
  apply print_inj; by apply canon_wf.
Qed.

Lemma dumps_obj_perm d d' :
  NoDup (map fst d) -> d ≡ₚ d' -> dumps (JObj d) = dumps (JObj d').
Proof.
  intros Hnd Hp. unfold dumps. f_equal. cbn [canon]. f_equal. apply sort_keys_perm.
  - by rewrite map_fst_pair.
  - by apply Permutation_map.
Qed.

(** ** [int(str(z)) == z] *)

Lemma drop_underscores_id s b : has_char "_" s = false -> drop_underscores b s = Some s.
Proof.
  revert b. induction s as [|c s IH]; intros b; cbn [has_char drop_underscores]; [done|].
  intros [Hc Hs]%orb_false_elim. rewrite Ascii.eqb_sym, Hc. by rewrite IH.
Qed.

Lemma strip_id s : str_all (fun c => negb (is_space c)) s = true -> strip s = s.
Proof.
  intros Hsp. assert (Hl : lstrip_by is_space s = s).
  { destruct s as [|c s]; [done|]. cbn in Hsp |- *. apply andb_prop in Hsp as [Hc _].
    by destruct (is_space c). }
  unfold strip. rewrite Hl. clear Hl. induction s as [|c s IH]; [done|].
  cbn [str_all rstrip_by] in *. apply andb_prop in Hsp as [Hc Hs]. rewrite (IH Hs).
  destruct (is_space c); [done|]. by destruct s.
Qed.

Lemma int_no_space s : str_all is_int_char s = true -> str_all (fun c => negb (is_space c)) s = true.
Proof. apply str_all_impl. intros c. by destruct c as [[] [] [] [] [] [] [] []]. Qed.

Lemma strip_int s : str_all is_int_char s = true -> strip s = s.
Proof. intros Hs. by apply strip_id, int_no_space. Qed.

Lemma uint_string_head u : match NilZero.string_of_uint u with
  | String c _ => c <> "-"%char /\ c <> "+"%char | "" => False end.
Proof. by destruct u. Qed.

Lemma py_int_str_of_Z z : py_int (str_of_Z z) = Some z.
Proof.
  destruct (str_of_Z_chars z) as [Hc _]. unfold py_int. rewrite (strip_int _ Hc).
  assert (Hu : has_char "_" (str_of_Z z) = false) by by apply (str_all_has_char is_int_char).
  assert (Hp : forall u, u <> Decimal.Nil -> NilZero.uint_of_string (NilZero.string_of_uint u) = Some u)
    by apply NilZero.usu.
  unfold str_of_Z in *. pose proof (to_int_nonnil z) as [Hn1 Hn2].
  destruct (Z.to_int z) as [u|u] eqn:E; cbn [NilZero.string_of_int] in *.
  - assert (Hb : match drop_underscores false (NilZero.string_of_uint u) with
                 | Some d => NilZero.uint_of_string d | None => None end = Some u).
    { rewrite drop_underscores_id by done. apply Hp. congruence. }
    pose proof (uint_string_head u) as Hh.
    assert (Hz : Z.of_uint u = z) by (rewrite <- (DecimalZ.of_to z), E; done).
    destruct (NilZero.string_of_uint u) as [|c s]; [done|]. destruct Hh as [H1 H2].
    destruct c as [[] [] [] [] [] [] [] []]; try done; by rewrite Hb, Hz.
  - cbn [has_char] in Hu. apply orb_false_elim in Hu as [_ Hu].
    rewrite drop_underscores_id by done. rewrite Hp by congruence.
    assert (Hz : (- Z.of_uint u)%Z = z) by (rewrite <- (DecimalZ.of_to z), E; done). by rewrite Hz.
Qed.

(** ** Looking up in a canonical dictionary *)

Lemma dict_lookup_elem {A} k (v : A) d : dict_lookup k d = Some v -> (k, v) ∈ d.
Proof.
  unfold dict_lookup. destruct (first _ d) as [[k' v']|] eqn:E; [|done].
  apply first_Some in E as [Hin Hk%String.eqb_eq]. simpl in Hk. subst. by intros [= ->].
Qed.

Lemma dict_lookup_NoDup {A} k (v : A) d : NoDup (map fst d) -> (k, v) ∈ d -> dict_lookup k d = Some v.
Proof.
  unfold dict_lookup. induction d as [|[k' v'] d IH]; simpl; [set_solver|].
  intros [Hn Hnd]%NoDup_cons [[= -> ->]|Hin]%elem_of_cons; [by rewrite String.eqb_refl|].
  destruct (String.eqb_spec k' k) as [->|]; [|by apply IH].
  exfalso. apply Hn. apply list_elem_of_fmap. by exists (k, v).
Qed.

Lemma dict_lookup_perm {A} k (d d' : list (string * A)) : NoDup (map fst d) -> d ≡ₚ d' -> dict_lookup k d = dict_lookup k d'.
Proof.
  intros Hn Hp. assert (Hn' : NoDup (map fst d')) by by rewrite <- Hp.
  destruct (dict_lookup k d) as [v|] eqn:E.
  - symmetry. apply dict_lookup_NoDup; [done|]. rewrite <- Hp. by apply dict_lookup_elem.
  - destruct (dict_lookup k d') as [v|] eqn:E'; [|done]. rewrite <- E.
    apply dict_lookup_NoDup; [done|]. rewrite Hp. by apply dict_lookup_elem.
Qed.

Lemma dict_lookup_map {A B} k (f : A -> B) (d : list (string * A)) :
  dict_lookup k (map (fun kv => (kv.1, f kv.2)) d) = option_map f (dict_lookup k d).
Proof.
  unfold dict_lookup. induction d as [|[k' v] d IH]; [done|]. cbn. destruct (String.eqb k' k); [done|apply IH].
Qed.

Lemma dict_lookup_canon k d : NoDup (map fst d) ->
  dict_lookup k (sort_by key_leb (map (fun kv => (kv.1, canon kv.2)) d)) = option_map canon (dict_lookup k d).
Proof.
  intros Hn. rewrite <- dict_lookup_map. symmetry. apply dict_lookup_perm; [|symmetry; apply sort_by_perm].
  by rewrite map_fst_pair.
Qed.

Lemma dict_lookup_app_Some {A} k (v : A) d e : dict_lookup k d = Some v -> dict_lookup k (d ++ e) = Some v.
Proof.
  unfold dict_lookup. induction d as [|[k' v'] d IH]; [done|]. cbn. by destruct (String.eqb k' k).
Qed.
