(* ===== verification/Enums.v ===== *)
(** * The string enumerations of the domain

    A [StrEnum] of the code is a module of the same name: its type [t] has the
    source's members, [to_str] their values.  The class [StrEnum] states what
    the code relies on: values are distinct, so [E(value)] finds the member,
    and every other string raises [ValueError] ([of_value] is [None]). *)

From S2P Require Import Prelude.
From Stdlib Require Import String.
From stdpp Require Import list strings.

Class StrEnum (A : Type) := {
  value : A -> string;
  members : list A;
  members_all : forall a, List.In a members;
  value_inj : forall a b, value a = value b -> a = b;
}.

(** [E(s)]. *)
Definition of_value {A} `{StrEnum A} (s : string) : option A :=
  first (fun a => String.eqb (value a) s) members.

Lemma of_value_Some {A} `{StrEnum A} s (a : A) : of_value s = Some a <-> value a = s.
Proof.
  unfold of_value. split.
  - intros [_ Ha]%first_Some. by apply String.eqb_eq.
  - intros <-. destruct (first _ _) as [b|] eqn:E.
    + apply first_Some in E as [_ Hb%String.eqb_eq]. f_equal. by apply value_inj.
    + exfalso. assert (Hf : String.eqb (value a) (value a) = false).
      { apply (proj1 (first_None _ _) E). apply list_elem_of_In, members_all. }
      by rewrite String.eqb_refl in Hf.
Qed.

Lemma of_value_value {A} `{StrEnum A} (a : A) : of_value (value a) = Some a.
Proof. by apply of_value_Some. Qed.

Lemma value_eqb {A} `{StrEnum A} (a b : A) : String.eqb (value a) (value b) = true <-> a = b.
Proof. rewrite String.eqb_eq. split; [apply value_inj|by intros ->]. Qed.

#[global] Arguments value : simpl never.
#[global] Arguments of_value : simpl never.

Ltac solve_enum :=
  [> intros []; vm_compute; tauto | intros [] []; first [reflexivity | discriminate] ].

(** ** packages/domain-python/src/memdot_domain/tenancy.py *)

Module AccountStatus.
  (** [class AccountStatus(StrEnum)]. *)
Inductive t : Type :=
| PENDING_ATTESTATION
| ACTIVE
| DISABLED.

#[global] Instance t_eq_dec : EqDecision t.
Proof. solve_decision. Defined.

Definition to_str (x : t) : string :=
  match x with
  | PENDING_ATTESTATION => "pending_attestation"
  | ACTIVE => "active"
  | DISABLED => "disabled"
  end.

Definition all : list t := [PENDING_ATTESTATION; ACTIVE; DISABLED].

#[global] Instance t_enum : StrEnum t.
Proof. by refine {| value := to_str; members := all |}; solve_enum. Defined.
End AccountStatus.

Module SpaceVisibility.
  (** [class SpaceVisibility(StrEnum)]. *)
Inductive t : Type :=
| GENERAL
| LEARNING
| PRIVATE.

#[global] Instance t_eq_dec : EqDecision t.
Proof. solve_decision. Defined.

Definition to_str (x : t) : string :=
  match x with
  | GENERAL => "general"
  | LEARNING => "learning"
  | PRIVATE => "private"
  end.

Definition all : list t := [GENERAL; LEARNING; PRIVATE].

#[global] Instance t_enum : StrEnum t.
Proof. by refine {| value := to_str; members := all |}; solve_enum. Defined.
End SpaceVisibility.

Module MemberRole.
  (** [class MemberRole(StrEnum)]. *)
Inductive t : Type :=
| OWNER
| MEMBER.

#[global] Instance t_eq_dec : EqDecision t.
Proof. solve_decision. Defined.

Definition to_str (x : t) : string :=
  match x with
  | OWNER => "owner"
  | MEMBER => "member"
  end.

Definition all : list t := [OWNER; MEMBER].

#[global] Instance t_enum : StrEnum t.
Proof. by refine {| value := to_str; members := all |}; solve_enum. Defined.
End MemberRole.

Module ActorKind.
  (** [class ActorKind(StrEnum)]. *)
Inductive t : Type :=
| USER
| EXTERNAL_CLIENT
| SYSTEM.

#[global] Instance t_eq_dec : EqDecision t.
Proof. solve_decision. Defined.

Definition to_str (x : t) : string :=
  match x with
  | USER => "user"
  | EXTERNAL_CLIENT => "external_client"
  | SYSTEM => "system"
  end.

Definition all : list t := [USER; EXTERNAL_CLIENT; SYSTEM].

#[global] Instance t_enum : StrEnum t.
Proof. by refine {| value := to_str; members := all |}; solve_enum. Defined.
End ActorKind.

Module RequestPurpose.
  (** [class RequestPurpose(StrEnum)]. *)
Inductive t : Type :=
| FIRST_PARTY
| EXTERNAL_READ
| EXTERNAL_PROPOSE
| EXTERNAL_INTERACTION
| WORKER
| MIGRATION
| ADMIN.

#[global] Instance t_eq_dec : EqDecision t.
Proof. solve_decision. Defined.

Definition to_str (x : t) : string :=
  match x with
  | FIRST_PARTY => "first_party"
  | EXTERNAL_READ => "external_read"
  | EXTERNAL_PROPOSE => "external_propose"
  | EXTERNAL_INTERACTION => "external_interaction"
  | WORKER => "worker"
  | MIGRATION => "migration"
  | ADMIN => "admin"
  end.

Definition all : list t := [FIRST_PARTY; EXTERNAL_READ; EXTERNAL_PROPOSE; EXTERNAL_INTERACTION; WORKER; MIGRATION; ADMIN].

#[global] Instance t_enum : StrEnum t.
Proof. by refine {| value := to_str; members := all |}; solve_enum. Defined.
End RequestPurpose.

Module TruthClass.
  (** [class TruthClass(StrEnum)]. *)
Inductive t : Type :=
| SOURCE_ASSERTION
| USER_ASSERTION
| EXTERNAL_KNOWLEDGE
| DERIVED_PROPOSAL
| APPROVED_DERIVED
| LEARNER_EVIDENCE
| SYSTEM_METADATA.

#[global] Instance t_eq_dec : EqDecision t.
Proof. solve_decision. Defined.

Definition to_str (x : t) : string :=
  match x with
  | SOURCE_ASSERTION => "source_assertion"
  | USER_ASSERTION => "user_assertion"
  | EXTERNAL_KNOWLEDGE => "external_knowledge"
  | DERIVED_PROPOSAL => "derived_proposal"
  | APPROVED_DERIVED => "approved_derived"
  | LEARNER_EVIDENCE => "learner_evidence"
  | SYSTEM_METADATA => "system_metadata"
  end.

Definition all : list t := [SOURCE_ASSERTION; USER_ASSERTION; EXTERNAL_KNOWLEDGE; DERIVED_PROPOSAL; APPROVED_DERIVED; LEARNER_EVIDENCE; SYSTEM_METADATA].

#[global] Instance t_enum : StrEnum t.
Proof. by refine {| value := to_str; members := all |}; solve_enum. Defined.
End TruthClass.

Module ConflictResolution.
  (** [class ConflictResolution(StrEnum)]. *)
Inductive t : Type :=
| UNRESOLVED
| USER_RESOLVED
| SOURCE_SUPERSEDED.

#[global] Instance t_eq_dec : EqDecision t.
Proof. solve_decision. Defined.

Definition to_str (x : t) : string :=
  match x with
  | UNRESOLVED => "unresolved"
  | USER_RESOLVED => "user_resolved"
  | SOURCE_SUPERSEDED => "source_superseded"
  end.

Definition all : list t := [UNRESOLVED; USER_RESOLVED; SOURCE_SUPERSEDED].

#[global] Instance t_enum : StrEnum t.
Proof. by refine {| value := to_str; members := all |}; solve_enum. Defined.
End ConflictResolution.

Module ProposalStatus.
  (** [class ProposalStatus(StrEnum)]. *)
Inductive t : Type :=
| PENDING
| APPROVED
| REJECTED
| EXPIRED
| CONFLICTED.

#[global] Instance t_eq_dec : EqDecision t.
Proof. solve_decision. Defined.

Definition to_str (x : t) : string :=
  match x with
  | PENDING => "pending"
  | APPROVED => "approved"
  | REJECTED => "rejected"
  | EXPIRED => "expired"
  | CONFLICTED => "conflicted"
  end.

Definition all : list t := [PENDING; APPROVED; REJECTED; EXPIRED; CONFLICTED].

#[global] Instance t_enum : StrEnum t.
Proof. by refine {| value := to_str; members := all |}; solve_enum. Defined.
End ProposalStatus.

(** ** packages/domain-python/src/memdot_domain/ingestion.py *)

Module SourceProcessingStatus.
  (** [class SourceProcessingStatus(StrEnum)]. *)
Inductive t : Type :=
| DRAFT
| UPLOAD_PENDING
| UPLOADED
| QUEUED
| RUNNING
| PARTIAL
| SUCCEEDED
| FAILED
| CANCELLED.

#[global] Instance t_eq_dec : EqDecision t.
Proof. solve_decision. Defined.

Definition to_str (x : t) : string :=
  match x with
  | DRAFT => "draft"
  | UPLOAD_PENDING => "upload_pending"
  | UPLOADED => "uploaded"
  | QUEUED => "queued"
  | RUNNING => "running"
  | PARTIAL => "partial"
  | SUCCEEDED => "succeeded"
  | FAILED => "failed"
  | CANCELLED => "cancelled"
  end.

Definition all : list t := [DRAFT; UPLOAD_PENDING; UPLOADED; QUEUED; RUNNING; PARTIAL; SUCCEEDED; FAILED; CANCELLED].

#[global] Instance t_enum : StrEnum t.
Proof. by refine {| value := to_str; members := all |}; solve_enum. Defined.
End SourceProcessingStatus.

Module ParseRunStatus.
  (** [class ParseRunStatus(StrEnum)]. *)
Inductive t : Type :=
| PENDING
| RUNNING
| SUCCEEDED
| FAILED
| CANCELLED.

#[global] Instance t_eq_dec : EqDecision t.
Proof. solve_decision. Defined.

Definition to_str (x : t) : string :=
  match x with
  | PENDING => "pending"
  | RUNNING => "running"
  | SUCCEEDED => "succeeded"
  | FAILED => "failed"
  | CANCELLED => "cancelled"
  end.

Definition all : list t := [PENDING; RUNNING; SUCCEEDED; FAILED; CANCELLED].

#[global] Instance t_enum : StrEnum t.
Proof. by refine {| value := to_str; members := all |}; solve_enum. Defined.
End ParseRunStatus.

Module JobStatus.
  (** [class JobStatus(StrEnum)]. *)
Inductive t : Type :=
| PENDING
| QUEUED
| RUNNING
| SUCCEEDED
| FAILED
| CANCELLED
| DEAD_LETTER.

#[global] Instance t_eq_dec : EqDecision t.
Proof. solve_decision. Defined.

Definition to_str (x : t) : string :=
  match x with
  | PENDING => "pending"
  | QUEUED => "queued"
  | RUNNING => "running"
  | SUCCEEDED => "succeeded"
  | FAILED => "failed"
  | CANCELLED => "cancelled"
  | DEAD_LETTER => "dead_letter"
  end.

Definition all : list t := [PENDING; QUEUED; RUNNING; SUCCEEDED; FAILED; CANCELLED; DEAD_LETTER].

#[global] Instance t_enum : StrEnum t.
Proof. by refine {| value := to_str; members := all |}; solve_enum. Defined.
End JobStatus.

Module ElementKind.
  (** [class ElementKind(StrEnum)]. *)
Inductive t : Type :=
| HEADING
| PARAGRAPH
| LIST
| LIST_ITEM
| TABLE
| TABLE_ROW
| TABLE_CELL
| FORMULA
| FIGURE
| ASSET
| PAGE
| CODE_BLOCK.

#[global] Instance t_eq_dec : EqDecision t.
Proof. solve_decision. Defined.

Definition to_str (x : t) : string :=
  match x with
  | HEADING => "heading"
  | PARAGRAPH => "paragraph"
  | LIST => "list"
  | LIST_ITEM => "list_item"
  | TABLE => "table"
  | TABLE_ROW => "table_row"
  | TABLE_CELL => "table_cell"
  | FORMULA => "formula"
  | FIGURE => "figure"
  | ASSET => "asset"
  | PAGE => "page"
  | CODE_BLOCK => "code_block"
  end.

Definition all : list t := [HEADING; PARAGRAPH; LIST; LIST_ITEM; TABLE; TABLE_ROW; TABLE_CELL; FORMULA; FIGURE; ASSET; PAGE; CODE_BLOCK].

#[global] Instance t_enum : StrEnum t.
Proof. by refine {| value := to_str; members := all |}; solve_enum. Defined.
End ElementKind.

Module BlobKind.
  (** [class BlobKind(StrEnum)]. *)
Inductive t : Type :=
| ORIGINAL
| CONNECTOR_SNAPSHOT
| PARSER_ARTIFACT
| RENDERED_PAGE
| ASSET
| EXPORT
| QUARANTINE.

#[global] Instance t_eq_dec : EqDecision t.
Proof. solve_decision. Defined.

Definition to_str (x : t) : string :=
  match x with
  | ORIGINAL => "original"
  | CONNECTOR_SNAPSHOT => "connector_snapshot"
  | PARSER_ARTIFACT => "parser_artifact"
  | RENDERED_PAGE => "rendered_page"
  | ASSET => "asset"
  | EXPORT => "export"
  | QUARANTINE => "quarantine"
  end.

Definition all : list t := [ORIGINAL; CONNECTOR_SNAPSHOT; PARSER_ARTIFACT; RENDERED_PAGE; ASSET; EXPORT; QUARANTINE].

#[global] Instance t_enum : StrEnum t.
Proof. by refine {| value := to_str; members := all |}; solve_enum. Defined.
End BlobKind.

(** ** packages/domain-python/src/memdot_domain/learning.py *)

Module CurriculumNodeKind.
  (** [class CurriculumNodeKind(StrEnum)]. *)
Inductive t : Type :=
| UNIT
| OBJECTIVE
| CONCEPT
| SOURCE_UNIT.

#[global] Instance t_eq_dec : EqDecision t.
Proof. solve_decision. Defined.

Definition to_str (x : t) : string :=
  match x with
  | UNIT => "unit"
  | OBJECTIVE => "objective"
  | CONCEPT => "concept"
  | SOURCE_UNIT => "source_unit"
  end.

Definition all : list t := [UNIT; OBJECTIVE; CONCEPT; SOURCE_UNIT].

#[global] Instance t_enum : StrEnum t.
Proof. by refine {| value := to_str; members := all |}; solve_enum. Defined.
End CurriculumNodeKind.

Module ConfirmationState.
  (** [class ConfirmationState(StrEnum)]. *)
Inductive t : Type :=
| SUGGESTED
| CONFIRMED.

#[global] Instance t_eq_dec : EqDecision t.
Proof. solve_decision. Defined.

Definition to_str (x : t) : string :=
  match x with
  | SUGGESTED => "suggested"
  | CONFIRMED => "confirmed"
  end.

Definition all : list t := [SUGGESTED; CONFIRMED].

#[global] Instance t_enum : StrEnum t.
Proof. by refine {| value := to_str; members := all |}; solve_enum. Defined.
End ConfirmationState.

Module AssessmentItemType.
  (** [class AssessmentItemType(StrEnum)]. *)
Inductive t : Type :=
| MCQ
| SHORT_ANSWER
| WRITTEN.

#[global] Instance t_eq_dec : EqDecision t.
Proof. solve_decision. Defined.

Definition to_str (x : t) : string :=
  match x with
  | MCQ => "mcq"
  | SHORT_ANSWER => "short_answer"
  | WRITTEN => "written"
  end.

Definition all : list t := [MCQ; SHORT_ANSWER; WRITTEN].

#[global] Instance t_enum : StrEnum t.
Proof. by refine {| value := to_str; members := all |}; solve_enum. Defined.
End AssessmentItemType.

Module AssessmentState.
  (** [class AssessmentState(StrEnum)]. *)
Inductive t : Type :=
| DRAFT
| PROVISIONAL
| HUMAN_VERIFIED
| RETIRED.

#[global] Instance t_eq_dec : EqDecision t.
Proof. solve_decision. Defined.

Definition to_str (x : t) : string :=
  match x with
  | DRAFT => "draft"
  | PROVISIONAL => "provisional"
  | HUMAN_VERIFIED => "human_verified"
  | RETIRED => "retired"
  end.

Definition all : list t := [DRAFT; PROVISIONAL; HUMAN_VERIFIED; RETIRED].

#[global] Instance t_enum : StrEnum t.
Proof. by refine {| value := to_str; members := all |}; solve_enum. Defined.
End AssessmentState.

Module LearnerEventType.
  (** [class LearnerEventType(StrEnum)]. *)
Inductive t : Type :=
| ATTEMPT_STARTED
| RESPONSE_CAPTURED
| CONFIDENCE_RECORDED
| HINT_REQUESTED
| HINT_REVEALED
| ANSWER_REVEALED
| GRADE_RECORDED
| REVIEW_RATED
| ITEM_RETIRED
| USER_CHAT_MARKER
| PROJECTION_CORRECTED.

#[global] Instance t_eq_dec : EqDecision t.
Proof. solve_decision. Defined.

Definition to_str (x : t) : string :=
  match x with
  | ATTEMPT_STARTED => "attempt_started"
  | RESPONSE_CAPTURED => "response_captured"
  | CONFIDENCE_RECORDED => "confidence_recorded"
  | HINT_REQUESTED => "hint_requested"
  | HINT_REVEALED => "hint_revealed"
  | ANSWER_REVEALED => "answer_revealed"
  | GRADE_RECORDED => "grade_recorded"
  | REVIEW_RATED => "review_rated"
  | ITEM_RETIRED => "item_retired"
  | USER_CHAT_MARKER => "user_chat_marker"
  | PROJECTION_CORRECTED => "projection_corrected"
  end.

Definition all : list t := [ATTEMPT_STARTED; RESPONSE_CAPTURED; CONFIDENCE_RECORDED; HINT_REQUESTED; HINT_REVEALED; ANSWER_REVEALED; GRADE_RECORDED; REVIEW_RATED; ITEM_RETIRED; USER_CHAT_MARKER; PROJECTION_CORRECTED].

#[global] Instance t_enum : StrEnum t.
Proof. by refine {| value := to_str; members := all |}; solve_enum. Defined.
End LearnerEventType.

Module EvidenceEligibility.
  (** [class EvidenceEligibility(StrEnum)]. *)
Inductive t : Type :=
| ELIGIBLE
| INELIGIBLE.

#[global] Instance t_eq_dec : EqDecision t.
Proof. solve_decision. Defined.

Definition to_str (x : t) : string :=
  match x with
  | ELIGIBLE => "eligible"
  | INELIGIBLE => "ineligible"
  end.

Definition all : list t := [ELIGIBLE; INELIGIBLE].

#[global] Instance t_enum : StrEnum t.
Proof. by refine {| value := to_str; members := all |}; solve_enum. Defined.
End EvidenceEligibility.

Module EvidenceState.
  (** [class EvidenceState(StrEnum)]. *)
Inductive t : Type :=
| UNASSESSED
| PRACTICING
| DEMONSTRATED
| DELAYED_DEMONSTRATED.

#[global] Instance t_eq_dec : EqDecision t.
Proof. solve_decision. Defined.

Definition to_str (x : t) : string :=
  match x with
  | UNASSESSED => "unassessed"
  | PRACTICING => "practicing"
  | DEMONSTRATED => "demonstrated"
  | DELAYED_DEMONSTRATED => "delayed_demonstrated"
  end.

Definition all : list t := [UNASSESSED; PRACTICING; DEMONSTRATED; DELAYED_DEMONSTRATED].

#[global] Instance t_enum : StrEnum t.
Proof. by refine {| value := to_str; members := all |}; solve_enum. Defined.
End EvidenceState.

Module RecallState.
  (** [class RecallState(StrEnum)]. *)
Inductive t : Type :=
| CURRENT
| DUE
| LAPSED.

#[global] Instance t_eq_dec : EqDecision t.
Proof. solve_decision. Defined.

Definition to_str (x : t) : string :=
  match x with
  | CURRENT => "current"
  | DUE => "due"
  | LAPSED => "lapsed"
  end.

Definition all : list t := [CURRENT; DUE; LAPSED].

#[global] Instance t_enum : StrEnum t.
Proof. by refine {| value := to_str; members := all |}; solve_enum. Defined.
End RecallState.

Module ConfidenceLabel.
  (** [class ConfidenceLabel(StrEnum)]. *)
Inductive t : Type :=
| GUESSING
| UNSURE
| SURE.

#[global] Instance t_eq_dec : EqDecision t.
Proof. solve_decision. Defined.

Definition to_str (x : t) : string :=
  match x with
  | GUESSING => "guessing"
  | UNSURE => "unsure"
  | SURE => "sure"
  end.

Definition all : list t := [GUESSING; UNSURE; SURE].

#[global] Instance t_enum : StrEnum t.
Proof. by refine {| value := to_str; members := all |}; solve_enum. Defined.
End ConfidenceLabel.

(** ** packages/domain-python/src/memdot_domain/memory.py *)

Module MemoryAssertionType.
  (** [class MemoryAssertionType(StrEnum)]. *)
Inductive t : Type :=
| FACT
| RELATIONSHIP
| SUMMARY
| DEFINITION.

#[global] Instance t_eq_dec : EqDecision t.
Proof. solve_decision. Defined.

Definition to_str (x : t) : string :=
  match x with
  | FACT => "fact"
  | RELATIONSHIP => "relationship"
  | SUMMARY => "summary"
  | DEFINITION => "definition"
  end.

Definition all : list t := [FACT; RELATIONSHIP; SUMMARY; DEFINITION].

#[global] Instance t_enum : StrEnum t.
Proof. by refine {| value := to_str; members := all |}; solve_enum. Defined.
End MemoryAssertionType.

Module MemoryRevisionStatus.
  (** [class MemoryRevisionStatus(StrEnum)]. *)
Inductive t : Type :=
| ACTIVE
| SUPERSEDED
| RETRACTED.

#[global] Instance t_eq_dec : EqDecision t.
Proof. solve_decision. Defined.

Definition to_str (x : t) : string :=
  match x with
  | ACTIVE => "active"
  | SUPERSEDED => "superseded"
  | RETRACTED => "retracted"
  end.

Definition all : list t := [ACTIVE; SUPERSEDED; RETRACTED].

#[global] Instance t_enum : StrEnum t.
Proof. by refine {| value := to_str; members := all |}; solve_enum. Defined.
End MemoryRevisionStatus.

(** ** packages/domain-python/src/memdot_domain/mcp.py *)

Module ConversationCompleteness.
  (** [class ConversationCompleteness(StrEnum)]. *)
Inductive t : Type :=
| COMPLETE
| PARTIAL
| SUMMARY
| UNKNOWN.

#[global] Instance t_eq_dec : EqDecision t.
Proof. solve_decision. Defined.

Definition to_str (x : t) : string :=
  match x with
  | COMPLETE => "complete"
  | PARTIAL => "partial"
  | SUMMARY => "summary"
  | UNKNOWN => "unknown"
  end.

Definition all : list t := [COMPLETE; PARTIAL; SUMMARY; UNKNOWN].

#[global] Instance t_enum : StrEnum t.
Proof. by refine {| value := to_str; members := all |}; solve_enum. Defined.
End ConversationCompleteness.

Module McpInteractionCompleteness.
  (** [class McpInteractionCompleteness(StrEnum)]. *)
Inductive t : Type :=
| SINGLE_TURN
| PARTIAL_THREAD
| COMPLETE_IMPORT.

#[global] Instance t_eq_dec : EqDecision t.
Proof. solve_decision. Defined.

Definition to_str (x : t) : string :=
  match x with
  | SINGLE_TURN => "single_turn"
  | PARTIAL_THREAD => "partial_thread"
  | COMPLETE_IMPORT => "complete_import"
  end.

Definition all : list t := [SINGLE_TURN; PARTIAL_THREAD; COMPLETE_IMPORT].

#[global] Instance t_enum : StrEnum t.
Proof. by refine {| value := to_str; members := all |}; solve_enum. Defined.
End McpInteractionCompleteness.

Module CaptureOrigin.
  (** [class CaptureOrigin(StrEnum)]. *)
Inductive t : Type :=
| NATIVE
| EXTERNAL_MCP
| IMPORT.

#[global] Instance t_eq_dec : EqDecision t.
Proof. solve_decision. Defined.

Definition to_str (x : t) : string :=
  match x with
  | NATIVE => "native"
  | EXTERNAL_MCP => "external_mcp"
  | IMPORT => "import"
  end.

Definition all : list t := [NATIVE; EXTERNAL_MCP; IMPORT].

#[global] Instance t_enum : StrEnum t.
Proof. by refine {| value := to_str; members := all |}; solve_enum. Defined.
End CaptureOrigin.

(** ** packages/domain-python/src/memdot_domain/retrieval.py *)

Module CandidateLane.
  (** [class CandidateLane(StrEnum)]. *)
Inductive t : Type :=
| TEMPORAL_EXACT
| EXACT
| OSS_SEMANTIC
| TEX
| GRAPH.

#[global] Instance t_eq_dec : EqDecision t.
Proof. solve_decision. Defined.

Definition to_str (x : t) : string :=
  match x with
  | TEMPORAL_EXACT => "temporal_exact"
  | EXACT => "exact"
  | OSS_SEMANTIC => "oss_semantic"
  | TEX => "tex"
  | GRAPH => "graph"
  end.

Definition all : list t := [TEMPORAL_EXACT; EXACT; OSS_SEMANTIC; TEX; GRAPH].

#[global] Instance t_enum : StrEnum t.
Proof. by refine {| value := to_str; members := all |}; solve_enum. Defined.
End CandidateLane.

(** ** packages/domain-python/src/memdot_domain/context_compiler.py *)

Module OmitReason.
  (** [class OmitReason(StrEnum)]. *)
Inductive t : Type :=
| BUDGET
| PRIVATE
| RETRACTED
| STALE
| DUPLICATE
| POLICY.

#[global] Instance t_eq_dec : EqDecision t.
Proof. solve_decision. Defined.

Definition to_str (x : t) : string :=
  match x with
  | BUDGET => "budget_exceeded"
  | PRIVATE => "private_space_excluded"
  | RETRACTED => "retracted"
  | STALE => "stale_revision"
  | DUPLICATE => "duplicate"
  | POLICY => "policy_excluded"
  end.

Definition all : list t := [BUDGET; PRIVATE; RETRACTED; STALE; DUPLICATE; POLICY].

#[global] Instance t_enum : StrEnum t.
Proof. by refine {| value := to_str; members := all |}; solve_enum. Defined.
End OmitReason.

(** ** packages/domain-python/src/memdot_domain/fsrs.py *)

Module FsrsRating.
  (** [class FsrsRating(StrEnum)]. *)
Inductive t : Type :=
| AGAIN
| HARD
| GOOD
| EASY.

#[global] Instance t_eq_dec : EqDecision t.
Proof. solve_decision. Defined.

Definition to_str (x : t) : string :=
  match x with
  | AGAIN => "again"
  | HARD => "hard"
  | GOOD => "good"
  | EASY => "easy"
  end.

Definition all : list t := [AGAIN; HARD; GOOD; EASY].

#[global] Instance t_enum : StrEnum t.
Proof. by refine {| value := to_str; members := all |}; solve_enum. Defined.
End FsrsRating.

(** ** packages/domain-python/src/memdot_domain/document.py *)

Module BlockType.
  (** [class BlockType(StrEnum)]. *)
Inductive t : Type :=
| PARAGRAPH
| HEADING
| BULLET_LIST
| ORDERED_LIST
| LIST_ITEM
| BLOCKQUOTE
| CODE_BLOCK
| HORIZONTAL_RULE
| IMAGE
| UNSUPPORTED.

#[global] Instance t_eq_dec : EqDecision t.
Proof. solve_decision. Defined.

Definition to_str (x : t) : string :=
  match x with
  | PARAGRAPH => "paragraph"
  | HEADING => "heading"
  | BULLET_LIST => "bulletList"
  | ORDERED_LIST => "orderedList"
  | LIST_ITEM => "listItem"
  | BLOCKQUOTE => "blockquote"
  | CODE_BLOCK => "codeBlock"
  | HORIZONTAL_RULE => "horizontalRule"
  | IMAGE => "image"
  | UNSUPPORTED => "unsupported_block"
  end.

Definition all : list t := [PARAGRAPH; HEADING; BULLET_LIST; ORDERED_LIST; LIST_ITEM; BLOCKQUOTE; CODE_BLOCK; HORIZONTAL_RULE; IMAGE; UNSUPPORTED].

#[global] Instance t_enum : StrEnum t.
Proof. by refine {| value := to_str; members := all |}; solve_enum. Defined.
End BlockType.

Module MarkType.
  (** [class MarkType(StrEnum)]. *)
Inductive t : Type :=
| BOLD
| ITALIC
| CODE
| LINK.

#[global] Instance t_eq_dec : EqDecision t.
Proof. solve_decision. Defined.

Definition to_str (x : t) : string :=
  match x with
  | BOLD => "bold"
  | ITALIC => "italic"
  | CODE => "code"
  | LINK => "link"
  end.

Definition all : list t := [BOLD; ITALIC; CODE; LINK].

#[global] Instance t_enum : StrEnum t.
Proof. by refine {| value := to_str; members := all |}; solve_enum. Defined.
End MarkType.

(** ** packages/domain-python/src/memdot_domain/ports/object_storage.py *)

Module ObjectLifecycleClass.
  (** [class ObjectLifecycleClass(StrEnum)]. *)
Inductive t : Type :=
| ORIGINAL
| ARTIFACT
| QUARANTINE
| EXPORT.

#[global] Instance t_eq_dec : EqDecision t.
Proof. solve_decision. Defined.

Definition to_str (x : t) : string :=
  match x with
  | ORIGINAL => "original"
  | ARTIFACT => "artifact"
  | QUARANTINE => "quarantine"
  | EXPORT => "export"
  end.

Definition all : list t := [ORIGINAL; ARTIFACT; QUARANTINE; EXPORT].

#[global] Instance t_enum : StrEnum t.
Proof. by refine {| value := to_str; members := all |}; solve_enum. Defined.
End ObjectLifecycleClass.

(** ** packages/domain-python/src/memdot_domain/ports/parser.py *)

Module ParserProfile.
  (** [class ParserProfile(StrEnum)]. *)
Inductive t : Type :=
| NATIVE_TEXT
| NATIVE_PDF
| NATIVE_OFFICE
| DOCLING
| OCR_PADDLE.

#[global] Instance t_eq_dec : EqDecision t.
Proof. solve_decision. Defined.

Definition to_str (x : t) : string :=
  match x with
  | NATIVE_TEXT => "native_text_v1"
  | NATIVE_PDF => "native_pdf_v1"
  | NATIVE_OFFICE => "native_office_v1"
  | DOCLING => "docling_v1"
  | OCR_PADDLE => "ocr_paddle_v1"
  end.

Definition all : list t := [NATIVE_TEXT; NATIVE_PDF; NATIVE_OFFICE; DOCLING; OCR_PADDLE].

#[global] Instance t_enum : StrEnum t.
Proof. by refine {| value := to_str; members := all |}; solve_enum. Defined.
End ParserProfile.

(** ** packages/domain-python/src/memdot_domain/types.py *)

Module HealthStatus.
  (** [class HealthStatus(StrEnum)]. *)
Inductive t : Type :=
| OK
| DEGRADED
| UNAVAILABLE.

#[global] Instance t_eq_dec : EqDecision t.
Proof. solve_decision. Defined.

Definition to_str (x : t) : string :=
  match x with
  | OK => "ok"
  | DEGRADED => "degraded"
  | UNAVAILABLE => "unavailable"
  end.

Definition all : list t := [OK; DEGRADED; UNAVAILABLE].

#[global] Instance t_enum : StrEnum t.
Proof. by refine {| value := to_str; members := all |}; solve_enum. Defined.
End HealthStatus.

(** ** services/core/src/memdot_core/errors.py *)

Module ErrorCode.
  (** [class ErrorCode(StrEnum)]. *)
Inductive t : Type :=
| INTERNAL_ERROR
| SERVICE_UNAVAILABLE
| VALIDATION_ERROR
| UNAUTHORIZED
| FORBIDDEN
| NOT_FOUND
| CONFLICT
| IDEMPOTENCY_CONFLICT
| PAYLOAD_TOO_LARGE
| RATE_LIMITED
| RECENT_AUTH_REQUIRED
| CSRF_INVALID
| CURSOR_INVALID
| UPLOAD_INVALID
| PROCESSING_FAILED
| CONCURRENCY_LIMIT.

#[global] Instance t_eq_dec : EqDecision t.
Proof. solve_decision. Defined.

Definition to_str (x : t) : string :=
  match x with
  | INTERNAL_ERROR => "internal_error"
  | SERVICE_UNAVAILABLE => "service_unavailable"
  | VALIDATION_ERROR => "validation_error"
  | UNAUTHORIZED => "unauthorized"
  | FORBIDDEN => "forbidden"
  | NOT_FOUND => "not_found"
  | CONFLICT => "conflict"
  | IDEMPOTENCY_CONFLICT => "idempotency_conflict"
  | PAYLOAD_TOO_LARGE => "payload_too_large"
  | RATE_LIMITED => "rate_limited"
  | RECENT_AUTH_REQUIRED => "recent_auth_required"
  | CSRF_INVALID => "csrf_invalid"
  | CURSOR_INVALID => "cursor_invalid"
  | UPLOAD_INVALID => "upload_invalid"
  | PROCESSING_FAILED => "processing_failed"
  | CONCURRENCY_LIMIT => "concurrency_limit"
  end.

Definition all : list t := [INTERNAL_ERROR; SERVICE_UNAVAILABLE; VALIDATION_ERROR; UNAUTHORIZED; FORBIDDEN; NOT_FOUND; CONFLICT; IDEMPOTENCY_CONFLICT; PAYLOAD_TOO_LARGE; RATE_LIMITED; RECENT_AUTH_REQUIRED; CSRF_INVALID; CURSOR_INVALID; UPLOAD_INVALID; PROCESSING_FAILED; CONCURRENCY_LIMIT].

#[global] Instance t_enum : StrEnum t.
Proof. by refine {| value := to_str; members := all |}; solve_enum. Defined.
End ErrorCode.
