(* ===== verification/Float64.v ===== *)
(** * IEEE 754 binary64, as Python's [float] uses it

    Every finite double is a whole number of 2^-1074, the smallest positive
    subnormal; [f64] is that number.  The order of doubles is then the order
    of [Z], addition is exact before rounding, and rounding a quotient [a / b]
    of such numbers to nearest, ties to even, is [r64 a b], subnormals
    included.  Not modelled: infinities, NaN and the sign of zero; the
    magnitudes of this program stay far below 2^1024 (the scheduler raises
    before its intervals reach 2^50).

    [round4] is Python's [round(x, 4)]: the correctly rounded decimal, read
    back as a double.  [us_of_days] is the number of microseconds of
    [timedelta(days=d)] for a float [d >= 0]. *)

From S2P Require Import Prelude.
From Stdlib Require Import ZArith Lia.
Open Scope Z_scope.

Notation f64 := Z (only parsing).

(** The unit: [one] is 1.0. *)
Definition one : f64 := 2 ^ 1074.

(** Round [a / b] ([b > 0]) to an integer, ties to even. *)
Definition rne (a b : Z) : Z :=
  let q := a / b in
  let r := a mod b in
  if 2 * r <? b then q
  else if b <? 2 * r then q + 1
  else if Z.even q then q else q + 1.

(** The exponent of the last place of [a / b] ([a >= 0], [b > 0]). *)
Definition ulp_exp (a b : Z) : Z := Z.max 0 (Z.log2 (a / b) - 52).

Definition r64_pos (a b : Z) : f64 :=
  let u := ulp_exp a b in rne a (b * 2 ^ u) * 2 ^ u.

Definition r64 (a b : Z) : f64 := if a <? 0 then - r64_pos (- a) b else r64_pos a b.

(** A literal [p/q], an integer converted to float, and the arithmetic. *)
Definition lit (p q : Z) : f64 := r64 (p * one) q.
Definition of_int (n : Z) : f64 := lit n 1.
Definition fadd (x y : f64) : f64 := r64 (x + y) 1.
Definition fsub (x y : f64) : f64 := r64 (x - y) 1.
Definition fmul (x y : f64) : f64 := r64 (x * y) one.
(** [x / y]; [y] positive. *)
Definition fdiv (x y : f64) : f64 := r64 (x * one) y.

Definition round4 (x : f64) : f64 :=
  if x <? 0 then - lit (rne (- x * 10000) one) 10000 else lit (rne (x * 10000) one) 10000.

(** [timedelta]'s accumulation of a float number of days: the whole days are
    exact, the fraction is multiplied out in floating point and rounded. *)
Definition us_per_day : Z := 86400000000.
Definition us_of_days (d : f64) : Z :=
  d / one * us_per_day + rne (fmul (of_int us_per_day) (d mod one)) one.

(** ** Rounding to an integer *)

Lemma rne_spec a b : 0 < b ->
  2 * a - b <= 2 * (b * rne a b) <= 2 * a + b /\
  (2 * (b * rne a b) = 2 * a + b \/ 2 * (b * rne a b) = 2 * a - b -> Z.even (rne a b) = true).
Proof.
  intros Hb. unfold rne. pose proof (Z.div_mod a b ltac:(lia)) as Ha.
  pose proof (Z.mod_pos_bound a b Hb) as Hr.
  set (q := a / b) in *. set (r := a mod b) in *. clearbody q r. subst a.
  destruct (Z.ltb_spec (2 * r) b); [split; [lia|nia]|].
  destruct (Z.ltb_spec b (2 * r)); [split; [lia|nia]|].
  destruct (Z.even q) eqn:E; split; try lia; try done.
  intros _. by rewrite Z.add_1_r, Z.even_succ, <- Z.negb_even, E.
Qed.

Lemma rne_mono a b a' b' : 0 < b -> 0 < b' -> a * b' <= a' * b -> rne a b <= rne a' b'.
Proof.
  intros Hb Hb' Hle. destruct (rne_spec a b Hb) as [H1 He], (rne_spec a' b' Hb') as [H1' He'].
  set (m := rne a b) in *. set (m' := rne a' b') in *. clearbody m m'.
  destruct (Z.le_gt_cases m m') as [|Hlt]; [done|exfalso].
  assert (Hge : b * (2 * m - 1) <= 2 * a) by nia.
  assert (Hge' : 2 * a' <= b' * (2 * m' + 1)) by nia.
  assert (Hc : b * b' * (2 * m - 1) <= b * b' * (2 * m' + 1)) by nia.
  assert (m = m' + 1) as -> by nia.
  assert (H2 : 2 * a = b * (2 * m' + 1)) by nia.
  assert (H2' : 2 * a' = b' * (2 * m' + 1)) by nia.
  specialize (He ltac:(nia)). specialize (He' ltac:(nia)).
  by rewrite Z.add_1_r, Z.even_succ, <- Z.negb_even, He' in He.
Qed.

Lemma rne_exact m b : 0 < b -> rne (m * b) b = m.
Proof. intros Hb. unfold rne. rewrite Z.div_mul, Z.mod_mul by lia. destruct (Z.ltb_spec (2 * 0) b); lia. Qed.

Lemma rne_ge m a b : 0 < b -> m * b <= a -> m <= rne a b.
Proof. intros Hb H. rewrite <- (rne_exact m 1) by lia. apply rne_mono; lia. Qed.

Lemma rne_le m a b : 0 < b -> a <= m * b -> rne a b <= m.
Proof. intros Hb H. rewrite <- (rne_exact m 1) by lia. apply rne_mono; lia. Qed.

(** ** Rounding to a double *)

Lemma pow2_pos u : 0 <= u -> 0 < 2 ^ u.
Proof. intros. by apply Z.pow_pos_nonneg. Qed.

Lemma ulp_exp_mono a b a' b' : 0 <= a -> 0 < b -> 0 < b' -> a * b' <= a' * b ->
  ulp_exp a b <= ulp_exp a' b'.
Proof.
  intros Ha Hb Hb' H. unfold ulp_exp.
  assert (a / b <= a' / b').
  { apply Z.div_le_lower_bound; [done|].
    pose proof (Z.mul_div_le a b Hb). nia. }
  assert (Z.log2 (a / b) <= Z.log2 (a' / b')) by by apply Z.log2_le_mono. lia.
Qed.

Lemma div_lt_ulp a b : 0 <= a -> 0 < b -> a < b * 2 ^ (53 + ulp_exp a b).
Proof.
  intros Ha Hb. unfold ulp_exp. set (f := a / b).
  assert (0 <= f) by (apply Z.div_pos; lia).
  assert (Hf : f < 2 ^ (53 + Z.max 0 (Z.log2 f - 52))).
  { destruct (Z.eq_dec f 0) as [->|Hf0]; [apply pow2_pos; simpl; lia|].
    pose proof (Z.log2_spec f ltac:(lia)) as [_ H1].
    eapply Z.lt_le_trans; [exact H1|]. apply Z.pow_le_mono_r; lia. }
  pose proof (Z.mod_pos_bound a b Hb). pose proof (Z.div_mod a b ltac:(lia)) as Hd.
  change (a / b) with f in Hd. nia.
Qed.

Lemma div_ge_ulp a b : 0 <= a -> 0 < b -> 0 < ulp_exp a b -> b * 2 ^ (52 + ulp_exp a b) <= a.
Proof.
  intros Ha Hb. unfold ulp_exp. set (f := a / b). intros Hu.
  assert (0 < f). { destruct (Z.le_gt_cases f 0); [|lia]. rewrite Z.log2_nonpos in Hu by done. lia. }
  pose proof (Z.log2_spec f ltac:(lia)) as [H1 _].
  rewrite Z.max_r in * by lia. replace (52 + (Z.log2 f - 52)) with (Z.log2 f) by lia.
  pose proof (Z.mul_div_le a b Hb) as Hd. change (a / b) with f in Hd. nia.
Qed.

Lemma r64_pos_mono a b a' b' :
  0 <= a -> 0 < b -> 0 < b' -> a * b' <= a' * b -> r64_pos a b <= r64_pos a' b'.
Proof.
  intros Ha Hb Hb' H. assert (0 <= a') by nia. unfold r64_pos.
  pose proof (ulp_exp_mono a b a' b' Ha Hb Hb' H) as Hu.
  pose proof (div_lt_ulp a b Ha Hb) as Hlt.
  pose proof (div_ge_ulp a' b' ltac:(done) Hb') as Hge.
  assert (0 <= ulp_exp a b) by (unfold ulp_exp; lia).
  set (u := ulp_exp a b) in *. set (u' := ulp_exp a' b') in *. clearbody u u'.
  pose proof (pow2_pos u ltac:(lia)). pose proof (pow2_pos u' ltac:(lia)).
  destruct (Z.eq_dec u u') as [->|Hne].
  - apply Z.mul_le_mono_nonneg_r; [lia|]. apply rne_mono; nia.
  - specialize (Hge ltac:(lia)). rewrite Z.pow_add_r in Hlt, Hge by lia.
    assert (Hr : rne a (b * 2 ^ u) <= 2 ^ 53) by (apply rne_le; nia).
    assert (Hr' : 2 ^ 52 <= rne a' (b' * 2 ^ u')) by (apply rne_ge; nia).
    assert (Hp : 2 ^ 53 * 2 ^ u <= 2 ^ 52 * 2 ^ u').
    { rewrite <- !Z.pow_add_r by lia. apply Z.pow_le_mono_r; lia. }
    nia.
Qed.

Lemma r64_pos_nonneg a b : 0 <= a -> 0 < b -> 0 <= r64_pos a b.
Proof.
  intros Ha Hb. unfold r64_pos. assert (0 <= ulp_exp a b) by (unfold ulp_exp; lia).
  pose proof (pow2_pos (ulp_exp a b) ltac:(done)).
  apply Z.mul_nonneg_nonneg; [|lia]. apply rne_ge; nia.
Qed.

(** Rounding preserves order: the fact every bound below rests on. *)
Lemma r64_mono a b a' b' : 0 < b -> 0 < b' -> a * b' <= a' * b -> r64 a b <= r64 a' b'.
Proof.
  intros Hb Hb' H. unfold r64.
  destruct (Z.ltb_spec a 0), (Z.ltb_spec a' 0).
  - apply Z.opp_le_mono. rewrite !Z.opp_involutive. apply r64_pos_mono; nia.
  - pose proof (r64_pos_nonneg (- a) b). pose proof (r64_pos_nonneg a' b'). lia.
  - nia.
  - by apply r64_pos_mono.
Qed.

Lemma one_pos : 0 < one.
Proof. unfold one. apply pow2_pos. lia. Qed.

#[global] Opaque one.

Lemma lit_mono p q p' q' : 0 < q -> 0 < q' -> p * q' <= p' * q -> lit p q <= lit p' q'.
Proof. intros. pose proof one_pos. apply r64_mono; nia. Qed.

Lemma fadd_mono x y x' y' : x <= x' -> y <= y' -> fadd x y <= fadd x' y'.
Proof. intros. apply r64_mono; lia. Qed.

Lemma fsub_mono x y x' y' : x <= x' -> y' <= y -> fsub x y <= fsub x' y'.
Proof. intros. apply r64_mono; nia. Qed.

Lemma fmul_mono x y x' y' : 0 <= x -> 0 <= y -> x <= x' -> y <= y' -> fmul x y <= fmul x' y'.
Proof.
  intros. pose proof one_pos. apply r64_mono; [done..|].
  apply Z.mul_le_mono_nonneg_r; [lia|]. by apply Z.mul_le_mono_nonneg.
Qed.

Lemma fdiv_mono_l x x' y : 0 < y -> x <= x' -> fdiv x y <= fdiv x' y.
Proof.
  intros. pose proof one_pos. apply r64_mono; [done..|].
  do 2 (apply Z.mul_le_mono_nonneg_r; [lia|]). done.
Qed.

Lemma fdiv_mono_r x y y' : 0 <= x -> 0 < y -> y <= y' -> fdiv x y' <= fdiv x y.
Proof.
  intros. pose proof one_pos. apply r64_mono; [lia..|].
  apply Z.mul_le_mono_nonneg_l; [|done]. apply Z.mul_nonneg_nonneg; lia.
Qed.

Lemma r64_0 b : 0 < b -> r64 0 b = 0.
Proof.
  intros Hb. unfold r64, r64_pos, ulp_exp. change (0 <? 0) with false. cbv iota zeta.
  rewrite Z.div_0_l by lia. change (Z.max 0 (Z.log2 0 - 52)) with 0.
  pose proof (rne_exact 0 (b * 2 ^ 0) ltac:(lia)) as H. rewrite Z.mul_0_l in H. lia.
Qed.

Lemma r64_nonneg a b : 0 <= a -> 0 < b -> 0 <= r64 a b.
Proof. intros. rewrite <- (r64_0 b) by done. apply r64_mono; nia. Qed.

Lemma lit_nonneg p q : 0 <= p -> 0 < q -> 0 <= lit p q.
Proof. intros. pose proof one_pos. apply r64_nonneg; [nia|done]. Qed.

(** Above the subnormals rounding loses at most one part in 2^53. *)
Lemma r64_rel a b : 0 < b -> b * 2 ^ 52 <= a -> a * (2 ^ 53 - 1) <= r64 a b * b * 2 ^ 53.
Proof.
  intros Hb Ha. unfold r64. rewrite (proj2 (Z.ltb_ge a 0)) by lia. unfold r64_pos.
  assert (Hu0 : 0 <= ulp_exp a b) by (unfold ulp_exp; lia). pose proof (div_ge_ulp a b ltac:(lia) Hb) as Hge.
  revert Hu0 Hge. generalize (ulp_exp a b). intros u Hu0 Hge. pose proof (pow2_pos u Hu0).
  assert (Hu : b * 2 ^ u * 2 ^ 52 <= a).
  { destruct (Z.eq_dec u 0) as [->|E]; [lia|]. specialize (Hge ltac:(lia)). rewrite Z.pow_add_r in Hge by lia. lia. }
  destruct (rne_spec a (b * 2 ^ u)) as [[Hr _] _]; [nia|].
  replace (rne a (b * 2 ^ u) * 2 ^ u * b) with (b * 2 ^ u * rne a (b * 2 ^ u)) by ring.
  revert Hr Hu. generalize (rne a (b * 2 ^ u)). generalize (b * 2 ^ u). intros B m Hr Hu.
  change (2 ^ 53) with (2 * 2 ^ 52). lia.
Qed.

Lemma lit_rel p q : 0 < p -> 0 < q -> q <= 2 ^ 64 -> p * one * (2 ^ 53 - 1) <= lit p q * q * 2 ^ 53.
Proof.
  intros Hp Hq Hq'. apply r64_rel; [done|]. transitivity (2 ^ 64 * 2 ^ 52); [nia|].
  transitivity one; [|pose proof one_pos; nia]. apply Z.leb_le. vm_compute. reflexivity.
Qed.

Lemma fmul_rel x y : one * 2 ^ 52 <= x * y -> x * y * (2 ^ 53 - 1) <= fmul x y * one * 2 ^ 53.
Proof. intros Hxy. apply r64_rel; [apply one_pos|done]. Qed.

Lemma fmul_nonneg x y : 0 <= x -> 0 <= y -> 0 <= fmul x y.
Proof. intros. apply r64_nonneg; [by apply Z.mul_nonneg_nonneg|apply one_pos]. Qed.

Lemma fdiv_nonneg x y : 0 <= x -> 0 < y -> 0 <= fdiv x y.
Proof. intros. pose proof one_pos. apply r64_nonneg; [apply Z.mul_nonneg_nonneg; lia|done]. Qed.

Lemma of_int_nonneg n : 0 <= n -> 0 <= of_int n.
Proof. intros. apply lit_nonneg; lia. Qed.

(** Rounding a positive double to four places keeps the ten-thousandths below it. *)
Lemma round4_ge k y : 0 <= y -> k * one <= y * 10000 -> lit k 10000 <= round4 y.
Proof.
  intros Hy Hk. pose proof one_pos. unfold round4. rewrite (proj2 (Z.ltb_ge y 0)) by done.
  apply lit_mono; [lia..|]. apply Z.mul_le_mono_nonneg_r; [lia|]. by apply rne_ge.
Qed.

Lemma round4_mono x y : x <= y -> round4 x <= round4 y.
Proof.
  intros H. pose proof one_pos. unfold round4.
  assert (Hl : forall z, 0 <= z -> 0 <= lit (rne (z * 10000) one) 10000).
  { intros z Hz. assert (0 <= rne (z * 10000) one) by (apply rne_ge; nia).
    apply r64_nonneg; nia. }
  assert (Hm : forall z w, z <= w ->
    lit (rne (z * 10000) one) 10000 <= lit (rne (w * 10000) one) 10000).
  { intros z w Hzw. apply lit_mono; [lia..|].
    assert (rne (z * 10000) one <= rne (w * 10000) one) by (apply rne_mono; nia). lia. }
  destruct (Z.ltb_spec x 0), (Z.ltb_spec y 0).
  - specialize (Hm (- y) (- x)). lia.
  - pose proof (Hl (- x) ltac:(lia)). pose proof (Hl y ltac:(lia)). lia.
  - lia.
  - by apply Hm.
Qed.

(** Numbers of at most 53 bits are represented exactly. *)
Lemma r64_exact_small a : 0 <= a < 2 ^ 53 -> r64 a 1 = a.
Proof.
  intros Ha. unfold r64, r64_pos. destruct (Z.ltb_spec a 0); [lia|].
  assert (ulp_exp a 1 = 0) as ->.
  { unfold ulp_exp. rewrite Z.div_1_r.
    destruct (Z.eq_dec a 0) as [->|]; [done|].
    assert (Z.log2 a < 53) by (apply Z.log2_lt_pow2; lia). lia. }
  rewrite Z.pow_0_r, !Z.mul_1_r. rewrite <- (Z.mul_1_r a) at 1. apply rne_exact. lia.
Qed.

Lemma us_of_days_nonneg d : 0 <= d -> 0 <= us_of_days d.
Proof.
  intros Hd. pose proof one_pos. unfold us_of_days.
  assert (0 <= d / one) by (apply Z.div_pos; lia).
  assert (0 <= d mod one) by (apply Z.mod_pos_bound; lia).
  assert (0 <= fmul (of_int us_per_day) (d mod one)).
  { apply r64_nonneg; [|done]. apply Z.mul_nonneg_nonneg; [|done].
    apply r64_nonneg; unfold us_per_day; lia. }
  assert (0 <= rne (fmul (of_int us_per_day) (d mod one)) one) by (apply rne_ge; lia).
  unfold us_per_day in *. lia.
Qed.

(** A whole number of days is a lower bound of the microseconds of a longer one. *)
Lemma us_of_days_ge n d : 0 <= n -> n * one <= d -> n * us_per_day <= us_of_days d.
Proof.
  intros Hn Hd. pose proof one_pos. unfold us_of_days.
  assert (n <= d / one) by (apply Z.div_le_lower_bound; lia).
  assert (0 <= d mod one) by (apply Z.mod_pos_bound; lia).
  assert (0 <= rne (fmul (of_int us_per_day) (d mod one)) one).
  { apply rne_ge; [done|]. rewrite Z.mul_0_l. apply r64_nonneg; [|done].
    apply Z.mul_nonneg_nonneg; [|done]. apply r64_nonneg; unfold us_per_day; lia. }
  unfold us_per_day in *. nia.
Qed.

(** A fraction of a day is at most a day, so whole days dominate. *)
Lemma us_of_days_frac d :
  0 <= rne (fmul (of_int us_per_day) (d mod one)) one <= us_per_day.
Proof.
  pose proof one_pos. pose proof (Z.mod_pos_bound d one ltac:(done)) as Hd.
  assert (Hf : of_int us_per_day = us_per_day * one) by (vm_compute; reflexivity).
  assert (Hm : fmul (of_int us_per_day) one = us_per_day * one) by (vm_compute; reflexivity).
  assert (0 <= of_int us_per_day) by (rewrite Hf; unfold us_per_day; lia).
  split.
  - apply rne_ge; [done|]. rewrite Z.mul_0_l. apply r64_nonneg; [nia|done].
  - apply rne_le; [done|]. rewrite <- Hm. apply fmul_mono; lia.
Qed.

Lemma us_of_days_mono d d' : 0 <= d -> d <= d' -> us_of_days d <= us_of_days d'.
Proof.
  intros Hd H. pose proof one_pos as Ho.
  pose proof (us_of_days_frac d) as H1. pose proof (us_of_days_frac d') as H2.
  unfold us_of_days.
  assert (Hq : d / one <= d' / one) by (by apply Z.div_le_mono).
  destruct (Z.eq_dec (d / one) (d' / one)) as [He|Hne].
  - assert (Hr : d mod one <= d' mod one).
    { rewrite !Z.mod_eq by lia. rewrite He. lia. }
    assert (rne (fmul (of_int us_per_day) (d mod one)) one
            <= rne (fmul (of_int us_per_day) (d' mod one)) one); [|rewrite He; lia].
    apply rne_mono; [done..|]. apply Z.mul_le_mono_nonneg_r; [lia|].
    pose proof (Z.mod_pos_bound d one Ho).
    apply fmul_mono; [|lia|lia|done].
    apply r64_nonneg; unfold us_per_day; lia.
  - unfold us_per_day in *. nia.
Qed.

(** A rounded number is a double, so rounding it again changes nothing. *)
Lemma r64_pos_double a b : 0 <= a -> 0 < b ->
  exists k u, r64_pos a b = k * 2 ^ u /\ 0 <= k < 2 ^ 53 /\ 0 <= u.
Proof.
  intros Ha Hb. pose proof (div_lt_ulp a b Ha Hb) as Hlt. unfold r64_pos.
  assert (Hu : 0 <= ulp_exp a b) by (unfold ulp_exp; lia).
  set (u := ulp_exp a b) in *. clearbody u. cbv zeta.
  pose proof (pow2_pos u Hu). rewrite Z.pow_add_r in Hlt by lia.
  assert (H1 : rne a (b * 2 ^ u) <= 2 ^ 53) by (apply rne_le; nia).
  assert (H0 : 0 <= rne a (b * 2 ^ u)) by (apply rne_ge; nia).
  destruct (Z.eq_dec (rne a (b * 2 ^ u)) (2 ^ 53)) as [->|Hne].
  - exists (2 ^ 52), (u + 1). rewrite (Z.pow_add_r 2 u 1) by lia.
    split; [|lia]. change (2 ^ 53) with (2 ^ 52 * 2 ^ 1). ring.
  - exists (rne a (b * 2 ^ u)), u. lia.
Qed.

Lemma r64_pos_exact k u b : 0 <= k < 2 ^ 53 -> 0 <= u -> 0 < b ->
  r64_pos (k * 2 ^ u * b) b = k * 2 ^ u.
Proof.
  intros Hk Hu Hb. unfold r64_pos, ulp_exp. rewrite Z.div_mul by lia. cbv zeta.
  set (x := k * 2 ^ u). pose proof (pow2_pos u Hu).
  set (v := Z.max 0 (Z.log2 x - 52)).
  assert (Hv : 0 <= v <= u).
  { split; [lia|]. unfold v, x. destruct (Z.eq_dec k 0) as [->|Hk0]; [simpl; lia|].
    rewrite Z.log2_mul_pow2 by lia.
    assert (Z.log2 k < 53) by (apply Z.log2_lt_pow2; lia). lia. }
  clearbody v. pose proof (pow2_pos v ltac:(lia)).
  assert (Hx : x = k * 2 ^ (u - v) * 2 ^ v).
  { unfold x. rewrite <- Z.mul_assoc, <- Z.pow_add_r by lia. repeat f_equal. lia. }
  rewrite Hx at 1. replace (k * 2 ^ (u - v) * 2 ^ v * b) with (k * 2 ^ (u - v) * (b * 2 ^ v)) by ring.
  rewrite rne_exact by nia. by rewrite Hx.
Qed.

Lemma r64_idem a b : 0 <= a -> 0 < b -> r64 (r64 a b * one) one = r64 a b.
Proof.
  intros Ha Hb. pose proof one_pos as Ho. pose proof (r64_nonneg a b Ha Hb) as Hr.
  unfold r64 at 1. rewrite (proj2 (Z.ltb_ge (r64 a b * one) 0)) by nia.
  unfold r64. rewrite (proj2 (Z.ltb_ge a 0)) by done.
  destruct (r64_pos_double a b Ha Hb) as (k & u & -> & Hk & Hu). by apply r64_pos_exact.
Qed.

Lemma r64_idem1 a b : 0 <= a -> 0 < b -> r64 (r64 a b) 1 = r64 a b.
Proof.
  intros Ha Hb. pose proof (r64_nonneg a b Ha Hb) as Hr.
  unfold r64 at 1. rewrite (proj2 (Z.ltb_ge (r64 a b) 0)) by lia.
  unfold r64. rewrite (proj2 (Z.ltb_ge a 0)) by done.
  destruct (r64_pos_double a b Ha Hb) as (k & u & -> & Hk & Hu).
  rewrite <- (Z.mul_1_r (k * 2 ^ u)) at 1. by apply r64_pos_exact.
Qed.

(** A double: rounding it changes nothing. *)
Definition is_double (x : f64) : Prop := 0 <= x /\ r64 x 1 = x.

Lemma fdiv_double x y : 0 <= x -> 0 < y -> is_double (fdiv x y).
Proof.
  intros Hx Hy. pose proof one_pos. unfold fdiv.
  split; [apply r64_nonneg; nia|apply r64_idem1; nia].
Qed.

Lemma fadd_double x y : 0 <= x -> 0 <= y -> is_double (fadd x y).
Proof. intros. split; [apply r64_nonneg; lia|apply r64_idem1; lia]. Qed.

(** Adding something non-negative does not lower a sum. *)
Lemma fadd_ge x y : is_double x -> 0 <= y -> x <= fadd x y.
Proof. intros [Hx He] Hy. rewrite <- He at 1. apply r64_mono; lia. Qed.

Lemma of_int_pos n : 0 < n -> 0 < of_int n.
Proof.
  intros Hn. apply Z.lt_le_trans with (lit 1 1); [|apply lit_mono; lia].
  assert (H : (0 <? lit 1 1) = true) by (vm_compute; reflexivity). by apply Z.ltb_lt.
Qed.

Lemma of_int_mono n m : n <= m -> of_int n <= of_int m.
Proof. intros. apply lit_mono; lia. Qed.

(** Multiplying by 1.0 is exact. *)
Lemma fmul_one_r x y : 0 <= x -> 0 <= y -> fmul (fmul x y) one = fmul x y.
Proof.
  intros. pose proof one_pos. unfold fmul. apply r64_idem; [nia|done].
Qed.

(** The kernel compares these by their arguments; [vm_compute] evaluates them. *)
#[global] Opaque lit of_int fadd fsub fmul fdiv round4 us_of_days.
