(* ===== verification/PyFloat.v ===== *)
(** * Floats as text: [repr(x)] and [float(s)]

    [float_repr] is the shortest decimal text that reads back as the double
    ([Float64]), in Python's format; [py_float] reads a text back.  [inf] and
    [nan] are not modelled: a text of one raises here. *)

From Stdlib Require Import ZArith Lia DecimalString Ascii String.
From stdpp Require Import list strings.
From S2P Require Import Prelude PyStr Float64.
Open Scope Z_scope.

(** The double of [d * 10^-s]. *)
Definition dec_value (d s : Z) : f64 := if 0 <=? s then lit d (10 ^ s) else lit (d * 10 ^ (- s)) 1.

(** ** [float(s)] *)

Definition digits (s : string) : option Z := Z.of_uint <$> NilZero.uint_of_string s.

(** [digits[.digits]]: the digits read as one number, and how many follow the point. *)
Definition mantissa (s : string) : option (Z * Z) :=
  match split "."%char s with
  | [i] => n ← digits i; Some (n, 0)
  | [i; f] => n ← digits (i +:+ f); Some (n, Z.of_nat (String.length f))
  | _ => None
  end.

Definition exponent (s : string) : option Z :=
  match s with
  | String "-" e => Z.opp <$> digits e
  | String "+" e => digits e
  | _ => digits s
  end.

Definition unsigned_float (s : string) : option f64 :=
  match split "e"%char s with
  | [m] => ms ← mantissa m; Some (dec_value ms.1 ms.2)
  | [m; e] => ms ← mantissa m; n ← exponent e; Some (dec_value ms.1 (ms.2 - n))
  | _ => None
  end.

Definition py_float (s : string) : option f64 :=
  s ← drop_underscores false (lower (strip s));
  match s with
  | String "-" s => Z.opp <$> unsigned_float s
  | String "+" s => unsigned_float s
  | _ => unsigned_float s
  end.

(** ** [repr(x)] *)

(** The decimal exponent of a positive double: [10^e <= x < 10^(e+1)]. *)
Fixpoint leading_zeros (fuel : nat) (x : f64) : Z :=
  match fuel with
  | O => 0
  | S fuel => if one <=? x then 0 else 1 + leading_zeros fuel (x * 10)
  end.

Definition dec_exp (x : f64) : Z :=
  if one <=? x then Z.of_nat (String.length (str_of_Z (x / one))) - 1 else - leading_zeros 324 x.

(** The whole numbers next to [x * 10^s], the nearest first. *)
Definition candidates (x : f64) (s : Z) : list Z :=
  let '(a, b) := if 0 <=? s then (x * 10 ^ s, one) else (x, one * 10 ^ (- s)) in
  let d := rne a b in
  [d; if d =? a / b then d + 1 else d - 1].

(** The shortest digits that read back; 17 always do. *)
Fixpoint shortest (fuel : nat) (n : Z) (x : f64) : Z * Z :=
  let s := n - 1 - dec_exp x in
  match first (fun d => dec_value d s =? x) (candidates x s), fuel with
  | Some d, _ => (d, s)
  | None, O => (rne (x * 10 ^ Z.max 0 s) (one * 10 ^ Z.max 0 (- s)), s)
  | None, S fuel => shortest fuel (n + 1) x
  end.

Fixpoint zeros (n : nat) : string := match n with O => "" | S n => String "0" (zeros n) end.

Definition decimal_text (d s : Z) : string :=
  let all := str_of_Z d in
  let point := Z.of_nat (String.length all) - s in
  let ds := match rstrip_by (Ascii.eqb "0"%char) all with "" => "0" | t => t end in
  let n := Z.of_nat (String.length ds) in
  if (-4 <? point) && (point <=? 16) then
    if point <=? 0 then "0." +:+ zeros (Z.to_nat (- point)) +:+ ds
    else if n <=? point then ds +:+ zeros (Z.to_nat (point - n)) +:+ ".0"
    else take_str (Z.to_nat point) ds +:+ "." +:+ drop_str (Z.to_nat point) ds
  else
    let e := point - 1 in
    let tail := if n =? 1 then "" else "." +:+ drop_str 1 ds in
    let es := str_of_Z (Z.abs e) in
    take_str 1 ds +:+ tail +:+ "e" +:+ (if e <? 0 then "-" else "+") +:+
      (if Nat.ltb (String.length es) 2 then "0" else "") +:+ es.

Definition float_repr (x : f64) : string :=
  if x =? 0 then "0.0"
  else let '(d, s) := shortest 16 1 (Z.abs x) in
       (if x <? 0 then "-" else "") +:+ decimal_text d s.

Example float_repr_ex :
  map float_repr [lit 1 1; lit 5 10; lit 12345678 10000; lit 1 10000; lit 1 100000; lit (10 ^ 16) 1;
                  lit (10 ^ 15) 1; - lit 25 10] =
  ["1.0"; "0.5"; "1234.5678"; "0.0001"; "1e-05"; "1e+16"; "1000000000000000.0"; "-2.5"].
Proof. vm_compute. reflexivity. Qed.

Example py_float_ex :
  map py_float ["1.0"; " 12_3.5e+1 "; "-0.5"; "1e-05"; "x"; "1.2.3"; ".5"; "5."; ""] =
  [Some (lit 1 1); Some (lit 1235 1); Some (- lit 5 10); Some (lit 1 100000); None; None; Some (lit 5 10);
   Some (lit 5 1); None].
Proof. vm_compute. reflexivity. Qed.
