(* ===== verification/PyTime.v ===== *)
(** * Aware datetimes in UTC

    The ledger's timestamps are microseconds since 1970-01-01T00:00Z; a
    [datetime] of [Fsrs] counts from the year 1.  [isoformat] is Python's text
    of a UTC datetime of the years 1 to 9999. *)

From Stdlib Require Import ZArith Lia Ascii String.
From stdpp Require Import list strings.
From S2P Require Import Prelude PyStr.
Open Scope Z_scope.

(** Microseconds from 0001-01-01 to 1970-01-01, and between the two counts. *)
Definition epoch_us : Z := 719162 * 86400000000.
Definition to_datetime (t : Z) : Z := t + epoch_us.
Definition of_datetime (d : Z) : Z := d - epoch_us.

Fixpoint pad_zeros (n : nat) (s : string) : string :=
  match n with O => s | S n => if Nat.ltb n (String.length s) then s else String "0" (pad_zeros n s) end.

(** A number in at least [n] digits. *)
Definition fixed (n : nat) (z : Z) : string := pad_zeros n (str_of_Z z).

(** The proleptic Gregorian date of a day counted from 1970-01-01. *)
Definition civil (day : Z) : Z * Z * Z :=
  let z := day + 719468 in
  let era := z / 146097 in
  let doe := z mod 146097 in
  let yoe := (doe - doe / 1460 + doe / 36524 - doe / 146096) / 365 in
  let doy := doe - (365 * yoe + yoe / 4 - yoe / 100) in
  let mp := (5 * doy + 2) / 153 in
  let d := doy - (153 * mp + 2) / 5 + 1 in
  let m := if mp <? 10 then mp + 3 else mp - 9 in
  (yoe + era * 400 + (if m <=? 2 then 1 else 0), m, d).

Definition isoformat (t : Z) : string :=
  let us := t mod 1000000 in
  let s := t / 1000000 mod 86400 in
  let '(y, m, d) := civil (t / 86400000000) in
  fixed 4 y +:+ "-" +:+ fixed 2 m +:+ "-" +:+ fixed 2 d +:+ "T" +:+
  fixed 2 (s / 3600) +:+ ":" +:+ fixed 2 (s / 60 mod 60) +:+ ":" +:+ fixed 2 (s mod 60) +:+
  (if us =? 0 then "" else "." +:+ fixed 6 us) +:+ "+00:00".

Example isoformat_ex :
  (isoformat 0, isoformat 951868799000001, isoformat (- epoch_us), isoformat 4102444800000000) =
  ("1970-01-01T00:00:00+00:00", "2000-02-29T23:59:59.000001+00:00", "0001-01-01T00:00:00+00:00",
   "2100-01-01T00:00:00+00:00").
Proof. vm_compute. reflexivity. Qed.
