(* ===== verification/JsonParse.v ===== *)
(** * [json.loads]

    The parser of the standard library's [json] on texts of code points below
    256 ([Json] has its printer): an escape of a code point of 256 or above is
    outside the model and raises here.  [loads] has as much fuel as the text
    has characters; [loads_print] shows it enough for every printed value. *)

From Stdlib Require Import ZArith Lia Ascii String Decimal DecimalString DecimalFacts DecimalZ.
From stdpp Require Import list strings.
From S2P Require Import Prelude PyStr Float64 PyFloat Json.
Open Scope Z_scope.

Definition JSONDecodeError : exn := ValueError "JSONDecodeError".

Definition is_ws (c : ascii) : bool :=
  let n := code c in (n =? 32)%N || (n =? 9)%N || (n =? 10)%N || (n =? 13)%N.

Definition skip_ws (s : string) : string := lstrip_by is_ws s.

Definition is_digit (c : ascii) : bool := (48 <=? code c)%N && (code c <=? 57)%N.

Fixpoint span (p : ascii -> bool) (s : string) : string * string :=
  match s with
  | "" => ("", "")
  | String c s' => if p c then let '(a, b) := span p s' in (String c a, b) else ("", s)
  end.

(** An optional fraction and an optional exponent. *)
Definition frac_token (s : string) : string * string :=
  match s with
  | String "." r => let '(d, r') := span is_digit r in if truthy d then (String "." d, r') else ("", s)
  | _ => ("", s)
  end.

Definition sign_token (s : string) : string * string :=
  match s with
  | String c r => if Ascii.eqb c "+" || Ascii.eqb c "-" then (String c "", r) else ("", s)
  | "" => ("", s)
  end.

Definition exp_token (s : string) : string * string :=
  match s with
  | String c r =>
      if Ascii.eqb c "e" || Ascii.eqb c "E" then
        let '(g, r1) := sign_token r in
        let '(d, r2) := span is_digit r1 in
        if truthy d then (String c (g +:+ d), r2) else ("", s)
      else ("", s)
  | "" => ("", s)
  end.

(** A zero or digits that do not begin with one, after a sign [g]. *)
Definition digits_token (g s : string) : option (string * string) :=
  match s with
  | String "0" r => Some (g +:+ "0", r)
  | _ => let '(d, r) := span is_digit s in if truthy d then Some (g +:+ d, r) else None
  end.

Definition int_token (s : string) : option (string * string) :=
  match s with String "-" r => digits_token "-" r | _ => digits_token "" s end.

Definition parse_number (s : string) : option (json * string) :=
  '(i, r) ← int_token s;
  let '(f, r1) := frac_token r in
  let '(e, r2) := exp_token r1 in
  if truthy f || truthy e
  then x ← py_float (i +:+ f +:+ e); Some (JFloat (float_repr x), r2)
  else z ← py_int i; Some (JInt z, r2).

Definition hex_value (c : ascii) : option N :=
  let n := code c in
  if (48 <=? n)%N && (n <=? 57)%N then Some (n - 48)%N
  else if (97 <=? n)%N && (n <=? 102)%N then Some (n - 87)%N
  else if (65 <=? n)%N && (n <=? 70)%N then Some (n - 55)%N
  else None.

Definition escaped_char (d : ascii) : option ascii :=
  if Ascii.eqb d dquote || Ascii.eqb d "\" || Ascii.eqb d "/" then Some d
  else if Ascii.eqb d "n" then Some "010"%char
  else if Ascii.eqb d "r" then Some "013"%char
  else if Ascii.eqb d "t" then Some "009"%char
  else if Ascii.eqb d "b" then Some "008"%char
  else if Ascii.eqb d "f" then Some "012"%char
  else None.

(** The characters of a string literal up to its closing quote. *)
Fixpoint parse_chars (s : string) : option (string * string) :=
  match s with
  | "" => None
  | String c s1 =>
      if Ascii.eqb c dquote then Some ("", s1)
      else if Ascii.eqb c "\" then
        match s1 with
        | String "u" (String a (String b (String h (String l r)))) =>
            x ← hex_value h; y ← hex_value l;
            if Ascii.eqb a "0" && Ascii.eqb b "0"
            then '(t, r') ← parse_chars r; Some (String (ascii_of_N (x * 16 + y)) t, r')
            else None
        | String d r => x ← escaped_char d; '(t, r') ← parse_chars r; Some (String x t, r')
        | "" => None
        end
      else if (code c <? 32)%N then None
      else '(t, r) ← parse_chars s1; Some (String c t, r)
  end.

(** Elements up to a closing bracket, separated by commas. *)
Fixpoint parse_items {A} (item : string -> option (A * string)) (close : ascii) (fuel : nat) (s : string)
    : option (list A * string) :=
  match fuel with
  | O => None
  | S fuel =>
      '(x, r) ← item s;
      match skip_ws r with
      | String c r' =>
          if Ascii.eqb c close then Some ([x], r')
          else if Ascii.eqb c "," then '(xs, r'') ← parse_items item close fuel (skip_ws r'); Some (x :: xs, r'')
          else None
      | "" => None
      end
  end.

Definition parse_member (value : string -> option (json * string)) (s : string) : option ((string * json) * string) :=
  match s with
  | String c r =>
      if Ascii.eqb c dquote then
        '(k, r1) ← parse_chars r;
        match skip_ws r1 with
        | String ":" r2 => '(v, r3) ← value (skip_ws r2); Some ((k, v), r3)
        | _ => None
        end
      else None
  | "" => None
  end.

Definition dict_of (l : list (string * json)) : dict := foldl (fun d kv => dict_set kv.1 kv.2 d) [] l.

Fixpoint keyword (words : list (string * json)) (s : string) : option (json * string) :=
  match words with
  | [] => None
  | (w, v) :: words => if startswith w s then Some (v, drop_str (String.length w) s) else keyword words s
  end.

Definition keywords : list (string * json) :=
  [("null", JNull); ("true", JBool true); ("false", JBool false); ("NaN", JFloat "nan");
   ("Infinity", JFloat "inf"); ("-Infinity", JFloat "-inf")].

Fixpoint parse_value (fuel : nat) (s : string) : option (json * string) :=
  match fuel, s with
  | S fuel, String c r =>
      if Ascii.eqb c dquote then '(t, r') ← parse_chars r; Some (JStr t, r')
      else if Ascii.eqb c "[" then
        let r := skip_ws r in
        if startswith "]" r then Some (JList [], drop_str 1 r)
        else '(l, r') ← parse_items (parse_value fuel) "]" fuel r; Some (JList l, r')
      else if Ascii.eqb c "{" then
        let r := skip_ws r in
        if startswith "}" r then Some (JObj [], drop_str 1 r)
        else '(l, r') ← parse_items (parse_member (parse_value fuel)) "}" fuel r; Some (JObj (dict_of l), r')
      else match keyword keywords s with Some x => Some x | None => parse_number s end
  | _, _ => None
  end.

Definition loads (s : string) : res json :=
  match parse_value (S (String.length s)) (skip_ws s) with
  | Some (v, r) => if truthy (skip_ws r) then Raise JSONDecodeError else Ok v
  | None => Raise JSONDecodeError
  end.

Definition dq (s : string) : string := replace_char "'"%char dquote s.

Example loads_ex :
  map loads [dq " { 'a' : [1, -2.50, 1e2], 'a': {}, 'b' : '\u00e9\n/' } "; "[]"; "[1,]"; "01"; "nul"; dq "'x"] =
  [Ok (JObj [("a", JObj []); ("b", JStr (String (ascii_of_nat 233) (String (ascii_of_nat 10) "/")))]);
   Ok (JList []); Raise JSONDecodeError; Raise JSONDecodeError; Raise JSONDecodeError; Raise JSONDecodeError].
Proof. vm_compute. reflexivity. Qed.

(** ** Reading what was printed *)

(** A lexer of a class of characters that holds no delimiter stops where the
    printed value ends. *)
Definition before_delim (p : ascii -> bool) : Prop := forall c s, delim (String c s) -> p c = false.

Lemma span_stable p s rest : before_delim p -> delim rest ->
  span p (s +:+ rest) = ((span p s).1, (span p s).2 +:+ rest).
Proof.
  intros Hp Hr. induction s as [|c s IH].
  - cbn. destruct rest as [|c r]; [done|]. cbn [span]. by rewrite (Hp c r Hr).
  - cbn [String.append span]. destruct (p c); [|done]. rewrite IH. by destruct (span p s).
Qed.

Lemma span_all p s : str_all p s = true -> span p s = (s, "").
Proof.
  induction s as [|c s IH]; [done|]. cbn [str_all span]. intros [Hc Hs]%andb_prop. by rewrite Hc, (IH Hs).
Qed.

Lemma digit_before_delim : before_delim is_digit.
Proof. intros c s [->|[->| ->]]; reflexivity. Qed.

Lemma frac_token_stable s rest : delim rest ->
  frac_token (s +:+ rest) = ((frac_token s).1, (frac_token s).2 +:+ rest).
Proof.
  intros Hr. destruct s as [|c s].
  - cbn. destruct rest as [|c r]; [done|]. cbn in Hr. by destruct Hr as [->|[->| ->]].
  - cbn [String.append frac_token]. destruct c as [[] [] [] [] [] [] [] []]; try done.
    rewrite (span_stable _ _ _ digit_before_delim Hr). destruct (span is_digit s) as [d r']. cbn [fst snd].
    by destruct (truthy d).
Qed.

Lemma sign_token_stable s rest : delim rest ->
  sign_token (s +:+ rest) = ((sign_token s).1, (sign_token s).2 +:+ rest).
Proof.
  intros Hr. destruct s as [|c s].
  - cbn. destruct rest as [|c r]; [done|]. cbn in Hr. by destruct Hr as [->|[->| ->]].
  - cbn [String.append sign_token]. by destruct (_ || _).
Qed.

Lemma exp_token_stable s rest : delim rest ->
  exp_token (s +:+ rest) = ((exp_token s).1, (exp_token s).2 +:+ rest).
Proof.
  intros Hr. destruct s as [|c s].
  - cbn. destruct rest as [|c r]; [done|]. cbn in Hr. by destruct Hr as [->|[->| ->]].
  - cbn [String.append exp_token]. destruct (_ || _); [|done]. rewrite (sign_token_stable _ _ Hr).
    destruct (sign_token s) as [g r1]. cbn [fst snd]. rewrite (span_stable _ _ _ digit_before_delim Hr).
    destruct (span is_digit r1) as [d r2]. cbn [fst snd]. by destruct (truthy d).
Qed.

Lemma digits_token_stable g s rest i r :
  delim rest -> digits_token g s = Some (i, r) -> digits_token g (s +:+ rest) = Some (i, r +:+ rest).
Proof.
  intros Hr. destruct s as [|c s]; [done|].
  assert (Hs : span is_digit (String c s +:+ rest) =
    ((span is_digit (String c s)).1, (span is_digit (String c s)).2 +:+ rest))
    by apply (span_stable _ _ _ digit_before_delim Hr).
  unfold digits_token. rewrite Hs. destruct (span is_digit (String c s)) as [d r']. cbn [fst snd String.append].
  destruct c as [[] [] [] [] [] [] [] []]; first [by intros [= <- <-] | by destruct (truthy d); [intros [= <- <-]|]].
Qed.

Lemma int_token_stable s rest i r : delim rest -> int_token s = Some (i, r) -> int_token (s +:+ rest) = Some (i, r +:+ rest).
Proof.
  intros Hr. destruct s as [|c s]; [done|]. pose proof (digits_token_stable "" (String c s) rest i r Hr) as Hp.
  pose proof (digits_token_stable "-" s rest i r Hr) as Hm.
  destruct c as [[] [] [] [] [] [] [] []]; first [exact Hm|exact Hp].
Qed.

(** A number's text ends at the delimiter. *)
Lemma parse_number_stable s v rest : delim rest -> parse_number s = Some (v, "") -> parse_number (s +:+ rest) = Some (v, rest).
Proof.
  intros Hr. unfold parse_number. destruct (int_token s) as [[i r]|] eqn:Ei; [|done]. cbn [mbind option_bind].
  rewrite (int_token_stable _ _ _ _ Hr Ei). cbn [mbind option_bind]. rewrite (frac_token_stable _ _ Hr).
  destruct (frac_token r) as [f r1]. cbn [fst snd]. rewrite (exp_token_stable _ _ Hr).
  destruct (exp_token r1) as [e r2]. cbn [fst snd]. destruct (_ || _).
  - destruct (py_float _); [|done]. cbn. by intros [= <- ->].
  - destruct (py_int _); [|done]. cbn. by intros [= <- ->].
Qed.

Lemma digits_token_all g c s : is_digit c = true -> c <> "0"%char -> str_all is_digit s = true ->
  digits_token g (String c s) = Some (g +:+ String c s, "").
Proof.
  intros Hc H0 Hs. assert (Ha : span is_digit (String c s) = (String c s, "")) by (apply span_all; cbn; by rewrite Hc, Hs).
  unfold digits_token. rewrite Ha. by destruct c as [[] [] [] [] [] [] [] []].
Qed.

(** Integers print without leading zeros. *)
Lemma int_token_uint u : u <> Decimal.Nil -> Decimal.unorm u = u ->
  int_token (NilZero.string_of_uint u) = Some (NilZero.string_of_uint u, "") /\
  int_token (String "-" (NilZero.string_of_uint u)) = Some (String "-" (NilZero.string_of_uint u), "").
Proof.
  intros Hn Hu. assert (Hd : forall u, str_all is_digit (NilEmpty.string_of_uint u) = true)
    by (clear; induction u; cbn; done).
  assert (Hz : forall v, u = Decimal.D0 v -> v = Decimal.Nil).
  { intros v ->. unfold Decimal.unorm in Hu. destruct (Decimal.nzhead _) eqn:E; try discriminate.
    - by injection Hu as <-.
    - by apply nzhead_nonzero in E. }
  destruct u; try done; cbn [NilZero.string_of_uint NilEmpty.string_of_uint];
    try (split; [apply (digits_token_all "")|apply (digits_token_all "-")]; done).
  by rewrite (Hz _ eq_refl).
Qed.

Lemma parse_number_int z : parse_number (str_of_Z z) = Some (JInt z, "").
Proof.
  assert (Hi : int_token (str_of_Z z) = Some (str_of_Z z, "")).
  { pose proof (to_int_nonnil z) as [Hn1 Hn2]. pose proof (DecimalZ.to_of (Z.to_int z)) as Hnorm.
    rewrite DecimalZ.of_to in Hnorm. unfold str_of_Z. destruct (Z.to_int z) as [u|u]; cbn [NilZero.string_of_int].
    - injection Hnorm as Hu. apply int_token_uint; [congruence|done].
    - apply int_token_uint; [congruence|]. cbn in Hnorm. unfold Decimal.norm, Decimal.unorm in *.
      destruct (Decimal.nzhead u); congruence. }
  unfold parse_number. rewrite Hi. cbn. by rewrite py_int_str_of_Z.
Qed.

Lemma parse_chars_esc c r : parse_chars (esc_char c +:+ r) = ('(t, r') ← parse_chars r; Some (String c t, r')).
Proof. by destruct c as [[] [] [] [] [] [] [] []]. Qed.

Lemma parse_chars_flat a s : parse_chars (flat_str esc_char a +:+ String dquote s) = Some (a, s).
Proof.
  induction a as [|c a IH]; [done|]. cbn [flat_str]. rewrite append_assoc, parse_chars_esc, IH. done.
Qed.

(** A text that begins a value is not white space. *)
Definition starts (s : string) : Prop := match s with "" => False | String c _ => is_ws c = false end.

Lemma skip_starts s t : starts s -> skip_ws (s +:+ t) = s +:+ t.
Proof. destruct s as [|c s]; [done|]. unfold skip_ws. cbn. by intros ->. Qed.

Section items.
Context {A : Type} (f : A -> string) (item : string -> option (A * string)) (close : ascii).
Context (Hclose : close = "]"%char \/ close = "}"%char).

Lemma skip_tail l s : skip_ws (tail f close l s) = tail f close l s.
Proof. destruct l; [|done]. by destruct Hclose as [->| ->]. Qed.

Lemma parse_items_print l fuel s :
  (length l <= fuel)%nat -> l <> [] -> Forall (fun x => starts (f x)) l ->
  (forall x t, x ∈ l -> delim t -> item (f x +:+ t) = Some (x, t)) ->
  parse_items item close fuel (items f l +:+ String close s) = Some (l, s).
Proof.
  revert fuel. induction l as [|x l IH]; intros fuel Hl Hne Hst Hit; [done|].
  destruct fuel as [|fuel]; [cbn in Hl; lia|]. cbn [parse_items]. rewrite items_cons.
  rewrite Hit by (by left || by apply delim_tail). cbn [mbind option_bind]. rewrite skip_tail.
  apply Forall_cons in Hst as [_ Hst]. destruct l as [|y l].
  - cbn [tail]. by rewrite Ascii.eqb_refl.
  - cbn [tail]. replace (Ascii.eqb "," close) with false by (by destruct Hclose as [->| ->]).
    replace (Ascii.eqb "," ",") with true by done. apply Forall_cons in Hst as Hst'. destruct Hst' as [Hy _].
    rewrite items_cons, skip_starts by done. rewrite <- items_cons, IH; [done|cbn in *; lia|done|done|].
    intros z t Hz. apply Hit. by right.
Qed.

Lemma length_items l x : x ∈ l -> (String.length (f x) <= String.length (items f l))%nat.
Proof.
  unfold items. induction l as [|y l IH]; [by intros ?%elem_of_nil|]. intros [->|Hx]%elem_of_cons.
  - destruct l; [done|]. cbn [map join]. rewrite !length_append. lia.
  - specialize (IH Hx). destruct l as [|z l]; [by apply elem_of_nil in Hx|]. cbn [map join] in *.
    rewrite !length_append. lia.
Qed.

Lemma length_items_count l : Forall (fun x => starts (f x)) l -> (length l <= S (String.length (items f l)))%nat.
Proof.
  unfold items. induction 1 as [|x l Hx Hl IH]; [cbn; lia|]. destruct l as [|y l]; [cbn; lia|].
  cbn [map join length] in *. rewrite !length_append. change (String.length ",") with 1%nat. lia.
Qed.
End items.

Lemma dict_set_snoc {A} k (v : A) d : k ∉ map fst d -> dict_set k v d = d ++ [(k, v)].
Proof.
  induction d as [|[k' v'] d IH]; [done|]. cbn [map fst dict_set app]. intros Hk%not_elem_of_cons.
  destruct (String.eqb_spec k' k) as [->|_]; [by destruct Hk|]. by rewrite IH by apply Hk.
Qed.

Lemma dict_of_id d : NoDup (map fst d) -> dict_of d = d.
Proof.
  unfold dict_of. enough (Hg : forall acc, NoDup (map fst (acc ++ d)) -> foldl (fun d kv => dict_set kv.1 kv.2 d) acc d = acc ++ d)
    by apply (Hg []). induction d as [|[k v] d IH]; intros acc Hn; [by rewrite app_nil_r|]. cbn [foldl fst snd].
  rewrite map_app in Hn. cbn [map fst] in Hn. rewrite dict_set_snoc.
  - rewrite IH; [by rewrite <- app_assoc|]. by rewrite <- app_assoc, map_app.
  - apply NoDup_app in Hn as (_ & Hn & _). intros Hk. apply (Hn k Hk). by left.
Qed.

(** Floats whose text is read back as itself. *)
Fixpoint floats_read (v : json) : Prop :=
  match v with
  | JFloat t => parse_number t = Some (JFloat t, "")
  | JList l => fold_right and True (map floats_read l)
  | JObj d => fold_right and True (map (fun kv => floats_read kv.2) d)
  | _ => True
  end.

Lemma fold_and {A} (P : A -> Prop) l : fold_right and True (map P l) <-> Forall P l.
Proof. induction l; simpl; [done|]. rewrite Forall_cons. tauto. Qed.

Lemma number_head_ws c : is_float_char c = true -> is_ws c = false.
Proof. by destruct c as [[] [] [] [] [] [] [] []]. Qed.

Lemma print_starts v : wf v -> starts (print v).
Proof.
  intros Hw. destruct (print_head v Hw) as [Hne Hh]. destruct (print v) as [|c s] eqn:E; [done|]. cbn in *.
  destruct v as [|[]| | | | |]; try (injection Hh as ->; reflexivity); by apply number_head_ws.
Qed.

Lemma number_value n c s v rest : is_float_char c = true -> str_all is_float_char s = true -> delim rest ->
  parse_number (String c s) = Some (v, "") -> parse_value (S n) (String c s +:+ rest) = Some (v, rest).
Proof.
  intros Hc Hs Hr Hp. apply (parse_number_stable _ _ _ Hr) in Hp. cbn [String.append] in *. cbn [parse_value].
  assert (Hk : keyword keywords (String c (s +:+ rest)) = None).
  { destruct c as [[] [] [] [] [] [] [] []]; try discriminate; try reflexivity.
    destruct s as [|d s]; [destruct rest as [|d r]; [done|]; by destruct Hr as [->|[->| ->]]|].
    cbn in Hs. apply andb_prop in Hs as [Hd _]. by destruct d as [[] [] [] [] [] [] [] []]. }
  rewrite Hk. by destruct c as [[] [] [] [] [] [] [] []].
Qed.

Lemma parse_member_print value kv t :
  wf kv.2 -> (forall t, delim t -> value (print kv.2 +:+ t) = Some (kv.2, t)) -> delim t ->
  parse_member value (print_item kv +:+ t) = Some (kv, t).
Proof.
  intros Hw Hv Ht. destruct kv as [k v]. unfold print_item, print_str. cbn [fst snd] in *.
  cbn [String.append]. rewrite !append_assoc. cbn [parse_member]. replace (Ascii.eqb dquote dquote) with true by done.
  cbn [String.append]. rewrite parse_chars_flat. cbn [mbind option_bind].
  change (skip_ws (String ":" (print v +:+ t))) with (String ":" (print v +:+ t)). cbv iota.
  rewrite skip_starts by by apply print_starts. by rewrite (Hv t Ht).
Qed.

(** The first character of a list or dictionary that is not empty. *)
Lemma open_items {A} (f : A -> string) close l s :
  Forall (fun x => starts (f x)) l -> l <> [] -> exists c r, items f l +:+ String close s = String c r /\ is_ws c = false.
Proof.
  intros Hst Hne. destruct l as [|x l]; [done|]. rewrite items_cons. apply Forall_cons in Hst as [Hx _].
  destruct (f x) as [|c r]; [done|]. cbn. by eauto.
Qed.

Lemma items_not_closed {A} (f : A -> string) close l s :
  close = "]"%char \/ close = "}"%char -> l <> [] ->
  (forall x t, x ∈ l -> head (f x +:+ t) <> Some close) -> head (items f l +:+ String close s) <> Some close.
Proof. intros Hc Hne Hh. destruct l as [|x l]; [done|]. rewrite items_cons. apply Hh. by left. Qed.

Lemma parse_list_print n l rest :
  Forall (fun x => wf x) l -> (String.length (print (JList l)) <= S n)%nat ->
  (forall x t, x ∈ l -> delim t -> parse_value n (print x +:+ t) = Some (x, t)) ->
  parse_value (S n) (print (JList l) +:+ rest) = Some (JList l, rest).
Proof.
  intros Hw Hlen Hx. cbn [print] in *. rewrite !append_assoc. cbn [String.append parse_value].
  replace (Ascii.eqb "[" dquote) with false by done. replace (Ascii.eqb "[" "[") with true by done.
  change (join "," (map print l)) with (items print l) in *.
  assert (Hst : Forall (fun x => starts (print x)) l) by (eapply Forall_impl; [exact Hw|apply print_starts]).
  destruct l as [|y l']; [done|]. set (l := y :: l') in *.
  destruct (open_items print "]" l rest Hst ltac:(done)) as (c & r & Ho & Hc).
  assert (Hcl : c <> "]"%char).
  { intros ->. apply (items_not_closed print "]" l rest); [by left|done| |by rewrite Ho].
    intros x t Hin. apply print_head_close; [by eapply Forall_forall in Hw|cbn; tauto]. }
  rewrite !length_append in Hlen. cbn [String.length String.append] in Hlen.
  assert (Hp : parse_items (parse_value n) "]" n (String c r) = Some (l, rest)).
  { rewrite <- Ho. apply parse_items_print; [by left| |done|done|exact Hx].
    pose proof (length_items_count print l Hst). lia. }
  rewrite Ho. replace (skip_ws (String c r)) with (String c r) by (unfold skip_ws; cbn; by rewrite Hc).
  cbv zeta. replace (startswith "]" (String c r)) with false; [by rewrite Hp|].
  symmetry. cbn [startswith]. by rewrite (proj2 (Ascii.eqb_neq "]" c)) by congruence.
Qed.

Lemma parse_obj_print n d rest :
  wf (JObj d) -> (String.length (print (JObj d)) <= S n)%nat ->
  (forall kv t, kv ∈ d -> delim t -> parse_value n (print kv.2 +:+ t) = Some (kv.2, t)) ->
  parse_value (S n) (print (JObj d) +:+ rest) = Some (JObj d, rest).
Proof.
  intros [Hn Hw]%wf_obj Hlen Hx. change (print (JObj d)) with ("{" +:+ items print_item d +:+ "}") in *.
  rewrite !append_assoc. cbn [String.append parse_value].
  replace (Ascii.eqb "{" dquote) with false by done. replace (Ascii.eqb "{" "[") with false by done.
  replace (Ascii.eqb "{" "{") with true by done.
  assert (Hst : Forall (fun kv => starts (print_item kv)) d) by (apply Forall_forall; by intros [k v]).
  destruct d as [|y d']; [done|]. set (d := y :: d') in *.
  destruct (open_items print_item "}" d rest Hst ltac:(done)) as (c & r & Ho & Hc).
  assert (Hcl : c <> "}"%char).
  { intros ->. apply (items_not_closed print_item "}" d rest); [by right|done| |by rewrite Ho]. by intros [k v]. }
  rewrite !length_append in Hlen. cbn [String.length String.append] in Hlen.
  assert (Hp : parse_items (parse_member (parse_value n)) "}" n (String c r) = Some (d, rest)).
  { rewrite <- Ho. apply parse_items_print; [by right| |done|done|].
    - pose proof (length_items_count print_item d Hst). lia.
    - intros kv t Hin Ht. apply parse_member_print; [by eapply Forall_forall in Hw| |done]. intros. by apply Hx. }
  rewrite Ho. replace (skip_ws (String c r)) with (String c r) by (unfold skip_ws; cbn; by rewrite Hc).
  cbv zeta. replace (startswith "}" (String c r)) with false; [rewrite Hp; cbn [mbind option_bind]; by rewrite (dict_of_id d Hn)|].
  symmetry. cbn [startswith]. by rewrite (proj2 (Ascii.eqb_neq "}" c)) by congruence.
Qed.

Lemma parse_value_print v n rest :
  wf v -> floats_read v -> (String.length (print v) <= n)%nat -> delim rest ->
  parse_value n (print v +:+ rest) = Some (v, rest).
Proof.
  revert n rest. induction v as [|b|z|t|a|l IH|d IH] using json_nested_ind; intros n rest Hw Hf Hn Hr;
    (destruct n as [|n]; [exfalso; destruct (print_head _ Hw) as [Hne _]; destruct (print _); [done|cbn in Hn; lia]|]).
  - reflexivity.
  - by destruct b.
  - cbn [print] in *. pose proof (str_of_Z_float_chars z) as Hc. pose proof (parse_number_int z) as Hp.
    destruct (str_of_Z z) as [|c s] eqn:E; [by destruct (str_of_Z_chars z)|]. cbn in Hc.
    apply andb_prop in Hc as [Hc Hs]. by apply number_value.
  - cbn [print floats_read wf] in *. apply float_text_chars in Hw as [Hc Hne].
    destruct t as [|c s]; [done|]. cbn in Hc. apply andb_prop in Hc as [Hc Hs]. by apply number_value.
  - cbn [print]. unfold print_str. cbn [String.append]. rewrite append_assoc. cbn [String.append parse_value].
    replace (Ascii.eqb dquote dquote) with true by done. by rewrite parse_chars_flat.
  - apply parse_list_print; [by apply wf_list|done|]. intros x t Hx Ht.
    rewrite Forall_forall in IH. apply wf_list in Hw. rewrite Forall_forall in Hw.
    apply fold_and in Hf. rewrite Forall_forall in Hf. apply IH; [done|by apply Hw|by apply Hf| |done].
    change (print (JList l)) with ("[" +:+ items print l +:+ "]") in Hn. rewrite !length_append in Hn.
    change (String.length "[") with 1%nat in Hn. pose proof (length_items print l x Hx). lia.
  - apply parse_obj_print; [done|done|]. intros kv t Hx Ht.
    rewrite Forall_forall in IH. apply wf_obj in Hw as [_ Hw]. rewrite Forall_forall in Hw.
    apply fold_and in Hf. rewrite Forall_forall in Hf. apply IH; [done|by apply Hw|by apply Hf| |done].
    change (print (JObj d)) with ("{" +:+ items print_item d +:+ "}") in Hn. rewrite !length_append in Hn.
    change (String.length "{") with 1%nat in Hn. pose proof (length_items print_item d kv Hx) as Hl.
    unfold print_item in Hl at 1. rewrite !length_append in Hl. lia.
Qed.

(** Reading a printed value gives the value back. *)
Lemma loads_print v : wf v -> floats_read v -> loads (print v) = Ok v.
Proof.
  intros Hw Hf. unfold loads. rewrite <- (append_nil_r (print v)) at 2.
  rewrite skip_starts by by apply print_starts. by rewrite parse_value_print by (done || lia).
Qed.

Lemma canon_floats v : floats_read v -> floats_read (canon v).
Proof.
  induction v as [|b|z|f|a|l IH|d IH] using json_nested_ind; try done; cbn [canon floats_read];
    rewrite !fold_and; rewrite ?sort_by_perm, Forall_map, !Forall_forall in *; naive_solver.
Qed.

Lemma loads_dumps v : wf v -> floats_read v -> loads (dumps v) = Ok (canon v).
Proof. intros Hw Hf. apply loads_print; [by apply canon_wf|by apply canon_floats]. Qed.
