(* ===== verification/Base64.v ===== *)
(** * Bytes and text: [base64.urlsafe_b64encode], [urlsafe_b64decode], UTF-8

    The decoder is the one of [binascii.a2b_base64] without strict mode: it
    skips characters outside the alphabet, stops at a complete padding and
    raises (here [None]) when a quantum is left open. *)

From Stdlib Require Import Ascii ZArith Lia.
From stdpp Require Import list strings.
From S2P Require Import Prelude PyStr Digest Uuid Json.
Open Scope Z_scope.

Definition alphabet : string := "ABCDEFGHIJKLMNOPQRSTUVWXYZabcdefghijklmnopqrstuvwxyz0123456789-_".

(** The character of six bits. *)
Definition sextet_char (n : Z) : ascii := default "="%char (String.get (Z.to_nat n) alphabet).

Fixpoint index_of (c : ascii) (s : string) : option Z :=
  match s with
  | "" => None
  | String d s => if Ascii.eqb c d then Some 0 else option_map Z.succ (index_of c s)
  end.

(** The six bits of a character; the alphabet's own [-] and [_] stand beside
    the [+] and [/] they are translated to. *)
Definition char_sextet (c : ascii) : option Z :=
  if Ascii.eqb c "+" then Some 62 else if Ascii.eqb c "/" then Some 63 else index_of c alphabet.

Fixpoint b64encode (l : list Z) : string :=
  match l with
  | [] => ""
  | [a] => String (sextet_char (a / 4)) (String (sextet_char (a mod 4 * 16)) "==")
  | [a; b] => String (sextet_char (a / 4)) (String (sextet_char (a mod 4 * 16 + b / 16))
                (String (sextet_char (b mod 16 * 4)) "="))
  | a :: b :: c :: l =>
      String (sextet_char (a / 4)) (String (sextet_char (a mod 4 * 16 + b / 16))
        (String (sextet_char (b mod 16 * 4 + c / 64)) (String (sextet_char (c mod 64)) (b64encode l))))
  end.

(** [quad] characters of the open quantum are read, whose pending bits are
    [left]; [pads] padding characters follow them. *)
Fixpoint decode_from (quad left pads : Z) (s : string) : option (list Z) :=
  match s with
  | "" => if quad =? 0 then Some [] else None
  | String c s =>
      if Ascii.eqb c "=" then
        if (2 <=? quad) && (4 <=? quad + (pads + 1)) then Some []
        else decode_from quad left (if 2 <=? quad then pads + 1 else pads) s
      else match char_sextet c with
      | None => decode_from quad left pads s
      | Some n =>
          if quad =? 0 then decode_from 1 n 0 s
          else if quad =? 1 then l ← decode_from 2 (n mod 16) 0 s; Some (left * 4 + n / 16 :: l)
          else if quad =? 2 then l ← decode_from 3 (n mod 4) 0 s; Some (left * 16 + n / 4 :: l)
          else l ← decode_from 0 0 0 s; Some (left * 64 + n :: l)
      end
  end.

(** A text that is not ASCII raises too. *)
Definition b64decode (s : string) : option (list Z) :=
  if str_all (fun c => (code c <? 128)%N) s then decode_from 0 0 0 s else None.

Example encode_ex : (b64encode (utf8 "a"), b64encode (utf8 "ab"), b64encode (utf8 "abc>?")) = ("YQ==", "YWI=", "YWJjPj8=").
Proof. vm_compute. reflexivity. Qed.

Example decode_ex : (b64decode "YWJjPj8", b64decode "YW Jj=Pj8=", b64decode "YWJjPj8=junk", b64decode "Y") =
  (None, Some (utf8 "abc>?"), Some (utf8 "abc>?"), None).
Proof. vm_compute. reflexivity. Qed.

(** [bytes.decode("utf-8")], for code points below 256. *)
Fixpoint utf8_decode (l : list Z) : option string :=
  match l with
  | [] => Some ""
  | b :: l =>
      if (0 <=? b) && (b <? 128) then s ← utf8_decode l; Some (String (ascii_of_N (Z.to_N b)) s)
      else match l with
           | c :: l =>
               if ((b =? 194) || (b =? 195)) && (128 <=? c) && (c <? 192)
               then s ← utf8_decode l; Some (String (ascii_of_N (Z.to_N ((b - 192) * 64 + (c - 128)))) s)
               else None
           | [] => None
           end
  end.

(** ** What is encoded decodes *)

Definition sextet_good (n : Z) : bool :=
  let c := sextet_char n in
  negb (Ascii.eqb c "=") && opt_eqb (char_sextet c) (Some n) && (code c <? 128)%N && negb (is_space c) && negb (Ascii.eqb c ".").

Lemma sextets_good : forallb sextet_good (seqZ 0 64) = true.
Proof. vm_compute. reflexivity. Qed.

Lemma sextet n : 0 <= n < 64 -> sextet_good n = true.
Proof.
  intros Hn. apply (proj1 (forallb_forall sextet_good (seqZ 0 64)) sextets_good).
  apply list_elem_of_In, elem_of_seqZ. lia.
Qed.

Lemma decode_sextet quad left pads n s : 0 <= n < 64 ->
  decode_from quad left pads (String (sextet_char n) s) =
    if quad =? 0 then decode_from 1 n 0 s
    else if quad =? 1 then l ← decode_from 2 (n mod 16) 0 s; Some (left * 4 + n / 16 :: l)
    else if quad =? 2 then l ← decode_from 3 (n mod 4) 0 s; Some (left * 16 + n / 4 :: l)
    else l ← decode_from 0 0 0 s; Some (left * 64 + n :: l).
Proof.
  intros Hn. pose proof (sextet n Hn) as Hg. unfold sextet_good in Hg. rewrite !andb_true_iff in Hg.
  destruct Hg as [[[[He Hc] _] _] _]. apply negb_true_iff in He. apply bool_decide_eq_true in Hc.
  cbn [decode_from]. by rewrite He, Hc.
Qed.

Lemma triple_ind (P : list Z -> Prop) :
  P [] -> (forall a, P [a]) -> (forall a b, P [a; b]) -> (forall a b c l, P l -> P (a :: b :: c :: l)) -> forall l, P l.
Proof. intros H0 H1 H2 H3. fix IH 1. intros [|a [|b [|c l]]]; [exact H0|apply H1|apply H2|apply H3, IH]. Qed.

Ltac sextets := rewrite !decode_sextet by (Z.to_euclidean_division_equations; lia).

Ltac closed_leb :=
  repeat match goal with |- context [?x <=? ?y] => let b := eval vm_compute in (x <=? y) in change (x <=? y) with b end; cbn.

Lemma decode_from_encode l : Forall is_byte l -> decode_from 0 0 0 (b64encode l) = Some l.
Proof.
  unfold is_byte. induction l as [|a|a b|a b c l IH] using triple_ind; intros Hl; [done|..]; cbn [b64encode];
    rewrite ?Forall_cons in Hl; destruct_and? Hl; sextets; cbn [Z.eqb].
  - cbn. closed_leb. repeat f_equal. Z.to_euclidean_division_equations; lia.
  - cbn. closed_leb. repeat f_equal; Z.to_euclidean_division_equations; lia.
  - rewrite IH by done. cbn. repeat f_equal; Z.to_euclidean_division_equations; lia.
Qed.

(** *** Padding stripped and restored *)

(** [s.rstrip("=")] and [s + "=" * (-len(s) % 4)]. *)
Definition unpad (s : string) : string := rstrip_by (Ascii.eqb "="%char) s.
Fixpoint equals (n : nat) : string := match n with O => "" | S n => String "=" (equals n) end.
Definition repad (s : string) : string := s +:+ equals (Z.to_nat ((- Z.of_nat (String.length s)) mod 4)).

Lemma unpad_cons c s : Ascii.eqb "=" c = false -> unpad (String c s) = String c (unpad s).
Proof. intros Hc. unfold unpad. cbn [rstrip_by]. rewrite Hc. by destruct (rstrip_by _ s). Qed.

Lemma unpad_sextet n s : 0 <= n < 64 -> unpad (String (sextet_char n) s) = String (sextet_char n) (unpad s).
Proof.
  intros Hn. pose proof (sextet n Hn) as Hg. unfold sextet_good in Hg. rewrite !andb_true_iff in Hg.
  destruct Hg as [[[[He _] _] _] _]. apply negb_true_iff in He. apply unpad_cons. by rewrite Ascii.eqb_sym.
Qed.

Lemma repad_cons4 a b c d s : repad (String a (String b (String c (String d s)))) =
  String a (String b (String c (String d (repad s)))).
Proof.
  unfold repad. cbn [String.length String.app].
  replace (_ mod 4) with ((- Z.of_nat (String.length s)) mod 4) by (Z.to_euclidean_division_equations; lia). done.
Qed.

Lemma length_b64encode l : Z.of_nat (String.length (b64encode l)) mod 4 = 0.
Proof.
  induction l as [|a|a b|a b c l IH] using triple_ind; try done. cbn [b64encode String.length].
  Z.to_euclidean_division_equations; lia.
Qed.

Lemma repad_encode l : repad (b64encode l) = b64encode l.
Proof.
  unfold repad. pose proof (length_b64encode l) as Hl. rewrite Z.mod_opp_l_z by lia. cbn. apply append_nil_r.
Qed.

Lemma repad_unpad_encode l : Forall is_byte l -> repad (unpad (b64encode l)) = b64encode l.
Proof.
  unfold is_byte. induction l as [|a|a b|a b c l IH] using triple_ind; intros Hl; [done|..]; cbn [b64encode];
    rewrite ?Forall_cons in Hl; destruct_and? Hl;
    rewrite !unpad_sextet by (Z.to_euclidean_division_equations; lia).
  - done.
  - done.
  - rewrite repad_cons4. by rewrite IH.
Qed.

Lemma str_all_encode (p : ascii -> bool) l : p "="%char = true -> (forall n, 0 <= n < 64 -> p (sextet_char n) = true) ->
  Forall is_byte l -> str_all p (b64encode l) = true.
Proof.
  unfold is_byte. intros Hp Hs. induction l as [|a|a b|a b c l IH] using triple_ind; intros Hl; [done|..]; cbn [b64encode str_all];
    rewrite ?Forall_cons in Hl; destruct_and? Hl;
    rewrite !Hs by (Z.to_euclidean_division_equations; lia); rewrite ?Hp; [done|done|].
  cbn. by apply IH.
Qed.

(** What is encoded decodes, padded or not. *)
Lemma b64decode_encode l : Forall is_byte l -> b64decode (b64encode l) = Some l.
Proof.
  intros Hl. unfold b64decode. rewrite decode_from_encode by done. rewrite str_all_encode; [done|done| |done].
  intros n Hn. pose proof (sextet n Hn) as Hg. unfold sextet_good in Hg. rewrite !andb_true_iff in Hg. tauto.
Qed.

Lemma b64decode_unpadded l : Forall is_byte l -> b64decode (repad (unpad (b64encode l))) = Some l.
Proof. intros Hl. rewrite repad_unpad_encode by done. by apply b64decode_encode. Qed.

Lemma utf8_decode_utf8 s : utf8_decode (utf8 s) = Some s.
Proof.
  induction s as [|c s IH]; [done|]. cbn [utf8]. unfold utf8_char. pose proof (code_bound c) as Hc.
  assert (Hid : forall z, z = Z.of_N (code c) -> ascii_of_N (Z.to_N z) = c).
  { intros z ->. rewrite N2Z.id. apply ascii_N_embedding. }
  set (n := Z.of_N (code c)) in *. destruct (Z.ltb_spec n 128) as [Hn|Hn].
  - cbn [app utf8_decode]. rewrite (proj2 (Z.leb_le 0 n)), (proj2 (Z.ltb_lt n 128)) by lia. cbn [andb].
    rewrite IH. cbn [mbind option_bind]. by rewrite Hid.
  - pose proof (Z.div_mod n 64 ltac:(lia)) as Hd. pose proof (Z.mod_pos_bound n 64 ltac:(lia)) as Hm.
    assert (Hq : 2 <= n / 64 <= 3) by (split; [apply Z.div_le_lower_bound|apply Z.lt_succ_r, Z.div_lt_upper_bound]; lia).
    cbn [app utf8_decode]. replace ((0 <=? 192 + n / 64) && (192 + n / 64 <? 128)) with false
      by (symmetry; rewrite (proj2 (Z.ltb_ge _ 128)) by lia; apply andb_false_r).
    replace ((_ || _) && _ && _) with true.
    2: { symmetry. rewrite (proj2 (Z.leb_le 128 _)), (proj2 (Z.ltb_lt _ 192)) by lia. rewrite !andb_true_r.
         apply orb_true_iff. rewrite !Z.eqb_eq. lia. }
    rewrite IH. cbn [mbind option_bind]. rewrite Hid by lia. done.
Qed.

Lemma utf8_bytes s : Forall is_byte (utf8 s).
Proof.
  induction s as [|c s IH]; [constructor|]. cbn [utf8]. apply Forall_app. split; [|exact IH].
  unfold utf8_char. pose proof (code_bound c) as Hc. unfold is_byte.
  destruct (Z.ltb_spec (Z.of_N (code c)) 128); repeat constructor; Z.to_euclidean_division_equations; lia.
Qed.
