(* ===== verification/Fsrs.v ===== *)
(** * Review scheduling (packages/domain-python/src/memdot_domain/fsrs.py)

    A card's stability and difficulty are doubles ([Float64]); a [datetime] is
    the number of microseconds since 0001-01-01T00:00Z, and adding a
    [timedelta] to one raises [OverflowError] outside years 1 to 9999.  The
    [now] argument is optional in the code; [clock] stands for what
    [datetime.now(UTC)] would return. *)

From S2P Require Import Prelude PyStr Enums Float64.
From Stdlib Require Import ZArith Lia.
From stdpp Require Import list strings.
Open Scope Z_scope.

(** ** Dates *)

Notation datetime := Z (only parsing).

Definition datetime_max : Z := 3652059 * us_per_day - 1.
Definition timedelta_max_days : Z := 999999999.

(** [ts + timedelta(microseconds=us)]. *)
Definition dt_add (ts : datetime) (us : Z) : res datetime :=
  let t := ts + us in
  if (0 <=? t) && (t <=? datetime_max) then Ok t else Raise OverflowError.

(** [timedelta(days=d)], in microseconds. *)
Definition timedelta_days (d : f64) : res Z :=
  let us := us_of_days d in
  if us / us_per_day <=? timedelta_max_days then Ok us else Raise OverflowError.

Definition minutes (n : Z) : Z := n * 60000000.

Definition add_days (ts : datetime) (d : f64) : res datetime :=
  us ← timedelta_days d; dt_add ts us.

Lemma dt_add_Ok ts us t : dt_add ts us = Ok t <-> t = ts + us /\ 0 <= t <= datetime_max.
Proof.
  unfold dt_add. destruct (Z.leb_spec 0 (ts + us)), (Z.leb_spec (ts + us) datetime_max);
    simpl; split; intros H'; try discriminate; try (injection H' as <-); try lia.
  destruct H' as [-> _]. done.
Qed.

Lemma add_days_Ok ts d t : add_days ts d = Ok t -> t = ts + us_of_days d /\ 0 <= t <= datetime_max.
Proof.
  unfold add_days, timedelta_days. cbv zeta. intros H. run H. by apply dt_add_Ok.
Qed.

Lemma us_days_bound us : us <= datetime_max -> us / us_per_day <= timedelta_max_days.
Proof.
  unfold datetime_max, timedelta_max_days, us_per_day. intros H.
  apply Z.div_le_upper_bound; lia.
Qed.

Lemma timedelta_days_Ok d :
  us_of_days d <= datetime_max -> timedelta_days d = Ok (us_of_days d).
Proof.
  intros H%us_days_bound. unfold timedelta_days.
  apply Z.leb_le in H. cbv zeta. by rewrite H.
Qed.

Lemma add_days_total ts d :
  0 <= ts -> 0 <= d -> ts + us_of_days d <= datetime_max -> add_days ts d = Ok (ts + us_of_days d).
Proof.
  intros Ht Hd H. pose proof (us_of_days_nonneg d Hd).
  unfold add_days. rewrite timedelta_days_Ok by lia. apply dt_add_Ok. lia.
Qed.

Lemma add_days_overflow ts d :
  0 <= ts -> datetime_max < ts + us_of_days d -> add_days ts d = Raise OverflowError.
Proof.
  intros Ht H. unfold add_days, timedelta_days. cbv zeta. simpl.
  case_match; [|done]. simpl. unfold dt_add.
  rewrite (proj2 (Z.leb_gt _ datetime_max)) by lia. by rewrite andb_false_r.
Qed.

(** ** Cards *)

Record FsrsCard := {
  stability : f64;
  difficulty : f64;
  reps : Z;
  lapses : Z;
  due_at : datetime;
  last_review_at : option datetime;
}.

Definition default_now (clock : datetime) (now : option datetime) : datetime :=
  match now with Some ts => ts | None => clock end.

Definition initial_card (clock : datetime) (now : option datetime) : FsrsCard :=
  let ts := default_now clock now in
  {| stability := lit 1 1; difficulty := lit 5 1; reps := 0; lapses := 0;
     due_at := ts; last_review_at := None |}.

Definition map_outcome_to_rating
    (correct revealed substantive_hint scaffold effortless : bool) : FsrsRating.t :=
  if negb correct || revealed || substantive_hint then FsrsRating.AGAIN
  else if scaffold then FsrsRating.HARD
  else if effortless then FsrsRating.EASY
  else FsrsRating.GOOD.

(** The four branches: stability, difficulty and interval, before rounding. *)
Definition schedule_rated (card : FsrsCard) (r : FsrsRating.t) (ts : datetime) : res FsrsCard :=
  let finish s d reps lapses due :=
    {| stability := round4 s; difficulty := round4 d; reps := reps; lapses := lapses;
       due_at := due; last_review_at := Some ts |} in
  match r with
  | FsrsRating.AGAIN =>
      let s := Z.max (lit 5 10) (fmul (stability card) (lit 5 10)) in
      let d := Z.min (lit 10 1) (fadd (difficulty card) (lit 1 1)) in
      due ← dt_add ts (minutes 10);
      mret (finish s d 0 (lapses card + 1) due)
  | FsrsRating.HARD =>
      let s := Z.max (lit 1 1) (fmul (stability card) (lit 12 10)) in
      let d := Z.min (lit 10 1) (fadd (difficulty card) (lit 5 10)) in
      due ← add_days ts (Z.max (lit 1 1) (fmul s (lit 8 10)));
      mret (finish s d (reps card + 1) (lapses card) due)
  | FsrsRating.GOOD =>
      let s := Z.max (lit 1 1) (fmul (stability card) (lit 18 10)) in
      due ← add_days ts (Z.max (lit 1 1) s);
      mret (finish s (difficulty card) (reps card + 1) (lapses card) due)
  | FsrsRating.EASY =>
      let s := Z.max (lit 1 1) (fmul (stability card) (lit 24 10)) in
      let d := Z.max (lit 1 1) (fsub (difficulty card) (lit 5 10)) in
      due ← add_days ts (Z.max (lit 2 1) (fmul s (lit 13 10)));
      mret (finish s d (reps card + 1) (lapses card) due)
  end.

Definition schedule (clock : datetime) (card : FsrsCard) (rating : string)
    (now : option datetime) : res FsrsCard :=
  let ts := default_now clock now in
  r ← of_option (ValueError rating) (of_value (A := FsrsRating.t) rating);
  schedule_rated card r ts.

Definition scheduling_priority (clock : datetime) (recall_state : string)
    (due : option datetime) (is_prerequisite pinned : bool) (now : option datetime) : Z :=
  let ts := default_now clock now in
  if String.eqb recall_state "lapsed" && is_prerequisite then 0
  else if String.eqb recall_state "due" && is_prerequisite then 1
  else if match due with Some d => d <=? ts | None => false end then 2
  else if pinned then 4
  else 3.

(** A history of reviews: each rating is given at its time, and the card each
    returns is the next one's. *)
Fixpoint review_all (card : FsrsCard) (reviews : list (FsrsRating.t * datetime)) : res FsrsCard :=
  match reviews with
  | [] => mret card
  | (r, ts) :: rest => c ← schedule ts card (value r) (Some ts); review_all c rest
  end.

(** ** The well-formed cards *)

Record card_ok (c : FsrsCard) : Prop := {
  ok_stability : lit 5 10 <= stability c;
  ok_difficulty : lit 1 1 <= difficulty c <= lit 10 1;
  ok_reps : 0 <= reps c;
  ok_lapses : 0 <= lapses c;
}.

Definition rank (r : FsrsRating.t) : Z :=
  match r with
  | FsrsRating.AGAIN => 0 | FsrsRating.HARD => 1 | FsrsRating.GOOD => 2 | FsrsRating.EASY => 3
  end.

(** The smallest interval each rating gives. *)
Definition min_interval (r : FsrsRating.t) : Z :=
  match r with
  | FsrsRating.AGAIN => minutes 10
  | FsrsRating.EASY => 2 * us_per_day
  | _ => us_per_day
  end.

Lemma round4_lit l x : round4 l = l ->
  (l <= x -> l <= round4 x) /\ (x <= l -> round4 x <= l).
Proof. intros H. split; intros Hx%round4_mono; by rewrite H in Hx. Qed.

Lemma round4_bounds x :
  (lit 5 10 <= x -> lit 5 10 <= round4 x) /\ (lit 1 1 <= x -> lit 1 1 <= round4 x) /\
  (x <= lit 10 1 -> round4 x <= lit 10 1).
Proof.
  assert (H5 : round4 (lit 5 10) = lit 5 10) by (vm_compute; reflexivity).
  assert (H1 : round4 (lit 1 1) = lit 1 1) by (vm_compute; reflexivity).
  assert (H10 : round4 (lit 10 1) = lit 10 1) by (vm_compute; reflexivity).
  pose proof (proj1 (round4_lit _ x H5)). pose proof (proj1 (round4_lit _ x H1)).
  pose proof (proj2 (round4_lit _ x H10)). exact (conj H (conj H0 H2)).
Qed.

Lemma schedule_value clock c r now :
  schedule clock c (value r) now = schedule_rated c r (default_now clock now).
Proof. unfold schedule. by rewrite of_value_value. Qed.

Lemma lit_one n : lit n 1 = n * one -> us_of_days (lit n 1) = us_of_days (n * one).
Proof. by intros ->. Qed.

Lemma us_of_days_lit1 d : lit 1 1 <= d -> us_per_day <= us_of_days d.
Proof.
  assert (lit 1 1 = 1 * one) as -> by (vm_compute; reflexivity).
  intros H%us_of_days_ge; [|lia]. lia.
Qed.

Lemma us_of_days_lit2 d : lit 2 1 <= d -> 2 * us_per_day <= us_of_days d.
Proof.
  assert (lit 2 1 = 2 * one) as -> by (vm_compute; reflexivity).
  intros H%us_of_days_ge; [|lia]. lia.
Qed.

Lemma add_days_ge m n ts d t :
  (forall d, lit m 1 <= d -> n <= us_of_days d) ->
  add_days ts (Z.max (lit m 1) d) = Ok t -> ts + n <= t <= datetime_max.
Proof.
  intros Hn [-> ?]%add_days_Ok.
  pose proof (Hn _ (Z.le_max_l (lit m 1) d)). lia.
Qed.

Lemma schedule_rated_due c r ts c' :
  schedule_rated c r ts = Ok c' ->
  ts + min_interval r <= due_at c' <= datetime_max /\ last_review_at c' = Some ts.
Proof.
  unfold schedule_rated, min_interval.
  destruct r; cbv zeta; intros (due & Hd & Hc)%bind_Ok; injection Hc as <-; (split; [|reflexivity]).
  - apply dt_add_Ok in Hd. cbn [due_at]. lia.
  - by eapply add_days_ge in Hd; [|apply us_of_days_lit1].
  - by eapply add_days_ge in Hd; [|apply us_of_days_lit1].
  - by eapply add_days_ge in Hd; [|apply us_of_days_lit2].
Qed.

Lemma lit1_plus_0 : fadd (lit 1 1) 0 = lit 1 1.
Proof. vm_compute. reflexivity. Qed.

Lemma lit10_minus_0 : fsub (lit 10 1) 0 = lit 10 1.
Proof. vm_compute. reflexivity. Qed.

Lemma schedule_rated_ok c r ts c' :
  card_ok c -> schedule_rated c r ts = Ok c' -> card_ok c'.
Proof.
  intros [Hs Hd Hr Hl] H.
  assert (L1 : lit 5 10 <= lit 1 1) by (apply lit_mono; lia).
  assert (L10 : lit 1 1 <= lit 10 1) by (apply lit_mono; lia).
  assert (Hinc : forall p q, 0 <= p -> 0 < q -> lit 1 1 <= fadd (difficulty c) (lit p q)).
  { intros p q Hp Hq. rewrite <- lit1_plus_0. apply fadd_mono; [lia|]. apply lit_nonneg; lia. }
  pose proof (Hinc 1 1 ltac:(lia) ltac:(lia)) as H11.
  pose proof (Hinc 5 10 ltac:(lia) ltac:(lia)) as H510. clear Hinc.
  assert (Hdec : fsub (difficulty c) (lit 5 10) <= lit 10 1).
  { rewrite <- lit10_minus_0. apply fsub_mono; [lia|]. apply lit_nonneg; lia. }
  assert (Hok : forall s d r' l' due, lit 5 10 <= s -> lit 1 1 <= d <= lit 10 1 -> 0 <= r' -> 0 <= l' ->
    card_ok {| stability := round4 s; difficulty := round4 d; reps := r'; lapses := l';
               due_at := due; last_review_at := Some ts |}).
  { clear. intros s d r' l' due Hs [Hd1 Hd2] Hr Hl.
    destruct (round4_bounds s) as (H5 & _ & _), (round4_bounds d) as (_ & H1 & H10).
    constructor; cbn [stability difficulty reps lapses]; [exact (H5 Hs)|exact (conj (H1 Hd1) (H10 Hd2))|exact Hr|exact Hl]. }
  revert H. unfold schedule_rated.
  destruct r; cbv zeta; intros (due & _ & Hc)%bind_Ok; injection Hc as <-; apply Hok; lia.
Qed.

(** ** Order of the ratings *)

(** The interval of each rating, as a function of the card's stability. *)
Definition due_of (s : f64) (r : FsrsRating.t) (ts : datetime) : Z :=
  match r with
  | FsrsRating.AGAIN => ts + minutes 10
  | FsrsRating.HARD =>
      ts + us_of_days (Z.max (lit 1 1) (fmul (Z.max (lit 1 1) (fmul s (lit 12 10))) (lit 8 10)))
  | FsrsRating.GOOD =>
      ts + us_of_days (Z.max (lit 1 1) (Z.max (lit 1 1) (fmul s (lit 18 10))))
  | FsrsRating.EASY =>
      ts + us_of_days (Z.max (lit 2 1) (fmul (Z.max (lit 1 1) (fmul s (lit 24 10))) (lit 13 10)))
  end.

Definition stability_of (s : f64) (r : FsrsRating.t) : f64 :=
  round4 (match r with
  | FsrsRating.AGAIN => Z.max (lit 5 10) (fmul s (lit 5 10))
  | FsrsRating.HARD => Z.max (lit 1 1) (fmul s (lit 12 10))
  | FsrsRating.GOOD => Z.max (lit 1 1) (fmul s (lit 18 10))
  | FsrsRating.EASY => Z.max (lit 1 1) (fmul s (lit 24 10))
  end).

Lemma schedule_rated_values c r ts c' :
  schedule_rated c r ts = Ok c' ->
  due_at c' = due_of (stability c) r ts /\ stability c' = stability_of (stability c) r.
Proof.
  unfold schedule_rated, due_of, stability_of.
  destruct r; cbv zeta; intros (due & Hd & Hc)%bind_Ok; injection Hc as <-;
    cbn [due_at stability]; (split; [|reflexivity]).
  - exact (proj1 (proj1 (dt_add_Ok _ _ _) Hd)).
  - exact (proj1 (add_days_Ok _ _ _ Hd)).
  - exact (proj1 (add_days_Ok _ _ _ Hd)).
  - exact (proj1 (add_days_Ok _ _ _ Hd)).
Qed.

(** The constants of the intervals, compared once. *)
Lemma lit_le_compute x y : (x <=? y) = true -> x <= y.
Proof. apply Z.leb_le. Qed.

Ltac lit_le := apply lit_le_compute; vm_compute; reflexivity.

Lemma lit_0_5 : 0 <= lit 5 10. Proof. lit_le. Qed.
Lemma lit_0_1 : 0 <= lit 1 1. Proof. lit_le. Qed.
Lemma lit_0_8 : 0 <= lit 8 10. Proof. lit_le. Qed.
Lemma lit_8_1 : lit 8 10 <= one. Proof. lit_le. Qed.
Lemma lit_1_13 : one <= lit 13 10. Proof. lit_le. Qed.
Lemma lit_5_12 : lit 5 10 <= lit 12 10. Proof. lit_le. Qed.
Lemma lit_12_18 : lit 12 10 <= lit 18 10. Proof. lit_le. Qed.
Lemma lit_18_24 : lit 18 10 <= lit 24 10. Proof. lit_le. Qed.
Lemma lit_5_1 : lit 5 10 <= lit 1 1. Proof. lit_le. Qed.
Lemma lit_1_2 : lit 1 1 <= lit 2 1. Proof. lit_le. Qed.
Lemma lit1_is_one : lit 1 1 = one. Proof. vm_compute. reflexivity. Qed.
Lemma one_exact : fmul one one = one. Proof. vm_compute. reflexivity. Qed.

Lemma max_exact s c : 0 <= s -> 0 <= c ->
  fmul (Z.max (lit 1 1) (fmul s c)) one = Z.max (lit 1 1) (fmul s c).
Proof.
  intros Hs Hc. rewrite lit1_is_one. destruct (Z.max_spec one (fmul s c)) as [[_ ->]|[_ ->]].
  - apply fmul_one_r; assumption.
  - apply one_exact.
Qed.

Lemma max_step s c c' : 0 <= s -> 0 <= c -> c <= c' ->
  lit 1 1 <= Z.max (lit 1 1) (fmul s c) <= Z.max (lit 1 1) (fmul s c').
Proof.
  intros Hs Hc Hle. split; [apply Z.le_max_l|].
  apply Z.max_le_compat_l, fmul_mono; lia.
Qed.

Lemma easy_step s : 0 <= s -> 0 <= lit 12 10 /\ 0 <= lit 18 10 /\ 0 <= lit 24 10.
Proof.
  intros _. pose proof lit_0_5. pose proof lit_5_12. pose proof lit_12_18. pose proof lit_18_24. lia.
Qed.

Lemma hard_le_good s : 0 <= s ->
  Z.max (lit 1 1) (fmul (Z.max (lit 1 1) (fmul s (lit 12 10))) (lit 8 10)) <=
  Z.max (lit 1 1) (Z.max (lit 1 1) (fmul s (lit 18 10))).
Proof.
  intros Hs. destruct (easy_step s Hs) as (H12 & H18 & H24). apply Z.max_le_compat_l.
  etransitivity; [|apply (max_step s (lit 12 10) (lit 18 10) Hs H12 lit_12_18)].
  rewrite <- (max_exact s (lit 12 10) Hs H12) at 2.
  apply fmul_mono; [|exact lit_0_8|lia|exact lit_8_1].
  pose proof lit_0_1. lia.
Qed.

Lemma good_le_easy s : 0 <= s ->
  Z.max (lit 1 1) (Z.max (lit 1 1) (fmul s (lit 18 10))) <=
  Z.max (lit 2 1) (fmul (Z.max (lit 1 1) (fmul s (lit 24 10))) (lit 13 10)).
Proof.
  intros Hs. destruct (easy_step s Hs) as (H12 & H18 & H24).
  pose proof lit_1_2. pose proof lit_0_1. pose proof one_pos.
  apply Z.max_lub; [lia|]. etransitivity; [|apply Z.le_max_r].
  etransitivity; [apply (max_step s (lit 18 10) (lit 24 10) Hs H18 lit_18_24)|].
  rewrite <- (max_exact s (lit 24 10) Hs H24) at 1.
  apply fmul_mono; [lia|lia|lia|exact lit_1_13].
Qed.

Lemma due_of_step s ts : 0 <= s ->
  due_of s FsrsRating.AGAIN ts <= due_of s FsrsRating.HARD ts /\
  due_of s FsrsRating.HARD ts <= due_of s FsrsRating.GOOD ts /\
  due_of s FsrsRating.GOOD ts <= due_of s FsrsRating.EASY ts.
Proof.
  intros Hs. unfold due_of. pose proof lit_0_1. split; [|split].
  - apply Zplus_le_compat_l. etransitivity; [|apply us_of_days_lit1, Z.le_max_l].
    unfold minutes, us_per_day. lia.
  - apply Zplus_le_compat_l, us_of_days_mono; [lia|]. by apply hard_le_good.
  - apply Zplus_le_compat_l, us_of_days_mono; [lia|]. by apply good_le_easy.
Qed.

Lemma stability_of_step s : 0 <= s ->
  stability_of s FsrsRating.AGAIN <= stability_of s FsrsRating.HARD /\
  stability_of s FsrsRating.HARD <= stability_of s FsrsRating.GOOD /\
  stability_of s FsrsRating.GOOD <= stability_of s FsrsRating.EASY.
Proof.
  intros Hs. destruct (easy_step s Hs) as (H12 & H18 & H24). unfold stability_of.
  split; [|split]; apply round4_mono; apply Z.max_le_compat.
  - exact lit_5_1.
  - apply fmul_mono; [lia|exact lit_0_5|lia|exact lit_5_12].
  - lia.
  - apply fmul_mono; [lia|exact H12|lia|exact lit_12_18].
  - lia.
  - apply fmul_mono; [lia|exact H18|lia|exact lit_18_24].
Qed.

Lemma rank_chain (f : FsrsRating.t -> Z) :
  f FsrsRating.AGAIN <= f FsrsRating.HARD /\ f FsrsRating.HARD <= f FsrsRating.GOOD /\
  f FsrsRating.GOOD <= f FsrsRating.EASY ->
  forall r r', rank r <= rank r' -> f r <= f r'.
Proof. intros H [] []; cbn [rank]; lia. Qed.

(** ** A streak of easy reviews

    The stability has no upper bound: each EASY review multiplies it by 2.4,
    and the eighteenth in a row asks for a date after year 9999. *)

Fixpoint easy_low (n : nat) : f64 :=
  match n with O => lit 5 10 | S n => stability_of (easy_low n) FsrsRating.EASY end.

Lemma easy_low_nonneg n : 0 <= easy_low n.
Proof.
  pose proof lit_0_5. pose proof lit_0_1. pose proof lit_5_1. induction n; cbn [easy_low]; [assumption|].
  unfold stability_of. destruct (round4_bounds (Z.max (lit 1 1) (fmul (easy_low n) (lit 24 10)))) as (_ & H1' & _).
  etransitivity; [exact lit_0_1|]. apply H1', Z.le_max_l.
Qed.

Lemma easy_low_grows n s : easy_low n <= s -> easy_low (S n) <= stability_of s FsrsRating.EASY.
Proof.
  intros Hs. pose proof (easy_low_nonneg n). destruct (easy_step s ltac:(lia)) as (_ & _ & H24).
  cbn [easy_low]. unfold stability_of. apply round4_mono, Z.max_le_compat_l, fmul_mono; lia.
Qed.

Lemma dt_add_raise ts us e : dt_add ts us = Raise e -> e = OverflowError.
Proof. unfold dt_add. cbv zeta. case_match; congruence. Qed.

Lemma add_days_raise ts d e : add_days ts d = Raise e -> e = OverflowError.
Proof.
  unfold add_days, timedelta_days. generalize (us_of_days d) as us. intros us.
  intros [H|(u & _ & H)]%bind_Raise; [|by apply dt_add_raise in H].
  revert H. cbv zeta. case_match; congruence.
Qed.

Lemma schedule_rated_raise c r ts e : schedule_rated c r ts = Raise e -> e = OverflowError.
Proof.
  unfold schedule_rated. cbv zeta.
  destruct r; (intros [H|(? & _ & H)]%bind_Raise; [|discriminate H]).
  - exact (dt_add_raise _ _ _ H).
  - exact (add_days_raise _ _ _ H).
  - exact (add_days_raise _ _ _ H).
  - exact (add_days_raise _ _ _ H).
Qed.

(** One EASY review multiplies at least the ten-thousandths of the stability by
    2.4, less one. *)
Lemma times_24 one P L c y k k' : 0 < one -> 0 < P -> 0 <= L -> 0 <= c -> 0 <= k -> 8 * k <= P ->
  10 * k' <= 24 * k - 10 ->
  k * one * (P - 1) <= L * 10000 * P -> 24 * one * (P - 1) <= c * 10 * P -> L * c * (P - 1) <= y * one * P ->
  k' * one <= y * 10000.
Proof.
  intros Ho HP HL Hc Hk HkP Hk' H1 H2 H3.
  assert (H4 : (k * one * (P - 1)) * (24 * one * (P - 1)) <= (L * 10000 * P) * (c * 10 * P))
    by (apply Z.mul_le_mono_nonneg; nia).
  assert (H5 : (L * c * (P - 1)) * (100000 * P * P) <= (y * one * P) * (100000 * P * P))
    by (apply Z.mul_le_mono_nonneg_r; nia).
  assert (H6 : (k * one * (P - 1)) * (24 * one * (P - 1)) * (P - 1) <= (y * one * P) * (100000 * P * P)).
  { etransitivity; [apply Z.mul_le_mono_nonneg_r; [lia|exact H4]|].
    etransitivity; [|exact H5]. apply Z.eq_le_incl. ring. }
  assert (H7 : 24 * k * (P - 1) ^ 3 * one <= 100000 * y * P ^ 3).
  { apply (Z.mul_le_mono_pos_r _ _ one); [done|]. etransitivity; [|etransitivity; [exact H6|]];
      apply Z.eq_le_incl; ring. }
  assert (H8 : 10 * k' * P ^ 3 <= 24 * k * (P - 1) ^ 3).
  { etransitivity; [apply Z.mul_le_mono_nonneg_r; [lia|exact Hk']|].
    assert (72 * k * P <= 10 * P ^ 2 + 72 * k) by nia. nia. }
  apply (Z.mul_le_mono_pos_r _ _ (10 * P ^ 3)); [lia|].
  etransitivity; [|etransitivity; [exact H7|]]; [|apply Z.eq_le_incl; ring].
  replace (k' * one * (10 * P ^ 3)) with (10 * k' * P ^ 3 * one) by ring.
  by apply Z.mul_le_mono_nonneg_r; [lia|].
Qed.

Lemma easy_grows_decimal k k' s : 5000 <= k <= 2 ^ 50 -> 10 * k' <= 24 * k - 10 -> lit k 10000 <= s ->
  lit k' 10000 <= stability_of s FsrsRating.EASY.
Proof.
  intros Hk Hk' Hs. pose proof one_pos. pose proof (lit_rel k 10000 ltac:(lia) ltac:(lia) ltac:(lia)) as H1.
  pose proof (lit_rel 24 10 ltac:(lia) ltac:(lia) ltac:(lia)) as H2.
  assert (HL : 0 <= lit k 10000) by (apply lit_nonneg; lia). pose proof (easy_step 0 ltac:(lia)) as (_ & _ & Hc).
  assert (HLc : one * 2 ^ 52 <= lit k 10000 * lit 24 10).
  { transitivity (lit 5000 10000 * lit 24 10); [|apply Z.mul_le_mono_nonneg_r; [done|apply lit_mono; lia]].
    apply Z.leb_le. vm_compute. reflexivity. }
  pose proof (fmul_rel _ _ HLc) as H3. unfold stability_of.
  transitivity (round4 (fmul (lit k 10000) (lit 24 10))).
  - apply round4_ge; [by apply fmul_nonneg|].
    apply (times_24 one (2 ^ 53) (lit k 10000) (lit 24 10) _ k k'); [done|lia|done|done|lia|lia|done..].
  - apply round4_mono. etransitivity; [|apply Z.le_max_r]. apply fmul_mono; [done|done|done|lia].
Qed.

(** The ten-thousandths of [easy_low n], from below. *)
Fixpoint easy_decimal (n : nat) : Z :=
  match n with O => 5000 | S n => easy_decimal n * 24 / 10 - 1 end.

Lemma easy_decimal_low n : (n <= 17)%nat -> lit (easy_decimal n) 10000 <= easy_low n.
Proof.
  induction n as [|n IH]; intros Hn; [change (easy_decimal 0) with 5000; apply lit_mono; lia|]. cbn [easy_low].
  apply (easy_grows_decimal (easy_decimal n)); [| |apply IH; lia].
  - do 17 (destruct n as [|n]; [vm_compute; split; discriminate|]). lia.
  - cbn [easy_decimal]. pose proof (Z.mul_div_le (easy_decimal n * 24) 10 ltac:(lia)). lia.
Qed.

Lemma easy_interval n s : (17 <= n)%nat -> easy_low 17 <= s ->
  forall ts, 0 <= ts -> datetime_max < due_of s FsrsRating.EASY ts.
Proof.
  intros _ Hs ts Hts. unfold due_of. pose proof (easy_decimal_low 17 ltac:(lia)) as Hd.
  replace (easy_decimal 17) with 14537366953 in Hd by (vm_compute; reflexivity).
  assert (H0 : datetime_max < us_of_days (Z.max (lit 2 1)
    (fmul (Z.max (lit 1 1) (fmul (lit 14537366953 10000) (lit 24 10))) (lit 13 10)))).
  { apply Z.ltb_lt. vm_compute. reflexivity. }
  pose proof (lit_nonneg 14537366953 10000 ltac:(discriminate) ltac:(reflexivity)) as Hk.
  revert Hd H0 Hk. generalize (lit 14537366953 10000). intros low Hd H0 Hk.
  destruct (easy_step s ltac:(lia)) as (_ & _ & H24).
  pose proof lit_1_13. pose proof lit_0_1. pose proof lit_1_2. pose proof one_pos.
  set (x := us_of_days _) in H0. set (y := us_of_days _). enough (x <= y) by lia.
  apply us_of_days_mono; [lia|]. apply Z.max_le_compat_l, fmul_mono; [lia|lia| |lia].
  apply Z.max_le_compat_l, fmul_mono; lia.
Qed.

Lemma easy_step_review n c ts : easy_low n <= stability c -> 0 <= ts -> (n <= 17)%nat ->
  (exists c', schedule_rated c FsrsRating.EASY ts = Ok c' /\ easy_low (S n) <= stability c' /\ (n < 17)%nat) \/
  schedule_rated c FsrsRating.EASY ts = Raise OverflowError.
Proof.
  intros Hs Hts Hn. destruct (schedule_rated c FsrsRating.EASY ts) as [c'|e] eqn:E.
  - left. exists c'. split; [reflexivity|].
    pose proof (schedule_rated_values _ _ _ _ E) as [Hd Hst].
    rewrite Hst. split; [by apply easy_low_grows|].
    destruct (decide (n = 17%nat)) as [->|]; [exfalso|lia].
    pose proof (easy_interval 17 _ ltac:(lia) Hs ts Hts).
    apply schedule_rated_due in E as [[_ ?] _]. lia.
  - right. by apply schedule_rated_raise in E as ->.
Qed.

Lemma easy_streak n c nows : (n <= 17)%nat -> (18 <= n + length nows)%nat ->
  easy_low n <= stability c -> Forall (fun ts => 0 <= ts) nows ->
  review_all c (map (pair FsrsRating.EASY) nows) = Raise OverflowError.
Proof.
  intros Hn Hl Hs Hnows. revert n c Hn Hl Hs.
  induction Hnows as [|ts nows Hts _ IH]; intros n c Hn Hl Hs; [simpl in Hl; lia|].
  cbn [map review_all]. rewrite schedule_value. cbn [default_now].
  destruct (easy_step_review n c ts Hs Hts Hn) as [(c' & -> & Hs' & Hn')| ->]; [|reflexivity].
  simpl in Hl. apply (IH (S n)); [lia|lia|exact Hs'].
Qed.

(** ** Properties *)

(** C8: every review keeps a card well formed (stability at least 0.5,
    difficulty between 1 and 10, counters not negative), sets the next due
    date at least the rating's minimal interval ahead and never beyond the
    last representable date, and records the time of the review. *)
Theorem schedule_preserves_card clock c rating now c' :
  card_ok c -> schedule clock c rating now = Ok c' ->
  card_ok c' /\ last_review_at c' = Some (default_now clock now) /\
  exists r, value r = rating /\
    default_now clock now + min_interval r <= due_at c' <= datetime_max.
Proof.
  unfold schedule. cbv zeta. intros Hc (r & Hr & H)%bind_Ok.
  apply of_option_Ok, of_value_Some in Hr.
  destruct (schedule_rated_due _ _ _ _ H) as [Hd Hl].
  split; [exact (schedule_rated_ok _ _ _ _ Hc H)|]. split; [exact Hl|]. exists r. exact (conj Hr Hd).
Qed.

Lemma initial_card_ok clock now : card_ok (initial_card clock now).
Proof. constructor; cbn; [exact lit_5_1|split; lit_le|lia|lia]. Qed.

Definition sample_now : datetime := 738000 * us_per_day.

Lemma schedule_preserves_card_witness :
  exists c', schedule sample_now (initial_card sample_now None) "easy" None = Ok c' /\ card_ok c'.
Proof.
  destruct (schedule sample_now (initial_card sample_now None) "easy" None) as [c'|e] eqn:E.
  - exists c'. split; [reflexivity|].
    exact (proj1 (schedule_preserves_card _ _ _ _ _ (initial_card_ok sample_now None) E)).
  - exfalso. assert (is_ok (schedule sample_now (initial_card sample_now None) "easy" None) = true)
      as H by (vm_compute; reflexivity). rewrite E in H. discriminate H.
Defined.

(** A better outcome is never scheduled earlier and never leaves a
    lower stability: for one card and one time, the due date and the stability
    grow with the rating (AGAIN, HARD, GOOD, EASY), floating-point rounding
    included. *)
Theorem schedule_monotone clock c now r1 r2 c1 c2 :
  card_ok c -> rank r1 <= rank r2 ->
  schedule clock c (value r1) now = Ok c1 -> schedule clock c (value r2) now = Ok c2 ->
  due_at c1 <= due_at c2 /\ stability c1 <= stability c2.
Proof.
  intros Hc Hr. rewrite !schedule_value. intros H1 H2.
  destruct (schedule_rated_values _ _ _ _ H1) as [-> ->].
  destruct (schedule_rated_values _ _ _ _ H2) as [-> ->].
  assert (0 <= stability c) by (pose proof (ok_stability c Hc); pose proof lit_0_5; lia).
  set (ts := default_now clock now). split.
  - apply (rank_chain (fun r => due_of (stability c) r ts)); [by apply due_of_step|exact Hr].
  - apply (rank_chain (stability_of (stability c))); [by apply stability_of_step|exact Hr].
Qed.

Lemma schedule_monotone_witness :
  exists c1 c2,
    schedule sample_now (initial_card sample_now None) "hard" None = Ok c1 /\
    schedule sample_now (initial_card sample_now None) "good" None = Ok c2 /\
    due_at c1 <= due_at c2.
Proof.
  assert (Hok : forall r : res FsrsCard, is_ok r = true -> exists c, r = Ok c) by (intros []; [eauto|discriminate]).
  destruct (Hok (schedule sample_now (initial_card sample_now None) "hard" None)) as [c1 E1];
    [vm_compute; reflexivity|].
  destruct (Hok (schedule sample_now (initial_card sample_now None) "good" None)) as [c2 E2];
    [vm_compute; reflexivity|].
  exists c1, c2. split; [exact E1|]. split; [exact E2|].
  exact (proj1 (schedule_monotone sample_now (initial_card sample_now None) None
    FsrsRating.HARD FsrsRating.GOOD c1 c2 (initial_card_ok _ _) ltac:(discriminate) E1 E2)).
Defined.

(** A learner who rates a well-formed card EASY eighteen times in a row
    makes the scheduler raise OverflowError, whatever the dates: the stability
    has no cap, so the interval leaves the calendar. *)
Theorem easy_streak_overflows c nows :
  card_ok c -> (18 <= length nows)%nat -> Forall (fun ts => 0 <= ts) nows ->
  review_all c (map (pair FsrsRating.EASY) nows) = Raise OverflowError.
Proof. intros Hc Hl Hn. apply (easy_streak 0); [lia|lia|exact (ok_stability c Hc)|exact Hn]. Qed.

Lemma easy_streak_overflows_witness :
  review_all (initial_card sample_now None)
    (map (pair FsrsRating.EASY) (repeat sample_now 18)) = Raise OverflowError.
Proof.
  apply (easy_streak_overflows (initial_card sample_now None) (repeat sample_now 18)).
  - apply initial_card_ok.
  - simpl. lia.
  - repeat constructor; discriminate.
Defined.
