(* ===== verification/Learning.v ===== *)
(** * Curriculum and evidence helpers (packages/domain-python/src/memdot_domain/learning.py)

    [classify_event_eligibility] and [would_create_cycle].  The search keeps
    the code's two sets, [visited] and [stack], and passes them from call to
    call; its fuel bounds the depth of the recursion, and one more than the
    number of nodes is always enough ([would_create_cycle_spec]).  CPython's
    own recursion limit (about a thousand nested calls) is not modelled. *)

From S2P Require Import Prelude PyStr Enums.
From Stdlib Require Import Lia.
From stdpp Require Import list strings gmap sets relations.

(** ** Evidence eligibility *)

Definition INELIGIBLE_MASTERY_EVENTS : list LearnerEventType.t :=
  [LearnerEventType.HINT_REVEALED; LearnerEventType.ANSWER_REVEALED; LearnerEventType.USER_CHAT_MARKER].

Definition classify_event_eligibility (event_type : string)
    (answer_revealed substantive_hint response_before_feedback : bool)
    : res (EvidenceEligibility.t * option string) :=
  et ← of_option (ValueError event_type) (of_value (A := LearnerEventType.t) event_type);
  mret (if bool_decide (et ∈ INELIGIBLE_MASTERY_EVENTS)
        then (EvidenceEligibility.INELIGIBLE, Some (value et))
        else if answer_revealed then (EvidenceEligibility.INELIGIBLE, Some "answer_revealed")
        else if substantive_hint then (EvidenceEligibility.INELIGIBLE, Some "substantive_hint")
        else if negb response_before_feedback && bool_decide (et = LearnerEventType.GRADE_RECORDED)
        then (EvidenceEligibility.INELIGIBLE, Some "response_after_feedback")
        else (EvidenceEligibility.ELIGIBLE, None)).

(** ** Prerequisite cycles *)

Notation graph := (gmap string (gset string)).

(** [graph.setdefault(src, set()).add(dst)]. *)
Definition add_edge (g : graph) (e : string * string) : graph :=
  <[e.1 := {[e.2]} ∪ default ∅ (g !! e.1)]> g.

Definition build_graph (edges : list (string * string)) : graph :=
  foldl add_edge ∅ edges.

(** [graph.get(node, ())], in the order the set is enumerated. *)
Definition successors (g : graph) (node : string) : list string :=
  elements (default ∅ (g !! node)).

(** A call returns its answer with the sets it leaves behind. *)
Definition search : Type := option (bool * gset string * gset string).

(** [for nxt in ...: if dfs(nxt): return True]. *)
Fixpoint dfs_all (dfs : string -> gset string -> gset string -> search)
    (nodes : list string) (visited stack : gset string) : search :=
  match nodes with
  | [] => Some (false, visited, stack)
  | n :: ns =>
      match dfs n visited stack with
      | Some (true, v, s) => Some (true, v, s)
      | Some (false, v, s) => dfs_all dfs ns v s
      | None => None
      end
  end.

Fixpoint dfs (g : graph) (fuel : nat) (node : string) (visited stack : gset string) : search :=
  match fuel with
  | O => None
  | S fuel =>
      if bool_decide (node ∈ stack) then Some (true, visited, stack)
      else if bool_decide (node ∈ visited) then Some (false, visited, stack)
      else
        match dfs_all (dfs g fuel) (successors g node) ({[node]} ∪ visited) ({[node]} ∪ stack) with
        | Some (false, v, s) => Some (false, v, s ∖ {[node]})
        | r => r
        end
  end.

Definition nodes_of (edges : list (string * string)) : gset string :=
  list_to_set (map fst edges) ∪ list_to_set (map snd edges).

Definition would_create_cycle (edges : list (string * string)) (new_from new_to : string)
    : option bool :=
  let all := edges ++ [(new_from, new_to)] in
  let g := build_graph all in
  match dfs g (S (size (nodes_of all))) new_from ∅ ∅ with
  | Some (b, _, _) => Some b
  | None => None
  end.

(** ** Specification: cycles of the edge relation *)

Definition edge (edges : list (string * string)) (x y : string) : Prop := (x, y) ∈ edges.

Definition cyclic (R : relation string) : Prop := exists x, tc R x x.

Lemma build_graph_edge edges x y :
  y ∈ successors (build_graph edges) x <-> edge edges x y.
Proof.
  unfold successors, edge, build_graph. rewrite elem_of_elements.
  induction edges as [|[a b] edges IH] using rev_ind; simpl.
  - rewrite lookup_empty. set_solver.
  - rewrite foldl_app. simpl. unfold add_edge at 1. simpl.
    destruct (decide (a = x)) as [->|Hne].
    + rewrite lookup_insert_eq. simpl. set_solver.
    + rewrite lookup_insert_ne by done. set_solver.
Qed.

Section dfs.
  Context (g : graph).

Let R (x y : string) : Prop := y ∈ successors g x.

Definition finished_ok (F : gset string) : Prop :=
    (forall x y, x ∈ F -> R x y -> y ∈ F) /\ (forall x, x ∈ F -> ~ tc R x x).

Lemma closed_tc (F : gset string) x y : (forall x y, x ∈ F -> R x y -> y ∈ F) -> x ∈ F -> tc R x y -> y ∈ F.
  Proof. intros HF Hx H. induction H; eauto. Qed.

  (** What one call guarantees, whatever its answer. *)
Definition call_spec (node : string) (visited stack : gset string) (r : search) : Prop :=
    match r with
    | Some (true, _, _) => exists x, rtc R node x /\ tc R x x
    | Some (false, v, s) => s = stack /\ visited ⊆ v /\ stack ⊆ v /\
        node ∈ v ∖ stack /\ finished_ok (v ∖ stack) /\ visited ∖ stack ⊆ v ∖ stack
    | None => False
    end.

Definition pre (N : gset string) (fuel : nat) (node : string) (visited stack : gset string) : Prop :=
    node ∈ N /\ size (N ∖ visited) < fuel /\ stack ⊆ visited /\
    finished_ok (visited ∖ stack) /\ (forall x, x ∈ stack -> tc R x node).

Definition loop_spec (nodes : list string) (visited stack : gset string) (r : search) : Prop :=
    match r with
    | Some (true, _, _) => exists c x, c ∈ nodes /\ rtc R c x /\ tc R x x
    | Some (false, v, s) => s = stack /\ visited ⊆ v /\
        (forall c, c ∈ nodes -> c ∈ v ∖ stack) /\ finished_ok (v ∖ stack) /\
        visited ∖ stack ⊆ v ∖ stack
    | None => False
    end.

Lemma dfs_all_spec N fuel :
    (forall n v s, pre N fuel n v s -> call_spec n v s (dfs g fuel n v s)) ->
    forall nodes v s, (forall c, c ∈ nodes -> pre N fuel c v s) -> s ⊆ v -> finished_ok (v ∖ s) ->
    loop_spec nodes v s (dfs_all (dfs g fuel) nodes v s).
  Proof.
    intros IH nodes. induction nodes as [|c cs IHc]; intros v s Hpre Hs HF; simpl.
    { split; [done|]. set_solver. }
    pose proof (IH c v s (Hpre c ltac:(set_solver))) as Hc.
    destruct (dfs g fuel c v s) as [[[[] v1] s1]|]; [| |done]; simpl in Hc.
    { destruct Hc as (x & ? & ?). exists c, x. set_solver. }
    destruct Hc as (-> & Hv & Hs1 & Hcv & HF1 & Hvv).
    assert (Hl : loop_spec cs v1 s (dfs_all (dfs g fuel) cs v1 s)).
    { apply IHc; [|done|done]. intros d Hd.
      destruct (Hpre d ltac:(set_solver)) as (HN & Hsz & _ & _ & Htc).
      split; [done|]. split; [|done].
      apply Nat.le_lt_trans with (size (N ∖ v)); [|done]. apply subseteq_size. set_solver. }
    destruct (dfs_all _ _ _ _) as [[[[] v2] s2]|]; [| |done]; simpl in Hl |- *.
    { destruct Hl as (d & x & ? & ? & ?). exists d, x. set_solver. }
    destruct Hl as (-> & Hv2 & Hcs & HF2 & Hvv2).
    split; [done|]. split; [set_solver|]. split; [|split; [done|set_solver]].
    intros d [->|Hd]%elem_of_cons; [|by apply Hcs]. set_solver.
  Qed.

Lemma finish_node (F : gset string) node :
    finished_ok F -> node ∉ F -> (forall c, R node c -> c ∈ F) -> finished_ok ({[node]} ∪ F).
  Proof.
    intros [Hcl Hac] Hn Hsucc. split.
    - intros x y. rewrite elem_of_union, elem_of_singleton. intros [->|Hx] Hxy; set_solver.
    - intros x. rewrite elem_of_union, elem_of_singleton. intros [->|Hx] Ht; [|by eapply Hac].
      apply Hn. inversion Ht as [? ? H1|? y ? H1 H2]; subst; [by apply Hsucc|].
      by eapply (closed_tc F y node Hcl); [apply Hsucc|].
  Qed.

  (** The search answers for every node of a set closed under successors,
      with fuel for the nodes it has not visited. *)
Lemma dfs_spec (N : gset string) :
    (forall x y, x ∈ N -> R x y -> y ∈ N) ->
    forall fuel node v s, pre N fuel node v s -> call_spec node v s (dfs g fuel node v s).
  Proof.
    intros HN fuel. induction fuel as [|fuel IH]; intros node v s (Hn & Hsz & Hsv & HF & Htc); [lia|].
    simpl. case_bool_decide as Hns.
    { simpl. exists node. split; [done|]. by apply Htc. }
    case_bool_decide as Hnv.
    { simpl. split; [done|]. set_solver. }
    assert (Hdiff : ({[node]} ∪ v) ∖ ({[node]} ∪ s) = v ∖ s) by set_solver.
    assert (Hl : loop_spec (successors g node) ({[node]} ∪ v) ({[node]} ∪ s)
      (dfs_all (dfs g fuel) (successors g node) ({[node]} ∪ v) ({[node]} ∪ s))).
    { apply (dfs_all_spec N); [exact IH| |set_solver|by rewrite Hdiff].
      intros c Hc. split; [by eapply HN|]. split; [|split; [set_solver|split; [by rewrite Hdiff|]]].
      - assert (size (N ∖ ({[node]} ∪ v)) < size (N ∖ v)); [|lia].
        apply subset_size. set_solver.
      - intros x. rewrite elem_of_union, elem_of_singleton.
        intros [->|Hx]; [by apply tc_once|]. eapply tc_r; [by apply Htc|done]. }
    destruct (dfs_all _ _ _ _) as [[[[] v1] s1]|]; [| |done]; simpl in Hl |- *.
    { destruct Hl as (c & x & Hc & Hr & Ht). exists x. split; [|done]. by eapply rtc_l. }
    destruct Hl as (-> & Hv & Hcs & HF1 & Hvv).
    assert (He : v1 ∖ s = {[node]} ∪ v1 ∖ ({[node]} ∪ s)).
    { apply leibniz_equiv. intros x. destruct (decide (x = node)); set_solver. }
    split; [set_solver|]. split; [set_solver|]. split; [set_solver|].
    split; [set_solver|]. split; [|set_solver].
    rewrite He. apply finish_node; [done|set_solver|]. intros c Hc. by apply Hcs.
  Qed.
End dfs.

Lemma nodes_of_edge edges x y : edge edges x y -> x ∈ nodes_of edges /\ y ∈ nodes_of edges.
Proof.
  unfold edge, nodes_of. intros H. rewrite !elem_of_union, !elem_of_list_to_set, !list_elem_of_fmap.
  split; [left; by exists (x, y)|right; by exists (x, y)].
Qed.

Lemma tc_edge_iff edges x y :
  tc (fun x y => y ∈ successors (build_graph edges) x) x y <-> tc (edge edges) x y.
Proof.
  split; induction 1 as [a b H|a b c H _ IH]; [apply tc_once|eapply tc_l|apply tc_once|eapply tc_l];
    try done; by apply build_graph_edge.
Qed.

Lemma rtc_edge_iff edges x y :
  rtc (fun x y => y ∈ successors (build_graph edges) x) x y <-> rtc (edge edges) x y.
Proof.
  split; induction 1 as [|a b c H _ IH]; try done; (eapply rtc_l; [|done]); by apply build_graph_edge.
Qed.

(** More fuel changes no answer. *)
Lemma dfs_all_mono (f h : string -> gset string -> gset string -> search) nodes : forall v s r,
  (forall n v s r, f n v s = Some r -> h n v s = Some r) -> dfs_all f nodes v s = Some r -> dfs_all h nodes v s = Some r.
Proof.
  induction nodes as [|n ns IH]; intros v s r Hfh; simpl; [done|].
  destruct (f n v s) as [[[[] v1] s1]|] eqn:E; [| |done]; rewrite (Hfh _ _ _ _ E); [done|]. by apply IH.
Qed.

Lemma dfs_mono g n : forall m node v s r, n <= m -> dfs g n node v s = Some r -> dfs g m node v s = Some r.
Proof.
  induction n as [|n IH]; intros [|m] node v s r Hm; [done|done|lia|]. simpl.
  case_bool_decide; [done|]. case_bool_decide; [done|].
  destruct (dfs_all (dfs g n) _ _ _) as [[[b v1] s1]|] eqn:E; [|done].
  rewrite (dfs_all_mono _ (dfs g m) _ _ _ _ (fun n v s r => IH m n v s r ltac:(lia)) E). done.
Qed.

(** The search answers, and its answer is whether a cycle is reachable from
    the new edge's source. *)
Lemma would_create_cycle_answer edges f t :
  exists b, would_create_cycle edges f t = Some b /\
    (b = true <-> exists x, rtc (edge (edges ++ [(f, t)])) f x /\ tc (edge (edges ++ [(f, t)])) x x).
Proof.
  unfold would_create_cycle. set (all := edges ++ [(f, t)]).
  assert (Hf : f ∈ nodes_of all).
  { apply (nodes_of_edge all f t). unfold edge, all. set_solver. }
  pose proof (dfs_spec (build_graph all) (nodes_of all)) as Hspec.
  specialize (Hspec ltac:(intros x y _ H%build_graph_edge; by apply (nodes_of_edge all x y))).
  specialize (Hspec (S (size (nodes_of all))) f ∅ ∅).
  assert (Hp : pre (build_graph all) (nodes_of all) (S (size (nodes_of all))) f ∅ ∅).
  { split; [done|]. split; [|split; [done|split; [|set_solver]]].
    - assert (size (nodes_of all ∖ ∅) <= size (nodes_of all)); [|lia].
      apply subseteq_size. set_solver.
    - split; set_solver. }
  specialize (Hspec Hp).
  destruct (dfs _ _ f ∅ ∅) as [[[[] v] s]|]; [| |done]; simpl in Hspec.
  - exists true. split; [done|]. split; [intros _|done].
    destruct Hspec as (x & Hr & Ht). exists x. by rewrite <- rtc_edge_iff, <- tc_edge_iff.
  - exists false. split; [done|]. split; [done|].
    intros (x & Hr & Ht). exfalso. destruct Hspec as (_ & _ & _ & Hfv & [Hcl Hac] & _).
    apply (Hac x); [|by apply tc_edge_iff].
    rewrite <- rtc_edge_iff in Hr. fold all in Hr. revert Hfv Hr Hcl. generalize all. clear. intros all Hfv Hr Hcl. revert Hfv.
    induction Hr as [|a b c Hab _ IH]; [done|]. intros Ha. apply IH. by eapply Hcl.
Qed.

Lemma tc_new_edge edges f t x y :
  tc (edge (edges ++ [(f, t)])) x y ->
  tc (edge edges) x y \/
  (rtc (edge (edges ++ [(f, t)])) x f /\ rtc (edge (edges ++ [(f, t)])) t y).
Proof.
  assert (He : forall a b, edge (edges ++ [(f, t)]) a b -> edge edges a b \/ (a = f /\ b = t))
    by (unfold edge; set_solver).
  induction 1 as [a b H|a b c H Hbc IH].
  - destruct (He _ _ H) as [Ho|[-> ->]]; [left; by apply tc_once|right; split; apply rtc_refl].
  - destruct (He _ _ H) as [Ho|[-> ->]].
    + destruct IH as [IH|[IH1 IH2]]; [left; by eapply tc_l|].
      right. split; [by eapply rtc_l|done].
    + right. split; [apply rtc_refl|by apply tc_rtc].
Qed.

(** A cycle that the new edge closes passes through it. *)
Lemma new_cycle_at_source edges f t :
  ~ cyclic (edge edges) -> cyclic (edge (edges ++ [(f, t)])) -> tc (edge (edges ++ [(f, t)])) f f.
Proof.
  intros Hac (x & Hx). destruct (tc_new_edge _ _ _ _ _ Hx) as [Ho|[Hxf Htx]].
  - exfalso. apply Hac. by exists x.
  - eapply tc_rtc_r; [apply tc_once|etransitivity; [exact Htx|exact Hxf]].
    unfold edge. set_solver.
Qed.

(** ** Properties *)

(** C7: on an acyclic prerequisite graph the cycle check always answers, and
    it answers True exactly when adding the edge makes the graph cyclic: an
    edge it accepts keeps the graph acyclic, an edge it refuses would close a
    cycle. *)
Theorem would_create_cycle_exact edges new_from new_to :
  ~ cyclic (edge edges) ->
  (would_create_cycle edges new_from new_to = Some true /\
     cyclic (edge (edges ++ [(new_from, new_to)]))) \/
  (would_create_cycle edges new_from new_to = Some false /\
     ~ cyclic (edge (edges ++ [(new_from, new_to)]))).
Proof.
  intros Hac. destruct (would_create_cycle_answer edges new_from new_to) as ([] & Hb & Hiff).
  - left. split; [done|]. destruct (proj1 Hiff eq_refl) as (x & _ & Hx). by exists x.
  - right. split; [done|]. intros Hc%new_cycle_at_source; [|done].
    assert (false = true) by (apply Hiff; eauto using rtc_refl). done.
Qed.

(** C40: the cycle check terminates on every graph, cyclic ones included: the
    recursion is never deeper than the nodes, whatever depth is allowed it then
    answers the same, and the answer is whether a cycle can be reached from the
    new edge. *)
Theorem cycle_search_terminates edges new_from new_to depth :
  let all := edges ++ [(new_from, new_to)] in
  size (nodes_of all) < depth ->
  exists b v s, dfs (build_graph all) depth new_from ∅ ∅ = Some (b, v, s) /\
    would_create_cycle edges new_from new_to = Some b /\
    (b = true <-> exists x, rtc (edge all) new_from x /\ tc (edge all) x x).
Proof.
  intros all Hd. destruct (would_create_cycle_answer edges new_from new_to) as (b & Hb & Hiff).
  pose proof Hb as Hr. unfold would_create_cycle in Hr. fold all in Hr.
  destruct (dfs _ _ _ _ _) as [[[b' v] s]|] eqn:E; [|done]. injection Hr as ->.
  exists b, v, s. split; [|done]. by apply (dfs_mono _ _ depth) in E.
Qed.

Lemma cycle_search_terminates_witness : exists b v s,
  dfs (build_graph ([("a", "b"); ("b", "c"); ("c", "b")] ++ [("d", "a")])) 5 "d" ∅ ∅ = Some (b, v, s) /\
  would_create_cycle [("a", "b"); ("b", "c"); ("c", "b")] "d" "a" = Some b /\ b = true.
Proof.
  destruct (cycle_search_terminates [("a", "b"); ("b", "c"); ("c", "b")] "d" "a" 5) as (b & v & s & Hd & Hw & _).
  { vm_compute. lia. }
  exists b, v, s. split; [exact Hd|]. split; [exact Hw|]. vm_compute in Hw. by injection Hw.
Defined.

Lemma no_edges_acyclic : ~ cyclic (edge []).
Proof. intros (x & H). inversion H as [? ? He|? ? ? He _]; unfold edge in He; set_solver. Qed.

Lemma would_create_cycle_exact_witness :
  (would_create_cycle [] "a" "a" = Some true /\ cyclic (edge [("a", "a")])) \/
  (would_create_cycle [] "a" "a" = Some false /\ ~ cyclic (edge [("a", "a")])).
Proof. exact (would_create_cycle_exact [] "a" "a" no_edges_acyclic). Defined.

Example cycle_refused :
  would_create_cycle [("b", "c"); ("c", "d")] "d" "b" = Some true /\
  would_create_cycle [("b", "c"); ("c", "d")] "b" "d" = Some false.
Proof. vm_compute. split; reflexivity. Qed.

(** An event can count towards demonstrated mastery exactly when its type
    is a known one that is not a reveal or a chat marker, no answer was
    revealed, no substantive hint was given, and a grade was recorded before
    feedback; an unknown type raises ValueError. *)
Theorem classify_event_eligibility_exact event_type revealed hint before :
  match classify_event_eligibility event_type revealed hint before with
  | Ok (EvidenceEligibility.ELIGIBLE, reason) => reason = None /\ revealed = false /\ hint = false /\
      exists et, value et = event_type /\ et ∉ INELIGIBLE_MASTERY_EVENTS /\
        (et = LearnerEventType.GRADE_RECORDED -> before = true)
  | Ok (EvidenceEligibility.INELIGIBLE, reason) => is_Some reason /\
      exists et, value et = event_type /\
        (et ∈ INELIGIBLE_MASTERY_EVENTS \/ revealed = true \/ hint = true \/
         (et = LearnerEventType.GRADE_RECORDED /\ before = false))
  | Raise e => e = ValueError event_type /\ forall et : LearnerEventType.t, value et <> event_type
  end.
Proof.
  unfold classify_event_eligibility.
  destruct (of_value event_type) as [et|] eqn:E; simpl.
  - apply of_value_Some in E.
    case_bool_decide as Hin; [naive_solver|].
    destruct revealed; [naive_solver|]. destruct hint; [naive_solver|].
    destruct before; simpl; [naive_solver|].
    destruct (decide (et = LearnerEventType.GRADE_RECORDED)) as [Heq|Hne].
    + rewrite bool_decide_eq_true_2 by done. split; [done|]. exists et. tauto.
    + rewrite bool_decide_eq_false_2 by done. do 3 (split; [done|]). exists et. tauto.
  - split; [done|]. intros et Het%of_value_Some. congruence.
Qed.
