(* ===== verification/EvidenceTwin.v ===== *)
(** * Evidence Twin (packages/domain-python/src/memdot_domain/evidence_twin.py)

    [replay_evidence] folds the learner events of an account into one
    projection per concept.  The [seen] set of the loop and the dictionary of
    projections are threaded through a fold over the sorted events; a
    [ConceptEvidence] the code mutates in place is replaced under its key. *)

From Stdlib Require Import ZArith Lia.
From stdpp Require Import list strings gmap sets.
From S2P Require Import Prelude PyStr Json Uuid Enums.
Open Scope Z_scope.

Record LearnerEventRecord := {
  event_id : uuid;
  event_type : string;
  concept_node_id : option uuid;
  assessment_item_id : option uuid;
  occurred_at : Z;
  eligibility : string;
  payload : dict;
}.

#[export] Instance event_eq_dec : EqDecision LearnerEventRecord.
Proof. solve_decision. Defined.

Record ConceptEvidence := {
  concept : uuid;
  evidence_state : EvidenceState.t;
  recall_state : RecallState.t;
  eligible_grades : Z;
  ineligible_hits : Z;
}.

Definition new_evidence (c : uuid) : ConceptEvidence :=
  {| concept := c; evidence_state := EvidenceState.UNASSESSED;
     recall_state := RecallState.CURRENT; eligible_grades := 0; ineligible_hits := 0 |}.

Definition set_state (s : ConceptEvidence) (e : EvidenceState.t) : ConceptEvidence :=
  {| concept := concept s; evidence_state := e; recall_state := recall_state s;
     eligible_grades := eligible_grades s; ineligible_hits := ineligible_hits s |}.

Definition set_recall (s : ConceptEvidence) (r : RecallState.t) : ConceptEvidence :=
  {| concept := concept s; evidence_state := evidence_state s; recall_state := r;
     eligible_grades := eligible_grades s; ineligible_hits := ineligible_hits s |}.

Definition practice (s : ConceptEvidence) : ConceptEvidence :=
  if bool_decide (evidence_state s = EvidenceState.UNASSESSED)
  then set_state s EvidenceState.PRACTICING else s.

Definition is_eligible (e : LearnerEventRecord) : bool :=
  String.eqb (eligibility e) (value EvidenceEligibility.ELIGIBLE).

Definition is_correct (e : LearnerEventRecord) : bool :=
  py_bool (dict_get_or "correct" (JBool false) (payload e)).

(** The body of the loop after the duplicate and concept checks. *)
Definition apply_event (s : ConceptEvidence) (e : LearnerEventRecord) : ConceptEvidence :=
  if negb (is_eligible e) then
    practice {| concept := concept s; evidence_state := evidence_state s;
                recall_state := recall_state s; eligible_grades := eligible_grades s;
                ineligible_hits := ineligible_hits s + 1 |}
  else if String.eqb (event_type e) (value LearnerEventType.ATTEMPT_STARTED) then practice s
  else if String.eqb (event_type e) (value LearnerEventType.GRADE_RECORDED) then
    if is_correct e then
      let n := eligible_grades s + 1 in
      {| concept := concept s;
         evidence_state := if 2 <=? n then EvidenceState.DELAYED_DEMONSTRATED
                           else EvidenceState.DEMONSTRATED;
         recall_state := RecallState.CURRENT;
         eligible_grades := n;
         ineligible_hits := ineligible_hits s |}
    else set_recall (set_state s EvidenceState.PRACTICING) RecallState.LAPSED
  else if String.eqb (event_type e) (value LearnerEventType.REVIEW_RATED) then
    let rating := lower (py_str (dict_get_or "rating" (JStr "again") (payload e))) in
    if String.eqb rating "again" then set_recall s RecallState.LAPSED
    else if String.eqb rating "hard" || String.eqb rating "good" || String.eqb rating "easy"
    then set_recall s RecallState.CURRENT
    else s
  else s.

(** [sorted(events, key=lambda e: (e.occurred_at, str(e.event_id)))]. *)
Definition event_leb (a b : LearnerEventRecord) : bool :=
  if occurred_at a =? occurred_at b
  then str_leb (str_uuid (event_id a)) (str_uuid (event_id b))
  else occurred_at a <? occurred_at b.

Definition ordered (events : list LearnerEventRecord) : list LearnerEventRecord :=
  sort_by event_leb events.

Notation projections := (gmap Z ConceptEvidence).

Definition replay_step (st : gset Z * projections) (e : LearnerEventRecord)
    : gset Z * projections :=
  let '(seen, proj) := st in
  if bool_decide (event_id e ∈ seen) then (seen, proj)
  else
    let seen := {[event_id e]} ∪ seen in
    match concept_node_id e with
    | None => (seen, proj)
    | Some c => (seen, <[c := apply_event (default (new_evidence c) (proj !! c)) e]> proj)
    end.

Definition replay_evidence (events : list LearnerEventRecord) : projections :=
  (foldl replay_step (∅, ∅) (ordered events)).2.

(** ** The events that count *)

Fixpoint fresh (seen : gset Z) (l : list LearnerEventRecord) : list LearnerEventRecord :=
  match l with
  | [] => []
  | e :: l => if bool_decide (event_id e ∈ seen) then fresh seen l
              else e :: fresh ({[event_id e]} ∪ seen) l
  end.

Definition of_concept (c : Z) (e : LearnerEventRecord) : bool :=
  bool_decide (concept_node_id e = Some c).

(** A correct grade that may count towards mastery. *)
Definition counts (e : LearnerEventRecord) : bool :=
  is_eligible e && String.eqb (event_type e) (value LearnerEventType.GRADE_RECORDED) && is_correct e.

Definition run_events (s : ConceptEvidence) (l : list LearnerEventRecord) : ConceptEvidence :=
  foldl apply_event s l.

(** The distinct events of a concept, in replay order. *)
Definition concept_events (c : Z) (events : list LearnerEventRecord) : list LearnerEventRecord :=
  keep (of_concept c) (fresh ∅ (ordered events)).

Lemma replay_lookup c l seen proj :
  (foldl replay_step (seen, proj) l).2 !! c =
  match keep (of_concept c) (fresh seen l) with
  | [] => proj !! c
  | es => Some (run_events (default (new_evidence c) (proj !! c)) es)
  end.
Proof.
  revert seen proj. induction l as [|e l IH]; intros seen proj; [done|].
  cbn [foldl fresh replay_step]. case_bool_decide as Hs; [apply IH|].
  unfold keep in *. cbn [List.filter]. unfold of_concept at 1.
  destruct (concept_node_id e) as [d|] eqn:Ed; rewrite IH.
  - destruct (decide (d = c)) as [->|Hne].
    + rewrite bool_decide_eq_true_2 by done. rewrite lookup_insert_eq. cbn [default from_option id].
      by destruct (List.filter _ _).
    + rewrite bool_decide_eq_false_2 by congruence. by rewrite lookup_insert_ne by done.
  - by rewrite bool_decide_eq_false_2 by done.
Qed.

Lemma replay_concept c events :
  replay_evidence events !! c =
  match concept_events c events with
  | [] => None
  | es => Some (run_events (new_evidence c) es)
  end.
Proof. unfold replay_evidence, concept_events. by rewrite replay_lookup, lookup_empty. Qed.

(** ** Order of the events *)

(** An append-only ledger: an identifier names one event. *)
Record ledger (l : list LearnerEventRecord) : Prop := {
  ledger_inj : forall e e', e ∈ l -> e' ∈ l -> event_id e = event_id e' -> e = e';
  ledger_uuid : forall e, e ∈ l -> is_uuid (event_id e);
}.

Lemma event_leb_total a b : event_leb a b = true \/ event_leb b a = true.
Proof.
  unfold event_leb. destruct (Z.eqb_spec (occurred_at a) (occurred_at b)) as [->|Hne].
  - rewrite Z.eqb_refl. apply str_leb_total.
  - rewrite (proj2 (Z.eqb_neq _ _)) by congruence. rewrite !Z.ltb_lt. lia.
Qed.

Lemma event_leb_trans a b c : event_leb a b = true -> event_leb b c = true -> event_leb a c = true.
Proof.
  unfold event_leb.
  destruct (Z.eqb_spec (occurred_at a) (occurred_at b)), (Z.eqb_spec (occurred_at b) (occurred_at c)),
    (Z.eqb_spec (occurred_at a) (occurred_at c)); rewrite ?Z.ltb_lt; try lia; try congruence.
  apply str_leb_trans.
Qed.

Lemma event_leb_antisym l a b : ledger l -> a ∈ l -> b ∈ l ->
  event_leb a b = true -> event_leb b a = true -> a = b.
Proof.
  intros Hl Ha Hb. unfold event_leb.
  destruct (Z.eqb_spec (occurred_at a) (occurred_at b)) as [He|].
  - rewrite He, Z.eqb_refl. intros H1 H2. apply (ledger_inj l Hl a b Ha Hb).
    apply str_uuid_inj; [by eapply ledger_uuid..|]. by apply str_leb_antisym.
  - rewrite (proj2 (Z.eqb_neq _ _)) by congruence. rewrite !Z.ltb_lt. lia.
Qed.

Lemma ledger_equiv l k : (forall e, e ∈ k -> e ∈ l) -> ledger l -> ledger k.
Proof. intros H [Hi Hu]. split; eauto. Qed.

(** ** Dropping duplicates *)

Lemma fresh_sublist seen l : sublist (fresh seen l) l.
Proof.
  revert seen. induction l as [|e l IH]; intros seen; simpl; [done|].
  case_bool_decide; by constructor.
Qed.

Lemma elem_of_fresh seen l e : ledger l ->
  e ∈ fresh seen l <-> e ∈ l /\ event_id e ∉ seen.
Proof.
  revert seen. induction l as [|x l IH]; intros seen Hl; simpl; [set_solver|].
  assert (Hl' : ledger l) by (eapply ledger_equiv; [|exact Hl]; set_solver).
  case_bool_decide as Hx.
  - rewrite (IH seen Hl'). set_solver.
  - rewrite elem_of_cons, (IH _ Hl'), elem_of_cons. split.
    + intros [->|[He Hn]]; set_solver.
    + intros [[->|He] Hn]; [by left|].
      destruct (decide (event_id e = event_id x)) as [Heq|].
      * left. apply (ledger_inj _ Hl); set_solver.
      * right. set_solver.
Qed.

Lemma fresh_NoDup seen l :
  NoDup (map event_id (fresh seen l)) /\ (forall e, e ∈ fresh seen l -> event_id e ∉ seen).
Proof.
  revert seen. induction l as [|x l IH]; intros seen; simpl; [split; [constructor|set_solver]|].
  case_bool_decide as Hx; [apply IH|].
  destruct (IH ({[event_id x]} ∪ seen)) as [Hnd Hf]. split; [|set_solver].
  cbn [map]. constructor; [|exact Hnd].
  rewrite list_elem_of_fmap. intros (e & He & Hin). specialize (Hf e Hin). set_solver.
Qed.

Lemma fresh_ordered_NoDup l : NoDup (fresh ∅ (ordered l)).
Proof. eapply NoDup_fmap_1, fresh_NoDup. Qed.

Lemma sublist_sorted {A} (R : A -> A -> Prop) l k :
  sublist l k -> StronglySorted R k -> StronglySorted R l.
Proof.
  induction 1 as [|x l k Hs IH|x l k Hs IH]; intros Hk; [done|..]; inversion Hk; subst; [|by apply IH].
  constructor; [by apply IH|]. rewrite Forall_forall in *. intros y Hy.
  assert (y ∈ k) by (eapply elem_of_submseteq; [exact Hy|by apply sublist_submseteq]). naive_solver.
Qed.

(** The distinct events, sorted: the same list for every presentation. *)
Lemma fresh_ordered_unique l k : ledger l -> (forall e, e ∈ l <-> e ∈ k) ->
  fresh ∅ (ordered l) = fresh ∅ (ordered k).
Proof.
  intros Hl Heq. assert (Hk : ledger k) by (eapply ledger_equiv; [|exact Hl]; intros; by apply Heq).
  assert (Ho : forall m, ledger m -> ledger (ordered m)).
  { intros m. apply ledger_equiv. intros e. unfold ordered. by rewrite elem_of_sort_by. }
  assert (Hin : forall m e, ledger m -> e ∈ fresh ∅ (ordered m) <-> e ∈ m).
  { intros m e Hm. rewrite elem_of_fresh by auto. unfold ordered. rewrite elem_of_sort_by. set_solver. }
  assert (Hs : forall m, StronglySorted (fun x y => event_leb x y = true) (fresh ∅ (ordered m))).
  { intros m. eapply sublist_sorted; [apply fresh_sublist|].
    apply sort_by_sorted; [apply event_leb_total|apply event_leb_trans]. }
  assert (Hp : fresh ∅ (ordered l) ≡ₚ fresh ∅ (ordered k)).
  { apply NoDup_Permutation; [apply fresh_ordered_NoDup..|]. intros e. rewrite !Hin by done. apply Heq. }
  rewrite <- (sort_by_id event_leb _ (Hs l)), <- (sort_by_id event_leb _ (Hs k)).
  apply sort_by_unique; [apply event_leb_total|apply event_leb_trans| |exact Hp].
  intros x y Hx Hy. apply (event_leb_antisym l); [done|..]; by apply (Hin l).
Qed.

(** ** Mastery *)

Definition level (s : EvidenceState.t) : Z :=
  match s with
  | EvidenceState.DEMONSTRATED => 1
  | EvidenceState.DELAYED_DEMONSTRATED => 2
  | _ => 0
  end.

Definition grades (l : list LearnerEventRecord) : Z := Z.of_nat (length (keep counts l)).

Lemma apply_event_grades s e :
  eligible_grades (apply_event s e) = eligible_grades s + (if counts e then 1 else 0).
Proof.
  unfold apply_event, counts, practice. destruct (is_eligible e) eqn:Ee; cbn [negb andb].
  2: { case_bool_decide; simpl; lia. }
  destruct (String.eqb (event_type e) (value LearnerEventType.ATTEMPT_STARTED)) eqn:Ea.
  { apply String.eqb_eq in Ea. rewrite Ea. case_bool_decide; simpl; lia. }
  destruct (String.eqb (event_type e) (value LearnerEventType.GRADE_RECORDED)); cbn [andb].
  { destruct (is_correct e); simpl; lia. }
  repeat case_match; simpl; lia.
Qed.

Lemma apply_event_level s e :
  level (evidence_state s) <= Z.min 2 (eligible_grades s) -> 0 <= eligible_grades s ->
  level (evidence_state (apply_event s e)) <= Z.min 2 (eligible_grades (apply_event s e)).
Proof.
  intros Hs H0. rewrite apply_event_grades. unfold apply_event, counts, practice.
  destruct (is_eligible e); cbn [negb andb].
  2: { case_bool_decide; simpl; lia. }
  destruct (String.eqb (event_type e) (value LearnerEventType.ATTEMPT_STARTED)) eqn:Ea.
  { apply String.eqb_eq in Ea. rewrite Ea. case_bool_decide; simpl; lia. }
  destruct (String.eqb (event_type e) (value LearnerEventType.GRADE_RECORDED)); cbn [andb].
  { destruct (is_correct e); simpl; [|lia]. destruct (Z.leb_spec 2 (eligible_grades s + 1)); simpl; lia. }
  repeat case_match; simpl; lia.
Qed.

Lemma run_events_grades s l :
  eligible_grades (run_events s l) = eligible_grades s + grades l.
Proof.
  unfold grades. revert s. induction l as [|e l IH]; intros s; simpl; [lia|].
  rewrite IH, apply_event_grades. unfold keep. simpl. destruct (counts e); simpl; lia.
Qed.

Lemma run_events_level s l :
  level (evidence_state s) <= Z.min 2 (eligible_grades s) -> 0 <= eligible_grades s ->
  level (evidence_state (run_events s l)) <= Z.min 2 (eligible_grades (run_events s l)).
Proof.
  revert s. induction l as [|e l IH]; intros s Hs H0; simpl; [done|].
  apply IH; [by apply apply_event_level|]. rewrite apply_event_grades. destruct (counts e); lia.
Qed.

(** What an ineligible event may change: the state from unassessed to
    practising, and its own counter. *)
Definition same_mastery (s s' : ConceptEvidence) : Prop :=
  concept s = concept s' /\ recall_state s = recall_state s' /\
  eligible_grades s = eligible_grades s' /\
  (evidence_state s' = evidence_state s \/
   (evidence_state s = EvidenceState.UNASSESSED /\ evidence_state s' = EvidenceState.PRACTICING)).

Lemma same_mastery_apply s s' e : same_mastery s s' -> same_mastery (apply_event s e) (apply_event s' e).
Proof.
  intros (Hc & Hr & Hg & Hs). unfold apply_event, practice.
  repeat case_match; unfold same_mastery; split_bool; simpl in *;
    repeat case_bool_decide; simpl in *; repeat split; try congruence; destruct Hs as [Hs|[Hs Hs']];
    rewrite ?Hs, ?Hs' in *; auto; try congruence.
Qed.

Lemma same_mastery_run s s' l : same_mastery s s' -> same_mastery (run_events s l) (run_events s' l).
Proof. revert s s'. induction l; simpl; [done|]. intros. by apply IHl, same_mastery_apply. Qed.

Lemma ineligible_same_mastery s e : is_eligible e = false -> same_mastery s (apply_event s e).
Proof.
  unfold apply_event, practice. intros ->. unfold same_mastery. simpl.
  case_bool_decide; simpl; (do 3 (split; [done|])); auto.
Qed.

Lemma same_mastery_insert s e c l :
  is_eligible e = false ->
  same_mastery (foldl apply_event s l) (foldl apply_event s (keep (of_concept c) [e] ++ l)).
Proof.
  intros He. unfold keep. simpl. destruct (of_concept c e); simpl.
  - apply (same_mastery_run s), ineligible_same_mastery, He.
  - unfold same_mastery. do 3 (split; [done|]). by left.
Qed.

Lemma fresh_ext seen seen' l :
  (forall x, x ∈ l -> event_id x ∈ seen <-> event_id x ∈ seen') -> fresh seen l = fresh seen' l.
Proof.
  revert seen seen'. induction l as [|x l IH]; intros seen seen' H; simpl; [done|].
  rewrite (bool_decide_ext (event_id x ∈ seen) (event_id x ∈ seen')) by (apply H; set_solver).
  case_bool_decide.
  - apply IH. intros y Hy. apply H. set_solver.
  - f_equal. apply IH. intros y Hy. rewrite !elem_of_union, H by set_solver. done.
Qed.

(** A new event among the others adds itself and hides nothing. *)
Lemma fresh_insert e l1 l2 seen :
  (forall x, x ∈ l1 ++ l2 -> event_id x <> event_id e) -> event_id e ∉ seen ->
  exists f1 f2, fresh seen (l1 ++ l2) = f1 ++ f2 /\
    fresh seen (l1 ++ e :: l2) = f1 ++ [e] ++ f2.
Proof.
  revert seen. induction l1 as [|x l1 IH]; intros seen Hne Hseen; simpl.
  - rewrite bool_decide_eq_false_2 by done. exists [], (fresh seen l2). split; [done|].
    simpl. f_equal. apply fresh_ext. intros x Hx. specialize (Hne x Hx).
    rewrite elem_of_union, elem_of_singleton. tauto.
  - assert (Hx : event_id x <> event_id e) by (apply Hne; set_solver).
    assert (Hne' : forall y, y ∈ l1 ++ l2 -> event_id y <> event_id e)
      by (intros y Hy; apply Hne; set_solver).
    case_bool_decide.
    + by apply IH.
    + destruct (IH ({[event_id x]} ∪ seen) Hne') as (f1 & f2 & -> & ->); [set_solver|].
      by exists (x :: f1), f2.
Qed.

(** ** Properties *)

(** C6: the projection depends on the set of events alone: presented in
    another order or with repetitions, the events of a ledger replay to the
    same evidence for every concept. *)
Theorem replay_evidence_order_free l k :
  ledger l -> (forall e, e ∈ l <-> e ∈ k) -> replay_evidence l = replay_evidence k.
Proof.
  intros Hl Heq. apply map_eq. intros c. rewrite !replay_concept. unfold concept_events.
  by rewrite (fresh_ordered_unique l k Hl Heq).
Qed.

Definition sample_grade (id t : Z) (correct : bool) : LearnerEventRecord :=
  {| event_id := id; event_type := "grade_recorded"; concept_node_id := Some 7;
     assessment_item_id := None; occurred_at := t; eligibility := "eligible";
     payload := [("correct", JBool correct)] |}.

Lemma sample_ledger : ledger [sample_grade 1 10 true; sample_grade 2 20 false].
Proof.
  assert (H : forall e, e ∈ [sample_grade 1 10 true; sample_grade 2 20 false] ->
    e = sample_grade 1 10 true \/ e = sample_grade 2 20 false) by set_solver.
  split.
  - intros e e' [-> | ->]%H [-> | ->]%H; simpl; congruence.
  - intros e [-> | ->]%H; by vm_compute.
Qed.

Lemma replay_evidence_order_free_witness :
  replay_evidence [sample_grade 1 10 true; sample_grade 2 20 false] =
  replay_evidence [sample_grade 2 20 false; sample_grade 1 10 true; sample_grade 2 20 false].
Proof. apply (replay_evidence_order_free _ _ sample_ledger). set_solver. Defined.

(** Mastery is earned: a concept's count of grades is the number of its
    distinct eligible correct grades, it is shown as demonstrated only with
    at least one of them, and as delayed-demonstrated only with at least
    two. *)
Theorem replay_evidence_mastery_sound l c ev :
  replay_evidence l !! c = Some ev ->
  eligible_grades ev = grades (concept_events c l) /\
  level (evidence_state ev) <= Z.min 2 (grades (concept_events c l)).
Proof.
  rewrite replay_concept. intros H.
  assert (Hev : ev = run_events (new_evidence c) (concept_events c l))
    by (destruct (concept_events c l); [discriminate|congruence]).
  clear H. subst ev. set (es := concept_events c l).
  assert (Hg : eligible_grades (run_events (new_evidence c) es) = grades es)
    by (rewrite run_events_grades; simpl; lia).
  split; [exact Hg|]. rewrite <- Hg. apply run_events_level; simpl; lia.
Qed.

Lemma replay_evidence_mastery_sound_witness :
  exists ev, replay_evidence [sample_grade 1 10 true; sample_grade 2 20 true] !! 7 = Some ev /\
    evidence_state ev = EvidenceState.DELAYED_DEMONSTRATED /\ eligible_grades ev = 2.
Proof.
  eexists. split; [vm_compute; reflexivity|]. split; [reflexivity|].
  exact (proj1 (replay_evidence_mastery_sound [sample_grade 1 10 true; sample_grade 2 20 true] 7 _
    ltac:(vm_compute; reflexivity))).
Defined.

(** An ineligible event never raises mastery: wherever it falls in time,
    adding one to the events of a concept leaves the grades and the recall
    state as they were, and the evidence state too, except that an unassessed
    concept is shown as practising. *)
Theorem ineligible_event_never_raises l e c :
  event_id e ∉ map event_id l -> is_eligible e = false ->
  same_mastery (default (new_evidence c) (replay_evidence l !! c))
               (default (new_evidence c) (replay_evidence (e :: l) !! c)).
Proof.
  intros Hid He.
  assert (Hd : forall m, default (new_evidence c) (replay_evidence m !! c) =
    run_events (new_evidence c) (concept_events c m)).
  { intros m. rewrite replay_concept. by destruct (concept_events c m). }
  rewrite !Hd. unfold concept_events.
  destruct (insert_by_split event_leb e (ordered l)) as (l1 & l2 & Hl & Hi).
  change (ordered (e :: l)) with (insert_by event_leb e (ordered l)). rewrite Hi, Hl.
  assert (Hnot : forall x, x ∈ l1 ++ l2 -> event_id x <> event_id e).
  { intros x Hx Heq. rewrite <- Hl in Hx. unfold ordered in Hx. rewrite elem_of_sort_by in Hx.
    apply Hid, list_elem_of_fmap. by exists x. }
  destruct (fresh_insert e l1 l2 ∅ Hnot (not_elem_of_empty _)) as (f1 & f2 & -> & ->).
  rewrite !keep_app. unfold run_events. rewrite foldl_app, (foldl_app _ (keep (of_concept c) f1)).
  apply same_mastery_insert. exact He.
Qed.

Definition sample_hint : LearnerEventRecord :=
  {| event_id := 3; event_type := "hint_revealed"; concept_node_id := Some 7;
     assessment_item_id := None; occurred_at := 15; eligibility := "ineligible"; payload := [] |}.

Lemma ineligible_event_never_raises_witness :
  same_mastery (default (new_evidence 7) (replay_evidence [sample_grade 1 10 true] !! 7))
    (default (new_evidence 7) (replay_evidence [sample_hint; sample_grade 1 10 true] !! 7)).
Proof.
  apply (ineligible_event_never_raises [sample_grade 1 10 true] sample_hint 7); [|reflexivity].
  apply (bool_decide_unpack _). vm_compute. exact I.
Defined.
