(* ===== verification/Retrieval.v ===== *)
(** * Retrieval fusion (packages/domain-python/src/memdot_domain/retrieval.py)

    Reciprocal-rank fusion of the candidate lanes and the exclusion of private
    spaces.  [lane_results] and [weights] are dictionaries (association lists
    in insertion order); [scores] is the dictionary the loop builds, whose
    [FusedCandidate]s are updated in place.  Scores are doubles. *)

From Stdlib Require Import ZArith Lia.
From stdpp Require Import list strings.
From S2P Require Import Prelude PyStr Json Uuid Enums Float64.
Open Scope Z_scope.

Definition RRF_K : Z := 60.

Definition LANE_WEIGHTS : list (CandidateLane.t * f64) :=
  [(CandidateLane.TEMPORAL_EXACT, lit 2 1); (CandidateLane.EXACT, lit 15 10);
   (CandidateLane.OSS_SEMANTIC, lit 1 1); (CandidateLane.TEX, lit 1 1);
   (CandidateLane.GRAPH, lit 8 10)].

Record RetrievalCandidate := {
  rc_candidate_id : string;
  rc_canonical_type : string;
  rc_canonical_id : uuid;
  rc_revision_id : uuid;
  rc_space_id : uuid;
  rc_lane : CandidateLane.t;
  rc_rank : Z;
  rc_locator : option string;
  rc_snippet : option string;
  rc_score_hint : option f64;
}.

Record FusedCandidate := {
  candidate_id : string;
  canonical_type : string;
  canonical_id : uuid;
  revision_id : uuid;
  space_id : uuid;
  fused_score : f64;
  lanes : list CandidateLane.t;
  locator : option string;
  snippet : option string;
}.

(** [weight / (k + rank)]. *)
Definition rrf_contribution (rank : Z) (weight : f64) (k : Z) : res f64 :=
  let d := of_int (k + rank) in
  if d =? 0 then Raise ZeroDivisionError
  else Ok (if d <? 0 then - fdiv weight (- d) else fdiv weight d).

Definition weight_of (weights : list (CandidateLane.t * f64)) (lane : CandidateLane.t) : f64 :=
  match first (fun lw => bool_decide (lw.1 = lane)) weights with
  | Some lw => lw.2
  | None => lit 1 1
  end.

Definition new_fused (lane : CandidateLane.t) (contrib : f64) (c : RetrievalCandidate) : FusedCandidate :=
  {| candidate_id := rc_candidate_id c; canonical_type := rc_canonical_type c;
     canonical_id := rc_canonical_id c; revision_id := rc_revision_id c;
     space_id := rc_space_id c; fused_score := contrib; lanes := [lane];
     locator := rc_locator c; snippet := rc_snippet c |}.

(** [if existing.x is None and candidate.x: existing.x = candidate.x]. *)
Definition fill (old new : option string) : option string :=
  match old, new with
  | None, Some s => if truthy s then Some s else None
  | _, _ => old
  end.

Definition merge (lane : CandidateLane.t) (contrib : f64) (c : RetrievalCandidate)
    (f : FusedCandidate) : FusedCandidate :=
  {| candidate_id := candidate_id f; canonical_type := canonical_type f;
     canonical_id := canonical_id f; revision_id := revision_id f; space_id := space_id f;
     fused_score := fadd (fused_score f) contrib; lanes := lanes f ++ [lane];
     locator := fill (locator f) (rc_locator c); snippet := fill (snippet f) (rc_snippet c) |}.

Notation scores := (list (string * FusedCandidate)) (only parsing).

Definition add_candidate (k : Z) (lane : CandidateLane.t) (weight : f64)
    (sc : scores) (c : RetrievalCandidate) : res scores :=
  contrib ← rrf_contribution (rc_rank c) weight k;
  mret (match dict_lookup (rc_candidate_id c) sc with
        | None => dict_set (rc_candidate_id c) (new_fused lane contrib c) sc
        | Some f => dict_set (rc_candidate_id c) (merge lane contrib c f) sc
        end).

Fixpoint foldm {A B} (f : B -> A -> res B) (b : B) (l : list A) : res B :=
  match l with [] => mret b | x :: l => b' ← f b x; foldm f b' l end.

Definition add_lane (k : Z) (weights : list (CandidateLane.t * f64)) (sc : scores)
    (lr : CandidateLane.t * list RetrievalCandidate) : res scores :=
  foldm (add_candidate k lr.1 (weight_of weights lr.1)) sc lr.2.

(** [key=lambda item: (-item.fused_score, item.candidate_id)]. *)
Definition fused_leb (a b : FusedCandidate) : bool :=
  if fused_score a =? fused_score b then str_leb (candidate_id a) (candidate_id b)
  else fused_score b <? fused_score a.

Definition fuse_candidates (lane_results : list (CandidateLane.t * list RetrievalCandidate))
    (k : Z) (weights : option (list (CandidateLane.t * f64))) : res (list FusedCandidate) :=
  let active := match weights with Some (w :: ws) => w :: ws | _ => LANE_WEIGHTS end in
  sc ← foldm (add_lane k active) [] lane_results;
  mret (sort_by fused_leb (map snd sc)).

(** ** Private spaces *)

(** The candidates [exclude_private_spaces] accepts: fused or not. *)
Class HasSpace (A : Type) := space_of : A -> uuid.
#[global] Instance fused_space : HasSpace FusedCandidate := space_id.
#[global] Instance candidate_space : HasSpace RetrievalCandidate := rc_space_id.

Definition visibility_of (space_visibility : list (uuid * SpaceVisibility.t)) (s : uuid)
    : SpaceVisibility.t :=
  match first (fun sv => sv.1 =? s) space_visibility with
  | Some sv => sv.2
  | None => SpaceVisibility.GENERAL
  end.

Definition exclude_private_spaces {A} `{HasSpace A} (candidates : list A)
    (space_visibility : list (uuid * SpaceVisibility.t)) (purpose : string) : list A :=
  if negb (String.eqb purpose "external_read") then candidates
  else keep (fun c => negb (bool_decide
         (visibility_of space_visibility (space_of c) = SpaceVisibility.PRIVATE))) candidates.

(** ** The hits of a candidate, in the order the lanes are read *)

Definition hits_of (id : string) (lane_results : list (CandidateLane.t * list RetrievalCandidate))
    : list (CandidateLane.t * RetrievalCandidate) :=
  flat_map (fun lr => map (pair lr.1) (keep (fun c => String.eqb (rc_candidate_id c) id) lr.2))
    lane_results.

(** All candidates, lane by lane. *)
Definition all_hits (lane_results : list (CandidateLane.t * list RetrievalCandidate))
    : list (CandidateLane.t * RetrievalCandidate) :=
  flat_map (fun lr => map (pair lr.1) lr.2) lane_results.

(** The contribution of one hit, for ranks that do not divide by zero. *)
Definition contribution (k : Z) (weights : list (CandidateLane.t * f64))
    (h : CandidateLane.t * RetrievalCandidate) : f64 :=
  fdiv (weight_of weights h.1) (of_int (k + rc_rank h.2)).

Definition add_hit (k : Z) (weights : list (CandidateLane.t * f64)) (sc : scores)
    (h : CandidateLane.t * RetrievalCandidate) : res scores :=
  add_candidate k h.1 (weight_of weights h.1) sc h.2.

(** ** What fusing computes *)

Lemma foldm_app {A B} (f : B -> A -> res B) b l k :
  foldm f b (l ++ k) = (b' ← foldm f b l; foldm f b' k).
Proof. revert b. induction l as [|x l IH]; intros b; simpl; [done|]. destruct (f b x); simpl; [apply IH|done]. Qed.

Lemma foldm_map {A B C} (f : B -> C -> res B) (g : A -> C) b l :
  foldm f b (map g l) = foldm (fun b x => f b (g x)) b l.
Proof. revert b. induction l as [|x l IH]; intros b; simpl; [done|]. by destruct (f b (g x)); simpl. Qed.

Lemma add_lanes_hits k ws sc lr : foldm (add_lane k ws) sc lr = foldm (add_hit k ws) sc (all_hits lr).
Proof.
  revert sc. induction lr as [|[l cs] lr IH]; intros sc; simpl; [done|].
  unfold all_hits in *. cbn [flat_map foldm fst snd]. rewrite foldm_app, foldm_map.
  change (add_lane k ws sc (l, cs)) with (foldm (fun b x => add_hit k ws b (l, x)) sc cs).
  destruct (foldm _ sc cs); simpl; [apply IH|done].
Qed.

(** The candidate all hits of one identifier fuse to. *)
Definition fused_of (k : Z) (ws : list (CandidateLane.t * f64))
    (hits : list (CandidateLane.t * RetrievalCandidate)) : option FusedCandidate :=
  match hits with
  | [] => None
  | h :: hs => Some (foldl (fun f h => merge h.1 (contribution k ws h) h.2 f)
                       (new_fused h.1 (contribution k ws h) h.2) hs)
  end.

Definition with_id (id : string) (hits : list (CandidateLane.t * RetrievalCandidate)) :=
  keep (fun h => String.eqb (rc_candidate_id h.2) id) hits.

Lemma hits_of_with_id id lr : hits_of id lr = with_id id (all_hits lr).
Proof.
  unfold hits_of, all_hits, with_id. induction lr as [|[l cs] lr IH]; simpl; [done|].
  rewrite keep_app, <- IH. f_equal. clear. induction cs as [|c cs IH]; simpl; [done|].
  unfold keep in *. simpl. destruct (String.eqb _ _); simpl; by rewrite IH.
Qed.

Definition rank_ok (k : Z) (h : CandidateLane.t * RetrievalCandidate) : Prop := 0 < k + rc_rank h.2.

Lemma rrf_contribution_ok k ws h : rank_ok k h ->
  rrf_contribution (rc_rank h.2) (weight_of ws h.1) k = Ok (contribution k ws h).
Proof.
  intros H%of_int_pos. unfold rrf_contribution, contribution. cbv zeta.
  rewrite (proj2 (Z.eqb_neq _ 0)) by lia. by rewrite (proj2 (Z.ltb_ge _ 0)) by lia.
Qed.

(** The dictionary after a list of hits. *)
Record fused_dict (k : Z) (ws : list (CandidateLane.t * f64))
    (hits : list (CandidateLane.t * RetrievalCandidate)) (sc : scores) : Prop := {
  fd_lookup : forall id, dict_lookup id sc = fused_of k ws (with_id id hits);
  fd_keys : NoDup (map fst sc);
  fd_self : forall kv, kv ∈ sc -> candidate_id kv.2 = kv.1;
}.

Lemma dict_set_keys {A} k (v : A) d :
  NoDup (map fst d) -> NoDup (map fst (dict_set k v d)) /\
  (forall kv, kv ∈ dict_set k v d -> kv = (k, v) \/ kv ∈ d).
Proof.
  induction d as [|[k' v'] d IH]; simpl; intros Hnd.
  - split; [repeat constructor; set_solver|set_solver].
  - apply NoDup_cons in Hnd as [Hn Hnd]. destruct (IH Hnd) as [IH1 IH2].
    destruct (String.eqb_spec k' k) as [->|Hne]; simpl.
    + split; [by constructor|set_solver].
    + split; [|set_solver]. constructor; [|done].
      rewrite list_elem_of_fmap. intros ([k2 v2] & -> & Hin). simpl in *.
      destruct (IH2 _ Hin) as [[= -> ->]|Hin2]; [done|]. apply Hn. apply list_elem_of_fmap. by exists (k2, v2).
Qed.

Lemma with_id_snoc id hits h :
  with_id id (hits ++ [h]) =
  with_id id hits ++ (if String.eqb (rc_candidate_id h.2) id then [h] else []).
Proof. unfold with_id. by rewrite keep_app. Qed.

Lemma fused_of_snoc k ws hits h :
  fused_of k ws (hits ++ [h]) =
  Some (match fused_of k ws hits with
        | None => new_fused h.1 (contribution k ws h) h.2
        | Some f => merge h.1 (contribution k ws h) h.2 f
        end).
Proof. destruct hits as [|h0 hits]; simpl; [done|]. by rewrite foldl_app. Qed.

Lemma fused_id k ws id hits f : fused_of k ws (with_id id hits) = Some f -> candidate_id f = id.
Proof.
  assert (Hm : forall hs f0, candidate_id (foldl (fun f h => merge h.1 (contribution k ws h) h.2 f) f0 hs)
    = candidate_id f0).
  { induction hs as [|h hs IH]; intros f0; simpl; [done|]. by rewrite IH. }
  destruct (with_id id hits) as [|h hs] eqn:E; simpl; [done|]. intros [= <-]. rewrite Hm. simpl.
  assert (Hh : h ∈ with_id id hits) by (rewrite E; set_solver).
  unfold with_id in Hh. rewrite elem_of_keep in Hh. destruct Hh as [_ Hh]. by apply String.eqb_eq in Hh.
Qed.

Lemma add_hit_dict k ws hits sc h : rank_ok k h -> fused_dict k ws hits sc ->
  exists sc', add_hit k ws sc h = Ok sc' /\ fused_dict k ws (hits ++ [h]) sc'.
Proof.
  intros Hr [Hl Hk Hs]. unfold add_hit, add_candidate. rewrite rrf_contribution_ok by done. simpl.
  set (id := rc_candidate_id h.2).
  set (f := match fused_of k ws (with_id id hits) with
            | None => new_fused h.1 (contribution k ws h) h.2
            | Some f => merge h.1 (contribution k ws h) h.2 f end).
  assert (Hf : candidate_id f = id).
  { unfold f. destruct (fused_of _ _ _) eqn:E; [|done]. simpl. by apply fused_id in E. }
  exists (dict_set id f sc). split.
  { rewrite Hl. unfold f. by destruct (fused_of _ _ _). }
  destruct (dict_set_keys id f sc Hk) as [Hk' Hin]. split; [|done|].
  - intros id'. rewrite dict_lookup_set, with_id_snoc. fold id.
    destruct (String.eqb_spec id id') as [<-|Hne].
    + by rewrite fused_of_snoc.
    + by rewrite app_nil_r.
  - intros kv [->|Hkv]%Hin; [done|by apply Hs].
Qed.

Lemma add_hits_dict k ws hits : Forall (rank_ok k) hits ->
  exists sc, foldm (add_hit k ws) [] hits = Ok sc /\ fused_dict k ws hits sc.
Proof.
  induction hits as [|h hits IH] using rev_ind; intros Hf.
  - exists []. split; [done|]. split; [done|constructor|set_solver].
  - apply Forall_app in Hf as [Hf Hh]. rewrite Forall_singleton in Hh.
    destruct (IH Hf) as (sc & Hsc & Hd). rewrite foldm_app, Hsc. simpl.
    destruct (add_hit_dict k ws hits sc h Hh Hd) as (sc' & -> & Hd'). by exists sc'.
Qed.

Lemma fused_leb_total a b : fused_leb a b = true \/ fused_leb b a = true.
Proof.
  unfold fused_leb. destruct (Z.eqb_spec (fused_score a) (fused_score b)) as [->|Hne].
  - rewrite Z.eqb_refl. apply str_leb_total.
  - rewrite (proj2 (Z.eqb_neq _ _)) by congruence. rewrite !Z.ltb_lt. lia.
Qed.

Lemma fused_leb_trans a b c : fused_leb a b = true -> fused_leb b c = true -> fused_leb a c = true.
Proof.
  unfold fused_leb.
  destruct (Z.eqb_spec (fused_score a) (fused_score b)), (Z.eqb_spec (fused_score b) (fused_score c)),
    (Z.eqb_spec (fused_score a) (fused_score c)); rewrite ?Z.ltb_lt; try lia; try congruence.
  apply str_leb_trans.
Qed.

Definition active_weights (weights : option (list (CandidateLane.t * f64))) :=
  match weights with Some (w :: ws) => w :: ws | _ => LANE_WEIGHTS end.

Lemma fuse_candidates_spec lr k weights :
  Forall (rank_ok k) (all_hits lr) ->
  exists out, fuse_candidates lr k weights = Ok out /\
    (forall f, f ∈ out <-> fused_of k (active_weights weights) (hits_of (candidate_id f) lr) = Some f) /\
    NoDup (map candidate_id out) /\ StronglySorted (fun a b => fused_leb a b = true) out.
Proof.
  intros Hf. destruct (add_hits_dict k (active_weights weights) _ Hf) as (sc & Hsc & [Hl Hk Hs]).
  exists (sort_by fused_leb (map snd sc)). split.
  { unfold fuse_candidates. fold (active_weights weights). by rewrite add_lanes_hits, Hsc. }
  assert (Hids : map candidate_id (map snd sc) = map fst sc).
  { rewrite map_map. apply map_ext_in. intros kv Hkv. apply Hs. by apply list_elem_of_In. }
  split; [|split].
  - intros f. rewrite elem_of_sort_by, hits_of_with_id, <- Hl. split.
    + intros ([k' f'] & -> & Hin)%list_elem_of_fmap. simpl.
      apply dict_lookup_NoDup; [done|]. pose proof (Hs _ Hin) as Hs1. simpl in Hs1. by rewrite Hs1.
    + intros H%dict_lookup_elem. apply list_elem_of_fmap. by exists (candidate_id f, f).
  - rewrite sort_by_perm. by rewrite Hids.
  - apply sort_by_sorted; [apply fused_leb_total|apply fused_leb_trans].
Qed.

(** ** Scores *)

(** A better hit: the same lane, ranked no lower. *)
Definition better_hit (h h' : CandidateLane.t * RetrievalCandidate) : Prop :=
  h.1 = h'.1 /\ rc_rank h.2 <= rc_rank h'.2.

Section scores.
Context (k : Z) (ws : list (CandidateLane.t * f64)).
Context (Hws : forall l, 0 <= weight_of ws l).

Lemma contribution_nonneg h : rank_ok k h -> is_double (contribution k ws h).
Proof. intros H%of_int_pos. apply fdiv_double; [apply Hws|done]. Qed.

Lemma contribution_better h h' : rank_ok k h -> better_hit h h' ->
  contribution k ws h' <= contribution k ws h.
Proof.
  intros Hr [Hl Hrank]. unfold contribution. rewrite Hl.
  apply fdiv_mono_r; [apply Hws|by apply of_int_pos|apply of_int_mono; lia].
Qed.

Definition score_from (x : f64) (hs : list (CandidateLane.t * RetrievalCandidate)) : f64 :=
  foldl (fun x h => fadd x (contribution k ws h)) x hs.

Lemma fused_of_score h hs f : fused_of k ws (h :: hs) = Some f ->
  fused_score f = score_from (contribution k ws h) hs.
Proof.
  simpl. intros [= <-]. unfold score_from.
  assert (H : forall f0, fused_score (foldl (fun f h => merge h.1 (contribution k ws h) h.2 f) f0 hs)
    = foldl (fun x h => fadd x (contribution k ws h)) (fused_score f0) hs).
  { induction hs as [|h' hs IH]; intros f0; simpl; [done|]. by rewrite IH. }
  by rewrite H.
Qed.

Lemma score_from_grows x hs : is_double x -> Forall (rank_ok k) hs ->
  x <= score_from x hs.
Proof.
  intros Hx Hhs. revert x Hx. induction Hhs as [|h hs Hh Hhs IH]; intros x Hx; simpl; [lia|].
  destruct (contribution_nonneg h Hh) as [Hc _]. destruct Hx as [Hx0 Hxd].
  etransitivity; [apply (fadd_ge x (contribution k ws h)); [done|exact Hc]|].
  apply IH. by apply fadd_double.
Qed.

Lemma score_from_better x y hs hs' : 0 <= y -> y <= x -> is_double x ->
  Forall (rank_ok k) hs -> Forall (rank_ok k) hs' ->
  (exists h1 h2, hs = h1 ++ h2 /\ Forall2 better_hit h1 hs') ->
  score_from y hs' <= score_from x hs.
Proof.
  intros Hy Hxy Hx Hhs Hhs' (h1 & h2 & -> & H2). revert x y Hy Hxy Hx Hhs Hhs'.
  induction H2 as [|h h' h1 hs' Hb H2 IH]; intros x y Hy Hxy Hx Hhs Hhs'; simpl.
  - etransitivity; [exact Hxy|by apply score_from_grows].
  - inversion Hhs as [|? ? Hh Hhs1]; inversion Hhs' as [|? ? Hh' Hhs1']; subst.
    destruct (contribution_nonneg h Hh) as [Hc _], (contribution_nonneg h' Hh') as [Hc' _].
    apply IH; [apply fadd_double; lia| |apply fadd_double; lia|done|done].
    apply fadd_mono; [done|]. by apply contribution_better.
Qed.

(** Hits that lead with better ones score no lower. *)
Lemma fused_better hs hs' f f' :
  Forall (rank_ok k) hs -> Forall (rank_ok k) hs' ->
  (exists h1 h2, hs = h1 ++ h2 /\ Forall2 better_hit h1 hs') ->
  fused_of k ws hs = Some f -> fused_of k ws hs' = Some f' -> fused_score f' <= fused_score f.
Proof.
  intros Hhs Hhs' (h1 & h2 & -> & H2) Hf Hf'.
  destruct H2 as [|h h' h1 hs' Hb H2]; [discriminate Hf'|].
  simpl in Hf. rewrite (fused_of_score h (h1 ++ h2) f Hf), (fused_of_score h' hs' f' Hf').
  inversion Hhs as [|? ? Hh Hhs1]; inversion Hhs' as [|? ? Hh' Hhs1']; subst.
  pose proof (contribution_nonneg h Hh) as Hc. destruct (contribution_nonneg h' Hh') as [Hc' _].
  apply score_from_better; [done|by apply contribution_better|done|done|done|eauto].
Qed.
End scores.

(** ** Properties *)

(** What the hits of one identifier fuse to: the identity of the first, the sum
    of the contributions, the lanes in order, the first texts. *)
Lemma fused_of_fields k ws h hs f : fused_of k ws (h :: hs) = Some f ->
  fused_score f = foldl (fun x h' => fadd x (fdiv (weight_of ws h'.1) (of_int (k + rc_rank h'.2))))
                    (fdiv (weight_of ws h.1) (of_int (k + rc_rank h.2))) hs /\
  lanes f = map fst (h :: hs) /\
  (canonical_type f, canonical_id f, revision_id f, space_id f) =
    (rc_canonical_type h.2, rc_canonical_id h.2, rc_revision_id h.2, rc_space_id h.2) /\
  locator f = match rc_locator h.2 with Some s => Some s | None => first truthy (omap (fun h' => rc_locator h'.2) hs) end /\
  snippet f = match rc_snippet h.2 with Some s => Some s | None => first truthy (omap (fun h' => rc_snippet h'.2) hs) end.
Proof.
  intros Hf. split; [exact (fused_of_score k ws h hs f Hf)|]. cbn [fused_of] in Hf. injection Hf as <-.
  assert (Hg : forall (text : FusedCandidate -> option string) (rc_text : RetrievalCandidate -> option string) f0,
    (forall l x c f, text (merge l x c f) = fill (text f) (rc_text c)) ->
    text (foldl (fun f h => merge h.1 (contribution k ws h) h.2 f) f0 hs) =
      match text f0 with Some s => Some s | None => first truthy (omap (fun h' => rc_text h'.2) hs) end).
  { intros text rc_text f0 Ht. revert f0. induction hs as [|h' hs IH]; intros f0; [by cbn; destruct (text f0)|]. cbn [foldl]. rewrite IH, Ht.
    destruct (text f0) as [s|]; [done|]. cbn. destruct (rc_text h'.2) as [s|]; [|done]. cbn. by destruct (truthy s). }
  split; [|split; [|split; apply Hg; done]].
  - clear Hg. change (map fst (h :: hs)) with (lanes (new_fused h.1 (contribution k ws h) h.2) ++ map fst hs).
    generalize (new_fused h.1 (contribution k ws h) h.2). induction hs as [|h' hs IH]; intros f0; [by rewrite app_nil_r|].
    cbn [foldl map]. rewrite IH. cbn [lanes merge]. by rewrite <- app_assoc.
  - clear Hg. change (rc_canonical_type h.2, _, _, _) with (let g := new_fused h.1 (contribution k ws h) h.2 in (canonical_type g, canonical_id g, revision_id g, space_id g)).
    cbv zeta. generalize (new_fused h.1 (contribution k ws h) h.2). induction hs as [|h' hs IH]; intros f0; [done|]. cbn [foldl]. by rewrite IH.
Qed.

Lemma fused_leb_order a b : fused_leb a b = true ->
  fused_score b < fused_score a \/ fused_score a = fused_score b /\ String.leb (candidate_id a) (candidate_id b) = true.
Proof. unfold fused_leb. destruct (Z.eqb_spec (fused_score a) (fused_score b)); [by right|]. rewrite Z.ltb_lt. by left. Qed.

Lemma hits_of_some id lr : hits_of id lr <> [] <-> exists h, h ∈ all_hits lr /\ rc_candidate_id h.2 = id.
Proof.
  rewrite hits_of_with_id. unfold with_id. split.
  - destruct (keep _ _) as [|h hs] eqn:E; [done|]. intros _. exists h. assert (Hh : h ∈ h :: hs) by by left.
    rewrite <- E in Hh. apply elem_of_keep in Hh as [Hh Hi%String.eqb_eq]. done.
  - intros (h & Hh & Hi) E. assert (Hk : h ∈ keep (fun h => String.eqb (rc_candidate_id h.2) id) (all_hits lr)).
    { apply elem_of_keep. by rewrite Hi, String.eqb_refl. }
    rewrite E in Hk. by apply not_elem_of_nil in Hk.
Qed.

(** C9: fusion answers each identifier that was hit once and no other.  Its score
    is the sum, in the order of the hits, of weight / (k + rank), rounded as binary64
    does; its lanes are those of the hits, its identity that of the first one, its
    texts the first there are; and an earlier candidate has a greater score, or the
    same and a smaller identifier.  Ranks that do not make k + rank zero or negative
    cannot fail. *)
Theorem fuse_candidates_exact lr k weights :
  Forall (rank_ok k) (all_hits lr) ->
  let ws := active_weights weights in
  exists out, fuse_candidates lr k weights = Ok out /\
    NoDup (map candidate_id out) /\
    (forall id, id ∈ map candidate_id out <-> exists h, h ∈ all_hits lr /\ rc_candidate_id h.2 = id) /\
    (forall f, f ∈ out -> exists h hs, hits_of (candidate_id f) lr = h :: hs /\
       fused_score f = foldl (fun x h' => fadd x (fdiv (weight_of ws h'.1) (of_int (k + rc_rank h'.2))))
                         (fdiv (weight_of ws h.1) (of_int (k + rc_rank h.2))) hs /\
       lanes f = map fst (h :: hs) /\
       (canonical_type f, canonical_id f, revision_id f, space_id f) =
         (rc_canonical_type h.2, rc_canonical_id h.2, rc_revision_id h.2, rc_space_id h.2) /\
       locator f = match rc_locator h.2 with Some s => Some s | None => first truthy (omap (fun h' => rc_locator h'.2) hs) end /\
       snippet f = match rc_snippet h.2 with Some s => Some s | None => first truthy (omap (fun h' => rc_snippet h'.2) hs) end) /\
    StronglySorted (fun a b => fused_score b < fused_score a \/
      fused_score a = fused_score b /\ String.leb (candidate_id a) (candidate_id b) = true) out.
Proof.
  cbv zeta. intros Hr. destruct (fuse_candidates_spec lr k weights Hr) as (out & Ho & Hin & Hn & Hs).
  exists out. split; [done|]. split; [done|]. split; [|split].
  - intros id. rewrite <- hits_of_some, list_elem_of_fmap. split.
    + intros (f & -> & Hf%Hin) E. by rewrite E in Hf.
    + intros Hne. destruct (hits_of id lr) as [|h hs] eqn:E; [done|].
      destruct (fused_of k (active_weights weights) (h :: hs)) as [f|] eqn:Ef; [|done].
      assert (Hid : candidate_id f = id) by (rewrite <- E, hits_of_with_id in Ef; by apply fused_id in Ef).
      exists f. split; [done|]. apply Hin. by rewrite Hid, E.
  - intros f Hf%Hin. destruct (hits_of (candidate_id f) lr) as [|h hs] eqn:E; [done|]. exists h, hs. split; [done|]. by apply fused_of_fields.
  - clear - Hs. induction Hs as [|f out Hs IH Hf]; constructor; [done|]. eapply Forall_impl; [exact Hf|]. apply fused_leb_order.
Qed.

Definition sample_hit (id : string) (lane : CandidateLane.t) (rank : Z) : RetrievalCandidate :=
  {| rc_candidate_id := id; rc_canonical_type := "memory_item"; rc_canonical_id := 1;
     rc_revision_id := 2; rc_space_id := 3; rc_lane := lane; rc_rank := rank;
     rc_locator := None; rc_snippet := None; rc_score_hint := None |}.

Definition sample_lanes : list (CandidateLane.t * list RetrievalCandidate) :=
  [(CandidateLane.EXACT, [sample_hit "a" CandidateLane.EXACT 1; sample_hit "b" CandidateLane.EXACT 2]);
   (CandidateLane.OSS_SEMANTIC, [sample_hit "b" CandidateLane.OSS_SEMANTIC 1])].

Lemma fuse_candidates_exact_witness :
  exists out, fuse_candidates sample_lanes RRF_K None = Ok out /\ map candidate_id out = ["b"; "a"].
Proof.
  destruct (fuse_candidates_exact sample_lanes RRF_K None) as (out & Ho & _).
  { repeat constructor. }
  exists out. split; [exact Ho|].
  assert (Hv : match fuse_candidates sample_lanes RRF_K None with
               | Ok o => map candidate_id o | Raise _ => [] end = ["b"; "a"]) by (vm_compute; reflexivity).
  by rewrite Ho in Hv.
Defined.

(** Fusion respects the lanes: a candidate that every lane of another one
    also returns, ranked at least as high, and that may have further hits, never
    scores lower, floating-point rounding included. *)
Theorem fuse_candidates_dominance lr k weights out f g :
  Forall (rank_ok k) (all_hits lr) ->
  (forall l, 0 <= weight_of (active_weights weights) l) ->
  fuse_candidates lr k weights = Ok out -> f ∈ out -> g ∈ out ->
  (exists h1 h2, hits_of (candidate_id f) lr = h1 ++ h2 /\
     Forall2 better_hit h1 (hits_of (candidate_id g) lr)) ->
  fused_score g <= fused_score f.
Proof.
  intros Hr Hws Ho Hf Hg Hb.
  destruct (fuse_candidates_spec lr k weights Hr) as (out' & Ho' & Hin & _).
  assert (out' = out) as -> by congruence.
  apply Hin in Hf, Hg. rewrite hits_of_with_id in Hf, Hg. rewrite !hits_of_with_id in Hb.
  assert (Hsub : forall id, Forall (rank_ok k) (with_id id (all_hits lr))).
  { intros id. rewrite Forall_forall in Hr |- *. intros h. unfold with_id. rewrite elem_of_keep. naive_solver. }
  exact (fused_better k _ Hws _ _ f g (Hsub _) (Hsub _) Hb Hf Hg).
Qed.

Lemma default_weights_nonneg l : 0 <= weight_of (active_weights None) l.
Proof.
  assert (H : (0 <=? weight_of LANE_WEIGHTS l) = true) by (destruct l; vm_compute; reflexivity).
  by apply Z.leb_le.
Qed.

Definition sample_ranks : list (CandidateLane.t * list RetrievalCandidate) :=
  [(CandidateLane.EXACT, [sample_hit "a" CandidateLane.EXACT 1; sample_hit "c" CandidateLane.EXACT 2])].

Lemma sample_ranks_out : exists f g, fuse_candidates sample_ranks RRF_K None = Ok [f; g] /\
  candidate_id f = "a" /\ candidate_id g = "c".
Proof.
  assert (Hv : match fuse_candidates sample_ranks RRF_K None with
    | Ok [f; g] => String.eqb (candidate_id f) "a" && String.eqb (candidate_id g) "c" | _ => false end = true)
    by (vm_compute; reflexivity).
  destruct (fuse_candidates sample_ranks RRF_K None) as [[|f [|g [|? ?]]]|]; try discriminate Hv.
  apply andb_prop in Hv as [Hf Hg]. apply String.eqb_eq in Hf, Hg. by exists f, g.
Qed.

Lemma fuse_candidates_dominance_witness :
  exists f g, fuse_candidates sample_ranks RRF_K None = Ok [f; g] /\ candidate_id g = "c" /\
    fused_score g <= fused_score f.
Proof.
  destruct sample_ranks_out as (f & g & E & Hf & Hg).
  exists f, g. split; [exact E|]. split; [exact Hg|].
  apply (fuse_candidates_dominance sample_ranks RRF_K None [f; g] f g).
  - repeat constructor.
  - exact default_weights_nonneg.
  - exact E.
  - left.
  - right. left.
  - rewrite Hf, Hg. exists [(CandidateLane.EXACT, sample_hit "a" CandidateLane.EXACT 1)], [].
    split; [reflexivity|]. repeat constructor. simpl. lia.
Defined.
