(* ===== verification/ContextCompiler.v ===== *)
(** * Context compiler (packages/domain-python/src/memdot_domain/context_compiler.py)

    Packing fused candidates into a receipt under an item and a character
    budget, with the two digests a receipt carries.  The identifier
    [uuid.uuid4()] draws is an argument; [len(text)] counts the characters of
    a [string]. *)

From Stdlib Require Import ZArith Lia.
From stdpp Require Import list strings gmap.
From S2P Require Import Prelude PyStr Json Digest Uuid Enums Retrieval.
Open Scope Z_scope.

Record ContextBudget := { max_tokens : Z; max_items : Z }.

Definition default_budget : ContextBudget := {| max_tokens := 4096; max_items := 32 |}.

Definition char_budget (b : ContextBudget) : Z := max_tokens b * 4.

Record EvidenceItem := {
  rank : Z;
  item_type : string;
  item_id : uuid;
  item_revision : uuid;
  item_locator : option string;
  text : string;
  selected : bool;
  omit_reason : option OmitReason.t;
}.

Record ContextReceipt := {
  receipt_id : uuid;
  r_query_hash : string;
  purpose : string;
  policy_version : string;
  eligible_spaces : list uuid;
  provider_versions : list (string * string);
  r_budget : ContextBudget;
  r_context_hash : string;
  partial : bool;
  r_items : list EvidenceItem;
}.

Definition query_json (query purpose policy_version : string) : json :=
  JObj [("query", JStr (strip query)); ("purpose", JStr purpose);
        ("policy_version", JStr policy_version)].

Definition query_hash (query purpose policy_version : string) : string :=
  sha256_str (dumps (query_json query purpose policy_version)).

Definition item_json (i : EvidenceItem) : json :=
  JObj [("rank", JInt (rank i)); ("canonical_type", JStr (item_type i));
        ("canonical_id", JStr (str_uuid (item_id i)));
        ("revision_id", JStr (str_uuid (item_revision i)));
        ("selected", JBool (selected i));
        ("omit_reason", match omit_reason i with Some r => JStr (value r) | None => JNull end)].

Definition context_hash (items : list EvidenceItem) : string :=
  sha256_str (dumps (JList (map item_json items))).

Definition str_len (s : string) : Z := Z.of_nat (String.length s).

Record packing := { items : list EvidenceItem; used_chars : Z; seen : list string }.

Definition text_of (corpus_text : list (string * string)) (c : FusedCandidate) : string :=
  match dict_lookup (candidate_id c) corpus_text with
  | Some t => t
  | None => match snippet c with Some s => s | None => "" end
  end.

Definition n_selected (items : list EvidenceItem) : Z := Z.of_nat (length (keep selected items)).

(** The omission of a candidate, [None] when it is selected. *)
Definition omission (b : ContextBudget) (p : packing) (key text : string) : option OmitReason.t :=
  if bool_decide (key ∈ seen p) then Some OmitReason.DUPLICATE
  else if max_items b <=? n_selected (items p) then Some OmitReason.BUDGET
  else if char_budget b <? used_chars p + str_len text then Some OmitReason.BUDGET
  else None.

Definition pack_one (corpus_text : list (string * string)) (b : ContextBudget)
    (p : packing) (rc : Z * FusedCandidate) : packing :=
  let '(rank, c) := rc in
  let key := candidate_id c in
  let txt := text_of corpus_text c in
  let omit := omission b p key txt in
  let sel := match omit with None => true | Some _ => false end in
  {| items := items p ++
       [{| rank := rank; item_type := canonical_type c; item_id := canonical_id c;
           item_revision := revision_id c; item_locator := locator c;
           text := if sel then txt else ""; selected := sel; omit_reason := omit |}];
     used_chars := if sel then used_chars p + str_len txt else used_chars p;
     seen := if sel then key :: seen p else seen p |}.

(** [enumerate(l, start=n)]. *)
Fixpoint enumerate {A} (n : Z) (l : list A) : list (Z * A) :=
  match l with [] => [] | x :: l => (n, x) :: enumerate (n + 1) l end.

Definition pack (corpus_text : list (string * string)) (b : ContextBudget)
    (candidates : list FusedCandidate) : packing :=
  foldl (pack_one corpus_text b) {| items := []; used_chars := 0; seen := [] |}
    (enumerate 1 candidates).

Definition compile_context (uuid4 : uuid) (query purpose policy_version : string)
    (eligible_spaces : list uuid) (provider_versions : list (string * string))
    (candidates : list FusedCandidate) (corpus_text : list (string * string))
    (budget : option ContextBudget) : ContextReceipt :=
  let b := match budget with Some b => b | None => default_budget end in
  let its := items (pack corpus_text b candidates) in
  {| receipt_id := uuid4; r_query_hash := query_hash query purpose policy_version;
     purpose := purpose; policy_version := policy_version; eligible_spaces := eligible_spaces;
     provider_versions := provider_versions; r_budget := b; r_context_hash := context_hash its;
     partial := existsb (fun i => negb (selected i)) its; r_items := its |}.

(** ** Packing *)

Definition total_len (its : list EvidenceItem) : Z :=
  foldr (fun i n => str_len (text i) + n) 0 (keep selected its).

(** An item reads off its candidate. *)
Definition item_of (corpus_text : list (string * string)) (n : Z) (c : FusedCandidate) (i : EvidenceItem) : Prop :=
  rank i = n /\ item_type i = canonical_type c /\ item_id i = canonical_id c /\
  item_revision i = revision_id c /\ item_locator i = locator c /\
  text i = (if selected i then text_of corpus_text c else "") /\
  (selected i = true <-> omit_reason i = None).

Record packed (corpus_text : list (string * string)) (b : ContextBudget)
    (cs : list (Z * FusedCandidate)) (p : packing) : Prop := {
  pk_items : Forall2 (fun nc i => item_of corpus_text nc.1 nc.2 i) cs (items p);
  pk_chars : used_chars p = total_len (items p);
  pk_seen : forall k, k ∈ seen p <->
    exists nc i, (nc, i) ∈ zip cs (items p) /\ candidate_id nc.2 = k /\ selected i = true;
  pk_bound : 0 <= max_tokens b -> used_chars p <= char_budget b;
  pk_count : 0 <= max_items b -> n_selected (items p) <= max_items b;
}.

Lemma total_len_snoc its i :
  total_len (its ++ [i]) = total_len its + (if selected i then str_len (text i) else 0).
Proof.
  unfold total_len. rewrite keep_app, foldr_app.
  change (keep selected [i]) with (if selected i then [i] else []).
  destruct (selected i); simpl.
  - generalize (keep selected its) as l. induction l; simpl; lia.
  - lia.
Qed.

Lemma n_selected_snoc its i : n_selected (its ++ [i]) = n_selected its + (if selected i then 1 else 0).
Proof. unfold n_selected. rewrite keep_app, length_app.
  change (keep selected [i]) with (if selected i then [i] else []). destruct (selected i); simpl; lia. Qed.

Lemma str_len_nonneg s : 0 <= str_len s.
Proof. unfold str_len. lia. Qed.

Lemma zip_snoc {A B} (l : list A) (k : list B) a b :
  length l = length k -> zip (l ++ [a]) (k ++ [b]) = zip l k ++ [(a, b)].
Proof. revert k. induction l as [|x l IH]; intros [|y k]; simpl; try done. intros [= H]. by rewrite IH. Qed.

Lemma pack_one_packed ct b cs p nc : packed ct b cs p -> packed ct b (cs ++ [nc]) (pack_one ct b p nc).
Proof.
  intros [Hi Hc Hs Hb Hn]. destruct nc as [n c]. unfold pack_one.
  pose proof (str_len_nonneg (text_of ct c)) as Hlen.
  pose proof (Forall2_length _ _ _ Hi) as Hl.
  set (om := omission b p (candidate_id c) (text_of ct c)).
  assert (Hom : om = None -> max_items b <= n_selected (items p) -> False).
  { unfold om, omission. repeat case_match; try done. intros _ ?. apply Z.leb_gt in H0. lia. }
  assert (Hfit : om = None -> used_chars p + str_len (text_of ct c) <= char_budget b).
  { unfold om, omission. repeat case_match; try done. intros _. apply Z.ltb_ge in H1. lia. }
  constructor; cbn [items used_chars seen].
  - apply Forall2_app; [done|]. constructor; [|constructor]. unfold item_of. cbn.
    destruct om; split_and!; try done.
  - rewrite total_len_snoc. cbn [selected text]. destruct om; lia.
  - intros k. setoid_rewrite zip_snoc; [|done]. setoid_rewrite elem_of_app.
    setoid_rewrite list_elem_of_singleton.
    assert (Hk : k ∈ seen p <-> exists nc i, (nc, i) ∈ zip cs (items p) /\ candidate_id nc.2 = k /\ selected i = true)
      by apply Hs.
    destruct om as [r|]; [rewrite Hk; naive_solver|]. rewrite elem_of_cons, Hk. split.
    + intros [->|(nc & i & H)]; [|naive_solver].
      eexists (n, c), _. split; [by right|]. done.
    + intros (nc & i & [H|[= -> ->]] & ? & ?); [right; eauto|left; done].
  - intros H0. specialize (Hb H0). destruct om eqn:E; [lia|]. by apply Hfit.
  - intros H0. specialize (Hn H0). rewrite n_selected_snoc. cbn [selected].
    destruct om eqn:E; [lia|]. destruct (Z.leb_spec (max_items b) (n_selected (items p))); [|lia].
    by exfalso; apply Hom.
Qed.

Lemma pack_packed ct b cs : packed ct b (enumerate 1 cs) (pack ct b cs).
Proof.
  unfold pack. generalize (enumerate 1 cs) as l. intros l.
  induction l as [|nc l IH] using rev_ind.
  - constructor; simpl; try done; unfold char_budget; [set_solver|lia].
  - rewrite foldl_app. by apply pack_one_packed.
Qed.

(** The identifiers of the selected candidates are those seen, each once. *)
Lemma pack_distinct ct b cs :
  map (fun x => candidate_id x.1.2) (keep (fun x => selected x.2) (zip (enumerate 1 cs) (items (pack ct b cs)))) = rev (seen (pack ct b cs)) /\
  NoDup (seen (pack ct b cs)).
Proof.
  unfold pack. generalize (enumerate 1 cs) as l. intros l.
  assert (Hp : length l = length (items (foldl (pack_one ct b) {| items := []; used_chars := 0; seen := [] |} l)) /\
    map (fun x => candidate_id x.1.2) (keep (fun x => selected x.2) (zip l (items (foldl (pack_one ct b) {| items := []; used_chars := 0; seen := [] |} l)))) =
      rev (seen (foldl (pack_one ct b) {| items := []; used_chars := 0; seen := [] |} l)) /\
    NoDup (seen (foldl (pack_one ct b) {| items := []; used_chars := 0; seen := [] |} l))); [|by destruct Hp].
  induction l as [|[n c] l IH] using rev_ind; [by repeat constructor|]. rewrite foldl_app. cbn [foldl].
  set (p := foldl _ _ l) in *. destruct IH as (Hl & Hm & Hn). unfold pack_one. cbn [items seen].
  destruct (omission b p (candidate_id c) (text_of ct c)) eqn:E; rewrite zip_snoc, keep_app, map_app, !length_app, Hm by done.
  - split; [cbn; lia|]. split; [by rewrite app_nil_r|done].
  - split; [cbn; lia|]. split; [done|]. constructor; [|done]. unfold omission in E. by case_bool_decide.
Qed.

Lemma zip_enumerate_ids n cs (its : list EvidenceItem) :
  map (fun x => candidate_id x.1.2) (keep (fun x => selected x.2) (zip (enumerate n cs) its)) =
  map (fun x => candidate_id x.1) (keep (fun x => selected x.2) (zip cs its)).
Proof.
  revert n its. induction cs as [|c cs IH]; intros n [|i its]; try done. cbn. specialize (IH (n + 1) its). unfold keep in *. cbn.
  destruct (selected i); cbn; by rewrite IH.
Qed.

(** ** Properties *)

(** C10: a receipt lists every candidate once, in order and with its rank, and
    never exceeds its budget: at most max_items are selected, no two of them with
    one identifier, the selected texts hold at most four characters per token,
    what is not selected carries a reason and no text, and the receipt is partial
    exactly when something was left out. *)
Theorem compile_context_budget u q pu pv sp vs cs ct budget :
  let r := compile_context u q pu pv sp vs cs ct budget in
  0 <= max_tokens (r_budget r) -> 0 <= max_items (r_budget r) ->
  n_selected (r_items r) <= max_items (r_budget r) /\
  total_len (r_items r) <= max_tokens (r_budget r) * 4 /\
  NoDup (map (fun ci => candidate_id ci.1) (keep (fun ci => selected ci.2) (zip cs (r_items r)))) /\
  Forall2 (fun nc i => item_of ct nc.1 nc.2 i) (enumerate 1 cs) (r_items r) /\
  (partial r = true <-> exists i, i ∈ r_items r /\ selected i = false).
Proof.
  cbv zeta. unfold compile_context. cbn [r_budget r_items partial].
  set (b := match budget with Some b => b | None => default_budget end). intros Ht Hm.
  destruct (pack_packed ct b cs) as [Hi Hc _ Hb Hn].
  split; [by apply Hn|]. split; [rewrite <- Hc; by apply Hb|]. split.
  { rewrite <- (zip_enumerate_ids 1). destruct (pack_distinct ct b cs) as [-> Hnd]. by rewrite <- Permutation_rev. }
  split; [done|]. rewrite existsb_exists. split.
  - intros (i & Hin & Hs%negb_true_iff). exists i. by rewrite list_elem_of_In.
  - intros (i & Hin & Hs). exists i. rewrite <- list_elem_of_In, Hs. done.
Qed.

Definition sample_candidate (id : string) (text : string) : FusedCandidate :=
  {| candidate_id := id; canonical_type := "memory_item"; canonical_id := 1; revision_id := 2;
     space_id := 3; fused_score := 0; lanes := []; locator := None; snippet := Some text |}.

Definition small_budget : ContextBudget := {| max_tokens := 1; max_items := 2 |}.

Lemma compile_context_budget_witness :
  let r := compile_context 9 "q" "general" "v1" [] []
    [sample_candidate "a" "abc"; sample_candidate "b" "long"; sample_candidate "c" "d"] [] (Some small_budget) in
  n_selected (r_items r) <= 2 /\ total_len (r_items r) <= 4 /\
  map selected (r_items r) = [true; false; true].
Proof.
  pose proof (compile_context_budget 9 "q" "general" "v1" [] []
    [sample_candidate "a" "abc"; sample_candidate "b" "long"; sample_candidate "c" "d"] [] (Some small_budget)
    ltac:(discriminate) ltac:(discriminate)) as (H1 & H2 & _).
  split; [exact H1|]. split; [exact H2|]. reflexivity.
Defined.

Lemma enumerate_app {A} n (l k : list A) :
  enumerate n (l ++ k) = enumerate n l ++ enumerate (n + Z.of_nat (length l)) k.
Proof.
  revert n. induction l as [|x l IH]; intros n; cbn [enumerate app length].
  - by rewrite Z.add_0_r.
  - rewrite IH. replace (n + Z.of_nat (S (length l))) with (n + 1 + Z.of_nat (length l)) by lia. done.
Qed.

Lemma pack_items_prefix ct b l p : exists k, items (foldl (pack_one ct b) p l) = items p ++ k.
Proof.
  revert p. induction l as [|[n c] l IH]; intros p; cbn [foldl]; [exists []; by rewrite app_nil_r|].
  destruct (IH (pack_one ct b p (n, c))) as [k Hk]. rewrite Hk. unfold pack_one. cbn [items].
  eexists. by rewrite <- app_assoc.
Qed.

Lemma zip_enumerate {A B} n (l : list A) (k : list B) x y :
  (exists j, ((j, x), y) ∈ zip (enumerate n l) k) <-> (x, y) ∈ zip l k.
Proof.
  revert n k. induction l as [|a l IH]; intros n [|b k]; simpl; try set_solver.
Qed.

(** Packing leaves nothing out needlessly: a candidate is omitted as a
    duplicate exactly when an earlier item of the same identifier was
    selected, for budget exactly when it is no duplicate and the items or the
    characters selected before it leave no room, and is selected otherwise. *)
Theorem compile_context_greedy u q pu pv sp vs cs1 c cs2 ct budget :
  let r := compile_context u q pu pv sp vs (cs1 ++ c :: cs2) ct budget in
  exists its1 i its2, r_items r = its1 ++ i :: its2 /\ length its1 = length cs1 /\
    let dup := exists d k, (d, k) ∈ zip cs1 its1 /\ candidate_id d = candidate_id c /\ selected k = true in
    let full := max_items (r_budget r) <= n_selected its1 \/
                max_tokens (r_budget r) * 4 < total_len its1 + str_len (text_of ct c) in
    (omit_reason i = Some OmitReason.DUPLICATE <-> dup) /\
    (omit_reason i = Some OmitReason.BUDGET <-> ~ dup /\ full) /\
    (omit_reason i = None <-> ~ dup /\ ~ full).
Proof.
  cbv zeta. unfold compile_context. cbn [r_budget r_items].
  set (b := match budget with Some b => b | None => default_budget end).
  pose proof (pack_packed ct b cs1) as [Hi Hc Hs _ _].
  assert (Hp : pack ct b (cs1 ++ c :: cs2) = foldl (pack_one ct b)
    (pack_one ct b (pack ct b cs1) (1 + Z.of_nat (length cs1), c)) (enumerate (1 + Z.of_nat (length cs1) + 1) cs2)).
  { unfold pack. by rewrite enumerate_app, foldl_app. }
  rewrite Hp. edestruct pack_items_prefix as [k ->].
  set (p := pack ct b cs1) in *. unfold pack_one. cbn [items].
  set (om := omission b p (candidate_id c) (text_of ct c)).
  do 2 eexists. exists k. split; [by rewrite <- app_assoc|]. split.
  { apply Forall2_length in Hi. rewrite <- Hi. clear. generalize 1.
    induction cs1 as [|x l IH]; intros n; simpl; [done|]. by rewrite IH. }
  cbn [omit_reason]. specialize (Hs (candidate_id c)).
  assert (Hdup : candidate_id c ∈ seen p <->
    exists d k, (d, k) ∈ zip cs1 (items p) /\ candidate_id d = candidate_id c /\ selected k = true).
  { rewrite Hs. split.
    - intros ([j d] & i & H1 & H2 & H3). exists d, i. split; [|done].
      by apply (zip_enumerate 1); exists j.
    - intros (d & i & (j & H1)%(zip_enumerate 1) & H2 & H3). by exists (j, d), i. }
  rewrite <- Hdup, <- Hc. unfold om, omission, char_budget.
  case_bool_decide; [naive_solver|].
  destruct (Z.leb_spec (max_items b) (n_selected (items p))); [naive_solver|].
  destruct (Z.ltb_spec (max_tokens b * 4) (used_chars p + str_len (text_of ct c))); [naive_solver|].
  split; [naive_solver|]. split; [|naive_solver lia].
  split; [done|]. intros [_ [?|?]]; lia.
Qed.

(** What the context digest covers of an item. *)
Definition digest_view (i : EvidenceItem) :=
  (rank i, item_type i, item_id i, item_revision i, selected i, omit_reason i).

Lemma item_json_wf i : wf (item_json i).
Proof.
  apply wf_obj. split.
  - apply (bool_decide_unpack _). by vm_compute.
  - repeat constructor. simpl. by destruct (omit_reason i).
Qed.

Lemma item_json_inj i j : is_uuid (item_id i) -> is_uuid (item_revision i) ->
  is_uuid (item_id j) -> is_uuid (item_revision j) ->
  canon (item_json i) = canon (item_json j) -> digest_view i = digest_view j.
Proof.
  intros Hi1 Hi2 Hj1 Hj2 H. unfold digest_view.
  assert (Hc : forall i, canon (item_json i) =
    JObj [("canonical_id", JStr (str_uuid (item_id i))); ("canonical_type", JStr (item_type i));
          ("omit_reason", match omit_reason i with Some r => JStr (value r) | None => JNull end);
          ("rank", JInt (rank i)); ("revision_id", JStr (str_uuid (item_revision i)));
          ("selected", JBool (selected i))]).
  { intros k. unfold item_json. cbn [canon map fst snd]. destruct (omit_reason k); reflexivity. }
  rewrite !Hc in H. clear Hc.
  pose proof (str_uuid_inj _ _ Hi1 Hj1) as U1. pose proof (str_uuid_inj _ _ Hi2 Hj2) as U2.
  set (a := str_uuid (item_id i)) in *. set (b := str_uuid (item_id j)) in *.
  set (a' := str_uuid (item_revision i)) in *. set (b' := str_uuid (item_revision j)) in *.
  clearbody a b a' b'. injection H as H1 H2 H3 H4 H5 H6. apply U1 in H1. apply U2 in H5.
  assert (omit_reason i = omit_reason j).
  { destruct (omit_reason i), (omit_reason j); try discriminate; [|done].
    injection H3 as H3. f_equal. by apply value_inj. }
  congruence.
Qed.

(** The context hash binds the receipt: unless the two digested texts
    are a SHA-256 collision, equal hashes mean the same items in rank,
    canonical identity, revision, selection and omission reason. *)
Theorem context_hash_binds its its' :
  Forall (fun i => is_uuid (item_id i) /\ is_uuid (item_revision i)) (its ++ its') ->
  no_collision (utf8 (dumps (JList (map item_json its)))) (utf8 (dumps (JList (map item_json its')))) ->
  context_hash its = context_hash its' -> map digest_view its = map digest_view its'.
Proof.
  intros [Hu Hu']%Forall_app Hc H%(sha256_str_inj _ _ Hc).
  apply dumps_inj in H; [|apply wf_list, Forall_map, Forall_true; intros; apply item_json_wf..].
  cbn [canon] in H. injection H as H. rewrite !map_map in H. clear Hc. revert its' Hu' H.
  induction Hu as [|i its [Hi1 Hi2] Hu IH]; intros [|j its'] Hu' H; try discriminate H; [done|].
  cbn [map] in *. apply cons_eq_inj in H as [H1 H2]. inversion Hu' as [|? ? [Hj1 Hj2] Hu2]; subst. f_equal.
  - by apply item_json_inj.
  - by apply IH.
Qed.

Lemma context_hash_binds_witness :
  map digest_view (r_items (compile_context 9 "q" "general" "v1" [] []
      [sample_candidate "a" "abc"] [] (Some small_budget))) =
  map digest_view (r_items (compile_context 8 "other" "general" "v1" [] []
      [sample_candidate "a" "abc"] [] None)).
Proof.
  apply (context_hash_binds (r_items (compile_context 9 "q" "general" "v1" [] []
      [sample_candidate "a" "abc"] [] (Some small_budget)))
    (r_items (compile_context 8 "other" "general" "v1" [] [] [sample_candidate "a" "abc"] [] None))).
  - repeat constructor; vm_compute; discriminate.
  - intros _. vm_compute. reflexivity.
  - vm_compute. reflexivity.
Defined.
