(* ===== verification/McpIds.v ===== *)
(** * Public identifiers of the MCP surface (packages/domain-python/src/memdot_domain/mcp.py)

    Encoding and decoding of the opaque identifiers search and fetch hand
    out, the mapping of completeness and capture labels, and citation URLs. *)

From Stdlib Require Import Ascii ZArith Lia.
From stdpp Require Import list strings.
From S2P Require Import Prelude PyStr Json Uuid Enums.
Open Scope Z_scope.

Definition MCP_ID_PREFIX : string := "memdot".

Definition encode_mcp_public_id (canonical_type : string) (canonical_id : uuid)
    (revision_id : option uuid) : string :=
  join ":" ([MCP_ID_PREFIX; canonical_type; str_uuid canonical_id] ++
            match revision_id with Some r => [str_uuid r] | None => [] end).

Definition invalid_id : exn := ValueError "invalid mcp public id".

Definition decode_mcp_public_id (mcp_id : string) : res (string * uuid * option uuid) :=
  match split ":" mcp_id with
  | prefix :: ty :: id :: rest =>
      _ ← raise_if (negb (String.eqb prefix MCP_ID_PREFIX)) invalid_id;
      canonical_id ← of_option invalid_id (parse_uuid id);
      revision_id ← match rest with
        | r :: _ => u ← of_option invalid_id (parse_uuid r); mret (Some u)
        | [] => mret None
        end;
      mret (ty, canonical_id, revision_id)
  | _ => Raise invalid_id
  end.

Definition map_mcp_completeness_to_conversation (v : string) : ConversationCompleteness.t :=
  let normalized := lower (strip v) in
  if String.eqb normalized (value McpInteractionCompleteness.COMPLETE_IMPORT)
  then ConversationCompleteness.COMPLETE
  else if String.eqb normalized (value McpInteractionCompleteness.PARTIAL_THREAD)
  then ConversationCompleteness.PARTIAL
  else if String.eqb normalized (value McpInteractionCompleteness.SINGLE_TURN)
  then ConversationCompleteness.PARTIAL
  else match of_value (A := ConversationCompleteness.t) normalized with
       | Some c => c
       | None => ConversationCompleteness.UNKNOWN
       end.

Definition capture_origin_for_client (source_client : string) : CaptureOrigin.t :=
  let lowered := lower (strip source_client) in
  if existsb (String.eqb lowered) ["native"; "memdot"; "first_party"] then CaptureOrigin.NATIVE
  else if existsb (String.eqb lowered) ["import"; "bulk_import"] then CaptureOrigin.IMPORT
  else CaptureOrigin.EXTERNAL_MCP.

Definition citation_url (public_base_url canonical_type : string) (canonical_id : uuid) : string :=
  rstrip_slash public_base_url +:+ "/library/" +:+ canonical_type +:+ "/" +:+ str_uuid canonical_id.

(** ** Round trip *)

Lemma split_encoded ty id rev : has_char ":" ty = false ->
  split ":" (encode_mcp_public_id ty id rev) =
  [MCP_ID_PREFIX; ty; str_uuid id] ++ match rev with Some r => [str_uuid r] | None => [] end.
Proof.
  intros Hty. unfold encode_mcp_public_id. apply split_join; [done|].
  repeat (apply Forall_cons; split; [first [exact Hty | apply str_uuid_no_colon | reflexivity]|]).
  destruct rev; repeat constructor. apply str_uuid_no_colon.
Qed.

Lemma decode_encode ty id rev : has_char ":" ty = false -> is_uuid id ->
  (forall r, rev = Some r -> is_uuid r) ->
  decode_mcp_public_id (encode_mcp_public_id ty id rev) = Ok (ty, id, rev).
Proof.
  intros Hty Hid Hrev. unfold decode_mcp_public_id. rewrite split_encoded by done.
  pose proof (parse_str_uuid id Hid) as Hp.
  assert (Hr : match rev with Some r => parse_uuid (str_uuid r) = Some r | None => True end)
    by (destruct rev; [by apply parse_str_uuid, Hrev|done]).
  revert Hp Hr. generalize (str_uuid id). intros s Hp Hr. cbn [app].
  destruct (parse_uuid s) as [u|]; [|discriminate]. injection Hp as ->.
  destruct rev as [r|]; [|reflexivity]. revert Hr. generalize (str_uuid r). intros t Ht.
  destruct (parse_uuid t) as [v|]; [|discriminate]. by injection Ht as ->.
Qed.

(** ** Properties *)

(** Decoding a public identifier gives back the type, identifier and
    revision it was made from, so identifiers of different objects differ. *)
Theorem mcp_public_id_roundtrip ty id rev :
  has_char ":" ty = false -> is_uuid id -> (forall r, rev = Some r -> is_uuid r) ->
  decode_mcp_public_id (encode_mcp_public_id ty id rev) = Ok (ty, id, rev) /\
  (forall ty' id' rev', has_char ":" ty' = false -> is_uuid id' ->
     (forall r, rev' = Some r -> is_uuid r) ->
     encode_mcp_public_id ty id rev = encode_mcp_public_id ty' id' rev' ->
     ty = ty' /\ id = id' /\ rev = rev').
Proof.
  intros Hty Hid Hrev. split; [by apply decode_encode|].
  intros ty' id' rev' Hty' Hid' Hrev' H. apply (f_equal decode_mcp_public_id) in H.
  rewrite !decode_encode in H by done. naive_solver.
Qed.

Lemma mcp_public_id_roundtrip_witness :
  decode_mcp_public_id (encode_mcp_public_id "memory_item" 5 (Some 6)) = Ok ("memory_item", 5, Some 6).
Proof.
  apply (mcp_public_id_roundtrip "memory_item" 5 (Some 6)); [reflexivity|by vm_compute|].
  intros r [= <-]. by vm_compute.
Defined.

(** Decoding fails only with the one error of an invalid identifier, and
    what it accepts names an object: the prefix, a type and identifiers that
    are UUIDs. *)
Theorem decode_mcp_public_id_sound s :
  match decode_mcp_public_id s with
  | Ok (ty, id, rev) => is_uuid id /\ (forall r, rev = Some r -> is_uuid r) /\
      exists id_text rest, split ":" s = MCP_ID_PREFIX :: ty :: id_text :: rest /\
        parse_uuid id_text = Some id
  | Raise e => e = ValueError "invalid mcp public id"
  end.
Proof.
  pose proof parse_uuid_bound as Hp.
  unfold decode_mcp_public_id.
  destruct (split ":" s) as [|p [|ty [|id rest]]] eqn:E; try done.
  destruct (String.eqb_spec p MCP_ID_PREFIX) as [->|]; [|done]. cbn.
  destruct (parse_uuid id) as [u|] eqn:Eu; [|done]. cbn.
  destruct rest as [|r rest]; cbn.
  - split_and!; [by eapply Hp|done|]. by exists id, [].
  - destruct (parse_uuid r) as [v|] eqn:Ev; [|done]. cbn.
    split_and!; [by eapply Hp| |by exists id, (r :: rest)].
    intros ? [= <-]. by eapply Hp.
Qed.
