(* ===== verification/ObjectKeys.v ===== *)
(** * Object keys (packages/domain-python/src/memdot_domain/object_keys.py) and the
    in-memory object store that uses them
    (packages/provider-adapters/src/memdot_provider_adapters/memory_object_storage.py)

    Keys are account- and space-bound paths.  The store is a dictionary from
    keys to bytes, content type and recorded digest; a method returns the new
    dictionary with its outcome, because an exception leaves the dictionary as
    it was mutated so far. *)

From Stdlib Require Import Ascii ZArith Lia.
From stdpp Require Import list strings gmap.
From S2P Require Import Prelude PyStr Json Digest Uuid Enums.
Open Scope Z_scope.

Record ObjectKeyParts := {
  account_id : uuid;
  space_id : uuid;
  lifecycle : ObjectLifecycleClass.t;
  artifact_id : uuid;
  filename : string;
}.

(** [[a-zA-Z0-9._-]]. *)
Definition safe_char (c : ascii) : bool :=
  let n := code c in
  ((97 <=? n) && (n <=? 122) || (65 <=? n) && (n <=? 90) || (48 <=? n) && (n <=? 57))%N
  || Ascii.eqb c "." || Ascii.eqb c "_" || Ascii.eqb c "-".

(** [re.sub(r"[^a-zA-Z0-9._-]+", "_", s)]; [run] tells whether the run of
    unsafe characters already has its underscore. *)
Fixpoint sub_unsafe (run : bool) (s : string) : string :=
  match s with
  | "" => ""
  | String c s' =>
      if safe_char c then String c (sub_unsafe false s')
      else if run then sub_unsafe true s'
      else String "_" (sub_unsafe true s')
  end.

Definition sanitize_filename (filename : string) : string :=
  let cleaned := take_str 128 (sub_unsafe false (strip filename)) in
  if truthy cleaned then cleaned else "object".

Definition build_object_key (parts : ObjectKeyParts) : res string :=
  _ ← raise_if (contains ".." (filename parts) || startswith "/" (filename parts))
        (ValueError "invalid object filename");
  let safe_name := sanitize_filename (filename parts) in
  mret ("accounts/" +:+ str_uuid (account_id parts) +:+ "/spaces/" +:+ str_uuid (space_id parts) +:+
        "/" +:+ value (lifecycle parts) +:+ "/" +:+ str_uuid (artifact_id parts) +:+ "/" +:+ safe_name).

Definition assert_key_account_binding (object_key : string) (account : uuid) : res unit :=
  _ ← raise_if (negb (startswith ("accounts/" +:+ str_uuid account +:+ "/") object_key))
        (ValueError "object_key_account_mismatch");
  raise_if (contains ".." object_key) (ValueError "object_key_traversal_denied").

Definition quarantine_key (account upload : uuid) (filename : string) : res string :=
  build_object_key {| account_id := account; space_id := upload;
    lifecycle := ObjectLifecycleClass.QUARANTINE; artifact_id := upload; filename := filename |}.

(** ** Dots *)

Lemma contains_cons p c s : contains p s = true -> contains p (String c s) = true.
Proof. rewrite !contains_spec. intros (a & b & ->). by exists (String c a), b. Qed.

Lemma contains_dots_cons c s : contains ".." (String c s) = true ->
  (c = "."%char /\ head s = Some "."%char) \/ contains ".." s = true.
Proof.
  cbn [contains]. rewrite orb_true_iff. intros [H|H]; [left|by right].
  destruct s as [|d s]; cbn [startswith] in H; split_bool; [discriminate|].
  apply Ascii.eqb_eq in H, H0. by subst.
Qed.

Lemma contains_dots_here s : head s = Some "."%char -> contains ".." (String "." s) = true.
Proof. destruct s as [|c s]; [done|]. cbn. by intros [= ->]. Qed.

Lemma sub_unsafe_head s : head (sub_unsafe false s) = Some "."%char -> head s = Some "."%char.
Proof. destruct s as [|c s]; cbn; [done|]. by destruct (safe_char c). Qed.

(** Replacing unsafe characters makes no new pair of dots. *)
Lemma sub_unsafe_dots run s : contains ".." (sub_unsafe run s) = true -> contains ".." s = true.
Proof.
  revert run. induction s as [|c s IH]; intros run; [done|]. cbn [sub_unsafe].
  destruct (safe_char c) eqn:E; [|destruct run].
  - intros [[-> H]|H]%contains_dots_cons.
    + by apply contains_dots_here, sub_unsafe_head.
    + by eapply contains_cons, IH.
  - intros H. by eapply contains_cons, IH.
  - intros [[H _]|H]%contains_dots_cons; [discriminate H|]. by eapply contains_cons, IH.
Qed.

Lemma contains_sub p a s b : contains p s = true -> contains p (a +:+ s +:+ b) = true.
Proof.
  rewrite !contains_spec. intros (x & y & ->). exists (a +:+ x), (y +:+ b). by rewrite !append_assoc.
Qed.

Lemma lstrip_suffix p s : exists a, s = a +:+ lstrip_by p s.
Proof.
  induction s as [|c s [a IH]]; simpl; [by exists ""|].
  destruct (p c); [|by exists ""]. exists (String c a). simpl. congruence.
Qed.

Lemma rstrip_prefix p s : exists b, s = rstrip_by p s +:+ b.
Proof.
  induction s as [|c s [b IH]]; simpl; [by exists ""|].
  destruct (rstrip_by p s) as [|d r] eqn:E.
  - destruct (p c); [by exists (String c s)|by exists s].
  - exists b. cbn [String.append] in IH |- *. by rewrite IH at 1.
Qed.

Lemma strip_infix s : exists a b, s = a +:+ strip s +:+ b.
Proof.
  destruct (lstrip_suffix is_space s) as [a Ha].
  destruct (rstrip_prefix is_space (lstrip_by is_space s)) as [b Hb].
  exists a, b. unfold strip. by rewrite <- Hb.
Qed.

Lemma sanitize_dots f : contains ".." (sanitize_filename f) = true -> contains ".." f = true.
Proof.
  unfold sanitize_filename. cbv zeta. destruct (truthy _) eqn:E; [|done]. intros H.
  destruct (strip_infix f) as (a & b & Hf). rewrite Hf. apply contains_sub, (sub_unsafe_dots false).
  rewrite <- (take_drop_str 128 (sub_unsafe false (strip f))). by apply (contains_sub _ "").
Qed.

Lemma sub_unsafe_safe run s : str_all safe_char (sub_unsafe run s) = true.
Proof.
  revert run. induction s as [|c s IH]; intros run; cbn [sub_unsafe]; [done|].
  destruct (safe_char c) eqn:E; [|destruct run]; cbn [str_all]; rewrite ?E, ?IH; done.
Qed.

Lemma str_all_take p n s : str_all p s = true -> str_all p (take_str n s) = true.
Proof. revert s. induction n; intros [|c s]; simpl; try done. rewrite !andb_true_iff. naive_solver. Qed.

Lemma sanitize_safe f : str_all safe_char (sanitize_filename f) = true /\
  (String.length (sanitize_filename f) <= 128)%nat /\ sanitize_filename f <> "".
Proof.
  unfold sanitize_filename. cbv zeta. destruct (truthy _) eqn:E.
  - split_and!; [apply str_all_take, sub_unsafe_safe|apply length_take_str|by apply truthy_true].
  - split_and!; [done|cbn; lia|done].
Qed.

Lemma sanitize_no_slash f : has_char "/" (sanitize_filename f) = false.
Proof. apply (str_all_has_char safe_char); [done|apply sanitize_safe]. Qed.

Lemma contains_dots_app a b : has_char "." a = false -> contains ".." (a +:+ b) = contains ".." b.
Proof.
  induction a as [|c a IH]; cbn [has_char]; [done|]. intros [Hc Ha]%orb_false_elim.
  change (String c a +:+ b) with (String c (a +:+ b)). rewrite <- (IH Ha). cbn [contains startswith].
  by rewrite Hc.
Qed.

(** ** The components of a key *)

Definition key_parts (p : ObjectKeyParts) : list string :=
  ["accounts"; str_uuid (account_id p); "spaces"; str_uuid (space_id p); value (lifecycle p);
   str_uuid (artifact_id p); sanitize_filename (filename p)].

Lemma build_key_join p k : build_object_key p = Ok k ->
  k = join "/" (key_parts p) /\ contains ".." (filename p) = false.
Proof.
  unfold build_object_key. destruct (contains ".." (filename p)); [done|].
  destruct (startswith "/" (filename p)); [done|]. cbn. intros [= <-]. split; [|done].
  unfold key_parts, join. reflexivity.
Qed.

Lemma value_lifecycle_chars l :
  has_char "/" (value (l : ObjectLifecycleClass.t)) = false /\ has_char "." (value l) = false.
Proof. by destruct l. Qed.

Lemma key_parts_no_slash p : Forall (fun s => has_char "/" s = false) (key_parts p).
Proof.
  repeat constructor; try apply str_uuid_no_slash; [|apply sanitize_no_slash].
  apply value_lifecycle_chars.
Qed.

Lemma split_key p k : build_object_key p = Ok k -> split "/" k = key_parts p.
Proof. intros [-> _]%build_key_join. apply split_join; [done|apply key_parts_no_slash]. Qed.

Lemma built_key_no_dots p k : build_object_key p = Ok k -> contains ".." k = false.
Proof.
  intros [-> Hf]%build_key_join. unfold key_parts, join.
  repeat (rewrite contains_dots_app;
    [|first [reflexivity | apply str_uuid_no_dot | apply value_lifecycle_chars]]).
  destruct (contains ".." (sanitize_filename (filename p))) eqn:E; [|done].
  apply sanitize_dots in E. congruence.
Qed.

(** ** Objects in memory *)

Record PresignedUpload := {
  up_url : string; up_object_key : string; up_expires_at : Z; up_headers : list (string * string);
}.

Record PresignedDownload := { down_url : string; down_expires_at : Z }.

Record StoredObjectMeta := {
  meta_object_key : string; meta_byte_count : Z; meta_sha256 : string; meta_content_type : option string;
}.

Definition bytes : Type := list Z.

(** [dict[str, tuple[bytes, str, dict[str, str]]]]. *)
Notation objects := (gmap string (bytes * string * list (string * string))) (only parsing).

(** [self._objects[key]]. *)
Definition get_object (s : objects) (key : string) : res (bytes * string * list (string * string)) :=
  of_option KeyError (s !! key).

Definition put_bytes (s : objects) (object_key : string) (data : bytes) (content_type : string)
    (account : uuid) (sha256 : string) : objects * res unit :=
  match assert_key_account_binding object_key account with
  | Raise e => (s, Raise e)
  | Ok _ => (<[object_key := (data, content_type, [("sha256", sha256)])]> s, Ok tt)
  end.

(** The adapter of the provider package hashes what it is not told. *)
Definition adapter_put_bytes (s : objects) (object_key : string) (data : bytes) (content_type : string)
    (account : uuid) (sha256 : option string) : objects * res unit :=
  let digest := match sha256 with
    | Some d => if truthy d then d else sha256_hex data
    | None => sha256_hex data
    end in
  put_bytes s object_key data content_type account digest.

Definition read_object_bytes (s : objects) (object_key : string) (account : uuid) : res bytes :=
  _ ← assert_key_account_binding object_key account;
  o ← get_object s object_key;
  mret (o.1.1).

Definition head_object (s : objects) (object_key : string) (account : uuid) : res StoredObjectMeta :=
  _ ← assert_key_account_binding object_key account;
  o ← get_object s object_key;
  mret {| meta_object_key := object_key; meta_byte_count := Z.of_nat (length o.1.1);
          meta_sha256 := match dict_lookup "sha256" o.2 with
                         | Some d => d | None => sha256_hex o.1.1 end;
          meta_content_type := Some o.1.2 |}.

Definition verify_upload_completion (s : objects) (object_key : string) (account : uuid)
    (expected_sha256 : string) (expected_byte_count : Z) : res StoredObjectMeta :=
  meta ← head_object s object_key account;
  _ ← raise_if (negb (meta_byte_count meta =? expected_byte_count) ||
                negb (String.eqb (lower (meta_sha256 meta)) (lower expected_sha256)))
        (ValueError "upload_verification_failed");
  mret meta.

Definition promote_from_quarantine (s : objects) (quarantine_key : string)
    (target_parts : ObjectKeyParts) (account : uuid) : objects * res StoredObjectMeta :=
  match get_object s quarantine_key with
  | Raise e => (s, Raise e)
  | Ok o =>
      match build_object_key target_parts with
      | Raise e => (s, Raise e)
      | Ok target_key =>
          let s' := <[target_key := o]> s in (s', head_object s' target_key account)
      end
  end.

(** [timedelta(seconds=n)], in microseconds. *)
Definition seconds (n : Z) : Z := n * 1000000.

Definition create_presigned_upload (now : Z) (parts : ObjectKeyParts) (content_type : string)
    (expires_seconds : Z) : res PresignedUpload :=
  key ← build_object_key parts;
  mret {| up_url := "memory://upload/" +:+ key; up_object_key := key;
          up_expires_at := now + seconds expires_seconds; up_headers := [("Content-Type", content_type)] |}.

Definition create_presigned_download (now : Z) (object_key : string) (account : uuid)
    (expires_seconds : Z) : res PresignedDownload :=
  _ ← assert_key_account_binding object_key account;
  mret {| down_url := "memory://download/" +:+ object_key; down_expires_at := now + seconds expires_seconds |}.

(** ** Binding *)

Definition bound (k : string) (a : uuid) : bool := startswith ("accounts/" +:+ str_uuid a +:+ "/") k.

Lemma assert_binding_Ok k a u :
  assert_key_account_binding k a = Ok u <-> bound k a = true /\ contains ".." k = false.
Proof.
  unfold assert_key_account_binding, bound. destruct (startswith _ k); simpl.
  - destruct (contains ".." k), u; simpl; naive_solver.
  - naive_solver.
Qed.

Lemma bound_unique k a b : is_uuid a -> is_uuid b -> bound k a = true -> bound k b = true -> a = b.
Proof.
  unfold bound. intros Ha Hb. rewrite !startswith_spec. intros (s & ->) (t & H).
  rewrite !append_assoc in H. apply append_inj_l in H.
  apply append_inj_len in H as [H _]; [|by rewrite !length_str_uuid].
  by apply str_uuid_inj.
Qed.

Lemma built_key_bound p k : build_object_key p = Ok k -> bound k (account_id p) = true.
Proof.
  intros [-> _]%build_key_join. unfold bound. rewrite startswith_spec.
  unfold key_parts, join. eexists. rewrite !append_assoc. reflexivity.
Qed.

(** ** Properties *)

(** C11: a key built for an account is accepted for that account and for no
    other, holds no parent-directory step and ends in a file name of at most 128
    safe characters; two objects share a key only when account, space,
    lifecycle class, artifact and sanitized file name agree; and building
    fails exactly on a file name that climbs or is absolute. *)
Theorem build_object_key_safe p :
  match build_object_key p with
  | Ok k =>
      assert_key_account_binding k (account_id p) = Ok tt /\
      (forall b, is_uuid (account_id p) -> is_uuid b -> b <> account_id p ->
         assert_key_account_binding k b = Raise (ValueError "object_key_account_mismatch")) /\
      contains ".." k = false /\
      (str_all safe_char (sanitize_filename (filename p)) = true /\
       (String.length (sanitize_filename (filename p)) <= 128)%nat) /\
      (forall q, build_object_key q = Ok k -> key_parts p = key_parts q)
  | Raise e => e = ValueError "invalid object filename" /\
      (contains ".." (filename p) = true \/ startswith "/" (filename p) = true)
  end.
Proof.
  destruct (build_object_key p) as [k|e] eqn:E.
  - split_and!.
    + apply assert_binding_Ok. split; [by apply built_key_bound|by eapply built_key_no_dots].
    + intros b Ha Hb Hne. unfold assert_key_account_binding.
      destruct (startswith _ k) eqn:Es; [|done]. exfalso. apply Hne.
      apply (bound_unique k); [done..|]. by apply built_key_bound.
    + by eapply built_key_no_dots.
    + apply sanitize_safe.
    + apply sanitize_safe.
    + intros q Hq. by rewrite <- (split_key p k E), (split_key q k Hq).
  - unfold build_object_key in E.
    destruct (contains ".." (filename p)), (startswith "/" (filename p)) eqn:E2;
      cbn [orb raise_if mbind res_bind] in E; simplify_eq; auto.
Qed.

(** Accounts are isolated in the store: writing under one account leaves
    every object of another as it was, and reading under an account returns
    only bytes stored under its own keys. *)
Theorem object_store_isolated s key data ct a sha s' r :
  is_uuid a -> put_bytes s key data ct a sha = (s', r) ->
  (forall k b, is_uuid b -> b <> a -> bound k b = true -> s' !! k = s !! k) /\
  (forall k d, read_object_bytes s' k a = Ok d -> bound k a = true /\
     exists o, s' !! k = Some o /\ o.1.1 = d) /\
  (r = Ok tt -> read_object_bytes s' key a = Ok data).
Proof.
  intros Ha Hput. unfold put_bytes in Hput. split_and!.
  - intros k b Hb Hne Hk. destruct (assert_key_account_binding key a) as [u|e] eqn:E;
      injection Hput as <- <-; [|done].
    apply assert_binding_Ok in E as [Hkey _].
    rewrite lookup_insert_ne; [done|]. intros ->. apply Hne. by eapply bound_unique.
  - intros k d. unfold read_object_bytes. intros (u & [Hk _]%assert_binding_Ok & (o & Ho & [= <-])%bind_Ok)%bind_Ok.
    split; [done|]. apply of_option_Ok in Ho. eauto.
  - intros ->. destruct (assert_key_account_binding key a) as [u|e] eqn:E; simplify_eq.
    unfold read_object_bytes, get_object. rewrite E, lookup_insert_eq. done.
Qed.

Lemma object_store_isolated_witness :
  read_object_bytes (fst (put_bytes ∅ "accounts/00000000-0000-0000-0000-000000000005/x" [1] "text/plain" 5 "d"))
    "accounts/00000000-0000-0000-0000-000000000005/x" 5 = Ok [1].
Proof.
  destruct (put_bytes ∅ "accounts/00000000-0000-0000-0000-000000000005/x" [1] "text/plain" 5 "d") as [s r] eqn:E.
  assert (Hr : r = Ok tt) by (apply (f_equal snd) in E; simpl in E; rewrite <- E; vm_compute; reflexivity).
  apply (object_store_isolated ∅ "accounts/00000000-0000-0000-0000-000000000005/x" [1] "text/plain" 5 "d" s r);
    [by vm_compute|exact E|exact Hr].
Defined.

Definition alien_parts (a : uuid) : ObjectKeyParts :=
  {| account_id := a; space_id := 1; lifecycle := ObjectLifecycleClass.ORIGINAL; artifact_id := 2; filename := "f" |}.

(** The in-memory stores do not check whose quarantine object they
    promote: account 6 obtains the bytes account 5 uploaded. *)
Theorem promote_crosses_accounts :
  exists key data s', bound key 5 = true /\ bound key 6 = false /\
    let s := fst (put_bytes ∅ key data "text/plain" 5 "d") in
    s !! key <> None /\ fst (promote_from_quarantine s key (alien_parts 6) 6) = s' /\
    exists k, build_object_key (alien_parts 6) = Ok k /\ read_object_bytes s' k 6 = Ok data.
Proof.
  exists "accounts/00000000-0000-0000-0000-000000000005/x", [1; 2]. eexists.
  split; [vm_compute; reflexivity|]. split; [vm_compute; reflexivity|]. cbv zeta.
  split; [vm_compute; discriminate|]. split; [reflexivity|].
  eexists. split; [vm_compute; reflexivity|]. vm_compute. reflexivity.
Qed.
