(* ===== verification/Ledger.v ===== *)
(** * Rows of the ledger (services/core/src/memdot_core/db/models/)

    A module per ORM class: [t] is the class's row (a nullable column is an
    option, a [JSONB] object a dictionary, a timestamp its microseconds), and
    [clash] says which primary key or unique constraint two rows of the table
    violate together (a NULL never clashes).  A [set_...] definition is the
    assignment of one attribute.  [Db] holds a list of rows per table; the
    class [Table] is what the store needs to know of a table.  Foreign keys,
    CHECK constraints and triggers are not modelled; row-level security is in
    [RowPolicies]. *)

From Stdlib Require Import ZArith.
From stdpp Require Import list strings.
From S2P Require Import Prelude PyStr Json Uuid.
Open Scope Z_scope.

Definition same {A} `{EqDecision A} (a b : A) : bool := bool_decide (a = b).

(** Two nullable values that are equal and not NULL. *)
Definition opt_same {A} `{EqDecision A} (a b : option A) : bool :=
  match a, b with Some a, Some b => bool_decide (a = b) | _, _ => false end.

Module Account.
  (** Table [account]. *)
Record t := {
  id : uuid;
  account_id : uuid;
  status : string;
  display_name : option string;
  timezone : option string;
  created_at : Z;
  updated_at : Z;
}.

Definition clash (a b : t) : option string :=
  if same (id a) (id b) then Some "account_pkey"
  else if same (account_id a) (account_id b) && same (id a) (id b) then Some "uq_account_1"
  else None.

Definition set_status (v : string) (r : t) : t :=
  {| id := id r; account_id := account_id r; status := v; display_name := display_name r; timezone := timezone r; created_at := created_at r; updated_at := updated_at r |}.

Definition set_updated_at (v : Z) (r : t) : t :=
  {| id := id r; account_id := account_id r; status := status r; display_name := display_name r; timezone := timezone r; created_at := created_at r; updated_at := v |}.

#[global] Instance t_eq_dec : EqDecision t.
Proof. solve_decision. Defined.

End Account.

Module User.
  (** Table [user]. *)
Record t := {
  id : uuid;
  account_id : uuid;
  email : option string;
  display_name : option string;
  created_at : Z;
}.

Definition clash (a b : t) : option string :=
  if same (id a) (id b) then Some "user_pkey"
  else if same (account_id a) (account_id b) && same (id a) (id b) then Some "uq_user_1"
  else None.

#[global] Instance t_eq_dec : EqDecision t.
Proof. solve_decision. Defined.

End User.

Module AccountMember.
  (** Table [account_member]. *)
Record t := {
  id : uuid;
  account_id : uuid;
  user_id : uuid;
  role : string;
  created_at : Z;
}.

Definition clash (a b : t) : option string :=
  if same (id a) (id b) then Some "account_member_pkey"
  else if same (account_id a) (account_id b) && same (id a) (id b) then Some "uq_account_member_1"
  else if same (account_id a) (account_id b) && same (user_id a) (user_id b) then Some "uq_account_member_2"
  else None.

#[global] Instance t_eq_dec : EqDecision t.
Proof. solve_decision. Defined.

End AccountMember.

Module Space.
  (** Table [space]. *)
Record t := {
  id : uuid;
  account_id : uuid;
  name : string;
  visibility : string;
  created_at : Z;
}.

Definition clash (a b : t) : option string :=
  if same (id a) (id b) then Some "space_pkey"
  else if same (account_id a) (account_id b) && same (id a) (id b) then Some "uq_space_1"
  else None.

#[global] Instance t_eq_dec : EqDecision t.
Proof. solve_decision. Defined.

End Space.

Module SpaceMember.
  (** Table [space_member]. *)
Record t := {
  id : uuid;
  account_id : uuid;
  space_id : uuid;
  user_id : uuid;
  role : string;
  created_at : Z;
}.

Definition clash (a b : t) : option string :=
  if same (id a) (id b) then Some "space_member_pkey"
  else if same (account_id a) (account_id b) && same (space_id a) (space_id b) && same (user_id a) (user_id b) then Some "uq_space_member_1"
  else if same (account_id a) (account_id b) && same (id a) (id b) then Some "uq_space_member_2"
  else None.

#[global] Instance t_eq_dec : EqDecision t.
Proof. solve_decision. Defined.

End SpaceMember.

Module HostedAdultAttestation.
  (** Table [hosted_adult_attestation]. *)
Record t := {
  id : uuid;
  account_id : uuid;
  user_id : uuid;
  confirmed : bool;
  attested_at : Z;
}.

Definition clash (a b : t) : option string :=
  if same (id a) (id b) then Some "hosted_adult_attestation_pkey"
  else if same (account_id a) (account_id b) && same (user_id a) (user_id b) then Some "uq_hosted_adult_attestation_1"
  else if same (account_id a) (account_id b) && same (id a) (id b) then Some "uq_hosted_adult_attestation_2"
  else None.

#[global] Instance t_eq_dec : EqDecision t.
Proof. solve_decision. Defined.

End HostedAdultAttestation.

Module ExternalIdentity.
  (** Table [external_identity]. *)
Record t := {
  id : uuid;
  account_id : uuid;
  user_id : uuid;
  issuer : string;
  subject : string;
  provider : option string;
  created_at : Z;
}.

Definition clash (a b : t) : option string :=
  if same (id a) (id b) then Some "external_identity_pkey"
  else if same (issuer a) (issuer b) && same (subject a) (subject b) then Some "uq_external_identity_1"
  else if same (account_id a) (account_id b) && same (id a) (id b) then Some "uq_external_identity_2"
  else None.

#[global] Instance t_eq_dec : EqDecision t.
Proof. solve_decision. Defined.

End ExternalIdentity.

Module Actor.
  (** Table [actor]. *)
Record t := {
  id : uuid;
  account_id : uuid;
  kind : string;
  reference_id : option uuid;
  revoked_at : option Z;
  created_at : Z;
}.

Definition clash (a b : t) : option string :=
  if same (id a) (id b) then Some "actor_pkey"
  else if same (account_id a) (account_id b) && same (id a) (id b) then Some "uq_actor_1"
  else None.

Definition set_revoked_at (v : option Z) (r : t) : t :=
  {| id := id r; account_id := account_id r; kind := kind r; reference_id := reference_id r; revoked_at := v; created_at := created_at r |}.

#[global] Instance t_eq_dec : EqDecision t.
Proof. solve_decision. Defined.

End Actor.

Module BrowserSession.
  (** Table [browser_session]. *)
Record t := {
  id : uuid;
  account_id : uuid;
  user_id : uuid;
  actor_id : uuid;
  secret_hash : string;
  csrf_token_hash : string;
  expires_at : Z;
  idle_expires_at : Z;
  last_auth_at : Z;
  rotated_at : option Z;
  revoked_at : option Z;
  created_at : Z;
}.

Definition clash (a b : t) : option string :=
  if same (id a) (id b) then Some "browser_session_pkey"
  else if same (account_id a) (account_id b) && same (id a) (id b) then Some "uq_browser_session_1"
  else None.

Definition set_revoked_at (v : option Z) (r : t) : t :=
  {| id := id r; account_id := account_id r; user_id := user_id r; actor_id := actor_id r; secret_hash := secret_hash r; csrf_token_hash := csrf_token_hash r; expires_at := expires_at r; idle_expires_at := idle_expires_at r; last_auth_at := last_auth_at r; rotated_at := rotated_at r; revoked_at := v; created_at := created_at r |}.

Definition set_idle_expires_at (v : Z) (r : t) : t :=
  {| id := id r; account_id := account_id r; user_id := user_id r; actor_id := actor_id r; secret_hash := secret_hash r; csrf_token_hash := csrf_token_hash r; expires_at := expires_at r; idle_expires_at := v; last_auth_at := last_auth_at r; rotated_at := rotated_at r; revoked_at := revoked_at r; created_at := created_at r |}.

Definition set_rotated_at (v : option Z) (r : t) : t :=
  {| id := id r; account_id := account_id r; user_id := user_id r; actor_id := actor_id r; secret_hash := secret_hash r; csrf_token_hash := csrf_token_hash r; expires_at := expires_at r; idle_expires_at := idle_expires_at r; last_auth_at := last_auth_at r; rotated_at := v; revoked_at := revoked_at r; created_at := created_at r |}.

Definition set_last_auth_at (v : Z) (r : t) : t :=
  {| id := id r; account_id := account_id r; user_id := user_id r; actor_id := actor_id r; secret_hash := secret_hash r; csrf_token_hash := csrf_token_hash r; expires_at := expires_at r; idle_expires_at := idle_expires_at r; last_auth_at := v; rotated_at := rotated_at r; revoked_at := revoked_at r; created_at := created_at r |}.

#[global] Instance t_eq_dec : EqDecision t.
Proof. solve_decision. Defined.

End BrowserSession.

Module SessionRevocation.
  (** Table [session_revocation]. *)
Record t := {
  id : uuid;
  account_id : uuid;
  session_id : uuid;
  revoked_at : Z;
}.

Definition clash (a b : t) : option string :=
  if same (id a) (id b) then Some "session_revocation_pkey"
  else if same (account_id a) (account_id b) && same (id a) (id b) then Some "uq_session_revocation_1"
  else None.

#[global] Instance t_eq_dec : EqDecision t.
Proof. solve_decision. Defined.

End SessionRevocation.

Module ExternalClientGrant.
  (** Table [external_client_grant]. *)
Record t := {
  id : uuid;
  account_id : uuid;
  actor_id : uuid;
  client_id : string;
  scopes : string;
  revoked_at : option Z;
  created_at : Z;
}.

Definition clash (a b : t) : option string :=
  if same (id a) (id b) then Some "external_client_grant_pkey"
  else if same (account_id a) (account_id b) && same (id a) (id b) then Some "uq_external_client_grant_1"
  else None.

Definition set_revoked_at (v : option Z) (r : t) : t :=
  {| id := id r; account_id := account_id r; actor_id := actor_id r; client_id := client_id r; scopes := scopes r; revoked_at := v; created_at := created_at r |}.

#[global] Instance t_eq_dec : EqDecision t.
Proof. solve_decision. Defined.

End ExternalClientGrant.

Module OperatorBootstrap.
  (** Table [operator_bootstrap]. *)
Record t := {
  id : uuid;
  account_id : uuid;
  issuer : string;
  subject : string;
  singleton_key : Z;
  completed_at : Z;
  revoked_at : option Z;
}.

Definition clash (a b : t) : option string :=
  if same (id a) (id b) then Some "operator_bootstrap_pkey"
  else if same (account_id a) (account_id b) && same (id a) (id b) then Some "uq_operator_bootstrap_1"
  else if same (singleton_key a) (singleton_key b) then Some "uq_operator_bootstrap_singleton"
  else None.

#[global] Instance t_eq_dec : EqDecision t.
Proof. solve_decision. Defined.

End OperatorBootstrap.

Module OidcLoginChallenge.
  (** Table [oidc_login_challenge]. *)
Record t := {
  id : uuid;
  state_hash : string;
  nonce_hash : string;
  pkce_verifier_ciphertext : string;
  expires_at : Z;
  consumed_at : option Z;
  created_at : Z;
}.

Definition clash (a b : t) : option string :=
  if same (id a) (id b) then Some "oidc_login_challenge_pkey"
  else if same (state_hash a) (state_hash b) then Some "uq_oidc_login_challenge_state"
  else None.

Definition set_consumed_at (v : option Z) (r : t) : t :=
  {| id := id r; state_hash := state_hash r; nonce_hash := nonce_hash r; pkce_verifier_ciphertext := pkce_verifier_ciphertext r; expires_at := expires_at r; consumed_at := v; created_at := created_at r |}.

#[global] Instance t_eq_dec : EqDecision t.
Proof. solve_decision. Defined.

End OidcLoginChallenge.

Module OidcTokenReplay.
  (** Table [oidc_token_replay]. *)
Record t := {
  id : uuid;
  issuer : string;
  jti : string;
  expires_at : Z;
  created_at : Z;
}.

Definition clash (a b : t) : option string :=
  if same (id a) (id b) then Some "oidc_token_replay_pkey"
  else if same (issuer a) (issuer b) && same (jti a) (jti b) then Some "uq_oidc_token_replay_1"
  else None.

#[global] Instance t_eq_dec : EqDecision t.
Proof. solve_decision. Defined.

End OidcTokenReplay.

Module ServiceAuthNonce.
  (** Table [service_auth_nonce]. *)
Record t := {
  nonce_digest : string;
  expires_at : Z;
  created_at : Z;
}.

Definition clash (a b : t) : option string :=
  if same (nonce_digest a) (nonce_digest b) then Some "service_auth_nonce_pkey"
  else None.

#[global] Instance t_eq_dec : EqDecision t.
Proof. solve_decision. Defined.

End ServiceAuthNonce.

Module Source.
  (** Table [source]. *)
Record t := {
  id : uuid;
  account_id : uuid;
  space_id : uuid;
  title : string;
  processing_status : string;
  created_at : Z;
  updated_at : Z;
}.

Definition clash (a b : t) : option string :=
  if same (id a) (id b) then Some "source_pkey"
  else if same (account_id a) (account_id b) && same (id a) (id b) then Some "uq_source_1"
  else if same (account_id a) (account_id b) && same (space_id a) (space_id b) && same (id a) (id b) then Some "uq_source_space_id"
  else None.

Definition set_processing_status (v : string) (r : t) : t :=
  {| id := id r; account_id := account_id r; space_id := space_id r; title := title r; processing_status := v; created_at := created_at r; updated_at := updated_at r |}.

Definition set_updated_at (v : Z) (r : t) : t :=
  {| id := id r; account_id := account_id r; space_id := space_id r; title := title r; processing_status := processing_status r; created_at := created_at r; updated_at := v |}.

#[global] Instance t_eq_dec : EqDecision t.
Proof. solve_decision. Defined.

End Source.

Module SourceRevision.
  (** Table [source_revision]. *)
Record t := {
  id : uuid;
  account_id : uuid;
  space_id : uuid;
  source_id : uuid;
  snapshot_sha256 : string;
  captured_at : Z;
  source_native_version : option string;
  mime_type : option string;
  language_hints : option string;
  byte_count : option Z;
  page_count : option Z;
  object_key : option string;
  created_at : Z;
}.

Definition clash (a b : t) : option string :=
  if same (id a) (id b) then Some "source_revision_pkey"
  else if same (account_id a) (account_id b) && same (id a) (id b) then Some "uq_source_revision_1"
  else if same (account_id a) (account_id b) && same (source_id a) (source_id b) && same (snapshot_sha256 a) (snapshot_sha256 b) then Some "uq_source_revision_2"
  else if same (account_id a) (account_id b) && same (space_id a) (space_id b) && same (id a) (id b) then Some "uq_source_revision_space_id"
  else if same (account_id a) (account_id b) && same (space_id a) (space_id b) && same (source_id a) (source_id b) && same (id a) (id b) then Some "uq_source_revision_pointer"
  else None.

#[global] Instance t_eq_dec : EqDecision t.
Proof. solve_decision. Defined.

End SourceRevision.

Module SourceBlob.
  (** Table [source_blob]. *)
Record t := {
  id : uuid;
  account_id : uuid;
  space_id : uuid;
  source_revision_id : uuid;
  blob_kind : string;
  object_key : string;
  sha256 : string;
  byte_count : Z;
  created_at : Z;
}.

Definition clash (a b : t) : option string :=
  if same (id a) (id b) then Some "source_blob_pkey"
  else if same (account_id a) (account_id b) && same (id a) (id b) then Some "uq_source_blob_1"
  else None.

#[global] Instance t_eq_dec : EqDecision t.
Proof. solve_decision. Defined.

End SourceBlob.

Module AuthoredDocument.
  (** Table [authored_document]. *)
Record t := {
  id : uuid;
  account_id : uuid;
  space_id : uuid;
  title : string;
  created_at : Z;
}.

Definition clash (a b : t) : option string :=
  if same (id a) (id b) then Some "authored_document_pkey"
  else if same (account_id a) (account_id b) && same (id a) (id b) then Some "uq_authored_document_1"
  else if same (account_id a) (account_id b) && same (space_id a) (space_id b) && same (id a) (id b) then Some "uq_authored_document_space_id"
  else None.

#[global] Instance t_eq_dec : EqDecision t.
Proof. solve_decision. Defined.

End AuthoredDocument.

Module DocumentRevision.
  (** Table [document_revision]. *)
Record t := {
  id : uuid;
  account_id : uuid;
  space_id : uuid;
  document_id : uuid;
  base_revision_id : option uuid;
  content_sha256 : string;
  schema_version : Z;
  content_json : option dict;
  plain_text : option string;
  author_actor_id : option uuid;
  proposal_id : option uuid;
  created_at : Z;
}.

Definition clash (a b : t) : option string :=
  if same (id a) (id b) then Some "document_revision_pkey"
  else if same (account_id a) (account_id b) && same (id a) (id b) then Some "uq_document_revision_1"
  else if same (account_id a) (account_id b) && same (space_id a) (space_id b) && same (id a) (id b) then Some "uq_document_revision_space_id"
  else if same (account_id a) (account_id b) && same (space_id a) (space_id b) && same (document_id a) (document_id b) && same (id a) (id b) then Some "uq_document_revision_pointer"
  else None.

#[global] Instance t_eq_dec : EqDecision t.
Proof. solve_decision. Defined.

End DocumentRevision.

Module ParseRun.
  (** Table [parse_run]. *)
Record t := {
  id : uuid;
  account_id : uuid;
  space_id : uuid;
  source_revision_id : uuid;
  parser_profile : string;
  status : string;
  profile_hash : option string;
  is_shadow : bool;
  quality_score : option Z;
  stage_checkpoint : dict;
  artifact_object_key : option string;
  error_code : option string;
  error_detail_safe : option string;
  created_at : Z;
  updated_at : Z;
}.

Definition clash (a b : t) : option string :=
  if same (id a) (id b) then Some "parse_run_pkey"
  else if same (account_id a) (account_id b) && same (id a) (id b) then Some "uq_parse_run_1"
  else if same (account_id a) (account_id b) && same (space_id a) (space_id b) && same (id a) (id b) then Some "uq_parse_run_space_id"
  else None.

Definition set_status (v : string) (r : t) : t :=
  {| id := id r; account_id := account_id r; space_id := space_id r; source_revision_id := source_revision_id r; parser_profile := parser_profile r; status := v; profile_hash := profile_hash r; is_shadow := is_shadow r; quality_score := quality_score r; stage_checkpoint := stage_checkpoint r; artifact_object_key := artifact_object_key r; error_code := error_code r; error_detail_safe := error_detail_safe r; created_at := created_at r; updated_at := updated_at r |}.

Definition set_updated_at (v : Z) (r : t) : t :=
  {| id := id r; account_id := account_id r; space_id := space_id r; source_revision_id := source_revision_id r; parser_profile := parser_profile r; status := status r; profile_hash := profile_hash r; is_shadow := is_shadow r; quality_score := quality_score r; stage_checkpoint := stage_checkpoint r; artifact_object_key := artifact_object_key r; error_code := error_code r; error_detail_safe := error_detail_safe r; created_at := created_at r; updated_at := v |}.

Definition set_quality_score (v : option Z) (r : t) : t :=
  {| id := id r; account_id := account_id r; space_id := space_id r; source_revision_id := source_revision_id r; parser_profile := parser_profile r; status := status r; profile_hash := profile_hash r; is_shadow := is_shadow r; quality_score := v; stage_checkpoint := stage_checkpoint r; artifact_object_key := artifact_object_key r; error_code := error_code r; error_detail_safe := error_detail_safe r; created_at := created_at r; updated_at := updated_at r |}.

Definition set_stage_checkpoint (v : dict) (r : t) : t :=
  {| id := id r; account_id := account_id r; space_id := space_id r; source_revision_id := source_revision_id r; parser_profile := parser_profile r; status := status r; profile_hash := profile_hash r; is_shadow := is_shadow r; quality_score := quality_score r; stage_checkpoint := v; artifact_object_key := artifact_object_key r; error_code := error_code r; error_detail_safe := error_detail_safe r; created_at := created_at r; updated_at := updated_at r |}.

Definition set_artifact_object_key (v : option string) (r : t) : t :=
  {| id := id r; account_id := account_id r; space_id := space_id r; source_revision_id := source_revision_id r; parser_profile := parser_profile r; status := status r; profile_hash := profile_hash r; is_shadow := is_shadow r; quality_score := quality_score r; stage_checkpoint := stage_checkpoint r; artifact_object_key := v; error_code := error_code r; error_detail_safe := error_detail_safe r; created_at := created_at r; updated_at := updated_at r |}.

Definition set_error_code (v : option string) (r : t) : t :=
  {| id := id r; account_id := account_id r; space_id := space_id r; source_revision_id := source_revision_id r; parser_profile := parser_profile r; status := status r; profile_hash := profile_hash r; is_shadow := is_shadow r; quality_score := quality_score r; stage_checkpoint := stage_checkpoint r; artifact_object_key := artifact_object_key r; error_code := v; error_detail_safe := error_detail_safe r; created_at := created_at r; updated_at := updated_at r |}.

Definition set_error_detail_safe (v : option string) (r : t) : t :=
  {| id := id r; account_id := account_id r; space_id := space_id r; source_revision_id := source_revision_id r; parser_profile := parser_profile r; status := status r; profile_hash := profile_hash r; is_shadow := is_shadow r; quality_score := quality_score r; stage_checkpoint := stage_checkpoint r; artifact_object_key := artifact_object_key r; error_code := error_code r; error_detail_safe := v; created_at := created_at r; updated_at := updated_at r |}.

Definition set_is_shadow (v : bool) (r : t) : t :=
  {| id := id r; account_id := account_id r; space_id := space_id r; source_revision_id := source_revision_id r; parser_profile := parser_profile r; status := status r; profile_hash := profile_hash r; is_shadow := v; quality_score := quality_score r; stage_checkpoint := stage_checkpoint r; artifact_object_key := artifact_object_key r; error_code := error_code r; error_detail_safe := error_detail_safe r; created_at := created_at r; updated_at := updated_at r |}.

#[global] Instance t_eq_dec : EqDecision t.
Proof. solve_decision. Defined.

End ParseRun.

Module DocumentElement.
  (** Table [document_element]. *)
Record t := {
  id : uuid;
  account_id : uuid;
  space_id : uuid;
  parse_run_id : uuid;
  element_kind : string;
  locator : option string;
  element_index : option Z;
  parent_element_id : option uuid;
  content_hash : option string;
  exact_text : option string;
  normalized_text : option string;
  element_metadata : dict;
  created_at : Z;
}.

Definition clash (a b : t) : option string :=
  if same (id a) (id b) then Some "document_element_pkey"
  else if same (account_id a) (account_id b) && same (id a) (id b) then Some "uq_document_element_1"
  else None.

#[global] Instance t_eq_dec : EqDecision t.
Proof. solve_decision. Defined.

End DocumentElement.

Module ProvenanceRecord.
  (** Table [provenance_record]. *)
Record t := {
  id : uuid;
  account_id : uuid;
  space_id : option uuid;
  entity_type : string;
  entity_id : uuid;
  activity : string;
  agent_actor_id : option uuid;
  source_revision_id : option uuid;
  recorded_at : Z;
}.

Definition clash (a b : t) : option string :=
  if same (id a) (id b) then Some "provenance_record_pkey"
  else if same (account_id a) (account_id b) && same (id a) (id b) then Some "uq_provenance_record_1"
  else None.

#[global] Instance t_eq_dec : EqDecision t.
Proof. solve_decision. Defined.

End ProvenanceRecord.

Module TruthClassification.
  (** Table [truth_classification]. *)
Record t := {
  id : uuid;
  account_id : uuid;
  space_id : option uuid;
  entity_type : string;
  entity_id : uuid;
  truth_class : string;
  created_at : Z;
}.

Definition clash (a b : t) : option string :=
  if same (id a) (id b) then Some "truth_classification_pkey"
  else if same (account_id a) (account_id b) && same (id a) (id b) then Some "uq_truth_classification_1"
  else if same (account_id a) (account_id b) && same (entity_type a) (entity_type b) && same (entity_id a) (entity_id b) then Some "uq_truth_classification_2"
  else None.

#[global] Instance t_eq_dec : EqDecision t.
Proof. solve_decision. Defined.

End TruthClassification.

Module ConflictSet.
  (** Table [conflict_set]. *)
Record t := {
  id : uuid;
  account_id : uuid;
  space_id : option uuid;
  resolution : string;
  created_at : Z;
}.

Definition clash (a b : t) : option string :=
  if same (id a) (id b) then Some "conflict_set_pkey"
  else if same (account_id a) (account_id b) && same (id a) (id b) then Some "uq_conflict_set_1"
  else None.

#[global] Instance t_eq_dec : EqDecision t.
Proof. solve_decision. Defined.

End ConflictSet.

Module ConflictMember.
  (** Table [conflict_member]. *)
Record t := {
  id : uuid;
  account_id : uuid;
  conflict_set_id : uuid;
  entity_type : string;
  entity_id : uuid;
  created_at : Z;
}.

Definition clash (a b : t) : option string :=
  if same (id a) (id b) then Some "conflict_member_pkey"
  else if same (account_id a) (account_id b) && same (id a) (id b) then Some "uq_conflict_member_1"
  else if same (account_id a) (account_id b) && same (conflict_set_id a) (conflict_set_id b) && same (entity_type a) (entity_type b) && same (entity_id a) (entity_id b) then Some "uq_conflict_member_2"
  else None.

#[global] Instance t_eq_dec : EqDecision t.
Proof. solve_decision. Defined.

End ConflictMember.

Module Proposal.
  (** Table [proposal]. *)
Record t := {
  id : uuid;
  account_id : uuid;
  space_id : uuid;
  target_type : string;
  target_id : uuid;
  base_revision_id : option uuid;
  truth_class : string;
  status : string;
  patch_json : dict;
  resolved_at : option Z;
  created_at : Z;
}.

Definition clash (a b : t) : option string :=
  if same (id a) (id b) then Some "proposal_pkey"
  else if same (account_id a) (account_id b) && same (id a) (id b) then Some "uq_proposal_1"
  else None.

Definition set_status (v : string) (r : t) : t :=
  {| id := id r; account_id := account_id r; space_id := space_id r; target_type := target_type r; target_id := target_id r; base_revision_id := base_revision_id r; truth_class := truth_class r; status := v; patch_json := patch_json r; resolved_at := resolved_at r; created_at := created_at r |}.

Definition set_resolved_at (v : option Z) (r : t) : t :=
  {| id := id r; account_id := account_id r; space_id := space_id r; target_type := target_type r; target_id := target_id r; base_revision_id := base_revision_id r; truth_class := truth_class r; status := status r; patch_json := patch_json r; resolved_at := v; created_at := created_at r |}.

#[global] Instance t_eq_dec : EqDecision t.
Proof. solve_decision. Defined.

End Proposal.

Module Conversation.
  (** Table [conversation]. *)
Record t := {
  id : uuid;
  account_id : uuid;
  space_id : uuid;
  source_client : string;
  completeness : string;
  created_at : Z;
}.

Definition clash (a b : t) : option string :=
  if same (id a) (id b) then Some "conversation_pkey"
  else if same (account_id a) (account_id b) && same (id a) (id b) then Some "uq_conversation_1"
  else if same (account_id a) (account_id b) && same (space_id a) (space_id b) && same (id a) (id b) then Some "uq_conversation_space_id"
  else None.

Definition set_completeness (v : string) (r : t) : t :=
  {| id := id r; account_id := account_id r; space_id := space_id r; source_client := source_client r; completeness := v; created_at := created_at r |}.

#[global] Instance t_eq_dec : EqDecision t.
Proof. solve_decision. Defined.

End Conversation.

Module ConversationTurn.
  (** Table [conversation_turn]. *)
Record t := {
  id : uuid;
  account_id : uuid;
  space_id : uuid;
  conversation_id : uuid;
  role : string;
  turn_index : Z;
  payload_json : option dict;
  payload_ciphertext : option (list Z);
  payload_nonce : option (list Z);
  occurred_at : Z;
  parent_turn_id : option uuid;
  context_receipt_id : option uuid;
  client_turn_id : option string;
  created_at : Z;
}.

Definition clash (a b : t) : option string :=
  if same (id a) (id b) then Some "conversation_turn_pkey"
  else if same (account_id a) (account_id b) && same (id a) (id b) then Some "uq_conversation_turn_1"
  else if same (account_id a) (account_id b) && same (conversation_id a) (conversation_id b) && opt_same (client_turn_id a) (client_turn_id b) then Some "uq_conversation_turn_client"
  else None.

#[global] Instance t_eq_dec : EqDecision t.
Proof. solve_decision. Defined.

End ConversationTurn.

Module AuditEvent.
  (** Table [audit_event]. *)
Record t := {
  id : uuid;
  account_id : uuid;
  actor_id : option uuid;
  event_type : string;
  payload : dict;
  recorded_at : Z;
}.

Definition clash (a b : t) : option string :=
  if same (id a) (id b) then Some "audit_event_pkey"
  else if same (account_id a) (account_id b) && same (id a) (id b) then Some "uq_audit_event_1"
  else None.

#[global] Instance t_eq_dec : EqDecision t.
Proof. solve_decision. Defined.

End AuditEvent.

Module CurrentSourceRevision.
  (** Table [current_source_revision]. *)
Record t := {
  id : uuid;
  account_id : uuid;
  space_id : uuid;
  source_id : uuid;
  revision_id : uuid;
  updated_at : Z;
}.

Definition clash (a b : t) : option string :=
  if same (id a) (id b) then Some "current_source_revision_pkey"
  else if same (account_id a) (account_id b) && same (source_id a) (source_id b) then Some "uq_current_source_revision_1"
  else None.

Definition set_space_id (v : uuid) (r : t) : t :=
  {| id := id r; account_id := account_id r; space_id := v; source_id := source_id r; revision_id := revision_id r; updated_at := updated_at r |}.

Definition set_revision_id (v : uuid) (r : t) : t :=
  {| id := id r; account_id := account_id r; space_id := space_id r; source_id := source_id r; revision_id := v; updated_at := updated_at r |}.

Definition set_updated_at (v : Z) (r : t) : t :=
  {| id := id r; account_id := account_id r; space_id := space_id r; source_id := source_id r; revision_id := revision_id r; updated_at := v |}.

#[global] Instance t_eq_dec : EqDecision t.
Proof. solve_decision. Defined.

End CurrentSourceRevision.

Module CurrentDocumentRevision.
  (** Table [current_document_revision]. *)
Record t := {
  id : uuid;
  account_id : uuid;
  space_id : uuid;
  document_id : uuid;
  revision_id : uuid;
  updated_at : Z;
}.

Definition clash (a b : t) : option string :=
  if same (id a) (id b) then Some "current_document_revision_pkey"
  else if same (account_id a) (account_id b) && same (document_id a) (document_id b) then Some "uq_current_document_revision_1"
  else None.

Definition set_space_id (v : uuid) (r : t) : t :=
  {| id := id r; account_id := account_id r; space_id := v; document_id := document_id r; revision_id := revision_id r; updated_at := updated_at r |}.

Definition set_revision_id (v : uuid) (r : t) : t :=
  {| id := id r; account_id := account_id r; space_id := space_id r; document_id := document_id r; revision_id := v; updated_at := updated_at r |}.

Definition set_updated_at (v : Z) (r : t) : t :=
  {| id := id r; account_id := account_id r; space_id := space_id r; document_id := document_id r; revision_id := revision_id r; updated_at := v |}.

#[global] Instance t_eq_dec : EqDecision t.
Proof. solve_decision. Defined.

End CurrentDocumentRevision.

Module OutboxEvent.
  (** Table [outbox_event]. *)
Record t := {
  id : uuid;
  account_id : uuid;
  event_type : string;
  payload_sha256 : string;
  payload : dict;
  durable_job_id : option uuid;
  created_at : Z;
  published_at : option Z;
  claim_token : option uuid;
  claim_expires_at : option Z;
  claimed_by : option string;
}.

Definition clash (a b : t) : option string :=
  if same (id a) (id b) then Some "outbox_event_pkey"
  else if same (account_id a) (account_id b) && same (id a) (id b) then Some "uq_outbox_event_1"
  else None.

Definition set_published_at (v : option Z) (r : t) : t :=
  {| id := id r; account_id := account_id r; event_type := event_type r; payload_sha256 := payload_sha256 r; payload := payload r; durable_job_id := durable_job_id r; created_at := created_at r; published_at := v; claim_token := claim_token r; claim_expires_at := claim_expires_at r; claimed_by := claimed_by r |}.

Definition set_claim_token (v : option uuid) (r : t) : t :=
  {| id := id r; account_id := account_id r; event_type := event_type r; payload_sha256 := payload_sha256 r; payload := payload r; durable_job_id := durable_job_id r; created_at := created_at r; published_at := published_at r; claim_token := v; claim_expires_at := claim_expires_at r; claimed_by := claimed_by r |}.

Definition set_claim_expires_at (v : option Z) (r : t) : t :=
  {| id := id r; account_id := account_id r; event_type := event_type r; payload_sha256 := payload_sha256 r; payload := payload r; durable_job_id := durable_job_id r; created_at := created_at r; published_at := published_at r; claim_token := claim_token r; claim_expires_at := v; claimed_by := claimed_by r |}.

Definition set_claimed_by (v : option string) (r : t) : t :=
  {| id := id r; account_id := account_id r; event_type := event_type r; payload_sha256 := payload_sha256 r; payload := payload r; durable_job_id := durable_job_id r; created_at := created_at r; published_at := published_at r; claim_token := claim_token r; claim_expires_at := claim_expires_at r; claimed_by := v |}.

#[global] Instance t_eq_dec : EqDecision t.
Proof. solve_decision. Defined.

End OutboxEvent.

Module IdempotencyRecord.
  (** Table [idempotency_record]. *)
Record t := {
  id : uuid;
  account_id : uuid;
  idempotency_key : string;
  fingerprint_sha256 : string;
  response_status : Z;
  route : option string;
  response_body : option dict;
  response_headers : option dict;
  created_at : Z;
}.

Definition clash (a b : t) : option string :=
  if same (id a) (id b) then Some "idempotency_record_pkey"
  else if same (account_id a) (account_id b) && same (idempotency_key a) (idempotency_key b) then Some "uq_idempotency_record_1"
  else None.

Definition set_response_status (v : Z) (r : t) : t :=
  {| id := id r; account_id := account_id r; idempotency_key := idempotency_key r; fingerprint_sha256 := fingerprint_sha256 r; response_status := v; route := route r; response_body := response_body r; response_headers := response_headers r; created_at := created_at r |}.

Definition set_response_body (v : option dict) (r : t) : t :=
  {| id := id r; account_id := account_id r; idempotency_key := idempotency_key r; fingerprint_sha256 := fingerprint_sha256 r; response_status := response_status r; route := route r; response_body := v; response_headers := response_headers r; created_at := created_at r |}.

#[global] Instance t_eq_dec : EqDecision t.
Proof. solve_decision. Defined.

End IdempotencyRecord.

Module DurableJob.
  (** Table [durable_job]. *)
Record t := {
  id : uuid;
  account_id : uuid;
  job_type : string;
  status : string;
  space_id : option uuid;
  correlation_id : option uuid;
  idempotency_key : option string;
  payload : dict;
  progress : dict;
  error_code : option string;
  error_detail_safe : option string;
  auth_snapshot : option dict;
  created_at : Z;
  updated_at : Z;
  cancelled_at : option Z;
  dead_letter_at : option Z;
}.

Definition clash (a b : t) : option string :=
  if same (id a) (id b) then Some "durable_job_pkey"
  else if same (account_id a) (account_id b) && same (id a) (id b) then Some "uq_durable_job_1"
  else None.

Definition set_status (v : string) (r : t) : t :=
  {| id := id r; account_id := account_id r; job_type := job_type r; status := v; space_id := space_id r; correlation_id := correlation_id r; idempotency_key := idempotency_key r; payload := payload r; progress := progress r; error_code := error_code r; error_detail_safe := error_detail_safe r; auth_snapshot := auth_snapshot r; created_at := created_at r; updated_at := updated_at r; cancelled_at := cancelled_at r; dead_letter_at := dead_letter_at r |}.

Definition set_error_code (v : option string) (r : t) : t :=
  {| id := id r; account_id := account_id r; job_type := job_type r; status := status r; space_id := space_id r; correlation_id := correlation_id r; idempotency_key := idempotency_key r; payload := payload r; progress := progress r; error_code := v; error_detail_safe := error_detail_safe r; auth_snapshot := auth_snapshot r; created_at := created_at r; updated_at := updated_at r; cancelled_at := cancelled_at r; dead_letter_at := dead_letter_at r |}.

Definition set_error_detail_safe (v : option string) (r : t) : t :=
  {| id := id r; account_id := account_id r; job_type := job_type r; status := status r; space_id := space_id r; correlation_id := correlation_id r; idempotency_key := idempotency_key r; payload := payload r; progress := progress r; error_code := error_code r; error_detail_safe := v; auth_snapshot := auth_snapshot r; created_at := created_at r; updated_at := updated_at r; cancelled_at := cancelled_at r; dead_letter_at := dead_letter_at r |}.

Definition set_updated_at (v : Z) (r : t) : t :=
  {| id := id r; account_id := account_id r; job_type := job_type r; status := status r; space_id := space_id r; correlation_id := correlation_id r; idempotency_key := idempotency_key r; payload := payload r; progress := progress r; error_code := error_code r; error_detail_safe := error_detail_safe r; auth_snapshot := auth_snapshot r; created_at := created_at r; updated_at := v; cancelled_at := cancelled_at r; dead_letter_at := dead_letter_at r |}.

Definition set_cancelled_at (v : option Z) (r : t) : t :=
  {| id := id r; account_id := account_id r; job_type := job_type r; status := status r; space_id := space_id r; correlation_id := correlation_id r; idempotency_key := idempotency_key r; payload := payload r; progress := progress r; error_code := error_code r; error_detail_safe := error_detail_safe r; auth_snapshot := auth_snapshot r; created_at := created_at r; updated_at := updated_at r; cancelled_at := v; dead_letter_at := dead_letter_at r |}.

Definition set_dead_letter_at (v : option Z) (r : t) : t :=
  {| id := id r; account_id := account_id r; job_type := job_type r; status := status r; space_id := space_id r; correlation_id := correlation_id r; idempotency_key := idempotency_key r; payload := payload r; progress := progress r; error_code := error_code r; error_detail_safe := error_detail_safe r; auth_snapshot := auth_snapshot r; created_at := created_at r; updated_at := updated_at r; cancelled_at := cancelled_at r; dead_letter_at := v |}.

Definition set_progress (v : dict) (r : t) : t :=
  {| id := id r; account_id := account_id r; job_type := job_type r; status := status r; space_id := space_id r; correlation_id := correlation_id r; idempotency_key := idempotency_key r; payload := payload r; progress := v; error_code := error_code r; error_detail_safe := error_detail_safe r; auth_snapshot := auth_snapshot r; created_at := created_at r; updated_at := updated_at r; cancelled_at := cancelled_at r; dead_letter_at := dead_letter_at r |}.

#[global] Instance t_eq_dec : EqDecision t.
Proof. solve_decision. Defined.

End DurableJob.

Module JobAttempt.
  (** Table [job_attempt]. *)
Record t := {
  id : uuid;
  account_id : uuid;
  job_id : uuid;
  attempt_number : Z;
  status : string;
  started_at : option Z;
  finished_at : option Z;
  error_code : option string;
  error_detail_safe : option string;
  created_at : Z;
}.

Definition clash (a b : t) : option string :=
  if same (id a) (id b) then Some "job_attempt_pkey"
  else if same (account_id a) (account_id b) && same (id a) (id b) then Some "uq_job_attempt_1"
  else None.

Definition set_finished_at (v : option Z) (r : t) : t :=
  {| id := id r; account_id := account_id r; job_id := job_id r; attempt_number := attempt_number r; status := status r; started_at := started_at r; finished_at := v; error_code := error_code r; error_detail_safe := error_detail_safe r; created_at := created_at r |}.

Definition set_status (v : string) (r : t) : t :=
  {| id := id r; account_id := account_id r; job_id := job_id r; attempt_number := attempt_number r; status := v; started_at := started_at r; finished_at := finished_at r; error_code := error_code r; error_detail_safe := error_detail_safe r; created_at := created_at r |}.

Definition set_error_code (v : option string) (r : t) : t :=
  {| id := id r; account_id := account_id r; job_id := job_id r; attempt_number := attempt_number r; status := status r; started_at := started_at r; finished_at := finished_at r; error_code := v; error_detail_safe := error_detail_safe r; created_at := created_at r |}.

Definition set_error_detail_safe (v : option string) (r : t) : t :=
  {| id := id r; account_id := account_id r; job_id := job_id r; attempt_number := attempt_number r; status := status r; started_at := started_at r; finished_at := finished_at r; error_code := error_code r; error_detail_safe := v; created_at := created_at r |}.

#[global] Instance t_eq_dec : EqDecision t.
Proof. solve_decision. Defined.

End JobAttempt.

Module ProjectionState.
  (** Table [projection_state]. *)
Record t := {
  id : uuid;
  account_id : uuid;
  projection_name : string;
  cursor : option string;
  updated_at : Z;
}.

Definition clash (a b : t) : option string :=
  if same (id a) (id b) then Some "projection_state_pkey"
  else if same (account_id a) (account_id b) && same (projection_name a) (projection_name b) then Some "uq_projection_state_1"
  else None.

#[global] Instance t_eq_dec : EqDecision t.
Proof. solve_decision. Defined.

End ProjectionState.

Module UploadIntent.
  (** Table [upload_intent]. *)
Record t := {
  id : uuid;
  account_id : uuid;
  space_id : uuid;
  source_id : uuid;
  object_key : string;
  expected_sha256 : string;
  expected_byte_count : Z;
  content_type : string;
  expires_at : Z;
  completed_at : option Z;
  created_at : Z;
}.

Definition clash (a b : t) : option string :=
  if same (id a) (id b) then Some "upload_intent_pkey"
  else if same (account_id a) (account_id b) && same (id a) (id b) then Some "uq_upload_intent_1"
  else None.

Definition set_completed_at (v : option Z) (r : t) : t :=
  {| id := id r; account_id := account_id r; space_id := space_id r; source_id := source_id r; object_key := object_key r; expected_sha256 := expected_sha256 r; expected_byte_count := expected_byte_count r; content_type := content_type r; expires_at := expires_at r; completed_at := v; created_at := created_at r |}.

#[global] Instance t_eq_dec : EqDecision t.
Proof. solve_decision. Defined.

End UploadIntent.

Module CurrentActiveParseRun.
  (** Table [current_active_parse_run]. *)
Record t := {
  id : uuid;
  account_id : uuid;
  space_id : uuid;
  source_id : uuid;
  source_revision_id : uuid;
  parse_run_id : uuid;
  updated_at : Z;
}.

Definition clash (a b : t) : option string :=
  if same (id a) (id b) then Some "current_active_parse_run_pkey"
  else if same (account_id a) (account_id b) && same (source_id a) (source_id b) && same (source_revision_id a) (source_revision_id b) then Some "uq_current_active_parse_run_1"
  else None.

Definition set_parse_run_id (v : uuid) (r : t) : t :=
  {| id := id r; account_id := account_id r; space_id := space_id r; source_id := source_id r; source_revision_id := source_revision_id r; parse_run_id := v; updated_at := updated_at r |}.

Definition set_updated_at (v : Z) (r : t) : t :=
  {| id := id r; account_id := account_id r; space_id := space_id r; source_id := source_id r; source_revision_id := source_revision_id r; parse_run_id := parse_run_id r; updated_at := v |}.

#[global] Instance t_eq_dec : EqDecision t.
Proof. solve_decision. Defined.

End CurrentActiveParseRun.

Module MemoryItem.
  (** Table [memory_item]. *)
Record t := {
  id : uuid;
  account_id : uuid;
  space_id : uuid;
  title : string;
  created_at : Z;
}.

Definition clash (a b : t) : option string :=
  if same (id a) (id b) then Some "memory_item_pkey"
  else if same (account_id a) (account_id b) && same (id a) (id b) then Some "uq_memory_item_1"
  else if same (account_id a) (account_id b) && same (space_id a) (space_id b) && same (id a) (id b) then Some "uq_memory_item_space_id"
  else None.

#[global] Instance t_eq_dec : EqDecision t.
Proof. solve_decision. Defined.

End MemoryItem.

Module MemoryRevision.
  (** Table [memory_revision]. *)
Record t := {
  id : uuid;
  account_id : uuid;
  space_id : uuid;
  memory_item_id : uuid;
  base_revision_id : option uuid;
  assertion_text : string;
  truth_class : string;
  status : string;
  content_sha256 : string;
  provenance_json : dict;
  created_at : Z;
}.

Definition clash (a b : t) : option string :=
  if same (id a) (id b) then Some "memory_revision_pkey"
  else if same (account_id a) (account_id b) && same (id a) (id b) then Some "uq_memory_revision_1"
  else if same (account_id a) (account_id b) && same (space_id a) (space_id b) && same (id a) (id b) then Some "uq_memory_revision_space_id"
  else if same (account_id a) (account_id b) && same (space_id a) (space_id b) && same (memory_item_id a) (memory_item_id b) && same (id a) (id b) then Some "uq_memory_revision_pointer"
  else None.

#[global] Instance t_eq_dec : EqDecision t.
Proof. solve_decision. Defined.

End MemoryRevision.

Module CurrentMemoryRevision.
  (** Table [current_memory_revision]. *)
Record t := {
  id : uuid;
  account_id : uuid;
  space_id : uuid;
  memory_item_id : uuid;
  revision_id : uuid;
  updated_at : Z;
}.

Definition clash (a b : t) : option string :=
  if same (id a) (id b) then Some "current_memory_revision_pkey"
  else if same (account_id a) (account_id b) && same (memory_item_id a) (memory_item_id b) then Some "uq_current_memory_revision_1"
  else None.

Definition set_space_id (v : uuid) (r : t) : t :=
  {| id := id r; account_id := account_id r; space_id := v; memory_item_id := memory_item_id r; revision_id := revision_id r; updated_at := updated_at r |}.

Definition set_revision_id (v : uuid) (r : t) : t :=
  {| id := id r; account_id := account_id r; space_id := space_id r; memory_item_id := memory_item_id r; revision_id := v; updated_at := updated_at r |}.

Definition set_updated_at (v : Z) (r : t) : t :=
  {| id := id r; account_id := account_id r; space_id := space_id r; memory_item_id := memory_item_id r; revision_id := revision_id r; updated_at := v |}.

#[global] Instance t_eq_dec : EqDecision t.
Proof. solve_decision. Defined.

End CurrentMemoryRevision.

Module Projection.
  (** Table [projection]. *)
Record t := {
  id : uuid;
  account_id : uuid;
  space_id : uuid;
  provider : string;
  surface : string;
  profile_version : string;
  canonical_type : string;
  canonical_id : uuid;
  canonical_revision_id : uuid;
  provider_document_id : option string;
  payload_hash : string;
  status : string;
  indexed_at : option Z;
  tombstoned_at : option Z;
}.

Definition clash (a b : t) : option string :=
  if same (id a) (id b) then Some "projection_pkey"
  else if same (account_id a) (account_id b) && same (id a) (id b) then Some "uq_projection_1"
  else if same (account_id a) (account_id b) && same (provider a) (provider b) && same (surface a) (surface b) && same (canonical_type a) (canonical_type b) && same (canonical_id a) (canonical_id b) && same (canonical_revision_id a) (canonical_revision_id b) then Some "uq_projection_canonical"
  else None.

Definition set_status (v : string) (r : t) : t :=
  {| id := id r; account_id := account_id r; space_id := space_id r; provider := provider r; surface := surface r; profile_version := profile_version r; canonical_type := canonical_type r; canonical_id := canonical_id r; canonical_revision_id := canonical_revision_id r; provider_document_id := provider_document_id r; payload_hash := payload_hash r; status := v; indexed_at := indexed_at r; tombstoned_at := tombstoned_at r |}.

Definition set_tombstoned_at (v : option Z) (r : t) : t :=
  {| id := id r; account_id := account_id r; space_id := space_id r; provider := provider r; surface := surface r; profile_version := profile_version r; canonical_type := canonical_type r; canonical_id := canonical_id r; canonical_revision_id := canonical_revision_id r; provider_document_id := provider_document_id r; payload_hash := payload_hash r; status := status r; indexed_at := indexed_at r; tombstoned_at := v |}.

Definition set_payload_hash (v : string) (r : t) : t :=
  {| id := id r; account_id := account_id r; space_id := space_id r; provider := provider r; surface := surface r; profile_version := profile_version r; canonical_type := canonical_type r; canonical_id := canonical_id r; canonical_revision_id := canonical_revision_id r; provider_document_id := provider_document_id r; payload_hash := v; status := status r; indexed_at := indexed_at r; tombstoned_at := tombstoned_at r |}.

Definition set_indexed_at (v : option Z) (r : t) : t :=
  {| id := id r; account_id := account_id r; space_id := space_id r; provider := provider r; surface := surface r; profile_version := profile_version r; canonical_type := canonical_type r; canonical_id := canonical_id r; canonical_revision_id := canonical_revision_id r; provider_document_id := provider_document_id r; payload_hash := payload_hash r; status := status r; indexed_at := v; tombstoned_at := tombstoned_at r |}.

#[global] Instance t_eq_dec : EqDecision t.
Proof. solve_decision. Defined.

End Projection.

Module ContextReceipt.
  (** Table [context_receipt]. *)
Record t := {
  id : uuid;
  account_id : uuid;
  query_hash : string;
  purpose : string;
  policy_version : string;
  eligible_spaces : (list json);
  provider_versions : dict;
  budget : dict;
  context_hash : string;
  partial : bool;
  created_at : Z;
}.

Definition clash (a b : t) : option string :=
  if same (id a) (id b) then Some "context_receipt_pkey"
  else if same (account_id a) (account_id b) && same (id a) (id b) then Some "uq_context_receipt_1"
  else None.

#[global] Instance t_eq_dec : EqDecision t.
Proof. solve_decision. Defined.

End ContextReceipt.

Module ContextReceiptItem.
  (** Table [context_receipt_item]. *)
Record t := {
  id : uuid;
  account_id : uuid;
  receipt_id : uuid;
  rank : Z;
  canonical_type : string;
  canonical_id : uuid;
  revision_id : uuid;
  locator : option string;
  selected : bool;
  omit_reason : option string;
}.

Definition clash (a b : t) : option string :=
  if same (id a) (id b) then Some "context_receipt_item_pkey"
  else if same (account_id a) (account_id b) && same (id a) (id b) then Some "uq_context_receipt_item_1"
  else if same (account_id a) (account_id b) && same (receipt_id a) (receipt_id b) && same (rank a) (rank b) then Some "uq_context_receipt_item_rank"
  else None.

#[global] Instance t_eq_dec : EqDecision t.
Proof. solve_decision. Defined.

End ContextReceiptItem.

Module Course.
  (** Table [course]. *)
Record t := {
  id : uuid;
  account_id : uuid;
  space_id : uuid;
  title : string;
  created_at : Z;
}.

Definition clash (a b : t) : option string :=
  if same (id a) (id b) then Some "course_pkey"
  else if same (account_id a) (account_id b) && same (id a) (id b) then Some "uq_course_1"
  else if same (account_id a) (account_id b) && same (space_id a) (space_id b) && same (id a) (id b) then Some "uq_course_space_id"
  else None.

#[global] Instance t_eq_dec : EqDecision t.
Proof. solve_decision. Defined.

End Course.

Module CurriculumNode.
  (** Table [curriculum_node]. *)
Record t := {
  id : uuid;
  account_id : uuid;
  space_id : uuid;
  course_id : uuid;
  kind : string;
  title : string;
  confirmation : string;
  created_at : Z;
}.

Definition clash (a b : t) : option string :=
  if same (id a) (id b) then Some "curriculum_node_pkey"
  else if same (account_id a) (account_id b) && same (id a) (id b) then Some "uq_curriculum_node_1"
  else None.

Definition set_confirmation (v : string) (r : t) : t :=
  {| id := id r; account_id := account_id r; space_id := space_id r; course_id := course_id r; kind := kind r; title := title r; confirmation := v; created_at := created_at r |}.

#[global] Instance t_eq_dec : EqDecision t.
Proof. solve_decision. Defined.

End CurriculumNode.

Module CurriculumEdge.
  (** Table [curriculum_edge]. *)
Record t := {
  id : uuid;
  account_id : uuid;
  space_id : uuid;
  course_id : uuid;
  from_node_id : uuid;
  to_node_id : uuid;
  edge_kind : string;
  confirmation : string;
  created_at : Z;
}.

Definition clash (a b : t) : option string :=
  if same (id a) (id b) then Some "curriculum_edge_pkey"
  else if same (account_id a) (account_id b) && same (id a) (id b) then Some "uq_curriculum_edge_1"
  else None.

Definition set_confirmation (v : string) (r : t) : t :=
  {| id := id r; account_id := account_id r; space_id := space_id r; course_id := course_id r; from_node_id := from_node_id r; to_node_id := to_node_id r; edge_kind := edge_kind r; confirmation := v; created_at := created_at r |}.

#[global] Instance t_eq_dec : EqDecision t.
Proof. solve_decision. Defined.

End CurriculumEdge.

Module AssessmentItem.
  (** Table [assessment_item]. *)
Record t := {
  id : uuid;
  account_id : uuid;
  space_id : uuid;
  course_id : uuid;
  concept_node_id : option uuid;
  title : string;
  created_at : Z;
}.

Definition clash (a b : t) : option string :=
  if same (id a) (id b) then Some "assessment_item_pkey"
  else if same (account_id a) (account_id b) && same (id a) (id b) then Some "uq_assessment_item_1"
  else None.

#[global] Instance t_eq_dec : EqDecision t.
Proof. solve_decision. Defined.

End AssessmentItem.

Module AssessmentRevision.
  (** Table [assessment_revision]. *)
Record t := {
  id : uuid;
  account_id : uuid;
  space_id : uuid;
  assessment_item_id : uuid;
  item_type : string;
  prompt : string;
  sealed_answer : dict;
  sealed_rubric : dict;
  source_locators : (list json);
  difficulty : option Z;
  guessing_chance : option Z;
  state : string;
  content_sha256 : string;
  created_at : Z;
}.

Definition clash (a b : t) : option string :=
  if same (id a) (id b) then Some "assessment_revision_pkey"
  else if same (account_id a) (account_id b) && same (id a) (id b) then Some "uq_assessment_revision_1"
  else None.

Definition set_state (v : string) (r : t) : t :=
  {| id := id r; account_id := account_id r; space_id := space_id r; assessment_item_id := assessment_item_id r; item_type := item_type r; prompt := prompt r; sealed_answer := sealed_answer r; sealed_rubric := sealed_rubric r; source_locators := source_locators r; difficulty := difficulty r; guessing_chance := guessing_chance r; state := v; content_sha256 := content_sha256 r; created_at := created_at r |}.

#[global] Instance t_eq_dec : EqDecision t.
Proof. solve_decision. Defined.

End AssessmentRevision.

Module CurrentAssessmentRevision.
  (** Table [current_assessment_revision]. *)
Record t := {
  id : uuid;
  account_id : uuid;
  space_id : uuid;
  assessment_item_id : uuid;
  revision_id : uuid;
  updated_at : Z;
}.

Definition clash (a b : t) : option string :=
  if same (id a) (id b) then Some "current_assessment_revision_pkey"
  else if same (account_id a) (account_id b) && same (assessment_item_id a) (assessment_item_id b) then Some "uq_current_assessment_revision_1"
  else None.

Definition set_revision_id (v : uuid) (r : t) : t :=
  {| id := id r; account_id := account_id r; space_id := space_id r; assessment_item_id := assessment_item_id r; revision_id := v; updated_at := updated_at r |}.

Definition set_updated_at (v : Z) (r : t) : t :=
  {| id := id r; account_id := account_id r; space_id := space_id r; assessment_item_id := assessment_item_id r; revision_id := revision_id r; updated_at := v |}.

#[global] Instance t_eq_dec : EqDecision t.
Proof. solve_decision. Defined.

End CurrentAssessmentRevision.

Module LearnerEvent.
  (** Table [learner_event]. *)
Record t := {
  id : uuid;
  account_id : uuid;
  space_id : uuid;
  course_id : uuid;
  user_id : uuid;
  concept_node_id : option uuid;
  assessment_item_id : option uuid;
  assessment_revision_id : option uuid;
  attempt_id : option uuid;
  client_event_id : option string;
  event_type : string;
  occurred_at : Z;
  received_at : Z;
  payload_schema_version : Z;
  payload : dict;
  eligibility : string;
  exclusion_reason : option string;
}.

Definition clash (a b : t) : option string :=
  if same (id a) (id b) then Some "learner_event_pkey"
  else if same (account_id a) (account_id b) && same (id a) (id b) then Some "uq_learner_event_1"
  else if same (account_id a) (account_id b) && opt_same (client_event_id a) (client_event_id b) then Some "uq_learner_event_client"
  else None.

#[global] Instance t_eq_dec : EqDecision t.
Proof. solve_decision. Defined.

End LearnerEvent.

Module ReviewItem.
  (** Table [review_item]. *)
Record t := {
  id : uuid;
  account_id : uuid;
  space_id : uuid;
  course_id : uuid;
  user_id : uuid;
  assessment_item_id : uuid;
  assessment_revision_id : uuid;
  fsrs_state : dict;
  due_at : option Z;
  priority : Z;
  updated_at : Z;
}.

Definition clash (a b : t) : option string :=
  if same (id a) (id b) then Some "review_item_pkey"
  else if same (account_id a) (account_id b) && same (id a) (id b) then Some "uq_review_item_1"
  else if same (account_id a) (account_id b) && same (user_id a) (user_id b) && same (assessment_item_id a) (assessment_item_id b) then Some "uq_review_item_user_item"
  else None.

Definition set_fsrs_state (v : dict) (r : t) : t :=
  {| id := id r; account_id := account_id r; space_id := space_id r; course_id := course_id r; user_id := user_id r; assessment_item_id := assessment_item_id r; assessment_revision_id := assessment_revision_id r; fsrs_state := v; due_at := due_at r; priority := priority r; updated_at := updated_at r |}.

Definition set_due_at (v : option Z) (r : t) : t :=
  {| id := id r; account_id := account_id r; space_id := space_id r; course_id := course_id r; user_id := user_id r; assessment_item_id := assessment_item_id r; assessment_revision_id := assessment_revision_id r; fsrs_state := fsrs_state r; due_at := v; priority := priority r; updated_at := updated_at r |}.

Definition set_assessment_revision_id (v : uuid) (r : t) : t :=
  {| id := id r; account_id := account_id r; space_id := space_id r; course_id := course_id r; user_id := user_id r; assessment_item_id := assessment_item_id r; assessment_revision_id := v; fsrs_state := fsrs_state r; due_at := due_at r; priority := priority r; updated_at := updated_at r |}.

Definition set_priority (v : Z) (r : t) : t :=
  {| id := id r; account_id := account_id r; space_id := space_id r; course_id := course_id r; user_id := user_id r; assessment_item_id := assessment_item_id r; assessment_revision_id := assessment_revision_id r; fsrs_state := fsrs_state r; due_at := due_at r; priority := v; updated_at := updated_at r |}.

Definition set_updated_at (v : Z) (r : t) : t :=
  {| id := id r; account_id := account_id r; space_id := space_id r; course_id := course_id r; user_id := user_id r; assessment_item_id := assessment_item_id r; assessment_revision_id := assessment_revision_id r; fsrs_state := fsrs_state r; due_at := due_at r; priority := priority r; updated_at := v |}.

#[global] Instance t_eq_dec : EqDecision t.
Proof. solve_decision. Defined.

End ReviewItem.

Module LearnerProjection.
  (** Table [learner_projection]. *)
Record t := {
  id : uuid;
  account_id : uuid;
  space_id : uuid;
  course_id : uuid;
  user_id : uuid;
  concept_node_id : uuid;
  evidence_state : string;
  recall_state : string;
  confidence : option string;
  coverage : Z;
  projection_json : dict;
  updated_at : Z;
}.

Definition clash (a b : t) : option string :=
  if same (id a) (id b) then Some "learner_projection_pkey"
  else if same (account_id a) (account_id b) && same (id a) (id b) then Some "uq_learner_projection_1"
  else if same (account_id a) (account_id b) && same (user_id a) (user_id b) && same (concept_node_id a) (concept_node_id b) then Some "uq_learner_projection_user_concept"
  else None.

Definition set_evidence_state (v : string) (r : t) : t :=
  {| id := id r; account_id := account_id r; space_id := space_id r; course_id := course_id r; user_id := user_id r; concept_node_id := concept_node_id r; evidence_state := v; recall_state := recall_state r; confidence := confidence r; coverage := coverage r; projection_json := projection_json r; updated_at := updated_at r |}.

Definition set_recall_state (v : string) (r : t) : t :=
  {| id := id r; account_id := account_id r; space_id := space_id r; course_id := course_id r; user_id := user_id r; concept_node_id := concept_node_id r; evidence_state := evidence_state r; recall_state := v; confidence := confidence r; coverage := coverage r; projection_json := projection_json r; updated_at := updated_at r |}.

Definition set_projection_json (v : dict) (r : t) : t :=
  {| id := id r; account_id := account_id r; space_id := space_id r; course_id := course_id r; user_id := user_id r; concept_node_id := concept_node_id r; evidence_state := evidence_state r; recall_state := recall_state r; confidence := confidence r; coverage := coverage r; projection_json := v; updated_at := updated_at r |}.

Definition set_updated_at (v : Z) (r : t) : t :=
  {| id := id r; account_id := account_id r; space_id := space_id r; course_id := course_id r; user_id := user_id r; concept_node_id := concept_node_id r; evidence_state := evidence_state r; recall_state := recall_state r; confidence := confidence r; coverage := coverage r; projection_json := projection_json r; updated_at := v |}.

Definition set_coverage (v : Z) (r : t) : t :=
  {| id := id r; account_id := account_id r; space_id := space_id r; course_id := course_id r; user_id := user_id r; concept_node_id := concept_node_id r; evidence_state := evidence_state r; recall_state := recall_state r; confidence := confidence r; coverage := v; projection_json := projection_json r; updated_at := updated_at r |}.

#[global] Instance t_eq_dec : EqDecision t.
Proof. solve_decision. Defined.

End LearnerProjection.

Module NotionConnection.
  (** Table [notion_connection]. *)
Record t := {
  id : uuid;
  account_id : uuid;
  workspace_id : option string;
  status : string;
  oauth_stub : dict;
  token_ciphertext : option (list Z);
  token_nonce : option (list Z);
  pagination_cursor : option string;
  rate_limited_until : option Z;
  created_at : Z;
  updated_at : Z;
}.

Definition clash (a b : t) : option string :=
  if same (id a) (id b) then Some "notion_connection_pkey"
  else if same (account_id a) (account_id b) && same (id a) (id b) then Some "uq_notion_connection_1"
  else None.

Definition set_status (v : string) (r : t) : t :=
  {| id := id r; account_id := account_id r; workspace_id := workspace_id r; status := v; oauth_stub := oauth_stub r; token_ciphertext := token_ciphertext r; token_nonce := token_nonce r; pagination_cursor := pagination_cursor r; rate_limited_until := rate_limited_until r; created_at := created_at r; updated_at := updated_at r |}.

Definition set_token_ciphertext (v : option (list Z)) (r : t) : t :=
  {| id := id r; account_id := account_id r; workspace_id := workspace_id r; status := status r; oauth_stub := oauth_stub r; token_ciphertext := v; token_nonce := token_nonce r; pagination_cursor := pagination_cursor r; rate_limited_until := rate_limited_until r; created_at := created_at r; updated_at := updated_at r |}.

Definition set_token_nonce (v : option (list Z)) (r : t) : t :=
  {| id := id r; account_id := account_id r; workspace_id := workspace_id r; status := status r; oauth_stub := oauth_stub r; token_ciphertext := token_ciphertext r; token_nonce := v; pagination_cursor := pagination_cursor r; rate_limited_until := rate_limited_until r; created_at := created_at r; updated_at := updated_at r |}.

Definition set_pagination_cursor (v : option string) (r : t) : t :=
  {| id := id r; account_id := account_id r; workspace_id := workspace_id r; status := status r; oauth_stub := oauth_stub r; token_ciphertext := token_ciphertext r; token_nonce := token_nonce r; pagination_cursor := v; rate_limited_until := rate_limited_until r; created_at := created_at r; updated_at := updated_at r |}.

Definition set_rate_limited_until (v : option Z) (r : t) : t :=
  {| id := id r; account_id := account_id r; workspace_id := workspace_id r; status := status r; oauth_stub := oauth_stub r; token_ciphertext := token_ciphertext r; token_nonce := token_nonce r; pagination_cursor := pagination_cursor r; rate_limited_until := v; created_at := created_at r; updated_at := updated_at r |}.

Definition set_updated_at (v : Z) (r : t) : t :=
  {| id := id r; account_id := account_id r; workspace_id := workspace_id r; status := status r; oauth_stub := oauth_stub r; token_ciphertext := token_ciphertext r; token_nonce := token_nonce r; pagination_cursor := pagination_cursor r; rate_limited_until := rate_limited_until r; created_at := created_at r; updated_at := v |}.

Definition set_workspace_id (v : option string) (r : t) : t :=
  {| id := id r; account_id := account_id r; workspace_id := v; status := status r; oauth_stub := oauth_stub r; token_ciphertext := token_ciphertext r; token_nonce := token_nonce r; pagination_cursor := pagination_cursor r; rate_limited_until := rate_limited_until r; created_at := created_at r; updated_at := updated_at r |}.

Definition set_oauth_stub (v : dict) (r : t) : t :=
  {| id := id r; account_id := account_id r; workspace_id := workspace_id r; status := status r; oauth_stub := v; token_ciphertext := token_ciphertext r; token_nonce := token_nonce r; pagination_cursor := pagination_cursor r; rate_limited_until := rate_limited_until r; created_at := created_at r; updated_at := updated_at r |}.

#[global] Instance t_eq_dec : EqDecision t.
Proof. solve_decision. Defined.

End NotionConnection.

Module NotionPageBinding.
  (** Table [notion_page_binding]. *)
Record t := {
  id : uuid;
  account_id : uuid;
  space_id : uuid;
  connection_id : uuid;
  source_id : option uuid;
  notion_page_id : string;
  title : string;
  direction : string;
  sync_state : string;
  conflict_state : option string;
  last_snapshot_sha256 : option string;
  created_at : Z;
  updated_at : Z;
}.

Definition clash (a b : t) : option string :=
  if same (id a) (id b) then Some "notion_page_binding_pkey"
  else if same (account_id a) (account_id b) && same (id a) (id b) then Some "uq_notion_page_binding_1"
  else if same (account_id a) (account_id b) && same (connection_id a) (connection_id b) && same (notion_page_id a) (notion_page_id b) then Some "uq_notion_page_binding_page"
  else None.

Definition set_source_id (v : option uuid) (r : t) : t :=
  {| id := id r; account_id := account_id r; space_id := space_id r; connection_id := connection_id r; source_id := v; notion_page_id := notion_page_id r; title := title r; direction := direction r; sync_state := sync_state r; conflict_state := conflict_state r; last_snapshot_sha256 := last_snapshot_sha256 r; created_at := created_at r; updated_at := updated_at r |}.

Definition set_title (v : string) (r : t) : t :=
  {| id := id r; account_id := account_id r; space_id := space_id r; connection_id := connection_id r; source_id := source_id r; notion_page_id := notion_page_id r; title := v; direction := direction r; sync_state := sync_state r; conflict_state := conflict_state r; last_snapshot_sha256 := last_snapshot_sha256 r; created_at := created_at r; updated_at := updated_at r |}.

Definition set_sync_state (v : string) (r : t) : t :=
  {| id := id r; account_id := account_id r; space_id := space_id r; connection_id := connection_id r; source_id := source_id r; notion_page_id := notion_page_id r; title := title r; direction := direction r; sync_state := v; conflict_state := conflict_state r; last_snapshot_sha256 := last_snapshot_sha256 r; created_at := created_at r; updated_at := updated_at r |}.

Definition set_conflict_state (v : option string) (r : t) : t :=
  {| id := id r; account_id := account_id r; space_id := space_id r; connection_id := connection_id r; source_id := source_id r; notion_page_id := notion_page_id r; title := title r; direction := direction r; sync_state := sync_state r; conflict_state := v; last_snapshot_sha256 := last_snapshot_sha256 r; created_at := created_at r; updated_at := updated_at r |}.

Definition set_last_snapshot_sha256 (v : option string) (r : t) : t :=
  {| id := id r; account_id := account_id r; space_id := space_id r; connection_id := connection_id r; source_id := source_id r; notion_page_id := notion_page_id r; title := title r; direction := direction r; sync_state := sync_state r; conflict_state := conflict_state r; last_snapshot_sha256 := v; created_at := created_at r; updated_at := updated_at r |}.

Definition set_updated_at (v : Z) (r : t) : t :=
  {| id := id r; account_id := account_id r; space_id := space_id r; connection_id := connection_id r; source_id := source_id r; notion_page_id := notion_page_id r; title := title r; direction := direction r; sync_state := sync_state r; conflict_state := conflict_state r; last_snapshot_sha256 := last_snapshot_sha256 r; created_at := created_at r; updated_at := v |}.

Definition set_direction (v : string) (r : t) : t :=
  {| id := id r; account_id := account_id r; space_id := space_id r; connection_id := connection_id r; source_id := source_id r; notion_page_id := notion_page_id r; title := title r; direction := v; sync_state := sync_state r; conflict_state := conflict_state r; last_snapshot_sha256 := last_snapshot_sha256 r; created_at := created_at r; updated_at := updated_at r |}.

#[global] Instance t_eq_dec : EqDecision t.
Proof. solve_decision. Defined.

End NotionPageBinding.

Module DeletionTombstone.
  (** Table [deletion_tombstone]. *)
Record t := {
  id : uuid;
  account_id : uuid;
  entity_type : string;
  entity_id : uuid;
  space_id : option uuid;
  restore_key : option string;
  tombstoned_at : Z;
}.

Definition clash (a b : t) : option string :=
  if same (id a) (id b) then Some "deletion_tombstone_pkey"
  else if same (account_id a) (account_id b) && same (id a) (id b) then Some "uq_deletion_tombstone_1"
  else if same (account_id a) (account_id b) && same (entity_type a) (entity_type b) && same (entity_id a) (entity_id b) then Some "uq_deletion_tombstone_entity"
  else None.

#[global] Instance t_eq_dec : EqDecision t.
Proof. solve_decision. Defined.

End DeletionTombstone.

Module ExportJob.
  (** Table [export_job]. *)
Record t := {
  id : uuid;
  account_id : uuid;
  space_id : option uuid;
  status : string;
  workflow_state : string;
  package_object_key : option string;
  package_sha256 : option string;
  manifest_json : option dict;
  created_at : Z;
  completed_at : option Z;
}.

Definition clash (a b : t) : option string :=
  if same (id a) (id b) then Some "export_job_pkey"
  else if same (account_id a) (account_id b) && same (id a) (id b) then Some "uq_export_job_1"
  else None.

Definition set_status (v : string) (r : t) : t :=
  {| id := id r; account_id := account_id r; space_id := space_id r; status := v; workflow_state := workflow_state r; package_object_key := package_object_key r; package_sha256 := package_sha256 r; manifest_json := manifest_json r; created_at := created_at r; completed_at := completed_at r |}.

Definition set_workflow_state (v : string) (r : t) : t :=
  {| id := id r; account_id := account_id r; space_id := space_id r; status := status r; workflow_state := v; package_object_key := package_object_key r; package_sha256 := package_sha256 r; manifest_json := manifest_json r; created_at := created_at r; completed_at := completed_at r |}.

Definition set_package_object_key (v : option string) (r : t) : t :=
  {| id := id r; account_id := account_id r; space_id := space_id r; status := status r; workflow_state := workflow_state r; package_object_key := v; package_sha256 := package_sha256 r; manifest_json := manifest_json r; created_at := created_at r; completed_at := completed_at r |}.

Definition set_package_sha256 (v : option string) (r : t) : t :=
  {| id := id r; account_id := account_id r; space_id := space_id r; status := status r; workflow_state := workflow_state r; package_object_key := package_object_key r; package_sha256 := v; manifest_json := manifest_json r; created_at := created_at r; completed_at := completed_at r |}.

Definition set_manifest_json (v : option dict) (r : t) : t :=
  {| id := id r; account_id := account_id r; space_id := space_id r; status := status r; workflow_state := workflow_state r; package_object_key := package_object_key r; package_sha256 := package_sha256 r; manifest_json := v; created_at := created_at r; completed_at := completed_at r |}.

Definition set_completed_at (v : option Z) (r : t) : t :=
  {| id := id r; account_id := account_id r; space_id := space_id r; status := status r; workflow_state := workflow_state r; package_object_key := package_object_key r; package_sha256 := package_sha256 r; manifest_json := manifest_json r; created_at := created_at r; completed_at := v |}.

#[global] Instance t_eq_dec : EqDecision t.
Proof. solve_decision. Defined.

End ExportJob.

Module SemanticProjection.
  (** Table [semantic_projection]. *)
Record t := {
  id : uuid;
  account_id : uuid;
  space_id : uuid;
  profile_version : string;
  canonical_type : string;
  canonical_id : uuid;
  canonical_revision_id : uuid;
  embedding : (list Z);
  payload_hash : string;
  status : string;
  indexed_at : Z;
}.

Definition clash (a b : t) : option string :=
  if same (id a) (id b) then Some "semantic_projection_pkey"
  else if same (account_id a) (account_id b) && same (id a) (id b) then Some "uq_semantic_projection_1"
  else if same (account_id a) (account_id b) && same (profile_version a) (profile_version b) && same (canonical_type a) (canonical_type b) && same (canonical_id a) (canonical_id b) && same (canonical_revision_id a) (canonical_revision_id b) then Some "uq_semantic_projection_canonical"
  else None.

Definition set_status (v : string) (r : t) : t :=
  {| id := id r; account_id := account_id r; space_id := space_id r; profile_version := profile_version r; canonical_type := canonical_type r; canonical_id := canonical_id r; canonical_revision_id := canonical_revision_id r; embedding := embedding r; payload_hash := payload_hash r; status := v; indexed_at := indexed_at r |}.

#[global] Instance t_eq_dec : EqDecision t.
Proof. solve_decision. Defined.

End SemanticProjection.

Module AssessmentAttempt.
  (** Table [assessment_attempt]. *)
Record t := {
  id : uuid;
  account_id : uuid;
  space_id : uuid;
  user_id : uuid;
  course_id : uuid;
  assessment_item_id : uuid;
  assessment_revision_id : uuid;
  response_json : dict;
  confidence : option string;
  hint_revealed : bool;
  answer_revealed : bool;
  feedback_at : option Z;
  status : string;
  client_attempt_id : option string;
  created_at : Z;
}.

Definition clash (a b : t) : option string :=
  if same (id a) (id b) then Some "assessment_attempt_pkey"
  else if same (account_id a) (account_id b) && same (id a) (id b) then Some "uq_assessment_attempt_1"
  else if same (account_id a) (account_id b) && opt_same (client_attempt_id a) (client_attempt_id b) then Some "uq_assessment_attempt_client"
  else None.

Definition set_answer_revealed (v : bool) (r : t) : t :=
  {| id := id r; account_id := account_id r; space_id := space_id r; user_id := user_id r; course_id := course_id r; assessment_item_id := assessment_item_id r; assessment_revision_id := assessment_revision_id r; response_json := response_json r; confidence := confidence r; hint_revealed := hint_revealed r; answer_revealed := v; feedback_at := feedback_at r; status := status r; client_attempt_id := client_attempt_id r; created_at := created_at r |}.

Definition set_hint_revealed (v : bool) (r : t) : t :=
  {| id := id r; account_id := account_id r; space_id := space_id r; user_id := user_id r; course_id := course_id r; assessment_item_id := assessment_item_id r; assessment_revision_id := assessment_revision_id r; response_json := response_json r; confidence := confidence r; hint_revealed := v; answer_revealed := answer_revealed r; feedback_at := feedback_at r; status := status r; client_attempt_id := client_attempt_id r; created_at := created_at r |}.

Definition set_status (v : string) (r : t) : t :=
  {| id := id r; account_id := account_id r; space_id := space_id r; user_id := user_id r; course_id := course_id r; assessment_item_id := assessment_item_id r; assessment_revision_id := assessment_revision_id r; response_json := response_json r; confidence := confidence r; hint_revealed := hint_revealed r; answer_revealed := answer_revealed r; feedback_at := feedback_at r; status := v; client_attempt_id := client_attempt_id r; created_at := created_at r |}.

Definition set_response_json (v : dict) (r : t) : t :=
  {| id := id r; account_id := account_id r; space_id := space_id r; user_id := user_id r; course_id := course_id r; assessment_item_id := assessment_item_id r; assessment_revision_id := assessment_revision_id r; response_json := v; confidence := confidence r; hint_revealed := hint_revealed r; answer_revealed := answer_revealed r; feedback_at := feedback_at r; status := status r; client_attempt_id := client_attempt_id r; created_at := created_at r |}.

Definition set_confidence (v : option string) (r : t) : t :=
  {| id := id r; account_id := account_id r; space_id := space_id r; user_id := user_id r; course_id := course_id r; assessment_item_id := assessment_item_id r; assessment_revision_id := assessment_revision_id r; response_json := response_json r; confidence := v; hint_revealed := hint_revealed r; answer_revealed := answer_revealed r; feedback_at := feedback_at r; status := status r; client_attempt_id := client_attempt_id r; created_at := created_at r |}.

Definition set_feedback_at (v : option Z) (r : t) : t :=
  {| id := id r; account_id := account_id r; space_id := space_id r; user_id := user_id r; course_id := course_id r; assessment_item_id := assessment_item_id r; assessment_revision_id := assessment_revision_id r; response_json := response_json r; confidence := confidence r; hint_revealed := hint_revealed r; answer_revealed := answer_revealed r; feedback_at := v; status := status r; client_attempt_id := client_attempt_id r; created_at := created_at r |}.

#[global] Instance t_eq_dec : EqDecision t.
Proof. solve_decision. Defined.

End AssessmentAttempt.

Module DeletionWorkflow.
  (** Table [deletion_workflow]. *)
Record t := {
  id : uuid;
  account_id : uuid;
  entity_type : string;
  entity_id : uuid;
  space_id : option uuid;
  state : string;
  tombstone_id : option uuid;
  created_at : Z;
  updated_at : Z;
}.

Definition clash (a b : t) : option string :=
  if same (id a) (id b) then Some "deletion_workflow_pkey"
  else if same (account_id a) (account_id b) && same (id a) (id b) then Some "uq_deletion_workflow_1"
  else None.

Definition set_state (v : string) (r : t) : t :=
  {| id := id r; account_id := account_id r; entity_type := entity_type r; entity_id := entity_id r; space_id := space_id r; state := v; tombstone_id := tombstone_id r; created_at := created_at r; updated_at := updated_at r |}.

Definition set_updated_at (v : Z) (r : t) : t :=
  {| id := id r; account_id := account_id r; entity_type := entity_type r; entity_id := entity_id r; space_id := space_id r; state := state r; tombstone_id := tombstone_id r; created_at := created_at r; updated_at := v |}.

#[global] Instance t_eq_dec : EqDecision t.
Proof. solve_decision. Defined.

End DeletionWorkflow.

Record Db := {
  t_account : list Account.t;
  t_user : list User.t;
  t_account_member : list AccountMember.t;
  t_space : list Space.t;
  t_space_member : list SpaceMember.t;
  t_hosted_adult_attestation : list HostedAdultAttestation.t;
  t_external_identity : list ExternalIdentity.t;
  t_actor : list Actor.t;
  t_browser_session : list BrowserSession.t;
  t_session_revocation : list SessionRevocation.t;
  t_external_client_grant : list ExternalClientGrant.t;
  t_operator_bootstrap : list OperatorBootstrap.t;
  t_oidc_login_challenge : list OidcLoginChallenge.t;
  t_oidc_token_replay : list OidcTokenReplay.t;
  t_service_auth_nonce : list ServiceAuthNonce.t;
  t_source : list Source.t;
  t_source_revision : list SourceRevision.t;
  t_source_blob : list SourceBlob.t;
  t_authored_document : list AuthoredDocument.t;
  t_document_revision : list DocumentRevision.t;
  t_parse_run : list ParseRun.t;
  t_document_element : list DocumentElement.t;
  t_provenance_record : list ProvenanceRecord.t;
  t_truth_classification : list TruthClassification.t;
  t_conflict_set : list ConflictSet.t;
  t_conflict_member : list ConflictMember.t;
  t_proposal : list Proposal.t;
  t_conversation : list Conversation.t;
  t_conversation_turn : list ConversationTurn.t;
  t_audit_event : list AuditEvent.t;
  t_current_source_revision : list CurrentSourceRevision.t;
  t_current_document_revision : list CurrentDocumentRevision.t;
  t_outbox_event : list OutboxEvent.t;
  t_idempotency_record : list IdempotencyRecord.t;
  t_durable_job : list DurableJob.t;
  t_job_attempt : list JobAttempt.t;
  t_projection_state : list ProjectionState.t;
  t_upload_intent : list UploadIntent.t;
  t_current_active_parse_run : list CurrentActiveParseRun.t;
  t_memory_item : list MemoryItem.t;
  t_memory_revision : list MemoryRevision.t;
  t_current_memory_revision : list CurrentMemoryRevision.t;
  t_projection : list Projection.t;
  t_context_receipt : list ContextReceipt.t;
  t_context_receipt_item : list ContextReceiptItem.t;
  t_course : list Course.t;
  t_curriculum_node : list CurriculumNode.t;
  t_curriculum_edge : list CurriculumEdge.t;
  t_assessment_item : list AssessmentItem.t;
  t_assessment_revision : list AssessmentRevision.t;
  t_current_assessment_revision : list CurrentAssessmentRevision.t;
  t_learner_event : list LearnerEvent.t;
  t_review_item : list ReviewItem.t;
  t_learner_projection : list LearnerProjection.t;
  t_notion_connection : list NotionConnection.t;
  t_notion_page_binding : list NotionPageBinding.t;
  t_deletion_tombstone : list DeletionTombstone.t;
  t_export_job : list ExportJob.t;
  t_semantic_projection : list SemanticProjection.t;
  t_assessment_attempt : list AssessmentAttempt.t;
  t_deletion_workflow : list DeletionWorkflow.t;
}.

Definition empty_db : Db :=
  {| t_account := []; t_user := []; t_account_member := []; t_space := []; t_space_member := []; t_hosted_adult_attestation := []; t_external_identity := []; t_actor := []; t_browser_session := []; t_session_revocation := []; t_external_client_grant := []; t_operator_bootstrap := []; t_oidc_login_challenge := []; t_oidc_token_replay := []; t_service_auth_nonce := []; t_source := []; t_source_revision := []; t_source_blob := []; t_authored_document := []; t_document_revision := []; t_parse_run := []; t_document_element := []; t_provenance_record := []; t_truth_classification := []; t_conflict_set := []; t_conflict_member := []; t_proposal := []; t_conversation := []; t_conversation_turn := []; t_audit_event := []; t_current_source_revision := []; t_current_document_revision := []; t_outbox_event := []; t_idempotency_record := []; t_durable_job := []; t_job_attempt := []; t_projection_state := []; t_upload_intent := []; t_current_active_parse_run := []; t_memory_item := []; t_memory_revision := []; t_current_memory_revision := []; t_projection := []; t_context_receipt := []; t_context_receipt_item := []; t_course := []; t_curriculum_node := []; t_curriculum_edge := []; t_assessment_item := []; t_assessment_revision := []; t_current_assessment_revision := []; t_learner_event := []; t_review_item := []; t_learner_projection := []; t_notion_connection := []; t_notion_page_binding := []; t_deletion_tombstone := []; t_export_job := []; t_semantic_projection := []; t_assessment_attempt := []; t_deletion_workflow := [] |}.

Class Table (R : Type) := {
  rows : Db -> list R;
  set_rows : list R -> Db -> Db;
  clash : R -> R -> option string;
  row_id : R -> uuid; (* 0 for a table keyed by a text, which no [update] addresses *)
  rows_set_rows : forall l db, rows (set_rows l db) = l;
}.
#[global] Arguments rows : simpl never.
#[global] Arguments set_rows : simpl never.
#[global] Arguments row_id : simpl never.

#[global] Instance account_table : Table Account.t := {|
  rows := t_account;
  set_rows l db := {| t_account := l; t_user := t_user db; t_account_member := t_account_member db; t_space := t_space db; t_space_member := t_space_member db; t_hosted_adult_attestation := t_hosted_adult_attestation db; t_external_identity := t_external_identity db; t_actor := t_actor db; t_browser_session := t_browser_session db; t_session_revocation := t_session_revocation db; t_external_client_grant := t_external_client_grant db; t_operator_bootstrap := t_operator_bootstrap db; t_oidc_login_challenge := t_oidc_login_challenge db; t_oidc_token_replay := t_oidc_token_replay db; t_service_auth_nonce := t_service_auth_nonce db; t_source := t_source db; t_source_revision := t_source_revision db; t_source_blob := t_source_blob db; t_authored_document := t_authored_document db; t_document_revision := t_document_revision db; t_parse_run := t_parse_run db; t_document_element := t_document_element db; t_provenance_record := t_provenance_record db; t_truth_classification := t_truth_classification db; t_conflict_set := t_conflict_set db; t_conflict_member := t_conflict_member db; t_proposal := t_proposal db; t_conversation := t_conversation db; t_conversation_turn := t_conversation_turn db; t_audit_event := t_audit_event db; t_current_source_revision := t_current_source_revision db; t_current_document_revision := t_current_document_revision db; t_outbox_event := t_outbox_event db; t_idempotency_record := t_idempotency_record db; t_durable_job := t_durable_job db; t_job_attempt := t_job_attempt db; t_projection_state := t_projection_state db; t_upload_intent := t_upload_intent db; t_current_active_parse_run := t_current_active_parse_run db; t_memory_item := t_memory_item db; t_memory_revision := t_memory_revision db; t_current_memory_revision := t_current_memory_revision db; t_projection := t_projection db; t_context_receipt := t_context_receipt db; t_context_receipt_item := t_context_receipt_item db; t_course := t_course db; t_curriculum_node := t_curriculum_node db; t_curriculum_edge := t_curriculum_edge db; t_assessment_item := t_assessment_item db; t_assessment_revision := t_assessment_revision db; t_current_assessment_revision := t_current_assessment_revision db; t_learner_event := t_learner_event db; t_review_item := t_review_item db; t_learner_projection := t_learner_projection db; t_notion_connection := t_notion_connection db; t_notion_page_binding := t_notion_page_binding db; t_deletion_tombstone := t_deletion_tombstone db; t_export_job := t_export_job db; t_semantic_projection := t_semantic_projection db; t_assessment_attempt := t_assessment_attempt db; t_deletion_workflow := t_deletion_workflow db |};
  clash := Account.clash;
  row_id := Account.id;
  rows_set_rows _ _ := eq_refl;
|}.

#[global] Instance user_table : Table User.t := {|
  rows := t_user;
  set_rows l db := {| t_account := t_account db; t_user := l; t_account_member := t_account_member db; t_space := t_space db; t_space_member := t_space_member db; t_hosted_adult_attestation := t_hosted_adult_attestation db; t_external_identity := t_external_identity db; t_actor := t_actor db; t_browser_session := t_browser_session db; t_session_revocation := t_session_revocation db; t_external_client_grant := t_external_client_grant db; t_operator_bootstrap := t_operator_bootstrap db; t_oidc_login_challenge := t_oidc_login_challenge db; t_oidc_token_replay := t_oidc_token_replay db; t_service_auth_nonce := t_service_auth_nonce db; t_source := t_source db; t_source_revision := t_source_revision db; t_source_blob := t_source_blob db; t_authored_document := t_authored_document db; t_document_revision := t_document_revision db; t_parse_run := t_parse_run db; t_document_element := t_document_element db; t_provenance_record := t_provenance_record db; t_truth_classification := t_truth_classification db; t_conflict_set := t_conflict_set db; t_conflict_member := t_conflict_member db; t_proposal := t_proposal db; t_conversation := t_conversation db; t_conversation_turn := t_conversation_turn db; t_audit_event := t_audit_event db; t_current_source_revision := t_current_source_revision db; t_current_document_revision := t_current_document_revision db; t_outbox_event := t_outbox_event db; t_idempotency_record := t_idempotency_record db; t_durable_job := t_durable_job db; t_job_attempt := t_job_attempt db; t_projection_state := t_projection_state db; t_upload_intent := t_upload_intent db; t_current_active_parse_run := t_current_active_parse_run db; t_memory_item := t_memory_item db; t_memory_revision := t_memory_revision db; t_current_memory_revision := t_current_memory_revision db; t_projection := t_projection db; t_context_receipt := t_context_receipt db; t_context_receipt_item := t_context_receipt_item db; t_course := t_course db; t_curriculum_node := t_curriculum_node db; t_curriculum_edge := t_curriculum_edge db; t_assessment_item := t_assessment_item db; t_assessment_revision := t_assessment_revision db; t_current_assessment_revision := t_current_assessment_revision db; t_learner_event := t_learner_event db; t_review_item := t_review_item db; t_learner_projection := t_learner_projection db; t_notion_connection := t_notion_connection db; t_notion_page_binding := t_notion_page_binding db; t_deletion_tombstone := t_deletion_tombstone db; t_export_job := t_export_job db; t_semantic_projection := t_semantic_projection db; t_assessment_attempt := t_assessment_attempt db; t_deletion_workflow := t_deletion_workflow db |};
  clash := User.clash;
  row_id := User.id;
  rows_set_rows _ _ := eq_refl;
|}.

#[global] Instance account_member_table : Table AccountMember.t := {|
  rows := t_account_member;
  set_rows l db := {| t_account := t_account db; t_user := t_user db; t_account_member := l; t_space := t_space db; t_space_member := t_space_member db; t_hosted_adult_attestation := t_hosted_adult_attestation db; t_external_identity := t_external_identity db; t_actor := t_actor db; t_browser_session := t_browser_session db; t_session_revocation := t_session_revocation db; t_external_client_grant := t_external_client_grant db; t_operator_bootstrap := t_operator_bootstrap db; t_oidc_login_challenge := t_oidc_login_challenge db; t_oidc_token_replay := t_oidc_token_replay db; t_service_auth_nonce := t_service_auth_nonce db; t_source := t_source db; t_source_revision := t_source_revision db; t_source_blob := t_source_blob db; t_authored_document := t_authored_document db; t_document_revision := t_document_revision db; t_parse_run := t_parse_run db; t_document_element := t_document_element db; t_provenance_record := t_provenance_record db; t_truth_classification := t_truth_classification db; t_conflict_set := t_conflict_set db; t_conflict_member := t_conflict_member db; t_proposal := t_proposal db; t_conversation := t_conversation db; t_conversation_turn := t_conversation_turn db; t_audit_event := t_audit_event db; t_current_source_revision := t_current_source_revision db; t_current_document_revision := t_current_document_revision db; t_outbox_event := t_outbox_event db; t_idempotency_record := t_idempotency_record db; t_durable_job := t_durable_job db; t_job_attempt := t_job_attempt db; t_projection_state := t_projection_state db; t_upload_intent := t_upload_intent db; t_current_active_parse_run := t_current_active_parse_run db; t_memory_item := t_memory_item db; t_memory_revision := t_memory_revision db; t_current_memory_revision := t_current_memory_revision db; t_projection := t_projection db; t_context_receipt := t_context_receipt db; t_context_receipt_item := t_context_receipt_item db; t_course := t_course db; t_curriculum_node := t_curriculum_node db; t_curriculum_edge := t_curriculum_edge db; t_assessment_item := t_assessment_item db; t_assessment_revision := t_assessment_revision db; t_current_assessment_revision := t_current_assessment_revision db; t_learner_event := t_learner_event db; t_review_item := t_review_item db; t_learner_projection := t_learner_projection db; t_notion_connection := t_notion_connection db; t_notion_page_binding := t_notion_page_binding db; t_deletion_tombstone := t_deletion_tombstone db; t_export_job := t_export_job db; t_semantic_projection := t_semantic_projection db; t_assessment_attempt := t_assessment_attempt db; t_deletion_workflow := t_deletion_workflow db |};
  clash := AccountMember.clash;
  row_id := AccountMember.id;
  rows_set_rows _ _ := eq_refl;
|}.

#[global] Instance space_table : Table Space.t := {|
  rows := t_space;
  set_rows l db := {| t_account := t_account db; t_user := t_user db; t_account_member := t_account_member db; t_space := l; t_space_member := t_space_member db; t_hosted_adult_attestation := t_hosted_adult_attestation db; t_external_identity := t_external_identity db; t_actor := t_actor db; t_browser_session := t_browser_session db; t_session_revocation := t_session_revocation db; t_external_client_grant := t_external_client_grant db; t_operator_bootstrap := t_operator_bootstrap db; t_oidc_login_challenge := t_oidc_login_challenge db; t_oidc_token_replay := t_oidc_token_replay db; t_service_auth_nonce := t_service_auth_nonce db; t_source := t_source db; t_source_revision := t_source_revision db; t_source_blob := t_source_blob db; t_authored_document := t_authored_document db; t_document_revision := t_document_revision db; t_parse_run := t_parse_run db; t_document_element := t_document_element db; t_provenance_record := t_provenance_record db; t_truth_classification := t_truth_classification db; t_conflict_set := t_conflict_set db; t_conflict_member := t_conflict_member db; t_proposal := t_proposal db; t_conversation := t_conversation db; t_conversation_turn := t_conversation_turn db; t_audit_event := t_audit_event db; t_current_source_revision := t_current_source_revision db; t_current_document_revision := t_current_document_revision db; t_outbox_event := t_outbox_event db; t_idempotency_record := t_idempotency_record db; t_durable_job := t_durable_job db; t_job_attempt := t_job_attempt db; t_projection_state := t_projection_state db; t_upload_intent := t_upload_intent db; t_current_active_parse_run := t_current_active_parse_run db; t_memory_item := t_memory_item db; t_memory_revision := t_memory_revision db; t_current_memory_revision := t_current_memory_revision db; t_projection := t_projection db; t_context_receipt := t_context_receipt db; t_context_receipt_item := t_context_receipt_item db; t_course := t_course db; t_curriculum_node := t_curriculum_node db; t_curriculum_edge := t_curriculum_edge db; t_assessment_item := t_assessment_item db; t_assessment_revision := t_assessment_revision db; t_current_assessment_revision := t_current_assessment_revision db; t_learner_event := t_learner_event db; t_review_item := t_review_item db; t_learner_projection := t_learner_projection db; t_notion_connection := t_notion_connection db; t_notion_page_binding := t_notion_page_binding db; t_deletion_tombstone := t_deletion_tombstone db; t_export_job := t_export_job db; t_semantic_projection := t_semantic_projection db; t_assessment_attempt := t_assessment_attempt db; t_deletion_workflow := t_deletion_workflow db |};
  clash := Space.clash;
  row_id := Space.id;
  rows_set_rows _ _ := eq_refl;
|}.

#[global] Instance space_member_table : Table SpaceMember.t := {|
  rows := t_space_member;
  set_rows l db := {| t_account := t_account db; t_user := t_user db; t_account_member := t_account_member db; t_space := t_space db; t_space_member := l; t_hosted_adult_attestation := t_hosted_adult_attestation db; t_external_identity := t_external_identity db; t_actor := t_actor db; t_browser_session := t_browser_session db; t_session_revocation := t_session_revocation db; t_external_client_grant := t_external_client_grant db; t_operator_bootstrap := t_operator_bootstrap db; t_oidc_login_challenge := t_oidc_login_challenge db; t_oidc_token_replay := t_oidc_token_replay db; t_service_auth_nonce := t_service_auth_nonce db; t_source := t_source db; t_source_revision := t_source_revision db; t_source_blob := t_source_blob db; t_authored_document := t_authored_document db; t_document_revision := t_document_revision db; t_parse_run := t_parse_run db; t_document_element := t_document_element db; t_provenance_record := t_provenance_record db; t_truth_classification := t_truth_classification db; t_conflict_set := t_conflict_set db; t_conflict_member := t_conflict_member db; t_proposal := t_proposal db; t_conversation := t_conversation db; t_conversation_turn := t_conversation_turn db; t_audit_event := t_audit_event db; t_current_source_revision := t_current_source_revision db; t_current_document_revision := t_current_document_revision db; t_outbox_event := t_outbox_event db; t_idempotency_record := t_idempotency_record db; t_durable_job := t_durable_job db; t_job_attempt := t_job_attempt db; t_projection_state := t_projection_state db; t_upload_intent := t_upload_intent db; t_current_active_parse_run := t_current_active_parse_run db; t_memory_item := t_memory_item db; t_memory_revision := t_memory_revision db; t_current_memory_revision := t_current_memory_revision db; t_projection := t_projection db; t_context_receipt := t_context_receipt db; t_context_receipt_item := t_context_receipt_item db; t_course := t_course db; t_curriculum_node := t_curriculum_node db; t_curriculum_edge := t_curriculum_edge db; t_assessment_item := t_assessment_item db; t_assessment_revision := t_assessment_revision db; t_current_assessment_revision := t_current_assessment_revision db; t_learner_event := t_learner_event db; t_review_item := t_review_item db; t_learner_projection := t_learner_projection db; t_notion_connection := t_notion_connection db; t_notion_page_binding := t_notion_page_binding db; t_deletion_tombstone := t_deletion_tombstone db; t_export_job := t_export_job db; t_semantic_projection := t_semantic_projection db; t_assessment_attempt := t_assessment_attempt db; t_deletion_workflow := t_deletion_workflow db |};
  clash := SpaceMember.clash;
  row_id := SpaceMember.id;
  rows_set_rows _ _ := eq_refl;
|}.

#[global] Instance hosted_adult_attestation_table : Table HostedAdultAttestation.t := {|
  rows := t_hosted_adult_attestation;
  set_rows l db := {| t_account := t_account db; t_user := t_user db; t_account_member := t_account_member db; t_space := t_space db; t_space_member := t_space_member db; t_hosted_adult_attestation := l; t_external_identity := t_external_identity db; t_actor := t_actor db; t_browser_session := t_browser_session db; t_session_revocation := t_session_revocation db; t_external_client_grant := t_external_client_grant db; t_operator_bootstrap := t_operator_bootstrap db; t_oidc_login_challenge := t_oidc_login_challenge db; t_oidc_token_replay := t_oidc_token_replay db; t_service_auth_nonce := t_service_auth_nonce db; t_source := t_source db; t_source_revision := t_source_revision db; t_source_blob := t_source_blob db; t_authored_document := t_authored_document db; t_document_revision := t_document_revision db; t_parse_run := t_parse_run db; t_document_element := t_document_element db; t_provenance_record := t_provenance_record db; t_truth_classification := t_truth_classification db; t_conflict_set := t_conflict_set db; t_conflict_member := t_conflict_member db; t_proposal := t_proposal db; t_conversation := t_conversation db; t_conversation_turn := t_conversation_turn db; t_audit_event := t_audit_event db; t_current_source_revision := t_current_source_revision db; t_current_document_revision := t_current_document_revision db; t_outbox_event := t_outbox_event db; t_idempotency_record := t_idempotency_record db; t_durable_job := t_durable_job db; t_job_attempt := t_job_attempt db; t_projection_state := t_projection_state db; t_upload_intent := t_upload_intent db; t_current_active_parse_run := t_current_active_parse_run db; t_memory_item := t_memory_item db; t_memory_revision := t_memory_revision db; t_current_memory_revision := t_current_memory_revision db; t_projection := t_projection db; t_context_receipt := t_context_receipt db; t_context_receipt_item := t_context_receipt_item db; t_course := t_course db; t_curriculum_node := t_curriculum_node db; t_curriculum_edge := t_curriculum_edge db; t_assessment_item := t_assessment_item db; t_assessment_revision := t_assessment_revision db; t_current_assessment_revision := t_current_assessment_revision db; t_learner_event := t_learner_event db; t_review_item := t_review_item db; t_learner_projection := t_learner_projection db; t_notion_connection := t_notion_connection db; t_notion_page_binding := t_notion_page_binding db; t_deletion_tombstone := t_deletion_tombstone db; t_export_job := t_export_job db; t_semantic_projection := t_semantic_projection db; t_assessment_attempt := t_assessment_attempt db; t_deletion_workflow := t_deletion_workflow db |};
  clash := HostedAdultAttestation.clash;
  row_id := HostedAdultAttestation.id;
  rows_set_rows _ _ := eq_refl;
|}.

#[global] Instance external_identity_table : Table ExternalIdentity.t := {|
  rows := t_external_identity;
  set_rows l db := {| t_account := t_account db; t_user := t_user db; t_account_member := t_account_member db; t_space := t_space db; t_space_member := t_space_member db; t_hosted_adult_attestation := t_hosted_adult_attestation db; t_external_identity := l; t_actor := t_actor db; t_browser_session := t_browser_session db; t_session_revocation := t_session_revocation db; t_external_client_grant := t_external_client_grant db; t_operator_bootstrap := t_operator_bootstrap db; t_oidc_login_challenge := t_oidc_login_challenge db; t_oidc_token_replay := t_oidc_token_replay db; t_service_auth_nonce := t_service_auth_nonce db; t_source := t_source db; t_source_revision := t_source_revision db; t_source_blob := t_source_blob db; t_authored_document := t_authored_document db; t_document_revision := t_document_revision db; t_parse_run := t_parse_run db; t_document_element := t_document_element db; t_provenance_record := t_provenance_record db; t_truth_classification := t_truth_classification db; t_conflict_set := t_conflict_set db; t_conflict_member := t_conflict_member db; t_proposal := t_proposal db; t_conversation := t_conversation db; t_conversation_turn := t_conversation_turn db; t_audit_event := t_audit_event db; t_current_source_revision := t_current_source_revision db; t_current_document_revision := t_current_document_revision db; t_outbox_event := t_outbox_event db; t_idempotency_record := t_idempotency_record db; t_durable_job := t_durable_job db; t_job_attempt := t_job_attempt db; t_projection_state := t_projection_state db; t_upload_intent := t_upload_intent db; t_current_active_parse_run := t_current_active_parse_run db; t_memory_item := t_memory_item db; t_memory_revision := t_memory_revision db; t_current_memory_revision := t_current_memory_revision db; t_projection := t_projection db; t_context_receipt := t_context_receipt db; t_context_receipt_item := t_context_receipt_item db; t_course := t_course db; t_curriculum_node := t_curriculum_node db; t_curriculum_edge := t_curriculum_edge db; t_assessment_item := t_assessment_item db; t_assessment_revision := t_assessment_revision db; t_current_assessment_revision := t_current_assessment_revision db; t_learner_event := t_learner_event db; t_review_item := t_review_item db; t_learner_projection := t_learner_projection db; t_notion_connection := t_notion_connection db; t_notion_page_binding := t_notion_page_binding db; t_deletion_tombstone := t_deletion_tombstone db; t_export_job := t_export_job db; t_semantic_projection := t_semantic_projection db; t_assessment_attempt := t_assessment_attempt db; t_deletion_workflow := t_deletion_workflow db |};
  clash := ExternalIdentity.clash;
  row_id := ExternalIdentity.id;
  rows_set_rows _ _ := eq_refl;
|}.

#[global] Instance actor_table : Table Actor.t := {|
  rows := t_actor;
  set_rows l db := {| t_account := t_account db; t_user := t_user db; t_account_member := t_account_member db; t_space := t_space db; t_space_member := t_space_member db; t_hosted_adult_attestation := t_hosted_adult_attestation db; t_external_identity := t_external_identity db; t_actor := l; t_browser_session := t_browser_session db; t_session_revocation := t_session_revocation db; t_external_client_grant := t_external_client_grant db; t_operator_bootstrap := t_operator_bootstrap db; t_oidc_login_challenge := t_oidc_login_challenge db; t_oidc_token_replay := t_oidc_token_replay db; t_service_auth_nonce := t_service_auth_nonce db; t_source := t_source db; t_source_revision := t_source_revision db; t_source_blob := t_source_blob db; t_authored_document := t_authored_document db; t_document_revision := t_document_revision db; t_parse_run := t_parse_run db; t_document_element := t_document_element db; t_provenance_record := t_provenance_record db; t_truth_classification := t_truth_classification db; t_conflict_set := t_conflict_set db; t_conflict_member := t_conflict_member db; t_proposal := t_proposal db; t_conversation := t_conversation db; t_conversation_turn := t_conversation_turn db; t_audit_event := t_audit_event db; t_current_source_revision := t_current_source_revision db; t_current_document_revision := t_current_document_revision db; t_outbox_event := t_outbox_event db; t_idempotency_record := t_idempotency_record db; t_durable_job := t_durable_job db; t_job_attempt := t_job_attempt db; t_projection_state := t_projection_state db; t_upload_intent := t_upload_intent db; t_current_active_parse_run := t_current_active_parse_run db; t_memory_item := t_memory_item db; t_memory_revision := t_memory_revision db; t_current_memory_revision := t_current_memory_revision db; t_projection := t_projection db; t_context_receipt := t_context_receipt db; t_context_receipt_item := t_context_receipt_item db; t_course := t_course db; t_curriculum_node := t_curriculum_node db; t_curriculum_edge := t_curriculum_edge db; t_assessment_item := t_assessment_item db; t_assessment_revision := t_assessment_revision db; t_current_assessment_revision := t_current_assessment_revision db; t_learner_event := t_learner_event db; t_review_item := t_review_item db; t_learner_projection := t_learner_projection db; t_notion_connection := t_notion_connection db; t_notion_page_binding := t_notion_page_binding db; t_deletion_tombstone := t_deletion_tombstone db; t_export_job := t_export_job db; t_semantic_projection := t_semantic_projection db; t_assessment_attempt := t_assessment_attempt db; t_deletion_workflow := t_deletion_workflow db |};
  clash := Actor.clash;
  row_id := Actor.id;
  rows_set_rows _ _ := eq_refl;
|}.

#[global] Instance browser_session_table : Table BrowserSession.t := {|
  rows := t_browser_session;
  set_rows l db := {| t_account := t_account db; t_user := t_user db; t_account_member := t_account_member db; t_space := t_space db; t_space_member := t_space_member db; t_hosted_adult_attestation := t_hosted_adult_attestation db; t_external_identity := t_external_identity db; t_actor := t_actor db; t_browser_session := l; t_session_revocation := t_session_revocation db; t_external_client_grant := t_external_client_grant db; t_operator_bootstrap := t_operator_bootstrap db; t_oidc_login_challenge := t_oidc_login_challenge db; t_oidc_token_replay := t_oidc_token_replay db; t_service_auth_nonce := t_service_auth_nonce db; t_source := t_source db; t_source_revision := t_source_revision db; t_source_blob := t_source_blob db; t_authored_document := t_authored_document db; t_document_revision := t_document_revision db; t_parse_run := t_parse_run db; t_document_element := t_document_element db; t_provenance_record := t_provenance_record db; t_truth_classification := t_truth_classification db; t_conflict_set := t_conflict_set db; t_conflict_member := t_conflict_member db; t_proposal := t_proposal db; t_conversation := t_conversation db; t_conversation_turn := t_conversation_turn db; t_audit_event := t_audit_event db; t_current_source_revision := t_current_source_revision db; t_current_document_revision := t_current_document_revision db; t_outbox_event := t_outbox_event db; t_idempotency_record := t_idempotency_record db; t_durable_job := t_durable_job db; t_job_attempt := t_job_attempt db; t_projection_state := t_projection_state db; t_upload_intent := t_upload_intent db; t_current_active_parse_run := t_current_active_parse_run db; t_memory_item := t_memory_item db; t_memory_revision := t_memory_revision db; t_current_memory_revision := t_current_memory_revision db; t_projection := t_projection db; t_context_receipt := t_context_receipt db; t_context_receipt_item := t_context_receipt_item db; t_course := t_course db; t_curriculum_node := t_curriculum_node db; t_curriculum_edge := t_curriculum_edge db; t_assessment_item := t_assessment_item db; t_assessment_revision := t_assessment_revision db; t_current_assessment_revision := t_current_assessment_revision db; t_learner_event := t_learner_event db; t_review_item := t_review_item db; t_learner_projection := t_learner_projection db; t_notion_connection := t_notion_connection db; t_notion_page_binding := t_notion_page_binding db; t_deletion_tombstone := t_deletion_tombstone db; t_export_job := t_export_job db; t_semantic_projection := t_semantic_projection db; t_assessment_attempt := t_assessment_attempt db; t_deletion_workflow := t_deletion_workflow db |};
  clash := BrowserSession.clash;
  row_id := BrowserSession.id;
  rows_set_rows _ _ := eq_refl;
|}.

#[global] Instance session_revocation_table : Table SessionRevocation.t := {|
  rows := t_session_revocation;
  set_rows l db := {| t_account := t_account db; t_user := t_user db; t_account_member := t_account_member db; t_space := t_space db; t_space_member := t_space_member db; t_hosted_adult_attestation := t_hosted_adult_attestation db; t_external_identity := t_external_identity db; t_actor := t_actor db; t_browser_session := t_browser_session db; t_session_revocation := l; t_external_client_grant := t_external_client_grant db; t_operator_bootstrap := t_operator_bootstrap db; t_oidc_login_challenge := t_oidc_login_challenge db; t_oidc_token_replay := t_oidc_token_replay db; t_service_auth_nonce := t_service_auth_nonce db; t_source := t_source db; t_source_revision := t_source_revision db; t_source_blob := t_source_blob db; t_authored_document := t_authored_document db; t_document_revision := t_document_revision db; t_parse_run := t_parse_run db; t_document_element := t_document_element db; t_provenance_record := t_provenance_record db; t_truth_classification := t_truth_classification db; t_conflict_set := t_conflict_set db; t_conflict_member := t_conflict_member db; t_proposal := t_proposal db; t_conversation := t_conversation db; t_conversation_turn := t_conversation_turn db; t_audit_event := t_audit_event db; t_current_source_revision := t_current_source_revision db; t_current_document_revision := t_current_document_revision db; t_outbox_event := t_outbox_event db; t_idempotency_record := t_idempotency_record db; t_durable_job := t_durable_job db; t_job_attempt := t_job_attempt db; t_projection_state := t_projection_state db; t_upload_intent := t_upload_intent db; t_current_active_parse_run := t_current_active_parse_run db; t_memory_item := t_memory_item db; t_memory_revision := t_memory_revision db; t_current_memory_revision := t_current_memory_revision db; t_projection := t_projection db; t_context_receipt := t_context_receipt db; t_context_receipt_item := t_context_receipt_item db; t_course := t_course db; t_curriculum_node := t_curriculum_node db; t_curriculum_edge := t_curriculum_edge db; t_assessment_item := t_assessment_item db; t_assessment_revision := t_assessment_revision db; t_current_assessment_revision := t_current_assessment_revision db; t_learner_event := t_learner_event db; t_review_item := t_review_item db; t_learner_projection := t_learner_projection db; t_notion_connection := t_notion_connection db; t_notion_page_binding := t_notion_page_binding db; t_deletion_tombstone := t_deletion_tombstone db; t_export_job := t_export_job db; t_semantic_projection := t_semantic_projection db; t_assessment_attempt := t_assessment_attempt db; t_deletion_workflow := t_deletion_workflow db |};
  clash := SessionRevocation.clash;
  row_id := SessionRevocation.id;
  rows_set_rows _ _ := eq_refl;
|}.

#[global] Instance external_client_grant_table : Table ExternalClientGrant.t := {|
  rows := t_external_client_grant;
  set_rows l db := {| t_account := t_account db; t_user := t_user db; t_account_member := t_account_member db; t_space := t_space db; t_space_member := t_space_member db; t_hosted_adult_attestation := t_hosted_adult_attestation db; t_external_identity := t_external_identity db; t_actor := t_actor db; t_browser_session := t_browser_session db; t_session_revocation := t_session_revocation db; t_external_client_grant := l; t_operator_bootstrap := t_operator_bootstrap db; t_oidc_login_challenge := t_oidc_login_challenge db; t_oidc_token_replay := t_oidc_token_replay db; t_service_auth_nonce := t_service_auth_nonce db; t_source := t_source db; t_source_revision := t_source_revision db; t_source_blob := t_source_blob db; t_authored_document := t_authored_document db; t_document_revision := t_document_revision db; t_parse_run := t_parse_run db; t_document_element := t_document_element db; t_provenance_record := t_provenance_record db; t_truth_classification := t_truth_classification db; t_conflict_set := t_conflict_set db; t_conflict_member := t_conflict_member db; t_proposal := t_proposal db; t_conversation := t_conversation db; t_conversation_turn := t_conversation_turn db; t_audit_event := t_audit_event db; t_current_source_revision := t_current_source_revision db; t_current_document_revision := t_current_document_revision db; t_outbox_event := t_outbox_event db; t_idempotency_record := t_idempotency_record db; t_durable_job := t_durable_job db; t_job_attempt := t_job_attempt db; t_projection_state := t_projection_state db; t_upload_intent := t_upload_intent db; t_current_active_parse_run := t_current_active_parse_run db; t_memory_item := t_memory_item db; t_memory_revision := t_memory_revision db; t_current_memory_revision := t_current_memory_revision db; t_projection := t_projection db; t_context_receipt := t_context_receipt db; t_context_receipt_item := t_context_receipt_item db; t_course := t_course db; t_curriculum_node := t_curriculum_node db; t_curriculum_edge := t_curriculum_edge db; t_assessment_item := t_assessment_item db; t_assessment_revision := t_assessment_revision db; t_current_assessment_revision := t_current_assessment_revision db; t_learner_event := t_learner_event db; t_review_item := t_review_item db; t_learner_projection := t_learner_projection db; t_notion_connection := t_notion_connection db; t_notion_page_binding := t_notion_page_binding db; t_deletion_tombstone := t_deletion_tombstone db; t_export_job := t_export_job db; t_semantic_projection := t_semantic_projection db; t_assessment_attempt := t_assessment_attempt db; t_deletion_workflow := t_deletion_workflow db |};
  clash := ExternalClientGrant.clash;
  row_id := ExternalClientGrant.id;
  rows_set_rows _ _ := eq_refl;
|}.

#[global] Instance operator_bootstrap_table : Table OperatorBootstrap.t := {|
  rows := t_operator_bootstrap;
  set_rows l db := {| t_account := t_account db; t_user := t_user db; t_account_member := t_account_member db; t_space := t_space db; t_space_member := t_space_member db; t_hosted_adult_attestation := t_hosted_adult_attestation db; t_external_identity := t_external_identity db; t_actor := t_actor db; t_browser_session := t_browser_session db; t_session_revocation := t_session_revocation db; t_external_client_grant := t_external_client_grant db; t_operator_bootstrap := l; t_oidc_login_challenge := t_oidc_login_challenge db; t_oidc_token_replay := t_oidc_token_replay db; t_service_auth_nonce := t_service_auth_nonce db; t_source := t_source db; t_source_revision := t_source_revision db; t_source_blob := t_source_blob db; t_authored_document := t_authored_document db; t_document_revision := t_document_revision db; t_parse_run := t_parse_run db; t_document_element := t_document_element db; t_provenance_record := t_provenance_record db; t_truth_classification := t_truth_classification db; t_conflict_set := t_conflict_set db; t_conflict_member := t_conflict_member db; t_proposal := t_proposal db; t_conversation := t_conversation db; t_conversation_turn := t_conversation_turn db; t_audit_event := t_audit_event db; t_current_source_revision := t_current_source_revision db; t_current_document_revision := t_current_document_revision db; t_outbox_event := t_outbox_event db; t_idempotency_record := t_idempotency_record db; t_durable_job := t_durable_job db; t_job_attempt := t_job_attempt db; t_projection_state := t_projection_state db; t_upload_intent := t_upload_intent db; t_current_active_parse_run := t_current_active_parse_run db; t_memory_item := t_memory_item db; t_memory_revision := t_memory_revision db; t_current_memory_revision := t_current_memory_revision db; t_projection := t_projection db; t_context_receipt := t_context_receipt db; t_context_receipt_item := t_context_receipt_item db; t_course := t_course db; t_curriculum_node := t_curriculum_node db; t_curriculum_edge := t_curriculum_edge db; t_assessment_item := t_assessment_item db; t_assessment_revision := t_assessment_revision db; t_current_assessment_revision := t_current_assessment_revision db; t_learner_event := t_learner_event db; t_review_item := t_review_item db; t_learner_projection := t_learner_projection db; t_notion_connection := t_notion_connection db; t_notion_page_binding := t_notion_page_binding db; t_deletion_tombstone := t_deletion_tombstone db; t_export_job := t_export_job db; t_semantic_projection := t_semantic_projection db; t_assessment_attempt := t_assessment_attempt db; t_deletion_workflow := t_deletion_workflow db |};
  clash := OperatorBootstrap.clash;
  row_id := OperatorBootstrap.id;
  rows_set_rows _ _ := eq_refl;
|}.

#[global] Instance oidc_login_challenge_table : Table OidcLoginChallenge.t := {|
  rows := t_oidc_login_challenge;
  set_rows l db := {| t_account := t_account db; t_user := t_user db; t_account_member := t_account_member db; t_space := t_space db; t_space_member := t_space_member db; t_hosted_adult_attestation := t_hosted_adult_attestation db; t_external_identity := t_external_identity db; t_actor := t_actor db; t_browser_session := t_browser_session db; t_session_revocation := t_session_revocation db; t_external_client_grant := t_external_client_grant db; t_operator_bootstrap := t_operator_bootstrap db; t_oidc_login_challenge := l; t_oidc_token_replay := t_oidc_token_replay db; t_service_auth_nonce := t_service_auth_nonce db; t_source := t_source db; t_source_revision := t_source_revision db; t_source_blob := t_source_blob db; t_authored_document := t_authored_document db; t_document_revision := t_document_revision db; t_parse_run := t_parse_run db; t_document_element := t_document_element db; t_provenance_record := t_provenance_record db; t_truth_classification := t_truth_classification db; t_conflict_set := t_conflict_set db; t_conflict_member := t_conflict_member db; t_proposal := t_proposal db; t_conversation := t_conversation db; t_conversation_turn := t_conversation_turn db; t_audit_event := t_audit_event db; t_current_source_revision := t_current_source_revision db; t_current_document_revision := t_current_document_revision db; t_outbox_event := t_outbox_event db; t_idempotency_record := t_idempotency_record db; t_durable_job := t_durable_job db; t_job_attempt := t_job_attempt db; t_projection_state := t_projection_state db; t_upload_intent := t_upload_intent db; t_current_active_parse_run := t_current_active_parse_run db; t_memory_item := t_memory_item db; t_memory_revision := t_memory_revision db; t_current_memory_revision := t_current_memory_revision db; t_projection := t_projection db; t_context_receipt := t_context_receipt db; t_context_receipt_item := t_context_receipt_item db; t_course := t_course db; t_curriculum_node := t_curriculum_node db; t_curriculum_edge := t_curriculum_edge db; t_assessment_item := t_assessment_item db; t_assessment_revision := t_assessment_revision db; t_current_assessment_revision := t_current_assessment_revision db; t_learner_event := t_learner_event db; t_review_item := t_review_item db; t_learner_projection := t_learner_projection db; t_notion_connection := t_notion_connection db; t_notion_page_binding := t_notion_page_binding db; t_deletion_tombstone := t_deletion_tombstone db; t_export_job := t_export_job db; t_semantic_projection := t_semantic_projection db; t_assessment_attempt := t_assessment_attempt db; t_deletion_workflow := t_deletion_workflow db |};
  clash := OidcLoginChallenge.clash;
  row_id := OidcLoginChallenge.id;
  rows_set_rows _ _ := eq_refl;
|}.

#[global] Instance oidc_token_replay_table : Table OidcTokenReplay.t := {|
  rows := t_oidc_token_replay;
  set_rows l db := {| t_account := t_account db; t_user := t_user db; t_account_member := t_account_member db; t_space := t_space db; t_space_member := t_space_member db; t_hosted_adult_attestation := t_hosted_adult_attestation db; t_external_identity := t_external_identity db; t_actor := t_actor db; t_browser_session := t_browser_session db; t_session_revocation := t_session_revocation db; t_external_client_grant := t_external_client_grant db; t_operator_bootstrap := t_operator_bootstrap db; t_oidc_login_challenge := t_oidc_login_challenge db; t_oidc_token_replay := l; t_service_auth_nonce := t_service_auth_nonce db; t_source := t_source db; t_source_revision := t_source_revision db; t_source_blob := t_source_blob db; t_authored_document := t_authored_document db; t_document_revision := t_document_revision db; t_parse_run := t_parse_run db; t_document_element := t_document_element db; t_provenance_record := t_provenance_record db; t_truth_classification := t_truth_classification db; t_conflict_set := t_conflict_set db; t_conflict_member := t_conflict_member db; t_proposal := t_proposal db; t_conversation := t_conversation db; t_conversation_turn := t_conversation_turn db; t_audit_event := t_audit_event db; t_current_source_revision := t_current_source_revision db; t_current_document_revision := t_current_document_revision db; t_outbox_event := t_outbox_event db; t_idempotency_record := t_idempotency_record db; t_durable_job := t_durable_job db; t_job_attempt := t_job_attempt db; t_projection_state := t_projection_state db; t_upload_intent := t_upload_intent db; t_current_active_parse_run := t_current_active_parse_run db; t_memory_item := t_memory_item db; t_memory_revision := t_memory_revision db; t_current_memory_revision := t_current_memory_revision db; t_projection := t_projection db; t_context_receipt := t_context_receipt db; t_context_receipt_item := t_context_receipt_item db; t_course := t_course db; t_curriculum_node := t_curriculum_node db; t_curriculum_edge := t_curriculum_edge db; t_assessment_item := t_assessment_item db; t_assessment_revision := t_assessment_revision db; t_current_assessment_revision := t_current_assessment_revision db; t_learner_event := t_learner_event db; t_review_item := t_review_item db; t_learner_projection := t_learner_projection db; t_notion_connection := t_notion_connection db; t_notion_page_binding := t_notion_page_binding db; t_deletion_tombstone := t_deletion_tombstone db; t_export_job := t_export_job db; t_semantic_projection := t_semantic_projection db; t_assessment_attempt := t_assessment_attempt db; t_deletion_workflow := t_deletion_workflow db |};
  clash := OidcTokenReplay.clash;
  row_id := OidcTokenReplay.id;
  rows_set_rows _ _ := eq_refl;
|}.

#[global] Instance service_auth_nonce_table : Table ServiceAuthNonce.t := {|
  rows := t_service_auth_nonce;
  set_rows l db := {| t_account := t_account db; t_user := t_user db; t_account_member := t_account_member db; t_space := t_space db; t_space_member := t_space_member db; t_hosted_adult_attestation := t_hosted_adult_attestation db; t_external_identity := t_external_identity db; t_actor := t_actor db; t_browser_session := t_browser_session db; t_session_revocation := t_session_revocation db; t_external_client_grant := t_external_client_grant db; t_operator_bootstrap := t_operator_bootstrap db; t_oidc_login_challenge := t_oidc_login_challenge db; t_oidc_token_replay := t_oidc_token_replay db; t_service_auth_nonce := l; t_source := t_source db; t_source_revision := t_source_revision db; t_source_blob := t_source_blob db; t_authored_document := t_authored_document db; t_document_revision := t_document_revision db; t_parse_run := t_parse_run db; t_document_element := t_document_element db; t_provenance_record := t_provenance_record db; t_truth_classification := t_truth_classification db; t_conflict_set := t_conflict_set db; t_conflict_member := t_conflict_member db; t_proposal := t_proposal db; t_conversation := t_conversation db; t_conversation_turn := t_conversation_turn db; t_audit_event := t_audit_event db; t_current_source_revision := t_current_source_revision db; t_current_document_revision := t_current_document_revision db; t_outbox_event := t_outbox_event db; t_idempotency_record := t_idempotency_record db; t_durable_job := t_durable_job db; t_job_attempt := t_job_attempt db; t_projection_state := t_projection_state db; t_upload_intent := t_upload_intent db; t_current_active_parse_run := t_current_active_parse_run db; t_memory_item := t_memory_item db; t_memory_revision := t_memory_revision db; t_current_memory_revision := t_current_memory_revision db; t_projection := t_projection db; t_context_receipt := t_context_receipt db; t_context_receipt_item := t_context_receipt_item db; t_course := t_course db; t_curriculum_node := t_curriculum_node db; t_curriculum_edge := t_curriculum_edge db; t_assessment_item := t_assessment_item db; t_assessment_revision := t_assessment_revision db; t_current_assessment_revision := t_current_assessment_revision db; t_learner_event := t_learner_event db; t_review_item := t_review_item db; t_learner_projection := t_learner_projection db; t_notion_connection := t_notion_connection db; t_notion_page_binding := t_notion_page_binding db; t_deletion_tombstone := t_deletion_tombstone db; t_export_job := t_export_job db; t_semantic_projection := t_semantic_projection db; t_assessment_attempt := t_assessment_attempt db; t_deletion_workflow := t_deletion_workflow db |};
  clash := ServiceAuthNonce.clash;
  row_id := fun _ => 0;
  rows_set_rows _ _ := eq_refl;
|}.

#[global] Instance source_table : Table Source.t := {|
  rows := t_source;
  set_rows l db := {| t_account := t_account db; t_user := t_user db; t_account_member := t_account_member db; t_space := t_space db; t_space_member := t_space_member db; t_hosted_adult_attestation := t_hosted_adult_attestation db; t_external_identity := t_external_identity db; t_actor := t_actor db; t_browser_session := t_browser_session db; t_session_revocation := t_session_revocation db; t_external_client_grant := t_external_client_grant db; t_operator_bootstrap := t_operator_bootstrap db; t_oidc_login_challenge := t_oidc_login_challenge db; t_oidc_token_replay := t_oidc_token_replay db; t_service_auth_nonce := t_service_auth_nonce db; t_source := l; t_source_revision := t_source_revision db; t_source_blob := t_source_blob db; t_authored_document := t_authored_document db; t_document_revision := t_document_revision db; t_parse_run := t_parse_run db; t_document_element := t_document_element db; t_provenance_record := t_provenance_record db; t_truth_classification := t_truth_classification db; t_conflict_set := t_conflict_set db; t_conflict_member := t_conflict_member db; t_proposal := t_proposal db; t_conversation := t_conversation db; t_conversation_turn := t_conversation_turn db; t_audit_event := t_audit_event db; t_current_source_revision := t_current_source_revision db; t_current_document_revision := t_current_document_revision db; t_outbox_event := t_outbox_event db; t_idempotency_record := t_idempotency_record db; t_durable_job := t_durable_job db; t_job_attempt := t_job_attempt db; t_projection_state := t_projection_state db; t_upload_intent := t_upload_intent db; t_current_active_parse_run := t_current_active_parse_run db; t_memory_item := t_memory_item db; t_memory_revision := t_memory_revision db; t_current_memory_revision := t_current_memory_revision db; t_projection := t_projection db; t_context_receipt := t_context_receipt db; t_context_receipt_item := t_context_receipt_item db; t_course := t_course db; t_curriculum_node := t_curriculum_node db; t_curriculum_edge := t_curriculum_edge db; t_assessment_item := t_assessment_item db; t_assessment_revision := t_assessment_revision db; t_current_assessment_revision := t_current_assessment_revision db; t_learner_event := t_learner_event db; t_review_item := t_review_item db; t_learner_projection := t_learner_projection db; t_notion_connection := t_notion_connection db; t_notion_page_binding := t_notion_page_binding db; t_deletion_tombstone := t_deletion_tombstone db; t_export_job := t_export_job db; t_semantic_projection := t_semantic_projection db; t_assessment_attempt := t_assessment_attempt db; t_deletion_workflow := t_deletion_workflow db |};
  clash := Source.clash;
  row_id := Source.id;
  rows_set_rows _ _ := eq_refl;
|}.

#[global] Instance source_revision_table : Table SourceRevision.t := {|
  rows := t_source_revision;
  set_rows l db := {| t_account := t_account db; t_user := t_user db; t_account_member := t_account_member db; t_space := t_space db; t_space_member := t_space_member db; t_hosted_adult_attestation := t_hosted_adult_attestation db; t_external_identity := t_external_identity db; t_actor := t_actor db; t_browser_session := t_browser_session db; t_session_revocation := t_session_revocation db; t_external_client_grant := t_external_client_grant db; t_operator_bootstrap := t_operator_bootstrap db; t_oidc_login_challenge := t_oidc_login_challenge db; t_oidc_token_replay := t_oidc_token_replay db; t_service_auth_nonce := t_service_auth_nonce db; t_source := t_source db; t_source_revision := l; t_source_blob := t_source_blob db; t_authored_document := t_authored_document db; t_document_revision := t_document_revision db; t_parse_run := t_parse_run db; t_document_element := t_document_element db; t_provenance_record := t_provenance_record db; t_truth_classification := t_truth_classification db; t_conflict_set := t_conflict_set db; t_conflict_member := t_conflict_member db; t_proposal := t_proposal db; t_conversation := t_conversation db; t_conversation_turn := t_conversation_turn db; t_audit_event := t_audit_event db; t_current_source_revision := t_current_source_revision db; t_current_document_revision := t_current_document_revision db; t_outbox_event := t_outbox_event db; t_idempotency_record := t_idempotency_record db; t_durable_job := t_durable_job db; t_job_attempt := t_job_attempt db; t_projection_state := t_projection_state db; t_upload_intent := t_upload_intent db; t_current_active_parse_run := t_current_active_parse_run db; t_memory_item := t_memory_item db; t_memory_revision := t_memory_revision db; t_current_memory_revision := t_current_memory_revision db; t_projection := t_projection db; t_context_receipt := t_context_receipt db; t_context_receipt_item := t_context_receipt_item db; t_course := t_course db; t_curriculum_node := t_curriculum_node db; t_curriculum_edge := t_curriculum_edge db; t_assessment_item := t_assessment_item db; t_assessment_revision := t_assessment_revision db; t_current_assessment_revision := t_current_assessment_revision db; t_learner_event := t_learner_event db; t_review_item := t_review_item db; t_learner_projection := t_learner_projection db; t_notion_connection := t_notion_connection db; t_notion_page_binding := t_notion_page_binding db; t_deletion_tombstone := t_deletion_tombstone db; t_export_job := t_export_job db; t_semantic_projection := t_semantic_projection db; t_assessment_attempt := t_assessment_attempt db; t_deletion_workflow := t_deletion_workflow db |};
  clash := SourceRevision.clash;
  row_id := SourceRevision.id;
  rows_set_rows _ _ := eq_refl;
|}.

#[global] Instance source_blob_table : Table SourceBlob.t := {|
  rows := t_source_blob;
  set_rows l db := {| t_account := t_account db; t_user := t_user db; t_account_member := t_account_member db; t_space := t_space db; t_space_member := t_space_member db; t_hosted_adult_attestation := t_hosted_adult_attestation db; t_external_identity := t_external_identity db; t_actor := t_actor db; t_browser_session := t_browser_session db; t_session_revocation := t_session_revocation db; t_external_client_grant := t_external_client_grant db; t_operator_bootstrap := t_operator_bootstrap db; t_oidc_login_challenge := t_oidc_login_challenge db; t_oidc_token_replay := t_oidc_token_replay db; t_service_auth_nonce := t_service_auth_nonce db; t_source := t_source db; t_source_revision := t_source_revision db; t_source_blob := l; t_authored_document := t_authored_document db; t_document_revision := t_document_revision db; t_parse_run := t_parse_run db; t_document_element := t_document_element db; t_provenance_record := t_provenance_record db; t_truth_classification := t_truth_classification db; t_conflict_set := t_conflict_set db; t_conflict_member := t_conflict_member db; t_proposal := t_proposal db; t_conversation := t_conversation db; t_conversation_turn := t_conversation_turn db; t_audit_event := t_audit_event db; t_current_source_revision := t_current_source_revision db; t_current_document_revision := t_current_document_revision db; t_outbox_event := t_outbox_event db; t_idempotency_record := t_idempotency_record db; t_durable_job := t_durable_job db; t_job_attempt := t_job_attempt db; t_projection_state := t_projection_state db; t_upload_intent := t_upload_intent db; t_current_active_parse_run := t_current_active_parse_run db; t_memory_item := t_memory_item db; t_memory_revision := t_memory_revision db; t_current_memory_revision := t_current_memory_revision db; t_projection := t_projection db; t_context_receipt := t_context_receipt db; t_context_receipt_item := t_context_receipt_item db; t_course := t_course db; t_curriculum_node := t_curriculum_node db; t_curriculum_edge := t_curriculum_edge db; t_assessment_item := t_assessment_item db; t_assessment_revision := t_assessment_revision db; t_current_assessment_revision := t_current_assessment_revision db; t_learner_event := t_learner_event db; t_review_item := t_review_item db; t_learner_projection := t_learner_projection db; t_notion_connection := t_notion_connection db; t_notion_page_binding := t_notion_page_binding db; t_deletion_tombstone := t_deletion_tombstone db; t_export_job := t_export_job db; t_semantic_projection := t_semantic_projection db; t_assessment_attempt := t_assessment_attempt db; t_deletion_workflow := t_deletion_workflow db |};
  clash := SourceBlob.clash;
  row_id := SourceBlob.id;
  rows_set_rows _ _ := eq_refl;
|}.

#[global] Instance authored_document_table : Table AuthoredDocument.t := {|
  rows := t_authored_document;
  set_rows l db := {| t_account := t_account db; t_user := t_user db; t_account_member := t_account_member db; t_space := t_space db; t_space_member := t_space_member db; t_hosted_adult_attestation := t_hosted_adult_attestation db; t_external_identity := t_external_identity db; t_actor := t_actor db; t_browser_session := t_browser_session db; t_session_revocation := t_session_revocation db; t_external_client_grant := t_external_client_grant db; t_operator_bootstrap := t_operator_bootstrap db; t_oidc_login_challenge := t_oidc_login_challenge db; t_oidc_token_replay := t_oidc_token_replay db; t_service_auth_nonce := t_service_auth_nonce db; t_source := t_source db; t_source_revision := t_source_revision db; t_source_blob := t_source_blob db; t_authored_document := l; t_document_revision := t_document_revision db; t_parse_run := t_parse_run db; t_document_element := t_document_element db; t_provenance_record := t_provenance_record db; t_truth_classification := t_truth_classification db; t_conflict_set := t_conflict_set db; t_conflict_member := t_conflict_member db; t_proposal := t_proposal db; t_conversation := t_conversation db; t_conversation_turn := t_conversation_turn db; t_audit_event := t_audit_event db; t_current_source_revision := t_current_source_revision db; t_current_document_revision := t_current_document_revision db; t_outbox_event := t_outbox_event db; t_idempotency_record := t_idempotency_record db; t_durable_job := t_durable_job db; t_job_attempt := t_job_attempt db; t_projection_state := t_projection_state db; t_upload_intent := t_upload_intent db; t_current_active_parse_run := t_current_active_parse_run db; t_memory_item := t_memory_item db; t_memory_revision := t_memory_revision db; t_current_memory_revision := t_current_memory_revision db; t_projection := t_projection db; t_context_receipt := t_context_receipt db; t_context_receipt_item := t_context_receipt_item db; t_course := t_course db; t_curriculum_node := t_curriculum_node db; t_curriculum_edge := t_curriculum_edge db; t_assessment_item := t_assessment_item db; t_assessment_revision := t_assessment_revision db; t_current_assessment_revision := t_current_assessment_revision db; t_learner_event := t_learner_event db; t_review_item := t_review_item db; t_learner_projection := t_learner_projection db; t_notion_connection := t_notion_connection db; t_notion_page_binding := t_notion_page_binding db; t_deletion_tombstone := t_deletion_tombstone db; t_export_job := t_export_job db; t_semantic_projection := t_semantic_projection db; t_assessment_attempt := t_assessment_attempt db; t_deletion_workflow := t_deletion_workflow db |};
  clash := AuthoredDocument.clash;
  row_id := AuthoredDocument.id;
  rows_set_rows _ _ := eq_refl;
|}.

#[global] Instance document_revision_table : Table DocumentRevision.t := {|
  rows := t_document_revision;
  set_rows l db := {| t_account := t_account db; t_user := t_user db; t_account_member := t_account_member db; t_space := t_space db; t_space_member := t_space_member db; t_hosted_adult_attestation := t_hosted_adult_attestation db; t_external_identity := t_external_identity db; t_actor := t_actor db; t_browser_session := t_browser_session db; t_session_revocation := t_session_revocation db; t_external_client_grant := t_external_client_grant db; t_operator_bootstrap := t_operator_bootstrap db; t_oidc_login_challenge := t_oidc_login_challenge db; t_oidc_token_replay := t_oidc_token_replay db; t_service_auth_nonce := t_service_auth_nonce db; t_source := t_source db; t_source_revision := t_source_revision db; t_source_blob := t_source_blob db; t_authored_document := t_authored_document db; t_document_revision := l; t_parse_run := t_parse_run db; t_document_element := t_document_element db; t_provenance_record := t_provenance_record db; t_truth_classification := t_truth_classification db; t_conflict_set := t_conflict_set db; t_conflict_member := t_conflict_member db; t_proposal := t_proposal db; t_conversation := t_conversation db; t_conversation_turn := t_conversation_turn db; t_audit_event := t_audit_event db; t_current_source_revision := t_current_source_revision db; t_current_document_revision := t_current_document_revision db; t_outbox_event := t_outbox_event db; t_idempotency_record := t_idempotency_record db; t_durable_job := t_durable_job db; t_job_attempt := t_job_attempt db; t_projection_state := t_projection_state db; t_upload_intent := t_upload_intent db; t_current_active_parse_run := t_current_active_parse_run db; t_memory_item := t_memory_item db; t_memory_revision := t_memory_revision db; t_current_memory_revision := t_current_memory_revision db; t_projection := t_projection db; t_context_receipt := t_context_receipt db; t_context_receipt_item := t_context_receipt_item db; t_course := t_course db; t_curriculum_node := t_curriculum_node db; t_curriculum_edge := t_curriculum_edge db; t_assessment_item := t_assessment_item db; t_assessment_revision := t_assessment_revision db; t_current_assessment_revision := t_current_assessment_revision db; t_learner_event := t_learner_event db; t_review_item := t_review_item db; t_learner_projection := t_learner_projection db; t_notion_connection := t_notion_connection db; t_notion_page_binding := t_notion_page_binding db; t_deletion_tombstone := t_deletion_tombstone db; t_export_job := t_export_job db; t_semantic_projection := t_semantic_projection db; t_assessment_attempt := t_assessment_attempt db; t_deletion_workflow := t_deletion_workflow db |};
  clash := DocumentRevision.clash;
  row_id := DocumentRevision.id;
  rows_set_rows _ _ := eq_refl;
|}.

#[global] Instance parse_run_table : Table ParseRun.t := {|
  rows := t_parse_run;
  set_rows l db := {| t_account := t_account db; t_user := t_user db; t_account_member := t_account_member db; t_space := t_space db; t_space_member := t_space_member db; t_hosted_adult_attestation := t_hosted_adult_attestation db; t_external_identity := t_external_identity db; t_actor := t_actor db; t_browser_session := t_browser_session db; t_session_revocation := t_session_revocation db; t_external_client_grant := t_external_client_grant db; t_operator_bootstrap := t_operator_bootstrap db; t_oidc_login_challenge := t_oidc_login_challenge db; t_oidc_token_replay := t_oidc_token_replay db; t_service_auth_nonce := t_service_auth_nonce db; t_source := t_source db; t_source_revision := t_source_revision db; t_source_blob := t_source_blob db; t_authored_document := t_authored_document db; t_document_revision := t_document_revision db; t_parse_run := l; t_document_element := t_document_element db; t_provenance_record := t_provenance_record db; t_truth_classification := t_truth_classification db; t_conflict_set := t_conflict_set db; t_conflict_member := t_conflict_member db; t_proposal := t_proposal db; t_conversation := t_conversation db; t_conversation_turn := t_conversation_turn db; t_audit_event := t_audit_event db; t_current_source_revision := t_current_source_revision db; t_current_document_revision := t_current_document_revision db; t_outbox_event := t_outbox_event db; t_idempotency_record := t_idempotency_record db; t_durable_job := t_durable_job db; t_job_attempt := t_job_attempt db; t_projection_state := t_projection_state db; t_upload_intent := t_upload_intent db; t_current_active_parse_run := t_current_active_parse_run db; t_memory_item := t_memory_item db; t_memory_revision := t_memory_revision db; t_current_memory_revision := t_current_memory_revision db; t_projection := t_projection db; t_context_receipt := t_context_receipt db; t_context_receipt_item := t_context_receipt_item db; t_course := t_course db; t_curriculum_node := t_curriculum_node db; t_curriculum_edge := t_curriculum_edge db; t_assessment_item := t_assessment_item db; t_assessment_revision := t_assessment_revision db; t_current_assessment_revision := t_current_assessment_revision db; t_learner_event := t_learner_event db; t_review_item := t_review_item db; t_learner_projection := t_learner_projection db; t_notion_connection := t_notion_connection db; t_notion_page_binding := t_notion_page_binding db; t_deletion_tombstone := t_deletion_tombstone db; t_export_job := t_export_job db; t_semantic_projection := t_semantic_projection db; t_assessment_attempt := t_assessment_attempt db; t_deletion_workflow := t_deletion_workflow db |};
  clash := ParseRun.clash;
  row_id := ParseRun.id;
  rows_set_rows _ _ := eq_refl;
|}.

#[global] Instance document_element_table : Table DocumentElement.t := {|
  rows := t_document_element;
  set_rows l db := {| t_account := t_account db; t_user := t_user db; t_account_member := t_account_member db; t_space := t_space db; t_space_member := t_space_member db; t_hosted_adult_attestation := t_hosted_adult_attestation db; t_external_identity := t_external_identity db; t_actor := t_actor db; t_browser_session := t_browser_session db; t_session_revocation := t_session_revocation db; t_external_client_grant := t_external_client_grant db; t_operator_bootstrap := t_operator_bootstrap db; t_oidc_login_challenge := t_oidc_login_challenge db; t_oidc_token_replay := t_oidc_token_replay db; t_service_auth_nonce := t_service_auth_nonce db; t_source := t_source db; t_source_revision := t_source_revision db; t_source_blob := t_source_blob db; t_authored_document := t_authored_document db; t_document_revision := t_document_revision db; t_parse_run := t_parse_run db; t_document_element := l; t_provenance_record := t_provenance_record db; t_truth_classification := t_truth_classification db; t_conflict_set := t_conflict_set db; t_conflict_member := t_conflict_member db; t_proposal := t_proposal db; t_conversation := t_conversation db; t_conversation_turn := t_conversation_turn db; t_audit_event := t_audit_event db; t_current_source_revision := t_current_source_revision db; t_current_document_revision := t_current_document_revision db; t_outbox_event := t_outbox_event db; t_idempotency_record := t_idempotency_record db; t_durable_job := t_durable_job db; t_job_attempt := t_job_attempt db; t_projection_state := t_projection_state db; t_upload_intent := t_upload_intent db; t_current_active_parse_run := t_current_active_parse_run db; t_memory_item := t_memory_item db; t_memory_revision := t_memory_revision db; t_current_memory_revision := t_current_memory_revision db; t_projection := t_projection db; t_context_receipt := t_context_receipt db; t_context_receipt_item := t_context_receipt_item db; t_course := t_course db; t_curriculum_node := t_curriculum_node db; t_curriculum_edge := t_curriculum_edge db; t_assessment_item := t_assessment_item db; t_assessment_revision := t_assessment_revision db; t_current_assessment_revision := t_current_assessment_revision db; t_learner_event := t_learner_event db; t_review_item := t_review_item db; t_learner_projection := t_learner_projection db; t_notion_connection := t_notion_connection db; t_notion_page_binding := t_notion_page_binding db; t_deletion_tombstone := t_deletion_tombstone db; t_export_job := t_export_job db; t_semantic_projection := t_semantic_projection db; t_assessment_attempt := t_assessment_attempt db; t_deletion_workflow := t_deletion_workflow db |};
  clash := DocumentElement.clash;
  row_id := DocumentElement.id;
  rows_set_rows _ _ := eq_refl;
|}.

#[global] Instance provenance_record_table : Table ProvenanceRecord.t := {|
  rows := t_provenance_record;
  set_rows l db := {| t_account := t_account db; t_user := t_user db; t_account_member := t_account_member db; t_space := t_space db; t_space_member := t_space_member db; t_hosted_adult_attestation := t_hosted_adult_attestation db; t_external_identity := t_external_identity db; t_actor := t_actor db; t_browser_session := t_browser_session db; t_session_revocation := t_session_revocation db; t_external_client_grant := t_external_client_grant db; t_operator_bootstrap := t_operator_bootstrap db; t_oidc_login_challenge := t_oidc_login_challenge db; t_oidc_token_replay := t_oidc_token_replay db; t_service_auth_nonce := t_service_auth_nonce db; t_source := t_source db; t_source_revision := t_source_revision db; t_source_blob := t_source_blob db; t_authored_document := t_authored_document db; t_document_revision := t_document_revision db; t_parse_run := t_parse_run db; t_document_element := t_document_element db; t_provenance_record := l; t_truth_classification := t_truth_classification db; t_conflict_set := t_conflict_set db; t_conflict_member := t_conflict_member db; t_proposal := t_proposal db; t_conversation := t_conversation db; t_conversation_turn := t_conversation_turn db; t_audit_event := t_audit_event db; t_current_source_revision := t_current_source_revision db; t_current_document_revision := t_current_document_revision db; t_outbox_event := t_outbox_event db; t_idempotency_record := t_idempotency_record db; t_durable_job := t_durable_job db; t_job_attempt := t_job_attempt db; t_projection_state := t_projection_state db; t_upload_intent := t_upload_intent db; t_current_active_parse_run := t_current_active_parse_run db; t_memory_item := t_memory_item db; t_memory_revision := t_memory_revision db; t_current_memory_revision := t_current_memory_revision db; t_projection := t_projection db; t_context_receipt := t_context_receipt db; t_context_receipt_item := t_context_receipt_item db; t_course := t_course db; t_curriculum_node := t_curriculum_node db; t_curriculum_edge := t_curriculum_edge db; t_assessment_item := t_assessment_item db; t_assessment_revision := t_assessment_revision db; t_current_assessment_revision := t_current_assessment_revision db; t_learner_event := t_learner_event db; t_review_item := t_review_item db; t_learner_projection := t_learner_projection db; t_notion_connection := t_notion_connection db; t_notion_page_binding := t_notion_page_binding db; t_deletion_tombstone := t_deletion_tombstone db; t_export_job := t_export_job db; t_semantic_projection := t_semantic_projection db; t_assessment_attempt := t_assessment_attempt db; t_deletion_workflow := t_deletion_workflow db |};
  clash := ProvenanceRecord.clash;
  row_id := ProvenanceRecord.id;
  rows_set_rows _ _ := eq_refl;
|}.

#[global] Instance truth_classification_table : Table TruthClassification.t := {|
  rows := t_truth_classification;
  set_rows l db := {| t_account := t_account db; t_user := t_user db; t_account_member := t_account_member db; t_space := t_space db; t_space_member := t_space_member db; t_hosted_adult_attestation := t_hosted_adult_attestation db; t_external_identity := t_external_identity db; t_actor := t_actor db; t_browser_session := t_browser_session db; t_session_revocation := t_session_revocation db; t_external_client_grant := t_external_client_grant db; t_operator_bootstrap := t_operator_bootstrap db; t_oidc_login_challenge := t_oidc_login_challenge db; t_oidc_token_replay := t_oidc_token_replay db; t_service_auth_nonce := t_service_auth_nonce db; t_source := t_source db; t_source_revision := t_source_revision db; t_source_blob := t_source_blob db; t_authored_document := t_authored_document db; t_document_revision := t_document_revision db; t_parse_run := t_parse_run db; t_document_element := t_document_element db; t_provenance_record := t_provenance_record db; t_truth_classification := l; t_conflict_set := t_conflict_set db; t_conflict_member := t_conflict_member db; t_proposal := t_proposal db; t_conversation := t_conversation db; t_conversation_turn := t_conversation_turn db; t_audit_event := t_audit_event db; t_current_source_revision := t_current_source_revision db; t_current_document_revision := t_current_document_revision db; t_outbox_event := t_outbox_event db; t_idempotency_record := t_idempotency_record db; t_durable_job := t_durable_job db; t_job_attempt := t_job_attempt db; t_projection_state := t_projection_state db; t_upload_intent := t_upload_intent db; t_current_active_parse_run := t_current_active_parse_run db; t_memory_item := t_memory_item db; t_memory_revision := t_memory_revision db; t_current_memory_revision := t_current_memory_revision db; t_projection := t_projection db; t_context_receipt := t_context_receipt db; t_context_receipt_item := t_context_receipt_item db; t_course := t_course db; t_curriculum_node := t_curriculum_node db; t_curriculum_edge := t_curriculum_edge db; t_assessment_item := t_assessment_item db; t_assessment_revision := t_assessment_revision db; t_current_assessment_revision := t_current_assessment_revision db; t_learner_event := t_learner_event db; t_review_item := t_review_item db; t_learner_projection := t_learner_projection db; t_notion_connection := t_notion_connection db; t_notion_page_binding := t_notion_page_binding db; t_deletion_tombstone := t_deletion_tombstone db; t_export_job := t_export_job db; t_semantic_projection := t_semantic_projection db; t_assessment_attempt := t_assessment_attempt db; t_deletion_workflow := t_deletion_workflow db |};
  clash := TruthClassification.clash;
  row_id := TruthClassification.id;
  rows_set_rows _ _ := eq_refl;
|}.

#[global] Instance conflict_set_table : Table ConflictSet.t := {|
  rows := t_conflict_set;
  set_rows l db := {| t_account := t_account db; t_user := t_user db; t_account_member := t_account_member db; t_space := t_space db; t_space_member := t_space_member db; t_hosted_adult_attestation := t_hosted_adult_attestation db; t_external_identity := t_external_identity db; t_actor := t_actor db; t_browser_session := t_browser_session db; t_session_revocation := t_session_revocation db; t_external_client_grant := t_external_client_grant db; t_operator_bootstrap := t_operator_bootstrap db; t_oidc_login_challenge := t_oidc_login_challenge db; t_oidc_token_replay := t_oidc_token_replay db; t_service_auth_nonce := t_service_auth_nonce db; t_source := t_source db; t_source_revision := t_source_revision db; t_source_blob := t_source_blob db; t_authored_document := t_authored_document db; t_document_revision := t_document_revision db; t_parse_run := t_parse_run db; t_document_element := t_document_element db; t_provenance_record := t_provenance_record db; t_truth_classification := t_truth_classification db; t_conflict_set := l; t_conflict_member := t_conflict_member db; t_proposal := t_proposal db; t_conversation := t_conversation db; t_conversation_turn := t_conversation_turn db; t_audit_event := t_audit_event db; t_current_source_revision := t_current_source_revision db; t_current_document_revision := t_current_document_revision db; t_outbox_event := t_outbox_event db; t_idempotency_record := t_idempotency_record db; t_durable_job := t_durable_job db; t_job_attempt := t_job_attempt db; t_projection_state := t_projection_state db; t_upload_intent := t_upload_intent db; t_current_active_parse_run := t_current_active_parse_run db; t_memory_item := t_memory_item db; t_memory_revision := t_memory_revision db; t_current_memory_revision := t_current_memory_revision db; t_projection := t_projection db; t_context_receipt := t_context_receipt db; t_context_receipt_item := t_context_receipt_item db; t_course := t_course db; t_curriculum_node := t_curriculum_node db; t_curriculum_edge := t_curriculum_edge db; t_assessment_item := t_assessment_item db; t_assessment_revision := t_assessment_revision db; t_current_assessment_revision := t_current_assessment_revision db; t_learner_event := t_learner_event db; t_review_item := t_review_item db; t_learner_projection := t_learner_projection db; t_notion_connection := t_notion_connection db; t_notion_page_binding := t_notion_page_binding db; t_deletion_tombstone := t_deletion_tombstone db; t_export_job := t_export_job db; t_semantic_projection := t_semantic_projection db; t_assessment_attempt := t_assessment_attempt db; t_deletion_workflow := t_deletion_workflow db |};
  clash := ConflictSet.clash;
  row_id := ConflictSet.id;
  rows_set_rows _ _ := eq_refl;
|}.

#[global] Instance conflict_member_table : Table ConflictMember.t := {|
  rows := t_conflict_member;
  set_rows l db := {| t_account := t_account db; t_user := t_user db; t_account_member := t_account_member db; t_space := t_space db; t_space_member := t_space_member db; t_hosted_adult_attestation := t_hosted_adult_attestation db; t_external_identity := t_external_identity db; t_actor := t_actor db; t_browser_session := t_browser_session db; t_session_revocation := t_session_revocation db; t_external_client_grant := t_external_client_grant db; t_operator_bootstrap := t_operator_bootstrap db; t_oidc_login_challenge := t_oidc_login_challenge db; t_oidc_token_replay := t_oidc_token_replay db; t_service_auth_nonce := t_service_auth_nonce db; t_source := t_source db; t_source_revision := t_source_revision db; t_source_blob := t_source_blob db; t_authored_document := t_authored_document db; t_document_revision := t_document_revision db; t_parse_run := t_parse_run db; t_document_element := t_document_element db; t_provenance_record := t_provenance_record db; t_truth_classification := t_truth_classification db; t_conflict_set := t_conflict_set db; t_conflict_member := l; t_proposal := t_proposal db; t_conversation := t_conversation db; t_conversation_turn := t_conversation_turn db; t_audit_event := t_audit_event db; t_current_source_revision := t_current_source_revision db; t_current_document_revision := t_current_document_revision db; t_outbox_event := t_outbox_event db; t_idempotency_record := t_idempotency_record db; t_durable_job := t_durable_job db; t_job_attempt := t_job_attempt db; t_projection_state := t_projection_state db; t_upload_intent := t_upload_intent db; t_current_active_parse_run := t_current_active_parse_run db; t_memory_item := t_memory_item db; t_memory_revision := t_memory_revision db; t_current_memory_revision := t_current_memory_revision db; t_projection := t_projection db; t_context_receipt := t_context_receipt db; t_context_receipt_item := t_context_receipt_item db; t_course := t_course db; t_curriculum_node := t_curriculum_node db; t_curriculum_edge := t_curriculum_edge db; t_assessment_item := t_assessment_item db; t_assessment_revision := t_assessment_revision db; t_current_assessment_revision := t_current_assessment_revision db; t_learner_event := t_learner_event db; t_review_item := t_review_item db; t_learner_projection := t_learner_projection db; t_notion_connection := t_notion_connection db; t_notion_page_binding := t_notion_page_binding db; t_deletion_tombstone := t_deletion_tombstone db; t_export_job := t_export_job db; t_semantic_projection := t_semantic_projection db; t_assessment_attempt := t_assessment_attempt db; t_deletion_workflow := t_deletion_workflow db |};
  clash := ConflictMember.clash;
  row_id := ConflictMember.id;
  rows_set_rows _ _ := eq_refl;
|}.

#[global] Instance proposal_table : Table Proposal.t := {|
  rows := t_proposal;
  set_rows l db := {| t_account := t_account db; t_user := t_user db; t_account_member := t_account_member db; t_space := t_space db; t_space_member := t_space_member db; t_hosted_adult_attestation := t_hosted_adult_attestation db; t_external_identity := t_external_identity db; t_actor := t_actor db; t_browser_session := t_browser_session db; t_session_revocation := t_session_revocation db; t_external_client_grant := t_external_client_grant db; t_operator_bootstrap := t_operator_bootstrap db; t_oidc_login_challenge := t_oidc_login_challenge db; t_oidc_token_replay := t_oidc_token_replay db; t_service_auth_nonce := t_service_auth_nonce db; t_source := t_source db; t_source_revision := t_source_revision db; t_source_blob := t_source_blob db; t_authored_document := t_authored_document db; t_document_revision := t_document_revision db; t_parse_run := t_parse_run db; t_document_element := t_document_element db; t_provenance_record := t_provenance_record db; t_truth_classification := t_truth_classification db; t_conflict_set := t_conflict_set db; t_conflict_member := t_conflict_member db; t_proposal := l; t_conversation := t_conversation db; t_conversation_turn := t_conversation_turn db; t_audit_event := t_audit_event db; t_current_source_revision := t_current_source_revision db; t_current_document_revision := t_current_document_revision db; t_outbox_event := t_outbox_event db; t_idempotency_record := t_idempotency_record db; t_durable_job := t_durable_job db; t_job_attempt := t_job_attempt db; t_projection_state := t_projection_state db; t_upload_intent := t_upload_intent db; t_current_active_parse_run := t_current_active_parse_run db; t_memory_item := t_memory_item db; t_memory_revision := t_memory_revision db; t_current_memory_revision := t_current_memory_revision db; t_projection := t_projection db; t_context_receipt := t_context_receipt db; t_context_receipt_item := t_context_receipt_item db; t_course := t_course db; t_curriculum_node := t_curriculum_node db; t_curriculum_edge := t_curriculum_edge db; t_assessment_item := t_assessment_item db; t_assessment_revision := t_assessment_revision db; t_current_assessment_revision := t_current_assessment_revision db; t_learner_event := t_learner_event db; t_review_item := t_review_item db; t_learner_projection := t_learner_projection db; t_notion_connection := t_notion_connection db; t_notion_page_binding := t_notion_page_binding db; t_deletion_tombstone := t_deletion_tombstone db; t_export_job := t_export_job db; t_semantic_projection := t_semantic_projection db; t_assessment_attempt := t_assessment_attempt db; t_deletion_workflow := t_deletion_workflow db |};
  clash := Proposal.clash;
  row_id := Proposal.id;
  rows_set_rows _ _ := eq_refl;
|}.

#[global] Instance conversation_table : Table Conversation.t := {|
  rows := t_conversation;
  set_rows l db := {| t_account := t_account db; t_user := t_user db; t_account_member := t_account_member db; t_space := t_space db; t_space_member := t_space_member db; t_hosted_adult_attestation := t_hosted_adult_attestation db; t_external_identity := t_external_identity db; t_actor := t_actor db; t_browser_session := t_browser_session db; t_session_revocation := t_session_revocation db; t_external_client_grant := t_external_client_grant db; t_operator_bootstrap := t_operator_bootstrap db; t_oidc_login_challenge := t_oidc_login_challenge db; t_oidc_token_replay := t_oidc_token_replay db; t_service_auth_nonce := t_service_auth_nonce db; t_source := t_source db; t_source_revision := t_source_revision db; t_source_blob := t_source_blob db; t_authored_document := t_authored_document db; t_document_revision := t_document_revision db; t_parse_run := t_parse_run db; t_document_element := t_document_element db; t_provenance_record := t_provenance_record db; t_truth_classification := t_truth_classification db; t_conflict_set := t_conflict_set db; t_conflict_member := t_conflict_member db; t_proposal := t_proposal db; t_conversation := l; t_conversation_turn := t_conversation_turn db; t_audit_event := t_audit_event db; t_current_source_revision := t_current_source_revision db; t_current_document_revision := t_current_document_revision db; t_outbox_event := t_outbox_event db; t_idempotency_record := t_idempotency_record db; t_durable_job := t_durable_job db; t_job_attempt := t_job_attempt db; t_projection_state := t_projection_state db; t_upload_intent := t_upload_intent db; t_current_active_parse_run := t_current_active_parse_run db; t_memory_item := t_memory_item db; t_memory_revision := t_memory_revision db; t_current_memory_revision := t_current_memory_revision db; t_projection := t_projection db; t_context_receipt := t_context_receipt db; t_context_receipt_item := t_context_receipt_item db; t_course := t_course db; t_curriculum_node := t_curriculum_node db; t_curriculum_edge := t_curriculum_edge db; t_assessment_item := t_assessment_item db; t_assessment_revision := t_assessment_revision db; t_current_assessment_revision := t_current_assessment_revision db; t_learner_event := t_learner_event db; t_review_item := t_review_item db; t_learner_projection := t_learner_projection db; t_notion_connection := t_notion_connection db; t_notion_page_binding := t_notion_page_binding db; t_deletion_tombstone := t_deletion_tombstone db; t_export_job := t_export_job db; t_semantic_projection := t_semantic_projection db; t_assessment_attempt := t_assessment_attempt db; t_deletion_workflow := t_deletion_workflow db |};
  clash := Conversation.clash;
  row_id := Conversation.id;
  rows_set_rows _ _ := eq_refl;
|}.

#[global] Instance conversation_turn_table : Table ConversationTurn.t := {|
  rows := t_conversation_turn;
  set_rows l db := {| t_account := t_account db; t_user := t_user db; t_account_member := t_account_member db; t_space := t_space db; t_space_member := t_space_member db; t_hosted_adult_attestation := t_hosted_adult_attestation db; t_external_identity := t_external_identity db; t_actor := t_actor db; t_browser_session := t_browser_session db; t_session_revocation := t_session_revocation db; t_external_client_grant := t_external_client_grant db; t_operator_bootstrap := t_operator_bootstrap db; t_oidc_login_challenge := t_oidc_login_challenge db; t_oidc_token_replay := t_oidc_token_replay db; t_service_auth_nonce := t_service_auth_nonce db; t_source := t_source db; t_source_revision := t_source_revision db; t_source_blob := t_source_blob db; t_authored_document := t_authored_document db; t_document_revision := t_document_revision db; t_parse_run := t_parse_run db; t_document_element := t_document_element db; t_provenance_record := t_provenance_record db; t_truth_classification := t_truth_classification db; t_conflict_set := t_conflict_set db; t_conflict_member := t_conflict_member db; t_proposal := t_proposal db; t_conversation := t_conversation db; t_conversation_turn := l; t_audit_event := t_audit_event db; t_current_source_revision := t_current_source_revision db; t_current_document_revision := t_current_document_revision db; t_outbox_event := t_outbox_event db; t_idempotency_record := t_idempotency_record db; t_durable_job := t_durable_job db; t_job_attempt := t_job_attempt db; t_projection_state := t_projection_state db; t_upload_intent := t_upload_intent db; t_current_active_parse_run := t_current_active_parse_run db; t_memory_item := t_memory_item db; t_memory_revision := t_memory_revision db; t_current_memory_revision := t_current_memory_revision db; t_projection := t_projection db; t_context_receipt := t_context_receipt db; t_context_receipt_item := t_context_receipt_item db; t_course := t_course db; t_curriculum_node := t_curriculum_node db; t_curriculum_edge := t_curriculum_edge db; t_assessment_item := t_assessment_item db; t_assessment_revision := t_assessment_revision db; t_current_assessment_revision := t_current_assessment_revision db; t_learner_event := t_learner_event db; t_review_item := t_review_item db; t_learner_projection := t_learner_projection db; t_notion_connection := t_notion_connection db; t_notion_page_binding := t_notion_page_binding db; t_deletion_tombstone := t_deletion_tombstone db; t_export_job := t_export_job db; t_semantic_projection := t_semantic_projection db; t_assessment_attempt := t_assessment_attempt db; t_deletion_workflow := t_deletion_workflow db |};
  clash := ConversationTurn.clash;
  row_id := ConversationTurn.id;
  rows_set_rows _ _ := eq_refl;
|}.

#[global] Instance audit_event_table : Table AuditEvent.t := {|
  rows := t_audit_event;
  set_rows l db := {| t_account := t_account db; t_user := t_user db; t_account_member := t_account_member db; t_space := t_space db; t_space_member := t_space_member db; t_hosted_adult_attestation := t_hosted_adult_attestation db; t_external_identity := t_external_identity db; t_actor := t_actor db; t_browser_session := t_browser_session db; t_session_revocation := t_session_revocation db; t_external_client_grant := t_external_client_grant db; t_operator_bootstrap := t_operator_bootstrap db; t_oidc_login_challenge := t_oidc_login_challenge db; t_oidc_token_replay := t_oidc_token_replay db; t_service_auth_nonce := t_service_auth_nonce db; t_source := t_source db; t_source_revision := t_source_revision db; t_source_blob := t_source_blob db; t_authored_document := t_authored_document db; t_document_revision := t_document_revision db; t_parse_run := t_parse_run db; t_document_element := t_document_element db; t_provenance_record := t_provenance_record db; t_truth_classification := t_truth_classification db; t_conflict_set := t_conflict_set db; t_conflict_member := t_conflict_member db; t_proposal := t_proposal db; t_conversation := t_conversation db; t_conversation_turn := t_conversation_turn db; t_audit_event := l; t_current_source_revision := t_current_source_revision db; t_current_document_revision := t_current_document_revision db; t_outbox_event := t_outbox_event db; t_idempotency_record := t_idempotency_record db; t_durable_job := t_durable_job db; t_job_attempt := t_job_attempt db; t_projection_state := t_projection_state db; t_upload_intent := t_upload_intent db; t_current_active_parse_run := t_current_active_parse_run db; t_memory_item := t_memory_item db; t_memory_revision := t_memory_revision db; t_current_memory_revision := t_current_memory_revision db; t_projection := t_projection db; t_context_receipt := t_context_receipt db; t_context_receipt_item := t_context_receipt_item db; t_course := t_course db; t_curriculum_node := t_curriculum_node db; t_curriculum_edge := t_curriculum_edge db; t_assessment_item := t_assessment_item db; t_assessment_revision := t_assessment_revision db; t_current_assessment_revision := t_current_assessment_revision db; t_learner_event := t_learner_event db; t_review_item := t_review_item db; t_learner_projection := t_learner_projection db; t_notion_connection := t_notion_connection db; t_notion_page_binding := t_notion_page_binding db; t_deletion_tombstone := t_deletion_tombstone db; t_export_job := t_export_job db; t_semantic_projection := t_semantic_projection db; t_assessment_attempt := t_assessment_attempt db; t_deletion_workflow := t_deletion_workflow db |};
  clash := AuditEvent.clash;
  row_id := AuditEvent.id;
  rows_set_rows _ _ := eq_refl;
|}.

#[global] Instance current_source_revision_table : Table CurrentSourceRevision.t := {|
  rows := t_current_source_revision;
  set_rows l db := {| t_account := t_account db; t_user := t_user db; t_account_member := t_account_member db; t_space := t_space db; t_space_member := t_space_member db; t_hosted_adult_attestation := t_hosted_adult_attestation db; t_external_identity := t_external_identity db; t_actor := t_actor db; t_browser_session := t_browser_session db; t_session_revocation := t_session_revocation db; t_external_client_grant := t_external_client_grant db; t_operator_bootstrap := t_operator_bootstrap db; t_oidc_login_challenge := t_oidc_login_challenge db; t_oidc_token_replay := t_oidc_token_replay db; t_service_auth_nonce := t_service_auth_nonce db; t_source := t_source db; t_source_revision := t_source_revision db; t_source_blob := t_source_blob db; t_authored_document := t_authored_document db; t_document_revision := t_document_revision db; t_parse_run := t_parse_run db; t_document_element := t_document_element db; t_provenance_record := t_provenance_record db; t_truth_classification := t_truth_classification db; t_conflict_set := t_conflict_set db; t_conflict_member := t_conflict_member db; t_proposal := t_proposal db; t_conversation := t_conversation db; t_conversation_turn := t_conversation_turn db; t_audit_event := t_audit_event db; t_current_source_revision := l; t_current_document_revision := t_current_document_revision db; t_outbox_event := t_outbox_event db; t_idempotency_record := t_idempotency_record db; t_durable_job := t_durable_job db; t_job_attempt := t_job_attempt db; t_projection_state := t_projection_state db; t_upload_intent := t_upload_intent db; t_current_active_parse_run := t_current_active_parse_run db; t_memory_item := t_memory_item db; t_memory_revision := t_memory_revision db; t_current_memory_revision := t_current_memory_revision db; t_projection := t_projection db; t_context_receipt := t_context_receipt db; t_context_receipt_item := t_context_receipt_item db; t_course := t_course db; t_curriculum_node := t_curriculum_node db; t_curriculum_edge := t_curriculum_edge db; t_assessment_item := t_assessment_item db; t_assessment_revision := t_assessment_revision db; t_current_assessment_revision := t_current_assessment_revision db; t_learner_event := t_learner_event db; t_review_item := t_review_item db; t_learner_projection := t_learner_projection db; t_notion_connection := t_notion_connection db; t_notion_page_binding := t_notion_page_binding db; t_deletion_tombstone := t_deletion_tombstone db; t_export_job := t_export_job db; t_semantic_projection := t_semantic_projection db; t_assessment_attempt := t_assessment_attempt db; t_deletion_workflow := t_deletion_workflow db |};
  clash := CurrentSourceRevision.clash;
  row_id := CurrentSourceRevision.id;
  rows_set_rows _ _ := eq_refl;
|}.

#[global] Instance current_document_revision_table : Table CurrentDocumentRevision.t := {|
  rows := t_current_document_revision;
  set_rows l db := {| t_account := t_account db; t_user := t_user db; t_account_member := t_account_member db; t_space := t_space db; t_space_member := t_space_member db; t_hosted_adult_attestation := t_hosted_adult_attestation db; t_external_identity := t_external_identity db; t_actor := t_actor db; t_browser_session := t_browser_session db; t_session_revocation := t_session_revocation db; t_external_client_grant := t_external_client_grant db; t_operator_bootstrap := t_operator_bootstrap db; t_oidc_login_challenge := t_oidc_login_challenge db; t_oidc_token_replay := t_oidc_token_replay db; t_service_auth_nonce := t_service_auth_nonce db; t_source := t_source db; t_source_revision := t_source_revision db; t_source_blob := t_source_blob db; t_authored_document := t_authored_document db; t_document_revision := t_document_revision db; t_parse_run := t_parse_run db; t_document_element := t_document_element db; t_provenance_record := t_provenance_record db; t_truth_classification := t_truth_classification db; t_conflict_set := t_conflict_set db; t_conflict_member := t_conflict_member db; t_proposal := t_proposal db; t_conversation := t_conversation db; t_conversation_turn := t_conversation_turn db; t_audit_event := t_audit_event db; t_current_source_revision := t_current_source_revision db; t_current_document_revision := l; t_outbox_event := t_outbox_event db; t_idempotency_record := t_idempotency_record db; t_durable_job := t_durable_job db; t_job_attempt := t_job_attempt db; t_projection_state := t_projection_state db; t_upload_intent := t_upload_intent db; t_current_active_parse_run := t_current_active_parse_run db; t_memory_item := t_memory_item db; t_memory_revision := t_memory_revision db; t_current_memory_revision := t_current_memory_revision db; t_projection := t_projection db; t_context_receipt := t_context_receipt db; t_context_receipt_item := t_context_receipt_item db; t_course := t_course db; t_curriculum_node := t_curriculum_node db; t_curriculum_edge := t_curriculum_edge db; t_assessment_item := t_assessment_item db; t_assessment_revision := t_assessment_revision db; t_current_assessment_revision := t_current_assessment_revision db; t_learner_event := t_learner_event db; t_review_item := t_review_item db; t_learner_projection := t_learner_projection db; t_notion_connection := t_notion_connection db; t_notion_page_binding := t_notion_page_binding db; t_deletion_tombstone := t_deletion_tombstone db; t_export_job := t_export_job db; t_semantic_projection := t_semantic_projection db; t_assessment_attempt := t_assessment_attempt db; t_deletion_workflow := t_deletion_workflow db |};
  clash := CurrentDocumentRevision.clash;
  row_id := CurrentDocumentRevision.id;
  rows_set_rows _ _ := eq_refl;
|}.

#[global] Instance outbox_event_table : Table OutboxEvent.t := {|
  rows := t_outbox_event;
  set_rows l db := {| t_account := t_account db; t_user := t_user db; t_account_member := t_account_member db; t_space := t_space db; t_space_member := t_space_member db; t_hosted_adult_attestation := t_hosted_adult_attestation db; t_external_identity := t_external_identity db; t_actor := t_actor db; t_browser_session := t_browser_session db; t_session_revocation := t_session_revocation db; t_external_client_grant := t_external_client_grant db; t_operator_bootstrap := t_operator_bootstrap db; t_oidc_login_challenge := t_oidc_login_challenge db; t_oidc_token_replay := t_oidc_token_replay db; t_service_auth_nonce := t_service_auth_nonce db; t_source := t_source db; t_source_revision := t_source_revision db; t_source_blob := t_source_blob db; t_authored_document := t_authored_document db; t_document_revision := t_document_revision db; t_parse_run := t_parse_run db; t_document_element := t_document_element db; t_provenance_record := t_provenance_record db; t_truth_classification := t_truth_classification db; t_conflict_set := t_conflict_set db; t_conflict_member := t_conflict_member db; t_proposal := t_proposal db; t_conversation := t_conversation db; t_conversation_turn := t_conversation_turn db; t_audit_event := t_audit_event db; t_current_source_revision := t_current_source_revision db; t_current_document_revision := t_current_document_revision db; t_outbox_event := l; t_idempotency_record := t_idempotency_record db; t_durable_job := t_durable_job db; t_job_attempt := t_job_attempt db; t_projection_state := t_projection_state db; t_upload_intent := t_upload_intent db; t_current_active_parse_run := t_current_active_parse_run db; t_memory_item := t_memory_item db; t_memory_revision := t_memory_revision db; t_current_memory_revision := t_current_memory_revision db; t_projection := t_projection db; t_context_receipt := t_context_receipt db; t_context_receipt_item := t_context_receipt_item db; t_course := t_course db; t_curriculum_node := t_curriculum_node db; t_curriculum_edge := t_curriculum_edge db; t_assessment_item := t_assessment_item db; t_assessment_revision := t_assessment_revision db; t_current_assessment_revision := t_current_assessment_revision db; t_learner_event := t_learner_event db; t_review_item := t_review_item db; t_learner_projection := t_learner_projection db; t_notion_connection := t_notion_connection db; t_notion_page_binding := t_notion_page_binding db; t_deletion_tombstone := t_deletion_tombstone db; t_export_job := t_export_job db; t_semantic_projection := t_semantic_projection db; t_assessment_attempt := t_assessment_attempt db; t_deletion_workflow := t_deletion_workflow db |};
  clash := OutboxEvent.clash;
  row_id := OutboxEvent.id;
  rows_set_rows _ _ := eq_refl;
|}.

#[global] Instance idempotency_record_table : Table IdempotencyRecord.t := {|
  rows := t_idempotency_record;
  set_rows l db := {| t_account := t_account db; t_user := t_user db; t_account_member := t_account_member db; t_space := t_space db; t_space_member := t_space_member db; t_hosted_adult_attestation := t_hosted_adult_attestation db; t_external_identity := t_external_identity db; t_actor := t_actor db; t_browser_session := t_browser_session db; t_session_revocation := t_session_revocation db; t_external_client_grant := t_external_client_grant db; t_operator_bootstrap := t_operator_bootstrap db; t_oidc_login_challenge := t_oidc_login_challenge db; t_oidc_token_replay := t_oidc_token_replay db; t_service_auth_nonce := t_service_auth_nonce db; t_source := t_source db; t_source_revision := t_source_revision db; t_source_blob := t_source_blob db; t_authored_document := t_authored_document db; t_document_revision := t_document_revision db; t_parse_run := t_parse_run db; t_document_element := t_document_element db; t_provenance_record := t_provenance_record db; t_truth_classification := t_truth_classification db; t_conflict_set := t_conflict_set db; t_conflict_member := t_conflict_member db; t_proposal := t_proposal db; t_conversation := t_conversation db; t_conversation_turn := t_conversation_turn db; t_audit_event := t_audit_event db; t_current_source_revision := t_current_source_revision db; t_current_document_revision := t_current_document_revision db; t_outbox_event := t_outbox_event db; t_idempotency_record := l; t_durable_job := t_durable_job db; t_job_attempt := t_job_attempt db; t_projection_state := t_projection_state db; t_upload_intent := t_upload_intent db; t_current_active_parse_run := t_current_active_parse_run db; t_memory_item := t_memory_item db; t_memory_revision := t_memory_revision db; t_current_memory_revision := t_current_memory_revision db; t_projection := t_projection db; t_context_receipt := t_context_receipt db; t_context_receipt_item := t_context_receipt_item db; t_course := t_course db; t_curriculum_node := t_curriculum_node db; t_curriculum_edge := t_curriculum_edge db; t_assessment_item := t_assessment_item db; t_assessment_revision := t_assessment_revision db; t_current_assessment_revision := t_current_assessment_revision db; t_learner_event := t_learner_event db; t_review_item := t_review_item db; t_learner_projection := t_learner_projection db; t_notion_connection := t_notion_connection db; t_notion_page_binding := t_notion_page_binding db; t_deletion_tombstone := t_deletion_tombstone db; t_export_job := t_export_job db; t_semantic_projection := t_semantic_projection db; t_assessment_attempt := t_assessment_attempt db; t_deletion_workflow := t_deletion_workflow db |};
  clash := IdempotencyRecord.clash;
  row_id := IdempotencyRecord.id;
  rows_set_rows _ _ := eq_refl;
|}.

#[global] Instance durable_job_table : Table DurableJob.t := {|
  rows := t_durable_job;
  set_rows l db := {| t_account := t_account db; t_user := t_user db; t_account_member := t_account_member db; t_space := t_space db; t_space_member := t_space_member db; t_hosted_adult_attestation := t_hosted_adult_attestation db; t_external_identity := t_external_identity db; t_actor := t_actor db; t_browser_session := t_browser_session db; t_session_revocation := t_session_revocation db; t_external_client_grant := t_external_client_grant db; t_operator_bootstrap := t_operator_bootstrap db; t_oidc_login_challenge := t_oidc_login_challenge db; t_oidc_token_replay := t_oidc_token_replay db; t_service_auth_nonce := t_service_auth_nonce db; t_source := t_source db; t_source_revision := t_source_revision db; t_source_blob := t_source_blob db; t_authored_document := t_authored_document db; t_document_revision := t_document_revision db; t_parse_run := t_parse_run db; t_document_element := t_document_element db; t_provenance_record := t_provenance_record db; t_truth_classification := t_truth_classification db; t_conflict_set := t_conflict_set db; t_conflict_member := t_conflict_member db; t_proposal := t_proposal db; t_conversation := t_conversation db; t_conversation_turn := t_conversation_turn db; t_audit_event := t_audit_event db; t_current_source_revision := t_current_source_revision db; t_current_document_revision := t_current_document_revision db; t_outbox_event := t_outbox_event db; t_idempotency_record := t_idempotency_record db; t_durable_job := l; t_job_attempt := t_job_attempt db; t_projection_state := t_projection_state db; t_upload_intent := t_upload_intent db; t_current_active_parse_run := t_current_active_parse_run db; t_memory_item := t_memory_item db; t_memory_revision := t_memory_revision db; t_current_memory_revision := t_current_memory_revision db; t_projection := t_projection db; t_context_receipt := t_context_receipt db; t_context_receipt_item := t_context_receipt_item db; t_course := t_course db; t_curriculum_node := t_curriculum_node db; t_curriculum_edge := t_curriculum_edge db; t_assessment_item := t_assessment_item db; t_assessment_revision := t_assessment_revision db; t_current_assessment_revision := t_current_assessment_revision db; t_learner_event := t_learner_event db; t_review_item := t_review_item db; t_learner_projection := t_learner_projection db; t_notion_connection := t_notion_connection db; t_notion_page_binding := t_notion_page_binding db; t_deletion_tombstone := t_deletion_tombstone db; t_export_job := t_export_job db; t_semantic_projection := t_semantic_projection db; t_assessment_attempt := t_assessment_attempt db; t_deletion_workflow := t_deletion_workflow db |};
  clash := DurableJob.clash;
  row_id := DurableJob.id;
  rows_set_rows _ _ := eq_refl;
|}.

#[global] Instance job_attempt_table : Table JobAttempt.t := {|
  rows := t_job_attempt;
  set_rows l db := {| t_account := t_account db; t_user := t_user db; t_account_member := t_account_member db; t_space := t_space db; t_space_member := t_space_member db; t_hosted_adult_attestation := t_hosted_adult_attestation db; t_external_identity := t_external_identity db; t_actor := t_actor db; t_browser_session := t_browser_session db; t_session_revocation := t_session_revocation db; t_external_client_grant := t_external_client_grant db; t_operator_bootstrap := t_operator_bootstrap db; t_oidc_login_challenge := t_oidc_login_challenge db; t_oidc_token_replay := t_oidc_token_replay db; t_service_auth_nonce := t_service_auth_nonce db; t_source := t_source db; t_source_revision := t_source_revision db; t_source_blob := t_source_blob db; t_authored_document := t_authored_document db; t_document_revision := t_document_revision db; t_parse_run := t_parse_run db; t_document_element := t_document_element db; t_provenance_record := t_provenance_record db; t_truth_classification := t_truth_classification db; t_conflict_set := t_conflict_set db; t_conflict_member := t_conflict_member db; t_proposal := t_proposal db; t_conversation := t_conversation db; t_conversation_turn := t_conversation_turn db; t_audit_event := t_audit_event db; t_current_source_revision := t_current_source_revision db; t_current_document_revision := t_current_document_revision db; t_outbox_event := t_outbox_event db; t_idempotency_record := t_idempotency_record db; t_durable_job := t_durable_job db; t_job_attempt := l; t_projection_state := t_projection_state db; t_upload_intent := t_upload_intent db; t_current_active_parse_run := t_current_active_parse_run db; t_memory_item := t_memory_item db; t_memory_revision := t_memory_revision db; t_current_memory_revision := t_current_memory_revision db; t_projection := t_projection db; t_context_receipt := t_context_receipt db; t_context_receipt_item := t_context_receipt_item db; t_course := t_course db; t_curriculum_node := t_curriculum_node db; t_curriculum_edge := t_curriculum_edge db; t_assessment_item := t_assessment_item db; t_assessment_revision := t_assessment_revision db; t_current_assessment_revision := t_current_assessment_revision db; t_learner_event := t_learner_event db; t_review_item := t_review_item db; t_learner_projection := t_learner_projection db; t_notion_connection := t_notion_connection db; t_notion_page_binding := t_notion_page_binding db; t_deletion_tombstone := t_deletion_tombstone db; t_export_job := t_export_job db; t_semantic_projection := t_semantic_projection db; t_assessment_attempt := t_assessment_attempt db; t_deletion_workflow := t_deletion_workflow db |};
  clash := JobAttempt.clash;
  row_id := JobAttempt.id;
  rows_set_rows _ _ := eq_refl;
|}.

#[global] Instance projection_state_table : Table ProjectionState.t := {|
  rows := t_projection_state;
  set_rows l db := {| t_account := t_account db; t_user := t_user db; t_account_member := t_account_member db; t_space := t_space db; t_space_member := t_space_member db; t_hosted_adult_attestation := t_hosted_adult_attestation db; t_external_identity := t_external_identity db; t_actor := t_actor db; t_browser_session := t_browser_session db; t_session_revocation := t_session_revocation db; t_external_client_grant := t_external_client_grant db; t_operator_bootstrap := t_operator_bootstrap db; t_oidc_login_challenge := t_oidc_login_challenge db; t_oidc_token_replay := t_oidc_token_replay db; t_service_auth_nonce := t_service_auth_nonce db; t_source := t_source db; t_source_revision := t_source_revision db; t_source_blob := t_source_blob db; t_authored_document := t_authored_document db; t_document_revision := t_document_revision db; t_parse_run := t_parse_run db; t_document_element := t_document_element db; t_provenance_record := t_provenance_record db; t_truth_classification := t_truth_classification db; t_conflict_set := t_conflict_set db; t_conflict_member := t_conflict_member db; t_proposal := t_proposal db; t_conversation := t_conversation db; t_conversation_turn := t_conversation_turn db; t_audit_event := t_audit_event db; t_current_source_revision := t_current_source_revision db; t_current_document_revision := t_current_document_revision db; t_outbox_event := t_outbox_event db; t_idempotency_record := t_idempotency_record db; t_durable_job := t_durable_job db; t_job_attempt := t_job_attempt db; t_projection_state := l; t_upload_intent := t_upload_intent db; t_current_active_parse_run := t_current_active_parse_run db; t_memory_item := t_memory_item db; t_memory_revision := t_memory_revision db; t_current_memory_revision := t_current_memory_revision db; t_projection := t_projection db; t_context_receipt := t_context_receipt db; t_context_receipt_item := t_context_receipt_item db; t_course := t_course db; t_curriculum_node := t_curriculum_node db; t_curriculum_edge := t_curriculum_edge db; t_assessment_item := t_assessment_item db; t_assessment_revision := t_assessment_revision db; t_current_assessment_revision := t_current_assessment_revision db; t_learner_event := t_learner_event db; t_review_item := t_review_item db; t_learner_projection := t_learner_projection db; t_notion_connection := t_notion_connection db; t_notion_page_binding := t_notion_page_binding db; t_deletion_tombstone := t_deletion_tombstone db; t_export_job := t_export_job db; t_semantic_projection := t_semantic_projection db; t_assessment_attempt := t_assessment_attempt db; t_deletion_workflow := t_deletion_workflow db |};
  clash := ProjectionState.clash;
  row_id := ProjectionState.id;
  rows_set_rows _ _ := eq_refl;
|}.

#[global] Instance upload_intent_table : Table UploadIntent.t := {|
  rows := t_upload_intent;
  set_rows l db := {| t_account := t_account db; t_user := t_user db; t_account_member := t_account_member db; t_space := t_space db; t_space_member := t_space_member db; t_hosted_adult_attestation := t_hosted_adult_attestation db; t_external_identity := t_external_identity db; t_actor := t_actor db; t_browser_session := t_browser_session db; t_session_revocation := t_session_revocation db; t_external_client_grant := t_external_client_grant db; t_operator_bootstrap := t_operator_bootstrap db; t_oidc_login_challenge := t_oidc_login_challenge db; t_oidc_token_replay := t_oidc_token_replay db; t_service_auth_nonce := t_service_auth_nonce db; t_source := t_source db; t_source_revision := t_source_revision db; t_source_blob := t_source_blob db; t_authored_document := t_authored_document db; t_document_revision := t_document_revision db; t_parse_run := t_parse_run db; t_document_element := t_document_element db; t_provenance_record := t_provenance_record db; t_truth_classification := t_truth_classification db; t_conflict_set := t_conflict_set db; t_conflict_member := t_conflict_member db; t_proposal := t_proposal db; t_conversation := t_conversation db; t_conversation_turn := t_conversation_turn db; t_audit_event := t_audit_event db; t_current_source_revision := t_current_source_revision db; t_current_document_revision := t_current_document_revision db; t_outbox_event := t_outbox_event db; t_idempotency_record := t_idempotency_record db; t_durable_job := t_durable_job db; t_job_attempt := t_job_attempt db; t_projection_state := t_projection_state db; t_upload_intent := l; t_current_active_parse_run := t_current_active_parse_run db; t_memory_item := t_memory_item db; t_memory_revision := t_memory_revision db; t_current_memory_revision := t_current_memory_revision db; t_projection := t_projection db; t_context_receipt := t_context_receipt db; t_context_receipt_item := t_context_receipt_item db; t_course := t_course db; t_curriculum_node := t_curriculum_node db; t_curriculum_edge := t_curriculum_edge db; t_assessment_item := t_assessment_item db; t_assessment_revision := t_assessment_revision db; t_current_assessment_revision := t_current_assessment_revision db; t_learner_event := t_learner_event db; t_review_item := t_review_item db; t_learner_projection := t_learner_projection db; t_notion_connection := t_notion_connection db; t_notion_page_binding := t_notion_page_binding db; t_deletion_tombstone := t_deletion_tombstone db; t_export_job := t_export_job db; t_semantic_projection := t_semantic_projection db; t_assessment_attempt := t_assessment_attempt db; t_deletion_workflow := t_deletion_workflow db |};
  clash := UploadIntent.clash;
  row_id := UploadIntent.id;
  rows_set_rows _ _ := eq_refl;
|}.

#[global] Instance current_active_parse_run_table : Table CurrentActiveParseRun.t := {|
  rows := t_current_active_parse_run;
  set_rows l db := {| t_account := t_account db; t_user := t_user db; t_account_member := t_account_member db; t_space := t_space db; t_space_member := t_space_member db; t_hosted_adult_attestation := t_hosted_adult_attestation db; t_external_identity := t_external_identity db; t_actor := t_actor db; t_browser_session := t_browser_session db; t_session_revocation := t_session_revocation db; t_external_client_grant := t_external_client_grant db; t_operator_bootstrap := t_operator_bootstrap db; t_oidc_login_challenge := t_oidc_login_challenge db; t_oidc_token_replay := t_oidc_token_replay db; t_service_auth_nonce := t_service_auth_nonce db; t_source := t_source db; t_source_revision := t_source_revision db; t_source_blob := t_source_blob db; t_authored_document := t_authored_document db; t_document_revision := t_document_revision db; t_parse_run := t_parse_run db; t_document_element := t_document_element db; t_provenance_record := t_provenance_record db; t_truth_classification := t_truth_classification db; t_conflict_set := t_conflict_set db; t_conflict_member := t_conflict_member db; t_proposal := t_proposal db; t_conversation := t_conversation db; t_conversation_turn := t_conversation_turn db; t_audit_event := t_audit_event db; t_current_source_revision := t_current_source_revision db; t_current_document_revision := t_current_document_revision db; t_outbox_event := t_outbox_event db; t_idempotency_record := t_idempotency_record db; t_durable_job := t_durable_job db; t_job_attempt := t_job_attempt db; t_projection_state := t_projection_state db; t_upload_intent := t_upload_intent db; t_current_active_parse_run := l; t_memory_item := t_memory_item db; t_memory_revision := t_memory_revision db; t_current_memory_revision := t_current_memory_revision db; t_projection := t_projection db; t_context_receipt := t_context_receipt db; t_context_receipt_item := t_context_receipt_item db; t_course := t_course db; t_curriculum_node := t_curriculum_node db; t_curriculum_edge := t_curriculum_edge db; t_assessment_item := t_assessment_item db; t_assessment_revision := t_assessment_revision db; t_current_assessment_revision := t_current_assessment_revision db; t_learner_event := t_learner_event db; t_review_item := t_review_item db; t_learner_projection := t_learner_projection db; t_notion_connection := t_notion_connection db; t_notion_page_binding := t_notion_page_binding db; t_deletion_tombstone := t_deletion_tombstone db; t_export_job := t_export_job db; t_semantic_projection := t_semantic_projection db; t_assessment_attempt := t_assessment_attempt db; t_deletion_workflow := t_deletion_workflow db |};
  clash := CurrentActiveParseRun.clash;
  row_id := CurrentActiveParseRun.id;
  rows_set_rows _ _ := eq_refl;
|}.

#[global] Instance memory_item_table : Table MemoryItem.t := {|
  rows := t_memory_item;
  set_rows l db := {| t_account := t_account db; t_user := t_user db; t_account_member := t_account_member db; t_space := t_space db; t_space_member := t_space_member db; t_hosted_adult_attestation := t_hosted_adult_attestation db; t_external_identity := t_external_identity db; t_actor := t_actor db; t_browser_session := t_browser_session db; t_session_revocation := t_session_revocation db; t_external_client_grant := t_external_client_grant db; t_operator_bootstrap := t_operator_bootstrap db; t_oidc_login_challenge := t_oidc_login_challenge db; t_oidc_token_replay := t_oidc_token_replay db; t_service_auth_nonce := t_service_auth_nonce db; t_source := t_source db; t_source_revision := t_source_revision db; t_source_blob := t_source_blob db; t_authored_document := t_authored_document db; t_document_revision := t_document_revision db; t_parse_run := t_parse_run db; t_document_element := t_document_element db; t_provenance_record := t_provenance_record db; t_truth_classification := t_truth_classification db; t_conflict_set := t_conflict_set db; t_conflict_member := t_conflict_member db; t_proposal := t_proposal db; t_conversation := t_conversation db; t_conversation_turn := t_conversation_turn db; t_audit_event := t_audit_event db; t_current_source_revision := t_current_source_revision db; t_current_document_revision := t_current_document_revision db; t_outbox_event := t_outbox_event db; t_idempotency_record := t_idempotency_record db; t_durable_job := t_durable_job db; t_job_attempt := t_job_attempt db; t_projection_state := t_projection_state db; t_upload_intent := t_upload_intent db; t_current_active_parse_run := t_current_active_parse_run db; t_memory_item := l; t_memory_revision := t_memory_revision db; t_current_memory_revision := t_current_memory_revision db; t_projection := t_projection db; t_context_receipt := t_context_receipt db; t_context_receipt_item := t_context_receipt_item db; t_course := t_course db; t_curriculum_node := t_curriculum_node db; t_curriculum_edge := t_curriculum_edge db; t_assessment_item := t_assessment_item db; t_assessment_revision := t_assessment_revision db; t_current_assessment_revision := t_current_assessment_revision db; t_learner_event := t_learner_event db; t_review_item := t_review_item db; t_learner_projection := t_learner_projection db; t_notion_connection := t_notion_connection db; t_notion_page_binding := t_notion_page_binding db; t_deletion_tombstone := t_deletion_tombstone db; t_export_job := t_export_job db; t_semantic_projection := t_semantic_projection db; t_assessment_attempt := t_assessment_attempt db; t_deletion_workflow := t_deletion_workflow db |};
  clash := MemoryItem.clash;
  row_id := MemoryItem.id;
  rows_set_rows _ _ := eq_refl;
|}.

#[global] Instance memory_revision_table : Table MemoryRevision.t := {|
  rows := t_memory_revision;
  set_rows l db := {| t_account := t_account db; t_user := t_user db; t_account_member := t_account_member db; t_space := t_space db; t_space_member := t_space_member db; t_hosted_adult_attestation := t_hosted_adult_attestation db; t_external_identity := t_external_identity db; t_actor := t_actor db; t_browser_session := t_browser_session db; t_session_revocation := t_session_revocation db; t_external_client_grant := t_external_client_grant db; t_operator_bootstrap := t_operator_bootstrap db; t_oidc_login_challenge := t_oidc_login_challenge db; t_oidc_token_replay := t_oidc_token_replay db; t_service_auth_nonce := t_service_auth_nonce db; t_source := t_source db; t_source_revision := t_source_revision db; t_source_blob := t_source_blob db; t_authored_document := t_authored_document db; t_document_revision := t_document_revision db; t_parse_run := t_parse_run db; t_document_element := t_document_element db; t_provenance_record := t_provenance_record db; t_truth_classification := t_truth_classification db; t_conflict_set := t_conflict_set db; t_conflict_member := t_conflict_member db; t_proposal := t_proposal db; t_conversation := t_conversation db; t_conversation_turn := t_conversation_turn db; t_audit_event := t_audit_event db; t_current_source_revision := t_current_source_revision db; t_current_document_revision := t_current_document_revision db; t_outbox_event := t_outbox_event db; t_idempotency_record := t_idempotency_record db; t_durable_job := t_durable_job db; t_job_attempt := t_job_attempt db; t_projection_state := t_projection_state db; t_upload_intent := t_upload_intent db; t_current_active_parse_run := t_current_active_parse_run db; t_memory_item := t_memory_item db; t_memory_revision := l; t_current_memory_revision := t_current_memory_revision db; t_projection := t_projection db; t_context_receipt := t_context_receipt db; t_context_receipt_item := t_context_receipt_item db; t_course := t_course db; t_curriculum_node := t_curriculum_node db; t_curriculum_edge := t_curriculum_edge db; t_assessment_item := t_assessment_item db; t_assessment_revision := t_assessment_revision db; t_current_assessment_revision := t_current_assessment_revision db; t_learner_event := t_learner_event db; t_review_item := t_review_item db; t_learner_projection := t_learner_projection db; t_notion_connection := t_notion_connection db; t_notion_page_binding := t_notion_page_binding db; t_deletion_tombstone := t_deletion_tombstone db; t_export_job := t_export_job db; t_semantic_projection := t_semantic_projection db; t_assessment_attempt := t_assessment_attempt db; t_deletion_workflow := t_deletion_workflow db |};
  clash := MemoryRevision.clash;
  row_id := MemoryRevision.id;
  rows_set_rows _ _ := eq_refl;
|}.

#[global] Instance current_memory_revision_table : Table CurrentMemoryRevision.t := {|
  rows := t_current_memory_revision;
  set_rows l db := {| t_account := t_account db; t_user := t_user db; t_account_member := t_account_member db; t_space := t_space db; t_space_member := t_space_member db; t_hosted_adult_attestation := t_hosted_adult_attestation db; t_external_identity := t_external_identity db; t_actor := t_actor db; t_browser_session := t_browser_session db; t_session_revocation := t_session_revocation db; t_external_client_grant := t_external_client_grant db; t_operator_bootstrap := t_operator_bootstrap db; t_oidc_login_challenge := t_oidc_login_challenge db; t_oidc_token_replay := t_oidc_token_replay db; t_service_auth_nonce := t_service_auth_nonce db; t_source := t_source db; t_source_revision := t_source_revision db; t_source_blob := t_source_blob db; t_authored_document := t_authored_document db; t_document_revision := t_document_revision db; t_parse_run := t_parse_run db; t_document_element := t_document_element db; t_provenance_record := t_provenance_record db; t_truth_classification := t_truth_classification db; t_conflict_set := t_conflict_set db; t_conflict_member := t_conflict_member db; t_proposal := t_proposal db; t_conversation := t_conversation db; t_conversation_turn := t_conversation_turn db; t_audit_event := t_audit_event db; t_current_source_revision := t_current_source_revision db; t_current_document_revision := t_current_document_revision db; t_outbox_event := t_outbox_event db; t_idempotency_record := t_idempotency_record db; t_durable_job := t_durable_job db; t_job_attempt := t_job_attempt db; t_projection_state := t_projection_state db; t_upload_intent := t_upload_intent db; t_current_active_parse_run := t_current_active_parse_run db; t_memory_item := t_memory_item db; t_memory_revision := t_memory_revision db; t_current_memory_revision := l; t_projection := t_projection db; t_context_receipt := t_context_receipt db; t_context_receipt_item := t_context_receipt_item db; t_course := t_course db; t_curriculum_node := t_curriculum_node db; t_curriculum_edge := t_curriculum_edge db; t_assessment_item := t_assessment_item db; t_assessment_revision := t_assessment_revision db; t_current_assessment_revision := t_current_assessment_revision db; t_learner_event := t_learner_event db; t_review_item := t_review_item db; t_learner_projection := t_learner_projection db; t_notion_connection := t_notion_connection db; t_notion_page_binding := t_notion_page_binding db; t_deletion_tombstone := t_deletion_tombstone db; t_export_job := t_export_job db; t_semantic_projection := t_semantic_projection db; t_assessment_attempt := t_assessment_attempt db; t_deletion_workflow := t_deletion_workflow db |};
  clash := CurrentMemoryRevision.clash;
  row_id := CurrentMemoryRevision.id;
  rows_set_rows _ _ := eq_refl;
|}.

#[global] Instance projection_table : Table Projection.t := {|
  rows := t_projection;
  set_rows l db := {| t_account := t_account db; t_user := t_user db; t_account_member := t_account_member db; t_space := t_space db; t_space_member := t_space_member db; t_hosted_adult_attestation := t_hosted_adult_attestation db; t_external_identity := t_external_identity db; t_actor := t_actor db; t_browser_session := t_browser_session db; t_session_revocation := t_session_revocation db; t_external_client_grant := t_external_client_grant db; t_operator_bootstrap := t_operator_bootstrap db; t_oidc_login_challenge := t_oidc_login_challenge db; t_oidc_token_replay := t_oidc_token_replay db; t_service_auth_nonce := t_service_auth_nonce db; t_source := t_source db; t_source_revision := t_source_revision db; t_source_blob := t_source_blob db; t_authored_document := t_authored_document db; t_document_revision := t_document_revision db; t_parse_run := t_parse_run db; t_document_element := t_document_element db; t_provenance_record := t_provenance_record db; t_truth_classification := t_truth_classification db; t_conflict_set := t_conflict_set db; t_conflict_member := t_conflict_member db; t_proposal := t_proposal db; t_conversation := t_conversation db; t_conversation_turn := t_conversation_turn db; t_audit_event := t_audit_event db; t_current_source_revision := t_current_source_revision db; t_current_document_revision := t_current_document_revision db; t_outbox_event := t_outbox_event db; t_idempotency_record := t_idempotency_record db; t_durable_job := t_durable_job db; t_job_attempt := t_job_attempt db; t_projection_state := t_projection_state db; t_upload_intent := t_upload_intent db; t_current_active_parse_run := t_current_active_parse_run db; t_memory_item := t_memory_item db; t_memory_revision := t_memory_revision db; t_current_memory_revision := t_current_memory_revision db; t_projection := l; t_context_receipt := t_context_receipt db; t_context_receipt_item := t_context_receipt_item db; t_course := t_course db; t_curriculum_node := t_curriculum_node db; t_curriculum_edge := t_curriculum_edge db; t_assessment_item := t_assessment_item db; t_assessment_revision := t_assessment_revision db; t_current_assessment_revision := t_current_assessment_revision db; t_learner_event := t_learner_event db; t_review_item := t_review_item db; t_learner_projection := t_learner_projection db; t_notion_connection := t_notion_connection db; t_notion_page_binding := t_notion_page_binding db; t_deletion_tombstone := t_deletion_tombstone db; t_export_job := t_export_job db; t_semantic_projection := t_semantic_projection db; t_assessment_attempt := t_assessment_attempt db; t_deletion_workflow := t_deletion_workflow db |};
  clash := Projection.clash;
  row_id := Projection.id;
  rows_set_rows _ _ := eq_refl;
|}.

#[global] Instance context_receipt_table : Table ContextReceipt.t := {|
  rows := t_context_receipt;
  set_rows l db := {| t_account := t_account db; t_user := t_user db; t_account_member := t_account_member db; t_space := t_space db; t_space_member := t_space_member db; t_hosted_adult_attestation := t_hosted_adult_attestation db; t_external_identity := t_external_identity db; t_actor := t_actor db; t_browser_session := t_browser_session db; t_session_revocation := t_session_revocation db; t_external_client_grant := t_external_client_grant db; t_operator_bootstrap := t_operator_bootstrap db; t_oidc_login_challenge := t_oidc_login_challenge db; t_oidc_token_replay := t_oidc_token_replay db; t_service_auth_nonce := t_service_auth_nonce db; t_source := t_source db; t_source_revision := t_source_revision db; t_source_blob := t_source_blob db; t_authored_document := t_authored_document db; t_document_revision := t_document_revision db; t_parse_run := t_parse_run db; t_document_element := t_document_element db; t_provenance_record := t_provenance_record db; t_truth_classification := t_truth_classification db; t_conflict_set := t_conflict_set db; t_conflict_member := t_conflict_member db; t_proposal := t_proposal db; t_conversation := t_conversation db; t_conversation_turn := t_conversation_turn db; t_audit_event := t_audit_event db; t_current_source_revision := t_current_source_revision db; t_current_document_revision := t_current_document_revision db; t_outbox_event := t_outbox_event db; t_idempotency_record := t_idempotency_record db; t_durable_job := t_durable_job db; t_job_attempt := t_job_attempt db; t_projection_state := t_projection_state db; t_upload_intent := t_upload_intent db; t_current_active_parse_run := t_current_active_parse_run db; t_memory_item := t_memory_item db; t_memory_revision := t_memory_revision db; t_current_memory_revision := t_current_memory_revision db; t_projection := t_projection db; t_context_receipt := l; t_context_receipt_item := t_context_receipt_item db; t_course := t_course db; t_curriculum_node := t_curriculum_node db; t_curriculum_edge := t_curriculum_edge db; t_assessment_item := t_assessment_item db; t_assessment_revision := t_assessment_revision db; t_current_assessment_revision := t_current_assessment_revision db; t_learner_event := t_learner_event db; t_review_item := t_review_item db; t_learner_projection := t_learner_projection db; t_notion_connection := t_notion_connection db; t_notion_page_binding := t_notion_page_binding db; t_deletion_tombstone := t_deletion_tombstone db; t_export_job := t_export_job db; t_semantic_projection := t_semantic_projection db; t_assessment_attempt := t_assessment_attempt db; t_deletion_workflow := t_deletion_workflow db |};
  clash := ContextReceipt.clash;
  row_id := ContextReceipt.id;
  rows_set_rows _ _ := eq_refl;
|}.

#[global] Instance context_receipt_item_table : Table ContextReceiptItem.t := {|
  rows := t_context_receipt_item;
  set_rows l db := {| t_account := t_account db; t_user := t_user db; t_account_member := t_account_member db; t_space := t_space db; t_space_member := t_space_member db; t_hosted_adult_attestation := t_hosted_adult_attestation db; t_external_identity := t_external_identity db; t_actor := t_actor db; t_browser_session := t_browser_session db; t_session_revocation := t_session_revocation db; t_external_client_grant := t_external_client_grant db; t_operator_bootstrap := t_operator_bootstrap db; t_oidc_login_challenge := t_oidc_login_challenge db; t_oidc_token_replay := t_oidc_token_replay db; t_service_auth_nonce := t_service_auth_nonce db; t_source := t_source db; t_source_revision := t_source_revision db; t_source_blob := t_source_blob db; t_authored_document := t_authored_document db; t_document_revision := t_document_revision db; t_parse_run := t_parse_run db; t_document_element := t_document_element db; t_provenance_record := t_provenance_record db; t_truth_classification := t_truth_classification db; t_conflict_set := t_conflict_set db; t_conflict_member := t_conflict_member db; t_proposal := t_proposal db; t_conversation := t_conversation db; t_conversation_turn := t_conversation_turn db; t_audit_event := t_audit_event db; t_current_source_revision := t_current_source_revision db; t_current_document_revision := t_current_document_revision db; t_outbox_event := t_outbox_event db; t_idempotency_record := t_idempotency_record db; t_durable_job := t_durable_job db; t_job_attempt := t_job_attempt db; t_projection_state := t_projection_state db; t_upload_intent := t_upload_intent db; t_current_active_parse_run := t_current_active_parse_run db; t_memory_item := t_memory_item db; t_memory_revision := t_memory_revision db; t_current_memory_revision := t_current_memory_revision db; t_projection := t_projection db; t_context_receipt := t_context_receipt db; t_context_receipt_item := l; t_course := t_course db; t_curriculum_node := t_curriculum_node db; t_curriculum_edge := t_curriculum_edge db; t_assessment_item := t_assessment_item db; t_assessment_revision := t_assessment_revision db; t_current_assessment_revision := t_current_assessment_revision db; t_learner_event := t_learner_event db; t_review_item := t_review_item db; t_learner_projection := t_learner_projection db; t_notion_connection := t_notion_connection db; t_notion_page_binding := t_notion_page_binding db; t_deletion_tombstone := t_deletion_tombstone db; t_export_job := t_export_job db; t_semantic_projection := t_semantic_projection db; t_assessment_attempt := t_assessment_attempt db; t_deletion_workflow := t_deletion_workflow db |};
  clash := ContextReceiptItem.clash;
  row_id := ContextReceiptItem.id;
  rows_set_rows _ _ := eq_refl;
|}.

#[global] Instance course_table : Table Course.t := {|
  rows := t_course;
  set_rows l db := {| t_account := t_account db; t_user := t_user db; t_account_member := t_account_member db; t_space := t_space db; t_space_member := t_space_member db; t_hosted_adult_attestation := t_hosted_adult_attestation db; t_external_identity := t_external_identity db; t_actor := t_actor db; t_browser_session := t_browser_session db; t_session_revocation := t_session_revocation db; t_external_client_grant := t_external_client_grant db; t_operator_bootstrap := t_operator_bootstrap db; t_oidc_login_challenge := t_oidc_login_challenge db; t_oidc_token_replay := t_oidc_token_replay db; t_service_auth_nonce := t_service_auth_nonce db; t_source := t_source db; t_source_revision := t_source_revision db; t_source_blob := t_source_blob db; t_authored_document := t_authored_document db; t_document_revision := t_document_revision db; t_parse_run := t_parse_run db; t_document_element := t_document_element db; t_provenance_record := t_provenance_record db; t_truth_classification := t_truth_classification db; t_conflict_set := t_conflict_set db; t_conflict_member := t_conflict_member db; t_proposal := t_proposal db; t_conversation := t_conversation db; t_conversation_turn := t_conversation_turn db; t_audit_event := t_audit_event db; t_current_source_revision := t_current_source_revision db; t_current_document_revision := t_current_document_revision db; t_outbox_event := t_outbox_event db; t_idempotency_record := t_idempotency_record db; t_durable_job := t_durable_job db; t_job_attempt := t_job_attempt db; t_projection_state := t_projection_state db; t_upload_intent := t_upload_intent db; t_current_active_parse_run := t_current_active_parse_run db; t_memory_item := t_memory_item db; t_memory_revision := t_memory_revision db; t_current_memory_revision := t_current_memory_revision db; t_projection := t_projection db; t_context_receipt := t_context_receipt db; t_context_receipt_item := t_context_receipt_item db; t_course := l; t_curriculum_node := t_curriculum_node db; t_curriculum_edge := t_curriculum_edge db; t_assessment_item := t_assessment_item db; t_assessment_revision := t_assessment_revision db; t_current_assessment_revision := t_current_assessment_revision db; t_learner_event := t_learner_event db; t_review_item := t_review_item db; t_learner_projection := t_learner_projection db; t_notion_connection := t_notion_connection db; t_notion_page_binding := t_notion_page_binding db; t_deletion_tombstone := t_deletion_tombstone db; t_export_job := t_export_job db; t_semantic_projection := t_semantic_projection db; t_assessment_attempt := t_assessment_attempt db; t_deletion_workflow := t_deletion_workflow db |};
  clash := Course.clash;
  row_id := Course.id;
  rows_set_rows _ _ := eq_refl;
|}.

#[global] Instance curriculum_node_table : Table CurriculumNode.t := {|
  rows := t_curriculum_node;
  set_rows l db := {| t_account := t_account db; t_user := t_user db; t_account_member := t_account_member db; t_space := t_space db; t_space_member := t_space_member db; t_hosted_adult_attestation := t_hosted_adult_attestation db; t_external_identity := t_external_identity db; t_actor := t_actor db; t_browser_session := t_browser_session db; t_session_revocation := t_session_revocation db; t_external_client_grant := t_external_client_grant db; t_operator_bootstrap := t_operator_bootstrap db; t_oidc_login_challenge := t_oidc_login_challenge db; t_oidc_token_replay := t_oidc_token_replay db; t_service_auth_nonce := t_service_auth_nonce db; t_source := t_source db; t_source_revision := t_source_revision db; t_source_blob := t_source_blob db; t_authored_document := t_authored_document db; t_document_revision := t_document_revision db; t_parse_run := t_parse_run db; t_document_element := t_document_element db; t_provenance_record := t_provenance_record db; t_truth_classification := t_truth_classification db; t_conflict_set := t_conflict_set db; t_conflict_member := t_conflict_member db; t_proposal := t_proposal db; t_conversation := t_conversation db; t_conversation_turn := t_conversation_turn db; t_audit_event := t_audit_event db; t_current_source_revision := t_current_source_revision db; t_current_document_revision := t_current_document_revision db; t_outbox_event := t_outbox_event db; t_idempotency_record := t_idempotency_record db; t_durable_job := t_durable_job db; t_job_attempt := t_job_attempt db; t_projection_state := t_projection_state db; t_upload_intent := t_upload_intent db; t_current_active_parse_run := t_current_active_parse_run db; t_memory_item := t_memory_item db; t_memory_revision := t_memory_revision db; t_current_memory_revision := t_current_memory_revision db; t_projection := t_projection db; t_context_receipt := t_context_receipt db; t_context_receipt_item := t_context_receipt_item db; t_course := t_course db; t_curriculum_node := l; t_curriculum_edge := t_curriculum_edge db; t_assessment_item := t_assessment_item db; t_assessment_revision := t_assessment_revision db; t_current_assessment_revision := t_current_assessment_revision db; t_learner_event := t_learner_event db; t_review_item := t_review_item db; t_learner_projection := t_learner_projection db; t_notion_connection := t_notion_connection db; t_notion_page_binding := t_notion_page_binding db; t_deletion_tombstone := t_deletion_tombstone db; t_export_job := t_export_job db; t_semantic_projection := t_semantic_projection db; t_assessment_attempt := t_assessment_attempt db; t_deletion_workflow := t_deletion_workflow db |};
  clash := CurriculumNode.clash;
  row_id := CurriculumNode.id;
  rows_set_rows _ _ := eq_refl;
|}.

#[global] Instance curriculum_edge_table : Table CurriculumEdge.t := {|
  rows := t_curriculum_edge;
  set_rows l db := {| t_account := t_account db; t_user := t_user db; t_account_member := t_account_member db; t_space := t_space db; t_space_member := t_space_member db; t_hosted_adult_attestation := t_hosted_adult_attestation db; t_external_identity := t_external_identity db; t_actor := t_actor db; t_browser_session := t_browser_session db; t_session_revocation := t_session_revocation db; t_external_client_grant := t_external_client_grant db; t_operator_bootstrap := t_operator_bootstrap db; t_oidc_login_challenge := t_oidc_login_challenge db; t_oidc_token_replay := t_oidc_token_replay db; t_service_auth_nonce := t_service_auth_nonce db; t_source := t_source db; t_source_revision := t_source_revision db; t_source_blob := t_source_blob db; t_authored_document := t_authored_document db; t_document_revision := t_document_revision db; t_parse_run := t_parse_run db; t_document_element := t_document_element db; t_provenance_record := t_provenance_record db; t_truth_classification := t_truth_classification db; t_conflict_set := t_conflict_set db; t_conflict_member := t_conflict_member db; t_proposal := t_proposal db; t_conversation := t_conversation db; t_conversation_turn := t_conversation_turn db; t_audit_event := t_audit_event db; t_current_source_revision := t_current_source_revision db; t_current_document_revision := t_current_document_revision db; t_outbox_event := t_outbox_event db; t_idempotency_record := t_idempotency_record db; t_durable_job := t_durable_job db; t_job_attempt := t_job_attempt db; t_projection_state := t_projection_state db; t_upload_intent := t_upload_intent db; t_current_active_parse_run := t_current_active_parse_run db; t_memory_item := t_memory_item db; t_memory_revision := t_memory_revision db; t_current_memory_revision := t_current_memory_revision db; t_projection := t_projection db; t_context_receipt := t_context_receipt db; t_context_receipt_item := t_context_receipt_item db; t_course := t_course db; t_curriculum_node := t_curriculum_node db; t_curriculum_edge := l; t_assessment_item := t_assessment_item db; t_assessment_revision := t_assessment_revision db; t_current_assessment_revision := t_current_assessment_revision db; t_learner_event := t_learner_event db; t_review_item := t_review_item db; t_learner_projection := t_learner_projection db; t_notion_connection := t_notion_connection db; t_notion_page_binding := t_notion_page_binding db; t_deletion_tombstone := t_deletion_tombstone db; t_export_job := t_export_job db; t_semantic_projection := t_semantic_projection db; t_assessment_attempt := t_assessment_attempt db; t_deletion_workflow := t_deletion_workflow db |};
  clash := CurriculumEdge.clash;
  row_id := CurriculumEdge.id;
  rows_set_rows _ _ := eq_refl;
|}.

#[global] Instance assessment_item_table : Table AssessmentItem.t := {|
  rows := t_assessment_item;
  set_rows l db := {| t_account := t_account db; t_user := t_user db; t_account_member := t_account_member db; t_space := t_space db; t_space_member := t_space_member db; t_hosted_adult_attestation := t_hosted_adult_attestation db; t_external_identity := t_external_identity db; t_actor := t_actor db; t_browser_session := t_browser_session db; t_session_revocation := t_session_revocation db; t_external_client_grant := t_external_client_grant db; t_operator_bootstrap := t_operator_bootstrap db; t_oidc_login_challenge := t_oidc_login_challenge db; t_oidc_token_replay := t_oidc_token_replay db; t_service_auth_nonce := t_service_auth_nonce db; t_source := t_source db; t_source_revision := t_source_revision db; t_source_blob := t_source_blob db; t_authored_document := t_authored_document db; t_document_revision := t_document_revision db; t_parse_run := t_parse_run db; t_document_element := t_document_element db; t_provenance_record := t_provenance_record db; t_truth_classification := t_truth_classification db; t_conflict_set := t_conflict_set db; t_conflict_member := t_conflict_member db; t_proposal := t_proposal db; t_conversation := t_conversation db; t_conversation_turn := t_conversation_turn db; t_audit_event := t_audit_event db; t_current_source_revision := t_current_source_revision db; t_current_document_revision := t_current_document_revision db; t_outbox_event := t_outbox_event db; t_idempotency_record := t_idempotency_record db; t_durable_job := t_durable_job db; t_job_attempt := t_job_attempt db; t_projection_state := t_projection_state db; t_upload_intent := t_upload_intent db; t_current_active_parse_run := t_current_active_parse_run db; t_memory_item := t_memory_item db; t_memory_revision := t_memory_revision db; t_current_memory_revision := t_current_memory_revision db; t_projection := t_projection db; t_context_receipt := t_context_receipt db; t_context_receipt_item := t_context_receipt_item db; t_course := t_course db; t_curriculum_node := t_curriculum_node db; t_curriculum_edge := t_curriculum_edge db; t_assessment_item := l; t_assessment_revision := t_assessment_revision db; t_current_assessment_revision := t_current_assessment_revision db; t_learner_event := t_learner_event db; t_review_item := t_review_item db; t_learner_projection := t_learner_projection db; t_notion_connection := t_notion_connection db; t_notion_page_binding := t_notion_page_binding db; t_deletion_tombstone := t_deletion_tombstone db; t_export_job := t_export_job db; t_semantic_projection := t_semantic_projection db; t_assessment_attempt := t_assessment_attempt db; t_deletion_workflow := t_deletion_workflow db |};
  clash := AssessmentItem.clash;
  row_id := AssessmentItem.id;
  rows_set_rows _ _ := eq_refl;
|}.

#[global] Instance assessment_revision_table : Table AssessmentRevision.t := {|
  rows := t_assessment_revision;
  set_rows l db := {| t_account := t_account db; t_user := t_user db; t_account_member := t_account_member db; t_space := t_space db; t_space_member := t_space_member db; t_hosted_adult_attestation := t_hosted_adult_attestation db; t_external_identity := t_external_identity db; t_actor := t_actor db; t_browser_session := t_browser_session db; t_session_revocation := t_session_revocation db; t_external_client_grant := t_external_client_grant db; t_operator_bootstrap := t_operator_bootstrap db; t_oidc_login_challenge := t_oidc_login_challenge db; t_oidc_token_replay := t_oidc_token_replay db; t_service_auth_nonce := t_service_auth_nonce db; t_source := t_source db; t_source_revision := t_source_revision db; t_source_blob := t_source_blob db; t_authored_document := t_authored_document db; t_document_revision := t_document_revision db; t_parse_run := t_parse_run db; t_document_element := t_document_element db; t_provenance_record := t_provenance_record db; t_truth_classification := t_truth_classification db; t_conflict_set := t_conflict_set db; t_conflict_member := t_conflict_member db; t_proposal := t_proposal db; t_conversation := t_conversation db; t_conversation_turn := t_conversation_turn db; t_audit_event := t_audit_event db; t_current_source_revision := t_current_source_revision db; t_current_document_revision := t_current_document_revision db; t_outbox_event := t_outbox_event db; t_idempotency_record := t_idempotency_record db; t_durable_job := t_durable_job db; t_job_attempt := t_job_attempt db; t_projection_state := t_projection_state db; t_upload_intent := t_upload_intent db; t_current_active_parse_run := t_current_active_parse_run db; t_memory_item := t_memory_item db; t_memory_revision := t_memory_revision db; t_current_memory_revision := t_current_memory_revision db; t_projection := t_projection db; t_context_receipt := t_context_receipt db; t_context_receipt_item := t_context_receipt_item db; t_course := t_course db; t_curriculum_node := t_curriculum_node db; t_curriculum_edge := t_curriculum_edge db; t_assessment_item := t_assessment_item db; t_assessment_revision := l; t_current_assessment_revision := t_current_assessment_revision db; t_learner_event := t_learner_event db; t_review_item := t_review_item db; t_learner_projection := t_learner_projection db; t_notion_connection := t_notion_connection db; t_notion_page_binding := t_notion_page_binding db; t_deletion_tombstone := t_deletion_tombstone db; t_export_job := t_export_job db; t_semantic_projection := t_semantic_projection db; t_assessment_attempt := t_assessment_attempt db; t_deletion_workflow := t_deletion_workflow db |};
  clash := AssessmentRevision.clash;
  row_id := AssessmentRevision.id;
  rows_set_rows _ _ := eq_refl;
|}.

#[global] Instance current_assessment_revision_table : Table CurrentAssessmentRevision.t := {|
  rows := t_current_assessment_revision;
  set_rows l db := {| t_account := t_account db; t_user := t_user db; t_account_member := t_account_member db; t_space := t_space db; t_space_member := t_space_member db; t_hosted_adult_attestation := t_hosted_adult_attestation db; t_external_identity := t_external_identity db; t_actor := t_actor db; t_browser_session := t_browser_session db; t_session_revocation := t_session_revocation db; t_external_client_grant := t_external_client_grant db; t_operator_bootstrap := t_operator_bootstrap db; t_oidc_login_challenge := t_oidc_login_challenge db; t_oidc_token_replay := t_oidc_token_replay db; t_service_auth_nonce := t_service_auth_nonce db; t_source := t_source db; t_source_revision := t_source_revision db; t_source_blob := t_source_blob db; t_authored_document := t_authored_document db; t_document_revision := t_document_revision db; t_parse_run := t_parse_run db; t_document_element := t_document_element db; t_provenance_record := t_provenance_record db; t_truth_classification := t_truth_classification db; t_conflict_set := t_conflict_set db; t_conflict_member := t_conflict_member db; t_proposal := t_proposal db; t_conversation := t_conversation db; t_conversation_turn := t_conversation_turn db; t_audit_event := t_audit_event db; t_current_source_revision := t_current_source_revision db; t_current_document_revision := t_current_document_revision db; t_outbox_event := t_outbox_event db; t_idempotency_record := t_idempotency_record db; t_durable_job := t_durable_job db; t_job_attempt := t_job_attempt db; t_projection_state := t_projection_state db; t_upload_intent := t_upload_intent db; t_current_active_parse_run := t_current_active_parse_run db; t_memory_item := t_memory_item db; t_memory_revision := t_memory_revision db; t_current_memory_revision := t_current_memory_revision db; t_projection := t_projection db; t_context_receipt := t_context_receipt db; t_context_receipt_item := t_context_receipt_item db; t_course := t_course db; t_curriculum_node := t_curriculum_node db; t_curriculum_edge := t_curriculum_edge db; t_assessment_item := t_assessment_item db; t_assessment_revision := t_assessment_revision db; t_current_assessment_revision := l; t_learner_event := t_learner_event db; t_review_item := t_review_item db; t_learner_projection := t_learner_projection db; t_notion_connection := t_notion_connection db; t_notion_page_binding := t_notion_page_binding db; t_deletion_tombstone := t_deletion_tombstone db; t_export_job := t_export_job db; t_semantic_projection := t_semantic_projection db; t_assessment_attempt := t_assessment_attempt db; t_deletion_workflow := t_deletion_workflow db |};
  clash := CurrentAssessmentRevision.clash;
  row_id := CurrentAssessmentRevision.id;
  rows_set_rows _ _ := eq_refl;
|}.

#[global] Instance learner_event_table : Table LearnerEvent.t := {|
  rows := t_learner_event;
  set_rows l db := {| t_account := t_account db; t_user := t_user db; t_account_member := t_account_member db; t_space := t_space db; t_space_member := t_space_member db; t_hosted_adult_attestation := t_hosted_adult_attestation db; t_external_identity := t_external_identity db; t_actor := t_actor db; t_browser_session := t_browser_session db; t_session_revocation := t_session_revocation db; t_external_client_grant := t_external_client_grant db; t_operator_bootstrap := t_operator_bootstrap db; t_oidc_login_challenge := t_oidc_login_challenge db; t_oidc_token_replay := t_oidc_token_replay db; t_service_auth_nonce := t_service_auth_nonce db; t_source := t_source db; t_source_revision := t_source_revision db; t_source_blob := t_source_blob db; t_authored_document := t_authored_document db; t_document_revision := t_document_revision db; t_parse_run := t_parse_run db; t_document_element := t_document_element db; t_provenance_record := t_provenance_record db; t_truth_classification := t_truth_classification db; t_conflict_set := t_conflict_set db; t_conflict_member := t_conflict_member db; t_proposal := t_proposal db; t_conversation := t_conversation db; t_conversation_turn := t_conversation_turn db; t_audit_event := t_audit_event db; t_current_source_revision := t_current_source_revision db; t_current_document_revision := t_current_document_revision db; t_outbox_event := t_outbox_event db; t_idempotency_record := t_idempotency_record db; t_durable_job := t_durable_job db; t_job_attempt := t_job_attempt db; t_projection_state := t_projection_state db; t_upload_intent := t_upload_intent db; t_current_active_parse_run := t_current_active_parse_run db; t_memory_item := t_memory_item db; t_memory_revision := t_memory_revision db; t_current_memory_revision := t_current_memory_revision db; t_projection := t_projection db; t_context_receipt := t_context_receipt db; t_context_receipt_item := t_context_receipt_item db; t_course := t_course db; t_curriculum_node := t_curriculum_node db; t_curriculum_edge := t_curriculum_edge db; t_assessment_item := t_assessment_item db; t_assessment_revision := t_assessment_revision db; t_current_assessment_revision := t_current_assessment_revision db; t_learner_event := l; t_review_item := t_review_item db; t_learner_projection := t_learner_projection db; t_notion_connection := t_notion_connection db; t_notion_page_binding := t_notion_page_binding db; t_deletion_tombstone := t_deletion_tombstone db; t_export_job := t_export_job db; t_semantic_projection := t_semantic_projection db; t_assessment_attempt := t_assessment_attempt db; t_deletion_workflow := t_deletion_workflow db |};
  clash := LearnerEvent.clash;
  row_id := LearnerEvent.id;
  rows_set_rows _ _ := eq_refl;
|}.

#[global] Instance review_item_table : Table ReviewItem.t := {|
  rows := t_review_item;
  set_rows l db := {| t_account := t_account db; t_user := t_user db; t_account_member := t_account_member db; t_space := t_space db; t_space_member := t_space_member db; t_hosted_adult_attestation := t_hosted_adult_attestation db; t_external_identity := t_external_identity db; t_actor := t_actor db; t_browser_session := t_browser_session db; t_session_revocation := t_session_revocation db; t_external_client_grant := t_external_client_grant db; t_operator_bootstrap := t_operator_bootstrap db; t_oidc_login_challenge := t_oidc_login_challenge db; t_oidc_token_replay := t_oidc_token_replay db; t_service_auth_nonce := t_service_auth_nonce db; t_source := t_source db; t_source_revision := t_source_revision db; t_source_blob := t_source_blob db; t_authored_document := t_authored_document db; t_document_revision := t_document_revision db; t_parse_run := t_parse_run db; t_document_element := t_document_element db; t_provenance_record := t_provenance_record db; t_truth_classification := t_truth_classification db; t_conflict_set := t_conflict_set db; t_conflict_member := t_conflict_member db; t_proposal := t_proposal db; t_conversation := t_conversation db; t_conversation_turn := t_conversation_turn db; t_audit_event := t_audit_event db; t_current_source_revision := t_current_source_revision db; t_current_document_revision := t_current_document_revision db; t_outbox_event := t_outbox_event db; t_idempotency_record := t_idempotency_record db; t_durable_job := t_durable_job db; t_job_attempt := t_job_attempt db; t_projection_state := t_projection_state db; t_upload_intent := t_upload_intent db; t_current_active_parse_run := t_current_active_parse_run db; t_memory_item := t_memory_item db; t_memory_revision := t_memory_revision db; t_current_memory_revision := t_current_memory_revision db; t_projection := t_projection db; t_context_receipt := t_context_receipt db; t_context_receipt_item := t_context_receipt_item db; t_course := t_course db; t_curriculum_node := t_curriculum_node db; t_curriculum_edge := t_curriculum_edge db; t_assessment_item := t_assessment_item db; t_assessment_revision := t_assessment_revision db; t_current_assessment_revision := t_current_assessment_revision db; t_learner_event := t_learner_event db; t_review_item := l; t_learner_projection := t_learner_projection db; t_notion_connection := t_notion_connection db; t_notion_page_binding := t_notion_page_binding db; t_deletion_tombstone := t_deletion_tombstone db; t_export_job := t_export_job db; t_semantic_projection := t_semantic_projection db; t_assessment_attempt := t_assessment_attempt db; t_deletion_workflow := t_deletion_workflow db |};
  clash := ReviewItem.clash;
  row_id := ReviewItem.id;
  rows_set_rows _ _ := eq_refl;
|}.

#[global] Instance learner_projection_table : Table LearnerProjection.t := {|
  rows := t_learner_projection;
  set_rows l db := {| t_account := t_account db; t_user := t_user db; t_account_member := t_account_member db; t_space := t_space db; t_space_member := t_space_member db; t_hosted_adult_attestation := t_hosted_adult_attestation db; t_external_identity := t_external_identity db; t_actor := t_actor db; t_browser_session := t_browser_session db; t_session_revocation := t_session_revocation db; t_external_client_grant := t_external_client_grant db; t_operator_bootstrap := t_operator_bootstrap db; t_oidc_login_challenge := t_oidc_login_challenge db; t_oidc_token_replay := t_oidc_token_replay db; t_service_auth_nonce := t_service_auth_nonce db; t_source := t_source db; t_source_revision := t_source_revision db; t_source_blob := t_source_blob db; t_authored_document := t_authored_document db; t_document_revision := t_document_revision db; t_parse_run := t_parse_run db; t_document_element := t_document_element db; t_provenance_record := t_provenance_record db; t_truth_classification := t_truth_classification db; t_conflict_set := t_conflict_set db; t_conflict_member := t_conflict_member db; t_proposal := t_proposal db; t_conversation := t_conversation db; t_conversation_turn := t_conversation_turn db; t_audit_event := t_audit_event db; t_current_source_revision := t_current_source_revision db; t_current_document_revision := t_current_document_revision db; t_outbox_event := t_outbox_event db; t_idempotency_record := t_idempotency_record db; t_durable_job := t_durable_job db; t_job_attempt := t_job_attempt db; t_projection_state := t_projection_state db; t_upload_intent := t_upload_intent db; t_current_active_parse_run := t_current_active_parse_run db; t_memory_item := t_memory_item db; t_memory_revision := t_memory_revision db; t_current_memory_revision := t_current_memory_revision db; t_projection := t_projection db; t_context_receipt := t_context_receipt db; t_context_receipt_item := t_context_receipt_item db; t_course := t_course db; t_curriculum_node := t_curriculum_node db; t_curriculum_edge := t_curriculum_edge db; t_assessment_item := t_assessment_item db; t_assessment_revision := t_assessment_revision db; t_current_assessment_revision := t_current_assessment_revision db; t_learner_event := t_learner_event db; t_review_item := t_review_item db; t_learner_projection := l; t_notion_connection := t_notion_connection db; t_notion_page_binding := t_notion_page_binding db; t_deletion_tombstone := t_deletion_tombstone db; t_export_job := t_export_job db; t_semantic_projection := t_semantic_projection db; t_assessment_attempt := t_assessment_attempt db; t_deletion_workflow := t_deletion_workflow db |};
  clash := LearnerProjection.clash;
  row_id := LearnerProjection.id;
  rows_set_rows _ _ := eq_refl;
|}.

#[global] Instance notion_connection_table : Table NotionConnection.t := {|
  rows := t_notion_connection;
  set_rows l db := {| t_account := t_account db; t_user := t_user db; t_account_member := t_account_member db; t_space := t_space db; t_space_member := t_space_member db; t_hosted_adult_attestation := t_hosted_adult_attestation db; t_external_identity := t_external_identity db; t_actor := t_actor db; t_browser_session := t_browser_session db; t_session_revocation := t_session_revocation db; t_external_client_grant := t_external_client_grant db; t_operator_bootstrap := t_operator_bootstrap db; t_oidc_login_challenge := t_oidc_login_challenge db; t_oidc_token_replay := t_oidc_token_replay db; t_service_auth_nonce := t_service_auth_nonce db; t_source := t_source db; t_source_revision := t_source_revision db; t_source_blob := t_source_blob db; t_authored_document := t_authored_document db; t_document_revision := t_document_revision db; t_parse_run := t_parse_run db; t_document_element := t_document_element db; t_provenance_record := t_provenance_record db; t_truth_classification := t_truth_classification db; t_conflict_set := t_conflict_set db; t_conflict_member := t_conflict_member db; t_proposal := t_proposal db; t_conversation := t_conversation db; t_conversation_turn := t_conversation_turn db; t_audit_event := t_audit_event db; t_current_source_revision := t_current_source_revision db; t_current_document_revision := t_current_document_revision db; t_outbox_event := t_outbox_event db; t_idempotency_record := t_idempotency_record db; t_durable_job := t_durable_job db; t_job_attempt := t_job_attempt db; t_projection_state := t_projection_state db; t_upload_intent := t_upload_intent db; t_current_active_parse_run := t_current_active_parse_run db; t_memory_item := t_memory_item db; t_memory_revision := t_memory_revision db; t_current_memory_revision := t_current_memory_revision db; t_projection := t_projection db; t_context_receipt := t_context_receipt db; t_context_receipt_item := t_context_receipt_item db; t_course := t_course db; t_curriculum_node := t_curriculum_node db; t_curriculum_edge := t_curriculum_edge db; t_assessment_item := t_assessment_item db; t_assessment_revision := t_assessment_revision db; t_current_assessment_revision := t_current_assessment_revision db; t_learner_event := t_learner_event db; t_review_item := t_review_item db; t_learner_projection := t_learner_projection db; t_notion_connection := l; t_notion_page_binding := t_notion_page_binding db; t_deletion_tombstone := t_deletion_tombstone db; t_export_job := t_export_job db; t_semantic_projection := t_semantic_projection db; t_assessment_attempt := t_assessment_attempt db; t_deletion_workflow := t_deletion_workflow db |};
  clash := NotionConnection.clash;
  row_id := NotionConnection.id;
  rows_set_rows _ _ := eq_refl;
|}.

#[global] Instance notion_page_binding_table : Table NotionPageBinding.t := {|
  rows := t_notion_page_binding;
  set_rows l db := {| t_account := t_account db; t_user := t_user db; t_account_member := t_account_member db; t_space := t_space db; t_space_member := t_space_member db; t_hosted_adult_attestation := t_hosted_adult_attestation db; t_external_identity := t_external_identity db; t_actor := t_actor db; t_browser_session := t_browser_session db; t_session_revocation := t_session_revocation db; t_external_client_grant := t_external_client_grant db; t_operator_bootstrap := t_operator_bootstrap db; t_oidc_login_challenge := t_oidc_login_challenge db; t_oidc_token_replay := t_oidc_token_replay db; t_service_auth_nonce := t_service_auth_nonce db; t_source := t_source db; t_source_revision := t_source_revision db; t_source_blob := t_source_blob db; t_authored_document := t_authored_document db; t_document_revision := t_document_revision db; t_parse_run := t_parse_run db; t_document_element := t_document_element db; t_provenance_record := t_provenance_record db; t_truth_classification := t_truth_classification db; t_conflict_set := t_conflict_set db; t_conflict_member := t_conflict_member db; t_proposal := t_proposal db; t_conversation := t_conversation db; t_conversation_turn := t_conversation_turn db; t_audit_event := t_audit_event db; t_current_source_revision := t_current_source_revision db; t_current_document_revision := t_current_document_revision db; t_outbox_event := t_outbox_event db; t_idempotency_record := t_idempotency_record db; t_durable_job := t_durable_job db; t_job_attempt := t_job_attempt db; t_projection_state := t_projection_state db; t_upload_intent := t_upload_intent db; t_current_active_parse_run := t_current_active_parse_run db; t_memory_item := t_memory_item db; t_memory_revision := t_memory_revision db; t_current_memory_revision := t_current_memory_revision db; t_projection := t_projection db; t_context_receipt := t_context_receipt db; t_context_receipt_item := t_context_receipt_item db; t_course := t_course db; t_curriculum_node := t_curriculum_node db; t_curriculum_edge := t_curriculum_edge db; t_assessment_item := t_assessment_item db; t_assessment_revision := t_assessment_revision db; t_current_assessment_revision := t_current_assessment_revision db; t_learner_event := t_learner_event db; t_review_item := t_review_item db; t_learner_projection := t_learner_projection db; t_notion_connection := t_notion_connection db; t_notion_page_binding := l; t_deletion_tombstone := t_deletion_tombstone db; t_export_job := t_export_job db; t_semantic_projection := t_semantic_projection db; t_assessment_attempt := t_assessment_attempt db; t_deletion_workflow := t_deletion_workflow db |};
  clash := NotionPageBinding.clash;
  row_id := NotionPageBinding.id;
  rows_set_rows _ _ := eq_refl;
|}.

#[global] Instance deletion_tombstone_table : Table DeletionTombstone.t := {|
  rows := t_deletion_tombstone;
  set_rows l db := {| t_account := t_account db; t_user := t_user db; t_account_member := t_account_member db; t_space := t_space db; t_space_member := t_space_member db; t_hosted_adult_attestation := t_hosted_adult_attestation db; t_external_identity := t_external_identity db; t_actor := t_actor db; t_browser_session := t_browser_session db; t_session_revocation := t_session_revocation db; t_external_client_grant := t_external_client_grant db; t_operator_bootstrap := t_operator_bootstrap db; t_oidc_login_challenge := t_oidc_login_challenge db; t_oidc_token_replay := t_oidc_token_replay db; t_service_auth_nonce := t_service_auth_nonce db; t_source := t_source db; t_source_revision := t_source_revision db; t_source_blob := t_source_blob db; t_authored_document := t_authored_document db; t_document_revision := t_document_revision db; t_parse_run := t_parse_run db; t_document_element := t_document_element db; t_provenance_record := t_provenance_record db; t_truth_classification := t_truth_classification db; t_conflict_set := t_conflict_set db; t_conflict_member := t_conflict_member db; t_proposal := t_proposal db; t_conversation := t_conversation db; t_conversation_turn := t_conversation_turn db; t_audit_event := t_audit_event db; t_current_source_revision := t_current_source_revision db; t_current_document_revision := t_current_document_revision db; t_outbox_event := t_outbox_event db; t_idempotency_record := t_idempotency_record db; t_durable_job := t_durable_job db; t_job_attempt := t_job_attempt db; t_projection_state := t_projection_state db; t_upload_intent := t_upload_intent db; t_current_active_parse_run := t_current_active_parse_run db; t_memory_item := t_memory_item db; t_memory_revision := t_memory_revision db; t_current_memory_revision := t_current_memory_revision db; t_projection := t_projection db; t_context_receipt := t_context_receipt db; t_context_receipt_item := t_context_receipt_item db; t_course := t_course db; t_curriculum_node := t_curriculum_node db; t_curriculum_edge := t_curriculum_edge db; t_assessment_item := t_assessment_item db; t_assessment_revision := t_assessment_revision db; t_current_assessment_revision := t_current_assessment_revision db; t_learner_event := t_learner_event db; t_review_item := t_review_item db; t_learner_projection := t_learner_projection db; t_notion_connection := t_notion_connection db; t_notion_page_binding := t_notion_page_binding db; t_deletion_tombstone := l; t_export_job := t_export_job db; t_semantic_projection := t_semantic_projection db; t_assessment_attempt := t_assessment_attempt db; t_deletion_workflow := t_deletion_workflow db |};
  clash := DeletionTombstone.clash;
  row_id := DeletionTombstone.id;
  rows_set_rows _ _ := eq_refl;
|}.

#[global] Instance export_job_table : Table ExportJob.t := {|
  rows := t_export_job;
  set_rows l db := {| t_account := t_account db; t_user := t_user db; t_account_member := t_account_member db; t_space := t_space db; t_space_member := t_space_member db; t_hosted_adult_attestation := t_hosted_adult_attestation db; t_external_identity := t_external_identity db; t_actor := t_actor db; t_browser_session := t_browser_session db; t_session_revocation := t_session_revocation db; t_external_client_grant := t_external_client_grant db; t_operator_bootstrap := t_operator_bootstrap db; t_oidc_login_challenge := t_oidc_login_challenge db; t_oidc_token_replay := t_oidc_token_replay db; t_service_auth_nonce := t_service_auth_nonce db; t_source := t_source db; t_source_revision := t_source_revision db; t_source_blob := t_source_blob db; t_authored_document := t_authored_document db; t_document_revision := t_document_revision db; t_parse_run := t_parse_run db; t_document_element := t_document_element db; t_provenance_record := t_provenance_record db; t_truth_classification := t_truth_classification db; t_conflict_set := t_conflict_set db; t_conflict_member := t_conflict_member db; t_proposal := t_proposal db; t_conversation := t_conversation db; t_conversation_turn := t_conversation_turn db; t_audit_event := t_audit_event db; t_current_source_revision := t_current_source_revision db; t_current_document_revision := t_current_document_revision db; t_outbox_event := t_outbox_event db; t_idempotency_record := t_idempotency_record db; t_durable_job := t_durable_job db; t_job_attempt := t_job_attempt db; t_projection_state := t_projection_state db; t_upload_intent := t_upload_intent db; t_current_active_parse_run := t_current_active_parse_run db; t_memory_item := t_memory_item db; t_memory_revision := t_memory_revision db; t_current_memory_revision := t_current_memory_revision db; t_projection := t_projection db; t_context_receipt := t_context_receipt db; t_context_receipt_item := t_context_receipt_item db; t_course := t_course db; t_curriculum_node := t_curriculum_node db; t_curriculum_edge := t_curriculum_edge db; t_assessment_item := t_assessment_item db; t_assessment_revision := t_assessment_revision db; t_current_assessment_revision := t_current_assessment_revision db; t_learner_event := t_learner_event db; t_review_item := t_review_item db; t_learner_projection := t_learner_projection db; t_notion_connection := t_notion_connection db; t_notion_page_binding := t_notion_page_binding db; t_deletion_tombstone := t_deletion_tombstone db; t_export_job := l; t_semantic_projection := t_semantic_projection db; t_assessment_attempt := t_assessment_attempt db; t_deletion_workflow := t_deletion_workflow db |};
  clash := ExportJob.clash;
  row_id := ExportJob.id;
  rows_set_rows _ _ := eq_refl;
|}.

#[global] Instance semantic_projection_table : Table SemanticProjection.t := {|
  rows := t_semantic_projection;
  set_rows l db := {| t_account := t_account db; t_user := t_user db; t_account_member := t_account_member db; t_space := t_space db; t_space_member := t_space_member db; t_hosted_adult_attestation := t_hosted_adult_attestation db; t_external_identity := t_external_identity db; t_actor := t_actor db; t_browser_session := t_browser_session db; t_session_revocation := t_session_revocation db; t_external_client_grant := t_external_client_grant db; t_operator_bootstrap := t_operator_bootstrap db; t_oidc_login_challenge := t_oidc_login_challenge db; t_oidc_token_replay := t_oidc_token_replay db; t_service_auth_nonce := t_service_auth_nonce db; t_source := t_source db; t_source_revision := t_source_revision db; t_source_blob := t_source_blob db; t_authored_document := t_authored_document db; t_document_revision := t_document_revision db; t_parse_run := t_parse_run db; t_document_element := t_document_element db; t_provenance_record := t_provenance_record db; t_truth_classification := t_truth_classification db; t_conflict_set := t_conflict_set db; t_conflict_member := t_conflict_member db; t_proposal := t_proposal db; t_conversation := t_conversation db; t_conversation_turn := t_conversation_turn db; t_audit_event := t_audit_event db; t_current_source_revision := t_current_source_revision db; t_current_document_revision := t_current_document_revision db; t_outbox_event := t_outbox_event db; t_idempotency_record := t_idempotency_record db; t_durable_job := t_durable_job db; t_job_attempt := t_job_attempt db; t_projection_state := t_projection_state db; t_upload_intent := t_upload_intent db; t_current_active_parse_run := t_current_active_parse_run db; t_memory_item := t_memory_item db; t_memory_revision := t_memory_revision db; t_current_memory_revision := t_current_memory_revision db; t_projection := t_projection db; t_context_receipt := t_context_receipt db; t_context_receipt_item := t_context_receipt_item db; t_course := t_course db; t_curriculum_node := t_curriculum_node db; t_curriculum_edge := t_curriculum_edge db; t_assessment_item := t_assessment_item db; t_assessment_revision := t_assessment_revision db; t_current_assessment_revision := t_current_assessment_revision db; t_learner_event := t_learner_event db; t_review_item := t_review_item db; t_learner_projection := t_learner_projection db; t_notion_connection := t_notion_connection db; t_notion_page_binding := t_notion_page_binding db; t_deletion_tombstone := t_deletion_tombstone db; t_export_job := t_export_job db; t_semantic_projection := l; t_assessment_attempt := t_assessment_attempt db; t_deletion_workflow := t_deletion_workflow db |};
  clash := SemanticProjection.clash;
  row_id := SemanticProjection.id;
  rows_set_rows _ _ := eq_refl;
|}.

#[global] Instance assessment_attempt_table : Table AssessmentAttempt.t := {|
  rows := t_assessment_attempt;
  set_rows l db := {| t_account := t_account db; t_user := t_user db; t_account_member := t_account_member db; t_space := t_space db; t_space_member := t_space_member db; t_hosted_adult_attestation := t_hosted_adult_attestation db; t_external_identity := t_external_identity db; t_actor := t_actor db; t_browser_session := t_browser_session db; t_session_revocation := t_session_revocation db; t_external_client_grant := t_external_client_grant db; t_operator_bootstrap := t_operator_bootstrap db; t_oidc_login_challenge := t_oidc_login_challenge db; t_oidc_token_replay := t_oidc_token_replay db; t_service_auth_nonce := t_service_auth_nonce db; t_source := t_source db; t_source_revision := t_source_revision db; t_source_blob := t_source_blob db; t_authored_document := t_authored_document db; t_document_revision := t_document_revision db; t_parse_run := t_parse_run db; t_document_element := t_document_element db; t_provenance_record := t_provenance_record db; t_truth_classification := t_truth_classification db; t_conflict_set := t_conflict_set db; t_conflict_member := t_conflict_member db; t_proposal := t_proposal db; t_conversation := t_conversation db; t_conversation_turn := t_conversation_turn db; t_audit_event := t_audit_event db; t_current_source_revision := t_current_source_revision db; t_current_document_revision := t_current_document_revision db; t_outbox_event := t_outbox_event db; t_idempotency_record := t_idempotency_record db; t_durable_job := t_durable_job db; t_job_attempt := t_job_attempt db; t_projection_state := t_projection_state db; t_upload_intent := t_upload_intent db; t_current_active_parse_run := t_current_active_parse_run db; t_memory_item := t_memory_item db; t_memory_revision := t_memory_revision db; t_current_memory_revision := t_current_memory_revision db; t_projection := t_projection db; t_context_receipt := t_context_receipt db; t_context_receipt_item := t_context_receipt_item db; t_course := t_course db; t_curriculum_node := t_curriculum_node db; t_curriculum_edge := t_curriculum_edge db; t_assessment_item := t_assessment_item db; t_assessment_revision := t_assessment_revision db; t_current_assessment_revision := t_current_assessment_revision db; t_learner_event := t_learner_event db; t_review_item := t_review_item db; t_learner_projection := t_learner_projection db; t_notion_connection := t_notion_connection db; t_notion_page_binding := t_notion_page_binding db; t_deletion_tombstone := t_deletion_tombstone db; t_export_job := t_export_job db; t_semantic_projection := t_semantic_projection db; t_assessment_attempt := l; t_deletion_workflow := t_deletion_workflow db |};
  clash := AssessmentAttempt.clash;
  row_id := AssessmentAttempt.id;
  rows_set_rows _ _ := eq_refl;
|}.

#[global] Instance deletion_workflow_table : Table DeletionWorkflow.t := {|
  rows := t_deletion_workflow;
  set_rows l db := {| t_account := t_account db; t_user := t_user db; t_account_member := t_account_member db; t_space := t_space db; t_space_member := t_space_member db; t_hosted_adult_attestation := t_hosted_adult_attestation db; t_external_identity := t_external_identity db; t_actor := t_actor db; t_browser_session := t_browser_session db; t_session_revocation := t_session_revocation db; t_external_client_grant := t_external_client_grant db; t_operator_bootstrap := t_operator_bootstrap db; t_oidc_login_challenge := t_oidc_login_challenge db; t_oidc_token_replay := t_oidc_token_replay db; t_service_auth_nonce := t_service_auth_nonce db; t_source := t_source db; t_source_revision := t_source_revision db; t_source_blob := t_source_blob db; t_authored_document := t_authored_document db; t_document_revision := t_document_revision db; t_parse_run := t_parse_run db; t_document_element := t_document_element db; t_provenance_record := t_provenance_record db; t_truth_classification := t_truth_classification db; t_conflict_set := t_conflict_set db; t_conflict_member := t_conflict_member db; t_proposal := t_proposal db; t_conversation := t_conversation db; t_conversation_turn := t_conversation_turn db; t_audit_event := t_audit_event db; t_current_source_revision := t_current_source_revision db; t_current_document_revision := t_current_document_revision db; t_outbox_event := t_outbox_event db; t_idempotency_record := t_idempotency_record db; t_durable_job := t_durable_job db; t_job_attempt := t_job_attempt db; t_projection_state := t_projection_state db; t_upload_intent := t_upload_intent db; t_current_active_parse_run := t_current_active_parse_run db; t_memory_item := t_memory_item db; t_memory_revision := t_memory_revision db; t_current_memory_revision := t_current_memory_revision db; t_projection := t_projection db; t_context_receipt := t_context_receipt db; t_context_receipt_item := t_context_receipt_item db; t_course := t_course db; t_curriculum_node := t_curriculum_node db; t_curriculum_edge := t_curriculum_edge db; t_assessment_item := t_assessment_item db; t_assessment_revision := t_assessment_revision db; t_current_assessment_revision := t_current_assessment_revision db; t_learner_event := t_learner_event db; t_review_item := t_review_item db; t_learner_projection := t_learner_projection db; t_notion_connection := t_notion_connection db; t_notion_page_binding := t_notion_page_binding db; t_deletion_tombstone := t_deletion_tombstone db; t_export_job := t_export_job db; t_semantic_projection := t_semantic_projection db; t_assessment_attempt := t_assessment_attempt db; t_deletion_workflow := l |};
  clash := DeletionWorkflow.clash;
  row_id := DeletionWorkflow.id;
  rows_set_rows _ _ := eq_refl;
|}.
