(* ===== verification/Store.v ===== *)
(** * The session: reading and writing the ledger

    A service function runs in one database session inside one request; it is
    a function of the world (the rows, and a counter of the identifiers and
    clock readings drawn so far) that returns a value and a new world, or
    raises.  [get_db_session] commits when the request returns and rolls back
    when it raises, so a raise carries no world.

    [select ... where] is a filter in row order; [scalar_one] and its kin are
    SQLAlchemy's; [add] checks the primary key and the unique constraints, as
    the flush that ends a [tenant_scope] does.  The session has autoflush off;
    the functions modelled do not query a table between adding to it and the
    flush, so adding at once reads the same rows.  Attribute assignment to a
    loaded object is [update] on its primary key. *)

From Stdlib Require Import ZArith Lia.
From stdpp Require Import list strings.
From S2P Require Import Prelude PyStr Json Uuid Ledger.
Open Scope Z_scope.

(** What the code draws from its surroundings, by position in the request. *)
Class Env := {
  fresh_uuid : nat -> uuid;
  clock : nat -> Z;
  signing_key : list Z;
}.

Record World := { db : Db; tick : nat }.

Definition M (A : Type) : Type := World -> res (A * World).

#[export] Instance M_ret : MRet M := fun A a w => Ok (a, w).
#[export] Instance M_bind : MBind M := fun A B k m w =>
  match m w with Ok (a, w') => k a w' | Raise e => Raise e end.
#[export] Instance M_fmap : FMap M := fun A B f m w =>
  match m w with Ok (a, w') => Ok (f a, w') | Raise e => Raise e end.

Definition raiseM {A} (e : exn) : M A := fun _ => Raise e.
Definition guard (c : bool) (e : exn) : M unit := if c then raiseM e else mret tt.
Definition lift {A} (r : res A) : M A := fun w => match r with Ok a => Ok (a, w) | Raise e => Raise e end.

Section env.
Context `{Env}.

(** [new_uuid7()], [datetime.now(UTC)] and [int(time.time())]. *)
Definition new_uuid : M uuid := fun w => Ok (fresh_uuid (tick w), {| db := db w; tick := S (tick w) |}).
Definition now : M Z := fun w => Ok (clock (tick w), {| db := db w; tick := S (tick w) |}).
Definition unix_time : M Z := fun w => Ok (clock (tick w) / 1000000, {| db := db w; tick := S (tick w) |}).
End env.

Section table.
Context {R : Type} `{Table R}.

(** [select(R).where(p)], all rows. *)
Definition select (p : R -> bool) : M (list R) := fun w => Ok (keep p (rows (db w)), w).

Definition scalar_one_or_none {A} (l : list A) : res (option A) :=
  match l with [] => Ok None | [x] => Ok (Some x) | _ => Raise MultipleResultsFound end.

Definition scalar_one {A} (l : list A) : res A :=
  match l with [] => Raise NoResultFound | [x] => Ok x | _ => Raise MultipleResultsFound end.

Definition select_one (p : R -> bool) : M R := l ← select p; lift (scalar_one l).
Definition select_opt (p : R -> bool) : M (option R) := l ← select p; lift (scalar_one_or_none l).

(** [order_by(key.desc())]: the rows the query returns, latest first; rows of
    one key keep their order, which the database does not promise. *)
Definition order_desc (key : R -> Z) (l : list R) : list R := sort_by (fun a b => key b <=? key a) l.
Definition order_asc (key : R -> Z) (l : list R) : list R := sort_by (fun a b => key a <=? key b) l.

(** [db.add(row)] and its flush. *)
Definition add (r : R) : M unit := fun w =>
  match first (fun r' => if clash r' r then true else false) (rows (db w)) with
  | Some r' => Raise (IntegrityError (default "" (clash r' r)))
  | None => Ok (tt, {| db := set_rows (rows (db w) ++ [r]) (db w); tick := tick w |})
  end.

(** Assigning to attributes of the object whose primary key is [id]. *)
Definition update (id : uuid) (f : R -> R) : M unit := fun w =>
  Ok (tt, {| db := set_rows (map (fun r => if row_id r =? id then f r else r) (rows (db w))) (db w);
             tick := tick w |}).

(** A set-based UPDATE. *)
Definition update_where (p : R -> bool) (f : R -> R) : M Z := fun w =>
  Ok (Z.of_nat (length (keep p (rows (db w)))),
      {| db := set_rows (map (fun r => if p r then f r else r) (rows (db w))) (db w); tick := tick w |}).

(** [db.delete(row)]. *)
Definition delete_rows (p : R -> bool) : M unit := fun w =>
  Ok (tt, {| db := set_rows (keep (fun r => negb (p r)) (rows (db w))) (db w); tick := tick w |}).
End table.

(** A statement the database runs as a whole: a function on the rows. *)
Definition statement {A} (f : Db -> A * Db) : M A := fun w =>
  let '(a, d) := f (db w) in Ok (a, {| db := d; tick := tick w |}).

(** [for x in l: body]. *)
Fixpoint forM {A} (l : list A) (body : A -> M unit) : M unit :=
  match l with [] => mret tt | x :: l => _ ← body x; forM l body end.

Fixpoint mapM {A B} (f : A -> M B) (l : list A) : M (list B) :=
  match l with [] => mret [] | x :: l => y ← f x; ys ← mapM f l; mret (y :: ys) end.

(** [run m w]: the value and the rows a request leaves: those of before when it
    raises. *)
Definition commit {A} (m : M A) (w : World) : res A * World :=
  match m w with Ok (a, w') => (Ok a, w') | Raise e => (Raise e, w) end.

(** ** Reasoning *)

(** A call that evaluates to a value returned it. *)
Lemma returned {A} (r : res A) : is_ok r = true -> exists a, r = Ok a.
Proof. destruct r; [eauto|discriminate]. Qed.

Lemma M_bind_Ok {A B} (m : M A) (k : A -> M B) w b w' :
  (m ≫= k) w = Ok (b, w') <-> exists a w1, m w = Ok (a, w1) /\ k a w1 = Ok (b, w').
Proof.
  unfold mbind, M_bind. destruct (m w) as [[a w1]|e]; split.
  - eauto.
  - intros (a' & w2 & [= <- <-] & Hk). exact Hk.
  - discriminate.
  - intros (a' & w2 & [=] & _).
Qed.

Lemma M_bind_Raise {A B} (m : M A) (k : A -> M B) w e :
  (m ≫= k) w = Raise e <-> m w = Raise e \/ exists a w1, m w = Ok (a, w1) /\ k a w1 = Raise e.
Proof. unfold mbind, M_bind. destruct (m w) as [[a w1]|e']; naive_solver. Qed.

Lemma M_bind_step {A B} (m : M A) (k : A -> M B) w a w1 :
  m w = Ok (a, w1) -> (m ≫= k) w = k a w1.
Proof. unfold mbind, M_bind. by intros ->. Qed.

Lemma M_bind_fail {A B} (m : M A) (k : A -> M B) w e : m w = Raise e -> (m ≫= k) w = Raise e.
Proof. unfold mbind, M_bind. by intros ->. Qed.

Lemma M_ret_Ok {A} (a b : A) w w' : (mret a : M A) w = Ok (b, w') <-> b = a /\ w' = w.
Proof. unfold mret, M_ret. naive_solver. Qed.

Lemma guard_Ok c e w u w' : guard c e w = Ok (u, w') <-> c = false /\ w' = w.
Proof. unfold guard, raiseM, mret, M_ret. destruct c, u; naive_solver. Qed.

Lemma lift_Ok {A} (r : res A) w a w' : lift r w = Ok (a, w') <-> r = Ok a /\ w' = w.
Proof. unfold lift. destruct r; naive_solver. Qed.

Section lemmas.
Context {R : Type} `{Table R}.

Lemma select_Ok (p : R -> bool) w l w' : select p w = Ok (l, w') <-> l = keep p (rows (db w)) /\ w' = w.
Proof. unfold select. naive_solver. Qed.

Lemma scalar_one_Ok {A} (l : list A) x : scalar_one l = Ok x <-> l = [x].
Proof. unfold scalar_one. destruct l as [|y [|z l]]; naive_solver. Qed.

Lemma scalar_opt_Ok {A} (l : list A) o :
  scalar_one_or_none l = Ok o <-> match o with Some x => l = [x] | None => l = [] end.
Proof. unfold scalar_one_or_none. destruct l as [|y [|z l]], o; naive_solver. Qed.

Lemma select_one_Ok (p : R -> bool) w x w' :
  select_one p w = Ok (x, w') <-> keep p (rows (db w)) = [x] /\ w' = w.
Proof.
  unfold select_one. rewrite M_bind_Ok. setoid_rewrite select_Ok. setoid_rewrite lift_Ok.
  setoid_rewrite scalar_one_Ok. naive_solver.
Qed.

Lemma select_opt_Ok (p : R -> bool) w o w' :
  select_opt p w = Ok (o, w') <->
  match o with Some x => keep p (rows (db w)) = [x] | None => keep p (rows (db w)) = [] end /\ w' = w.
Proof.
  unfold select_opt. rewrite M_bind_Ok. setoid_rewrite select_Ok. setoid_rewrite lift_Ok.
  setoid_rewrite scalar_opt_Ok. naive_solver.
Qed.

Lemma select_one_in (p : R -> bool) w x w' :
  select_one p w = Ok (x, w') -> w' = w /\ x ∈ rows (db w) /\ p x = true.
Proof.
  rewrite select_one_Ok. intros [Hk ->]. split; [done|].
  rewrite <- elem_of_keep, Hk. set_solver.
Qed.

Lemma select_opt_in (p : R -> bool) w x w' :
  select_opt p w = Ok (Some x, w') -> w' = w /\ x ∈ rows (db w) /\ p x = true.
Proof.
  rewrite select_opt_Ok. intros [Hk ->]. split; [done|].
  rewrite <- elem_of_keep, Hk. set_solver.
Qed.

Lemma keep_nil (p : R -> bool) l : keep p l = [] <-> forall x, x ∈ l -> p x = false.
Proof.
  split.
  - intros Hk x Hx. destruct (p x) eqn:E; [|done].
    assert (x ∈ keep p l) as Hin by by rewrite elem_of_keep. rewrite Hk in Hin. set_solver.
  - apply keep_none.
Qed.

Lemma keep_one (p : R -> bool) l x : keep p l = [x] -> x ∈ l /\ p x = true.
Proof. intros Hk. rewrite <- elem_of_keep, Hk. set_solver. Qed.

Lemma add_Ok (r : R) w u w' :
  add r w = Ok (u, w') <->
  (forall r', r' ∈ rows (db w) -> clash r' r = None) /\
  w' = {| db := set_rows (rows (db w) ++ [r]) (db w); tick := tick w |}.
Proof.
  unfold add. destruct (first _ _) as [r'|] eqn:E.
  - apply first_Some in E as [Hin Hc]. split; [done|]. intros [Hn _].
    by rewrite (Hn r' Hin) in Hc.
  - rewrite first_None in E. destruct u. split.
    + intros [= <-]. split; [|done]. intros r' Hr'. specialize (E r' Hr'). by destruct (clash r' r).
    + by intros [_ ->].
Qed.

Lemma update_Ok id (f : R -> R) w u w' :
  update id f w = Ok (u, w') <->
  w' = {| db := set_rows (map (fun r => if row_id r =? id then f r else r) (rows (db w))) (db w);
          tick := tick w |}.
Proof. unfold update. destruct u. naive_solver. Qed.
End lemmas.

Lemma forM_add_Ok {A R} `{Table R} (f : A -> R) l w u w' :
  forM l (fun x => add (f x)) w = Ok (u, w') -> rows (db w') = rows (db w) ++ map f l.
Proof.
  revert w. induction l as [|x l IH]; intros w; cbn [forM map].
  - intros [_ ->]%M_ret_Ok. by rewrite app_nil_r.
  - intros (v & w1 & Ha & Hf)%M_bind_Ok. apply add_Ok in Ha as [_ ->]. apply IH in Hf.
    rewrite Hf. cbn [db]. by rewrite rows_set_rows, <- app_assoc.
Qed.

(** Take a hypothesis that a computation returns apart, step by step. *)
Ltac stepM H :=
  let a := fresh "a" in let w := fresh "w" in let H1 := fresh "H" in
  apply M_bind_Ok in H as (a & w & H1 & H).

(** The same, naming what the step returned. *)
Tactic Notation "step" hyp(H) "as" ident(E) :=
  let a := fresh "a" in let w := fresh "w" in apply M_bind_Ok in H as (a & w & E & H).

Ltac cleanM :=
  repeat match goal with
  | H : (mret _) _ = Ok _ |- _ => apply M_ret_Ok in H as [? ?]; subst
  | H : guard _ _ _ = Ok _ |- _ => apply guard_Ok in H as [? ?]; subst
  | H : lift _ _ = Ok _ |- _ => apply lift_Ok in H as [? ?]; subst
  | H : Ok _ = Ok _ |- _ => injection H as ? ?; subst
  | H : (_, _) = (_, _) |- _ => injection H as ? ?; subst
  end.

(** The same for a step that draws an identifier or the time. *)
Ltac draw H :=
  let a := fresh "drawn" in let w := fresh "w" in let E := fresh "E" in
  apply M_bind_Ok in H as (a & w & E & H); unfold new_uuid, now, unix_time in E;
  injection E as <- <-; cbn [db tick] in *.

(** Read a table after writes to it and to others. *)
Ltac rows_simpl :=
  cbn [db tick] in *;
  repeat match goal with
  | |- context [@rows ?R ?T (@set_rows ?R' ?T' ?l ?d)] =>
      first [change (@rows R T (@set_rows R' T' l d)) with l
            |change (@rows R T (@set_rows R' T' l d)) with (@rows R T d)]
  | H : context [@rows ?R ?T (@set_rows ?R' ?T' ?l ?d)] |- _ =>
      first [change (@rows R T (@set_rows R' T' l d)) with l in H
            |change (@rows R T (@set_rows R' T' l d)) with (@rows R T d) in H]
  end.

(** A computation that leaves the world as it found it. *)
Definition pure_read {A} (m : M A) : Prop := forall w a w', m w = Ok (a, w') -> db w' = db w.

(** What a loop over reads collects comes from a read of the world it began in. *)
Lemma mapM_in {A B} (f : A -> M B) l w ys w' y :
  mapM f l w = Ok (ys, w') -> (forall x, pure_read (f x)) -> y ∈ ys ->
  exists x w1 w2, x ∈ l /\ db w1 = db w /\ f x w1 = Ok (y, w2).
Proof.
  intros Hm Hp. revert w ys Hm. induction l as [|x l IH]; intros w ys Hm Hy; cbn [mapM] in Hm.
  - cleanM. by apply elem_of_nil in Hy.
  - stepM Hm. stepM Hm. cleanM. pose proof (Hp x _ _ _ H) as Hw. apply elem_of_cons in Hy as [->|Hy].
    + exists x, w, w0. split_and!; [by left|done|done].
    + destruct (IH _ _ H0 Hy) as (z & w2 & w3 & Hz & Hd & Hf). exists z, w2, w3.
      split_and!; [by right|congruence|done].
Qed.

(** ** Frames

    [keeps R m]: the computation does not write the table of [R]. *)
Definition keeps (R : Type) `{Table R} {A} (m : M A) : Prop :=
  forall w a w', m w = Ok (a, w') -> rows (R := R) (db w') = rows (db w).

Section keeps.
Context {R : Type} `{Table R}.

Lemma keeps_ret {A} (a : A) : keeps R (mret a).
Proof. intros w b w' Hm. by cleanM. Qed.

Lemma keeps_bind {A B} (m : M A) (k : A -> M B) : keeps R m -> (forall a, keeps R (k a)) -> keeps R (m ≫= k).
Proof. intros Hm Hk w b w' Hb. stepM Hb. rewrite (Hk _ _ _ _ Hb). by eapply Hm. Qed.

Lemma keeps_raise {A} e : keeps R (raiseM e : M A).
Proof. intros w a w' Hm. discriminate. Qed.

Lemma keeps_guard c e : keeps R (guard c e).
Proof. intros w a w' Hm. by cleanM. Qed.

Lemma keeps_lift {A} (r : res A) : keeps R (lift r).
Proof. intros w a w' Hm. by cleanM. Qed.

Lemma keeps_new_uuid `{Env} : keeps R new_uuid.
Proof. intros w a w' [= _ <-]. done. Qed.

Lemma keeps_now `{Env} : keeps R now.
Proof. intros w a w' [= _ <-]. done. Qed.

Lemma keeps_unix_time `{Env} : keeps R unix_time.
Proof. intros w a w' [= _ <-]. done. Qed.

Lemma keeps_forM {A} (l : list A) f : (forall x, keeps R (f x)) -> keeps R (forM l f).
Proof. intros Hf. induction l as [|x l IH]; [apply keeps_ret|]. apply keeps_bind; [apply Hf|by intros _]. Qed.

Lemma keeps_mapM {A B} (l : list A) (f : A -> M B) : (forall x, keeps R (f x)) -> keeps R (mapM f l).
Proof.
  intros Hf. induction l as [|x l IH]; [apply keeps_ret|]. apply keeps_bind; [apply Hf|intros y].
  apply keeps_bind; [exact IH|intros ?; apply keeps_ret].
Qed.

Context {R' : Type} `{Table R'}.

Lemma keeps_select (p : R' -> bool) : keeps R (select p).
Proof. intros w a w' Hm. by apply select_Ok in Hm as [_ ->]. Qed.

Lemma keeps_select_one (p : R' -> bool) : keeps R (select_one p).
Proof. apply keeps_bind; [apply keeps_select|intros ?; apply keeps_lift]. Qed.

Lemma keeps_select_opt (p : R' -> bool) : keeps R (select_opt p).
Proof. apply keeps_bind; [apply keeps_select|intros ?; apply keeps_lift]. Qed.

(** Writing another table. *)
Context (other : forall l d, rows (R := R) (set_rows (R := R') l d) = rows d).

Lemma keeps_add (r : R') : keeps R (add r).
Proof. intros w a w' Hm. apply add_Ok in Hm as [_ ->]. apply other. Qed.

Lemma keeps_update id (f : R' -> R') : keeps R (update id f).
Proof. intros w a w' Hm. apply update_Ok in Hm as ->. apply other. Qed.

Lemma keeps_update_where p (f : R' -> R') : keeps R (update_where p f).
Proof. intros w a w' [= _ <-]. apply other. Qed.

Lemma keeps_delete_rows (p : R' -> bool) : keeps R (delete_rows p).
Proof. intros w a w' [= _ <-]. apply other. Qed.
End keeps.

Create HintDb frame.
#[export] Hint Resolve keeps_ret keeps_raise keeps_guard keeps_lift keeps_new_uuid keeps_now keeps_unix_time
  keeps_select keeps_select_one keeps_select_opt : frame.
#[export] Hint Extern 2 (keeps _ (_ ≫= _)) => apply keeps_bind; [|intros ?] : frame.
#[export] Hint Extern 2 (keeps _ (forM _ _)) => apply keeps_forM; intros ? : frame.
#[export] Hint Extern 2 (keeps _ (mapM _ _)) => apply keeps_mapM; intros ? : frame.
#[export] Hint Extern 1 (keeps _ (add _)) => apply keeps_add; intros; reflexivity : frame.
#[export] Hint Extern 1 (keeps _ (update _ _)) => apply keeps_update; intros; reflexivity : frame.
#[export] Hint Extern 1 (keeps _ (update_where _ _)) => apply keeps_update_where; intros; reflexivity : frame.
#[export] Hint Extern 1 (keeps _ (delete_rows _)) => apply keeps_delete_rows; intros; reflexivity : frame.
#[export] Hint Extern 3 (keeps _ (match ?x with _ => _ end)) => destruct x : frame.

(** Prove that a computation keeps a table: unfold the operations named first. *)
Ltac frame := cbv zeta; eauto 60 with frame nocore.

(** From the hypothesis that a computation returned, that the table of [R] is
    as before. *)
Ltac framed H R K :=
  match type of H with
  | ?m ?w = Ok (_, ?w') =>
      assert (K : rows (R := R) (db w') = rows (R := R) (db w));
      [refine ((_ : keeps R m) w _ w' H); frame|]
  end.

(** ** Results

    [post P m]: what holds of the value and the rows when the computation
    returns; enough to show it of how the computation ends. *)
Definition post {A} (P : A -> World -> Prop) (m : M A) : Prop := forall w a w', m w = Ok (a, w') -> P a w'.

Section post.
Context {A : Type} (P : A -> World -> Prop).

Lemma post_bind {B} (m : M B) (k : B -> M A) : (forall b, post P (k b)) -> post P (m ≫= k).
Proof. intros Hk w a w' Hm. stepM Hm. by eapply Hk. Qed.

Lemma post_raise e : post P (raiseM e).
Proof. intros w a w' Hm. discriminate. Qed.

(** The last effect decides, when only its value is wrapped. *)
Lemma post_last {B} (Q : B -> World -> Prop) (m : M B) (f : B -> A) :
  post Q m -> (forall b w, Q b w -> P (f b) w) -> post P (b ← m; mret (f b)).
Proof. intros Hq Hf w a w' Hm. stepM Hm. cleanM. by eapply Hf, Hq. Qed.
End post.

(** ** Unique rows

    The unique constraints hold between any two rows of a table, and adding
    keeps them. *)
Section unique.
Context {R : Type} `{Table R}.

Definition unique_rows (l : list R) : Prop := ForallOrdPairs (fun a b => clash a b = None) l.

Lemma unique_rows_snoc l r :
  unique_rows l -> (forall r', r' ∈ l -> clash r' r = None) -> unique_rows (l ++ [r]).
Proof.
  unfold unique_rows. induction 1 as [|x l Hx Hl IH]; intros Hr; simpl.
  - repeat constructor.
  - constructor.
    + apply Forall_app. split; [done|]. apply Forall_singleton. apply Hr. set_solver.
    + apply IH. intros r' Hr'. apply Hr. set_solver.
Qed.

Lemma add_unique (r : R) w u w' :
  unique_rows (rows (db w)) -> add r w = Ok (u, w') -> unique_rows (rows (db w')).
Proof.
  intros Hu [Hr ->]%add_Ok. cbn [db]. rewrite rows_set_rows. by apply unique_rows_snoc.
Qed.

(** At most one row satisfies a predicate whose rows clash. *)
Lemma unique_keep (p : R -> bool) l :
  unique_rows l -> (forall a b, p a = true -> p b = true -> clash a b <> None) ->
  keep p l = [] \/ exists x, keep p l = [x] /\ x ∈ l.
Proof.
  intros Hu Hp. unfold keep. induction Hu as [|x l Hx Hl IH]; simpl; [by left|].
  destruct (p x) eqn:E.
  - right. exists x. split; [|set_solver]. f_equal. apply keep_none. intros y Hy.
    destruct (p y) eqn:Ey; [|done]. exfalso. rewrite Forall_forall in Hx.
    by eapply Hp, Hx.
  - destruct IH as [->|(y & -> & Hy)]; [by left|right]. exists y. split; [done|set_solver].
Qed.
End unique.
