(* ===== verification/Outbox.v ===== *)
(** * Transactional outbox (services/core/src/memdot_core/jobs/service.py and the SQL
    functions it calls, services/core/alembic/versions/20260717_0002_*.sql)

    [payload_sha256], and the claim and acknowledgement of events.  The two SQL
    functions are translated as functions on the rows of [outbox_event]; rows a
    concurrent transaction holds ([FOR UPDATE SKIP LOCKED]) are the argument
    [locked].  The steps of several workers are an explicit relation, one
    committed transaction each. *)

From Stdlib Require Import ZArith Lia.
From stdpp Require Import list strings.
From S2P Require Import Prelude PyStr Json Digest Uuid Ledger Store.
Open Scope Z_scope.

Definition payload_sha256 (payload : dict) : string := sha256_str (dumps (JObj payload)).

Notation event := OutboxEvent.t (only parsing).

(** ** memdot_claim_outbox_events *)

Definition claimable (now : Z) (e : event) : bool :=
  match OutboxEvent.published_at e with
  | Some _ => false
  | None => match OutboxEvent.claim_expires_at e with Some t => t <? now | None => true end
  end.

Definition set_claim (worker_id : string) (token : uuid) (expires : Z) (e : event) : event :=
  OutboxEvent.set_claimed_by (Some worker_id)
    (OutboxEvent.set_claim_expires_at (Some expires) (OutboxEvent.set_claim_token (Some token) e)).

Definition same_event (e e' : event) : bool :=
  same (OutboxEvent.account_id e) (OutboxEvent.account_id e') && same (OutboxEvent.id e) (OutboxEvent.id e').

(** The events to claim: the oldest claimable ones that nobody locks. *)
Definition candidates (locked : event -> bool) (batch_size : nat) (now : Z) (l : list event) : list event :=
  take batch_size (sort_by (fun a b => OutboxEvent.created_at a <=? OutboxEvent.created_at b)
    (keep (fun e => claimable now e && negb (locked e)) l)).

Definition claim_rows (locked : event -> bool) (worker_id : string) (batch_size : nat)
    (lease_seconds now : Z) (token : uuid) (l : list event) : list event * list event :=
  let cs := candidates locked batch_size now l in
  let hit e := existsb (same_event e) cs in
  let expires := now + lease_seconds * 1000000 in
  (map (set_claim worker_id token expires) (keep hit l),
   map (fun e => if hit e then set_claim worker_id token expires e else e) l).

(** ** memdot_ack_outbox_event *)

Definition ack_hit (account event_id token : uuid) (e : event) : bool :=
  same (OutboxEvent.account_id e) account && same (OutboxEvent.id e) event_id &&
  match OutboxEvent.claim_token e with Some t => t =? token | None => false end &&
  match OutboxEvent.published_at e with None => true | Some _ => false end.

Definition set_published (now : Z) (e : event) : event :=
  OutboxEvent.set_published_at (Some now) (OutboxEvent.set_claim_token None
    (OutboxEvent.set_claim_expires_at None (OutboxEvent.set_claimed_by None e))).

Definition ack_rows (account event_id token : uuid) (now : Z) (l : list event) : bool * list event :=
  (bool_decide (length (keep (ack_hit account event_id token) l) = 1%nat),
   map (fun e => if ack_hit account event_id token e then set_published now e else e) l).

(** The Python wrappers: the columns a claim returns, and the calls in a session. *)
Record ClaimedEvent := {
  ce_id : uuid; ce_account_id : uuid; ce_event_type : string; ce_payload_sha256 : string;
  ce_payload : dict; ce_claim_token : option uuid;
}.

Definition claimed_view (e : event) : ClaimedEvent :=
  {| ce_id := OutboxEvent.id e; ce_account_id := OutboxEvent.account_id e;
     ce_event_type := OutboxEvent.event_type e; ce_payload_sha256 := OutboxEvent.payload_sha256 e;
     ce_payload := OutboxEvent.payload e; ce_claim_token := OutboxEvent.claim_token e |}.

Section session.
Context `{Env}.

Definition claim_outbox_batch (worker_id : string) (batch_size : nat) (lease_seconds : Z)
    : M (list ClaimedEvent) :=
  t ← now;
  token ← new_uuid;
  statement (fun d =>
    let '(claimed, l) := claim_rows (fun _ => false) worker_id batch_size lease_seconds t token (rows d) in
    (map claimed_view claimed, set_rows l d)).

Definition ack_outbox_event (account_id event_id claim_token : uuid) : M bool :=
  t ← now;
  statement (fun d =>
    let '(b, l) := ack_rows account_id event_id claim_token t (rows d) in (b, set_rows l d)).
End session.

(** ** Workers, interleaved *)

Inductive step (l : list event) : Z -> list event -> Prop :=
| step_claim locked worker n lease now token :
    step l now (claim_rows locked worker n lease now token l).2
| step_ack account id token now :
    step l now (ack_rows account id token now l).2.

(** Committed transactions whose times all lie before [until]. *)
Inductive steps (until : Z) : list event -> list event -> Prop :=
| steps_refl l : steps until l l
| steps_step l now l' l'' : now <= until -> step l now l' -> steps until l' l'' -> steps until l l''.

(** ** Lemmas *)

Definition leased (token : uuid) (expires : Z) (e : event) : Prop :=
  OutboxEvent.claim_token e = Some token /\ OutboxEvent.claim_expires_at e = Some expires /\
  OutboxEvent.published_at e = None.

Lemma candidates_claimable locked n now l e :
  e ∈ candidates locked n now l -> e ∈ l /\ claimable now e = true /\ locked e = false.
Proof.
  unfold candidates. intros He.
  assert (Hs : e ∈ sort_by (fun a b => OutboxEvent.created_at a <=? OutboxEvent.created_at b)
    (keep (fun e => claimable now e && negb (locked e)) l)).
  { eapply elem_of_submseteq; [exact He|]. apply sublist_submseteq, sublist_take. }
  rewrite elem_of_sort_by, elem_of_keep in Hs. destruct Hs as [Hl Hc]. split_bool. auto.
Qed.

Lemma same_event_true e e' : same_event e e' = true <->
  OutboxEvent.account_id e = OutboxEvent.account_id e' /\ OutboxEvent.id e = OutboxEvent.id e'.
Proof. unfold same_event, same. rewrite andb_true_iff, !bool_decide_eq_true. done. Qed.

(** The primary key: an identifier is one row. *)
Definition keyed (l : list event) : Prop := NoDup (map OutboxEvent.id l).

Lemma keyed_eq l e e' : keyed l -> e ∈ l -> e' ∈ l -> OutboxEvent.id e = OutboxEvent.id e' -> e = e'.
Proof.
  unfold keyed. induction l as [|x l IH]; [set_solver|]. cbn [map].
  intros [Hn Hnd]%NoDup_cons He He' Hid.
  assert (Hx : forall y, y ∈ l -> OutboxEvent.id x <> OutboxEvent.id y).
  { intros y Hy Heq. apply Hn. apply list_elem_of_fmap. by exists y. }
  apply elem_of_cons in He as [->|He], He' as [->|He']; [done| | |by apply IH].
  - by exfalso; apply (Hx e').
  - by exfalso; apply (Hx e).
Qed.

Lemma claim_hit_claimable locked n now l e : keyed l -> e ∈ l ->
  existsb (same_event e) (candidates locked n now l) = true -> claimable now e = true /\ locked e = false.
Proof.
  intros Hk He. rewrite existsb_exists. intros (c & Hc & [_ Hid]%same_event_true).
  apply list_elem_of_In, candidates_claimable in Hc as (Hcl & Hc & Hlk).
  by rewrite (keyed_eq l e c Hk He Hcl Hid).
Qed.

Lemma set_claim_id w t x e : OutboxEvent.id (set_claim w t x e) = OutboxEvent.id e.
Proof. done. Qed.

Lemma map_same_id (f : event -> event) l :
  (forall e, OutboxEvent.id (f e) = OutboxEvent.id e) -> keyed l -> keyed (map f l).
Proof. intros Hf. unfold keyed. rewrite map_map. by rewrite (map_ext (fun x => OutboxEvent.id (f x)) OutboxEvent.id Hf). Qed.

Lemma claim_rows_keyed locked w n lease now t l : keyed l -> keyed (claim_rows locked w n lease now t l).2.
Proof.
  apply map_same_id. intros e. by destruct (existsb _ _).
Qed.

Lemma ack_rows_keyed a i t now l : keyed l -> keyed (ack_rows a i t now l).2.
Proof.
  apply map_same_id. intros e. by destruct (ack_hit _ _ _ e).
Qed.

Lemma step_keyed l now l' : keyed l -> step l now l' -> keyed l'.
Proof. intros Hk []; [by apply claim_rows_keyed|by apply ack_rows_keyed]. Qed.

(** *** Properties of one claim *)

Lemma claimed_spec locked w n lease now t l e :
  e ∈ (claim_rows locked w n lease now t l).1 ->
  exists e0, e0 ∈ l /\ e = set_claim w t (now + lease * 1000000) e0 /\
    existsb (same_event e0) (candidates locked n now l) = true.
Proof.
  unfold claim_rows. cbn [fst]. intros (e0 & -> & [H1 H2]%elem_of_keep)%list_elem_of_fmap. eauto.
Qed.

(** What a step does to one event. *)
Lemma step_event l now l' e : keyed l -> step l now l' -> e ∈ l ->
  exists e', e' ∈ l' /\ OutboxEvent.id e' = OutboxEvent.id e /\
    (OutboxEvent.payload e' = OutboxEvent.payload e /\ OutboxEvent.event_type e' = OutboxEvent.event_type e) /\
    (forall t, OutboxEvent.published_at e = Some t -> e' = e) /\
    (forall token expires, leased token expires e -> now <= expires ->
       e' = e \/ e' = set_published now e).
Proof.
  intros Hk [locked w n lease now' token|a i token now'] He.
  - set (hit := existsb (same_event e) (candidates locked n now' l)).
    exists (if hit then set_claim w token (now' + lease * 1000000) e else e).
    split; [unfold claim_rows; cbn [snd]; apply list_elem_of_fmap; by exists e|].
    destruct hit eqn:Eh; [|by eauto 10].
    pose proof (claim_hit_claimable locked n now' l e Hk He Eh) as [Hc _].
    unfold claimable in Hc. split_and!; try done.
    + intros t Ht. by rewrite Ht in Hc.
    + intros tk ex (_ & Hx & Hp) Hle. rewrite Hp, Hx in Hc. apply Z.ltb_lt in Hc. lia.
  - exists (if ack_hit a i token e then set_published now' e else e).
    split; [unfold ack_rows; cbn [snd]; apply list_elem_of_fmap; by exists e|].
    destruct (ack_hit a i token e) eqn:Eh; [|by eauto 10]. split_and!; try done; [|by eauto].
    intros t Ht. unfold ack_hit in Eh. rewrite Ht, andb_false_r in Eh. done.
Qed.

(** The fate of a leased event while its lease lasts. *)
Definition held (id : uuid) (token : uuid) (expires : Z) (l : list event) : Prop :=
  exists e, e ∈ l /\ OutboxEvent.id e = id /\
    (leased token expires e \/ OutboxEvent.published_at e <> None).

Lemma held_step id token expires l now l' :
  keyed l -> now <= expires -> step l now l' -> held id token expires l -> held id token expires l'.
Proof.
  intros Hk Hle Hs (e & He & Hid & Hh).
  destruct (step_event l now l' e Hk Hs He) as (e' & He' & Hid' & _ & Hp & Hl).
  exists e'. split; [done|]. split; [congruence|].
  destruct Hh as [Hh|Hh].
  - destruct (Hl token expires Hh Hle) as [->| ->]; [by left|by right].
  - destruct (OutboxEvent.published_at e) as [t|] eqn:E; [|done].
    rewrite (Hp t eq_refl). right. by rewrite E.
Qed.

Lemma held_steps id token expires until l l' :
  keyed l -> until <= expires -> steps until l l' -> held id token expires l -> held id token expires l' /\ keyed l'.
Proof.
  intros Hk Hle Hs. induction Hs as [l|l now l1 l2 Hn H1 H2 IH]; [done|].
  intros Hh. apply IH; [by eapply step_keyed|]. eapply held_step; [done| |done|done]. lia.
Qed.

Lemma claimed_held locked w n lease now token l e :
  keyed l -> e ∈ (claim_rows locked w n lease now token l).1 ->
  held (OutboxEvent.id e) token (now + lease * 1000000) (claim_rows locked w n lease now token l).2.
Proof.
  intros Hk (e0 & He0 & -> & Hh)%claimed_spec.
  pose proof (claim_hit_claimable _ _ _ _ _ Hk He0 Hh) as [Hc _].
  exists (set_claim w token (now + lease * 1000000) e0). split; [|split; [done|]].
  - unfold claim_rows. cbn [snd]. apply list_elem_of_fmap. exists e0. by rewrite Hh.
  - left. split; [done|]. split; [done|]. simpl. unfold claimable in Hc. by destruct (OutboxEvent.published_at e0).
Qed.

Lemma held_not_claimable id token expires l now e :
  keyed l -> held id token expires l -> now <= expires -> e ∈ l -> OutboxEvent.id e = id ->
  claimable now e = false.
Proof.
  intros Hk (e' & He' & Hid' & Hh) Hle He Hid.
  assert (e = e') as -> by (eapply keyed_eq; [exact Hk|done|done|congruence]).
  unfold claimable. destruct Hh as [(_ & Hx & Hp)|Hp].
  - rewrite Hp, Hx. apply Z.ltb_ge. lia.
  - by destruct (OutboxEvent.published_at e').
Qed.

Lemma keep_hit_perm l cs : keyed l -> NoDup (map OutboxEvent.id cs) -> (forall c, c ∈ cs -> c ∈ l) ->
  keep (fun e => existsb (same_event e) cs) l ≡ₚ cs.
Proof.
  intros Hk Hn Hsub. apply NoDup_Permutation.
  - eapply sublist_NoDup; [|apply keep_sublist]. by eapply NoDup_fmap_1.
  - by eapply NoDup_fmap_1.
  - intros e. rewrite elem_of_keep, existsb_exists. split.
    + intros (He & c & Hc%list_elem_of_In & [_ Hid]%same_event_true).
      by rewrite (keyed_eq l e c Hk He (Hsub c Hc) Hid).
    + intros He. split; [by apply Hsub|]. exists e. split; [by apply list_elem_of_In|].
      by apply same_event_true.
Qed.

Lemma candidates_NoDup locked n now l : keyed l -> NoDup (map OutboxEvent.id (candidates locked n now l)).
Proof.
  intros Hk. unfold candidates. rewrite <- firstn_map.
  eapply sublist_NoDup; [|apply sublist_take]. rewrite sort_by_perm.
  eapply sublist_NoDup; [exact Hk|]. apply keep_map_sublist.
Qed.

(** ** Properties *)

(** C1: an event is leased to one worker at a time: after a claim, whatever
    other workers claim or acknowledge before the lease expires, no claim made
    within the lease returns the event again. *)
Theorem lease_exclusive locked w n lease now token l e until l'' locked2 w2 n2 lease2 now2 token2 e2 :
  keyed l -> e ∈ (claim_rows locked w n lease now token l).1 ->
  until <= now + lease * 1000000 -> now2 <= now + lease * 1000000 ->
  steps until (claim_rows locked w n lease now token l).2 l'' ->
  e2 ∈ (claim_rows locked2 w2 n2 lease2 now2 token2 l'').1 ->
  OutboxEvent.id e2 <> OutboxEvent.id e.
Proof.
  intros Hk He Hu Hn2 Hs (e0 & He0 & -> & Hh)%claimed_spec.
  destruct (held_steps _ token _ until _ _ (claim_rows_keyed locked w n lease now token l Hk) Hu Hs
    (claimed_held locked w n lease now token l e Hk He)) as [Hheld Hk''].
  rewrite set_claim_id. intros Hid.
  destruct (claim_hit_claimable _ _ _ _ _ Hk'' He0 Hh) as [Hc _].
  by rewrite (held_not_claimable _ _ _ _ _ _ Hk'' Hheld Hn2 He0 Hid) in Hc.
Qed.


(** A claim takes what it can and in order: as many events as the batch
    allows among the claimable ones nobody locks, each with the new token and
    lease, and none of the events it leaves is older than one it takes. *)
Theorem claim_oldest_first locked w n lease now token l :
  keyed l ->
  let claimed := (claim_rows locked w n lease now token l).1 in
  let avail := keep (fun e => claimable now e && negb (locked e)) l in
  length claimed = Nat.min n (length avail) /\
  (forall e, e ∈ claimed -> leased token (now + lease * 1000000) e /\
     exists e0, e0 ∈ avail /\ OutboxEvent.id e0 = OutboxEvent.id e /\ OutboxEvent.created_at e0 = OutboxEvent.created_at e) /\
  (forall e c, e ∈ avail -> c ∈ claimed -> (forall c', c' ∈ claimed -> OutboxEvent.id c' <> OutboxEvent.id e) ->
     OutboxEvent.created_at c <= OutboxEvent.created_at e).
Proof.
  intros Hk claimed avail. subst claimed avail.
  set (avail := keep (fun e => claimable now e && negb (locked e)) l).
  set (cs := candidates locked n now l).
  assert (Hp : keep (fun e => existsb (same_event e) cs) l ≡ₚ cs).
  { apply keep_hit_perm; [done|by apply candidates_NoDup|].
    intros c (Hc & _)%candidates_claimable. done. }
  assert (Hav : forall e, e ∈ cs -> e ∈ avail).
  { intros e (He & Hc & Hl)%candidates_claimable. apply elem_of_keep. by rewrite Hc, Hl. }
  split_and!.
  - unfold claim_rows. cbn [fst]. rewrite length_map. fold cs. rewrite Hp.
    unfold cs, candidates. rewrite length_take. by rewrite sort_by_perm.
  - intros e He. pose proof (claimed_spec _ _ _ _ _ _ _ _ He) as (e0 & He0 & -> & Hh). fold cs in Hh.
    assert (Hin : e0 ∈ cs) by (rewrite <- Hp; by apply elem_of_keep).
    pose proof (candidates_claimable _ _ _ _ _ Hin) as (_ & Hc & _). split.
    + split; [done|]. split; [done|]. simpl. unfold claimable in Hc. by destruct (OutboxEvent.published_at e0).
    + exists e0. split; [by apply Hav|done].
  - intros e c He (c0 & Hc0 & -> & Hh)%claimed_spec Hno. fold cs in Hh.
    assert (Hin : c0 ∈ cs) by (rewrite <- Hp; by apply elem_of_keep).
    assert (Hout : e ∉ cs).
    { intros Hecs. apply (Hno (set_claim w token (now + lease * 1000000) e)); [|done].
      unfold claim_rows. cbn [fst]. apply list_elem_of_fmap. exists e. split; [done|].
      fold cs. by rewrite Hp. }
    assert (Hs : StronglySorted (fun a b => (OutboxEvent.created_at a <=? OutboxEvent.created_at b) = true)
      (sort_by (fun a b => OutboxEvent.created_at a <=? OutboxEvent.created_at b) avail)).
    { apply sort_by_sorted; intros *; rewrite !Z.leb_le; lia. }
    assert (Hes : e ∈ sort_by (fun a b => OutboxEvent.created_at a <=? OutboxEvent.created_at b) avail)
      by by rewrite elem_of_sort_by.
    unfold cs, candidates in Hin, Hout. fold avail in Hin, Hout.
    rewrite <- (take_drop n (sort_by _ avail)) in Hs, Hes.
    apply elem_of_app in Hes as [Hes|Hes]; [done|].
    assert (Hle : (OutboxEvent.created_at c0 <=? OutboxEvent.created_at e) = true).
    { exact (StronglySorted_app_1_elem_of _ _ _ _ _ Hs Hin Hes). }
    by apply Z.leb_le in Hle.
Qed.

Definition sample_event (id created : Z) : event :=
  {| OutboxEvent.id := id; OutboxEvent.account_id := 1; OutboxEvent.event_type := "source.upload_completed";
     OutboxEvent.payload_sha256 := ""; OutboxEvent.payload := []; OutboxEvent.durable_job_id := None;
     OutboxEvent.created_at := created; OutboxEvent.published_at := None; OutboxEvent.claim_token := None;
     OutboxEvent.claim_expires_at := None; OutboxEvent.claimed_by := None |}.

Definition sample_outbox : list event := [sample_event 11 5; sample_event 12 4].

Definition nobody (e : event) : bool := false.

Lemma sample_keyed : keyed sample_outbox.
Proof. apply (bool_decide_unpack _). vm_compute. exact I. Qed.

Lemma lease_exclusive_witness :
  exists e2, e2 ∈ (claim_rows nobody "w2" 1 30 20 78 (claim_rows nobody "w1" 1 30 10 77 sample_outbox).2).1 /\
    OutboxEvent.id e2 <> 12.
Proof.
  eexists. split; [vm_compute; left|].
  apply (lease_exclusive nobody "w1" 1 30 10 77 sample_outbox
    (set_claim "w1" 77 (10 + 30 * 1000000) (sample_event 12 4)) 15
    (claim_rows nobody "w1" 1 30 10 77 sample_outbox).2 nobody "w2" 1 30 20 78).
  - exact sample_keyed.
  - vm_compute. left.
  - discriminate.
  - discriminate.
  - apply steps_refl.
  - vm_compute. left.
Defined.


Lemma claim_oldest_first_witness :
  length (claim_rows nobody "w1" 1 30 10 77 sample_outbox).1 = 1%nat.
Proof. exact (proj1 (claim_oldest_first nobody "w1" 1 30 10 77 sample_outbox sample_keyed)). Defined.
