(* ===== verification/RequestContext.v ===== *)
(** * Request context and tenant seal (services/core/src/memdot_core/request_context.py,
    services/core/src/memdot_core/auth/sessions.py, services/core/src/memdot_core/db/tenant.py,
    packages/domain-python/src/memdot_domain/tenant_seal.py)

    The authenticated context every service function takes, the predicates on
    browser sessions, and the HMAC that seals a tenant context.  Configuration
    read from the environment ([os.environ]) is an argument.  A [datetime] is
    its microseconds. *)

From Stdlib Require Import Ascii ZArith Lia.
From stdpp Require Import list strings.
From S2P Require Import Prelude PyStr Json Digest Uuid Enums.
Open Scope Z_scope.

Record TenantContext := {
  tc_account_id : uuid;
  tc_actor_id : uuid;
  tc_purpose : RequestPurpose.t;
}.

Record RequestContext := {
  account_id : uuid;
  actor_id : uuid;
  user_id : uuid;
  purpose : RequestPurpose.t;
  correlation_id : uuid;
  session_id : option uuid;
  scopes : list string;
  eligible_space_ids : list uuid;
  last_auth_at : option Z;
}.

Definition tenant (ctx : RequestContext) : TenantContext :=
  {| tc_account_id := account_id ctx; tc_actor_id := actor_id ctx; tc_purpose := purpose ctx |}.

(** ** Sessions *)

Definition us_per_minute : Z := 60000000.

Definition recent_auth_satisfied (last_auth_at max_age_minutes current : Z) : bool :=
  current - last_auth_at <=? max_age_minutes * us_per_minute.

Definition require_recent_auth (ctx : RequestContext) (max_age_minutes current : Z) : bool :=
  match last_auth_at ctx with
  | None => false
  | Some t => recent_auth_satisfied t max_age_minutes current
  end.

Definition is_session_active (expires_at idle_expires_at : Z) (revoked_at : option Z) (current : Z) : bool :=
  match revoked_at with
  | Some _ => false
  | None => (current <=? expires_at) && (current <=? idle_expires_at)
  end.

Definition session_expiry (current ttl_hours idle_minutes : Z) : Z * Z :=
  (current + ttl_hours * 60 * us_per_minute, current + idle_minutes * us_per_minute).

(** [pepper] is [os.environ.get("CORE_SESSION_SIGNING_PEPPER", "")]. *)
Definition hash_secret (pepper v : string) : res string :=
  if (String.length pepper <? 16)%nat
  then Raise (RuntimeError "CORE_SESSION_SIGNING_PEPPER must contain at least 16 characters")
  else Ok (hmac_hex (utf8 pepper) (utf8 v)).

Definition verify_session_secret (pepper secret secret_hash : string) : res bool :=
  h ← hash_secret pepper secret; mret (String.eqb h secret_hash).

Definition verify_csrf_token (pepper token token_hash : string) : res bool :=
  h ← hash_secret pepper token; mret (String.eqb h token_hash).

(** The session row the SECURITY DEFINER lookup returns. *)
Record SessionRow := {
  s_id : uuid; s_account_id : uuid; s_actor_id : uuid; s_user_id : uuid;
  s_csrf_token_hash : string; s_expires_at : Z; s_idle_expires_at : Z; s_last_auth_at : Z;
  s_revoked_at : option Z;
}.

(** [cookie.split(".", 1)]. *)
Fixpoint split_once (c : ascii) (s : string) : option (string * string) :=
  match s with
  | "" => None
  | String a s' =>
      if Ascii.eqb c a then Some ("", s')
      else match split_once c s' with Some (p, q) => Some (String a p, q) | None => None end
  end.

Definition correlation_id_for_request (x_correlation x_request : option string) (fresh : uuid) : uuid :=
  let pick o := match o with Some s => if truthy s then Some s else None | None => None end in
  match match pick x_correlation with Some s => Some s | None => pick x_request end with
  | Some raw => match parse_uuid raw with Some u => u | None => fresh end
  | None => fresh
  end.

(** [load_session_context]: [load] is the lookup by session and secret hash. *)
Definition load_session_context (pepper : string) (cookie : option string)
    (load : uuid -> string -> option SessionRow) (require_csrf : bool) (csrf_header : string)
    (now : Z) (correlation : uuid) : option RequestContext :=
  match cookie with
  | None => None
  | Some cookie =>
    match split_once "." cookie with
    | None => None
    | Some (session_id_raw, secret) =>
      match parse_uuid session_id_raw with
      | None => None
      | Some sid =>
        match hash_secret pepper secret with
        | Raise _ => None
        | Ok digest =>
          match load sid digest with
          | None => None
          | Some row =>
            if negb (is_session_active (s_expires_at row) (s_idle_expires_at row) (s_revoked_at row) now)
            then None
            else if require_csrf &&
                    (negb (truthy csrf_header) ||
                     match verify_csrf_token pepper csrf_header (s_csrf_token_hash row) with
                     | Ok true => false | _ => true end)
            then None
            else Some {| account_id := s_account_id row; actor_id := s_actor_id row;
                         user_id := s_user_id row; purpose := RequestPurpose.FIRST_PARTY;
                         correlation_id := correlation; session_id := Some (s_id row);
                         scopes := []; eligible_space_ids := [];
                         last_auth_at := Some (s_last_auth_at row) |}
          end
        end
      end
    end
  end.

(** ** Sealing a tenant context *)

Definition RUNTIME_PURPOSES : list RequestPurpose.t :=
  [RequestPurpose.FIRST_PARTY; RequestPurpose.EXTERNAL_READ; RequestPurpose.EXTERNAL_PROPOSE;
   RequestPurpose.EXTERNAL_INTERACTION; RequestPurpose.WORKER].

Definition signing_key_of_env (v : string) : res (list Z) :=
  if (String.length v <? 32)%nat
  then Raise (RuntimeError "CORE_TENANT_CONTEXT_SIGNING_KEY must contain at least 32 characters")
  else Ok (utf8 v).

Definition context_message (ctx : TenantContext) (issued_at : Z) (nonce : string) : string :=
  str_uuid (tc_account_id ctx) +:+ ":" +:+ str_uuid (tc_actor_id ctx) +:+ ":" +:+
  value (tc_purpose ctx) +:+ ":" +:+ str_of_Z issued_at +:+ ":" +:+ nonce.

Definition sign_tenant_context (key : list Z) (ctx : TenantContext) (issued_at : Z) (nonce : string) : string :=
  hmac_hex key (utf8 (context_message ctx issued_at nonce)).

Record TenantSeal := { seal_issued_at : Z; seal_nonce : string; seal_signature : string }.

(** [apply_tenant_context]: the arguments of [memdot_begin_tenant_context]. *)
Definition apply_tenant_context (key : list Z) (ctx : TenantContext) (issued_at : Z) (nonce : string)
    : res TenantSeal :=
  _ ← raise_if (negb (bool_decide (tc_purpose ctx ∈ RUNTIME_PURPOSES)))
        (ValueError ("unsupported purpose: " +:+ value (tc_purpose ctx)));
  mret {| seal_issued_at := issued_at; seal_nonce := nonce;
          seal_signature := sign_tenant_context key ctx issued_at nonce |}.

(** ** Lemmas *)

Lemma split_once_Some c s p q : split_once c s = Some (p, q) -> s = p +:+ String c q.
Proof.
  revert p. induction s as [|a s IH]; intros p; cbn [split_once]; [done|].
  destruct (Ascii.eqb_spec c a) as [<-|]; [by intros [= <- <-]|].
  destruct (split_once c s) as [[p' q']|]; [|done]. intros [= <- <-].
  change (String a p' +:+ String c q') with (String a (p' +:+ String c q')). by rewrite <- (IH p').
Qed.

Lemma context_message_split ctx t nonce :
  has_char ":" nonce = false ->
  split ":" (context_message ctx t nonce) =
  [str_uuid (tc_account_id ctx); str_uuid (tc_actor_id ctx); value (tc_purpose ctx); str_of_Z t; nonce].
Proof.
  intros Hn. change (context_message ctx t nonce) with (join ":"
    [str_uuid (tc_account_id ctx); str_uuid (tc_actor_id ctx); value (tc_purpose ctx); str_of_Z t; nonce]).
  apply split_join; [done|]. repeat constructor; try apply str_uuid_no_colon; try done.
  - by destruct (tc_purpose ctx).
  - apply (str_all_has_char is_int_char); [done|apply str_of_Z_chars].
Qed.

Lemma context_message_inj ctx ctx' t t' nonce nonce' :
  is_uuid (tc_account_id ctx) -> is_uuid (tc_actor_id ctx) ->
  is_uuid (tc_account_id ctx') -> is_uuid (tc_actor_id ctx') ->
  has_char ":" nonce = false -> has_char ":" nonce' = false ->
  context_message ctx t nonce = context_message ctx' t' nonce' -> ctx = ctx' /\ t = t' /\ nonce = nonce'.
Proof.
  intros Ha Hb Ha' Hb' Hn Hn' H. apply (f_equal (split ":")) in H.
  rewrite !context_message_split in H by done. destruct ctx as [a b p], ctx' as [a' b' p'].
  cbn [tc_account_id tc_actor_id tc_purpose] in *.
  pose proof (str_uuid_inj a a' Ha Ha') as I1. pose proof (str_uuid_inj b b' Hb Hb') as I2.
  pose proof (value_inj p p') as I3. pose proof (str_of_Z_inj t t') as I4.
  revert H I1 I2 I3 I4. generalize (str_uuid a), (str_uuid a'), (str_uuid b), (str_uuid b'),
    (value p), (value p'), (str_of_Z t), (str_of_Z t'). clear.
  intros s1 s1' s2 s2' s3 s3' s4 s4' H I1 I2 I3 I4. injection H as -> -> -> -> ->.
  rewrite I1, I2, I3, I4 by done. done.
Qed.

(** ** Properties *)

(** A session context is granted only for an unrevoked, unexpired and
    not idle session whose secret hashes to the stored digest, and, for a
    mutating request, whose CSRF token hashes to the stored one; it is always
    a first-party context of the session's own account, actor and user. *)
Theorem load_session_context_sound pepper cookie load csrf hdr now corr ctx :
  load_session_context pepper cookie load csrf hdr now corr = Some ctx ->
  exists sid secret row,
    cookie = Some (sid +:+ "." +:+ secret) /\
    (exists u, parse_uuid sid = Some u /\ load u (hmac_hex (utf8 pepper) (utf8 secret)) = Some row) /\
    s_revoked_at row = None /\ now <= s_expires_at row /\ now <= s_idle_expires_at row /\
    (csrf = true -> hmac_hex (utf8 pepper) (utf8 hdr) = s_csrf_token_hash row) /\
    account_id ctx = s_account_id row /\ actor_id ctx = s_actor_id row /\ user_id ctx = s_user_id row /\
    purpose ctx = RequestPurpose.FIRST_PARTY.
Proof.
  unfold load_session_context. destruct cookie as [cookie|]; [|done].
  destruct (split_once "." cookie) as [[sid secret]|] eqn:Es; [|done].
  destruct (parse_uuid sid) as [u|] eqn:Eu; [|done].
  unfold verify_csrf_token, hash_secret. destruct (String.length pepper <? 16)%nat; [done|].
  destruct (load u _) as [row|] eqn:El; [|done].
  destruct (is_session_active _ _ _ _) eqn:Ea; [|done].
  pose proof (split_once_Some _ _ _ _ Es) as Hc.
  unfold is_session_active in Ea. destruct (s_revoked_at row) eqn:Er; [done|].
  apply andb_prop in Ea as [E1%Z.leb_le E2%Z.leb_le]. cbn [negb].
  destruct (csrf && _) eqn:Ecs; [done|]. intros [= <-]. exists sid, secret, row.
  split; [by rewrite Hc|]. split; [eauto|]. split_and!; try done.
  intros ->. cbn in Ecs. apply orb_false_elim in Ecs as [_ Ecs].
  destruct (String.eqb_spec (hmac_hex (utf8 pepper) (utf8 hdr)) (s_csrf_token_hash row)); [done|].
  discriminate Ecs.
Qed.

(** A tenant seal binds the account, the actor, the purpose, the time
    and the nonce: two seals whose signed messages differ in any of these sign
    different messages, so equal signatures under one key need an HMAC
    collision. *)
Theorem tenant_seal_binds key ctx ctx' t t' nonce nonce' :
  is_uuid (tc_account_id ctx) -> is_uuid (tc_actor_id ctx) ->
  is_uuid (tc_account_id ctx') -> is_uuid (tc_actor_id ctx') ->
  has_char ":" nonce = false -> has_char ":" nonce' = false ->
  (hmac_sha256 key (utf8 (context_message ctx t nonce)) =
   hmac_sha256 key (utf8 (context_message ctx' t' nonce')) ->
   utf8 (context_message ctx t nonce) = utf8 (context_message ctx' t' nonce')) ->
  sign_tenant_context key ctx t nonce = sign_tenant_context key ctx' t' nonce' ->
  ctx = ctx' /\ t = t' /\ nonce = nonce'.
Proof.
  intros Ha Hb Ha' Hb' Hn Hn' Hcol H. unfold sign_tenant_context, hmac_hex in H.
  apply hex_inj in H; [|apply hmac_byte..].
  apply Hcol, utf8_inj in H. by apply context_message_inj in H.
Qed.

Definition sample_pepper : string := "0123456789abcdef".

Definition sample_row : SessionRow :=
  {| s_id := 7; s_account_id := 1; s_actor_id := 2; s_user_id := 3; s_csrf_token_hash := "";
     s_expires_at := 100; s_idle_expires_at := 90; s_last_auth_at := 10; s_revoked_at := None |}.

Definition sample_load (u : uuid) (digest : string) : option SessionRow :=
  if (u =? 7) && String.eqb digest (hmac_hex (utf8 sample_pepper) (utf8 "s3cret")) then Some sample_row else None.

Definition sample_cookie : string := "00000000-0000-0000-0000-000000000007.s3cret".

Lemma load_session_context_sound_witness :
  exists ctx, load_session_context sample_pepper (Some sample_cookie) sample_load false "" 50 9 = Some ctx /\
    purpose ctx = RequestPurpose.FIRST_PARTY /\ account_id ctx = 1.
Proof.
  destruct (load_session_context sample_pepper (Some sample_cookie) sample_load false "" 50 9) as [ctx|] eqn:E.
  - exists ctx. split; [reflexivity|].
    destruct (load_session_context_sound _ _ _ _ _ _ _ _ E) as (sid & secret & row & _ & (u & _ & Hl) & _ & _ & _ & _ & Ha & _ & _ & Hp).
    split; [exact Hp|]. rewrite Ha. unfold sample_load in Hl.
    destruct (_ && _); [|discriminate]. injection Hl as <-. reflexivity.
  - exfalso. revert E. vm_compute. discriminate.
Defined.

Definition sample_tenant : TenantContext :=
  {| tc_account_id := 1; tc_actor_id := 2; tc_purpose := RequestPurpose.WORKER |}.

Lemma tenant_seal_binds_witness : sample_tenant = sample_tenant /\ 5 = 5 /\ "ab" = "ab".
Proof.
  apply (tenant_seal_binds [1] sample_tenant sample_tenant 5 5 "ab" "ab"); try (by vm_compute); try reflexivity.
Defined.
