(* ===== verification/Deletion.v ===== *)
(** * Deletion (services/core/src/memdot_core/deletion/service.py)

    Tombstones and the deletion workflow, as functions of the session. *)

From Stdlib Require Import ZArith Lia.
From stdpp Require Import list strings.
From S2P Require Import Prelude PyStr Json Uuid Enums Ledger Store Outbox RequestContext.
Open Scope Z_scope.

Definition tombstone_for (account : uuid) (entity_type : string) (entity : uuid) (r : DeletionTombstone.t) : bool :=
  same (DeletionTombstone.account_id r) account && same (DeletionTombstone.entity_type r) entity_type &&
  same (DeletionTombstone.entity_id r) entity.

(** A new event of the outbox, unclaimed and unpublished. *)
Definition new_event (id account : uuid) (event_type : string) (payload : dict) (job : option uuid) (now : Z)
    : OutboxEvent.t :=
  {| OutboxEvent.id := id; OutboxEvent.account_id := account; OutboxEvent.event_type := event_type;
     OutboxEvent.payload_sha256 := payload_sha256 payload; OutboxEvent.payload := payload;
     OutboxEvent.durable_job_id := job; OutboxEvent.created_at := now;
     OutboxEvent.published_at := None; OutboxEvent.claim_token := None;
     OutboxEvent.claim_expires_at := None; OutboxEvent.claimed_by := None |}.

Definition j_opt_uuid (o : option uuid) : json :=
  match o with Some u => JStr (str_uuid u) | None => JNull end.

Section session.
Context `{Env}.

Definition is_tombstoned (account : uuid) (entity_type : string) (entity : uuid) : M bool :=
  row ← select_opt (tombstone_for account entity_type entity);
  mret (match row with Some _ => true | None => false end).

Definition list_tombstones (account : uuid) : M (list DeletionTombstone.t) :=
  select (fun r => same (DeletionTombstone.account_id r) account).

Definition new_tombstone (id account : uuid) (entity_type : string) (entity : uuid)
    (space : option uuid) (restore_key : option string) (at_ : Z) : DeletionTombstone.t :=
  {| DeletionTombstone.id := id; DeletionTombstone.account_id := account;
     DeletionTombstone.entity_type := entity_type; DeletionTombstone.entity_id := entity;
     DeletionTombstone.space_id := space; DeletionTombstone.restore_key := restore_key;
     DeletionTombstone.tombstoned_at := at_ |}.

Definition new_workflow (id account : uuid) (entity_type : string) (entity : uuid)
    (space : option uuid) (tombstone : uuid) (at_ : Z) : DeletionWorkflow.t :=
  {| DeletionWorkflow.id := id; DeletionWorkflow.account_id := account;
     DeletionWorkflow.entity_type := entity_type; DeletionWorkflow.entity_id := entity;
     DeletionWorkflow.space_id := space; DeletionWorkflow.state := "tombstoned";
     DeletionWorkflow.tombstone_id := Some tombstone;
     DeletionWorkflow.created_at := at_; DeletionWorkflow.updated_at := at_ |}.

Definition create_tombstone (ctx : RequestContext) (entity_type : string) (entity : uuid)
    (space : option uuid) (restore_key : option string) : M uuid :=
  tombstone_id ← new_uuid;
  workflow_id ← new_uuid;
  existing ← select_opt (tombstone_for (account_id ctx) entity_type entity);
  match existing with
  | Some row => mret (DeletionTombstone.id row)
  | None =>
      t ← now;
      _ ← add (new_tombstone tombstone_id (account_id ctx) entity_type entity space restore_key t);
      _ ← add (new_workflow workflow_id (account_id ctx) entity_type entity space tombstone_id t);
      let payload :=
        [("workflow_id", JStr (str_uuid workflow_id)); ("tombstone_id", JStr (str_uuid tombstone_id));
         ("entity_type", JStr entity_type); ("entity_id", JStr (str_uuid entity));
         ("state", JStr "tombstoned")] in
      event_id ← new_uuid;
      _ ← add (new_event event_id (account_id ctx) "deletion.tombstoned" payload None t);
      mret tombstone_id
  end.

(** One row of [replay_tombstones_after_restore]; the rows are applied before
    the session flushes, so the lookup sees [base], the rows of before the call. *)
Definition replay_one (base : list DeletionTombstone.t) (account : uuid) (row : DeletionTombstone.t) : M bool :=
  existing ← lift (scalar_one_or_none (keep (tombstone_for account
    (DeletionTombstone.entity_type row) (DeletionTombstone.entity_id row)) base));
  match existing with
  | Some _ => mret false
  | None =>
      tombstone_id ← new_uuid;
      workflow_id ← new_uuid;
      t ← now;
      _ ← add (new_tombstone tombstone_id account (DeletionTombstone.entity_type row)
             (DeletionTombstone.entity_id row) (DeletionTombstone.space_id row)
             (DeletionTombstone.restore_key row) (DeletionTombstone.tombstoned_at row));
      _ ← add (new_workflow workflow_id account (DeletionTombstone.entity_type row)
             (DeletionTombstone.entity_id row) (DeletionTombstone.space_id row) tombstone_id t);
      mret true
  end.

Definition replay_tombstones_after_restore (account : uuid) (tombstones : option (list DeletionTombstone.t))
    : M Z :=
  rows ← match tombstones with Some l => mret l | None => list_tombstones account end;
  base ← select (fun _ => true);
  applied ← mapM (replay_one base account) rows;
  mret (Z.of_nat (length (keep id applied))).

Definition deletion_states : list string :=
  ["accepted"; "tombstoned"; "revoking_grants"; "purging_projections"; "completed"; "failed"; "cancelled"].

Definition advance_deletion_workflow (ctx : RequestContext) (workflow_id : uuid) (state : string)
    : M (option (uuid * string)) :=
  _ ← guard (negb (bool_decide (state ∈ deletion_states))) (ValueError "invalid_deletion_state");
  row ← select_opt (fun r => same (DeletionWorkflow.account_id r) (account_id ctx) &&
                             same (DeletionWorkflow.id r) workflow_id);
  match row with
  | None => mret None
  | Some row =>
      t ← now;
      _ ← update (DeletionWorkflow.id row)
            (fun r => DeletionWorkflow.set_updated_at t (DeletionWorkflow.set_state state r));
      event_id ← new_uuid;
      _ ← add (new_event event_id (account_id ctx) "deletion.workflow_advanced"
             [("workflow_id", JStr (str_uuid (DeletionWorkflow.id row)));
              ("tombstone_id", j_opt_uuid (DeletionWorkflow.tombstone_id row));
              ("entity_type", JStr (DeletionWorkflow.entity_type row));
              ("entity_id", JStr (str_uuid (DeletionWorkflow.entity_id row)));
              ("state", JStr state)] None t);
      mret (Some (workflow_id, state))
  end.
End session.

(** ** Lemmas *)

Lemma tombstone_for_true a ty e r : tombstone_for a ty e r = true <->
  DeletionTombstone.account_id r = a /\ DeletionTombstone.entity_type r = ty /\ DeletionTombstone.entity_id r = e.
Proof. unfold tombstone_for, same. rewrite !andb_true_iff, !bool_decide_eq_true. tauto. Qed.

Lemma tombstone_clash a ty e r r' : tombstone_for a ty e r = true -> tombstone_for a ty e r' = true ->
  clash r r' <> None.
Proof.
  rewrite !tombstone_for_true. intros (Ha & Ht & He) (Ha' & Ht' & He').
  cbn [clash deletion_tombstone_table]. unfold DeletionTombstone.clash, same.
  repeat (case_match; try done). exfalso.
  rewrite !bool_decide_eq_true_2 in H1 by congruence. done.
Qed.

Section proofs.
Context `{Env}.

(** What creating leaves, on its two branches. *)
Lemma create_tombstone_Ok ctx ty e sp rk w tid w' :
  create_tombstone ctx ty e sp rk w = Ok (tid, w') ->
  let a := account_id ctx in
  (exists row, keep (tombstone_for a ty e) (rows (db w)) = [row] /\
     tid = DeletionTombstone.id row /\ db w' = db w) \/
  (keep (tombstone_for a ty e) (rows (db w)) = [] /\
   exists t wf ev, 
     rows (R := DeletionTombstone.t) (db w') = rows (db w) ++ [new_tombstone tid a ty e sp rk t] /\
     rows (R := DeletionWorkflow.t) (db w') = rows (db w) ++ [new_workflow wf a ty e sp tid t] /\
     rows (R := OutboxEvent.t) (db w') = rows (db w) ++ [ev] /\
     OutboxEvent.event_type ev = "deletion.tombstoned" /\ OutboxEvent.published_at ev = None).
Proof.
  unfold create_tombstone. intros Hm.
  stepM Hm. injection H0 as <- <-. stepM Hm. injection H0 as <- <-.
  stepM Hm. apply select_opt_Ok in H0 as [Hk ->]. cbn [db] in *.
  destruct a as [row|].
  - left. cleanM. exists row. by split_and!.
  - right. split; [done|].
    stepM Hm. injection H0 as <- <-.
    stepM Hm. apply add_Ok in H0 as [_ ->].
    stepM Hm. apply add_Ok in H0 as [_ ->].
    stepM Hm. injection H0 as <- <-.
    stepM Hm. apply add_Ok in H0 as [_ ->]. cleanM. cbn [db].
    eexists _, _, _. split_and!; reflexivity.
Qed.

Lemma keep_snoc {A} (p : A -> bool) l x : p x = true -> keep p l = [] -> keep p (l ++ [x]) = [x].
Proof. intros Hp Hl. rewrite keep_app, Hl. unfold keep. simpl. by rewrite Hp. Qed.

Lemma created_row ctx ty e sp rk w tid w' :
  create_tombstone ctx ty e sp rk w = Ok (tid, w') ->
  exists row, keep (tombstone_for (account_id ctx) ty e) (rows (db w')) = [row] /\ DeletionTombstone.id row = tid.
Proof.
  intros [(row & Hk & -> & Hdb)|(Hk & t & wf & ev & Hr & _)]%create_tombstone_Ok.
  - exists row. by rewrite Hdb.
  - exists (new_tombstone tid (account_id ctx) ty e sp rk t). split; [|done]. rewrite Hr.
    apply keep_snoc; [|exact Hk]. by apply tombstone_for_true.
Qed.

Lemma is_tombstoned_row a ty e w row :
  keep (tombstone_for a ty e) (rows (db w)) = [row] -> is_tombstoned a ty e w = Ok (true, w).
Proof.
  intros Hk. unfold is_tombstoned.
  rewrite (M_bind_step _ _ _ (Some row) w); [done|]. by apply select_opt_Ok.
Qed.

(** *** Replay after a restore *)

Definition covered (a : uuid) (l : list DeletionTombstone.t) (r : DeletionTombstone.t) : Prop :=
  exists x, x ∈ l /\ tombstone_for a (DeletionTombstone.entity_type r) (DeletionTombstone.entity_id r) x = true.

Lemma replay_one_Ok base a r w b w' :
  replay_one base a r w = Ok (b, w') ->
  (exists k, rows (R := DeletionTombstone.t) (db w') = rows (db w) ++ k /\ 
     (b = true <-> k <> []) /\ (length k <= 1)%nat /\
     (unique_rows (rows (R := DeletionTombstone.t) (db w)) ->
      unique_rows (rows (R := DeletionTombstone.t) (db w'))) /\
     (b = true -> ~ covered a base r) /\
     (base ⊆ rows (R := DeletionTombstone.t) (db w) -> covered a (rows (db w')) r)).
Proof.
  unfold replay_one. intros Hm. stepM Hm. apply lift_Ok in H0 as [Hs ->]. apply scalar_opt_Ok in Hs.
  set (p := tombstone_for a (DeletionTombstone.entity_type r) (DeletionTombstone.entity_id r)) in *.
  destruct a0 as [x|]; cleanM.
  - exists []. rewrite app_nil_r. split_and!; try done; [simpl; lia|].
    intros Hb. assert (Hx : x ∈ keep p base) by (rewrite Hs; set_solver).
    rewrite elem_of_keep in Hx. exists x. split; [|apply Hx]. set_solver.
  - stepM Hm. injection H0 as <- <-. stepM Hm. injection H0 as <- <-. stepM Hm. injection H0 as <- <-.
    stepM Hm. cbn [db] in *. pose proof (fun Hu => add_unique _ _ _ _ Hu H0) as Hu. cbn [db] in Hu.
    apply add_Ok in H0 as [_ ->].
    stepM Hm. apply add_Ok in H0 as [_ ->]. cleanM. cbn [db] in *.
    set (nt := new_tombstone _ _ _ _ _ _ _) in *.
    exists [nt]. split_and!; try done.
    + intros _ (x & Hx & Hpx). assert (Hin : x ∈ keep p base) by (by apply elem_of_keep).
      rewrite Hs in Hin. set_solver.
    + intros _. exists nt. split; [|by apply tombstone_for_true].
      change (nt ∈ rows (R := DeletionTombstone.t) (db w) ++ [nt]). set_solver.
Qed.

Lemma covered_mono a l k r : l ⊆ k -> covered a l r -> covered a k r.
Proof. intros Hs (x & Hx & Hp). exists x. auto. Qed.

Lemma replay_rows_Ok base a rs w bs w' :
  mapM (replay_one base a) rs w = Ok (bs, w') ->
  base ⊆ rows (R := DeletionTombstone.t) (db w) -> unique_rows (rows (R := DeletionTombstone.t) (db w)) ->
  rows (R := DeletionTombstone.t) (db w) ⊆ rows (db w') /\
  unique_rows (rows (R := DeletionTombstone.t) (db w')) /\
  Forall (covered a (rows (db w'))) rs /\
  length (rows (R := DeletionTombstone.t) (db w')) =
    (length (rows (R := DeletionTombstone.t) (db w)) + length (keep id bs))%nat.
Proof.
  revert w bs. induction rs as [|r rs IH]; intros w bs Hm Hb Hu; cbn [mapM] in Hm.
  { cleanM. split_and!; [done|done|constructor|simpl; lia]. }
  stepM Hm. stepM Hm. cleanM.
  destruct (replay_one_Ok _ _ _ _ _ _ H0) as (k & Hk & Hbk & Hlen & Hun & _ & Hcov).
  assert (Hsub : rows (R := DeletionTombstone.t) (db w) ⊆ rows (db w0)) by (rewrite Hk; set_solver).
  destruct (IH w0 _ H1) as (Hs2 & Hu2 & Hf2 & Hl2); [set_solver|by apply Hun|].
  split_and!; [set_solver|done| |].
  - constructor; [|done]. eapply covered_mono; [exact Hs2|by apply Hcov].
  - rewrite Hl2, Hk, length_app. unfold keep. simpl.
    assert (Hk1 : length k = if a0 then 1%nat else 0%nat).
    { destruct a0; [|].
      - destruct k as [|? [|? ?]]; simpl in *; [by destruct Hbk as [Hbk _]; specialize (Hbk eq_refl)|done|lia].
      - destruct k; [done|]. destruct Hbk as [_ Hbk]. by discriminate Hbk. }
    rewrite Hk1. destruct a0; simpl; lia.
Qed.
End proofs.

(** ** Properties *)

(** Creating a tombstone makes the entity tombstoned in the same
    transaction, before any workflow step runs, together with its workflow and
    an unpublished outbox event; creating it again returns the same tombstone
    and writes nothing. *)
Theorem create_tombstone_idempotent `{Env} ctx ty e sp rk w tid w' :
  create_tombstone ctx ty e sp rk w = Ok (tid, w') ->
  is_tombstoned (account_id ctx) ty e w' = Ok (true, w') /\
  (db w' = db w \/
   exists wf ev, wf ∈ rows (R := DeletionWorkflow.t) (db w') /\ ev ∈ rows (R := OutboxEvent.t) (db w') /\
     DeletionWorkflow.tombstone_id wf = Some tid /\ DeletionWorkflow.state wf = "tombstoned" /\
     OutboxEvent.event_type ev = "deletion.tombstoned" /\ OutboxEvent.published_at ev = None) /\
  (forall w2 sp2 rk2, db w2 = db w' ->
     exists w3, create_tombstone ctx ty e sp2 rk2 w2 = Ok (tid, w3) /\ db w3 = db w2).
Proof.
  intros Hc. destruct (created_row _ _ _ _ _ _ _ _ Hc) as (row & Hk & Hid).
  split; [by eapply is_tombstoned_row|]. split.
  - destruct (create_tombstone_Ok _ _ _ _ _ _ _ _ Hc) as [(? & _ & _ & Hdb)|(_ & t & wf & ev & _ & Hw & He & H1 & H2)];
      [by left|right].
    exists (new_workflow wf (account_id ctx) ty e sp tid t), ev. rewrite Hw, He.
    split_and!; try done; set_solver.
  - intros w2 sp2 rk2 Hdb. unfold create_tombstone. eexists. split.
    + rewrite (M_bind_step new_uuid _ w2 _ _ eq_refl).
      rewrite (M_bind_step new_uuid _ _ _ _ eq_refl).
      rewrite (M_bind_step _ _ _ (Some row) {| db := db w2; tick := S (S (tick w2)) |}).
      * by rewrite Hid.
      * apply select_opt_Ok. cbn [db]. by rewrite Hdb.
    + done.
Qed.

(** Replaying tombstones after a restore restores them all: afterwards
    every entity of the list is tombstoned in the account, no tombstone that
    was there is lost, and the count returned is the number of rows added. *)
Theorem replay_tombstones_complete `{Env} account tombs w n w' :
  unique_rows (rows (R := DeletionTombstone.t) (db w)) ->
  replay_tombstones_after_restore account (Some tombs) w = Ok (n, w') ->
  rows (R := DeletionTombstone.t) (db w) ⊆ rows (db w') /\
  Z.of_nat (length (rows (R := DeletionTombstone.t) (db w'))) =
    Z.of_nat (length (rows (R := DeletionTombstone.t) (db w))) + n /\
  forall r, r ∈ tombs ->
    is_tombstoned account (DeletionTombstone.entity_type r) (DeletionTombstone.entity_id r) w' = Ok (true, w').
Proof.
  intros Hu Hm. unfold replay_tombstones_after_restore in Hm.
  stepM Hm. cleanM. stepM Hm. apply select_Ok in H0 as [-> ->]. stepM Hm. cleanM.
  rewrite (keep_all (fun _ => true)) in H0 by done.
  destruct (replay_rows_Ok _ _ _ _ _ _ H0) as (Hsub & Hu' & Hf & Hl); [set_solver|done|].
  split; [done|]. split; [lia|]. intros r Hr. rewrite Forall_forall in Hf.
  destruct (Hf r Hr) as (x & Hx & Hp).
  destruct (unique_keep (tombstone_for account (DeletionTombstone.entity_type r) (DeletionTombstone.entity_id r))
    _ Hu' (fun a b => tombstone_clash _ _ _ a b)) as [Hk|(y & Hk & _)].
  - exfalso. rewrite keep_nil in Hk. rewrite (Hk x Hx) in Hp. done.
  - by eapply is_tombstoned_row.
Qed.

Definition test_env : Env := {| fresh_uuid := fun n => Z.of_nat n + 100; clock := fun n => Z.of_nat n; signing_key := [] |}.

Definition test_ctx : RequestContext :=
  {| account_id := 1; actor_id := 2; user_id := 3; purpose := RequestPurpose.FIRST_PARTY; correlation_id := 4;
     session_id := None; scopes := []; eligible_space_ids := []; last_auth_at := None |}.

Definition empty_world : World := {| db := empty_db; tick := 0 |}.

Lemma create_tombstone_idempotent_witness :
  exists w', @create_tombstone test_env test_ctx "source" 50 None None empty_world = Ok (100, w') /\
    is_tombstoned 1 "source" 50 w' = Ok (true, w').
Proof.
  eexists. split; [vm_compute; reflexivity|].
  apply (@create_tombstone_idempotent test_env test_ctx "source" 50 None None empty_world 100).
  vm_compute. reflexivity.
Defined.

Definition lost_tombstone : DeletionTombstone.t := new_tombstone 70 1 "source" 50 None None 5.

Lemma replay_tombstones_complete_witness :
  exists w', @replay_tombstones_after_restore test_env 1 (Some [lost_tombstone]) empty_world = Ok (1, w') /\
    is_tombstoned 1 "source" 50 w' = Ok (true, w').
Proof.
  destruct (@replay_tombstones_after_restore test_env 1 (Some [lost_tombstone]) empty_world)
    as [[n w']|] eqn:E; [|exfalso; revert E; vm_compute; discriminate].
  assert (n = 1) as -> by (vm_compute in E; injection E as <- _; reflexivity).
  exists w'. split; [reflexivity|].
  assert (Hu : unique_rows (rows (R := DeletionTombstone.t) (db empty_world))) by constructor.
  exact (proj2 (proj2 (@replay_tombstones_complete test_env 1 [lost_tombstone] empty_world 1 w' Hu E))
    lost_tombstone (list_elem_of_here _ _)).
Defined.
