(* ===== verification/AuthSnapshot.v ===== *)
(** * Authorization snapshots (services/core/src/memdot_core/jobs/auth_snapshot.py)

    A durable job carries a signed, expiring copy of the authority it was
    accepted under; a worker verifies the signature and then checks that the
    authority still holds in the ledger. *)

From Stdlib Require Import Ascii ZArith Lia.
From stdpp Require Import list strings.
From S2P Require Import Prelude PyStr Json Digest Uuid Enums Ledger Store Outbox RequestContext Deletion.
Open Scope Z_scope.

Definition SNAPSHOT_VERSION : Z := 1.
Definition DEFAULT_TTL_SECONDS : Z := 3600.

(** The environment value of CORE_JOB_AUTH_SNAPSHOT_KEY. *)
Definition snapshot_key_of_env (v : string) : res (list Z) :=
  let k := utf8 (strip v) in
  if (length k <? 32)%nat
  then Raise (RuntimeError "CORE_JOB_AUTH_SNAPSHOT_KEY must contain at least 32 bytes (no session-key fallback)")
  else Ok k.

Definition sign (key : list Z) (payload : dict) : string := hmac_hex key (utf8 (dumps (JObj payload))).

(** [sorted(ctx.scopes)]. *)
Definition sorted_scopes (ctx : RequestContext) : list json := map JStr (sort_by str_leb (scopes ctx)).

Definition snapshot_body (ctx : RequestContext) (space : option uuid) (resource_ids : list (string * string))
    (ttl_seconds accepted_at : Z) : dict :=
  [("v", JInt SNAPSHOT_VERSION); ("account_id", JStr (str_uuid (account_id ctx)));
   ("actor_id", JStr (str_uuid (actor_id ctx))); ("purpose", JStr (value (purpose ctx)));
   ("scopes", JList (sorted_scopes ctx)); ("space_id", j_opt_uuid space);
   ("resource_ids", JObj (map (fun kv => (kv.1, JStr kv.2)) resource_ids));
   ("request_id", JStr (str_uuid (correlation_id ctx)));
   ("correlation_id", JStr (str_uuid (correlation_id ctx)));
   ("accepted_at", JInt accepted_at); ("exp", JInt (accepted_at + ttl_seconds))].

Definition auth_snapshot_from_context (key : list Z) (ctx : RequestContext) (space : option uuid)
    (resource_ids : list (string * string)) (ttl_seconds now : Z) : dict :=
  let body := snapshot_body ctx space resource_ids ttl_seconds now in
  body ++ [("sig", JStr (sign key body))].

Definition unsigned_fields (snapshot : dict) : dict := keep (fun kv => negb (String.eqb kv.1 "sig")) snapshot.

Definition is_ascii (s : string) : bool := str_all (fun c => (code c <? 128)%N) s.

(** [hmac.compare_digest] on two strings: both must be ASCII. *)
Definition compare_digest (a b : string) : res bool :=
  if is_ascii a && is_ascii b then Ok (String.eqb a b) else Raise TypeError.

Definition verify_snapshot_signature (key : list Z) (snapshot : dict) (now : Z) : res bool :=
  match py_int (py_str (dict_get "v" snapshot)) with
  | None => Ok false
  | Some version =>
      if negb (version =? SNAPSHOT_VERSION) then Ok false
      else match dict_get "sig" snapshot with
      | JStr signature =>
          if negb (truthy signature) then Ok false
          else
            same_sig ← compare_digest (sign key (unsigned_fields snapshot)) signature;
            if negb same_sig then Ok false
            else match dict_lookup "exp" snapshot with
                 | None => Ok false
                 | Some e => match py_int (py_str e) with
                             | None => Ok false
                             | Some exp => Ok (now <=? exp)
                             end
                 end
      | _ => Ok false
      end
  end.

Section session.
Context `{Env}.

(** The checks against the ledger, in the code's order; [mret false] is its
    [return False]. *)
Definition check_source (account : uuid) (source_raw : json) : M bool :=
  match source_raw with
  | JNull => mret true
  | _ =>
      match parse_uuid (py_str source_raw) with
      | None => mret false
      | Some source_id =>
          dead ← is_tombstoned account "source" source_id;
          if (dead : bool) then mret false
          else
            source ← select_opt (fun s => same (Source.account_id s) account && same (Source.id s) source_id);
            mret (match source with None => false | Some _ => true end)
      end
  end.

Definition source_of (snapshot : dict) : json :=
  match dict_get "resource_ids" snapshot with JObj d => dict_get "source_id" d | _ => JNull end.

Definition check_space (account : uuid) (expected_space : option uuid) (space_raw : json) : M bool :=
  if negb (py_bool space_raw) then mret true
  else
    match parse_uuid (py_str space_raw) with
    | None => mret false
    | Some space_id =>
        if match expected_space with Some x => negb (space_id =? x) | None => false end then mret false
        else
          space ← select_opt (fun s => same (Space.account_id s) account && same (Space.id s) space_id);
          mret (match space with None => false | Some _ => true end)
    end.

Definition validate_auth_snapshot (key : list Z) (account : uuid) (snapshot : option dict)
    (expected_space : option uuid) (current : Z) : M bool :=
  match snapshot with
  | None => mret false
  | Some snapshot =>
      ok ← lift (verify_snapshot_signature key snapshot current);
      if negb ok then mret false
      else if negb (String.eqb (py_str (dict_get "account_id" snapshot)) (str_uuid account)) then mret false
      else
        match dict_lookup "actor_id" snapshot, dict_lookup "purpose" snapshot with
        | Some a, Some p =>
            match parse_uuid (py_str a), of_value (A := RequestPurpose.t) (py_str p) with
            | Some actor_id, Some purpose =>
                if negb (bool_decide (purpose ∈ [RequestPurpose.FIRST_PARTY; RequestPurpose.WORKER]))
                then mret false
                else
                  acct ← select_opt (fun r => same (Account.id r) account);
                  match acct with
                  | None => mret false
                  | Some acct =>
                      if negb (String.eqb (Account.status acct) "active") then mret false
                      else
                        actor ← select_opt (fun r => same (Actor.account_id r) account &&
                                                     same (Actor.id r) actor_id);
                        match actor with
                        | None => mret false
                        | Some actor =>
                            if match Actor.revoked_at actor with Some _ => true | None => false end
                            then mret false
                            else
                              sp ← check_space account expected_space (dict_get "space_id" snapshot);
                              if negb sp then mret false
                              else check_source account (source_of snapshot)
                        end
                  end
            | _, _ => mret false
            end
        | _, _ => mret false
        end
  end.
End session.

(** ** Lemmas *)

Lemma hmac_hex_ascii k m : is_ascii (hmac_hex k m) = true.
Proof.
  unfold hmac_hex. assert (Hb := hmac_byte k m). induction Hb as [|b bs Hb _ IH]; cbn [hex]; [done|].
  assert (Hd : forall n, 0 <= n < 16 -> (code (hex_digit n) <? 128)%N = true).
  { intros n Hn. destruct n as [|p|p]; [reflexivity| |lia].
    do 4 (destruct p as [p|p|]; try reflexivity); lia. }
  unfold is_ascii in *. cbn [str_all]. rewrite IH, !Hd; [done|..].
  - apply Z.mod_pos_bound. lia.
  - split; [apply Z.div_pos; lia|apply Z.div_lt_upper_bound; lia].
Qed.

Lemma hmac_hex_truthy k m : truthy (hmac_hex k m) = true.
Proof. apply truthy_true. intros Hn. pose proof (length_hmac_hex k m) as Hl. by rewrite Hn in Hl. Qed.

Lemma snapshot_unsigned key ctx sp rs ttl t :
  unsigned_fields (auth_snapshot_from_context key ctx sp rs ttl t) = snapshot_body ctx sp rs ttl t.
Proof. unfold auth_snapshot_from_context, unsigned_fields. rewrite keep_app. reflexivity. Qed.

(** A fresh snapshot verifies exactly until it expires. *)
Lemma fresh_snapshot_verifies key ctx sp rs ttl t current :
  verify_snapshot_signature key (auth_snapshot_from_context key ctx sp rs ttl t) current =
  Ok (current <=? t + ttl).
Proof.
  unfold verify_snapshot_signature. rewrite snapshot_unsigned.
  set (body := snapshot_body ctx sp rs ttl t). set (sg := sign key body).
  assert (Hv : dict_get "v" (auth_snapshot_from_context key ctx sp rs ttl t) = JInt 1) by reflexivity.
  assert (Hs : dict_get "sig" (auth_snapshot_from_context key ctx sp rs ttl t) = JStr sg) by reflexivity.
  assert (He : dict_lookup "exp" (auth_snapshot_from_context key ctx sp rs ttl t) = Some (JInt (t + ttl)))
    by reflexivity.
  rewrite Hv, Hs, He. change (py_str (JInt 1)) with (str_of_Z 1). rewrite py_int_str_of_Z.
  change (negb (1 =? SNAPSHOT_VERSION)) with false. cbv iota.
  unfold sg, sign. rewrite hmac_hex_truthy. cbn [negb]. unfold compare_digest.
  rewrite !hmac_hex_ascii. cbn [andb]. rewrite String.eqb_refl. cbn [mbind res_bind negb].
  change (py_str (JInt (t + ttl))) with (str_of_Z (t + ttl)). by rewrite py_int_str_of_Z.
Qed.

Lemma verify_true key s now : verify_snapshot_signature key s now = Ok true ->
  py_int (py_str (dict_get "v" s)) = Some SNAPSHOT_VERSION /\
  dict_get "sig" s = JStr (sign key (unsigned_fields s)) /\
  exists e exp, dict_lookup "exp" s = Some e /\ py_int (py_str e) = Some exp /\ now <= exp.
Proof.
  unfold verify_snapshot_signature. destruct (py_int _) as [v|]; [|done].
  destruct (Z.eqb_spec v SNAPSHOT_VERSION) as [->|]; [|done]. cbn [negb].
  destruct (dict_get "sig" s) as [| | | |sg| |]; try done.
  destruct (truthy sg); [|done]. cbn [negb]. unfold compare_digest.
  destruct (_ && _); [|done]. cbn [mbind res_bind].
  destruct (String.eqb_spec (sign key (unsigned_fields s)) sg) as [->|]; [|done]. cbn [negb].
  destruct (dict_lookup "exp" s) as [e|]; [|done]. destruct (py_int (py_str e)) as [x|] eqn:E; [|done].
  intros [= Hx%Z.leb_le]. eauto 10.
Qed.

Section proofs.
Context `{Env}.

Lemma check_source_true account src w w' : check_source account src w = Ok (true, w') ->
  w' = w /\ (src = JNull \/ exists id, parse_uuid (py_str src) = Some id /\
    keep (tombstone_for account "source" id) (rows (db w)) = [] /\
    exists s, s ∈ rows (db w) /\ Source.account_id s = account /\ Source.id s = id).
Proof.
  intros Hm. assert (Hc : src = JNull \/ match parse_uuid (py_str src) with
    | None => (mret false : M bool)
    | Some id => dead ← is_tombstoned account "source" id;
        if (dead : bool) then mret false
        else source ← select_opt (fun s => same (Source.account_id s) account && same (Source.id s) id);
             mret (match source with None => false | Some _ => true end) end w = Ok (true, w')).
  { destruct src; [by left|by right..]. }
  destruct Hc as [->|Hc].
  { cbn in Hm. cleanM. auto. }
  clear Hm. destruct (parse_uuid (py_str src)) as [id|]; [|by cleanM].
  stepM Hc. unfold is_tombstoned in H0. stepM H0. apply select_opt_Ok in H1 as [Hk ->].
  destruct a0 as [row|]; cleanM; [by cleanM|]. stepM Hc. destruct a as [s|]; [|by cleanM].
  apply select_opt_in in H0 as (-> & Hs & Hp). cleanM. split; [done|]. right. exists id.
  split_and!; try done. exists s. unfold same in Hp. split_bool. done.
Qed.

Lemma check_space_true account exp sp w w' : check_space account exp sp w = Ok (true, w') ->
  w' = w /\ (py_bool sp = false \/ exists id, parse_uuid (py_str sp) = Some id /\
    (forall x, exp = Some x -> id = x) /\
    exists s, s ∈ rows (db w) /\ Space.account_id s = account /\ Space.id s = id).
Proof.
  unfold check_space. destruct (py_bool sp); cbn [negb]; intros Hm; [|cleanM; auto].
  destruct (parse_uuid (py_str sp)) as [id|]; [|by cleanM].
  destruct (match exp with Some x => negb (id =? x) | None => false end) eqn:Ex; [by cleanM|].
  stepM Hm. destruct a as [s|]; [|by cleanM]. apply select_opt_in in H0 as (-> & Hs & Hp). cleanM.
  split; [done|]. right. exists id. split_and!; try done.
  - intros x ->. apply negb_false_iff, Z.eqb_eq in Ex. done.
  - exists s. unfold same in Hp. split_bool. done.
Qed.
End proofs.

(** ** Properties *)

(** A snapshot made from a request context is accepted until it expires
    and not after; an accepted snapshot carries the HMAC of its own fields, so
    two accepted snapshots with one signature have the same fields, unless two
    texts with one HMAC were found. *)
Theorem auth_snapshot_authentic key :
  (forall ctx sp rs ttl t current,
     verify_snapshot_signature key (auth_snapshot_from_context key ctx sp rs ttl t) current =
     Ok (current <=? t + ttl)) /\
  (forall s s' now now',
     wf (JObj (unsigned_fields s)) -> wf (JObj (unsigned_fields s')) ->
     (let text x := utf8 (dumps (JObj (unsigned_fields x))) in
      hmac_sha256 key (text s) = hmac_sha256 key (text s') -> text s = text s') ->
     verify_snapshot_signature key s now = Ok true -> verify_snapshot_signature key s' now' = Ok true ->
     dict_get "sig" s = dict_get "sig" s' ->
     canon (JObj (unsigned_fields s)) = canon (JObj (unsigned_fields s'))).
Proof.
  split; [intros; apply fresh_snapshot_verifies|].
  intros s s' now now' Hw Hw' Hcol (_ & Hs & _)%verify_true (_ & Hs' & _)%verify_true Heq.
  rewrite Hs, Hs' in Heq. injection Heq as Heq. unfold sign, hmac_hex in Heq.
  apply hex_inj in Heq; [|apply hmac_byte..]. apply Hcol, utf8_inj in Heq.
  by apply dumps_inj.
Qed.

(** C5: a worker acts on a snapshot only while the authority behind it
    stands: validation that answers True changes nothing and has checked a
    valid unexpired signature, the job's own account, an active account, an
    actor that exists and is not revoked, a first-party or worker purpose, a
    space of the account that is the job's, and a source of the account that
    exists and is not tombstoned. *)
Theorem validate_auth_snapshot_sound key account snapshot expected current w w' :
  validate_auth_snapshot key account snapshot expected current w = Ok (true, w') ->
  w' = w /\ exists s, snapshot = Some s /\
    verify_snapshot_signature key s current = Ok true /\
    py_str (dict_get "account_id" s) = str_uuid account /\
    (exists a, a ∈ rows (db w) /\ Account.id a = account /\ Account.status a = "active") /\
    (exists p, of_value (py_str (dict_get "purpose" s)) = Some p /\
       (p = RequestPurpose.FIRST_PARTY \/ p = RequestPurpose.WORKER)) /\
    (exists id a, parse_uuid (py_str (dict_get "actor_id" s)) = Some id /\ a ∈ rows (db w) /\
       Actor.account_id a = account /\ Actor.id a = id /\ Actor.revoked_at a = None) /\
    (py_bool (dict_get "space_id" s) = false \/
     exists id sp, parse_uuid (py_str (dict_get "space_id" s)) = Some id /\
       (forall x, expected = Some x -> id = x) /\
       sp ∈ rows (db w) /\ Space.account_id sp = account /\ Space.id sp = id) /\
    (source_of s = JNull \/
     exists id src, parse_uuid (py_str (source_of s)) = Some id /\
       keep (tombstone_for account "source" id) (rows (db w)) = [] /\
       src ∈ rows (db w) /\ Source.account_id src = account /\ Source.id src = id).
Proof.
  unfold validate_auth_snapshot. destruct snapshot as [s|]; [|intros Hm; by cleanM].
  intros Hm. stepM Hm. cleanM. destruct a; cbn [negb] in Hm; [|by cleanM].
  destruct (String.eqb_spec (py_str (dict_get "account_id" s)) (str_uuid account)) as [Hacc|]; [|by cbn in Hm; cleanM].
  cbn [negb] in Hm.
  unfold dict_get in *. destruct (dict_lookup "actor_id" s) as [ja|] eqn:Eja; [|by cleanM].
  destruct (dict_lookup "purpose" s) as [jp|] eqn:Ejp; [|by cleanM].
  cbn [default from_option id] in *.
  destruct (parse_uuid (py_str ja)) as [actor|] eqn:Ea; [|by cleanM].
  destruct (of_value (py_str jp)) as [p|] eqn:Ep; [|by cleanM].
  destruct (bool_decide (p ∈ _)) eqn:Epur; cbn [negb] in Hm; [|by cleanM].
  stepM Hm. destruct a as [acct|]; [|by cleanM]. apply select_opt_in in H0 as (-> & Hin & Hp1).
  destruct (String.eqb_spec (Account.status acct) "active") as [Hst|]; cbn [negb] in Hm; [|by cleanM].
  stepM Hm. destruct a as [act|]; [|by cleanM]. apply select_opt_in in H0 as (-> & Hin2 & Hp2).
  destruct (Actor.revoked_at act) eqn:Er; [by cleanM|].
  stepM Hm. destruct a; cbn [negb] in Hm; [|by cleanM].
  apply check_space_true in H0 as [-> Hsp]. apply check_source_true in Hm as [-> Hsrc].
  unfold same in *. split_bool. split; [done|]. exists s. split_and!; try done.
  - exists acct. done.
  - exists p. rewrite Ejp. split; [exact Ep|].
    apply list_elem_of_In in Epur. simpl in Epur. naive_solver.
  - exists actor, act. by rewrite Eja.
  - destruct Hsp as [Hsp|(id & ? & ? & sp & ? & ? & ?)]; [by left|right]. by exists id, sp.
  - destruct Hsrc as [Hsrc|(id & ? & ? & src & ? & ? & ?)]; [by left|right]. by exists id, src.
Qed.

Definition sample_key : list Z := utf8 "a snapshot key of 32 bytes or so.".

Definition sample_snapshot : dict := auth_snapshot_from_context sample_key test_ctx None [] 3600 10.

Definition sample_account : Account.t :=
  {| Account.id := 1; Account.account_id := 1; Account.status := "active"; Account.display_name := None;
     Account.timezone := None; Account.created_at := 0; Account.updated_at := 0 |}.

Definition sample_actor : Actor.t :=
  {| Actor.id := 2; Actor.account_id := 1; Actor.kind := "user"; Actor.reference_id := Some 3;
     Actor.revoked_at := None; Actor.created_at := 0 |}.

Definition account_world : World :=
  {| db := set_rows [sample_account] (set_rows [sample_actor] empty_db); tick := 0 |}.

Lemma sample_snapshot_wf : wf (JObj (unsigned_fields sample_snapshot)).
Proof.
  apply wf_obj. split.
  - apply (bool_decide_unpack _). vm_compute. reflexivity.
  - repeat constructor.
Qed.

Lemma auth_snapshot_authentic_witness :
  verify_snapshot_signature sample_key sample_snapshot 20 = Ok true /\
  canon (JObj (unsigned_fields sample_snapshot)) = canon (JObj (unsigned_fields sample_snapshot)).
Proof.
  split; [exact (proj1 (auth_snapshot_authentic sample_key) test_ctx None [] 3600 10 20)|].
  apply (proj2 (auth_snapshot_authentic sample_key) sample_snapshot sample_snapshot 20 30).
  - exact sample_snapshot_wf.
  - exact sample_snapshot_wf.
  - intros text _. reflexivity.
  - vm_compute. reflexivity.
  - vm_compute. reflexivity.
  - reflexivity.
Defined.

Lemma validate_auth_snapshot_sound_witness :
  validate_auth_snapshot sample_key 1 (Some sample_snapshot) None 20 account_world =
    Ok (true, account_world) /\
  py_str (dict_get "account_id" sample_snapshot) = str_uuid 1.
Proof.
  destruct (validate_auth_snapshot sample_key 1 (Some sample_snapshot) None 20 account_world)
    as [[b w']|] eqn:E; [|exfalso; revert E; vm_compute; discriminate].
  assert (Hb : b = true) by (vm_compute in E; injection E as <- _; reflexivity). subst b.
  destruct (validate_auth_snapshot_sound sample_key 1 (Some sample_snapshot) None 20 account_world w' E)
    as (-> & s & Hs & _ & Ha & _).
  injection Hs as <-. split; [reflexivity|exact Ha].
Defined.
