(* ===== verification/ServiceAuth.v ===== *)
(** * Service authentication (services/core/src/memdot_core/auth/service_auth.py)

    The signed envelope the MCP edge sends to Core, and its single-use nonce:
    the SQL function [memdot_consume_service_auth_nonce] on the rows of
    [service_auth_nonce].  A request is its header lookup. *)

From Stdlib Require Import Ascii ZArith Lia.
From stdpp Require Import list strings.
From S2P Require Import Prelude PyStr Digest Uuid Json Enums Float64 PyFloat JsonParse Base64 Ledger Store RequestContext Deletion AuthSnapshot.
Open Scope Z_scope.

Definition SERVICE_AUTH_VERSION : Z := 1.
Definition MAX_SKEW_SECONDS : Z := 300.
Definition MIN_SECRET_BYTES : Z := 32.
Definition HEADER_VERSION : string := "X-Memdot-Service-Auth".
Definition HEADER_TS : string := "X-Memdot-Service-Ts".
Definition HEADER_NONCE : string := "X-Memdot-Service-Nonce".
Definition HEADER_BODY : string := "X-Memdot-Service-Body".
Definition HEADER_SIG : string := "X-Memdot-Service-Sig".

(** [request.headers.get]. *)
Definition Headers : Type := string -> option string.

Record ServiceAuthGrant := {
  sg_account_id : uuid;
  sg_actor_id : uuid;
  sg_purpose : RequestPurpose.t;
  sg_scopes : list string;
  sg_client_id : string;
  sg_subject : string;
  sg_exp : Z;
}.

(** [a or b or ""]. *)
Definition or_text (a b : option string) : string :=
  match a with
  | Some s => if truthy s then s else default "" b
  | None => default "" b
  end.

Definition resolve_mcp_service_secret (core_secret edge_secret : option string) : string :=
  strip (or_text core_secret edge_secret).

Definition _require_secret (secret : string) : res string :=
  _ ← raise_if (Z.of_nat (length (utf8 secret)) <? MIN_SECRET_BYTES)
        (ValueError "MCP service secret must contain at least 32 bytes");
  mret secret.

Definition _b64encode (raw : list Z) : string := unpad (b64encode raw).
Definition _b64decode (v : string) : res (list Z) := of_option (ValueError "binascii.Error") (b64decode (repad v)).

Definition _sign (secret ts nonce body_b64 : string) : string :=
  hmac_hex (utf8 secret) (utf8 (ts +:+ "." +:+ nonce +:+ "." +:+ body_b64)).

(** The payload of an envelope. *)
Definition envelope (account_id actor_id : uuid) (purpose : RequestPurpose.t) (scopes : list string)
    (client_id subject : string) (exp : Z) (authorization : option string) : dict :=
  [("v", JInt SERVICE_AUTH_VERSION); ("account_id", JStr (str_uuid account_id)); ("actor_id", JStr (str_uuid actor_id));
   ("purpose", JStr (value purpose)); ("scopes", JList (map JStr (sort_by str_leb scopes)));
   ("client_id", JStr client_id); ("sub", JStr subject); ("exp", JInt exp)] ++
  match authorization with
  | Some a => if truthy a then [("authorization_sha256", JStr (sha256_str a))] else []
  | None => []
  end.

(** [nonce] is the text [secrets.token_hex(16)] drew and [current] the time. *)
Definition build_service_auth_headers (secret : string) (account_id actor_id : uuid) (purpose : RequestPurpose.t)
    (scopes : list string) (client_id subject : string) (exp : option Z) (authorization : option string)
    (current : Z) (nonce : string) : res (list (string * string)) :=
  resolved ← _require_secret secret;
  let ts := str_of_Z current in
  let payload := envelope account_id actor_id purpose scopes client_id subject (default (current + 300) exp) authorization in
  let body_b64 := _b64encode (utf8 (dumps (JObj payload))) in
  mret [(HEADER_VERSION, "v" +:+ str_of_Z SERVICE_AUTH_VERSION); (HEADER_TS, ts); (HEADER_NONCE, nonce);
        (HEADER_BODY, body_b64); (HEADER_SIG, _sign resolved ts nonce body_b64)].

(** [int(v)] on a JSON value. *)
Definition json_int (v : json) : res Z :=
  match v with
  | JInt z => Ok z
  | JBool b => Ok (if b then 1 else 0)
  | JStr s => of_option (ValueError "int") (py_int s)
  | JFloat t =>
      if String.eqb t "nan" then Raise (ValueError "int")
      else match py_float t with Some x => Ok (Z.quot x one) | None => Raise OverflowError end
  | _ => Raise TypeError
  end.

(** [d[k]]. *)
Definition get_item (k : string) (d : dict) : res json := of_option KeyError (dict_lookup k d).

(** The fields of a verified payload. *)
Definition read_fields (payload : dict) : res (uuid * uuid * RequestPurpose.t * Z * string) :=
  account ← get_item "account_id" payload;
  account_id ← of_option (ValueError "UUID") (parse_uuid (py_str account));
  actor ← get_item "actor_id" payload;
  actor_id ← of_option (ValueError "UUID") (parse_uuid (py_str actor));
  p ← get_item "purpose" payload;
  purpose ← of_option (ValueError "RequestPurpose") (of_value (A := RequestPurpose.t) (py_str p));
  e ← get_item "exp" payload;
  exp ← json_int e;
  let client := dict_get "client_id" payload in
  mret (account_id, actor_id, purpose, exp, if py_bool client then py_str client else "").

(** [except (KeyError, ValueError, TypeError): return None]. *)
Definition caught {A} (r : res A) : res (option A) :=
  match r with
  | Ok a => Ok (Some a)
  | Raise (ValueError _) | Raise KeyError | Raise TypeError => Ok None
  | Raise e => Raise e
  end.

Definition EXTERNAL_PURPOSES : list RequestPurpose.t :=
  [RequestPurpose.EXTERNAL_READ; RequestPurpose.EXTERNAL_PROPOSE; RequestPurpose.EXTERNAL_INTERACTION].

(** Whether the request carries the authorization the payload binds. *)
Definition authorization_matches (payload : dict) (authorization : option string) : res bool :=
  match dict_get "authorization_sha256" payload with
  | JStr expected_hash =>
      if truthy expected_hash then
        match authorization with
        | Some a => if truthy a then compare_digest (sha256_str a) expected_hash else Ok false
        | None => Ok false
        end
      else Ok true
  | _ => Ok true
  end.

Section session.
Context `{Env}.

(** [INSERT], answered [false] on a unique violation. *)
Definition insert_nonce (r : ServiceAuthNonce.t) : M bool := fun w =>
  match add r w with
  | Ok (_, w') => Ok (true, w')
  | Raise (IntegrityError _) => Ok (false, w)
  | Raise e => Raise e
  end.

(** memdot_consume_service_auth_nonce: expired nonces are dropped, then the
    digest is inserted; a unique violation is answered [false]. *)
Definition memdot_consume_service_auth_nonce (digest : string) (expires_at : Z) : M bool :=
  t ← now;
  _ ← delete_rows (fun r => ServiceAuthNonce.expires_at r <? t);
  insert_nonce {| ServiceAuthNonce.nonce_digest := digest; ServiceAuthNonce.expires_at := expires_at;
                  ServiceAuthNonce.created_at := t |}.

Definition consume_service_auth_nonce (nonce : string) (current : Z) : M bool :=
  memdot_consume_service_auth_nonce (sha256_str nonce) ((current + MAX_SKEW_SECONDS) * 1000000).

(** The checks of a request at the time [current], before its nonce is consumed. *)
Definition check_envelope (headers : Headers) (secret : string) (current : Z) : res (option (string * ServiceAuthGrant)) :=
  match _require_secret (strip secret) with
  | Raise _ => Ok None
  | Ok resolved_secret =>
    let header h := strip (default "" (headers h)) in
    let '(version, ts_raw, nonce, body_b64, signature) :=
      (header HEADER_VERSION, header HEADER_TS, header HEADER_NONCE, header HEADER_BODY, header HEADER_SIG) in
    if negb (forallb truthy [version; ts_raw; nonce; body_b64; signature]) then Ok None
    else if negb (existsb (String.eqb version) ["v" +:+ str_of_Z SERVICE_AUTH_VERSION; str_of_Z SERVICE_AUTH_VERSION]) then Ok None
    else match py_int ts_raw with
    | None => Ok None
    | Some ts =>
      if MAX_SKEW_SECONDS <? Z.abs (current - ts) then Ok None
      else
        same_sig ← compare_digest (_sign resolved_secret ts_raw nonce body_b64) signature;
        if negb same_sig then Ok None
        else
          decoded ← caught (raw ← _b64decode body_b64;
                            t ← of_option (ValueError "UnicodeDecodeError") (utf8_decode raw); loads t);
          match decoded with
          | Some (JObj payload) =>
            bound ← authorization_matches payload (headers "Authorization");
            if negb bound then Ok None
            else
              fields ← caught (read_fields payload);
              match fields with
              | None => Ok None
              | Some (account_id, actor_id, purpose, exp, client_id) =>
                if negb (bool_decide (purpose ∈ EXTERNAL_PURPOSES)) then Ok None
                else if exp <? current then Ok None
                else match dict_get_or "scopes" (JList []) payload with
                | JList scopes =>
                    if negb (truthy client_id) then Ok None
                    else
                      let subject := dict_get "sub" payload in
                      Ok (Some (nonce,
                        {| sg_account_id := account_id; sg_actor_id := actor_id; sg_purpose := purpose;
                           sg_scopes := map py_str scopes; sg_client_id := client_id;
                           sg_subject := if py_bool subject then py_str subject else ""; sg_exp := exp |}))
                | _ => Ok None
                end
              end
          | _ => Ok None
          end
    end
  end.

(** [secret] is the argument, or what [resolve_mcp_service_secret] found. *)
Definition parse_service_auth (headers : Headers) (secret : string) : M (option ServiceAuthGrant) :=
  current ← unix_time;
  checked ← lift (check_envelope headers secret current);
  match checked with
  | None => mret None
  | Some (nonce, grant) =>
      consumed ← consume_service_auth_nonce nonce current;
      mret (if consumed : bool then Some grant else None)
  end.
End session.

(** ** Texts of an envelope survive the header *)

Definition plain (s : string) : Prop := str_all (fun c => negb (is_space c)) s = true /\ s <> "".

Lemma plain_header s : plain s -> strip (default "" (Some s)) = s /\ truthy s = true.
Proof. intros [Hs Hn]. split; [by apply strip_id|by apply truthy_true]. Qed.

Lemma hmac_hex_chars k m : str_all is_hex (hmac_hex k m) = true.
Proof. apply hex_is_hex, hmac_byte. Qed.

Lemma hmac_hex_plain k m : plain (hmac_hex k m).
Proof.
  split; [|by apply truthy_true, hmac_hex_truthy].
  eapply str_all_impl; [|apply hmac_hex_chars]. intros c. by destruct c as [[] [] [] [] [] [] [] []].
Qed.

Lemma int_plain z : plain (str_of_Z z).
Proof. destruct (str_of_Z_chars z) as [Hc Hn]. split; [by apply int_no_space|done]. Qed.

Lemma str_all_unpad p s : str_all p s = true -> str_all p (unpad s) = true.
Proof.
  unfold unpad. induction s as [|c s IH]; [done|]. cbn [str_all rstrip_by]. intros [Hc Hs]%andb_prop.
  specialize (IH Hs). destruct (rstrip_by _ s); [|cbn [str_all] in *; by rewrite Hc].
  destruct (Ascii.eqb _ _); [done|]. cbn. by rewrite Hc.
Qed.

Lemma b64_plain l : Forall is_byte l -> l <> [] -> plain (_b64encode l).
Proof.
  intros Hl Hn. split.
  - apply str_all_unpad, str_all_encode; [done| |done]. intros n Hb. pose proof (sextet n Hb) as Hg.
    unfold sextet_good in Hg. rewrite !andb_true_iff in Hg. tauto.
  - unfold _b64encode. intros He. assert (Hb : b64decode (repad (unpad (b64encode l))) = Some l) by by apply b64decode_unpadded.
    rewrite He in Hb. injection Hb as <-. done.
Qed.

Lemma utf8_not_nil s : s <> "" -> utf8 s <> [].
Proof. destruct s as [|c s]; [done|]. intros _. cbn [utf8]. unfold utf8_char. by case_match. Qed.

(** ** What is built is accepted *)

(** The request carries what was built, and the authorization it was built for. *)
Definition carries (headers : Headers) (built : list (string * string)) (authorization : option string) : Prop :=
  Forall (fun kv => headers kv.1 = Some kv.2) built /\ headers "Authorization" = authorization.

Lemma sort_map_str l : map py_str (map JStr l) = l.
Proof. induction l as [|x l IH]; [done|]. cbn. by f_equal. Qed.

Lemma canon_scopes l : canon (JList (map JStr l)) = JList (map JStr l).
Proof. cbn. f_equal. induction l as [|x l IH]; [done|]. cbn. by f_equal. Qed.

Section envelope.
Context (account actor : uuid) (p : RequestPurpose.t) (scopes : list string) (client subject : string) (exp : Z)
  (authorization : option string).

Let payload : dict := envelope account actor p scopes client subject exp authorization.
Let decoded : dict := sort_by key_leb (map (fun kv => (kv.1, canon kv.2)) payload).

Lemma envelope_keys : NoDup (map fst payload).
Proof.
  unfold payload, envelope. destruct authorization as [a|]; [destruct (truthy a)|];
    (apply (bool_decide_unpack _); vm_compute; exact I).
Qed.

Lemma envelope_wf : wf (JObj payload) /\ floats_read (JObj payload).
Proof.
  assert (Hs : forall l, wf (JList (map JStr l)) /\ floats_read (JList (map JStr l))).
  { intros l. split.
    - apply wf_list. apply Forall_forall. by intros v (s & -> & _)%list_elem_of_fmap.
    - cbn. induction l; cbn; done. }
  split.
  - apply wf_obj. split; [apply envelope_keys|]. unfold payload, envelope.
    apply Forall_app. split; [repeat constructor; try done; apply Hs|].
    destruct authorization as [a|]; [destruct (truthy a)|]; repeat constructor.
  - unfold payload, envelope. cbn. split_and!; try done; [apply Hs|].
    destruct authorization as [a|]; [destruct (truthy a)|]; done.
Qed.

Lemma decoded_get k : dict_lookup k decoded = option_map canon (dict_lookup k payload).
Proof. apply dict_lookup_canon, envelope_keys. Qed.

Lemma body_reads : (raw ← _b64decode (_b64encode (utf8 (dumps (JObj payload))));
  t ← of_option (ValueError "UnicodeDecodeError") (utf8_decode raw); loads t) = Ok (JObj decoded).
Proof.
  unfold _b64decode, _b64encode. rewrite b64decode_unpadded by apply utf8_bytes. cbn [of_option mbind res_bind].
  rewrite utf8_decode_utf8. cbn [of_option mbind res_bind]. destruct envelope_wf. by apply loads_dumps.
Qed.

Lemma envelope_get k v : dict_lookup k (envelope account actor p scopes client subject exp None) = Some v ->
  dict_lookup k payload = Some v.
Proof. intros Hk. unfold payload, envelope in *. rewrite app_nil_r in Hk. by apply dict_lookup_app_Some. Qed.

Lemma item_read k v : dict_lookup k (envelope account actor p scopes client subject exp None) = Some v ->
  get_item k decoded = Ok (canon v).
Proof. intros Hk. unfold get_item. by rewrite decoded_get, (envelope_get _ _ Hk). Qed.

Lemma fields_read : is_uuid account -> is_uuid actor -> truthy client = true ->
  read_fields decoded = Ok (account, actor, p, exp, client).
Proof.
  intros Ha Hc Ht. unfold read_fields.
  apply bind_Ok. eexists. split; [by apply (item_read "account_id" (JStr (str_uuid account)))|].
  apply bind_Ok. exists account. split; [unfold canon, py_str; by rewrite parse_str_uuid|].
  apply bind_Ok. eexists. split; [by apply (item_read "actor_id" (JStr (str_uuid actor)))|].
  apply bind_Ok. exists actor. split; [unfold canon, py_str; by rewrite parse_str_uuid|].
  apply bind_Ok. eexists. split; [by apply (item_read "purpose" (JStr (value p)))|].
  apply bind_Ok. exists p. split; [apply of_option_Ok; by apply of_value_Some|].
  apply bind_Ok. eexists. split; [by apply (item_read "exp" (JInt exp))|].
  apply bind_Ok. exists exp. split; [done|].
  unfold dict_get. rewrite decoded_get, (envelope_get "client_id" (JStr client) eq_refl). cbn. by rewrite Ht.
Qed.
End envelope.

Section accepted.
Context (secret : string) (account actor : uuid) (p : RequestPurpose.t) (scopes : list string) (client subject : string)
  (exp : option Z) (authorization : option string) (current : Z) (nonce : string).

Let payload : dict := envelope account actor p scopes client subject (default (current + 300) exp) authorization.

Definition granted : ServiceAuthGrant :=
  {| sg_account_id := account; sg_actor_id := actor; sg_purpose := p; sg_scopes := sort_by str_leb scopes;
     sg_client_id := client; sg_subject := subject; sg_exp := default (current + 300) exp |}.

Lemma authorization_bound d : d = sort_by key_leb (map (fun kv => (kv.1, canon kv.2)) payload) ->
  authorization_matches d authorization = Ok true.
Proof.
  intros ->. unfold authorization_matches, dict_get. unfold payload at 1. rewrite decoded_get. unfold envelope.
  destruct authorization as [a|]; [|done]. destruct (truthy a) eqn:Ha; [|done].
  set (l := _ ++ _). replace (dict_lookup "authorization_sha256" l) with (Some (JStr (sha256_str a))) by done.
  cbn [option_map canon default id]. unfold sha256_str, sha256_hex.
  assert (Hh : is_ascii (hex (sha256 (utf8 a))) = true).
  { eapply str_all_impl; [|apply hex_is_hex, sha256_byte]. intros c. by destruct c as [[] [] [] [] [] [] [] []]. }
  destruct (truthy (hex (sha256 (utf8 a)))); [|done]. unfold compare_digest. rewrite Hh. cbn [andb]. by rewrite String.eqb_refl.
Qed.

Lemma envelope_checked headers built later :
  build_service_auth_headers secret account actor p scopes client subject exp authorization current nonce = Ok built ->
  carries headers built authorization -> strip secret = secret -> plain nonce -> is_uuid account -> is_uuid actor ->
  p ∈ EXTERNAL_PURPOSES -> truthy client = true -> Z.abs (later - current) <= MAX_SKEW_SECONDS ->
  later <= default (current + 300) exp ->
  check_envelope headers secret later = Ok (Some (nonce, granted)).
Proof.
  intros Hb [Hc Hauth] Hstrip Hnonce Ha Hact Hp Hcl Hskew Hexp. unfold build_service_auth_headers in Hb.
  destruct (_require_secret secret) as [s|] eqn:Es; [|done]. cbn [mbind res_bind] in Hb.
  assert (Hi : forall a b : list (string * string), Ok a = Ok b -> a = b) by congruence. apply Hi in Hb. subst built. clear Hi.
  pose proof Es as Es_. apply bind_Ok in Es_ as (? & _ & [= <-]).
  rewrite !Forall_cons in Hc. cbn [fst snd] in Hc. destruct Hc as (Hv & Ht & Hn & Hbody & Hs & _).
  unfold check_envelope. rewrite Hstrip, Es, Hv, Ht, Hn, Hbody, Hs, Hauth. fold payload.
  destruct (plain_header _ (int_plain current)) as [Et1 Et2]. destruct (plain_header _ Hnonce) as [En1 En2].
  destruct (plain_header (_b64encode (utf8 (dumps (JObj payload))))) as [Eb1 Eb2].
  { apply b64_plain; [apply utf8_bytes|]. apply utf8_not_nil. unfold dumps. cbn. done. }
  pose proof (body_reads account actor p scopes client subject (default (current + 300) exp) authorization) as Hread.
  fold payload in Hread. set (body := _b64encode (utf8 (dumps (JObj payload)))) in *. clearbody body.
  destruct (plain_header _ (hmac_hex_plain (utf8 secret)
    (utf8 (str_of_Z current +:+ "." +:+ nonce +:+ "." +:+ body)))) as [Es1 Es2]. fold (_sign secret (str_of_Z current) nonce body) in *.
  rewrite Et1, En1, Eb1, Es1. cbn [forallb]. rewrite Et2, En2, Eb2, Es2. change (strip (default "" (Some ("v" +:+ str_of_Z 1)))) with "v1".
  cbn [forallb andb negb truthy]. replace (existsb _ _) with true by done. cbn [negb]. rewrite py_int_str_of_Z.
  rewrite (proj2 (Z.ltb_ge _ _) Hskew). unfold compare_digest. unfold _sign at 1 2. rewrite hmac_hex_ascii. cbn [andb mbind res_bind].
  rewrite String.eqb_refl. cbn [negb]. rewrite Hread. cbn [caught mbind res_bind].
  rewrite (authorization_bound _ eq_refl). cbn [mbind res_bind negb]. unfold payload. rewrite fields_read by done.
  cbn [caught mbind res_bind]. rewrite bool_decide_eq_true_2 by done. cbn [negb].
  destruct (Z.ltb_spec (default (current + 300) exp) later) as [Hlt|_]; [lia|].
  unfold dict_get_or, dict_get. rewrite !decoded_get.
  rewrite (envelope_get _ _ _ _ _ _ _ _ "scopes" _ eq_refl), (envelope_get _ _ _ _ _ _ _ _ "sub" _ eq_refl).
  cbn [option_map default id snd]. rewrite canon_scopes, Hcl. cbn [negb canon py_bool py_str].
  unfold granted. rewrite sort_map_str. by destruct subject.
Qed.
End accepted.

(** ** Nonces *)

Section nonces.
Context `{Env}.

(** A nonce is consumed exactly when no unexpired row holds its digest. *)
Lemma consume_spec nonce current w :
  let t := clock (tick w) in let digest := sha256_str nonce in
  let kept := keep (fun r => negb (ServiceAuthNonce.expires_at r <? t)) (rows (db w)) in
  let row := {| ServiceAuthNonce.nonce_digest := digest; ServiceAuthNonce.created_at := t;
                ServiceAuthNonce.expires_at := (current + MAX_SKEW_SECONDS) * 1000000 |} in
  exists b w', consume_service_auth_nonce nonce current w = Ok (b, w') /\
    (b = true /\ (forall r, r ∈ kept -> ServiceAuthNonce.nonce_digest r <> digest) /\ rows (db w') = kept ++ [row] \/
     b = false /\ exists r, r ∈ kept /\ ServiceAuthNonce.nonce_digest r = digest).
Proof.
  intros t digest kept row. unfold consume_service_auth_nonce, memdot_consume_service_auth_nonce.
  set (w1 := {| db := db w; tick := S (tick w) |}).
  set (w2 := {| db := set_rows kept (db w1); tick := tick w1 |}).
  rewrite (M_bind_step now _ w t w1) by done.
  rewrite (M_bind_step _ _ w1 tt w2) by done. unfold insert_nonce. fold digest. fold row.
  destruct (add row w2) as [[[] w']|e] eqn:E.
  - exists true, w'. split; [done|]. left. split; [done|]. apply add_Ok in E as [Hn ->]. rows_simpl. split; [|done].
    intros r Hr Hd. specialize (Hn r Hr). cbn in Hn. unfold ServiceAuthNonce.clash, same in Hn. cbn in Hn.
    by rewrite bool_decide_eq_true_2 in Hn.
  - unfold add in E. destruct (first _ _) as [r|] eqn:F; [|done]. injection E as <-. exists false, w2. split; [done|].
    right. split; [done|]. apply first_Some in F as [Hr Hc]. exists r. split; [exact Hr|].
    cbn in Hc. unfold ServiceAuthNonce.clash, same in Hc. cbn in Hc. by case_bool_decide.
Qed.

(** The facts a request is checked for. *)
Record checked (headers : Headers) (secret nonce : string) (current : Z) (g : ServiceAuthGrant) : Prop := {
  ck_nonce : strip (default "" (headers HEADER_NONCE)) = nonce;
  ck_time : exists ts, py_int (strip (default "" (headers HEADER_TS))) = Some ts /\ Z.abs (current - ts) <= MAX_SKEW_SECONDS;
  ck_signature : strip (default "" (headers HEADER_SIG)) =
    _sign (strip secret) (strip (default "" (headers HEADER_TS))) nonce (strip (default "" (headers HEADER_BODY)));
  ck_secret : MIN_SECRET_BYTES <= Z.of_nat (length (utf8 (strip secret)));
  ck_purpose : sg_purpose g ∈ EXTERNAL_PURPOSES;
  ck_expiry : current <= sg_exp g;
}.

Lemma check_envelope_Ok headers secret current nonce g :
  check_envelope headers secret current = Ok (Some (nonce, g)) -> checked headers secret nonce current g.
Proof.
  unfold check_envelope. destruct (_require_secret _) as [s|e] eqn:Es; [|done].
  unfold _require_secret in Es. apply bind_Ok in Es as ([] & Hs%raise_if_Ok & [= <-]). apply Z.ltb_ge in Hs.
  destruct (negb _); [done|]. destruct (negb _); [done|]. destruct (py_int _) as [ts|] eqn:Et; [|done].
  destruct (Z.ltb_spec MAX_SKEW_SECONDS (Z.abs (current - ts))) as [|Hts]; [done|].
  intros (sg & Hsg & Hm)%bind_Ok. destruct sg; cbn [negb] in Hm; [|done].
  apply bind_Ok in Hm as (decoded & _ & Hm). destruct decoded as [[| | | | | |payload]|]; try done.
  apply bind_Ok in Hm as (bound & _ & Hm). destruct bound; cbn [negb] in Hm; [|done].
  apply bind_Ok in Hm as (fields & _ & Hm). destruct fields as [[[[[account actor] p] exp] client]|]; [|done].
  destruct (bool_decide (p ∈ EXTERNAL_PURPOSES)) eqn:Hp; cbn [negb] in Hm; [|done]. apply bool_decide_eq_true in Hp.
  destruct (Z.ltb_spec exp current) as [|He]; [done|]. destruct (dict_get_or _ _ _); try done.
  destruct (negb _); [done|]. injection Hm as <- <-. split; cbn; try done; [by exists ts| |done..].
  unfold compare_digest in Hsg. destruct (_ && _); [|done]. injection Hsg as Hsg. symmetry. by apply String.eqb_eq.
Qed.

Lemma parse_Ok headers secret w o w' : parse_service_auth headers secret w = Ok (o, w') ->
  match o with
  | None => True
  | Some g => exists nonce, checked headers secret nonce (clock (tick w) / 1000000) g /\
      consume_service_auth_nonce nonce (clock (tick w) / 1000000) {| db := db w; tick := S (tick w) |} = Ok (true, w')
  end.
Proof.
  intros Hm. unfold parse_service_auth in Hm. draw Hm. step Hm as Hc. apply lift_Ok in Hc as [Hc ->].
  match type of Hc with _ = Ok ?x => destruct x as [[nonce g]|] end; [|by cleanM].
  step Hm as Hn. cleanM. match type of Hn with _ = Ok (?b, _) => destruct b end; [|done].
  exists nonce. split; [by apply check_envelope_Ok|done].
Qed.

(** C21: an accepted request was signed with the secret within the skew and
    before its expiry, for an external purpose, and its nonce is spent: a
    replay is refused as long as the nonce has not expired, that is for 300
    seconds after the acceptance; a later replay is accepted at most 300
    seconds after the timestamp of the request, so only if that timestamp lay
    in the future. *)
Theorem service_auth_single_use headers secret w g w1 :
  parse_service_auth headers secret w = Ok (Some g, w1) ->
  let t := clock (tick w) / 1000000 in
  exists nonce ts, checked headers secret nonce t g /\ py_int (strip (default "" (headers HEADER_TS))) = Some ts /\
  forall w2 g2 w3,
    (forall r, r ∈ rows (R := ServiceAuthNonce.t) (db w1) -> clock (S (tick w2)) <= ServiceAuthNonce.expires_at r ->
       r ∈ rows (db w2)) ->
    parse_service_auth headers secret w2 = Ok (Some g2, w3) ->
    (t + MAX_SKEW_SECONDS) * 1000000 < clock (S (tick w2)) /\ clock (tick w2) / 1000000 <= ts + MAX_SKEW_SECONDS.
Proof.
  intros Hp t. apply parse_Ok in Hp as (nonce & Hck & Hn). destruct (ck_time _ _ _ _ _ Hck) as (ts & Hts & _).
  exists nonce, ts. split_and!; [done|done|]. intros w2 g2 w3 Hkept Hp2.
  apply parse_Ok in Hp2 as (nonce2 & Hck2 & Hn2).
  assert (nonce2 = nonce) as -> by (rewrite <- (ck_nonce _ _ _ _ _ Hck2); apply (ck_nonce _ _ _ _ _ Hck)).
  destruct (ck_time _ _ _ _ _ Hck2) as (ts2 & Hts2 & Habs). rewrite Hts in Hts2. injection Hts2 as <-. split; [|lia].
  destruct (consume_spec nonce t {| db := db w; tick := S (tick w) |}) as (b & w' & Hb & Hcase).
  fold t in Hn. rewrite Hn in Hb. injection Hb as <- <-. destruct Hcase as [(_ & _ & Hrows)|(Hf & _)]; [|done].
  destruct (consume_spec nonce (clock (tick w2) / 1000000) {| db := db w2; tick := S (tick w2) |}) as (b & w' & Hb & Hcase).
  rewrite Hn2 in Hb. injection Hb as <- <-. destruct Hcase as [(_ & Hfresh & _)|(Hf & _)]; [|done].
  destruct (Z.lt_ge_cases ((t + MAX_SKEW_SECONDS) * 1000000) (clock (S (tick w2)))) as [|Hle]; [done|]. exfalso.
  match type of Hrows with _ = _ ++ [?r] => apply (Hfresh r); [|done] end.
  apply elem_of_keep. cbn [db tick ServiceAuthNonce.expires_at]. split.
  - apply Hkept; [|exact Hle]. rewrite Hrows. apply elem_of_app. right. by left.
  - apply negb_true_iff, Z.ltb_ge. exact Hle.
Qed.
End nonces.

(** The headers built for a grant are accepted: a request that carries
    them within the skew and before the expiry, with a nonce not seen before,
    parses to the account, actor, purpose, scopes, client and subject they were
    built for. *)
Theorem service_auth_roundtrip `{Env} secret account actor p scopes client subject exp authorization current nonce built headers w :
  build_service_auth_headers secret account actor p scopes client subject exp authorization current nonce = Ok built ->
  carries headers built authorization -> strip secret = secret -> plain nonce -> is_uuid account -> is_uuid actor ->
  p ∈ EXTERNAL_PURPOSES -> truthy client = true ->
  Z.abs (clock (tick w) / 1000000 - current) <= MAX_SKEW_SECONDS ->
  clock (tick w) / 1000000 <= default (current + 300) exp ->
  (forall r, r ∈ rows (db w) -> ServiceAuthNonce.nonce_digest r <> sha256_str nonce) ->
  exists w', parse_service_auth headers secret w =
    Ok (Some (granted account actor p scopes client subject exp current), w').
Proof.
  intros Hb Hc Hs Hn Ha Hact Hp Hcl Hskew Hexp Hfresh. unfold parse_service_auth.
  set (t := clock (tick w) / 1000000) in *. set (w1 := {| db := db w; tick := S (tick w) |}).
  rewrite (M_bind_step unix_time _ w t w1) by done.
  rewrite (M_bind_step _ _ w1 (Some (nonce, granted account actor p scopes client subject exp current)) w1).
  2: { apply lift_Ok. split; [|done]. by eapply envelope_checked. }
  destruct (consume_spec nonce t w1) as (b & w' & Hcons & Hcase). rewrite (M_bind_step _ _ _ _ _ Hcons).
  exists w'. destruct Hcase as [(-> & _)|(-> & r & Hr & Hd)]; [done|]. exfalso.
  apply elem_of_keep in Hr as [Hr _]. by apply (Hfresh r Hr).
Qed.

(** ** Witnesses *)

Definition sample_secret : string := "0123456789abcdef0123456789abcdef".

Definition sample_headers (ts : Z) : list (string * string) :=
  match build_service_auth_headers sample_secret 1 2 RequestPurpose.EXTERNAL_READ ["memdot.memory.read"] "claude" "sub" None
          (Some "Bearer x") ts "00ff" with
  | Ok l => l
  | Raise _ => []
  end.

Definition request_of (built : list (string * string)) (authorization : string) : Headers := fun h =>
  if String.eqb h "Authorization" then Some authorization else dict_lookup h built.

(** A hundred seconds pass between two readings of the clock. *)
Definition slow_env : Env := {| fresh_uuid := Z.of_nat; clock := fun n => Z.of_nat n * 100000000; signing_key := [] |}.

Notation parse_sample ts w :=
  (@parse_service_auth slow_env (request_of (sample_headers ts) "Bearer x") sample_secret w).

Lemma service_auth_roundtrip_witness : exists w', parse_sample 100 empty_world =
  Ok (Some (granted 1 2 RequestPurpose.EXTERNAL_READ ["memdot.memory.read"] "claude" "sub" None 100), w').
Proof.
  apply (@service_auth_roundtrip slow_env sample_secret 1 2 RequestPurpose.EXTERNAL_READ ["memdot.memory.read"] "claude" "sub"
    None (Some "Bearer x") 100 "00ff" (sample_headers 100)).
  - vm_compute. reflexivity.
  - split; [|reflexivity]. vm_compute. repeat constructor.
  - vm_compute. reflexivity.
  - split; [reflexivity|discriminate].
  - vm_compute. split; [discriminate|reflexivity].
  - vm_compute. split; [discriminate|reflexivity].
  - left.
  - reflexivity.
  - vm_compute. discriminate.
  - vm_compute. discriminate.
  - intros r Hr. inversion Hr.
Defined.

Definition after (n : nat) (r : res (option ServiceAuthGrant * World)) : World :=
  match r with Ok (_, w) => {| db := db w; tick := n |} | Raise _ => empty_world end.

(** A replay is refused at once; of a request dated 300 seconds ahead it is
    accepted 400 seconds later. *)
Lemma service_auth_single_use_witness :
  is_ok (parse_sample 100 empty_world) = true /\
  (forall g w3, parse_sample 100 (after 1 (parse_sample 100 empty_world)) <> Ok (Some g, w3)) /\
  match parse_sample 300 (after 4 (parse_sample 300 empty_world)) with Ok (Some _, _) => true | _ => false end = true.
Proof.
  split; [vm_compute; reflexivity|]. split.
  - intros g w3 Hp. destruct (parse_sample 100 empty_world) as [[[g1|] w1]|e] eqn:E; [|vm_compute in E; discriminate E..].
    destruct (@service_auth_single_use slow_env (request_of (sample_headers 100) "Bearer x") sample_secret empty_world g1 w1 E)
      as (nonce & ts & _ & _ & Hr).
    destruct (Hr (after 1 (Ok (Some g1, w1))) g w3 (fun r Hin _ => Hin) Hp) as [Ht _].
    vm_compute in Ht. discriminate Ht.
  - vm_compute. reflexivity.
Defined.
