(* ===== verification/TenantContext.v ===== *)
(** * The protected tenant context (services/core/src/memdot_core/db/tenant.py and
    its SQL functions in alembic/versions/20260716_0001_phase3_canonical.sql)

    [memdot_begin_tenant_context] checks the actor behind a signed context and
    seals the transaction's settings; [memdot_rls_ok], the policy of every
    tenant table, verifies the seal again for each row.  The settings ([app.*])
    are a record; the database's key is an argument, as is whether the role is
    [memdot_core]. *)

From Stdlib Require Import ZArith Lia.
From stdpp Require Import list strings.
From S2P Require Import Prelude PyStr Digest Uuid Json Enums Ledger Store RequestContext Deletion AuthSnapshot.
Open Scope Z_scope.

Record Settings := {
  app_account_id : string;
  app_actor_id : string;
  app_purpose : string;
  app_context_seal : string;
  app_context_issued_at : string;
  app_context_nonce : string;
}.

(** memdot_clear_tenant_context *)
Definition memdot_clear_tenant_context : Settings :=
  {| app_account_id := ""; app_actor_id := ""; app_purpose := ""; app_context_seal := "";
     app_context_issued_at := ""; app_context_nonce := "" |}.

(** [extract(epoch FROM clock_timestamp())::bigint]: the nearest second. *)
Definition epoch (t : Z) : Z := (t + 500000) / 1000000.

(** The text of a sealed context. *)
Definition seal_text (account actor purpose issued_at nonce : string) : string :=
  account +:+ ":" +:+ actor +:+ ":" +:+ purpose +:+ ":" +:+ issued_at +:+ ":" +:+ nonce.

Definition seal_of (key : list Z) (account actor purpose issued_at nonce : string) : string :=
  hmac_hex key (utf8 (seal_text account actor purpose issued_at nonce)).

(** The latest row by [created_at], the first of equals. *)
Definition latest_grant (l : list ExternalClientGrant.t) : option ExternalClientGrant.t :=
  hd_error (sort_by (fun a b => ExternalClientGrant.created_at b <=? ExternalClientGrant.created_at a) l).

Definition the_actor (account actor : uuid) (r : Actor.t) : bool :=
  same (Actor.id r) actor && same (Actor.account_id r) account.

Section context.
Context `{Env}.

Definition check_member (ctx : TenantContext) (a : Actor.t) : M unit :=
  _ ← guard (negb (String.eqb (Actor.kind a) "user")) (DatabaseError "purpose_actor_mismatch");
  members ← select (fun m => same (AccountMember.account_id m) (tc_account_id ctx) &&
                             opt_same (Some (AccountMember.user_id m)) (Actor.reference_id a));
  guard (match members with [] => true | _ => false end) (DatabaseError "membership_missing").

Definition check_grant (ctx : TenantContext) (a : Actor.t) : M unit :=
  _ ← guard (negb (String.eqb (Actor.kind a) "external_client")) (DatabaseError "purpose_actor_mismatch");
  grants ← select (fun g => same (ExternalClientGrant.account_id g) (tc_account_id ctx) &&
                            same (ExternalClientGrant.actor_id g) (tc_actor_id ctx));
  match latest_grant grants with
  | None => raiseM (DatabaseError "grant_missing")
  | Some g => guard (match ExternalClientGrant.revoked_at g with Some _ => true | None => false end)
                    (DatabaseError "grant_revoked")
  end.

(** What the purpose asks of the actor. *)
Definition authorize_actor (ctx : TenantContext) (a : Actor.t) : M unit :=
  match tc_purpose ctx with
  | RequestPurpose.FIRST_PARTY => check_member ctx a
  | RequestPurpose.EXTERNAL_READ | RequestPurpose.EXTERNAL_PROPOSE | RequestPurpose.EXTERNAL_INTERACTION => check_grant ctx a
  | RequestPurpose.WORKER =>
      guard (negb (String.eqb (Actor.kind a) "system")) (DatabaseError "worker_requires_system_actor")
  | _ => mret tt
  end.

(** memdot_begin_tenant_context *)
Definition memdot_begin_tenant_context (key : list Z) (runtime : bool) (ctx : TenantContext) (seal : TenantSeal)
    : M Settings :=
  let purpose := value (tc_purpose ctx) in
  _ ← guard (bool_decide (tc_purpose ctx ∈ [RequestPurpose.MIGRATION; RequestPurpose.ADMIN]) && runtime)
            (DatabaseError "purpose_not_allowed_for_runtime");
  t ← now;
  _ ← guard (60 <? Z.abs (epoch t - seal_issued_at seal)) (DatabaseError "tenant_context_expired");
  _ ← guard (negb (truthy (seal_nonce seal)) || (128 <? Z.of_nat (String.length (seal_nonce seal))))
            (DatabaseError "tenant_context_nonce_invalid");
  let expected := seal_of key (str_uuid (tc_account_id ctx)) (str_uuid (tc_actor_id ctx)) purpose
                    (str_of_Z (seal_issued_at seal)) (seal_nonce seal) in
  _ ← guard (negb (String.eqb (seal_signature seal) expected)) (DatabaseError "tenant_context_signature_invalid");
  actors ← select (the_actor (tc_account_id ctx) (tc_actor_id ctx));
  match actors with
  | [] => raiseM (DatabaseError "invalid_actor")
  | a :: _ =>
      _ ← guard (match Actor.revoked_at a with Some _ => true | None => false end) (DatabaseError "actor_revoked");
      _ ← authorize_actor ctx a;
      mret {| app_account_id := str_uuid (tc_account_id ctx); app_actor_id := str_uuid (tc_actor_id ctx);
              app_purpose := purpose; app_context_seal := seal_signature seal;
              app_context_issued_at := str_of_Z (seal_issued_at seal); app_context_nonce := seal_nonce seal |}
  end.

(** [apply_tenant_context]: signs the context and begins it. *)
Definition begin_tenant (key : list Z) (runtime : bool) (nonce : string) (ctx : TenantContext) : M Settings :=
  issued_at ← unix_time;
  seal ← lift (apply_tenant_context key ctx issued_at nonce);
  memdot_begin_tenant_context key runtime ctx seal.
End context.

(** memdot_rls_ok at the time [t]; an issue time or actor that is not the text
    of one raises a cast error. *)
Definition memdot_rls_ok (key : list Z) (runtime : bool) (s : Settings) (t : Z) (d : Db) (row_account : uuid) : res bool :=
  if negb (forallb truthy [app_account_id s; app_context_seal s; app_actor_id s; app_context_issued_at s; app_context_nonce s])
  then Ok false
  else
    issued_at ← of_option (DatabaseError "bigint") (py_int (app_context_issued_at s));
    if 60 <? Z.abs (epoch t - issued_at) then Ok false
    else if negb (String.eqb (str_uuid row_account) (app_account_id s)) then Ok false
    else if negb (String.eqb (app_context_seal s)
                    (seal_of key (app_account_id s) (app_actor_id s) (app_purpose s) (app_context_issued_at s) (app_context_nonce s)))
    then Ok false
    else
      actor ← of_option (DatabaseError "uuid") (parse_uuid (app_actor_id s));
      match keep (the_actor row_account actor) (rows d) with
      | [] => Ok false
      | a :: _ =>
          if match Actor.revoked_at a with Some _ => true | None => false end then Ok false
          else Ok (negb (existsb (String.eqb (app_purpose s)) ["migration"; "admin"] && runtime))
      end.

(** memdot_external_space_ok *)
Definition memdot_external_space_ok (d : Db) (account space : uuid) : bool :=
  existsb (fun s => same (Space.account_id s) account && same (Space.id s) space &&
                    existsb (String.eqb (Space.visibility s)) ["general"; "learning"]) (rows d).

(** ** Properties *)

(** The actor of the context is not revoked. *)
Definition live_actor (d : Db) (account actor : uuid) : Prop :=
  exists a, a ∈ rows d /\ Actor.account_id a = account /\ Actor.id a = actor /\ Actor.revoked_at a = None.

Definition is_member (d : Db) (ctx : TenantContext) (a : Actor.t) : Prop :=
  Actor.kind a = "user" /\ exists m, m ∈ rows d /\
    AccountMember.account_id m = tc_account_id ctx /\ Actor.reference_id a = Some (AccountMember.user_id m).

Definition has_grant (d : Db) (ctx : TenantContext) (a : Actor.t) : Prop :=
  Actor.kind a = "external_client" /\ exists g, g ∈ rows d /\ ExternalClientGrant.account_id g = tc_account_id ctx /\
    ExternalClientGrant.actor_id g = tc_actor_id ctx /\ ExternalClientGrant.revoked_at g = None.

(** What an actor needs for a purpose. *)
Definition entitled (d : Db) (ctx : TenantContext) (a : Actor.t) : Prop :=
  match tc_purpose ctx with
  | RequestPurpose.FIRST_PARTY => is_member d ctx a
  | RequestPurpose.EXTERNAL_READ | RequestPurpose.EXTERNAL_PROPOSE | RequestPurpose.EXTERNAL_INTERACTION => has_grant d ctx a
  | RequestPurpose.WORKER => Actor.kind a = "system"
  | _ => True
  end.

Section proofs.
Context `{Env}.

Lemma latest_grant_in l g : latest_grant l = Some g -> g ∈ l.
Proof.
  unfold latest_grant. set (s := sort_by _ l). intros Hg. assert (Hs : g ∈ s) by (destruct s; [done|injection Hg as ->; by left]).
  unfold s in Hs. by rewrite sort_by_perm in Hs.
Qed.

Lemma check_member_Ok ctx a w u w' : check_member ctx a w = Ok (u, w') -> w' = w /\ is_member (db w) ctx a.
Proof.
  unfold check_member. intros Hm. step Hm as Hk. cleanM. step Hm as Hs. apply select_Ok in Hs as [-> ->]. cleanM.
  split_bool. apply String.eqb_eq in H0. split; [done|]. split; [done|]. destruct (keep _ _) as [|m l] eqn:E; [done|].
  assert (Hin : m ∈ m :: l) by left. rewrite <- E in Hin. apply elem_of_keep in Hin as [Hin Hp].
  exists m. split; [done|]. unfold same, opt_same in Hp. split_bool.
  destruct (Actor.reference_id a) as [r|]; [|done]. split_bool. by subst r.
Qed.

Lemma check_grant_Ok ctx a w u w' : check_grant ctx a w = Ok (u, w') -> w' = w /\ has_grant (db w) ctx a.
Proof.
  unfold check_grant. intros Hm. step Hm as Hk. cleanM. step Hm as Hs. apply select_Ok in Hs as [-> ->].
  split_bool. apply String.eqb_eq in H0. destruct (latest_grant _) as [g|] eqn:E; [|done]. cleanM. split; [done|]. split; [done|].
  apply latest_grant_in, elem_of_keep in E as [Hin Hp]. exists g. unfold same in Hp. split_bool.
  destruct (ExternalClientGrant.revoked_at g); done.
Qed.

Lemma authorize_Ok ctx a w u w' : authorize_actor ctx a w = Ok (u, w') -> w' = w /\ entitled (db w) ctx a.
Proof.
  unfold authorize_actor, entitled. destruct (tc_purpose ctx); intros Hm.
  - by eapply check_member_Ok.
  - by eapply check_grant_Ok.
  - by eapply check_grant_Ok.
  - by eapply check_grant_Ok.
  - cleanM. split; [done|]. by apply negb_false_iff, String.eqb_eq in H0.
  - by cleanM.
  - by cleanM.
Qed.

(** The settings of a context begun at [issued_at]. *)
Definition sealed (key : list Z) (ctx : TenantContext) (issued_at : Z) (nonce : string) : Settings :=
  {| app_account_id := str_uuid (tc_account_id ctx); app_actor_id := str_uuid (tc_actor_id ctx);
     app_purpose := value (tc_purpose ctx); app_context_seal := sign_tenant_context key ctx issued_at nonce;
     app_context_issued_at := str_of_Z issued_at; app_context_nonce := nonce |}.

Lemma begin_Ok key runtime nonce ctx w s w' : begin_tenant key runtime nonce ctx w = Ok (s, w') ->
  db w' = db w /\ s = sealed key ctx (clock (tick w) / 1000000) nonce /\ truthy nonce = true /\
  tc_purpose ctx ∈ RUNTIME_PURPOSES /\
  exists a, a ∈ rows (db w) /\ Actor.account_id a = tc_account_id ctx /\ Actor.id a = tc_actor_id ctx /\
    Actor.revoked_at a = None /\ entitled (db w) ctx a.
Proof.
  unfold begin_tenant. intros Hm. draw Hm. step Hm as Hs. apply lift_Ok in Hs as [Hs ->].
  unfold apply_tenant_context in Hs. apply bind_Ok in Hs as ([] & Hp%raise_if_Ok & [= <-]). split_bool.
  unfold memdot_begin_tenant_context in Hm. cbn [seal_issued_at seal_nonce seal_signature] in Hm.
  step Hm as Hg. apply guard_Ok in Hg as [_ ->]. draw Hm. step Hm as Hg. apply guard_Ok in Hg as [_ ->].
  step Hm as Hn. apply guard_Ok in Hn as [Hn ->]. split_bool. step Hm as Hg. apply guard_Ok in Hg as [_ ->].
  step Hm as Ha. apply select_Ok in Ha as [-> ->]. destruct (keep _ _) as [|act l] eqn:E; [done|].
  step Hm as Hr. apply guard_Ok in Hr as [Hr ->]. step Hm as He. apply authorize_Ok in He as [-> He]. cleanM.
  split_and!; [done|done|done|done|]. assert (Hin : act ∈ act :: l) by left. rewrite <- E in Hin.
  apply elem_of_keep in Hin as [Hin Hw]. unfold the_actor, same in Hw. split_bool. exists act.
  split_and!; try done. by destruct (Actor.revoked_at act).
Qed.

Lemma begin_keeps R `{Table R} key runtime nonce ctx : keeps R (begin_tenant key runtime nonce ctx).
Proof. intros w s w' Hm. apply begin_Ok in Hm as [-> _]. done. Qed.

Lemma truthy_uuid u : truthy (str_uuid u) = true.
Proof. apply truthy_true. intros He. pose proof (length_str_uuid u) as Hl. by rewrite He in Hl. Qed.

(** The policy of a sealed context, row by row. *)
Lemma sealed_rls key ctx issued_at nonce t d row :
  is_uuid (tc_account_id ctx) -> is_uuid (tc_actor_id ctx) -> is_uuid row -> truthy nonce = true ->
  tc_purpose ctx ∈ RUNTIME_PURPOSES -> unique_rows (R := Actor.t) (rows d) ->
  exists b, memdot_rls_ok key true (sealed key ctx issued_at nonce) t d row = Ok b /\
    (b = true <-> row = tc_account_id ctx /\ Z.abs (epoch t - issued_at) <= 60 /\ live_actor d row (tc_actor_id ctx)).
Proof.
  intros Ha Hac Hrow Hn Hp Hu. unfold memdot_rls_ok, sealed.
  cbn [app_account_id app_actor_id app_purpose app_context_seal app_context_issued_at app_context_nonce forallb].
  change (sign_tenant_context key ctx issued_at nonce) with (seal_of key (str_uuid (tc_account_id ctx))
    (str_uuid (tc_actor_id ctx)) (value (tc_purpose ctx)) (str_of_Z issued_at) nonce).
  set (seal := seal_of _ _ _ _ _ _). assert (truthy seal = true) as -> by apply hmac_hex_truthy.
  rewrite !truthy_uuid, Hn. assert (truthy (str_of_Z issued_at) = true) as -> by (apply truthy_true, str_of_Z_chars).
  cbn [andb negb]. rewrite py_int_str_of_Z. cbn [of_option mbind res_bind].
  destruct (Z.ltb_spec 60 (Z.abs (epoch t - issued_at))) as [Hlt|Hle]; [exists false; split; [done|]; split; [done|]; intros (_ & ? & _); lia|].
  destruct (String.eqb_spec (str_uuid row) (str_uuid (tc_account_id ctx))) as [Heq|Hne]; cbn [negb].
  2: { exists false. split; [done|]. split; [done|]. intros (-> & _). done. }
  apply str_uuid_inj in Heq as ->; [|done..]. rewrite String.eqb_refl. cbn [negb].
  rewrite (bind_step _ _ (tc_actor_id ctx)) by (by rewrite parse_str_uuid).
  assert (Hpu : existsb (String.eqb (value (tc_purpose ctx))) ["migration"; "admin"] = false).
  { assert (Hp' : bool_decide (tc_purpose ctx ∈ RUNTIME_PURPOSES) = true) by by apply bool_decide_eq_true.
    clear -Hp'. by destruct (tc_purpose ctx). }
  destruct (unique_keep (the_actor (tc_account_id ctx) (tc_actor_id ctx)) (rows d) Hu) as [Hk|(a & Hk & Hin)].
  - intros a b Hta Htb. unfold the_actor, same in Hta, Htb. split_bool. cbn. unfold Actor.clash, same.
    by rewrite bool_decide_eq_true_2 by congruence.
  - rewrite Hk. exists false. split; [done|]. split; [done|]. intros (_ & _ & a & Hin & Haa & Hai & _).
    apply keep_nil with (x := a) in Hk; [|done]. unfold the_actor, same in Hk.
    by rewrite !bool_decide_eq_true_2 in Hk.
  - pose proof Hk as Hone. rewrite Hk, Hpu. cbn [andb negb]. apply keep_one in Hk as [_ Hw]. unfold the_actor, same in Hw. split_bool.
    destruct (Actor.revoked_at a) eqn:Er.
    + exists false. split; [done|]. split; [done|]. intros (_ & _ & a' & Hin' & Ha' & Hi' & Hr').
      assert (Hk' : a' ∈ keep (the_actor (tc_account_id ctx) (tc_actor_id ctx)) (rows d)).
      { apply elem_of_keep. split; [done|]. unfold the_actor, same. by rewrite !bool_decide_eq_true_2. }
      rewrite Hone in Hk'. apply list_elem_of_singleton in Hk' as ->. congruence.
    + exists true. split; [done|]. split; [|done]. intros _. split_and!; [done|done|]. by exists a.
Qed.

(** C22: a tenant context begins only for an actor of the account that is not
    revoked and has what its purpose asks (a membership, a standing grant, the
    system kind); from then on the row policy shows exactly the rows of its
    account, for at most sixty seconds and only while the actor stands.  A
    cleared context shows nothing. *)
Theorem tenant_context_isolates key nonce ctx w s w' :
  is_uuid (tc_account_id ctx) -> is_uuid (tc_actor_id ctx) ->
  begin_tenant key true nonce ctx w = Ok (s, w') ->
  (exists a, a ∈ rows (db w) /\ Actor.account_id a = tc_account_id ctx /\ Actor.id a = tc_actor_id ctx /\
     Actor.revoked_at a = None /\ entitled (db w) ctx a) /\
  (forall t d row, is_uuid row -> unique_rows (R := Actor.t) (rows d) ->
     exists b, memdot_rls_ok key true s t d row = Ok b /\
       (b = true <-> row = tc_account_id ctx /\ Z.abs (epoch t - clock (tick w) / 1000000) <= 60 /\
                     live_actor d row (tc_actor_id ctx))) /\
  forall t d row, memdot_rls_ok key true memdot_clear_tenant_context t d row = Ok false.
Proof.
  intros Ha Hc Hm. apply begin_Ok in Hm as (_ & -> & Hn & Hp & Hact). split; [exact Hact|]. split; [|done].
  intros t d row Hrow Hu. by apply sealed_rls.
Qed.
End proofs.
#[export] Hint Extern 1 (keeps _ (begin_tenant _ _ _ _)) => apply begin_keeps : frame.

(** ** Witness *)

Definition sample_member : AccountMember.t :=
  {| AccountMember.id := 9; AccountMember.account_id := 1; AccountMember.user_id := 3; AccountMember.role := "owner";
     AccountMember.created_at := 0 |}.

Definition user_actor (revoked : option Z) : Actor.t :=
  {| Actor.id := 2; Actor.account_id := 1; Actor.kind := "user"; Actor.reference_id := Some 3; Actor.revoked_at := revoked;
     Actor.created_at := 0 |}.

Definition actor_world (revoked : option Z) : World :=
  {| db := set_rows [sample_member] (set_rows [user_actor revoked] empty_db); tick := 0 |}.

Notation begin_sample w := (@begin_tenant test_env sample_key true "00ff" (tenant test_ctx) w).

Lemma actor_world_unique revoked : unique_rows (R := Actor.t) (rows (db (actor_world revoked))).
Proof. change (unique_rows [user_actor revoked]). repeat constructor. Qed.

Lemma tenant_context_isolates_witness : exists s w', begin_sample (actor_world None) = Ok (s, w') /\
  memdot_rls_ok sample_key true s 5 (db (actor_world None)) 1 = Ok true /\
  memdot_rls_ok sample_key true s 5 (db (actor_world None)) 7 = Ok false /\
  memdot_rls_ok sample_key true s 5 (db (actor_world (Some 4))) 1 = Ok false.
Proof.
  destruct (begin_sample (actor_world None)) as [[s w']|e] eqn:E; [|vm_compute in E; discriminate E].
  exists s, w'. split; [reflexivity|].
  assert (Hu1 : is_uuid 1) by (vm_compute; split; [discriminate|reflexivity]).
  assert (Hu2 : is_uuid 2) by (vm_compute; split; [discriminate|reflexivity]).
  assert (Hu7 : is_uuid 7) by (vm_compute; split; [discriminate|reflexivity]).
  destruct (@tenant_context_isolates test_env sample_key "00ff" (tenant test_ctx) (actor_world None) s w' Hu1 Hu2 E)
    as (_ & Hr & _). split; [|split].
  - destruct (Hr 5 _ 1 Hu1 (actor_world_unique None)) as (b & Hb & Hiff). rewrite Hb.
    rewrite (proj2 Hiff); [reflexivity|]. split; [reflexivity|]. split; [vm_compute; discriminate|].
    exists (user_actor None). split; [left|]. split; [reflexivity|]. split; reflexivity.
  - destruct (Hr 5 _ 7 Hu7 (actor_world_unique None)) as (b & Hb & Hiff). rewrite Hb.
    destruct b; [|reflexivity]. destruct (proj1 Hiff eq_refl) as [Hx _]. discriminate Hx.
  - destruct (Hr 5 _ 1 Hu1 (actor_world_unique (Some 4))) as (b & Hb & Hiff). rewrite Hb.
    destruct b; [|reflexivity]. destruct (proj1 Hiff eq_refl) as (_ & _ & a & Hin & _ & _ & Hn).
    apply list_elem_of_singleton in Hin as ->. discriminate Hn.
Defined.
