(* ===== verification/RowPolicies.v ===== *)
(** * Row-level security (services/core/alembic/versions/)

    Every tenant table has policies: which rows a statement sees and which rows
    it may write, by the settings of the sealed tenant context.  A service runs
    on the visible rows ([under_policy]); what it wrote is checked and put back
    beside the rows it did not see.  The policies are taken at the beginning of
    a run, which ends well within the minute a seal lasts; no run modelled under
    a policy deletes rows. *)

From Stdlib Require Import ZArith Lia.
From stdpp Require Import list strings.
From S2P Require Import Prelude PyStr Digest Uuid Json Enums Ledger Store RequestContext Deletion AuthSnapshot ServiceAuth TenantContext.
Open Scope Z_scope.

(** What the policies read: [memdot_rls_ok] by account, the setting
    [app.purpose], [memdot_external_space_ok] by account and space. *)
Record Access := {
  ac_rls : uuid -> bool;
  ac_purpose : string;
  ac_space : uuid -> uuid -> bool;
}.

Definition purpose_in (a : Access) (l : list string) : bool := existsb (String.eqb (ac_purpose a)) l.

(** The policies named tenant_first_party, three ways. *)
Definition insiders (a : Access) (account : uuid) : bool :=
  ac_rls a account && purpose_in a ["first_party"; "worker"; "migration"; "admin"].
Definition members (a : Access) (account : uuid) : bool :=
  ac_rls a account && purpose_in a ["first_party"; "worker"; "migration"].
Definition anyone (a : Access) (account : uuid) : bool := ac_rls a account.

(** tenant_external_read, and its form on [space]. *)
Definition readers (a : Access) (account space : uuid) : bool :=
  ac_rls a account && purpose_in a ["external_read"] && ac_space a account space.
Definition public (visibility : string) : bool := existsb (String.eqb visibility) ["general"; "learning"].
Definition readers_by_visibility (a : Access) (account : uuid) (visibility : string) : bool :=
  ac_rls a account && purpose_in a ["external_read"] && public visibility.

(** tenant_external_interaction and tenant_external_write. *)
Definition recorders (a : Access) (account space : uuid) : bool :=
  ac_rls a account && purpose_in a ["external_interaction"] && ac_space a account space.
Definition writers_by_visibility (a : Access) (account : uuid) (visibility : string) : bool :=
  ac_rls a account && purpose_in a ["external_interaction"; "external_propose"] && public visibility.

(** The rows of a table a SELECT returns and the rows a write may leave; the
    tables without a policy are closed to the runtime role. *)
Class Policy (R : Type) := {
  shown : Access -> R -> bool;
  accepted : Access -> R -> bool;
}.

#[global] Instance account_policy : Policy Account.t :=
  {| shown a r := insiders a (Account.account_id r);
     accepted a r := insiders a (Account.account_id r) |}.
#[global] Instance user_policy : Policy User.t :=
  {| shown a r := insiders a (User.account_id r);
     accepted a r := insiders a (User.account_id r) |}.
#[global] Instance account_member_policy : Policy AccountMember.t :=
  {| shown a r := insiders a (AccountMember.account_id r);
     accepted a r := insiders a (AccountMember.account_id r) |}.
#[global] Instance space_policy : Policy Space.t :=
  {| shown a r := insiders a (Space.account_id r) || readers_by_visibility a (Space.account_id r) (Space.visibility r) || writers_by_visibility a (Space.account_id r) (Space.visibility r);
     accepted a r := insiders a (Space.account_id r) |}.
#[global] Instance space_member_policy : Policy SpaceMember.t :=
  {| shown a r := insiders a (SpaceMember.account_id r);
     accepted a r := insiders a (SpaceMember.account_id r) |}.
#[global] Instance hosted_adult_attestation_policy : Policy HostedAdultAttestation.t :=
  {| shown a r := insiders a (HostedAdultAttestation.account_id r);
     accepted a r := insiders a (HostedAdultAttestation.account_id r) |}.
#[global] Instance external_identity_policy : Policy ExternalIdentity.t :=
  {| shown a r := insiders a (ExternalIdentity.account_id r);
     accepted a r := insiders a (ExternalIdentity.account_id r) |}.
#[global] Instance actor_policy : Policy Actor.t :=
  {| shown a r := insiders a (Actor.account_id r);
     accepted a r := insiders a (Actor.account_id r) |}.
#[global] Instance browser_session_policy : Policy BrowserSession.t :=
  {| shown a r := insiders a (BrowserSession.account_id r);
     accepted a r := insiders a (BrowserSession.account_id r) |}.
#[global] Instance session_revocation_policy : Policy SessionRevocation.t :=
  {| shown a r := insiders a (SessionRevocation.account_id r);
     accepted a r := insiders a (SessionRevocation.account_id r) |}.
#[global] Instance external_client_grant_policy : Policy ExternalClientGrant.t :=
  {| shown a r := insiders a (ExternalClientGrant.account_id r);
     accepted a r := insiders a (ExternalClientGrant.account_id r) |}.
#[global] Instance operator_bootstrap_policy : Policy OperatorBootstrap.t :=
  {| shown a r := insiders a (OperatorBootstrap.account_id r);
     accepted a r := insiders a (OperatorBootstrap.account_id r) |}.
#[global] Instance oidc_login_challenge_policy : Policy OidcLoginChallenge.t := {| shown _ _ := false; accepted _ _ := false |}.
#[global] Instance oidc_token_replay_policy : Policy OidcTokenReplay.t := {| shown _ _ := false; accepted _ _ := false |}.
#[global] Instance service_auth_nonce_policy : Policy ServiceAuthNonce.t := {| shown _ _ := false; accepted _ _ := false |}.
#[global] Instance source_policy : Policy Source.t :=
  {| shown a r := insiders a (Source.account_id r) || readers a (Source.account_id r) (Source.space_id r);
     accepted a r := insiders a (Source.account_id r) |}.
#[global] Instance source_revision_policy : Policy SourceRevision.t :=
  {| shown a r := insiders a (SourceRevision.account_id r) || readers a (SourceRevision.account_id r) (SourceRevision.space_id r);
     accepted a r := insiders a (SourceRevision.account_id r) |}.
#[global] Instance source_blob_policy : Policy SourceBlob.t :=
  {| shown a r := insiders a (SourceBlob.account_id r) || readers a (SourceBlob.account_id r) (SourceBlob.space_id r);
     accepted a r := insiders a (SourceBlob.account_id r) |}.
#[global] Instance authored_document_policy : Policy AuthoredDocument.t :=
  {| shown a r := insiders a (AuthoredDocument.account_id r) || readers a (AuthoredDocument.account_id r) (AuthoredDocument.space_id r);
     accepted a r := insiders a (AuthoredDocument.account_id r) |}.
#[global] Instance document_revision_policy : Policy DocumentRevision.t :=
  {| shown a r := insiders a (DocumentRevision.account_id r) || readers a (DocumentRevision.account_id r) (DocumentRevision.space_id r);
     accepted a r := insiders a (DocumentRevision.account_id r) |}.
#[global] Instance parse_run_policy : Policy ParseRun.t :=
  {| shown a r := insiders a (ParseRun.account_id r) || readers a (ParseRun.account_id r) (ParseRun.space_id r);
     accepted a r := insiders a (ParseRun.account_id r) |}.
#[global] Instance document_element_policy : Policy DocumentElement.t :=
  {| shown a r := insiders a (DocumentElement.account_id r) || readers a (DocumentElement.account_id r) (DocumentElement.space_id r);
     accepted a r := insiders a (DocumentElement.account_id r) |}.
#[global] Instance provenance_record_policy : Policy ProvenanceRecord.t :=
  {| shown a r := insiders a (ProvenanceRecord.account_id r);
     accepted a r := insiders a (ProvenanceRecord.account_id r) |}.
#[global] Instance truth_classification_policy : Policy TruthClassification.t :=
  {| shown a r := insiders a (TruthClassification.account_id r);
     accepted a r := insiders a (TruthClassification.account_id r) |}.
#[global] Instance conflict_set_policy : Policy ConflictSet.t :=
  {| shown a r := insiders a (ConflictSet.account_id r);
     accepted a r := insiders a (ConflictSet.account_id r) |}.
#[global] Instance conflict_member_policy : Policy ConflictMember.t :=
  {| shown a r := insiders a (ConflictMember.account_id r);
     accepted a r := insiders a (ConflictMember.account_id r) |}.
#[global] Instance proposal_policy : Policy Proposal.t :=
  {| shown a r := insiders a (Proposal.account_id r) || readers a (Proposal.account_id r) (Proposal.space_id r);
     accepted a r := insiders a (Proposal.account_id r) |}.
#[global] Instance conversation_policy : Policy Conversation.t :=
  {| shown a r := insiders a (Conversation.account_id r) || readers a (Conversation.account_id r) (Conversation.space_id r) || recorders a (Conversation.account_id r) (Conversation.space_id r);
     accepted a r := insiders a (Conversation.account_id r) || recorders a (Conversation.account_id r) (Conversation.space_id r) |}.
#[global] Instance conversation_turn_policy : Policy ConversationTurn.t :=
  {| shown a r := insiders a (ConversationTurn.account_id r) || readers a (ConversationTurn.account_id r) (ConversationTurn.space_id r) || recorders a (ConversationTurn.account_id r) (ConversationTurn.space_id r);
     accepted a r := insiders a (ConversationTurn.account_id r) || recorders a (ConversationTurn.account_id r) (ConversationTurn.space_id r) |}.
#[global] Instance audit_event_policy : Policy AuditEvent.t :=
  {| shown a r := insiders a (AuditEvent.account_id r);
     accepted a r := insiders a (AuditEvent.account_id r) |}.
#[global] Instance current_source_revision_policy : Policy CurrentSourceRevision.t :=
  {| shown a r := insiders a (CurrentSourceRevision.account_id r) || readers a (CurrentSourceRevision.account_id r) (CurrentSourceRevision.space_id r);
     accepted a r := insiders a (CurrentSourceRevision.account_id r) |}.
#[global] Instance current_document_revision_policy : Policy CurrentDocumentRevision.t :=
  {| shown a r := insiders a (CurrentDocumentRevision.account_id r) || readers a (CurrentDocumentRevision.account_id r) (CurrentDocumentRevision.space_id r);
     accepted a r := insiders a (CurrentDocumentRevision.account_id r) |}.
#[global] Instance outbox_event_policy : Policy OutboxEvent.t :=
  {| shown a r := insiders a (OutboxEvent.account_id r);
     accepted a r := insiders a (OutboxEvent.account_id r) |}.
#[global] Instance idempotency_record_policy : Policy IdempotencyRecord.t :=
  {| shown a r := insiders a (IdempotencyRecord.account_id r);
     accepted a r := insiders a (IdempotencyRecord.account_id r) |}.
#[global] Instance durable_job_policy : Policy DurableJob.t :=
  {| shown a r := insiders a (DurableJob.account_id r);
     accepted a r := insiders a (DurableJob.account_id r) |}.
#[global] Instance job_attempt_policy : Policy JobAttempt.t :=
  {| shown a r := insiders a (JobAttempt.account_id r);
     accepted a r := insiders a (JobAttempt.account_id r) |}.
#[global] Instance projection_state_policy : Policy ProjectionState.t :=
  {| shown a r := insiders a (ProjectionState.account_id r);
     accepted a r := insiders a (ProjectionState.account_id r) |}.
#[global] Instance upload_intent_policy : Policy UploadIntent.t :=
  {| shown a r := anyone a (UploadIntent.account_id r);
     accepted a r := anyone a (UploadIntent.account_id r) |}.
#[global] Instance current_active_parse_run_policy : Policy CurrentActiveParseRun.t :=
  {| shown a r := anyone a (CurrentActiveParseRun.account_id r) || readers a (CurrentActiveParseRun.account_id r) (CurrentActiveParseRun.space_id r);
     accepted a r := anyone a (CurrentActiveParseRun.account_id r) |}.
#[global] Instance memory_item_policy : Policy MemoryItem.t :=
  {| shown a r := anyone a (MemoryItem.account_id r) || readers a (MemoryItem.account_id r) (MemoryItem.space_id r);
     accepted a r := anyone a (MemoryItem.account_id r) |}.
#[global] Instance memory_revision_policy : Policy MemoryRevision.t :=
  {| shown a r := anyone a (MemoryRevision.account_id r) || readers a (MemoryRevision.account_id r) (MemoryRevision.space_id r);
     accepted a r := anyone a (MemoryRevision.account_id r) |}.
#[global] Instance current_memory_revision_policy : Policy CurrentMemoryRevision.t :=
  {| shown a r := anyone a (CurrentMemoryRevision.account_id r) || readers a (CurrentMemoryRevision.account_id r) (CurrentMemoryRevision.space_id r);
     accepted a r := anyone a (CurrentMemoryRevision.account_id r) |}.
#[global] Instance projection_policy : Policy Projection.t :=
  {| shown a r := anyone a (Projection.account_id r) || readers a (Projection.account_id r) (Projection.space_id r);
     accepted a r := anyone a (Projection.account_id r) |}.
#[global] Instance context_receipt_policy : Policy ContextReceipt.t :=
  {| shown a r := anyone a (ContextReceipt.account_id r);
     accepted a r := anyone a (ContextReceipt.account_id r) |}.
#[global] Instance context_receipt_item_policy : Policy ContextReceiptItem.t :=
  {| shown a r := anyone a (ContextReceiptItem.account_id r);
     accepted a r := anyone a (ContextReceiptItem.account_id r) |}.
#[global] Instance course_policy : Policy Course.t :=
  {| shown a r := anyone a (Course.account_id r);
     accepted a r := anyone a (Course.account_id r) |}.
#[global] Instance curriculum_node_policy : Policy CurriculumNode.t :=
  {| shown a r := anyone a (CurriculumNode.account_id r);
     accepted a r := anyone a (CurriculumNode.account_id r) |}.
#[global] Instance curriculum_edge_policy : Policy CurriculumEdge.t :=
  {| shown a r := anyone a (CurriculumEdge.account_id r);
     accepted a r := anyone a (CurriculumEdge.account_id r) |}.
#[global] Instance assessment_item_policy : Policy AssessmentItem.t :=
  {| shown a r := anyone a (AssessmentItem.account_id r);
     accepted a r := anyone a (AssessmentItem.account_id r) |}.
#[global] Instance assessment_revision_policy : Policy AssessmentRevision.t :=
  {| shown a r := anyone a (AssessmentRevision.account_id r);
     accepted a r := anyone a (AssessmentRevision.account_id r) |}.
#[global] Instance current_assessment_revision_policy : Policy CurrentAssessmentRevision.t :=
  {| shown a r := anyone a (CurrentAssessmentRevision.account_id r);
     accepted a r := anyone a (CurrentAssessmentRevision.account_id r) |}.
#[global] Instance learner_event_policy : Policy LearnerEvent.t :=
  {| shown a r := anyone a (LearnerEvent.account_id r);
     accepted a r := anyone a (LearnerEvent.account_id r) |}.
#[global] Instance review_item_policy : Policy ReviewItem.t :=
  {| shown a r := anyone a (ReviewItem.account_id r);
     accepted a r := anyone a (ReviewItem.account_id r) |}.
#[global] Instance learner_projection_policy : Policy LearnerProjection.t :=
  {| shown a r := anyone a (LearnerProjection.account_id r);
     accepted a r := anyone a (LearnerProjection.account_id r) |}.
#[global] Instance notion_connection_policy : Policy NotionConnection.t :=
  {| shown a r := anyone a (NotionConnection.account_id r);
     accepted a r := anyone a (NotionConnection.account_id r) |}.
#[global] Instance notion_page_binding_policy : Policy NotionPageBinding.t :=
  {| shown a r := anyone a (NotionPageBinding.account_id r);
     accepted a r := anyone a (NotionPageBinding.account_id r) |}.
#[global] Instance deletion_tombstone_policy : Policy DeletionTombstone.t :=
  {| shown a r := anyone a (DeletionTombstone.account_id r);
     accepted a r := anyone a (DeletionTombstone.account_id r) |}.
#[global] Instance export_job_policy : Policy ExportJob.t :=
  {| shown a r := anyone a (ExportJob.account_id r);
     accepted a r := anyone a (ExportJob.account_id r) |}.
#[global] Instance semantic_projection_policy : Policy SemanticProjection.t :=
  {| shown a r := members a (SemanticProjection.account_id r);
     accepted a r := members a (SemanticProjection.account_id r) |}.
#[global] Instance assessment_attempt_policy : Policy AssessmentAttempt.t :=
  {| shown a r := members a (AssessmentAttempt.account_id r);
     accepted a r := members a (AssessmentAttempt.account_id r) |}.
#[global] Instance deletion_workflow_policy : Policy DeletionWorkflow.t :=
  {| shown a r := anyone a (DeletionWorkflow.account_id r);
     accepted a r := anyone a (DeletionWorkflow.account_id r) |}.

(** The rows the policies show. *)
Definition visible (a : Access) (d : Db) : Db :=
  {| t_account := keep (shown a) (t_account d);
     t_user := keep (shown a) (t_user d);
     t_account_member := keep (shown a) (t_account_member d);
     t_space := keep (shown a) (t_space d);
     t_space_member := keep (shown a) (t_space_member d);
     t_hosted_adult_attestation := keep (shown a) (t_hosted_adult_attestation d);
     t_external_identity := keep (shown a) (t_external_identity d);
     t_actor := keep (shown a) (t_actor d);
     t_browser_session := keep (shown a) (t_browser_session d);
     t_session_revocation := keep (shown a) (t_session_revocation d);
     t_external_client_grant := keep (shown a) (t_external_client_grant d);
     t_operator_bootstrap := keep (shown a) (t_operator_bootstrap d);
     t_oidc_login_challenge := keep (shown a) (t_oidc_login_challenge d);
     t_oidc_token_replay := keep (shown a) (t_oidc_token_replay d);
     t_service_auth_nonce := keep (shown a) (t_service_auth_nonce d);
     t_source := keep (shown a) (t_source d);
     t_source_revision := keep (shown a) (t_source_revision d);
     t_source_blob := keep (shown a) (t_source_blob d);
     t_authored_document := keep (shown a) (t_authored_document d);
     t_document_revision := keep (shown a) (t_document_revision d);
     t_parse_run := keep (shown a) (t_parse_run d);
     t_document_element := keep (shown a) (t_document_element d);
     t_provenance_record := keep (shown a) (t_provenance_record d);
     t_truth_classification := keep (shown a) (t_truth_classification d);
     t_conflict_set := keep (shown a) (t_conflict_set d);
     t_conflict_member := keep (shown a) (t_conflict_member d);
     t_proposal := keep (shown a) (t_proposal d);
     t_conversation := keep (shown a) (t_conversation d);
     t_conversation_turn := keep (shown a) (t_conversation_turn d);
     t_audit_event := keep (shown a) (t_audit_event d);
     t_current_source_revision := keep (shown a) (t_current_source_revision d);
     t_current_document_revision := keep (shown a) (t_current_document_revision d);
     t_outbox_event := keep (shown a) (t_outbox_event d);
     t_idempotency_record := keep (shown a) (t_idempotency_record d);
     t_durable_job := keep (shown a) (t_durable_job d);
     t_job_attempt := keep (shown a) (t_job_attempt d);
     t_projection_state := keep (shown a) (t_projection_state d);
     t_upload_intent := keep (shown a) (t_upload_intent d);
     t_current_active_parse_run := keep (shown a) (t_current_active_parse_run d);
     t_memory_item := keep (shown a) (t_memory_item d);
     t_memory_revision := keep (shown a) (t_memory_revision d);
     t_current_memory_revision := keep (shown a) (t_current_memory_revision d);
     t_projection := keep (shown a) (t_projection d);
     t_context_receipt := keep (shown a) (t_context_receipt d);
     t_context_receipt_item := keep (shown a) (t_context_receipt_item d);
     t_course := keep (shown a) (t_course d);
     t_curriculum_node := keep (shown a) (t_curriculum_node d);
     t_curriculum_edge := keep (shown a) (t_curriculum_edge d);
     t_assessment_item := keep (shown a) (t_assessment_item d);
     t_assessment_revision := keep (shown a) (t_assessment_revision d);
     t_current_assessment_revision := keep (shown a) (t_current_assessment_revision d);
     t_learner_event := keep (shown a) (t_learner_event d);
     t_review_item := keep (shown a) (t_review_item d);
     t_learner_projection := keep (shown a) (t_learner_projection d);
     t_notion_connection := keep (shown a) (t_notion_connection d);
     t_notion_page_binding := keep (shown a) (t_notion_page_binding d);
     t_deletion_tombstone := keep (shown a) (t_deletion_tombstone d);
     t_export_job := keep (shown a) (t_export_job d);
     t_semantic_projection := keep (shown a) (t_semantic_projection d);
     t_assessment_attempt := keep (shown a) (t_assessment_attempt d);
     t_deletion_workflow := keep (shown a) (t_deletion_workflow d) |}.

(** A table after a run: [full] is the table, [after] what the run made of the
    rows it saw.  A new or changed row that no policy accepts, or that breaks a
    unique constraint with a hidden row, fails. *)
Definition settle {R} `{Table R} `{Policy R} `{EqDecision R} (a : Access) (full after : list R) : res (list R) :=
  let seen := keep (shown a) full in
  let hidden := keep (fun r => negb (shown a r)) full in
  if bool_decide (after = seen) then Ok full
  else
    let written := keep (fun r => negb (bool_decide (r ∈ seen))) after in
    _ ← raise_if (existsb (fun r => negb (accepted a r)) written) (DatabaseError "row_level_security");
    _ ← raise_if (existsb (fun h => existsb (fun r => if clash h r then true else false) written) hidden)
          (IntegrityError "hidden row");
    mret (hidden ++ after).

Definition settle_db (a : Access) (d d2 : Db) : res Db :=
  r_account ← settle a (t_account d) (t_account d2);
  r_user ← settle a (t_user d) (t_user d2);
  r_account_member ← settle a (t_account_member d) (t_account_member d2);
  r_space ← settle a (t_space d) (t_space d2);
  r_space_member ← settle a (t_space_member d) (t_space_member d2);
  r_hosted_adult_attestation ← settle a (t_hosted_adult_attestation d) (t_hosted_adult_attestation d2);
  r_external_identity ← settle a (t_external_identity d) (t_external_identity d2);
  r_actor ← settle a (t_actor d) (t_actor d2);
  r_browser_session ← settle a (t_browser_session d) (t_browser_session d2);
  r_session_revocation ← settle a (t_session_revocation d) (t_session_revocation d2);
  r_external_client_grant ← settle a (t_external_client_grant d) (t_external_client_grant d2);
  r_operator_bootstrap ← settle a (t_operator_bootstrap d) (t_operator_bootstrap d2);
  r_oidc_login_challenge ← settle a (t_oidc_login_challenge d) (t_oidc_login_challenge d2);
  r_oidc_token_replay ← settle a (t_oidc_token_replay d) (t_oidc_token_replay d2);
  r_service_auth_nonce ← settle a (t_service_auth_nonce d) (t_service_auth_nonce d2);
  r_source ← settle a (t_source d) (t_source d2);
  r_source_revision ← settle a (t_source_revision d) (t_source_revision d2);
  r_source_blob ← settle a (t_source_blob d) (t_source_blob d2);
  r_authored_document ← settle a (t_authored_document d) (t_authored_document d2);
  r_document_revision ← settle a (t_document_revision d) (t_document_revision d2);
  r_parse_run ← settle a (t_parse_run d) (t_parse_run d2);
  r_document_element ← settle a (t_document_element d) (t_document_element d2);
  r_provenance_record ← settle a (t_provenance_record d) (t_provenance_record d2);
  r_truth_classification ← settle a (t_truth_classification d) (t_truth_classification d2);
  r_conflict_set ← settle a (t_conflict_set d) (t_conflict_set d2);
  r_conflict_member ← settle a (t_conflict_member d) (t_conflict_member d2);
  r_proposal ← settle a (t_proposal d) (t_proposal d2);
  r_conversation ← settle a (t_conversation d) (t_conversation d2);
  r_conversation_turn ← settle a (t_conversation_turn d) (t_conversation_turn d2);
  r_audit_event ← settle a (t_audit_event d) (t_audit_event d2);
  r_current_source_revision ← settle a (t_current_source_revision d) (t_current_source_revision d2);
  r_current_document_revision ← settle a (t_current_document_revision d) (t_current_document_revision d2);
  r_outbox_event ← settle a (t_outbox_event d) (t_outbox_event d2);
  r_idempotency_record ← settle a (t_idempotency_record d) (t_idempotency_record d2);
  r_durable_job ← settle a (t_durable_job d) (t_durable_job d2);
  r_job_attempt ← settle a (t_job_attempt d) (t_job_attempt d2);
  r_projection_state ← settle a (t_projection_state d) (t_projection_state d2);
  r_upload_intent ← settle a (t_upload_intent d) (t_upload_intent d2);
  r_current_active_parse_run ← settle a (t_current_active_parse_run d) (t_current_active_parse_run d2);
  r_memory_item ← settle a (t_memory_item d) (t_memory_item d2);
  r_memory_revision ← settle a (t_memory_revision d) (t_memory_revision d2);
  r_current_memory_revision ← settle a (t_current_memory_revision d) (t_current_memory_revision d2);
  r_projection ← settle a (t_projection d) (t_projection d2);
  r_context_receipt ← settle a (t_context_receipt d) (t_context_receipt d2);
  r_context_receipt_item ← settle a (t_context_receipt_item d) (t_context_receipt_item d2);
  r_course ← settle a (t_course d) (t_course d2);
  r_curriculum_node ← settle a (t_curriculum_node d) (t_curriculum_node d2);
  r_curriculum_edge ← settle a (t_curriculum_edge d) (t_curriculum_edge d2);
  r_assessment_item ← settle a (t_assessment_item d) (t_assessment_item d2);
  r_assessment_revision ← settle a (t_assessment_revision d) (t_assessment_revision d2);
  r_current_assessment_revision ← settle a (t_current_assessment_revision d) (t_current_assessment_revision d2);
  r_learner_event ← settle a (t_learner_event d) (t_learner_event d2);
  r_review_item ← settle a (t_review_item d) (t_review_item d2);
  r_learner_projection ← settle a (t_learner_projection d) (t_learner_projection d2);
  r_notion_connection ← settle a (t_notion_connection d) (t_notion_connection d2);
  r_notion_page_binding ← settle a (t_notion_page_binding d) (t_notion_page_binding d2);
  r_deletion_tombstone ← settle a (t_deletion_tombstone d) (t_deletion_tombstone d2);
  r_export_job ← settle a (t_export_job d) (t_export_job d2);
  r_semantic_projection ← settle a (t_semantic_projection d) (t_semantic_projection d2);
  r_assessment_attempt ← settle a (t_assessment_attempt d) (t_assessment_attempt d2);
  r_deletion_workflow ← settle a (t_deletion_workflow d) (t_deletion_workflow d2);
  mret {| t_account := r_account;
          t_user := r_user;
          t_account_member := r_account_member;
          t_space := r_space;
          t_space_member := r_space_member;
          t_hosted_adult_attestation := r_hosted_adult_attestation;
          t_external_identity := r_external_identity;
          t_actor := r_actor;
          t_browser_session := r_browser_session;
          t_session_revocation := r_session_revocation;
          t_external_client_grant := r_external_client_grant;
          t_operator_bootstrap := r_operator_bootstrap;
          t_oidc_login_challenge := r_oidc_login_challenge;
          t_oidc_token_replay := r_oidc_token_replay;
          t_service_auth_nonce := r_service_auth_nonce;
          t_source := r_source;
          t_source_revision := r_source_revision;
          t_source_blob := r_source_blob;
          t_authored_document := r_authored_document;
          t_document_revision := r_document_revision;
          t_parse_run := r_parse_run;
          t_document_element := r_document_element;
          t_provenance_record := r_provenance_record;
          t_truth_classification := r_truth_classification;
          t_conflict_set := r_conflict_set;
          t_conflict_member := r_conflict_member;
          t_proposal := r_proposal;
          t_conversation := r_conversation;
          t_conversation_turn := r_conversation_turn;
          t_audit_event := r_audit_event;
          t_current_source_revision := r_current_source_revision;
          t_current_document_revision := r_current_document_revision;
          t_outbox_event := r_outbox_event;
          t_idempotency_record := r_idempotency_record;
          t_durable_job := r_durable_job;
          t_job_attempt := r_job_attempt;
          t_projection_state := r_projection_state;
          t_upload_intent := r_upload_intent;
          t_current_active_parse_run := r_current_active_parse_run;
          t_memory_item := r_memory_item;
          t_memory_revision := r_memory_revision;
          t_current_memory_revision := r_current_memory_revision;
          t_projection := r_projection;
          t_context_receipt := r_context_receipt;
          t_context_receipt_item := r_context_receipt_item;
          t_course := r_course;
          t_curriculum_node := r_curriculum_node;
          t_curriculum_edge := r_curriculum_edge;
          t_assessment_item := r_assessment_item;
          t_assessment_revision := r_assessment_revision;
          t_current_assessment_revision := r_current_assessment_revision;
          t_learner_event := r_learner_event;
          t_review_item := r_review_item;
          t_learner_projection := r_learner_projection;
          t_notion_connection := r_notion_connection;
          t_notion_page_binding := r_notion_page_binding;
          t_deletion_tombstone := r_deletion_tombstone;
          t_export_job := r_export_job;
          t_semantic_projection := r_semantic_projection;
          t_assessment_attempt := r_assessment_attempt;
          t_deletion_workflow := r_deletion_workflow |}.

(** A run of a service under the policies. *)
Definition under_policy {A} (a : Access) (m : M A) : M A := fun w =>
  match m {| db := visible a (db w); tick := tick w |} with
  | Raise e => Raise e
  | Ok (x, w2) => d ← settle_db a (db w) (db w2); Ok (x, {| db := d; tick := tick w2 |})
  end.

(** What a sealed context reads while its actor stands. *)
Definition access (ctx : RequestContext) (d : Db) : Access :=
  {| ac_rls := fun account => same account (account_id ctx); ac_purpose := value (purpose ctx);
     ac_space := memdot_external_space_ok d |}.

Definition as_context {A} (ctx : RequestContext) (m : M A) : M A := fun w => under_policy (access ctx (db w)) m w.

(** ** What runs under the policies *)

Lemma settle_same {R} `{Table R} `{Policy R} `{EqDecision R} a (l : list R) : settle a l (keep (shown a) l) = Ok l.
Proof. unfold settle. by rewrite bool_decide_eq_true_2. Qed.

Lemma settle_db_visible a d : settle_db a d (visible a d) = Ok d.
Proof. unfold settle_db, visible. cbn [t_account t_user t_account_member t_space t_space_member t_hosted_adult_attestation t_external_identity t_actor t_browser_session t_session_revocation t_external_client_grant t_operator_bootstrap t_oidc_login_challenge t_oidc_token_replay t_service_auth_nonce t_source t_source_revision t_source_blob t_authored_document t_document_revision t_parse_run t_document_element t_provenance_record t_truth_classification t_conflict_set t_conflict_member t_proposal t_conversation t_conversation_turn t_audit_event t_current_source_revision t_current_document_revision t_outbox_event t_idempotency_record t_durable_job t_job_attempt t_projection_state t_upload_intent t_current_active_parse_run t_memory_item t_memory_revision t_current_memory_revision t_projection t_context_receipt t_context_receipt_item t_course t_curriculum_node t_curriculum_edge t_assessment_item t_assessment_revision t_current_assessment_revision t_learner_event t_review_item t_learner_projection t_notion_connection t_notion_page_binding t_deletion_tombstone t_export_job t_semantic_projection t_assessment_attempt t_deletion_workflow]. rewrite !settle_same. by destruct d. Qed.

(** A run that only reads leaves the ledger as it is. *)
Lemma under_policy_read {A} a (m : M A) w x w2 :
  (forall w1 y w2, m w1 = Ok (y, w2) -> w2 = w1) ->
  under_policy a m w = Ok (x, w2) ->
  w2 = w /\ m {| db := visible a (db w); tick := tick w |} = Ok (x, {| db := visible a (db w); tick := tick w |}).
Proof.
  intros Hr. unfold under_policy. destruct (m _) as [[y w1]|e] eqn:E; [|done]. pose proof (Hr _ _ _ E) as ->. cbn [db tick].
  rewrite settle_db_visible. intros [= <- <-]. by destruct w.
Qed.

(** What a table holds after a run. *)
Lemma settle_Ok {R} `{Table R} `{Policy R} `{EqDecision R} a (full after l : list R) :
  settle a full after = Ok l ->
  (forall r, r ∈ after -> (r ∈ full /\ shown a r = true) \/ accepted a r = true) /\
  forall r, r ∈ l <-> r ∈ after \/ (r ∈ full /\ shown a r = false).
Proof.
  unfold settle. case_bool_decide as Ha.
  - intros [= <-]. split.
    + intros r Hr. rewrite Ha in Hr. apply elem_of_keep in Hr as [Hr Hs]. by left.
    + intros r. rewrite Ha, elem_of_keep. destruct (shown a r); naive_solver.
  - intros Hs. apply bind_Ok in Hs as ([] & Hc & Hs). apply raise_if_Ok in Hc as Hc.
    apply bind_Ok in Hs as ([] & _ & Hs). injection Hs as <-. split.
    + intros r Hr. destruct (decide (r ∈ keep (shown a) full)) as [Hin|Hout]; [left; by apply elem_of_keep|right].
      destruct (accepted a r) eqn:Hacc; [done|]. rewrite <- not_true_iff_false in Hc. exfalso. apply Hc, existsb_exists.
      exists r. split; [|by rewrite Hacc]. apply list_elem_of_In, elem_of_keep. split; [done|]. by rewrite bool_decide_eq_false_2.
    + intros r. rewrite elem_of_app, elem_of_keep, negb_true_iff. tauto.
Qed.
