(* ===== verification/Errors.v ===== *)
(** * Problem documents (services/core/src/memdot_core/errors.py)

    Every refusal is a problem document with a stable code.  A [Response] is
    the status and the JSON body of an answer. *)

From Stdlib Require Import Ascii ZArith.
From stdpp Require Import list strings.
From S2P Require Import Prelude PyStr Uuid Json Enums ServiceAuth.
Open Scope Z_scope.

Record Response := { rs_status : Z; rs_body : dict }.

(** [str.title()] on an ASCII text: a letter after another is small, a letter
    after anything else a capital. *)
Definition is_letter (c : ascii) : bool :=
  ((97 <=? code (lower_char c)) && (code (lower_char c) <=? 122))%N.
Definition upper_char (c : ascii) : ascii :=
  if ((97 <=? code c) && (code c <=? 122))%N then ascii_of_N (code c - 32) else c.

Fixpoint title_from (inside : bool) (s : string) : string :=
  match s with
  | "" => ""
  | String c s => String (if is_letter c then (if inside then lower_char c else upper_char c) else c)
                    (title_from (is_letter c) s)
  end.

Definition title_case (s : string) : string := title_from false s.

Record FieldError := { fe_pointer : string; fe_code : ErrorCode.t; fe_detail : option string }.

(** [model_dump(exclude_none=True)]: the fields that are not [None], in order. *)
Definition present {A} (key : string) (f : A -> json) (o : option A) : dict :=
  match o with Some v => [(key, f v)] | None => [] end.

Definition field_error_json (e : FieldError) : json :=
  JObj ([("pointer", JStr (fe_pointer e)); ("code", JStr (value (fe_code e)))] ++ present "detail" JStr (fe_detail e)).

Definition problem_response (status : Z) (code : ErrorCode.t) (title detail instance : option string)
    (correlation_id : option uuid) (errors : option (list FieldError)) : Response :=
  {| rs_status := status;
     rs_body :=
       [("type", JStr ("about:memdot/problems/" +:+ value code));
        ("title", JStr (match title with
                        | Some t => if truthy t then t else title_case (replace_char "_" " " (value code))
                        | None => title_case (replace_char "_" " " (value code)) end));
        ("status", JInt status); ("code", JStr (value code))] ++
       present "detail" JStr detail ++ present "instance" JStr instance ++
       present "correlation_id" (fun u => JStr (str_uuid u)) correlation_id ++
       present "errors" (fun l => JList (map field_error_json l)) errors |}.

(** [problem_response] with a status, a code and a detail. *)
Definition problem (status : Z) (code : ErrorCode.t) (detail : string) (correlation_id : option uuid) : Response :=
  problem_response status code None (Some detail) None correlation_id None.

Definition correlation_id_from_request (headers : Headers) : option uuid :=
  let raw := or_text (headers "X-Correlation-Id") (headers "X-Request-Id") in
  if truthy raw then parse_uuid raw else None.

Definition safe_not_found (correlation_id : option uuid) : Response :=
  problem 404 ErrorCode.NOT_FOUND "The requested resource was not found." correlation_id.

Definition safe_unauthorized (correlation_id : option uuid) : Response :=
  problem 401 ErrorCode.UNAUTHORIZED "Authentication is required." correlation_id.

Definition validation_problem (errors : list FieldError) (correlation_id : option uuid) : Response :=
  problem_response 422 ErrorCode.VALIDATION_ERROR None (Some "One or more fields are invalid.") None
    correlation_id (Some errors).

Definition http_exception_detail (code : ErrorCode.t) (detail : option string) : dict :=
  [("code", JStr (value code)); ("detail", match detail with Some d => JStr d | None => JNull end)].

Example not_found_ex : safe_not_found None =
  {| rs_status := 404;
     rs_body := [("type", JStr "about:memdot/problems/not_found"); ("title", JStr "Not Found"); ("status", JInt 404);
                 ("code", JStr "not_found"); ("detail", JStr "The requested resource was not found.")] |}.
Proof. vm_compute. reflexivity. Qed.
