(* ===== verification/Policy.v ===== *)
(** * Request policies (services/core/src/memdot_core/policy.py)

    The rate limiter, the concurrency tracker and the overload breaker: state
    of the process, shared by its requests.  A call is atomic here; the clock
    readings ([time.monotonic()], a double) are arguments. *)

From Stdlib Require Import ZArith Lia.
From stdpp Require Import base gmap list strings.
From S2P Require Import Prelude PyStr Uuid Enums Float64 Errors.
Open Scope Z_scope.

Record RateBucket := { rb_count : Z; rb_window_start : f64 }.

Record InMemoryRateLimiter := {
  rl_limit : Z;
  rl_window : f64;
  rl_buckets : gmap string RateBucket;
}.

Definition new_rate_limiter (limit : Z) (window_seconds : f64) : InMemoryRateLimiter :=
  {| rl_limit := limit; rl_window := window_seconds; rl_buckets := ∅ |}.

Definition store_bucket (key : string) (b : RateBucket) (l : InMemoryRateLimiter) : InMemoryRateLimiter :=
  {| rl_limit := rl_limit l; rl_window := rl_window l; rl_buckets := <[key := b]> (rl_buckets l) |}.

(** The bucket of a key at [now]; a new one starts at [later], a second reading. *)
Definition bucket_at (now later : f64) (key : string) (l : InMemoryRateLimiter) : RateBucket :=
  let bucket := default {| rb_count := 0; rb_window_start := later |} (rl_buckets l !! key) in
  if rl_window l <=? fsub now (rb_window_start bucket) then {| rb_count := 0; rb_window_start := now |} else bucket.

Definition allow (now later : f64) (key : string) (l : InMemoryRateLimiter) : bool * InMemoryRateLimiter :=
  let bucket := bucket_at now later key l in
  if rl_limit l <=? rb_count bucket then (false, store_bucket key bucket l)
  else (true, store_bucket key {| rb_count := rb_count bucket + 1; rb_window_start := rb_window_start bucket |} l).

Record ConcurrencyTracker := { ct_max : Z; ct_active : gmap string Z }.

Definition active (key : string) (t : ConcurrencyTracker) : Z := default 0 (ct_active t !! key).

Definition try_acquire (key : string) (t : ConcurrencyTracker) : bool * ConcurrencyTracker :=
  if ct_max t <=? active key t then (false, {| ct_max := ct_max t; ct_active := <[key := active key t]> (ct_active t) |})
  else (true, {| ct_max := ct_max t; ct_active := <[key := active key t + 1]> (ct_active t) |}).

Definition release (key : string) (t : ConcurrencyTracker) : ConcurrencyTracker :=
  {| ct_max := ct_max t;
     ct_active := <[key := if 0 <? active key t then active key t - 1 else active key t]> (ct_active t) |}.

Definition GLOBAL_RATE_LIMITER : InMemoryRateLimiter := new_rate_limiter 120 (of_int 60).
Definition PARSE_CONCURRENCY : ConcurrencyTracker := {| ct_max := 2; ct_active := ∅ |}.

Definition rate_limited_response (correlation_id : option uuid) : Response :=
  problem 429 ErrorCode.RATE_LIMITED "Too many requests. Retry later." correlation_id.
Definition concurrency_limited_response (correlation_id : option uuid) : Response :=
  problem 429 ErrorCode.CONCURRENCY_LIMIT "Too many concurrent operations for this account." correlation_id.
Definition payload_too_large_response (correlation_id : option uuid) : Response :=
  problem 413 ErrorCode.PAYLOAD_TOO_LARGE "Request exceeds allowed size." correlation_id.
Definition overload_reject_response (correlation_id : option uuid) : Response :=
  problem 503 ErrorCode.SERVICE_UNAVAILABLE "Service is temporarily overloaded. Retry later." correlation_id.

Record OverloadBreaker := { ob_max : Z; inflight : Z }.

Definition breaker_acquire (b : OverloadBreaker) : bool * OverloadBreaker :=
  if ob_max b <=? inflight b then (false, b) else (true, {| ob_max := ob_max b; inflight := inflight b + 1 |}).
Definition breaker_release (b : OverloadBreaker) : OverloadBreaker :=
  {| ob_max := ob_max b; inflight := if 0 <? inflight b then inflight b - 1 else inflight b |}.

Definition GLOBAL_OVERLOAD_BREAKER : OverloadBreaker := {| ob_max := 256; inflight := 0 |}.

(** ** The rate limiter *)

(** A call: its two readings and its key. *)
Record Call := { cl_now : f64; cl_later : f64; cl_key : string }.

Fixpoint serve_calls (cs : list Call) (l : InMemoryRateLimiter) : list bool * InMemoryRateLimiter :=
  match cs with
  | [] => ([], l)
  | c :: cs => let '(b, l) := allow (cl_now c) (cl_later c) (cl_key c) l in
               let '(bs, l) := serve_calls cs l in (b :: bs, l)
  end.

(** How many calls of a key were allowed. *)
Fixpoint granted_calls (key : string) (cs : list Call) (bs : list bool) : Z :=
  match cs, bs with
  | c :: cs, b :: bs => (if b && String.eqb (cl_key c) key then 1 else 0) + granted_calls key cs bs
  | _, _ => 0
  end.

(** The counts stay within the limit. *)
Definition limiter_ok (l : InMemoryRateLimiter) : Prop :=
  0 <= rl_limit l /\ map_Forall (fun _ b => 0 <= rb_count b <= rl_limit l) (rl_buckets l).

(** What a key may still be granted in a span that began at [t0]: a bucket that
    starts within it is not reset before its end, an older one once at most. *)
Definition budget (t0 : f64) (key : string) (l : InMemoryRateLimiter) : Z :=
  match rl_buckets l !! key with
  | None => rl_limit l
  | Some b => if t0 <=? rb_window_start b then rl_limit l - rb_count b else 2 * rl_limit l - rb_count b
  end.

Lemma bucket_count now later key l : limiter_ok l -> 0 <= rb_count (bucket_at now later key l) <= rl_limit l.
Proof.
  intros [Hl Hb]. unfold bucket_at. destruct (_ <=? _); cbn; [lia|].
  destruct (rl_buckets l !! key) as [b|] eqn:E; cbn; [by apply (Hb key)|lia].
Qed.

Lemma allow_ok now later key l : limiter_ok l -> limiter_ok (allow now later key l).2.
Proof.
  intros Hok. pose proof (bucket_count now later key l Hok) as Hc. destruct Hok as [Hl Hb]. unfold allow.
  destruct (Z.leb_spec (rl_limit l) (rb_count (bucket_at now later key l))); cbn; (split; [done|]);
    apply map_Forall_insert_2; cbn; first [lia|done].
Qed.

Lemma calls_ok cs l : limiter_ok l -> limiter_ok (serve_calls cs l).2.
Proof.
  revert l. induction cs as [|c cs IH]; intros l Hok; cbn [serve_calls]; [done|].
  pose proof (allow_ok (cl_now c) (cl_later c) (cl_key c) l Hok) as Hok'. destruct (allow _ _ _ _) as [b l2].
  specialize (IH l2 Hok'). by destruct (serve_calls cs l2).
Qed.

Lemma new_limiter_ok n window : 0 <= n -> limiter_ok (new_rate_limiter n window).
Proof. intros Hn. split; [done|apply map_Forall_empty]. Qed.

Lemma allow_other now later key key' l : key <> key' -> rl_buckets (allow now later key l).2 !! key' = rl_buckets l !! key'.
Proof. intros Hk. unfold allow. destruct (_ <=? _); cbn; by rewrite lookup_insert_ne. Qed.

Lemma allow_params now later key l :
  rl_limit (allow now later key l).2 = rl_limit l /\ rl_window (allow now later key l).2 = rl_window l.
Proof. unfold allow. by destruct (_ <=? _). Qed.

(** A granted call takes one from the budget of its key, and no call adds to it. *)
Lemma budget_step t0 now later key l : limiter_ok l -> 0 < rl_window l ->
  t0 <= now -> t0 <= later -> fsub now t0 < rl_window l ->
  budget t0 key (allow now later key l).2 + (if (allow now later key l).1 then 1 else 0) <= budget t0 key l.
Proof.
  intros Hok Hw Hn Hl0 Hs. pose proof (bucket_count now later key l Hok) as Hc. destruct Hok as [Hl Hb].
  assert (Hbud : budget t0 key (store_bucket key (bucket_at now later key l) l) <= budget t0 key l).
  { unfold budget, store_bucket, bucket_at. cbn [rl_buckets rl_limit]. rewrite lookup_insert_eq.
    destruct (rl_buckets l !! key) as [b|] eqn:E; cbn [from_option id].
    - pose proof (Hb key b E) as Hr. cbn in Hr. destruct (Z.leb_spec (rl_window l) (fsub now (rb_window_start b))) as [Hreset|Hreset].
      + cbn. destruct (Z.leb_spec t0 now); [|lia]. destruct (Z.leb_spec t0 (rb_window_start b)) as [Hin|]; [|lia].
        pose proof (fsub_mono now (rb_window_start b) now t0 ltac:(lia) Hin). lia.
      + lia.
    - cbn. destruct (Z.leb_spec (rl_window l) (fsub now later)) as [Hreset|Hreset]; cbn.
      + destruct (Z.leb_spec t0 now); lia.
      + destruct (Z.leb_spec t0 later); lia. }
  unfold allow. destruct (Z.leb_spec (rl_limit l) (rb_count (bucket_at now later key l))); cbn [fst snd]; [lia|].
  revert Hbud. unfold budget, store_bucket. cbn [rl_buckets rl_limit]. rewrite !lookup_insert_eq. cbn.
  destruct (t0 <=? _); lia.
Qed.

Lemma budget_other t0 now later key key' l : key <> key' -> budget t0 key' (allow now later key l).2 = budget t0 key' l.
Proof.
  intros Hk. unfold budget. rewrite allow_other by done. by destruct (allow_params now later key l) as [-> _].
Qed.

Lemma budget_bounds t0 key l : limiter_ok l -> 0 <= budget t0 key l <= 2 * rl_limit l.
Proof.
  intros [Hl Hb]. unfold budget. destruct (rl_buckets l !! key) as [b|] eqn:E; [|lia].
  pose proof (Hb key b E) as Hr. cbn in Hr. destruct (_ <=? _); lia.
Qed.

(** The calls of a span, whatever their keys, grant a key at most its budget. *)
Lemma span_granted t0 key cs l : limiter_ok l -> 0 < rl_window l ->
  (forall c, c ∈ cs -> t0 <= cl_now c /\ t0 <= cl_later c /\ fsub (cl_now c) t0 < rl_window l) ->
  granted_calls key cs (serve_calls cs l).1 <= budget t0 key l.
Proof.
  revert l. induction cs as [|c cs IH]; intros l Hok Hw Hcs; cbn [serve_calls granted_calls fst].
  - by apply budget_bounds.
  - pose proof (allow_ok (cl_now c) (cl_later c) (cl_key c) l Hok) as Hok'.
    pose proof (allow_params (cl_now c) (cl_later c) (cl_key c) l) as [Hlim Hwin].
    assert (Hs : budget t0 key (allow (cl_now c) (cl_later c) (cl_key c) l).2 +
      (if (allow (cl_now c) (cl_later c) (cl_key c) l).1 && String.eqb (cl_key c) key then 1 else 0) <= budget t0 key l).
    { destruct (Hcs c ltac:(by left)) as (H1 & H2 & H3). destruct (String.eqb_spec (cl_key c) key) as [<-|Hk].
      - rewrite andb_true_r. by apply budget_step.
      - rewrite andb_false_r, (budget_other t0 _ _ _ _ _ Hk). lia. }
    destruct (allow _ _ _ _) as [b l2]. cbn [fst snd] in *.
    specialize (IH l2 Hok'). destruct (serve_calls cs l2) as [bs l3]. cbn [fst snd granted_calls] in *.
    assert (granted_calls key cs bs <= budget t0 key l2).
    { apply IH; [lia|]. intros x Hx. rewrite Hwin. apply Hcs. by right. }
    lia.
Qed.

(** C28: in any span of calls shorter than a window, measured as the code
    measures it, a key is granted at most twice the limit, and at most the limit
    when it was not seen before; calls of other keys change nothing of that. *)
Theorem rate_limit_bounds t0 key cs l : limiter_ok l -> 0 < rl_window l ->
  (forall c, c ∈ cs -> t0 <= cl_now c /\ t0 <= cl_later c /\ fsub (cl_now c) t0 < rl_window l) ->
  granted_calls key cs (serve_calls cs l).1 <= 2 * rl_limit l /\
  (rl_buckets l !! key = None -> granted_calls key cs (serve_calls cs l).1 <= rl_limit l).
Proof.
  intros Hok Hw Hcs. pose proof (span_granted t0 key cs l Hok Hw Hcs) as Hg. split.
  - pose proof (budget_bounds t0 key l Hok). lia.
  - intros Hn. revert Hg. unfold budget at 1. by rewrite Hn.
Qed.

(** No bucket starts after [t]. *)
Definition started_by (t : f64) (l : InMemoryRateLimiter) : Prop :=
  map_Forall (fun _ b => rb_window_start b <= t) (rl_buckets l).

Lemma bucket_started t now later key l : started_by t l -> now <= t -> later <= t ->
  rb_window_start (bucket_at now later key l) <= t.
Proof.
  intros Hs Hn Hl. unfold bucket_at. destruct (_ <=? _); cbn; [done|].
  destruct (rl_buckets l !! key) as [b|] eqn:E; cbn; [by apply (Hs key)|done].
Qed.

Lemma allow_started t now later key l : started_by t l -> now <= t -> later <= t -> started_by t (allow now later key l).2.
Proof.
  intros Hs Hn Hl. pose proof (bucket_started t now later key l Hs Hn Hl) as Hb. unfold allow, started_by.
  destruct (_ <=? _); cbn; by apply map_Forall_insert_2.
Qed.

Lemma calls_started t cs l : started_by t l -> (forall c, c ∈ cs -> cl_now c <= t /\ cl_later c <= t) ->
  started_by t (serve_calls cs l).2 /\ rl_limit (serve_calls cs l).2 = rl_limit l /\ rl_window (serve_calls cs l).2 = rl_window l.
Proof.
  revert l. induction cs as [|c cs IH]; intros l Hs Hcs; cbn [serve_calls]; [done|].
  destruct (Hcs c ltac:(by left)) as [Hn Hl]. pose proof (allow_started t _ _ (cl_key c) l Hs Hn Hl) as Hs'.
  destruct (allow_params (cl_now c) (cl_later c) (cl_key c) l) as [Hlim Hwin]. destruct (allow _ _ _ _) as [b l2].
  cbn [snd] in *. specialize (IH l2 Hs' (fun x Hx => Hcs x (list_elem_of_further x c cs Hx))).
  destruct (serve_calls cs l2) as [bs l3]. cbn [snd] in *. destruct IH as (H1 & H2 & H3). split_and!; [done|congruence|congruence].
Qed.

(** C29: however many calls were made and refused, a call that comes a window
    after the last of them is granted. *)
Theorem rate_limit_recovers t key cs l now later : 0 < rl_limit l -> started_by t l ->
  (forall c, c ∈ cs -> cl_now c <= t /\ cl_later c <= t) ->
  rl_window l <= fsub now t ->
  (allow now later key (serve_calls cs l).2).1 = true.
Proof.
  intros Hl Hs Hcs Hw. destruct (calls_started t cs l Hs Hcs) as (Hs' & Hlim & Hwin).
  set (l2 := (serve_calls cs l).2) in *. unfold allow, bucket_at. rewrite Hwin, Hlim.
  destruct (rl_buckets l2 !! key) as [b|] eqn:E; cbn [from_option id].
  - pose proof (Hs' key b E) as Hb. cbn in Hb. pose proof (fsub_mono now t now (rb_window_start b) ltac:(lia) Hb).
    destruct (Z.leb_spec (rl_window l) (fsub now (rb_window_start b))); [|lia]. cbn. by destruct (Z.leb_spec (rl_limit l) 0); [lia|].
  - destruct (_ <=? fsub _ _); cbn; by destruct (Z.leb_spec (rl_limit l) 0); [lia|].
Qed.

(** ** The tracker and the breaker *)

Definition tracker_ok (t : ConcurrencyTracker) : Prop :=
  0 <= ct_max t /\ map_Forall (fun _ n => 0 <= n <= ct_max t) (ct_active t).

Lemma active_bounds key t : tracker_ok t -> 0 <= active key t <= ct_max t.
Proof.
  intros [Hm Ht]. unfold active. destruct (ct_active t !! key) as [n|] eqn:E; cbn; [by apply (Ht key)|lia].
Qed.

Lemma try_acquire_ok key t : tracker_ok t -> tracker_ok (try_acquire key t).2 /\
  active key (try_acquire key t).2 = active key t + (if (try_acquire key t).1 then 1 else 0) /\
  ((try_acquire key t).1 = true <-> active key t < ct_max t).
Proof.
  intros Hok. pose proof (active_bounds key t Hok) as Hb. destruct Hok as [Hm Ht]. unfold try_acquire.
  destruct (Z.leb_spec (ct_max t) (active key t)); cbn [fst snd]; (split_and!; [split; [done|apply map_Forall_insert_2; cbn; [lia|done]]| |]);
    try (unfold active at 1; cbn; rewrite lookup_insert_eq; cbn; lia); split; (done || lia).
Qed.

Definition breaker_ok (b : OverloadBreaker) : Prop := 0 <= inflight b <= ob_max b.

Lemma breaker_acquire_ok b : breaker_ok b -> breaker_ok (breaker_acquire b).2.
Proof. unfold breaker_ok, breaker_acquire. intros Hb. destruct (Z.leb_spec (ob_max b) (inflight b)); cbn; lia. Qed.

Lemma breaker_release_ok b : breaker_ok b -> breaker_ok (breaker_release b).
Proof. unfold breaker_ok, breaker_release. intros Hb. destruct (Z.ltb_spec 0 (inflight b)); cbn; lia. Qed.

(** Giving back what was taken. *)
Lemma breaker_round_trip b : breaker_ok b -> (breaker_acquire b).1 = true -> breaker_release (breaker_acquire b).2 = b.
Proof.
  unfold breaker_ok, breaker_acquire, breaker_release. intros Hb. destruct (Z.leb_spec (ob_max b) (inflight b)); cbn; [done|].
  intros _. destruct (Z.ltb_spec 0 (inflight b + 1)); [|lia]. destruct b; cbn in *. f_equal. lia.
Qed.

(** ** Witnesses *)

(** Two calls a minute; readings in seconds. *)
Definition two_a_minute : InMemoryRateLimiter := new_rate_limiter 2 (of_int 60).
Definition at_second (s : Z) (key : string) : Call :=
  {| cl_now := of_int s; cl_later := of_int s; cl_key := key |}.

(** Two calls at the end of a window and two at the start of the next are all
    granted within eleven seconds. *)
Definition after_burst : InMemoryRateLimiter :=
  (serve_calls (map (fun s => at_second s "a") [100]) two_a_minute).2.

(** The readings of calls, checked. *)
Definition within (lo hi : f64) (cs : list Call) : bool :=
  forallb (fun c => (lo <=? cl_now c) && (lo <=? cl_later c) && (cl_now c <=? hi) && (cl_later c <=? hi)) cs.

Lemma within_spec lo hi cs c : within lo hi cs = true -> c ∈ cs ->
  lo <= cl_now c /\ lo <= cl_later c /\ cl_now c <= hi /\ cl_later c <= hi.
Proof.
  unfold within. rewrite forallb_forall. intros Hw Hc%list_elem_of_In. specialize (Hw c Hc). split_bool. lia.
Qed.

Lemma rate_limit_bounds_witness :
  let cs := map (fun s => at_second s "a") [155; 165; 166; 166] in
  (serve_calls cs after_burst).1 = [true; true; true; false] /\ rl_limit after_burst = 2 /\
  granted_calls "a" cs (serve_calls cs after_burst).1 <= 2 * rl_limit after_burst.
Proof.
  intros cs. split; [vm_compute; reflexivity|]. split; [vm_compute; reflexivity|].
  assert (Hw : 0 < rl_window after_burst) by (vm_compute; reflexivity).
  assert (Hok : limiter_ok after_burst) by (apply calls_ok, new_limiter_ok; lia).
  assert (Hin : within (of_int 155) (of_int 166) cs = true) by (vm_compute; reflexivity).
  assert (Hs : (fsub (of_int 166) (of_int 155) <? rl_window after_burst) = true) by (vm_compute; reflexivity).
  refine (proj1 (rate_limit_bounds (of_int 155) "a" cs after_burst Hok Hw _)).
  intros c Hc. destruct (within_spec _ _ _ _ Hin Hc) as (H1 & H2 & H3 & _). split; [exact H1|]. split; [exact H2|].
  apply Z.ltb_lt in Hs. pose proof (fsub_mono (cl_now c) (of_int 155) (of_int 166) (of_int 155) H3 ltac:(lia)). lia.
Defined.

Lemma rate_limit_recovers_witness :
  let cs := map (fun s => at_second s "a") [100; 101; 102] in
  (serve_calls cs two_a_minute).1 = [true; true; false] /\
  (allow (of_int 162) (of_int 162) "a" (serve_calls cs two_a_minute).2).1 = true.
Proof.
  intros cs. split; [vm_compute; reflexivity|].
  assert (Hin : within 0 (of_int 102) cs = true) by (vm_compute; reflexivity).
  apply (rate_limit_recovers (of_int 102) "a" cs two_a_minute).
  - vm_compute. reflexivity.
  - apply map_Forall_empty.
  - intros c Hc. destruct (within_spec _ _ _ _ Hin Hc) as (_ & _ & H3 & H4). split; [exact H3|exact H4].
  - vm_compute. discriminate.
Defined.
