(* ===== verification/ExternalAccess.v ===== *)
(** * External access (services/core/src/memdot_core/auth/bearer.py,
    auth/grant_resolve.py, external_context.py)

    How a request of an external client becomes a request context: a service
    envelope or a bearer token, the standing grant in the ledger, the tenant
    context.  Decoding a JWT (PyJWT, with its keys) is the class [Jwt]. *)

From Stdlib Require Import Ascii ZArith Lia.
From stdpp Require Import list strings.
From S2P Require Import Prelude PyStr Digest Uuid Json Enums Ledger Store RequestContext Deletion AuthSnapshot ServiceAuth TenantContext.
Open Scope Z_scope.

Definition REQUIRED_READ_SCOPE : string := "memdot.memory.read".
Definition REQUIRED_PROPOSE_SCOPE : string := "memdot.memory.propose".
Definition REQUIRED_INTERACTION_SCOPE : string := "memdot.interaction.record".

Definition PURPOSE_REQUIRED_SCOPE (p : RequestPurpose.t) : option string :=
  match p with
  | RequestPurpose.EXTERNAL_READ => Some REQUIRED_READ_SCOPE
  | RequestPurpose.EXTERNAL_PROPOSE => Some REQUIRED_PROPOSE_SCOPE
  | RequestPurpose.EXTERNAL_INTERACTION => Some REQUIRED_INTERACTION_SCOPE
  | _ => None
  end.

Definition BearerValidationError (code : string) : exn := Refused "BearerValidationError" code.

(** [s.split()]: [cur] is the word being read, reversed. *)
Fixpoint split_words (cur s : string) : list string :=
  match s with
  | "" => if truthy cur then [srev cur] else []
  | String c s => if is_space c then (if truthy cur then srev cur :: split_words "" s else split_words "" s)
                  else split_words (String c cur) s
  end.

Definition parse_scopes (raw : json) : list string :=
  match raw with
  | JStr s => split_words "" (replace_char "," " " s)
  | JList items => keep truthy (map py_str items)
  | _ => []
  end.

Definition scopes_allow_purpose (scopes : list string) (p : RequestPurpose.t) : bool :=
  match PURPOSE_REQUIRED_SCOPE p with
  | Some required => existsb (String.eqb required) scopes
  | None => false
  end.

(** [str(v) == resource], or some element when it is a list. *)
Definition names_resource (v : json) (resource : string) : bool :=
  match v with
  | JList items => existsb (String.eqb resource) (map py_str items)
  | _ => String.eqb (py_str v) resource
  end.

Definition _resource_matches (claims : dict) (resource : string) : bool :=
  match dict_lookup "resource" claims with
  | Some token_resource => names_resource token_resource resource
  | None => names_resource (dict_get "aud" claims) resource
  end.

(** [jwt.decode] of a token for an issuer and an audience, with a leeway, the
    configured key and algorithms and the required claims; [None] is any
    [PyJWTError]. *)
Class Jwt := { jwt_decode : string -> string -> string -> Z -> option dict }.

(** What [validate_bearer_token] adds to the claims. *)
Record Claims := {
  c_claims : dict;
  c_parsed_scopes : list string;
  c_client_id : string;
  c_subject : string;
  c_expires_at : Z;
}.

(** [a or b] on JSON values. *)
Definition json_or (a b : json) : json := if py_bool a then a else b.

Section bearer.
Context `{Jwt}.

Definition validate_bearer_token (token issuer audience : string) (resource : option string)
    (require_resource_claim : bool) (leeway_seconds current : Z) : res Claims :=
  _ ← raise_if (negb (truthy (strip token))) (BearerValidationError "missing_token");
  _ ← raise_if (negb (truthy (strip issuer)) || negb (truthy (strip audience)))
        (BearerValidationError "issuer_or_audience_unconfigured");
  _ ← raise_if (require_resource_claim && negb (truthy (strip (default "" resource))))
        (BearerValidationError "resource_unconfigured");
  claims ← of_option (BearerValidationError "invalid_token")
             (jwt_decode token (rstrip_slash issuer) audience leeway_seconds);
  _ ← match dict_get "nbf" claims with
      | JNull => mret tt
      | v => nbf ← json_int v; raise_if (current + leeway_seconds <? nbf) (BearerValidationError "token_not_yet_valid")
      end;
  e ← get_item "exp" claims;
  exp ← json_int e;
  _ ← raise_if (exp <? current - leeway_seconds) (BearerValidationError "token_expired");
  let client := json_or (dict_get "client_id" claims) (json_or (dict_get "azp" claims)
                  (json_or (dict_get "clientId" claims) (JStr ""))) in
  _ ← raise_if (negb (truthy (py_str client))) (BearerValidationError "missing_client");
  sub ← get_item "sub" claims;
  _ ← raise_if (negb (truthy (py_str sub))) (BearerValidationError "missing_sub");
  _ ← match resource with
      | Some r =>
          let has_claim := match dict_lookup "resource" claims with Some _ => true | None => false end in
          raise_if (truthy r && negb (_resource_matches claims r) &&
                    (if negb has_claim && negb (String.eqb (py_str (dict_get "aud" claims)) r)
                     then negb match dict_get "aud" claims with
                               | JList l => existsb (String.eqb r) (map py_str l) | _ => false end
                     else has_claim))
            (BearerValidationError "resource_mismatch")
      | None => mret tt
      end;
  let scopes := parse_scopes (json_or (dict_get "scope" claims) (dict_get "scopes" claims)) in
  _ ← raise_if (match scopes with [] => true | _ => false end) (BearerValidationError "missing_scopes");
  mret {| c_claims := claims; c_parsed_scopes := scopes; c_client_id := py_str client; c_subject := py_str sub;
          c_expires_at := exp |}.
End bearer.

(** ** Grants *)

Record ResolvedExternalGrant := {
  rg_grant_id : uuid;
  rg_account_id : uuid;
  rg_actor_id : uuid;
  rg_client_id : string;
  rg_scopes : list string;
}.

(** memdot_resolve_external_grant: the standing grants of a client, two at most. *)
Definition standing_grant (client_id : string) (account_id actor_id : option uuid) (g : ExternalClientGrant.t) : bool :=
  String.eqb (ExternalClientGrant.client_id g) client_id &&
  match account_id with Some a => same (ExternalClientGrant.account_id g) a | None => true end &&
  match actor_id with Some a => same (ExternalClientGrant.actor_id g) a | None => true end &&
  match ExternalClientGrant.revoked_at g with Some _ => false | None => true end.

Definition memdot_resolve_external_grant (client_id : string) (account_id actor_id : option uuid)
    : M (list ExternalClientGrant.t) :=
  rows ← select (standing_grant client_id account_id actor_id); mret (take 2 rows).

Definition resolve_external_grant (client_id : string) (account_id actor_id : option uuid) (token_scopes : list string)
    : M ResolvedExternalGrant :=
  _ ← guard (negb (truthy (strip client_id))) (BearerValidationError "missing_client");
  rows ← memdot_resolve_external_grant client_id account_id actor_id;
  match rows with
  | [row] =>
      _ ← guard (match ExternalClientGrant.revoked_at row with Some _ => true | None => false end)
                (BearerValidationError "grant_revoked");
      let grant_scopes := parse_scopes (JStr (ExternalClientGrant.scopes row)) in
      let effective := keep (fun s => existsb (String.eqb s) grant_scopes) token_scopes in
      _ ← guard (match effective with [] => true | _ => false end) (BearerValidationError "scope_mismatch");
      mret {| rg_grant_id := ExternalClientGrant.id row; rg_account_id := ExternalClientGrant.account_id row;
              rg_actor_id := ExternalClientGrant.actor_id row; rg_client_id := ExternalClientGrant.client_id row;
              rg_scopes := effective |}
  | _ => raiseM (BearerValidationError "grant_not_found")
  end.

(** ** The context of an external request *)

(** [try: m except ...: return None] around a computation that only reads. *)
Definition attempt {A} (catches : exn -> bool) (m : M A) : M (option A) := fun w =>
  match m w with
  | Ok (a, w') => Ok (Some a, w')
  | Raise e => if catches e then Ok (None, w) else Raise e
  end.

Definition is_bearer_error (e : exn) : bool := match e with Refused "BearerValidationError" _ => true | _ => false end.
Definition is_token_error (e : exn) : bool :=
  match e with ValueError _ | KeyError => true | _ => is_bearer_error e end.
Definition is_dbapi_error (e : exn) : bool := match e with DatabaseError _ | IntegrityError _ => true | _ => false end.

(** [try: ... except DBAPIError: reset_tenant_context(db); return None]: the
    statement that failed has aborted the transaction, so the statement of the
    handler fails too and its error leaves the function. *)
Definition or_reset {A} (m : M A) : M A := fun w =>
  match m w with
  | Ok r => Ok r
  | Raise e => Raise (if is_dbapi_error e then DatabaseError "in_failed_sql_transaction" else e)
  end.

(** Empty means no access, never all spaces. *)
Definition _eligible_non_private_spaces (account : uuid) : M (list uuid) :=
  spaces ← select (fun s => same (Space.account_id s) account);
  lift (foldr (fun s rest => v ← of_option (ValueError "SpaceVisibility") (of_value (A := SpaceVisibility.t) (Space.visibility s));
                             l ← rest;
                             mret (if bool_decide (v = SpaceVisibility.PRIVATE) then l else Space.id s :: l)) (Ok []) spaces).

(** What the process reads from its environment. *)
Record Config := {
  core_mcp_secret : option string;
  mcp_core_secret : option string;
  core_oidc_issuer : option string;
  mcp_oidc_issuer : option string;
  core_oidc_audience : option string;
  mcp_oidc_audience : option string;
  core_mcp_resource : option string;
  audience_as_resource : option string;
}.

Definition issuer_of (c : Config) : string := strip (or_text (core_oidc_issuer c) (mcp_oidc_issuer c)).
Definition audience_of (c : Config) : string :=
  strip (let a := or_text (core_oidc_audience c) (mcp_oidc_audience c) in if truthy a then a else "memdot-mcp").

(** The configured resource, or the audience when that is enabled. *)
Definition resource_of (c : Config) : option string :=
  let resource := strip (default "" (core_mcp_resource c)) in
  if truthy resource then Some resource
  else if existsb (String.eqb (lower (default "" (audience_as_resource c)))) ["1"; "true"; "yes"]
  then Some (audience_of c) else None.

Definition _extract_bearer (headers : Headers) : option string :=
  let header := default "" (headers "Authorization") in
  if negb (startswith "bearer " (lower header)) then None
  else let token := strip (drop_str 7 header) in if truthy token then Some token else None.

(** [uuid.UUID(str(v)) if v else None]. *)
Definition hint (v : json) : res (option uuid) :=
  if py_bool v then u ← of_option (ValueError "UUID") (parse_uuid (py_str v)); mret (Some u) else mret None.

Section session.
Context `{Env} `{Jwt}.

(** The key of the tenant seal and the nonce drawn for it. *)
Context (tenant_key : list Z) (seal_nonce : string).

Definition build_external_request_context (headers : Headers) (account actor : uuid) (p : RequestPurpose.t)
    (scopes : list string) : M (option RequestContext) :=
  if negb (bool_decide (p ∈ EXTERNAL_PURPOSES)) then mret None
  else if negb (scopes_allow_purpose scopes p) then mret None
  else
    _ ← or_reset (begin_tenant tenant_key true seal_nonce
                    {| tc_account_id := account; tc_actor_id := actor; tc_purpose := p |});
    fresh ← new_uuid;
    spaces ← _eligible_non_private_spaces account;
    mret (Some {| account_id := account; actor_id := actor; user_id := actor; purpose := p;
                  correlation_id := correlation_id_for_request (headers "X-Correlation-Id") (headers "X-Request-Id") fresh;
                  session_id := None; RequestContext.scopes := scopes; eligible_space_ids := spaces;
                  last_auth_at := None |}).

Definition service_context (headers : Headers) (required_purpose : option RequestPurpose.t) (g : ServiceAuthGrant)
    : M (option RequestContext) :=
  resolved ← attempt is_bearer_error
    (resolve_external_grant (sg_client_id g) (Some (sg_account_id g)) (Some (sg_actor_id g)) (sg_scopes g));
  match resolved with
  | None => mret None
  | Some r =>
      if negb (same (rg_account_id r) (sg_account_id g)) || negb (same (rg_actor_id r) (sg_actor_id g)) then mret None
      else if match required_purpose with Some p => negb (same (sg_purpose g) p) | None => false end then mret None
      else build_external_request_context headers (rg_account_id r) (rg_actor_id r)
             (default (sg_purpose g) required_purpose) (rg_scopes r)
  end.

(** The grant behind a bearer token. *)
Definition resolve_token (config : Config) (resource token : string) : M ResolvedExternalGrant :=
  current ← unix_time;
  c ← lift (validate_bearer_token token (issuer_of config) (audience_of config) (Some resource) true 30 current);
  let account_hint := json_or (dict_get "account_id" (c_claims c)) (dict_get "memdot_account_id" (c_claims c)) in
  let actor_hint := json_or (dict_get "actor_id" (c_claims c)) (dict_get "memdot_actor_id" (c_claims c)) in
  account ← lift (hint account_hint);
  actor ← lift (hint actor_hint);
  resolve_external_grant (c_client_id c) account actor (c_parsed_scopes c).

Definition bearer_context (config : Config) (headers : Headers) (required_purpose : option RequestPurpose.t)
    : M (option RequestContext) :=
  match _extract_bearer headers with
  | None => mret None
  | Some token =>
    match resource_of config with
    | None => mret None
    | Some resource =>
      resolved ← attempt is_token_error (resolve_token config resource token);
      match resolved with
      | None => mret None
      | Some r =>
          let p := default RequestPurpose.EXTERNAL_READ required_purpose in
          if negb (scopes_allow_purpose (rg_scopes r) p) then mret None
          else build_external_request_context headers (rg_account_id r) (rg_actor_id r) p (rg_scopes r)
      end
    end
  end.

Definition load_external_context (config : Config) (headers : Headers) (required_purpose : option RequestPurpose.t)
    : M (option RequestContext) :=
  service_grant ← parse_service_auth headers (or_text (core_mcp_secret config) (mcp_core_secret config));
  match service_grant with
  | Some g => service_context headers required_purpose g
  | None => bearer_context config headers required_purpose
  end.

Definition load_mcp_context (config : Config) (headers : Headers) (required_purpose : option RequestPurpose.t)
    : M (option RequestContext) :=
  load_external_context config headers required_purpose.
End session.

(** ** A context stands for a grant *)

(** The context acts under a standing grant of its account and actor, with
    scopes of the grant that allow its purpose, and may read the account's
    spaces that are not private. *)
Record granted_context (d : Db) (ctx : RequestContext) : Prop := {
  gc_purpose : purpose ctx ∈ EXTERNAL_PURPOSES;
  gc_allowed : scopes_allow_purpose (scopes ctx) (purpose ctx) = true;
  gc_grant : exists g, g ∈ rows d /\ ExternalClientGrant.account_id g = account_id ctx /\
    ExternalClientGrant.actor_id g = actor_id ctx /\ ExternalClientGrant.revoked_at g = None /\
    forall s, s ∈ scopes ctx -> s ∈ parse_scopes (JStr (ExternalClientGrant.scopes g));
  gc_actor : exists a, a ∈ rows d /\ Actor.account_id a = account_id ctx /\ Actor.id a = actor_id ctx /\
    Actor.revoked_at a = None /\ Actor.kind a = "external_client";
  gc_spaces : forall s, s ∈ eligible_space_ids ctx <->
    exists r, r ∈ rows d /\ Space.account_id r = account_id ctx /\ Space.id r = s /\
      Space.visibility r <> value SpaceVisibility.PRIVATE;
}.

Lemma eligible_Ok account w l w' : _eligible_non_private_spaces account w = Ok (l, w') ->
  w' = w /\ forall s, s ∈ l <-> exists r, r ∈ rows (db w) /\ Space.account_id r = account /\ Space.id r = s /\
    Space.visibility r <> value SpaceVisibility.PRIVATE.
Proof.
  unfold _eligible_non_private_spaces. intros Hm. step Hm as Hs. apply select_Ok in Hs as [-> ->]. apply lift_Ok in Hm as [Hm ->].
  split; [done|]. intros s.
  assert (Hl : forall l0 l1, foldr (fun s rest => v ← of_option (ValueError "SpaceVisibility") (of_value (A := SpaceVisibility.t) (Space.visibility s));
      l ← rest; mret (if bool_decide (v = SpaceVisibility.PRIVATE) then l else Space.id s :: l)) (Ok []) l0 = Ok l1 ->
    s ∈ l1 <-> exists r, r ∈ l0 /\ Space.id r = s /\ Space.visibility r <> value SpaceVisibility.PRIVATE).
  { clear. intros l0. induction l0 as [|r l0 IH]; intros l1 Hf; cbn [foldr] in Hf.
    - injection Hf as <-. split; [by intros ?%elem_of_nil|by intros (r & ?%elem_of_nil & _)].
    - apply bind_Ok in Hf as (v & Hv & Hf). apply bind_Ok in Hf as (l & Hl & Hf). specialize (IH _ Hl).
      apply of_option_Ok, of_value_Some in Hv. case_bool_decide as Hp.
      + injection Hf as <-. rewrite IH. subst v. split.
        * intros (r' & Hr' & Hrest). exists r'. by split; [right|].
        * intros (r' & [->|Hr']%elem_of_cons & Hid & Hvis); [by rewrite <- Hv in Hvis|]. by exists r'.
      + injection Hf as <-. rewrite elem_of_cons, IH. split.
        * intros [->|(r' & Hr' & Hrest)].
          -- exists r. split_and!; [by left|done|]. rewrite <- Hv. intros Heq. by apply Hp, value_inj.
          -- exists r'. by split; [right|].
        * intros (r' & [->|Hr']%elem_of_cons & Hid & Hvis); [by left|]. right. by exists r'. }
  rewrite (Hl _ _ Hm). split.
  - intros (r & [Hr Ha]%elem_of_keep & Hid & Hv). unfold same in Ha. apply bool_decide_eq_true in Ha. by exists r.
  - intros (r & Hr & Ha & Hid & Hv). exists r. split_and!; [|done|done]. apply elem_of_keep. split; [done|].
    unfold same. by apply bool_decide_eq_true.
Qed.

Section sound.
Context `{Env} `{Jwt}.

Lemma attempt_Ok {A} c (m : M A) w o w' : attempt c m w = Ok (o, w') ->
  match o with Some a => m w = Ok (a, w') | None => w' = w end.
Proof. unfold attempt. destruct (m w) as [[a w1]|e]; [by intros [= <- <-]|]. destruct (c e); [by intros [= <- <-]|done]. Qed.

Lemma or_reset_Ok {A} (m : M A) w r : or_reset m w = Ok r -> m w = Ok r.
Proof. unfold or_reset. by destruct (m w). Qed.

Lemma resolve_grant_Ok client account actor scopes w r w' :
  resolve_external_grant client account actor scopes w = Ok (r, w') ->
  w' = w /\ (forall s, s ∈ rg_scopes r -> s ∈ scopes) /\
  match account with Some a => rg_account_id r = a | None => True end /\
  exists g, g ∈ rows (db w) /\ ExternalClientGrant.account_id g = rg_account_id r /\
    ExternalClientGrant.actor_id g = rg_actor_id r /\ ExternalClientGrant.client_id g = client /\
    ExternalClientGrant.revoked_at g = None /\
    forall s, s ∈ rg_scopes r -> s ∈ parse_scopes (JStr (ExternalClientGrant.scopes g)).
Proof.
  unfold resolve_external_grant, memdot_resolve_external_grant. intros Hm. step Hm as Hg. cleanM. step Hm as Hs.
  step Hs as Hk. apply select_Ok in Hk as [-> ->]. cleanM. destruct (take 2 _) as [|g [|? ?]] eqn:E; try done.
  step Hm as Hr. apply guard_Ok in Hr as [Hr ->]. step Hm as Hf. cleanM. cbn [rg_scopes rg_account_id rg_actor_id].
  assert (Hin : g ∈ take 2 (keep (standing_grant client account actor) (rows (db w)))) by (rewrite E; by left).
  apply elem_of_take in Hin as (i & Hi & _). apply list_elem_of_lookup_2, elem_of_keep in Hi as [Hin Hp].
  unfold standing_grant, same in Hp. split_bool. split_and!; [done|by intros s [? _]%elem_of_keep| |].
  - destruct account; [|done]. by split_bool.
  - exists g. split_and!; try done; [by apply String.eqb_eq|by destruct (ExternalClientGrant.revoked_at g)|].
    intros s [_ Hs]%elem_of_keep. apply existsb_exists in Hs as (s' & Hs' & ->%String.eqb_eq). by apply list_elem_of_In.
Qed.

Variables (key : list Z) (nonce : string).

Lemma build_Ok headers account actor p scopes w ctx w' :
  build_external_request_context key nonce headers account actor p scopes w = Ok (Some ctx, w') ->
  (exists g, g ∈ rows (db w) /\ ExternalClientGrant.account_id g = account /\ ExternalClientGrant.actor_id g = actor /\
    ExternalClientGrant.revoked_at g = None /\ forall s, s ∈ scopes -> s ∈ parse_scopes (JStr (ExternalClientGrant.scopes g))) ->
  db w' = db w /\ purpose ctx = p /\ account_id ctx = account /\ granted_context (db w') ctx.
Proof.
  unfold build_external_request_context. intros Hm Hg. destruct (bool_decide (p ∈ EXTERNAL_PURPOSES)) eqn:Hp; [|by cleanM].
  pose proof Hp as Hpb. apply bool_decide_eq_true in Hp. destruct (scopes_allow_purpose scopes p) eqn:Hsc; [|by cleanM]. cbn [negb] in Hm.
  step Hm as Hb. apply or_reset_Ok in Hb.
  apply begin_Ok in Hb as (Hdb & _ & _ & _ & act & Ha & Haa & Hai & Har & He). cbn [tc_account_id tc_actor_id] in *.
  draw Hm. step Hm as Hs. apply eligible_Ok in Hs as [-> Hsp]. apply M_ret_Ok in Hm as [[= ->] ->]. cbn [db] in *. split_and!; [done|done|done|].
  split; cbn; rewrite ?Hdb; try done.
  - exists act. split_and!; try done. unfold entitled, tc_purpose in He.
    by destruct p; first [destruct He as [He _]; exact He|discriminate Hpb].
  - intros x. rewrite (Hsp x). by rewrite Hdb.
Qed.

Lemma service_context_Ok headers required g w ctx w' :
  service_context key nonce headers required g w = Ok (Some ctx, w') ->
  db w' = db w /\ account_id ctx = sg_account_id g /\ purpose ctx = sg_purpose g /\
  (forall p, required = Some p -> purpose ctx = p) /\ granted_context (db w') ctx.
Proof.
  unfold service_context. intros Hm. step Hm as Hr. apply attempt_Ok in Hr.
  match type of Hr with match ?o with _ => _ end => destruct o as [r|] end; [|by cleanM].
  apply resolve_grant_Ok in Hr as (-> & _ & Hacc & g' & Hg & Hga & Hgb & _ & Hgr & Hgs).
  destruct (_ || _) eqn:Hsame in Hm; [by cleanM|]. destruct (match required with Some p => _ | None => false end) eqn:Hreq in Hm; [by cleanM|].
  apply build_Ok in Hm as (Hdb & Hp & Ha & Hc); [|by exists g'].
  assert (Hpg : default (sg_purpose g) required = sg_purpose g).
  { destruct required as [p|]; [|done]. cbn. unfold same in Hreq. split_bool. done. }
  split_and!; [done|congruence|congruence| |done]. intros p ->. exact Hp.
Qed.

Lemma resolve_token_Ok config resource token w r w' : resolve_token config resource token w = Ok (r, w') ->
  db w' = db w /\ exists g, g ∈ rows (db w) /\ ExternalClientGrant.account_id g = rg_account_id r /\
    ExternalClientGrant.actor_id g = rg_actor_id r /\ ExternalClientGrant.revoked_at g = None /\
    forall s, s ∈ rg_scopes r -> s ∈ parse_scopes (JStr (ExternalClientGrant.scopes g)).
Proof.
  unfold resolve_token. intros Hm. draw Hm. step Hm as Hv. apply lift_Ok in Hv as [_ ->]. step Hm as Ha. apply lift_Ok in Ha as [_ ->].
  step Hm as Hc. apply lift_Ok in Hc as [_ ->]. apply resolve_grant_Ok in Hm as (-> & _ & _ & g & Hg & Hga & Hgb & _ & Hgr & Hgs).
  split; [done|]. by exists g.
Qed.

Lemma bearer_context_Ok config headers required w ctx w' :
  bearer_context key nonce config headers required w = Ok (Some ctx, w') ->
  db w' = db w /\ (forall p, required = Some p -> purpose ctx = p) /\ granted_context (db w') ctx.
Proof.
  unfold bearer_context. intros Hm. destruct (_extract_bearer headers) as [token|]; [|by cleanM].
  destruct (resource_of config) as [resource|]; [|by cleanM]. step Hm as Hr. apply attempt_Ok in Hr.
  match type of Hr with match ?o with _ => _ end => destruct o as [r|] end; [|by cleanM].
  apply resolve_token_Ok in Hr as (Hdb & g & Hg & Hga & Hgb & Hgr & Hgs). destruct (scopes_allow_purpose _ _); [|by cleanM]. cbn [negb] in Hm.
  apply build_Ok in Hm as (Hdb' & Hp & _ & Hc); [|exists g; by rewrite Hdb]. split_and!; [congruence| |done]. by intros p ->.
Qed.

(** The tables a context is resolved from are not written while it is. *)
Lemma parse_keeps R `{Table R} headers secret :
  (forall l d, rows (R := R) (set_rows (R := ServiceAuthNonce.t) l d) = rows d) -> keeps R (parse_service_auth headers secret).
Proof.
  intros Hother w o w' Hm. unfold parse_service_auth in Hm. draw Hm. step Hm as Hc. apply lift_Ok in Hc as [_ ->].
  match type of Hm with (match ?o with _ => _ end) _ = _ => destruct o as [[n g]|] end; [|by cleanM].
  step Hm as Hn. cleanM. unfold consume_service_auth_nonce, memdot_consume_service_auth_nonce in Hn. draw Hn.
  step Hn as Hd. injection Hd as <- <-. unfold insert_nonce in Hn. destruct (add _ _) as [[[] w2]|[]] eqn:E; try done.
  - injection Hn as <- <-. apply add_Ok in E as [_ ->]. cbn [db]. by rewrite !Hother.
  - injection Hn as <- <-. cbn [db]. by rewrite Hother.
Qed.

Lemma keeps_attempt R `{Table R} {A} c (m : M A) : keeps R m -> keeps R (attempt c m).
Proof. intros Hm w o w' Ha. apply attempt_Ok in Ha. destruct o as [x|]; [by eapply Hm|by subst]. Qed.

Lemma keeps_or_reset R `{Table R} {A} (m : M A) : keeps R m -> keeps R (or_reset m).
Proof. intros Hm w o w' Ha. apply or_reset_Ok in Ha. by eapply Hm. Qed.

Lemma build_keeps R `{Table R} headers account actor p scopes :
  keeps R (build_external_request_context key nonce headers account actor p scopes).
Proof.
  unfold build_external_request_context, _eligible_non_private_spaces. destruct (negb _); [apply keeps_ret|].
  destruct (negb _); [apply keeps_ret|]. apply keeps_bind; [apply keeps_or_reset, begin_keeps|intros _]. frame.
Qed.

(** Of the tables, only that of the nonces is written while a context is resolved. *)
Lemma load_keeps R `{Table R} config headers required :
  (forall l d, rows (R := R) (set_rows (R := ServiceAuthNonce.t) l d) = rows d) ->
  keeps R (load_mcp_context key nonce config headers required).
Proof.
  intros Hother. unfold load_mcp_context, load_external_context. apply keeps_bind; [by apply parse_keeps|]. intros [g|].
  - unfold service_context. apply keeps_bind; [apply keeps_attempt; unfold resolve_external_grant, memdot_resolve_external_grant; frame|].
    intros [r|]; [|apply keeps_ret]. repeat (match goal with |- keeps _ (if ?b then _ else _) => destruct b end; [apply keeps_ret|]). apply build_keeps.
  - unfold bearer_context. destruct (_extract_bearer headers) as [token|]; [|apply keeps_ret].
    destruct (resource_of config) as [resource|]; [|apply keeps_ret]. apply keeps_bind.
    + apply keeps_attempt. unfold resolve_token, resolve_external_grant, memdot_resolve_external_grant. frame.
    + intros [r|]; [|apply keeps_ret]. destruct (negb _); [apply keeps_ret|apply build_keeps].
Qed.

Lemma load_context_Ok config headers required w ctx w' :
  load_mcp_context key nonce config headers required w = Ok (Some ctx, w') ->
  granted_context (db w') ctx /\ (forall p, required = Some p -> purpose ctx = p).
Proof.
  unfold load_mcp_context, load_external_context. intros Hm. step Hm as Hp.
  match type of Hm with (match ?o with _ => _ end) _ = _ => destruct o as [g|] end.
  - by apply service_context_Ok in Hm as (Hdb & _ & _ & Hreq & Hc).
  - by apply bearer_context_Ok in Hm as (Hdb & Hreq & Hc).
Qed.

(** C20: a request becomes an external context only under a standing grant: the
    account and the actor are those of a grant that is not revoked, the actor
    is an external client in good standing, every scope is one the grant names
    and one of them allows the purpose, which is the required one; the spaces it
    may read are exactly the account's spaces that are not private. *)
Theorem external_context_sound config headers required w ctx w' :
  load_mcp_context key nonce config headers required w = Ok (Some ctx, w') ->
  granted_context (db w') ctx /\ (forall p, required = Some p -> purpose ctx = p) /\
  rows (R := ExternalClientGrant.t) (db w') = rows (db w) /\ rows (R := Actor.t) (db w') = rows (db w) /\
  rows (R := Space.t) (db w') = rows (db w).
Proof.
  intros Hm. destruct (load_context_Ok _ _ _ _ _ _ Hm) as [Hg Hp]. split; [exact Hg|]. split; [exact Hp|].
  split_and!; by eapply load_keeps.
Qed.
End sound.

(** ** Witness *)

Definition client_actor : Actor.t :=
  {| Actor.id := 2; Actor.account_id := 1; Actor.kind := "external_client"; Actor.reference_id := None;
     Actor.revoked_at := None; Actor.created_at := 0 |}.

Definition client_grant (revoked : option Z) : ExternalClientGrant.t :=
  {| ExternalClientGrant.id := 11; ExternalClientGrant.account_id := 1; ExternalClientGrant.actor_id := 2;
     ExternalClientGrant.client_id := "claude"; ExternalClientGrant.scopes := "memdot.memory.read, memdot.memory.propose";
     ExternalClientGrant.revoked_at := revoked; ExternalClientGrant.created_at := 0 |}.

Definition grant_world (revoked : option Z) (spaces : list Space.t) : World :=
  {| db := set_rows spaces (set_rows [client_actor] (set_rows [client_grant revoked] empty_db)); tick := 0 |}.

Definition sample_config : Config :=
  {| core_mcp_secret := Some sample_secret; mcp_core_secret := None; core_oidc_issuer := Some "https://id/"; mcp_oidc_issuer := None;
     core_oidc_audience := None; mcp_oidc_audience := None; core_mcp_resource := Some "https://m/mcp";
     audience_as_resource := None |}.

(** A token library that knows one token. *)
Definition sample_jwt : Jwt :=
  {| jwt_decode := fun token _ _ _ => if String.eqb token "t" then
       Some [("exp", JInt 1000); ("sub", JStr "s"); ("client_id", JStr "claude"); ("resource", JStr "https://m/mcp");
             ("scope", JStr "memdot.memory.read admin")] else None |}.

(** A clock that advances by a millisecond. *)
Definition brisk_env : Env := {| fresh_uuid := Z.of_nat; clock := fun n => Z.of_nat n * 1000 + 100000000; signing_key := [] |}.

Definition env_headers : Headers := request_of (sample_headers 100) "Bearer x".
Definition token_headers : Headers := fun h => if String.eqb h "Authorization" then Some "Bearer t" else None.

Notation load_sample headers w :=
  (@load_mcp_context brisk_env sample_jwt sample_key "00ff" sample_config headers (Some RequestPurpose.EXTERNAL_READ) w).

Definition scopes_of (r : res (option RequestContext * World)) : list string :=
  match r with Ok (Some ctx, _) => scopes ctx | _ => [] end.

Lemma external_context_sound_witness :
  scopes_of (load_sample env_headers (grant_world None [])) = ["memdot.memory.read"] /\
  scopes_of (load_sample env_headers (grant_world (Some 1) [])) = [] /\
  scopes_of (load_sample token_headers (grant_world None [])) = ["memdot.memory.read"] /\
  exists ctx w', load_sample env_headers (grant_world None []) = Ok (Some ctx, w') /\ granted_context (db w') ctx.
Proof.
  do 3 (split; [vm_compute; reflexivity|]).
  destruct (load_sample env_headers (grant_world None [])) as [[[ctx|] w']|e] eqn:E; [|vm_compute in E; discriminate E..].
  exists ctx, w'. split; [reflexivity|].
  exact (proj1 (@external_context_sound brisk_env sample_jwt sample_key "00ff" sample_config env_headers
    (Some RequestPurpose.EXTERNAL_READ) (grant_world None []) ctx w' E)).
Defined.
