(* ===== verification/Jobs.v ===== *)
(** * Durable jobs (services/core/src/memdot_core/jobs/service.py)

    Enqueueing a job with its outbox event, and the life of a job: attempts,
    completion, cancellation, the dead letter.  None of these operations looks
    at the status it replaces. *)

From Stdlib Require Import ZArith Lia.
From stdpp Require Import list strings.
From S2P Require Import Prelude PyStr Json Digest Uuid Enums Ledger Store Outbox RequestContext Deletion AuthSnapshot.
Open Scope Z_scope.

Record EnqueuedJob := { job_id : uuid; outbox_event_id : uuid }.

(** [d.pop(k, None)]. *)
Definition dict_pop (k : string) (d : dict) : dict := keep (fun kv => negb (String.eqb kv.1 k)) d.

(** The entries of the payload whose key ends in "_id", as strings. *)
Definition resource_ids_of (payload : dict) : list (string * string) :=
  map (fun kv => (kv.1, py_str kv.2))
    (keep (fun kv => endswith "_id" kv.1 && negb (bool_decide (kv.2 = JNull))) payload).

Definition job_of_key (account : uuid) (key : string) (j : DurableJob.t) : bool :=
  same (DurableJob.account_id j) account && opt_eqb (DurableJob.idempotency_key j) (Some key).

Definition event_of_job (account job : uuid) (event_type : string) (e : OutboxEvent.t) : bool :=
  same (OutboxEvent.account_id e) account && opt_eqb (OutboxEvent.durable_job_id e) (Some job) &&
  same (OutboxEvent.event_type e) event_type.

Definition the_job (account job : uuid) (j : DurableJob.t) : bool :=
  same (DurableJob.account_id j) account && same (DurableJob.id j) job.

Definition new_job (id : uuid) (ctx : RequestContext) (space : uuid) (job_type : string)
    (key : option string) (bound snapshot : dict) (t : Z) : DurableJob.t :=
  {| DurableJob.id := id; DurableJob.account_id := account_id ctx; DurableJob.job_type := job_type;
     DurableJob.status := value JobStatus.QUEUED; DurableJob.space_id := Some space;
     DurableJob.correlation_id := Some (correlation_id ctx); DurableJob.idempotency_key := key;
     DurableJob.payload := bound; DurableJob.progress := []; DurableJob.error_code := None;
     DurableJob.error_detail_safe := None; DurableJob.auth_snapshot := Some snapshot;
     DurableJob.created_at := t; DurableJob.updated_at := t;
     DurableJob.cancelled_at := None; DurableJob.dead_letter_at := None |}.

Section session.
Context `{Env}.

(** The job already enqueued under the key, when there is one with its event. *)
Definition find_enqueued (ctx : RequestContext) (job_type : string) (space : uuid) (digest : string)
    (event_type : string) (key : option string) : M (option EnqueuedJob) :=
  match key with
  | None => mret None
  | Some key =>
      if negb (truthy key) then mret None
      else
        existing ← select_opt (job_of_key (account_id ctx) key);
        match existing with
        | None => mret None
        | Some existing =>
            let existing_payload := dict_pop "durable_job_id" (DurableJob.payload existing) in
            _ ← guard (negb (String.eqb (DurableJob.job_type existing) job_type) ||
                       negb (opt_eqb (DurableJob.space_id existing) (Some space)) ||
                       negb (String.eqb (payload_sha256 existing_payload) digest))
                      (ValueError "idempotency_conflict");
            l ← select (event_of_job (account_id ctx) (DurableJob.id existing) event_type);
            existing_event ← lift (scalar_one_or_none (order_desc OutboxEvent.created_at l));
            mret (match existing_event with
                  | Some e => Some {| job_id := DurableJob.id existing; outbox_event_id := OutboxEvent.id e |}
                  | None => None
                  end)
        end
  end.

Definition enqueue_job_with_outbox (ctx : RequestContext) (job_type : string) (space : uuid) (payload : dict)
    (event_type : string) (idempotency_key : option string) : M EnqueuedJob :=
  found ← find_enqueued ctx job_type space (payload_sha256 payload) event_type idempotency_key;
  match found with
  | Some j => mret j
  | None =>
      job_id ← new_uuid;
      event_id ← new_uuid;
      let bound := dict_set "durable_job_id" (JStr (str_uuid job_id)) payload in
      t ← now;
      accepted_at ← unix_time;
      let snapshot := auth_snapshot_from_context signing_key ctx (Some space) (resource_ids_of bound)
                        DEFAULT_TTL_SECONDS accepted_at in
      _ ← add (new_job job_id ctx space job_type idempotency_key bound snapshot t);
      _ ← add (new_event event_id (account_id ctx) event_type bound (Some job_id) t);
      mret {| job_id := job_id; outbox_event_id := event_id |}
  end.

(** ** The life of a job *)

Definition attempt_of (account job : uuid) (a : JobAttempt.t) : bool :=
  same (JobAttempt.account_id a) account && same (JobAttempt.job_id a) job.

(** [order_by(attempt_number.desc()).first()], plus one. *)
Definition next_attempt_number (attempts : list JobAttempt.t) : Z :=
  match hd_error (order_desc JobAttempt.attempt_number attempts) with
  | None => 1
  | Some a => JobAttempt.attempt_number a + 1
  end.

Definition start_job_attempt (account job : uuid) : M uuid :=
  j ← select_one (the_job account job);
  attempts ← select (attempt_of account job);
  attempt_id ← new_uuid;
  t ← now;
  _ ← add {| JobAttempt.id := attempt_id; JobAttempt.account_id := account; JobAttempt.job_id := job;
             JobAttempt.attempt_number := next_attempt_number attempts;
             JobAttempt.status := value JobStatus.RUNNING; JobAttempt.started_at := Some t;
             JobAttempt.finished_at := None; JobAttempt.error_code := None;
             JobAttempt.error_detail_safe := None; JobAttempt.created_at := t |};
  t' ← now;
  _ ← update (DurableJob.id j) (fun r => DurableJob.set_updated_at t'
        (DurableJob.set_status (value JobStatus.RUNNING) r));
  mret attempt_id.

Definition complete_job (account job attempt : uuid) (succeeded : bool)
    (error_code error_detail_safe : option string) : M unit :=
  j ← select_one (the_job account job);
  a ← select_one (fun a => same (JobAttempt.account_id a) account && same (JobAttempt.id a) attempt);
  let status := value (if succeeded then JobStatus.SUCCEEDED else JobStatus.FAILED) in
  t ← now;
  _ ← update (JobAttempt.id a) (fun r => JobAttempt.set_error_detail_safe error_detail_safe
        (JobAttempt.set_error_code error_code (JobAttempt.set_status status
          (JobAttempt.set_finished_at (Some t) r))));
  t' ← now;
  update (DurableJob.id j) (fun r => DurableJob.set_updated_at t'
    (DurableJob.set_error_detail_safe error_detail_safe (DurableJob.set_error_code error_code
      (DurableJob.set_status status r)))).

(** [2 ** n] for [n >= 0]; attempts are numbered from 1. *)
Definition retry_delay_seconds (attempt_number : Z) : Z :=
  let base := Z.min (2 ^ attempt_number) 300 in
  base + attempt_number mod 7.

Definition mark_dead_letter (account job : uuid) : M unit :=
  j ← select_one (the_job account job);
  t ← now;
  t' ← now;
  update (DurableJob.id j) (fun r => DurableJob.set_updated_at t' (DurableJob.set_dead_letter_at (Some t)
    (DurableJob.set_status (value JobStatus.DEAD_LETTER) r))).

Definition cancel_job (account job : uuid) : M unit :=
  j ← select_one (the_job account job);
  t ← now;
  t' ← now;
  update (DurableJob.id j) (fun r => DurableJob.set_updated_at t' (DurableJob.set_cancelled_at (Some t)
    (DurableJob.set_status (value JobStatus.CANCELLED) r))).
End session.

(** ** Lemmas *)

Lemma dict_pop_set k v (d : dict) : dict_lookup k d = None -> dict_pop k (dict_set k v d) = d.
Proof.
  unfold dict_pop, keep. intros Hn. induction d as [|[k' v'] d IH]; cbn [dict_set List.filter fst].
  - by rewrite String.eqb_refl.
  - unfold dict_lookup in Hn. cbn [first fst] in Hn.
    destruct (String.eqb k' k) eqn:E; [done|]. cbn [List.filter fst]. rewrite E. cbn [negb].
    f_equal. by apply IH.
Qed.

Lemma order_desc_perm {R} (key : R -> Z) l : order_desc key l ≡ₚ l.
Proof. apply sort_by_perm. Qed.

Lemma order_desc_head {R} (key : R -> Z) l x :
  hd_error (order_desc key l) = Some x -> x ∈ l /\ forall y, y ∈ l -> key y <= key x.
Proof.
  intros Hh. assert (Hs := sort_by_sorted (fun a b => key b <=? key a)
    ltac:(intros; rewrite !Z.leb_le; lia) ltac:(intros ???; rewrite !Z.leb_le; lia) l).
  fold (order_desc key l) in Hs. pose proof (order_desc_perm key l) as Hp.
  destruct (order_desc key l) as [|y k]; [done|]. injection Hh as ->.
  split; [rewrite <- Hp; set_solver|]. intros y Hy. rewrite <- Hp in Hy.
  apply elem_of_cons in Hy as [->|Hy]; [lia|].
  inversion Hs as [|? ? _ Hf]. rewrite Forall_forall in Hf. specialize (Hf y Hy).
  by apply Z.leb_le.
Qed.

Lemma order_desc_nil {R} (key : R -> Z) l : hd_error (order_desc key l) = None -> l = [].
Proof.
  pose proof (order_desc_perm key l) as Hp. destruct (order_desc key l); [|done].
  intros _. symmetry in Hp. by apply Permutation_nil_r in Hp.
Qed.

Lemma keep_snoc_hit {A} (p : A -> bool) l x : keep p l = [] -> p x = true -> keep p (l ++ [x]) = [x].
Proof. intros Hl Hx. rewrite keep_app, Hl. unfold keep. simpl. by rewrite Hx. Qed.

Lemma scalar_opt_desc {R} (key : R -> Z) l (o : option R) :
  scalar_one_or_none (order_desc key l) = Ok o -> l = match o with Some x => [x] | None => [] end.
Proof.
  rewrite scalar_opt_Ok. pose proof (order_desc_perm key l) as Hp.
  destruct o; intros Hk; rewrite Hk in Hp; symmetry in Hp.
  - by apply Permutation_singleton_r in Hp.
  - by apply Permutation_nil_r in Hp.
Qed.

Definition attempt_numbers (account job : uuid) (w : World) : list Z :=
  map JobAttempt.attempt_number (keep (attempt_of account job) (rows (db w))).

Lemma next_attempt_seq l n :
  map JobAttempt.attempt_number l ≡ₚ seqZ 1 n -> 0 <= n -> next_attempt_number l = n + 1.
Proof.
  intros Hp Hn. unfold next_attempt_number.
  destruct (hd_error _) as [a|] eqn:E.
  - apply order_desc_head in E as [Ha Hm].
    assert (H1 : JobAttempt.attempt_number a ∈ seqZ 1 n).
    { rewrite <- Hp. apply list_elem_of_fmap. by exists a. }
    assert (H2 : 1 <= n). { apply elem_of_seqZ in H1. lia. }
    assert (H3 : n ∈ seqZ 1 n) by (apply elem_of_seqZ; lia).
    rewrite <- Hp in H3. apply list_elem_of_fmap in H3 as (b & -> & Hb).
    specialize (Hm b Hb). apply elem_of_seqZ in H1. lia.
  - apply order_desc_nil in E. subst l. cbn [map] in Hp.
    apply Permutation_length in Hp. rewrite length_seqZ in Hp. cbn [length] in Hp. lia.
Qed.

Lemma start_job_attempt_Ok `{Env} account job w a w' :
  start_job_attempt account job w = Ok (a, w') ->
  exists j t t', keep (the_job account job) (rows (db w)) = [j] /\
    (forall x, x ∈ rows (R := JobAttempt.t) (db w) -> JobAttempt.id x <> a) /\
    rows (db w') = rows (db w) ++
      [{| JobAttempt.id := a; JobAttempt.account_id := account; JobAttempt.job_id := job;
          JobAttempt.attempt_number := next_attempt_number (keep (attempt_of account job) (rows (db w)));
          JobAttempt.status := "running"; JobAttempt.started_at := Some t;
          JobAttempt.finished_at := None; JobAttempt.error_code := None;
          JobAttempt.error_detail_safe := None; JobAttempt.created_at := t |}] /\
    rows (db w') = map (fun r => if DurableJob.id r =? DurableJob.id j
      then DurableJob.set_updated_at t' (DurableJob.set_status "running" r) else r) (rows (db w)).
Proof.
  intros Hm. unfold start_job_attempt in Hm. stepM Hm. apply select_one_Ok in H0 as [Hk ->].
  stepM Hm. apply select_Ok in H0 as [-> ->]. draw Hm. draw Hm. stepM Hm.
  apply add_Ok in H0 as [Hc ->]. draw Hm. stepM Hm. apply update_Ok in H0 as ->. cleanM.
  eexists _, _, _. split; [exact Hk|]. split; [|rows_simpl; done].
  intros x Hx Hid. specialize (Hc x Hx). cbn in Hc. unfold JobAttempt.clash, same in Hc.
  rewrite (bool_decide_true (JobAttempt.id x = _)) in Hc by done. done.
Qed.

Lemma complete_job_Ok `{Env} account job a ok code detail w w' :
  complete_job account job a ok code detail w = Ok (tt, w') ->
  let final := value (if ok then JobStatus.SUCCEEDED else JobStatus.FAILED) in
  exists j x t t', keep (the_job account job) (rows (db w)) = [j] /\
    keep (fun a' => same (JobAttempt.account_id a') account && same (JobAttempt.id a') a) (rows (db w)) = [x] /\
    rows (db w') = map (fun r => if JobAttempt.id r =? JobAttempt.id x then
      JobAttempt.set_error_detail_safe detail (JobAttempt.set_error_code code
        (JobAttempt.set_status final (JobAttempt.set_finished_at (Some t) r))) else r) (rows (db w)) /\
    rows (db w') = map (fun r => if DurableJob.id r =? DurableJob.id j then
      DurableJob.set_updated_at t' (DurableJob.set_error_detail_safe detail
        (DurableJob.set_error_code code (DurableJob.set_status final r))) else r) (rows (db w)).
Proof.
  intros Hm. unfold complete_job in Hm. stepM Hm. apply select_one_Ok in H0 as [Hk ->].
  stepM Hm. apply select_one_Ok in H0 as [Hx ->]. draw Hm. stepM Hm. apply update_Ok in H0 as ->.
  draw Hm. apply update_Ok in Hm as ->. eexists _, _, _, _. split; [exact Hk|]. split; [exact Hx|].
  rows_simpl. done.
Qed.

(** The row a select found is still found after its update. *)
Lemma updated_row {R} `{Table R} (p : R -> bool) (f : R -> R) l x :
  keep p l = [x] -> (forall r, p (f r) = p r) ->
  exists y, y ∈ map (fun r => if row_id r =? row_id x then f r else r) l /\ p y = true /\ y = f x.
Proof.
  intros Hk Hf. apply keep_one in Hk as [Hx Hp]. exists (f x). split_and!; [|by rewrite Hf|done].
  apply list_elem_of_fmap. exists x. split; [|done]. by rewrite Z.eqb_refl.
Qed.

(** The state of a job and its event after it was enqueued under a key. *)
Definition enqueued (ctx : RequestContext) (job_type : string) (space : uuid) (payload : dict)
    (event_type key : string) (j : EnqueuedJob) (w : World) : Prop :=
  exists row ev,
    keep (job_of_key (account_id ctx) key) (rows (db w)) = [row] /\
    keep (event_of_job (account_id ctx) (job_id j) event_type) (rows (db w)) = [ev] /\
    DurableJob.id row = job_id j /\ OutboxEvent.id ev = outbox_event_id j /\
    DurableJob.job_type row = job_type /\ DurableJob.space_id row = Some space /\
    payload_sha256 (dict_pop "durable_job_id" (DurableJob.payload row)) = payload_sha256 payload.

Section proofs.
Context `{Env}.

Lemma find_enqueued_again ctx jt sp p et key j w :
  truthy key = true -> enqueued ctx jt sp p et key j w ->
  find_enqueued ctx jt sp (payload_sha256 p) et (Some key) w = Ok (Some j, w).
Proof.
  intros Ht (row & ev & Hj & He & Hid & Hev & H1 & H2 & H3). unfold find_enqueued. rewrite Ht. cbn [negb].
  rewrite (M_bind_step _ _ _ (Some row) w) by (apply select_opt_Ok; done).
  rewrite H1, H2, H3, !String.eqb_refl. unfold opt_eqb. rewrite bool_decide_true by done. cbn [negb orb].
  rewrite (M_bind_step _ _ _ tt w) by done.
  rewrite (M_bind_step _ _ _ [ev] w) by (apply select_Ok; rewrite Hid; done).
  rewrite (M_bind_step _ _ _ (Some ev) w) by done.
  rewrite Hid, Hev. by destruct j.
Qed.

Lemma find_enqueued_conflict ctx jt sp p et key j jt' sp' d' et' w :
  truthy key = true -> enqueued ctx jt sp p et key j w ->
  (jt', sp', d') <> (jt, sp, payload_sha256 p) ->
  find_enqueued ctx jt' sp' d' et' (Some key) w = Raise (ValueError "idempotency_conflict").
Proof.
  intros Ht (row & ev & Hj & He & Hid & Hev & H1 & H2 & H3) Hne. unfold find_enqueued. rewrite Ht. cbn [negb].
  rewrite (M_bind_step _ _ _ (Some row) w) by (apply select_opt_Ok; done).
  apply M_bind_fail. rewrite H1, H2, H3. unfold guard, opt_eqb.
  destruct (String.eqb_spec jt jt') as [->|]; [|done].
  destruct (bool_decide_reflect (Some sp = Some sp')) as [[= ->]|]; [|done].
  destruct (String.eqb_spec (payload_sha256 p) d') as [<-|]; [|done]. done.
Qed.

Lemma find_enqueued_Ok ctx jt sp p et key r w w' :
  truthy key = true ->
  find_enqueued ctx jt sp (payload_sha256 p) et (Some key) w = Ok (r, w') ->
  w' = w /\
  match r with
  | Some j => enqueued ctx jt sp p et key j w
  | None => keep (job_of_key (account_id ctx) key) (rows (db w)) = [] \/
      exists row, keep (job_of_key (account_id ctx) key) (rows (db w)) = [row] /\
        keep (event_of_job (account_id ctx) (DurableJob.id row) et) (rows (db w)) = []
  end.
Proof.
  intros Ht Hm. unfold find_enqueued in Hm. rewrite Ht in Hm. cbn [negb] in Hm.
  stepM Hm. apply select_opt_Ok in H0 as [Hk ->]. destruct a as [row|]; cleanM; [|by auto].
  stepM Hm. apply guard_Ok in H0 as [[[H1 H2]%orb_false_elim H3]%orb_false_elim ->].
  rewrite negb_false_iff in H1, H2, H3. apply String.eqb_eq in H1, H3.
  unfold opt_eqb in H2. apply bool_decide_eq_true in H2.
  stepM Hm. apply select_Ok in H0 as [-> ->]. stepM Hm.
  apply lift_Ok in H0 as [H4%scalar_opt_desc ->]. cleanM.
  split; [done|]. destruct a0 as [e|]; [|right; eauto].
  exists row, e. done.
Qed.

Lemma enqueue_enqueued ctx jt sp p et key j w w' :
  truthy key = true -> dict_lookup "durable_job_id" p = None ->
  (forall e id, e ∈ rows (R := OutboxEvent.t) (db w) -> OutboxEvent.durable_job_id e = Some id ->
     exists r, r ∈ rows (R := DurableJob.t) (db w) /\ DurableJob.id r = id) ->
  (forall r, r ∈ rows (R := DurableJob.t) (db w) -> job_of_key (account_id ctx) key r = true ->
     keep (event_of_job (account_id ctx) (DurableJob.id r) et) (rows (db w)) <> []) ->
  enqueue_job_with_outbox ctx jt sp p et (Some key) w = Ok (j, w') ->
  enqueued ctx jt sp p et key j w'.
Proof.
  intros Ht Hp Hfk Hev Hm. unfold enqueue_job_with_outbox in Hm. stepM Hm.
  apply find_enqueued_Ok in H0 as [-> Hf]; [|done]. destruct a as [j'|]; [by cleanM|].
  destruct Hf as [Hk|(row & Hk & He)]; [|by destruct (keep_one _ _ _ Hk), (Hev row)].
  draw Hm. draw Hm. draw Hm. draw Hm. stepM Hm. stepM Hm. cleanM.
  apply add_Ok in H0 as [Hc1 ->]. apply add_Ok in H1 as [Hc2 ->]. cbn [db] in *.
  eexists _, _. split_and!.
  - rows_simpl. apply keep_snoc_hit; [exact Hk|].
    unfold job_of_key, same, opt_eqb. cbn. by rewrite !bool_decide_true.
  - rows_simpl. apply keep_snoc_hit.
    + apply keep_nil. intros e Hin. unfold event_of_job, opt_eqb. rewrite andb_false_iff, andb_false_iff. left. right.
      apply bool_decide_eq_false. intros Hd. destruct (Hfk e _ Hin Hd) as (r & Hr & Hid).
      specialize (Hc1 r Hr). cbn in Hc1. unfold DurableJob.clash, same in Hc1.
      rewrite (bool_decide_true (DurableJob.id r = _)) in Hc1 by (cbn in *; congruence). done.
    + unfold event_of_job, same, opt_eqb. cbn. by rewrite !bool_decide_true.
  - done.
  - done.
  - done.
  - done.
  - exact (f_equal payload_sha256 (dict_pop_set _ _ _ Hp)).
Qed.
End proofs.

(** ** Properties *)

(** C3: enqueueing under an idempotency key happens once: when each job of the
    key has its event, the call leaves one job and one event under the key; the
    same call then returns the same job and event and writes nothing, and a
    call under the key with another job type, space or payload raises
    idempotency_conflict. *)
Theorem enqueue_idempotent `{Env} ctx jt sp p et key j w w' :
  truthy key = true -> dict_lookup "durable_job_id" p = None ->
  (forall e id, e ∈ rows (R := OutboxEvent.t) (db w) -> OutboxEvent.durable_job_id e = Some id ->
     exists r, r ∈ rows (R := DurableJob.t) (db w) /\ DurableJob.id r = id) ->
  (forall r, r ∈ rows (R := DurableJob.t) (db w) -> job_of_key (account_id ctx) key r = true ->
     keep (event_of_job (account_id ctx) (DurableJob.id r) et) (rows (db w)) <> []) ->
  enqueue_job_with_outbox ctx jt sp p et (Some key) w = Ok (j, w') ->
  enqueued ctx jt sp p et key j w' /\
  (forall w2, db w2 = db w' -> enqueue_job_with_outbox ctx jt sp p et (Some key) w2 = Ok (j, w2)) /\
  (forall w2 jt' sp' p' et', db w2 = db w' -> (jt', sp', payload_sha256 p') <> (jt, sp, payload_sha256 p) ->
     enqueue_job_with_outbox ctx jt' sp' p' et' (Some key) w2 = Raise (ValueError "idempotency_conflict")).
Proof.
  intros Ht Hp Hfk Hev Hm. pose proof (enqueue_enqueued _ _ _ _ _ _ _ _ _ Ht Hp Hfk Hev Hm) as He.
  assert (Hw : forall w2, db w2 = db w' -> enqueued ctx jt sp p et key j w2).
  { intros w2 Hd. unfold enqueued. by rewrite Hd. }
  split; [done|]. split.
  - intros w2 Hd. unfold enqueue_job_with_outbox.
    by rewrite (M_bind_step _ _ _ _ _ (find_enqueued_again _ _ _ _ _ _ _ _ Ht (Hw w2 Hd))).
  - intros w2 jt' sp' p' et' Hd Hne. unfold enqueue_job_with_outbox.
    by apply M_bind_fail, (find_enqueued_conflict _ jt sp p et _ j); [|apply Hw|].
Qed.

(** The attempts of a job are numbered without gap or repetition: when they
    are 1 to n, starting an attempt adds the attempt n + 1, and the job and the
    attempt are running; completing it gives both the same final status. *)
Theorem attempts_numbered `{Env} account job n w a w' :
  0 <= n -> attempt_numbers account job w ≡ₚ seqZ 1 n ->
  start_job_attempt account job w = Ok (a, w') ->
  attempt_numbers account job w' ≡ₚ seqZ 1 (n + 1) /\
  (exists r, r ∈ rows (db w') /\ the_job account job r = true /\ DurableJob.status r = "running") /\
  forall ok code detail w2, complete_job account job a ok code detail w' = Ok (tt, w2) ->
    let final := value (if ok then JobStatus.SUCCEEDED else JobStatus.FAILED) in
    (exists r, r ∈ rows (db w2) /\ the_job account job r = true /\ DurableJob.status r = final) /\
    (exists t, t ∈ rows (db w2) /\ JobAttempt.id t = a /\ JobAttempt.status t = final /\
       JobAttempt.attempt_number t = n + 1) /\
    attempt_numbers account job w2 ≡ₚ seqZ 1 (n + 1).
Proof.
  intros Hn Hp Hm. apply start_job_attempt_Ok in Hm as (j & t & t' & Hk & Hid & Ha & Hj).
  rewrite (next_attempt_seq _ n Hp Hn) in Ha.
  assert (Hp' : attempt_numbers account job w' ≡ₚ seqZ 1 (n + 1)).
  { unfold attempt_numbers in *. rewrite Ha, keep_app. unfold keep at 2. cbn [List.filter].
    unfold attempt_of at 2, same. cbn. rewrite !bool_decide_true by done. cbn.
    rewrite map_app, Hp, seqZ_app by lia. cbn. by rewrite Z.add_comm. }
  split; [done|]. split.
  - destruct (updated_row _ (fun r => DurableJob.set_updated_at t' (DurableJob.set_status "running" r)) _ _ Hk)
      as (y & Hy & Hpy & ->); [done|]. eexists. rewrite Hj. split; [exact Hy|]. split; [done|]. done.
  - intros ok code detail w2 Hc. apply complete_job_Ok in Hc as (j2 & x & u & u' & Hk2 & Hx & Ha2 & Hj2).
    split_and!.
    + destruct (updated_row _ (fun r => DurableJob.set_updated_at u' (DurableJob.set_error_detail_safe detail
        (DurableJob.set_error_code code (DurableJob.set_status
          (value (if ok then JobStatus.SUCCEEDED else JobStatus.FAILED)) r)))) _ _ Hk2)
        as (y & Hy & Hpy & ->); [done|]. eexists. rewrite Hj2. split; [exact Hy|]. split; [done|]. done.
    + destruct (updated_row _ (fun r => JobAttempt.set_error_detail_safe detail (JobAttempt.set_error_code code
        (JobAttempt.set_status (value (if ok then JobStatus.SUCCEEDED else JobStatus.FAILED))
          (JobAttempt.set_finished_at (Some u) r)))) _ _ Hx) as (y & Hy & Hpy & ->); [done|].
      apply keep_one in Hx as [Hin Hpx]. split_bool. unfold same in *. split_bool.
      rewrite Ha in Hin. apply elem_of_app in Hin as [Hin|Hin]; [by destruct (Hid x Hin)|].
      apply list_elem_of_singleton in Hin as ->. eexists. rewrite Ha2. split; [exact Hy|]. done.
    + unfold attempt_numbers in *. rewrite Ha2, keep_map by (intros r; by destruct (_ =? _)).
      rewrite map_map, (map_ext _ JobAttempt.attempt_number) by (intros r; by destruct (_ =? _)). done.
Qed.

Definition job_payload : dict := [("source_id", JStr "s"); ("n", JInt 3)].

Lemma enqueue_idempotent_witness :
  exists j w', @enqueue_job_with_outbox test_env test_ctx "ingestion.parse" 7 job_payload "source.upload_completed"
      (Some "k") empty_world = Ok (j, w') /\
    @enqueue_job_with_outbox test_env test_ctx "ingestion.parse" 7 job_payload "source.upload_completed"
      (Some "k") w' = Ok (j, w') /\
    @enqueue_job_with_outbox test_env test_ctx "ingestion.parse" 8 job_payload "source.upload_completed"
      (Some "k") w' = Raise (ValueError "idempotency_conflict").
Proof.
  destruct (@enqueue_job_with_outbox test_env test_ctx "ingestion.parse" 7 job_payload "source.upload_completed"
    (Some "k") empty_world) as [[j w']|] eqn:E; [|exfalso; revert E; vm_compute; discriminate].
  exists j, w'. split; [reflexivity|].
  destruct (@enqueue_idempotent test_env test_ctx "ingestion.parse" 7 job_payload "source.upload_completed" "k"
    j empty_world w') as (_ & Hagain & Hother).
  - reflexivity.
  - reflexivity.
  - intros e id He. exfalso. exact (not_elem_of_nil e He).
  - intros r Hr. exfalso. exact (not_elem_of_nil r Hr).
  - exact E.
  - split; [apply Hagain; reflexivity|]. apply Hother; [reflexivity|]. intros Hf. discriminate Hf.
Defined.

Definition sample_job : DurableJob.t := new_job 9 test_ctx 7 "ingestion.parse" None [] [] 0.

Definition job_world : World := {| db := set_rows [sample_job] empty_db; tick := 0 |}.

Lemma attempts_numbered_witness :
  exists a w', @start_job_attempt test_env 1 9 job_world = Ok (a, w') /\
    attempt_numbers 1 9 w' ≡ₚ seqZ 1 1.
Proof.
  destruct (@start_job_attempt test_env 1 9 job_world) as [[a w']|] eqn:E;
    [|exfalso; revert E; vm_compute; discriminate].
  exists a, w'. split; [reflexivity|].
  apply (@attempts_numbered test_env 1 9 0 job_world a w'); [lia|reflexivity|exact E].
Defined.
