(* ===== verification/Parsers.v ===== *)
(** * Parsers (services/core/src/memdot_core/parsers/, memdot_domain/ports/parser.py,
    services/core/src/memdot_core/ingestion/normalize.py)

    The parser port as a record, the parsers behind it, the choice between them
    and the limits they run under.  [bytes.decode("utf-8", errors="replace")] is
    the variable [decode]: the model's strings have Latin-1 code points only.
    The docling package is third-party: [docling] is what importing it gives. *)

From Stdlib Require Import Ascii ZArith Lia.
From stdpp Require Import list strings.
From S2P Require Import Prelude PyStr Json Digest Uuid Enums Float64.
Open Scope Z_scope.

Record ElementLocator := { loc_kind : string; loc_value : string }.

Record NormalizedElement := {
  element_id : uuid; kind : ElementKind.t; order_index : Z; parent_element_id : option uuid;
  exact_text : string; normalized_text : string; content_hash : string; locator : ElementLocator;
  language : option string; confidence : option f64; warnings : list string; metadata : list (string * string);
}.

Record ParseResult := {
  profile : ParserProfile.t; profile_hash : string; elements : list NormalizedElement; page_count : Z;
  quality_score : f64; raw_artifact_bytes : list Z; diagnostics : list string;
}.

(** A parser: its profile and the hash of it, and [parse(content, mime_type,
    language_hints, parse_run_id)]. *)
Record ParserPort := {
  port_profile : ParserProfile.t;
  port_profile_hash : string;
  parse : list Z -> string -> list string -> uuid -> res ParseResult;
}.

(** ** Resource limits *)

Definition max_file_bytes : Z := 50 * 1024 * 1024.
Definition max_pages : Z := 500.
Definition max_archive_entries : Z := 200.
Definition max_archive_uncompressed_bytes : Z := 200 * 1024 * 1024.
Definition max_recursion_depth : Z := 3.
Definition max_decompression_ratio : f64 := of_int 50.

Definition check_file_size (size_bytes : Z) : res unit :=
  _ ← raise_if (size_bytes <? 0) (ResourceLimitExceeded "negative_size");
  raise_if (max_file_bytes <? size_bytes) (ResourceLimitExceeded "file_too_large").

Definition check_page_count (page_count : Z) : res unit :=
  raise_if (max_pages <? page_count) (ResourceLimitExceeded "too_many_pages").

Definition check_archive_entry_count (entries : Z) : res unit :=
  raise_if (max_archive_entries <? entries) (ResourceLimitExceeded "too_many_archive_entries").

(** Integer true division is the correctly rounded quotient. *)
Definition check_decompression_ratio (compressed uncompressed : Z) : res unit :=
  _ ← raise_if (compressed <=? 0) (ResourceLimitExceeded "invalid_compressed_size");
  let ratio := lit uncompressed compressed in
  _ ← raise_if (max_decompression_ratio <? ratio) (ResourceLimitExceeded "decompression_ratio_exceeded");
  raise_if (max_archive_uncompressed_bytes <? uncompressed) (ResourceLimitExceeded "archive_uncompressed_too_large").

Definition check_recursion_depth (depth : Z) : res unit :=
  raise_if (max_recursion_depth <? depth) (ResourceLimitExceeded "archive_recursion_too_deep").

(** ** Text *)

(** [json.dumps] with the default separators of a flat object. *)
Definition dumps_flat (d : dict) : string :=
  "{" +:+ join ", " (map (fun kv => print_str kv.1 +:+ ": " +:+ print kv.2) d) +:+ "}".

Definition line_element (run : uuid) (hints : list string) (index : nat) (line : string) : NormalizedElement :=
  let content_hash := sha256_str line in
  let n := str_of_Z (Z.of_nat index + 1) in
  {| element_id := Uuid.element_id run ("line:" +:+ n) content_hash; kind := ElementKind.PARAGRAPH;
     order_index := Z.of_nat index; parent_element_id := None; exact_text := line;
     normalized_text := strip line; content_hash := content_hash;
     locator := {| loc_kind := "line"; loc_value := n |}; language := hd_error hints;
     confidence := Some one; warnings := []; metadata := [] |}.

Section text.
Variable decode : list Z -> string.

Definition native_text_parse (content : list Z) (mime : string) (hints : list string) (run : uuid) : res ParseResult :=
  let lines := keep (fun line => truthy (strip line)) (splitlines (decode content)) in
  let n := Z.of_nat (length lines) in
  Ok {| profile := ParserProfile.NATIVE_TEXT; profile_hash := sha256_str "native_text_v1";
        elements := imap (line_element run hints) lines; page_count := Z.max 1 (n / 40 + 1);
        quality_score := if bool_decide (lines = []) then 0 else one;
        raw_artifact_bytes := utf8 (dumps_flat [("lines", JInt n)]); diagnostics := [] |}.

Definition NativeTextParser : ParserPort :=
  {| port_profile := ParserProfile.NATIVE_TEXT; port_profile_hash := sha256_str "native_text_v1";
     parse := native_text_parse |}.
End text.

(** ** PDF *)

(** The bytes up to the parenthesis that closes the group, when no backslash
    comes first, and what follows it: the tail of a match of [_STREAM_TEXT]. *)
Fixpoint group (bs : list Z) : option (list Z * list Z) :=
  match bs with
  | [] => None
  | b :: bs =>
      if b =? 41 then Some ([], bs)
      else if b =? 92 then None
      else match group bs with Some (g, r) => Some (b :: g, r) | None => None end
  end.

(** [_STREAM_TEXT.finditer]: leftmost matches, not overlapping. *)
Fixpoint stream_text (fuel : nat) (bs : list Z) : list (list Z) :=
  match fuel, bs with
  | S fuel, b :: bs =>
      if b =? 40 then
        match group bs with
        | Some (g, r) => g :: stream_text fuel r
        | None => stream_text fuel bs
        end
      else stream_text fuel bs
  | _, _ => []
  end.

(** [decode("latin-1")]: a byte is a code point. *)
Definition latin1 (bs : list Z) : string :=
  foldr (fun b s => String (ascii_of_N (Z.to_N b)) s) "" bs.

Definition fragments_of (content : list Z) : list string :=
  let c := take (Z.to_nat 500000) content in
  keep (fun piece => truthy piece && (2 <? String.length piece)%nat)
    (map (fun g => strip (latin1 g)) (stream_text (length c) c)).

Definition pdf_element (run : uuid) (index : nat) (fragment : string) : NormalizedElement :=
  let content_hash := sha256_str fragment in
  let n := str_of_Z (Z.of_nat index + 1) in
  {| element_id := Uuid.element_id run ("pdf-fragment:" +:+ n) content_hash; kind := ElementKind.PARAGRAPH;
     order_index := Z.of_nat index; parent_element_id := None; exact_text := fragment;
     normalized_text := fragment; content_hash := content_hash;
     locator := {| loc_kind := "pdf-fragment"; loc_value := n |}; language := None;
     confidence := Some (if (20 <? String.length fragment)%nat then lit 6 10 else lit 3 10);
     warnings := []; metadata := [] |}.

Definition pdf_header : list Z := [37; 80; 68; 70].

Definition native_pdf_parse (content : list Z) (mime : string) (hints : list string) (run : uuid) : res ParseResult :=
  _ ← raise_if (negb (bool_decide (take 4 content = pdf_header))) (ValueError "invalid_pdf_header");
  let fragments := fragments_of content in
  let n := Z.of_nat (length fragments) in
  Ok {| profile := ParserProfile.NATIVE_PDF; profile_hash := sha256_str "native_pdf_v1";
        elements := imap (pdf_element run) (take 500 fragments); page_count := Z.max 1 (n / 20 + 1);
        quality_score := if bool_decide (fragments = []) then lit 1 10
                         else Z.min one (fdiv (of_int n) (of_int 10));
        raw_artifact_bytes := utf8 (dumps_flat [("fragments", JInt n)]);
        diagnostics := ["native_pdf_best_effort"] |}.

Definition NativePdfParser : ParserPort :=
  {| port_profile := ParserProfile.NATIVE_PDF; port_profile_hash := sha256_str "native_pdf_v1";
     parse := native_pdf_parse |}.

(** ** OCR and docling *)

Definition OCR_QUALITY_THRESHOLD : f64 := lit 45 100.

Definition OcrFallbackParser : ParserPort :=
  {| port_profile := ParserProfile.OCR_PADDLE; port_profile_hash := sha256_str "ocr_paddle_stub_v2_fail_closed";
     parse := fun _ _ _ _ =>
       Ok {| profile := ParserProfile.OCR_PADDLE; profile_hash := sha256_str "ocr_paddle_stub_v2_fail_closed";
             elements := []; page_count := 0; quality_score := 0;
             raw_artifact_bytes := utf8 (dumps_flat
               [("code", JStr "ocr_stub_unavailable"); ("ocr", JStr "stub"); ("status", JStr "failed")]);
             diagnostics := ["ocr_stub_unavailable"; "ocr_fail_closed"; "not_promotable"] |} |}.

Definition SUPPORTED_MIME : list string :=
  ["application/pdf"; "application/vnd.openxmlformats-officedocument.wordprocessingml.document";
   "application/vnd.openxmlformats-officedocument.presentationml.presentation"].

(** What importing docling gives: nothing, a package with these parts missing,
    all of them, or an exception of the named type. *)
Inductive Docling :=
| docling_missing | docling_no_converter | docling_no_convert | docling_complete | docling_broken (name : string).

Section docling.
Variable docling : Docling.

Definition docling_parse (content : list Z) (mime : string) (hints : list string) (run : uuid) : res ParseResult :=
  if negb (bool_decide (mime ∈ SUPPORTED_MIME)) then Raise (ValueError ("docling_unsupported_mime:" +:+ mime))
  else Raise (ValueError match docling with
    | docling_missing => "docling_not_configured:dependency_unavailable"
    | docling_no_converter => "docling_not_configured:converter_missing"
    | docling_no_convert => "docling_not_configured:convert_missing"
    | docling_complete => "docling_not_configured:in_memory_bytes_path_unavailable"
    | docling_broken name => "docling_parse_failed:" +:+ name
    end).

Definition DoclingParserAdapter : ParserPort :=
  {| port_profile := ParserProfile.DOCLING; port_profile_hash := "docling_adapter_v1"; parse := docling_parse |}.
End docling.

(** ** The registry *)

Definition TEXT_MIMES : list string := ["text/plain"; "text/markdown"; "text/x-markdown"].
Definition OFFICE_MIMES : list string :=
  ["application/vnd.openxmlformats-officedocument.wordprocessingml.document";
   "application/vnd.openxmlformats-officedocument.presentationml.presentation";
   "application/msword"; "application/vnd.ms-powerpoint"].

(** [mime.split(";")[0].strip().lower()]. *)
Definition bare_mime (mime : string) : string := lower (strip (hd "" (split ";" mime))).

Definition select_parser (decode : list Z -> string) (docling : Docling) (mime_type : string)
    (ocr_fallback : bool) : ParserPort :=
  let lowered := bare_mime mime_type in
  if ocr_fallback then OcrFallbackParser
  else if bool_decide (lowered ∈ TEXT_MIMES) then NativeTextParser decode
  else if String.eqb lowered "application/pdf" then NativePdfParser
  else if bool_decide (lowered ∈ OFFICE_MIMES) then DoclingParserAdapter docling
  else NativeTextParser decode.

(** ** Validation of a result *)

(** The errors of the elements, given the identifiers seen before them. *)
Fixpoint element_errors (seen : list uuid) (l : list NormalizedElement) : list string :=
  match l with
  | [] => []
  | e :: l =>
      (if bool_decide (element_id e ∈ seen) then ["duplicate_element_id"] else []) ++
      (if negb (truthy (content_hash e)) || negb (String.length (content_hash e) =? 64)%nat
       then ["invalid_content_hash"] else []) ++
      element_errors (element_id e :: seen) l
  end.

Definition validate_parse_result (result : ParseResult) : list string :=
  (if bool_decide (elements result = []) && (0 <? quality_score result)
   then ["empty_elements_with_positive_quality"] else []) ++
  element_errors [] (elements result).

(** ** Lemmas *)

Lemma element_errors_nil seen l :
  element_errors seen l = [] <->
  (forall e, e ∈ l -> String.length (content_hash e) = 64%nat) /\
  NoDup (map element_id l) /\ (forall e, e ∈ l -> element_id e ∉ seen).
Proof.
  revert seen. induction l as [|e l IH]; intros seen; cbn [element_errors map].
  { split; [|done]. intros _. split_and!; [set_solver|constructor|set_solver]. }
  assert (Hh : (if negb (truthy (content_hash e)) || negb (String.length (content_hash e) =? 64)%nat
     then ["invalid_content_hash"] else []) = [] <-> String.length (content_hash e) = 64%nat).
  { destruct (Nat.eqb_spec (String.length (content_hash e)) 64) as [E|E].
    - split; [done|]. intros _. assert (truthy (content_hash e) = true) as -> by
        (apply truthy_true; intros Hn; by rewrite Hn in E). done.
    - rewrite orb_true_r. done. }
  rewrite !app_nil, IH, Hh, NoDup_cons, list_elem_of_fmap.
  destruct (bool_decide_reflect (element_id e ∈ seen)) as [Hin|Hin]; split.
  - intros [? _]. discriminate.
  - intros (_ & _ & Hn). destruct (Hn e (list_elem_of_here _ _) Hin).
  - intros (_ & Hl & H1 & H2 & H3). split_and!; [| |done|].
    + intros y [->|Hy]%elem_of_cons; [done|by apply H1].
    + intros (y & Hq & Hm). apply (H3 y Hm). rewrite <- Hq. by left.
    + intros y [->|Hy]%elem_of_cons; [done|]. intros Hs. apply (H3 y Hy). by right.
  - intros (H1 & [H2 H2'] & H3). split_and!; [done|apply H1; by left|intros; apply H1; by right|done|].
    intros y Hy [Hq|Hs]%elem_of_cons; [apply H2; by exists y|]. apply (H3 y); [by right|done].
Qed.

Lemma imap_index {A B} (f : nat -> B) (l : list A) : imap (fun i _ => f i) l = map f (seq 0 (length l)).
Proof.
  revert f. induction l as [|x l IH]; intros f; [done|]. rewrite imap_cons. cbn [length seq map].
  f_equal. unfold compose. rewrite <- seq_shift, map_map. apply (IH (fun i => f (S i))).
Qed.

(** The name an element's identifier is the UUIDv5 of. *)
Definition element_name (e : NormalizedElement) : string :=
  (loc_kind (locator e) +:+ ":" +:+ loc_value (locator e)) +:+ ":" +:+ content_hash e.

(** No two of the names have one UUIDv5 under the run. *)
Definition uuid5_distinct (run : uuid) (names : list string) : Prop :=
  forall a b, a ∈ names -> b ∈ names -> deterministic_uuid5 run a = deterministic_uuid5 run b -> a = b.

Lemma int_no_colon z : has_char ":" (str_of_Z z) = false.
Proof. apply (str_all_has_char is_int_char); [done|apply str_of_Z_chars]. Qed.

Lemma located_name_inj k z z' h h' : has_char ":" k = false ->
  (k +:+ ":" +:+ str_of_Z z) +:+ ":" +:+ h = (k +:+ ":" +:+ str_of_Z z') +:+ ":" +:+ h' -> z = z'.
Proof.
  intros Hk Heq. rewrite !append_assoc in Heq. apply append_inj_l in Heq.
  apply (append_inj_l ":") in Heq. apply (f_equal (split ":")) in Heq.
  change (":" +:+ ?x) with (String ":" x) in Heq. rewrite !split_app in Heq by apply int_no_colon. injection Heq as Heq _. by apply str_of_Z_inj.
Qed.

(** Elements located by their position have distinct identifiers. *)
Lemma located_elements_distinct {A} (f : nat -> A -> NormalizedElement) k run (l : list A) :
  has_char ":" k = false ->
  (forall i x, element_id (f i x) = deterministic_uuid5 run (element_name (f i x))) ->
  (forall i x, locator (f i x) = {| loc_kind := k; loc_value := str_of_Z (Z.of_nat i + 1) |}) ->
  uuid5_distinct run (map element_name (imap f l)) ->
  NoDup (map element_id (imap f l)).
Proof.
  intros Hk Hid Hloc Hd. apply NoDup_alt. intros i j u Hi Hj.
  change (map element_id (imap f l)) with (element_id <$> imap f l) in *.
  rewrite !list_lookup_fmap, !list_lookup_imap in Hi, Hj.
  destruct (l !! i) as [x|] eqn:Ex; [|done]. destruct (l !! j) as [y|] eqn:Ey; [|done].
  cbn in Hi, Hj. injection Hi as Hi. injection Hj as Hj. rewrite Hid in Hi, Hj.
  assert (Hin : forall n z, l !! n = Some z -> element_name (f n z) ∈ map element_name (imap f l)).
  { intros n z Hz. apply list_elem_of_fmap. exists (f n z). split; [done|].
    apply (list_elem_of_lookup_2 _ n). by rewrite list_lookup_imap, Hz. }
  assert (Hn : element_name (f i x) = element_name (f j y)).
  { apply Hd; [by apply Hin..|congruence]. }
  unfold element_name in Hn. rewrite !Hloc in Hn. cbn [loc_kind loc_value] in Hn.
  apply located_name_inj in Hn; [lia|done].
Qed.

Lemma pdf_quality_gate n : 1 <= n ->
  (OCR_QUALITY_THRESHOLD <=? Z.min one (fdiv (of_int n) (of_int 10))) = (5 <=? n).
Proof.
  intros Hn. assert (H10 : 0 < of_int 10) by (apply of_int_pos; done).
  destruct (Z.leb_spec 5 n) as [H5|H5].
  - apply Z.leb_le. apply Z.min_glb.
    + apply Z.leb_le. vm_compute. reflexivity.
    + transitivity (fdiv (of_int 5) (of_int 10)); [apply Z.leb_le; vm_compute; reflexivity|].
      by apply fdiv_mono_l, of_int_mono.
  - apply Z.leb_gt. apply Z.le_lt_trans with (fdiv (of_int 4) (of_int 10)).
    + transitivity (fdiv (of_int n) (of_int 10)); [apply Z.le_min_r|]. apply fdiv_mono_l, of_int_mono; [done|lia].
    + apply Z.ltb_lt. vm_compute. reflexivity.
Qed.

(** What the ingestion accepts: a valid result of enough quality. *)
Definition promotable (r : ParseResult) : Prop :=
  validate_parse_result r = [] /\ OCR_QUALITY_THRESHOLD <= quality_score r.

Lemma length_sha256_str s : String.length (sha256_str s) = 64%nat.
Proof. unfold sha256_str, sha256_hex. by rewrite length_hex, length_sha256. Qed.

Lemma text_promotable decode mime content hints run r :
  parse (NativeTextParser decode) content mime hints run = Ok r ->
  uuid5_distinct run (map element_name (elements r)) ->
  profile_hash r = port_profile_hash (NativeTextParser decode) /\
  let lines := keep (fun line => truthy (strip line)) (splitlines (decode content)) in
  map exact_text (elements r) = lines /\ (promotable r <-> lines <> []).
Proof.
  cbn [parse NativeTextParser]. unfold native_text_parse. cbv zeta.
  set (lines := keep _ _). intros [= <-] Hd. split; [done|].
  unfold promotable, validate_parse_result. cbn [elements quality_score] in *.
  split.
  { change (map exact_text ?l) with (exact_text <$> l). rewrite fmap_imap.
    clear. generalize 0%nat. induction lines as [|x l IH]; [done|]. intros n. rewrite imap_cons. f_equal. apply (IH n). }
  assert (He : element_errors [] (imap (line_element run hints) lines) = []).
  { apply element_errors_nil. split_and!.
    - intros e (i & x & -> & _)%elem_of_lookup_imap. apply length_sha256_str.
    - exact (located_elements_distinct (line_element run hints) "line" run lines eq_refl
        (fun _ _ => eq_refl) (fun _ _ => eq_refl) Hd).
    - intros e _. apply not_elem_of_nil. }
  rewrite He. destruct lines as [|x l].
  - cbn [bool_decide]. split; [|done]. intros [_ Hq]. revert Hq. rewrite bool_decide_true by done.
    intros Hq. exfalso. revert Hq. apply Z.lt_nge. apply Z.ltb_lt. vm_compute. reflexivity.
  - split; [done|]. intros _. rewrite !bool_decide_false by done. split; [done|].
    apply Z.leb_le. vm_compute. reflexivity.
Qed.

Lemma pdf_promotable mime content hints run r :
  parse NativePdfParser content mime hints run = Ok r ->
  uuid5_distinct run (map element_name (elements r)) ->
  profile_hash r = port_profile_hash NativePdfParser /\
  map exact_text (elements r) = take 500 (fragments_of content) /\
  (promotable r <-> (5 <= length (fragments_of content))%nat).
Proof.
  cbn [parse NativePdfParser]. unfold native_pdf_parse. intros (u & _ & Hr)%bind_Ok. revert Hr.
  cbv zeta. set (fs := fragments_of content). intros [= <-] Hd. split; [done|].
  unfold promotable, validate_parse_result. cbn [elements quality_score] in *.
  split.
  { change (map exact_text ?l) with (exact_text <$> l). rewrite fmap_imap.
    clear. generalize (take 500 fs). intros l. induction l as [|x l IH]; [done|]. rewrite imap_cons. f_equal. apply IH. }
  assert (He : element_errors [] (imap (pdf_element run) (take 500 fs)) = []).
  { apply element_errors_nil. split_and!.
    - intros e (i & x & -> & _)%elem_of_lookup_imap. apply length_sha256_str.
    - exact (located_elements_distinct (pdf_element run) "pdf-fragment" run (take 500 fs) eq_refl
        (fun _ _ => eq_refl) (fun _ _ => eq_refl) Hd).
    - intros e _. apply not_elem_of_nil. }
  rewrite He. clear He Hd. destruct fs as [|x l].
  - rewrite (bool_decide_true ([] = [])) by reflexivity. split; [|cbn; lia]. intros [_ Hq]. exfalso. revert Hq.
    apply Z.lt_nge. apply Z.ltb_lt. vm_compute. reflexivity.
  - rewrite (bool_decide_false (x :: l = [])) by done.
    rewrite (bool_decide_false (imap _ (take 500 (x :: l)) = [])) by done.
    pose proof (pdf_quality_gate (Z.of_nat (length (x :: l))) ltac:(cbn [length]; lia)) as Hg.
    rewrite <- Z.leb_le, Hg, Z.leb_le. split; [intros [_ ?]; lia|]. intros. split; [done|lia].
Qed.

(** ** Properties *)

(** The parser chosen for a MIME type yields a result the ingestion accepts
    exactly when there is text: a text with a line that is not blank, a PDF with
    at least five fragments; an office document never, since its adapter
    raises.  The result names the profile of the parser, and as many elements
    as it has lines or fragments, 500 for a PDF at most. *)
Theorem select_parser_promotable decode docling mime content hints run r :
  let p := select_parser decode docling mime false in
  parse p content mime hints run = Ok r ->
  uuid5_distinct run (map element_name (elements r)) ->
  profile_hash r = port_profile_hash p /\
  match port_profile p with
  | ParserProfile.NATIVE_TEXT =>
      let lines := keep (fun line => truthy (strip line)) (splitlines (decode content)) in
      map exact_text (elements r) = lines /\ (promotable r <-> lines <> [])
  | ParserProfile.NATIVE_PDF =>
      map exact_text (elements r) = take 500 (fragments_of content) /\
      (promotable r <-> (5 <= length (fragments_of content))%nat)
  | _ => False
  end.
Proof.
  cbv zeta. unfold select_parser.
  destruct (bool_decide (bare_mime mime ∈ TEXT_MIMES));
    [|destruct (String.eqb _ _); [|destruct (bool_decide (bare_mime mime ∈ OFFICE_MIMES))]].
  - apply text_promotable.
  - apply pdf_promotable.
  - cbn [parse DoclingParserAdapter]. unfold docling_parse. by destruct (negb _).
  - apply text_promotable.
Qed.

Lemma select_parser_promotable_witness :
  exists r, parse (select_parser latin1 docling_missing "text/plain" false) (utf8 "hi") "text/plain" [] 5 = Ok r /\
    promotable r.
Proof.
  destruct (parse (select_parser latin1 docling_missing "text/plain" false) (utf8 "hi") "text/plain" [] 5)
    as [r|] eqn:E; [|exfalso; revert E; vm_compute; discriminate].
  exists r. split; [reflexivity|].
  assert (Hn : exists n, map element_name (elements r) = [n])
    by (vm_compute in E; injection E as <-; eexists; reflexivity).
  destruct Hn as [n Hn].
  assert (Hd : uuid5_distinct 5 (map element_name (elements r))).
  { rewrite Hn. intros a b Ha Hb _. apply list_elem_of_singleton in Ha as ->.
    apply list_elem_of_singleton in Hb as ->. reflexivity. }
  destruct (select_parser_promotable latin1 docling_missing "text/plain" (utf8 "hi") [] 5 r E Hd) as [_ H].
  assert (Hp : port_profile (select_parser latin1 docling_missing "text/plain" false) = ParserProfile.NATIVE_TEXT)
    by (vm_compute; reflexivity).
  rewrite Hp in H. apply (proj2 H). vm_compute. discriminate.
Defined.
