(* ===== verification/Storage.v ===== *)
(** * The object storage port (memdot_domain/ports/object_storage.py) and its S3
    and in-memory implementations (services/core/src/memdot_core/storage/s3.py)

    [ObjectStoragePort] is the protocol as a class over the storage's state;
    [ObjectStorageLaws] is what the services rely on, and both implementations
    are instances of it.  The boto3 client is third-party: [S3Client] is its
    interface, a parameter. *)

From Stdlib Require Import ZArith.
From stdpp Require Import list strings gmap.
From S2P Require Import Prelude PyStr Json Digest Uuid Enums ObjectKeys.
Open Scope Z_scope.

Class ObjectStoragePort (S : Type) := {
  (** [isinstance(storage, MemoryObjectStorage)] *)
  is_memory : bool;
  build_key : ObjectKeyParts -> res string;
  (** now, parts, byte count, content type, sha256, lifetime in seconds *)
  presign_upload : Z -> ObjectKeyParts -> Z -> string -> string -> Z -> res PresignedUpload;
  (** now, key, account, lifetime *)
  presign_download : Z -> string -> uuid -> Z -> res PresignedDownload;
  head_of : S -> string -> uuid -> res StoredObjectMeta;
  (** key, account, expected sha256, expected byte count *)
  verify_upload : S -> string -> uuid -> string -> Z -> res StoredObjectMeta;
  promote : S -> string -> ObjectKeyParts -> uuid -> S * res StoredObjectMeta;
  read_bytes : S -> string -> uuid -> res bytes;
  (** [put_bytes], when the storage has it: key, data, content type, account, sha256 *)
  put : option (S -> string -> bytes -> string -> uuid -> string -> S * res unit);
}.

Class ObjectStorageLaws (S : Type) `{ObjectStoragePort S} := {
  build_key_bound : forall p k, build_key p = Ok k -> bound k (account_id p) = true;
  presign_bound : forall now p n ct sha exp u,
    presign_upload now p n ct sha exp = Ok u -> bound (up_object_key u) (account_id p) = true;
  read_bytes_bound : forall s k a d, read_bytes s k a = Ok d -> bound k a = true;
  verify_upload_sound : forall s k a sha n m, verify_upload s k a sha n = Ok m ->
    bound k a = true /\ meta_byte_count m = n /\ lower (meta_sha256 m) = lower sha;
  promote_bound : forall s s' q p a m, promote s q p a = (s', Ok m) -> bound (meta_object_key m) a = true;
}.

(** ** MemoryObjectStorage *)

#[export] Instance MemoryObjectStorage : ObjectStoragePort (gmap string (bytes * string * list (string * string))) := {|
  is_memory := true;
  build_key := build_object_key;
  presign_upload now p _ ct _ exp := create_presigned_upload now p ct exp;
  presign_download := create_presigned_download;
  head_of := head_object;
  verify_upload := verify_upload_completion;
  promote := promote_from_quarantine;
  read_bytes := read_object_bytes;
  put := Some put_bytes;
|}.

(** ** S3ObjectStorage *)

Record HeadResponse := {
  response_metadata : list (string * string); content_length : Z; response_content_type : option string;
}.

(** The calls of the client on the bucket's state. *)
Record S3Client (S : Type) := {
  client_presign : string -> string -> Z -> string;   (* operation, key, lifetime *)
  client_head : S -> string -> res HeadResponse;
  client_get : S -> string -> res bytes;
  client_copy : S -> string -> string -> S * res unit;
}.
Arguments client_presign {S}.
Arguments client_head {S}.
Arguments client_get {S}.
Arguments client_copy {S}.

Section s3.
Context {S : Type} (client : S3Client S).

Definition s3_presigned_upload (now : Z) (parts : ObjectKeyParts) (byte_count : Z) (content_type sha256 : string)
    (expires_seconds : Z) : res PresignedUpload :=
  key ← build_object_key parts;
  _ ← assert_key_account_binding key (account_id parts);
  mret {| up_url := client_presign client "put_object" key expires_seconds; up_object_key := key;
          up_expires_at := now + seconds expires_seconds; up_headers := [("Content-Type", content_type)] |}.

Definition s3_presigned_download (now : Z) (object_key : string) (account : uuid) (expires_seconds : Z)
    : res PresignedDownload :=
  _ ← assert_key_account_binding object_key account;
  mret {| down_url := client_presign client "get_object" object_key expires_seconds;
          down_expires_at := now + seconds expires_seconds |}.

Definition s3_head_object (s : S) (object_key : string) (account : uuid) : res StoredObjectMeta :=
  _ ← assert_key_account_binding object_key account;
  resp ← client_head client s object_key;
  let sha := match dict_lookup "sha256" (response_metadata resp) with
             | Some d => if truthy d then d else sha256_hex []
             | None => sha256_hex []
             end in
  mret {| meta_object_key := object_key; meta_byte_count := content_length resp; meta_sha256 := sha;
          meta_content_type := response_content_type resp |}.

Definition s3_verify_upload_completion (s : S) (object_key : string) (account : uuid)
    (expected_sha256 : string) (expected_byte_count : Z) : res StoredObjectMeta :=
  meta ← s3_head_object s object_key account;
  _ ← raise_if (negb (meta_byte_count meta =? expected_byte_count)) (ValueError "upload_byte_count_mismatch");
  _ ← raise_if (negb (String.eqb (lower (meta_sha256 meta)) (lower expected_sha256)))
        (ValueError "upload_checksum_mismatch");
  mret meta.

Definition s3_promote_from_quarantine (s : S) (quarantine_key : string) (target_parts : ObjectKeyParts)
    (account : uuid) : S * res StoredObjectMeta :=
  match assert_key_account_binding quarantine_key account with
  | Raise e => (s, Raise e)
  | Ok _ =>
      match build_object_key target_parts with
      | Raise e => (s, Raise e)
      | Ok target_key =>
          match client_copy client s quarantine_key target_key with
          | (s', Raise e) => (s', Raise e)
          | (s', Ok _) => (s', s3_head_object s' target_key account)
          end
      end
  end.

Definition s3_read_object_bytes (s : S) (object_key : string) (account : uuid) : res bytes :=
  _ ← assert_key_account_binding object_key account;
  client_get client s object_key.

Definition S3ObjectStorage : ObjectStoragePort S := {|
  is_memory := false;
  build_key := build_object_key;
  presign_upload := s3_presigned_upload;
  presign_download := s3_presigned_download;
  head_of := s3_head_object;
  verify_upload := s3_verify_upload_completion;
  promote := s3_promote_from_quarantine;
  read_bytes := s3_read_object_bytes;
  put := None;
|}.
End s3.

(** ** Both implement the laws *)

Lemma head_key_bound s k a m : head_object s k a = Ok m -> meta_object_key m = k /\ bound k a = true.
Proof.
  unfold head_object. intros (u & [Hb _]%assert_binding_Ok & (o & _ & Hm)%bind_Ok)%bind_Ok.
  injection Hm as <-. done.
Qed.

#[export] Instance memory_storage_laws :
  ObjectStorageLaws (gmap string (bytes * string * list (string * string))).
Proof.
  constructor.
  - apply built_key_bound.
  - intros now p n ct sha exp u Hu. apply bind_Ok in Hu as (k & Hk & Hu). injection Hu as <-. by apply built_key_bound.
  - intros s k a d Hd. apply bind_Ok in Hd as (u & [Hb _]%assert_binding_Ok & _). done.
  - intros s k a sha n m Hm. apply bind_Ok in Hm as (m' & Hh & (u & Hc & Hm)%bind_Ok). injection Hm as <-.
    apply raise_if_Ok, orb_false_elim in Hc as [H1 H2]. rewrite negb_false_iff in H1, H2.
    apply head_key_bound in Hh as [_ Hb]. split_and!; [done|by apply Z.eqb_eq|by apply String.eqb_eq].
  - intros s s' q p a m Hm. cbn [promote MemoryObjectStorage] in Hm. unfold promote_from_quarantine in Hm.
    destruct (get_object s q); [|done]. destruct (build_object_key p); [|done].
    injection Hm as <- Hm. by apply head_key_bound in Hm as [-> Hb].
Qed.

Lemma s3_head_key_bound {S} (c : S3Client S) s k a m :
  s3_head_object c s k a = Ok m -> meta_object_key m = k /\ bound k a = true.
Proof.
  unfold s3_head_object. intros (u & [Hb _]%assert_binding_Ok & (o & _ & Hm)%bind_Ok)%bind_Ok.
  injection Hm as <-. done.
Qed.

#[export] Instance s3_storage_laws {S} (c : S3Client S) : @ObjectStorageLaws S (S3ObjectStorage c).
Proof.
  constructor.
  - apply built_key_bound.
  - intros now p n ct sha exp u Hu. apply bind_Ok in Hu as (k & Hk & (x & _ & Hu)%bind_Ok). injection Hu as <-.
    by apply built_key_bound.
  - intros s k a d Hd. apply bind_Ok in Hd as (u & [Hb _]%assert_binding_Ok & _). done.
  - intros s k a sha n m Hm. apply bind_Ok in Hm as (m' & Hh & (u & H1 & (u' & H2 & Hm)%bind_Ok)%bind_Ok).
    injection Hm as <-. apply raise_if_Ok in H1, H2. rewrite negb_false_iff in H1, H2.
    apply s3_head_key_bound in Hh as [_ Hb]. split_and!; [done|by apply Z.eqb_eq|by apply String.eqb_eq].
  - intros s s' q p a m Hm. cbn [promote S3ObjectStorage] in Hm. unfold s3_promote_from_quarantine in Hm.
    destruct (assert_key_account_binding q a); [|done]. destruct (build_object_key p); [|done].
    destruct (client_copy c s q a1) as [s1 [u|e]]; [|done].
    injection Hm as <- Hm. by apply s3_head_key_bound in Hm as [-> Hb].
Qed.
