(* ===== verification/Ingestion.v ===== *)
(** * Ingestion (services/core/src/memdot_core/ingestion/orchestrator.py and
    normalize.py, with the SQL function memdot_set_current_active_parse_run)

    One run parses one source revision: it records the attempt of its job, the
    parse run and its elements, and moves the source's active-parse pointer
    when the result is good enough.  The storage is passed along; what it holds
    after an exception is not modelled.  [assert parse_row is not None] cannot
    fail, since the run adds that row itself. *)

From Stdlib Require Import Ascii ZArith Lia.
From stdpp Require Import list strings.
From S2P Require Import Prelude PyStr Json Digest Uuid Enums Float64 ObjectKeys Ledger Store Outbox RequestContext.
From S2P Require Import Deletion AuthSnapshot Jobs Parsers Storage.
Open Scope Z_scope.

Record IngestionOutcome := {
  out_parse_run_id : uuid; out_status : ParseRunStatus.t; out_quality_score : f64; out_element_count : Z;
}.

Definition sniff_mime (content_type filename : string) (content_head : list Z) : string :=
  let lowered := bare_mime content_type in
  if bool_decide (take 4 content_head = pdf_header) then "application/pdf"
  else if truthy lowered && negb (String.eqb lowered "application/octet-stream") then lowered
  else if endswith ".pdf" (lower filename) then "application/pdf"
  else if endswith ".txt" (lower filename) || endswith ".md" (lower filename) then "text/plain"
  else if truthy lowered then lowered else "application/octet-stream".

Definition language_hints_from_revision (revision : SourceRevision.t) : list string :=
  match SourceRevision.language_hints revision with
  | Some h => if truthy h then keep truthy (map strip (split "," h)) else ["en"]
  | None => ["en"]
  end.

(** ** The active parse *)

Definition pointer_of (account source revision : uuid) (r : CurrentActiveParseRun.t) : bool :=
  same (CurrentActiveParseRun.account_id r) account && same (CurrentActiveParseRun.source_id r) source &&
  same (CurrentActiveParseRun.source_revision_id r) revision.

Section session.
Context `{Env}.

(** memdot_set_current_active_parse_run *)
Definition set_current_active_parse_run (pointer_id account space source revision run event_id : uuid)
    (digest : string) (payload : dict) : M unit :=
  t ← now;
  l ← select (fun e => same (OutboxEvent.account_id e) account && same (OutboxEvent.id e) event_id);
  _ ← match l with
      | e :: _ => guard (negb (String.eqb (OutboxEvent.payload_sha256 e) digest))
                    (DatabaseError "outbox_payload_hash_mismatch")
      | [] => add {| OutboxEvent.id := event_id; OutboxEvent.account_id := account;
                     OutboxEvent.event_type := "source.active_parse_changed";
                     OutboxEvent.payload_sha256 := digest; OutboxEvent.payload := payload;
                     OutboxEvent.durable_job_id := None; OutboxEvent.created_at := t;
                     OutboxEvent.published_at := None; OutboxEvent.claim_token := None;
                     OutboxEvent.claim_expires_at := None; OutboxEvent.claimed_by := None |}
      end;
  pointers ← select (pointer_of account source revision);
  match pointers with
  | [] => add {| CurrentActiveParseRun.id := pointer_id; CurrentActiveParseRun.account_id := account;
                 CurrentActiveParseRun.space_id := space; CurrentActiveParseRun.source_id := source;
                 CurrentActiveParseRun.source_revision_id := revision;
                 CurrentActiveParseRun.parse_run_id := run; CurrentActiveParseRun.updated_at := t |}
  | _ => _ ← update_where (pointer_of account source revision) (fun r =>
               CurrentActiveParseRun.set_updated_at t (CurrentActiveParseRun.set_parse_run_id run r));
         mret tt
  end.

Definition promote_active_parse_run (account space source revision run : uuid) (payload : dict) : M unit :=
  event_id ← new_uuid;
  pointer_id ← new_uuid;
  set_current_active_parse_run pointer_id account space source revision run event_id
    (payload_sha256 payload) payload.

(** ** The steps of a run *)

Definition _persist_parse_run (account space : uuid) (revision : SourceRevision.t) (profile profile_hash : string)
    (run : uuid) (status : ParseRunStatus.t) (quality : f64) (checkpoint : dict) (artifact : option string)
    (error_code error_detail : option string) (shadow : bool) : M unit :=
  t ← now;
  add {| ParseRun.id := run; ParseRun.account_id := account; ParseRun.space_id := space;
         ParseRun.source_revision_id := SourceRevision.id revision; ParseRun.parser_profile := profile;
         ParseRun.status := value status; ParseRun.profile_hash := Some profile_hash;
         ParseRun.is_shadow := shadow; ParseRun.quality_score := Some quality;
         ParseRun.stage_checkpoint := checkpoint; ParseRun.artifact_object_key := artifact;
         ParseRun.error_code := error_code; ParseRun.error_detail_safe := error_detail;
         ParseRun.created_at := t; ParseRun.updated_at := t |}.

Definition element_row (account space run : uuid) (t : Z) (e : NormalizedElement) : DocumentElement.t :=
  {| DocumentElement.id := element_id e; DocumentElement.account_id := account;
     DocumentElement.space_id := space; DocumentElement.parse_run_id := run;
     DocumentElement.element_kind := value (kind e); DocumentElement.locator := Some (loc_value (locator e));
     DocumentElement.element_index := Some (order_index e);
     DocumentElement.parent_element_id := parent_element_id e;
     DocumentElement.content_hash := Some (content_hash e); DocumentElement.exact_text := Some (exact_text e);
     DocumentElement.normalized_text := Some (normalized_text e);
     DocumentElement.element_metadata := map (fun kv => (kv.1, JStr kv.2)) (metadata e);
     DocumentElement.created_at := t |}.

Definition _persist_elements (account space run : uuid) (result : ParseResult) : M Z :=
  t ← now;
  _ ← forM (elements result) (fun e => add (element_row account space run t e));
  mret (Z.of_nat (length (elements result))).

Definition set_source (id : uuid) (status : SourceProcessingStatus.t) : M unit :=
  update id (Source.set_processing_status (value status)).

(** [complete_job] when the run belongs to a job. *)
Definition finish (account : uuid) (attempt : option (uuid * uuid)) (succeeded : bool)
    (error_code error_detail : option string) : M unit :=
  match attempt with
  | Some (job, a) => complete_job account job a succeeded error_code error_detail
  | None => mret tt
  end.

Definition failed_outcome (run : uuid) (quality : f64) (count : Z) : IngestionOutcome :=
  {| out_parse_run_id := run; out_status := ParseRunStatus.FAILED; out_quality_score := quality;
     out_element_count := count |}.

(** ** The run *)

Section storage.
Context {S : Type} `{ObjectStoragePort S}.
Variables (decode : list Z -> string) (docling : Docling).

Definition load_revision_bytes (s : S) (revision : SourceRevision.t) (account : uuid) : res bytes :=
  match SourceRevision.object_key revision with
  | None => Raise (ValueError "revision_missing_object_key")
  | Some key => read_bytes s key account
  end.

Definition _store_parser_artifact (s : S) (account space run : uuid) (artifact : list Z) : S * res string :=
  let parts := {| ObjectKeys.account_id := account; space_id := space;
                  lifecycle := ObjectLifecycleClass.ARTIFACT; artifact_id := run;
                  filename := "parser-artifact.json" |} in
  match build_key parts with
  | Raise e => (s, Raise e)
  | Ok key =>
      match put with
      | None => (s, Ok key)
      | Some put => match put s key artifact "application/json" account (sha256_hex artifact) with
                    | (s', Ok _) => (s', Ok key)
                    | (s', Raise e) => (s', Raise e)
                    end
      end
  end.

(** [primary.parse(...)] and the page limit, as the [try] runs them. *)
Definition parse_within_limits (p : ParserPort) (content : list Z) (mime : string) (hints : list string)
    (run : uuid) : res ParseResult :=
  result ← parse p content mime hints run;
  _ ← check_page_count (page_count result);
  mret result.

(** A failed run is recorded and everything it belongs to fails. *)
Definition record_failure (account : uuid) (revision : SourceRevision.t) (source : uuid) (run : uuid)
    (profile profile_hash : string) (checkpoint : dict) (code detail : string)
    (attempt : option (uuid * uuid)) (job_code job_detail : option string) (shadow : bool)
    : M IngestionOutcome :=
  _ ← _persist_parse_run account (SourceRevision.space_id revision) revision profile profile_hash run
        ParseRunStatus.FAILED 0 checkpoint None (Some code) (Some detail) shadow;
  _ ← set_source source SourceProcessingStatus.FAILED;
  _ ← finish account attempt false job_code job_detail;
  mret (failed_outcome run 0 0).

(** The job succeeded when the source's status says so. *)
Definition job_succeeded (status : SourceProcessingStatus.t) : bool :=
  bool_decide (status ∈ [SourceProcessingStatus.SUCCEEDED; SourceProcessingStatus.PARTIAL]).

(** From the result of the chosen parser on; the statuses are those the parse
    run and the source are left with, RUNNING being what the source had. *)
Definition persist_result (s : S) (account source_id revision_id : uuid) (revision : SourceRevision.t)
    (parser : ParserPort) (run : uuid) (result : ParseResult) (attempt : option (uuid * uuid)) (shadow : bool)
    : M (IngestionOutcome * S) :=
  let space := SourceRevision.space_id revision in
  let '(s, stored) := _store_parser_artifact s account space run (raw_artifact_bytes result) in
  artifact_key ← lift stored;
  _ ← _persist_parse_run account space revision (value (port_profile parser)) (port_profile_hash parser) run
        ParseRunStatus.RUNNING (quality_score result)
        [("stage", JStr "parsed"); ("pages", JInt (page_count result))] (Some artifact_key) None None shadow;
  element_count ← _persist_elements account space run result;
  let outcome status := {| out_parse_run_id := run; out_status := status;
                           out_quality_score := quality_score result; out_element_count := element_count |} in
  if negb (bool_decide (validate_parse_result result = [])) then
    _ ← select_one (fun r => same (ParseRun.account_id r) account && same (ParseRun.id r) run);
    _ ← update run (fun r => ParseRun.set_error_detail_safe (Some "Normalized output failed validation.")
          (ParseRun.set_error_code (Some "validation_failed")
            (ParseRun.set_status (value ParseRunStatus.FAILED) r)));
    _ ← set_source source_id SourceProcessingStatus.FAILED;
    _ ← finish account attempt false (Some "validation_failed") None;
    mret (outcome ParseRunStatus.FAILED, s)
  else
    statuses ←
      (if negb shadow && (OCR_QUALITY_THRESHOLD <=? quality_score result) then
         _ ← promote_active_parse_run account space source_id revision_id run
               [("source_id", JStr (str_uuid source_id)); ("revision_id", JStr (str_uuid revision_id));
                ("parse_run_id", JStr (str_uuid run))];
         _ ← update run (ParseRun.set_status (value ParseRunStatus.SUCCEEDED));
         _ ← set_source source_id SourceProcessingStatus.SUCCEEDED;
         mret (ParseRunStatus.SUCCEEDED, SourceProcessingStatus.SUCCEEDED)
       else if shadow then
         _ ← update run (fun r => ParseRun.set_is_shadow true
               (ParseRun.set_status (value ParseRunStatus.SUCCEEDED) r));
         mret (ParseRunStatus.SUCCEEDED, SourceProcessingStatus.RUNNING)
       else
         _ ← update run (fun r => ParseRun.set_error_code (Some "quality_below_threshold")
               (ParseRun.set_status (value ParseRunStatus.FAILED) r));
         _ ← set_source source_id SourceProcessingStatus.PARTIAL;
         mret (ParseRunStatus.FAILED, SourceProcessingStatus.PARTIAL));
    let '(run_status, source_status) := statuses in
    _ ← finish account attempt (job_succeeded source_status) None None;
    mret (outcome run_status, s).

(** The OCR fallback, when the first result is poor: the better of the two. *)
Definition ocr_choice (content : list Z) (mime : string) (hints : list string) (revision : uuid)
    (primary : ParserPort) (run : uuid) (result : ParseResult) : res (ParserPort * uuid * ParseResult) :=
  if quality_score result <? OCR_QUALITY_THRESHOLD then
    let ocr := select_parser decode docling mime true in
    let ocr_run := parse_run_id revision (port_profile_hash ocr) in
    ocr_result ← parse ocr content mime hints ocr_run;
    mret (if quality_score result <? quality_score ocr_result then (ocr, ocr_run, ocr_result)
          else (primary, run, result))
  else mret (primary, run, result).

(** The parse, once there is no successful run to reuse. *)
Definition ingest (s : S) (account source_id revision_id : uuid) (revision : SourceRevision.t)
    (attempt : option (uuid * uuid)) (shadow : bool) (content : list Z) (mime : string) (hints : list string)
    (primary : ParserPort) (run : uuid) : M (IngestionOutcome * S) :=
  let profile := value (port_profile primary) in
  match parse_within_limits primary content mime hints run with
  | Raise (ResourceLimitExceeded code) =>
      out ← record_failure account revision source_id run profile (port_profile_hash primary)
        [("stage", JStr "resource_limits"); ("error", JStr code)] code code attempt (Some code) (Some code) shadow;
      mret (out, s)
  | Raise (ValueError msg) =>
      out ← record_failure account revision source_id run profile (port_profile_hash primary)
        [("stage", JStr "parse"); ("error", JStr msg)] "parse_failed" "Parsing failed." attempt
        (Some "parse_failed") (Some "Parsing failed.") shadow;
      mret (out, s)
  | Raise e => raiseM e
  | Ok result =>
      choice ← lift (ocr_choice content mime hints (SourceRevision.id revision) primary run result);
      let '(parser, run, result) := choice in
      persist_result s account source_id revision_id revision parser run result attempt shadow
  end.

Definition run_ingestion_for_revision (s : S) (account actor source_id revision_id : uuid)
    (job_id : option uuid) (shadow : bool) : M (IngestionOutcome * S) :=
  _ ← new_uuid;
  revision ← select_one (fun r => same (SourceRevision.account_id r) account &&
    same (SourceRevision.id r) revision_id && same (SourceRevision.source_id r) source_id);
  source ← select_one (fun r => same (Source.account_id r) account && same (Source.id r) source_id);
  attempt ← match job_id with
            | Some j => a ← start_job_attempt account j; mret (Some (j, a))
            | None => mret None
            end;
  t ← now;
  _ ← update (Source.id source) (fun r => Source.set_updated_at t
        (Source.set_processing_status (value SourceProcessingStatus.RUNNING) r));
  content ← lift (load_revision_bytes s revision account);
  match check_file_size (Z.of_nat (length content)) with
  | Raise (ResourceLimitExceeded code) =>
      run ← new_uuid;
      out ← record_failure account revision (Source.id source) run "resource_limits" "resource_limits_v1"
        [("stage", JStr "resource_limits"); ("error", JStr code)] code code attempt None None shadow;
      mret (out, s)
  | Raise e => raiseM e
  | Ok _ =>
      let mime := sniff_mime (default "" (SourceRevision.mime_type revision))
                    (default "" (SourceRevision.object_key revision)) (take 16 content) in
      let hints := language_hints_from_revision revision in
      let primary := select_parser decode docling mime false in
      let run := parse_run_id (SourceRevision.id revision) (port_profile_hash primary) in
      existing ← select_opt (fun r => same (ParseRun.account_id r) account && same (ParseRun.id r) run);
      match existing with
      | Some e =>
          if String.eqb (ParseRun.status e) (value ParseRunStatus.SUCCEEDED) && negb shadow then
            _ ← set_source (Source.id source) SourceProcessingStatus.SUCCEEDED;
            _ ← finish account attempt true None None;
            mret ({| out_parse_run_id := run; out_status := ParseRunStatus.SUCCEEDED;
                     out_quality_score := default 0 (ParseRun.quality_score e); out_element_count := 0 |}, s)
          else ingest s account (Source.id source) revision_id revision attempt shadow content mime hints primary run
      | None => ingest s account (Source.id source) revision_id revision attempt shadow content mime hints primary run
      end
  end.
End storage.
End session.

(** ** Lemmas *)

Section frames.
Context `{Env}.

Lemma finish_keeps R `{Table R} account attempt ok code detail :
  (forall l d, rows (R := R) (set_rows (R := DurableJob.t) l d) = rows d) ->
  (forall l d, rows (R := R) (set_rows (R := JobAttempt.t) l d) = rows d) ->
  keeps R (finish account attempt ok code detail).
Proof.
  intros H1 H2. unfold finish, complete_job. destruct attempt as [[j a]|]; [|apply keeps_ret].
  repeat (apply keeps_bind; [first [apply keeps_update; assumption|eauto with frame nocore]|intros ?]).
  by apply keeps_update.
Qed.

Lemma start_keeps R `{Table R} account job :
  (forall l d, rows (R := R) (set_rows (R := DurableJob.t) l d) = rows d) ->
  (forall l d, rows (R := R) (set_rows (R := JobAttempt.t) l d) = rows d) ->
  keeps R (start_job_attempt account job).
Proof.
  intros H1 H2. unfold start_job_attempt.
  repeat (apply keeps_bind; [first [apply keeps_update; assumption|apply keeps_add; assumption
    |eauto with frame nocore]|intros ?]).
  apply keeps_ret.
Qed.
End frames.
#[export] Hint Extern 1 (keeps _ (finish _ _ _ _ _)) => apply finish_keeps; intros; reflexivity : frame.
#[export] Hint Extern 1 (keeps _ (start_job_attempt _ _)) => apply start_keeps; intros; reflexivity : frame.

Section frames2.
Context `{Env} {S : Type} `{ObjectStoragePort S}.

Lemma record_failure_keeps_pointers a rev src run p ph cp c d att jc jd sh :
  keeps CurrentActiveParseRun.t (record_failure a rev src run p ph cp c d att jc jd sh).
Proof. unfold record_failure, _persist_parse_run, set_source. frame. Qed.
End frames2.

(** The active-parse pointer of a source revision after it was moved. *)
Definition points_to (account source revision run : uuid) (before after : list CurrentActiveParseRun.t) : Prop :=
  (exists p, p ∈ after /\ pointer_of account source revision p = true) /\
  (forall p, p ∈ after -> pointer_of account source revision p = true -> CurrentActiveParseRun.parse_run_id p = run) /\
  (forall p, pointer_of account source revision p = false -> p ∈ after <-> p ∈ before).

Section moves.
Context `{Env}.

Lemma promote_points account space source revision run payload w u w' :
  promote_active_parse_run account space source revision run payload w = Ok (u, w') ->
  points_to account source revision run (rows (db w)) (rows (db w')).
Proof.
  intros Hm. unfold promote_active_parse_run in Hm. draw Hm. draw Hm. unfold set_current_active_parse_run in Hm.
  draw Hm. stepM Hm. apply select_Ok in H0 as [-> ->]. stepM Hm.
  framed H0 CurrentActiveParseRun.t Hk. clear H0. cbn [db] in Hk.
  stepM Hm. apply select_Ok in H0 as [-> ->]. rewrite Hk in Hm.
  destruct (keep (pointer_of account source revision) (rows (db w))) as [|q l] eqn:Hp.
  - apply add_Ok in Hm as [_ ->]. rows_simpl. rewrite Hk. split_and!.
    + eexists. split; [apply elem_of_app; right; by left|]. unfold pointer_of, same. cbn. by rewrite !bool_decide_true.
    + intros p [Hin|Hin]%elem_of_app Hpt.
      * rewrite keep_nil in Hp. rewrite (Hp p Hin) in Hpt. done.
      * apply list_elem_of_singleton in Hin as ->. done.
    + intros p Hpt. rewrite elem_of_app. split; [|by left]. intros [?|Hin]; [done|].
      apply list_elem_of_singleton in Hin as ->. unfold pointer_of, same in Hpt. cbn in Hpt.
      by rewrite !bool_decide_true in Hpt.
  - stepM Hm. cleanM. injection H0 as _ <-. rows_simpl. rewrite Hk.
    assert (Hq : q ∈ rows (db w) /\ pointer_of account source revision q = true)
      by (apply elem_of_keep; rewrite Hp; by left). destruct Hq as [Hq Hqp]. split_and!.
    + eexists. split; [apply list_elem_of_fmap; exists q; split; [reflexivity|done]|]. rewrite Hqp. done.
    + intros p (r & -> & Hr)%list_elem_of_fmap. destruct (pointer_of account source revision r) eqn:E; [done|].
      congruence.
    + intros p Hpt. rewrite list_elem_of_fmap. split.
      * intros (r & -> & Hr). destruct (pointer_of account source revision r) eqn:E; [|done].
        exfalso. revert Hpt. change (pointer_of account source revision r = false -> False). congruence.
      * intros Hin. exists p. rewrite Hpt. done.
Qed.
End moves.

Definition succeeded_run (account run : uuid) (quality : f64) (r : ParseRun.t) : Prop :=
  ParseRun.account_id r = account /\ ParseRun.id r = run /\ ParseRun.quality_score r = Some quality /\
  ParseRun.status r = value ParseRunStatus.SUCCEEDED.

Section outcome.
Context `{Env} {S : Type} `{ObjectStoragePort S}.

Lemma persist_run_Ok account space revision p ph run st q cp art ec ed sh w u w' :
  _persist_parse_run account space revision p ph run st q cp art ec ed sh w = Ok (u, w') ->
  (forall r, r ∈ rows (R := ParseRun.t) (db w) -> ParseRun.id r <> run) /\
  exists r, r ∈ rows (R := ParseRun.t) (db w') /\ ParseRun.account_id r = account /\ ParseRun.id r = run /\
    ParseRun.quality_score r = Some q.
Proof.
  intros Hm. unfold _persist_parse_run in Hm. draw Hm. apply add_Ok in Hm as [Hc ->]. split.
  - intros r Hr Hid. specialize (Hc r Hr). cbn in Hc. unfold ParseRun.clash, same in Hc.
    rewrite (bool_decide_true (ParseRun.id r = _)) in Hc by done. done.
  - rows_simpl. eexists. split; [apply elem_of_app; right; by left|done].
Qed.

Lemma persist_result_outcome s account src rev revision parser run result attempt shadow w out s' w' :
  persist_result s account src rev revision parser run result attempt shadow w = Ok ((out, s'), w') ->
  out_parse_run_id out = run /\ out_quality_score out = quality_score result /\
  (forall r, r ∈ rows (R := ParseRun.t) (db w) -> ParseRun.id r <> run) /\
  if bool_decide (validate_parse_result result = []) && negb shadow && (OCR_QUALITY_THRESHOLD <=? quality_score result)
  then out_status out = ParseRunStatus.SUCCEEDED /\
       points_to account src rev run (rows (db w)) (rows (db w')) /\
       exists r, r ∈ rows (db w') /\ succeeded_run account run (quality_score result) r
  else rows (R := CurrentActiveParseRun.t) (db w') = rows (db w) /\
       (out_status out = ParseRunStatus.SUCCEEDED -> shadow = true).
Proof.
  intros Hm. unfold persist_result in Hm.
  destruct (_store_parser_artifact s account _ run _) as [s1 stored]. stepM Hm. cleanM.
  stepM Hm. framed H1 CurrentActiveParseRun.t K1; [unfold _persist_parse_run; frame|].
  apply persist_run_Ok in H1 as (Hnew & r & Hr & Hra & Hri & Hrq).
  stepM Hm. framed H1 CurrentActiveParseRun.t K2; [unfold _persist_elements; frame|].
  framed H1 ParseRun.t K3; [unfold _persist_elements; frame|]. clear H1.
  destruct (bool_decide_reflect (validate_parse_result result = [])) as [Hv|Hv]; cbn [negb andb] in *.
  2: { framed Hm CurrentActiveParseRun.t K4; [unfold set_source; frame|].
       do 4 (stepM Hm; clear H1). cleanM. split_and!; try done. congruence. }
  stepM Hm. destruct a2 as [rs ss]. stepM Hm. framed H2 CurrentActiveParseRun.t K4.
  framed H2 ParseRun.t K5. clear H2. cleanM. cbn [out_parse_run_id out_quality_score out_status].
  split_and!; try done.
  destruct (negb shadow && _) eqn:Hs.
  - stepM H1. apply promote_points in H2 as Hpt. framed H2 ParseRun.t K6.
    { unfold promote_active_parse_run, set_current_active_parse_run. frame. }
    clear H2. stepM H1. apply update_Ok in H2 as ->. stepM H1. framed H2 CurrentActiveParseRun.t K7; [unfold set_source; frame|].
    framed H2 ParseRun.t K8; [unfold set_source; frame|]. clear H2. cleanM. rows_simpl.
    split; [done|]. split; [rewrite K4, K7, <- K1, <- K2; done|].
    exists (ParseRun.set_status (value ParseRunStatus.SUCCEEDED) r). split; [|done].
    rewrite K5, K8. apply list_elem_of_fmap. exists r. rewrite K6, K3. split; [|done].
    change (row_id r) with (ParseRun.id r). by rewrite Z.eqb_refl.
  - framed H1 CurrentActiveParseRun.t K6; [unfold set_source; frame|]. split; [congruence|].
    destruct shadow; [done|]. intros Hst. do 2 (stepM H1; clear H2). by cleanM.
Qed.

Lemma ocr_choice_same decode docling content mime hints rev primary run result p r q :
  0 <= quality_score result ->
  ocr_choice decode docling content mime hints rev primary run result = Ok (p, r, q) ->
  (p, r, q) = (primary, run, result).
Proof.
  unfold ocr_choice. intros Hq. destruct (quality_score result <? OCR_QUALITY_THRESHOLD); [|by intros [= -> -> ->]].
  unfold select_parser. cbn [parse OcrFallbackParser mbind res_bind quality_score].
  destruct (Z.ltb_spec (quality_score result) 0); [lia|]. by intros [= -> -> ->].
Qed.

(** What an ingestion did: it left the pointers, or it moved the one of the
    revision to a run that succeeded. *)
Definition pointer_outcome (account src rev : uuid) (shadow : bool) (out : IngestionOutcome) (w w' : World) : Prop :=
  (rows (R := CurrentActiveParseRun.t) (db w') = rows (db w) /\
   (out_status out = ParseRunStatus.SUCCEEDED -> shadow = true)) \/
  (shadow = false /\ out_status out = ParseRunStatus.SUCCEEDED /\
   OCR_QUALITY_THRESHOLD <= out_quality_score out /\
   points_to account src rev (out_parse_run_id out) (rows (db w)) (rows (db w')) /\
   exists r, r ∈ rows (db w') /\ succeeded_run account (out_parse_run_id out) (out_quality_score out) r).

Lemma record_failure_outcome account revision src run p ph cp c d att jc jd sh w out w' :
  record_failure account revision src run p ph cp c d att jc jd sh w = Ok (out, w') ->
  rows (R := CurrentActiveParseRun.t) (db w') = rows (db w) /\ out = failed_outcome run 0 0 /\
  (forall r, r ∈ rows (R := ParseRun.t) (db w) -> ParseRun.id r <> run).
Proof.
  intros Hm. framed Hm CurrentActiveParseRun.t K; [unfold record_failure, _persist_parse_run, set_source; frame|].
  unfold record_failure in Hm. stepM Hm. apply persist_run_Ok in H1 as [Hn _].
  do 2 (stepM Hm; clear H1). by cleanM.
Qed.

Lemma ingest_outcome decode docling s account src rev revision attempt shadow content mime hints primary run w out s' w' :
  ingest decode docling s account src rev revision attempt shadow content mime hints primary run w
    = Ok ((out, s'), w') ->
  pointer_outcome account src rev shadow out w w' /\
  ((forall r, parse primary content mime hints run = Ok r -> 0 <= quality_score r) ->
   out_parse_run_id out = run /\
   forall r, r ∈ rows (R := ParseRun.t) (db w) -> ParseRun.id r <> run).
Proof.
  unfold ingest. destruct (parse_within_limits primary content mime hints run) as [result|[]] eqn:Hp; intros Hm;
    try discriminate.
  - stepM Hm. apply lift_Ok in H1 as [Hc ->]. destruct a as [[p r] q].
    apply persist_result_outcome in Hm as (Ho & Hq & Hn & Hif). split.
    + unfold pointer_outcome. rewrite Ho, Hq. destruct (bool_decide _ && _ && _) eqn:E; [|by left].
      right. apply andb_prop in E as [[_ E1%negb_true_iff]%andb_prop E2%Z.leb_le]. naive_solver.
    + intros Hpos. apply bind_Ok in Hp as (r0 & Hr0 & (u & _ & [= ->])%bind_Ok).
      apply ocr_choice_same in Hc; [|by eapply Hpos]. injection Hc as -> -> ->. done.
  - stepM Hm. cleanM. apply record_failure_outcome in H1 as (K & -> & Hn). split; [left; done|done].
  - stepM Hm. cleanM. apply record_failure_outcome in H1 as (K & -> & Hn). split; [left; done|done].
Qed.
End outcome.

Lemma select_parser_quality decode docling mime content hints run m r :
  parse (select_parser decode docling mime false) content m hints run = Ok r -> 0 <= quality_score r.
Proof.
  assert (Ht : parse (NativeTextParser decode) content m hints run = Ok r -> 0 <= quality_score r).
  { cbn [parse NativeTextParser]. unfold native_text_parse. intros [= <-]. cbn [quality_score].
    pose proof one_pos. destruct (bool_decide _); lia. }
  unfold select_parser. destruct (bool_decide (bare_mime mime ∈ TEXT_MIMES)); [exact Ht|].
  destruct (String.eqb _ _); [|destruct (bool_decide (bare_mime mime ∈ OFFICE_MIMES)); [|exact Ht]].
  - cbn [parse NativePdfParser]. unfold native_pdf_parse. intros (u & _ & [= <-])%bind_Ok. cbn [quality_score].
    destruct (bool_decide _); [apply lit_nonneg; lia|]. apply Z.min_glb; [pose proof one_pos; lia|].
    apply fdiv_nonneg; [apply of_int_nonneg; lia|by apply of_int_pos].
  - cbn [parse DoclingParserAdapter]. unfold docling_parse. by destruct (negb _).
Qed.

Section run.
Context `{Env} {S : Type} `{ObjectStoragePort S}.
Variables (decode : list Z -> string) (docling : Docling).

(** What precedes the parse: the rows of the revision and the source, the
    attempt of the job, the source set running, the bytes within the limit. *)
Definition prepared (s : S) (account source_id revision_id : uuid) (job : option uuid) (w w1 : World)
    (revision : SourceRevision.t) (source : Source.t) (attempt : option (uuid * uuid)) (content : list Z) : Prop :=
  keep (fun r => same (SourceRevision.account_id r) account && same (SourceRevision.id r) revision_id &&
    same (SourceRevision.source_id r) source_id) (rows (db w)) = [revision] /\
  keep (fun r => same (Source.account_id r) account && same (Source.id r) source_id) (rows (db w)) = [source] /\
  rows (R := CurrentActiveParseRun.t) (db w1) = rows (db w) /\
  rows (R := ParseRun.t) (db w1) = rows (db w) /\
  (exists r, r ∈ rows (R := Source.t) (db w1) /\ Source.id r = source_id /\ Source.processing_status r = "running") /\
  match job, attempt with
  | Some j, Some (j', _) => j' = j
  | None, None => True
  | _, _ => False
  end /\
  load_revision_bytes s revision account = Ok content.

Lemma run_prepared s account actor source_id revision_id job shadow w r w' :
  run_ingestion_for_revision decode docling s account actor source_id revision_id job shadow w = Ok (r, w') ->
  exists w1 revision source attempt content,
    prepared s account source_id revision_id job w w1 revision source attempt content /\
    match check_file_size (Z.of_nat (length content)) with
    | Raise (ResourceLimitExceeded code) => exists run out w2,
        record_failure account revision source_id run "resource_limits" "resource_limits_v1"
          [("stage", JStr "resource_limits"); ("error", JStr code)] code code attempt None None shadow w2
          = Ok (out, w') /\ db w2 = db w1 /\ r = (out, s)
    | Raise _ => False
    | Ok _ =>
        let mime := sniff_mime (default "" (SourceRevision.mime_type revision))
                      (default "" (SourceRevision.object_key revision)) (take 16 content) in
        let primary := select_parser decode docling mime false in
        let run := parse_run_id revision_id (port_profile_hash primary) in
        (ingest decode docling s account source_id revision_id revision attempt shadow content mime
           (language_hints_from_revision revision) primary run w1 = Ok (r, w')) \/
        (shadow = false /\ r.2 = s /\ out_parse_run_id r.1 = run /\ out_status r.1 = ParseRunStatus.SUCCEEDED /\
         rows (R := CurrentActiveParseRun.t) (db w') = rows (db w) /\
         exists e, e ∈ rows (db w) /\ ParseRun.account_id e = account /\ ParseRun.id e = run /\
           ParseRun.status e = "succeeded")
    end.
Proof.
  intros Hm. unfold run_ingestion_for_revision in Hm. draw Hm.
  stepM Hm. apply select_one_Ok in H1 as [Hrev ->]. stepM Hm. apply select_one_Ok in H1 as [Hsrc ->].
  cbn [db] in Hrev, Hsrc. stepM Hm. framed H1 CurrentActiveParseRun.t K1. framed H1 ParseRun.t K2.
  framed H1 Source.t K3.
  assert (Hatt : match job, a1 with Some j, Some (j', _) => j' = j | None, None => True | _, _ => False end).
  { destruct job; [|by cleanM]. stepM H1. by cleanM. }
  clear H1. draw Hm. stepM Hm. apply update_Ok in H1 as ->. cbn [db tick] in *. stepM Hm. cleanM.
  assert (Hsid : Source.id a0 = source_id).
  { apply keep_one in Hsrc as [_ Hp]. unfold same in Hp. by split_bool. }
  assert (Hrid : SourceRevision.id a = revision_id).
  { apply keep_one in Hrev as [_ Hp]. unfold same in Hp. by split_bool. }
  rewrite Hsid, Hrid in Hm. lazymatch type of Hm with _ ?w1 = _ => exists w1, a, a0, a1, a3 end. split.
  { unfold prepared. split_and!; try eassumption.
    rows_simpl. rewrite K3. apply keep_one in Hsrc as [Hin _]. eexists. split.
    - apply list_elem_of_fmap. exists a0. split; [reflexivity|done].
    - change (row_id a0) with (Source.id a0). by rewrite Hsid, Z.eqb_refl. }
  destruct (check_file_size _) as [u|[]]; try discriminate.
  - cbv zeta in *. stepM Hm. apply select_opt_Ok in H2 as [He ->]. rows_simpl. rewrite K2 in He.
    destruct a4 as [e|]; [|by left].
    destruct (String.eqb (ParseRun.status e) (value ParseRunStatus.SUCCEEDED) && negb shadow) eqn:Es; [|by left].
    right. apply andb_prop in Es as [Es%String.eqb_eq Hsh%negb_true_iff].
    framed Hm CurrentActiveParseRun.t K4; [unfold set_source; frame|]. do 2 (stepM Hm; clear H2). cleanM.
    cbn [fst snd out_parse_run_id out_status]. rows_simpl. apply keep_one in He as [He Hp]. unfold same in Hp. split_bool.
    split_and!; try done. { congruence. } by exists e.
  - draw Hm. stepM Hm. cleanM. eexists _, _, _. split; [exact H2|]. done.
Qed.

Lemma shadow_persist_fails s account src rev revision parser run result attempt w out s' w' :
  persist_result s account src rev revision parser run result attempt true w = Ok ((out, s'), w') ->
  out_status out = ParseRunStatus.SUCCEEDED ->
  exists w1, finish account attempt false None None w1 = Ok (tt, w') /\
    rows (R := Source.t) (db w1) = rows (db w).
Proof.
  intros Hm Hst. unfold persist_result in Hm.
  destruct (_store_parser_artifact s account _ run _) as [s1 stored]. stepM Hm. cleanM.
  stepM Hm. framed H1 Source.t K1; [unfold _persist_parse_run; frame|]. clear H1.
  stepM Hm. framed H1 Source.t K2; [unfold _persist_elements; frame|]. clear H1.
  destruct (negb (bool_decide (validate_parse_result result = []))).
  { do 4 (stepM Hm; clear H1). by cleanM. }
  cbn [negb andb] in Hm. stepM Hm. destruct a2 as [rs ss]. stepM Hm. cleanM.
  stepM H1. framed H3 Source.t K3. cleanM. destruct a2.
  eexists. split; [exact H2|]. congruence.
Qed.

Lemma finish_fails_job account j a w w' :
  finish account (Some (j, a)) false None None w = Ok (tt, w') ->
  exists r, r ∈ rows (db w') /\ the_job account j r = true /\ DurableJob.status r = "failed".
Proof.
  intros Hm. apply complete_job_Ok in Hm as (r & x & t & t' & Hk & _ & _ & Hj).
  destruct (updated_row _ (fun r => DurableJob.set_updated_at t' (DurableJob.set_error_detail_safe None
    (DurableJob.set_error_code None (DurableJob.set_status "failed" r)))) _ _ Hk) as (y & Hy & Hp & ->); [done|].
  eexists. rewrite Hj. split; [exact Hy|]. done.
Qed.

(** ** Properties *)

(** C4: an ingestion moves the active-parse pointer only to a run worth reading:
    when it returns, either every pointer is as before, and if it reports
    success it ran in the shadow or found an earlier successful run; or it did
    not run in the shadow, the pointer of the revision, and no other, points to
    its run, and that run is stored as succeeded with a quality at or above the
    threshold. *)
Theorem ingestion_moves_pointer_to_good_run s account actor src rev job shadow w out s' w' :
  run_ingestion_for_revision decode docling s account actor src rev job shadow w = Ok ((out, s'), w') ->
  pointer_outcome account src rev shadow out w w' \/
  (rows (R := CurrentActiveParseRun.t) (db w') = rows (db w) /\ out_status out = ParseRunStatus.SUCCEEDED /\
   exists e, e ∈ rows (db w) /\ ParseRun.account_id e = account /\ ParseRun.id e = out_parse_run_id out /\
     ParseRun.status e = "succeeded").
Proof.
  intros Hm. apply run_prepared in Hm as (w1 & revision & source & attempt & content & Hprep & Hm).
  destruct Hprep as (_ & _ & Kp & Kr & _).
  destruct (check_file_size _) as [u|[]]; try done.
  - cbv zeta in Hm. destruct Hm as [Hm|(Hs & _ & Ho & Hst & K & e & He & Ha & Hi & Hs')]; [left|].
    2: { right. cbn [fst] in *. split; [exact K|]. split; [exact Hst|]. exists e. by rewrite Ho. }
    apply ingest_outcome in Hm as [Hm _]. unfold pointer_outcome in *. by rewrite <- Kp.
  - destruct Hm as (run & o & w2 & Hm & Hdb & [= -> ->]). apply record_failure_outcome in Hm as (K & -> & _).
    left. left. split; [congruence|done].
Qed.

(** A revision whose parse failed cannot be ingested again: while the failed
    run is stored, a second run computes the same run identifier and violates
    its primary key, whatever the storage and parsers give (for a file within
    the size limit); a shadow run of a revision already parsed fails the same
    way. *)
Theorem retry_after_failure_raises s account actor src rev job shadow w revision content e :
  keep (fun r => same (SourceRevision.account_id r) account && same (SourceRevision.id r) rev &&
    same (SourceRevision.source_id r) src) (rows (db w)) = [revision] ->
  load_revision_bytes s revision account = Ok content ->
  Z.of_nat (length content) <= max_file_bytes ->
  e ∈ rows (db w) ->
  ParseRun.id e = parse_run_id rev (port_profile_hash (select_parser decode docling
    (sniff_mime (default "" (SourceRevision.mime_type revision)) (default "" (SourceRevision.object_key revision))
      (take 16 content)) false)) ->
  ParseRun.status e <> "succeeded" \/ shadow = true ->
  NoDup (map ParseRun.id (rows (db w))) ->
  forall r, run_ingestion_for_revision decode docling s account actor src rev job shadow w <> Ok r.
Proof.
  intros Hrev Hload Hsize He Hid Hst Hnd [[out s'] w'] Hm.
  apply run_prepared in Hm as (w1 & revision' & source & attempt & content' & Hprep & Hm).
  destruct Hprep as (Hrev' & _ & _ & Kr & _ & _ & Hload'). rewrite Hrev in Hrev'. injection Hrev' as <-.
  rewrite Hload in Hload'. injection Hload' as <-.
  unfold check_file_size in Hm. rewrite (proj2 (Z.ltb_ge _ 0)), (proj2 (Z.ltb_ge _ _)) in Hm by lia.
  cbn [raise_if mbind res_bind] in Hm. cbv zeta in Hm. rewrite <- Hid in Hm.
  destruct Hm as [Hm|(Hsh & _ & Ho & _ & _ & e' & He' & _ & Hid' & Hst')].
  - apply ingest_outcome in Hm as [_ Hm]. destruct Hm as [_ Hn].
    { intros r Hr. by eapply select_parser_quality. }
    rewrite Kr in Hn. by apply (Hn e He).
  - assert (e = e') as <-.
    { apply (NoDup_map_eq ParseRun.id (rows (db w))); [done..|]. by rewrite Hid'. }
    destruct Hst; [done|congruence].
Qed.

(** A shadow run that succeeds fails its job: the run is reported and stored
    as succeeded, the job ends failed and the source is left running. *)
Theorem shadow_success_fails_job s account actor src rev j w out s' w' :
  run_ingestion_for_revision decode docling s account actor src rev (Some j) true w = Ok ((out, s'), w') ->
  out_status out = ParseRunStatus.SUCCEEDED ->
  (exists r, r ∈ rows (db w') /\ the_job account j r = true /\ DurableJob.status r = "failed") /\
  (exists r, r ∈ rows (R := Source.t) (db w') /\ Source.id r = src /\ Source.processing_status r = "running").
Proof.
  intros Hm Hst. apply run_prepared in Hm as (w1 & revision & source & attempt & content & Hprep & Hm).
  destruct Hprep as (_ & _ & _ & _ & Hsrc & Hatt & _). destruct attempt as [[j' a]|]; [subst j'|done].
  destruct (check_file_size _) as [u|[]]; try done.
  - cbv zeta in Hm. destruct Hm as [Hm|[? _]]; [|done]. unfold ingest in Hm.
    destruct (parse_within_limits _ _ _ _ _) as [result|[]]; try discriminate.
    + stepM Hm. cleanM. destruct a0 as [[p r] q]. apply shadow_persist_fails in Hm as (w2 & Hf & K); [|done].
      framed Hf Source.t K2. split; [by eapply finish_fails_job|]. rewrite K2, K. exact Hsrc.
    + stepM Hm. cleanM. apply record_failure_outcome in H1 as (_ & -> & _). done.
    + stepM Hm. cleanM. apply record_failure_outcome in H1 as (_ & -> & _). done.
  - destruct Hm as (run & o & w2 & Hm & Hdb & [= -> ->]). apply record_failure_outcome in Hm as (_ & -> & _). done.
Qed.
End run.

(** ** Witnesses *)

Definition sample_source : Source.t :=
  {| Source.id := 20; Source.account_id := 1; Source.space_id := 7; Source.title := "notes";
     Source.processing_status := "queued"; Source.created_at := 0; Source.updated_at := 0 |}.

Definition sample_key : string := "accounts/00000000-0000-0000-0000-000000000001/x".

Definition sample_revision : SourceRevision.t :=
  {| SourceRevision.id := 30; SourceRevision.account_id := 1; SourceRevision.space_id := 7;
     SourceRevision.source_id := 20; SourceRevision.snapshot_sha256 := "d"; SourceRevision.captured_at := 0;
     SourceRevision.source_native_version := None; SourceRevision.mime_type := Some "text/plain";
     SourceRevision.language_hints := None; SourceRevision.byte_count := Some 2;
     SourceRevision.page_count := None; SourceRevision.object_key := Some sample_key;
     SourceRevision.created_at := 0 |}.

Definition failed_run : ParseRun.t :=
  {| ParseRun.id := parse_run_id 30 (port_profile_hash (NativeTextParser latin1)); ParseRun.account_id := 1;
     ParseRun.space_id := 7; ParseRun.source_revision_id := 30; ParseRun.parser_profile := "native_text_v1";
     ParseRun.status := "failed"; ParseRun.profile_hash := None; ParseRun.is_shadow := false;
     ParseRun.quality_score := Some 0; ParseRun.stage_checkpoint := []; ParseRun.artifact_object_key := None;
     ParseRun.error_code := None; ParseRun.error_detail_safe := None; ParseRun.created_at := 0;
     ParseRun.updated_at := 0 |}.

Definition source_world (runs : list ParseRun.t) : World :=
  {| db := set_rows [sample_source] (set_rows [sample_revision] (set_rows runs (set_rows [sample_job] empty_db)));
     tick := 0 |}.

Definition sample_storage : gmap.gmap string (bytes * string * list (string * string)) :=
  fst (put_bytes gmap.gmap_empty sample_key (utf8 "hi") "text/plain" 1 "d").

Local Notation sample_run job shadow runs :=
  (@run_ingestion_for_revision test_env _ MemoryObjectStorage latin1 docling_missing sample_storage 1 2 20 30 job shadow
    (source_world runs)).

Definition status_of {S} (r : res (IngestionOutcome * S * World)) : option ParseRunStatus.t :=
  match r with Ok (o, _, _) => Some (out_status o) | Raise _ => None end.

Lemma ingestion_moves_pointer_to_good_run_witness :
  exists out s w', sample_run None false [] = Ok ((out, s), w') /\
    pointer_outcome 1 20 30 false out (source_world []) w'.
Proof.
  destruct (returned (sample_run None false [])) as [[[out s] w'] E]; [vm_compute; reflexivity|].
  exists out, s, w'. split; [exact E|].
  destruct (@ingestion_moves_pointer_to_good_run test_env _ MemoryObjectStorage latin1 docling_missing sample_storage
    1 2 20 30 None false (source_world []) out s w' E) as [H|(_ & _ & e & He & _)]; [exact H|].
  exfalso. exact (not_elem_of_nil e He).
Defined.

Lemma retry_after_failure_raises_witness : ~ exists r, sample_run (Some 9) false [failed_run] = Ok r.
Proof.
  intros [r Hr]. revert r Hr. apply (@retry_after_failure_raises test_env _ MemoryObjectStorage latin1 docling_missing sample_storage
    1 2 20 30 (Some 9) false (source_world [failed_run]) sample_revision (utf8 "hi") failed_run).
  - vm_compute. reflexivity.
  - vm_compute. reflexivity.
  - vm_compute. discriminate.
  - apply list_elem_of_here.
  - vm_compute. reflexivity.
  - left. discriminate.
  - apply NoDup_singleton.
Defined.

Lemma shadow_success_fails_job_witness :
  exists out s w', sample_run (Some 9) true [] = Ok ((out, s), w') /\
    exists r, r ∈ rows (db w') /\ the_job 1 9 r = true /\ DurableJob.status r = "failed".
Proof.
  destruct (returned (sample_run (Some 9) true [])) as [[[out s] w'] E]; [vm_compute; reflexivity|].
  exists out, s, w'. split; [exact E|].
  apply (@shadow_success_fails_job test_env _ MemoryObjectStorage latin1 docling_missing sample_storage
    1 2 20 30 9 (source_world []) out s w' E).
  assert (Hst : status_of (sample_run (Some 9) true []) = Some ParseRunStatus.SUCCEEDED) by (vm_compute; reflexivity).
  rewrite E in Hst. cbn [status_of] in Hst. injection Hst as ->. reflexivity.
Defined.
