(* ===== verification/Processor.v ===== *)
(** * The outbox processor (services/core/src/memdot_core/jobs/processor.py)

    A claimed event is dispatched by its type: deletion events advance their
    workflow in a tenant context of the worker, ingestion events run their job
    when its signed authority still stands, anything else is left for its owner.
    The queries run as the owner of the ledger, without its row policies. *)

From Stdlib Require Import ZArith Lia.
From stdpp Require Import list strings.
From S2P Require Import Prelude PyStr Json Uuid Enums Ledger Store Outbox RequestContext Deletion AuthSnapshot TenantContext Jobs.
From S2P Require Import Parsers Storage Ingestion.
Open Scope Z_scope.

Record DispatchResult := { dr_event_id : uuid; dr_acknowledged : bool; dr_job_id : option uuid }.

Definition INGESTION_EVENT_TYPES : list string :=
  ["source.upload_completed"; "source.retry_requested"; "source.reprocess_requested"].

Definition DELETION_EVENT_TYPES : list string := ["deletion.tombstoned"; "deletion.workflow_advanced"].

Definition unacknowledged (e : ClaimedEvent) (job : option uuid) : DispatchResult :=
  {| dr_event_id := ce_id e; dr_acknowledged := false; dr_job_id := job |}.

Definition progression (state : string) : option string :=
  if String.eqb state "tombstoned" then Some "revoking_grants"
  else if String.eqb state "revoking_grants" then Some "purging_projections"
  else if String.eqb state "purging_projections" then Some "completed"
  else None.

Definition the_workflow (account id : uuid) (r : DeletionWorkflow.t) : bool :=
  same (DeletionWorkflow.account_id r) account && same (DeletionWorkflow.id r) id.

(** [uuid.UUID(str(v))]. *)
Definition uuid_of (v : json) : res uuid :=
  of_option (ValueError "badly formed hexadecimal UUID string") (parse_uuid (py_str v)).

Section session.
Context `{Env}.

Definition _ack (account : uuid) (e : ClaimedEvent) (job : option uuid) : M DispatchResult :=
  match ce_claim_token e with
  | None => mret (unacknowledged e job)
  | Some token =>
      acked ← ack_outbox_event account (ce_id e) token;
      mret {| dr_event_id := ce_id e; dr_acknowledged := acked; dr_job_id := job |}
  end.

(** The key of the tenant seal and the nonce drawn for it. *)
Context (tenant_key : list Z) (seal_nonce : string).

(** The worker acts as the actor of the payload, or under the account's own
    identifier when that is missing or malformed. *)
Definition worker_of (account : uuid) (payload : dict) : TenantContext :=
  let actor_raw := dict_get "actor_id" payload in
  {| tc_account_id := account;
     tc_actor_id := if py_bool actor_raw then default account (parse_uuid (py_str actor_raw)) else account;
     tc_purpose := RequestPurpose.WORKER |}.

Definition advance_named_workflow (account : uuid) (e : ClaimedEvent) (raw : json) : M DispatchResult :=
  match parse_uuid (py_str raw) with
  | None => mret (unacknowledged e None)
  | Some workflow_id =>
      row ← select_opt (the_workflow account workflow_id);
      match row with
      | None => _ack account e None
      | Some row =>
          _ ← match progression (DeletionWorkflow.state row) with
              | None => mret tt
              | Some next =>
                  _ ← begin_tenant tenant_key true seal_nonce (worker_of account (ce_payload e));
                  t ← now;
                  update (DeletionWorkflow.id row) (fun r =>
                    DeletionWorkflow.set_updated_at t (DeletionWorkflow.set_state next r))
              end;
          _ack account e None
      end
  end.

Definition _process_deletion_event (account : uuid) (e : ClaimedEvent) : M DispatchResult :=
  match dict_get "workflow_id" (ce_payload e) with
  | JNull => _ack account e None
  | raw => advance_named_workflow account e raw
  end.

(** The authority of the job is gone: it is dead-lettered. *)
Definition reject_job (account job : uuid) (row : DurableJob.t) : M unit :=
  t ← now;
  _ ← update (DurableJob.id row) (fun r =>
        DurableJob.set_status (value JobStatus.DEAD_LETTER) (DurableJob.set_updated_at t
          (DurableJob.set_error_detail_safe
             (Some "Authorization snapshot expired or revoked; re-authorization required.")
             (DurableJob.set_error_code (Some "auth_snapshot_invalid") r))));
  mark_dead_letter account job.

Section storage.
Context {S : Type} `{ObjectStoragePort S}.
Variables (decode : list Z -> string) (docling : Docling).

(** The job of an ingestion event, once its row is found. *)
Definition run_job (s : S) (account : uuid) (e : ClaimedEvent) (source_id revision_id : uuid) (shadow : bool)
    (job_id : uuid) (job : option DurableJob.t) : M (DispatchResult * S) :=
  match job with
  | Some j =>
      match DurableJob.auth_snapshot j with
      | Some ((_ :: _) as snapshot) =>
          current ← unix_time;
          valid ← validate_auth_snapshot signing_key account (Some snapshot) (DurableJob.space_id j) current;
          if negb valid then
            _ ← reject_job account job_id j;
            r ← _ack account e (Some job_id);
            mret (r, s)
          else
            actor_raw ← lift (of_option KeyError (dict_lookup "actor_id" snapshot));
            actor_id ← lift (uuid_of actor_raw);
            out ← run_ingestion_for_revision decode docling s account actor_id source_id revision_id
                    (Some job_id) shadow;
            r ← _ack account e (Some job_id);
            mret (r, out.2)
      | _ => mret (unacknowledged e (Some job_id), s)
      end
  | None => mret (unacknowledged e (Some job_id), s)
  end.

Definition process_claimed_event (s : S) (e : ClaimedEvent) : M (DispatchResult * S) :=
  let account := ce_account_id e in
  if bool_decide (ce_event_type e ∈ DELETION_EVENT_TYPES) then
    r ← _process_deletion_event account e; mret (r, s)
  else if negb (bool_decide (ce_event_type e ∈ INGESTION_EVENT_TYPES)) then
    mret (unacknowledged e None, s)
  else
    source_raw ← lift (of_option KeyError (dict_lookup "source_id" (ce_payload e)));
    source_id ← lift (uuid_of source_raw);
    revision_raw ← lift (of_option KeyError (dict_lookup "revision_id" (ce_payload e)));
    revision_id ← lift (uuid_of revision_raw);
    let shadow := py_bool (dict_get_or "shadow" (JBool false) (ce_payload e)) in
    let job_raw := dict_get "durable_job_id" (ce_payload e) in
    (* the claim returns no durable_job_id column to fall back on *)
    if negb (py_bool job_raw) then mret (unacknowledged e None, s)
    else
      match parse_uuid (py_str job_raw) with
      | None => mret (unacknowledged e None, s)
      | Some job_id =>
          job ← select_opt (the_job account job_id);
          run_job s account e source_id revision_id shadow job_id job
      end.

(** The events of a batch, one after another; a payload that does not have its
    recorded digest is skipped. *)
Fixpoint dispatch_events (s : S) (l : list ClaimedEvent) : M (list DispatchResult * S) :=
  match l with
  | [] => mret ([], s)
  | e :: l =>
      if negb (String.eqb (ce_payload_sha256 e) (payload_sha256 (ce_payload e))) then dispatch_events s l
      else
        r ← process_claimed_event s e;
        rs ← dispatch_events r.2 l;
        mret (r.1 :: rs.1, rs.2)
  end.

Definition dispatch_outbox_batch (s : S) (worker_id : string) (batch_size : nat) : M (list DispatchResult * S) :=
  claimed ← claim_outbox_batch worker_id batch_size 30;
  dispatch_events s claimed.
End storage.
End session.

(** ** Lemmas *)

Definition job_ended (account job : uuid) (w : World) : Prop :=
  exists r, r ∈ rows (db w) /\ the_job account job r = true /\
    (DurableJob.status r = "succeeded" \/ DurableJob.status r = "failed").

Section frames.
Context `{Env}.

Lemma ack_outbox_keeps R `{Table R} account id token :
  (forall l d, rows (R := R) (set_rows (R := OutboxEvent.t) l d) = rows d) ->
  keeps R (ack_outbox_event account id token).
Proof.
  intros Hother w b w' Hm. unfold ack_outbox_event in Hm. draw Hm. unfold statement in Hm.
  injection Hm as _ <-. apply Hother.
Qed.

Lemma ack_keeps R `{Table R} account e job :
  (forall l d, rows (R := R) (set_rows (R := OutboxEvent.t) l d) = rows d) -> keeps R (_ack account e job).
Proof.
  intros Hother. unfold _ack. destruct (ce_claim_token e); [|apply keeps_ret].
  apply keeps_bind; [by apply ack_outbox_keeps|intros; apply keeps_ret].
Qed.

(** An acknowledgement adds and removes no event. *)
Lemma ack_event_ids account e job :
  forall w r w', _ack account e job w = Ok (r, w') ->
  map OutboxEvent.id (rows (db w')) = map OutboxEvent.id (rows (db w)).
Proof.
  intros w r w' Hm. unfold _ack in Hm. destruct (ce_claim_token e); [|by cleanM].
  stepM Hm. cleanM. unfold ack_outbox_event in H0. draw H0. unfold statement in H0.
  injection H0 as _ <-. rows_simpl. cbn [ack_rows fst snd]. rewrite map_map. apply map_ext. intros x. by destruct (ack_hit _ _ _ x).
Qed.
End frames.
#[export] Hint Extern 1 (keeps _ (_ack _ _ _)) => apply ack_keeps; intros; reflexivity : frame.

(** The tables an ingestion writes its results to. *)
Definition no_ingestion (w w' : World) : Prop :=
  rows (R := ParseRun.t) (db w') = rows (db w) /\ rows (R := DocumentElement.t) (db w') = rows (db w) /\
  rows (R := CurrentActiveParseRun.t) (db w') = rows (db w) /\ rows (R := Source.t) (db w') = rows (db w).

Lemma no_ingestion_trans w1 w2 w3 : no_ingestion w1 w2 -> no_ingestion w2 w3 -> no_ingestion w1 w3.
Proof. unfold no_ingestion. intuition congruence. Qed.

Lemma no_ingestion_frame {A} (m : M A) w a w' :
  keeps ParseRun.t m -> keeps DocumentElement.t m -> keeps CurrentActiveParseRun.t m -> keeps Source.t m ->
  m w = Ok (a, w') -> no_ingestion w w'.
Proof. intros K1 K2 K3 K4 Hm. repeat split; eauto. Qed.

(** The hypothesis that a call returned shows that it kept those tables. *)
Ltac untouched H := eapply no_ingestion_frame in H; [|frame..].

Section proofs.
Context `{Env} {S : Type} `{ObjectStoragePort S}.
Variables (tenant_key : list Z) (seal_nonce : string) (decode : list Z -> string) (docling : Docling).

Lemma finish_ends account j a ok code detail :
  post (fun _ => job_ended account j) (finish account (Some (j, a)) ok code detail).
Proof.
  intros w [] w' Hm. apply complete_job_Ok in Hm as (r & x & t & t' & Hk & _ & _ & Hj).
  destruct (updated_row _ (fun r => DurableJob.set_updated_at t' (DurableJob.set_error_detail_safe detail
    (DurableJob.set_error_code code (DurableJob.set_status
      (value (if ok then JobStatus.SUCCEEDED else JobStatus.FAILED)) r)))) _ _ Hk) as (y & Hy & Hp & ->); [done|].
  eexists. rewrite Hj. split; [exact Hy|]. split; [done|]. destruct ok; [by left|by right].
Qed.

Lemma finish_last_ends {A} account j a ok code detail (v : A) :
  post (fun _ => job_ended account j) (_ ← finish account (Some (j, a)) ok code detail; mret v).
Proof. apply (post_last _ (fun _ => job_ended account j)); [apply finish_ends|done]. Qed.

Ltac ends := repeat first [apply finish_last_ends | apply post_raise | apply post_bind; intros ?].

Lemma record_failure_ends account revision src run p ph cp c d j a jc jd sh :
  post (fun _ => job_ended account j) (record_failure account revision src run p ph cp c d (Some (j, a)) jc jd sh).
Proof. unfold record_failure. ends. Qed.

Lemma ingest_ends s account src rev revision j a shadow content mime hints primary run :
  post (fun _ => job_ended account j)
    (ingest decode docling s account src rev revision (Some (j, a)) shadow content mime hints primary run).
Proof.
  unfold ingest. destruct (parse_within_limits _ _ _ _ _) as [result|[]]; try apply post_raise.
  - apply post_bind. intros [[p r] q]. unfold persist_result.
    destruct (_store_parser_artifact _ _ _ _ _) as [s1 stored]. do 3 (apply post_bind; intros ?).
    destruct (negb _); [ends|]. apply post_bind. intros [rs ss]. ends.
  - apply (post_last _ (fun _ => job_ended account j)); [apply record_failure_ends|done].
  - apply (post_last _ (fun _ => job_ended account j)); [apply record_failure_ends|done].
Qed.

Lemma run_ends_job s account actor src rev j shadow :
  post (fun _ => job_ended account j)
    (run_ingestion_for_revision decode docling s account actor src rev (Some j) shadow).
Proof.
  intros w out w' Hm. unfold run_ingestion_for_revision in Hm. draw Hm. do 2 (stepM Hm). stepM Hm. stepM H3. cleanM.
  draw Hm. stepM Hm. stepM Hm. destruct (check_file_size _) as [u|[]]; try discriminate.
  - refine ((_ : post (fun _ => job_ended account j) _) _ _ _ Hm). apply post_bind. intros [run|].
    + destruct (String.eqb _ _ && _); [ends|apply ingest_ends].
    + apply ingest_ends.
  - draw Hm. refine ((_ : post (fun _ => job_ended account j) _) _ _ _ Hm).
    apply (post_last _ (fun _ => job_ended account j)); [apply record_failure_ends|done].
Qed.

(** The authority of the event's job stands, whatever the status of the job. *)
Definition authorised (e : ClaimedEvent) (j : DurableJob.t) (w : World) : Prop :=
  exists snapshot w1, DurableJob.auth_snapshot j = Some snapshot /\
    validate_auth_snapshot signing_key (ce_account_id e) (Some snapshot) (DurableJob.space_id j)
      (clock (tick w) / 1000000) {| db := db w; tick := Datatypes.S (tick w) |} = Ok (true, w1).

Lemma run_job_outcome s account e src rev sh jid job w r s' w' :
  account = ce_account_id e ->
  run_job decode docling s account e src rev sh jid job w = Ok ((r, s'), w') ->
  (no_ingestion w w' /\ s' = s) \/
  (exists j, job = Some j /\ authorised e j w /\ job_ended account jid w').
Proof.
  intros -> Hm. unfold run_job in Hm. destruct job as [j|]; [|cleanM; by left].
  destruct (DurableJob.auth_snapshot j) as [[|x l]|] eqn:Es; [cleanM; by left| |cleanM; by left].
  draw Hm. stepM Hm. destruct a; cbn [negb] in Hm.
  - right. exists j. split; [done|]. split; [exists (x :: l), w0; by split|].
    stepM Hm. stepM Hm. cleanM. stepM Hm. apply run_ends_job in H4 as (row & Hr & Hj & Hst).
    stepM Hm. framed H4 DurableJob.t K. cleanM. exists row. by rewrite K.
  - left. stepM Hm. stepM Hm. cleanM. split; [|done].
    unfold validate_auth_snapshot, check_space, check_source, is_tombstoned in H1. untouched H1.
    unfold reject_job, mark_dead_letter in H2. untouched H2. untouched H3.
    refine (no_ingestion_trans _ _ _ H1 (no_ingestion_trans _ _ _ H2 H3)).
Qed.

(** C12: an outbox event reaches the ingestion only through a job whose signed
    authority stands: a returned call leaves the ingestion's tables and its
    storage as they were, or the event is an ingestion event of a job of its
    account whose snapshot validated at that moment, and then the job ends
    succeeded or failed.  The job's status is not looked at: a cancelled or
    dead-lettered job is run as well. *)
Theorem ingestion_needs_authority s e w r s' w' :
  process_claimed_event tenant_key seal_nonce decode docling s e w = Ok ((r, s'), w') ->
  (no_ingestion w w' /\ s' = s) \/
  (ce_event_type e ∈ INGESTION_EVENT_TYPES /\ exists jid j,
     parse_uuid (py_str (dict_get "durable_job_id" (ce_payload e))) = Some jid /\
     j ∈ rows (db w) /\ the_job (ce_account_id e) jid j = true /\ authorised e j w /\
     job_ended (ce_account_id e) jid w').
Proof.
  intros Hm. unfold process_claimed_event in Hm. destruct (bool_decide (_ ∈ DELETION_EVENT_TYPES)).
  { left. stepM Hm. cleanM. split; [|done]. unfold _process_deletion_event, advance_named_workflow in *. untouched H1. done. }
  destruct (bool_decide_reflect (ce_event_type e ∈ INGESTION_EVENT_TYPES)) as [Hty|]; cbn [negb] in Hm; [|cleanM; by left].
  do 4 (stepM Hm; cleanM). destruct (negb _); [cleanM; by left|].
  destruct (parse_uuid _) as [jid|] eqn:Ej; [|cleanM; by left].
  stepM Hm. destruct a3 as [j|].
  - apply select_opt_in in H5 as (-> & Hin & Hj). apply run_job_outcome in Hm; [|done].
    destruct Hm as [Hm|(j' & [= <-] & Hm)]; [by left|]. right. split; [done|]. exists jid, j. tauto.
  - apply select_opt_Ok in H5 as [_ ->]. cbn in Hm. cleanM. by left.
Qed.

Definition advanced_once (account : uuid) (raw : json) (w w' : World) : Prop :=
  map OutboxEvent.id (rows (db w')) = map OutboxEvent.id (rows (db w)) /\
  (rows (R := DeletionWorkflow.t) (db w') = rows (db w) \/
   exists row next t, row ∈ rows (db w) /\ DeletionWorkflow.account_id row = account /\
     parse_uuid (py_str raw) = Some (DeletionWorkflow.id row) /\
     progression (DeletionWorkflow.state row) = Some next /\
     rows (db w') = map (fun x => if DeletionWorkflow.id x =? DeletionWorkflow.id row
       then DeletionWorkflow.set_updated_at t (DeletionWorkflow.set_state next x) else x) (rows (db w))).

Lemma ack_advances account e raw w r w' : _ack account e None w = Ok (r, w') -> advanced_once account raw w w'.
Proof. intros Ha. split; [by eapply ack_event_ids|]. left. framed Ha DeletionWorkflow.t K. done. Qed.

Lemma advance_named_workflow_Ok account e raw w r w' :
  advance_named_workflow tenant_key seal_nonce account e raw w = Ok (r, w') -> advanced_once account raw w w'.
Proof.
  intros Hm. unfold advance_named_workflow in Hm. destruct (parse_uuid (py_str raw)) as [id|] eqn:Ep.
  2: { cleanM. split; [done|by left]. }
  stepM Hm. destruct a as [row|].
  2: { apply select_opt_Ok in H1 as [_ ->]. by eapply ack_advances. }
  apply select_opt_in in H1 as (-> & Hin & Hrow). stepM Hm.
  destruct (progression _) as [next|] eqn:En; [|cleanM; by eapply ack_advances].
  stepM H1. apply begin_Ok in H2 as (Hdb & _). draw H1. apply update_Ok in H1 as ->. pose proof (ack_event_ids _ _ _ _ _ _ Hm) as Hids.
  framed Hm DeletionWorkflow.t K. rows_simpl. rewrite Hdb in *. split; [exact Hids|]. right.
  unfold the_workflow, same in Hrow. split_bool. subst. eexists row, next, _. by split_and!.
Qed.

(** A deletion event advances its workflow by at most one step and the
    outbox gains no event, so a workflow goes no further than the events its
    callers wrote: the one of [create_tombstone] leaves it revoking grants. *)
Theorem deletion_event_advances_once s e w r s' w' :
  ce_event_type e ∈ DELETION_EVENT_TYPES ->
  process_claimed_event tenant_key seal_nonce decode docling s e w = Ok ((r, s'), w') ->
  s' = s /\ advanced_once (ce_account_id e) (dict_get "workflow_id" (ce_payload e)) w w'.
Proof.
  intros Hty Hm. unfold process_claimed_event in Hm. rewrite bool_decide_true in Hm by done.
  stepM Hm. cleanM. split; [done|]. unfold _process_deletion_event in H1.
  destruct (dict_get "workflow_id" (ce_payload e)); first [by eapply ack_advances|by eapply advance_named_workflow_Ok].
Qed.

(** What the seal of the worker asks for. *)
Lemma worker_needs_system account payload w s' w' :
  begin_tenant tenant_key true seal_nonce (worker_of account payload) w = Ok (s', w') ->
  exists a, a ∈ rows (db w) /\ Actor.account_id a = account /\ Actor.kind a = "system".
Proof. intros (_ & _ & _ & _ & a & Ha & Hacc & _ & _ & He)%begin_Ok. by exists a. Qed.

(** A deletion event of a workflow that is not finished raises, and with it the
    batch it was claimed in, unless its account has an actor of kind system:
    the worker's scope asks for one, and no code of the repository makes one. *)
Theorem deletion_needs_system_actor s e w id row next :
  ce_event_type e ∈ DELETION_EVENT_TYPES ->
  parse_uuid (py_str (dict_get "workflow_id" (ce_payload e))) = Some id ->
  keep (the_workflow (ce_account_id e) id) (rows (db w)) = [row] -> progression (DeletionWorkflow.state row) = Some next ->
  (forall a, a ∈ rows (db w) -> Actor.account_id a = ce_account_id e -> Actor.kind a <> "system") ->
  exists err, process_claimed_event tenant_key seal_nonce decode docling s e w = Raise err.
Proof.
  intros Hty Hid Hrow Hnext Hno. unfold process_claimed_event. rewrite bool_decide_true by done.
  assert (Hd : exists err, _process_deletion_event tenant_key seal_nonce (ce_account_id e) e w = Raise err).
  { unfold _process_deletion_event.
    assert (Hm : forall raw, raw = dict_get "workflow_id" (ce_payload e) ->
      exists err, advance_named_workflow tenant_key seal_nonce (ce_account_id e) e raw w = Raise err).
    { intros raw ->. unfold advance_named_workflow. rewrite Hid.
      rewrite (M_bind_step _ _ w (Some row) w) by by apply select_opt_Ok. rewrite Hnext.
      destruct (begin_tenant tenant_key true seal_nonce (worker_of (ce_account_id e) (ce_payload e)) w) as [[x w1]|err] eqn:Eb.
      - exfalso. apply worker_needs_system in Eb as (a & Ha & Hacc & Hk). by eapply Hno.
      - exists err. do 2 (apply M_bind_fail). exact Eb. }
    destruct (dict_get "workflow_id" (ce_payload e)) eqn:Er; [discriminate Hid|by apply Hm..]. }
  destruct Hd as [err Hd]. exists err. by apply M_bind_fail.
Qed.
End proofs.

(** ** Witnesses *)

Definition signed_job (status : string) : DurableJob.t :=
  DurableJob.set_status status
    (new_job 9 test_ctx 7 "ingestion.parse" None [] (auth_snapshot_from_context [] test_ctx None [] 3600 0) 0).

Definition sample_event (ty : string) (payload : dict) : ClaimedEvent :=
  {| ce_id := 5; ce_account_id := 1; ce_event_type := ty; ce_payload_sha256 := ""; ce_payload := payload;
     ce_claim_token := Some 6 |}.

Definition upload_event : ClaimedEvent :=
  sample_event "source.upload_completed"
    [("source_id", JStr (str_uuid 20)); ("revision_id", JStr (str_uuid 30)); ("durable_job_id", JStr (str_uuid 9))].

(** The job was cancelled before its event is processed. *)
Definition cancelled_world : World :=
  {| db := set_rows [signed_job "cancelled"] (set_rows [sample_account] (set_rows [sample_actor]
             (db (source_world [])))); tick := 0 |}.

Local Notation process e w :=
  (@process_claimed_event test_env AuthSnapshot.sample_key "00ff" _ MemoryObjectStorage latin1 docling_missing sample_storage e w).

Lemma ingestion_needs_authority_witness :
  exists r s' w', process upload_event cancelled_world = Ok ((r, s'), w') /\ job_ended 1 9 w'.
Proof.
  destruct (returned (process upload_event cancelled_world)) as [[[r s'] w'] E]; [vm_compute; reflexivity|].
  exists r, s', w'. split; [exact E|].
  destruct (@ingestion_needs_authority test_env _ MemoryObjectStorage AuthSnapshot.sample_key "00ff" latin1 docling_missing sample_storage
    upload_event cancelled_world r s' w' E) as [[(Hno & _) _]|(_ & jid & j & Hj & _ & _ & _ & Hend)].
  - exfalso.
    assert (Hl : match process upload_event cancelled_world with
                 | Ok (_, w1) => length (rows (R := ParseRun.t) (db w1)) | Raise _ => O end = 1%nat)
      by (vm_compute; reflexivity).
    rewrite E, Hno in Hl. discriminate Hl.
  - vm_compute in Hj. injection Hj as <-. exact Hend.
Defined.

(** A cancelled job is run, and succeeds. *)
Example cancelled_job_is_run :
  match process upload_event cancelled_world with
  | Ok (_, w') => map DurableJob.status (rows (db w'))
  | Raise _ => []
  end = ["succeeded"].
Proof. vm_compute. reflexivity. Qed.

Definition deletion_event : ClaimedEvent :=
  sample_event "deletion.tombstoned" [("workflow_id", JStr (str_uuid 40))].

Definition system_actor : Actor.t :=
  {| Actor.id := 1; Actor.account_id := 1; Actor.kind := "system"; Actor.reference_id := None;
     Actor.revoked_at := None; Actor.created_at := 0 |}.

Definition deletion_world_of (actors : list Actor.t) : World :=
  {| db := set_rows actors (set_rows [new_workflow 40 1 "source" 50 None 41 0] empty_db); tick := 0 |}.

(** With an actor that bears the identifier of its account. *)
Definition deletion_world : World := deletion_world_of [system_actor].

Lemma deletion_event_advances_once_witness :
  exists r s' w', process deletion_event deletion_world = Ok ((r, s'), w') /\
    map DeletionWorkflow.state (rows (db w')) = ["revoking_grants"] /\
    rows (R := OutboxEvent.t) (db w') = [].
Proof.
  destruct (returned (process deletion_event deletion_world)) as [[[r s'] w'] E]; [vm_compute; reflexivity|].
  exists r, s', w'. split; [exact E|].
  assert (Hty : ce_event_type deletion_event ∈ DELETION_EVENT_TYPES) by apply list_elem_of_here.
  destruct (@deletion_event_advances_once test_env _ MemoryObjectStorage AuthSnapshot.sample_key "00ff" latin1 docling_missing sample_storage
    deletion_event deletion_world r s' w' Hty E) as (_ & Hids & Hst).
  split; [|destruct (rows (R := OutboxEvent.t) (db w')); [reflexivity|discriminate Hids]].
  destruct Hst as [Hst|(row & next & t & Hrow & _ & _ & Hp & ->)].
  - exfalso.
    assert (Hl : match process deletion_event deletion_world with
                 | Ok (_, w1) => map DeletionWorkflow.state (rows (db w1)) | Raise _ => [] end = ["revoking_grants"])
      by (vm_compute; reflexivity).
    rewrite E, Hst in Hl. discriminate Hl.
  - apply list_elem_of_singleton in Hrow as ->. injection Hp as <-. reflexivity.
Defined.

(** The event [create_tombstone] writes, in an account with its user's actor only. *)
Lemma deletion_needs_system_actor_witness :
  exists err, process deletion_event (deletion_world_of [sample_actor]) = Raise err.
Proof.
  assert (Hty : ce_event_type deletion_event ∈ DELETION_EVENT_TYPES) by apply list_elem_of_here.
  apply (@deletion_needs_system_actor test_env _ MemoryObjectStorage AuthSnapshot.sample_key "00ff" latin1 docling_missing
    sample_storage deletion_event (deletion_world_of [sample_actor]) 40 (new_workflow 40 1 "source" 50 None 41 0) "revoking_grants" Hty);
    [vm_compute; reflexivity..|].
  intros a Ha. apply list_elem_of_singleton in Ha as ->. discriminate.
Defined.
