(* ===== verification/LearningService.v ===== *)
(** * The learning service (services/core/src/memdot_core/learning/service.py)

    Courses and their prerequisite graph, sealed assessments, attempts, the
    event log, the evidence projections and the review items.  Each operation
    is the whole function; where the code builds one row in several lines, the
    row is a definition of its own. *)

From Stdlib Require Import ZArith Lia.
From stdpp Require Import list strings relations.
From S2P Require Import Prelude PyStr Digest Uuid Json Enums Float64 PyFloat PyTime Fsrs EvidenceTwin Learning.
From S2P Require Import Ledger Store RequestContext Deletion.
Open Scope Z_scope.

Record CourseResult := { cr_course_id : uuid; cr_space_id : uuid }.

Definition the_course (account course : uuid) (r : Course.t) : bool :=
  same (Course.account_id r) account && same (Course.id r) course.

(** [Enum(s)]. *)
Definition enum_of {A} `{StrEnum A} (s : string) : res A :=
  of_option (ValueError (repr_str s +:+ " is not a valid member")) (of_value s).

Lemma enum_of_Ok {A} `{StrEnum A} s (a : A) : enum_of s = Ok a <-> value a = s.
Proof. unfold enum_of. by rewrite of_option_Ok, of_value_Some. Qed.

(** Confirmed edges of the course, in row order. *)
Definition confirmed_edge (account course : uuid) (e : CurriculumEdge.t) : bool :=
  same (CurriculumEdge.account_id e) account && same (CurriculumEdge.course_id e) course &&
  String.eqb (CurriculumEdge.confirmation e) (value ConfirmationState.CONFIRMED).

Definition edge_pair (e : CurriculumEdge.t) : string * string :=
  (str_uuid (CurriculumEdge.from_node_id e), str_uuid (CurriculumEdge.to_node_id e)).

Definition assessment_digest (prompt item_type : string) (sealed_answer : dict) : string :=
  sha256_str (dumps (JObj [("prompt", JStr prompt); ("answer", JObj sealed_answer); ("type", JStr item_type)])).

(** The attempt a client identifies. *)
Definition client_attempt (account : uuid) (client_id : string) (r : AssessmentAttempt.t) : bool :=
  same (AssessmentAttempt.account_id r) account &&
  opt_eqb (AssessmentAttempt.client_attempt_id r) (Some client_id).

Definition attempt_target (course item revision : uuid) (r : AssessmentAttempt.t) : bool :=
  same (AssessmentAttempt.course_id r) course && same (AssessmentAttempt.assessment_item_id r) item &&
  same (AssessmentAttempt.assessment_revision_id r) revision.

(** A dictionary of the answer of [start_assessment_attempt]. *)
Record AttemptResult := { at_attempt_id : uuid; at_status : string; at_idempotent : bool }.

Record RevealResult := { rv_attempt_id : uuid; rv_hint : bool; rv_answer : bool; rv_status : string }.

(** A learner event with the columns every writer sets. *)
Definition new_learner_event (id : uuid) (ctx : RequestContext) (space course : uuid) (concept item revision attempt : option uuid)
    (client_event : option string) (event_type : string) (occurred received : Z) (payload : dict)
    (eligibility : string) (reason : option string) : LearnerEvent.t :=
  {| LearnerEvent.id := id; LearnerEvent.account_id := account_id ctx; LearnerEvent.space_id := space;
     LearnerEvent.course_id := course; LearnerEvent.user_id := user_id ctx;
     LearnerEvent.concept_node_id := concept; LearnerEvent.assessment_item_id := item;
     LearnerEvent.assessment_revision_id := revision; LearnerEvent.attempt_id := attempt;
     LearnerEvent.client_event_id := client_event; LearnerEvent.event_type := event_type;
     LearnerEvent.occurred_at := occurred; LearnerEvent.received_at := received;
     LearnerEvent.payload_schema_version := 1; LearnerEvent.payload := payload;
     LearnerEvent.eligibility := eligibility; LearnerEvent.exclusion_reason := reason |}.

(** Keys a client must not declare. *)
Definition stripped_keys : list string := ["correct"; "grade"; "eligibility"; "eligible"; "user_id"].

Definition strip_payload (body : dict) : dict :=
  keep (fun kv => negb (bool_decide (kv.1 ∈ stripped_keys))) body.

Definition grade_mcq (sealed_answer response : dict) : bool * string :=
  match dict_get "correctOption" sealed_answer, dict_get "selectedOption" response with
  | JNull, _ | _, JNull => (false, "ungradable")
  | expected, actual => (String.eqb (py_str expected) (py_str actual), "deterministic_rule")
  end.

(** [fsrs_state] of a card, and the card of a stored one. *)
Definition card_state (c : Fsrs.FsrsCard) : dict :=
  [("stability", JFloat (float_repr (Fsrs.stability c))); ("difficulty", JFloat (float_repr (Fsrs.difficulty c)));
   ("reps", JInt (Fsrs.reps c)); ("lapses", JInt (Fsrs.lapses c))].

Definition stored_float (k : string) (v : json) (state : dict) : res f64 :=
  of_option (ValueError "could not convert string to float") (py_float (py_str (dict_get_or k v state))).

Definition stored_int (k : string) (v : json) (state : dict) : res Z :=
  of_option (ValueError "invalid literal for int()") (py_int (py_str (dict_get_or k v state))).

Definition card_of_state (state : dict) (due : Z) : res Fsrs.FsrsCard :=
  s ← stored_float "stability" (JFloat "1.0") state;
  d ← stored_float "difficulty" (JFloat "5.0") state;
  r ← stored_int "reps" (JInt 0) state;
  l ← stored_int "lapses" (JInt 0) state;
  mret {| Fsrs.stability := s; Fsrs.difficulty := d; Fsrs.reps := r; Fsrs.lapses := l;
          Fsrs.due_at := due; Fsrs.last_review_at := None |}.

Definition review_of (account user item : uuid) (r : ReviewItem.t) : bool :=
  same (ReviewItem.account_id r) account && same (ReviewItem.user_id r) user &&
  same (ReviewItem.assessment_item_id r) item.

Record ReviewResult := { rr_rating : FsrsRating.t; rr_card : Fsrs.FsrsCard; rr_priority : Z }.

(** The record the replay reads of a stored event. *)
Definition event_record (e : LearnerEvent.t) : EvidenceTwin.LearnerEventRecord :=
  {| EvidenceTwin.event_id := LearnerEvent.id e; EvidenceTwin.event_type := LearnerEvent.event_type e;
     EvidenceTwin.concept_node_id := LearnerEvent.concept_node_id e;
     EvidenceTwin.assessment_item_id := LearnerEvent.assessment_item_id e;
     EvidenceTwin.occurred_at := LearnerEvent.occurred_at e;
     EvidenceTwin.eligibility := LearnerEvent.eligibility e; EvidenceTwin.payload := LearnerEvent.payload e |}.

Definition course_event (account course user : uuid) (e : LearnerEvent.t) : bool :=
  same (LearnerEvent.account_id e) account && same (LearnerEvent.course_id e) course &&
  same (LearnerEvent.user_id e) user.

Definition projection_of (account user concept : uuid) (r : LearnerProjection.t) : bool :=
  same (LearnerProjection.account_id r) account && same (LearnerProjection.user_id r) user &&
  same (LearnerProjection.concept_node_id r) concept.

Section session.
Context `{Env}.

Definition create_course (ctx : RequestContext) (space_id : uuid) (title : string) : M CourseResult :=
  course_id ← new_uuid;
  t ← now;
  _ ← add {| Course.id := course_id; Course.account_id := account_id ctx; Course.space_id := space_id;
             Course.title := title; Course.created_at := t |};
  mret {| cr_course_id := course_id; cr_space_id := space_id |}.

Definition add_curriculum_node (ctx : RequestContext) (course_id : uuid) (kind title confirmation : string) : M uuid :=
  course ← select_one (the_course (account_id ctx) course_id);
  node_id ← new_uuid;
  k ← lift (enum_of (A := CurriculumNodeKind.t) kind);
  c ← lift (enum_of (A := ConfirmationState.t) confirmation);
  t ← now;
  _ ← add {| CurriculumNode.id := node_id; CurriculumNode.account_id := account_id ctx;
             CurriculumNode.space_id := Course.space_id course; CurriculumNode.course_id := course_id;
             CurriculumNode.kind := value k; CurriculumNode.title := title;
             CurriculumNode.confirmation := value c; CurriculumNode.created_at := t |};
  mret node_id.

(** [would_create_cycle]'s recursion, with its fuel. *)
Definition cycle_check (pairs : list (string * string)) (f t : string) : res bool :=
  of_option (RuntimeError "recursion") (would_create_cycle pairs f t).

Definition add_prerequisite_edge (ctx : RequestContext) (course_id from_node_id to_node_id : uuid)
    (confirmation : string) : M uuid :=
  course ← select_one (the_course (account_id ctx) course_id);
  existing ← select (confirmed_edge (account_id ctx) course_id);
  let edge_pairs := map edge_pair existing in
  cycle ← lift (if String.eqb confirmation (value ConfirmationState.CONFIRMED)
                then cycle_check edge_pairs (str_uuid from_node_id) (str_uuid to_node_id) else Ok false);
  _ ← guard cycle (ValueError "confirmed_prerequisite_cycle");
  edge_id ← new_uuid;
  c ← lift (enum_of (A := ConfirmationState.t) confirmation);
  t ← now;
  _ ← add {| CurriculumEdge.id := edge_id; CurriculumEdge.account_id := account_id ctx;
             CurriculumEdge.space_id := Course.space_id course; CurriculumEdge.course_id := course_id;
             CurriculumEdge.from_node_id := from_node_id; CurriculumEdge.to_node_id := to_node_id;
             CurriculumEdge.edge_kind := "prerequisite"; CurriculumEdge.confirmation := value c;
             CurriculumEdge.created_at := t |};
  mret edge_id.

Definition create_assessment (ctx : RequestContext) (course_id : uuid) (title item_type prompt : string)
    (sealed_answer : dict) (concept_node_id : option uuid) (sealed_rubric : option dict)
    (source_locators : option (list json)) : M (uuid * uuid) :=
  let digest := assessment_digest prompt item_type sealed_answer in
  course ← select_one (the_course (account_id ctx) course_id);
  item_id ← new_uuid;
  rev_id ← new_uuid;
  t ← now;
  _ ← add {| AssessmentItem.id := item_id; AssessmentItem.account_id := account_id ctx;
             AssessmentItem.space_id := Course.space_id course; AssessmentItem.course_id := course_id;
             AssessmentItem.concept_node_id := concept_node_id; AssessmentItem.title := title;
             AssessmentItem.created_at := t |};
  ty ← lift (enum_of (A := AssessmentItemType.t) item_type);
  t' ← now;
  _ ← add {| AssessmentRevision.id := rev_id; AssessmentRevision.account_id := account_id ctx;
             AssessmentRevision.space_id := Course.space_id course;
             AssessmentRevision.assessment_item_id := item_id; AssessmentRevision.item_type := value ty;
             AssessmentRevision.prompt := prompt; AssessmentRevision.sealed_answer := sealed_answer;
             AssessmentRevision.sealed_rubric := default [] sealed_rubric;
             AssessmentRevision.source_locators := default [] source_locators;
             AssessmentRevision.difficulty := None; AssessmentRevision.guessing_chance := None;
             AssessmentRevision.state := value AssessmentState.PROVISIONAL;
             AssessmentRevision.content_sha256 := digest; AssessmentRevision.created_at := t' |};
  mret (item_id, rev_id).

Definition the_revision (account item revision : uuid) (r : AssessmentRevision.t) : bool :=
  same (AssessmentRevision.account_id r) account && same (AssessmentRevision.assessment_item_id r) item &&
  same (AssessmentRevision.id r) revision.

(** The keys and values of the answer, without the sealed fields. *)
Definition get_assessment_for_attempt (ctx : RequestContext) (assessment_item_id revision_id : uuid) : M dict :=
  rev ← select_one (the_revision (account_id ctx) assessment_item_id revision_id);
  mret [("assessmentItemId", JStr (str_uuid assessment_item_id)); ("revisionId", JStr (str_uuid revision_id));
        ("itemType", JStr (AssessmentRevision.item_type rev)); ("prompt", JStr (AssessmentRevision.prompt rev));
        ("state", JStr (AssessmentRevision.state rev))].

Definition new_attempt (id : uuid) (ctx : RequestContext) (space course item revision : uuid)
    (client_id : option string) (t : Z) : AssessmentAttempt.t :=
  {| AssessmentAttempt.id := id; AssessmentAttempt.account_id := account_id ctx;
     AssessmentAttempt.space_id := space; AssessmentAttempt.user_id := user_id ctx;
     AssessmentAttempt.course_id := course; AssessmentAttempt.assessment_item_id := item;
     AssessmentAttempt.assessment_revision_id := revision; AssessmentAttempt.response_json := [];
     AssessmentAttempt.confidence := None; AssessmentAttempt.hint_revealed := false;
     AssessmentAttempt.answer_revealed := false; AssessmentAttempt.feedback_at := None;
     AssessmentAttempt.status := "in_progress"; AssessmentAttempt.client_attempt_id := client_id;
     AssessmentAttempt.created_at := t |}.

(** The attempt already started under the client's identifier. *)
Definition started_before (ctx : RequestContext) (course item revision : uuid) (client_id : option string)
    : M (option AttemptResult) :=
  match client_id with
  | Some c =>
      if negb (truthy c) then mret None
      else
        existing ← select_opt (client_attempt (account_id ctx) c);
        match existing with
        | None => mret None
        | Some e =>
            _ ← guard (negb (same (AssessmentAttempt.user_id e) (user_id ctx) && attempt_target course item revision e))
                      (ValueError "idempotency_conflict");
            mret (Some {| at_attempt_id := AssessmentAttempt.id e; at_status := AssessmentAttempt.status e;
                          at_idempotent := true |})
        end
  | None => mret None
  end.

Definition start_assessment_attempt (ctx : RequestContext) (course_id assessment_item_id assessment_revision_id : uuid)
    (client_attempt_id : option string) : M AttemptResult :=
  course ← select_one (the_course (account_id ctx) course_id);
  item ← select_one (fun r => same (AssessmentItem.account_id r) (account_id ctx) &&
    same (AssessmentItem.id r) assessment_item_id && same (AssessmentItem.course_id r) course_id &&
    same (AssessmentItem.space_id r) (Course.space_id course));
  _ ← select_one (fun r => the_revision (account_id ctx) (AssessmentItem.id item) assessment_revision_id r &&
    same (AssessmentRevision.space_id r) (Course.space_id course));
  before ← started_before ctx course_id assessment_item_id assessment_revision_id client_attempt_id;
  match before with
  | Some r => mret r
  | None =>
      attempt_id ← new_uuid;
      t ← now;
      _ ← add (new_attempt attempt_id ctx (Course.space_id course) course_id assessment_item_id
                 assessment_revision_id client_attempt_id t);
      event_id ← new_uuid;
      at_ ← now;
      _ ← add (new_learner_event event_id ctx (Course.space_id course) course_id None (Some assessment_item_id)
                 (Some assessment_revision_id) (Some attempt_id)
                 (Some ("attempt-started:" +:+ str_uuid attempt_id)) (value LearnerEventType.ATTEMPT_STARTED)
                 at_ at_ [] "ineligible" (Some "attempt_started"));
      mret {| at_attempt_id := attempt_id; at_status := "in_progress"; at_idempotent := false |}
  end.

(** What the learner was shown is recorded by the server. *)
Definition record_attempt_reveal (ctx : RequestContext) (attempt_id : uuid) (hint answer : bool)
    : M (option RevealResult) :=
  row ← select_opt (fun r => same (AssessmentAttempt.account_id r) (account_id ctx) &&
    same (AssessmentAttempt.id r) attempt_id && same (AssessmentAttempt.user_id r) (user_id ctx));
  match row with
  | None => mret None
  | Some row =>
      if negb (String.eqb (AssessmentAttempt.status row) "in_progress") then mret None
      else
        let event_type := value (if hint && negb answer then LearnerEventType.HINT_REVEALED
                                 else LearnerEventType.ANSWER_REVEALED) in
        let shown r :=
          let r := if hint then AssessmentAttempt.set_hint_revealed true r else r in
          if answer then AssessmentAttempt.set_answer_revealed true r else r in
        _ ← update (AssessmentAttempt.id row) shown;
        _ ← (if hint || answer then
               event_id ← new_uuid;
               t ← now;
               add (new_learner_event event_id ctx (AssessmentAttempt.space_id row) (AssessmentAttempt.course_id row)
                      None (Some (AssessmentAttempt.assessment_item_id row))
                      (Some (AssessmentAttempt.assessment_revision_id row)) (Some (AssessmentAttempt.id row))
                      (Some (event_type +:+ ":" +:+ str_uuid (AssessmentAttempt.id row))) event_type t t []
                      "ineligible" (Some event_type))
             else mret tt);
        mret (Some {| rv_attempt_id := AssessmentAttempt.id row;
                      rv_hint := AssessmentAttempt.hint_revealed (shown row);
                      rv_answer := AssessmentAttempt.answer_revealed (shown row);
                      rv_status := AssessmentAttempt.status row |})
  end.

(** The event already recorded under the client's identifier. *)
Definition find_event (account : uuid) (client_event_id : option string) : M (option LearnerEvent.t) :=
  match client_event_id with
  | Some c =>
      if truthy c then select_opt (fun r => same (LearnerEvent.account_id r) account &&
                                            opt_eqb (LearnerEvent.client_event_id r) (Some c))
      else mret None
  | None => mret None
  end.

Definition append_learner_event (ctx : RequestContext) (course_id : uuid) (event_type : string) (occurred_at : Z)
    (client_event_id : option string) (concept_node_id assessment_item_id assessment_revision_id attempt_id : option uuid)
    (payload : option dict) (answer_revealed substantive_hint response_before_feedback : bool) : M uuid :=
  let body := strip_payload (default [] payload) in
  el ← lift (classify_event_eligibility event_type answer_revealed substantive_hint response_before_feedback);
  existing ← find_event (account_id ctx) client_event_id;
  match existing with
  | Some e => mret (LearnerEvent.id e)
  | None =>
      course ← select_one (the_course (account_id ctx) course_id);
      event_id ← new_uuid;
      et ← lift (enum_of (A := LearnerEventType.t) event_type);
      received ← now;
      _ ← add (new_learner_event event_id ctx (Course.space_id course) course_id concept_node_id assessment_item_id
                 assessment_revision_id attempt_id client_event_id (value et) occurred_at received body
                 (value el.1) el.2);
      mret event_id
  end.

(** The review item of the learner and the card it holds; a new one when there is none. *)
Definition review_card (ctx : RequestContext) (course : Course.t) (course_id item revision : uuid)
    : M (uuid * Fsrs.FsrsCard) :=
  row ← select_opt (review_of (account_id ctx) (user_id ctx) item);
  match row with
  | None =>
      t ← now;
      let card := Fsrs.initial_card (to_datetime t) None in
      id ← new_uuid;
      u ← now;
      _ ← add {| ReviewItem.id := id; ReviewItem.account_id := account_id ctx;
                 ReviewItem.space_id := Course.space_id course; ReviewItem.course_id := course_id;
                 ReviewItem.user_id := user_id ctx; ReviewItem.assessment_item_id := item;
                 ReviewItem.assessment_revision_id := revision; ReviewItem.fsrs_state := card_state card;
                 ReviewItem.due_at := Some (of_datetime (Fsrs.due_at card)); ReviewItem.priority := 0;
                 ReviewItem.updated_at := u |};
      mret (id, card)
  | Some row =>
      due ← match ReviewItem.due_at row with Some d => mret d | None => now end;
      card ← lift (card_of_state (ReviewItem.fsrs_state row) (to_datetime due));
      mret (ReviewItem.id row, card)
  end.

Definition apply_review_rating (ctx : RequestContext) (course_id assessment_item_id assessment_revision_id : uuid)
    (correct revealed substantive_hint : bool) : M ReviewResult :=
  let rating := Fsrs.map_outcome_to_rating correct revealed substantive_hint false false in
  course ← select_one (the_course (account_id ctx) course_id);
  row ← review_card ctx course course_id assessment_item_id assessment_revision_id;
  let '(id, card) := row in
  t ← now;
  updated ← lift (Fsrs.schedule (to_datetime t) card (value rating) None);
  p ← now;
  let priority := Fsrs.scheduling_priority (to_datetime p) (if String.eqb (value rating) "again" then "lapsed" else "due")
                    (Some (Fsrs.due_at updated)) false false None in
  u ← now;
  _ ← update id (fun r =>
        ReviewItem.set_updated_at u (ReviewItem.set_priority priority
          (ReviewItem.set_assessment_revision_id assessment_revision_id
            (ReviewItem.set_due_at (Some (of_datetime (Fsrs.due_at updated)))
              (ReviewItem.set_fsrs_state (card_state updated) r)))));
  mret {| rr_rating := rating; rr_card := updated; rr_priority := priority |}.

Record SubmitResult := { sb_attempt_id : uuid; sb_event_id : option uuid; sb_correct : option bool;
                         sb_status : string; sb_eligibility : option EvidenceEligibility.t; sb_idempotent : bool }.

Definition user_attempt (ctx : RequestContext) (client_id : string) (r : AssessmentAttempt.t) : bool :=
  client_attempt (account_id ctx) client_id r && same (AssessmentAttempt.user_id r) (user_id ctx).

(** The attempt is graded against the sealed answer; [prior] is its row. *)
Definition grade_attempt (ctx : RequestContext) (course_id item revision : uuid) (response : dict) (confidence client_id : string)
    : M SubmitResult :=
  course ← select_one (the_course (account_id ctx) course_id);
  rev ← select_one (the_revision (account_id ctx) item revision);
  let '(correct, grade_reason) := grade_mcq (AssessmentRevision.sealed_answer rev) response in
  feedback_at ← now;
  _ ← new_uuid;
  prior ← select_opt (fun r => user_attempt ctx client_id r && String.eqb (AssessmentAttempt.status r) "in_progress");
  match prior with
  | None => raiseM (ValueError "attempt_not_started")
  | Some prior =>
      _ ← guard (negb (attempt_target course_id item revision prior)) (ValueError "attempt_target_mismatch");
      let server_hint := AssessmentAttempt.hint_revealed prior in
      let server_reveal := AssessmentAttempt.answer_revealed prior in
      _ ← update (AssessmentAttempt.id prior) (fun r =>
            AssessmentAttempt.set_status "graded" (AssessmentAttempt.set_feedback_at (Some feedback_at)
              (AssessmentAttempt.set_confidence (Some confidence) (AssessmentAttempt.set_response_json response r))));
      let event_type := value LearnerEventType.GRADE_RECORDED in
      el ← lift (classify_event_eligibility event_type server_reveal server_hint true);
      event_id ← new_uuid;
      received ← now;
      _ ← add (new_learner_event event_id ctx (Course.space_id course) course_id None (Some item) (Some revision)
                 (Some (AssessmentAttempt.id prior)) (Some ("attempt:" +:+ str_uuid (AssessmentAttempt.id prior)))
                 event_type feedback_at received
                 [("correct", JBool correct); ("gradeReason", JStr grade_reason); ("confidence", JStr confidence)]
                 (value el.1) el.2);
      _ ← (if bool_decide (el.1 = EvidenceEligibility.ELIGIBLE) then
             _ ← apply_review_rating ctx course_id item revision correct server_reveal server_hint; mret tt
           else mret tt);
      mret {| sb_attempt_id := AssessmentAttempt.id prior; sb_event_id := Some event_id; sb_correct := Some correct;
              sb_status := "graded"; sb_eligibility := Some el.1; sb_idempotent := false |}
  end.

(** The reveal flags of the caller are not read. *)
Definition submit_assessment_attempt (ctx : RequestContext) (course_id assessment_item_id assessment_revision_id : uuid)
    (response : dict) (confidence client_attempt_id : option string) (hint_revealed answer_revealed : bool)
    : M SubmitResult :=
  match confidence with
  | None => raiseM (ValueError "confidence_required_before_feedback")
  | Some confidence =>
      _ ← guard (negb (truthy (strip confidence))) (ValueError "confidence_required_before_feedback");
      match client_attempt_id with
      | None => raiseM (ValueError "attempt_start_required")
      | Some client_id =>
          _ ← guard (negb (truthy client_id)) (ValueError "attempt_start_required");
          existing ← select_opt (user_attempt ctx client_id);
          match existing with
          | Some e =>
              if String.eqb (AssessmentAttempt.status e) "graded" then
                _ ← guard (negb (attempt_target course_id assessment_item_id assessment_revision_id e))
                          (ValueError "idempotency_conflict");
                mret {| sb_attempt_id := AssessmentAttempt.id e; sb_event_id := None; sb_correct := None;
                        sb_status := AssessmentAttempt.status e; sb_eligibility := None; sb_idempotent := true |}
              else grade_attempt ctx course_id assessment_item_id assessment_revision_id response confidence client_id
          | None => grade_attempt ctx course_id assessment_item_id assessment_revision_id response confidence client_id
          end
      end
  end.

(** The concepts in the order of their first event, the order of the dictionary. *)
Fixpoint first_seen (l : list uuid) : list uuid :=
  match l with [] => [] | c :: l => c :: keep (fun d => negb (d =? c)) (first_seen l) end.

Definition projected_items (records : list EvidenceTwin.LearnerEventRecord) : list EvidenceTwin.ConceptEvidence :=
  let projected := EvidenceTwin.replay_evidence records in
  omap (fun c => projected !! c)
       (first_seen (omap EvidenceTwin.concept_node_id (EvidenceTwin.fresh ∅ (EvidenceTwin.ordered records)))).

Definition evidence_payload (ev : EvidenceTwin.ConceptEvidence) : dict :=
  [("eligible_grades", JInt (EvidenceTwin.eligible_grades ev)); ("ineligible_hits", JInt (EvidenceTwin.ineligible_hits ev))].

Definition store_projection (ctx : RequestContext) (course : Course.t) (course_id : uuid)
    (ev : EvidenceTwin.ConceptEvidence) : M unit :=
  row ← select_opt (projection_of (account_id ctx) (user_id ctx) (EvidenceTwin.concept ev));
  let coverage := of_int (EvidenceTwin.eligible_grades ev) in
  match row with
  | None =>
      id ← new_uuid;
      t ← now;
      add {| LearnerProjection.id := id; LearnerProjection.account_id := account_id ctx;
             LearnerProjection.space_id := Course.space_id course; LearnerProjection.course_id := course_id;
             LearnerProjection.user_id := user_id ctx; LearnerProjection.concept_node_id := EvidenceTwin.concept ev;
             LearnerProjection.evidence_state := value (EvidenceTwin.evidence_state ev);
             LearnerProjection.recall_state := value (EvidenceTwin.recall_state ev);
             LearnerProjection.confidence := None; LearnerProjection.coverage := coverage;
             LearnerProjection.projection_json := evidence_payload ev; LearnerProjection.updated_at := t |}
  | Some row =>
      t ← now;
      update (LearnerProjection.id row) (fun r =>
        LearnerProjection.set_updated_at t (LearnerProjection.set_projection_json (evidence_payload ev)
          (LearnerProjection.set_coverage coverage
            (LearnerProjection.set_recall_state (value (EvidenceTwin.recall_state ev))
              (LearnerProjection.set_evidence_state (value (EvidenceTwin.evidence_state ev)) r)))))
  end.

Definition rebuild_evidence_projections (ctx : RequestContext) (course_id : uuid)
    : M (list EvidenceTwin.ConceptEvidence) :=
  course ← select_one (the_course (account_id ctx) course_id);
  events ← select (course_event (account_id ctx) course_id (user_id ctx));
  let projected := projected_items (map event_record events) in
  _ ← forM projected (store_projection ctx course course_id);
  mret projected.
End session.

(** ** The prerequisite graph *)

Definition confirmed_edges (account course : uuid) (w : World) : list (string * string) :=
  map edge_pair (keep (confirmed_edge account course) (rows (db w))).

Definition acyclic_prerequisites (w : World) : Prop :=
  forall account course, ~ cyclic (edge (confirmed_edges account course w)).

(** The new row: in its own course when it is confirmed, in no other. *)
Lemma confirmed_edges_add e w u w' account course :
  add e w = Ok (u, w') ->
  confirmed_edges account course w' =
    confirmed_edges account course w ++ (if confirmed_edge account course e then [edge_pair e] else []).
Proof.
  intros [_ ->]%add_Ok. unfold confirmed_edges. rows_simpl. rewrite keep_app, map_app. f_equal.
  unfold keep. simpl. by destruct (confirmed_edge account course e).
Qed.

Lemma cycle_check_exact l f t :
  ~ cyclic (edge l) -> exists b, cycle_check l f t = Ok b /\ (b = true <-> cyclic (edge (l ++ [(f, t)]))).
Proof.
  intros Hac. destruct (would_create_cycle_answer l f t) as (b & Hb & Hiff).
  exists b. unfold cycle_check. rewrite Hb. split; [done|]. rewrite Hiff. split.
  - intros (x & _ & Hx). by exists x.
  - intros Hc%new_cycle_at_source; [|done]. eauto using rtc_refl.
Qed.

Section graph.
Context `{Env}.

(** What follows the check raises other errors. *)
Lemma no_cycle_error confirmation (row : uuid -> ConfirmationState.t -> Z -> CurriculumEdge.t) w :
  (_ ← guard false (ValueError "confirmed_prerequisite_cycle");
   edge_id ← new_uuid;
   c ← lift (enum_of (A := ConfirmationState.t) confirmation);
   t ← now;
   _ ← add (row edge_id c t);
   mret edge_id) w <> Raise (ValueError "confirmed_prerequisite_cycle").
Proof.
  intros Hr. unfold guard, new_uuid, now in Hr. cbn in Hr. unfold mbind, M_bind, lift, mret, M_ret in Hr.
  destruct (enum_of confirmation) as [c|e] eqn:E; cbn in Hr.
  - destruct (add _ _) as [[]|e] eqn:Ea; [discriminate|]. unfold add in Ea.
    destruct (first _ _); [|discriminate]. injection Ea as <-. discriminate.
  - injection Hr as ->. unfold enum_of in E. destruct (of_value confirmation); [discriminate|].
    injection E as E. unfold repr_str in E. by destruct (_ && _).
Qed.

(** C13: the confirmed prerequisites of a course never form a cycle: adding an
    edge keeps every course's confirmed graph acyclic, and in a course that
    exists a confirmed edge is refused exactly when it would close a cycle. *)
Theorem prerequisites_stay_acyclic ctx course from_ to confirmation w :
  acyclic_prerequisites w ->
  (forall id w', add_prerequisite_edge ctx course from_ to confirmation w = Ok (id, w') -> acyclic_prerequisites w') /\
  (forall c w1, select_one (the_course (account_id ctx) course) w = Ok (c, w1) ->
     add_prerequisite_edge ctx course from_ to confirmation w = Raise (ValueError "confirmed_prerequisite_cycle") <->
     confirmation = value ConfirmationState.CONFIRMED /\
     cyclic (edge (confirmed_edges (account_id ctx) course w ++ [(str_uuid from_, str_uuid to)]))).
Proof.
  intros Hac. unfold add_prerequisite_edge.
  destruct (cycle_check_exact (confirmed_edges (account_id ctx) course w) (str_uuid from_) (str_uuid to))
    as (b & Hb & Hcyc); [apply Hac|]. split.
  - intros id w' Hm. stepM Hm. apply select_one_in in H0 as (-> & _). stepM Hm. apply select_Ok in H0 as [-> ->].
    stepM Hm. apply lift_Ok in H0 as [Hc ->]. stepM Hm. cleanM. draw Hm. stepM Hm. apply lift_Ok in H0 as [Ho ->].
    draw Hm. stepM Hm. cleanM. intros account c. rewrite (confirmed_edges_add _ _ _ _ _ _ H0).
    destruct (confirmed_edge account c _) eqn:E; [|rewrite app_nil_r; apply Hac].
    unfold confirmed_edge, same in E. cbn in E. split_bool. subst.
    
    apply enum_of_Ok in Ho. rewrite <- Ho, H2 in Hc.
    change (cycle_check (confirmed_edges (account_id ctx) c w) (str_uuid from_) (str_uuid to) = Ok false) in Hc.
    rewrite Hb in Hc. injection Hc as ->.
    intros Hcy. by apply Hcyc in Hcy.
  - intros c w1 Hs. rewrite (M_bind_step _ _ _ _ _ Hs). apply select_one_in in Hs as (-> & _).
    rewrite (M_bind_step (select _) _ _ _ _ eq_refl). fold (confirmed_edges (account_id ctx) course w).
    destruct (String.eqb_spec confirmation (value ConfirmationState.CONFIRMED)) as [He|Hne].
    + rewrite (M_bind_step (lift _) _ w b w) by (unfold lift; by rewrite Hb). destruct b.
      * split; [|done]. intros _. split; [done|]. by apply Hcyc.
      * split; [intros Hr; exfalso; by apply no_cycle_error in Hr|].
        intros [_ Hcy]. by apply Hcyc in Hcy.
    + rewrite (M_bind_step (lift _) _ w false w) by done.
      split; [intros Hr; exfalso; by apply no_cycle_error in Hr|by intros [? _]].
Qed.
End graph.

(** ** The evidence of a concept *)

Definition ungraded_concepts (w : World) : Prop :=
  forall e, e ∈ rows (R := LearnerEvent.t) (db w) -> LearnerEvent.concept_node_id e <> None ->
    dict_lookup "correct" (LearnerEvent.payload e) = None.

(** The calls of the service that learners reach, in any order. *)
Inductive learning_call `{Env} (w : World) : World -> Prop :=
| call_start ctx c i r id res w' :
    start_assessment_attempt ctx c i r id w = Ok (res, w') -> learning_call w w'
| call_reveal ctx a hint answer res w' :
    record_attempt_reveal ctx a hint answer w = Ok (res, w') -> learning_call w w'
| call_append ctx c ty t cid k i r a p x y z res w' :
    append_learner_event ctx c ty t cid k i r a p x y z w = Ok (res, w') -> learning_call w w'
| call_submit ctx c i r resp conf cid x y res w' :
    submit_assessment_attempt ctx c i r resp conf cid x y w = Ok (res, w') -> learning_call w w'
| call_review ctx c i r x y z res w' :
    apply_review_rating ctx c i r x y z w = Ok (res, w') -> learning_call w w'
| call_rebuild ctx c res w' :
    rebuild_evidence_projections ctx c w = Ok (res, w') -> learning_call w w'.

Lemma strip_no_correct body : dict_lookup "correct" (strip_payload body) = None.
Proof.
  unfold dict_lookup. destruct (first _ _) as [[k v]|] eqn:E; [|done]. apply first_Some in E as [Hin Hk].
  apply elem_of_keep in Hin as [_ Hs]. cbn in *. apply String.eqb_eq in Hk as ->.
  rewrite bool_decide_true in Hs; [done|]. by left.
Qed.

Section evidence.
Context `{Env}.

Lemma add_ungraded e w u w' :
  add e w = Ok (u, w') -> (LearnerEvent.concept_node_id e <> None -> dict_lookup "correct" (LearnerEvent.payload e) = None) ->
  ungraded_concepts w -> ungraded_concepts w'.
Proof.
  intros [_ ->]%add_Ok He Hw x. rows_simpl. intros [Hx|Hx%list_elem_of_singleton]%elem_of_app; [by apply Hw|by subst].
Qed.

Lemma ungraded_kept w w' :
  rows (R := LearnerEvent.t) (db w') = rows (db w) -> ungraded_concepts w -> ungraded_concepts w'.
Proof. unfold ungraded_concepts. by intros ->. Qed.

Lemma review_keeps_events ctx c i r x y z : keeps LearnerEvent.t (apply_review_rating ctx c i r x y z).
Proof.
  unfold apply_review_rating, review_card. cbv zeta. frame.
Qed.

Lemma rebuild_keeps_events ctx c : keeps LearnerEvent.t (rebuild_evidence_projections ctx c).
Proof. unfold rebuild_evidence_projections, store_projection. frame. Qed.

Lemma grade_ungraded ctx c i r resp conf cid w res w' :
  grade_attempt ctx c i r resp conf cid w = Ok (res, w') -> ungraded_concepts w -> ungraded_concepts w'.
Proof.
  unfold grade_attempt. intros Hm Hw. stepM Hm. apply select_one_in in H0 as (-> & _).
  stepM Hm. apply select_one_in in H0 as (-> & _). destruct (grade_mcq _ _) as [correct reason].
  do 2 draw Hm. stepM Hm. destruct a1 as [prior|]; [|discriminate]. apply select_opt_in in H0 as (-> & _).
  stepM Hm. cleanM. stepM Hm. framed H1 LearnerEvent.t K1. stepM Hm. cleanM. do 2 draw Hm.
  stepM Hm. apply add_ungraded in H3; [|done|by eapply ungraded_kept].
  framed Hm LearnerEvent.t K2; [apply keeps_bind; [destruct (bool_decide _)|intros]|]; eauto using review_keeps_events with frame.
  by eapply ungraded_kept.
Qed.

Lemma call_ungraded w w' : learning_call w w' -> ungraded_concepts w -> ungraded_concepts w'.
Proof.
  intros Hc Hw. destruct Hc as [ctx c i r id res w' Hm|ctx a hint answer res w' Hm|ctx c ty t cid k i r a p x y z res w' Hm
    |ctx c i r resp conf cid x y res w' Hm|ctx c i r x y z res w' Hm|ctx c res w' Hm].
  - unfold start_assessment_attempt in Hm. do 3 (stepM Hm; apply select_one_in in H0 as (-> & _)).
    stepM Hm. framed H0 LearnerEvent.t K1; [unfold started_before; frame|].
    destruct a2; [cleanM; by eapply ungraded_kept|]. do 2 draw Hm. stepM Hm. framed H1 LearnerEvent.t K2.
    do 2 draw Hm. stepM Hm. apply add_ungraded in H2; [by cleanM|done|]. unfold ungraded_concepts. cbn [db]. rewrite K2, K1. exact Hw.
  - unfold record_attempt_reveal in Hm. stepM Hm. apply select_opt_Ok in H0 as [_ ->].
    destruct a0 as [row|]; [|by cleanM]. destruct (negb _); [by cleanM|].
    stepM Hm. framed H0 LearnerEvent.t K1. stepM Hm. cleanM. destruct (hint || answer).
    + do 2 draw H1. eapply add_ungraded; [exact H1|done|by eapply ungraded_kept].
    + cleanM. by eapply ungraded_kept.
  - unfold append_learner_event in Hm. stepM Hm. cleanM. stepM Hm. framed H1 LearnerEvent.t K1; [unfold find_event; frame|].
    destruct a1; [cleanM; by eapply ungraded_kept|]. stepM Hm. apply select_one_in in H2 as (-> & _). draw Hm.
    stepM Hm. cleanM. draw Hm. stepM Hm. cleanM.
    eapply add_ungraded; [eassumption|intros; apply strip_no_correct|by eapply ungraded_kept].
  - unfold submit_assessment_attempt in Hm. destruct conf as [conf|]; [|discriminate]. stepM Hm. cleanM.
    destruct cid as [cid|]; [|discriminate]. stepM Hm. cleanM. stepM Hm. apply select_opt_Ok in H2 as [_ ->].
    destruct a1 as [e|]; [|by eapply grade_ungraded]. destruct (String.eqb _ _); [|by eapply grade_ungraded].
    stepM Hm. by cleanM.
  - apply review_keeps_events in Hm. by eapply ungraded_kept.
  - apply rebuild_keeps_events in Hm. by eapply ungraded_kept.
Qed.

Lemma reach_ungraded w w' : rtc learning_call w w' -> ungraded_concepts w -> ungraded_concepts w'.
Proof. induction 1; eauto using call_ungraded. Qed.

Lemma ungraded_level w ctx c ev res w' :
  rebuild_evidence_projections ctx c w = Ok (res, w') -> ungraded_concepts w -> ev ∈ res ->
  EvidenceTwin.level (EvidenceTwin.evidence_state ev) <= 0 /\ EvidenceTwin.eligible_grades ev = 0.
Proof.
  unfold rebuild_evidence_projections. intros Hm Hw Hev. stepM Hm. apply select_one_in in H0 as (-> & _).
  stepM Hm. apply select_Ok in H0 as [-> ->]. stepM Hm. cleanM. unfold projected_items in Hev.
  apply list_elem_of_omap in Hev as (k & _ & Hk). rewrite EvidenceTwin.replay_concept in Hk.
  destruct (EvidenceTwin.concept_events k _) as [|e0 es] eqn:Ees; [done|]. rewrite <- Ees in Hk.
  injection Hk as <-.
  set (l := EvidenceTwin.concept_events k _).
  assert (Hg : EvidenceTwin.grades l = 0).
  { unfold EvidenceTwin.grades. rewrite keep_none; [done|]. intros e [He Hk]%elem_of_keep.
    unfold EvidenceTwin.of_concept in Hk. apply bool_decide_eq_true in Hk.
    assert (He' : e ∈ map event_record (keep (course_event (account_id ctx) c (user_id ctx)) (rows (db w)))).
    { rewrite <- (elem_of_sort_by EvidenceTwin.event_leb).
      eapply elem_of_submseteq; [exact He|apply sublist_submseteq, EvidenceTwin.fresh_sublist]. }
    apply list_elem_of_fmap in He' as (x & -> & [Hx _]%elem_of_keep).
    unfold EvidenceTwin.counts, EvidenceTwin.is_correct, dict_get_or. cbn [event_record EvidenceTwin.payload].
    rewrite (Hw x Hx); [apply andb_false_r|]. cbn in Hk. by rewrite Hk. }
  rewrite EvidenceTwin.run_events_grades. cbn [EvidenceTwin.new_evidence EvidenceTwin.eligible_grades]. split; [|lia].
  etransitivity; [apply EvidenceTwin.run_events_level; cbn; lia|].
  rewrite EvidenceTwin.run_events_grades. cbn [EvidenceTwin.new_evidence EvidenceTwin.eligible_grades]. lia.
Qed.


(** C15: no call of the service can bring a concept to demonstrated: the
    graded events carry no concept and the events a client appends lose their
    grade, so from an empty event log every rebuilt projection stays at
    unassessed or practising with no eligible grade. *)
Theorem evidence_never_demonstrated w0 w ctx c res w' :
  rows (R := LearnerEvent.t) (db w0) = [] -> rtc learning_call w0 w ->
  rebuild_evidence_projections ctx c w = Ok (res, w') ->
  forall ev, ev ∈ res ->
    EvidenceTwin.evidence_state ev <> EvidenceState.DEMONSTRATED /\
    EvidenceTwin.evidence_state ev <> EvidenceState.DELAYED_DEMONSTRATED /\
    EvidenceTwin.eligible_grades ev = 0.
Proof.
  intros H0 Hr Hm ev Hev. apply reach_ungraded in Hr; [|intros e He; rewrite H0 in He; by apply not_elem_of_nil in He].
  destruct (ungraded_level _ _ _ _ _ _ Hm Hr Hev) as [Hl Hg].
  split_and!; [| |done]; intros E; rewrite E in Hl; cbn in Hl; lia.
Qed.
End evidence.

(** ** Submissions *)

Section submit.
Context `{Env}.
Variables (ctx : RequestContext) (course item revision : uuid) (response : dict) (hint reveal : bool).






End submit.

(** ** Witnesses *)

Definition sample_course : Course.t :=
  {| Course.id := 50; Course.account_id := 1; Course.space_id := 7; Course.title := "Algebra"; Course.created_at := 0 |}.

Definition sample_revision : AssessmentRevision.t :=
  {| AssessmentRevision.id := 61; AssessmentRevision.account_id := 1; AssessmentRevision.space_id := 7;
     AssessmentRevision.assessment_item_id := 60; AssessmentRevision.item_type := "mcq";
     AssessmentRevision.prompt := "2+2"; AssessmentRevision.sealed_answer := [("correctOption", JStr "b")];
     AssessmentRevision.sealed_rubric := []; AssessmentRevision.source_locators := [];
     AssessmentRevision.difficulty := None; AssessmentRevision.guessing_chance := None;
     AssessmentRevision.state := "provisional"; AssessmentRevision.content_sha256 := "";
     AssessmentRevision.created_at := 0 |}.

Definition course_world : World :=
  {| db := set_rows [sample_course] (set_rows [sample_revision]
             (set_rows [new_attempt 70 test_ctx 7 50 60 61 (Some "c1") 0] empty_db)); tick := 0 |}.

Lemma course_world_acyclic : acyclic_prerequisites course_world.
Proof. intros account course. exact no_edges_acyclic. Qed.

Lemma prerequisites_stay_acyclic_witness :
  (exists id w', @add_prerequisite_edge test_env test_ctx 50 1 2 "confirmed" course_world = Ok (id, w') /\
     acyclic_prerequisites w') /\
  @add_prerequisite_edge test_env test_ctx 50 1 1 "confirmed" course_world =
    Raise (ValueError "confirmed_prerequisite_cycle").
Proof.
  split.
  - destruct (returned (@add_prerequisite_edge test_env test_ctx 50 1 2 "confirmed" course_world))
      as [[id w'] E]; [vm_compute; reflexivity|]. exists id, w'. split; [exact E|].
    exact (proj1 (@prerequisites_stay_acyclic test_env test_ctx 50 1 2 "confirmed" course_world
      course_world_acyclic) id w' E).
  - apply (proj2 (@prerequisites_stay_acyclic test_env test_ctx 50 1 1 "confirmed" course_world
      course_world_acyclic) sample_course course_world); [reflexivity|].
    split; [reflexivity|]. exists (str_uuid 1). apply tc_once. vm_compute. apply list_elem_of_here.
Defined.

Local Notation graded_claim w :=
  (@append_learner_event test_env test_ctx 50 "grade_recorded" 5 None (Some 8) None None None
     (Some [("correct", JBool true)]) false false true w).

Lemma evidence_never_demonstrated_witness :
  exists id w ev w', graded_claim course_world = Ok (id, w) /\
    @rebuild_evidence_projections test_env test_ctx 50 w = Ok ([ev], w') /\
    EvidenceTwin.evidence_state ev <> EvidenceState.DEMONSTRATED /\ EvidenceTwin.eligible_grades ev = 0.
Proof.
  destruct (returned (graded_claim course_world)) as [[id w] E]; [vm_compute; reflexivity|].
  assert (Hw : w = match graded_claim course_world with Ok (_, w) => w | Raise _ => course_world end) by (rewrite E; reflexivity).
  destruct (returned (@rebuild_evidence_projections test_env test_ctx 50 w)) as [[res w'] E'];
    [rewrite Hw; vm_compute; reflexivity|].
  assert (Hl : match @rebuild_evidence_projections test_env test_ctx 50 w with
               | Ok (l, _) => length l | Raise _ => O end = 1%nat) by (rewrite Hw; vm_compute; reflexivity).
  rewrite E' in Hl. destruct res as [|ev [|]]; [discriminate Hl| |discriminate Hl].
  exists id, w, ev, w'. split; [exact E|]. split; [exact E'|].
  destruct (@evidence_never_demonstrated test_env course_world w test_ctx 50 [ev] w' eq_refl
    (rtc_once _ _ (call_append _ _ _ _ _ _ _ _ _ _ _ _ _ _ _ _ E)) E' ev (list_elem_of_here _ _)) as (H1 & _ & H3).
  split; [exact H1|exact H3].
Defined.

Local Notation answer_b w :=
  (@submit_assessment_attempt test_env test_ctx 50 60 61 [("selectedOption", JStr "b")] (Some "high")
     (Some "c1") true true w).

