(* ===== verification/Sources.v ===== *)
(** * The source service (services/core/src/memdot_core/sources/service.py)

    Sources, uploads, revisions and what starts and stops their processing,
    over any object storage ([Storage.ObjectStoragePort]). *)

From Stdlib Require Import ZArith Lia Ascii.
From stdpp Require Import list strings.
From S2P Require Import Prelude PyStr PyTime Digest Uuid Json Enums ObjectKeys Storage.
From S2P Require Import Ledger Store Outbox RequestContext Deletion AuthSnapshot Jobs Processor.
Open Scope Z_scope.

Record SourceCreateResult := { sc_source_id : uuid; sc_space_id : uuid }.

Record UploadIntentResult := { ui_upload_id : uuid; ui_upload_url : string; ui_object_key : string; ui_expires_at : Z }.

Record RevisionResult := { rv_revision_id : uuid; rv_snapshot_sha256 : string; rv_job : EnqueuedJob }.

(** [IngestionLimits.max_object_bytes]. *)
Definition max_object_bytes : Z := 100 * 1024 * 1024.

Definition sniff_mime (content_type filename : string) : string :=
  let lowered := lower (strip (hd "" (split ";"%char content_type))) in
  if truthy lowered && negb (String.eqb lowered "application/octet-stream") then lowered
  else if endswith ".pdf" (lower filename) then "application/pdf"
  else if endswith ".txt" (lower filename) then "text/plain"
  else if endswith ".md" (lower filename) then "text/markdown"
  else "application/octet-stream".

Definition the_source (account source : uuid) (r : Source.t) : bool :=
  same (Source.account_id r) account && same (Source.id r) source.

Definition the_intent (account source upload : uuid) (r : UploadIntent.t) : bool :=
  same (UploadIntent.account_id r) account && same (UploadIntent.id r) upload &&
  same (UploadIntent.source_id r) source.

Definition source_revision (account source revision : uuid) (r : SourceRevision.t) : bool :=
  same (SourceRevision.account_id r) account && same (SourceRevision.id r) revision &&
  same (SourceRevision.source_id r) source.

(** The revision of the source with the digest. *)
Definition revision_of_digest (account source : uuid) (sha256 : string) (r : SourceRevision.t) : bool :=
  same (SourceRevision.account_id r) account && same (SourceRevision.source_id r) source &&
  String.eqb (SourceRevision.snapshot_sha256 r) sha256.

Definition account_job (account : uuid) (r : DurableJob.t) : bool := same (DurableJob.account_id r) account.

Definition active_job (account : uuid) (r : DurableJob.t) : bool :=
  account_job account r && bool_decide (DurableJob.status r ∈ ["queued"; "running"; "pending"]).

(** [payload.get(k) == str(id)]. *)
Definition payload_names (k : string) (id : uuid) (r : DurableJob.t) : bool :=
  bool_decide (dict_get k (DurableJob.payload r) = JStr (str_uuid id)).

(** [key.rsplit("/", 1)[-1]]. *)
Definition last_segment (key : string) : string := List.last (split "/"%char key) "".

Definition processing_payload (source revision space : uuid) : dict :=
  [("source_id", JStr (str_uuid source)); ("revision_id", JStr (str_uuid revision)); ("space_id", JStr (str_uuid space))].

Definition set_status (id : uuid) `{Env} (s : SourceProcessingStatus.t) : M unit :=
  t ← now;
  update id (fun r => Source.set_updated_at t (Source.set_processing_status (value s) r)).

Record ProcessingStatus := { ps_source_id : uuid; ps_status : string; ps_job : option DurableJob.t }.

(** The answer of [citation_for_revision]. *)
Definition citation_for_revision (r : SourceRevision.t) : dict :=
  [("sourceId", JStr (str_uuid (SourceRevision.source_id r))); ("revisionId", JStr (str_uuid (SourceRevision.id r)));
   ("snapshotSha256", JStr (SourceRevision.snapshot_sha256 r));
   ("capturedAt", JStr (isoformat (SourceRevision.captured_at r)));
   ("mimeType", JStr (match SourceRevision.mime_type r with
                      | Some m => if truthy m then m else "application/octet-stream"
                      | None => "application/octet-stream" end))].

Definition new_revision (account space source revision : uuid) (intent : UploadIntent.t) (key : string) (t c : Z)
    : SourceRevision.t :=
  {| SourceRevision.id := revision; SourceRevision.account_id := account; SourceRevision.space_id := space;
     SourceRevision.source_id := source; SourceRevision.snapshot_sha256 := UploadIntent.expected_sha256 intent;
     SourceRevision.captured_at := t; SourceRevision.source_native_version := None;
     SourceRevision.mime_type := Some (UploadIntent.content_type intent); SourceRevision.language_hints := None;
     SourceRevision.byte_count := Some (UploadIntent.expected_byte_count intent);
     SourceRevision.page_count := None; SourceRevision.object_key := Some key; SourceRevision.created_at := c |}.

Section session.
Context `{Env}.

Definition create_source (ctx : RequestContext) (space_id : uuid) (title : string) : M SourceCreateResult :=
  source_id ← new_uuid;
  t ← now;
  _ ← add {| Source.id := source_id; Source.account_id := account_id ctx; Source.space_id := space_id;
             Source.title := title; Source.processing_status := value SourceProcessingStatus.DRAFT;
             Source.created_at := t; Source.updated_at := t |};
  mret {| sc_source_id := source_id; sc_space_id := space_id |}.

(** [select(DurableJob)...order_by(created_at.desc())).first()]. *)
Definition latest_job (p : DurableJob.t -> bool) : M (option DurableJob.t) :=
  l ← select p; mret (hd_error (order_desc DurableJob.created_at l)).

Definition list_revisions (ctx : RequestContext) (source_id : uuid) : M (list SourceRevision.t) :=
  l ← select (fun r => same (SourceRevision.account_id r) (account_id ctx) &&
                       same (SourceRevision.source_id r) source_id);
  mret (order_desc SourceRevision.captured_at l).

Definition processing_status (ctx : RequestContext) (source_id : uuid) : M ProcessingStatus :=
  source ← select_one (the_source (account_id ctx) source_id);
  job ← latest_job (account_job (account_id ctx));
  mret {| ps_source_id := source_id; ps_status := Source.processing_status source;
          ps_job := match job with
                    | Some j => if payload_names "source_id" source_id j then Some j else None
                    | None => None
                    end |}.

(** Only the account's latest active job is looked at. *)
Definition cancel_processing (ctx : RequestContext) (source_id : uuid) : M unit :=
  source ← select_one (the_source (account_id ctx) source_id);
  job ← latest_job (active_job (account_id ctx));
  _ ← match job with
      | Some j => if payload_names "source_id" source_id j then cancel_job (account_id ctx) (DurableJob.id j) else mret tt
      | None => mret tt
      end;
  set_status (Source.id source) SourceProcessingStatus.CANCELLED.

Definition retry_processing (ctx : RequestContext) (source_id revision_id : uuid) : M EnqueuedJob :=
  source ← select_one (the_source (account_id ctx) source_id);
  _ ← select_one (source_revision (account_id ctx) source_id revision_id);
  _ ← set_status (Source.id source) SourceProcessingStatus.QUEUED;
  enqueue_job_with_outbox ctx "ingestion.parse" (Source.space_id source)
    (processing_payload source_id revision_id (Source.space_id source)) "source.retry_requested" None.

Definition reprocess_revision (ctx : RequestContext) (source_id revision_id : uuid) (shadow : bool) : M EnqueuedJob :=
  source ← select_one (the_source (account_id ctx) source_id);
  _ ← select_one (source_revision (account_id ctx) source_id revision_id);
  _ ← set_status (Source.id source) SourceProcessingStatus.QUEUED;
  enqueue_job_with_outbox ctx "ingestion.reprocess" (Source.space_id source)
    (processing_payload source_id revision_id (Source.space_id source) ++ [("shadow", JBool shadow)])
    "source.reprocess_requested" None.

Section storage.
Context {S : Type} `{ObjectStoragePort S}.

Definition begin_upload (ctx : RequestContext) (source_id : uuid) (filename content_type : string)
    (byte_count : Z) (sha256 : string) : M UploadIntentResult :=
  _ ← guard (max_object_bytes <? byte_count) (ValueError "file_too_large");
  source ← select_one (the_source (account_id ctx) source_id);
  upload_id ← new_uuid;
  let mime := sniff_mime content_type filename in
  let parts := {| ObjectKeys.account_id := account_id ctx; ObjectKeys.space_id := Source.space_id source;
                  lifecycle := ObjectLifecycleClass.QUARANTINE; artifact_id := upload_id;
                  ObjectKeys.filename := sanitize_filename filename |} in
  t ← now;
  presigned ← lift (presign_upload t parts byte_count mime sha256 900);
  created ← now;
  _ ← add {| UploadIntent.id := upload_id; UploadIntent.account_id := account_id ctx;
             UploadIntent.space_id := Source.space_id source; UploadIntent.source_id := source_id;
             UploadIntent.object_key := up_object_key presigned; UploadIntent.expected_sha256 := sha256;
             UploadIntent.expected_byte_count := byte_count; UploadIntent.content_type := mime;
             UploadIntent.expires_at := up_expires_at presigned; UploadIntent.completed_at := None;
             UploadIntent.created_at := created |};
  _ ← set_status (Source.id source) SourceProcessingStatus.UPLOAD_PENDING;
  mret {| ui_upload_id := upload_id; ui_upload_url := up_url presigned;
          ui_object_key := up_object_key presigned; ui_expires_at := up_expires_at presigned |}.

(** The revision of an upload completed before. *)
Definition completed_before (ctx : RequestContext) (source_id : uuid) (intent : UploadIntent.t) : M RevisionResult :=
  existing ← select_opt (revision_of_digest (account_id ctx) source_id (UploadIntent.expected_sha256 intent));
  match existing with
  | None => raiseM (ValueError "upload_already_completed_without_revision")
  | Some existing =>
      latest ← latest_job (account_job (account_id ctx));
      job ← match latest with
            | Some j =>
                if payload_names "revision_id" (SourceRevision.id existing) j
                then e ← new_uuid; mret {| job_id := DurableJob.id j; outbox_event_id := e |}
                else j ← new_uuid; e ← new_uuid; mret {| job_id := j; outbox_event_id := e |}
            | None => j ← new_uuid; e ← new_uuid; mret {| job_id := j; outbox_event_id := e |}
            end;
      mret {| rv_revision_id := SourceRevision.id existing;
              rv_snapshot_sha256 := SourceRevision.snapshot_sha256 existing; rv_job := job |}
  end.

(** The original of the upload, moved out of quarantine; its key. *)
Definition keep_original (s : S) (account : uuid) (intent : UploadIntent.t) (parts : ObjectKeyParts) : M (string * S) :=
  match is_memory, put with
  | true, Some put_bytes =>
      _ ← lift (head_of s (UploadIntent.object_key intent) account);
      original_key ← lift (build_key parts);
      data ← lift (read_bytes s (UploadIntent.object_key intent) account);
      let '(s', stored) := put_bytes s original_key data (UploadIntent.content_type intent) account
                             (UploadIntent.expected_sha256 intent) in
      _ ← lift stored;
      mret (original_key, s')
  | _, _ =>
      let '(s', promoted) := promote s (UploadIntent.object_key intent) parts account in
      meta ← lift promoted;
      mret (meta_object_key meta, s')
  end.

(** The rows of a new revision and of its blob. *)
Definition add_revision (account space source revision : uuid) (intent : UploadIntent.t) (key : string) : M unit :=
  t ← now;
  c ← now;
  _ ← add (new_revision account space source revision intent key t c);
  blob_id ← new_uuid;
  c' ← now;
  add {| SourceBlob.id := blob_id; SourceBlob.account_id := account; SourceBlob.space_id := space;
         SourceBlob.source_revision_id := revision; SourceBlob.blob_kind := value BlobKind.ORIGINAL;
         SourceBlob.object_key := key; SourceBlob.sha256 := UploadIntent.expected_sha256 intent;
         SourceBlob.byte_count := UploadIntent.expected_byte_count intent; SourceBlob.created_at := c' |}.

Definition complete_upload (s : S) (ctx : RequestContext) (source_id upload_id : uuid) : M (RevisionResult * S) :=
  source ← select_one (the_source (account_id ctx) source_id);
  intent ← select_one (the_intent (account_id ctx) source_id upload_id);
  match UploadIntent.completed_at intent with
  | Some _ => r ← completed_before ctx source_id intent; mret (r, s)
  | None =>
      _ ← lift (verify_upload s (UploadIntent.object_key intent) (account_id ctx)
                  (UploadIntent.expected_sha256 intent) (UploadIntent.expected_byte_count intent));
      let parts := {| ObjectKeys.account_id := account_id ctx; ObjectKeys.space_id := Source.space_id source;
                      lifecycle := ObjectLifecycleClass.ORIGINAL; artifact_id := upload_id;
                      ObjectKeys.filename := last_segment (UploadIntent.object_key intent) |} in
      kept ← keep_original s (account_id ctx) intent parts;
      let revision := source_revision_id source_id (UploadIntent.expected_sha256 intent) in
      existing ← select_opt (fun r => same (SourceRevision.account_id r) (account_id ctx) &&
                                      same (SourceRevision.id r) revision);
      _ ← match existing with
          | None => add_revision (account_id ctx) (Source.space_id source) source_id revision intent kept.1
          | Some _ => mret tt
          end;
      t ← now;
      _ ← update (UploadIntent.id intent) (UploadIntent.set_completed_at (Some t));
      _ ← set_status (Source.id source) SourceProcessingStatus.QUEUED;
      job ← enqueue_job_with_outbox ctx "ingestion.parse" (Source.space_id source)
              (processing_payload source_id revision (Source.space_id source)) "source.upload_completed"
              (Some ("upload-complete:" +:+ str_uuid upload_id));
      mret ({| rv_revision_id := revision; rv_snapshot_sha256 := UploadIntent.expected_sha256 intent; rv_job := job |},
            kept.2)
  end.
End storage.
End session.

(** ** Completing an upload *)

Section proofs.
Context `{Env} {S : Type} `{ObjectStoragePort S}.
Variables (ctx : RequestContext) (source_id upload_id : uuid).

Definition digest_revision (intent : UploadIntent.t) : uuid :=
  source_revision_id source_id (UploadIntent.expected_sha256 intent).

Definition upload_key : string := "upload-complete:" +:+ str_uuid upload_id.

(** What a first completion did before it enqueued the parse. *)
Record uploaded (s : S) (source : Source.t) (intent : UploadIntent.t) (w w' : World) : Prop := {
  up_verified : exists m, verify_upload s (UploadIntent.object_key intent) (account_id ctx)
    (UploadIntent.expected_sha256 intent) (UploadIntent.expected_byte_count intent) = Ok m;
  up_revision :
    (exists r, r ∈ rows (db w) /\ SourceRevision.account_id r = account_id ctx /\
       SourceRevision.id r = digest_revision intent /\ rows (R := SourceRevision.t) (db w') = rows (db w)) \/
    (exists key t c, let n := new_revision (account_id ctx) (Source.space_id source) source_id (digest_revision intent)
                                intent key t c in
       (forall r, r ∈ rows (db w) -> clash r n = None) /\ rows (db w') = rows (db w) ++ [n]);
  up_intent : exists t, rows (db w') = map (fun r => if UploadIntent.id r =? UploadIntent.id intent
    then UploadIntent.set_completed_at (Some t) r else r) (rows (db w));
  up_source : exists t, rows (db w') = map (fun r => if Source.id r =? Source.id source
    then Source.set_updated_at t (Source.set_processing_status "queued" r) else r) (rows (db w));
  up_jobs : rows (R := DurableJob.t) (db w') = rows (db w);
  up_events : rows (R := OutboxEvent.t) (db w') = rows (db w);
}.

Lemma keep_original_db s account intent parts w r w' :
  keep_original s account intent parts w = Ok (r, w') -> w' = w.
Proof.
  unfold keep_original. intros Hm. destruct is_memory, put as [f|]; try (destruct (promote _ _ _ _); stepM Hm; by cleanM).
  do 3 (stepM Hm; cleanM). destruct (f _ _ _ _ _ _) as [s1 st]. stepM Hm. by cleanM.
Qed.

Lemma complete_upload_Ok s r s' w w' :
  complete_upload s ctx source_id upload_id w = Ok ((r, s'), w') ->
  exists source intent, keep (the_source (account_id ctx) source_id) (rows (db w)) = [source] /\
    keep (the_intent (account_id ctx) source_id upload_id) (rows (db w)) = [intent] /\
    (UploadIntent.completed_at intent <> None /\ completed_before ctx source_id intent w = Ok (r, w') /\ s' = s \/
     UploadIntent.completed_at intent = None /\ rv_revision_id r = digest_revision intent /\
     rv_snapshot_sha256 r = UploadIntent.expected_sha256 intent /\
     exists w1, uploaded s source intent w w1 /\
       enqueue_job_with_outbox ctx "ingestion.parse" (Source.space_id source)
         (processing_payload source_id (digest_revision intent) (Source.space_id source)) "source.upload_completed"
         (Some upload_key) w1 = Ok (rv_job r, w')).
Proof.
  intros Hm. unfold complete_upload in Hm. stepM Hm. apply select_one_Ok in H1 as [Hs ->].
  stepM Hm. apply select_one_Ok in H1 as [Hi ->]. exists a, a0. split; [done|]. split; [done|].
  destruct (UploadIntent.completed_at a0); [left; stepM Hm; cleanM; done|right].
  stepM Hm. cleanM. stepM Hm. apply keep_original_db in H2 as ->. stepM Hm. apply select_opt_Ok in H2 as [He ->].
  stepM Hm. draw Hm. stepM Hm. apply update_Ok in H3 as ->. stepM Hm. unfold set_status in H3. draw H3. apply update_Ok in H3 as ->.
  stepM Hm. cleanM. split; [done|]. cbn [rv_revision_id rv_snapshot_sha256 rv_job]. split; [done|]. split; [done|].
  eexists. split; [|exact H3]. clear H3.
  framed H2 UploadIntent.t K1; [unfold add_revision; frame|]. framed H2 Source.t K2; [unfold add_revision; frame|].
  framed H2 DurableJob.t K3; [unfold add_revision; frame|]. framed H2 OutboxEvent.t K4; [unfold add_revision; frame|].
  split; rows_simpl.
  - by eexists.
  - destruct a3 as [x|]; cleanM.
    + left. apply keep_one in He as [Hx Hp]. unfold same in Hp. split_bool. by exists x.
    + right. unfold add_revision in H2. do 2 draw H2. stepM H2. apply add_Ok in H3 as [Hc ->]. do 2 draw H2.
      framed H2 SourceRevision.t K5. rows_simpl. rewrite K5. by eexists _, _, _.
  - rewrite K1. by eexists.
  - rewrite K2. by eexists.
  - exact K3.
  - exact K4.
Qed.







(** An event a worker's dispatch accepts: its digest is its payload's, its
    type is an ingestion's, and it names its source, revision and job; the job
    is queued under a snapshot whose signature holds for its lifetime. *)
Definition dispatchable (r : RevisionResult) (ev : OutboxEvent.t) (job : DurableJob.t) : Prop :=
  OutboxEvent.id ev = outbox_event_id (rv_job r) /\ OutboxEvent.account_id ev = account_id ctx /\
  OutboxEvent.published_at ev = None /\ OutboxEvent.claim_token ev = None /\
  OutboxEvent.event_type ev ∈ INGESTION_EVENT_TYPES /\
  OutboxEvent.payload_sha256 ev = payload_sha256 (OutboxEvent.payload ev) /\
  dict_lookup "source_id" (OutboxEvent.payload ev) = Some (JStr (str_uuid source_id)) /\
  dict_lookup "revision_id" (OutboxEvent.payload ev) = Some (JStr (str_uuid (rv_revision_id r))) /\
  dict_lookup "durable_job_id" (OutboxEvent.payload ev) = Some (JStr (str_uuid (job_id (rv_job r)))) /\
  the_job (account_id ctx) (job_id (rv_job r)) job = true /\ DurableJob.status job = "queued" /\
  exists snapshot accepted, DurableJob.auth_snapshot job = Some snapshot /\
    forall t, verify_snapshot_signature signing_key snapshot t = Ok (t <=? accepted + DEFAULT_TTL_SECONDS).

(** A first completion hands the upload to the workers: the object was
    verified against the expected digest and size, the revision is stored, and
    the outbox has a dispatchable event for it. *)
Theorem complete_upload_enqueues_ingestion s r s' w w' :
  (forall i, i ∈ rows (db w) -> the_intent (account_id ctx) source_id upload_id i = true ->
     UploadIntent.completed_at i = None) ->
  keep (job_of_key (account_id ctx) upload_key) (rows (db w)) = [] ->
  complete_upload s ctx source_id upload_id w = Ok ((r, s'), w') ->
  (exists i m, i ∈ rows (db w) /\ the_intent (account_id ctx) source_id upload_id i = true /\
     verify_upload s (UploadIntent.object_key i) (account_id ctx) (UploadIntent.expected_sha256 i)
       (UploadIntent.expected_byte_count i) = Ok m /\ rv_snapshot_sha256 r = UploadIntent.expected_sha256 i) /\
  (exists x, x ∈ rows (R := SourceRevision.t) (db w') /\ SourceRevision.account_id x = account_id ctx /\
     SourceRevision.id x = rv_revision_id r) /\
  exists ev job, ev ∈ rows (db w') /\ job ∈ rows (db w') /\ dispatchable r ev job.
Proof.
  intros Hopen Hnew Hm. apply complete_upload_Ok in Hm as (source & intent & Hs & Hi & Hm).
  apply keep_one in Hi as [Hin Hip]. destruct Hm as [(Hc & _)|(Hc & Hrev & Hsha & w1 & Hup & Hq)].
  { by rewrite (Hopen _ Hin Hip) in Hc. }
  destruct Hup as [[m Hm] Hrow _ _ Hj He]. split; [by exists intent, m|].
  framed Hq SourceRevision.t K1; [unfold enqueue_job_with_outbox, find_enqueued; frame|]. split.
  { rewrite K1, Hrev. destruct Hrow as [(x & Hx & Ha & Hid & ->)|(key & t & c & _ & ->)]; [by exists x|].
    eexists. split; [apply elem_of_app; right; by left|done]. }
  unfold enqueue_job_with_outbox in Hq. stepM Hq.
  assert (a = None /\ w0 = w1) as [-> ->].
  { unfold find_enqueued in H1. cbn [negb truthy] in H1. destruct (negb _); [by cleanM|]. stepM H1.
    apply select_opt_Ok in H2 as [Hk ->]. rewrite Hj, Hnew in Hk. destruct a0; [done|]. by cleanM. }
  do 4 draw Hq. stepM Hq. apply add_Ok in H2 as [_ ->]. stepM Hq. apply add_Ok in H2 as [_ ->]. cleanM.
  clear H1 K1. rows_simpl. do 2 eexists. split; [apply elem_of_app; right; by left|].
  split; [apply elem_of_app; right; by left|]. unfold dispatchable. rewrite H2, Hrev. cbn [job_id outbox_event_id].
  split_and!; try done; [by left|by unfold the_job, same; cbn; rewrite !bool_decide_true|].
  do 2 eexists. split; [reflexivity|]. intros t. apply fresh_snapshot_verifies.
Qed.
End proofs.

(** ** Witnesses *)

Definition draft_source : Source.t :=
  {| Source.id := 20; Source.account_id := 1; Source.space_id := 7; Source.title := "notes";
     Source.processing_status := "draft"; Source.created_at := 0; Source.updated_at := 0 |}.

Definition hi_sha256 : string := "8f434346648f6b96df89dda901c5176b10a6d83961dd3c1ac88b59b2dc327aa4".

Definition quarantined_key : string :=
  "accounts/00000000-0000-0000-0000-000000000001/spaces/00000000-0000-0000-0000-000000000007/quarantine/x/notes.txt".

Definition hi_intent : UploadIntent.t :=
  {| UploadIntent.id := 21; UploadIntent.account_id := 1; UploadIntent.space_id := 7; UploadIntent.source_id := 20;
     UploadIntent.object_key := quarantined_key; UploadIntent.expected_sha256 := hi_sha256;
     UploadIntent.expected_byte_count := 2; UploadIntent.content_type := "text/plain"; UploadIntent.expires_at := 0;
     UploadIntent.completed_at := None; UploadIntent.created_at := 0 |}.

Definition upload_world : World :=
  {| db := set_rows [draft_source] (set_rows [hi_intent] empty_db); tick := 0 |}.

Definition hi_storage : gmap.gmap string (bytes * string * list (string * string)) :=
  fst (put_bytes gmap.gmap_empty quarantined_key (utf8 "hi") "text/plain" 1 hi_sha256).

Local Notation complete w s := (@complete_upload test_env _ MemoryObjectStorage s test_ctx 20 21 w).






Local Notation complete_second w s := (@complete_upload test_env _ MemoryObjectStorage s test_ctx 20 22 w).


Lemma complete_upload_enqueues_ingestion_witness :
  exists r s' w', complete upload_world hi_storage = Ok ((r, s'), w') /\
    exists ev job, ev ∈ rows (db w') /\ job ∈ rows (db w') /\
      @dispatchable test_env test_ctx 20 r ev job.
Proof.
  destruct (returned (complete upload_world hi_storage)) as [[[r s'] w'] E]; [vm_compute; reflexivity|].
  exists r, s', w'. split; [exact E|].
  apply (@complete_upload_enqueues_ingestion test_env _ MemoryObjectStorage test_ctx 20 21 hi_storage r s' upload_world w').
  - intros i Hi _. apply list_elem_of_singleton in Hi as ->. reflexivity.
  - reflexivity.
  - exact E.
Defined.
