(* ===== verification/Pointers.v ===== *)
(** * Moving a current-revision pointer (the SQL functions
    memdot_set_current_document_revision and memdot_set_current_memory_revision)

    The two functions differ in their tables only; [move_pointer] is their
    common body.  They run inside a textual statement, before which the session
    does not flush, and the foreign keys of the pointer are immediate, so here
    they are checked.  [pointer_needs_revision] is what the services meet: a
    pointer moves only to a row that is stored already. *)

From Stdlib Require Import ZArith Lia.
From stdpp Require Import list strings.
From S2P Require Import Prelude PyStr Json Uuid Enums Ledger Store Outbox RequestContext Deletion.
Open Scope Z_scope.

(** A foreign key that is checked at once: some row satisfies [p]. *)
Definition references {R} `{Table R} (name : string) (p : R -> bool) : M unit :=
  l ← select p; guard (match l with [] => true | _ => false end) (IntegrityError name).

Section pointer.
Context `{Env} {P : Type} `{Table P}.

(** The pointer's table: the row of the entity, the revision a row names, the
    foreign keys of the row to insert, the row and the update. *)
Variables (event_type : string) (of_entity : P -> bool) (revision_of : P -> uuid) (foreign_keys : M unit)
  (new_row : Z -> P) (move : Z -> P -> P).

Definition move_pointer (purpose : RequestPurpose.t) (account revision event_id : uuid) (digest : string)
    (payload : dict) : M unit :=
  t ← now;
  _ ← guard (negb (bool_decide (purpose ∈ [RequestPurpose.FIRST_PARTY; RequestPurpose.WORKER])))
            (DatabaseError "pointer_authorization_denied");
  events ← select (fun e => same (OutboxEvent.account_id e) account && same (OutboxEvent.id e) event_id);
  pointers ← select of_entity;
  match events with
  | e :: _ =>
      guard (negb (String.eqb (OutboxEvent.payload_sha256 e) digest &&
                   match pointers with p :: _ => same (revision_of p) revision | [] => false end))
            (DatabaseError "pointer_event_conflict")
  | [] =>
      _ ← add (new_event event_id account event_type payload None t);
      _ ← foreign_keys;
      match pointers with
      | [] => add (new_row t)
      | _ => _ ← update_where of_entity (move t); mret tt
      end
  end.
End pointer.

(** ** Lemmas *)

Lemma references_Ok {R} `{Table R} name (p : R -> bool) w u w' :
  references name p w = Ok (u, w') -> w' = w /\ exists r, r ∈ rows (db w) /\ p r = true.
Proof.
  intros Hm. unfold references in Hm. stepM Hm. apply select_Ok in H0 as [-> ->]. apply guard_Ok in Hm as [Hl ->].
  split; [done|]. destruct (keep p _) as [|r l] eqn:E; [done|]. exists r. apply elem_of_keep. rewrite E. by left.
Qed.

Section proofs.
Context `{Env}.

(** No event has an identifier the environment will still draw. *)
Definition fresh_events (w : World) : Prop :=
  forall n e, e ∈ rows (R := OutboxEvent.t) (db w) -> OutboxEvent.id e <> fresh_uuid n.

Lemma fresh_events_db w w' : db w' = db w -> fresh_events w -> fresh_events w'.
Proof. unfold fresh_events. by intros ->. Qed.

(** A pointer moves only to a revision that is already stored. *)
Lemma move_needs_revision {P} `{Table P} {R} `{Table R} {R'} `{Table R'} ty (ent : P -> bool) rev name1
    (p1 : R -> bool) name2 (p2 : R' -> bool) new mv pu account revision n digest payload w u w' :
  (forall l d, rows (R := R') (set_rows (R := OutboxEvent.t) l d) = rows d) ->
  fresh_events w ->
  move_pointer ty ent rev (_ ← references name1 p1; references name2 p2) new mv pu account revision (fresh_uuid n)
    digest payload w = Ok (u, w') ->
  exists r, r ∈ rows (R := R') (db w) /\ p2 r = true.
Proof.
  intros Hother Hf Hm. unfold move_pointer in Hm. draw Hm. stepM Hm. cleanM. stepM Hm.
  apply select_Ok in H4 as [-> ->]. stepM Hm. apply select_Ok in H4 as [-> ->]. cbn [db] in Hm.
  destruct (keep _ (rows (R := OutboxEvent.t) (db w))) as [|e l] eqn:E.
  - stepM Hm. apply add_Ok in H4 as [_ ->]. stepM Hm. stepM H4. apply references_Ok in H5 as (-> & _).
    apply references_Ok in H4 as (-> & r & Hr & Hp). cbn [db] in Hr. rewrite Hother in Hr. by exists r.
  - exfalso. assert (He : e ∈ keep (fun e0 => same (OutboxEvent.account_id e0) account &&
      same (OutboxEvent.id e0) (fresh_uuid n)) (rows (R := OutboxEvent.t) (db w))) by (rewrite E; by left).
    apply elem_of_keep in He as [Hin Hp]. unfold same in Hp. split_bool. by eapply Hf.
Qed.
End proofs.
