(* ===== verification/Memory.v ===== *)
(** * Memory items and proposals (services/core/src/memdot_core/memory/service.py,
    memdot_domain/memory.py)

    The session does not flush before a textual statement, so the SQL function
    that moves a pointer ([Pointers.move_pointer]) runs before the rows added
    just above it are inserted; the functions below write in the order the
    database sees. *)

From Stdlib Require Import ZArith Lia.
From stdpp Require Import list strings.
From S2P Require Import Prelude PyStr Digest Uuid Json Enums Ledger Store Outbox RequestContext Deletion Pointers.
Open Scope Z_scope.

(** ** memdot_domain/memory.py *)

Definition RETRIEVABLE_PROPOSAL_STATUSES : list ProposalStatus.t := [ProposalStatus.APPROVED].

Definition EXCLUDED_PROPOSAL_STATUSES : list ProposalStatus.t :=
  [ProposalStatus.PENDING; ProposalStatus.REJECTED; ProposalStatus.EXPIRED; ProposalStatus.CONFLICTED].

Definition status_in {A} `{EqDecision A, StrEnum A} (l : list A) (status : string) : res bool :=
  s ← of_option (ValueError status) (of_value status); mret (bool_decide (s ∈ l)).

Definition is_retrievable_proposal_status (status : string) : res bool :=
  status_in RETRIEVABLE_PROPOSAL_STATUSES status.

Definition is_excluded_proposal_status (status : string) : res bool :=
  status_in EXCLUDED_PROPOSAL_STATUSES status.

Definition memory_truth_class_for_proposal (approved : bool) : TruthClass.t :=
  if approved then TruthClass.APPROVED_DERIVED else TruthClass.DERIVED_PROPOSAL.

Definition is_active_memory_status (status : string) : res bool := status_in [MemoryRevisionStatus.ACTIVE] status.

Definition is_retracted_memory_status (status : string) : res bool :=
  status_in [MemoryRevisionStatus.RETRACTED] status.

(** ** The service *)

Record MemoryItemResult := { mi_memory_item_id : uuid; mi_space_id : uuid }.

Record ProposalResult := { pr_proposal_id : uuid; pr_status : string }.

Definition _assertion_sha256 (text : string) : string := sha256_str text.

Definition the_item (account item : uuid) (r : MemoryItem.t) : bool :=
  same (MemoryItem.account_id r) account && same (MemoryItem.id r) item.

Definition the_memory_pointer (account item : uuid) (r : CurrentMemoryRevision.t) : bool :=
  same (CurrentMemoryRevision.account_id r) account && same (CurrentMemoryRevision.memory_item_id r) item.

Definition the_memory_revision (account revision : uuid) (r : MemoryRevision.t) : bool :=
  same (MemoryRevision.account_id r) account && same (MemoryRevision.id r) revision.

Definition the_proposal (account proposal : uuid) (r : Proposal.t) : bool :=
  same (Proposal.account_id r) account && same (Proposal.id r) proposal.

Definition new_memory_revision (id account space item : uuid) (base : option uuid) (assertion truth_class : string)
    (provenance : dict) (t : Z) : MemoryRevision.t :=
  {| MemoryRevision.id := id; MemoryRevision.account_id := account; MemoryRevision.space_id := space;
     MemoryRevision.memory_item_id := item; MemoryRevision.base_revision_id := base;
     MemoryRevision.assertion_text := assertion; MemoryRevision.truth_class := truth_class;
     MemoryRevision.status := value MemoryRevisionStatus.ACTIVE;
     MemoryRevision.content_sha256 := _assertion_sha256 assertion; MemoryRevision.provenance_json := provenance;
     MemoryRevision.created_at := t |}.

(** [str(patch.get("assertion_text") or "")]. *)
Definition patch_assertion (patch : dict) : string :=
  let v := dict_get "assertion_text" patch in if py_bool v then py_str v else "".

Definition resolved_row (status : ProposalStatus.t) (t : Z) (r : Proposal.t) : Proposal.t :=
  Proposal.set_resolved_at (Some t) (Proposal.set_status (value status) r).

Section session.
Context `{Env}.

(** memdot_set_current_memory_revision *)
Definition set_current_memory_revision (purpose : RequestPurpose.t) (pointer_id account space item revision event_id : uuid)
    (digest : string) (payload : dict) : M unit :=
  move_pointer "memory.current_revision_changed" (the_memory_pointer account item) CurrentMemoryRevision.revision_id
    (_ ← references "fk_current_memory_revision_item" (the_item account item);
     references "fk_current_memory_revision_revision" (the_memory_revision account revision))
    (fun t => {| CurrentMemoryRevision.id := pointer_id; CurrentMemoryRevision.account_id := account;
                 CurrentMemoryRevision.space_id := space; CurrentMemoryRevision.memory_item_id := item;
                 CurrentMemoryRevision.revision_id := revision; CurrentMemoryRevision.updated_at := t |})
    (fun t r => CurrentMemoryRevision.set_updated_at t (CurrentMemoryRevision.set_revision_id revision
                  (CurrentMemoryRevision.set_space_id space r)))
    purpose account revision event_id digest payload.

Definition create_memory_item (ctx : RequestContext) (space_id : uuid) (title assertion_text : string) : M MemoryItemResult :=
  item_id ← new_uuid;
  revision_id ← new_uuid;
  pointer_id ← new_uuid;
  event_id ← new_uuid;
  let payload := [("memory_item_id", JStr (str_uuid item_id)); ("revision_id", JStr (str_uuid revision_id));
                  ("space_id", JStr (str_uuid space_id))] in
  _ ← set_current_memory_revision (purpose ctx) pointer_id (account_id ctx) space_id item_id revision_id event_id
        (payload_sha256 payload) payload;
  t ← now;
  _ ← add {| MemoryItem.id := item_id; MemoryItem.account_id := account_id ctx; MemoryItem.space_id := space_id;
             MemoryItem.title := title; MemoryItem.created_at := t |};
  _ ← add (new_memory_revision revision_id (account_id ctx) space_id item_id None assertion_text
             (value TruthClass.USER_ASSERTION) [("author_actor_id", JStr (str_uuid (actor_id ctx)))] t);
  mret {| mi_memory_item_id := item_id; mi_space_id := space_id |}.

Definition create_proposal (ctx : RequestContext) (space_id : uuid) (target_type : string) (target_id : uuid)
    (patch_json : dict) (base_revision_id : option uuid) : M ProposalResult :=
  proposal_id ← new_uuid;
  t ← now;
  _ ← add {| Proposal.id := proposal_id; Proposal.account_id := account_id ctx; Proposal.space_id := space_id;
             Proposal.target_type := target_type; Proposal.target_id := target_id;
             Proposal.base_revision_id := base_revision_id; Proposal.truth_class := value TruthClass.DERIVED_PROPOSAL;
             Proposal.status := value ProposalStatus.PENDING; Proposal.patch_json := patch_json;
             Proposal.resolved_at := None; Proposal.created_at := t |};
  mret {| pr_proposal_id := proposal_id; pr_status := value ProposalStatus.PENDING |}.

(** The memory an approved proposal writes. *)
Definition apply_proposal (ctx : RequestContext) (proposal : Proposal.t) (assertion : string) : M unit :=
  let item_id := Proposal.target_id proposal in
  item ← select_one (the_item (account_id ctx) item_id);
  current ← select_opt (the_memory_pointer (account_id ctx) item_id);
  let base_id := option_map CurrentMemoryRevision.revision_id current in
  revision_id ← new_uuid;
  pointer_id ← match current with Some c => mret (CurrentMemoryRevision.id c) | None => new_uuid end;
  event_id ← new_uuid;
  let payload := [("memory_item_id", JStr (str_uuid item_id)); ("revision_id", JStr (str_uuid revision_id));
                  ("space_id", JStr (str_uuid (MemoryItem.space_id item)));
                  ("proposal_id", JStr (str_uuid (Proposal.id proposal)))] in
  _ ← set_current_memory_revision (purpose ctx) pointer_id (account_id ctx) (MemoryItem.space_id item) item_id
        revision_id event_id (payload_sha256 payload) payload;
  t ← now;
  add (new_memory_revision revision_id (account_id ctx) (MemoryItem.space_id item) item_id base_id assertion
         (value (memory_truth_class_for_proposal true)) [("proposal_id", JStr (str_uuid (Proposal.id proposal)))] t).

Definition resolve_proposal (ctx : RequestContext) (proposal_id : uuid) (approve : bool) : M ProposalResult :=
  proposal ← select_one (the_proposal (account_id ctx) proposal_id);
  if negb (String.eqb (Proposal.status proposal) (value ProposalStatus.PENDING))
  then mret {| pr_proposal_id := proposal_id; pr_status := Proposal.status proposal |}
  else
    let new_status := if approve then ProposalStatus.APPROVED else ProposalStatus.REJECTED in
    t ← now;
    _ ← (if approve && String.eqb (Proposal.target_type proposal) "memory_item" &&
            truthy (patch_assertion (Proposal.patch_json proposal))
         then apply_proposal ctx proposal (patch_assertion (Proposal.patch_json proposal)) else mret tt);
    _ ← update (Proposal.id proposal) (resolved_row new_status t);
    mret {| pr_proposal_id := proposal_id; pr_status := value new_status |}.

Record MemoryItemView := { mv_item : MemoryItem.t; mv_current : option MemoryRevision.t }.

Definition get_memory_item (ctx : RequestContext) (memory_item_id : uuid) : M (option MemoryItemView) :=
  item ← select_opt (the_item (account_id ctx) memory_item_id);
  match item with
  | None => mret None
  | Some item =>
      current ← select_opt (the_memory_pointer (account_id ctx) memory_item_id);
      revision ← match current with
                 | Some c => select_opt (the_memory_revision (account_id ctx) (CurrentMemoryRevision.revision_id c))
                 | None => mret None
                 end;
      mret (Some {| mv_item := item; mv_current := revision |})
  end.
End session.

(** ** Lemmas *)

Section proofs.
Context `{Env}.

(** A pointer moves only to a revision that is already stored. *)
Lemma pointer_needs_revision pu pid account space item revision n digest payload w u w' :
  fresh_events w ->
  set_current_memory_revision pu pid account space item revision (fresh_uuid n) digest payload w = Ok (u, w') ->
  rows (R := MemoryRevision.t) (db w') = rows (db w) /\
  exists r, r ∈ rows (R := MemoryRevision.t) (db w) /\ MemoryRevision.id r = revision.
Proof.
  intros Hf Hm. split; [framed Hm MemoryRevision.t K;
    [unfold set_current_memory_revision, move_pointer, references; frame|done]|].
  unfold set_current_memory_revision in Hm. apply move_needs_revision in Hm as (r & Hr & Hp); [|done|done].
  unfold the_memory_revision, same in Hp. split_bool. by exists r.
Qed.

(** The revision it moves to cannot be added after it. *)
Lemma revision_clashes id account space item base text tc prov t w u w' :
  (exists r, r ∈ rows (R := MemoryRevision.t) (db w) /\ MemoryRevision.id r = id) ->
  add (new_memory_revision id account space item base text tc prov t) w = Ok (u, w') -> False.
Proof.
  intros (r & Hr & Hid) [Hc _]%add_Ok. specialize (Hc r Hr). cbn in Hc. unfold MemoryRevision.clash, same in Hc.
  by rewrite (bool_decide_true (MemoryRevision.id r = _)) in Hc.
Qed.

Lemma apply_proposal_raises ctx p text w u w' : fresh_events w -> apply_proposal ctx p text w = Ok (u, w') -> False.
Proof.
  intros Hf Hm. unfold apply_proposal in Hm. stepM Hm. apply select_one_in in H0 as (-> & _).
  stepM Hm. apply select_opt_Ok in H0 as [_ ->]. draw Hm. stepM Hm.
  assert (Hw : db w0 = db w) by (destruct a0; [by cleanM|by injection H0 as _ <-]). clear H0.
  draw Hm. stepM Hm. apply pointer_needs_revision in H0 as [K Hr]; [|unfold fresh_events; cbn [db]; by rewrite Hw].
  cbn [db] in *. draw Hm. eapply revision_clashes; [|exact Hm]. cbn [db]. by rewrite K.
Qed.

(** No call brings a memory into being: creating an item always raises, and
    a proposal whose approval should write the item's next revision cannot be
    approved, because the pointer's foreign key is checked before the session
    inserts the revision it names; a call to [resolve_proposal] that returns
    leaves items, revisions and pointers as they were. *)
Theorem memory_never_written ctx w :
  fresh_events w ->
  (forall space title text, ~ exists r, create_memory_item ctx space title text w = Ok r) /\
  (forall id approve r w', resolve_proposal ctx id approve w = Ok (r, w') ->
     rows (R := MemoryItem.t) (db w') = rows (db w) /\ rows (R := MemoryRevision.t) (db w') = rows (db w) /\
     rows (R := CurrentMemoryRevision.t) (db w') = rows (db w)).
Proof.
  intros Hf. split.
  - intros space title text [[r w'] Hm]. unfold create_memory_item in Hm. do 4 draw Hm. stepM Hm.
    apply pointer_needs_revision in H0 as [K Hr]; [|done]. cbn [db] in *. draw Hm. stepM Hm.
    framed H0 MemoryRevision.t K2. stepM Hm. eapply revision_clashes; [|exact H1]. rewrite K2. cbn [db]. by rewrite K.
  - intros id approve r w' Hm. unfold resolve_proposal in Hm. stepM Hm. apply select_one_in in H0 as (-> & _).
    destruct (negb _); [by cleanM|]. draw Hm. stepM Hm. destruct (approve && _ && _).
    { exfalso. eapply apply_proposal_raises; [|exact H0]. exact Hf. }
    cleanM. stepM Hm. cleanM. apply update_Ok in H0 as ->. done.
Qed.

Lemma resolved_again ctx id approve w p :
  keep (the_proposal (account_id ctx) id) (rows (db w)) = [p] -> Proposal.status p <> "pending" ->
  resolve_proposal ctx id approve w = Ok ({| pr_proposal_id := id; pr_status := Proposal.status p |}, w).
Proof.
  intros Hk Hs. unfold resolve_proposal.
  rewrite (M_bind_step (select_one _) _ w p w) by by apply select_one_Ok.
  destruct (String.eqb_spec (Proposal.status p) (value ProposalStatus.PENDING)); done.
Qed.

(** A proposal is resolved once: it stays pending until a call returns, then
    has the status and time that call gave it, and every later call, whatever
    it asks for, answers with that status and changes nothing. *)
Theorem proposal_resolved_once ctx id approve w r w' :
  resolve_proposal ctx id approve w = Ok (r, w') ->
  (exists p, keep (the_proposal (account_id ctx) id) (rows (db w')) = [p] /\ Proposal.status p = pr_status r /\
     Proposal.status p <> "pending") /\
  forall approve', resolve_proposal ctx id approve' w' = Ok (r, w').
Proof.
  intros Hm. unfold resolve_proposal in Hm. stepM Hm. apply select_one_Ok in H0 as [Hk ->].
  destruct (String.eqb_spec (Proposal.status a) (value ProposalStatus.PENDING)) as [Hp|Hp]; cbn [negb] in Hm.
  2: { cleanM. split; [by exists a|]. intros. by apply resolved_again. }
  draw Hm. stepM Hm.
  framed H0 Proposal.t K; [unfold apply_proposal, set_current_memory_revision, move_pointer, references; frame|].
  stepM Hm. cleanM. apply update_Ok in H1 as ->. cbn [db pr_status] in *.
  set (f := resolved_row _ _) in *.
  assert (Hk' : keep (the_proposal (account_id ctx) id) (map (fun r => if row_id r =? Proposal.id a then f r else r)
    (rows (db w0))) = [f a]).
  { rewrite keep_map, K, Hk; [cbn [map]; change (row_id a) with (Proposal.id a); by rewrite Z.eqb_refl|].
    intros x. by destruct (row_id x =? _). }
  split; [exists (f a); rows_simpl; split_and!; [exact Hk'|done|by destruct approve]|].
  intros approve'. rewrite (resolved_again ctx id approve' _ (f a)); [done|exact Hk'|by destruct approve].
Qed.
End proofs.

(** ** Witnesses *)

Definition sample_item : MemoryItem.t :=
  {| MemoryItem.id := 30; MemoryItem.account_id := 1; MemoryItem.space_id := 7; MemoryItem.title := "tea";
     MemoryItem.created_at := 0 |}.

Definition sample_proposal : Proposal.t :=
  {| Proposal.id := 40; Proposal.account_id := 1; Proposal.space_id := 7; Proposal.target_type := "memory_item";
     Proposal.target_id := 30; Proposal.base_revision_id := None; Proposal.truth_class := "derived_proposal";
     Proposal.status := "pending"; Proposal.patch_json := [("assertion_text", JStr "green")];
     Proposal.resolved_at := None; Proposal.created_at := 0 |}.

Definition memory_world : World :=
  {| db := set_rows [sample_item] (set_rows [sample_proposal] empty_db); tick := 0 |}.

Lemma memory_never_written_witness :
  (~ exists r, @create_memory_item test_env test_ctx 7 "tea" "green" memory_world = Ok r) /\
  @resolve_proposal test_env test_ctx 40 true memory_world =
    Raise (IntegrityError "fk_current_memory_revision_revision").
Proof.
  assert (Hf : @fresh_events test_env memory_world) by (intros n e He; exfalso; exact (not_elem_of_nil e He)).
  split; [exact (proj1 (@memory_never_written test_env test_ctx memory_world Hf) 7 "tea" "green")|].
  vm_compute. reflexivity.
Defined.

Lemma proposal_resolved_once_witness :
  exists r w', @resolve_proposal test_env test_ctx 40 false memory_world = Ok (r, w') /\ pr_status r = "rejected" /\
    @resolve_proposal test_env test_ctx 40 true w' = Ok (r, w').
Proof.
  destruct (returned (@resolve_proposal test_env test_ctx 40 false memory_world)) as [[r w'] E]; [vm_compute; reflexivity|].
  exists r, w'. split; [exact E|]. split.
  - assert (Hs : match @resolve_proposal test_env test_ctx 40 false memory_world with
                 | Ok (r, _) => pr_status r | Raise _ => "" end = "rejected") by (vm_compute; reflexivity).
    rewrite E in Hs. exact Hs.
  - exact (proj2 (@proposal_resolved_once test_env test_ctx 40 false memory_world r w' E) true).
Defined.
