(* ===== verification/Document.v ===== *)
(** * MemdotDocument v1 (packages/domain-python/src/memdot_domain/document.py)

    The tree walkers over JSON documents: block identifiers and link policy,
    plain text, Markdown and HTML.  The Pydantic models are third-party:
    [model_validate] is the dump of the model the payload validates to.  A
    bracketed host of a URL is checked by [ipaddress]: [bracketed_host]. *)

From Stdlib Require Import ZArith Lia Ascii.
From stdpp Require Import list strings.
From S2P Require Import Prelude PyStr Digest Uuid Json Enums Float64 PyFloat Ledger Store.
Open Scope Z_scope.

Definition AttributeError : exn := Refused "AttributeError" "".
Definition DocumentValidationError (msg : string) : exn := Refused "DocumentValidationError" msg.

(** ** URLs *)

Definition is_alpha (c : ascii) : bool :=
  let n := code c in ((65 <=? n)%N && (n <=? 90)%N) || ((97 <=? n)%N && (n <=? 122)%N).

Definition scheme_char (c : ascii) : bool :=
  let n := code c in is_alpha c || ((48 <=? n)%N && (n <=? 57)%N) || Ascii.eqb c "+" || Ascii.eqb c "-" || Ascii.eqb c ".".

Fixpoint str_filter (p : ascii -> bool) (s : string) : string :=
  match s with "" => "" | String c s => if p c then String c (str_filter p s) else str_filter p s end.

(** The text before the first character of [stops], and the rest with it. *)
Fixpoint break_at (stops : ascii -> bool) (s : string) : string * string :=
  match s with
  | "" => ("", "")
  | String c s' => if stops c then ("", s) else let '(a, b) := break_at stops s' in (String c a, b)
  end.

Definition netloc_end (c : ascii) : bool := Ascii.eqb c "/" || Ascii.eqb c "?" || Ascii.eqb c "#".

(** The scheme [urlsplit] finds, and what follows it. *)
Definition split_scheme (url : string) : string * string :=
  let '(a, b) := break_at (Ascii.eqb ":") url in
  match a, b with
  | String c _, String _ rest => if is_alpha c && str_all scheme_char a then (lower a, rest) else ("", url)
  | _, _ => ("", url)
  end.

Section url.
Variable bracketed_host : string -> bool.

(** The scheme and network location of [urlparse(url)]. *)
Definition urlparse (url : string) : res (string * string) :=
  let url := lstrip_by (fun c => (code c <=? 32)%N) url in
  let url := str_filter (fun c => negb ((code c =? 9)%N || (code c =? 10)%N || (code c =? 13)%N)) url in
  let '(scheme, rest) := split_scheme url in
  if startswith "//" rest then
    let netloc := fst (break_at netloc_end (drop_str 2 rest)) in
    let op := has_char "[" netloc in
    let cl := has_char "]" netloc in
    _ ← raise_if (xorb op cl) (ValueError "Invalid IPv6 URL");
    _ ← raise_if (op && negb (bracketed_host netloc)) (ValueError "Invalid IPv6 URL");
    mret (scheme, netloc)
  else mret (scheme, "").

Definition is_https_url (url : string) : res bool :=
  parsed ← urlparse (strip url);
  mret (String.eqb parsed.1 "https" && truthy parsed.2).

Definition sanitize_url (url : string) : res string :=
  ok ← is_https_url url;
  _ ← raise_if (negb ok) (DocumentValidationError "url_must_be_https");
  mret (strip url).
End url.

(** ** Walking the tree *)

(** [node.get(k) or {}], when a method of a dictionary is called on it. *)
Definition get_dict (k : string) (node : dict) : res dict :=
  let v := dict_get k node in
  if negb (py_bool v) then Ok [] else match v with JObj d => Ok d | _ => Raise AttributeError end.

(** [for x in v or []]: the items a loop sees that can be dictionaries. *)
Definition loop_items {A} (v : json) (items : list A) : res (list A) :=
  if negb (py_bool v) then Ok []
  else match v with
       | JList _ => Ok items
       | JStr _ | JObj _ => Ok []
       | _ => Raise TypeError
       end.

Definition list_items (v : json) : list json := match v with JList l => l | _ => [] end.

(** What [x in {"a", ...}] needs of [x]. *)
Definition hashable (v : json) : bool := match v with JList _ | JObj _ => false | _ => true end.

Definition is_type (t : string) (d : dict) : bool := bool_decide (dict_get "type" d = JStr t).

(** A recursion over a document: [f] gets a node and its children, each with
    the result of the recursion on it. *)
Section walk.
Context {A : Type} (f : dict -> res (list (json * A)) -> A) (leaf : A).

Fixpoint walk (v : json) : A :=
  match v with
  | JObj d =>
      let marked := map (fun kv => (kv.1, (kv.2, match kv.2 with
                                                   | JList l => map (fun c => (c, walk c)) l
                                                   | _ => [] end))) d in
      f d (match dict_lookup "content" marked with
           | Some (v, cs) => loop_items v cs
           | None => Ok []
           end)
  | _ => leaf
  end.

Definition children (d : dict) : res (list (json * A)) :=
  let v := dict_get "content" d in loop_items v (map (fun c => (c, walk c)) (list_items v)).

Lemma walk_obj d : walk (JObj d) = f d (children d).
Proof.
  cbn [walk]. f_equal. unfold children, dict_get, dict_lookup. induction d as [|[k v] d IH]; [done|].
  cbn [map first fst]. destruct (String.eqb k "content"); [|exact IH].
  cbn [snd default from_option]. destruct v; done.
Qed.
End walk.

(** [for (c, r) in cs: acc = step c r acc]. *)
Fixpoint fold_res {A B} (step : B -> A -> res A) (acc : A) (l : list B) : res A :=
  match l with [] => Ok acc | x :: l => acc ← step x acc; fold_res step acc l end.

Section document.
Variables (bracketed_host : string -> bool) (model_validate : dict -> res dict).

(** The link of a mark must be HTTPS. *)
Definition check_mark (m : json) (_ : unit) : res unit :=
  match m with
  | JObj md =>
      if is_type "link" md then
        attrs ← get_dict "attrs" md;
        let href := dict_get "href" attrs in
        if py_bool href then _ ← sanitize_url bracketed_host (py_str href); mret tt else mret tt
      else mret tt
  | _ => mret tt
  end.

Definition check_marks (d : dict) : res unit :=
  let v := dict_get "marks" d in
  ms ← loop_items v (list_items v);
  fold_res check_mark tt ms.

Definition note_block_id (d : dict) (seen : list string) : res (list string) :=
  attrs ← get_dict "attrs" d;
  let id := dict_get "blockId" attrs in
  if py_bool id then
    _ ← raise_if (negb (hashable id)) TypeError;
    _ ← raise_if (match id with JStr s => bool_decide (s ∈ seen) | _ => false end)
          (DocumentValidationError "duplicate_block_id");
    mret (py_str id :: seen)
  else mret seen.

Definition collect_child (c : json * (list string -> res (list string))) (seen : list string) : res (list string) :=
  match c.1 with
  | JObj cd => if is_type "text" cd then _ ← check_marks cd; mret seen else c.2 seen
  | _ => mret seen
  end.

Definition _collect_block_ids : json -> list string -> res (list string) :=
  walk (fun d cs seen =>
    seen ← note_block_id d seen;
    cs ← cs;
    fold_res collect_child seen cs) (fun seen => Ok seen).

(** The validated model's dump; the identifiers are collected from the payload. *)
Definition validate_document_payload (payload : dict) : res dict :=
  doc ← match model_validate payload with
        | Ok d => Ok d
        | Raise _ => Raise (DocumentValidationError "invalid document")
        end;
  root ← get_dict "root" payload;
  let v := dict_get "content" root in
  blocks ← loop_items v (list_items v);
  _ ← fold_res (fun b seen => match b with JObj _ => _collect_block_ids b seen | _ => Ok seen end) [] blocks;
  mret doc.

(** A document is passed as a validated model, here its dump, or as a payload;
    both have their root under the same key. *)
Inductive document_arg := Model (dump : dict) | Payload (payload : dict).

Definition canonical_document_json (doc : document_arg) : res string :=
  data ← match doc with Model d => mret d | Payload p => model_validate p end;
  mret (dumps (JObj data)).

Definition content_sha256 (doc : document_arg) : res string :=
  t ← canonical_document_json doc; mret (sha256_str t).

(** ** Plain text *)

Definition _inline_plain (node : dict) : string :=
  let v := dict_get "text" node in if py_bool v then py_str v else "".

Fixpoint hashes (n : nat) : string := match n with O => "" | S n => String "#" (hashes n) end.

(** [int(v)]. *)
Definition int_of (v : json) : res Z :=
  match v with
  | JInt z => Ok z
  | JBool b => Ok (if b then 1 else 0)
  | JFloat t => x ← of_option (ValueError "float") (py_float t); Ok (Z.quot x one)
  | JStr s => of_option (ValueError "invalid literal for int()") (py_int s)
  | _ => Raise TypeError
  end.

(** [int((node.get("attrs") or {}).get("level") or 1)]. *)
Definition heading_level (d : dict) : res Z :=
  attrs ← get_dict "attrs" d;
  let v := dict_get "level" attrs in
  int_of (if py_bool v then v else JInt 1).

Definition newline : string := String (ascii_of_N 10) "".

Definition plain_child (c : json * res string) (acc : string) : res string :=
  match c.1 with
  | JObj cd => if is_type "text" cd then mret (acc +:+ _inline_plain cd) else t ← c.2; mret (acc +:+ t)
  | _ => mret acc
  end.

Definition _block_plain : json -> res string :=
  walk (fun d cs =>
    if is_type "horizontalRule" d then mret (newline +:+ "---" +:+ newline)
    else
      cs ← cs;
      parts ← fold_res plain_child "" cs;
      let text := strip parts in
      if is_type "heading" d && truthy text then
        level ← heading_level d;
        mret (hashes (Z.to_nat level) +:+ " " +:+ text +:+ newline)
      else
        _ ← raise_if (negb (hashable (dict_get "type" d))) TypeError;
        if (is_type "paragraph" d || is_type "codeBlock" d || is_type "listItem" d) && truthy text
        then mret (text +:+ newline)
        else if is_type "blockquote" d && truthy text then mret ("> " +:+ text +:+ newline)
        else mret text) (Ok "").

Definition extract_plain_text (doc : dict) : res string :=
  root ← get_dict "root" doc;
  let v := dict_get "content" root in
  blocks ← loop_items v (list_items v);
  lines ← fold_res (fun b acc =>
    match b with
    | JObj _ => t ← _block_plain b;
                let chunk := strip t in mret (if truthy chunk then acc ++ [chunk] else acc)
    | _ => mret acc
    end) [] blocks;
  mret (strip (join newline lines)).
End document.

(** ** Markdown *)

(** The match of the heading pattern on a stripped line: one to six hashes,
    white space, the rest of the line. *)
Fixpoint leading_hashes (s : string) : nat * string :=
  match s with
  | String c s' => if Ascii.eqb c "#" then let '(n, r) := leading_hashes s' in (S n, r) else (O, s)
  | "" => (O, s)
  end.

Definition heading_match (line : string) : option (nat * string) :=
  let '(n, r) := leading_hashes line in
  match n, r with
  | S _, String c _ => if Nat.leb n 6 && is_space c then Some (n, lstrip_by is_space r) else None
  | _, _ => None
  end.

Definition text_node (text : string) : json := JObj [("type", JStr "text"); ("text", JStr text)].

(** A heading's level and text, or a paragraph's text. *)
Definition shape (line : string) : option nat * string :=
  match heading_match line with Some (level, text) => (Some level, text) | None => (None, line) end.

Definition shape_block (id : uuid) (s : option nat * string) : json :=
  match s with
  | (Some level, text) =>
      JObj [("type", JStr "heading");
            ("attrs", JObj [("blockId", JStr (str_uuid id)); ("level", JInt (Z.of_nat level))]);
            ("content", JList [text_node text])]
  | (None, text) =>
      JObj [("type", JStr "paragraph"); ("attrs", JObj [("blockId", JStr (str_uuid id))]);
            ("content", JList [text_node text])]
  end.

Definition line_block (id : uuid) (line : string) : json := shape_block id (shape line).

(** The lines that become blocks. *)
Definition markdown_lines (markdown : string) : list string :=
  keep truthy (map strip (splitlines markdown)).

Definition document_from_markdown `{Env} (markdown : string) (document_id : option uuid) : M dict :=
  doc_id ← match document_id with Some d => mret d | None => new_uuid end;
  blocks ← mapM (fun line => id ← new_uuid; mret (line_block id line)) (markdown_lines markdown);
  mret [("schema", JStr "memdot-document"); ("schemaVersion", JInt 1); ("documentId", JStr (str_uuid doc_id));
        ("root", JObj [("type", JStr "doc"); ("content", JList blocks)])].

Definition document_to_markdown (doc : dict) : res string := extract_plain_text doc.

(** ** HTML *)

(** [html.escape]. *)
Definition escape_char (c : ascii) : string :=
  if Ascii.eqb c "&" then "&amp;"
  else if Ascii.eqb c "<" then "&lt;"
  else if Ascii.eqb c ">" then "&gt;"
  else if Ascii.eqb c dquote then "&quot;"
  else if Ascii.eqb c squote then "&#x27;"
  else String c "".

Definition html_escape (s : string) : string := flat_str escape_char s.

Definition tag (name inner : string) : string := "<" +:+ name +:+ ">" +:+ inner +:+ "</" +:+ name +:+ ">".

Definition attr (name val : string) : string := " " +:+ name +:+ "=" +:+ String dquote (val +:+ String dquote "").

(** [str(attrs.get(k) or "")], escaped. *)
Definition escaped (k : string) (d : dict) : string :=
  html_escape (let v := dict_get k d in if py_bool v then py_str v else "").

Definition wrap_mark (m : json) (text : string) : res string :=
  match m with
  | JObj md =>
      if is_type "bold" md then mret (tag "strong" text)
      else if is_type "italic" md then mret (tag "em" text)
      else if is_type "code" md then mret (tag "code" text)
      else if is_type "link" md then
        attrs ← get_dict "attrs" md;
        mret ("<a" +:+ attr "href" (escaped "href" attrs) +:+ ">" +:+ text +:+ "</a>")
      else mret text
  | _ => mret text
  end.

Definition render_inline (node : dict) : res string :=
  let v := dict_get "marks" node in
  ms ← loop_items v (list_items v);
  fold_res wrap_mark (escaped "text" node) ms.

Definition render_child (c : json * res string) (acc : string) : res string :=
  match c.1 with
  | JObj cd => t ← (if is_type "text" cd then render_inline cd else c.2); mret (acc +:+ t)
  | _ => mret acc
  end.

(** The items of a list render every child as a block, text nodes too. *)
Definition render_item (c : json * res string) (acc : string) : res string :=
  match c.1 with JObj _ => t ← c.2; mret (acc +:+ t) | _ => mret acc end.

Definition render_block : json -> res string :=
  walk (fun d cs =>
    cs ← cs;
    inner ← fold_res render_child "" cs;
    if is_type "heading" d then level ← heading_level d; mret (tag ("h" +:+ str_of_Z level) inner)
    else if is_type "paragraph" d then mret (tag "p" inner)
    else if is_type "codeBlock" d then mret (tag "pre" (tag "code" inner))
    else if is_type "blockquote" d then mret (tag "blockquote" inner)
    else if is_type "horizontalRule" d then mret "<hr/>"
    else if is_type "image" d then
      attrs ← get_dict "attrs" d;
      mret ("<img" +:+ attr "src" (escaped "src" attrs) +:+ attr "alt" (escaped "alt" attrs) +:+ "/>")
    else
      _ ← raise_if (negb (hashable (dict_get "type" d))) TypeError;
      if is_type "bulletList" d || is_type "orderedList" d then
        items ← fold_res render_item "" cs;
        mret (tag (if is_type "bulletList" d then "ul" else "ol") items)
      else if is_type "listItem" d then mret (tag "li" inner)
      else mret ("<div data-unsupported>" +:+ inner +:+ "</div>")) (Ok "").

Definition document_to_html (doc : dict) : res string :=
  root ← get_dict "root" doc;
  let v := dict_get "content" root in
  blocks ← loop_items v (list_items v);
  body ← fold_res (fun b acc => match b with JObj _ => t ← render_block b; mret (acc +:+ t) | _ => mret acc end) "" blocks;
  mret ("<!DOCTYPE html>" +:+ tag "html" (tag "body" body)).

(** ** Validated documents *)

(** The block identifiers of a tree that are strings, in the order of the walk,
    and the links of its text nodes. *)
Definition own_id (d : dict) : list string :=
  match get_dict "attrs" d with
  | Ok a => match dict_get "blockId" a with JStr s => if truthy s then [s] else [] | _ => [] end
  | Raise _ => []
  end.

Definition mark_links (m : json) : list json :=
  match m with
  | JObj md =>
      if is_type "link" md then
        match get_dict "attrs" md with
        | Ok a => let h := dict_get "href" a in if py_bool h then [h] else []
        | Raise _ => []
        end
      else []
  | _ => []
  end.

Definition text_links (d : dict) : list json := List.flat_map mark_links (list_items (dict_get "marks" d)).

Definition gather {B} (own : dict -> list B) (text : dict -> list B) : json -> list B :=
  walk (fun d cs =>
    own d ++ match cs with
             | Ok cs => List.flat_map (fun c => match c.1 with
                                                | JObj cd => if is_type "text" cd then text cd else c.2
                                                | _ => [] end) cs
             | Raise _ => []
             end) [].

Definition block_ids : json -> list string := gather own_id (fun _ => []).
Definition links : json -> list json := gather (fun _ => []) text_links.

Lemma fold_res_cons {A B} (step : B -> A -> res A) acc x l :
  fold_res step acc (x :: l) = (acc' ← step x acc; fold_res step acc' l).
Proof. done. Qed.

(** A loop that runs sees every item of the list. *)
Lemma loop_items_Ok {A} v (f : json -> A) k :
  loop_items v (map f (list_items v)) = Ok k -> k = map f (list_items v).
Proof.
  unfold loop_items. destruct (py_bool v) eqn:E; cbn [negb]; destruct v; intros Hk; try discriminate;
    try (by injection Hk as <-). destruct l; [by injection Hk as <-|discriminate].
Qed.

Lemma loop_items_any {A B} v (f : json -> A) (g : json -> B) k :
  loop_items v (map f (list_items v)) = Ok k -> loop_items v (map g (list_items v)) = Ok (map g (list_items v)).
Proof.
  unfold loop_items. destruct (py_bool v) eqn:E; cbn [negb]; destruct v; try done. by destruct l.
Qed.

Lemma gather_obj {B} (own text : dict -> list B) d {A} f leaf (cs : list (json * A)) :
  children f leaf d = Ok cs ->
  gather own text (JObj d) = own d ++ List.flat_map (fun c =>
    match c with JObj cd => if is_type "text" cd then text cd else gather own text c | _ => [] end)
    (list_items (dict_get "content" d)).
Proof.
  intros Hcs. unfold gather at 1. rewrite walk_obj. unfold children in *.
  erewrite loop_items_any by exact Hcs. clear Hcs. f_equal.
  induction (list_items _) as [|c l IH]; [done|]. cbn [map List.flat_map fst snd]. exact (f_equal2 app eq_refl IH).
Qed.

Lemma children_Ok {A} (f : dict -> res (list (json * A)) -> A) leaf d cs :
  children f leaf d = Ok cs -> cs = map (fun c => (c, walk f leaf c)) (list_items (dict_get "content" d)).
Proof. apply loop_items_Ok. Qed.

(** Induction on documents: a property of all nodes that follows for a node from
    its children. *)
Lemma doc_ind (P : json -> Prop) :
  (forall v, (forall d, v <> JObj d) -> P v) ->
  (forall d, (forall c, c ∈ list_items (dict_get "content" d) -> P c) -> P (JObj d)) ->
  forall v, P v.
Proof.
  intros Hleaf Hnode.
  cut (forall v, P v /\ forall c, c ∈ list_items v -> P c); [intros H v; apply H|].
  apply json_nested_ind.
  1-5: intros; (split; [apply Hleaf; congruence|intros c Hc; by apply not_elem_of_nil in Hc]).
  - intros l Hl. split; [apply Hleaf; congruence|]. intros c Hc. rewrite Forall_forall in Hl. by apply Hl.
  - intros d Hd. split; [|intros c Hc; by apply not_elem_of_nil in Hc].
    apply Hnode. intros c Hc. unfold dict_get, dict_lookup in Hc.
    destruct (first _ d) as [[k v]|] eqn:E; [|by apply not_elem_of_nil in Hc].
    apply first_Some in E as [Hin _]. rewrite Forall_forall in Hd. destruct (Hd _ Hin) as [_ H]. by apply H.
Qed.

Section sound.
Variables (bracketed_host : string -> bool).

Definition https (h : json) : Prop := is_https_url bracketed_host (py_str h) = Ok true.

(** What a successful walk from [seen] to [seen'] has checked of identifiers
    [ids] and links [hs]. *)
Record checked (ids : list string) (hs : list json) (seen seen' : list string) : Prop := {
  ck_fresh : forall s, s ∈ ids -> s ∉ seen;
  ck_NoDup : NoDup ids;
  ck_seen : forall s, s ∈ seen \/ s ∈ ids -> s ∈ seen';
  ck_https : Forall https hs;
}.

Lemma checked_nil seen : checked [] [] seen seen.
Proof. split; [set_solver|constructor|set_solver|constructor]. Qed.

Lemma checked_app ids hs ids' hs' s1 s2 s3 :
  checked ids hs s1 s2 -> checked ids' hs' s2 s3 -> checked (ids ++ ids') (hs ++ hs') s1 s3.
Proof.
  intros [F1 N1 S1 H1] [F2 N2 S2 H2]. split.
  - intros s [Hs|Hs]%elem_of_app; [by apply F1|]. intros Hin. apply (F2 s Hs), S1. by left.
  - apply NoDup_app. split; [done|]. split; [|done]. intros s Hs Hs'. apply (F2 s Hs'), S1. by right.
  - intros s. rewrite elem_of_app. intros [Hs|[Hs|Hs]]; apply S2; [left; apply S1; by left|left; apply S1; by right|by right].
  - by apply Forall_app.
Qed.

Lemma sanitize_https h u : sanitize_url bracketed_host h = Ok u -> is_https_url bracketed_host h = Ok true.
Proof.
  unfold sanitize_url. intros (ok & Hok & (v & Hr & _)%bind_Ok)%bind_Ok. apply raise_if_Ok, negb_false_iff in Hr. by subst.
Qed.

Lemma check_marks_https d u : check_marks bracketed_host d = Ok u -> Forall https (text_links d).
Proof.
  unfold check_marks, text_links. intros (ms & Hms & Hf)%bind_Ok.
  rewrite <- (map_id (list_items _)) in Hms. apply loop_items_Ok in Hms as ->. rewrite map_id in Hf.
  revert Hf. generalize tt. induction (list_items _) as [|m l IH]; intros x Hf; cbn [List.flat_map]; [constructor|].
  cbn [fold_res] in Hf. apply bind_Ok in Hf as (y & Hm & Hf). apply Forall_app. split; [|by eapply IH].
  unfold check_mark in Hm. unfold mark_links. destruct m; try constructor.
  destruct (is_type "link" kvs); [|constructor]. apply bind_Ok in Hm as (attrs & Ha & Hm). rewrite Ha.
  destruct (py_bool (dict_get "href" attrs)); [|constructor].
  apply bind_Ok in Hm as (u' & Hu & _). constructor; [|constructor]. by eapply sanitize_https.
Qed.

Lemma note_checked d seen seen' : note_block_id d seen = Ok seen' -> checked (own_id d) [] seen seen'.
Proof.
  unfold note_block_id, own_id. intros (attrs & -> & Hm)%bind_Ok.
  destruct (py_bool (dict_get "blockId" attrs)) eqn:Eb.
  - apply bind_Ok in Hm as (u & _ & Hm). apply bind_Ok in Hm as (u' & Hd & Hm). injection Hm as <-.
    apply raise_if_Ok in Hd. destruct (dict_get "blockId" attrs) as [| | | |s| |];
      try (split; [set_solver|constructor|set_solver|constructor]).
    cbn [py_bool] in Eb. rewrite Eb. apply bool_decide_eq_false in Hd. cbn [py_str].
    split; [intros s' ->%list_elem_of_singleton; done|apply NoDup_singleton|set_solver|constructor].
  - injection Hm as <-. destruct (dict_get "blockId" attrs); try apply checked_nil.
    cbn [py_bool] in Eb. rewrite Eb. apply checked_nil.
Qed.

Lemma collect_checked v : forall seen seen',
  _collect_block_ids bracketed_host v seen = Ok seen' -> checked (block_ids v) (links v) seen seen'.
Proof.
  induction v as [v Hv|d IH] using doc_ind; intros seen seen' Hm.
  - destruct v; try (injection Hm as <-; apply checked_nil). by destruct (Hv kvs).
  - unfold _collect_block_ids in Hm. rewrite walk_obj in Hm. apply bind_Ok in Hm as (s1 & Hn & Hm).
    apply bind_Ok in Hm as (cs & Hcs & Hm). unfold block_ids, links. rewrite !(gather_obj _ _ _ _ _ _ Hcs).
    apply children_Ok in Hcs as ->. eapply checked_app; [by apply note_checked|]. clear Hn. revert s1 Hm IH.
    fold (_collect_block_ids bracketed_host). induction (list_items _) as [|c l IHl]; intros s1 Hm IH.
    { injection Hm as <-. apply checked_nil. }
    cbn [map fold_res] in Hm. apply bind_Ok in Hm as (s2 & Hc & Hm). cbn [List.flat_map].
    eapply checked_app; [|eapply IHl; [exact Hm|intros; apply IH; [by right|done]]].
    unfold collect_child in Hc. cbn [fst snd] in Hc.
    destruct c; try (injection Hc as <-; apply checked_nil). destruct (is_type "text" kvs).
    + apply bind_Ok in Hc as (u & Hk & Hc). injection Hc as <-. apply check_marks_https in Hk.
      split; [set_solver|constructor|set_solver|done].
    + apply IH; [by left|done].
Qed.
End sound.

Section validated.
Variables (bracketed_host : string -> bool) (model_validate : dict -> res dict).

(** A payload that validates has a root whose string block identifiers are
    pairwise different, over the whole tree, and all of whose text nodes link
    to HTTPS locations only; the document returned is the model's. *)
Theorem validate_document_sound payload doc :
  validate_document_payload bracketed_host model_validate payload = Ok doc ->
  model_validate payload = Ok doc /\
  exists root, get_dict "root" payload = Ok root /\
    let blocks := list_items (dict_get "content" root) in
    NoDup (List.flat_map block_ids blocks) /\ Forall (https bracketed_host) (List.flat_map links blocks).
Proof.
  unfold validate_document_payload. intros (d & Hd & Hm)%bind_Ok.
  destruct (model_validate payload) as [d'|]; [|discriminate]. injection Hd as ->.
  apply bind_Ok in Hm as (root & Hroot & Hm). apply bind_Ok in Hm as (blocks & Hb & Hm).
  apply bind_Ok in Hm as (seen & Hf & Hm). injection Hm as ->. split; [done|]. exists root. split; [done|]. cbv zeta.
  rewrite <- (map_id (list_items _)) in Hb. apply loop_items_Ok in Hb as ->. rewrite map_id in Hf.
  cut (checked bracketed_host (List.flat_map block_ids (list_items (dict_get "content" root)))
    (List.flat_map links (list_items (dict_get "content" root))) [] seen); [by intros []|].
  revert Hf. generalize (@nil string). induction (list_items _) as [|b l IH]; intros s Hf.
  - injection Hf as <-. apply checked_nil.
  - cbn [fold_res] in Hf. apply bind_Ok in Hf as (s1 & Hb & Hf). cbn [List.flat_map].
    eapply checked_app; [|by apply IH]. apply collect_checked. by destruct b.
Qed.
End validated.

(** ** Lines *)

Definition first_char (p : ascii -> bool) (s : string) : bool := match s with String c _ => p c | "" => false end.

(** A stripped line that is not empty and has no line break. *)
Definition is_line (s : string) : Prop :=
  first_char (fun c => negb (is_space c)) s = true /\ rstrip_by is_space s = s /\
  str_all (fun c => negb (is_line_break c)) s = true.

Lemma rstrip_app p a b : rstrip_by p b <> "" -> rstrip_by p (a +:+ b) = a +:+ rstrip_by p b.
Proof.
  intros Hb. induction a as [|c a IH]; [done|]. cbn [String.append rstrip_by]. rewrite IH.
  destruct (a +:+ rstrip_by p b) eqn:E; [|done]. destruct a; [|done]. by destruct (rstrip_by p b).
Qed.

Lemma rstrip_tail p c s : s <> "" -> rstrip_by p (String c s) = String c s -> rstrip_by p s = s.
Proof. intros Hs. cbn [rstrip_by]. destruct (rstrip_by p s) as [|d r] eqn:E; [|by intros [= <-]]. by destruct (p c); intros [= <-]. Qed.

Lemma rstrip_suffix p a s : s <> "" -> rstrip_by p (a +:+ s) = a +:+ s -> rstrip_by p s = s.
Proof.
  intros Hs. induction a as [|c a IH]; [done|]. intros H. apply IH. cbn [String.append] in H.
  apply rstrip_tail in H; [done|]. destruct a; [exact Hs|done].
Qed.

Lemma rstrip_idem p s : rstrip_by p (rstrip_by p s) = rstrip_by p s.
Proof.
  induction s as [|c s IH]; [done|]. cbn [rstrip_by]. destruct (rstrip_by p s) as [|d r] eqn:E.
  - destruct (p c) eqn:Ec; cbn [rstrip_by]; [done|by rewrite Ec].
  - cbn [rstrip_by] in IH |- *. by rewrite IH.
Qed.

Lemma rstrip_first p q s : first_char q s = true -> (forall c, q c = true -> p c = false) ->
  first_char q (rstrip_by p s) = true.
Proof.
  destruct s as [|c s]; [done|]. cbn [first_char rstrip_by]. intros Hq Hp. rewrite (Hp c Hq). by destruct (rstrip_by p s).
Qed.

Lemma lstrip_first p s : lstrip_by p s = "" \/ first_char (fun c => negb (p c)) (lstrip_by p s) = true.
Proof. induction s as [|c s IH]; [by left|]. cbn [lstrip_by]. destruct (p c) eqn:E; [exact IH|right; cbn; by rewrite E]. Qed.

Lemma lstrip_id p s : first_char (fun c => negb (p c)) s = true -> lstrip_by p s = s.
Proof. destruct s as [|c s]; [done|]. cbn. by destruct (p c). Qed.

Lemma lstrip_by_suffix p s : exists a, s = a +:+ lstrip_by p s.
Proof.
  induction s as [|c s (a & IH)]; [by exists ""|]. cbn [lstrip_by]. destruct (p c); [|by exists ""].
  exists (String c a). cbn. by rewrite <- IH.
Qed.

Lemma str_all_app p a b : str_all p (a +:+ b) = str_all p a && str_all p b.
Proof. induction a as [|c a IH]; [done|]. cbn. by rewrite IH, andb_assoc. Qed.

Lemma str_all_lstrip p q s : str_all p s = true -> str_all p (lstrip_by q s) = true.
Proof. destruct (lstrip_by_suffix q s) as [a Ha]. rewrite Ha at 1. rewrite str_all_app. by intros [_ ?]%andb_prop. Qed.

Lemma str_all_rstrip p q s : str_all p s = true -> str_all p (rstrip_by q s) = true.
Proof.
  induction s as [|c s IH]; [done|]. cbn [str_all rstrip_by]. intros [Hc Hs]%andb_prop. specialize (IH Hs).
  destruct (rstrip_by q s); [destruct (q c)|]; cbn in *; rewrite ?Hc; try done; exact IH.
Qed.

(** Stripping a line makes it empty or a line. *)
Lemma strip_line s : str_all (fun c => negb (is_line_break c)) s = true -> strip s = "" \/ is_line (strip s).
Proof.
  intros Hs. unfold strip. destruct (lstrip_first is_space s) as [->|Hf]; [by left|right]. split_and!.
  - apply rstrip_first; [exact Hf|]. intros c. by destruct (is_space c).
  - apply rstrip_idem.
  - by apply str_all_rstrip, str_all_lstrip.
Qed.

Lemma line_strip s : is_line s -> strip s = s.
Proof. intros (Hf & Hr & _). unfold strip. by rewrite lstrip_id. Qed.

Lemma line_truthy s : is_line s -> truthy s = true.
Proof. intros (Hf & _). by destruct s. Qed.

Lemma srev_onto_append s acc acc' : srev_onto (srev_onto s acc) acc' = srev_onto acc (s +:+ acc').
Proof. revert acc. induction s as [|c s IH]; intros acc; [done|]. cbn. rewrite IH. done. Qed.

Lemma srev_srev_onto s : srev (srev_onto s "") = s.
Proof. unfold srev. rewrite srev_onto_append. cbn. apply append_nil_r. Qed.

Lemma str_all_srev p s acc : str_all p (srev_onto s acc) = str_all p s && str_all p acc.
Proof.
  revert acc. induction s as [|c s IH]; intros acc; [done|]. cbn. rewrite IH. cbn.
  destruct (p c), (str_all p s), (str_all p acc); done.
Qed.

Lemma splitlines_no_break s cur cr l :
  str_all (fun c => negb (is_line_break c)) cur = true -> l ∈ splitlines_from cur cr s ->
  str_all (fun c => negb (is_line_break c)) l = true.
Proof.
  revert cur cr. induction s as [|c s IH]; intros cur cr Hcur; cbn [splitlines_from].
  - destruct (truthy cur); [|by intros ?%not_elem_of_nil]. intros ->%list_elem_of_singleton.
    unfold srev. by rewrite str_all_srev, Hcur.
  - destruct (cr && _); [by apply IH|]. destruct (is_line_break c) eqn:E.
    + intros [->|Hl]%elem_of_cons; [unfold srev; by rewrite str_all_srev, Hcur|eapply IH; [|exact Hl]; done].
    + apply IH. cbn. by rewrite E, Hcur.
Qed.

Lemma splitlines_line l cur rest :
  str_all (fun c => negb (is_line_break c)) l = true ->
  splitlines_from cur false (l +:+ rest) = splitlines_from (srev_onto l cur) false rest.
Proof.
  revert cur. induction l as [|c l IH]; intros cur Hl; [done|]. cbn in Hl. apply andb_prop in Hl as [Hc Hl].
  cbn [String.append splitlines_from andb srev_onto]. apply negb_true_iff in Hc. rewrite Hc. by apply IH.
Qed.

Lemma splitlines_join ls : Forall is_line ls -> splitlines (join newline ls) = ls.
Proof.
  unfold splitlines. induction 1 as [|l ls Hl Hls IH]; [done|]. pose proof Hl as (_ & _ & Hb). destruct ls as [|l2 ls].
  - cbn [join]. rewrite <- (append_nil_r l) at 1. rewrite splitlines_line by done. cbn [splitlines_from].
    replace (truthy (srev_onto l "")) with true; [by rewrite srev_srev_onto|]. symmetry. apply truthy_true. intros E.
    assert (l = "") as -> by (rewrite <- (srev_srev_onto l), E; done). by apply line_truthy in Hl.
  - change (join newline (l :: l2 :: ls)) with (l +:+ newline +:+ join newline (l2 :: ls)).
    rewrite splitlines_line by done. unfold newline at 1. cbn [String.append splitlines_from].
    replace (is_line_break (ascii_of_N 10)) with true by reflexivity. cbn [andb]. rewrite srev_srev_onto.
    f_equal. exact IH.
Qed.

Lemma join_not_empty l ls : is_line l -> join newline (l :: ls) <> "".
Proof. intros (Hf & _). destruct l; [done|]. by destruct ls. Qed.

Lemma rstrip_join ls : Forall is_line ls -> rstrip_by is_space (join newline ls) = join newline ls.
Proof.
  induction 1 as [|x k Hx Hk IH]; [done|]. destruct k as [|y k]; [apply Hx|].
  change (join newline (x :: y :: k)) with (x +:+ newline +:+ join newline (y :: k)).
  assert (Hn : rstrip_by is_space (join newline (y :: k)) <> "").
  { rewrite IH. inversion Hk; subst. by apply join_not_empty. }
  assert (Hn' : rstrip_by is_space (newline +:+ join newline (y :: k)) = newline +:+ join newline (y :: k))
    by (rewrite rstrip_app by done; by rewrite IH).
  rewrite rstrip_app by by rewrite Hn'. by rewrite Hn'.
Qed.

Lemma strip_join ls : Forall is_line ls -> strip (join newline ls) = join newline ls.
Proof.
  intros Hls. unfold strip. destruct ls as [|l ls]; [done|]. rewrite lstrip_id; [by apply rstrip_join|].
  inversion Hls as [|? ? (Hf & _)]; subst. destruct l; [done|]. by destruct ls.
Qed.

(** ** The round trip *)

(** The line a block prints. *)
Definition shape_line (s : option nat * string) : string :=
  match s with (Some n, t) => hashes n +:+ " " +:+ t | (None, t) => t end.

Lemma leading_hashes_spec s n r : leading_hashes s = (n, r) -> s = hashes n +:+ r /\ first_char (fun c => Ascii.eqb c "#") r = false.
Proof.
  revert n r. induction s as [|c s IH]; intros n r; cbn [leading_hashes]; [by intros [= <- <-]|].
  destruct (Ascii.eqb_spec c "#") as [->|Hc].
  - destruct (leading_hashes s) as [m q]. intros [= <- <-]. destruct (IH _ _ eq_refl) as [-> H]. done.
  - intros [= <- <-]. split; [done|]. cbn [first_char]. by apply Ascii.eqb_neq.
Qed.

Lemma leading_hashes_hashes n r : first_char (fun c => Ascii.eqb c "#") r = false -> leading_hashes (hashes n +:+ r) = (n, r).
Proof.
  intros Hr. induction n as [|n IH]; cbn [hashes String.append].
  - destruct r as [|c r]; [done|]. cbn [first_char leading_hashes] in *. by rewrite Hr.
  - cbn [leading_hashes]. rewrite IH. done.
Qed.

Lemma lstrip_all p s : lstrip_by p s = "" -> rstrip_by p s = "".
Proof.
  induction s as [|c s IH]; [done|]. cbn [lstrip_by rstrip_by]. destruct (p c); [|done].
  intros Hs. by rewrite IH.
Qed.

(** A heading's text is a line, its level between one and six. *)
Lemma heading_line l n t : is_line l -> heading_match l = Some (n, t) -> is_line t /\ (1 <= n <= 6)%nat.
Proof.
  intros (Hf & Hr & Hb). unfold heading_match. destruct (leading_hashes l) as [[|m] r] eqn:E; [by destruct r|].
  destruct r as [|c r]; [done|]. destruct (Nat.leb_spec (S m) 6), (is_space c) eqn:Ec; cbn [andb]; try done.
  intros [= <- <-]. apply leading_hashes_spec in E as [-> _]. split; [|lia].
  assert (Hsuf : rstrip_by is_space (String c r) = String c r) by (by eapply rstrip_suffix).
  rewrite str_all_app in Hb. apply andb_prop in Hb as [_ Hb]. cbn [lstrip_by]. rewrite Ec.
  destruct (lstrip_first is_space r) as [E|Hfr].
  - exfalso. assert (Hall : rstrip_by is_space (String c r) = "").
    { cbn [rstrip_by]. rewrite (lstrip_all is_space r E). by rewrite Ec. }
    by rewrite Hall in Hsuf.
  - split_and!; [exact Hfr| |].
    + destruct (lstrip_by_suffix is_space r) as [a Ha]. eapply (rstrip_suffix is_space (String c a)).
      * by destruct (lstrip_by is_space r).
      * cbn [String.append]. rewrite <- Ha. exact Hsuf.
    + cbn in Hb. apply andb_prop in Hb as [_ Hb]. by apply str_all_lstrip.
Qed.

Lemma hashes_ok n s :
  first_char (fun c => negb (is_space c)) (hashes (S n) +:+ s) = true /\
  str_all (fun c => negb (is_line_break c)) (hashes n) = true.
Proof. split; [done|]. by induction n. Qed.

Lemma shape_shape_line l : is_line l -> is_line (shape_line (shape l)) /\ shape (shape_line (shape l)) = shape l.
Proof.
  intros Hl. unfold shape at 1 3 4. destruct (heading_match l) as [[n t]|] eqn:E; cbn [shape_line].
  - destruct (heading_line _ _ _ Hl E) as [(Hf & Hr & Hb) Hn]. destruct n as [|n]; [lia|]. split.
    + split_and!; [apply hashes_ok| |].
      * assert (Hsp : rstrip_by is_space (" " +:+ t) = " " +:+ t) by (rewrite rstrip_app; rewrite Hr; [done|by destruct t]).
        rewrite rstrip_app; by rewrite Hsp.
      * rewrite !str_all_app, Hb. by rewrite (proj2 (hashes_ok _ "")).
    + unfold shape, heading_match. rewrite leading_hashes_hashes by done. cbn [String.append].
      replace (Nat.leb (S n) 6) with true by (symmetry; apply Nat.leb_le; lia).
      change (is_space " ") with true. cbn [andb lstrip_by]. change (is_space " ") with true. cbn [lstrip_by].
      by rewrite lstrip_id.
  - split; [done|]. unfold shape. by rewrite E.
Qed.

Lemma text_children t r : is_line t -> fold_res plain_child "" [(text_node t, r)] = Ok t.
Proof.
  intros Ht. cbn [fold_res]. unfold plain_child, text_node. cbn [fst].
  change (is_type "text" [("type", JStr "text"); ("text", JStr t)]) with true. cbv iota.
  unfold _inline_plain. change (dict_get "text" [("type", JStr "text"); ("text", JStr t)]) with (JStr t).
  cbn [py_bool]. by rewrite (line_truthy t Ht).
Qed.

Lemma rstrip_app_nil p a b : rstrip_by p b = "" -> rstrip_by p (a +:+ b) = rstrip_by p a.
Proof. intros Hb. induction a as [|c a IH]; [done|]. cbn [String.append rstrip_by]. by rewrite IH. Qed.

Lemma strip_newline t : is_line t -> strip (t +:+ newline) = t.
Proof.
  intros (Hf & Hr & _). unfold strip. rewrite lstrip_id by by destruct t.
  by rewrite rstrip_app_nil.
Qed.

Lemma one_child {A} (f : dict -> res (list (json * A)) -> A) leaf ty attrs t :
  children f leaf [("type", ty); ("attrs", attrs); ("content", JList [text_node t])] =
  Ok [(text_node t, walk f leaf (text_node t))].
Proof. reflexivity. Qed.

Lemma block_plain_shape id l : is_line l -> exists t,
  _block_plain (line_block id l) = Ok t /\ strip t = shape_line (shape l).
Proof.
  intros Hl. pose proof (proj1 (shape_shape_line l Hl)) as Hs. unfold line_block, shape in *.
  destruct (heading_match l) as [[n t]|] eqn:E; cbn [shape_line shape_block] in *.
  - destruct (heading_line _ _ _ Hl E) as [Ht Hn]. eexists. split; [|by apply strip_newline].
    unfold _block_plain. rewrite walk_obj, one_child. cbn [mbind res_bind]. rewrite text_children by done.
    cbn [mbind res_bind]. rewrite (line_strip t Ht), (line_truthy t Ht).
    match goal with |- context [heading_level ?d] => change (heading_level d) with
      (int_of (if py_bool (JInt (Z.of_nat n)) then JInt (Z.of_nat n) else JInt 1)) end.
    replace (py_bool (JInt (Z.of_nat n))) with true by (destruct n; [lia|done]).
    cbn [int_of mbind res_bind]. rewrite Nat2Z.id.
    transitivity (Ok (hashes n +:+ " " +:+ t +:+ newline)); [reflexivity|by rewrite !append_assoc].
  - eexists. split; [|by apply strip_newline].
    unfold _block_plain. rewrite walk_obj, one_child. cbn [mbind res_bind]. rewrite text_children by done.
    cbn [mbind res_bind]. rewrite (line_strip l Hl), (line_truthy l Hl). reflexivity.
Qed.

Lemma get_dict_obj k doc d : dict_get k doc = JObj d -> get_dict k doc = Ok d.
Proof. intros Hd. unfold get_dict. rewrite Hd. by destruct d. Qed.

(** The plain text of a document of line blocks. *)
Lemma extract_blocks ids ls doc root :
  length ids = length ls -> Forall is_line ls ->
  dict_get "root" doc = JObj root ->
  dict_get "content" root = JList (zip_with line_block ids ls) ->
  extract_plain_text doc = Ok (join newline (map (fun l => shape_line (shape l)) ls)).
Proof.
  intros Hlen Hls Hr Hc. unfold extract_plain_text. rewrite (get_dict_obj _ _ _ Hr). cbn [mbind res_bind].
  rewrite Hc. cbn [list_items].
  assert (Hloop : loop_items (JList (zip_with line_block ids ls)) (zip_with line_block ids ls) = Ok (zip_with line_block ids ls))
    by (unfold loop_items; cbn [py_bool]; by destruct (zip_with line_block ids ls)).
  rewrite Hloop. cbn [mbind res_bind]. clear Hloop Hc.
  cut (forall acc, fold_res (fun b acc =>
    match b with
    | JObj _ => t ← _block_plain b; let chunk := strip t in mret (if truthy chunk then acc ++ [chunk] else acc)
    | _ => mret acc
    end) acc (zip_with line_block ids ls) = Ok (acc ++ map (fun l => shape_line (shape l)) ls)).
  { intros Hf. rewrite Hf. cbn [mbind res_bind app]. f_equal. apply strip_join. apply Forall_map.
    eapply Forall_impl; [exact Hls|]. intros l Hl. by apply shape_shape_line. }
  revert ids Hlen. induction Hls as [|l ls Hl Hls IH]; intros [|i ids] Hlen acc; try done.
  - cbn. by rewrite app_nil_r.
  - cbn [zip_with fold_res map]. destruct (block_plain_shape i l Hl) as (t & Ht & Hs).
    assert (Hb : exists d, line_block i l = JObj d) by (unfold line_block; destruct (shape l) as [[n|] x]; by eexists).
    destruct Hb as [d Hd]. rewrite Hd in Ht |- *. rewrite Ht. cbn [mbind res_bind].
    rewrite Hs, (line_truthy _ (proj1 (shape_shape_line l Hl))). cbn [mret res_ret mbind res_bind].
    rewrite IH by (by injection Hlen). by rewrite <- app_assoc.
Qed.

Lemma markdown_lines_ok md : Forall is_line (markdown_lines md).
Proof.
  apply Forall_forall. intros l [Hl Ht]%elem_of_keep. apply list_elem_of_fmap in Hl as (s & -> & Hs).
  apply splitlines_no_break in Hs; [|done]. destruct (strip_line s Hs) as [E|]; [|done]. by rewrite E in Ht.
Qed.

Lemma markdown_lines_join ls : Forall is_line ls -> markdown_lines (join newline ls) = ls.
Proof.
  intros Hls. unfold markdown_lines. rewrite splitlines_join by done.
  induction Hls as [|l ls Hl _ IH]; [done|]. unfold keep in *. cbn [map List.filter].
  rewrite (line_strip l Hl), (line_truthy l Hl). by rewrite IH.
Qed.

Lemma mapM_blocks `{Env} ls w bs w' :
  mapM (fun line => id ← new_uuid; mret (line_block id line)) ls w = Ok (bs, w') ->
  exists ids, length ids = length ls /\ bs = zip_with line_block ids ls.
Proof.
  revert w bs. induction ls as [|l ls IH]; intros w bs Hm; cbn [mapM] in Hm; [cleanM; by exists []|].
  stepM Hm. draw H0. cleanM. stepM Hm. cleanM. apply IH in H0 as (ids & Hl & ->).
  exists (fresh_uuid (tick w) :: ids). cbn. by rewrite Hl.
Qed.

Lemma mapM_total `{Env} ls w : exists bs w',
  mapM (fun line => id ← new_uuid; mret (line_block id line)) ls w = Ok (bs, w').
Proof.
  revert w. induction ls as [|l ls IH]; intros w; [by eexists _, _|]. cbn [mapM].
  destruct (IH {| db := db w; tick := S (tick w) |}) as (bs & w' & E).
  exists (line_block (fresh_uuid (tick w)) l :: bs), w'.
  rewrite (M_bind_step _ _ w (line_block (fresh_uuid (tick w)) l) _ eq_refl).
  by rewrite (M_bind_step _ _ _ _ _ E).
Qed.

(** The root of an imported document: its blocks have the shapes of the lines. *)
Definition imported (doc root : dict) (shapes : list (option nat * string)) : Prop :=
  dict_get "root" doc = JObj root /\
  exists ids, length ids = length shapes /\ dict_get "content" root = JList (zip_with shape_block ids shapes).

Lemma zip_line_block ids ls : zip_with line_block ids ls = zip_with shape_block ids (map shape ls).
Proof. revert ids. induction ls as [|l ls IH]; intros [|i ids]; try done. cbn. by rewrite IH. Qed.

Lemma import_Ok `{Env} md id w : exists doc root w', document_from_markdown md id w = Ok (doc, w') /\
  imported doc root (map shape (markdown_lines md)) /\
  exists ids, length ids = length (markdown_lines md) /\
    dict_get "content" root = JList (zip_with line_block ids (markdown_lines md)).
Proof.
  unfold document_from_markdown.
  assert (Hid : exists d w0, (match id with Some d => mret d | None => new_uuid end) w = Ok (d, w0))
    by (destruct id; by eexists _, _).
  destruct Hid as (d & w0 & Hd). rewrite (M_bind_step _ _ _ _ _ Hd).
  destruct (mapM_total (markdown_lines md) w0) as (bs & w1 & Hm). rewrite (M_bind_step _ _ _ _ _ Hm).
  apply mapM_blocks in Hm as (ids & Hl & ->).
  eexists _, [("type", JStr "doc"); ("content", JList (zip_with line_block ids (markdown_lines md)))], _.
  split; [reflexivity|].
  split; [|exists ids; by split]. split; [reflexivity|]. exists ids. rewrite length_map. split; [done|].
  by rewrite <- zip_line_block.
Qed.

(** Markdown survives the round trip: importing a text always gives a
    document, whose export is the text's stripped non-empty lines with their
    headings normalised, and importing that export gives blocks of the same
    kinds, levels and texts, for which exporting again changes nothing. *)
Theorem markdown_round_trip `{Env} md id w :
  let shapes := map shape (markdown_lines md) in
  let text := join newline (map shape_line shapes) in
  exists doc root w', document_from_markdown md id w = Ok (doc, w') /\ imported doc root shapes /\
    document_to_markdown doc = Ok text /\
    forall id2 w2, exists doc2 root2 w2', document_from_markdown text id2 w2 = Ok (doc2, w2') /\
      imported doc2 root2 shapes /\ document_to_markdown doc2 = Ok text.
Proof.
  intros shapes text. pose proof (markdown_lines_ok md) as Hls.
  assert (Hn : Forall is_line (map shape_line shapes)).
  { apply Forall_map, Forall_map. eapply Forall_impl; [exact Hls|]. intros l Hl. by apply shape_shape_line. }
  assert (Hsh : map shape (map shape_line shapes) = shapes).
  { unfold shapes. rewrite !map_map. apply map_ext_in. intros l Hl. apply list_elem_of_In in Hl.
    rewrite Forall_forall in Hls. by apply shape_shape_line, Hls. }
  destruct (import_Ok md id w) as (doc & root & w' & Hm & Hi & ids & Hl & Hc).
  exists doc, root, w'. split; [done|]. split; [done|]. split.
  { unfold document_to_markdown, text, shapes. rewrite map_map. eapply extract_blocks; [exact Hl|done|apply Hi|exact Hc]. }
  intros id2 w2. destruct (import_Ok text id2 w2) as (doc2 & root2 & w2' & Hm2 & Hi2 & ids2 & Hl2 & Hc2).
  exists doc2, root2, w2'. unfold text in Hi2, Hl2, Hc2. rewrite markdown_lines_join in Hi2, Hl2, Hc2 by done.
  split; [done|]. split; [by rewrite Hsh in Hi2|].
  unfold document_to_markdown. erewrite extract_blocks; [|exact Hl2|exact Hn|apply Hi2|exact Hc2].
  unfold text. do 2 f_equal. rewrite <- Hsh at 2. by rewrite !map_map.
Qed.

(** ** What an export is made of *)

(** No character of the text opens a tag or closes an attribute. *)
Definition is_text (s : string) : Prop :=
  str_all (fun c => negb (Ascii.eqb c "<" || Ascii.eqb c ">" || Ascii.eqb c dquote || Ascii.eqb c squote)) s = true.

Definition tag_names : list string := ["strong"; "em"; "code"; "p"; "pre"; "blockquote"; "ul"; "ol"; "li"; "html"; "body"].

(** HTML the exporter may write: its own elements, properly nested, around
    escaped text and with escaped attributes. *)
Inductive safe_html : string -> Prop :=
| safe_text s : is_text s -> safe_html s
| safe_append s t : safe_html s -> safe_html t -> safe_html (s +:+ t)
| safe_tag name s : name ∈ tag_names -> safe_html s -> safe_html (tag name s)
| safe_heading level s : safe_html s -> safe_html (tag ("h" +:+ str_of_Z level) s)
| safe_link href s : is_text href -> safe_html s -> safe_html ("<a" +:+ attr "href" href +:+ ">" +:+ s +:+ "</a>")
| safe_rule : safe_html "<hr/>"
| safe_image src alt : is_text src -> is_text alt -> safe_html ("<img" +:+ attr "src" src +:+ attr "alt" alt +:+ "/>")
| safe_other s : safe_html s -> safe_html ("<div data-unsupported>" +:+ s +:+ "</div>").

Lemma html_escape_text s : is_text (html_escape s).
Proof.
  unfold is_text, html_escape. induction s as [|c s IH]; [done|]. cbn [flat_str]. rewrite str_all_app, IH, andb_true_r.
  unfold escape_char.
  destruct (Ascii.eqb c "&") eqn:E1; [done|]. destruct (Ascii.eqb c "<") eqn:E2; [done|].
  destruct (Ascii.eqb c ">") eqn:E3; [done|]. destruct (Ascii.eqb c dquote) eqn:E4; [done|].
  destruct (Ascii.eqb c squote) eqn:E5; [done|]. cbn [str_all]. by rewrite E2, E3, E4, E5.
Qed.

(** What a fold that only adds to a text keeps. *)
Lemma fold_res_inv {A B} (P : A -> Prop) (step : B -> A -> res A) l acc r :
  (forall x acc r, x ∈ l -> P acc -> step x acc = Ok r -> P r) ->
  P acc -> fold_res step acc l = Ok r -> P r.
Proof.
  revert acc. induction l as [|x l IH]; intros acc Hs Ha Hf; [by injection Hf as <-|].
  cbn [fold_res] in Hf. apply bind_Ok in Hf as (acc' & Hx & Hf). eapply IH; [|eapply Hs; [by left|exact Ha|exact Hx]|exact Hf].
  intros y b c Hy. apply Hs. by right.
Qed.

Lemma wrap_mark_safe m s r : safe_html s -> wrap_mark m s = Ok r -> safe_html r.
Proof.
  intros Hs. unfold wrap_mark. destruct m as [| | | | | |md]; try by intros [= <-].
  destruct (is_type "bold" md); [intros [= <-]; apply safe_tag; [set_solver|done]|].
  destruct (is_type "italic" md); [intros [= <-]; apply safe_tag; [set_solver|done]|].
  destruct (is_type "code" md); [intros [= <-]; apply safe_tag; [set_solver|done]|].
  destruct (is_type "link" md); [|by intros [= <-]].
  intros (attrs & _ & [= <-])%bind_Ok. apply safe_link; [apply html_escape_text|done].
Qed.

Lemma render_inline_safe d r : render_inline d = Ok r -> safe_html r.
Proof.
  unfold render_inline. intros (ms & _ & Hf)%bind_Ok. eapply fold_res_inv; [|apply safe_text, html_escape_text|exact Hf].
  intros m acc r' _. apply wrap_mark_safe.
Qed.

Lemma render_block_safe v r : render_block v = Ok r -> safe_html r.
Proof.
  revert r. induction v as [v Hv|d IH] using doc_ind; intros r Hm.
  { destruct v; try (injection Hm as <-; apply safe_text, eq_refl). by destruct (Hv kvs). }
  unfold render_block in Hm. rewrite walk_obj in Hm. apply bind_Ok in Hm as (cs & Hcs & Hm).
  apply children_Ok in Hcs as ->. fold render_block in Hm.
  assert (Hchild : forall c acc r, c ∈ map (fun c => (c, render_block c)) (list_items (dict_get "content" d)) ->
    safe_html acc -> render_child c acc = Ok r -> safe_html r).
  { intros c acc r' (x & -> & Hx)%list_elem_of_fmap Ha. unfold render_child. cbn [fst snd].
    destruct x; try by intros [= <-]. intros (t & Ht & [= <-])%bind_Ok. apply safe_append; [done|].
    destruct (is_type "text" kvs); [by eapply render_inline_safe|by eapply IH]. }
  assert (Hitem : forall c acc r, c ∈ map (fun c => (c, render_block c)) (list_items (dict_get "content" d)) ->
    safe_html acc -> render_item c acc = Ok r -> safe_html r).
  { intros c acc r' (x & -> & Hx)%list_elem_of_fmap Ha. unfold render_item. cbn [fst snd].
    destruct x; try by intros [= <-]. intros (t & Ht & [= <-])%bind_Ok. apply safe_append; [done|by eapply IH]. }
  apply bind_Ok in Hm as (inner & Hi & Hm).
  assert (Hs : safe_html inner) by (eapply fold_res_inv; [exact Hchild| |exact Hi]; apply safe_text, eq_refl).
  destruct (is_type "heading" d); [apply bind_Ok in Hm as (l & _ & [= <-]); by apply safe_heading|].
  destruct (is_type "paragraph" d); [injection Hm as <-; apply safe_tag; [set_solver|done]|].
  destruct (is_type "codeBlock" d); [injection Hm as <-; do 2 (apply safe_tag; [set_solver|]); done|].
  destruct (is_type "blockquote" d); [injection Hm as <-; apply safe_tag; [set_solver|done]|].
  destruct (is_type "horizontalRule" d); [injection Hm as <-; apply safe_rule|].
  destruct (is_type "image" d); [apply bind_Ok in Hm as (a & _ & [= <-]); apply safe_image; apply html_escape_text|].
  apply bind_Ok in Hm as (u & _ & Hm). destruct (_ || _).
  - apply bind_Ok in Hm as (items & Hit & [= <-]).
    assert (safe_html items) by (eapply fold_res_inv; [exact Hitem| |exact Hit]; apply safe_text, eq_refl).
    apply safe_tag; [destruct (is_type "bulletList" d); set_solver|done].
  - destruct (is_type "listItem" d); injection Hm as <-; [apply safe_tag; [set_solver|done]|by apply safe_other].
Qed.

(** C17: an export has no raw HTML of the document: whatever the document holds,
    validated or not, a rendering that returns is the exporter's own elements,
    properly nested, around escaped text and with escaped attribute values. *)
Theorem html_export_safe doc s :
  document_to_html doc = Ok s ->
  exists body, s = "<!DOCTYPE html>" +:+ tag "html" (tag "body" body) /\ safe_html body.
Proof.
  unfold document_to_html. intros (root & _ & (blocks & _ & (body & Hf & [= <-])%bind_Ok)%bind_Ok)%bind_Ok.
  exists body. split; [done|]. eapply fold_res_inv; [| |exact Hf]; [|apply safe_text, eq_refl].
  intros b acc r _ Ha. cbn beta. destruct b; try by intros [= <-].
  intros (t & Ht & [= <-])%bind_Ok. apply safe_append; [done|]. by eapply render_block_safe.
Qed.

(** ** Witnesses *)

Definition sample_text (t : string) (marks : list json) : json :=
  JObj [("type", JStr "text"); ("text", JStr t); ("marks", JList marks)].

Definition link_to (href : string) : json :=
  JObj [("type", JStr "link"); ("attrs", JObj [("href", JStr href)])].

Definition sample_block (ty id : string) (content : list json) : json :=
  JObj [("type", JStr ty); ("attrs", JObj [("blockId", JStr id)]); ("content", JList content)].

Definition sample_payload (blocks : list json) : dict :=
  [("schema", JStr "memdot-document"); ("root", JObj [("type", JStr "doc"); ("content", JList blocks)])].

Definition linked_payload : dict :=
  sample_payload [sample_block "paragraph" "a" [sample_text "see <b>" [link_to "https://example.org/x"]];
                  sample_block "bulletList" "b" [sample_block "listItem" "c" [sample_text "one" []]]].

Lemma validate_document_sound_witness :
  validate_document_payload (fun _ => false) (fun d => Ok d) linked_payload = Ok linked_payload /\
  exists root, get_dict "root" linked_payload = Ok root /\
    NoDup (List.flat_map block_ids (list_items (dict_get "content" root))).
Proof.
  assert (E : validate_document_payload (fun _ => false) (fun d => Ok d) linked_payload = Ok linked_payload)
    by (vm_compute; reflexivity).
  split; [exact E|].
  destruct (validate_document_sound (fun _ => false) (fun d => Ok d) linked_payload linked_payload E)
    as (_ & root & Hr & Hn & _).
  exists root. split; [exact Hr|exact Hn].
Defined.

Lemma html_export_safe_witness :
  exists s body, document_to_html linked_payload = Ok s /\
    s = "<!DOCTYPE html>" +:+ tag "html" (tag "body" body) /\ safe_html body.
Proof.
  destruct (returned (document_to_html linked_payload)) as [s E]; [vm_compute; reflexivity|].
  destruct (html_export_safe linked_payload s E) as (body & Hs & Hb).
  exists s, body. split; [exact E|]. split; [exact Hs|exact Hb].
Defined.

(** The content of a text node is not checked, and a list renders it: a link
    that is not HTTPS gets through validation into the export. *)
Example link_policy_bypassed :
  let hidden := JObj [("type", JStr "text"); ("text", JStr "x");
                      ("content", JList [sample_text "click" [link_to "javascript:alert(1)"]])] in
  let payload := sample_payload [sample_block "bulletList" "a" [hidden]] in
  is_ok (validate_document_payload (fun _ => false) (fun d => Ok d) payload) = true /\
  match document_to_html payload with Ok s => contains "javascript:alert(1)" s | Raise _ => false end = true.
Proof. split; vm_compute; reflexivity. Qed.
