(* ===== verification/Documents.v ===== *)
(** * Authored documents (services/core/src/memdot_core/documents/service.py)

    Documents, their revisions and the pointer to the current one, with the SQL
    function memdot_set_current_document_revision.  As in [Memory], the pointer
    is moved by a textual statement before the session flushes the rows added
    above it, and the functions below write in the order the database sees. *)

From Stdlib Require Import ZArith Lia.
From stdpp Require Import list strings.
From S2P Require Import Prelude PyStr PyTime Digest Uuid Json Enums Ledger Store Outbox RequestContext Deletion Pointers Document.
Open Scope Z_scope.

Record DocumentCreateResult := { dc_document_id : uuid; dc_revision_id : uuid; dc_space_id : uuid }.

Record RevisionSaveResult := { rs_document_id : uuid; rs_revision_id : uuid; rs_content_sha256 : string }.

Definition StaleBaseRevisionError (current_revision_id : option uuid) : exn :=
  Refused "stale_base_revision" (match current_revision_id with Some u => str_uuid u | None => "None" end).

Definition _empty_document (document_id : uuid) : dict :=
  [("schema", JStr "memdot-document"); ("schemaVersion", JInt 1); ("documentId", JStr (str_uuid document_id));
   ("root", JObj [("type", JStr "doc"); ("content", JList [])])].

Definition the_document (account document : uuid) (r : AuthoredDocument.t) : bool :=
  same (AuthoredDocument.account_id r) account && same (AuthoredDocument.id r) document.

Definition the_document_pointer (account document : uuid) (r : CurrentDocumentRevision.t) : bool :=
  same (CurrentDocumentRevision.account_id r) account && same (CurrentDocumentRevision.document_id r) document.

Definition the_document_revision (account revision : uuid) (r : DocumentRevision.t) : bool :=
  same (DocumentRevision.account_id r) account && same (DocumentRevision.id r) revision.

Definition new_document_revision (id account space document : uuid) (base : option uuid) (digest : string)
    (content : dict) (plain : string) (author : uuid) (proposal : option uuid) (t : Z) : DocumentRevision.t :=
  {| DocumentRevision.id := id; DocumentRevision.account_id := account; DocumentRevision.space_id := space;
     DocumentRevision.document_id := document; DocumentRevision.base_revision_id := base;
     DocumentRevision.content_sha256 := digest; DocumentRevision.schema_version := 1;
     DocumentRevision.content_json := Some content; DocumentRevision.plain_text := Some plain;
     DocumentRevision.author_actor_id := Some author; DocumentRevision.proposal_id := proposal;
     DocumentRevision.created_at := t |}.

Section service.
Context `{Env}.
Variables (bracketed_host : string -> bool) (model_validate : dict -> res dict).

(** memdot_set_current_document_revision *)
Definition set_current_document_revision (purpose : RequestPurpose.t)
    (pointer_id account space document revision event_id : uuid) (digest : string) (payload : dict) : M unit :=
  move_pointer "document.current_revision_changed" (the_document_pointer account document)
    CurrentDocumentRevision.revision_id
    (_ ← references "fk_current_document_revision_document" (the_document account document);
     references "fk_current_document_revision_revision" (the_document_revision account revision))
    (fun t => {| CurrentDocumentRevision.id := pointer_id; CurrentDocumentRevision.account_id := account;
                 CurrentDocumentRevision.space_id := space; CurrentDocumentRevision.document_id := document;
                 CurrentDocumentRevision.revision_id := revision; CurrentDocumentRevision.updated_at := t |})
    (fun t r => CurrentDocumentRevision.set_updated_at t (CurrentDocumentRevision.set_revision_id revision
                  (CurrentDocumentRevision.set_space_id space r)))
    purpose account revision event_id digest payload.

(** The validated body, its digest and its plain text. *)
Definition read_body (body : dict) : res (dict * string * string) :=
  validated ← validate_document_payload bracketed_host model_validate body;
  digest ← content_sha256 model_validate (Model validated);
  plain ← extract_plain_text validated;
  mret (validated, digest, plain).

Definition create_document (ctx : RequestContext) (space_id : uuid) (title : string) (document_body : option dict)
    : M DocumentCreateResult :=
  document_id ← new_uuid;
  revision_id ← new_uuid;
  pointer_id ← new_uuid;
  event_id ← new_uuid;
  let body := match document_body with Some (kv :: b) => kv :: b | _ => _empty_document document_id end in
  read ← lift (read_body (dict_set "documentId" (JStr (str_uuid document_id)) body));
  let '(content_json, digest, plain) := read in
  let payload := [("document_id", JStr (str_uuid document_id)); ("revision_id", JStr (str_uuid revision_id));
                  ("space_id", JStr (str_uuid space_id)); ("content_sha256", JStr digest);
                  ("author_actor_id", JStr (str_uuid (actor_id ctx)))] in
  _ ← set_current_document_revision (purpose ctx) pointer_id (account_id ctx) space_id document_id revision_id event_id
        (payload_sha256 payload) payload;
  t ← now;
  _ ← add {| AuthoredDocument.id := document_id; AuthoredDocument.account_id := account_id ctx;
             AuthoredDocument.space_id := space_id; AuthoredDocument.title := title;
             AuthoredDocument.created_at := t |};
  _ ← add (new_document_revision revision_id (account_id ctx) space_id document_id None digest content_json plain
             (actor_id ctx) None t);
  mret {| dc_document_id := document_id; dc_revision_id := revision_id; dc_space_id := space_id |}.

Definition save_revision (ctx : RequestContext) (document_id : uuid) (base_revision_id : option uuid)
    (document_body : dict) (proposal_id : option uuid) : M RevisionSaveResult :=
  let body := dict_set "documentId" (JStr (str_uuid document_id)) document_body in
  validated ← lift (validate_document_payload bracketed_host model_validate body);
  current ← select_opt (the_document_pointer (account_id ctx) document_id);
  let current_revision_id := option_map CurrentDocumentRevision.revision_id current in
  _ ← guard (negb (opt_eqb base_revision_id current_revision_id)) (StaleBaseRevisionError current_revision_id);
  doc_row ← select_one (the_document (account_id ctx) document_id);
  revision_id ← new_uuid;
  pointer_id ← match current with Some c => mret (CurrentDocumentRevision.id c) | None => new_uuid end;
  event_id ← new_uuid;
  digest ← lift (content_sha256 model_validate (Model validated));
  plain ← lift (extract_plain_text validated);
  let space := AuthoredDocument.space_id doc_row in
  let payload := [("document_id", JStr (str_uuid document_id)); ("revision_id", JStr (str_uuid revision_id));
                  ("space_id", JStr (str_uuid space)); ("base_revision_id", j_opt_uuid base_revision_id);
                  ("content_sha256", JStr digest); ("author_actor_id", JStr (str_uuid (actor_id ctx)));
                  ("proposal_id", j_opt_uuid proposal_id)] in
  _ ← set_current_document_revision (purpose ctx) pointer_id (account_id ctx) space document_id revision_id event_id
        (payload_sha256 payload) payload;
  t ← now;
  _ ← add (new_document_revision revision_id (account_id ctx) space document_id base_revision_id digest validated plain
             (actor_id ctx) proposal_id t);
  mret {| rs_document_id := document_id; rs_revision_id := revision_id; rs_content_sha256 := digest |}.

Definition get_current_revision (ctx : RequestContext) (document_id : uuid) : M (option DocumentRevision.t) :=
  current ← select_opt (the_document_pointer (account_id ctx) document_id);
  match current with
  | None => mret None
  | Some c => select_opt (the_document_revision (account_id ctx) (CurrentDocumentRevision.revision_id c))
  end.

Definition list_revisions (ctx : RequestContext) (document_id : uuid) : M (list DocumentRevision.t) :=
  l ← select (fun r => same (DocumentRevision.account_id r) (account_id ctx) &&
                       same (DocumentRevision.document_id r) document_id);
  mret (order_asc DocumentRevision.created_at l).

Definition get_revision (ctx : RequestContext) (document_id revision_id : uuid) : M (option DocumentRevision.t) :=
  select_opt (fun r => same (DocumentRevision.account_id r) (account_id ctx) &&
                       same (DocumentRevision.document_id r) document_id && same (DocumentRevision.id r) revision_id).

Definition revision_payload (r : DocumentRevision.t) : dict :=
  [("revisionId", JStr (str_uuid (DocumentRevision.id r)));
   ("documentId", JStr (str_uuid (DocumentRevision.document_id r)));
   ("spaceId", JStr (str_uuid (DocumentRevision.space_id r)));
   ("baseRevisionId", j_opt_uuid (DocumentRevision.base_revision_id r));
   ("contentSha256", JStr (DocumentRevision.content_sha256 r));
   ("schemaVersion", JInt (DocumentRevision.schema_version r));
   ("document", match DocumentRevision.content_json r with Some d => JObj d | None => JNull end);
   ("plainText", match DocumentRevision.plain_text r with Some t => JStr t | None => JNull end);
   ("authorActorId", j_opt_uuid (DocumentRevision.author_actor_id r));
   ("createdAt", JStr (isoformat (DocumentRevision.created_at r)))].

Definition validate_or_raise (document_body : dict) : res unit :=
  match validate_document_payload bracketed_host model_validate document_body with
  | Ok _ => Ok tt
  | Raise (Refused name msg) =>
      if String.eqb name "DocumentValidationError" then Raise (ValueError msg) else Raise (Refused name msg)
  | Raise e => Raise e
  end.
End service.

(** ** Theorems *)

Section proofs.
Context `{Env}.
Variables (bracketed_host : string -> bool) (model_validate : dict -> res dict).

Lemma document_pointer_needs_revision pu pid account space document revision n digest payload w u w' :
  fresh_events w ->
  set_current_document_revision pu pid account space document revision (fresh_uuid n) digest payload w = Ok (u, w') ->
  rows (R := DocumentRevision.t) (db w') = rows (db w) /\
  exists r, r ∈ rows (R := DocumentRevision.t) (db w) /\ DocumentRevision.id r = revision.
Proof.
  intros Hf Hm. split; [framed Hm DocumentRevision.t K;
    [unfold set_current_document_revision, move_pointer, references; frame|done]|].
  unfold set_current_document_revision in Hm. apply move_needs_revision in Hm as (r & Hr & Hp); [|done|done].
  unfold the_document_revision, same in Hp. split_bool. by exists r.
Qed.

Lemma document_revision_clashes id account space document base digest content plain author proposal t w u w' :
  (exists r, r ∈ rows (R := DocumentRevision.t) (db w) /\ DocumentRevision.id r = id) ->
  add (new_document_revision id account space document base digest content plain author proposal t) w = Ok (u, w') ->
  False.
Proof.
  intros (r & Hr & Hid) [Hc _]%add_Ok. specialize (Hc r Hr). cbn in Hc. unfold DocumentRevision.clash, same in Hc.
  by rewrite (bool_decide_true (DocumentRevision.id r = _)) in Hc.
Qed.

(** Documents are write-protected by the order of their writes.  A body that
    validates is refused with the current revision when its base is another
    one; otherwise saving raises too, and so does every creation, because the
    pointer's foreign key is checked before the session inserts the revision
    it names: neither call ever returns. *)
Theorem document_never_written ctx w :
  fresh_events w ->
  (forall space title body, ~ exists r, create_document bracketed_host model_validate ctx space title body w = Ok r) /\
  (forall id base body proposal,
     ~ exists r, save_revision bracketed_host model_validate ctx id base body proposal w = Ok r) /\
  (forall id base body proposal doc current,
     validate_document_payload bracketed_host model_validate
       (dict_set "documentId" (JStr (str_uuid id)) body) = Ok doc ->
     keep (the_document_pointer (account_id ctx) id) (rows (db w)) = option_list current ->
     base <> option_map CurrentDocumentRevision.revision_id current ->
     save_revision bracketed_host model_validate ctx id base body proposal w =
       Raise (StaleBaseRevisionError (option_map CurrentDocumentRevision.revision_id current))).
Proof.
  intros Hf. split_and!.
  - intros space title body [[r w'] Hm]. unfold create_document in Hm. do 4 draw Hm. stepM Hm. cleanM.
    destruct a as [[cj dg] pl]. stepM Hm. apply document_pointer_needs_revision in H1 as [K Hr]; [|done].
    cbn [db] in *. draw Hm. stepM Hm. framed H1 DocumentRevision.t K2. stepM Hm.
    eapply document_revision_clashes; [|exact H2]. rewrite K2. cbn [db]. by rewrite K.
  - intros id base body proposal [[r w'] Hm]. unfold save_revision in Hm. stepM Hm. cleanM. stepM Hm.
    apply select_opt_Ok in H1 as [_ ->]. stepM Hm. cleanM. stepM Hm. apply select_one_in in H2 as (-> & _).
    draw Hm. stepM Hm. assert (Hw : db w0 = db w) by (destruct a0; [by cleanM|by injection H2 as _ <-]). clear H2.
    draw Hm. stepM Hm. cleanM. stepM Hm. cleanM. stepM Hm.
    apply document_pointer_needs_revision in H4 as [K Hr]; [|by apply (fresh_events_db w)].
    cbn [db] in *. draw Hm. stepM Hm. eapply document_revision_clashes; [|exact H4]. cbn [db]. by rewrite K.
  - intros id base body proposal doc current Hv Hk Hb. unfold save_revision.
    rewrite (M_bind_step _ _ _ doc w) by (unfold lift; by rewrite Hv).
    rewrite (M_bind_step _ _ _ current w).
    2: { apply select_opt_Ok. split; [|done]. by destruct current. }
    apply M_bind_fail. unfold opt_eqb. by rewrite bool_decide_eq_false_2.
Qed.
End proofs.

(** ** Witnesses *)

Definition sample_document : AuthoredDocument.t :=
  {| AuthoredDocument.id := 60; AuthoredDocument.account_id := 1; AuthoredDocument.space_id := 7;
     AuthoredDocument.title := "notes"; AuthoredDocument.created_at := 0 |}.

Definition document_world : World := {| db := set_rows [sample_document] empty_db; tick := 0 |}.

Lemma document_never_written_witness :
  (~ exists r, @create_document test_env (fun _ => false) (fun d => Ok d) test_ctx 7 "notes" None document_world = Ok r) /\
  @save_revision test_env (fun _ => false) (fun d => Ok d) test_ctx 60 None (_empty_document 60) None document_world =
    Raise (IntegrityError "fk_current_document_revision_revision") /\
  @save_revision test_env (fun _ => false) (fun d => Ok d) test_ctx 60 (Some 5) (_empty_document 60) None document_world =
    Raise (StaleBaseRevisionError None).
Proof.
  assert (Hf : @fresh_events test_env document_world) by (intros n e He; exfalso; exact (not_elem_of_nil e He)).
  pose proof (@document_never_written test_env (fun _ => false) (fun d => Ok d) test_ctx document_world Hf) as (Hc & _ & Hs).
  split; [exact (Hc 7 "notes" None)|]. split; [vm_compute; reflexivity|].
  apply (Hs 60 (Some 5) (_empty_document 60) None (_empty_document 60) None); [vm_compute; reflexivity..|discriminate].
Defined.
