(* ===== verification/ConversationCrypto.v ===== *)
(** * Encryption of conversation turns (services/core/src/memdot_core/conversations/crypto.py)

    The package [cryptography] is a parameter: the class [Cryptography] has its
    AES-GCM operations, the random bytes of [secrets] and the environment
    variable of the key; [AeadLaws] is what the package documents, that
    decryption under the same key, nonce and associated data undoes
    encryption.  [decrypt_encrypt] is the round trip of a payload. *)

From Stdlib Require Import ZArith Lia Ascii String.
From stdpp Require Import list strings.
From S2P Require Import Prelude PyStr Digest Json JsonParse Base64 Store.
Open Scope Z_scope.

(** [encrypt key nonce plaintext aad], [decrypt key nonce ciphertext aad]
    ([None]: InvalidTag), the bytes [secrets.token_bytes] draws and
    CORE_CONVERSATION_PAYLOAD_KEY. *)
Class Cryptography := {
  aesgcm_encrypt : list Z -> list Z -> list Z -> list Z -> list Z;
  aesgcm_decrypt : list Z -> list Z -> list Z -> list Z -> option (list Z);
  token_bytes : nat -> list Z;
  payload_key : string;
}.

Class AeadLaws `{Cryptography} := {
  decrypt_undoes : forall key nonce plaintext aad,
    aesgcm_decrypt key nonce (aesgcm_encrypt key nonce plaintext aad) aad = Some plaintext;
  ciphertext_not_empty : forall key nonce plaintext aad, aesgcm_encrypt key nonce plaintext aad <> [];
  nonce_not_empty : forall n, token_bytes n <> [];
}.

Definition AAD : list Z := utf8 "memdot-conversation-turn-v1".

Section crypto.
Context `{Cryptography}.

Definition _pepper : res string :=
  let v := strip payload_key in
  _ ← raise_if (Z.of_nat (length (utf8 v)) <? 32)
        (RuntimeError "CORE_CONVERSATION_PAYLOAD_KEY must contain at least 32 bytes (no session-pepper fallback)");
  mret v.

Definition _key (pepper : option string) : res (list Z) :=
  material ← match pepper with Some p => mret p | None => _pepper end;
  mret (sha256 (utf8 material)).

(** [secrets.token_bytes(12)]. *)
Definition draw_nonce : M (list Z) := fun w => Ok (token_bytes (tick w), {| db := db w; tick := S (tick w) |}).

Definition encrypt_payload (payload : dict) : M (list Z * list Z) :=
  nonce ← draw_nonce;
  key ← lift (_key None);
  mret (aesgcm_encrypt key nonce (utf8 (dumps (JObj payload))) AAD, nonce).

Definition decrypt_payload (ciphertext nonce : list Z) : res dict :=
  key ← _key None;
  plaintext ← of_option (Refused "InvalidTag" "") (aesgcm_decrypt key nonce ciphertext AAD);
  text ← of_option (ValueError "UnicodeDecodeError") (utf8_decode plaintext);
  decoded ← loads text;
  match decoded with
  | JObj d => mret d
  | _ => Raise (ValueError "invalid_conversation_payload")
  end.
End crypto.

Definition payload_content (turn_payload : option dict) : option string :=
  match turn_payload with
  | None | Some [] => None
  | Some d => match dict_get "content" d with JNull => None | v => Some (py_str v) end
  end.

(** ** Round trip *)

Section roundtrip.
Context `{AeadLaws}.

(** An encrypted payload reads back as itself, its keys in order. *)
Lemma decrypt_encrypt payload w ct nonce w' :
  wf (JObj payload) -> floats_read (JObj payload) ->
  encrypt_payload payload w = Ok ((ct, nonce), w') ->
  decrypt_payload ct nonce = Ok (sort_by key_leb (map (fun kv => (kv.1, canon kv.2)) payload)) /\
  db w' = db w /\ ct <> [] /\ nonce <> [].
Proof.
  intros Hw Hf Hm. unfold encrypt_payload in Hm. pose proof (loads_dumps _ Hw Hf) as Hl.
  set (text := dumps (JObj payload)) in *. clearbody text. stepM Hm. injection H1 as <- <-. stepM Hm. cleanM.
  split; [|split_and!; [done|apply ciphertext_not_empty|apply nonce_not_empty]].
  unfold decrypt_payload. rewrite H1. cbn [mbind res_bind]. rewrite decrypt_undoes. cbn [of_option mbind res_bind].
  rewrite utf8_decode_utf8. cbn [of_option mbind res_bind]. by rewrite Hl.
Qed.

Lemma content_payload content : 
  wf (JObj [("content", JStr content)]) /\ floats_read (JObj [("content", JStr content)]).
Proof. split; [apply wf_obj; split; [apply NoDup_singleton|by repeat constructor]|done]. Qed.
End roundtrip.
