(* ===== verification/Conversations.v ===== *)
(** * Conversations (services/core/src/memdot_core/conversations/service.py)

    Conversations and their encrypted turns, over the session of [Store] and
    the parameter [Cryptography].  A result dictionary of the service is a
    record here. *)

From Stdlib Require Import ZArith Lia.
From stdpp Require Import list strings.
From S2P Require Import Prelude PyStr Json JsonParse Uuid Enums Ledger Store Outbox RequestContext Deletion McpIds ConversationCrypto.
Open Scope Z_scope.

Record ConversationView := {
  cv_conversation_id : uuid;
  cv_space_id : uuid;
  cv_source_client : string;
  cv_completeness : string;
  cv_capture_origin : CaptureOrigin.t;
}.

Record TurnView := {
  tv_turn_id : uuid;
  tv_role : string;
  tv_turn_index : Z;
  tv_content : option string;
  tv_client_turn_id : option string;
  tv_occurred_at : Z;
  tv_parent_turn_id : option uuid;
  tv_context_receipt_id : option uuid;
}.

Record AppendResult := {
  ar_turn_id : uuid;
  ar_turn_index : Z;
  ar_role : string;
  ar_content : option string;
  ar_client_turn_id : option string;
  ar_idempotent : bool;
  ar_auto_native : bool;
}.

Definition view_of (row : Conversation.t) : ConversationView :=
  {| cv_conversation_id := Conversation.id row; cv_space_id := Conversation.space_id row;
     cv_source_client := Conversation.source_client row; cv_completeness := Conversation.completeness row;
     cv_capture_origin := capture_origin_for_client (Conversation.source_client row) |}.

Definition the_conversation (account conversation : uuid) (r : Conversation.t) : bool :=
  same (Conversation.account_id r) account && same (Conversation.id r) conversation.

Definition turn_of (account conversation : uuid) (r : ConversationTurn.t) : bool :=
  same (ConversationTurn.account_id r) account && same (ConversationTurn.conversation_id r) conversation.

Definition client_turn_of (account conversation : uuid) (key : string) (r : ConversationTurn.t) : bool :=
  turn_of account conversation r && opt_eqb (ConversationTurn.client_turn_id r) (Some key).

(** [(last_turn or -1) + 1]. *)
Definition next_turn_index (last_turn : option Z) : Z :=
  match last_turn with Some 0 | None => -1 | Some i => i end + 1.

Definition opt_truthy (o : option string) : bool := match o with Some s => truthy s | None => false end.

Section service.
Context `{Env} `{Cryptography}.

(** A turn that cannot be decrypted falls back on its clear payload. *)
Definition _turn_content (turn : ConversationTurn.t) : option string :=
  match ConversationTurn.payload_ciphertext turn, ConversationTurn.payload_nonce turn with
  | Some (c :: ct), Some (n :: nonce) =>
      match decrypt_payload (c :: ct) (n :: nonce) with
      | Ok d => payload_content (Some d)
      | Raise _ => payload_content (ConversationTurn.payload_json turn)
      end
  | _, _ => payload_content (ConversationTurn.payload_json turn)
  end.

Definition turn_view (turn : ConversationTurn.t) : TurnView :=
  {| tv_turn_id := ConversationTurn.id turn; tv_role := ConversationTurn.role turn;
     tv_turn_index := ConversationTurn.turn_index turn; tv_content := _turn_content turn;
     tv_client_turn_id := ConversationTurn.client_turn_id turn;
     tv_occurred_at := ConversationTurn.occurred_at turn; tv_parent_turn_id := ConversationTurn.parent_turn_id turn;
     tv_context_receipt_id := ConversationTurn.context_receipt_id turn |}.

Definition create_conversation (ctx : RequestContext) (space_id : uuid) (source_client completeness : string)
    : M ConversationView :=
  conversation_id ← new_uuid;
  t ← now;
  let row := {| Conversation.id := conversation_id; Conversation.account_id := account_id ctx;
                Conversation.space_id := space_id; Conversation.source_client := source_client;
                Conversation.completeness := completeness; Conversation.created_at := t |} in
  _ ← add row;
  mret (view_of row).

Definition visible_conversation (account : uuid) (row : Conversation.t) : M (list (ConversationView * Z)) :=
  gone ← is_tombstoned account "conversation" (Conversation.id row);
  mret (if gone : bool then [] else [(view_of row, Conversation.created_at row)]).

Definition list_conversations (ctx : RequestContext) (space_id : option uuid) : M (list (ConversationView * Z)) :=
  rows ← select (fun r => same (Conversation.account_id r) (account_id ctx) &&
                          match space_id with Some s => same (Conversation.space_id r) s | None => true end);
  visible ← mapM (visible_conversation (account_id ctx)) (order_desc Conversation.created_at rows);
  mret (concat visible).

Definition get_conversation (ctx : RequestContext) (conversation_id : uuid)
    : M (option (ConversationView * list TurnView)) :=
  gone ← is_tombstoned (account_id ctx) "conversation" conversation_id;
  if gone : bool then mret None
  else
    row ← select_opt (the_conversation (account_id ctx) conversation_id);
    match row with
    | None => mret None
    | Some row =>
        turns ← select (turn_of (account_id ctx) conversation_id);
        mret (Some (view_of row, map turn_view (order_asc ConversationTurn.turn_index turns)))
    end.

(** The answer for a client turn that is stored already. *)
Definition existing_turn (turn : ConversationTurn.t) (role : string) (content : option string) (auto_native : bool)
    : res AppendResult :=
  let prior_content := _turn_content turn in
  _ ← raise_if (negb (String.eqb (ConversationTurn.role turn) role) ||
                match content with Some _ => negb (opt_eqb prior_content content) | None => false end)
        (ValueError (value ErrorCode.IDEMPOTENCY_CONFLICT));
  mret {| ar_turn_id := ConversationTurn.id turn; ar_turn_index := ConversationTurn.turn_index turn;
          ar_role := ConversationTurn.role turn; ar_content := prior_content;
          ar_client_turn_id := ConversationTurn.client_turn_id turn; ar_idempotent := true;
          ar_auto_native := auto_native |}.

(** The index after the last turn: [scalar_one_or_none] of all of them. *)
Definition read_turn_index (account conversation : uuid) : M Z :=
  turns ← select (turn_of account conversation);
  last_turn ← lift (scalar_one_or_none
    (map ConversationTurn.turn_index (order_desc ConversationTurn.turn_index turns)));
  mret (next_turn_index last_turn).

(** The ciphertext and nonce of a payload, none for an empty one. *)
Definition seal_content (content : option string) : M (option (list Z) * option (list Z)) :=
  match content with
  | Some c => '(ct, nonce) ← encrypt_payload [("content", JStr c)]; mret (Some ct, Some nonce)
  | None => mret (None, None)
  end.

Definition new_turn (id account space conversation : uuid) (role : string) (turn_index : Z) (encrypted : bool)
    (sealed : option (list Z) * option (list Z)) (occurred_at : Z) (parent receipt : option uuid)
    (client_turn_id : option string) (t : Z) : ConversationTurn.t :=
  {| ConversationTurn.id := id; ConversationTurn.account_id := account; ConversationTurn.space_id := space;
     ConversationTurn.conversation_id := conversation; ConversationTurn.role := role;
     ConversationTurn.turn_index := turn_index;
     ConversationTurn.payload_json := if encrypted then Some [("encrypted", JBool true)] else None;
     ConversationTurn.payload_ciphertext := sealed.1; ConversationTurn.payload_nonce := sealed.2;
     ConversationTurn.occurred_at := occurred_at; ConversationTurn.parent_turn_id := parent;
     ConversationTurn.context_receipt_id := receipt; ConversationTurn.client_turn_id := client_turn_id;
     ConversationTurn.created_at := t |}.

Definition append_new_turn (ctx : RequestContext) (conversation : Conversation.t) (role : string)
    (content client_turn_id : option string) (parent_turn_id context_receipt_id : option uuid)
    (occurred_at : option Z) (auto_native : bool) : M AppendResult :=
  let conversation_id := Conversation.id conversation in
  turn_index ← read_turn_index (account_id ctx) conversation_id;
  turn_id ← new_uuid;
  sealed ← seal_content content;
  t ← now;
  _ ← add (new_turn turn_id (account_id ctx) (Conversation.space_id conversation) conversation_id role turn_index
             (match content with Some _ => true | None => false end) sealed (default t occurred_at) parent_turn_id
             context_receipt_id client_turn_id t);
  _ ← (if auto_native && existsb (String.eqb (Conversation.source_client conversation)) ["native"; "memdot"; "first_party"]
       then update conversation_id (Conversation.set_completeness (value ConversationCompleteness.COMPLETE))
       else mret tt);
  mret {| ar_turn_id := turn_id; ar_turn_index := turn_index; ar_role := role; ar_content := content;
          ar_client_turn_id := client_turn_id; ar_idempotent := false; ar_auto_native := auto_native |}.

Definition append_turn (ctx : RequestContext) (conversation_id : uuid) (role : string)
    (content client_turn_id : option string) (parent_turn_id context_receipt_id : option uuid)
    (occurred_at : option Z) (auto_native : bool) : M (option AppendResult) :=
  gone ← is_tombstoned (account_id ctx) "conversation" conversation_id;
  if gone : bool then mret None
  else
    conversation ← select_opt (the_conversation (account_id ctx) conversation_id);
    match conversation with
    | None => mret None
    | Some conversation =>
        existing ← match client_turn_id with
                   | Some key => if truthy key
                                 then select_opt (client_turn_of (account_id ctx) conversation_id key)
                                 else mret None
                   | None => mret None
                   end;
        match existing with
        | Some turn => r ← lift (existing_turn turn role content auto_native); mret (Some r)
        | None => r ← append_new_turn ctx conversation role content client_turn_id parent_turn_id context_receipt_id
                        occurred_at auto_native; mret (Some r)
        end
    end.

Definition delete_conversation (ctx : RequestContext) (conversation_id : uuid) : M bool :=
  row ← select_opt (the_conversation (account_id ctx) conversation_id);
  match row with
  | None => mret false
  | Some row =>
      _ ← create_tombstone ctx "conversation" conversation_id (Some (Conversation.space_id row)) None;
      mret true
  end.
End service.

(** ** Reading a turn back *)

Section content.
Context `{Env} `{AeadLaws}.

(** The content of a turn reads back, whatever its clear payload says. *)
Lemma sealed_content c w sealed w' :
  seal_content (Some c) w = Ok (sealed, w') ->
  db w' = db w /\ forall turn, ConversationTurn.payload_ciphertext turn = sealed.1 ->
    ConversationTurn.payload_nonce turn = sealed.2 -> _turn_content turn = Some c.
Proof.
  intros Hm. unfold seal_content in Hm. stepM Hm. destruct a as [ct nonce]. cleanM.
  destruct (content_payload c) as [Hw Hf]. apply (decrypt_encrypt _ _ _ _ _ Hw Hf) in H2 as (Hd & Hdb & Hc & Hn).
  split; [done|]. intros turn Hct Hno. unfold _turn_content. rewrite Hct, Hno. cbn [fst snd].
  destruct ct as [|b ct]; [done|]. destruct nonce as [|n nonce]; [done|]. by rewrite Hd.
Qed.

Lemma seal_db content w sealed w' : seal_content content w = Ok (sealed, w') -> db w' = db w.
Proof. destruct content as [c|]; [by intros [? _]%sealed_content|]. intros Hm. unfold seal_content in Hm. by cleanM. Qed.

Lemma not_gone a conv w (g : bool) w1 : is_tombstoned a "conversation" conv w = Ok (g, w1) ->
  w1 = w /\ forall w', rows (R := DeletionTombstone.t) (db w') = rows (db w) ->
    is_tombstoned a "conversation" conv w' = Ok (g, w').
Proof.
  unfold is_tombstoned. intros Hm. stepM Hm. apply select_opt_Ok in H2 as [Hk ->]. cleanM. split; [done|].
  intros w' Hr. rewrite (M_bind_step _ _ _ a0 w'); [done|]. apply select_opt_Ok. by rewrite Hr.
Qed.

(** What appending a new turn does to the ledger. *)
Lemma append_new_Ok ctx conv role content key parent receipt occ auto w r w' :
  append_new_turn ctx conv role content key parent receipt occ auto w = Ok (r, w') ->
  exists turn,
    rows (R := ConversationTurn.t) (db w') = rows (db w) ++ [turn] /\
    rows (R := DeletionTombstone.t) (db w') = rows (db w) /\
    (exists f, rows (R := Conversation.t) (db w') = map f (rows (db w)) /\
       forall c, Conversation.id (f c) = Conversation.id c /\ Conversation.account_id (f c) = Conversation.account_id c) /\
    (let turns := keep (turn_of (account_id ctx) (Conversation.id conv)) (rows (db w)) in
     exists last, scalar_one_or_none (map ConversationTurn.turn_index (order_desc ConversationTurn.turn_index turns)) = Ok last /\
       ConversationTurn.turn_index turn = next_turn_index last) /\
    ConversationTurn.account_id turn = account_id ctx /\ ConversationTurn.conversation_id turn = Conversation.id conv /\
    ConversationTurn.client_turn_id turn = key /\
    (forall c, content = Some c -> _turn_content turn = Some c) /\
    r = {| ar_turn_id := ConversationTurn.id turn; ar_turn_index := ConversationTurn.turn_index turn;
           ar_role := ConversationTurn.role turn; ar_content := content; ar_client_turn_id := key;
           ar_idempotent := false; ar_auto_native := auto |} /\ ConversationTurn.role turn = role.
Proof.
  intros Hm. unfold append_new_turn in Hm. stepM Hm. unfold read_turn_index in H2. stepM H2.
  apply select_Ok in H3 as [-> ->]. stepM H2. cleanM. rename H2 into Hlast. draw Hm. stepM Hm. pose proof (seal_db _ _ _ _ H2) as Hdb.
  rename a into sealed, a0 into last.
  assert (Hc : forall c, content = Some c -> forall turn, ConversationTurn.payload_ciphertext turn = sealed.1 ->
    ConversationTurn.payload_nonce turn = sealed.2 -> _turn_content turn = Some c)
    by (intros c ->; by apply sealed_content in H2 as [_ Hc]).
  draw Hm. stepM Hm. apply add_Ok in H3 as [_ ->]. cbn [db tick] in *. stepM Hm. cleanM. rewrite Hdb in H3.
  eexists. split_and!;
    [destruct (_ && _); [apply update_Ok in H3 as ->|cleanM]; rows_simpl; reflexivity
    |destruct (_ && _); [apply update_Ok in H3 as ->|cleanM]; rows_simpl; reflexivity
    | |by exists last|reflexivity|reflexivity|reflexivity| |reflexivity|reflexivity].
  - destruct (_ && _); [apply update_Ok in H3 as ->|cleanM]; rows_simpl.
    + eexists. split; [reflexivity|]. intros c. cbv beta. by case_match.
    + exists id. by rewrite map_id.
  - intros c Hs. by apply (Hc c Hs).
Qed.
End content.

(** ** Theorems *)

Section theorems.
Context `{Env} `{AeadLaws}.

(** The conversation is open to appends: not deleted, and there. *)
Definition open_conversation (account conv : uuid) (w : World) (row : Conversation.t) : Prop :=
  is_tombstoned account "conversation" conv w = Ok (false, w) /\
  keep (the_conversation account conv) (rows (db w)) = [row].

(** The steps of [append_turn] up to the lookup of the client's turn. *)
Lemma append_turn_open ctx conv role content key parent receipt occ auto w row :
  open_conversation (account_id ctx) conv w row ->
  append_turn ctx conv role content key parent receipt occ auto w =
  (existing ← match key with
              | Some k => if truthy k then select_opt (client_turn_of (account_id ctx) conv k) else mret None
              | None => mret None
              end;
   match existing with
   | Some turn => r ← lift (existing_turn turn role content auto); mret (Some r)
   | None => r ← append_new_turn ctx row role content key parent receipt occ auto; mret (Some r)
   end) w.
Proof.
  intros [Hg Hc]. unfold append_turn. rewrite (M_bind_step _ _ _ _ _ Hg).
  rewrite (M_bind_step _ _ _ (Some row) w); [done|]. by apply select_opt_Ok.
Qed.

Lemma append_turn_opened ctx conv role content key parent receipt occ auto w r w' :
  append_turn ctx conv role content key parent receipt occ auto w = Ok (Some r, w') ->
  exists row, open_conversation (account_id ctx) conv w row /\ Conversation.id row = conv.
Proof.
  intros Hm. unfold append_turn in Hm. stepM Hm. apply not_gone in H2 as [-> Hg]. destruct a; [by cleanM|].
  stepM Hm. apply select_opt_Ok in H2 as [Hk ->]. destruct a as [row|]; [|by cleanM]. exists row.
  split; [split; [by apply Hg|exact Hk]|]. apply keep_one in Hk as [_ Hk]. unfold the_conversation, same in Hk.
  by split_bool.
Qed.

Lemma stored_turn_again ctx conv role content k parent receipt occ auto w row turn c :
  open_conversation (account_id ctx) conv w row -> truthy k = true ->
  keep (client_turn_of (account_id ctx) conv k) (rows (db w)) = [turn] -> _turn_content turn = Some c ->
  append_turn ctx conv role content (Some k) parent receipt occ auto w =
  if String.eqb (ConversationTurn.role turn) role && match content with Some c' => String.eqb c' c | None => true end
  then Ok (Some {| ar_turn_id := ConversationTurn.id turn; ar_turn_index := ConversationTurn.turn_index turn;
                   ar_role := ConversationTurn.role turn; ar_content := Some c;
                   ar_client_turn_id := ConversationTurn.client_turn_id turn; ar_idempotent := true;
                   ar_auto_native := auto |}, w)
  else Raise (ValueError "idempotency_conflict").
Proof.
  intros Ho Hk Ht Hc. rewrite (append_turn_open _ _ _ _ _ _ _ _ _ _ _ Ho), Hk.
  rewrite (M_bind_step _ _ _ (Some turn) w) by by apply select_opt_Ok. unfold existing_turn. rewrite Hc.
  destruct (String.eqb _ role); cbn [negb orb andb]; [|done].
  destruct content as [c'|]; [|done]. unfold opt_eqb.
  destruct (String.eqb_spec c' c) as [->|Hne]; [by rewrite bool_decide_eq_true_2|].
  by rewrite bool_decide_eq_false_2 by congruence.
Qed.

(** An appended turn leaves the conversation open, and is the client's one. *)
Lemma appended_turn_stored ctx conv role content k parent receipt occ auto w row r w' :
  open_conversation (account_id ctx) conv w row -> Conversation.id row = conv ->
  keep (client_turn_of (account_id ctx) conv k) (rows (db w)) = [] ->
  append_new_turn ctx row role content (Some k) parent receipt occ auto w = Ok (r, w') ->
  exists row' turn, open_conversation (account_id ctx) conv w' row' /\
    keep (client_turn_of (account_id ctx) conv k) (rows (db w')) = [turn] /\
    ConversationTurn.role turn = role /\ (forall c, content = Some c -> _turn_content turn = Some c) /\
    r = {| ar_turn_id := ConversationTurn.id turn; ar_turn_index := ConversationTurn.turn_index turn;
           ar_role := role; ar_content := content; ar_client_turn_id := ConversationTurn.client_turn_id turn;
           ar_idempotent := false; ar_auto_native := auto |}.
Proof.
  intros [Hg Hc] Hid Hk Hm.
  apply append_new_Ok in Hm as (turn & Ht & Hd & (f & Hf & Hfp) & _ & Ha & Hcv & Hcl & Hcont & Hr & Hro).
  exists (f row), turn. split_and!.
  - split; [exact (proj2 (not_gone _ _ _ _ _ Hg) w' Hd)|]. rewrite Hf, keep_map, Hc; [done|]. intros x. unfold the_conversation. by destruct (Hfp x) as [-> ->].
  - rewrite Ht. apply keep_snoc; [|exact Hk]. unfold client_turn_of, turn_of, same, opt_eqb.
    rewrite Ha, Hcv, Hcl, Hid. by rewrite !bool_decide_eq_true_2.
  - done.
  - exact Hcont.
  - by rewrite Hr, Hcl, Hro.
Qed.

(** C19: a client's turn is appended once: when a call with a client turn
    identifier returns, its content reads back, and every later call with the
    identifier changes nothing: it answers with that turn when role and
    content agree with it and raises a conflict when they do not. *)
Theorem append_turn_idempotent ctx conv role c k parent receipt occ auto w r w' :
  truthy k = true ->
  append_turn ctx conv role (Some c) (Some k) parent receipt occ auto w = Ok (Some r, w') ->
  ar_content r = Some c /\ ar_role r = role /\
  forall role' content' parent' receipt' occ' auto',
    append_turn ctx conv role' content' (Some k) parent' receipt' occ' auto' w' =
    if String.eqb role role' && match content' with Some c' => String.eqb c' c | None => true end
    then Ok (Some {| ar_turn_id := ar_turn_id r; ar_turn_index := ar_turn_index r; ar_role := role;
                     ar_content := Some c; ar_client_turn_id := ar_client_turn_id r; ar_idempotent := true;
                     ar_auto_native := auto' |}, w')
    else Raise (ValueError "idempotency_conflict").
Proof.
  intros Hk Hm. destruct (append_turn_opened _ _ _ _ _ _ _ _ _ _ _ _ Hm) as (row & Ho & Hid).
  rewrite (append_turn_open _ _ _ _ _ _ _ _ _ _ _ Ho), Hk in Hm. stepM Hm.
  apply select_opt_Ok in H2 as [Hkeep ->]. destruct a as [turn|].
  - stepM Hm. cleanM. unfold existing_turn in H2. apply bind_Ok in H2 as (u & Hr & [= <-]).
    match goal with E : Some r = Some _ |- _ => injection E as -> end.
    apply raise_if_Ok in Hr. apply orb_false_elim in Hr as [Hro Hco].
    apply negb_false_iff in Hro, Hco. apply String.eqb_eq in Hro. unfold opt_eqb in Hco.
    apply bool_decide_eq_true in Hco. cbn [ar_content ar_role ar_turn_id ar_turn_index ar_client_turn_id].
    split_and!; [done|done|]. intros. rewrite <- Hro. by eapply stored_turn_again.
  - stepM Hm. cleanM. match goal with E : Some r = Some _ |- _ => injection E as -> end.
    destruct (appended_turn_stored _ _ _ _ _ _ _ _ _ _ _ _ _ Ho eq_refl Hkeep H2)
      as (row' & turn & Ho' & Hk' & Hro & Hco & ->). cbn [ar_content ar_role ar_turn_id ar_turn_index ar_client_turn_id].
    split_and!; [done|done|]. intros. rewrite <- Hro. eapply stored_turn_again; eauto.
Qed.

Lemma scalar_of_order (l : list ConversationTurn.t) o :
  scalar_one_or_none (map ConversationTurn.turn_index (order_desc ConversationTurn.turn_index l)) = Ok o ->
  l = [] /\ o = None \/ exists t, l = [t] /\ o = Some (ConversationTurn.turn_index t).
Proof.
  intros Hs. pose proof (sort_by_perm (fun a b => ConversationTurn.turn_index b <=? ConversationTurn.turn_index a) l) as Hp.
  unfold order_desc in Hs. destruct (sort_by _ l) as [|t [|t' k]] eqn:E; cbn in Hs; [| |discriminate].
  - left. split; [by apply Permutation_nil|congruence].
  - right. exists t. split; [by apply Permutation_singleton_r|congruence].
Qed.

(** A conversation takes two turns: whatever call of [append_turn] appends
    one, the conversation had at most one before, and the second repeats the
    index 0 of the first; with two turns stored, appending a turn the client
    has not sent yet raises [MultipleResultsFound]. *)
Theorem conversation_takes_two_turns ctx conv role content key parent receipt occ auto w :
  let turns w := keep (turn_of (account_id ctx) conv) (rows (db w)) in
  (forall r w', append_turn ctx conv role content key parent receipt occ auto w = Ok (Some r, w') ->
     ar_idempotent r = false ->
     exists turn, turns w' = turns w ++ [turn] /\ ConversationTurn.id turn = ar_turn_id r /\
       ConversationTurn.turn_index turn = ar_turn_index r /\
       (turns w = [] /\ ar_turn_index r = 0 \/
        exists t, turns w = [t] /\ (ConversationTurn.turn_index t = 0 -> ar_turn_index r = 0))) /\
  (forall row, open_conversation (account_id ctx) conv w row -> Conversation.id row = conv ->
     (2 <= length (turns w))%nat -> (forall t, t ∈ turns w -> ConversationTurn.client_turn_id t <> key) ->
     append_turn ctx conv role content key parent receipt occ auto w = Raise MultipleResultsFound).
Proof.
  intros turns. split.
  - intros r w' Hm Hi. destruct (append_turn_opened _ _ _ _ _ _ _ _ _ _ _ _ Hm) as (row & Ho & <-).
    rewrite (append_turn_open _ _ _ _ _ _ _ _ _ _ _ Ho) in Hm. stepM Hm.
    assert (Hw : w0 = w) by (destruct key as [k|]; [destruct (truthy k); [by apply select_opt_Ok in H2 as [_ ->]|]|]; by cleanM).
    subst w0. destruct a as [t|].
    { exfalso. stepM Hm. cleanM. match goal with E : Some r = Some _ |- _ => injection E as -> end.
      unfold existing_turn in H3. apply bind_Ok in H3 as (u & _ & [= <-]). discriminate. }
    stepM Hm. cleanM. match goal with E : Some r = Some _ |- _ => injection E as -> end.
    apply append_new_Ok in H3 as (turn & Ht & _ & _ & (last & Hl & Hx) & Ha & Hc & _ & _ & -> & _).
    exists turn. cbn [ar_turn_id ar_turn_index]. split_and!; [|done|done|].
    + unfold turns. rewrite Ht, keep_app. f_equal. unfold keep. cbn. unfold turn_of, same.
      by rewrite Ha, Hc, !bool_decide_eq_true_2.
    + rewrite Hx. apply scalar_of_order in Hl as [[Hn ->]|(t & Ht' & ->)]; [by left|right].
      exists t. split; [done|]. by intros ->.
  - intros row Ho Hid Hlen Hkey. rewrite (append_turn_open _ _ _ _ _ _ _ _ _ _ _ Ho).
    rewrite (M_bind_step _ _ _ None w).
    + apply M_bind_fail. unfold append_new_turn. apply M_bind_fail. rewrite Hid. unfold read_turn_index.
      rewrite (M_bind_step _ _ _ (turns w) w) by by apply select_Ok. apply M_bind_fail. unfold lift.
      destruct (scalar_one_or_none _) as [o|e] eqn:E.
      * apply scalar_of_order in E as [[E _]|(t & E & _)]; rewrite E in Hlen; cbn in Hlen; lia.
      * unfold scalar_one_or_none in E. destruct (map _ _) as [|? [|? ?]]; congruence.
    + destruct key as [k|]; [|done]. destruct (truthy k); [|done]. apply select_opt_Ok. split; [|done].
      apply keep_none. intros t Hin. unfold client_turn_of. destruct (turn_of _ _ t) eqn:Et; [|done]. cbn.
      apply bool_decide_eq_false_2. apply Hkey. by apply elem_of_keep.
Qed.

(** Deleting a conversation hides it at once: after the call returns true,
    reading it finds nothing, nothing can be appended to it, and no listing
    shows it. *)
Theorem deleted_conversation_hidden ctx conv w w' :
  delete_conversation ctx conv w = Ok (true, w') ->
  get_conversation ctx conv w' = Ok (None, w') /\
  (forall role content key parent receipt occ auto,
     append_turn ctx conv role content key parent receipt occ auto w' = Ok (None, w')) /\
  (forall space l w2, list_conversations ctx space w' = Ok (l, w2) ->
     forall v t, (v, t) ∈ l -> cv_conversation_id v <> conv).
Proof.
  intros Hm. unfold delete_conversation in Hm. stepM Hm. apply select_opt_Ok in H2 as [_ ->].
  destruct a as [row|]; [|by cleanM]. stepM Hm. cleanM.
  apply create_tombstone_idempotent in H2 as (Hg & _). split_and!.
  - unfold get_conversation. by rewrite (M_bind_step _ _ _ _ _ Hg).
  - intros. unfold append_turn. by rewrite (M_bind_step _ _ _ _ _ Hg).
  - intros space l w2 Hl v t Hin. unfold list_conversations in Hl. stepM Hl. apply select_Ok in H2 as [-> ->].
    stepM Hl. cleanM. apply list_elem_of_In, in_concat in Hin as (vs & Hvs & Hin).
    apply list_elem_of_In in Hvs, Hin.
    apply (mapM_in _ _ _ _ _ vs) in H2 as (r & w3 & w4 & _ & Hdb & Hv); [| |done].
    + unfold visible_conversation in Hv. stepM Hv. cleanM. destruct a1; [by inversion Hin|].
      apply list_elem_of_singleton in Hin as [= -> _]. intros Hid. cbn in Hid.
      apply not_gone in H2 as [_ Hg']. rewrite Hid in Hg'. specialize (Hg' _ (eq_sym (f_equal rows Hdb))).
      rewrite Hg in Hg'. discriminate.
    + intros r w3 vs' w4 Hv. unfold visible_conversation in Hv. stepM Hv. cleanM. by match goal with E : is_tombstoned _ _ _ w3 = _ |- _ => apply not_gone in E as [-> _] end.
Qed.
End theorems.

(** ** Witnesses *)

(** A cipher that marks the text, and a key of 32 bytes. *)
Definition test_crypto : Cryptography :=
  {| aesgcm_encrypt := fun _ _ p _ => 1 :: p;
     aesgcm_decrypt := fun _ _ c _ => match c with 1 :: p => Some p | _ => None end;
     token_bytes := fun n => [Z.of_nat n]; payload_key := "0123456789abcdef0123456789abcdef" |}.

Lemma test_aead : @AeadLaws test_crypto.
Proof. by constructor. Qed.

Definition sample_conversation : Conversation.t :=
  {| Conversation.id := 80; Conversation.account_id := 1; Conversation.space_id := 7;
     Conversation.source_client := "native"; Conversation.completeness := "unknown"; Conversation.created_at := 0 |}.

Definition chat_world : World := {| db := set_rows [sample_conversation] empty_db; tick := 0 |}.

Definition say (content key : string) : M (option AppendResult) :=
  @append_turn test_env test_crypto test_ctx 80 "user" (Some content) (Some key) None None None true.

Lemma append_turn_idempotent_witness :
  exists r w', say "hello" "k1" chat_world = Ok (Some r, w') /\ ar_idempotent r = false /\
    (exists r', say "hello" "k1" w' = Ok (Some r', w') /\ ar_turn_id r' = ar_turn_id r) /\
    say "bye" "k1" w' = Raise (ValueError "idempotency_conflict").
Proof.
  destruct (say "hello" "k1" chat_world) as [[[r|] w']|e] eqn:E; [|vm_compute in E; discriminate E..].
  pose proof (@append_turn_idempotent test_env test_crypto test_aead test_ctx 80 "user" "hello" "k1" None None None true
    chat_world r w' eq_refl E) as (_ & _ & Hr).
  exists r, w'. split; [reflexivity|]. split.
  { assert (Hi : match say "hello" "k1" chat_world with Ok (Some r, _) => ar_idempotent r | _ => true end = false)
      by (vm_compute; reflexivity). rewrite E in Hi. exact Hi. }
  split.
  - eexists. split; [exact (Hr "user" (Some "hello") None None None true)|reflexivity].
  - exact (Hr "user" (Some "bye") None None None true).
Defined.

(** The world after two turns, and the conversation there. *)
Definition two_turn_world : World :=
  match (_ ← say "a" "k1"; say "b" "k2") chat_world with Ok (_, w) => w | Raise _ => chat_world end.

Definition told_conversation : Conversation.t := Conversation.set_completeness "complete" sample_conversation.

Lemma conversation_takes_two_turns_witness :
  map ConversationTurn.turn_index (rows (R := ConversationTurn.t) (db two_turn_world)) = [0; 0] /\
  say "c" "k3" two_turn_world = Raise MultipleResultsFound.
Proof.
  split; [vm_compute; reflexivity|].
  apply (proj2 (@conversation_takes_two_turns test_env test_crypto test_aead test_ctx 80 "user" (Some "c") (Some "k3")
    None None None true two_turn_world) told_conversation).
  - split; vm_compute; reflexivity.
  - reflexivity.
  - vm_compute. lia.
  - assert (Hk : Forall (fun t => ConversationTurn.client_turn_id t <> Some "k3")
      (keep (turn_of 1 80) (rows (db two_turn_world)))) by (vm_compute; repeat constructor; discriminate).
    intros t Ht. exact (proj1 (Forall_forall _ _) Hk t Ht).
Defined.

Definition gone_world : World :=
  match @delete_conversation test_env test_ctx 80 chat_world with Ok (_, w) => w | Raise _ => chat_world end.

Lemma deleted_conversation_hidden_witness :
  @delete_conversation test_env test_ctx 80 chat_world = Ok (true, gone_world) /\
  @get_conversation test_crypto test_ctx 80 gone_world = Ok (None, gone_world).
Proof.
  assert (E : @delete_conversation test_env test_ctx 80 chat_world = Ok (true, gone_world)) by (vm_compute; reflexivity).
  split; [exact E|].
  exact (proj1 (@deleted_conversation_hidden test_env test_crypto test_ctx 80 chat_world gone_world E)).
Defined.
