(* ===== verification/Lanes.v ===== *)
(** * Retrieval lanes and filters (services/core/src/memdot_core/retrieval/)

    The temporal, graph and semantic lanes and the filters that join
    candidates back to the ledger.  A lane first collects hits ([Hit]: a text
    and the candidate once its rank is known) and then ranks them.  The
    embedding of the semantic lane is computed in binary64, its sums as the
    compensated summation of Python 3.12's [sum]. *)

From Stdlib Require Import ZArith Lia Ascii String.
From stdpp Require Import list strings.
From S2P Require Import Prelude PyStr Digest Json Uuid Enums Float64 Retrieval ContextCompiler Ledger Store RequestContext Deletion.
Open Scope Z_scope.

(** A hit without its rank. *)
Definition Hit : Type := Z -> RetrievalCandidate.

(** Ranks 1, 2, ... in order. *)
Definition ranked (hits : list Hit) : list RetrievalCandidate := map (fun nh => nh.2 nh.1) (enumerate 1 hits).

(** [l[:n]] for [n >= 0]. *)
Definition first_n {A} (n : Z) (l : list A) : list A := take (Z.to_nat n) l.

Definition in_spaces (spaces : list uuid) (s : uuid) : bool := existsb (Z.eqb s) spaces.

(** [created_at <= as_of], when one is asked for. *)
Definition until (as_of : option Z) (created_at : Z) : bool :=
  match as_of with Some t => created_at <=? t | None => true end.

Definition document_rows (account : uuid) (spaces : list uuid) (as_of : option Z) (r : DocumentRevision.t) : bool :=
  same (DocumentRevision.account_id r) account && in_spaces spaces (DocumentRevision.space_id r) &&
  match DocumentRevision.plain_text r with Some _ => true | None => false end &&
  until as_of (DocumentRevision.created_at r).

Definition memory_rows (account : uuid) (spaces : list uuid) (statuses : list string) (as_of : option Z)
    (r : MemoryRevision.t) : bool :=
  same (MemoryRevision.account_id r) account && in_spaces spaces (MemoryRevision.space_id r) &&
  existsb (String.eqb (MemoryRevision.status r)) statuses && until as_of (MemoryRevision.created_at r).

Definition plain_text_of (r : DocumentRevision.t) : string := default "" (DocumentRevision.plain_text r).

(** The candidate of a document revision and of a memory revision. *)
Definition document_hit (prefix : string) (lane : CandidateLane.t) (hint : option f64) (r : DocumentRevision.t) : Hit :=
  fun rank =>
  {| rc_candidate_id := prefix +:+ "document:" +:+ str_uuid (DocumentRevision.document_id r) +:+ ":" +:+
                        str_uuid (DocumentRevision.id r);
     rc_canonical_type := "document"; rc_canonical_id := DocumentRevision.document_id r;
     rc_revision_id := DocumentRevision.id r; rc_space_id := DocumentRevision.space_id r; rc_lane := lane;
     rc_rank := rank; rc_locator := None; rc_snippet := Some (take_str 512 (plain_text_of r));
     rc_score_hint := hint |}.

Definition memory_hit (prefix : string) (lane : CandidateLane.t) (hint : option f64) (r : MemoryRevision.t) : Hit :=
  fun rank =>
  {| rc_candidate_id := prefix +:+ "memory:" +:+ str_uuid (MemoryRevision.memory_item_id r) +:+ ":" +:+
                        str_uuid (MemoryRevision.id r);
     rc_canonical_type := "memory"; rc_canonical_id := MemoryRevision.memory_item_id r;
     rc_revision_id := MemoryRevision.id r; rc_space_id := MemoryRevision.space_id r; rc_lane := lane;
     rc_rank := rank; rc_locator := None; rc_snippet := Some (take_str 512 (MemoryRevision.assertion_text r));
     rc_score_hint := hint |}.

(** ** The temporal lane *)

Definition temporal_candidates (ctx : RequestContext) (query : string) (eligible_space_ids : list uuid)
    (as_of : option Z) (max_results : Z) : M (list RetrievalCandidate) :=
  let trimmed := lower (strip query) in
  if negb (truthy trimmed) || match eligible_space_ids with [] => true | _ => false end then mret []
  else
    documents ← select (document_rows (account_id ctx) eligible_space_ids as_of);
    memories ← select (memory_rows (account_id ctx) eligible_space_ids ["active"; "superseded"] as_of);
    let found := keep (fun r => contains trimmed (lower (plain_text_of r))) documents in
    let told := keep (fun r => contains trimmed (lower (MemoryRevision.assertion_text r)) &&
                               match as_of with
                               | None => String.eqb (MemoryRevision.status r) "active"
                               | Some _ => true
                               end) memories in
    mret (ranked (first_n max_results
      (map (document_hit "temporal:" CandidateLane.TEMPORAL_EXACT (Some (lit 1 1))) found ++
       map (memory_hit "temporal:" CandidateLane.TEMPORAL_EXACT (Some (lit 1 1))) told))).

(** ** The graph lane *)

Definition edge_hit (nodes : list CurriculumNode.t) (node_ids : list uuid) (e : CurriculumEdge.t) (rank : Z)
    : RetrievalCandidate :=
  let confirmed := String.eqb (CurriculumEdge.confirmation e) "confirmed" in
  let related_id := if existsb (Z.eqb (CurriculumEdge.from_node_id e)) node_ids
                    then CurriculumEdge.to_node_id e else CurriculumEdge.from_node_id e in
  let snippet := match first (fun n => same (CurriculumNode.id n) related_id) nodes with
                 | Some n => CurriculumNode.title n
                 | None => CurriculumEdge.edge_kind e
                 end in
  {| rc_candidate_id := "graph:edge:" +:+ str_uuid (CurriculumEdge.id e); rc_canonical_type := "curriculum_edge";
     rc_canonical_id := CurriculumEdge.id e; rc_revision_id := CurriculumEdge.id e;
     rc_space_id := CurriculumEdge.space_id e; rc_lane := CandidateLane.GRAPH;
     rc_rank := if confirmed then rank else rank + 100; rc_locator := None;
     rc_snippet := Some (take_str 512 (CurriculumEdge.confirmation e +:+ ":" +:+ snippet));
     rc_score_hint := Some (if confirmed then lit 1 1 else lit 4 10) |}.

(** [for x in l: out.append(x); if len(out) >= limit: break], when [n] are there. *)
Fixpoint append_until {A} (limit n : Z) (l : list A) : list A :=
  match l with
  | [] => []
  | x :: l => x :: (if limit <=? n + 1 then [] else append_until limit (n + 1) l)
  end.

Definition graph_candidates (ctx : RequestContext) (query : string) (eligible_space_ids : list uuid)
    (max_results : Z) : M (list RetrievalCandidate) :=
  let trimmed := lower (strip query) in
  if negb (truthy trimmed) || match eligible_space_ids with [] => true | _ => false end then mret []
  else
    nodes ← select (fun n => same (CurriculumNode.account_id n) (account_id ctx) &&
                             in_spaces eligible_space_ids (CurriculumNode.space_id n));
    let node_ids := map CurriculumNode.id (keep (fun n => contains trimmed (lower (CurriculumNode.title n))) nodes) in
    match node_ids with
    | [] => mret []
    | _ =>
        edges ← select (fun e => same (CurriculumEdge.account_id e) (account_id ctx) &&
                                 in_spaces eligible_space_ids (CurriculumEdge.space_id e) &&
                                 (in_spaces node_ids (CurriculumEdge.from_node_id e) ||
                                  in_spaces node_ids (CurriculumEdge.to_node_id e)));
        let edge_hits := append_until max_results 0 (map (edge_hit nodes node_ids) edges) in
        let n := Z.of_nat (length edge_hits) in
        if n <? max_results then
          memories ← select (memory_rows (account_id ctx) eligible_space_ids ["active"] None);
          mret (ranked (edge_hits ++ append_until max_results n
            (map (memory_hit "graph:" CandidateLane.GRAPH None)
               (keep (fun r => contains trimmed (lower (MemoryRevision.assertion_text r)) &&
                               negb (existsb (String.eqb (MemoryRevision.status r)) ["pending"; "retracted"])) memories))))
        else mret (ranked edge_hits)
    end.

(** ** The semantic lane *)

(** The word characters of Latin-1. *)
Definition is_word (c : ascii) : bool :=
  let n := code c in
  ((48 <=? n)%N && (n <=? 57)%N) || ((65 <=? n)%N && (n <=? 90)%N) || (n =? 95)%N || ((97 <=? n)%N && (n <=? 122)%N) ||
  existsb (N.eqb n) [170; 178; 179; 181; 185; 186; 188; 189; 190]%N ||
  ((192 <=? n)%N && negb (n =? 215)%N && negb (n =? 247)%N).

(** The maximal runs of word characters; [cur] is the run being read, reversed. *)
Fixpoint words (cur : string) (s : string) : list string :=
  match s with
  | "" => if truthy cur then [srev cur] else []
  | String c s => if is_word c then words (String c cur) s
                  else if truthy cur then srev cur :: words "" s else words "" s
  end.

Definition tokenize (text : string) : list string := map lower (words "" text).

(** [Counter(tokens)]. *)
Definition counter (tokens : list string) : list (string * Z) :=
  foldl (fun d t => dict_set t (default 0 (dict_lookup t d) + 1) d) [] tokens.

(** [sum] of floats: the running sum and its compensation. *)
Definition sum_step (fc : f64 * f64) (x : f64) : f64 * f64 :=
  let '(f, c) := fc in
  let t := fadd f x in
  (t, if Z.abs x <=? Z.abs f then fadd c (fadd (fsub f t) x) else fadd c (fadd (fsub x t) f)).

Definition py_sum (l : list f64) : f64 :=
  match l with
  | [] => 0
  | x :: l => let '(f, c) := foldl sum_step (x, 0) l in if c =? 0 then f else fadd f c
  end.

(** [math.sqrt], correctly rounded: the integer root with a sticky bit. *)
Definition fsqrt (x : f64) : f64 :=
  let n := x * one in
  let s := Z.sqrt n in
  r64 (2 * s + (if s * s <? n then 1 else 0)) 2.

Definition DIMS : nat := 64.

Definition add_token (vec : list f64) (tc : string * Z) : list f64 :=
  let digest := sha256 (utf8 tc.1) in
  let index := (nth 0 digest 0 * 256 + nth 1 digest 0) mod Z.of_nat DIMS in
  let signed := if nth 2 digest 0 mod 2 =? 0 then of_int tc.2 else - of_int tc.2 in
  alter (fun v => fadd v signed) (Z.to_nat index) vec.

Definition embedding_hash (text : string) : list f64 :=
  match counter (tokenize text) with
  | [] => replicate DIMS 0
  | counts =>
      let vec := foldl add_token (replicate DIMS 0) counts in
      let root := fsqrt (py_sum (map (fun v => fmul v v) vec)) in
      let norm := if root =? 0 then lit 1 1 else root in
      map (fun v => fdiv v norm) vec
  end.

Definition cosine (a b : list f64) : f64 := py_sum (zip_with fmul a b).

Definition scored_hits {R} (query_vec : list f64) (min_score : f64) (text : R -> string) (hit : f64 -> R -> Hit)
    (l : list R) : list (f64 * Hit) :=
  List.flat_map (fun r => let score := cosine query_vec (embedding_hash (text r)) in
                          if score <? min_score then [] else [(score, hit score r)]) l.

Definition semantic_candidates (ctx : RequestContext) (query : string) (eligible_space_ids : list uuid)
    (as_of : option Z) (max_results : Z) (min_score : f64) : M (list RetrievalCandidate) :=
  let trimmed := strip query in
  if negb (truthy trimmed) || match eligible_space_ids with [] => true | _ => false end then mret []
  else
    let query_vec := embedding_hash trimmed in
    documents ← select (document_rows (account_id ctx) eligible_space_ids as_of);
    memories ← select (memory_rows (account_id ctx) eligible_space_ids ["active"] as_of);
    let scored :=
      scored_hits query_vec min_score plain_text_of
        (fun s => document_hit "semantic:" CandidateLane.OSS_SEMANTIC (Some s))
        (keep (fun r => truthy (plain_text_of r)) documents) ++
      scored_hits query_vec min_score MemoryRevision.assertion_text
        (fun s => memory_hit "semantic:" CandidateLane.OSS_SEMANTIC (Some s)) memories in
    mret (ranked (first_n max_results (map snd (sort_by (fun a b : f64 * Hit => b.1 <=? a.1) scored)))).

(** ** Filters *)

(** What the filters read of a candidate, fused or not. *)
Class Canonical (A : Type) := { canonical_type_of : A -> string; canonical_id_of : A -> uuid }.
#[export] Instance fused_canonical : Canonical FusedCandidate :=
  {| canonical_type_of := canonical_type; canonical_id_of := canonical_id |}.
#[export] Instance candidate_canonical : Canonical RetrievalCandidate :=
  {| canonical_type_of := rc_canonical_type; canonical_id_of := rc_canonical_id |}.

(** [[x for x in l if f(x)]] with a test that reads the ledger. *)
Fixpoint filterM {A} (f : A -> M bool) (l : list A) : M (list A) :=
  match l with
  | [] => mret []
  | x :: l => b ← f x; kept ← filterM f l; mret (if b : bool then x :: kept else kept)
  end.

Fixpoint map_res {A B} (f : A -> res B) (l : list A) : res (list B) :=
  match l with [] => Ok [] | x :: l => y ← f x; ys ← map_res f l; mret (y :: ys) end.

(** The visibility of every space of the account. *)
Definition _space_visibility_map (account : uuid) : M (list (uuid * SpaceVisibility.t)) :=
  rows ← select (fun r => same (Space.account_id r) account);
  lift (map_res (fun r => v ← of_option (ValueError "SpaceVisibility") (of_value (Space.visibility r));
                          mret (Space.id r, v)) rows).

Section filters.
Context {A : Type} `{Canonical A} `{HasSpace A}.

Definition filter_tombstoned (account : uuid) (candidates : list A) : M (list A) :=
  filterM (fun c => gone ← is_tombstoned account (canonical_type_of c) (canonical_id_of c); mret (negb gone)) candidates.

Definition filter_private_spaces (account : uuid) (candidates : list A) (allow_private : bool) : M (list A) :=
  if allow_private then mret candidates
  else
    spaces ← _space_visibility_map account;
    mret (keep (fun c => negb (bool_decide (visibility_of spaces (space_of c) = SpaceVisibility.PRIVATE))) candidates).

Definition filter_pending_and_retracted (account : uuid) (candidates : list A) : M (list A) :=
  pending ← select (fun r => same (Proposal.account_id r) account && String.eqb (Proposal.status r) "pending");
  retracted ← select (fun r => same (MemoryRevision.account_id r) account && String.eqb (MemoryRevision.status r) "retracted");
  mret (keep (fun c =>
    negb (existsb (Z.eqb (canonical_id_of c)) (map Proposal.target_id pending)) &&
    negb (String.eqb (canonical_type_of c) "memory" &&
          existsb (Z.eqb (canonical_id_of c)) (map MemoryRevision.memory_item_id retracted))) candidates).
End filters.

Definition filter_as_of (candidates : list RetrievalCandidate) (revision_created_at : list (uuid * Z)) (as_of : option Z)
    : list RetrievalCandidate :=
  match as_of with
  | None => candidates
  | Some t => keep (fun c => match first (fun rt => same rt.1 (rc_revision_id c)) revision_created_at with
                             | Some rt => rt.2 <=? t
                             | None => true
                             end) candidates
  end.

Example tokens_ex :
  (tokenize "Green-tea, 2x!", counter (tokenize "a b A")) = (["green"; "tea"; "2x"], [("a", 2); ("b", 1)]).
Proof. vm_compute. reflexivity. Qed.

Example cosine_ex : cosine (embedding_hash "tea") (embedding_hash "Tea!") = one.
Proof. vm_compute. reflexivity. Qed.

(** ** Candidates come from the ledger *)

(** A row of the account: its canonical type, identifier, revision and space. *)
Inductive row_of (account : uuid) (d : Db) : string -> uuid -> uuid -> uuid -> Prop :=
| row_document r : r ∈ rows d -> DocumentRevision.account_id r = account ->
    row_of account d "document" (DocumentRevision.document_id r) (DocumentRevision.id r) (DocumentRevision.space_id r)
| row_memory r : r ∈ rows d -> MemoryRevision.account_id r = account -> MemoryRevision.status r <> "retracted" ->
    row_of account d "memory" (MemoryRevision.memory_item_id r) (MemoryRevision.id r) (MemoryRevision.space_id r)
| row_element r : r ∈ rows d -> DocumentElement.account_id r = account ->
    row_of account d "document_element" (DocumentElement.id r) (DocumentElement.id r) (DocumentElement.space_id r)
| row_edge r : r ∈ rows d -> CurriculumEdge.account_id r = account ->
    row_of account d "curriculum_edge" (CurriculumEdge.id r) (CurriculumEdge.id r) (CurriculumEdge.space_id r).

(** A candidate stands for a row of the account in one of the spaces. *)
Record backed (account : uuid) (spaces : list uuid) (d : Db) (c : RetrievalCandidate) : Prop := {
  bk_row : row_of account d (rc_canonical_type c) (rc_canonical_id c) (rc_revision_id c) (rc_space_id c);
  bk_space : rc_space_id c ∈ spaces;
  bk_rank : 1 <= rc_rank c;
}.

Definition backed_hit account spaces d (h : Hit) : Prop := forall n, 1 <= n -> backed account spaces d (h n).

(** A lane reads the ledger and finds candidates that stand for its rows. *)
Definition sound_lane (account : uuid) (spaces : list uuid) (m : M (list RetrievalCandidate)) : Prop :=
  forall w l w', m w = Ok (l, w') -> w' = w /\ Forall (backed account spaces (db w)) l.

Section backed.
Context (account : uuid) (spaces : list uuid).

Lemma in_spaces_true s : in_spaces spaces s = true <-> s ∈ spaces.
Proof.
  unfold in_spaces. rewrite existsb_exists. setoid_rewrite Z.eqb_eq. setoid_rewrite <- list_elem_of_In.
  split; [by intros (x & Hx & ->)|]. intros Hs. by exists s.
Qed.

Lemma ranked_backed d hits : Forall (backed_hit account spaces d) hits -> Forall (backed account spaces d) (ranked hits).
Proof.
  intros Hh. unfold ranked. assert (Hg : forall n, 1 <= n -> Forall (backed account spaces d)
    (map (fun nh : Z * Hit => nh.2 nh.1) (enumerate n hits))); [|by apply Hg].
  induction Hh as [|h hits Hb Hh IH]; intros n Hn; cbn; [done|]. constructor; [by apply Hb|]. apply IH. lia.
Qed.

Lemma document_hit_backed d prefix lane hint as_of r :
  r ∈ rows d -> document_rows account spaces as_of r = true -> backed_hit account spaces d (document_hit prefix lane hint r).
Proof.
  intros Hr Hp n Hn. unfold document_rows, same in Hp. split_bool.
  constructor; [by apply row_document|by apply in_spaces_true|done].
Qed.

Lemma memory_hit_backed d prefix lane hint statuses as_of r :
  r ∈ rows d -> "retracted" ∉ statuses -> memory_rows account spaces statuses as_of r = true ->
  backed_hit account spaces d (memory_hit prefix lane hint r).
Proof.
  intros Hr Hs Hp n Hn. unfold memory_rows, same in Hp. rewrite !andb_true_iff, bool_decide_eq_true, in_spaces_true in Hp.
  destruct Hp as [[[Ha Hsp] Hst] _]. constructor; [apply row_memory; [done|done|]|done|done].
  intros E. apply existsb_exists in Hst as (x & Hx & Hq). apply String.eqb_eq in Hq. rewrite E in Hq. subst x.
  by apply Hs, list_elem_of_In.
Qed.

Lemma Forall_map_keep {R} (P : Hit -> Prop) (f : R -> Hit) (p q : R -> bool) l :
  (forall r, r ∈ l -> p r = true -> P (f r)) -> Forall P (map f (keep q (keep p l))).
Proof.
  intros Hf. apply Forall_map, Forall_forall. intros r Hr. apply elem_of_keep in Hr as [Hr _].
  apply elem_of_keep in Hr as [Hr Hp]. by apply Hf.
Qed.

Lemma append_until_sub {A} limit n (l : list A) x : x ∈ append_until limit n l -> x ∈ l.
Proof.
  revert n. induction l as [|y l IH]; intros n; cbn [append_until]; [done|].
  destruct (limit <=? n + 1); rewrite ?elem_of_cons, ?elem_of_nil; [tauto|]. intros [->|Hx]; [by left|right]. by eapply IH.
Qed.

Lemma Forall_append_until {A} (P : A -> Prop) limit n l : Forall P l -> Forall P (append_until limit n l).
Proof. rewrite !Forall_forall. intros Hp x Hx%append_until_sub. auto. Qed.
End backed.

Lemma sound_nothing account spaces : sound_lane account spaces (mret []).
Proof. intros w l w' Hm. cleanM. by split; [|constructor]. Qed.

Ltac read_rows H :=
  let Hs := fresh in stepM H; match goal with Hs : select _ _ = Ok _ |- _ => apply select_Ok in Hs as [-> ->] end.

Lemma temporal_sound ctx query spaces as_of n :
  sound_lane (account_id ctx) spaces (temporal_candidates ctx query spaces as_of n).
Proof.
  unfold temporal_candidates. destruct (_ || _); [apply sound_nothing|]. intros w l w' Hm. do 2 read_rows Hm. cleanM.
  split; [done|]. apply ranked_backed. unfold first_n. apply Forall_take, Forall_app. split; apply Forall_map_keep; intros r Hr Hp.
  - by eapply document_hit_backed.
  - eapply memory_hit_backed; [done| |exact Hp]. set_solver.
Qed.

Lemma graph_sound ctx query spaces n : sound_lane (account_id ctx) spaces (graph_candidates ctx query spaces n).
Proof.
  unfold graph_candidates. destruct (_ || _); [apply sound_nothing|]. intros w l w' Hm. read_rows Hm.
  remember (map CurriculumNode.id _) as node_ids eqn:E in Hm. clear E.
  destruct node_ids as [|i ids]; [by apply (sound_nothing (account_id ctx) spaces) in Hm|]. read_rows Hm.
  assert (He : forall k, Forall (backed_hit (account_id ctx) spaces (db w)) (append_until n 0 (map (edge_hit k (i :: ids))
    (keep (fun e => same (CurriculumEdge.account_id e) (account_id ctx) && in_spaces spaces (CurriculumEdge.space_id e) &&
      (in_spaces (i :: ids) (CurriculumEdge.from_node_id e) || in_spaces (i :: ids) (CurriculumEdge.to_node_id e)))
      (rows (db w)))))).
  { intros k. apply Forall_append_until, Forall_map, Forall_forall. intros e [He Hp]%elem_of_keep m Hm'.
    unfold same in Hp. split_bool. constructor; [by apply row_edge|by apply in_spaces_true|].
    cbn. destruct (String.eqb _ "confirmed"); lia. }
  destruct (_ <? n).
  - read_rows Hm. cleanM. split; [done|]. apply ranked_backed, Forall_app. split; [apply He|].
    apply Forall_append_until, Forall_map_keep. intros r Hr Hp. eapply memory_hit_backed; [done| |exact Hp]. set_solver.
  - cleanM. split; [done|]. apply ranked_backed, He.
Qed.

Lemma scored_hits_backed {R} account spaces d q m (text : R -> string) hit l :
  (forall s r, r ∈ l -> backed_hit account spaces d (hit s r)) ->
  Forall (fun sh : f64 * Hit => backed_hit account spaces d sh.2) (scored_hits q m text hit l).
Proof.
  intros Hh. apply Forall_forall. intros [s h] Hin. apply list_elem_of_In, in_flat_map in Hin as (r & Hr & Hin).
  apply list_elem_of_In in Hr. cbv zeta in Hin. case_match; [by destruct Hin|]. destruct Hin as [[= _ <-]|[]]. by apply Hh.
Qed.

Lemma semantic_sound ctx query spaces as_of n m :
  sound_lane (account_id ctx) spaces (semantic_candidates ctx query spaces as_of n m).
Proof.
  unfold semantic_candidates. destruct (_ || _); [apply sound_nothing|]. intros w l w' Hm. do 2 read_rows Hm. cleanM.
  split; [done|]. apply ranked_backed. unfold first_n. apply Forall_take, Forall_map, Forall_forall. intros sh.
  rewrite elem_of_sort_by. revert sh. apply Forall_forall, Forall_app. split; apply scored_hits_backed; intros s r.
  - intros [[Hr Hp]%elem_of_keep _]%elem_of_keep. by eapply document_hit_backed.
  - intros [Hr Hp]%elem_of_keep. eapply memory_hit_backed; [done| |exact Hp]. set_solver.
Qed.
