(* ===== verification/ContextService.v ===== *)
(** * Context service (services/core/src/memdot_core/context/service.py)

    The local lexical lane and the compilation of a context receipt for a
    request, over [Lanes], [Retrieval] and [ContextCompiler]. *)

From Stdlib Require Import ZArith Lia.
From stdpp Require Import list strings.
From S2P Require Import Prelude PyStr Digest Json Uuid Enums Float64 Retrieval ContextCompiler Ledger Store RequestContext Deletion Lanes.
Open Scope Z_scope.

Definition POLICY_VERSION : string := "context-compiler-v1".

Definition exact_text_of (r : DocumentElement.t) : string := default "" (DocumentElement.exact_text r).

Definition element_rows (account : uuid) (spaces : list uuid) (r : DocumentElement.t) : bool :=
  same (DocumentElement.account_id r) account && in_spaces spaces (DocumentElement.space_id r) &&
  match DocumentElement.exact_text r with Some _ => true | None => false end.

Definition element_hit (r : DocumentElement.t) : Hit :=
  fun rank =>
  {| rc_candidate_id := "element:" +:+ str_uuid (DocumentElement.id r); rc_canonical_type := "document_element";
     rc_canonical_id := DocumentElement.id r; rc_revision_id := DocumentElement.id r;
     rc_space_id := DocumentElement.space_id r; rc_lane := CandidateLane.EXACT; rc_rank := rank;
     rc_locator := DocumentElement.locator r; rc_snippet := Some (take_str 512 (exact_text_of r));
     rc_score_hint := None |}.

(** The texts by candidate identifier, in the order found. *)
Definition corpus_of (found : list (Hit * string)) : list (string * string) :=
  foldl (fun d ht => dict_set (rc_candidate_id (ht.1 1)) ht.2 d) [] found.

(** The candidates whose text holds the query, all of them when none does. *)
Definition matching (query : string) (corpus : list (string * string)) (hits : list Hit) : list Hit :=
  let query_lower := lower query in
  if truthy query_lower then
    match keep (fun h => contains query_lower (lower (default "" (dict_lookup (rc_candidate_id (h 1)) corpus)))) hits with
    | [] => hits
    | matched => matched
    end
  else hits.

Definition _local_candidates (ctx : RequestContext) (query : string) (eligible_space_ids : list uuid)
    : M (list RetrievalCandidate * list (string * string)) :=
  documents ← select (document_rows (account_id ctx) eligible_space_ids None);
  memories ← select (memory_rows (account_id ctx) eligible_space_ids ["active"] None);
  elements ← select (element_rows (account_id ctx) eligible_space_ids);
  let found :=
    map (fun r => (document_hit "" CandidateLane.EXACT None r, plain_text_of r))
        (keep (fun r => truthy (plain_text_of r)) documents) ++
    map (fun r => (memory_hit "" CandidateLane.EXACT None r, MemoryRevision.assertion_text r)) memories ++
    map (fun r => (element_hit r, exact_text_of r)) (keep (fun r => truthy (exact_text_of r)) elements) in
  let corpus := corpus_of found in
  mret (ranked (matching query corpus (map fst found)), corpus).

Definition local_candidates (ctx : RequestContext) (query : string) (eligible_space_ids : list uuid)
    : M (list RetrievalCandidate * list (string * string)) :=
  _local_candidates ctx query eligible_space_ids.

Record CompiledContext := {
  cc_receipt_id : uuid;
  cc_query_hash : string;
  cc_context_hash : string;
  cc_partial : bool;
  cc_policy_version : string;
  cc_evidence : list EvidenceItem;
}.

(** The spaces a request may read: its own, or all of the account's when it names none. *)
Definition eligible_spaces_of (ctx : RequestContext) (visibilities : list (uuid * SpaceVisibility.t)) : list uuid :=
  match eligible_space_ids ctx with [] => map fst visibilities | l => l end.

Definition non_private (visibilities : list (uuid * SpaceVisibility.t)) (spaces : list uuid) : list uuid :=
  keep (fun s => negb (bool_decide (visibility_of visibilities s = SpaceVisibility.PRIVATE))) spaces.

Section service.
Context `{Env}.

Definition receipt_row (id account : uuid) (r : ContextReceipt) (t : Z) : Ledger.ContextReceipt.t :=
  {| Ledger.ContextReceipt.id := id; Ledger.ContextReceipt.account_id := account;
     Ledger.ContextReceipt.query_hash := r_query_hash r; Ledger.ContextReceipt.purpose := ContextCompiler.purpose r;
     Ledger.ContextReceipt.policy_version := policy_version r;
     Ledger.ContextReceipt.eligible_spaces := map (fun s => JStr (str_uuid s)) (eligible_spaces r);
     Ledger.ContextReceipt.provider_versions := map (fun kv => (kv.1, JStr kv.2)) (provider_versions r);
     Ledger.ContextReceipt.budget := [("max_tokens", JInt (max_tokens (r_budget r))); ("max_items", JInt (max_items (r_budget r)))];
     Ledger.ContextReceipt.context_hash := r_context_hash r; Ledger.ContextReceipt.partial := partial r;
     Ledger.ContextReceipt.created_at := t |}.

Definition receipt_item_row (id account receipt_id : uuid) (i : EvidenceItem) : ContextReceiptItem.t :=
  {| ContextReceiptItem.id := id; ContextReceiptItem.account_id := account; ContextReceiptItem.receipt_id := receipt_id;
     ContextReceiptItem.rank := rank i; ContextReceiptItem.canonical_type := item_type i;
     ContextReceiptItem.canonical_id := item_id i; ContextReceiptItem.revision_id := item_revision i;
     ContextReceiptItem.locator := item_locator i; ContextReceiptItem.selected := selected i;
     ContextReceiptItem.omit_reason := option_map value (omit_reason i) |}.

Definition store_receipt (account : uuid) (receipt : ContextReceipt) : M uuid :=
  receipt_id ← new_uuid;
  t ← now;
  _ ← add (receipt_row receipt_id account receipt t);
  _ ← forM (r_items receipt) (fun item => id ← new_uuid; add (receipt_item_row id account receipt_id item));
  mret receipt_id.

(** What is read before the tenant scope: the receipt of the request. *)
Definition context_receipt (ctx : RequestContext) (query : string) (purpose : option string) (max_tokens max_items : Z)
    : M ContextReceipt :=
  let active_purpose := match purpose with Some (String c p) => String c p | _ => value (RequestContext.purpose ctx) end in
  visibilities ← _space_visibility_map (account_id ctx);
  let eligible := eligible_spaces_of ctx visibilities in
  let eligible := if String.eqb active_purpose (value RequestPurpose.EXTERNAL_READ)
                  then non_private visibilities eligible else eligible in
  '(raw_candidates, corpus) ← _local_candidates ctx query eligible;
  fused ← lift (fuse_candidates [(CandidateLane.EXACT, raw_candidates)] RRF_K None);
  let fused := exclude_private_spaces fused visibilities active_purpose in
  uuid4 ← new_uuid;
  mret (compile_context uuid4 query active_purpose POLICY_VERSION eligible [("local_lexical", "v1")] fused corpus
          (Some {| ContextCompiler.max_tokens := max_tokens; ContextCompiler.max_items := max_items |})).

Definition compile_context_for_request (ctx : RequestContext) (query : string) (purpose : option string)
    (max_tokens max_items : Z) : M CompiledContext :=
  receipt ← context_receipt ctx query purpose max_tokens max_items;
  receipt_id ← store_receipt (account_id ctx) receipt;
  mret {| cc_receipt_id := receipt_id; cc_query_hash := r_query_hash receipt; cc_context_hash := r_context_hash receipt;
          cc_partial := partial receipt; cc_policy_version := policy_version receipt; cc_evidence := r_items receipt |}.
End service.

(** ** Candidates *)

Lemma map_res_Ok {A B} (f : A -> res B) l ys : map_res f l = Ok ys ->
  forall y, y ∈ ys <-> exists x, x ∈ l /\ f x = Ok y.
Proof.
  revert ys. induction l as [|x l IH]; intros ys Hm y; cbn [map_res] in Hm.
  - injection Hm as <-. split; [by intros ?%elem_of_nil|by intros (x & ?%elem_of_nil & _)].
  - apply bind_Ok in Hm as (z & Hx & Hm). apply bind_Ok in Hm as (zs & Hl & [= <-]). rewrite elem_of_cons, (IH _ Hl).
    split.
    + intros [->|(x' & Hx' & Hf)]; [exists x; by split; [left|]|exists x'; by split; [right|]].
    + intros (x' & [->|Hx']%elem_of_cons & Hf); [left; congruence|right; eauto].
Qed.

(** The visibility map lists the spaces of the account with their visibility. *)
Lemma visibility_map_Ok account w vis w' : _space_visibility_map account w = Ok (vis, w') ->
  w' = w /\ forall s v, (s, v) ∈ vis <-> exists r, r ∈ rows (db w) /\ Space.account_id r = account /\ Space.id r = s /\
    Space.visibility r = value v.
Proof.
  intros Hm. unfold _space_visibility_map in Hm. stepM Hm. apply select_Ok in H as [-> ->]. cleanM. split; [done|].
  pose proof (map_res_Ok _ _ _ H) as Hres. clear H. set (l := keep _ (rows (db w))) in *.
  assert (Hl : forall r, r ∈ l <-> r ∈ rows (db w) /\ Space.account_id r = account).
  { intros r. unfold l. rewrite elem_of_keep. unfold same. by rewrite bool_decide_eq_true. }
  assert (Hf : forall r (sv : uuid * SpaceVisibility.t), (v ← of_option (ValueError "SpaceVisibility") (of_value (Space.visibility r));
      mret (Space.id r, v)) = Ok sv <-> sv.1 = Space.id r /\ Space.visibility r = value sv.2).
  { intros r [s v]. rewrite bind_Ok. setoid_rewrite of_option_Ok. setoid_rewrite of_value_Some. cbn. split.
    - intros (x & Hx & [= -> ->]). done.
    - intros [-> Hx]. by exists v. }
  intros s v. rewrite (Hres (s, v)). split.
  - intros (r & Hr & Hsv). apply Hf in Hsv as [Hs Hv]. cbn in *. apply Hl in Hr as [Hr Ha]. by exists r.
  - intros (r & Hr & Ha & Hs & Hv). exists r. split; [by apply Hl|by apply Hf].
Qed.

(** A space no row of the account makes private. *)
Definition not_private (account : uuid) (d : Db) (space : uuid) : Prop :=
  forall r, r ∈ rows d -> Space.account_id r = account -> Space.id r = space ->
    Space.visibility r <> value SpaceVisibility.PRIVATE.

Lemma visibility_of_elem (vis : list (uuid * SpaceVisibility.t)) s v :
  NoDup (map fst vis) -> (s, v) ∈ vis -> visibility_of vis s = v.
Proof.
  intros Hn Hin. unfold visibility_of. induction vis as [|[s' v'] vis IH]; [by apply elem_of_nil in Hin|].
  cbn [first fst snd map] in *. apply NoDup_cons in Hn as [Hx Hn]. apply elem_of_cons in Hin as [[= <- <-]|Hin].
  - by rewrite Z.eqb_refl.
  - destruct (Z.eqb_spec s' s) as [->|_]; [|by apply IH]. exfalso. apply Hx, list_elem_of_fmap. by exists (s, v).
Qed.

Lemma map_res_fst account (rows : list Space.t) vis :
  map_res (fun r => v ← of_option (ValueError "SpaceVisibility") (of_value (A := SpaceVisibility.t) (Space.visibility r));
                    mret (Space.id r, v)) (keep (fun r => same (Space.account_id r) account) rows) = Ok vis ->
  map fst vis = map Space.id (keep (fun r => same (Space.account_id r) account) rows).
Proof.
  generalize (keep (fun r => same (Space.account_id r) account) rows). intros l. revert vis.
  induction l as [|r l IH]; intros vis Hm; cbn [map_res] in Hm; [by injection Hm as <-|].
  apply bind_Ok in Hm as (y & Hx & Hm). apply bind_Ok in Hm as (zs & Hl & [= <-]).
  apply bind_Ok in Hx as (v & _ & [= <-]). cbn. by rewrite (IH _ Hl).
Qed.

(** The visibility map tells which spaces are private. *)
Lemma visible_not_private account w vis w' s :
  NoDup (map Space.id (rows (R := Space.t) (db w))) -> _space_visibility_map account w = Ok (vis, w') ->
  visibility_of vis s <> SpaceVisibility.PRIVATE -> not_private account (db w) s.
Proof.
  intros Hn Hm Hv r Hr Ha <- Hp. apply Hv. apply visibility_of_elem.
  - unfold _space_visibility_map in Hm. stepM Hm. apply select_Ok in H as [-> ->]. cleanM.
    rewrite (map_res_fst _ _ _ H). eapply sublist_NoDup; [exact Hn|]. apply keep_map_sublist.
  - apply visibility_map_Ok in Hm as [_ Hm]. apply Hm. by exists r.
Qed.

Lemma corpus_hits_backed account spaces d as_of statuses query corpus (docs : list DocumentRevision.t) mems els :
  (forall r, r ∈ docs -> r ∈ rows d /\ document_rows account spaces as_of r = true) ->
  (forall r, r ∈ mems -> r ∈ rows d /\ memory_rows account spaces statuses as_of r = true) -> "retracted" ∉ statuses ->
  (forall r, r ∈ els -> r ∈ rows d /\ element_rows account spaces r = true) ->
  Forall (backed_hit account spaces d) (matching query corpus
    (map (document_hit "" CandidateLane.EXACT None) docs ++ map (memory_hit "" CandidateLane.EXACT None) mems ++
     map element_hit els)).
Proof.
  intros Hd Hm Hs He.
  assert (Hall : Forall (backed_hit account spaces d) (map (document_hit "" CandidateLane.EXACT None) docs ++
    map (memory_hit "" CandidateLane.EXACT None) mems ++ map element_hit els)).
  { rewrite !Forall_app, !Forall_map, !Forall_forall. split_and!; intros r Hr.
    - apply Hd in Hr as [Hr Hp]. by eapply document_hit_backed.
    - apply Hm in Hr as [Hr Hp]. by eapply memory_hit_backed.
    - apply He in Hr as [Hr Hp]. intros n Hn. unfold element_rows, same in Hp. split_bool.
      constructor; [by apply row_element|by apply in_spaces_true|done]. }
  unfold matching. destruct (truthy _); [|exact Hall].
  destruct (keep _ _) as [|h l] eqn:E; [exact Hall|]. rewrite <- E. apply Forall_forall. intros x [Hx _]%elem_of_keep.
  by eapply Forall_forall in Hall.
Qed.

Lemma local_sound ctx query spaces w l corpus w' :
  local_candidates ctx query spaces w = Ok ((l, corpus), w') ->
  w' = w /\ Forall (backed (account_id ctx) spaces (db w)) l.
Proof.
  unfold local_candidates, _local_candidates. intros Hm. do 3 read_rows Hm. cleanM. split; [done|].
  apply ranked_backed. rewrite !map_app, !map_map. cbn [fst].
  apply (corpus_hits_backed _ _ _ None ["active"]); [| |set_solver|]; intros r.
  - intros [[? ?]%elem_of_keep _]%elem_of_keep. done.
  - intros [? ?]%elem_of_keep. done.
  - intros [[? ?]%elem_of_keep _]%elem_of_keep. done.
Qed.

(** ** Fused candidates *)

(** A fused candidate stands for what its hits stand for. *)
Record backed_fused (account : uuid) (spaces : list uuid) (d : Db) (f : FusedCandidate) : Prop := {
  bf_row : row_of account d (canonical_type f) (canonical_id f) (revision_id f) (space_id f);
  bf_space : space_id f ∈ spaces;
}.

Lemma merged_backed account spaces d ws hs f :
  backed_fused account spaces d f ->
  backed_fused account spaces d (foldl (fun f h => merge h.1 (contribution RRF_K ws h) h.2 f) f hs).
Proof.
  revert f. induction hs as [|h hs IH]; intros f Hf; [done|]. cbn [foldl]. apply IH. destruct Hf. by constructor.
Qed.

Lemma fused_backed account spaces d lr ws out f :
  Forall (backed account spaces d) (map snd (all_hits lr)) ->
  fuse_candidates lr RRF_K ws = Ok out -> f ∈ out -> backed_fused account spaces d f.
Proof.
  intros Hb Hf Hin. destruct (fuse_candidates_spec lr RRF_K ws) as (out' & Ho & Hspec & _).
  { rewrite Forall_map in Hb. eapply Forall_impl; [exact Hb|]. intros h [_ _ Hr]. unfold rank_ok, RRF_K. lia. }
  rewrite Hf in Ho. injection Ho as <-. apply Hspec in Hin. unfold fused_of in Hin.
  rewrite hits_of_with_id in Hin. destruct (with_id _ _) as [|h hs] eqn:E; [done|].
  assert (Hh : h ∈ with_id (candidate_id f) (all_hits lr)) by (rewrite E; by left).
  injection Hin as <-. apply merged_backed.
  apply elem_of_keep in Hh as [Hh _]. rewrite Forall_map, Forall_forall in Hb. destruct (Hb h Hh). by constructor.
Qed.

Lemma fuse_Ok account spaces d lr ws :
  Forall (backed account spaces d) (map snd (all_hits lr)) -> exists out, fuse_candidates lr RRF_K ws = Ok out.
Proof.
  intros Hb. destruct (fuse_candidates_spec lr RRF_K ws) as (out' & Ho & _); [|by eauto].
  rewrite Forall_map in Hb. eapply Forall_impl; [exact Hb|]. intros h [_ _ Hr]. unfold rank_ok, RRF_K. lia.
Qed.

(** ** The compiled context *)

Lemma elem_of_enumerate {A} n m (x : A) l : (m, x) ∈ enumerate n l -> x ∈ l.
Proof.
  revert n. induction l as [|y l IH]; intros n; cbn [enumerate]; [by intros ?%elem_of_nil|].
  intros [[= _ ->]|Hin]%elem_of_cons; [by left|right; by eapply IH].
Qed.

Section compiled.
Context `{Env}.

(** Storing a receipt adds its row and one row per item, in order. *)
Lemma store_items_Ok account receipt_id items w u w' :
  forM items (fun item => id ← new_uuid; add (receipt_item_row id account receipt_id item)) w = Ok (u, w') ->
  rows (R := Ledger.ContextReceipt.t) (db w') = rows (db w) /\
  exists ids, length ids = length items /\
    rows (db w') = rows (db w) ++ zip_with (fun id item => receipt_item_row id account receipt_id item) ids items.
Proof.
  revert w. induction items as [|i items IH]; intros w Hm; cbn [forM] in Hm.
  - cleanM. split; [done|]. exists []. by rewrite app_nil_r.
  - step Hm as Ha. draw Ha. apply add_Ok in Ha as [_ ->]. apply IH in Hm as (Hr & ids & Hl & Hi). rows_simpl.
    split; [done|]. exists (fresh_uuid (tick w) :: ids). cbn. split; [by f_equal|]. by rewrite Hi, <- app_assoc.
Qed.

Lemma store_receipt_Ok account receipt w id w' : store_receipt account receipt w = Ok (id, w') ->
  (exists t, rows (db w') = rows (db w) ++ [receipt_row id account receipt t]) /\
  exists ids, length ids = length (r_items receipt) /\
    rows (db w') = rows (db w) ++ zip_with (fun i item => receipt_item_row i account id item) ids (r_items receipt).
Proof.
  unfold store_receipt. intros Hm. draw Hm. draw Hm. step Hm as Ha. apply add_Ok in Ha as [_ ->]. step Hm as Hs. cleanM.
  apply store_items_Ok in Hs as [Hr Hi]. rows_simpl. split; [by eexists|exact Hi].
Qed.

(** The spaces a context of a purpose is compiled from. *)
Definition context_spaces (ctx : RequestContext) (active_purpose : string) (vis : list (uuid * SpaceVisibility.t)) : list uuid :=
  if String.eqb active_purpose (value RequestPurpose.EXTERNAL_READ) then non_private vis (eligible_spaces_of ctx vis)
  else eligible_spaces_of ctx vis.

Lemma context_spaces_sound ctx purpose vis w w' s : NoDup (map Space.id (rows (R := Space.t) (db w))) ->
  _space_visibility_map (account_id ctx) w = Ok (vis, w') -> s ∈ context_spaces ctx purpose vis ->
  s ∈ eligible_spaces_of ctx vis /\ (purpose = value RequestPurpose.EXTERNAL_READ -> not_private (account_id ctx) (db w) s).
Proof.
  intros Hn Hv Hs. unfold context_spaces in Hs. destruct (String.eqb_spec purpose (value RequestPurpose.EXTERNAL_READ)) as [->|Hne]; [|by split].
  apply elem_of_keep in Hs as [Hs Hp]. split; [done|]. intros _.
  eapply visible_not_private; [done..|]. by apply negb_true_iff, bool_decide_eq_false in Hp.
Qed.

(** The items packed from the candidates of a request stand for rows in its spaces. *)
Lemma packed_items_backed account spaces d raw fused vis purpose corpus b :
  Forall (backed account spaces d) raw -> fuse_candidates [(CandidateLane.EXACT, raw)] RRF_K None = Ok fused ->
  Forall (fun i => exists space, row_of account d (item_type i) (item_id i) (item_revision i) space /\ space ∈ spaces)
    (items (pack corpus b (exclude_private_spaces fused vis purpose))).
Proof.
  intros Hraw Hf.
  assert (Hitems : Forall2 (fun nc i => item_of corpus nc.1 nc.2 i)
    (enumerate 1 (exclude_private_spaces fused vis purpose)) (items (pack corpus b (exclude_private_spaces fused vis purpose)))) by apply pack_packed.
  apply Forall_forall. intros i [j Hj]%list_elem_of_lookup.
  destruct (Forall2_lookup_r _ _ _ _ _ Hitems Hj) as ([n f] & Hnf & _ & Ht & Hid & Hrev & _). cbn [fst snd] in Ht, Hid, Hrev.
  assert (Hin : f ∈ fused).
  { apply list_elem_of_lookup_2 in Hnf. assert (He : f ∈ exclude_private_spaces fused vis purpose) by by eapply elem_of_enumerate.
    unfold exclude_private_spaces in He. destruct (negb _); [done|by apply elem_of_keep in He as [He _]]. }
  assert (Hb : backed_fused account spaces d f).
  { eapply fused_backed; [|exact Hf|exact Hin]. unfold all_hits. cbn. by rewrite app_nil_r, map_map, map_id. }
  destruct Hb as [Hrow Hsp]. exists (space_id f). by rewrite Ht, Hid, Hrev.
Qed.

Lemma partial_omits (its : list EvidenceItem) :
  existsb (fun i => negb (selected i)) its = true <-> exists i, i ∈ its /\ selected i = false.
Proof.
  rewrite existsb_exists. split; intros (i & Hi & Hs); exists i; [rewrite list_elem_of_In; by apply negb_true_iff in Hs|].
  rewrite <- list_elem_of_In, Hs. done.
Qed.

(** A stored item says what its item of evidence says. *)
Record item_recorded (account receipt_id : uuid) (i : EvidenceItem) (row : ContextReceiptItem.t) : Prop := {
  ir_account : ContextReceiptItem.account_id row = account;
  ir_receipt : ContextReceiptItem.receipt_id row = receipt_id;
  ir_rank : ContextReceiptItem.rank row = rank i;
  ir_type : ContextReceiptItem.canonical_type row = item_type i;
  ir_id : ContextReceiptItem.canonical_id row = item_id i;
  ir_revision : ContextReceiptItem.revision_id row = item_revision i;
  ir_locator : ContextReceiptItem.locator row = item_locator i;
  ir_selected : ContextReceiptItem.selected row = selected i;
  ir_reason : ContextReceiptItem.omit_reason row = option_map value (omit_reason i);
}.

(** A stored receipt says what was asked and what is answered. *)
Record receipt_recorded (account : uuid) (query purpose : string) (mt mi : Z) (spaces : list uuid) (c : CompiledContext)
    (row : Ledger.ContextReceipt.t) : Prop := {
  rr_id : Ledger.ContextReceipt.id row = cc_receipt_id c;
  rr_account : Ledger.ContextReceipt.account_id row = account;
  rr_purpose : Ledger.ContextReceipt.purpose row = purpose;
  rr_policy : Ledger.ContextReceipt.policy_version row = "context-compiler-v1" /\ cc_policy_version c = "context-compiler-v1";
  rr_query : Ledger.ContextReceipt.query_hash row = cc_query_hash c /\
    cc_query_hash c = sha256_str (dumps (JObj [("query", JStr (strip query)); ("purpose", JStr purpose); ("policy_version", JStr "context-compiler-v1")]));
  rr_context : Ledger.ContextReceipt.context_hash row = cc_context_hash c /\ cc_context_hash c = context_hash (cc_evidence c);
  rr_partial : Ledger.ContextReceipt.partial row = cc_partial c /\
    (cc_partial c = true <-> exists i, i ∈ cc_evidence c /\ selected i = false);
  rr_spaces : Ledger.ContextReceipt.eligible_spaces row = map (fun s => JStr (str_uuid s)) spaces;
  rr_budget : Ledger.ContextReceipt.budget row = [("max_tokens", JInt mt); ("max_items", JInt mi)];
}.

(** C18: whatever purpose is asked for, or that of the request when none is, a
    compiled context answers evidence that is rows of the account in the spaces the
    request may read, none of them private under external_read; and it is recorded
    as it is answered: one receipt row with the hashes, the budget and whether
    something was left out, and one item row for each item of evidence, in order. *)
Theorem compiled_context_sound ctx query asked mt mi w c w' :
  NoDup (map Space.id (rows (R := Space.t) (db w))) ->
  compile_context_for_request ctx query asked mt mi w = Ok (c, w') ->
  let purpose := if truthy (default "" asked) then default "" asked else value (RequestContext.purpose ctx) in
  exists vis spaces, _space_visibility_map (account_id ctx) w = Ok (vis, w) /\
  (forall s, s ∈ spaces -> s ∈ eligible_spaces_of ctx vis /\
     (purpose = value RequestPurpose.EXTERNAL_READ -> not_private (account_id ctx) (db w) s)) /\
  Forall (fun i => exists space, row_of (account_id ctx) (db w) (item_type i) (item_id i) (item_revision i) space /\
    space ∈ spaces) (cc_evidence c) /\
  (exists row, rows (db w') = rows (db w) ++ [row] /\ receipt_recorded (account_id ctx) query purpose mt mi spaces c row) /\
  exists items, rows (db w') = rows (db w) ++ items /\
    Forall2 (item_recorded (account_id ctx) (cc_receipt_id c)) (cc_evidence c) items.
Proof.
  cbv zeta. set (purpose := if truthy _ then _ else _). intros Hn Hc. unfold compile_context_for_request in Hc. step Hc as Hm. unfold context_receipt in Hm.
  replace (match asked with Some (String c p) => String c p | _ => value (RequestContext.purpose ctx) end)
    with purpose in Hm by by destruct asked as [[|ch p]|].
  step Hm as Hv. pose proof (visibility_map_Ok _ _ _ _ Hv) as [-> _]. rename a0 into vis. exists vis, (context_spaces ctx purpose vis).
  split; [done|]. split; [intros s Hs; by eapply context_spaces_sound|]. step Hm as Hl.
  match type of Hl with _ = Ok (?p, _) => destruct p as [raw corpus] end.
  change (local_candidates ctx query (context_spaces ctx purpose vis) w = Ok (raw, corpus, w1)) in Hl.
  apply local_sound in Hl as [-> Hraw]. step Hm as Hf. rename a0 into fused. cleanM. draw Hm. cleanM. step Hc as Hs. cleanM.
  apply store_receipt_Ok in Hs as [[t Hr] (ids & Hlen & Hi)]. cbn [cc_evidence cc_receipt_id].
  match type of Hr with context [receipt_row _ _ ?r _] => set (receipt := r) in * end. rows_simpl.
  split; [|split].
  - by eapply packed_items_backed.
  - eexists. split; [exact Hr|]. split; try done. split; [done|]. exact (partial_omits (r_items receipt)).
  - eexists. split; [exact Hi|]. clear - Hlen. revert ids Hlen. induction (r_items receipt) as [|i l IH]; intros [|id ids] Hlen; try done.
    cbn. constructor; [by split|]. apply IH. by injection Hlen.
Qed.
End compiled.

(** ** Witness *)

(** Two spaces, one of them private, with a memory in each. *)
Definition sample_space (id : uuid) (visibility : string) : Space.t :=
  {| Space.id := id; Space.account_id := 1; Space.name := "space"; Space.visibility := visibility; Space.created_at := 0 |}.

Definition sample_item (id space : uuid) : MemoryItem.t :=
  {| MemoryItem.id := id; MemoryItem.account_id := 1; MemoryItem.space_id := space; MemoryItem.title := "note";
     MemoryItem.created_at := 0 |}.

Definition sample_memory (id item space : uuid) : MemoryRevision.t :=
  {| MemoryRevision.id := id; MemoryRevision.account_id := 1; MemoryRevision.space_id := space;
     MemoryRevision.memory_item_id := item; MemoryRevision.base_revision_id := None;
     MemoryRevision.assertion_text := "linear algebra"; MemoryRevision.truth_class := "user_assertion";
     MemoryRevision.status := "active"; MemoryRevision.content_sha256 := ""; MemoryRevision.provenance_json := [];
     MemoryRevision.created_at := 0 |}.

Definition memory_world : World :=
  {| db := set_rows [sample_space 7 "general"; sample_space 8 "private"]
             (set_rows [sample_item 60 7; sample_item 61 8]
                (set_rows [sample_memory 70 60 7; sample_memory 71 61 8] empty_db)); tick := 0 |}.

Lemma memory_world_spaces : NoDup (map Space.id (rows (R := Space.t) (db memory_world))).
Proof. change (NoDup [7; 8]). repeat constructor; set_solver. Qed.

Lemma compiled_context_sound_witness : exists c w',
  @compile_context_for_request test_env test_ctx "algebra" (Some "external_read") 100 10 memory_world = Ok (c, w') /\
  map item_revision (cc_evidence c) = [70] /\
  Forall (fun i => exists space, row_of 1 (db memory_world) (item_type i) (item_id i) (item_revision i) space /\
    not_private 1 (db memory_world) space) (cc_evidence c).
Proof.
  destruct (@compile_context_for_request test_env test_ctx "algebra" (Some "external_read") 100 10 memory_world)
    as [[c w']|e] eqn:E; [|vm_compute in E; discriminate E]. exists c, w'. split; [reflexivity|]. split.
  - assert (Hi : match @compile_context_for_request test_env test_ctx "algebra" (Some "external_read") 100 10 memory_world with
      Ok (c, _) => map item_revision (cc_evidence c) | _ => [] end = [70]) by (vm_compute; reflexivity).
    rewrite E in Hi. exact Hi.
  - destruct (@compiled_context_sound test_env test_ctx "algebra" (Some "external_read") 100 10 memory_world c w'
      memory_world_spaces E) as (vis & spaces & _ & Hp & Hf & _).
    eapply Forall_impl; [exact Hf|]. intros i (space & Hr & Hs). exists space. split; [exact Hr|exact (proj2 (Hp space Hs) eq_refl)].
Defined.
