(* ===== verification/McpService.v ===== *)
(** * MCP service (services/core/src/memdot_core/mcp/service.py)

    What external clients reach: search and fetch over the canonical rows,
    contexts, memory proposals and recorded interactions.  A result dictionary
    of the service is a record here. *)

From Stdlib Require Import ZArith Lia.
From stdpp Require Import list strings.
From S2P Require Import Prelude PyStr Json JsonParse Uuid Enums Float64 Retrieval ContextCompiler McpIds Ledger Store Outbox RequestContext Deletion Pointers Memory Document Documents ConversationCrypto Conversations Lanes ContextService.
Open Scope Z_scope.

Definition is_external (p : RequestPurpose.t) : bool :=
  bool_decide (p ∈ [RequestPurpose.EXTERNAL_READ; RequestPurpose.EXTERNAL_PROPOSE; RequestPurpose.EXTERNAL_INTERACTION]).

(** An external request reads the spaces it was given, possibly none. *)
Definition _eligible_non_private_spaces (ctx : RequestContext) (visibilities : list (uuid * SpaceVisibility.t)) : list uuid :=
  non_private visibilities
    (if is_external (RequestContext.purpose ctx) then eligible_space_ids ctx else eligible_spaces_of ctx visibilities).

Definition _is_entity_available (account : uuid) (entity_type : string) (entity : uuid) : M bool :=
  gone ← is_tombstoned account entity_type entity; mret (negb gone).

Record SearchResult := { sr_id : string; sr_title : string; sr_url : string }.

Definition search_result (public_base_url : string) (c : FusedCandidate) : SearchResult :=
  {| sr_id := encode_mcp_public_id (canonical_type c) (canonical_id c) (Some (revision_id c));
     sr_title := match snippet c with Some s => if truthy s then take_str 120 s else canonical_type c
                 | None => canonical_type c end;
     sr_url := citation_url public_base_url (canonical_type c) (canonical_id c) |}.

Definition search (ctx : RequestContext) (query public_base_url : string) (max_results : Z) (as_of : option Z)
    : M (list SearchResult) :=
  let trimmed := strip query in
  if negb (truthy trimmed) || (2048 <? str_len trimmed) then mret []
  else
    visibilities ← _space_visibility_map (account_id ctx);
    let eligible := _eligible_non_private_spaces ctx visibilities in
    '(exact, _) ← local_candidates ctx trimmed eligible;
    graph ← graph_candidates ctx trimmed eligible 20;
    semantic ← semantic_candidates ctx trimmed eligible as_of 20 (lit 15 100);
    temporal ← temporal_candidates ctx trimmed eligible as_of 20;
    fused ← lift (fuse_candidates
      [(CandidateLane.TEMPORAL_EXACT, temporal); (CandidateLane.EXACT, exact); (CandidateLane.GRAPH, graph);
       (CandidateLane.OSS_SEMANTIC, semantic)] RRF_K None);
    let fused := exclude_private_spaces fused visibilities (value RequestPurpose.EXTERNAL_READ) in
    fused ← filter_private_spaces (account_id ctx) fused false;
    fused ← filter_tombstoned (account_id ctx) fused;
    fused ← filter_pending_and_retracted (account_id ctx) fused;
    available ← filterM (fun c => _is_entity_available (account_id ctx) (canonical_type c) (canonical_id c))
                  (first_n max_results fused);
    mret (map (search_result public_base_url) available).

(** ** Fetching one entity *)

Record Fetched := { fe_id : string; fe_title : string; fe_text : string; fe_url : string; fe_metadata : dict }.

Definition _space_is_private (visibilities : list (uuid * SpaceVisibility.t)) (space : uuid) : bool :=
  bool_decide (visibility_of visibilities space = SpaceVisibility.PRIVATE).

Section fetch.
Context (ctx : RequestContext) (public_base_url : string) (visibilities : list (uuid * SpaceVisibility.t)).

Definition _fetch_document (document_id : uuid) (revision_id : option uuid) : M (option Fetched) :=
  doc ← select_opt (the_document (account_id ctx) document_id);
  match doc with
  | None => mret None
  | Some doc =>
      if _space_is_private visibilities (AuthoredDocument.space_id doc) then mret None
      else
        wanted ← match revision_id with
                 | Some r => mret (Some r)
                 | None => current ← select_opt (the_document_pointer (account_id ctx) document_id);
                           mret (option_map CurrentDocumentRevision.revision_id current)
                 end;
        revisions ← select (fun r => same (DocumentRevision.account_id r) (account_id ctx) &&
                                     same (DocumentRevision.document_id r) document_id &&
                                     match wanted with Some w => same (DocumentRevision.id r) w | None => true end);
        match revisions with
        | [] => mret None
        | revision :: _ =>
            mret (Some {| fe_id := encode_mcp_public_id "document" document_id (Some (DocumentRevision.id revision));
                          fe_title := AuthoredDocument.title doc; fe_text := plain_text_of revision;
                          fe_url := citation_url public_base_url "document" document_id;
                          fe_metadata := [("canonicalType", JStr "document");
                                          ("revisionId", JStr (str_uuid (DocumentRevision.id revision)));
                                          ("truthClass", JStr (value TruthClass.USER_ASSERTION))] |})
        end
  end.

Definition _fetch_memory (memory_item_id : uuid) (revision_id : option uuid) : M (option Fetched) :=
  item ← select_opt (the_item (account_id ctx) memory_item_id);
  match item with
  | None => mret None
  | Some item =>
      if _space_is_private visibilities (MemoryItem.space_id item) then mret None
      else
        revisions ← select (fun r => same (MemoryRevision.account_id r) (account_id ctx) &&
                                     same (MemoryRevision.memory_item_id r) memory_item_id &&
                                     String.eqb (MemoryRevision.status r) "active" &&
                                     match revision_id with Some w => same (MemoryRevision.id r) w | None => true end);
        match revisions with
        | [] => mret None
        | revision :: _ =>
            mret (Some {| fe_id := encode_mcp_public_id "memory" memory_item_id (Some (MemoryRevision.id revision));
                          fe_title := MemoryItem.title item; fe_text := MemoryRevision.assertion_text revision;
                          fe_url := citation_url public_base_url "memory" memory_item_id;
                          fe_metadata := [("canonicalType", JStr "memory");
                                          ("revisionId", JStr (str_uuid (MemoryRevision.id revision)));
                                          ("truthClass", JStr (MemoryRevision.truth_class revision))] |})
        end
  end.

Definition _fetch_element (element_id : uuid) (mcp_id : string) : M (option Fetched) :=
  element ← select_opt (fun r => same (DocumentElement.account_id r) (account_id ctx) && same (DocumentElement.id r) element_id);
  match element with
  | None => mret None
  | Some element =>
      if _space_is_private visibilities (DocumentElement.space_id element) then mret None
      else mret (Some {| fe_id := mcp_id; fe_title := DocumentElement.element_kind element;
                         fe_text := exact_text_of element;
                         fe_url := citation_url public_base_url "document_element" element_id;
                         fe_metadata := [("canonicalType", JStr "document_element");
                                         ("revisionId", JStr (str_uuid element_id));
                                         ("locator", match DocumentElement.locator element with
                                                     | Some l => JStr l | None => JNull end)] |})
  end.

Definition _fetch_curriculum_edge (edge_id : uuid) (mcp_id : string) : M (option Fetched) :=
  edge ← select_opt (fun r => same (CurriculumEdge.account_id r) (account_id ctx) && same (CurriculumEdge.id r) edge_id);
  match edge with
  | None => mret None
  | Some edge =>
      if _space_is_private visibilities (CurriculumEdge.space_id edge) then mret None
      else mret (Some {| fe_id := mcp_id; fe_title := CurriculumEdge.edge_kind edge +:+ " relationship";
                         fe_text := str_uuid (CurriculumEdge.from_node_id edge) +:+ " " +:+ CurriculumEdge.edge_kind edge +:+
                                    " " +:+ str_uuid (CurriculumEdge.to_node_id edge);
                         fe_url := citation_url public_base_url "curriculum_edge" edge_id;
                         fe_metadata := [("canonicalType", JStr "curriculum_edge");
                                         ("revisionId", JStr (str_uuid (CurriculumEdge.id edge)));
                                         ("confirmation", JStr (CurriculumEdge.confirmation edge))] |})
  end.
End fetch.

Definition fetch (ctx : RequestContext) (mcp_id public_base_url : string) : M (option Fetched) :=
  match decode_mcp_public_id mcp_id with
  | Raise (ValueError _) => mret None
  | Raise e => raiseM e
  | Ok (canonical_type, canonical_id, revision_id) =>
      available ← _is_entity_available (account_id ctx) canonical_type canonical_id;
      if negb available then mret None
      else
        visibilities ← _space_visibility_map (account_id ctx);
        if String.eqb canonical_type "document" then _fetch_document ctx public_base_url visibilities canonical_id revision_id
        else if String.eqb canonical_type "memory" then _fetch_memory ctx public_base_url visibilities canonical_id revision_id
        else if String.eqb canonical_type "document_element"
        then _fetch_element ctx public_base_url visibilities canonical_id mcp_id
        else if String.eqb canonical_type "curriculum_edge"
        then _fetch_curriculum_edge ctx public_base_url visibilities canonical_id mcp_id
        else mret None
  end.

(** ** Contexts, proposals and interactions *)

(** The context of the caller under another purpose. *)
Definition with_purpose (p : RequestPurpose.t) (last_auth : option Z) (ctx : RequestContext) : RequestContext :=
  {| account_id := account_id ctx; actor_id := actor_id ctx; user_id := user_id ctx; RequestContext.purpose := p;
     correlation_id := correlation_id ctx; session_id := None; scopes := scopes ctx;
     eligible_space_ids := eligible_space_ids ctx; last_auth_at := last_auth |}.

Definition space_of_visibility (visibilities : list (uuid * SpaceVisibility.t)) (space : uuid) : option SpaceVisibility.t :=
  option_map snd (first (fun sv => sv.1 =? space) visibilities).

Section write.
Context `{Env} `{Cryptography}.

Definition prepare_context (ctx : RequestContext) (query : string) (purpose : option string) (max_tokens max_items : Z)
    : M CompiledContext :=
  let asked := match purpose with Some (String c p) => String c p | _ => "general" end in
  compile_context_for_request (with_purpose RequestPurpose.EXTERNAL_READ (last_auth_at ctx) ctx) query (Some asked)
    max_tokens max_items.

Definition propose_memory (ctx : RequestContext) (space_id : uuid) (assertion_text title target_type : string)
    (target_id : option uuid) : M ProposalResult :=
  target ← match target_id with Some t => mret t | None => new_uuid end;
  visibilities ← _space_visibility_map (account_id ctx);
  _ ← guard (bool_decide (space_of_visibility visibilities space_id = Some SpaceVisibility.PRIVATE))
            (ValueError "private space excluded");
  create_proposal (with_purpose RequestPurpose.EXTERNAL_PROPOSE None ctx) space_id target_type target
    [("assertion_text", JStr assertion_text); ("title", JStr title)] None.

Record Interaction := {
  in_conversation_id : uuid;
  in_turn_id : uuid;
  in_turn_index : Z;
  in_completeness : string;
  in_idempotent : bool;
}.

Definition client_conversation (account space_id : uuid) (client : string) (r : Conversation.t) : bool :=
  same (Conversation.account_id r) account && same (Conversation.space_id r) space_id &&
  String.eqb (Conversation.source_client r) client.

(** The client's conversation, created when it is new, and the index of its next turn. *)
Definition interaction_conversation (account space_id : uuid) (client_conversation_id conversation_label : string)
    : M (uuid * Z) :=
  conversation ← select_opt (client_conversation account space_id client_conversation_id);
  match conversation with
  | None =>
      conversation_id ← new_uuid;
      t ← now;
      _ ← add {| Conversation.id := conversation_id; Conversation.account_id := account; Conversation.space_id := space_id;
                 Conversation.source_client := client_conversation_id; Conversation.completeness := conversation_label;
                 Conversation.created_at := t |};
      mret (conversation_id, 0)
  | Some c =>
      gone ← is_tombstoned account "conversation" (Conversation.id c);
      _ ← guard gone (ValueError "conversation tombstoned");
      turn_index ← read_turn_index account (Conversation.id c);
      mret (Conversation.id c, turn_index)
  end.

(** The content of a stored interaction; an undecipherable one raises. *)
Definition interaction_content (turn : ConversationTurn.t) : res (option string) :=
  match ConversationTurn.payload_ciphertext turn, ConversationTurn.payload_nonce turn with
  | Some (c :: ct), Some (n :: nonce) => d ← decrypt_payload (c :: ct) (n :: nonce); mret (payload_content (Some d))
  | _, _ => mret (payload_content (ConversationTurn.payload_json turn))
  end.

Definition repeated_interaction (turn : ConversationTurn.t) (role content : string) (parent receipt : option uuid)
    (occurred : Z) : res unit :=
  existing ← interaction_content turn;
  raise_if (negb (String.eqb (ConversationTurn.role turn) role) || negb (opt_eqb existing (Some content)) ||
            negb (opt_eqb (ConversationTurn.parent_turn_id turn) parent) ||
            negb (opt_eqb (ConversationTurn.context_receipt_id turn) receipt) ||
            negb (ConversationTurn.occurred_at turn =? occurred))
    (ValueError (value ErrorCode.IDEMPOTENCY_CONFLICT)).

(** [client_turn_id or idempotency_key]. *)
Definition turn_key_of (client_turn_id idempotency_key : option string) : option string :=
  if opt_truthy client_turn_id then client_turn_id else idempotency_key.

Definition record_interaction (ctx : RequestContext) (space_id : uuid) (client_conversation_id role content completeness : string)
    (context_receipt_id : option uuid) (idempotency_key client_turn_id : option string) (parent_turn_id : option uuid)
    (occurred_at : option Z) : M Interaction :=
  visibilities ← _space_visibility_map (account_id ctx);
  _ ← guard (bool_decide (space_of_visibility visibilities space_id = Some SpaceVisibility.PRIVATE))
            (ValueError "private space excluded");
  _ ← guard (negb (existsb (String.eqb role) ["user"; "assistant"; "system"; "tool"])) (ValueError "invalid_role");
  _ ← guard (65536 <? str_len content) (ValueError "content_too_large");
  let conversation_label := value (map_mcp_completeness_to_conversation completeness) in
  let turn_key := turn_key_of client_turn_id idempotency_key in
  '(ciphertext, nonce) ← encrypt_payload [("content", JStr content)];
  t ← now;
  let occurred := default t occurred_at in
  '(conversation_id, turn_index) ← interaction_conversation (account_id ctx) space_id client_conversation_id conversation_label;
  existing ← match turn_key with
             | Some k => if truthy k then select_opt (client_turn_of (account_id ctx) conversation_id k) else mret None
             | None => mret None
             end;
  match existing with
  | Some turn =>
      _ ← lift (repeated_interaction turn role content parent_turn_id context_receipt_id occurred);
      mret {| in_conversation_id := conversation_id; in_turn_id := ConversationTurn.id turn;
              in_turn_index := ConversationTurn.turn_index turn; in_completeness := conversation_label;
              in_idempotent := true |}
  | None =>
      turn_id ← new_uuid;
      _ ← add (new_turn turn_id (account_id ctx) space_id conversation_id role turn_index true
                 (Some ciphertext, Some nonce) occurred parent_turn_id context_receipt_id
                 (Some (if opt_truthy turn_key then default "" turn_key
                        else client_conversation_id +:+ ":" +:+ str_of_Z turn_index)) t);
      mret {| in_conversation_id := conversation_id; in_turn_id := turn_id; in_turn_index := turn_index;
              in_completeness := conversation_label; in_idempotent := false |}
  end.
End write.

(** ** Search shows what may be shown *)

Lemma filterM_Ok {A} (f : A -> M bool) l w k w' :
  filterM f l w = Ok (k, w') -> (forall x w b w', f x w = Ok (b, w') -> w' = w) ->
  w' = w /\ forall x, x ∈ k -> x ∈ l /\ f x w = Ok (true, w).
Proof.
  intros Hm Hf. revert k w' Hm. induction l as [|x l IH]; intros k w' Hm; cbn [filterM] in Hm.
  - cleanM. split; [done|]. by intros x ?%elem_of_nil.
  - stepM Hm. pose proof (Hf _ _ _ _ H) as ->. stepM Hm. apply IH in H0 as [-> Hk]. cleanM. split; [done|].
    intros y Hy. assert (Hy' : y = x /\ a = true \/ y ∈ a0) by (destruct a; [apply elem_of_cons in Hy as [->|Hy]|]; tauto).
    destruct Hy' as [[-> ->]|Hy']; [by split; [left|]|]. apply Hk in Hy' as [Hl Hy']. by split; [right|].
Qed.

Lemma available_Ok account ty id w b w' : _is_entity_available account ty id w = Ok (b, w') ->
  w' = w /\ (b = true -> is_tombstoned account ty id w = Ok (false, w)).
Proof.
  unfold _is_entity_available, is_tombstoned. intros Hm. stepM Hm. stepM H. apply select_opt_Ok in H0 as [Hk ->]. cleanM.
  split; [done|]. intros Hb. rewrite (M_bind_step _ _ _ a0 w) by by apply select_opt_Ok. by destruct a0.
Qed.

(** What an external client may be shown: a row of the account that is not
    deleted, in a space that is not private, with no pending proposal and no
    retracted revision. *)
Record showable (account : uuid) (w : World) (ty : string) (id rev space : uuid) : Prop := {
  sh_row : row_of account (db w) ty id rev space;
  sh_space : not_private account (db w) space;
  sh_live : is_tombstoned account ty id w = Ok (false, w);
  sh_settled : forall p, p ∈ rows (db w) -> Proposal.account_id p = account -> Proposal.target_id p = id ->
    Proposal.status p <> "pending";
  sh_standing : ty = "memory" -> forall m, m ∈ rows (db w) -> MemoryRevision.account_id m = account ->
    MemoryRevision.memory_item_id m = id -> MemoryRevision.status m <> "retracted";
}.

Lemma pending_filter account l w k w' :
  filter_pending_and_retracted (A := FusedCandidate) account l w = Ok (k, w') ->
  w' = w /\ forall c, c ∈ k -> c ∈ l /\
    (forall p, p ∈ rows (db w) -> Proposal.account_id p = account -> Proposal.target_id p = canonical_id c ->
       Proposal.status p <> "pending") /\
    (canonical_type c = "memory" -> forall m, m ∈ rows (db w) -> MemoryRevision.account_id m = account ->
       MemoryRevision.memory_item_id m = canonical_id c -> MemoryRevision.status m <> "retracted").
Proof.
  intros Hm. unfold filter_pending_and_retracted in Hm. do 2 read_rows Hm. cleanM. split; [done|].
  intros c [Hc Hp]%elem_of_keep. split; [done|]. apply andb_prop in Hp as [H1 H2].
  apply negb_true_iff in H1, H2. split.
  - intros p Hp Ha Ht Hs. rewrite <- not_true_iff_false in H1. apply H1, existsb_exists. exists (Proposal.target_id p).
    split; [|by rewrite Ht; apply Z.eqb_eq]. apply list_elem_of_In, list_elem_of_fmap. exists p. split; [done|].
    apply elem_of_keep. split; [done|]. unfold same. by rewrite bool_decide_eq_true_2, Hs.
  - intros Hty m Hp Ha Ht Hs. cbn in H2. rewrite Hty in H2. cbn in H2. rewrite <- not_true_iff_false in H2.
    apply H2, existsb_exists. exists (MemoryRevision.memory_item_id m).
    split; [|by rewrite Ht; apply Z.eqb_eq]. apply list_elem_of_In, list_elem_of_fmap. exists m. split; [done|].
    apply elem_of_keep. split; [done|]. unfold same. by rewrite bool_decide_eq_true_2, Hs.
Qed.

(** A search only reads, and everything it lists is a row of the account
    that an external client may be shown; an external caller sees rows of the
    spaces it was given and no others. *)
Theorem search_shows_showable ctx query url n as_of w l w' :
  NoDup (map Space.id (rows (R := Space.t) (db w))) ->
  search ctx query url n as_of w = Ok (l, w') ->
  w' = w /\ forall r, r ∈ l -> exists ty id rev space,
    showable (account_id ctx) w ty id rev space /\
    sr_id r = encode_mcp_public_id ty id (Some rev) /\ sr_url r = citation_url url ty id /\
    (is_external (RequestContext.purpose ctx) = true -> space ∈ eligible_space_ids ctx).
Proof.
  intros Hn Hm. unfold search in Hm. destruct (_ || _); [cleanM; split; [done|]; by intros r ?%elem_of_nil|].
  stepM Hm. pose proof (visibility_map_Ok _ _ _ _ H) as [-> _]. rename a into vis, H into Hvis.
  set (spaces := _eligible_non_private_spaces ctx vis) in *.
  stepM Hm. destruct a as [exact corpus]. apply local_sound in H as [-> He].
  stepM Hm. apply graph_sound in H as [-> Hg]. stepM Hm. apply semantic_sound in H as [-> Hs].
  stepM Hm. apply temporal_sound in H as [-> Ht]. stepM Hm. cleanM. rename H into Hfuse.
  assert (Hb : forall f, f ∈ a2 -> backed_fused (account_id ctx) spaces (db w) f).
  { intros f. eapply fused_backed; [|exact Hfuse]. unfold all_hits. cbn [flat_map fst snd].
    rewrite !map_app, !map_map, !map_id. cbn. rewrite ?Forall_app. by split_and!. }
  stepM Hm. unfold filter_private_spaces in H. stepM H. pose proof (visibility_map_Ok _ _ _ _ H0) as [-> _].
  rewrite Hvis in H0. injection H0 as <-. cleanM.
  stepM Hm. apply filterM_Ok in H as [-> Hlive].
  2: { intros x w1 b w2 Hx. stepM Hx. cleanM. unfold is_tombstoned in H0. stepM H0. apply select_opt_Ok in H1 as [_ ->]. by cleanM. }
  stepM Hm. apply pending_filter in H as [-> Hpend].
  stepM Hm. apply filterM_Ok in H as [-> Hav]; [|intros x w1 b w2 Hx; by apply available_Ok in Hx as [-> _]].
  cleanM. split; [done|]. intros r (c & -> & Hc)%list_elem_of_fmap.
  apply Hav in Hc as [Hc Hgone]. apply available_Ok in Hgone as [_ Hgone].
  unfold first_n in Hc. apply elem_of_take in Hc as (i & Hi & _). apply list_elem_of_lookup_2 in Hi.
  apply Hpend in Hi as (Hi & Hp1 & Hp2). apply Hlive in Hi as [Hi _]. apply elem_of_keep in Hi as [Hi Hpriv].
  apply negb_true_iff, bool_decide_eq_false in Hpriv.
  assert (Hin : c ∈ a2) by (cbn in Hi; by apply elem_of_keep in Hi as [Hi _]).
  destruct (Hb c Hin) as [Hrow Hsp]. exists (canonical_type c), (canonical_id c), (revision_id c), (space_id c).
  split_and!; [constructor; [done| |by apply Hgone|done|done]|done|done|].
  - by eapply visible_not_private.
  - intros Hext. unfold spaces, _eligible_non_private_spaces, non_private in Hsp. rewrite Hext in Hsp.
    by apply elem_of_keep in Hsp as [Hsp _].
Qed.

(** ** Fetch *)

(** [f] is what a fetch shows of a row of the account, by its kind: of a document
    the text of the revision named, or else of its current one; of a memory item
    the assertion of an active revision, the one named if one is; of an element
    its exact text; of a curriculum edge the two nodes it joins.  The index that
    follows the row's id is its space. *)
Inductive shows (account : uuid) (d : Db) (url mcp_id : string) (rev : option uuid) : string -> uuid -> uuid -> Fetched -> Prop :=
| shows_document doc r : doc ∈ rows d -> AuthoredDocument.account_id doc = account ->
    r ∈ rows d -> DocumentRevision.account_id r = account -> DocumentRevision.document_id r = AuthoredDocument.id doc ->
    (forall v, rev = Some v -> DocumentRevision.id r = v) ->
    (forall p, rev = None -> p ∈ rows d -> CurrentDocumentRevision.account_id p = account ->
       CurrentDocumentRevision.document_id p = AuthoredDocument.id doc ->
       CurrentDocumentRevision.space_id p = AuthoredDocument.space_id doc ->
       CurrentDocumentRevision.revision_id p = DocumentRevision.id r) ->
    shows account d url mcp_id rev "document" (AuthoredDocument.id doc) (AuthoredDocument.space_id doc)
      {| fe_id := encode_mcp_public_id "document" (AuthoredDocument.id doc) (Some (DocumentRevision.id r));
         fe_title := AuthoredDocument.title doc; fe_text := default "" (DocumentRevision.plain_text r);
         fe_url := citation_url url "document" (AuthoredDocument.id doc);
         fe_metadata := [("canonicalType", JStr "document"); ("revisionId", JStr (str_uuid (DocumentRevision.id r)));
                         ("truthClass", JStr "user_assertion")] |}
| shows_memory item r : item ∈ rows d -> MemoryItem.account_id item = account ->
    r ∈ rows d -> MemoryRevision.account_id r = account -> MemoryRevision.memory_item_id r = MemoryItem.id item ->
    MemoryRevision.status r = "active" -> (forall v, rev = Some v -> MemoryRevision.id r = v) ->
    shows account d url mcp_id rev "memory" (MemoryItem.id item) (MemoryItem.space_id item)
      {| fe_id := encode_mcp_public_id "memory" (MemoryItem.id item) (Some (MemoryRevision.id r));
         fe_title := MemoryItem.title item; fe_text := MemoryRevision.assertion_text r;
         fe_url := citation_url url "memory" (MemoryItem.id item);
         fe_metadata := [("canonicalType", JStr "memory"); ("revisionId", JStr (str_uuid (MemoryRevision.id r)));
                         ("truthClass", JStr (MemoryRevision.truth_class r))] |}
| shows_element e : e ∈ rows d -> DocumentElement.account_id e = account ->
    shows account d url mcp_id rev "document_element" (DocumentElement.id e) (DocumentElement.space_id e)
      {| fe_id := mcp_id; fe_title := DocumentElement.element_kind e;
         fe_text := default "" (DocumentElement.exact_text e);
         fe_url := citation_url url "document_element" (DocumentElement.id e);
         fe_metadata := [("canonicalType", JStr "document_element"); ("revisionId", JStr (str_uuid (DocumentElement.id e)));
                         ("locator", match DocumentElement.locator e with Some l => JStr l | None => JNull end)] |}
| shows_edge e : e ∈ rows d -> CurriculumEdge.account_id e = account ->
    shows account d url mcp_id rev "curriculum_edge" (CurriculumEdge.id e) (CurriculumEdge.space_id e)
      {| fe_id := mcp_id; fe_title := CurriculumEdge.edge_kind e +:+ " relationship";
         fe_text := str_uuid (CurriculumEdge.from_node_id e) +:+ " " +:+ CurriculumEdge.edge_kind e +:+ " " +:+
                    str_uuid (CurriculumEdge.to_node_id e);
         fe_url := citation_url url "curriculum_edge" (CurriculumEdge.id e);
         fe_metadata := [("canonicalType", JStr "curriculum_edge"); ("revisionId", JStr (str_uuid (CurriculumEdge.id e)));
                         ("confirmation", JStr (CurriculumEdge.confirmation e))] |}.

(** What the fetch of one kind of entity promises. *)
Definition fetches (ctx : RequestContext) (url mcp_id : string) (vis : list (uuid * SpaceVisibility.t)) (ty : string)
    (id : uuid) (rev : option uuid) (m : M (option Fetched)) : Prop :=
  forall w o w', m w = Ok (o, w') -> w' = w /\
    forall f, o = Some f -> exists space, shows (account_id ctx) (db w) url mcp_id rev ty id space f /\
      _space_is_private vis space = false.

(** The row a service names by its account and its id. *)
Lemma named_row {R} `{Table R} (acc id : R -> uuid) account x l r :
  keep (fun r => same (acc r) account && same (id r) x) l = [r] -> r ∈ l /\ acc r = account /\ id r = x.
Proof.
  intros Hk. apply keep_one in Hk as [Hin Hp]. apply andb_prop in Hp as [Ha Hi].
  by apply bool_decide_eq_true in Ha, Hi.
Qed.

Lemma fetch_document_spec ctx url mid vis id rev :
  fetches ctx url mid vis "document" id rev (_fetch_document ctx url vis id rev).
Proof.
  intros w o w' Hm. unfold _fetch_document in Hm. stepM Hm. apply select_opt_Ok in H as [Hk ->].
  destruct a as [doc|]; [|by cleanM]. apply named_row in Hk as (Hin & Ha & <-). destruct (_space_is_private _ _) eqn:E; [by cleanM|].
  stepM Hm. assert (w0 = w /\ match rev with
    | Some v => a = Some v
    | None => forall p, p ∈ rows (db w) -> CurrentDocumentRevision.account_id p = account_id ctx ->
        CurrentDocumentRevision.document_id p = AuthoredDocument.id doc -> a = Some (CurrentDocumentRevision.revision_id p)
    end) as [-> Hw].
  { destruct rev as [v|]; [by cleanM|]. stepM H. apply select_opt_Ok in H0 as [Hk ->]. cleanM. split; [done|]. intros p Hp Hpa Hpd.
    assert (Hin' : p ∈ keep (the_document_pointer (account_id ctx) (AuthoredDocument.id doc)) (rows (db w))).
    { apply elem_of_keep. split; [done|]. unfold the_document_pointer, same. by rewrite !bool_decide_eq_true_2. }
    destruct a0 as [q|]; rewrite Hk in Hin'; [|by apply elem_of_nil in Hin']. by apply list_elem_of_singleton in Hin' as ->. }
  clear H. stepM Hm. apply select_Ok in H as [-> ->]. destruct (keep _ _) as [|r l] eqn:Er; cleanM; (split; [done|]); [done|].
  intros f [= <-]. apply keep_head in Er as [Hr Hp]. rewrite !andb_true_iff in Hp. destruct Hp as [[Hra Hrd] Hrv].
  apply bool_decide_eq_true in Hra, Hrd. eexists. split; [|exact E]. eapply shows_document; try done.
  - intros v ->. subst a. by apply bool_decide_eq_true in Hrv.
  - intros p -> Hpin Hpa Hpd _. rewrite (Hw p Hpin Hpa Hpd) in Hrv. by apply bool_decide_eq_true in Hrv.
Qed.

Lemma fetch_memory_spec ctx url mid vis id rev : fetches ctx url mid vis "memory" id rev (_fetch_memory ctx url vis id rev).
Proof.
  intros w o w' Hm. unfold _fetch_memory in Hm. stepM Hm. apply select_opt_Ok in H as [Hk ->].
  destruct a as [item|]; [|by cleanM]. apply named_row in Hk as (Hin & Ha & <-). destruct (_space_is_private _ _) eqn:E; [by cleanM|].
  stepM Hm. apply select_Ok in H as [-> ->]. destruct (keep _ _) as [|r l] eqn:Er; cleanM; (split; [done|]); [done|].
  intros f [= <-]. apply keep_head in Er as [Hr Hp]. rewrite !andb_true_iff in Hp. destruct Hp as [[[Hra Hrd] Hrs] Hrv].
  apply bool_decide_eq_true in Hra, Hrd. apply String.eqb_eq in Hrs. eexists. split; [|exact E].
  eapply shows_memory; try done. intros v ->. by apply bool_decide_eq_true in Hrv.
Qed.

Lemma fetch_element_spec ctx url vis id rev mid :
  fetches ctx url mid vis "document_element" id rev (_fetch_element ctx url vis id mid).
Proof.
  intros w o w' Hm. unfold _fetch_element in Hm. stepM Hm. apply select_opt_Ok in H as [Hk ->].
  destruct a as [e|]; [|by cleanM]. apply named_row in Hk as (Hin & Ha & <-).
  destruct (_space_is_private _ _) eqn:E; cleanM; (split; [done|]); [done|]. intros f [= <-].
  eexists. split; [by apply shows_element|exact E].
Qed.

Lemma fetch_edge_spec ctx url vis id rev mid :
  fetches ctx url mid vis "curriculum_edge" id rev (_fetch_curriculum_edge ctx url vis id mid).
Proof.
  intros w o w' Hm. unfold _fetch_curriculum_edge in Hm. stepM Hm. apply select_opt_Ok in H as [Hk ->].
  destruct a as [e|]; [|by cleanM]. apply named_row in Hk as (Hin & Ha & <-).
  destruct (_space_is_private _ _) eqn:E; cleanM; (split; [done|]); [done|]. intros f [= <-].
  eexists. split; [by apply shows_edge|exact E].
Qed.

(** A fetch only reads; what it returns shows the entity its identifier names,
    of the account, not deleted and in a space that is not private; an
    identifier that does not decode finds nothing instead of raising. *)
Theorem fetch_shows_available ctx mcp_id url w :
  NoDup (map Space.id (rows (R := Space.t) (db w))) ->
  (forall o w', fetch ctx mcp_id url w = Ok (o, w') -> w' = w /\
     forall f, o = Some f -> exists ty id rev space, decode_mcp_public_id mcp_id = Ok (ty, id, rev) /\
        shows (account_id ctx) (db w) url mcp_id rev ty id space f /\ not_private (account_id ctx) (db w) space /\
        is_tombstoned (account_id ctx) ty id w = Ok (false, w)) /\
  (is_ok (decode_mcp_public_id mcp_id) = false -> fetch ctx mcp_id url w = Ok (None, w)).
Proof.
  intros Hn. unfold fetch. destruct (decode_mcp_public_id mcp_id) as [[[ty id] rev]|e] eqn:Ed.
  2: { pose proof (decode_mcp_public_id_sound mcp_id) as He. rewrite Ed in He. subst e. split; [|done]. intros o w' Hm. by cleanM. }
  split; [|done]. intros o w' Hm. stepM Hm. apply available_Ok in H as [-> Hgone].
  destruct a; cbn [negb] in Hm; [|by cleanM]. stepM Hm. pose proof (visibility_map_Ok _ _ _ _ H) as [-> _].
  assert (Hgo : forall m, fetches ctx url mcp_id a ty id rev m -> m w = Ok (o, w') -> w' = w /\
    forall f, o = Some f -> exists ty' id' rev' space, Ok (ty, id, rev) = Ok (ty', id', rev') /\
       shows (account_id ctx) (db w) url mcp_id rev' ty' id' space f /\ not_private (account_id ctx) (db w) space /\
       is_tombstoned (account_id ctx) ty' id' w = Ok (false, w)).
  { intros m Hf Hmw. apply Hf in Hmw as [-> Ho]. split; [done|]. intros f Hne. destruct (Ho f Hne) as (space & He & Hp).
    exists ty, id, rev, space. split_and!; [done|done| |by apply Hgone]. eapply visible_not_private; [done|exact H|].
    unfold _space_is_private in Hp. by apply bool_decide_eq_false in Hp. }
  destruct (String.eqb_spec ty "document") as [->|]; [eapply Hgo; [apply fetch_document_spec|exact Hm]|].
  destruct (String.eqb_spec ty "memory") as [->|]; [eapply Hgo; [apply fetch_memory_spec|exact Hm]|].
  destruct (String.eqb_spec ty "document_element") as [->|]; [eapply Hgo; [apply fetch_element_spec|exact Hm]|].
  destruct (String.eqb_spec ty "curriculum_edge") as [->|]; [eapply Hgo; [apply fetch_edge_spec|exact Hm]|].
  by cleanM.
Qed.

(** ** Interactions *)

Section interactions.
Context `{Env} `{AeadLaws}.

Lemma interaction_conversation_Ok account sp cc label w cid idx w' :
  interaction_conversation account sp cc label w = Ok ((cid, idx), w') ->
  (tick w <= tick w')%nat /\ rows (R := ConversationTurn.t) (db w') = rows (db w) /\
  (exists c, keep (client_conversation account sp cc) (rows (db w')) = [c] /\ Conversation.id c = cid) /\
  (rows (R := Conversation.t) (db w') = rows (db w) \/ keep (client_conversation account sp cc) (rows (db w)) = []).
Proof.
  intros Hm. unfold interaction_conversation in Hm. step Hm as Hc. apply select_opt_Ok in Hc as [Hk ->].
  destruct a as [c|].
  - step Hm as Hgone. pose proof (not_gone _ _ _ _ _ Hgone) as [-> _]. step Hm as Hguard. cleanM. step Hm as Hi.
    unfold read_turn_index in Hi. step Hi as Hs. apply select_Ok in Hs as [-> ->]. step Hi as Hl. cleanM.
    split_and!; [done|done|by exists c|by left].
  - draw Hm. draw Hm. step Hm as Hadd. apply add_Ok in Hadd as [_ ->]. cleanM. rows_simpl.
    split_and!; [cbn; lia|done| |by right].
    eexists. split; [apply keep_snoc; [|exact Hk]|reflexivity]. cbn. unfold client_conversation, same. cbn.
    by rewrite !bool_decide_eq_true_2, String.eqb_refl.
Qed.

(** What is encrypted of an interaction reads back as its content. *)
Lemma encrypted_content c w ct nonce w' :
  encrypt_payload [("content", JStr c)] w = Ok ((ct, nonce), w') ->
  (tick w <= tick w')%nat /\ db w' = db w /\ forall turn, ConversationTurn.payload_ciphertext turn = Some ct ->
    ConversationTurn.payload_nonce turn = Some nonce -> _turn_content turn = Some c.
Proof.
  intros Hm. split.
  { clear -Hm. unfold encrypt_payload in Hm. step Hm as Hn. injection Hn as <- <-. step Hm as Hk. cleanM. cbn. lia. }
  apply (sealed_content c w (Some ct, Some nonce) w'). unfold seal_content.
  by rewrite (M_bind_step _ _ _ _ _ Hm).
Qed.

(** The turn an interaction repeats. *)
Record repeats (account cid : uuid) (k : string) (occ : option Z) (w : World) (turn : ConversationTurn.t) : Prop := {
  rp_only : keep (client_turn_of account cid k) (rows (db w)) = [turn];
  rp_instant : exists n, (tick w <= n)%nat /\ ConversationTurn.occurred_at turn = default (clock n) occ;
}.

(** The turn an interaction adds. *)
Record adds (account cid : uuid) (content : string) (key : option string) (occ : option Z) (w w' : World)
    (turn : ConversationTurn.t) : Prop := {
  ad_rows : rows (db w') = rows (db w) ++ [turn];
  ad_account : ConversationTurn.account_id turn = account;
  ad_conversation : ConversationTurn.conversation_id turn = cid;
  ad_instant : exists n, (tick w <= n < tick w')%nat /\ ConversationTurn.occurred_at turn = default (clock n) occ;
  ad_clear : ConversationTurn.payload_json turn = Some [("encrypted", JBool true)];
  ad_content : _turn_content turn = Some content;
  ad_key : forall k, key = Some k -> truthy k = true -> ConversationTurn.client_turn_id turn = Some k /\
    keep (client_turn_of account cid k) (rows (db w)) = [];
}.

(** An interaction that returns adds one turn or repeats one. *)
Lemma record_interaction_Ok ctx sp cc role content comp receipt ik ct parent occ w r w' :
  record_interaction ctx sp cc role content comp receipt ik ct parent occ w = Ok (r, w') ->
  let account := account_id ctx in let cid := in_conversation_id r in
  (exists c, keep (client_conversation account sp cc) (rows (db w')) = [c] /\ Conversation.id c = cid) /\
  (rows (R := Conversation.t) (db w') = rows (db w) \/ keep (client_conversation account sp cc) (rows (db w)) = []) /\
  exists turn, in_turn_id r = ConversationTurn.id turn /\
    (in_idempotent r = true /\ rows (R := ConversationTurn.t) (db w') = rows (db w) /\
       (exists k, turn_key_of ct ik = Some k /\ truthy k = true /\ repeats account cid k occ w turn) \/
     in_idempotent r = false /\ adds account cid content (turn_key_of ct ik) occ w w' turn).
Proof.
  intros Hm. unfold record_interaction in Hm. step Hm as Hv. pose proof (visibility_map_Ok _ _ _ _ Hv) as [-> _].
  do 3 (let E := fresh "Hg" in step Hm as E; cleanM). step Hm as Henc.
  match type of Henc with _ = Ok (?p, _) => destruct p as [ct' no'] end.
  apply encrypted_content in Henc as (Htock & Hdb & Hread).
  draw Hm. step Hm as Hconv. match type of Hconv with _ = Ok (?p, _) => destruct p as [cid idx] end.
  apply interaction_conversation_Ok in Hconv as (Htick & Ht & Hone & Hold). cbn [db tick] in *. rewrite Hdb in Ht, Hold.
  step Hm as Hex. match type of Hex with _ = Ok (?p, _) => destruct p as [turn|] end.
  - step Hm as Hr. destruct (turn_key_of ct ik) as [k|] eqn:Hk; [|by cleanM]. destruct (truthy k) eqn:Htr; [|by cleanM].
    apply select_opt_Ok in Hex as [Hex ->]. apply lift_Ok in Hr as [Hr ->]. cleanM. cbn [in_conversation_id in_turn_id in_idempotent].
    split_and!; [done|done|]. exists turn. split; [done|]. left. split_and!; [done|done|].
    exists k. split_and!; [done|done|]. split; [by rewrite <- Ht|]. exists (tick w0). split; [lia|].
    unfold repeated_interaction in Hr. apply bind_Ok in Hr as (old & _ & Hr). apply raise_if_Ok in Hr.
    rewrite !orb_false_iff in Hr. destruct Hr as [_ Hr]. apply negb_false_iff in Hr. by apply Z.eqb_eq in Hr.
  - assert (Hw2 : w2 = w1 /\ forall k, turn_key_of ct ik = Some k -> truthy k = true ->
      keep (client_turn_of (account_id ctx) cid k) (rows (db w)) = []).
    { destruct (turn_key_of ct ik) as [k|]; [|by cleanM]. destruct (truthy k) eqn:Ek.
      - apply select_opt_Ok in Hex as [Hk ->]. rewrite Ht in Hk. split; [done|]. by intros ? [= <-].
      - cleanM. split; [done|]. intros ? [= <-]. congruence. }
    destruct Hw2 as [-> Hkeep]. draw Hm. step Hm as Hadd. cleanM. apply add_Ok in Hadd as [_ ->].
    cbn [in_conversation_id in_turn_id in_idempotent]. rows_simpl.
    match goal with |- context[?turns ++ [?t]] => set (turn := t) end.
    split_and!; [done|done|]. exists turn. split; [done|]. right. split; [done|].
    split; [rows_simpl; by rewrite Ht|done|done|exists (tick w0); split; [cbn; lia|done]|done|by apply Hread|].
    intros k Hk Htr. split; [|by apply Hkeep]. cbn. rewrite Hk. unfold opt_truthy. by rewrite Htr.
Qed.

(** A retry of a recorded interaction that returns repeats no row: it
    answers with the stored turn, and only when the client sent the instant of
    the interaction.  Without it the retry compares the instant of the first
    call with its own and never returns. *)
Theorem interaction_retry ctx sp cc role content comp receipt ik ct parent occ k w r1 w1 w2 r2 w3 :
  (forall i j, (i < j)%nat -> clock i < clock j) ->
  turn_key_of ct ik = Some k -> truthy k = true ->
  record_interaction ctx sp cc role content comp receipt ik ct parent occ w = Ok (r1, w1) ->
  in_idempotent r1 = false -> db w2 = db w1 -> (tick w1 <= tick w2)%nat ->
  record_interaction ctx sp cc role content comp receipt ik ct parent occ w2 = Ok (r2, w3) ->
  occ <> None /\ in_idempotent r2 = true /\ in_conversation_id r2 = in_conversation_id r1 /\
  in_turn_id r2 = in_turn_id r1 /\ rows (R := ConversationTurn.t) (db w3) = rows (db w1).
Proof.
  intros Hclock Hk Htr R1 Hnew Hdb Htick R2.
  apply record_interaction_Ok in R1 as ((c1 & Hc1 & Hid1) & _ & t1 & Ht1 & [(Hb & _)|(_ & Hadd)]); [congruence|].
  apply record_interaction_Ok in R2 as ((c2 & Hc2 & Hid2) & Hold & t2 & Ht2 & Hcase). rewrite Hdb in Hold.
  assert (Hcid : in_conversation_id r2 = in_conversation_id r1).
  { destruct Hold as [Hold|Hold]; rewrite Hold in *; [|by rewrite Hc1 in Hold]. rewrite Hc1 in Hc2. injection Hc2 as ->. congruence. }
  rewrite Hcid in Hcase.
  assert (Hstored : keep (client_turn_of (account_id ctx) (in_conversation_id r1) k) (rows (db w1)) = [t1]).
  { destruct Hadd as [Hrow Hacc Hcv _ _ _ Hkey]. destruct (Hkey k Hk Htr) as [Hck Hnone]. rewrite Hrow.
    apply keep_snoc; [|exact Hnone]. unfold client_turn_of, turn_of, same. rewrite Hacc, Hcv, Hck. cbn [opt_eqb].
    rewrite !bool_decide_eq_true_2 by done. cbn. by apply bool_decide_eq_true_2 || apply String.eqb_refl. }
  destruct Hcase as [(Hi & Hrows & k' & Hk' & _ & Hrep)|(_ & Hadd2)].
  - rewrite Hk in Hk'. injection Hk' as <-. destruct Hrep as [Hrep (n2 & Hn2 & Ho2)].
    rewrite Hdb, Hstored in Hrep. injection Hrep as <-. destruct (ad_instant _ _ _ _ _ _ _ _ Hadd) as (n1 & Hn1 & Ho1).
    split_and!; [|done|done|congruence|by rewrite Hrows, Hdb]. intros ->. cbn in Ho1, Ho2.
    assert (clock n1 < clock n2) by (apply Hclock; lia). lia.
  - destruct (ad_key _ _ _ _ _ _ _ _ Hadd2 k Hk Htr) as [_ Hnone]. rewrite Hdb, Hstored in Hnone. done.
Qed.
Lemma encrypt_keeps R `{Table R} payload : keeps R (encrypt_payload payload).
Proof.
  apply keeps_bind; [intros w a w' Hm; by injection Hm as <- <-|intros nonce]. frame.
Qed.

#[local] Hint Extern 1 (keeps _ (encrypt_payload _)) => apply encrypt_keeps : frame.

(** Recording an interaction writes the conversation and one turn, never
    evidence: learner events, projections, review items and attempts, memory
    and documents are as before.  The clear payload of the turn is only the
    marker that it is encrypted; its ciphertext reads back as the content. *)
Theorem interaction_is_not_evidence ctx sp cc role content comp receipt ik ct parent occ w r w' :
  record_interaction ctx sp cc role content comp receipt ik ct parent occ w = Ok (r, w') ->
  (rows (R := LearnerEvent.t) (db w') = rows (db w) /\ rows (R := LearnerProjection.t) (db w') = rows (db w) /\
   rows (R := ReviewItem.t) (db w') = rows (db w) /\ rows (R := AssessmentAttempt.t) (db w') = rows (db w) /\
   rows (R := MemoryRevision.t) (db w') = rows (db w) /\ rows (R := DocumentRevision.t) (db w') = rows (db w)) /\
  (in_idempotent r = false -> exists turn, rows (db w') = rows (db w) ++ [turn] /\
     ConversationTurn.payload_json turn = Some [("encrypted", JBool true)] /\ _turn_content turn = Some content).
Proof.
  intros Hm. split.
  - clear H1. unfold record_interaction, interaction_conversation, read_turn_index, is_tombstoned, _space_visibility_map in Hm.
    framed Hm LearnerEvent.t K1. framed Hm LearnerProjection.t K2. framed Hm ReviewItem.t K3.
    framed Hm AssessmentAttempt.t K4. framed Hm MemoryRevision.t K5. framed Hm DocumentRevision.t K6. done.
  - intros Hi. apply record_interaction_Ok in Hm as (_ & _ & turn & _ & [(Hi' & _)|(_ & [Hr _ _ _ Hc Ht _])]); [congruence|].
    by exists turn.
Qed.
End interactions.

(** ** Witnesses *)

Definition memory_id (item rev : uuid) : string := encode_mcp_public_id "memory" item (Some rev).

(** A memory two lanes find is listed once per lane: their candidate
    identifiers differ. *)
Lemma search_shows_showable_witness :
  (exists l, search test_ctx "algebra" "https://m" 10 None memory_world = Ok (l, memory_world) /\
     map sr_id l = [memory_id 60 70; memory_id 60 70; memory_id 60 70]) /\
  forall l w', search test_ctx "algebra" "https://m" 10 None memory_world = Ok (l, w') ->
    forall r, r ∈ l -> exists ty id rev space, showable 1 memory_world ty id rev space /\
      sr_id r = encode_mcp_public_id ty id (Some rev).
Proof.
  split; [eexists; split; vm_compute; reflexivity|]. intros l w' Hm r Hr.
  destruct (proj2 (search_shows_showable test_ctx "algebra" "https://m" 10 None memory_world l w' memory_world_spaces Hm) r Hr)
    as (ty & id & rev & space & Hs & Hi & _). exists ty, id, rev, space. split; [exact Hs|exact Hi].
Defined.

Lemma fetch_shows_available_witness :
  (exists o, fetch test_ctx (memory_id 60 70) "https://m" memory_world = Ok (Some o, memory_world) /\
     fe_text o = "linear algebra" /\ not_private 1 (db memory_world) 7) /\
  fetch test_ctx (memory_id 61 71) "https://m" memory_world = Ok (None, memory_world) /\
  fetch test_ctx "unknown" "https://m" memory_world = Ok (None, memory_world).
Proof.
  destruct (fetch test_ctx (memory_id 60 70) "https://m" memory_world) as [[[o|] w']|e] eqn:E; [|vm_compute in E; discriminate E..].
  pose proof (proj1 (fetch_shows_available test_ctx (memory_id 60 70) "https://m" memory_world memory_world_spaces) _ _ E)
    as [Hw Ho]. split.
  - exists o. subst w'. split; [reflexivity|]. split; [vm_compute in E; injection E as <-; reflexivity|].
    destruct (Ho o eq_refl) as (ty & id & rev & space & Hd & He & Hp & _).
    assert (Hdec : decode_mcp_public_id (memory_id 60 70) = Ok ("memory", 60, Some 70)) by (vm_compute; reflexivity).
    rewrite Hdec in Hd. injection Hd as <- <- <-.
    inversion He as [|x y Hx Ha Hy Hya Hyi Hys Hyv Ht Hid Hsp Hf| |]; subst. revert Hx Hid Hp. cbn. intros Hx.
    apply elem_of_cons in Hx as [->|Hx]; [intros _ Hp; exact Hp|].
    apply list_elem_of_singleton in Hx as ->. discriminate.
  - split; [vm_compute; reflexivity|].
    exact (proj2 (fetch_shows_available test_ctx "unknown" "https://m" memory_world memory_world_spaces) eq_refl).
Defined.

Notation tell occurred :=
  (@record_interaction test_env test_crypto test_ctx 7 "client" "user" "hello" "complete" None (Some "k1") None None occurred).

Lemma interaction_is_not_evidence_witness : exists r w' turn,
  tell (Some 5) memory_world = Ok (r, w') /\ rows (R := MemoryRevision.t) (db w') = rows (db memory_world) /\
  rows (db w') = [turn] /\ @_turn_content test_crypto turn = Some "hello".
Proof.
  destruct (tell (Some 5) memory_world) as [[r w']|e] eqn:E; [|vm_compute in E; discriminate E].
  assert (Hi : match tell (Some 5) memory_world with Ok (r, _) => in_idempotent r | _ => true end = false)
    by (vm_compute; reflexivity). rewrite E in Hi.
  destruct (@interaction_is_not_evidence test_env test_crypto test_aead test_ctx 7 "client" "user" "hello" "complete"
    None (Some "k1") None None (Some 5) memory_world r w' E) as [(_ & _ & _ & _ & Hk & _) Ht].
  destruct (Ht Hi) as (turn & Hr & _ & Hc). exists r, w', turn.
  split; [reflexivity|]. split; [exact Hk|]. split; [exact Hr|exact Hc].
Defined.

Lemma interaction_retry_witness :
  (exists r w', tell (Some 5) memory_world = Ok (r, w') /\ in_idempotent r = false /\
     exists r' w'', tell (Some 5) w' = Ok (r', w'') /\ in_idempotent r' = true /\ in_turn_id r' = in_turn_id r) /\
  exists r w', tell None memory_world = Ok (r, w') /\ is_ok (tell None w') = false.
Proof.
  assert (Hclock : forall i j, (i < j)%nat -> @clock test_env i < @clock test_env j) by (intros i j; cbn; lia).
  split.
  - destruct (tell (Some 5) memory_world) as [[r w']|e] eqn:E; [|vm_compute in E; discriminate E]. exists r, w'.
    assert (Hi : match tell (Some 5) memory_world with Ok (r, _) => in_idempotent r | _ => true end = false)
      by (vm_compute; reflexivity). rewrite E in Hi. split; [reflexivity|]. split; [exact Hi|].
    destruct (returned (tell (Some 5) w')) as [[r' w''] E'].
    { assert (Ho : match tell (Some 5) memory_world with Ok (_, w) => is_ok (tell (Some 5) w) | _ => false end = true)
        by (vm_compute; reflexivity). rewrite E in Ho. exact Ho. }
    exists r', w''. destruct (@interaction_retry test_env test_crypto test_aead test_ctx 7 "client" "user" "hello" "complete"
      None (Some "k1") None None (Some 5) "k1" memory_world r w' w' r' w'' Hclock eq_refl eq_refl E Hi eq_refl (le_n _) E')
      as (_ & H1 & _ & H2 & _). split; [exact E'|]. split; [exact H1|exact H2].
  - destruct (tell None memory_world) as [[r w']|e] eqn:E; [|vm_compute in E; discriminate E]. exists r, w'.
    split; [reflexivity|]. destruct (tell None w') as [[r' w'']|e] eqn:E'; [|reflexivity].
    assert (Hi : match tell None memory_world with Ok (r, _) => in_idempotent r | _ => true end = false)
      by (vm_compute; reflexivity). rewrite E in Hi.
    destruct (@interaction_retry test_env test_crypto test_aead test_ctx 7 "client" "user" "hello" "complete"
      None (Some "k1") None None None "k1" memory_world r w' w' r' w'' Hclock eq_refl eq_refl E Hi eq_refl (le_n _) E')
      as [Hn _]. exfalso. exact (Hn eq_refl).
Defined.
