(* ===== verification/McpRoutes.v ===== *)
(** * MCP routes (services/core/src/memdot_core/mcp/routes.py)

    The handlers external clients call, over the process (breaker and rate
    limiter) and the ledger under its row policies.  A request body has passed
    the validation of its model (FastAPI).  An exception that leaves a handler
    is a 500: the transaction is rolled back, the process keeps its state. *)

From Stdlib Require Import ZArith Lia.
From stdpp Require Import base gmap list strings.
From S2P Require Import Prelude PyStr Json Uuid Enums Float64 Retrieval ContextCompiler McpIds Ledger Store RequestContext Deletion AuthSnapshot ServiceAuth TenantContext ExternalAccess RowPolicies Errors Policy Memory ConversationCrypto Lanes ContextService McpService.
Open Scope Z_scope.

Record Process := { pr_breaker : OverloadBreaker; pr_limiter : InMemoryRateLimiter }.

Definition with_breaker (b : OverloadBreaker) (p : Process) : Process := {| pr_breaker := b; pr_limiter := pr_limiter p |}.
Definition with_limiter (l : InMemoryRateLimiter) (p : Process) : Process := {| pr_breaker := pr_breaker p; pr_limiter := l |}.

Definition _release_overload (p : Process) : Process := with_breaker (breaker_release (pr_breaker p)) p.

(** A request: its headers and the readings of the monotonic clock. *)
Record Request := { rq_headers : Headers; rq_now : f64; rq_later : f64 }.

(** What a handler leaves: its answer, the process and the ledger. *)
Record Served (A : Type) := { sv_result : res A; sv_process : Process; sv_world : World }.
Arguments sv_result {_}. Arguments sv_process {_}. Arguments sv_world {_}.

Definition served {A} (r : res A) (p : Process) (w : World) : Served A :=
  {| sv_result := r; sv_process := p; sv_world := w |}.

(** ** Bodies of answers *)

Definition search_body (l : list SearchResult) : dict :=
  [("results", JList (map (fun r => JObj [("id", JStr (sr_id r)); ("title", JStr (sr_title r)); ("url", JStr (sr_url r))]) l))].

Definition fetch_body (f : Fetched) : dict :=
  [("id", JStr (fe_id f)); ("title", JStr (fe_title f)); ("text", JStr (fe_text f)); ("url", JStr (fe_url f));
   ("metadata", JObj (fe_metadata f))].

Definition opt_json {A} (f : A -> json) (o : option A) : json := match o with Some x => f x | None => JNull end.

Definition evidence_json (i : EvidenceItem) : json :=
  JObj [("rank", JInt (rank i)); ("canonicalType", JStr (item_type i)); ("canonicalId", JStr (str_uuid (item_id i)));
        ("revisionId", JStr (str_uuid (item_revision i))); ("locator", opt_json JStr (item_locator i));
        ("text", JStr (if selected i then text i else "")); ("selected", JBool (selected i));
        ("omitReason", opt_json (fun r => JStr (value r)) (omit_reason i))].

Definition context_body (c : CompiledContext) : dict :=
  [("receiptId", JStr (str_uuid (cc_receipt_id c))); ("queryHash", JStr (cc_query_hash c));
   ("contextHash", JStr (cc_context_hash c)); ("partial", JBool (cc_partial c));
   ("policyVersion", JStr (cc_policy_version c)); ("evidence", JList (map evidence_json (cc_evidence c)))].

Definition proposal_body (r : ProposalResult) : dict :=
  [("proposalId", JStr (str_uuid (pr_proposal_id r))); ("status", JStr (pr_status r))].

Definition interaction_body (i : Interaction) : dict :=
  [("conversationId", JStr (str_uuid (in_conversation_id i))); ("turnId", JStr (str_uuid (in_turn_id i)));
   ("turnIndex", JInt (in_turn_index i)); ("completeness", JStr (in_completeness i));
   ("learnerEvidenceChanged", JBool false); ("idempotent", JBool (in_idempotent i))].

(** [{**result, "correlationId": ...}]. *)
Definition answer (status : Z) (ctx : RequestContext) (body : dict) : Response :=
  {| rs_status := status; rs_body := body ++ [("correlationId", JStr (str_uuid (correlation_id ctx)))] |}.

Definition not_found_for (ctx : RequestContext) : Response := safe_not_found (Some (correlation_id ctx)).

Section routes.
Context `{Env} `{Jwt} `{Cryptography}.

(** The key of the tenant seal and the nonce of this request, the configuration. *)
Context (tenant_key : list Z) (seal_nonce : string) (config : Config).

(** What follows once the request has its slot. *)
Definition resolve_mcp_ctx (rq : Request) (purpose : option RequestPurpose.t) (p : Process) (w : World)
    : Served (Response + RequestContext) :=
  match load_mcp_context tenant_key seal_nonce config (rq_headers rq) purpose w with
  | Raise e => served (Raise e) p w
  | Ok (None, w1) =>
      served (Ok (inl (safe_not_found (Some (fresh_uuid (tick w1)))))) (_release_overload p)
        {| db := db w1; tick := S (tick w1) |}
  | Ok (Some ctx, w1) =>
      let '(granted, l) := allow (rq_now rq) (rq_later rq) (str_uuid (account_id ctx)) (pr_limiter p) in
      let p := with_limiter l p in
      if negb granted
      then served (Ok (inl (rate_limited_response (Some (correlation_id ctx))))) (_release_overload p) w1
      else if match purpose with Some q => negb (same (RequestContext.purpose ctx) q) | None => false end
      then served (Ok (inl (not_found_for ctx))) (_release_overload p) w1
      else if match purpose with
              | Some q => negb (same (RequestContext.purpose ctx) RequestPurpose.FIRST_PARTY) &&
                          negb (scopes_allow_purpose (scopes ctx) q)
              | None => false end
      then served (Ok (inl (not_found_for ctx))) (_release_overload p) w1
      else served (Ok (inr ctx)) p w1
  end.

Definition _require_mcp_ctx (rq : Request) (purpose : option RequestPurpose.t) (p : Process) (w : World)
    : Served (Response + RequestContext) :=
  match breaker_acquire (pr_breaker p) with
  | (false, _) => served (Ok (inl (overload_reject_response None))) p w
  | (true, b) => resolve_mcp_ctx rq purpose (with_breaker b p) w
  end.

(** What a failed service leaves: a database error, or one inside its tenant
    scope, has rolled the transaction back, the nonce of the request included. *)
Definition after_failure (in_scope : exn -> bool) (e : exn) (w w1 : World) : World :=
  if is_dbapi_error e || in_scope e then {| db := db w; tick := tick w1 |} else w1.

(** The service of a handler under the policies of its context, and the slot
    given back; [w] is the ledger before the request, [w1] the one the service sees. *)
Definition finish {A} (service : RequestContext -> M A) (in_scope : exn -> bool) (reply : RequestContext -> A -> Response)
    (refuse : RequestContext -> exn -> Response) (ctx : RequestContext) (p : Process) (w w1 : World) : Served Response :=
  let p := _release_overload p in
  match as_context ctx (service ctx) w1 with
  | Ok (x, w2) => served (Ok (reply ctx x)) p w2
  | Raise e => served (Ok (refuse ctx e)) p (after_failure in_scope e w w1)
  end.

(** A handler: the context, the service, the answer. *)
Definition handle {A} (rq : Request) (purpose : RequestPurpose.t) (service : RequestContext -> M A)
    (in_scope : exn -> bool) (reply : RequestContext -> A -> Response) (refuse : RequestContext -> exn -> Response)
    (p : Process) (w : World) : Served Response :=
  let required := _require_mcp_ctx rq (Some purpose) p w in
  match sv_result required with
  | Raise e => served (Raise e) (sv_process required) (sv_world required)
  | Ok (inl r) => served (Ok r) (sv_process required) (sv_world required)
  | Ok (inr ctx) => finish service in_scope reply refuse ctx (sv_process required) w (sv_world required)
  end.

Definition refuse_all (ctx : RequestContext) (_ : exn) : Response := not_found_for ctx.

Definition mcp_search (query public_url : string) (rq : Request) : Process -> World -> Served Response :=
  handle rq RequestPurpose.EXTERNAL_READ (fun ctx => search ctx query public_url 20 None) (fun _ => false)
    (fun ctx l => answer 200 ctx (search_body l)) refuse_all.

Definition mcp_fetch (id public_url : string) (rq : Request) : Process -> World -> Served Response :=
  handle rq RequestPurpose.EXTERNAL_READ (fun ctx => fetch ctx id public_url) (fun _ => false)
    (fun ctx o => match o with Some f => answer 200 ctx (fetch_body f) | None => not_found_for ctx end) refuse_all.

Definition mcp_prepare_context (query : string) (purpose : option string) (max_tokens max_items : Z) (rq : Request)
    : Process -> World -> Served Response :=
  handle rq RequestPurpose.EXTERNAL_READ (fun ctx => prepare_context ctx query purpose max_tokens max_items)
    (fun _ => false) (fun ctx c => answer 200 ctx (context_body c)) refuse_all.

Definition mcp_propose_memory (space_id : uuid) (assertion_text title target_type : string) (target_id : option uuid)
    (rq : Request) : Process -> World -> Served Response :=
  handle rq RequestPurpose.EXTERNAL_PROPOSE
    (fun ctx => propose_memory ctx space_id assertion_text title target_type target_id)
    (fun _ => false) (fun ctx r => answer 201 ctx (proposal_body r)) refuse_all.

(** The errors [record_interaction] raises before its tenant scope. *)
Definition in_interaction_scope (e : exn) : bool :=
  match e with
  | ValueError m => negb (existsb (String.eqb m) ["private space excluded"; "invalid_role"; "content_too_large"; "SpaceVisibility"])
  | RuntimeError _ => false
  | _ => true
  end.

Definition refuse_interaction (ctx : RequestContext) (e : exn) : Response :=
  match e with
  | ValueError m =>
      if String.eqb m (value ErrorCode.IDEMPOTENCY_CONFLICT)
      then problem 409 ErrorCode.IDEMPOTENCY_CONFLICT m (Some (correlation_id ctx))
      else problem 422 ErrorCode.VALIDATION_ERROR m (Some (correlation_id ctx))
  | _ => not_found_for ctx
  end.

Definition mcp_record_interaction (space_id : uuid) (client_conversation_id role content completeness : string)
    (context_receipt_id : option uuid) (idempotency_key client_turn_id : option string) (parent_turn_id : option uuid)
    (occurred_at : option Z) (rq : Request) : Process -> World -> Served Response :=
  handle rq RequestPurpose.EXTERNAL_INTERACTION
    (fun ctx => record_interaction ctx space_id client_conversation_id role content completeness context_receipt_id
                  idempotency_key client_turn_id parent_turn_id occurred_at)
    in_interaction_scope (fun ctx i => answer 201 ctx (interaction_body i)) refuse_interaction.

(** The five requests a client may make, and what runs once a context is had. *)
Inductive McpCall :=
| CallSearch (query public_url : string)
| CallFetch (id public_url : string)
| CallPrepareContext (query : string) (purpose : option string) (max_tokens max_items : Z)
| CallProposeMemory (space_id : uuid) (assertion_text title target_type : string) (target_id : option uuid)
| CallRecordInteraction (space_id : uuid) (client_conversation_id role content completeness : string)
    (context_receipt_id : option uuid) (idempotency_key client_turn_id : option string) (parent_turn_id : option uuid)
    (occurred_at : option Z).

Definition mcp_call (c : McpCall) : Request -> Process -> World -> Served Response :=
  match c with
  | CallSearch q u => mcp_search q u
  | CallFetch i u => mcp_fetch i u
  | CallPrepareContext q pu mt mi => mcp_prepare_context q pu mt mi
  | CallProposeMemory sp a ti ty ta => mcp_propose_memory sp a ti ty ta
  | CallRecordInteraction sp cc ro co cm re ik ct pt oc => mcp_record_interaction sp cc ro co cm re ik ct pt oc
  end.

Definition call_purpose (c : McpCall) : RequestPurpose.t :=
  match c with
  | CallProposeMemory _ _ _ _ _ => RequestPurpose.EXTERNAL_PROPOSE
  | CallRecordInteraction _ _ _ _ _ _ _ _ _ _ => RequestPurpose.EXTERNAL_INTERACTION
  | _ => RequestPurpose.EXTERNAL_READ
  end.

Definition finish_call (c : McpCall) : RequestContext -> Process -> World -> World -> Served Response :=
  match c with
  | CallSearch q u => finish (fun ctx => search ctx q u 20 None) (fun _ => false)
      (fun ctx l => answer 200 ctx (search_body l)) refuse_all
  | CallFetch i u => finish (fun ctx => fetch ctx i u) (fun _ => false)
      (fun ctx o => match o with Some f => answer 200 ctx (fetch_body f) | None => not_found_for ctx end) refuse_all
  | CallPrepareContext q pu mt mi => finish (fun ctx => prepare_context ctx q pu mt mi) (fun _ => false)
      (fun ctx c => answer 200 ctx (context_body c)) refuse_all
  | CallProposeMemory sp a ti ty ta => finish (fun ctx => propose_memory ctx sp a ti ty ta) (fun _ => false)
      (fun ctx r => answer 201 ctx (proposal_body r)) refuse_all
  | CallRecordInteraction sp cc ro co cm re ik ct pt oc =>
      finish (fun ctx => record_interaction ctx sp cc ro co cm re ik ct pt oc) in_interaction_scope
        (fun ctx i => answer 201 ctx (interaction_body i)) refuse_interaction
  end.
End routes.

(** ** What an external client is given *)

Section visible.
Context (ctx : RequestContext) (d : Db).
Let a := access ctx d.

Lemma visible_spaces : NoDup (map Space.id (rows (R := Space.t) d)) -> NoDup (map Space.id (rows (R := Space.t) (visible a d))).
Proof.
  intros Hn. change (rows (R := Space.t) (visible a d)) with (keep (shown a) (rows (R := Space.t) d)).
  eapply sublist_NoDup; [exact Hn|]. apply keep_map_sublist.
Qed.

Lemma visible_row ty id rev space : row_of (account_id ctx) (visible a d) ty id rev space -> row_of (account_id ctx) d ty id rev space.
Proof.
  intros Hr. inversion Hr as [r Hin Hacc|r Hin Hacc|r Hin Hacc|r Hin Hacc]; subst;
    change (r ∈ keep (shown a) (rows d)) in Hin; apply elem_of_keep in Hin as [Hin _]; by constructor.
Qed.

(** Every tombstone of the account is visible. *)
Lemma visible_tombstones ty id n b :
  is_tombstoned (account_id ctx) ty id {| db := visible a d; tick := n |} = Ok (b, {| db := visible a d; tick := n |}) ->
  forall m, is_tombstoned (account_id ctx) ty id {| db := d; tick := m |} = Ok (b, {| db := d; tick := m |}).
Proof.
  intros Hm m. unfold is_tombstoned in *. apply M_bind_Ok in Hm as (o & w1 & Hs & Hm).
  apply M_ret_Ok in Hm as [-> _]. apply select_opt_Ok in Hs as [Hs _]. cbn [db] in Hs.
  rewrite (M_bind_step _ _ _ o {| db := d; tick := m |}); [done|]. apply select_opt_Ok. split; [|done]. cbn [db].
  change (rows (R := DeletionTombstone.t) (visible a d)) with (keep (shown a) (rows (R := DeletionTombstone.t) d)) in Hs.
  assert (Hk : forall x, tombstone_for (account_id ctx) ty id x = true -> shown a x = true).
  { intros x Hx. unfold tombstone_for in Hx. rewrite !andb_true_iff in Hx. exact (proj1 (proj1 Hx)). }
  by rewrite (keep_keep _ _ _ Hk) in Hs.
Qed.

(** A row that is seen is a row that is there and shown. *)
Ltac seen H H2 :=
  match type of H with ?x ∈ _ => change (x ∈ keep (shown a) (rows d)) in H; apply elem_of_keep in H as [H H2] end.

(** What a reading client is shown is a row of the ledger, and a document or an
    element of a space that external clients may read. *)
Lemma visible_entity url mid rev ty id space f : RequestContext.purpose ctx = RequestPurpose.EXTERNAL_READ ->
  shows (account_id ctx) (visible a d) url mid rev ty id space f ->
  shows (account_id ctx) d url mid rev ty id space f /\
  (ty = "document" \/ ty = "document_element" -> memdot_external_space_ok d (account_id ctx) space = true).
Proof.
  intros Hp He. assert (Hread : forall sp, insiders a (account_id ctx) || readers a (account_id ctx) sp =
    memdot_external_space_ok d (account_id ctx) sp).
  { intros sp. unfold insiders, readers, purpose_in, a, access. cbn [ac_rls ac_purpose ac_space]. rewrite Hp. cbn [value].
    unfold same. by rewrite bool_decide_eq_true_2. }
  inversion He as [doc r Hin Ha Hr Hra Hrd Hrv Hrp|item r Hin Ha Hr Hra Hri Hrs Hrv|e Hin Ha|e Hin Ha]; subst;
    seen Hin Hsh.
  - cbn in Hsh. rewrite Ha, Hread in Hsh. split; [|done]. seen Hr Hshr.
    apply shows_document; try done. intros p Hrev Hpin Hpa Hpd Hps. apply Hrp; try done.
    change (p ∈ keep (shown a) (rows d)). apply elem_of_keep. split; [done|]. cbn. by rewrite Hpa, Hps, Hread.
  - seen Hr Hshr. split; [by apply shows_memory|]. by intros [].
  - cbn in Hsh. rewrite Ha, Hread in Hsh. by split; [apply shows_element|].
  - split; [by apply shows_edge|]. by intros [].
Qed.
(** A tombstone of the ledger is seen, and no other. *)
Lemma tombstones_visible ty id w : db w = d -> is_tombstoned (account_id ctx) ty id w = Ok (false, w) ->
  is_tombstoned (account_id ctx) ty id {| db := visible a d; tick := tick w |} = Ok (false, {| db := visible a d; tick := tick w |}).
Proof.
  intros Hd Hm. unfold is_tombstoned in *. apply M_bind_Ok in Hm as (o & w1 & Hs & Hm). apply M_ret_Ok in Hm as [Ho _].
  apply select_opt_Ok in Hs as [Hs _]. rewrite Hd in Hs. rewrite (M_bind_step _ _ _ o {| db := visible a d; tick := tick w |}).
  { by destruct o. }
  apply select_opt_Ok. split; [|done]. cbn [db].
  change (rows (R := DeletionTombstone.t) (visible a d)) with (keep (shown a) (rows (R := DeletionTombstone.t) d)).
  rewrite keep_keep; [exact Hs|]. intros x Hx. unfold tombstone_for in Hx. rewrite !andb_true_iff in Hx. exact (proj1 (proj1 Hx)).
Qed.

(** A reading client sees no private space, and so takes none for private. *)
Lemma visible_map n : RequestContext.purpose ctx = RequestPurpose.EXTERNAL_READ ->
  exists vis, _space_visibility_map (account_id ctx) {| db := visible a d; tick := n |} = Ok (vis, {| db := visible a d; tick := n |}) /\
    forall s, _space_is_private vis s = false.
Proof.
  intros Hp. unfold _space_visibility_map. set (l := keep (fun r => same (Space.account_id r) (account_id ctx)) (rows (visible a d))).
  assert (Hl : Forall (fun r => public (Space.visibility r) = true) l).
  { apply Forall_forall. intros r Hr. apply elem_of_keep in Hr as [Hr _]. seen Hr Hs. cbn in Hs. revert Hs.
    unfold insiders, readers_by_visibility, writers_by_visibility, purpose_in, a, access. cbn [ac_rls ac_purpose]. rewrite Hp.
    by destruct (same _ _), (public _). }
  assert (Hv : exists vis, map_res (fun r => v ← of_option (ValueError "SpaceVisibility") (of_value (A := SpaceVisibility.t) (Space.visibility r));
                mret (Space.id r, v)) l = Ok vis /\ Forall (fun sv => sv.2 <> SpaceVisibility.PRIVATE) vis).
  { clearbody l. induction Hl as [|r l Hr _ (vis & Hm & Hf)]; [by exists []|]. unfold public in Hr. cbn [existsb] in Hr.
    assert (exists v, of_value (Space.visibility r) = Some v /\ v <> SpaceVisibility.PRIVATE) as (v & Hv & Hne).
    { destruct (String.eqb_spec (Space.visibility r) "general") as [->|_]; [by exists SpaceVisibility.GENERAL|].
      destruct (String.eqb_spec (Space.visibility r) "learning") as [->|_]; [by exists SpaceVisibility.LEARNING|done]. }
    exists ((Space.id r, v) :: vis). cbn [map_res]. rewrite Hv. cbn. rewrite Hm. split; [done|]. by constructor. }
  destruct Hv as (vis & Hm & Hf). exists vis. split.
  - rewrite (M_bind_step _ _ _ l {| db := visible a d; tick := n |}); [|by apply select_Ok]. apply lift_Ok. by split.
  - intros s. unfold _space_is_private, visibility_of. apply bool_decide_eq_false. clear Hm.
    induction Hf as [|sv vis Hne _ IH]; cbn [first]; [done|]. by destruct (sv.1 =? s).
Qed.
End visible.

(** A space of the account that is not private. *)
Definition open_space (d : Db) (account space : uuid) : Prop :=
  exists r, r ∈ rows d /\ Space.account_id r = account /\ Space.id r = space /\
    Space.visibility r <> value SpaceVisibility.PRIVATE.

Section given.
Context `{Env} `{Jwt} `{Cryptography} (key : list Z) (nonce : string) (config : Config).

(** A context that passed the checks was granted, for the purpose asked. *)
Lemma require_granted rq purpose p w ctx : let s := _require_mcp_ctx key nonce config rq (Some purpose) p w in
  sv_result s = Ok (inr ctx) ->
  granted_context (db (sv_world s)) ctx /\ RequestContext.purpose ctx = purpose /\
  rows (R := Space.t) (db (sv_world s)) = rows (db w).
Proof.
  cbv zeta. unfold _require_mcp_ctx, resolve_mcp_ctx. destruct (breaker_acquire _) as [[] b]; [|done].
  destruct (load_mcp_context _ _ _ _ _ _) as [[[c|] w1]|e] eqn:E; [|done..].
  pose proof (load_keeps key nonce Space.t config (rq_headers rq) (Some purpose) ltac:(done) _ _ _ E) as Hsp. apply load_context_Ok in E as (Hg & Hp).
  destruct (allow _ _ _ _) as [[] l]; [|done]. cbn [negb]. destruct (negb (same _ _)); [done|].
  destruct (_ && _); [done|]. cbn. intros [= <-]. split_and!; [done|by apply Hp|done].
Qed.

(** The checks write no table but that of the nonces. *)
Lemma require_keeps R `{Table R} rq purpose p w :
  (forall l d, rows (R := R) (set_rows (R := ServiceAuthNonce.t) l d) = rows d) ->
  rows (R := R) (db (sv_world (_require_mcp_ctx key nonce config rq purpose p w))) = rows (db w).
Proof.
  intros Hother. unfold _require_mcp_ctx, resolve_mcp_ctx. destruct (breaker_acquire _) as [[] b]; [|done].
  destruct (load_mcp_context _ _ _ _ _ _) as [[o w1]|e] eqn:E; [|done].
  pose proof (load_keeps key nonce R config (rq_headers rq) purpose Hother _ _ _ E) as Hk. destruct o as [c|]; [|exact Hk].
  destruct (allow _ _ _ _) as [granted l]. repeat (match goal with |- context [if ?b then _ else _] => destruct b end; [exact Hk|]). exact Hk.
Qed.

(** A refusal of the checks is not a success. *)
Lemma require_refused rq purpose p w r :
  sv_result (_require_mcp_ctx key nonce config rq purpose p w) = Ok (inl r) -> 400 <= rs_status r.
Proof.
  unfold _require_mcp_ctx, resolve_mcp_ctx. destruct (breaker_acquire _) as [[] b]; [|intros [= <-]; done].
  destruct (load_mcp_context _ _ _ _ _ _) as [[[c|] w1]|e]; [|by intros [= <-]|done].
  destruct (allow _ _ _ _) as [[] l]; [|by intros [= <-]]. cbn [negb].
  destruct (match purpose with Some q => negb _ | None => false end); [by intros [= <-]|].
  destruct (match purpose with Some q => _ | None => false end); [by intros [= <-]|done].
Qed.

(** A successful handler ran its service under the policies of a granted context. *)
Lemma handle_success {A} rq purpose (service : RequestContext -> M A) sc reply refuse p w r :
  let s := handle key nonce config rq purpose service sc reply refuse p w in
  sv_result s = Ok r -> rs_status r < 400 -> (forall ctx e, 400 <= rs_status (refuse ctx e)) ->
  exists ctx w1 x, granted_context (db w1) ctx /\ RequestContext.purpose ctx = purpose /\
    rows (R := Space.t) (db w1) = rows (db w) /\
    as_context ctx (service ctx) w1 = Ok (x, sv_world s) /\ r = reply ctx x.
Proof.
  cbv zeta. unfold handle, finish. intros Hr Hs Href.
  pose proof (require_granted rq purpose p w) as Hg. cbv zeta in Hg. pose proof (require_refused rq (Some purpose) p w) as Hb.
  destruct (sv_result (_require_mcp_ctx _ _ _ _ _ _ _)) as [[r'|ctx]|e]; [|..|done].
  - injection Hr as ->. specialize (Hb r eq_refl). lia.
  - destruct (Hg ctx eq_refl) as (Hgr & Hp & Hsp).
    destruct (as_context _ _ _) as [[x w2]|e] eqn:E; cbn in Hr |- *; injection Hr as <-.
    + by exists ctx, (sv_world (_require_mcp_ctx key nonce config rq (Some purpose) p w)), x.
    + specialize (Href ctx e). lia.
Qed.

(** C23: what the search route lists to an external client stands, whatever the
    request, for live rows of the account of a standing grant that allows
    reading, in spaces of it that are not private. *)
Theorem mcp_search_public query url rq p w r :
  NoDup (map Space.id (rows (R := Space.t) (db w))) ->
  let s := mcp_search key nonce config query url rq p w in
  sv_result s = Ok r -> rs_status r = 200 ->
  exists ctx l, granted_context (db (sv_world s)) ctx /\ RequestContext.purpose ctx = RequestPurpose.EXTERNAL_READ /\
    r = answer 200 ctx (search_body l) /\
    forall x, x ∈ l -> exists ty id rev space,
      sr_id x = encode_mcp_public_id ty id (Some rev) /\
      row_of (account_id ctx) (db (sv_world s)) ty id rev space /\
      open_space (db (sv_world s)) (account_id ctx) space /\
      is_tombstoned (account_id ctx) ty id (sv_world s) = Ok (false, sv_world s).
Proof.
  cbv zeta. intros Hn Hr Hs. destruct (handle_success rq RequestPurpose.EXTERNAL_READ
    (fun ctx => search ctx query url 20 None) (fun _ => false) (fun ctx l => answer 200 ctx (search_body l)) refuse_all p w r Hr
    ltac:(lia) ltac:(done)) as (ctx & w1 & l & Hg & Hp & Hsp & Hrun & ->).
  exists ctx, l. unfold mcp_search. set (w2 := sv_world _) in *.
  pose proof (visible_spaces ctx (db w1) ltac:(by rewrite Hsp)) as Hv.
  unfold as_context, under_policy in Hrun. destruct (search _ _ _ _ _ _) as [[l' wv]|e] eqn:E; [|done].
  pose proof (search_shows_showable ctx query url 20 None {| db := visible (access ctx (db w1)) (db w1); tick := tick w1 |} l' wv Hv E) as [-> Hl]. cbn [db tick] in Hrun. rewrite settle_db_visible in Hrun.
  injection Hrun as -> Hw2. assert (w2 = w1) as -> by (rewrite <- Hw2; by destruct w1). split_and!; [done..|].
  intros x Hx. destruct (Hl x Hx) as (ty & id & rev & space & Hsh & Hi & _ & Hel). exists ty, id, rev, space.
  destruct Hsh as [Hrow _ Hlive _ _]. split_and!; [done|by apply visible_row| |].
  - apply (gc_spaces _ _ Hg), Hel. unfold is_external. by rewrite Hp.
  - destruct w1 as [d n]. by apply (visible_tombstones ctx d ty id n).
Qed.

(** C24: what the fetch route returns shows a live row of the account of a standing
    grant that allows reading, and of that row: of a document the text of the
    revision named, or else of its current one; of a memory item the assertion
    of an active revision; of an element its text, of a curriculum edge its
    nodes.  A document or an element lies in a space external clients may read. *)
Theorem mcp_fetch_limits id url rq p w r :
  NoDup (map Space.id (rows (R := Space.t) (db w))) ->
  let s := mcp_fetch key nonce config id url rq p w in
  sv_result s = Ok r -> rs_status r = 200 ->
  exists ctx f ty entity rev space, granted_context (db (sv_world s)) ctx /\
    RequestContext.purpose ctx = RequestPurpose.EXTERNAL_READ /\ r = answer 200 ctx (fetch_body f) /\
    decode_mcp_public_id id = Ok (ty, entity, rev) /\
    shows (account_id ctx) (db (sv_world s)) url id rev ty entity space f /\
    is_tombstoned (account_id ctx) ty entity (sv_world s) = Ok (false, sv_world s) /\
    (ty = "document" \/ ty = "document_element" ->
       memdot_external_space_ok (db (sv_world s)) (account_id ctx) space = true).
Proof.
  cbv zeta. intros Hn Hr Hs. destruct (handle_success rq RequestPurpose.EXTERNAL_READ
    (fun ctx => fetch ctx id url) (fun _ => false)
    (fun ctx o => match o with Some f => answer 200 ctx (fetch_body f) | None => not_found_for ctx end) refuse_all p w r Hr
    ltac:(lia) ltac:(done)) as (ctx & w1 & o & Hg & Hp & Hsp & Hrun & ->).
  destruct o as [f|]; [|discriminate Hs]. exists ctx, f. unfold mcp_fetch. set (w2 := sv_world _) in *.
  pose proof (visible_spaces ctx (db w1) ltac:(by rewrite Hsp)) as Hv.
  unfold as_context, under_policy in Hrun. destruct (fetch _ _ _ _) as [[o wv]|e] eqn:E; [|done].
  pose proof (proj1 (fetch_shows_available ctx id url {| db := visible (access ctx (db w1)) (db w1); tick := tick w1 |} Hv) o wv E)
    as [-> Hf]. cbn [db tick] in Hrun. rewrite settle_db_visible in Hrun.
  injection Hrun as -> Hw2. assert (w2 = w1) as -> by (rewrite <- Hw2; by destruct w1).
  destruct (Hf f eq_refl) as (ty & entity & rev & space & Hd & He & _ & Hlive). exists ty, entity, rev, space.
  destruct (visible_entity ctx (db w1) url id rev ty entity space f Hp He) as [Hen Hpub]. split_and!; try done.
  destruct w1 as [d n]. by apply (visible_tombstones ctx d ty entity n).
Qed.

(** C25: a client that may read is given any memory of the account by its
    identifier, whatever space it lies in: the policies show every memory to
    every purpose but hide the private spaces, and the service takes a space it
    does not see for a general one. *)
Theorem external_reads_any_memory ctx item r url w :
  RequestContext.purpose ctx = RequestPurpose.EXTERNAL_READ ->
  is_uuid (MemoryItem.id item) -> is_uuid (MemoryRevision.id r) ->
  NoDup (map MemoryItem.id (rows (R := MemoryItem.t) (db w))) -> NoDup (map MemoryRevision.id (rows (R := MemoryRevision.t) (db w))) ->
  item ∈ rows (db w) -> MemoryItem.account_id item = account_id ctx ->
  r ∈ rows (db w) -> MemoryRevision.account_id r = account_id ctx ->
  MemoryRevision.memory_item_id r = MemoryItem.id item -> MemoryRevision.status r = "active" ->
  is_tombstoned (account_id ctx) "memory" (MemoryItem.id item) w = Ok (false, w) ->
  exists f, as_context ctx (fetch ctx (encode_mcp_public_id "memory" (MemoryItem.id item) (Some (MemoryRevision.id r))) url) w = Ok (Some f, w) /\
    dict_lookup "title" (fetch_body f) = Some (JStr (MemoryItem.title item)) /\
    dict_lookup "text" (fetch_body f) = Some (JStr (MemoryRevision.assertion_text r)).
Proof.
  intros Hp Hi Hr Hni Hnr Hin Hia Hrin Hra Hri Hrs Hlive. unfold as_context, under_policy, fetch.
  set (v := {| db := visible (access ctx (db w)) (db w); tick := tick w |}). rewrite decode_encode; [|done|done|by intros ? [= <-]].
  rewrite (M_bind_step _ _ v true v).
  2: { unfold _is_entity_available. rewrite (M_bind_step _ _ v false v); [done|]. by apply tombstones_visible. }
  cbn [negb]. destruct (visible_map ctx (db w) (tick w) Hp) as (vis & Hvis & Hpub). rewrite (M_bind_step _ _ v vis v) by exact Hvis.
  cbn [String.eqb Ascii.eqb Bool.eqb]. unfold _fetch_memory. rewrite (M_bind_step _ _ v (Some item) v).
  2: { apply select_opt_Ok. split; [|done]. apply (keep_unique MemoryItem.id).
       - eapply sublist_NoDup; [exact Hni|]. apply keep_map_sublist.
       - unfold v. cbn [db]. change (item ∈ keep (shown (access ctx (db w))) (rows (db w))). apply elem_of_keep. split; [done|].
         cbn. unfold anyone, access, same. cbn. by rewrite bool_decide_eq_true_2.
       - unfold the_item, same. by rewrite !bool_decide_eq_true_2.
       - intros x Hx. unfold the_item, same in Hx. apply andb_prop in Hx as [_ Hx]. by apply bool_decide_eq_true in Hx. }
  rewrite Hpub. rewrite (M_bind_step _ _ v [r] v).
  2: { apply select_Ok. split; [|done]. symmetry. apply (keep_unique MemoryRevision.id).
       - eapply sublist_NoDup; [exact Hnr|]. apply keep_map_sublist.
       - unfold v. cbn [db]. change (r ∈ keep (shown (access ctx (db w))) (rows (db w))). apply elem_of_keep. split; [done|].
         cbn. unfold anyone, access, same. cbn. by rewrite bool_decide_eq_true_2.
       - unfold same. rewrite Hrs. by rewrite !bool_decide_eq_true_2.
       - intros x Hx. rewrite !andb_true_iff in Hx. destruct Hx as [_ Hx]. by apply bool_decide_eq_true in Hx. }
  cbn. rewrite settle_db_visible. cbn. eexists. split; [by destruct w|done].
Qed.

Lemma settled_proposals x d d2 d3 : settle_db x d d2 = Ok d3 ->
  settle x (t_proposal d) (t_proposal d2) = Ok (t_proposal d3).
Proof.
  unfold settle_db. intros Hm. repeat (apply bind_Ok in Hm as (? & ? & Hm)). injection Hm as <-. done.
Qed.

(** The row policies of the proposals take no row from a client that proposes. *)
Lemma propose_never_commits ctx space text title ty target w x : RequestContext.purpose ctx = RequestPurpose.EXTERNAL_PROPOSE ->
  as_context ctx (propose_memory ctx space text title ty target) w <> Ok x.
Proof.
  intros Hp Hrun. unfold as_context, under_policy in Hrun. destruct (propose_memory _ _ _ _ _ _ _) as [[x' wv]|e] eqn:E; [|done].
  apply bind_Ok in Hrun as (d3 & Hset & _). apply settled_proposals in Hset. revert Hset.
  unfold propose_memory in E. step E as Ht. assert (db w0 = visible (access ctx (db w)) (db w)) as Hw0.
  { destruct target; [by cleanM|by injection Ht as _ <-]. }
  step E as Hvis. apply visibility_map_Ok in Hvis as [-> _]. step E as Hgd. cleanM.
  unfold create_proposal in E. draw E. draw E. step E as Hadd. cleanM. apply add_Ok in Hadd as [Hfresh ->]. cbn [db] in *.
  intros Hset. apply settle_Ok in Hset as [Hset _].
  match type of Hfresh with forall r', _ -> clash r' ?row = None => destruct (Hset row) as [[Hin Hsh]|Hacc] end.
  - match goal with |- _ ∈ t_proposal ?x => change (t_proposal x) with (rows (R := Proposal.t) x) end.
    rewrite rows_set_rows. set_solver.
  - rewrite Hw0 in Hfresh. match type of Hin with ?row ∈ _ =>
      assert (Hseen : row ∈ rows (visible (access ctx (db w)) (db w))) by
        (change (row ∈ keep (shown (access ctx (db w))) (rows (db w))); apply elem_of_keep; split; [exact Hin|exact Hsh]) end.
    apply Hfresh in Hseen. revert Hseen. cbn. unfold Proposal.clash, same. by rewrite bool_decide_eq_true_2.
  - revert Hacc. cbn. unfold insiders, purpose_in, access. cbn [ac_rls ac_purpose]. rewrite Hp. by destruct (same _ _).
Qed.

(** C26: no request of an external client files a proposal: whatever the request,
    the proposals afterwards are those before it, and an answer of the route is
    an error, since the row policies of the table take no row under the
    purpose of the route and its insert fails. *)
Theorem external_proposals_refused space text title ty target rq p w :
  let s := mcp_propose_memory key nonce config space text title ty target rq p w in
  rows (R := Proposal.t) (db (sv_world s)) = rows (db w) /\
  forall r, sv_result s = Ok r -> 400 <= rs_status r.
Proof.
  cbv zeta. unfold mcp_propose_memory, handle, finish.
  pose proof (require_keeps Proposal.t rq (Some RequestPurpose.EXTERNAL_PROPOSE) p w ltac:(done)) as Hk.
  pose proof (require_granted rq RequestPurpose.EXTERNAL_PROPOSE p w) as Hg. cbv zeta in Hg.
  pose proof (require_refused rq (Some RequestPurpose.EXTERNAL_PROPOSE) p w) as Hb.
  destruct (sv_result (_require_mcp_ctx _ _ _ _ _ _ _)) as [[r|ctx]|e].
  - split; [exact Hk|]. intros r' [= <-]. by apply Hb.
  - destruct (Hg ctx eq_refl) as (_ & Hp & _). destruct (as_context _ _ _) as [[x w2]|e] eqn:E.
    + by apply propose_never_commits in E.
    + split; [|by intros r [= <-]]. cbn [sv_world served]. unfold after_failure. by destruct (_ || _).
  - split; [exact Hk|done].
Qed.
End given.

(** ** Witnesses *)

Definition private_edge : CurriculumEdge.t :=
  {| CurriculumEdge.id := 90; CurriculumEdge.account_id := 1; CurriculumEdge.space_id := 8; CurriculumEdge.course_id := 50;
     CurriculumEdge.from_node_id := 51; CurriculumEdge.to_node_id := 52; CurriculumEdge.edge_kind := "prerequisite";
     CurriculumEdge.confirmation := "confirmed"; CurriculumEdge.created_at := 0 |}.

Definition revoked_actor : Actor.t := Actor.set_revoked_at (Some 1) client_actor.

Definition sample_element (id space : uuid) : DocumentElement.t :=
  {| DocumentElement.id := id; DocumentElement.account_id := 1; DocumentElement.space_id := space;
     DocumentElement.parse_run_id := 40; DocumentElement.element_kind := "paragraph"; DocumentElement.locator := None;
     DocumentElement.element_index := Some 0; DocumentElement.parent_element_id := None;
     DocumentElement.content_hash := None; DocumentElement.exact_text := Some "linear algebra";
     DocumentElement.normalized_text := None; DocumentElement.element_metadata := []; DocumentElement.created_at := 0 |}.

(** A client with a grant; an element in a general and one in a private space,
    an edge in the private one. *)
Definition client_world (actor : Actor.t) : World :=
  {| db := set_rows [actor] (set_rows [client_grant None] (set_rows [private_edge]
             (set_rows [sample_element 95 7; sample_element 96 8]
                (set_rows [sample_space 7 "general"; sample_space 8 "private"] empty_db)))); tick := 0 |}.

Lemma client_world_spaces actor : NoDup (map Space.id (rows (R := Space.t) (db (client_world actor)))).
Proof. change (NoDup [7; 8]). repeat constructor; set_solver. Qed.

Definition idle (slots : Z) : Process :=
  {| pr_breaker := {| ob_max := slots; inflight := 0 |}; pr_limiter := GLOBAL_RATE_LIMITER |}.

Definition sample_request : Request := {| rq_headers := token_headers; rq_now := of_int 5; rq_later := of_int 5 |}.

Notation sample_search := (@mcp_search brisk_env sample_jwt sample_key "00ff" sample_config "algebra" "https://m" sample_request).
Notation sample_fetch id := (@mcp_fetch brisk_env sample_jwt sample_key "00ff" sample_config id "https://m" sample_request).

Definition status_of (s : Served Response) : Z := match sv_result s with Ok r => rs_status r | Raise _ => 500 end.

Lemma status_ok s n : status_of s = n -> n <> 500 -> exists r, sv_result s = Ok r /\ rs_status r = n.
Proof. unfold status_of. destruct (sv_result s) as [r|e]; [by exists r|congruence]. Qed.

Definition results_of (s : Served Response) : list string :=
  match sv_result s with
  | Ok r => match dict_lookup "results" (rs_body r) with
            | Some (JList l) => map (fun v => match v with JObj d => py_str (dict_get "id" d) | _ => "" end) l
            | _ => [] end
  | Raise _ => [] end.

Lemma mcp_search_public_witness : let s := sample_search (idle 1) (client_world client_actor) in
  results_of s = [encode_mcp_public_id "document_element" 95 (Some 95)] /\
  exists r ctx l, sv_result s = Ok r /\ r = answer 200 ctx (search_body l) /\ granted_context (db (sv_world s)) ctx.
Proof.
  intros s. split; [vm_compute; reflexivity|].
  assert (Hs : status_of s = 200) by (vm_compute; reflexivity).
  destruct (status_ok s 200 Hs ltac:(discriminate)) as (r & E & Hr). exists r.
  destruct (@mcp_search_public brisk_env sample_jwt sample_key "00ff" sample_config "algebra" "https://m" sample_request
    (idle 1) (client_world client_actor) r (client_world_spaces client_actor) E Hr) as (ctx & l & Hg & _ & Ha & _).
  exists ctx, l. split; [exact E|]. split; [exact Ha|exact Hg].
Defined.

Definition edge_id : string := encode_mcp_public_id "curriculum_edge" 90 None.

Definition text_of (s : Served Response) : string :=
  match sv_result s with Ok r => py_str (dict_get "text" (rs_body r)) | Raise _ => "" end.

Lemma text_of_answer s ctx f : sv_result s = Ok (answer 200 ctx (fetch_body f)) -> text_of s = fe_text f.
Proof. unfold text_of. by intros ->. Qed.

(** The edge of the private space is fetched and its nodes are named; its element is not. *)
Lemma mcp_fetch_limits_witness :
  status_of (sample_fetch (encode_mcp_public_id "document_element" 96 None) (idle 1) (client_world client_actor)) = 404 /\
  text_of (sample_fetch (encode_mcp_public_id "document_element" 95 None) (idle 1) (client_world client_actor)) = "linear algebra" /\
  let s := sample_fetch edge_id (idle 1) (client_world client_actor) in
  memdot_external_space_ok (db (client_world client_actor)) 1 8 = false /\
  exists r ctx f, sv_result s = Ok r /\ r = answer 200 ctx (fetch_body f) /\
    fe_text f = str_uuid 51 +:+ " prerequisite " +:+ str_uuid 52 /\ granted_context (db (sv_world s)) ctx.
Proof.
  split; [vm_compute; reflexivity|]. split; [vm_compute; reflexivity|]. intros s. split; [vm_compute; reflexivity|].
  assert (Hs : status_of s = 200) by (vm_compute; reflexivity).
  assert (Ht : text_of s = str_uuid 51 +:+ " prerequisite " +:+ str_uuid 52) by (vm_compute; reflexivity).
  destruct (status_ok s 200 Hs ltac:(discriminate)) as (r & E & Hr). exists r.
  destruct (@mcp_fetch_limits brisk_env sample_jwt sample_key "00ff" sample_config edge_id "https://m" sample_request
    (idle 1) (client_world client_actor) r (client_world_spaces client_actor) E Hr) as (ctx & f & ty & en & rev & sp & Hg & _ & Ha & _).
  exists ctx, f. split; [exact E|]. split; [exact Ha|]. split; [|exact Hg].
  rewrite Ha in E. rewrite <- Ht. symmetry. exact (text_of_answer s ctx f E).
Defined.

(** A client given no space at all reads the memory of the private one. *)
Definition reading_ctx : RequestContext := with_purpose RequestPurpose.EXTERNAL_READ None test_ctx.

Lemma external_reads_any_memory_witness :
  memdot_external_space_ok (db ContextService.memory_world) 1 8 = false /\
  exists f, as_context reading_ctx (fetch reading_ctx (memory_id 61 71) "https://m") ContextService.memory_world =
    Ok (Some f, ContextService.memory_world) /\ dict_lookup "text" (fetch_body f) = Some (JStr "linear algebra").
Proof.
  split; [vm_compute; reflexivity|].
  assert (Hi : NoDup (map MemoryItem.id (rows (R := MemoryItem.t) (db ContextService.memory_world))))
    by (change (NoDup [60; 61]); repeat constructor; set_solver).
  assert (Hr : NoDup (map MemoryRevision.id (rows (R := MemoryRevision.t) (db ContextService.memory_world))))
    by (change (NoDup [70; 71]); repeat constructor; set_solver).
  destruct (external_reads_any_memory reading_ctx (ContextService.sample_item 61 8) (sample_memory 71 61 8) "https://m"
    ContextService.memory_world) as (f & Hf & _ & Ht); try done; [split; vm_compute; done..| | |].
  - apply elem_of_cons; right; apply list_elem_of_singleton; reflexivity.
  - apply elem_of_cons; right; apply list_elem_of_singleton; reflexivity.
  - exists f. split; [exact Hf|exact Ht].
Defined.

(** A token of a client that may propose. *)
Definition propose_jwt : Jwt :=
  {| jwt_decode := fun token _ _ _ => if String.eqb token "t" then
       Some [("exp", JInt 1000); ("sub", JStr "s"); ("client_id", JStr "claude"); ("resource", JStr "https://m/mcp");
             ("scope", JStr "memdot.memory.propose")] else None |}.

Notation sample_propose := (@mcp_propose_memory brisk_env propose_jwt sample_key "00ff" sample_config 7 "I like tea" "title"
  "memory" None sample_request).

Lemma external_proposals_refused_witness :
  status_of (sample_propose (idle 1) (client_world client_actor)) = 404 /\
  forall r, sv_result (sample_propose (idle 1) (client_world client_actor)) = Ok r -> 400 <= rs_status r.
Proof.
  split; [vm_compute; reflexivity|]. exact (proj2 (@external_proposals_refused brisk_env propose_jwt sample_key "00ff" sample_config 7
    "I like tea" "title" "memory" None sample_request (idle 1) (client_world client_actor))).
Defined.
