(* ===== verification/McpFlight.v ===== *)
(** * Requests of external clients in flight (services/core/src/memdot_core/mcp/routes.py, policy.py)

    The handlers of [McpRoutes] run in a pool of threads over one breaker and
    one limiter.  A request takes a slot, has its context resolved, and runs its
    service; between any two of these steps the others may do theirs.  Each step
    sees the ledger some interleaving of the transactions left, so the ledger is
    an argument of the event. *)

From Stdlib Require Import ZArith Lia.
From stdpp Require Import base list strings.
From S2P Require Import Prelude PyStr Json Uuid Enums Ledger Store RequestContext AuthSnapshot ServiceAuth TenantContext ExternalAccess RowPolicies Errors Policy Memory ConversationCrypto Conversations McpService McpRoutes.
Open Scope Z_scope.

(** The process, the requests that hold a slot (without and with a context) and
    the answers given so far, an exception that left a handler among them. *)
Record Server := {
  sr_process : Process;
  sr_admitted : list (McpCall * Request);
  sr_running : list (McpCall * RequestContext);
  sr_answers : list (res Response);
}.

Definition serve_from (p : Process) : Server :=
  {| sr_process := p; sr_admitted := []; sr_running := []; sr_answers := [] |}.

(** A request arrives; the [n]th admitted one has its context resolved; the
    [n]th running one runs its service and gives its slot back. *)
Inductive Event :=
| Arrive (c : McpCall) (rq : Request)
| Resolve (n : nat) (w : World)
| Finish (n : nat) (w w1 : World).

Section flight.
Context `{Env} `{Jwt} `{Cryptography} (key : list Z) (nonce : string) (config : Config).

Definition fire (s : Server) (e : Event) : Server :=
  match e with
  | Arrive c rq =>
      match breaker_acquire (pr_breaker (sr_process s)) with
      | (false, _) => {| sr_process := sr_process s; sr_admitted := sr_admitted s; sr_running := sr_running s;
                         sr_answers := sr_answers s ++ [Ok (overload_reject_response None)] |}
      | (true, b) => {| sr_process := with_breaker b (sr_process s); sr_admitted := sr_admitted s ++ [(c, rq)];
                        sr_running := sr_running s; sr_answers := sr_answers s |}
      end
  | Resolve n w =>
      match sr_admitted s !! n with
      | None => s
      | Some (c, rq) =>
          let o := resolve_mcp_ctx key nonce config rq (Some (call_purpose c)) (sr_process s) w in
          match sv_result o with
          | Ok (inr ctx) => {| sr_process := sv_process o; sr_admitted := delete n (sr_admitted s);
                               sr_running := sr_running s ++ [(c, ctx)]; sr_answers := sr_answers s |}
          | Ok (inl r) => {| sr_process := sv_process o; sr_admitted := delete n (sr_admitted s);
                             sr_running := sr_running s; sr_answers := sr_answers s ++ [Ok r] |}
          | Raise e => {| sr_process := sv_process o; sr_admitted := delete n (sr_admitted s);
                          sr_running := sr_running s; sr_answers := sr_answers s ++ [Raise e] |}
          end
      end
  | Finish n w w1 =>
      match sr_running s !! n with
      | None => s
      | Some (c, ctx) =>
          let o := finish_call c ctx (sr_process s) w w1 in
          {| sr_process := sv_process o; sr_admitted := sr_admitted s; sr_running := delete n (sr_running s);
             sr_answers := sr_answers s ++ [sv_result o] |}
      end
  end.

Definition run_events (s : Server) (es : list Event) : Server := foldl fire s es.

(** ** Slots *)

(** The answers that are exceptions. *)
Definition failures (rs : list (res Response)) : Z := Z.of_nat (length (keep (fun r => negb (is_ok r)) rs)).

Lemma failures_app rs r : failures (rs ++ [r]) = failures rs + (if is_ok r then 0 else 1).
Proof. unfold failures, keep. rewrite List.filter_app, length_app. cbn. destruct (is_ok r); cbn; lia. Qed.

(** The breaker counts the requests that hold a slot and the exceptions. *)
Definition counts (slots : Z) (s : Server) : Prop :=
  ob_max (pr_breaker (sr_process s)) = slots /\
  inflight (pr_breaker (sr_process s)) =
    Z.of_nat (length (sr_admitted s)) + Z.of_nat (length (sr_running s)) + failures (sr_answers s) /\
  inflight (pr_breaker (sr_process s)) <= slots.

(** What is left of the slot of a request whose context was asked for. *)
Lemma resolve_slot rq purpose p w : let o := resolve_mcp_ctx key nonce config rq purpose p w in
  pr_breaker (sv_process o) = match sv_result o with Ok (inl _) => breaker_release (pr_breaker p) | _ => pr_breaker p end.
Proof.
  unfold resolve_mcp_ctx. destruct (load_mcp_context _ _ _ _ _ _) as [[[ctx|] w1]|e]; [|done..].
  destruct (allow _ _ _ _) as [granted l]. by repeat (match goal with |- context [if ?b then _ else _] => destruct b end; [done|]).
Qed.

Lemma finish_slot c ctx p w w1 : let o := finish_call c ctx p w w1 in
  pr_breaker (sv_process o) = breaker_release (pr_breaker p) /\ is_ok (sv_result o) = true.
Proof. destruct c; cbn [finish_call]; unfold finish; destruct (as_context _ _ _) as [[x w2]|e]; done. Qed.

Lemma length_delete_Some {A} (l : list A) n x : l !! n = Some x -> Z.of_nat (length (delete n l)) = Z.of_nat (length l) - 1.
Proof. intros Hn. rewrite length_delete by by exists x. apply lookup_lt_Some in Hn. lia. Qed.

Lemma failures_nonneg rs : 0 <= failures rs.
Proof. unfold failures. lia. Qed.

Lemma release_counts b : 0 < inflight b -> ob_max (breaker_release b) = ob_max b /\ inflight (breaker_release b) = inflight b - 1.
Proof. intros Hb. unfold breaker_release. cbn. split; [done|]. destruct (Z.ltb_spec 0 (inflight b)); lia. Qed.

Lemma fire_counts slots s e : counts slots s -> counts slots (fire s e).
Proof.
  intros (Hm & Hi & Hle). pose proof (failures_nonneg (sr_answers s)) as Hf. destruct e as [c rq|n w|n w w1]; cbn [fire].
  - unfold breaker_acquire. destruct (Z.leb_spec (ob_max (pr_breaker (sr_process s))) (inflight (pr_breaker (sr_process s))));
      unfold counts; cbn; rewrite ?failures_app, ?length_app; cbn; split_and!; lia.
  - destruct (sr_admitted s !! n) as [[c rq]|] eqn:E; [|by split_and!]. pose proof (length_delete_Some _ _ _ E) as Hl.
    apply lookup_lt_Some in E. cbv zeta. pose proof (resolve_slot rq (Some (call_purpose c)) (sr_process s) w) as Hs. cbv zeta in Hs.
    destruct (release_counts (pr_breaker (sr_process s)) ltac:(lia)) as [Hrm Hri].
    destruct (sv_result _) as [[r|ctx]|x]; unfold counts; cbn -[breaker_release]; rewrite Hs, ?failures_app, ?length_app; cbn -[breaker_release]; split_and!; lia.
  - destruct (sr_running s !! n) as [[c ctx]|] eqn:E; [|by split_and!]. pose proof (length_delete_Some _ _ _ E) as Hl.
    apply lookup_lt_Some in E. cbv zeta. destruct (finish_slot c ctx (sr_process s) w w1) as [Hs Ho].
    destruct (release_counts (pr_breaker (sr_process s)) ltac:(lia)) as [Hrm Hri].
    unfold counts. cbn -[breaker_release]. rewrite Hs, failures_app, Ho. split_and!; lia.
Qed.

Lemma run_counts slots es : forall s, counts slots s -> counts slots (run_events s es).
Proof. induction es as [|e es IH]; intros s Hs; [done|]. by apply IH, fire_counts. Qed.

(** A server whose slots are all lost answers nothing but that it is overloaded. *)
Lemma all_lost slots es : forall s, counts slots s -> failures (sr_answers s) = slots ->
  exists n, sr_answers (run_events s es) = sr_answers s ++ repeat (Ok (overload_reject_response None)) n.
Proof.
  induction es as [|e es IH]; intros s Hs Hall; [by exists 0%nat; rewrite app_nil_r|].
  pose proof (fire_counts slots s e Hs) as Hs2. destruct Hs as (Hm & Hi & Hle).
  assert (sr_admitted s = []) as Ha by (destruct (sr_admitted s); [done|cbn in Hi; lia]).
  assert (sr_running s = []) as Hr by (destruct (sr_running s); [done|cbn in Hi; lia]).
  change (run_events s (e :: es)) with (run_events (fire s e) es). revert Hs2. destruct e as [c rq|n w|n w w1]; cbn [fire]; intros Hs2.
  - unfold breaker_acquire in *. rewrite (proj2 (Z.leb_le _ _)) in * by lia.
    destruct (IH _ Hs2) as [n ->]; [cbn; rewrite failures_app; cbn; lia|]. exists (S n). cbn. by rewrite <- app_assoc.
  - rewrite Ha in *. cbn in *. by apply IH.
  - rewrite Hr in *. cbn in *. by apply IH.
Qed.

(** C27: however the requests of external clients interleave, the breaker counts
    those in flight and the ones an exception left: a request gives its slot
    back however it is answered, but keeps it for good when an exception
    leaves its handler.  Never more than the slots are taken, and once as many
    exceptions have left the handlers, every later answer is that the server
    is overloaded. *)
Theorem slots_are_lost p es : inflight (pr_breaker p) = 0 -> 0 <= ob_max (pr_breaker p) ->
  let s := run_events (serve_from p) es in
  let taken := Z.of_nat (length (sr_admitted s)) + Z.of_nat (length (sr_running s)) in
  inflight (pr_breaker (sr_process s)) = taken + failures (sr_answers s) /\
  taken + failures (sr_answers s) <= ob_max (pr_breaker p) /\
  (failures (sr_answers s) = ob_max (pr_breaker p) -> forall es2, exists n,
     sr_answers (run_events s es2) = sr_answers s ++ repeat (Ok (overload_reject_response None)) n).
Proof.
  cbv zeta. intros Hz Hm. assert (Hs : counts (ob_max (pr_breaker p)) (run_events (serve_from p) es)).
  { apply run_counts. unfold counts, failures. cbn. split_and!; [done|lia|lia]. }
  pose proof Hs as (_ & Hi & Hle). split; [exact Hi|]. split; [lia|]. intros Hall es2. by eapply all_lost.
Qed.

(** A handler is its three steps without another request in between: the
    process it leaves and its answer are those of the request arriving, having
    its context resolved and running its service, and nothing stays in flight. *)
Theorem handler_is_its_steps c rq p w :
  let answered := mcp_call key nonce config c rq p w in
  let resolved := _require_mcp_ctx key nonce config rq (Some (call_purpose c)) p w in
  run_events (serve_from p) [Arrive c rq; Resolve 0 w; Finish 0 w (sv_world resolved)] =
  {| sr_process := sv_process answered; sr_admitted := []; sr_running := []; sr_answers := [sv_result answered] |}.
Proof.
  cbv zeta. assert (Hc : mcp_call key nonce config c rq p w =
    let required := _require_mcp_ctx key nonce config rq (Some (call_purpose c)) p w in
    match sv_result required with
    | Raise e => served (Raise e) (sv_process required) (sv_world required)
    | Ok (inl r) => served (Ok r) (sv_process required) (sv_world required)
    | Ok (inr ctx) => finish_call c ctx (sv_process required) w (sv_world required)
    end) by by destruct c.
  rewrite Hc. cbv zeta. unfold _require_mcp_ctx, run_events. cbn [foldl fire serve_from sr_process sr_admitted sr_running sr_answers app].
  destruct (breaker_acquire (pr_breaker p)) as [[] b]; [|done]. cbn [sr_process sr_admitted sr_running sr_answers app lookup list_lookup].
  cbn. destruct (sv_result (resolve_mcp_ctx _ _ _ _ _ _ _)) as [[r|ctx]|x]; done.
Qed.
End flight.

(** ** Witness *)

(** With one slot, a client whose actor was revoked while its grant stands takes
    it for good: the next client is told that the server is overloaded. *)
Lemma slots_are_lost_witness :
  let call := CallSearch "algebra" "https://m" in
  let s := @run_events brisk_env sample_jwt test_crypto sample_key "00ff" sample_config (serve_from (idle 1))
    [Arrive call sample_request; Resolve 0 (client_world revoked_actor)] in
  failures (sr_answers s) = 1 /\
  exists n, sr_answers (@run_events brisk_env sample_jwt test_crypto sample_key "00ff" sample_config s
    [Arrive call sample_request; Resolve 0 (client_world client_actor)]) =
    sr_answers s ++ repeat (Ok (overload_reject_response None)) n.
Proof.
  intros call s. assert (Hf : failures (sr_answers s) = 1) by (vm_compute; reflexivity). split; [exact Hf|].
  assert (H0 : 0 <= 1) by lia.
  destruct (@slots_are_lost brisk_env sample_jwt test_crypto sample_key "00ff" sample_config (idle 1)
    [Arrive call sample_request; Resolve 0 (client_world revoked_actor)] eq_refl H0) as (_ & _ & Hl).
  exact (Hl Hf _).
Defined.
