(* ===== verification/Pagination.v ===== *)
(** * Pagination cursors (services/core/src/memdot_core/pagination.py)

    A cursor is signed JSON in base64: the account, the digest of the query, the
    place in the listing and its times.  The signing key is an argument; the
    environment variable must hold at least 32 characters. *)

From Stdlib Require Import Ascii ZArith Lia.
From stdpp Require Import list strings.
From S2P Require Import Prelude PyStr Digest Uuid Json Enums JsonParse Base64 Ledger Store Deletion AuthSnapshot ServiceAuth Errors.
Open Scope Z_scope.

Record CursorPayload := {
  cp_account_id : uuid;
  cp_query_hash : string;
  cp_sort_value : json;
  cp_item_id : uuid;
  cp_issued_at : Z;
  cp_expires_at : Z;
}.

Definition _cursor_key (cursor_key tenant_key : option string) : res (list Z) :=
  let v := or_text cursor_key tenant_key in
  _ ← raise_if (Z.of_nat (String.length v) <? 32) (RuntimeError "CORE_CURSOR_SIGNING_KEY or CORE_TENANT_CONTEXT_SIGNING_KEY required");
  mret (utf8 v).

Definition query_hash (query : dict) : string := sha256_str (dumps (JObj query)).

Definition cursor_body (p : CursorPayload) : dict :=
  [("a", JStr (str_uuid (cp_account_id p))); ("q", JStr (cp_query_hash p)); ("s", cp_sort_value p);
   ("i", JStr (str_uuid (cp_item_id p))); ("iat", JInt (cp_issued_at p)); ("exp", JInt (cp_expires_at p))].

Definition encode_cursor (key : list Z) (p : CursorPayload) : string :=
  let raw := utf8 (dumps (JObj (cursor_body p))) in
  b64encode (raw ++ utf8 ("." +:+ hmac_hex key raw)).

(** [decoded.rsplit(b".", 1)], which must give two parts. *)
Fixpoint rsplit_dot (l : list Z) : option (list Z * list Z) :=
  match l with
  | [] => None
  | b :: l =>
      match rsplit_dot l with
      | Some (before, after) => Some (b :: before, after)
      | None => if b =? 46 then Some ([], l) else None
      end
  end.

(** An integer of a signed body, compared with a time; the bodies
    [encode_cursor] signs hold integers there. *)
Definition body_time (k : string) (body : dict) : res Z :=
  v ← get_item k body; match v with JInt z => Ok z | _ => Raise TypeError end.

(** The checks of a body whose signature is good, at the time [now]. *)
Definition check_cursor (body : dict) (account_id : uuid) (query : dict) (max_age_seconds now : Z) : res (option CursorPayload) :=
  acc ← get_item "a" body;
  if negb (bool_decide (acc = JStr (str_uuid account_id))) then mret None
  else
    q ← get_item "q" body;
    if negb (bool_decide (q = JStr (query_hash query))) then mret None
    else
      exp ← body_time "exp" body;
      if exp <? now then mret None
      else
        iat ← body_time "iat" body;
        if now + 60 <? iat then mret None
        else if max_age_seconds <? now - iat then mret None
        else
          s ← get_item "s" body;
          i ← get_item "i" body;
          item ← of_option (ValueError "UUID") (parse_uuid (py_str i));
          mret (Some {| cp_account_id := account_id; cp_query_hash := query_hash query; cp_sort_value := s;
                        cp_item_id := item; cp_issued_at := iat; cp_expires_at := exp |}).

Definition open_cursor (key : list Z) (token : string) (account_id : uuid) (query : dict) (max_age_seconds now : Z)
    : res (option CursorPayload) :=
  decoded ← of_option (ValueError "binascii.Error") (b64decode (repad token));
  '(raw, sig) ← of_option (ValueError "rsplit") (rsplit_dot decoded);
  sig ← of_option (ValueError "UnicodeDecodeError") (utf8_decode sig);
  _ ← raise_if (negb (is_ascii sig)) (ValueError "UnicodeDecodeError");
  if negb (String.eqb (hmac_hex key raw) sig) then mret None
  else
    t ← of_option (ValueError "UnicodeDecodeError") (utf8_decode raw);
    body ← loads t;
    match body with
    | JObj body => check_cursor body account_id query max_age_seconds now
    | _ => Raise TypeError
    end.

(** [except (ValueError, KeyError): return None]; a [TypeError] leaves. *)
Definition decode_cursor (key : list Z) (token : string) (account_id : uuid) (query : dict) (max_age_seconds now : Z)
    : res (option CursorPayload) :=
  match open_cursor key token account_id query max_age_seconds now with
  | Raise (ValueError _) | Raise KeyError => Ok None
  | r => r
  end.

Definition cursor_validation_problem (correlation_id : option uuid) : Response :=
  validation_problem [{| fe_pointer := "/cursor"; fe_code := ErrorCode.CURSOR_INVALID; fe_detail := None |}] correlation_id.

(** ** Round trip *)

Lemma rsplit_none l : Forall (fun b => b <> 46) l -> rsplit_dot l = None.
Proof. induction 1 as [|b l Hb _ IH]; [done|]. cbn. rewrite IH. by destruct (Z.eqb_spec b 46). Qed.

Lemma rsplit_app raw sig : Forall (fun b => b <> 46) sig -> rsplit_dot (raw ++ 46 :: sig) = Some (raw, sig).
Proof. intros Hs. induction raw as [|b raw IH]; cbn; [by rewrite rsplit_none|by rewrite IH]. Qed.

Lemma utf8_app s t : utf8 (s +:+ t) = utf8 s ++ utf8 t.
Proof. induction s as [|c s IH]; [done|]. cbn. by rewrite IH, app_assoc. Qed.

Lemma hex_no_dot s : str_all is_hex s = true -> Forall (fun b => b <> 46) (utf8 s) /\ is_ascii s = true.
Proof.
  induction s as [|c s IH]; [done|]. cbn [str_all]. intros [Hc Hs]%andb_prop. destruct (IH Hs) as [Hd Ha].
  assert (Hone : Forall (fun b => b <> 46) (utf8 (String c "")) /\ is_ascii (String c "") = true).
  { clear -Hc. destruct c as [[] [] [] [] [] [] [] []]; try discriminate Hc; (split; [repeat constructor; discriminate|reflexivity]). }
  destruct Hone as [H1 H2]. split.
  - change (String c s) with (String c "" +:+ s). rewrite utf8_app. by apply Forall_app.
  - unfold is_ascii in *. cbn [str_all] in *. rewrite andb_true_r in H2. by rewrite H2, Ha.
Qed.

Section cursor.
Context (key : list Z) (p : CursorPayload) (account : uuid) (query : dict).

Let body : dict := cursor_body p.
Let decoded : dict := sort_by key_leb (map (fun kv => (kv.1, canon kv.2)) body).

Lemma cursor_keys : NoDup (map fst body).
Proof. apply (bool_decide_unpack _). vm_compute. exact I. Qed.

Hypothesis Hsort : wf (cp_sort_value p) /\ floats_read (cp_sort_value p) /\ canon (cp_sort_value p) = cp_sort_value p.

Lemma cursor_wf : wf (JObj body) /\ floats_read (JObj body).
Proof.
  destruct Hsort as (Hw & Hf & _). split; [|cbn; by split_and!]. apply wf_obj. split; [apply cursor_keys|].
  repeat constructor; done.
Qed.

Lemma cursor_get k v : dict_lookup k body = Some v -> get_item k decoded = Ok (canon v).
Proof. intros Hk. unfold get_item, decoded. rewrite dict_lookup_canon by apply cursor_keys. by rewrite Hk. Qed.

(** The signature of an encoded cursor is accepted and its body read back. *)
Lemma cursor_opens max_age now :
  open_cursor key (encode_cursor key p) account query max_age now = check_cursor decoded account query max_age now.
Proof.
  unfold open_cursor, encode_cursor. fold body. set (raw := utf8 (dumps (JObj body))).
  destruct (hex_no_dot (hmac_hex key raw) (hmac_hex_chars key raw)) as [Hdot Hasc].
  destruct cursor_wf as [Hw Hf]. pose proof (loads_dumps _ Hw Hf) as Hl. change (canon (JObj body)) with (JObj decoded) in Hl.
  assert (Hraw : utf8_decode raw = Some (dumps (JObj body))) by apply utf8_decode_utf8.
  assert (Hb : Forall is_byte raw) by apply utf8_bytes. clearbody raw. clear Hw Hf.
  remember (hmac_hex key raw) as sig eqn:Hsig.
  rewrite (bind_step _ _ (raw ++ 46 :: utf8 sig)).
  2: { rewrite repad_encode, b64decode_encode; [done|]. apply Forall_app. split; [done|apply utf8_bytes]. }
  rewrite (bind_step _ _ (raw, utf8 sig)) by by rewrite rsplit_app.
  rewrite (bind_step _ _ sig) by by rewrite utf8_decode_utf8.
  rewrite (bind_step _ _ tt) by by rewrite Hasc. rewrite <- Hsig, String.eqb_refl. cbn [negb].
  rewrite (bind_step _ _ _ (proj2 (of_option_Ok _ _ _) Hraw)), (bind_step _ _ _ Hl). done.
Qed.

Hypothesis Hitem : is_uuid (cp_item_id p).

Lemma cursor_checks max_age now : check_cursor decoded account query max_age now =
  Ok (if bool_decide (str_uuid (cp_account_id p) = str_uuid account) && bool_decide (cp_query_hash p = query_hash query) &&
         (now <=? cp_expires_at p) && (cp_issued_at p <=? now + 60) && (now - cp_issued_at p <=? max_age)
      then Some {| cp_account_id := account; cp_query_hash := query_hash query; cp_sort_value := cp_sort_value p;
                   cp_item_id := cp_item_id p; cp_issued_at := cp_issued_at p; cp_expires_at := cp_expires_at p |}
      else None).
Proof.
  unfold check_cursor. rewrite (cursor_get "a" (JStr (str_uuid (cp_account_id p))) eq_refl). cbn [canon mbind res_bind].
  case_bool_decide as Ha; (case_bool_decide as Ha'; [|try congruence]); cbn [negb andb]; try congruence; [|done].
  rewrite (cursor_get "q" (JStr (cp_query_hash p)) eq_refl). cbn [canon mbind res_bind].
  case_bool_decide as Hq; (case_bool_decide as Hq'; [|try congruence]); cbn [negb andb]; try congruence; [|done].
  unfold body_time. rewrite (cursor_get "exp" (JInt (cp_expires_at p)) eq_refl). cbn [canon mbind res_bind].
  rewrite Z.ltb_antisym. destruct (Z.leb_spec now (cp_expires_at p)); cbn [negb andb]; [|done].
  rewrite (cursor_get "iat" (JInt (cp_issued_at p)) eq_refl). cbn [canon mbind res_bind].
  rewrite Z.ltb_antisym. destruct (Z.leb_spec (cp_issued_at p) (now + 60)); cbn [negb andb]; [|done].
  rewrite Z.ltb_antisym. destruct (Z.leb_spec (now - cp_issued_at p) max_age); cbn [negb]; [|done].
  apply bind_Ok. eexists. split; [by apply (cursor_get "s" (cp_sort_value p))|].
  apply bind_Ok. eexists. split; [by apply (cursor_get "i" (JStr (str_uuid (cp_item_id p))))|].
  apply bind_Ok. exists (cp_item_id p). split; [unfold canon, py_str; by rewrite parse_str_uuid|].
  by destruct Hsort as (_ & _ & ->).
Qed.
End cursor.

(** C30: a cursor opens only for the account and the query it was made for, from a
    minute before its issue to its expiry and not when it is older than the
    age allowed; then it gives back the place that was encoded. *)
Theorem cursor_roundtrip key p account query max_age now :
  wf (cp_sort_value p) -> floats_read (cp_sort_value p) -> canon (cp_sort_value p) = cp_sort_value p ->
  is_uuid (cp_item_id p) -> is_uuid (cp_account_id p) -> is_uuid account ->
  decode_cursor key (encode_cursor key p) account query max_age now =
  Ok (if bool_decide (cp_account_id p = account) && bool_decide (cp_query_hash p = query_hash query) &&
         (now <=? cp_expires_at p) && (cp_issued_at p <=? now + 60) && (now - cp_issued_at p <=? max_age)
      then Some p else None).
Proof.
  intros Hw Hf Hc Hi Ha Hacc. unfold decode_cursor. rewrite cursor_opens, cursor_checks by done.
  assert (He : bool_decide (str_uuid (cp_account_id p) = str_uuid account) = bool_decide (cp_account_id p = account)).
  { apply bool_decide_ext. split; [by apply str_uuid_inj|by intros ->]. }
  rewrite He. match goal with |- context [if ?c then Some p else None] => destruct c eqn:E end; [|done].
  split_bool. destruct p; cbn in *. by subst.
Qed.

(** What opens carries the signature of its body under the key, is for the
    account and the query asked and has not expired. *)
Theorem cursor_authentic key token account query max_age now p :
  decode_cursor key token account query max_age now = Ok (Some p) ->
  cp_account_id p = account /\ cp_query_hash p = query_hash query /\ now <= cp_expires_at p /\
  exists raw sig, b64decode (repad token) = Some (raw ++ 46 :: sig) /\ utf8_decode sig = Some (hmac_hex key raw).
Proof.
  unfold decode_cursor. destruct (open_cursor _ _ _ _ _ _) as [[q|]|e] eqn:E; [|done|by destruct e]. intros [= ->].
  unfold open_cursor in E. apply bind_Ok in E as (decoded & Hd & E). apply of_option_Ok in Hd.
  apply bind_Ok in E as ([raw sig] & Hr & E). apply of_option_Ok in Hr. apply bind_Ok in E as (s & Hs & E). apply of_option_Ok in Hs.
  apply bind_Ok in E as ([] & _ & E). destruct (String.eqb_spec (hmac_hex key raw) s) as [<-|]; [|done]. cbn [negb] in E.
  apply bind_Ok in E as (t & _ & E). apply bind_Ok in E as (b & _ & E). destruct b as [| | | | | |b]; try done.
  unfold check_cursor in E. apply bind_Ok in E as (acc & _ & E). destruct (negb _); [done|].
  apply bind_Ok in E as (q & _ & E). destruct (negb _); [done|]. apply bind_Ok in E as (exp & _ & E).
  destruct (Z.ltb_spec exp now); [done|]. apply bind_Ok in E as (iat & _ & E). destruct (_ <? iat); [done|].
  destruct (_ <? _); [done|]. apply bind_Ok in E as (v & _ & E). apply bind_Ok in E as (i & _ & E).
  apply bind_Ok in E as (item & _ & E). injection E as <-. cbn. split_and!; [done|done|lia|].
  exists raw, sig. split; [|done]. rewrite Hd. f_equal. clear -Hr. revert raw sig Hr.
  induction decoded as [|x l IH]; intros raw sig Hr; [done|]. cbn in Hr.
  destruct (rsplit_dot l) as [[before after]|]; [injection Hr as <- <-; cbn; f_equal; by apply IH|].
  destruct (Z.eqb_spec x 46) as [->|]; [|done]. by injection Hr as <- <-.
Qed.

(** ** Witnesses *)

Definition sample_cursor : CursorPayload :=
  {| cp_account_id := 1; cp_query_hash := query_hash [("kind", JStr "source")]; cp_sort_value := JStr "2026";
     cp_item_id := 7; cp_issued_at := 1000; cp_expires_at := 2000 |}.

Notation open_sample account now :=
  (decode_cursor sample_key (encode_cursor sample_key sample_cursor) account [("kind", JStr "source")] 3600 now).

Lemma cursor_roundtrip_witness :
  open_sample 1 1500 = Ok (Some sample_cursor) /\ open_sample 2 1500 = Ok None /\ open_sample 1 2001 = Ok None.
Proof.
  assert (H1 : is_uuid 1) by (split; vm_compute; congruence). assert (H2 : is_uuid 2) by (split; vm_compute; congruence).
  assert (H7 : is_uuid 7) by (split; vm_compute; congruence).
  assert (Hat : forall account now, is_uuid account -> open_sample account now =
    Ok (if bool_decide (1 = account) && true && (now <=? 2000) && (1000 <=? now + 60) && (now - 1000 <=? 3600)
        then Some sample_cursor else None)).
  { intros account now Ha. rewrite (cursor_roundtrip sample_key sample_cursor account [("kind", JStr "source")] 3600 now I I eq_refl H7 H1 Ha).
    unfold sample_cursor; cbn [cp_query_hash cp_account_id cp_expires_at cp_issued_at].
    by rewrite (bool_decide_true (query_hash _ = query_hash _) eq_refl). }
  split; [|split]; rewrite Hat by assumption; reflexivity.
Defined.

Lemma cursor_authentic_witness : open_sample 1 1500 = Ok (Some sample_cursor) /\ 1500 <= cp_expires_at sample_cursor.
Proof.
  assert (E : open_sample 1 1500 = Ok (Some sample_cursor)).
  { unfold decode_cursor. rewrite cursor_opens, cursor_checks by done. unfold sample_cursor.
    cbn [cp_query_hash cp_account_id cp_expires_at cp_issued_at].
    by rewrite (bool_decide_true (query_hash _ = query_hash _) eq_refl). }
  destruct (cursor_authentic sample_key (encode_cursor sample_key sample_cursor) 1 [("kind", JStr "source")] 3600 1500 sample_cursor E)
    as (_ & _ & Hx & _).
  split; [exact E|exact Hx].
Defined.
