(* ===== verification/Isolation.v ===== *)
(** * Isolation of accounts

    What the row policies mean for the services: whatever runs under a sealed
    context writes only rows of its account, in every table, and depends on no
    row of another; outside a sealed context nothing is seen or written.  The
    access the policies are stated over is what the SQL functions answer. *)

From Stdlib Require Import ZArith Lia.
From stdpp Require Import list strings.
From S2P Require Import Prelude PyStr Digest Uuid Json Enums Ledger Store RequestContext Deletion AuthSnapshot ServiceAuth TenantContext RowPolicies.
Open Scope Z_scope.

(** Outside a sealed context: memdot_rls_ok refuses every row. *)
Definition closed (d : Db) : Access :=
  {| ac_rls := fun _ => false; ac_purpose := ""; ac_space := memdot_external_space_ok d |}.

Definition unsealed {A} (m : M A) : M A := fun w => under_policy (closed (db w)) m w.

(** A table whose rows belong to accounts: its policies ask [memdot_rls_ok] for
    the account of the row, and a run leaves it settled. *)
Class Owned (R : Type) `{Table R, Policy R, EqDecision R} := {
  owner : R -> uuid;
  shown_owned : forall a r, shown a r = true -> ac_rls a (owner r) = true;
  seen_rows : forall a d, rows (visible a d) = keep (shown a) (rows d);
  accepted_owned : forall a r, accepted a r = true -> ac_rls a (owner r) = true;
  shown_alike : forall a b r, ac_rls a (owner r) = ac_rls b (owner r) -> ac_purpose a = ac_purpose b ->
    (forall sp, ac_space a (owner r) sp = ac_space b (owner r) sp) -> shown a r = shown b r;
  settled : forall a d d2 d3, settle_db a d d2 = Ok d3 -> settle a (rows d) (rows d2) = Ok (rows d3);
}.

(** ** Every table *)

Record Settled (a : Access) (d d2 d3 : Db) : Prop := {
  sd_account : settle a (t_account d) (t_account d2) = Ok (t_account d3);
  sd_user : settle a (t_user d) (t_user d2) = Ok (t_user d3);
  sd_account_member : settle a (t_account_member d) (t_account_member d2) = Ok (t_account_member d3);
  sd_space : settle a (t_space d) (t_space d2) = Ok (t_space d3);
  sd_space_member : settle a (t_space_member d) (t_space_member d2) = Ok (t_space_member d3);
  sd_hosted_adult_attestation : settle a (t_hosted_adult_attestation d) (t_hosted_adult_attestation d2) = Ok (t_hosted_adult_attestation d3);
  sd_external_identity : settle a (t_external_identity d) (t_external_identity d2) = Ok (t_external_identity d3);
  sd_actor : settle a (t_actor d) (t_actor d2) = Ok (t_actor d3);
  sd_browser_session : settle a (t_browser_session d) (t_browser_session d2) = Ok (t_browser_session d3);
  sd_session_revocation : settle a (t_session_revocation d) (t_session_revocation d2) = Ok (t_session_revocation d3);
  sd_external_client_grant : settle a (t_external_client_grant d) (t_external_client_grant d2) = Ok (t_external_client_grant d3);
  sd_operator_bootstrap : settle a (t_operator_bootstrap d) (t_operator_bootstrap d2) = Ok (t_operator_bootstrap d3);
  sd_oidc_login_challenge : settle a (t_oidc_login_challenge d) (t_oidc_login_challenge d2) = Ok (t_oidc_login_challenge d3);
  sd_oidc_token_replay : settle a (t_oidc_token_replay d) (t_oidc_token_replay d2) = Ok (t_oidc_token_replay d3);
  sd_service_auth_nonce : settle a (t_service_auth_nonce d) (t_service_auth_nonce d2) = Ok (t_service_auth_nonce d3);
  sd_source : settle a (t_source d) (t_source d2) = Ok (t_source d3);
  sd_source_revision : settle a (t_source_revision d) (t_source_revision d2) = Ok (t_source_revision d3);
  sd_source_blob : settle a (t_source_blob d) (t_source_blob d2) = Ok (t_source_blob d3);
  sd_authored_document : settle a (t_authored_document d) (t_authored_document d2) = Ok (t_authored_document d3);
  sd_document_revision : settle a (t_document_revision d) (t_document_revision d2) = Ok (t_document_revision d3);
  sd_parse_run : settle a (t_parse_run d) (t_parse_run d2) = Ok (t_parse_run d3);
  sd_document_element : settle a (t_document_element d) (t_document_element d2) = Ok (t_document_element d3);
  sd_provenance_record : settle a (t_provenance_record d) (t_provenance_record d2) = Ok (t_provenance_record d3);
  sd_truth_classification : settle a (t_truth_classification d) (t_truth_classification d2) = Ok (t_truth_classification d3);
  sd_conflict_set : settle a (t_conflict_set d) (t_conflict_set d2) = Ok (t_conflict_set d3);
  sd_conflict_member : settle a (t_conflict_member d) (t_conflict_member d2) = Ok (t_conflict_member d3);
  sd_proposal : settle a (t_proposal d) (t_proposal d2) = Ok (t_proposal d3);
  sd_conversation : settle a (t_conversation d) (t_conversation d2) = Ok (t_conversation d3);
  sd_conversation_turn : settle a (t_conversation_turn d) (t_conversation_turn d2) = Ok (t_conversation_turn d3);
  sd_audit_event : settle a (t_audit_event d) (t_audit_event d2) = Ok (t_audit_event d3);
  sd_current_source_revision : settle a (t_current_source_revision d) (t_current_source_revision d2) = Ok (t_current_source_revision d3);
  sd_current_document_revision : settle a (t_current_document_revision d) (t_current_document_revision d2) = Ok (t_current_document_revision d3);
  sd_outbox_event : settle a (t_outbox_event d) (t_outbox_event d2) = Ok (t_outbox_event d3);
  sd_idempotency_record : settle a (t_idempotency_record d) (t_idempotency_record d2) = Ok (t_idempotency_record d3);
  sd_durable_job : settle a (t_durable_job d) (t_durable_job d2) = Ok (t_durable_job d3);
  sd_job_attempt : settle a (t_job_attempt d) (t_job_attempt d2) = Ok (t_job_attempt d3);
  sd_projection_state : settle a (t_projection_state d) (t_projection_state d2) = Ok (t_projection_state d3);
  sd_upload_intent : settle a (t_upload_intent d) (t_upload_intent d2) = Ok (t_upload_intent d3);
  sd_current_active_parse_run : settle a (t_current_active_parse_run d) (t_current_active_parse_run d2) = Ok (t_current_active_parse_run d3);
  sd_memory_item : settle a (t_memory_item d) (t_memory_item d2) = Ok (t_memory_item d3);
  sd_memory_revision : settle a (t_memory_revision d) (t_memory_revision d2) = Ok (t_memory_revision d3);
  sd_current_memory_revision : settle a (t_current_memory_revision d) (t_current_memory_revision d2) = Ok (t_current_memory_revision d3);
  sd_projection : settle a (t_projection d) (t_projection d2) = Ok (t_projection d3);
  sd_context_receipt : settle a (t_context_receipt d) (t_context_receipt d2) = Ok (t_context_receipt d3);
  sd_context_receipt_item : settle a (t_context_receipt_item d) (t_context_receipt_item d2) = Ok (t_context_receipt_item d3);
  sd_course : settle a (t_course d) (t_course d2) = Ok (t_course d3);
  sd_curriculum_node : settle a (t_curriculum_node d) (t_curriculum_node d2) = Ok (t_curriculum_node d3);
  sd_curriculum_edge : settle a (t_curriculum_edge d) (t_curriculum_edge d2) = Ok (t_curriculum_edge d3);
  sd_assessment_item : settle a (t_assessment_item d) (t_assessment_item d2) = Ok (t_assessment_item d3);
  sd_assessment_revision : settle a (t_assessment_revision d) (t_assessment_revision d2) = Ok (t_assessment_revision d3);
  sd_current_assessment_revision : settle a (t_current_assessment_revision d) (t_current_assessment_revision d2) = Ok (t_current_assessment_revision d3);
  sd_learner_event : settle a (t_learner_event d) (t_learner_event d2) = Ok (t_learner_event d3);
  sd_review_item : settle a (t_review_item d) (t_review_item d2) = Ok (t_review_item d3);
  sd_learner_projection : settle a (t_learner_projection d) (t_learner_projection d2) = Ok (t_learner_projection d3);
  sd_notion_connection : settle a (t_notion_connection d) (t_notion_connection d2) = Ok (t_notion_connection d3);
  sd_notion_page_binding : settle a (t_notion_page_binding d) (t_notion_page_binding d2) = Ok (t_notion_page_binding d3);
  sd_deletion_tombstone : settle a (t_deletion_tombstone d) (t_deletion_tombstone d2) = Ok (t_deletion_tombstone d3);
  sd_export_job : settle a (t_export_job d) (t_export_job d2) = Ok (t_export_job d3);
  sd_semantic_projection : settle a (t_semantic_projection d) (t_semantic_projection d2) = Ok (t_semantic_projection d3);
  sd_assessment_attempt : settle a (t_assessment_attempt d) (t_assessment_attempt d2) = Ok (t_assessment_attempt d3);
  sd_deletion_workflow : settle a (t_deletion_workflow d) (t_deletion_workflow d2) = Ok (t_deletion_workflow d3);
}.

Lemma settle_db_Settled a d d2 d3 : settle_db a d d2 = Ok d3 -> Settled a d d2 d3.
Proof.
  unfold settle_db. intros Hm. repeat (apply bind_Ok in Hm as (? & ? & Hm)). injection Hm as <-. by constructor.
Qed.

(** Every policy of a row implies [memdot_rls_ok] of its account. *)
Ltac owned_policy p :=
  unfold shown, accepted, p, insiders, members, anyone, readers, readers_by_visibility, recorders, writers_by_visibility;
  first [ intros a b r Hrls Hp Hsp; unfold purpose_in; by rewrite ?Hrls, ?Hp, ?Hsp
        | intros a r; destruct (ac_rls a _); [done|]; cbn [andb orb]; exact (fun H => H) ].

#[global] Instance account_owned : Owned Account.t.
Proof.
  refine {| owner := Account.account_id; seen_rows _ _ := eq_refl; settled a d d2 d3 H := sd_account _ _ _ _ (settle_db_Settled _ _ _ _ H) |}; owned_policy account_policy.
Defined.
#[global] Instance user_owned : Owned User.t.
Proof.
  refine {| owner := User.account_id; seen_rows _ _ := eq_refl; settled a d d2 d3 H := sd_user _ _ _ _ (settle_db_Settled _ _ _ _ H) |}; owned_policy user_policy.
Defined.
#[global] Instance account_member_owned : Owned AccountMember.t.
Proof.
  refine {| owner := AccountMember.account_id; seen_rows _ _ := eq_refl; settled a d d2 d3 H := sd_account_member _ _ _ _ (settle_db_Settled _ _ _ _ H) |}; owned_policy account_member_policy.
Defined.
#[global] Instance space_owned : Owned Space.t.
Proof.
  refine {| owner := Space.account_id; seen_rows _ _ := eq_refl; settled a d d2 d3 H := sd_space _ _ _ _ (settle_db_Settled _ _ _ _ H) |}; owned_policy space_policy.
Defined.
#[global] Instance space_member_owned : Owned SpaceMember.t.
Proof.
  refine {| owner := SpaceMember.account_id; seen_rows _ _ := eq_refl; settled a d d2 d3 H := sd_space_member _ _ _ _ (settle_db_Settled _ _ _ _ H) |}; owned_policy space_member_policy.
Defined.
#[global] Instance hosted_adult_attestation_owned : Owned HostedAdultAttestation.t.
Proof.
  refine {| owner := HostedAdultAttestation.account_id; seen_rows _ _ := eq_refl; settled a d d2 d3 H := sd_hosted_adult_attestation _ _ _ _ (settle_db_Settled _ _ _ _ H) |}; owned_policy hosted_adult_attestation_policy.
Defined.
#[global] Instance external_identity_owned : Owned ExternalIdentity.t.
Proof.
  refine {| owner := ExternalIdentity.account_id; seen_rows _ _ := eq_refl; settled a d d2 d3 H := sd_external_identity _ _ _ _ (settle_db_Settled _ _ _ _ H) |}; owned_policy external_identity_policy.
Defined.
#[global] Instance actor_owned : Owned Actor.t.
Proof.
  refine {| owner := Actor.account_id; seen_rows _ _ := eq_refl; settled a d d2 d3 H := sd_actor _ _ _ _ (settle_db_Settled _ _ _ _ H) |}; owned_policy actor_policy.
Defined.
#[global] Instance browser_session_owned : Owned BrowserSession.t.
Proof.
  refine {| owner := BrowserSession.account_id; seen_rows _ _ := eq_refl; settled a d d2 d3 H := sd_browser_session _ _ _ _ (settle_db_Settled _ _ _ _ H) |}; owned_policy browser_session_policy.
Defined.
#[global] Instance session_revocation_owned : Owned SessionRevocation.t.
Proof.
  refine {| owner := SessionRevocation.account_id; seen_rows _ _ := eq_refl; settled a d d2 d3 H := sd_session_revocation _ _ _ _ (settle_db_Settled _ _ _ _ H) |}; owned_policy session_revocation_policy.
Defined.
#[global] Instance external_client_grant_owned : Owned ExternalClientGrant.t.
Proof.
  refine {| owner := ExternalClientGrant.account_id; seen_rows _ _ := eq_refl; settled a d d2 d3 H := sd_external_client_grant _ _ _ _ (settle_db_Settled _ _ _ _ H) |}; owned_policy external_client_grant_policy.
Defined.
#[global] Instance operator_bootstrap_owned : Owned OperatorBootstrap.t.
Proof.
  refine {| owner := OperatorBootstrap.account_id; seen_rows _ _ := eq_refl; settled a d d2 d3 H := sd_operator_bootstrap _ _ _ _ (settle_db_Settled _ _ _ _ H) |}; owned_policy operator_bootstrap_policy.
Defined.
#[global] Instance source_owned : Owned Source.t.
Proof.
  refine {| owner := Source.account_id; seen_rows _ _ := eq_refl; settled a d d2 d3 H := sd_source _ _ _ _ (settle_db_Settled _ _ _ _ H) |}; owned_policy source_policy.
Defined.
#[global] Instance source_revision_owned : Owned SourceRevision.t.
Proof.
  refine {| owner := SourceRevision.account_id; seen_rows _ _ := eq_refl; settled a d d2 d3 H := sd_source_revision _ _ _ _ (settle_db_Settled _ _ _ _ H) |}; owned_policy source_revision_policy.
Defined.
#[global] Instance source_blob_owned : Owned SourceBlob.t.
Proof.
  refine {| owner := SourceBlob.account_id; seen_rows _ _ := eq_refl; settled a d d2 d3 H := sd_source_blob _ _ _ _ (settle_db_Settled _ _ _ _ H) |}; owned_policy source_blob_policy.
Defined.
#[global] Instance authored_document_owned : Owned AuthoredDocument.t.
Proof.
  refine {| owner := AuthoredDocument.account_id; seen_rows _ _ := eq_refl; settled a d d2 d3 H := sd_authored_document _ _ _ _ (settle_db_Settled _ _ _ _ H) |}; owned_policy authored_document_policy.
Defined.
#[global] Instance document_revision_owned : Owned DocumentRevision.t.
Proof.
  refine {| owner := DocumentRevision.account_id; seen_rows _ _ := eq_refl; settled a d d2 d3 H := sd_document_revision _ _ _ _ (settle_db_Settled _ _ _ _ H) |}; owned_policy document_revision_policy.
Defined.
#[global] Instance parse_run_owned : Owned ParseRun.t.
Proof.
  refine {| owner := ParseRun.account_id; seen_rows _ _ := eq_refl; settled a d d2 d3 H := sd_parse_run _ _ _ _ (settle_db_Settled _ _ _ _ H) |}; owned_policy parse_run_policy.
Defined.
#[global] Instance document_element_owned : Owned DocumentElement.t.
Proof.
  refine {| owner := DocumentElement.account_id; seen_rows _ _ := eq_refl; settled a d d2 d3 H := sd_document_element _ _ _ _ (settle_db_Settled _ _ _ _ H) |}; owned_policy document_element_policy.
Defined.
#[global] Instance provenance_record_owned : Owned ProvenanceRecord.t.
Proof.
  refine {| owner := ProvenanceRecord.account_id; seen_rows _ _ := eq_refl; settled a d d2 d3 H := sd_provenance_record _ _ _ _ (settle_db_Settled _ _ _ _ H) |}; owned_policy provenance_record_policy.
Defined.
#[global] Instance truth_classification_owned : Owned TruthClassification.t.
Proof.
  refine {| owner := TruthClassification.account_id; seen_rows _ _ := eq_refl; settled a d d2 d3 H := sd_truth_classification _ _ _ _ (settle_db_Settled _ _ _ _ H) |}; owned_policy truth_classification_policy.
Defined.
#[global] Instance conflict_set_owned : Owned ConflictSet.t.
Proof.
  refine {| owner := ConflictSet.account_id; seen_rows _ _ := eq_refl; settled a d d2 d3 H := sd_conflict_set _ _ _ _ (settle_db_Settled _ _ _ _ H) |}; owned_policy conflict_set_policy.
Defined.
#[global] Instance conflict_member_owned : Owned ConflictMember.t.
Proof.
  refine {| owner := ConflictMember.account_id; seen_rows _ _ := eq_refl; settled a d d2 d3 H := sd_conflict_member _ _ _ _ (settle_db_Settled _ _ _ _ H) |}; owned_policy conflict_member_policy.
Defined.
#[global] Instance proposal_owned : Owned Proposal.t.
Proof.
  refine {| owner := Proposal.account_id; seen_rows _ _ := eq_refl; settled a d d2 d3 H := sd_proposal _ _ _ _ (settle_db_Settled _ _ _ _ H) |}; owned_policy proposal_policy.
Defined.
#[global] Instance conversation_owned : Owned Conversation.t.
Proof.
  refine {| owner := Conversation.account_id; seen_rows _ _ := eq_refl; settled a d d2 d3 H := sd_conversation _ _ _ _ (settle_db_Settled _ _ _ _ H) |}; owned_policy conversation_policy.
Defined.
#[global] Instance conversation_turn_owned : Owned ConversationTurn.t.
Proof.
  refine {| owner := ConversationTurn.account_id; seen_rows _ _ := eq_refl; settled a d d2 d3 H := sd_conversation_turn _ _ _ _ (settle_db_Settled _ _ _ _ H) |}; owned_policy conversation_turn_policy.
Defined.
#[global] Instance audit_event_owned : Owned AuditEvent.t.
Proof.
  refine {| owner := AuditEvent.account_id; seen_rows _ _ := eq_refl; settled a d d2 d3 H := sd_audit_event _ _ _ _ (settle_db_Settled _ _ _ _ H) |}; owned_policy audit_event_policy.
Defined.
#[global] Instance current_source_revision_owned : Owned CurrentSourceRevision.t.
Proof.
  refine {| owner := CurrentSourceRevision.account_id; seen_rows _ _ := eq_refl; settled a d d2 d3 H := sd_current_source_revision _ _ _ _ (settle_db_Settled _ _ _ _ H) |}; owned_policy current_source_revision_policy.
Defined.
#[global] Instance current_document_revision_owned : Owned CurrentDocumentRevision.t.
Proof.
  refine {| owner := CurrentDocumentRevision.account_id; seen_rows _ _ := eq_refl; settled a d d2 d3 H := sd_current_document_revision _ _ _ _ (settle_db_Settled _ _ _ _ H) |}; owned_policy current_document_revision_policy.
Defined.
#[global] Instance outbox_event_owned : Owned OutboxEvent.t.
Proof.
  refine {| owner := OutboxEvent.account_id; seen_rows _ _ := eq_refl; settled a d d2 d3 H := sd_outbox_event _ _ _ _ (settle_db_Settled _ _ _ _ H) |}; owned_policy outbox_event_policy.
Defined.
#[global] Instance idempotency_record_owned : Owned IdempotencyRecord.t.
Proof.
  refine {| owner := IdempotencyRecord.account_id; seen_rows _ _ := eq_refl; settled a d d2 d3 H := sd_idempotency_record _ _ _ _ (settle_db_Settled _ _ _ _ H) |}; owned_policy idempotency_record_policy.
Defined.
#[global] Instance durable_job_owned : Owned DurableJob.t.
Proof.
  refine {| owner := DurableJob.account_id; seen_rows _ _ := eq_refl; settled a d d2 d3 H := sd_durable_job _ _ _ _ (settle_db_Settled _ _ _ _ H) |}; owned_policy durable_job_policy.
Defined.
#[global] Instance job_attempt_owned : Owned JobAttempt.t.
Proof.
  refine {| owner := JobAttempt.account_id; seen_rows _ _ := eq_refl; settled a d d2 d3 H := sd_job_attempt _ _ _ _ (settle_db_Settled _ _ _ _ H) |}; owned_policy job_attempt_policy.
Defined.
#[global] Instance projection_state_owned : Owned ProjectionState.t.
Proof.
  refine {| owner := ProjectionState.account_id; seen_rows _ _ := eq_refl; settled a d d2 d3 H := sd_projection_state _ _ _ _ (settle_db_Settled _ _ _ _ H) |}; owned_policy projection_state_policy.
Defined.
#[global] Instance upload_intent_owned : Owned UploadIntent.t.
Proof.
  refine {| owner := UploadIntent.account_id; seen_rows _ _ := eq_refl; settled a d d2 d3 H := sd_upload_intent _ _ _ _ (settle_db_Settled _ _ _ _ H) |}; owned_policy upload_intent_policy.
Defined.
#[global] Instance current_active_parse_run_owned : Owned CurrentActiveParseRun.t.
Proof.
  refine {| owner := CurrentActiveParseRun.account_id; seen_rows _ _ := eq_refl; settled a d d2 d3 H := sd_current_active_parse_run _ _ _ _ (settle_db_Settled _ _ _ _ H) |}; owned_policy current_active_parse_run_policy.
Defined.
#[global] Instance memory_item_owned : Owned MemoryItem.t.
Proof.
  refine {| owner := MemoryItem.account_id; seen_rows _ _ := eq_refl; settled a d d2 d3 H := sd_memory_item _ _ _ _ (settle_db_Settled _ _ _ _ H) |}; owned_policy memory_item_policy.
Defined.
#[global] Instance memory_revision_owned : Owned MemoryRevision.t.
Proof.
  refine {| owner := MemoryRevision.account_id; seen_rows _ _ := eq_refl; settled a d d2 d3 H := sd_memory_revision _ _ _ _ (settle_db_Settled _ _ _ _ H) |}; owned_policy memory_revision_policy.
Defined.
#[global] Instance current_memory_revision_owned : Owned CurrentMemoryRevision.t.
Proof.
  refine {| owner := CurrentMemoryRevision.account_id; seen_rows _ _ := eq_refl; settled a d d2 d3 H := sd_current_memory_revision _ _ _ _ (settle_db_Settled _ _ _ _ H) |}; owned_policy current_memory_revision_policy.
Defined.
#[global] Instance projection_owned : Owned Projection.t.
Proof.
  refine {| owner := Projection.account_id; seen_rows _ _ := eq_refl; settled a d d2 d3 H := sd_projection _ _ _ _ (settle_db_Settled _ _ _ _ H) |}; owned_policy projection_policy.
Defined.
#[global] Instance context_receipt_owned : Owned ContextReceipt.t.
Proof.
  refine {| owner := ContextReceipt.account_id; seen_rows _ _ := eq_refl; settled a d d2 d3 H := sd_context_receipt _ _ _ _ (settle_db_Settled _ _ _ _ H) |}; owned_policy context_receipt_policy.
Defined.
#[global] Instance context_receipt_item_owned : Owned ContextReceiptItem.t.
Proof.
  refine {| owner := ContextReceiptItem.account_id; seen_rows _ _ := eq_refl; settled a d d2 d3 H := sd_context_receipt_item _ _ _ _ (settle_db_Settled _ _ _ _ H) |}; owned_policy context_receipt_item_policy.
Defined.
#[global] Instance course_owned : Owned Course.t.
Proof.
  refine {| owner := Course.account_id; seen_rows _ _ := eq_refl; settled a d d2 d3 H := sd_course _ _ _ _ (settle_db_Settled _ _ _ _ H) |}; owned_policy course_policy.
Defined.
#[global] Instance curriculum_node_owned : Owned CurriculumNode.t.
Proof.
  refine {| owner := CurriculumNode.account_id; seen_rows _ _ := eq_refl; settled a d d2 d3 H := sd_curriculum_node _ _ _ _ (settle_db_Settled _ _ _ _ H) |}; owned_policy curriculum_node_policy.
Defined.
#[global] Instance curriculum_edge_owned : Owned CurriculumEdge.t.
Proof.
  refine {| owner := CurriculumEdge.account_id; seen_rows _ _ := eq_refl; settled a d d2 d3 H := sd_curriculum_edge _ _ _ _ (settle_db_Settled _ _ _ _ H) |}; owned_policy curriculum_edge_policy.
Defined.
#[global] Instance assessment_item_owned : Owned AssessmentItem.t.
Proof.
  refine {| owner := AssessmentItem.account_id; seen_rows _ _ := eq_refl; settled a d d2 d3 H := sd_assessment_item _ _ _ _ (settle_db_Settled _ _ _ _ H) |}; owned_policy assessment_item_policy.
Defined.
#[global] Instance assessment_revision_owned : Owned AssessmentRevision.t.
Proof.
  refine {| owner := AssessmentRevision.account_id; seen_rows _ _ := eq_refl; settled a d d2 d3 H := sd_assessment_revision _ _ _ _ (settle_db_Settled _ _ _ _ H) |}; owned_policy assessment_revision_policy.
Defined.
#[global] Instance current_assessment_revision_owned : Owned CurrentAssessmentRevision.t.
Proof.
  refine {| owner := CurrentAssessmentRevision.account_id; seen_rows _ _ := eq_refl; settled a d d2 d3 H := sd_current_assessment_revision _ _ _ _ (settle_db_Settled _ _ _ _ H) |}; owned_policy current_assessment_revision_policy.
Defined.
#[global] Instance learner_event_owned : Owned LearnerEvent.t.
Proof.
  refine {| owner := LearnerEvent.account_id; seen_rows _ _ := eq_refl; settled a d d2 d3 H := sd_learner_event _ _ _ _ (settle_db_Settled _ _ _ _ H) |}; owned_policy learner_event_policy.
Defined.
#[global] Instance review_item_owned : Owned ReviewItem.t.
Proof.
  refine {| owner := ReviewItem.account_id; seen_rows _ _ := eq_refl; settled a d d2 d3 H := sd_review_item _ _ _ _ (settle_db_Settled _ _ _ _ H) |}; owned_policy review_item_policy.
Defined.
#[global] Instance learner_projection_owned : Owned LearnerProjection.t.
Proof.
  refine {| owner := LearnerProjection.account_id; seen_rows _ _ := eq_refl; settled a d d2 d3 H := sd_learner_projection _ _ _ _ (settle_db_Settled _ _ _ _ H) |}; owned_policy learner_projection_policy.
Defined.
#[global] Instance notion_connection_owned : Owned NotionConnection.t.
Proof.
  refine {| owner := NotionConnection.account_id; seen_rows _ _ := eq_refl; settled a d d2 d3 H := sd_notion_connection _ _ _ _ (settle_db_Settled _ _ _ _ H) |}; owned_policy notion_connection_policy.
Defined.
#[global] Instance notion_page_binding_owned : Owned NotionPageBinding.t.
Proof.
  refine {| owner := NotionPageBinding.account_id; seen_rows _ _ := eq_refl; settled a d d2 d3 H := sd_notion_page_binding _ _ _ _ (settle_db_Settled _ _ _ _ H) |}; owned_policy notion_page_binding_policy.
Defined.
#[global] Instance deletion_tombstone_owned : Owned DeletionTombstone.t.
Proof.
  refine {| owner := DeletionTombstone.account_id; seen_rows _ _ := eq_refl; settled a d d2 d3 H := sd_deletion_tombstone _ _ _ _ (settle_db_Settled _ _ _ _ H) |}; owned_policy deletion_tombstone_policy.
Defined.
#[global] Instance export_job_owned : Owned ExportJob.t.
Proof.
  refine {| owner := ExportJob.account_id; seen_rows _ _ := eq_refl; settled a d d2 d3 H := sd_export_job _ _ _ _ (settle_db_Settled _ _ _ _ H) |}; owned_policy export_job_policy.
Defined.
#[global] Instance semantic_projection_owned : Owned SemanticProjection.t.
Proof.
  refine {| owner := SemanticProjection.account_id; seen_rows _ _ := eq_refl; settled a d d2 d3 H := sd_semantic_projection _ _ _ _ (settle_db_Settled _ _ _ _ H) |}; owned_policy semantic_projection_policy.
Defined.
#[global] Instance assessment_attempt_owned : Owned AssessmentAttempt.t.
Proof.
  refine {| owner := AssessmentAttempt.account_id; seen_rows _ _ := eq_refl; settled a d d2 d3 H := sd_assessment_attempt _ _ _ _ (settle_db_Settled _ _ _ _ H) |}; owned_policy assessment_attempt_policy.
Defined.
#[global] Instance deletion_workflow_owned : Owned DeletionWorkflow.t.
Proof.
  refine {| owner := DeletionWorkflow.account_id; seen_rows _ _ := eq_refl; settled a d d2 d3 H := sd_deletion_workflow _ _ _ _ (settle_db_Settled _ _ _ _ H) |}; owned_policy deletion_workflow_policy.
Defined.

(** ** Isolation *)

Lemma closed_visible {R} `{Owned R} d : rows (R := R) (visible (closed d) d) = [].
Proof. rewrite seen_rows. apply keep_none. intros r _. apply not_true_iff_false. by intros Hs%shown_owned. Qed.

(** A table after a run: rows outside the access are as before, and the rows
    inside it are those the run left. *)
Lemma settled_rows {R} `{Owned R} a d d2 d3 (r : R) : settle_db a d d2 = Ok d3 ->
  (ac_rls a (owner r) = false -> (r ∈ rows d3 <-> r ∈ rows d)) /\
  (r ∈ rows (R := R) d2 -> r ∈ rows d3 /\ ac_rls a (owner r) = true).
Proof.
  intros Hs. apply settled in Hs. apply settle_Ok in Hs as [Hw Hl]. split.
  - intros Hr. assert (Hsh : shown a r = false) by (apply not_true_iff_false; intros Hsh%shown_owned; congruence).
    rewrite Hl. split; [|by right]. intros [Hin|[Hin _]]; [|done].
    apply Hw in Hin as [[Hin ?]|Hin%accepted_owned]; congruence.
  - intros Hin. split; [apply Hl; by left|]. by apply Hw in Hin as [[_ ?%shown_owned]|?%accepted_owned].
Qed.

(** *** What two ledgers share

    The rows of an account, and the tables of two ledgers one by one. *)
Definition own {R} (acc : R -> uuid) (account : uuid) (l : list R) : list R := keep (fun r => same (acc r) account) l.

(** No table of [d2] has gained, lost or changed a row of another account, and
    the tables that belong to no account are the same. *)
Record others_kept (account : uuid) (d d2 : Db) : Prop := {
  ok_account : forall r : Account.t, Account.account_id r <> account -> (r ∈ t_account d2 <-> r ∈ t_account d);
  ok_user : forall r : User.t, User.account_id r <> account -> (r ∈ t_user d2 <-> r ∈ t_user d);
  ok_account_member : forall r : AccountMember.t, AccountMember.account_id r <> account -> (r ∈ t_account_member d2 <-> r ∈ t_account_member d);
  ok_space : forall r : Space.t, Space.account_id r <> account -> (r ∈ t_space d2 <-> r ∈ t_space d);
  ok_space_member : forall r : SpaceMember.t, SpaceMember.account_id r <> account -> (r ∈ t_space_member d2 <-> r ∈ t_space_member d);
  ok_hosted_adult_attestation : forall r : HostedAdultAttestation.t, HostedAdultAttestation.account_id r <> account -> (r ∈ t_hosted_adult_attestation d2 <-> r ∈ t_hosted_adult_attestation d);
  ok_external_identity : forall r : ExternalIdentity.t, ExternalIdentity.account_id r <> account -> (r ∈ t_external_identity d2 <-> r ∈ t_external_identity d);
  ok_actor : forall r : Actor.t, Actor.account_id r <> account -> (r ∈ t_actor d2 <-> r ∈ t_actor d);
  ok_browser_session : forall r : BrowserSession.t, BrowserSession.account_id r <> account -> (r ∈ t_browser_session d2 <-> r ∈ t_browser_session d);
  ok_session_revocation : forall r : SessionRevocation.t, SessionRevocation.account_id r <> account -> (r ∈ t_session_revocation d2 <-> r ∈ t_session_revocation d);
  ok_external_client_grant : forall r : ExternalClientGrant.t, ExternalClientGrant.account_id r <> account -> (r ∈ t_external_client_grant d2 <-> r ∈ t_external_client_grant d);
  ok_operator_bootstrap : forall r : OperatorBootstrap.t, OperatorBootstrap.account_id r <> account -> (r ∈ t_operator_bootstrap d2 <-> r ∈ t_operator_bootstrap d);
  ok_oidc_login_challenge : t_oidc_login_challenge d2 = t_oidc_login_challenge d;
  ok_oidc_token_replay : t_oidc_token_replay d2 = t_oidc_token_replay d;
  ok_service_auth_nonce : t_service_auth_nonce d2 = t_service_auth_nonce d;
  ok_source : forall r : Source.t, Source.account_id r <> account -> (r ∈ t_source d2 <-> r ∈ t_source d);
  ok_source_revision : forall r : SourceRevision.t, SourceRevision.account_id r <> account -> (r ∈ t_source_revision d2 <-> r ∈ t_source_revision d);
  ok_source_blob : forall r : SourceBlob.t, SourceBlob.account_id r <> account -> (r ∈ t_source_blob d2 <-> r ∈ t_source_blob d);
  ok_authored_document : forall r : AuthoredDocument.t, AuthoredDocument.account_id r <> account -> (r ∈ t_authored_document d2 <-> r ∈ t_authored_document d);
  ok_document_revision : forall r : DocumentRevision.t, DocumentRevision.account_id r <> account -> (r ∈ t_document_revision d2 <-> r ∈ t_document_revision d);
  ok_parse_run : forall r : ParseRun.t, ParseRun.account_id r <> account -> (r ∈ t_parse_run d2 <-> r ∈ t_parse_run d);
  ok_document_element : forall r : DocumentElement.t, DocumentElement.account_id r <> account -> (r ∈ t_document_element d2 <-> r ∈ t_document_element d);
  ok_provenance_record : forall r : ProvenanceRecord.t, ProvenanceRecord.account_id r <> account -> (r ∈ t_provenance_record d2 <-> r ∈ t_provenance_record d);
  ok_truth_classification : forall r : TruthClassification.t, TruthClassification.account_id r <> account -> (r ∈ t_truth_classification d2 <-> r ∈ t_truth_classification d);
  ok_conflict_set : forall r : ConflictSet.t, ConflictSet.account_id r <> account -> (r ∈ t_conflict_set d2 <-> r ∈ t_conflict_set d);
  ok_conflict_member : forall r : ConflictMember.t, ConflictMember.account_id r <> account -> (r ∈ t_conflict_member d2 <-> r ∈ t_conflict_member d);
  ok_proposal : forall r : Proposal.t, Proposal.account_id r <> account -> (r ∈ t_proposal d2 <-> r ∈ t_proposal d);
  ok_conversation : forall r : Conversation.t, Conversation.account_id r <> account -> (r ∈ t_conversation d2 <-> r ∈ t_conversation d);
  ok_conversation_turn : forall r : ConversationTurn.t, ConversationTurn.account_id r <> account -> (r ∈ t_conversation_turn d2 <-> r ∈ t_conversation_turn d);
  ok_audit_event : forall r : AuditEvent.t, AuditEvent.account_id r <> account -> (r ∈ t_audit_event d2 <-> r ∈ t_audit_event d);
  ok_current_source_revision : forall r : CurrentSourceRevision.t, CurrentSourceRevision.account_id r <> account -> (r ∈ t_current_source_revision d2 <-> r ∈ t_current_source_revision d);
  ok_current_document_revision : forall r : CurrentDocumentRevision.t, CurrentDocumentRevision.account_id r <> account -> (r ∈ t_current_document_revision d2 <-> r ∈ t_current_document_revision d);
  ok_outbox_event : forall r : OutboxEvent.t, OutboxEvent.account_id r <> account -> (r ∈ t_outbox_event d2 <-> r ∈ t_outbox_event d);
  ok_idempotency_record : forall r : IdempotencyRecord.t, IdempotencyRecord.account_id r <> account -> (r ∈ t_idempotency_record d2 <-> r ∈ t_idempotency_record d);
  ok_durable_job : forall r : DurableJob.t, DurableJob.account_id r <> account -> (r ∈ t_durable_job d2 <-> r ∈ t_durable_job d);
  ok_job_attempt : forall r : JobAttempt.t, JobAttempt.account_id r <> account -> (r ∈ t_job_attempt d2 <-> r ∈ t_job_attempt d);
  ok_projection_state : forall r : ProjectionState.t, ProjectionState.account_id r <> account -> (r ∈ t_projection_state d2 <-> r ∈ t_projection_state d);
  ok_upload_intent : forall r : UploadIntent.t, UploadIntent.account_id r <> account -> (r ∈ t_upload_intent d2 <-> r ∈ t_upload_intent d);
  ok_current_active_parse_run : forall r : CurrentActiveParseRun.t, CurrentActiveParseRun.account_id r <> account -> (r ∈ t_current_active_parse_run d2 <-> r ∈ t_current_active_parse_run d);
  ok_memory_item : forall r : MemoryItem.t, MemoryItem.account_id r <> account -> (r ∈ t_memory_item d2 <-> r ∈ t_memory_item d);
  ok_memory_revision : forall r : MemoryRevision.t, MemoryRevision.account_id r <> account -> (r ∈ t_memory_revision d2 <-> r ∈ t_memory_revision d);
  ok_current_memory_revision : forall r : CurrentMemoryRevision.t, CurrentMemoryRevision.account_id r <> account -> (r ∈ t_current_memory_revision d2 <-> r ∈ t_current_memory_revision d);
  ok_projection : forall r : Projection.t, Projection.account_id r <> account -> (r ∈ t_projection d2 <-> r ∈ t_projection d);
  ok_context_receipt : forall r : ContextReceipt.t, ContextReceipt.account_id r <> account -> (r ∈ t_context_receipt d2 <-> r ∈ t_context_receipt d);
  ok_context_receipt_item : forall r : ContextReceiptItem.t, ContextReceiptItem.account_id r <> account -> (r ∈ t_context_receipt_item d2 <-> r ∈ t_context_receipt_item d);
  ok_course : forall r : Course.t, Course.account_id r <> account -> (r ∈ t_course d2 <-> r ∈ t_course d);
  ok_curriculum_node : forall r : CurriculumNode.t, CurriculumNode.account_id r <> account -> (r ∈ t_curriculum_node d2 <-> r ∈ t_curriculum_node d);
  ok_curriculum_edge : forall r : CurriculumEdge.t, CurriculumEdge.account_id r <> account -> (r ∈ t_curriculum_edge d2 <-> r ∈ t_curriculum_edge d);
  ok_assessment_item : forall r : AssessmentItem.t, AssessmentItem.account_id r <> account -> (r ∈ t_assessment_item d2 <-> r ∈ t_assessment_item d);
  ok_assessment_revision : forall r : AssessmentRevision.t, AssessmentRevision.account_id r <> account -> (r ∈ t_assessment_revision d2 <-> r ∈ t_assessment_revision d);
  ok_current_assessment_revision : forall r : CurrentAssessmentRevision.t, CurrentAssessmentRevision.account_id r <> account -> (r ∈ t_current_assessment_revision d2 <-> r ∈ t_current_assessment_revision d);
  ok_learner_event : forall r : LearnerEvent.t, LearnerEvent.account_id r <> account -> (r ∈ t_learner_event d2 <-> r ∈ t_learner_event d);
  ok_review_item : forall r : ReviewItem.t, ReviewItem.account_id r <> account -> (r ∈ t_review_item d2 <-> r ∈ t_review_item d);
  ok_learner_projection : forall r : LearnerProjection.t, LearnerProjection.account_id r <> account -> (r ∈ t_learner_projection d2 <-> r ∈ t_learner_projection d);
  ok_notion_connection : forall r : NotionConnection.t, NotionConnection.account_id r <> account -> (r ∈ t_notion_connection d2 <-> r ∈ t_notion_connection d);
  ok_notion_page_binding : forall r : NotionPageBinding.t, NotionPageBinding.account_id r <> account -> (r ∈ t_notion_page_binding d2 <-> r ∈ t_notion_page_binding d);
  ok_deletion_tombstone : forall r : DeletionTombstone.t, DeletionTombstone.account_id r <> account -> (r ∈ t_deletion_tombstone d2 <-> r ∈ t_deletion_tombstone d);
  ok_export_job : forall r : ExportJob.t, ExportJob.account_id r <> account -> (r ∈ t_export_job d2 <-> r ∈ t_export_job d);
  ok_semantic_projection : forall r : SemanticProjection.t, SemanticProjection.account_id r <> account -> (r ∈ t_semantic_projection d2 <-> r ∈ t_semantic_projection d);
  ok_assessment_attempt : forall r : AssessmentAttempt.t, AssessmentAttempt.account_id r <> account -> (r ∈ t_assessment_attempt d2 <-> r ∈ t_assessment_attempt d);
  ok_deletion_workflow : forall r : DeletionWorkflow.t, DeletionWorkflow.account_id r <> account -> (r ∈ t_deletion_workflow d2 <-> r ∈ t_deletion_workflow d);
}.

(** Every table of the two ledgers has the same rows of the account. *)
Record own_alike (account : uuid) (d d2 : Db) : Prop := {
  al_account : own Account.account_id account (t_account d) = own Account.account_id account (t_account d2);
  al_user : own User.account_id account (t_user d) = own User.account_id account (t_user d2);
  al_account_member : own AccountMember.account_id account (t_account_member d) = own AccountMember.account_id account (t_account_member d2);
  al_space : own Space.account_id account (t_space d) = own Space.account_id account (t_space d2);
  al_space_member : own SpaceMember.account_id account (t_space_member d) = own SpaceMember.account_id account (t_space_member d2);
  al_hosted_adult_attestation : own HostedAdultAttestation.account_id account (t_hosted_adult_attestation d) = own HostedAdultAttestation.account_id account (t_hosted_adult_attestation d2);
  al_external_identity : own ExternalIdentity.account_id account (t_external_identity d) = own ExternalIdentity.account_id account (t_external_identity d2);
  al_actor : own Actor.account_id account (t_actor d) = own Actor.account_id account (t_actor d2);
  al_browser_session : own BrowserSession.account_id account (t_browser_session d) = own BrowserSession.account_id account (t_browser_session d2);
  al_session_revocation : own SessionRevocation.account_id account (t_session_revocation d) = own SessionRevocation.account_id account (t_session_revocation d2);
  al_external_client_grant : own ExternalClientGrant.account_id account (t_external_client_grant d) = own ExternalClientGrant.account_id account (t_external_client_grant d2);
  al_operator_bootstrap : own OperatorBootstrap.account_id account (t_operator_bootstrap d) = own OperatorBootstrap.account_id account (t_operator_bootstrap d2);
  al_source : own Source.account_id account (t_source d) = own Source.account_id account (t_source d2);
  al_source_revision : own SourceRevision.account_id account (t_source_revision d) = own SourceRevision.account_id account (t_source_revision d2);
  al_source_blob : own SourceBlob.account_id account (t_source_blob d) = own SourceBlob.account_id account (t_source_blob d2);
  al_authored_document : own AuthoredDocument.account_id account (t_authored_document d) = own AuthoredDocument.account_id account (t_authored_document d2);
  al_document_revision : own DocumentRevision.account_id account (t_document_revision d) = own DocumentRevision.account_id account (t_document_revision d2);
  al_parse_run : own ParseRun.account_id account (t_parse_run d) = own ParseRun.account_id account (t_parse_run d2);
  al_document_element : own DocumentElement.account_id account (t_document_element d) = own DocumentElement.account_id account (t_document_element d2);
  al_provenance_record : own ProvenanceRecord.account_id account (t_provenance_record d) = own ProvenanceRecord.account_id account (t_provenance_record d2);
  al_truth_classification : own TruthClassification.account_id account (t_truth_classification d) = own TruthClassification.account_id account (t_truth_classification d2);
  al_conflict_set : own ConflictSet.account_id account (t_conflict_set d) = own ConflictSet.account_id account (t_conflict_set d2);
  al_conflict_member : own ConflictMember.account_id account (t_conflict_member d) = own ConflictMember.account_id account (t_conflict_member d2);
  al_proposal : own Proposal.account_id account (t_proposal d) = own Proposal.account_id account (t_proposal d2);
  al_conversation : own Conversation.account_id account (t_conversation d) = own Conversation.account_id account (t_conversation d2);
  al_conversation_turn : own ConversationTurn.account_id account (t_conversation_turn d) = own ConversationTurn.account_id account (t_conversation_turn d2);
  al_audit_event : own AuditEvent.account_id account (t_audit_event d) = own AuditEvent.account_id account (t_audit_event d2);
  al_current_source_revision : own CurrentSourceRevision.account_id account (t_current_source_revision d) = own CurrentSourceRevision.account_id account (t_current_source_revision d2);
  al_current_document_revision : own CurrentDocumentRevision.account_id account (t_current_document_revision d) = own CurrentDocumentRevision.account_id account (t_current_document_revision d2);
  al_outbox_event : own OutboxEvent.account_id account (t_outbox_event d) = own OutboxEvent.account_id account (t_outbox_event d2);
  al_idempotency_record : own IdempotencyRecord.account_id account (t_idempotency_record d) = own IdempotencyRecord.account_id account (t_idempotency_record d2);
  al_durable_job : own DurableJob.account_id account (t_durable_job d) = own DurableJob.account_id account (t_durable_job d2);
  al_job_attempt : own JobAttempt.account_id account (t_job_attempt d) = own JobAttempt.account_id account (t_job_attempt d2);
  al_projection_state : own ProjectionState.account_id account (t_projection_state d) = own ProjectionState.account_id account (t_projection_state d2);
  al_upload_intent : own UploadIntent.account_id account (t_upload_intent d) = own UploadIntent.account_id account (t_upload_intent d2);
  al_current_active_parse_run : own CurrentActiveParseRun.account_id account (t_current_active_parse_run d) = own CurrentActiveParseRun.account_id account (t_current_active_parse_run d2);
  al_memory_item : own MemoryItem.account_id account (t_memory_item d) = own MemoryItem.account_id account (t_memory_item d2);
  al_memory_revision : own MemoryRevision.account_id account (t_memory_revision d) = own MemoryRevision.account_id account (t_memory_revision d2);
  al_current_memory_revision : own CurrentMemoryRevision.account_id account (t_current_memory_revision d) = own CurrentMemoryRevision.account_id account (t_current_memory_revision d2);
  al_projection : own Projection.account_id account (t_projection d) = own Projection.account_id account (t_projection d2);
  al_context_receipt : own ContextReceipt.account_id account (t_context_receipt d) = own ContextReceipt.account_id account (t_context_receipt d2);
  al_context_receipt_item : own ContextReceiptItem.account_id account (t_context_receipt_item d) = own ContextReceiptItem.account_id account (t_context_receipt_item d2);
  al_course : own Course.account_id account (t_course d) = own Course.account_id account (t_course d2);
  al_curriculum_node : own CurriculumNode.account_id account (t_curriculum_node d) = own CurriculumNode.account_id account (t_curriculum_node d2);
  al_curriculum_edge : own CurriculumEdge.account_id account (t_curriculum_edge d) = own CurriculumEdge.account_id account (t_curriculum_edge d2);
  al_assessment_item : own AssessmentItem.account_id account (t_assessment_item d) = own AssessmentItem.account_id account (t_assessment_item d2);
  al_assessment_revision : own AssessmentRevision.account_id account (t_assessment_revision d) = own AssessmentRevision.account_id account (t_assessment_revision d2);
  al_current_assessment_revision : own CurrentAssessmentRevision.account_id account (t_current_assessment_revision d) = own CurrentAssessmentRevision.account_id account (t_current_assessment_revision d2);
  al_learner_event : own LearnerEvent.account_id account (t_learner_event d) = own LearnerEvent.account_id account (t_learner_event d2);
  al_review_item : own ReviewItem.account_id account (t_review_item d) = own ReviewItem.account_id account (t_review_item d2);
  al_learner_projection : own LearnerProjection.account_id account (t_learner_projection d) = own LearnerProjection.account_id account (t_learner_projection d2);
  al_notion_connection : own NotionConnection.account_id account (t_notion_connection d) = own NotionConnection.account_id account (t_notion_connection d2);
  al_notion_page_binding : own NotionPageBinding.account_id account (t_notion_page_binding d) = own NotionPageBinding.account_id account (t_notion_page_binding d2);
  al_deletion_tombstone : own DeletionTombstone.account_id account (t_deletion_tombstone d) = own DeletionTombstone.account_id account (t_deletion_tombstone d2);
  al_export_job : own ExportJob.account_id account (t_export_job d) = own ExportJob.account_id account (t_export_job d2);
  al_semantic_projection : own SemanticProjection.account_id account (t_semantic_projection d) = own SemanticProjection.account_id account (t_semantic_projection d2);
  al_assessment_attempt : own AssessmentAttempt.account_id account (t_assessment_attempt d) = own AssessmentAttempt.account_id account (t_assessment_attempt d2);
  al_deletion_workflow : own DeletionWorkflow.account_id account (t_deletion_workflow d) = own DeletionWorkflow.account_id account (t_deletion_workflow d2);
}.

(** Two accesses that answer alike about the rows of an account. *)
Record accesses_alike (account : uuid) (a b : Access) : Prop := {
  aa_rls : forall acc, ac_rls a acc = ac_rls b acc;
  aa_own : forall acc, ac_rls a acc = true -> acc = account;
  aa_purpose : ac_purpose a = ac_purpose b;
  aa_space : forall sp, ac_space a account sp = ac_space b account sp;
}.

Lemma existsb_keep {A} (p q r : A -> bool) l : existsb (fun x => p x && q x && r x) l = existsb (fun x => q x && r x) (keep p l).
Proof. unfold keep. induction l as [|x l IH]; [done|]. cbn [existsb List.filter]. rewrite IH. by destruct (p x). Qed.

Section alike.
Context {R : Type} `{Owned R} (account : uuid) (a b : Access) (Hab : accesses_alike account a b).
Let mine (r : R) : bool := same (owner r) account.

Lemma mine_shown r : mine r = true -> shown a r = shown b r.
Proof.
  intros Hr. apply bool_decide_eq_true in Hr. apply shown_alike; [by apply aa_rls with account|by apply aa_purpose with account|].
  rewrite Hr. by apply aa_space.
Qed.

Lemma shown_mine c : c = a \/ c = b -> forall r, shown c r = true -> mine r = true.
Proof.
  intros Hc r Hs. apply shown_owned in Hs. apply bool_decide_eq_true. apply (aa_own _ _ _ Hab).
  destruct Hc as [-> | ->]; [done|]. by rewrite (aa_rls _ _ _ Hab).
Qed.

(** The rows seen of two tables that agree on the rows of the account. *)
Lemma seen_alike l l2 : keep mine l = keep mine l2 -> keep (shown a) l = keep (shown b) l2.
Proof.
  intros Hl. rewrite <- (keep_keep mine (shown a) l) by (apply shown_mine; by left).
  rewrite <- (keep_keep mine (shown b) l2) by (apply shown_mine; by right). rewrite Hl.
  apply keep_ext. intros r Hr. apply elem_of_keep in Hr as [_ Hr]. by apply mine_shown.
Qed.

Lemma hidden_alike l l2 : keep mine l = keep mine l2 ->
  keep mine (keep (fun r => negb (shown a r)) l) = keep mine (keep (fun r => negb (shown b r)) l2).
Proof.
  intros Hl. rewrite (keep_swap mine _ l), (keep_swap mine _ l2), Hl. apply keep_ext.
  intros r Hr. apply elem_of_keep in Hr as [_ Hr]. by rewrite mine_shown.
Qed.

Lemma settle_alike l l2 after m m2 : keep mine l = keep mine l2 ->
  settle a l after = Ok m -> settle b l2 after = Ok m2 -> keep mine m = keep mine m2.
Proof.
  intros Hl. unfold settle. rewrite <- (seen_alike l l2 Hl). case_bool_decide as Hs; [by intros [= <-] [= <-]|].
  intros Hm Hm2. apply bind_Ok in Hm as ([] & _ & Hm), Hm2 as ([] & _ & Hm2).
  apply bind_Ok in Hm as ([] & _ & Hm), Hm2 as ([] & _ & Hm2). injection Hm as <-. injection Hm2 as <-.
  unfold keep at 1 3. rewrite !List.filter_app. f_equal. by apply hidden_alike.
Qed.
End alike.

Lemma settle_closed {R} `{Table R} `{Policy R} `{EqDecision R} a (l after m : list R) :
  (forall r, shown a r = false /\ accepted a r = false) -> settle a l after = Ok m -> m = l.
Proof.
  intros Hc Hs. unfold settle in Hs. case_bool_decide as Ha; [by injection Hs as <-|]. exfalso.
  assert (Hk : keep (shown a) l = []) by (apply keep_none; intros r _; apply Hc). rewrite Hk in *.
  apply bind_Ok in Hs as ([] & Hr & _). apply raise_if_Ok in Hr. destruct after as [|r after]; [done|].
  apply not_true_iff_false in Hr. apply Hr, existsb_exists. exists r. split; [|by rewrite (proj2 (Hc r))].
  apply list_elem_of_In, elem_of_keep. split; [apply list_elem_of_here|]. by rewrite bool_decide_eq_false_2 by apply not_elem_of_nil.
Qed.

Lemma access_alike ctx d d2 : own_alike (account_id ctx) d d2 ->
  accesses_alike (account_id ctx) (access ctx d) (access ctx d2).
Proof.
  intros Ho. split; [done|intros acc; apply bool_decide_eq_true|done|]. intros sp. cbn. unfold memdot_external_space_ok.
  change (rows (R := Space.t) ?x) with (t_space x). rewrite !(existsb_keep (fun s => same (Space.account_id s) (account_id ctx))).
  by rewrite (al_space _ _ _ Ho : keep _ _ = keep _ _).
Qed.

Lemma visible_alike ctx d d2 : own_alike (account_id ctx) d d2 ->
  visible (access ctx d) d = visible (access ctx d2) d2.
Proof.
  intros Ho. pose proof (access_alike ctx d d2 Ho) as Ha. unfold visible. f_equal.
  - exact (seen_alike (R := Account.t) (account_id ctx) _ _ Ha _ _ (al_account _ _ _ Ho)).
  - exact (seen_alike (R := User.t) (account_id ctx) _ _ Ha _ _ (al_user _ _ _ Ho)).
  - exact (seen_alike (R := AccountMember.t) (account_id ctx) _ _ Ha _ _ (al_account_member _ _ _ Ho)).
  - exact (seen_alike (R := Space.t) (account_id ctx) _ _ Ha _ _ (al_space _ _ _ Ho)).
  - exact (seen_alike (R := SpaceMember.t) (account_id ctx) _ _ Ha _ _ (al_space_member _ _ _ Ho)).
  - exact (seen_alike (R := HostedAdultAttestation.t) (account_id ctx) _ _ Ha _ _ (al_hosted_adult_attestation _ _ _ Ho)).
  - exact (seen_alike (R := ExternalIdentity.t) (account_id ctx) _ _ Ha _ _ (al_external_identity _ _ _ Ho)).
  - exact (seen_alike (R := Actor.t) (account_id ctx) _ _ Ha _ _ (al_actor _ _ _ Ho)).
  - exact (seen_alike (R := BrowserSession.t) (account_id ctx) _ _ Ha _ _ (al_browser_session _ _ _ Ho)).
  - exact (seen_alike (R := SessionRevocation.t) (account_id ctx) _ _ Ha _ _ (al_session_revocation _ _ _ Ho)).
  - exact (seen_alike (R := ExternalClientGrant.t) (account_id ctx) _ _ Ha _ _ (al_external_client_grant _ _ _ Ho)).
  - exact (seen_alike (R := OperatorBootstrap.t) (account_id ctx) _ _ Ha _ _ (al_operator_bootstrap _ _ _ Ho)).
  - by rewrite !keep_none.
  - by rewrite !keep_none.
  - by rewrite !keep_none.
  - exact (seen_alike (R := Source.t) (account_id ctx) _ _ Ha _ _ (al_source _ _ _ Ho)).
  - exact (seen_alike (R := SourceRevision.t) (account_id ctx) _ _ Ha _ _ (al_source_revision _ _ _ Ho)).
  - exact (seen_alike (R := SourceBlob.t) (account_id ctx) _ _ Ha _ _ (al_source_blob _ _ _ Ho)).
  - exact (seen_alike (R := AuthoredDocument.t) (account_id ctx) _ _ Ha _ _ (al_authored_document _ _ _ Ho)).
  - exact (seen_alike (R := DocumentRevision.t) (account_id ctx) _ _ Ha _ _ (al_document_revision _ _ _ Ho)).
  - exact (seen_alike (R := ParseRun.t) (account_id ctx) _ _ Ha _ _ (al_parse_run _ _ _ Ho)).
  - exact (seen_alike (R := DocumentElement.t) (account_id ctx) _ _ Ha _ _ (al_document_element _ _ _ Ho)).
  - exact (seen_alike (R := ProvenanceRecord.t) (account_id ctx) _ _ Ha _ _ (al_provenance_record _ _ _ Ho)).
  - exact (seen_alike (R := TruthClassification.t) (account_id ctx) _ _ Ha _ _ (al_truth_classification _ _ _ Ho)).
  - exact (seen_alike (R := ConflictSet.t) (account_id ctx) _ _ Ha _ _ (al_conflict_set _ _ _ Ho)).
  - exact (seen_alike (R := ConflictMember.t) (account_id ctx) _ _ Ha _ _ (al_conflict_member _ _ _ Ho)).
  - exact (seen_alike (R := Proposal.t) (account_id ctx) _ _ Ha _ _ (al_proposal _ _ _ Ho)).
  - exact (seen_alike (R := Conversation.t) (account_id ctx) _ _ Ha _ _ (al_conversation _ _ _ Ho)).
  - exact (seen_alike (R := ConversationTurn.t) (account_id ctx) _ _ Ha _ _ (al_conversation_turn _ _ _ Ho)).
  - exact (seen_alike (R := AuditEvent.t) (account_id ctx) _ _ Ha _ _ (al_audit_event _ _ _ Ho)).
  - exact (seen_alike (R := CurrentSourceRevision.t) (account_id ctx) _ _ Ha _ _ (al_current_source_revision _ _ _ Ho)).
  - exact (seen_alike (R := CurrentDocumentRevision.t) (account_id ctx) _ _ Ha _ _ (al_current_document_revision _ _ _ Ho)).
  - exact (seen_alike (R := OutboxEvent.t) (account_id ctx) _ _ Ha _ _ (al_outbox_event _ _ _ Ho)).
  - exact (seen_alike (R := IdempotencyRecord.t) (account_id ctx) _ _ Ha _ _ (al_idempotency_record _ _ _ Ho)).
  - exact (seen_alike (R := DurableJob.t) (account_id ctx) _ _ Ha _ _ (al_durable_job _ _ _ Ho)).
  - exact (seen_alike (R := JobAttempt.t) (account_id ctx) _ _ Ha _ _ (al_job_attempt _ _ _ Ho)).
  - exact (seen_alike (R := ProjectionState.t) (account_id ctx) _ _ Ha _ _ (al_projection_state _ _ _ Ho)).
  - exact (seen_alike (R := UploadIntent.t) (account_id ctx) _ _ Ha _ _ (al_upload_intent _ _ _ Ho)).
  - exact (seen_alike (R := CurrentActiveParseRun.t) (account_id ctx) _ _ Ha _ _ (al_current_active_parse_run _ _ _ Ho)).
  - exact (seen_alike (R := MemoryItem.t) (account_id ctx) _ _ Ha _ _ (al_memory_item _ _ _ Ho)).
  - exact (seen_alike (R := MemoryRevision.t) (account_id ctx) _ _ Ha _ _ (al_memory_revision _ _ _ Ho)).
  - exact (seen_alike (R := CurrentMemoryRevision.t) (account_id ctx) _ _ Ha _ _ (al_current_memory_revision _ _ _ Ho)).
  - exact (seen_alike (R := Projection.t) (account_id ctx) _ _ Ha _ _ (al_projection _ _ _ Ho)).
  - exact (seen_alike (R := ContextReceipt.t) (account_id ctx) _ _ Ha _ _ (al_context_receipt _ _ _ Ho)).
  - exact (seen_alike (R := ContextReceiptItem.t) (account_id ctx) _ _ Ha _ _ (al_context_receipt_item _ _ _ Ho)).
  - exact (seen_alike (R := Course.t) (account_id ctx) _ _ Ha _ _ (al_course _ _ _ Ho)).
  - exact (seen_alike (R := CurriculumNode.t) (account_id ctx) _ _ Ha _ _ (al_curriculum_node _ _ _ Ho)).
  - exact (seen_alike (R := CurriculumEdge.t) (account_id ctx) _ _ Ha _ _ (al_curriculum_edge _ _ _ Ho)).
  - exact (seen_alike (R := AssessmentItem.t) (account_id ctx) _ _ Ha _ _ (al_assessment_item _ _ _ Ho)).
  - exact (seen_alike (R := AssessmentRevision.t) (account_id ctx) _ _ Ha _ _ (al_assessment_revision _ _ _ Ho)).
  - exact (seen_alike (R := CurrentAssessmentRevision.t) (account_id ctx) _ _ Ha _ _ (al_current_assessment_revision _ _ _ Ho)).
  - exact (seen_alike (R := LearnerEvent.t) (account_id ctx) _ _ Ha _ _ (al_learner_event _ _ _ Ho)).
  - exact (seen_alike (R := ReviewItem.t) (account_id ctx) _ _ Ha _ _ (al_review_item _ _ _ Ho)).
  - exact (seen_alike (R := LearnerProjection.t) (account_id ctx) _ _ Ha _ _ (al_learner_projection _ _ _ Ho)).
  - exact (seen_alike (R := NotionConnection.t) (account_id ctx) _ _ Ha _ _ (al_notion_connection _ _ _ Ho)).
  - exact (seen_alike (R := NotionPageBinding.t) (account_id ctx) _ _ Ha _ _ (al_notion_page_binding _ _ _ Ho)).
  - exact (seen_alike (R := DeletionTombstone.t) (account_id ctx) _ _ Ha _ _ (al_deletion_tombstone _ _ _ Ho)).
  - exact (seen_alike (R := ExportJob.t) (account_id ctx) _ _ Ha _ _ (al_export_job _ _ _ Ho)).
  - exact (seen_alike (R := SemanticProjection.t) (account_id ctx) _ _ Ha _ _ (al_semantic_projection _ _ _ Ho)).
  - exact (seen_alike (R := AssessmentAttempt.t) (account_id ctx) _ _ Ha _ _ (al_assessment_attempt _ _ _ Ho)).
  - exact (seen_alike (R := DeletionWorkflow.t) (account_id ctx) _ _ Ha _ _ (al_deletion_workflow _ _ _ Ho)).
Qed.

Lemma settled_alike ctx d d2 after m m2 : own_alike (account_id ctx) d d2 ->
  Settled (access ctx d) d after m -> Settled (access ctx d2) d2 after m2 -> own_alike (account_id ctx) m m2.
Proof.
  intros Ho Hm Hm2. pose proof (access_alike ctx d d2 Ho) as Ha. split.
  - exact (settle_alike (R := Account.t) (account_id ctx) _ _ Ha _ _ _ _ _ (al_account _ _ _ Ho) (sd_account _ _ _ _ Hm) (sd_account _ _ _ _ Hm2)).
  - exact (settle_alike (R := User.t) (account_id ctx) _ _ Ha _ _ _ _ _ (al_user _ _ _ Ho) (sd_user _ _ _ _ Hm) (sd_user _ _ _ _ Hm2)).
  - exact (settle_alike (R := AccountMember.t) (account_id ctx) _ _ Ha _ _ _ _ _ (al_account_member _ _ _ Ho) (sd_account_member _ _ _ _ Hm) (sd_account_member _ _ _ _ Hm2)).
  - exact (settle_alike (R := Space.t) (account_id ctx) _ _ Ha _ _ _ _ _ (al_space _ _ _ Ho) (sd_space _ _ _ _ Hm) (sd_space _ _ _ _ Hm2)).
  - exact (settle_alike (R := SpaceMember.t) (account_id ctx) _ _ Ha _ _ _ _ _ (al_space_member _ _ _ Ho) (sd_space_member _ _ _ _ Hm) (sd_space_member _ _ _ _ Hm2)).
  - exact (settle_alike (R := HostedAdultAttestation.t) (account_id ctx) _ _ Ha _ _ _ _ _ (al_hosted_adult_attestation _ _ _ Ho) (sd_hosted_adult_attestation _ _ _ _ Hm) (sd_hosted_adult_attestation _ _ _ _ Hm2)).
  - exact (settle_alike (R := ExternalIdentity.t) (account_id ctx) _ _ Ha _ _ _ _ _ (al_external_identity _ _ _ Ho) (sd_external_identity _ _ _ _ Hm) (sd_external_identity _ _ _ _ Hm2)).
  - exact (settle_alike (R := Actor.t) (account_id ctx) _ _ Ha _ _ _ _ _ (al_actor _ _ _ Ho) (sd_actor _ _ _ _ Hm) (sd_actor _ _ _ _ Hm2)).
  - exact (settle_alike (R := BrowserSession.t) (account_id ctx) _ _ Ha _ _ _ _ _ (al_browser_session _ _ _ Ho) (sd_browser_session _ _ _ _ Hm) (sd_browser_session _ _ _ _ Hm2)).
  - exact (settle_alike (R := SessionRevocation.t) (account_id ctx) _ _ Ha _ _ _ _ _ (al_session_revocation _ _ _ Ho) (sd_session_revocation _ _ _ _ Hm) (sd_session_revocation _ _ _ _ Hm2)).
  - exact (settle_alike (R := ExternalClientGrant.t) (account_id ctx) _ _ Ha _ _ _ _ _ (al_external_client_grant _ _ _ Ho) (sd_external_client_grant _ _ _ _ Hm) (sd_external_client_grant _ _ _ _ Hm2)).
  - exact (settle_alike (R := OperatorBootstrap.t) (account_id ctx) _ _ Ha _ _ _ _ _ (al_operator_bootstrap _ _ _ Ho) (sd_operator_bootstrap _ _ _ _ Hm) (sd_operator_bootstrap _ _ _ _ Hm2)).
  - exact (settle_alike (R := Source.t) (account_id ctx) _ _ Ha _ _ _ _ _ (al_source _ _ _ Ho) (sd_source _ _ _ _ Hm) (sd_source _ _ _ _ Hm2)).
  - exact (settle_alike (R := SourceRevision.t) (account_id ctx) _ _ Ha _ _ _ _ _ (al_source_revision _ _ _ Ho) (sd_source_revision _ _ _ _ Hm) (sd_source_revision _ _ _ _ Hm2)).
  - exact (settle_alike (R := SourceBlob.t) (account_id ctx) _ _ Ha _ _ _ _ _ (al_source_blob _ _ _ Ho) (sd_source_blob _ _ _ _ Hm) (sd_source_blob _ _ _ _ Hm2)).
  - exact (settle_alike (R := AuthoredDocument.t) (account_id ctx) _ _ Ha _ _ _ _ _ (al_authored_document _ _ _ Ho) (sd_authored_document _ _ _ _ Hm) (sd_authored_document _ _ _ _ Hm2)).
  - exact (settle_alike (R := DocumentRevision.t) (account_id ctx) _ _ Ha _ _ _ _ _ (al_document_revision _ _ _ Ho) (sd_document_revision _ _ _ _ Hm) (sd_document_revision _ _ _ _ Hm2)).
  - exact (settle_alike (R := ParseRun.t) (account_id ctx) _ _ Ha _ _ _ _ _ (al_parse_run _ _ _ Ho) (sd_parse_run _ _ _ _ Hm) (sd_parse_run _ _ _ _ Hm2)).
  - exact (settle_alike (R := DocumentElement.t) (account_id ctx) _ _ Ha _ _ _ _ _ (al_document_element _ _ _ Ho) (sd_document_element _ _ _ _ Hm) (sd_document_element _ _ _ _ Hm2)).
  - exact (settle_alike (R := ProvenanceRecord.t) (account_id ctx) _ _ Ha _ _ _ _ _ (al_provenance_record _ _ _ Ho) (sd_provenance_record _ _ _ _ Hm) (sd_provenance_record _ _ _ _ Hm2)).
  - exact (settle_alike (R := TruthClassification.t) (account_id ctx) _ _ Ha _ _ _ _ _ (al_truth_classification _ _ _ Ho) (sd_truth_classification _ _ _ _ Hm) (sd_truth_classification _ _ _ _ Hm2)).
  - exact (settle_alike (R := ConflictSet.t) (account_id ctx) _ _ Ha _ _ _ _ _ (al_conflict_set _ _ _ Ho) (sd_conflict_set _ _ _ _ Hm) (sd_conflict_set _ _ _ _ Hm2)).
  - exact (settle_alike (R := ConflictMember.t) (account_id ctx) _ _ Ha _ _ _ _ _ (al_conflict_member _ _ _ Ho) (sd_conflict_member _ _ _ _ Hm) (sd_conflict_member _ _ _ _ Hm2)).
  - exact (settle_alike (R := Proposal.t) (account_id ctx) _ _ Ha _ _ _ _ _ (al_proposal _ _ _ Ho) (sd_proposal _ _ _ _ Hm) (sd_proposal _ _ _ _ Hm2)).
  - exact (settle_alike (R := Conversation.t) (account_id ctx) _ _ Ha _ _ _ _ _ (al_conversation _ _ _ Ho) (sd_conversation _ _ _ _ Hm) (sd_conversation _ _ _ _ Hm2)).
  - exact (settle_alike (R := ConversationTurn.t) (account_id ctx) _ _ Ha _ _ _ _ _ (al_conversation_turn _ _ _ Ho) (sd_conversation_turn _ _ _ _ Hm) (sd_conversation_turn _ _ _ _ Hm2)).
  - exact (settle_alike (R := AuditEvent.t) (account_id ctx) _ _ Ha _ _ _ _ _ (al_audit_event _ _ _ Ho) (sd_audit_event _ _ _ _ Hm) (sd_audit_event _ _ _ _ Hm2)).
  - exact (settle_alike (R := CurrentSourceRevision.t) (account_id ctx) _ _ Ha _ _ _ _ _ (al_current_source_revision _ _ _ Ho) (sd_current_source_revision _ _ _ _ Hm) (sd_current_source_revision _ _ _ _ Hm2)).
  - exact (settle_alike (R := CurrentDocumentRevision.t) (account_id ctx) _ _ Ha _ _ _ _ _ (al_current_document_revision _ _ _ Ho) (sd_current_document_revision _ _ _ _ Hm) (sd_current_document_revision _ _ _ _ Hm2)).
  - exact (settle_alike (R := OutboxEvent.t) (account_id ctx) _ _ Ha _ _ _ _ _ (al_outbox_event _ _ _ Ho) (sd_outbox_event _ _ _ _ Hm) (sd_outbox_event _ _ _ _ Hm2)).
  - exact (settle_alike (R := IdempotencyRecord.t) (account_id ctx) _ _ Ha _ _ _ _ _ (al_idempotency_record _ _ _ Ho) (sd_idempotency_record _ _ _ _ Hm) (sd_idempotency_record _ _ _ _ Hm2)).
  - exact (settle_alike (R := DurableJob.t) (account_id ctx) _ _ Ha _ _ _ _ _ (al_durable_job _ _ _ Ho) (sd_durable_job _ _ _ _ Hm) (sd_durable_job _ _ _ _ Hm2)).
  - exact (settle_alike (R := JobAttempt.t) (account_id ctx) _ _ Ha _ _ _ _ _ (al_job_attempt _ _ _ Ho) (sd_job_attempt _ _ _ _ Hm) (sd_job_attempt _ _ _ _ Hm2)).
  - exact (settle_alike (R := ProjectionState.t) (account_id ctx) _ _ Ha _ _ _ _ _ (al_projection_state _ _ _ Ho) (sd_projection_state _ _ _ _ Hm) (sd_projection_state _ _ _ _ Hm2)).
  - exact (settle_alike (R := UploadIntent.t) (account_id ctx) _ _ Ha _ _ _ _ _ (al_upload_intent _ _ _ Ho) (sd_upload_intent _ _ _ _ Hm) (sd_upload_intent _ _ _ _ Hm2)).
  - exact (settle_alike (R := CurrentActiveParseRun.t) (account_id ctx) _ _ Ha _ _ _ _ _ (al_current_active_parse_run _ _ _ Ho) (sd_current_active_parse_run _ _ _ _ Hm) (sd_current_active_parse_run _ _ _ _ Hm2)).
  - exact (settle_alike (R := MemoryItem.t) (account_id ctx) _ _ Ha _ _ _ _ _ (al_memory_item _ _ _ Ho) (sd_memory_item _ _ _ _ Hm) (sd_memory_item _ _ _ _ Hm2)).
  - exact (settle_alike (R := MemoryRevision.t) (account_id ctx) _ _ Ha _ _ _ _ _ (al_memory_revision _ _ _ Ho) (sd_memory_revision _ _ _ _ Hm) (sd_memory_revision _ _ _ _ Hm2)).
  - exact (settle_alike (R := CurrentMemoryRevision.t) (account_id ctx) _ _ Ha _ _ _ _ _ (al_current_memory_revision _ _ _ Ho) (sd_current_memory_revision _ _ _ _ Hm) (sd_current_memory_revision _ _ _ _ Hm2)).
  - exact (settle_alike (R := Projection.t) (account_id ctx) _ _ Ha _ _ _ _ _ (al_projection _ _ _ Ho) (sd_projection _ _ _ _ Hm) (sd_projection _ _ _ _ Hm2)).
  - exact (settle_alike (R := ContextReceipt.t) (account_id ctx) _ _ Ha _ _ _ _ _ (al_context_receipt _ _ _ Ho) (sd_context_receipt _ _ _ _ Hm) (sd_context_receipt _ _ _ _ Hm2)).
  - exact (settle_alike (R := ContextReceiptItem.t) (account_id ctx) _ _ Ha _ _ _ _ _ (al_context_receipt_item _ _ _ Ho) (sd_context_receipt_item _ _ _ _ Hm) (sd_context_receipt_item _ _ _ _ Hm2)).
  - exact (settle_alike (R := Course.t) (account_id ctx) _ _ Ha _ _ _ _ _ (al_course _ _ _ Ho) (sd_course _ _ _ _ Hm) (sd_course _ _ _ _ Hm2)).
  - exact (settle_alike (R := CurriculumNode.t) (account_id ctx) _ _ Ha _ _ _ _ _ (al_curriculum_node _ _ _ Ho) (sd_curriculum_node _ _ _ _ Hm) (sd_curriculum_node _ _ _ _ Hm2)).
  - exact (settle_alike (R := CurriculumEdge.t) (account_id ctx) _ _ Ha _ _ _ _ _ (al_curriculum_edge _ _ _ Ho) (sd_curriculum_edge _ _ _ _ Hm) (sd_curriculum_edge _ _ _ _ Hm2)).
  - exact (settle_alike (R := AssessmentItem.t) (account_id ctx) _ _ Ha _ _ _ _ _ (al_assessment_item _ _ _ Ho) (sd_assessment_item _ _ _ _ Hm) (sd_assessment_item _ _ _ _ Hm2)).
  - exact (settle_alike (R := AssessmentRevision.t) (account_id ctx) _ _ Ha _ _ _ _ _ (al_assessment_revision _ _ _ Ho) (sd_assessment_revision _ _ _ _ Hm) (sd_assessment_revision _ _ _ _ Hm2)).
  - exact (settle_alike (R := CurrentAssessmentRevision.t) (account_id ctx) _ _ Ha _ _ _ _ _ (al_current_assessment_revision _ _ _ Ho) (sd_current_assessment_revision _ _ _ _ Hm) (sd_current_assessment_revision _ _ _ _ Hm2)).
  - exact (settle_alike (R := LearnerEvent.t) (account_id ctx) _ _ Ha _ _ _ _ _ (al_learner_event _ _ _ Ho) (sd_learner_event _ _ _ _ Hm) (sd_learner_event _ _ _ _ Hm2)).
  - exact (settle_alike (R := ReviewItem.t) (account_id ctx) _ _ Ha _ _ _ _ _ (al_review_item _ _ _ Ho) (sd_review_item _ _ _ _ Hm) (sd_review_item _ _ _ _ Hm2)).
  - exact (settle_alike (R := LearnerProjection.t) (account_id ctx) _ _ Ha _ _ _ _ _ (al_learner_projection _ _ _ Ho) (sd_learner_projection _ _ _ _ Hm) (sd_learner_projection _ _ _ _ Hm2)).
  - exact (settle_alike (R := NotionConnection.t) (account_id ctx) _ _ Ha _ _ _ _ _ (al_notion_connection _ _ _ Ho) (sd_notion_connection _ _ _ _ Hm) (sd_notion_connection _ _ _ _ Hm2)).
  - exact (settle_alike (R := NotionPageBinding.t) (account_id ctx) _ _ Ha _ _ _ _ _ (al_notion_page_binding _ _ _ Ho) (sd_notion_page_binding _ _ _ _ Hm) (sd_notion_page_binding _ _ _ _ Hm2)).
  - exact (settle_alike (R := DeletionTombstone.t) (account_id ctx) _ _ Ha _ _ _ _ _ (al_deletion_tombstone _ _ _ Ho) (sd_deletion_tombstone _ _ _ _ Hm) (sd_deletion_tombstone _ _ _ _ Hm2)).
  - exact (settle_alike (R := ExportJob.t) (account_id ctx) _ _ Ha _ _ _ _ _ (al_export_job _ _ _ Ho) (sd_export_job _ _ _ _ Hm) (sd_export_job _ _ _ _ Hm2)).
  - exact (settle_alike (R := SemanticProjection.t) (account_id ctx) _ _ Ha _ _ _ _ _ (al_semantic_projection _ _ _ Ho) (sd_semantic_projection _ _ _ _ Hm) (sd_semantic_projection _ _ _ _ Hm2)).
  - exact (settle_alike (R := AssessmentAttempt.t) (account_id ctx) _ _ Ha _ _ _ _ _ (al_assessment_attempt _ _ _ Ho) (sd_assessment_attempt _ _ _ _ Hm) (sd_assessment_attempt _ _ _ _ Hm2)).
  - exact (settle_alike (R := DeletionWorkflow.t) (account_id ctx) _ _ Ha _ _ _ _ _ (al_deletion_workflow _ _ _ Ho) (sd_deletion_workflow _ _ _ _ Hm) (sd_deletion_workflow _ _ _ _ Hm2)).
Qed.

Lemma settled_others ctx d after m : Settled (access ctx d) d after m -> others_kept (account_id ctx) d m.
Proof.
  intros Hm. assert (Hrow : forall R `{Owned R} (l l2 l3 : list R), settle (access ctx d) l l2 = Ok l3 ->
    forall r, owner r <> account_id ctx -> (r ∈ l3 <-> r ∈ l)).
  { intros R tR pR eR oR l l2 l3 Hs r Hr. apply settle_Ok in Hs as [Hw Hl].
    assert (Hf : ac_rls (access ctx d) (owner r) = false) by (cbn; by apply bool_decide_eq_false).
    assert (Hsh : shown (access ctx d) r = false) by (apply not_true_iff_false; intros Hsh%shown_owned; congruence).
    rewrite Hl. split; [|by right]. intros [Hin|[Hin _]]; [|done]. apply Hw in Hin as [[Hin ?]|Hin%accepted_owned]; congruence. }
  split.
  - exact (Hrow Account.t _ _ _ _ _ _ _ (sd_account _ _ _ _ Hm)).
  - exact (Hrow User.t _ _ _ _ _ _ _ (sd_user _ _ _ _ Hm)).
  - exact (Hrow AccountMember.t _ _ _ _ _ _ _ (sd_account_member _ _ _ _ Hm)).
  - exact (Hrow Space.t _ _ _ _ _ _ _ (sd_space _ _ _ _ Hm)).
  - exact (Hrow SpaceMember.t _ _ _ _ _ _ _ (sd_space_member _ _ _ _ Hm)).
  - exact (Hrow HostedAdultAttestation.t _ _ _ _ _ _ _ (sd_hosted_adult_attestation _ _ _ _ Hm)).
  - exact (Hrow ExternalIdentity.t _ _ _ _ _ _ _ (sd_external_identity _ _ _ _ Hm)).
  - exact (Hrow Actor.t _ _ _ _ _ _ _ (sd_actor _ _ _ _ Hm)).
  - exact (Hrow BrowserSession.t _ _ _ _ _ _ _ (sd_browser_session _ _ _ _ Hm)).
  - exact (Hrow SessionRevocation.t _ _ _ _ _ _ _ (sd_session_revocation _ _ _ _ Hm)).
  - exact (Hrow ExternalClientGrant.t _ _ _ _ _ _ _ (sd_external_client_grant _ _ _ _ Hm)).
  - exact (Hrow OperatorBootstrap.t _ _ _ _ _ _ _ (sd_operator_bootstrap _ _ _ _ Hm)).
  - by eapply settle_closed; [|exact (sd_oidc_login_challenge _ _ _ _ Hm)].
  - by eapply settle_closed; [|exact (sd_oidc_token_replay _ _ _ _ Hm)].
  - by eapply settle_closed; [|exact (sd_service_auth_nonce _ _ _ _ Hm)].
  - exact (Hrow Source.t _ _ _ _ _ _ _ (sd_source _ _ _ _ Hm)).
  - exact (Hrow SourceRevision.t _ _ _ _ _ _ _ (sd_source_revision _ _ _ _ Hm)).
  - exact (Hrow SourceBlob.t _ _ _ _ _ _ _ (sd_source_blob _ _ _ _ Hm)).
  - exact (Hrow AuthoredDocument.t _ _ _ _ _ _ _ (sd_authored_document _ _ _ _ Hm)).
  - exact (Hrow DocumentRevision.t _ _ _ _ _ _ _ (sd_document_revision _ _ _ _ Hm)).
  - exact (Hrow ParseRun.t _ _ _ _ _ _ _ (sd_parse_run _ _ _ _ Hm)).
  - exact (Hrow DocumentElement.t _ _ _ _ _ _ _ (sd_document_element _ _ _ _ Hm)).
  - exact (Hrow ProvenanceRecord.t _ _ _ _ _ _ _ (sd_provenance_record _ _ _ _ Hm)).
  - exact (Hrow TruthClassification.t _ _ _ _ _ _ _ (sd_truth_classification _ _ _ _ Hm)).
  - exact (Hrow ConflictSet.t _ _ _ _ _ _ _ (sd_conflict_set _ _ _ _ Hm)).
  - exact (Hrow ConflictMember.t _ _ _ _ _ _ _ (sd_conflict_member _ _ _ _ Hm)).
  - exact (Hrow Proposal.t _ _ _ _ _ _ _ (sd_proposal _ _ _ _ Hm)).
  - exact (Hrow Conversation.t _ _ _ _ _ _ _ (sd_conversation _ _ _ _ Hm)).
  - exact (Hrow ConversationTurn.t _ _ _ _ _ _ _ (sd_conversation_turn _ _ _ _ Hm)).
  - exact (Hrow AuditEvent.t _ _ _ _ _ _ _ (sd_audit_event _ _ _ _ Hm)).
  - exact (Hrow CurrentSourceRevision.t _ _ _ _ _ _ _ (sd_current_source_revision _ _ _ _ Hm)).
  - exact (Hrow CurrentDocumentRevision.t _ _ _ _ _ _ _ (sd_current_document_revision _ _ _ _ Hm)).
  - exact (Hrow OutboxEvent.t _ _ _ _ _ _ _ (sd_outbox_event _ _ _ _ Hm)).
  - exact (Hrow IdempotencyRecord.t _ _ _ _ _ _ _ (sd_idempotency_record _ _ _ _ Hm)).
  - exact (Hrow DurableJob.t _ _ _ _ _ _ _ (sd_durable_job _ _ _ _ Hm)).
  - exact (Hrow JobAttempt.t _ _ _ _ _ _ _ (sd_job_attempt _ _ _ _ Hm)).
  - exact (Hrow ProjectionState.t _ _ _ _ _ _ _ (sd_projection_state _ _ _ _ Hm)).
  - exact (Hrow UploadIntent.t _ _ _ _ _ _ _ (sd_upload_intent _ _ _ _ Hm)).
  - exact (Hrow CurrentActiveParseRun.t _ _ _ _ _ _ _ (sd_current_active_parse_run _ _ _ _ Hm)).
  - exact (Hrow MemoryItem.t _ _ _ _ _ _ _ (sd_memory_item _ _ _ _ Hm)).
  - exact (Hrow MemoryRevision.t _ _ _ _ _ _ _ (sd_memory_revision _ _ _ _ Hm)).
  - exact (Hrow CurrentMemoryRevision.t _ _ _ _ _ _ _ (sd_current_memory_revision _ _ _ _ Hm)).
  - exact (Hrow Projection.t _ _ _ _ _ _ _ (sd_projection _ _ _ _ Hm)).
  - exact (Hrow ContextReceipt.t _ _ _ _ _ _ _ (sd_context_receipt _ _ _ _ Hm)).
  - exact (Hrow ContextReceiptItem.t _ _ _ _ _ _ _ (sd_context_receipt_item _ _ _ _ Hm)).
  - exact (Hrow Course.t _ _ _ _ _ _ _ (sd_course _ _ _ _ Hm)).
  - exact (Hrow CurriculumNode.t _ _ _ _ _ _ _ (sd_curriculum_node _ _ _ _ Hm)).
  - exact (Hrow CurriculumEdge.t _ _ _ _ _ _ _ (sd_curriculum_edge _ _ _ _ Hm)).
  - exact (Hrow AssessmentItem.t _ _ _ _ _ _ _ (sd_assessment_item _ _ _ _ Hm)).
  - exact (Hrow AssessmentRevision.t _ _ _ _ _ _ _ (sd_assessment_revision _ _ _ _ Hm)).
  - exact (Hrow CurrentAssessmentRevision.t _ _ _ _ _ _ _ (sd_current_assessment_revision _ _ _ _ Hm)).
  - exact (Hrow LearnerEvent.t _ _ _ _ _ _ _ (sd_learner_event _ _ _ _ Hm)).
  - exact (Hrow ReviewItem.t _ _ _ _ _ _ _ (sd_review_item _ _ _ _ Hm)).
  - exact (Hrow LearnerProjection.t _ _ _ _ _ _ _ (sd_learner_projection _ _ _ _ Hm)).
  - exact (Hrow NotionConnection.t _ _ _ _ _ _ _ (sd_notion_connection _ _ _ _ Hm)).
  - exact (Hrow NotionPageBinding.t _ _ _ _ _ _ _ (sd_notion_page_binding _ _ _ _ Hm)).
  - exact (Hrow DeletionTombstone.t _ _ _ _ _ _ _ (sd_deletion_tombstone _ _ _ _ Hm)).
  - exact (Hrow ExportJob.t _ _ _ _ _ _ _ (sd_export_job _ _ _ _ Hm)).
  - exact (Hrow SemanticProjection.t _ _ _ _ _ _ _ (sd_semantic_projection _ _ _ _ Hm)).
  - exact (Hrow AssessmentAttempt.t _ _ _ _ _ _ _ (sd_assessment_attempt _ _ _ _ Hm)).
  - exact (Hrow DeletionWorkflow.t _ _ _ _ _ _ _ (sd_deletion_workflow _ _ _ _ Hm)).
Qed.

(** C31: whatever runs under the context of a request, no table of the ledger
    gains, loses or changes a row of another account; and against a second
    ledger that has the same rows of the account of the request and any rows
    of other accounts, what it returns, and the rows of the account it leaves,
    are the same, if neither run is refused. *)
Theorem accounts_isolated {A} ctx (m : M A) w x w2 : as_context ctx m w = Ok (x, w2) ->
  others_kept (account_id ctx) (db w) (db w2) /\
  forall w3 y w4, tick w3 = tick w -> own_alike (account_id ctx) (db w) (db w3) -> as_context ctx m w3 = Ok (y, w4) ->
    y = x /\ own_alike (account_id ctx) (db w2) (db w4).
Proof.
  unfold as_context, under_policy. intros Hm. destruct (m {| db := visible (access ctx (db w)) (db w); tick := tick w |}) as [[x1 w1]|e] eqn:Em; [|done].
  apply bind_Ok in Hm as (d2 & Hs%settle_db_Settled & Hm). injection Hm as -> <-. split; [by eapply settled_others|].
  intros w3 y w4 Ht Ho Hm. rewrite Ht, <- (visible_alike ctx _ _ Ho), Em in Hm.
  apply bind_Ok in Hm as (d3 & Hs3%settle_db_Settled & Hm). injection Hm as <- <-. split; [done|]. by eapply settled_alike.
Qed.

(** Outside a sealed context a run that adds a row raises. *)
Lemma unsealed_add {R} `{Owned R} {A} (m : M A) w x w1 (r : R) :
  m {| db := visible (closed (db w)) (db w); tick := tick w |} = Ok (x, w1) -> r ∈ rows (db w1) ->
  exists e, unsealed m w = Raise e.
Proof.
  intros Hm Hr. unfold unsealed, under_policy. rewrite Hm. destruct (settle_db (closed (db w)) (db w) (db w1)) as [d2|e] eqn:E; [|by exists e].
  destruct (settled_rows _ _ _ _ r E) as [_ Hin]. by destruct (Hin Hr).
Qed.

(** ** The access is what the database answers *)

Record answers (key : list Z) (s : Settings) (t : Z) (d : Db) (a : Access) : Prop := {
  an_rls : forall account, is_uuid account -> memdot_rls_ok key true s t d account = Ok (ac_rls a account);
  an_purpose : app_purpose s = ac_purpose a;
  an_space : ac_space a = memdot_external_space_ok d;
}.

Lemma cleared_answers key t d : answers key memdot_clear_tenant_context t d (closed d).
Proof. by split. Qed.

(** The access a request runs under is what the row policies answer: from
    beginning its tenant context, for a minute and while its actor stands,
    the settings the database sealed give exactly it; the settings of before
    and after give the closed one. *)
Lemma seal_implements_access `{Env} key nonce ctx w s w' t d :
  is_uuid (account_id ctx) -> is_uuid (actor_id ctx) -> unique_rows (R := Actor.t) (rows d) ->
  begin_tenant key true nonce (tenant ctx) w = Ok (s, w') ->
  Z.abs (epoch t - clock (tick w) / 1000000) <= 60 -> live_actor d (account_id ctx) (actor_id ctx) ->
  answers key s t d (access ctx d) /\ answers key memdot_clear_tenant_context t d (closed d).
Proof.
  intros Ha Hc Hu Hb Ht Hl. apply begin_Ok in Hb as (_ & -> & Hn & Hp & _).
  split; [|apply cleared_answers]. split; [|done|done]. intros account Hacc.
  destruct (sealed_rls key (tenant ctx) (clock (tick w) / 1000000) nonce t d account Ha Hc Hacc Hn Hp Hu) as (b & -> & Hb).
  f_equal. unfold access, same. cbn [ac_rls]. destruct b; symmetry.
  - apply bool_decide_eq_true. by apply Hb.
  - apply bool_decide_eq_false. intros ->.
    assert (false = true); [|done]. apply Hb. split; [reflexivity|]. split; [exact Ht|exact Hl].
Qed.

(** ** Witnesses *)

Definition source_of (id account : uuid) : Source.t :=
  {| Source.id := id; Source.account_id := account; Source.space_id := 8; Source.title := "one";
     Source.processing_status := "draft"; Source.created_at := 0; Source.updated_at := 0 |}.

Definition sources_world (l : list Source.t) : World := {| db := set_rows l empty_db; tick := 0 |}.

(** Deleting every source it sees, an account deletes its own and none of
    another, whether there is one of another or not. *)
Lemma accounts_isolated_witness : exists w2,
  as_context test_ctx (delete_rows (R := Source.t) (fun _ => true)) (sources_world [source_of 5 1; source_of 6 7]) = Ok (tt, w2) /\
  source_of 6 7 ∈ t_source (db w2) /\
  exists w4, as_context test_ctx (delete_rows (R := Source.t) (fun _ => true)) (sources_world [source_of 5 1]) = Ok (tt, w4) /\
    own Source.account_id 1 (t_source (db w4)) = [] /\ own Source.account_id 1 (t_source (db w2)) = [].
Proof.
  set (m := delete_rows (R := Source.t) (fun _ => true)).
  destruct (as_context test_ctx m (sources_world [source_of 5 1; source_of 6 7])) as [[[] w2]|e] eqn:E; [|vm_compute in E; discriminate E].
  destruct (as_context test_ctx m (sources_world [source_of 5 1])) as [[[] w4]|e] eqn:E4; [|vm_compute in E4; discriminate E4].
  destruct (accounts_isolated test_ctx m (sources_world [source_of 5 1; source_of 6 7]) tt w2 E) as [Hk Ha].
  exists w2. split; [reflexivity|]. split.
  - apply (ok_source _ _ _ Hk); [discriminate|]. apply elem_of_cons. right. apply list_elem_of_singleton. reflexivity.
  - exists w4. split; [reflexivity|]. assert (Ho : own_alike 1 (db (sources_world [source_of 5 1; source_of 6 7])) (db (sources_world [source_of 5 1])))
      by (split; vm_compute; reflexivity).
    destruct (Ha (sources_world [source_of 5 1]) tt w4 eq_refl Ho E4) as [_ H2].
    assert (H4 : own Source.account_id 1 (t_source (db w4)) = []) by (vm_compute in E4; injection E4 as <-; reflexivity).
    split; [exact H4|]. rewrite <- H4. exact (al_source _ _ _ H2).
Defined.
