(* ===== verification/Idempotency.v ===== *)
(** * Idempotency keys (services/core/src/memdot_core/idempotency.py)

    A key of a client names one request of its account: the record holds the
    digest of the request and, once it is answered, the answer. *)

From Stdlib Require Import ZArith Lia.
From stdpp Require Import list strings.
From S2P Require Import Prelude PyStr Digest Uuid Json Enums Ledger Store RequestContext Deletion AuthSnapshot ServiceAuth TenantContext RowPolicies Isolation Errors.
Open Scope Z_scope.

Record IdempotencyDecision := {
  id_replay : bool;
  id_conflict : bool;
  id_record_id : uuid;
  id_response_status : option Z;
  id_response_body : option dict;
}.

(** [str.upper()] on an ASCII text. *)
Fixpoint upper (s : string) : string :=
  match s with "" => "" | String c s => String (upper_char c) (upper s) end.

(** The bytes of the body are the UTF-8 of [body], as its callers encode it. *)
Definition fingerprint_request (method path body : string) : string :=
  sha256_str (upper method +:+ ":" +:+ path +:+ ":" +:+ body).

Definition idempotency_key_from_request (headers : Headers) : option string :=
  let raw := strip (default "" (headers "Idempotency-Key")) in
  if negb (truthy raw) then None
  else if 256 <? Z.of_nat (String.length raw) then None
  else Some raw.

Definition record_of_key (account : uuid) (key : string) (r : IdempotencyRecord.t) : bool :=
  same (IdempotencyRecord.account_id r) account && String.eqb (IdempotencyRecord.idempotency_key r) key.

Definition the_record (account id : uuid) (r : IdempotencyRecord.t) : bool :=
  same (IdempotencyRecord.id r) id && same (IdempotencyRecord.account_id r) account.

Section session.
Context `{Env}.

Definition begin_idempotency (account_id : uuid) (route idempotency_key fingerprint : string) : M IdempotencyDecision :=
  existing ← select_opt (record_of_key account_id idempotency_key);
  match existing with
  | Some r =>
      mret (if negb (String.eqb (IdempotencyRecord.fingerprint_sha256 r) fingerprint)
            then {| id_replay := false; id_conflict := true; id_record_id := IdempotencyRecord.id r;
                    id_response_status := Some 409; id_response_body := None |}
            else {| id_replay := true; id_conflict := false; id_record_id := IdempotencyRecord.id r;
                    id_response_status := Some (IdempotencyRecord.response_status r);
                    id_response_body := IdempotencyRecord.response_body r |})
  | None =>
      record_id ← new_uuid;
      t ← now;
      _ ← add {| IdempotencyRecord.id := record_id; IdempotencyRecord.account_id := account_id;
                 IdempotencyRecord.idempotency_key := idempotency_key;
                 IdempotencyRecord.fingerprint_sha256 := fingerprint; IdempotencyRecord.response_status := 0;
                 IdempotencyRecord.route := Some route; IdempotencyRecord.response_body := None;
                 IdempotencyRecord.response_headers := None; IdempotencyRecord.created_at := t |};
      mret {| id_replay := false; id_conflict := false; id_record_id := record_id; id_response_status := None;
              id_response_body := None |}
  end.

Definition complete_idempotency (record_id account_id : uuid) (response_status : Z) (response_body : dict) : M unit :=
  row ← select_opt (the_record account_id record_id);
  match row with
  | None => mret tt
  | Some row =>
      update (IdempotencyRecord.id row) (fun r =>
        IdempotencyRecord.set_response_body (Some response_body) (IdempotencyRecord.set_response_status response_status r))
  end.
End session.

Definition idempotency_conflict_response (correlation_id : option uuid) : Response :=
  problem 409 ErrorCode.IDEMPOTENCY_CONFLICT "Idempotency key was reused with a different request fingerprint." correlation_id.

(** ** What a key stands for *)

Section proofs.
Context `{Env}.

(** The first request under a key leaves its record, with no answer yet. *)
Lemma begin_first account route key fp w d w' :
  keep (record_of_key account key) (rows (db w)) = [] -> begin_idempotency account route key fp w = Ok (d, w') ->
  d = {| id_replay := false; id_conflict := false; id_record_id := fresh_uuid (tick w); id_response_status := None; id_response_body := None |} /\
  exists r, rows (db w') = rows (db w) ++ [r] /\ IdempotencyRecord.id r = fresh_uuid (tick w) /\
    record_of_key account key r = true /\ IdempotencyRecord.fingerprint_sha256 r = fp /\
    (forall r', r' ∈ rows (db w) -> IdempotencyRecord.id r' <> fresh_uuid (tick w)).
Proof.
  intros Hk Hm. unfold begin_idempotency in Hm. step Hm as Hs. apply select_opt_Ok in Hs as [Hs ->].
  destruct a as [x|]; [congruence|]. draw Hm. draw Hm. step Hm as Ha. cleanM. apply add_Ok in Ha as [Hc ->]. cbn [db].
  split; [done|]. eexists. split; [by rewrite rows_set_rows|]. cbn. unfold record_of_key, same. cbn.
  rewrite bool_decide_eq_true_2, String.eqb_refl by done. split_and!; try done.
  intros r' Hr' He. specialize (Hc r' Hr'). cbn [clash idempotency_record_table] in Hc. unfold IdempotencyRecord.clash, same in Hc. cbn in Hc.
  by rewrite bool_decide_eq_true_2 in Hc.
Qed.

(** C39: the answer recorded for a key is what a repetition of the request gets,
    and another request under the key is a conflict; neither changes the
    record. *)
Theorem idempotency_replays account route key fp status body w d w1 w2 w3 :
  keep (record_of_key account key) (rows (db w)) = [] ->
  begin_idempotency account route key fp w = Ok (d, w1) ->
  rows (R := IdempotencyRecord.t) (db w2) = rows (db w1) ->
  complete_idempotency (id_record_id d) account status body w2 = Ok (tt, w3) ->
  forall route2 fp2, begin_idempotency account route2 key fp2 w3 =
    Ok (if String.eqb fp fp2
        then {| id_replay := true; id_conflict := false; id_record_id := id_record_id d; id_response_status := Some status; id_response_body := Some body |}
        else {| id_replay := false; id_conflict := true; id_record_id := id_record_id d; id_response_status := Some 409; id_response_body := None |}, w3).
Proof.
  intros Hk Hb Hrows Hc route2 fp2. apply begin_first in Hb as (-> & r & Hw1 & Hid & Hr & Hfp & Hfresh); [|done].
  rewrite Hw1 in Hrows. cbn [id_record_id] in *. set (id0 := fresh_uuid (tick w)) in *.
  assert (Hone : keep (the_record account id0) (rows (db w2)) = [r]).
  { rewrite Hrows, keep_app. rewrite (keep_none (the_record account id0) (rows (db w))).
    - unfold record_of_key, same in Hr. split_bool. unfold keep. cbn. unfold the_record, same. by rewrite !bool_decide_eq_true_2.
    - intros x Hx. unfold the_record, same. by rewrite bool_decide_eq_false_2 by by apply Hfresh. }
  unfold complete_idempotency in Hc. rewrite (M_bind_step _ _ _ (Some r) w2) in Hc by by apply select_opt_Ok.
  apply update_Ok in Hc as ->. set (answered := fun r => IdempotencyRecord.set_response_body (Some body) (IdempotencyRecord.set_response_status status r)) in *.
  assert (Hafter : keep (record_of_key account key) (map (fun x => if row_id x =? IdempotencyRecord.id r then answered x else x) (rows (db w2))) = [answered r]).
  { rewrite Hrows, map_app, keep_app. replace (map _ (rows (db w))) with (rows (R := IdempotencyRecord.t) (db w)).
    - rewrite Hk. cbn. change (row_id r) with (IdempotencyRecord.id r). rewrite Z.eqb_refl. unfold keep. cbn.
      change (record_of_key account key (answered r)) with (record_of_key account key r). by rewrite Hr.
    - symmetry. rewrite <- (map_id (rows (db w))) at 2. apply map_ext_in. intros x Hx. change (row_id x) with (IdempotencyRecord.id x).
      destruct (Z.eqb_spec (IdempotencyRecord.id x) (IdempotencyRecord.id r)); [|done].
      exfalso. apply (Hfresh x); [by apply list_elem_of_In|congruence]. }
  unfold begin_idempotency. erewrite (M_bind_step _ _ _ (Some (answered r))).
  - unfold mret, M_ret. change (IdempotencyRecord.fingerprint_sha256 (answered r)) with (IdempotencyRecord.fingerprint_sha256 r).
    change (IdempotencyRecord.id (answered r)) with (IdempotencyRecord.id r). rewrite Hfp, Hid.
    by destruct (String.eqb fp fp2).
  - apply select_opt_Ok. split; [|by rewrite Hid]. cbn [db]. by rewrite rows_set_rows.
Qed.

(** Outside a sealed tenant context a key begins nothing. *)
Lemma begin_unsealed account route key fp w : exists e, unsealed (begin_idempotency account route key fp) w = Raise e.
Proof.
  set (v := {| db := visible (closed (db w)) (db w); tick := tick w |}).
  assert (Hv : rows (R := IdempotencyRecord.t) (db v) = []) by apply closed_visible.
  destruct (begin_idempotency account route key fp v) as [[d w1]|e] eqn:E.
  - assert (Hk : keep (record_of_key account key) (rows (db v)) = []) by by rewrite Hv.
    apply begin_first in E as He; [|done]. destruct He as (_ & r & Hw1 & _).
    eapply (unsealed_add (R := IdempotencyRecord.t)); [exact E|]. rewrite Hw1. apply elem_of_app. right. by left.
  - exists e. unfold unsealed, under_policy. fold v. by rewrite E.
Qed.
End proofs.

(** ** Witness *)

Definition keyed_world : World := {| db := empty_db; tick := 0 |}.

Lemma idempotency_replays_witness : exists d w1 w3,
  @begin_idempotency test_env 1 "POST /api/v1/sources" "k" "fp" keyed_world = Ok (d, w1) /\
  @begin_idempotency test_env 1 "POST /api/v1/sources" "k" "other" w3 =
    Ok ({| id_replay := false; id_conflict := true; id_record_id := id_record_id d; id_response_status := Some 409; id_response_body := None |}, w3).
Proof.
  destruct (@begin_idempotency test_env 1 "POST /api/v1/sources" "k" "fp" keyed_world) as [[d w1]|e] eqn:E; [|vm_compute in E; discriminate E].
  destruct (complete_idempotency (id_record_id d) 1 201 [("sourceId", JStr "s")] w1) as [[[] w3]|e] eqn:Ec.
  - exists d, w1, w3. split; [reflexivity|].
    exact (@idempotency_replays test_env 1 _ "k" "fp" 201 _ keyed_world d w1 w1 w3 eq_refl E eq_refl Ec "POST /api/v1/sources" "other").
  - exfalso. revert Ec. vm_compute in E. injection E as <- <-. vm_compute. discriminate.
Defined.
