(* ===== verification/WebRoutes.v ===== *)
(** * First-party requests (services/core/src/memdot_core/deps.py)

    What the handlers of the browser's API share: the session of the request,
    the checks before a service, and the transaction around it.  A service runs
    under the row policies: sealed for the account from its tenant scope on,
    with nothing visible before it. *)

From Stdlib Require Import ZArith Lia.
From stdpp Require Import base gmap list strings.
From S2P Require Import Prelude PyStr Json Uuid Enums Float64 Ledger Store RequestContext Deletion AuthSnapshot ServiceAuth TenantContext ExternalAccess RowPolicies Isolation Errors Policy McpRoutes Idempotency.
Open Scope Z_scope.

(** A request of a browser and the readings of the monotonic clock. *)
Record WebRequest := {
  wr_method : string;
  wr_path : string;
  wr_cookie : option string;
  wr_headers : Headers;
  wr_now : f64;
  wr_later : f64;
}.

Definition Handler (B : Type) : Type := Process -> World -> Served B.

Definition session_row (b : BrowserSession.t) : SessionRow :=
  {| s_id := BrowserSession.id b; s_account_id := BrowserSession.account_id b; s_actor_id := BrowserSession.actor_id b;
     s_user_id := BrowserSession.user_id b; s_csrf_token_hash := BrowserSession.csrf_token_hash b;
     s_expires_at := BrowserSession.expires_at b; s_idle_expires_at := BrowserSession.idle_expires_at b;
     s_last_auth_at := BrowserSession.last_auth_at b; s_revoked_at := BrowserSession.revoked_at b |}.

Definition memdot_auth_load_session (d : Db) (id : uuid) (digest : string) : option SessionRow :=
  hd_error (map session_row (keep (fun b =>
    same (BrowserSession.id b) id && String.eqb (BrowserSession.secret_hash b) digest &&
    match BrowserSession.revoked_at b with Some _ => false | None => true end) (rows d))).

Section requests.
Context `{Env} (pepper : string).

Definition get_request_context (rq : WebRequest) (w : World) : option RequestContext * World :=
  let require_csrf := negb (existsb (String.eqb (wr_method rq)) ["GET"; "HEAD"; "OPTIONS"]) in
  (load_session_context pepper (wr_cookie rq) (memdot_auth_load_session (db w)) require_csrf
     (default "" (wr_headers rq "X-CSRF-Token")) (clock (tick w))
     (correlation_id_for_request (wr_headers rq "X-Correlation-Id") (wr_headers rq "X-Request-Id") (fresh_uuid (tick w))),
   {| db := db w; tick := S (tick w) |}).

(** [_require_ctx] of every router; [recent] is the check of the deletion and
    export routers. *)
Definition _require_ctx (recent : bool) (ctx : option RequestContext) (rq : WebRequest) (p : Process) (w : World)
    : (Response + RequestContext) * Process :=
  match ctx with
  | None => (inl (safe_not_found (Some (fresh_uuid (tick w)))), p)
  | Some ctx =>
      let '(granted, l) := allow (wr_now rq) (wr_later rq) (str_uuid (account_id ctx)) (pr_limiter p) in
      (if negb granted then inl (rate_limited_response (Some (correlation_id ctx)))
       else if recent && negb (require_recent_auth ctx 15 (clock (tick w))) then inl (not_found_for ctx)
       else inr ctx, with_limiter l p)
  end.

(** The session of a request and the checks on it. *)
Definition entry_check (recent : bool) (rq : WebRequest) (p : Process) (w : World) : (Response + RequestContext) * Process :=
  let '(ctx, w1) := get_request_context rq w in _require_ctx recent ctx rq p w1.

(** A handler: the checks, then the body; [wrap] is the answer of a refusal. *)
Definition endpoint {B} (recent : bool) (wrap : Response -> B) (rq : WebRequest) (body : RequestContext -> Handler B)
    : Handler B := fun p w =>
  let w1 := {| db := db w; tick := S (S (tick w)) |} in
  match entry_check recent rq p w with
  | (inl r, p) => served (Ok (wrap r)) p w1
  | (inr ctx, p) => body ctx p w1
  end.
End requests.

(** A service and its answer.  An exception the handler does not catch leaves;
    one it catches is answered.  Either way the transaction has nothing to
    commit: the service raised in its tenant scope, which rolled back, or
    before it, where it writes nothing. *)
Definition respond {A B} (m : M A) (reply : A -> B) (refuse : exn -> option B) : Handler B := fun p w =>
  match m w with
  | Ok (x, w2) => served (Ok (reply x)) p w2
  | Raise e => served (match refuse e with Some r => Ok r | None => Raise e end) p w
  end.

(** [except Exception: return safe_not_found(...)], and no handler at all. *)
Definition catch_all (ctx : RequestContext) (_ : exn) : option Response := Some (not_found_for ctx).
Definition catch_none {B} (_ : exn) : option B := None.

Definition plain (r : Response) : Response := r.

(** ** Lemmas *)

Definition refusal (r : Response) : Prop := 400 <= rs_status r.

(** A handler whose answers have a property and leave the ledger alone. *)
Definition refuses {B} (P : B -> Prop) (f : Handler B) : Prop := forall p w,
  exists r p2 n, f p w = served (Ok r) p2 {| db := db w; tick := n |} /\ P r.

Section admitted.
Context `{Env} (pepper : string).

Lemma web_require_refused recent ctx rq p w r p2 : _require_ctx recent ctx rq p w = (inl r, p2) -> refusal r.
Proof.
  unfold _require_ctx. destruct ctx as [ctx|]; [|intros [= <- _]; done].
  destruct (allow _ _ _ _) as [[] l]; cbn [negb]; [|intros [= <- _]; done].
  destruct (recent && negb _); [by intros [= <- _]|done].
Qed.

(** Who is admitted has a session, for the browser. *)
Lemma admitted_first_party recent rq p w ctx p2 : entry_check pepper recent rq p w = (inr ctx, p2) ->
  purpose ctx = RequestPurpose.FIRST_PARTY.
Proof.
  unfold entry_check, get_request_context, _require_ctx. intros Ha.
  destruct (load_session_context _ _ _ _ _ _ _) as [c|] eqn:E; [|done].
  assert (Hp : purpose c = RequestPurpose.FIRST_PARTY).
  { revert E. unfold load_session_context. repeat (case_match; try done); by intros [= <-]. }
  destruct (allow _ _ _ _) as [[] l]; [|done]. cbn [negb] in Ha. destruct (recent && negb _); [done|]. by injection Ha as <- _.
Qed.

(** A request that is not let through, or whose body refuses, is refused. *)
Lemma endpoint_refuses {B} recent wrap (P : B -> Prop) rq body :
  (forall r, refusal r -> P (wrap r)) -> (forall ctx, refuses P (body ctx)) ->
  refuses P (endpoint pepper recent wrap rq body).
Proof.
  intros Hw Hb p w. unfold endpoint. destruct (entry_check pepper recent rq p w) as [[r|c] p1] eqn:E.
  - do 3 eexists. split; [reflexivity|]. apply Hw. unfold entry_check, get_request_context in E. by eapply web_require_refused.
  - exact (Hb c p1 {| db := db w; tick := S (S (tick w)) |}).
Qed.
End admitted.

(** A service that raises what its handler catches. *)
Lemma respond_raises {A B} (m : M A) reply refuse (P : B -> Prop) :
  (forall w, exists e r, m w = Raise e /\ refuse e = Some r /\ P r) -> refuses P (respond m reply refuse).
Proof.
  intros Hm p w. unfold respond. destruct (Hm w) as (e & r & -> & -> & Hr). exists r, p, (tick w). split; [by destruct w|done].
Qed.

(** A service that reads nothing. *)
Lemma respond_answers {A B} (m : M A) reply refuse (P : B -> Prop) :
  (forall w, exists x n, m w = Ok (x, {| db := db w; tick := n |}) /\ P (reply x)) -> refuses P (respond m reply refuse).
Proof. intros Hm p w. unfold respond. destruct (Hm w) as (x & n & -> & Hr). by exists (reply x), p, n. Qed.

Lemma not_found_refusal ctx : refusal (not_found_for ctx).
Proof. done. Qed.

(** ** Outside the tenant scope *)

Definition unseen (w : World) : World := {| db := visible (closed (db w)) (db w); tick := tick w |}.

Lemma unsealed_step {A} (m : M A) w : unsealed m w =
  match m (unseen w) with
  | Raise e => Raise e
  | Ok (x, w2) => d ← settle_db (closed (db w)) (db w) (db w2); Ok (x, {| db := d; tick := tick w2 |})
  end.
Proof. done. Qed.

Lemma unsealed_raise {A} (m : M A) w e : m (unseen w) = Raise e -> unsealed m w = Raise e.
Proof. intros Hm. by rewrite unsealed_step, Hm. Qed.

Lemma unsealed_read {A} (m : M A) w x n : m (unseen w) = Ok (x, {| db := db (unseen w); tick := n |}) ->
  unsealed m w = Ok (x, {| db := db w; tick := n |}).
Proof. intros Hm. rewrite unsealed_step, Hm. cbn [db tick]. unfold unseen. cbn [db]. by rewrite settle_db_visible. Qed.

Section unseen.
Context {R : Type} `{Owned R}.

Lemma unseen_rows w : rows (R := R) (db (unseen w)) = [].
Proof. apply closed_visible. Qed.

Lemma select_one_none (p : R -> bool) w : rows (R := R) (db w) = [] -> select_one p w = Raise NoResultFound.
Proof. intros Hr. unfold select_one, select, mbind, M_bind, lift. by rewrite Hr. Qed.

Lemma select_opt_none (p : R -> bool) w : rows (R := R) (db w) = [] -> select_opt p w = Ok (None, w).
Proof. intros Hr. unfold select_opt, select, mbind, M_bind, lift. by rewrite Hr. Qed.

Lemma select_none (p : R -> bool) w : rows (R := R) (db w) = [] -> select p w = Ok ([], w).
Proof. intros Hr. unfold select. by rewrite Hr. Qed.
End unseen.
