(* ===== verification/SourceRoutes.v ===== *)
(** * Source routes (services/core/src/memdot_core/sources/routes.py)

    The handlers of the sources API.  A body has passed the validation of its
    model (FastAPI); [model_dump_json] of a body is a text.  Creating, and
    listing revisions, happen in the tenant scope of their service; the other
    services query their source before it. *)

From Stdlib Require Import ZArith Lia.
From stdpp Require Import base gmap list strings.
From S2P Require Import Prelude PyStr Digest Json Uuid Enums Float64 PyTime Ledger Store RequestContext Deletion AuthSnapshot ServiceAuth TenantContext ExternalAccess RowPolicies Isolation Errors Policy McpRoutes Idempotency WebRoutes Jobs Storage Sources.
Open Scope Z_scope.

(** ** Requests under an idempotency key *)

(** The answer a decision gives at once; [gone] is the answer of a request that
    was recorded and never completed, where the route has one. *)
Definition decided (ctx : RequestContext) (default_status : Z) (gone : option Response) (d : IdempotencyDecision) : option Response :=
  if id_conflict d then Some (idempotency_conflict_response (Some (correlation_id ctx)))
  else if id_replay d then
    match id_response_body d with
    | Some body => Some {| rs_status := match id_response_status d with Some 0 | None => default_status | Some s => s end;
                           rs_body := body |}
    | None => gone
    end
  else None.

Definition key_bind {A B} (o : option A) (f : A -> option B) : option B := match o with Some a => f a | None => None end.

Section keyed.
Context `{Env}.

Definition begin_key (ctx : RequestContext) (rq : WebRequest) (route body_json : string) : M (option IdempotencyDecision) :=
  match idempotency_key_from_request (wr_headers rq) with
  | None => mret None
  | Some key =>
      d ← begin_idempotency (account_id ctx) route key (fingerprint_request "POST" (wr_path rq) body_json);
      mret (Some d)
  end.

Definition complete_key (ctx : RequestContext) (decision : option IdempotencyDecision) (status : Z) (payload : dict) : M unit :=
  match decision with
  | Some d => complete_idempotency (id_record_id d) (account_id ctx) status payload
  | None => mret tt
  end.

(** A keyed service: the key is begun before the tenant scope, the answer is
    recorded after it.  [early] is what the handler checks in between;
    [refuse] answers what the service raises; what it raises in its scope has
    rolled the key back as well. *)
Definition keyed {A} (ctx : RequestContext) (rq : WebRequest) (route body_json : string) (status : Z) (gone : option Response)
    (early : option (res Response)) (run : M A) (reply : A -> dict) (refuse : exn -> Response) (in_scope : exn -> bool) : Handler Response := fun p w =>
  match unsealed (begin_key ctx rq route body_json) w with
  | Raise e => served (Raise e) p w
  | Ok (decision, w1) =>
      match key_bind decision (decided ctx status gone) with
      | Some r => served (Ok r) p w1
      | None =>
          match early with
          | Some (Ok r) => served (Ok r) p w1
          | Some (Raise e) => served (Raise e) p w
          | None =>
              match run w1 with
              | Raise e => served (Ok (refuse e)) p (after_failure in_scope e w w1)
              | Ok (x, w2) =>
                  let r := answer status ctx (reply x) in
                  match as_context ctx (complete_key ctx decision status (rs_body r)) w2 with
                  | Raise e => served (Raise e) p w
                  | Ok (_, w3) => served (Ok r) p w3
                  end
              end
          end
      end
  end.

Lemma begin_key_fails ctx rq route json key w : idempotency_key_from_request (wr_headers rq) = Some key ->
  exists e, unsealed (begin_key ctx rq route json) w = Raise e.
Proof.
  intros Hk. destruct (begin_unsealed (account_id ctx) route key (fingerprint_request "POST" (wr_path rq) json) w) as (e & He).
  exists e. unfold unsealed, under_policy in *. fold (unseen w) in *. unfold begin_key. rewrite Hk. unfold mbind, M_bind, mret, M_ret, res_bind in *.
  destruct (begin_idempotency _ _ _ _ (unseen w)) as [[d w1]|e2]; [|congruence]. destruct (settle_db _ _ _); congruence.
Qed.

(** A keyed request ends with an exception: its key is written before the
    tenant context is sealed. *)
Lemma keyed_raises {A} ctx rq route json status gone early (run : M A) reply refuse sc key p w :
  idempotency_key_from_request (wr_headers rq) = Some key ->
  exists e, keyed ctx rq route json status gone early run reply refuse sc p w = served (Raise e) p w.
Proof. intros Hk. destruct (begin_key_fails ctx rq route json key w Hk) as (e & He). exists e. unfold keyed. by rewrite He. Qed.

(** A request without a key is the service. *)
Lemma unkeyed {A} ctx rq route json status gone early (run : M A) reply refuse sc p w :
  idempotency_key_from_request (wr_headers rq) = None ->
  keyed ctx rq route json status gone early run reply refuse sc p w =
  match early with
  | Some (Ok r) => served (Ok r) p w
  | Some (Raise e) => served (Raise e) p w
  | None =>
      match run w with
      | Raise e => served (Ok (refuse e)) p (after_failure sc e w w)
      | Ok (x, w2) => served (Ok (answer status ctx (reply x))) p w2
      end
  end.
Proof.
  intros Hk. unfold keyed. rewrite (unsealed_read _ w None (tick w)).
  2: { unfold begin_key. rewrite Hk. done. }
  cbn [key_bind]. replace {| db := db w; tick := tick w |} with w by by destruct w.
  destruct early as [[r|e]|]; [done..|]. destruct (run w) as [[x w2]|e]; [|done]. unfold as_context, under_policy, complete_key, mret, M_ret. cbn [db tick].
  rewrite settle_db_visible. cbn [mbind res_bind]. by destruct w2.
Qed.
End keyed.

(** ** The handlers *)

Section routes.
Context `{Env} (pepper : string) {S : Type} `{ObjectStoragePort S}.

Definition create_source (space_id : uuid) (title body_json : string) (rq : WebRequest) : Handler Response :=
  endpoint pepper false plain rq (fun ctx =>
    keyed ctx rq "POST /api/v1/sources" body_json 201 (Some (not_found_for ctx)) None
      (as_context ctx (Sources.create_source ctx space_id title))
      (fun c => [("sourceId", JStr (str_uuid (sc_source_id c))); ("spaceId", JStr (str_uuid (sc_space_id c)))])
      (fun _ => not_found_for ctx) (fun _ => true)).

Definition create_upload_intent (source_id : uuid) (filename content_type : string) (byte_count : Z) (sha256 : string)
    (rq : WebRequest) : Handler Response :=
  endpoint pepper false plain rq (fun ctx p w =>
    if max_object_bytes <? byte_count
    then served (Ok (payload_too_large_response (Some (correlation_id ctx)))) p w
    else respond (unsealed (begin_upload ctx source_id filename content_type byte_count sha256))
           (fun i => answer 200 ctx [("uploadId", JStr (str_uuid (ui_upload_id i))); ("uploadUrl", JStr (ui_upload_url i));
                                     ("objectKey", JStr (ui_object_key i)); ("expiresAt", JStr (isoformat (ui_expires_at i)))])
           (catch_all ctx) p w).

Definition refuse_upload (ctx : RequestContext) (e : exn) : Response :=
  match e with
  | ValueError m =>
      if existsb (String.eqb m) ["upload_verification_failed"; "upload_checksum_mismatch"]
      then problem 422 ErrorCode.UPLOAD_INVALID "Upload verification failed." (Some (correlation_id ctx))
      else not_found_for ctx
  | _ => not_found_for ctx
  end.

(** The storage goes with the answer. *)
Definition complete_upload (source_id upload_id : uuid) (s : S) (rq : WebRequest) : Handler (Response * S) :=
  endpoint pepper false (fun r => (r, s)) rq (fun ctx =>
    respond (unsealed (Sources.complete_upload s ctx source_id upload_id))
      (fun rs => (answer 202 ctx [("revisionId", JStr (str_uuid (rv_revision_id rs.1))); ("snapshotSha256", JStr (rv_snapshot_sha256 rs.1));
                                  ("jobId", JStr (str_uuid (job_id (rv_job rs.1))))], rs.2))
      (fun e => Some (refuse_upload ctx e, s))).

Definition status_body (s : ProcessingStatus) : dict :=
  [("sourceId", JStr (str_uuid (ps_source_id s))); ("processingStatus", JStr (ps_status s));
   ("jobId", opt_json (fun j => JStr (str_uuid (DurableJob.id j))) (ps_job s));
   ("jobStatus", opt_json (fun j => JStr (DurableJob.status j)) (ps_job s));
   ("errorCode", match ps_job s with Some j => opt_json JStr (DurableJob.error_code j) | None => JNull end)].

Definition get_processing_status (source_id : uuid) (rq : WebRequest) : Handler Response :=
  endpoint pepper false plain rq (fun ctx =>
    respond (unsealed (processing_status ctx source_id)) (fun s => answer 200 ctx (status_body s)) (catch_all ctx)).

Definition cancel_source_processing (source_id : uuid) (rq : WebRequest) : Handler Response :=
  endpoint pepper false plain rq (fun ctx =>
    respond (unsealed (cancel_processing ctx source_id))
      (fun _ => answer 200 ctx [("sourceId", JStr (str_uuid source_id)); ("processingStatus", JStr "cancelled")]) (catch_all ctx)).

Definition retry_source_processing (source_id revision_id : uuid) (rq : WebRequest) : Handler Response :=
  endpoint pepper false plain rq (fun ctx =>
    respond (unsealed (retry_processing ctx source_id revision_id))
      (fun j => answer 202 ctx [("jobId", JStr (str_uuid (job_id j))); ("revisionId", JStr (str_uuid revision_id))]) (catch_all ctx)).

Definition reprocess_source_revision (source_id revision_id : uuid) (shadow : bool) (rq : WebRequest) : Handler Response :=
  endpoint pepper false plain rq (fun ctx =>
    respond (unsealed (reprocess_revision ctx source_id revision_id shadow))
      (fun j => answer 202 ctx [("jobId", JStr (str_uuid (job_id j))); ("revisionId", JStr (str_uuid revision_id)); ("shadow", JBool shadow)])
      (catch_all ctx)).

Definition list_versions (source_id : uuid) (rq : WebRequest) : Handler Response :=
  endpoint pepper false plain rq (fun ctx =>
    respond (as_context ctx (list_revisions ctx source_id))
      (fun l => answer 200 ctx [("items", JList (map (fun r => JObj (citation_for_revision r)) l))]) (catch_all ctx)).

Definition get_version (source_id revision_id : uuid) (rq : WebRequest) : Handler Response :=
  endpoint pepper false plain rq (fun ctx =>
    respond (as_context ctx (list_revisions ctx source_id))
      (fun l => match first (fun r => same (SourceRevision.id r) revision_id) l with
                | Some r => answer 200 ctx (citation_for_revision r)
                | None => not_found_for ctx
                end) catch_none).
End routes.

(** ** What the handlers reach *)

Section unreachable.
Context `{Env} {S : Type} `{ObjectStoragePort S} (ctx : RequestContext).

Lemma begin_upload_unseen source filename ct n sha w : exists e, unsealed (begin_upload ctx source filename ct n sha) w = Raise e.
Proof.
  destruct (max_object_bytes <? n) eqn:En; eexists; apply unsealed_raise; unfold begin_upload; rewrite En; [done|].
  cbn [guard]. erewrite M_bind_step by done. apply M_bind_fail, select_one_none, unseen_rows.
Qed.

Lemma complete_upload_unseen (s : S) source upload w : unsealed (Sources.complete_upload s ctx source upload) w = Raise NoResultFound.
Proof. apply unsealed_raise, M_bind_fail, select_one_none, unseen_rows. Qed.

Lemma processing_status_unseen source w : unsealed (processing_status ctx source) w = Raise NoResultFound.
Proof. apply unsealed_raise, M_bind_fail, select_one_none, unseen_rows. Qed.

Lemma cancel_unseen source w : unsealed (cancel_processing ctx source) w = Raise NoResultFound.
Proof. apply unsealed_raise, M_bind_fail, select_one_none, unseen_rows. Qed.

Lemma retry_unseen source revision w : unsealed (retry_processing ctx source revision) w = Raise NoResultFound.
Proof. apply unsealed_raise, M_bind_fail, select_one_none, unseen_rows. Qed.

Lemma reprocess_unseen source revision shadow w : unsealed (reprocess_revision ctx source revision shadow) w = Raise NoResultFound.
Proof. apply unsealed_raise, M_bind_fail, select_one_none, unseen_rows. Qed.
End unreachable.

(** C32: no request of a browser reaches a source: its status cannot be read, it
    cannot be uploaded to, cancelled, retried or reprocessed.  The services
    query the source before their tenant scope, where the row policies show
    nothing, so every such request is refused, whatever the ledger holds, and
    leaves the ledger and the storage as they are. *)
Theorem sources_unreachable `{Env} {S : Type} `{ObjectStoragePort S} pepper (s : S) source revision upload filename ct n sha shadow rq :
  refuses refusal (create_upload_intent pepper source filename ct n sha rq) /\
  refuses (fun rs => refusal rs.1 /\ rs.2 = s) (complete_upload pepper source upload s rq) /\
  refuses refusal (get_processing_status pepper source rq) /\
  refuses refusal (cancel_source_processing pepper source rq) /\
  refuses refusal (retry_source_processing pepper source revision rq) /\
  refuses refusal (reprocess_source_revision pepper source revision shadow rq).
Proof.
  repeat match goal with |- _ /\ _ => split end; apply endpoint_refuses; try done; intros ctx.
  - intros p w. destruct (max_object_bytes <? n); [by exists (payload_too_large_response (Some (correlation_id ctx))), p, (tick w); destruct w|].
    revert p w. apply respond_raises. intros w. destruct (begin_upload_unseen ctx source filename ct n sha w) as (e & ->). by exists e, (not_found_for ctx).
  - apply respond_raises. intros w. rewrite complete_upload_unseen. by eexists _, _.
  - apply respond_raises. intros w. rewrite processing_status_unseen. by eexists _, _.
  - apply respond_raises. intros w. rewrite cancel_unseen. by eexists _, _.
  - apply respond_raises. intros w. rewrite retry_unseen. by eexists _, _.
  - apply respond_raises. intros w. rewrite reprocess_unseen. by eexists _, _.
Qed.

(** ** Creating a source *)

Definition new_source (account id space : uuid) (title : string) (t : Z) : Source.t :=
  {| Source.id := id; Source.account_id := account; Source.space_id := space; Source.title := title;
     Source.processing_status := value SourceProcessingStatus.DRAFT; Source.created_at := t; Source.updated_at := t |}.

(** A source of the account, under an identifier no source has, is stored beside
    the sources there are. *)
Lemma settle_source a d r : accepted a r = true -> (forall s, s ∈ rows d -> Source.id s <> Source.id r) ->
  exists d2, settle_db a d (set_rows (rows (visible a d) ++ [r]) (visible a d)) = Ok d2 /\
    forall s : Source.t, s ∈ rows d2 <-> s = r \/ s ∈ rows d.
Proof.
  intros Hr Hf. set (after := rows (visible a d) ++ [r]).
  assert (Hne : after <> keep (shown a) (rows d)).
  { unfold after. rewrite (seen_rows (R := Source.t)). intros He. apply (f_equal length) in He. rewrite length_app in He. cbn in He. lia. }
  assert (Hs : settle a (rows d) after = Ok (keep (fun r => negb (shown a r)) (rows d) ++ after)).
  { unfold settle. rewrite bool_decide_eq_false_2 by done. set (written := keep _ after).
    assert (Hw : forall x, x ∈ written -> x = r).
    { intros x Hx. unfold written in Hx. apply elem_of_keep in Hx as [Hx Hn]. unfold after in Hx. rewrite (seen_rows (R := Source.t)) in Hx.
      apply negb_true_iff, bool_decide_eq_false in Hn. apply elem_of_app in Hx as [Hx|Hx%list_elem_of_singleton]; done. }
    assert (Hacc : existsb (fun r => negb (accepted a r)) written = false).
    { apply not_true_iff_false. intros (x & Hx%list_elem_of_In%Hw & Hn)%existsb_exists. subst x. by rewrite Hr in Hn. }
    rewrite Hacc. cbn [raise_if mbind res_bind].
    assert (Hc : existsb (fun h => existsb (fun r => if clash h r then true else false) written) (keep (fun r => negb (shown a r)) (rows d)) = false).
    { apply not_true_iff_false. intros (h & Hh%list_elem_of_In & (x & Hx%list_elem_of_In%Hw & Hcl)%existsb_exists)%existsb_exists. subst x.
      apply elem_of_keep in Hh as [Hh _]. specialize (Hf h Hh). cbn [clash source_table] in Hcl. unfold Source.clash, same in Hcl.
      rewrite (bool_decide_eq_false_2 (Source.id h = Source.id r)) in Hcl by done. rewrite !andb_false_r in Hcl. discriminate. }
    by rewrite Hc. }
  eexists. split.
  - unfold settle_db, set_rows, source_table, visible. cbn [t_account t_user t_account_member t_space t_space_member t_hosted_adult_attestation t_external_identity t_actor t_browser_session t_session_revocation t_external_client_grant t_operator_bootstrap t_oidc_login_challenge t_oidc_token_replay t_service_auth_nonce t_source t_source_revision t_source_blob t_authored_document t_document_revision t_parse_run t_document_element t_provenance_record t_truth_classification t_conflict_set t_conflict_member t_proposal t_conversation t_conversation_turn t_audit_event t_current_source_revision t_current_document_revision t_outbox_event t_idempotency_record t_durable_job t_job_attempt t_projection_state t_upload_intent t_current_active_parse_run t_memory_item t_memory_revision t_current_memory_revision t_projection t_context_receipt t_context_receipt_item t_course t_curriculum_node t_curriculum_edge t_assessment_item t_assessment_revision t_current_assessment_revision t_learner_event t_review_item t_learner_projection t_notion_connection t_notion_page_binding t_deletion_tombstone t_export_job t_semantic_projection t_assessment_attempt t_deletion_workflow].
    rewrite !settle_same.
    match goal with |- context [@settle ?R ?T ?P ?D a ?x ?y] =>
      replace (@settle R T P D a x y) with (Ok (keep (fun r => negb (shown a r)) (rows d) ++ after)) by (symmetry; exact Hs) end.
    reflexivity.
  - intros s. change (s ∈ keep (fun r => negb (shown a r)) (rows d) ++ after <-> s = r \/ s ∈ rows d).
    unfold after. rewrite (seen_rows (R := Source.t)), !elem_of_app, list_elem_of_singleton, !elem_of_keep, negb_true_iff.
    destruct (shown a s); naive_solver.
Qed.

(** Creating a source.  Without an idempotency key the source is stored, a
    draft of the account, and answered with 201.  With one the request ends in
    an exception and stores nothing: the key is written before the tenant
    context is sealed, where the row policies accept no row. *)
Theorem create_source_keyless `{Env} pepper space title json rq p w ctx p2 :
  entry_check pepper false rq p w = (inr ctx, p2) ->
  let id := fresh_uuid (S (S (tick w))) in
  (forall s, s ∈ rows (db w) -> Source.id s <> id) ->
  match idempotency_key_from_request (wr_headers rq) with
  | Some _ => exists e n, create_source pepper space title json rq p w = served (Raise e) p2 {| db := db w; tick := n |}
  | None => exists w2 t,
      create_source pepper space title json rq p w =
        served (Ok (answer 201 ctx [("sourceId", JStr (str_uuid id)); ("spaceId", JStr (str_uuid space))])) p2 w2 /\
      forall s, s ∈ rows (db w2) <-> s = new_source (account_id ctx) id space title t \/ s ∈ rows (db w)
  end.
Proof.
  intros Had id Hf. unfold create_source, endpoint. rewrite Had.
  set (w1 := {| db := db w; tick := S (S (tick w)) |}).
  destruct (idempotency_key_from_request (wr_headers rq)) as [key|] eqn:Ek.
  - destruct (keyed_raises ctx rq "POST /api/v1/sources" json 201 (Some (not_found_for ctx)) None (as_context ctx (Sources.create_source ctx space title))
      (fun c => [("sourceId", JStr (str_uuid (sc_source_id c))); ("spaceId", JStr (str_uuid (sc_space_id c)))])
      (fun _ => not_found_for ctx) (fun _ => true) key p2 w1 Ek) as (e & He). exists e, (tick w1). exact He.
  - rewrite unkeyed by done. set (t := clock (S (tick w1))). set (a := access ctx (db w1)).
    set (r := new_source (account_id ctx) id space title t).
    assert (Hr : accepted a r = true).
    { change (insiders a (account_id ctx) = true). unfold insiders, purpose_in, a, access, same. cbn [ac_rls ac_purpose].
      rewrite (admitted_first_party _ _ _ _ _ _ _ Had). by rewrite bool_decide_eq_true_2. }
    destruct (settle_source a (db w) r Hr Hf) as (d2 & Hd2 & Hrows).
    assert (Hc : Sources.create_source ctx space title {| db := visible a (db w1); tick := tick w1 |} =
      Ok ({| sc_source_id := id; sc_space_id := space |}, {| db := set_rows (rows (visible a (db w)) ++ [r]) (visible a (db w)); tick := S (S (tick w1)) |})).
    { unfold Sources.create_source. erewrite M_bind_step by reflexivity. erewrite M_bind_step by reflexivity. cbn [db tick].
      apply M_bind_Ok. eexists tt, _. split; [|reflexivity]. apply add_Ok. split; [|reflexivity]. cbn [db]. intros s Hs.
      rewrite (seen_rows (R := Source.t)) in Hs. apply elem_of_keep in Hs as [Hs _]. specialize (Hf s Hs).
      cbn [clash source_table]. unfold Source.clash, same. cbn. rewrite (bool_decide_eq_false_2 (Source.id s = id)) by done. by rewrite !andb_false_r. }
    unfold as_context, under_policy. fold a. rewrite Hc. cbn [db tick]. change (db w1) with (db w). rewrite Hd2. cbn [mbind res_bind sc_source_id sc_space_id].
    exists {| db := d2; tick := S (S (tick w1)) |}, t. split; [reflexivity|]. exact Hrows.
Qed.

(** ** Witness *)

Definition sample_session : BrowserSession.t :=
  {| BrowserSession.id := 7; BrowserSession.account_id := 1; BrowserSession.user_id := 3; BrowserSession.actor_id := 2;
     BrowserSession.secret_hash := hmac_hex (utf8 sample_pepper) (utf8 "s3cret");
     BrowserSession.csrf_token_hash := hmac_hex (utf8 sample_pepper) (utf8 "c5rf");
     BrowserSession.expires_at := 2000; BrowserSession.idle_expires_at := 2000; BrowserSession.last_auth_at := 0;
     BrowserSession.rotated_at := None; BrowserSession.revoked_at := None; BrowserSession.created_at := 0 |}.

Definition session_world : World := {| db := set_rows [sample_session] empty_db; tick := 0 |}.

(** A signed-in browser posts, with its CSRF token and under a key if any. *)
Definition browser_post (key : option string) : WebRequest :=
  {| wr_method := "POST"; wr_path := "/api/v1/sources"; wr_cookie := Some sample_cookie;
     wr_headers := fun h => if String.eqb h "X-CSRF-Token" then Some "c5rf"
                            else if String.eqb h "Idempotency-Key" then key else None;
     wr_now := of_int 0; wr_later := of_int 0 |}.

Definition calm : Process := {| pr_breaker := GLOBAL_OVERLOAD_BREAKER; pr_limiter := two_a_minute |}.

Definition who (a : (Response + RequestContext) * Process) : option uuid :=
  match a.1 with inr ctx => Some (account_id ctx) | inl _ => None end.

Lemma browser_admitted key : exists ctx p2, @entry_check test_env sample_pepper false (browser_post key) calm session_world = (inr ctx, p2).
Proof.
  assert (Hw : who (@entry_check test_env sample_pepper false (browser_post key) calm session_world) = Some 1) by (vm_compute; reflexivity).
  destruct (@entry_check test_env sample_pepper false (browser_post key) calm session_world) as [[r|ctx] p2]; [discriminate Hw|eauto].
Qed.

Notation post key := (@create_source test_env sample_pepper 5 "notes" "{}" (browser_post key) calm session_world).

Lemma create_source_keyless_witness :
  (exists r p2 w2, post None = served (Ok r) p2 w2 /\ rs_status r = 201) /\
  (exists e p2 n, post (Some "k") = served (Raise e) p2 {| db := db session_world; tick := n |}).
Proof.
  assert (Hf : forall s : Source.t, s ∈ rows (db session_world) -> Source.id s <> @fresh_uuid test_env 2).
  { intros s Hs. by apply elem_of_nil in Hs. }
  split.
  - destruct (browser_admitted None) as (ctx & p2 & Had).
    destruct (@create_source_keyless test_env sample_pepper 5 "notes" "{}" (browser_post None) calm session_world ctx p2 Had Hf) as (w2 & t & He & _).
    eexists _, p2, w2. split; [exact He|reflexivity].
  - destruct (browser_admitted (Some "k")) as (ctx & p2 & Had).
    destruct (@create_source_keyless test_env sample_pepper 5 "notes" "{}" (browser_post (Some "k")) calm session_world ctx p2 Had Hf) as (e & n & He).
    exists e, p2, n. exact He.
Defined.
