(* ===== verification/DocumentRoutes.v ===== *)
(** * Document, memory, conversation and context routes

    The handlers of documents/routes.py, memory/routes.py,
    conversations/routes.py and context/routes.py (services/core).  A body has
    passed the validation of its model (FastAPI).  Creating happens in the
    tenant scope of the service; reading, saving, resolving, appending and
    deleting begin with a query before it, and compiling a context reads
    before it and stores its receipt in it. *)

From Stdlib Require Import ZArith Lia.
From stdpp Require Import base gmap list strings.
From S2P Require Import Prelude PyStr Json Uuid Enums Float64 PyTime Retrieval ContextCompiler Ledger Store RequestContext Deletion AuthSnapshot ServiceAuth TenantContext ExternalAccess RowPolicies Isolation Errors Policy McpRoutes Idempotency WebRoutes SourceRoutes Memory Document Documents ConversationCrypto Conversations Lanes ContextService.
Open Scope Z_scope.

(** ** Documents *)

Section documents.
Context `{Env} (pepper : string) (bracketed_host : string -> bool) (model_validate : dict -> res dict).

(** [validate_or_raise] in a handler: a [ValueError] is answered, anything else
    leaves. *)
Definition invalid_body (ctx : RequestContext) (document : dict) : option (res Response) :=
  match validate_or_raise bracketed_host model_validate document with
  | Ok _ => None
  | Raise (ValueError _) => Some (Ok (problem 422 ErrorCode.VALIDATION_ERROR "Document body is invalid." (Some (correlation_id ctx))))
  | Raise e => Some (Raise e)
  end.

Definition create_document (space_id : uuid) (title : string) (document : option dict) (rq : WebRequest) : Handler Response :=
  endpoint pepper false plain rq (fun ctx p w =>
    match key_bind document (invalid_body ctx) with
    | Some r => served r p w
    | None =>
        respond (as_context ctx (Documents.create_document bracketed_host model_validate ctx space_id title document))
          (fun c => answer 201 ctx [("documentId", JStr (str_uuid (dc_document_id c))); ("revisionId", JStr (str_uuid (dc_revision_id c)));
                                    ("spaceId", JStr (str_uuid (dc_space_id c)))]) (catch_all ctx) p w
    end).

(** The answer to a stale base revision is a problem document of its own. *)
Definition refuse_revision (ctx : RequestContext) (e : exn) : Response :=
  match e with
  | Refused name current =>
      if String.eqb name "stale_base_revision"
      then {| rs_status := 409;
              rs_body := [("type", JStr "about:memdot/problems/conflict"); ("title", JStr "Conflict"); ("status", JInt 409);
                          ("code", JStr (value ErrorCode.CONFLICT)); ("detail", JStr "Base revision is stale.");
                          ("correlationId", JStr (str_uuid (correlation_id ctx)));
                          ("currentRevisionId", if String.eqb current "None" then JNull else JStr current)] |}
      else not_found_for ctx
  | _ => not_found_for ctx
  end.

Definition save_revision (document_id : uuid) (base_revision_id : option uuid) (document : dict) (body_json : string)
    (rq : WebRequest) : Handler Response :=
  endpoint pepper false plain rq (fun ctx =>
    keyed ctx rq ("POST /api/v1/documents/" +:+ str_uuid document_id +:+ "/revisions") body_json 200 None (invalid_body ctx document)
      (unsealed (Documents.save_revision bracketed_host model_validate ctx document_id base_revision_id document None))
      (fun s => [("documentId", JStr (str_uuid (rs_document_id s))); ("revisionId", JStr (str_uuid (rs_revision_id s)));
                 ("contentSha256", JStr (rs_content_sha256 s))])
      (refuse_revision ctx) (fun _ => false)).

Definition one_revision (ctx : RequestContext) (o : option DocumentRevision.t) : Response :=
  match o with Some r => answer 200 ctx (revision_payload r) | None => not_found_for ctx end.

Definition get_document (document_id : uuid) (rq : WebRequest) : Handler Response :=
  endpoint pepper false plain rq (fun ctx =>
    respond (unsealed (get_current_revision ctx document_id)) (one_revision ctx) catch_none).

Definition list_revisions (document_id : uuid) (rq : WebRequest) : Handler Response :=
  endpoint pepper false plain rq (fun ctx =>
    respond (unsealed (Documents.list_revisions ctx document_id))
      (fun l => match l with
                | [] => not_found_for ctx
                | _ => answer 200 ctx [("items", JList (map (fun r => JObj (revision_payload r)) l))]
                end) catch_none).

Definition get_revision (document_id revision_id : uuid) (rq : WebRequest) : Handler Response :=
  endpoint pepper false plain rq (fun ctx =>
    respond (unsealed (Documents.get_revision ctx document_id revision_id)) (one_revision ctx) catch_none).
End documents.

(** ** Memory *)

Section memory.
Context `{Env} (pepper : string).

Definition create_memory_item (space_id : uuid) (title assertion_text : string) (rq : WebRequest) : Handler Response :=
  endpoint pepper false plain rq (fun ctx =>
    respond (as_context ctx (Memory.create_memory_item ctx space_id title assertion_text))
      (fun c => answer 201 ctx [("memoryItemId", JStr (str_uuid (mi_memory_item_id c))); ("spaceId", JStr (str_uuid (mi_space_id c)))])
      (catch_all ctx)).

Definition proposal_answer (status : Z) (ctx : RequestContext) (r : ProposalResult) : Response :=
  answer status ctx [("proposalId", JStr (str_uuid (pr_proposal_id r))); ("status", JStr (pr_status r))].

Definition create_proposal (space_id : uuid) (target_type : string) (target_id : uuid) (patch_json : dict)
    (base_revision_id : option uuid) (rq : WebRequest) : Handler Response :=
  endpoint pepper false plain rq (fun ctx =>
    respond (as_context ctx (Memory.create_proposal ctx space_id target_type target_id patch_json base_revision_id))
      (proposal_answer 201 ctx) (catch_all ctx)).

Definition resolve (proposal_id : uuid) (approve : bool) (rq : WebRequest) : Handler Response :=
  endpoint pepper false plain rq (fun ctx =>
    respond (unsealed (resolve_proposal ctx proposal_id approve)) (proposal_answer 200 ctx) (catch_all ctx)).

Definition approve_proposal (proposal_id : uuid) : WebRequest -> Handler Response := resolve proposal_id true.
Definition reject_proposal (proposal_id : uuid) : WebRequest -> Handler Response := resolve proposal_id false.

Definition memory_body (v : MemoryItemView) : dict :=
  [("memoryItemId", JStr (str_uuid (MemoryItem.id (mv_item v)))); ("spaceId", JStr (str_uuid (MemoryItem.space_id (mv_item v))));
   ("title", JStr (MemoryItem.title (mv_item v)));
   ("currentRevision", opt_json (fun r => JObj [("revisionId", JStr (str_uuid (MemoryRevision.id r)));
      ("assertionText", JStr (MemoryRevision.assertion_text r)); ("truthClass", JStr (MemoryRevision.truth_class r));
      ("status", JStr (MemoryRevision.status r)); ("contentSha256", JStr (MemoryRevision.content_sha256 r))]) (mv_current v))].

Definition get_memory_item (memory_item_id : uuid) (rq : WebRequest) : Handler Response :=
  endpoint pepper false plain rq (fun ctx =>
    respond (unsealed (Memory.get_memory_item ctx memory_item_id))
      (fun o => match o with Some v => answer 200 ctx (memory_body v) | None => not_found_for ctx end) catch_none).
End memory.

(** ** Conversations *)

Section conversations.
Context `{Env} `{Cryptography} (pepper : string).

Definition conversation_body (v : ConversationView) : dict :=
  [("conversationId", JStr (str_uuid (cv_conversation_id v))); ("spaceId", JStr (str_uuid (cv_space_id v)));
   ("sourceClient", JStr (cv_source_client v)); ("completeness", JStr (cv_completeness v));
   ("captureOrigin", JStr (value (cv_capture_origin v)))].

Definition turn_body (t : TurnView) : dict :=
  [("turnId", JStr (str_uuid (tv_turn_id t))); ("role", JStr (tv_role t)); ("turnIndex", JInt (tv_turn_index t));
   ("content", opt_json JStr (tv_content t)); ("clientTurnId", opt_json JStr (tv_client_turn_id t));
   ("occurredAt", JStr (isoformat (tv_occurred_at t))); ("parentTurnId", j_opt_uuid (tv_parent_turn_id t));
   ("contextReceiptId", j_opt_uuid (tv_context_receipt_id t))].

Definition append_body (r : AppendResult) : dict :=
  [("turnId", JStr (str_uuid (ar_turn_id r))); ("turnIndex", JInt (ar_turn_index r)); ("role", JStr (ar_role r));
   ("content", opt_json JStr (ar_content r)); ("clientTurnId", opt_json JStr (ar_client_turn_id r));
   ("idempotent", JBool (ar_idempotent r)); ("autoNative", JBool (ar_auto_native r))].

Definition create_conversation (space_id : uuid) (source_client completeness : string) (rq : WebRequest) : Handler Response :=
  endpoint pepper false plain rq (fun ctx =>
    respond (as_context ctx (Conversations.create_conversation ctx space_id source_client completeness))
      (fun v => answer 201 ctx (conversation_body v)) (catch_all ctx)).

Definition list_conversations (space_id : option uuid) (rq : WebRequest) : Handler Response :=
  endpoint pepper false plain rq (fun ctx =>
    respond (unsealed (Conversations.list_conversations ctx space_id))
      (fun l => answer 200 ctx [("items", JList (map (fun vt => JObj (conversation_body vt.1 ++ [("createdAt", JStr (isoformat vt.2))])) l))])
      catch_none).

Definition get_conversation (conversation_id : uuid) (rq : WebRequest) : Handler Response :=
  endpoint pepper false plain rq (fun ctx =>
    respond (unsealed (Conversations.get_conversation ctx conversation_id))
      (fun o => match o with
                | Some (v, turns) => answer 200 ctx (conversation_body v ++ [("turns", JList (map (fun t => JObj (turn_body t)) turns))])
                | None => not_found_for ctx
                end) catch_none).

Definition append_turn (conversation_id : uuid) (role : string) (content client_turn_id : option string)
    (parent_turn_id context_receipt_id : option uuid) (auto_native : bool) (rq : WebRequest) : Handler Response :=
  endpoint pepper false plain rq (fun ctx =>
    respond (unsealed (Conversations.append_turn ctx conversation_id role content client_turn_id parent_turn_id context_receipt_id
                         None auto_native))
      (fun o => match o with Some r => answer 201 ctx (append_body r) | None => not_found_for ctx end) catch_none).

Definition delete_conversation (conversation_id : uuid) (rq : WebRequest) : Handler Response :=
  endpoint pepper false plain rq (fun ctx =>
    respond (unsealed (Conversations.delete_conversation ctx conversation_id))
      (fun deleted : bool => if deleted then answer 200 ctx [("deleted", JBool true)] else not_found_for ctx) catch_none).
End conversations.

(** ** Context *)

Section context.
Context `{Env} (pepper : string).

(** [compile_context_for_request] of a request whose context is sealed by the
    service: what it reads is read before. *)
Definition compile_first_party (ctx : RequestContext) (query : string) (purpose : option string) (max_tokens max_items : Z)
    : M CompiledContext :=
  receipt ← unsealed (context_receipt ctx query purpose max_tokens max_items);
  receipt_id ← as_context ctx (store_receipt (account_id ctx) receipt);
  mret {| cc_receipt_id := receipt_id; cc_query_hash := r_query_hash receipt; cc_context_hash := r_context_hash receipt;
          cc_partial := partial receipt; cc_policy_version := policy_version receipt; cc_evidence := r_items receipt |}.

Definition compile_context (query : string) (purpose : option string) (max_tokens max_items : Z) (rq : WebRequest) : Handler Response :=
  endpoint pepper false plain rq (fun ctx =>
    respond (compile_first_party ctx query purpose max_tokens max_items) (fun c => answer 200 ctx (context_body c)) (catch_all ctx)).
End context.

(** ** What a browser reads *)

Section unseen.
Context `{Env} `{Cryptography} (ctx : RequestContext).

Lemma pointer_unseen id w : get_current_revision ctx id (unseen w) = Ok (None, unseen w).
Proof. unfold get_current_revision. erewrite M_bind_step by by apply select_opt_none, unseen_rows. done. Qed.

Lemma revisions_unseen id w : Documents.list_revisions ctx id (unseen w) = Ok ([], unseen w).
Proof. unfold Documents.list_revisions. erewrite M_bind_step by by apply select_none, unseen_rows. done. Qed.

Lemma revision_unseen id rev w : Documents.get_revision ctx id rev (unseen w) = Ok (None, unseen w).
Proof. apply select_opt_none, unseen_rows. Qed.

Lemma item_unseen id w : Memory.get_memory_item ctx id (unseen w) = Ok (None, unseen w).
Proof. unfold Memory.get_memory_item. erewrite M_bind_step by by apply select_opt_none, unseen_rows. done. Qed.

Lemma proposal_unseen id approve w : resolve_proposal ctx id approve (unseen w) = Raise NoResultFound.
Proof. apply M_bind_fail, select_one_none, unseen_rows. Qed.

Lemma tombstone_unseen account ty id w : is_tombstoned account ty id (unseen w) = Ok (false, unseen w).
Proof. unfold is_tombstoned. erewrite M_bind_step by by apply select_opt_none, unseen_rows. done. Qed.

Lemma conversations_unseen space w : Conversations.list_conversations ctx space (unseen w) = Ok ([], unseen w).
Proof. unfold Conversations.list_conversations. erewrite M_bind_step by by apply select_none, unseen_rows. done. Qed.

Lemma conversation_unseen id w : Conversations.get_conversation ctx id (unseen w) = Ok (None, unseen w).
Proof.
  unfold Conversations.get_conversation. erewrite M_bind_step by apply tombstone_unseen. cbv beta iota.
  erewrite M_bind_step by by apply select_opt_none, unseen_rows. done.
Qed.

Lemma append_unseen id role content key parent receipt at_ auto w :
  Conversations.append_turn ctx id role content key parent receipt at_ auto (unseen w) = Ok (None, unseen w).
Proof.
  unfold Conversations.append_turn. erewrite M_bind_step by apply tombstone_unseen. cbv beta iota.
  erewrite M_bind_step by by apply select_opt_none, unseen_rows. done.
Qed.

Lemma delete_unseen id w : Conversations.delete_conversation ctx id (unseen w) = Ok (false, unseen w).
Proof. unfold Conversations.delete_conversation. erewrite M_bind_step by by apply select_opt_none, unseen_rows. done. Qed.
End unseen.

(** A service that answers without a row has left the ledger alone. *)
Lemma respond_unseen {A B} (m : M A) reply refuse (P : B -> Prop) x :
  (forall w, m (unseen w) = Ok (x, unseen w)) -> P (reply x) -> refuses P (respond (unsealed m) reply refuse).
Proof. intros Hm Hp. apply respond_answers. intros w. exists x, (tick w). split; [|done]. apply unsealed_read. apply Hm. Qed.

(** C33: a browser reads nothing back.  Documents, revisions, memories and
    conversations are not found, no proposal is resolved, no turn is appended,
    no conversation is deleted, and the list of conversations is empty,
    whatever the ledger holds: the services query before a tenant scope, where
    the row policies show nothing. *)
Theorem first_party_reads_nothing `{Env} `{Cryptography} pepper id rev approve space role content key parent receipt auto rq :
  refuses refusal (get_document pepper id rq) /\ refuses refusal (list_revisions pepper id rq) /\
  refuses refusal (get_revision pepper id rev rq) /\
  refuses refusal (get_memory_item pepper id rq) /\ refuses refusal (resolve pepper id approve rq) /\
  refuses refusal (get_conversation pepper id rq) /\
  refuses refusal (append_turn pepper id role content key parent receipt auto rq) /\
  refuses refusal (delete_conversation pepper id rq) /\
  refuses (fun r => refusal r \/ exists ctx, r = answer 200 ctx [("items", JList [])]) (list_conversations pepper space rq).
Proof.
  repeat match goal with |- _ /\ _ => split end; apply endpoint_refuses; try done; try (by left); intros ctx.
  - by eapply respond_unseen; [apply pointer_unseen|].
  - by eapply respond_unseen; [apply revisions_unseen|].
  - by eapply respond_unseen; [apply revision_unseen|].
  - by eapply respond_unseen; [apply item_unseen|].
  - apply respond_raises. intros w. rewrite (unsealed_raise _ _ _ (proposal_unseen ctx id approve w)). by eexists _, _.
  - by eapply respond_unseen; [apply conversation_unseen|].
  - by eapply respond_unseen; [apply append_unseen|].
  - by eapply respond_unseen; [apply delete_unseen|].
  - eapply respond_unseen; [apply conversations_unseen|]. right. by exists ctx.
Qed.

Lemma receipt_unseen `{Env} ctx query purpose mt mi w r w2 :
  context_receipt ctx query purpose mt mi (unseen w) = Ok (r, w2) -> r_items r = [] /\ db w2 = db (unseen w).
Proof.
  intros Hm. unfold context_receipt in Hm. step Hm as Hv. unfold _space_visibility_map in Hv.
  step Hv as Hs. rewrite select_none in Hs by apply unseen_rows. cleanM.
  step Hm as Hl. match type of Hl with _ = Ok (?p, _) => destruct p as [raw corpus] end. unfold _local_candidates in Hl.
  step Hl as Hs. rewrite select_none in Hs by apply unseen_rows. cleanM.
  step Hl as Hs. rewrite select_none in Hs by apply unseen_rows. cleanM.
  step Hl as Hs. rewrite select_none in Hs by apply unseen_rows. cleanM.
  step Hm as Hf. cleanM. assert (Hn : matching query (corpus_of []) [] = []).
  { unfold matching. by repeat case_match. }
  match goal with Hf : fuse_candidates _ _ _ = Ok ?l |- _ => rewrite Hn in Hf; assert (l = []) as -> by by injection Hf end.
  draw Hm. cleanM. split; [|done].
  assert (He : forall p, exclude_private_spaces (A := FusedCandidate) [] a p = []) by (intros p; unfold exclude_private_spaces; by case_match).
  by rewrite He.
Qed.

(** The context a browser compiles holds no evidence, whatever the ledger
    holds: it is read before the tenant scope that stores its receipt. *)
Theorem first_party_context_empty `{Env} pepper query purpose mt mi rq p w r p2 w2 :
  compile_context pepper query purpose mt mi rq p w = served (Ok r) p2 w2 -> rs_status r = 200 ->
  exists ctx c, r = answer 200 ctx (context_body c) /\ cc_evidence c = [].
Proof.
  intros Hs Hr. unfold compile_context, endpoint in Hs. destruct (entry_check _ _ _ _ _) as [[r0|ctx] p1] eqn:Ead.
  - injection Hs as <- _ _. unfold entry_check, get_request_context in Ead. apply web_require_refused in Ead. unfold refusal, plain in *. lia.
  - unfold respond in Hs. destruct (compile_first_party _ _ _ _ _ _) as [[c w1]|e] eqn:Ec; [|by injection Hs as <- _ _].
    injection Hs as <- _ _. exists ctx, c. split; [done|]. unfold compile_first_party in Ec. step Ec as Hc.
    unfold unsealed, under_policy in Hc. fold (unseen {| db := db w; tick := S (S (tick w)) |}) in Hc.
    destruct (context_receipt _ _ _ _ _ _) as [[rec w3]|e] eqn:Er; [|done]. apply receipt_unseen in Er as [Hi _].
    apply bind_Ok in Hc as (d & _ & Hc). injection Hc as <- <-. step Ec as Hst. cleanM. exact Hi.
Qed.

(** ** Witness *)

(** A browser whose account has memories. *)
Definition remembered_world : World := {| db := set_rows [sample_session] (db ContextService.memory_world); tick := 0 |}.

Notation compiled := (@compile_context test_env sample_pepper "algebra" None 100 10 (browser_post None) calm remembered_world).

Definition answered {A} (s : Served A) : option A := match sv_result s with Ok r => Some r | Raise _ => None end.

Lemma first_party_context_empty_witness :
  exists r, sv_result compiled = Ok r /\ rs_status r = 200 /\ exists ctx c, r = answer 200 ctx (context_body c) /\ cc_evidence c = [].
Proof.
  assert (Hs : option_map rs_status (answered compiled) = Some 200) by (vm_compute; reflexivity).
  destruct compiled as [[r|e] p2 w2] eqn:E; [|discriminate Hs]. injection Hs as Hs. exists r. split; [reflexivity|]. split; [exact Hs|].
  exact (@first_party_context_empty test_env sample_pepper "algebra" None 100 10 (browser_post None) calm remembered_world r p2 w2 E Hs).
Defined.
