(* ===== verification/Export.v ===== *)
(** * Exports (services/core/src/memdot_core/export/service.py)

    A requested export is a pending job and an event for a worker. *)

From Stdlib Require Import ZArith Lia.
From stdpp Require Import list strings.
From S2P Require Import Prelude PyStr Json Uuid PyTime Ledger Store Outbox RequestContext Deletion Jobs Parsers Storage Ingestion Processor.
Open Scope Z_scope.

Section session.
Context `{Env}.

Definition new_export (id account : uuid) (space_id : option uuid) (t : Z) : ExportJob.t :=
  {| ExportJob.id := id; ExportJob.account_id := account; ExportJob.space_id := space_id; ExportJob.status := "pending";
     ExportJob.workflow_state := "accepted"; ExportJob.package_object_key := None; ExportJob.package_sha256 := None;
     ExportJob.manifest_json := Some [("schemaVersion", JInt 1); ("exportId", JStr (str_uuid id))];
     ExportJob.created_at := t; ExportJob.completed_at := None |}.

Definition create_export (ctx : RequestContext) (space_id : option uuid) : M dict :=
  export_id ← new_uuid;
  requested_at ← now;
  let outbox_payload := [("export_id", JStr (str_uuid export_id)); ("space_id", j_opt_uuid space_id);
                         ("requested_at", JStr (isoformat requested_at))] in
  t ← now;
  _ ← add (new_export export_id (account_id ctx) space_id t);
  event_id ← new_uuid;
  _ ← add (new_event event_id (account_id ctx) "export.requested" outbox_payload None t);
  mret [("schemaVersion", JInt 1); ("exportId", JStr (str_uuid export_id)); ("createdAt", JStr (isoformat requested_at));
        ("status", JStr "pending"); ("workflowState", JStr "accepted")].

(** A requested export stays pending: its request leaves one pending job and
    one event, and the worker hands such an event back unacknowledged and
    changes nothing, every time it is claimed. *)
Theorem exports_stay_pending {S : Type} `{ObjectStoragePort S} tenant_key seal_nonce decode docling ctx space w body w' :
  create_export ctx space w = Ok (body, w') ->
  exists job ev, rows (db w') = rows (db w) ++ [job] /\ rows (db w') = rows (db w) ++ [ev] /\
    ExportJob.account_id job = account_id ctx /\ ExportJob.status job = "pending" /\ ExportJob.package_object_key job = None /\
    dict_lookup "exportId" body = Some (JStr (str_uuid (ExportJob.id job))) /\
    forall (s : S) token w2, process_claimed_event tenant_key seal_nonce decode docling s (claimed_view (OutboxEvent.set_claim_token token ev)) w2 =
      Ok ((unacknowledged (claimed_view ev) None, s), w2).
Proof.
  intros Hm. unfold create_export in Hm. draw Hm. draw Hm. draw Hm. step Hm as Ha. draw Hm. step Hm as Hb. cleanM.
  apply add_Ok in Ha as [_ ->]. apply add_Ok in Hb as [_ ->]. do 2 eexists.
  split; [rows_simpl; reflexivity|]. split; [rows_simpl; reflexivity|]. split_and!; try done.
Qed.
End session.

Lemma exports_stay_pending_witness : exists body w', @create_export test_env test_ctx None empty_world = Ok (body, w') /\
  exists ev, rows (db w') = [ev] /\
    @process_claimed_event test_env AuthSnapshot.sample_key "00ff" _ MemoryObjectStorage latin1 docling_missing sample_storage
      (claimed_view (OutboxEvent.set_claim_token (Some 6) ev)) w' =
    Ok ((unacknowledged (claimed_view ev) None, sample_storage), w').
Proof.
  destruct (@create_export test_env test_ctx None empty_world) as [[body w']|e] eqn:E; [|discriminate E].
  exists body, w'. split; [reflexivity|].
  destruct (@exports_stay_pending test_env _ MemoryObjectStorage AuthSnapshot.sample_key "00ff" latin1 docling_missing test_ctx None empty_world body w' E)
    as (job & ev & _ & Hev & _ & _ & _ & _ & Hp).
  exists ev. split; [exact Hev|]. exact (Hp sample_storage (Some 6) w').
Defined.
