(* ===== verification/AccountRoutes.v ===== *)
(** * Learning, deletion and export routes

    The handlers of learning/routes.py, deletion/routes.py and export/routes.py
    (services/core).  A body has passed the validation of its model (FastAPI).
    Every learning service, creating a tombstone and requesting an export run in
    their tenant scope; the replay of tombstones runs in none. *)

From Stdlib Require Import ZArith Lia.
From stdpp Require Import base gmap list strings.
From S2P Require Import Prelude PyStr Json Uuid Enums Float64 PyTime Ledger Store RequestContext Deletion AuthSnapshot ServiceAuth TenantContext ExternalAccess RowPolicies Isolation Errors Policy McpRoutes Idempotency WebRoutes SourceRoutes EvidenceTwin LearningService Export.
Open Scope Z_scope.

(** ** Learning *)

Section learning.
Context `{Env} (pepper : string).

Definition create_course (space_id : uuid) (title : string) (rq : WebRequest) : Handler Response :=
  endpoint pepper false plain rq (fun ctx =>
    respond (as_context ctx (LearningService.create_course ctx space_id title))
      (fun c => answer 201 ctx [("courseId", JStr (str_uuid (cr_course_id c))); ("spaceId", JStr (str_uuid (cr_space_id c)))])
      (catch_all ctx)).

Definition add_node (course_id : uuid) (kind title confirmation : string) (rq : WebRequest) : Handler Response :=
  endpoint pepper false plain rq (fun ctx =>
    respond (as_context ctx (add_curriculum_node ctx course_id kind title confirmation))
      (fun id => answer 201 ctx [("nodeId", JStr (str_uuid id))]) (catch_all ctx)).

Definition refuse_edge (ctx : RequestContext) (e : exn) : Response :=
  match e with
  | ValueError m =>
      if String.eqb m "confirmed_prerequisite_cycle"
      then problem 409 ErrorCode.CONFLICT "Confirmed prerequisite edge would create a cycle." (Some (correlation_id ctx))
      else problem 422 ErrorCode.VALIDATION_ERROR "Invalid curriculum edge." (Some (correlation_id ctx))
  | _ => not_found_for ctx
  end.

Definition add_edge (course_id from_node_id to_node_id : uuid) (confirmation : string) (rq : WebRequest) : Handler Response :=
  endpoint pepper false plain rq (fun ctx =>
    respond (as_context ctx (add_prerequisite_edge ctx course_id from_node_id to_node_id confirmation))
      (fun id => answer 200 ctx [("edgeId", JStr (str_uuid id))]) (fun e => Some (refuse_edge ctx e))).

Definition create_assessment (course_id : uuid) (title item_type prompt : string) (sealed_answer : dict)
    (concept_node_id : option uuid) (sealed_rubric : option dict) (source_locators : option (list json)) (rq : WebRequest)
    : Handler Response :=
  endpoint pepper false plain rq (fun ctx =>
    respond (as_context ctx (LearningService.create_assessment ctx course_id title item_type prompt sealed_answer concept_node_id
                               sealed_rubric source_locators))
      (fun ids => answer 201 ctx [("assessmentItemId", JStr (str_uuid ids.1)); ("revisionId", JStr (str_uuid ids.2))]) (catch_all ctx)).

Definition get_attempt_view (assessment_item_id revision_id : uuid) (rq : WebRequest) : Handler Response :=
  endpoint pepper false plain rq (fun ctx =>
    respond (as_context ctx (get_assessment_for_attempt ctx assessment_item_id revision_id)) (answer 200 ctx) (catch_all ctx)).

Definition start_attempt (course_id assessment_item_id assessment_revision_id : uuid) (client_attempt_id : option string)
    (rq : WebRequest) : Handler Response :=
  endpoint pepper false plain rq (fun ctx =>
    respond (as_context ctx (start_assessment_attempt ctx course_id assessment_item_id assessment_revision_id client_attempt_id))
      (fun r => answer 201 ctx [("attemptId", JStr (str_uuid (at_attempt_id r))); ("status", JStr (at_status r));
                                ("idempotent", JBool (at_idempotent r))]) (catch_all ctx)).

Definition reveal_attempt (attempt_id : uuid) (hint answer_ : bool) (rq : WebRequest) : Handler Response :=
  endpoint pepper false plain rq (fun ctx =>
    respond (as_context ctx (record_attempt_reveal ctx attempt_id hint answer_))
      (fun o => match o with
                | Some r => answer 200 ctx [("attemptId", JStr (str_uuid (rv_attempt_id r))); ("hintRevealed", JBool (rv_hint r));
                                            ("answerRevealed", JBool (rv_answer r)); ("status", JStr (rv_status r))]
                | None => not_found_for ctx
                end) catch_none).

(** A repeated submission answers without what was not computed again. *)
Definition submit_body (r : SubmitResult) : dict :=
  [("attemptId", JStr (str_uuid (sb_attempt_id r)))] ++ present "eventId" (fun u => JStr (str_uuid u)) (sb_event_id r) ++
  present "correct" JBool (sb_correct r) ++ [("status", JStr (sb_status r))] ++
  present "eligibility" (fun e => JStr (value e)) (sb_eligibility r) ++ [("idempotent", JBool (sb_idempotent r))].

(** The text of a [ValueError] the service does not raise itself is the name the
    model gives it. *)
Definition refuse_submission (ctx : RequestContext) (e : exn) : Response :=
  match e with
  | ValueError m => problem 422 ErrorCode.VALIDATION_ERROR m (Some (correlation_id ctx))
  | _ => not_found_for ctx
  end.

Definition submit_attempt (course_id assessment_item_id assessment_revision_id : uuid) (response : dict)
    (confidence client_attempt_id : string) (hint_revealed answer_revealed : bool) (rq : WebRequest) : Handler Response :=
  endpoint pepper false plain rq (fun ctx =>
    respond (as_context ctx (submit_assessment_attempt ctx course_id assessment_item_id assessment_revision_id response
                               (Some confidence) (Some client_attempt_id) hint_revealed answer_revealed))
      (fun r => answer 201 ctx (submit_body r)) (fun e => Some (refuse_submission ctx e))).

(** Learner events are not appended by requests. *)
Definition append_event (rq : WebRequest) : Handler Response :=
  endpoint pepper false plain rq (fun ctx p w =>
    served (Ok (problem 410 ErrorCode.VALIDATION_ERROR "learner_event_append_removed_use_attempt_lifecycle" (Some (correlation_id ctx)))) p w).

Definition evidence_entry (ev : ConceptEvidence) : string * json :=
  (str_uuid (concept ev), JObj [("evidenceState", JStr (value (evidence_state ev))); ("recallState", JStr (value (recall_state ev)));
                                ("eligibleGrades", JInt (eligible_grades ev)); ("ineligibleHits", JInt (ineligible_hits ev))]).

Definition rebuild_evidence (course_id : uuid) (rq : WebRequest) : Handler Response :=
  endpoint pepper false plain rq (fun ctx =>
    respond (as_context ctx (rebuild_evidence_projections ctx course_id))
      (fun l => answer 200 ctx [("projections", JObj (map evidence_entry l))]) (catch_all ctx)).
End learning.

(** ** Deletion and export *)

Section account.
Context `{Env} (pepper : string).

Definition create_tombstone (entity_type : string) (entity_id : uuid) (space_id : option uuid) (restore_key : option string)
    (rq : WebRequest) : Handler Response :=
  endpoint pepper true plain rq (fun ctx =>
    respond (as_context ctx (Deletion.create_tombstone ctx entity_type entity_id space_id restore_key))
      (fun id => answer 201 ctx [("tombstoneId", JStr (str_uuid id)); ("entityType", JStr entity_type); ("entityId", JStr (str_uuid entity_id))])
      (catch_all ctx)).

Definition restore_replay (rq : WebRequest) : Handler Response :=
  endpoint pepper true plain rq (fun ctx =>
    respond (unsealed (replay_tombstones_after_restore (account_id ctx) None)) (fun n => answer 200 ctx [("applied", JInt n)]) catch_none).

Definition export_account (space_id : option uuid) (rq : WebRequest) : Handler Response :=
  endpoint pepper true plain rq (fun ctx =>
    respond (as_context ctx (create_export ctx space_id)) (fun manifest => answer 202 ctx manifest) (catch_all ctx)).

(** ** Recent authentication *)

(** Who asks has authenticated in the last quarter of an hour. *)
Definition recently_authenticated (rq : WebRequest) (p : Process) (w : World) : Prop :=
  exists ctx p2 t, entry_check pepper true rq p w = (inr ctx, p2) /\ last_auth_at ctx = Some t /\
    clock (S (tick w)) - t <= 15 * us_per_minute.

Lemma admit_recent rq p w ctx p2 : entry_check pepper true rq p w = (inr ctx, p2) -> recently_authenticated rq p w.
Proof.
  intros Had. exists ctx, p2. unfold entry_check, get_request_context, _require_ctx in Had |- *.
  destruct (load_session_context _ _ _ _ _ _ _) as [c|]; [|done].
  destruct (allow _ _ _ _) as [[] l]; [|done]. cbn [negb andb tick] in Had |- *.
  destruct (require_recent_auth c 15 (clock (S (tick w)))) eqn:Er; [|done]. cbn [negb] in Had |- *.
  injection Had as <- <-. unfold require_recent_auth in Er. destruct (last_auth_at c) as [t|]; [|done].
  exists t. split; [done|]. split; [done|by apply Z.leb_le].
Qed.

Lemma endpoint_recent rq body p w r : sv_result (endpoint pepper true plain rq body p w) = Ok r -> rs_status r < 400 ->
  recently_authenticated rq p w.
Proof.
  unfold endpoint. destruct (entry_check pepper true rq p w) as [[r0|ctx] p2] eqn:E; [|intros; by eapply admit_recent].
  cbn. intros [= <-] Hr. unfold entry_check, get_request_context in E. apply web_require_refused in E. unfold refusal, plain in *. lia.
Qed.
End account.

(** C34: nothing is deleted, replayed or exported for a session whose last
    authentication is older than a quarter of an hour. *)
Theorem recent_auth_required `{Env} pepper ty id space key rq p w s r :
  s = create_tombstone pepper ty id space key rq p w \/ s = restore_replay pepper rq p w \/ s = export_account pepper space rq p w ->
  sv_result s = Ok r -> rs_status r < 400 -> recently_authenticated pepper rq p w.
Proof. intros [->|[->| ->]]; apply endpoint_recent. Qed.

(** Replaying the tombstones after a restore applies none: the route reads
    them outside a tenant scope, where the row policies show nothing. *)
Theorem restore_replay_applies_nothing `{Env} pepper rq :
  refuses (fun r => refusal r \/ exists ctx, r = answer 200 ctx [("applied", JInt 0)]) (restore_replay pepper rq).
Proof.
  apply endpoint_refuses; [by left|]. intros ctx. apply respond_answers. intros w. exists 0, (tick w). split; [|right; by exists ctx].
  apply unsealed_read. unfold replay_tombstones_after_restore, list_tombstones.
  erewrite M_bind_step by by apply select_none, unseen_rows. erewrite M_bind_step by by apply select_none, unseen_rows. done.
Qed.

(** ** Witness *)

Notation export_post := (@export_account test_env sample_pepper None (browser_post None) calm session_world).

Lemma recent_auth_required_witness : rs_status (default (safe_not_found None) (match sv_result export_post with Ok r => Some r | _ => None end)) = 202 /\
  @recently_authenticated test_env sample_pepper (browser_post None) calm session_world.
Proof.
  assert (Hs : match sv_result export_post with Ok r => rs_status r | Raise _ => 0 end = 202) by (vm_compute; reflexivity).
  destruct (sv_result export_post) as [r|e] eqn:E; [|discriminate Hs]. split; [exact Hs|].
  apply (@recent_auth_required test_env sample_pepper "source" 5 None None (browser_post None) calm session_world export_post r); [exact (or_intror (or_intror eq_refl))|exact E|].
  rewrite Hs. reflexivity.
Defined.
