(* ===== verification/Notion.v ===== *)
(** * The Notion connector (services/core/src/memdot_core/notion/)

    adapter.py: the provider in its two modes, pages that are part of the program
    (fixture) and a live mode that always refuses.  service.py: connections,
    page bindings and the synchronisation of a page into a source.  AES-GCM is
    the class [Cryptography]; [pepper] is CORE_SESSION_SIGNING_PEPPER.  Sleeping
    between pages is not modelled. *)

From Stdlib Require Import ZArith Lia.
From stdpp Require Import base gmap list relations strings.
From S2P Require Import Prelude PyStr Digest Json Uuid Enums PyTime Base64 Ledger Store RequestContext Deletion AuthSnapshot ServiceAuth TenantContext ExternalAccess RowPolicies Errors Policy McpRoutes Isolation WebRoutes ConversationCrypto.
Open Scope Z_scope.

(** ** The adapter *)

Record NotionPageRef := { np_id : string; np_title : string }.

Record NotionPageSnapshot := { ns_id : string; ns_title : string; ns_content_text : string; ns_content_sha256 : string }.

Definition FIXTURE_PAGES : list NotionPageRef :=
  [{| np_id := "fixture-page-1"; np_title := "Getting Started" |}; {| np_id := "fixture-page-2"; np_title := "Project Notes" |}].

Record NotionAdapter := {
  na_encrypted_token : option (list Z);
  na_token_nonce : option (list Z);
  na_mode : string;
  na_page_size : Z;
}.

Definition TOKEN_AAD : list Z := utf8 "memdot-notion-token-v1".

(** [l[start:end]]. *)
Definition slice {A} (lo hi : Z) (l : list A) : list A :=
  let n := Z.of_nat (length l) in
  let at_ i := Z.to_nat (if i <? 0 then Z.max 0 (i + n) else Z.min i n) in
  take (at_ hi - at_ lo) (drop (at_ lo) l).

Section adapter.
Context `{Cryptography} (pepper : string).

Definition encrypt_token (token : string) : M (list Z * list Z) :=
  _ ← guard (Z.of_nat (length (utf8 pepper)) <? 16) (RuntimeError "notion token encryption requires CORE_SESSION_SIGNING_PEPPER");
  nonce ← draw_nonce;
  mret (aesgcm_encrypt (sha256 (utf8 pepper)) nonce (utf8 token) TOKEN_AAD, nonce).

Definition decrypt_token (ciphertext nonce : list Z) : res string :=
  plaintext ← of_option (Refused "InvalidTag" "") (aesgcm_decrypt (sha256 (utf8 pepper)) nonce ciphertext TOKEN_AAD);
  of_option (ValueError "UnicodeDecodeError") (utf8_decode plaintext).

Definition _token (a : NotionAdapter) : res (option string) :=
  match na_encrypted_token a, na_token_nonce a with
  | Some ciphertext, Some nonce => t ← decrypt_token ciphertext nonce; mret (Some t)
  | _, _ => mret None
  end.

(** A live adapter refuses: without a token, and with one. *)
Definition refuse_live {A} (a : NotionAdapter) : res A :=
  t ← _token a;
  Raise (ValueError (match t with Some (String _ _) => "notion_live_http_not_configured" | _ => "notion_token_missing" end)).

Definition adapter_list_pages (a : NotionAdapter) (cursor : option string) : res (list NotionPageRef * option string) :=
  if String.eqb (na_mode a) "fixture" then
    start ← of_option (ValueError "invalid literal for int()") (py_int (or_text cursor (Some "0")));
    let end_ := start + na_page_size a in
    mret (slice start end_ FIXTURE_PAGES, if end_ <? Z.of_nat (length FIXTURE_PAGES) then Some (str_of_Z end_) else None)
  else refuse_live a.

Definition adapter_fetch_page (a : NotionAdapter) (notion_page_id : string) : res NotionPageSnapshot :=
  if String.eqb (na_mode a) "fixture" then
    let title := match first (fun p => String.eqb (np_id p) notion_page_id) FIXTURE_PAGES with
                 | Some p => np_title p | None => notion_page_id end in
    let content := "fixture content for " +:+ notion_page_id in
    mret {| ns_id := notion_page_id; ns_title := title; ns_content_text := content; ns_content_sha256 := sha256_str content |}
  else refuse_live a.

(** ** The service *)

Context `{Env}.

Definition _adapter_for_connection (c : NotionConnection.t) : NotionAdapter :=
  {| na_encrypted_token := NotionConnection.token_ciphertext c; na_token_nonce := NotionConnection.token_nonce c;
     na_mode := if bool_decide (dict_get "mode" (NotionConnection.oauth_stub c) = JStr "live") then "live" else "fixture";
     na_page_size := 1 |}.

Definition connect (ctx : RequestContext) (access_token : option string) (workspace_id mode : string) : M dict :=
  _ ← guard (negb (existsb (String.eqb mode) ["fixture"; "live"])) (ValueError "invalid_notion_mode");
  '(ciphertext, nonce) ← encrypt_token (or_text access_token (Some ("fixture-token:" +:+ workspace_id)));
  connection_id ← new_uuid;
  t ← now;
  _ ← add {| NotionConnection.id := connection_id; NotionConnection.account_id := account_id ctx;
             NotionConnection.workspace_id := Some workspace_id; NotionConnection.status := "connected";
             NotionConnection.oauth_stub := [("mode", JStr mode); ("connected_at", JStr (isoformat t)); ("adapter", JStr "notion_adapter_v1")];
             NotionConnection.token_ciphertext := Some ciphertext; NotionConnection.token_nonce := Some nonce;
             NotionConnection.pagination_cursor := None; NotionConnection.rate_limited_until := None;
             NotionConnection.created_at := t; NotionConnection.updated_at := t |};
  mret [("connectionId", JStr (str_uuid connection_id)); ("status", JStr "connected"); ("workspaceId", JStr workspace_id); ("mode", JStr mode)].

Definition connect_stub (ctx : RequestContext) : M dict := connect ctx None "fixture-workspace" "fixture".

Definition the_connection (account id : uuid) (c : NotionConnection.t) : bool :=
  same (NotionConnection.account_id c) account && same (NotionConnection.id c) id.

Definition the_binding (account id : uuid) (b : NotionPageBinding.t) : bool :=
  same (NotionPageBinding.account_id b) account && same (NotionPageBinding.id b) id.

Definition binding_of_page (account connection : uuid) (page : string) (b : NotionPageBinding.t) : bool :=
  same (NotionPageBinding.account_id b) account && same (NotionPageBinding.connection_id b) connection &&
  String.eqb (NotionPageBinding.notion_page_id b) page.

Definition list_pages (ctx : RequestContext) (connection_id : uuid) : M (list NotionPageRef) :=
  connection ← select_opt (the_connection (account_id ctx) connection_id);
  match connection with
  | None => mret []
  | Some c =>
      t ← now;
      if match NotionConnection.rate_limited_until c with Some until => t <? until | None => false end then mret []
      else
        '(pages, next_cursor) ← lift (adapter_list_pages (_adapter_for_connection c) (NotionConnection.pagination_cursor c));
        t ← now;
        _ ← update (NotionConnection.id c) (fun c =>
              NotionConnection.set_updated_at t (NotionConnection.set_pagination_cursor next_cursor c));
        mret pages
  end.

Definition binding_body (b : NotionPageBinding.t) : dict :=
  [("bindingId", JStr (str_uuid (NotionPageBinding.id b))); ("notionPageId", JStr (NotionPageBinding.notion_page_id b));
   ("title", JStr (NotionPageBinding.title b)); ("syncState", JStr (NotionPageBinding.sync_state b))].

Definition new_binding (id account space connection : uuid) (page title : string) (t : Z) : NotionPageBinding.t :=
  {| NotionPageBinding.id := id; NotionPageBinding.account_id := account; NotionPageBinding.space_id := space;
     NotionPageBinding.connection_id := connection; NotionPageBinding.source_id := None;
     NotionPageBinding.notion_page_id := page; NotionPageBinding.title := title;
     NotionPageBinding.direction := "inbound_only"; NotionPageBinding.sync_state := "idle";
     NotionPageBinding.conflict_state := None; NotionPageBinding.last_snapshot_sha256 := None;
     NotionPageBinding.created_at := t; NotionPageBinding.updated_at := t |}.

(** One page of [select_pages]; the bindings are added before the session
    flushes, so the lookup sees [base], the rows of before the call. *)
Definition select_page (ctx : RequestContext) (base : list NotionPageBinding.t) (c : NotionConnection.t) (space_id : uuid) (page : string)
    : M NotionPageBinding.t :=
  snapshot ← lift (adapter_fetch_page (_adapter_for_connection c) page);
  existing ← lift (scalar_one_or_none (keep (binding_of_page (account_id ctx) (NotionConnection.id c) page) base));
  match existing with
  | Some b => mret b
  | None =>
      binding_id ← new_uuid;
      t ← now;
      let b := new_binding binding_id (account_id ctx) space_id (NotionConnection.id c) page (ns_title snapshot) t in
      _ ← add b;
      mret b
  end.

Definition select_pages (ctx : RequestContext) (connection_id space_id : uuid) (notion_page_ids : list string) : M (list NotionPageBinding.t) :=
  connection ← select_opt (the_connection (account_id ctx) connection_id);
  match connection with
  | None => mret []
  | Some c => base ← select (fun _ => true); mapM (select_page ctx base c space_id) notion_page_ids
  end.

Definition pause (b : NotionPageBinding.t) : NotionPageBinding.t := NotionPageBinding.set_sync_state "paused" b.

Definition opt_text (o : option string) : json := match o with Some s => JStr s | None => JNull end.

Definition paused_body (id : uuid) (conflict message : string) : dict :=
  [("bindingId", JStr (str_uuid id)); ("syncState", JStr "paused"); ("conflictState", JStr conflict); ("message", JStr message)].

(** The digest of the page, or of the content a request brings. *)
Definition snapshot_of (a : NotionAdapter) (page : string) (fixture_content : option string) : res string :=
  match fixture_content with
  | Some content => mret (sha256_str content)
  | None => s ← adapter_fetch_page a page; mret (ns_content_sha256 s)
  end.

Definition new_page_source (id : uuid) (b : NotionPageBinding.t) (t : Z) : Source.t :=
  {| Source.id := id; Source.account_id := NotionPageBinding.account_id b; Source.space_id := NotionPageBinding.space_id b;
     Source.title := or_text (Some (NotionPageBinding.title b)) (Some (NotionPageBinding.notion_page_id b));
     Source.processing_status := "succeeded"; Source.created_at := t; Source.updated_at := t |}.

Definition new_page_revision (id source : uuid) (b : NotionPageBinding.t) (sha : string) (captured t : Z) : SourceRevision.t :=
  {| SourceRevision.id := id; SourceRevision.account_id := NotionPageBinding.account_id b;
     SourceRevision.space_id := NotionPageBinding.space_id b; SourceRevision.source_id := source;
     SourceRevision.snapshot_sha256 := sha; SourceRevision.captured_at := captured;
     SourceRevision.source_native_version := None; SourceRevision.mime_type := None; SourceRevision.language_hints := None;
     SourceRevision.byte_count := None; SourceRevision.page_count := None; SourceRevision.object_key := None;
     SourceRevision.created_at := t |}.

(** A snapshot that is new for the binding becomes a revision of its source. *)
Definition import_snapshot (b : NotionPageBinding.t) (sha : string) : M dict :=
  source_id ← match NotionPageBinding.source_id b with Some s => mret s | None => new_uuid end;
  let revision_id := deterministic_uuid5 source_id sha in
  t ← now;
  _ ← match NotionPageBinding.source_id b with None => add (new_page_source source_id b t) | Some _ => mret tt end;
  _ ← add (new_page_revision revision_id source_id b sha t t);
  _ ← update (NotionPageBinding.id b) (fun x =>
        NotionPageBinding.set_sync_state "idle" (NotionPageBinding.set_last_snapshot_sha256 (Some sha)
          (NotionPageBinding.set_source_id (Some source_id) x)));
  mret [("bindingId", JStr (str_uuid (NotionPageBinding.id b))); ("sourceId", JStr (str_uuid source_id));
        ("revisionId", JStr (str_uuid revision_id)); ("snapshotSha256", JStr sha); ("syncState", JStr "idle");
        ("conflictState", opt_text (NotionPageBinding.conflict_state b))].

Definition sync_binding_snapshot (ctx : RequestContext) (binding_id : uuid) (fixture_content : option string) : M (option dict) :=
  binding ← select_opt (the_binding (account_id ctx) binding_id);
  match binding with
  | None => mret None
  | Some b =>
      connection ← select_opt (the_connection (account_id ctx) (NotionPageBinding.connection_id b));
      match connection with
      | None => mret None
      | Some c =>
          if opt_eqb (NotionPageBinding.conflict_state b) (Some "unresolved") then
            _ ← update (NotionPageBinding.id b) pause;
            mret (Some (paused_body (NotionPageBinding.id b) "unresolved" "Sync paused until conflict resolved"))
          else
            sha ← lift (snapshot_of (_adapter_for_connection c) (NotionPageBinding.notion_page_id b) fixture_content);
            if match NotionPageBinding.last_snapshot_sha256 b with Some l => truthy l && negb (String.eqb l sha) | None => false end then
              _ ← update (NotionPageBinding.id b) (fun x => pause (NotionPageBinding.set_conflict_state (Some "unresolved") x));
              mret (Some (paused_body (NotionPageBinding.id b) "unresolved" "Concurrent change detected; sync paused"))
            else
              match NotionPageBinding.source_id b with
              | Some source =>
                  if opt_eqb (NotionPageBinding.last_snapshot_sha256 b) (Some sha) then
                    mret (Some [("bindingId", JStr (str_uuid (NotionPageBinding.id b))); ("sourceId", JStr (str_uuid source));
                                ("snapshotSha256", JStr sha); ("syncState", JStr (NotionPageBinding.sync_state b));
                                ("conflictState", opt_text (NotionPageBinding.conflict_state b)); ("idempotent", JBool true)])
                  else r ← import_snapshot b sha; mret (Some r)
              | None => r ← import_snapshot b sha; mret (Some r)
              end
      end
  end.

Definition resolve_conflict (ctx : RequestContext) (binding_id : uuid) (resolution : string) : M (option dict) :=
  _ ← guard (negb (existsb (String.eqb resolution) ["keep_notion"; "keep_memdot"; "reviewed_merge"])) (ValueError "invalid resolution");
  binding ← select_opt (the_binding (account_id ctx) binding_id);
  match binding with
  | None => mret None
  | Some b =>
      _ ← update (NotionPageBinding.id b) (fun x =>
            NotionPageBinding.set_sync_state "idle" (NotionPageBinding.set_conflict_state (Some resolution) x));
      mret (Some [("bindingId", JStr (str_uuid (NotionPageBinding.id b))); ("conflictState", JStr resolution); ("syncState", JStr "idle")])
  end.
End adapter.

(** ** Properties *)

(** A token reads back under its nonce. *)
Lemma token_round_trip `{AeadLaws} pepper token w ciphertext nonce w' :
  encrypt_token pepper token w = Ok ((ciphertext, nonce), w') -> decrypt_token pepper ciphertext nonce = Ok token.
Proof.
  intros Hm. unfold encrypt_token in Hm. step Hm as Hg. cleanM. step Hm as Hn. injection Hn as <- <-. cleanM.
  unfold decrypt_token. rewrite decrypt_undoes. cbn [of_option mbind res_bind]. by rewrite utf8_decode_utf8.
Qed.

Section final.
Context `{Env} `{Cryptography} (pepper : string).

(** What the connector does, in any order and for any request. *)
Inductive notion_step : World -> World -> Prop :=
| does_connect ctx token workspace mode r w w' : connect pepper ctx token workspace mode w = Ok (r, w') -> notion_step w w'
| does_list ctx id r w w' : list_pages pepper ctx id w = Ok (r, w') -> notion_step w w'
| does_select ctx id space pages r w w' : select_pages pepper ctx id space pages w = Ok (r, w') -> notion_step w w'
| does_sync ctx id content r w w' : sync_binding_snapshot pepper ctx id content w = Ok (r, w') -> notion_step w w'
| does_resolve ctx id resolution r w w' : resolve_conflict ctx id resolution w = Ok (r, w') -> notion_step w w'.

Notation bindings w := (rows (R := NotionPageBinding.t) (db w)).

(** The identifiers of bindings are unique, and this one stands for [sha] in
    its source. *)
Record stands (id : uuid) (sha : string) (source : uuid) (w : World) : Prop := {
  st_ids : NoDup (map NotionPageBinding.id (bindings w));
  st_row : exists b, b ∈ bindings w /\ NotionPageBinding.id b = id /\
    NotionPageBinding.last_snapshot_sha256 b = Some sha /\ NotionPageBinding.source_id b = Some source;
}.

Lemma stands_same id sha source w w' : bindings w' = bindings w -> stands id sha source w -> stands id sha source w'.
Proof. intros He [Hn Hb]. split; by rewrite He. Qed.

(** Writing other columns of a binding. *)
Lemma stands_update id sha source key (f : NotionPageBinding.t -> NotionPageBinding.t) w u w' :
  (forall b, NotionPageBinding.id (f b) = NotionPageBinding.id b /\
     NotionPageBinding.last_snapshot_sha256 (f b) = NotionPageBinding.last_snapshot_sha256 b /\
     NotionPageBinding.source_id (f b) = NotionPageBinding.source_id b) ->
  update key f w = Ok (u, w') -> stands id sha source w -> stands id sha source w'.
Proof.
  intros Hf ->%update_Ok [Hn (b & Hb & Hid & Hl & Hs)]. split; cbn [db]; rewrite rows_set_rows.
  - rewrite map_map. erewrite map_ext; [exact Hn|]. intros x. cbv beta. destruct (_ =? _); [by destruct (Hf x)|done].
  - exists (if row_id b =? key then f b else b). split; [by apply list_elem_of_fmap_2 with (f := fun x => if row_id x =? key then f x else x)|].
    destruct (_ =? _); [|done]. destruct (Hf b) as (-> & -> & ->). done.
Qed.

Lemma stands_add id sha source (b : NotionPageBinding.t) w u w' : add b w = Ok (u, w') -> stands id sha source w -> stands id sha source w'.
Proof.
  intros [Hc ->]%add_Ok [Hn (b' & Hb & Hrest)]. split; cbn [db]; rewrite rows_set_rows.
  - rewrite map_app. apply NoDup_app. split; [done|]. split; [|apply NoDup_singleton].
    intros x (r & -> & Hr)%list_elem_of_fmap Hx%list_elem_of_singleton. specialize (Hc r Hr).
    cbn [clash notion_page_binding_table] in Hc. unfold NotionPageBinding.clash, same in Hc.
    by rewrite bool_decide_eq_true_2 in Hc by done.
  - exists b'. split; [by apply elem_of_app; left|done].
Qed.

(** The binding a request selects by its identifier is the one that stands. *)
Lemma stands_selected account id sha source w b : stands id sha source w -> keep (the_binding account id) (bindings w) = [b] ->
  NotionPageBinding.last_snapshot_sha256 b = Some sha /\ NotionPageBinding.source_id b = Some source.
Proof.
  intros [Hn (b' & Hb' & Hid & Hl & Hs)] Hk. apply keep_one in Hk as [Hb Hp]. unfold the_binding, same in Hp. split_bool.
  assert (b = b') as ->; [|done]. apply list_elem_of_lookup in Hb as [i Hi], Hb' as [j Hj].
  assert (i = j) as ->; [|congruence]. eapply NoDup_lookup; [exact Hn|..]; rewrite list_lookup_fmap; [by rewrite Hi|]. rewrite Hj. cbn. congruence.
Qed.

Lemma stands_mapM {A B} id sha source (f : A -> M B) l w r w' :
  (forall x v y v', f x v = Ok (y, v') -> stands id sha source v -> stands id sha source v') ->
  mapM f l w = Ok (r, w') -> stands id sha source w -> stands id sha source w'.
Proof.
  intros Hf. revert w r. induction l as [|x l IH]; intros w r Hm Hs; cbn [mapM] in Hm; [by cleanM|].
  step Hm as Hx. step Hm as Hl. cleanM. eapply IH; [exact Hl|]. by eapply Hf.
Qed.

(** Importing a snapshot into another binding. *)
Lemma stands_import id sha source b new w r w' : NotionPageBinding.id b <> id ->
  import_snapshot b new w = Ok (r, w') -> stands id sha source w -> stands id sha source w'.
Proof.
  intros Hne Hm Hs. unfold import_snapshot in Hm. step Hm as Hsrc.
  assert (Hs1 : stands id sha source w0).
  { destruct (NotionPageBinding.source_id b); [by cleanM|]. injection Hsrc as _ <-. (eapply stands_same; [|exact Hs]; reflexivity). }
  draw Hm. step Hm as Ha.
  match type of Ha with _ = Ok (_, ?v) => assert (Hs2 : stands id sha source v) end.
  { destruct (NotionPageBinding.source_id b); [cleanM|apply add_Ok in Ha as [_ ->]]; (eapply stands_same; [|exact Hs1]; reflexivity). }
  step Hm as Hr. apply add_Ok in Hr as [_ ->]. step Hm as Hu. cleanM. apply update_Ok in Hu as ->.
  destruct Hs2 as [Hn (x & Hx & Hid & Hl & Hsx)]. split; cbn [db]; rewrite rows_set_rows.
  - rewrite map_map. erewrite map_ext; [exact Hn|]. intros y. cbv beta. by destruct (_ =? _).
  - exists x. split; [|done]. apply list_elem_of_fmap. exists x. split; [|exact Hx].
    change (row_id x) with (NotionPageBinding.id x). destruct (Z.eqb_spec (NotionPageBinding.id x) (NotionPageBinding.id b)); congruence.
Qed.

Lemma nonce_keeps R `{Table R} : keeps R draw_nonce.
Proof. by intros v x v' [= _ <-]. Qed.
#[local] Hint Resolve nonce_keeps : frame.

Lemma stands_step id sha source w w' : truthy sha = true -> notion_step w w' -> stands id sha source w -> stands id sha source w'.
Proof.
  intros Hsha Hstep Hs. inversion Hstep as [ctx token ws mode r w1 w2 Hm|ctx c r w1 w2 Hm|ctx c space pages r w1 w2 Hm|ctx i content r w1 w2 Hm|ctx i res r w1 w2 Hm]; subst w1 w2.
  - framed Hm NotionPageBinding.t K; [unfold connect, encrypt_token; frame|by eapply stands_same].
  - framed Hm NotionPageBinding.t K; [unfold list_pages; frame|by eapply stands_same].
  - unfold select_pages in Hm. step Hm as Hc. apply select_opt_Ok in Hc as [_ ->]. destruct a as [c0|]; [|by cleanM].
    step Hm as Hb. apply select_Ok in Hb as [-> ->]. eapply stands_mapM; [|exact Hm|exact Hs].
    intros page v y v' Hp Hv. unfold select_page in Hp. step Hp as Hf. cleanM. step Hp as He. cleanM.
    match type of Hp with (match ?o with _ => _ end) _ = _ => destruct o end; [by cleanM|]. draw Hp. draw Hp. step Hp as Ha. cleanM.
    eapply stands_add; [exact Ha|]. (eapply stands_same; [|exact Hv]; reflexivity).
  - unfold sync_binding_snapshot in Hm. step Hm as Hb. apply select_opt_Ok in Hb as [Hb ->]. destruct a as [b|]; [|by cleanM].
    step Hm as Hc. apply select_opt_Ok in Hc as [_ ->]. destruct a as [c|]; [|by cleanM].
    destruct (opt_eqb _ _).
    { step Hm as Hu. cleanM. by eapply (stands_update _ _ _ _ pause); [|exact Hu|]. }
    step Hm as Hsn. cleanM.
    match type of Hm with (if ?c then _ else _) _ = _ => destruct c eqn:Ec end.
    { step Hm as Hu. cleanM. by eapply (stands_update _ _ _ _ (fun x => pause (NotionPageBinding.set_conflict_state (Some "unresolved") x))); [|exact Hu|]. }
    destruct (Z.eq_dec (NotionPageBinding.id b) id) as [He|Hne].
    + apply keep_one in Hb as Hb'. destruct Hb' as [_ Hp]. unfold the_binding, same in Hp. split_bool.
      assert (i = id) as -> by congruence. destruct (stands_selected _ _ _ _ _ _ Hs Hb) as [Hl Hsrc].
      rewrite Hl, Hsha in Ec. cbn [andb] in Ec. apply negb_false_iff, String.eqb_eq in Ec as <-.
      rewrite Hsrc, Hl in Hm. assert (opt_eqb (Some sha) (Some sha) = true) as Ho by (unfold opt_eqb; by apply bool_decide_eq_true_2).
      rewrite Ho in Hm. by cleanM.
    + destruct (NotionPageBinding.source_id b); [destruct (opt_eqb _ _); [by cleanM|]|];
        step Hm as Hi; cleanM; by eapply stands_import.
  - unfold resolve_conflict in Hm. step Hm as Hg. cleanM. step Hm as Hb. apply select_opt_Ok in Hb as [_ ->].
    match goal with o : option NotionPageBinding.t |- _ => destruct o as [b|] end; [|by cleanM]. step Hm as Hu. cleanM.
    by eapply (stands_update _ _ _ _ (fun x => NotionPageBinding.set_sync_state "idle" (NotionPageBinding.set_conflict_state (Some res) x))); [|exact Hu|].
Qed.

(** A synchronisation of a binding that stands for a snapshot imports nothing. *)
Lemma stands_imports_nothing id sha source ctx content w r w' : truthy sha = true -> stands id sha source w ->
  sync_binding_snapshot pepper ctx id content w = Ok (r, w') ->
  rows (R := SourceRevision.t) (db w') = rows (db w) /\ rows (R := Source.t) (db w') = rows (db w).
Proof.
  intros Hsha Hs Hm. unfold sync_binding_snapshot in Hm. step Hm as Hb. apply select_opt_Ok in Hb as [Hb ->].
  destruct a as [b|]; [|by cleanM]. step Hm as Hc. apply select_opt_Ok in Hc as [_ ->]. destruct a as [c|]; [|by cleanM].
  destruct (opt_eqb _ _); [step Hm as Hu; cleanM; by apply update_Ok in Hu as ->|].
  step Hm as Hsn. cleanM. destruct (stands_selected _ _ _ _ _ _ Hs Hb) as [Hl Hsrc]. rewrite Hl, Hsha, Hsrc in Hm. cbn [andb] in Hm.
  destruct (String.eqb_spec sha a) as [<-|]; cbn [negb] in Hm.
  - assert (opt_eqb (Some sha) (Some sha) = true) as Ho by (unfold opt_eqb; by apply bool_decide_eq_true_2).
    rewrite Ho in Hm. by cleanM.
  - step Hm as Hu. cleanM. by apply update_Ok in Hu as ->.
Qed.

(** C35: once a page is imported its binding keeps that snapshot: whatever is
    connected, listed, selected, synchronised or resolved afterwards, in any
    order, the binding stands for the first snapshot, and synchronising it
    imports no other; a page that changes is never brought up to date, however
    its conflicts are resolved. *)
Theorem notion_never_updates id sha source w w' : truthy sha = true -> stands id sha source w -> rtc notion_step w w' ->
  stands id sha source w' /\
  forall ctx content r w2, sync_binding_snapshot pepper ctx id content w' = Ok (r, w2) ->
    rows (R := SourceRevision.t) (db w2) = rows (db w') /\ rows (R := Source.t) (db w2) = rows (db w').
Proof.
  intros Hsha Hs Hsteps. assert (Hs' : stands id sha source w').
  { clear -Hsha Hs Hsteps. revert Hs. induction Hsteps; [done|]. intros Hs. eauto using stands_step. }
  split; [done|]. intros ctx content r w2 Hm. by eapply stands_imports_nothing.
Qed.
End final.

(** ** The routes (notion/routes.py) *)

Section routes.
Context `{Env} `{Cryptography} (pepper : string).

Definition connect_route (rq : WebRequest) : Handler Response :=
  endpoint pepper false plain rq (fun ctx =>
    respond (as_context ctx (connect_stub pepper ctx)) (answer 201 ctx) (catch_all ctx)).

Definition page_ref_body (p : NotionPageRef) : json := JObj [("notionPageId", JStr (np_id p)); ("title", JStr (np_title p))].

Definition list_pages_route (connection_id : uuid) (rq : WebRequest) : Handler Response :=
  endpoint pepper false plain rq (fun ctx =>
    respond (as_context ctx (list_pages pepper ctx connection_id))
      (fun pages => answer 200 ctx [("pages", JList (map page_ref_body pages))]) catch_none).

Definition select_pages_route (connection_id space_id : uuid) (notion_page_ids : list string) (rq : WebRequest) : Handler Response :=
  endpoint pepper false plain rq (fun ctx =>
    respond (as_context ctx (select_pages pepper ctx connection_id space_id notion_page_ids))
      (fun bindings => answer 201 ctx [("bindings", JList (map (fun b => JObj (binding_body b)) bindings))]) (catch_all ctx)).

Definition found_or_missing (ctx : RequestContext) (o : option dict) : Response :=
  match o with Some result => answer 200 ctx result | None => not_found_for ctx end.

Definition sync_binding (binding_id : uuid) (fixture_content : option string) (rq : WebRequest) : Handler Response :=
  endpoint pepper false plain rq (fun ctx =>
    respond (as_context ctx (sync_binding_snapshot pepper ctx binding_id fixture_content)) (found_or_missing ctx) catch_none).

Definition resolve_conflict_route (binding_id : uuid) (resolution : string) (rq : WebRequest) : Handler Response :=
  endpoint pepper false plain rq (fun ctx =>
    respond (as_context ctx (resolve_conflict ctx binding_id resolution)) (found_or_missing ctx) (catch_all ctx)).
End routes.

(** ** Witness *)

(** A page imported with one content; it changes, the conflict is resolved for
    Notion, and the next synchronisation conflicts again. *)
Definition test_aead : Cryptography :=
  {| aesgcm_encrypt := fun _ _ p _ => p; aesgcm_decrypt := fun _ _ c _ => Some c; token_bytes := fun _ => [0]; payload_key := "" |}.

Definition sample_connection : NotionConnection.t :=
  {| NotionConnection.id := 30; NotionConnection.account_id := 1; NotionConnection.workspace_id := None;
     NotionConnection.status := "connected"; NotionConnection.oauth_stub := [("mode", JStr "fixture")];
     NotionConnection.token_ciphertext := None; NotionConnection.token_nonce := None;
     NotionConnection.pagination_cursor := None; NotionConnection.rate_limited_until := None;
     NotionConnection.created_at := 0; NotionConnection.updated_at := 0 |}.

Definition imported_binding : NotionPageBinding.t :=
  NotionPageBinding.set_source_id (Some 40) (NotionPageBinding.set_last_snapshot_sha256 (Some "first")
    (new_binding 31 1 5 30 "fixture-page-1" "Getting Started" 0)).

Definition imported_world : World :=
  {| db := set_rows [sample_connection] (set_rows [imported_binding] empty_db); tick := 0 |}.

Notation sync_sample w := (@sync_binding_snapshot test_aead "" test_env test_ctx 31 (Some "new") w).
Notation resolve_sample w := (resolve_conflict test_ctx 31 "keep_notion" w).

Definition answer_of {A} (r : res (A * World)) : option A := match r with Ok (a, _) => Some a | Raise _ => None end.

Lemma notion_never_updates_witness : exists w1 w2 r1 r2,
  sync_sample imported_world = Ok (r1, w1) /\ resolve_sample w1 = Ok (r2, w2) /\
  answer_of (sync_sample w2) = Some (Some (paused_body 31 "unresolved" "Concurrent change detected; sync paused")) /\
  stands 31 "first" 40 w2.
Proof.
  destruct (sync_sample imported_world) as [[r1 w1]|e] eqn:E1; [|vm_compute in E1; discriminate E1].
  assert (Hw1 : db w1 = set_rows [sample_connection] (set_rows [pause (NotionPageBinding.set_conflict_state (Some "unresolved") imported_binding)] empty_db)).
  { transitivity (db (match sync_sample imported_world with Ok (_, w) => w | Raise _ => imported_world end)); [by rewrite E1|vm_compute; reflexivity]. }
  destruct (resolve_sample w1) as [[r2 w2]|e] eqn:E2.
  2: { exfalso. revert E2. unfold resolve_conflict. cbn [existsb String.eqb]. destruct w1 as [d n]. cbn [db] in Hw1. subst d. vm_compute. discriminate. }
  exists w1, w2, r1, r2. split; [reflexivity|]. split; [exact E2|]. split.
  - destruct w1 as [d n]. cbn [db] in Hw1. subst d. vm_compute in E2. injection E2 as <- <-. vm_compute. reflexivity.
  - assert (Hs : stands 31 "first" 40 imported_world).
    { split; [apply NoDup_singleton|]. exists imported_binding. split; [by left|]. by split_and!. }
    refine (proj1 (@notion_never_updates test_env test_aead "" 31 "first" 40 imported_world w2 eq_refl Hs _)).
    eapply rtc_l; [exact (@does_sync test_env test_aead "" _ _ _ _ _ _ E1)|].
    apply rtc_once. exact (@does_resolve test_env test_aead "" _ _ _ _ _ _ E2).
Defined.
