(* ===== verification/Config.v ===== *)
(** * Settings and their guards (packages/domain-python/src/memdot_domain/config_guards.py,
    services/core/src/memdot_core/settings.py)

    The runtime modes, the checks of secrets, origins and URLs, and the
    validation of the settings of Core at start-up.  The file of the transit
    token is an argument. *)

From Stdlib Require Import Ascii ZArith Lia.
From stdpp Require Import list strings.
From S2P Require Import Prelude PyStr Digest Json Document.
Open Scope Z_scope.

(** ** config_guards.py *)

Definition ALLOWED_MODES : list string := ["hosted"; "self_host"; "test"; "development"].

Definition FORBIDDEN_SECRET_PLACEHOLDERS : list string :=
  [""; "changeme"; "password"; "secret"; "replace_with_operator_secret"; "REPLACE_WITH_OPERATOR_SECRET"].

Definition among (l : list string) (s : string) : bool := existsb (String.eqb s) l.

(** The messages of errors are shortened to what went wrong. *)
Definition normalize_mode (v : string) : res string :=
  let cleaned := strip v in
  _ ← raise_if (negb (truthy cleaned)) (ValueError "env must be a non-empty string");
  let normalized := replace_char "-" "_" (lower cleaned) in
  _ ← raise_if (negb (among ALLOWED_MODES normalized)) (ValueError "env must be one of the modes");
  mret normalized.

Definition reject_blank (name v : string) : res string :=
  let cleaned := strip v in
  _ ← raise_if (negb (truthy cleaned)) (ValueError (name +:+ " must be a non-empty string"));
  mret cleaned.

Definition is_placeholder (v : string) : bool :=
  among FORBIDDEN_SECRET_PLACEHOLDERS (strip v) || among (map lower FORBIDDEN_SECRET_PLACEHOLDERS) (lower (strip v)).

Definition reject_production_placeholder (name v mode : string) : res unit :=
  if among ["development"; "test"] mode then mret tt
  else raise_if (is_placeholder v) (ValueError (name +:+ " rejects blank/default production secrets in mode=" +:+ mode)).

(** What the guards read of [urllib.parse.urlparse]; [ParseResult]'s
    [hostname] is [None] or text, [username] is [None] without an [@]. *)
Record ParseResult := {
  pu_scheme : string;
  pu_netloc : string;
  pu_path : string;
  pu_query : string;
  pu_fragment : string;
}.

Definition partition_at (c : ascii) (s : string) : string * string :=
  let '(a, b) := break_at (Ascii.eqb c) s in (a, drop_str 1 b).

(** The text after the last [@]. *)
Fixpoint after_last (c : ascii) (s : string) : string :=
  match s with
  | "" => ""
  | String d s' => if has_char c s' then after_last c s' else if Ascii.eqb c d then s' else s
  end.

(** [urllib.parse.uses_params]. *)
Definition uses_params : list string :=
  [""; "ftp"; "hdl"; "prospero"; "http"; "https"; "shttp"; "rtsp"; "rtsps"; "sip"; "sips"; "mms"; "sftp"; "tel"].

Section guards.
Variable bracketed_host : string -> bool.

(** [urlparse]: [;params] of the last segment of the path are left out for the
    schemes that have them. *)
Fixpoint strip_params (path : string) : string :=
  match path with
  | "" => ""
  | String c rest =>
      if has_char "/" rest then String c (strip_params rest)
      else if Ascii.eqb c "/" then String c (partition_at ";" rest).1
      else (partition_at ";" path).1
  end.

Definition parse_url (url : string) : res ParseResult :=
  parsed ← urlparse bracketed_host url;
  let url := lstrip_by (fun c => (code c <=? 32)%N) url in
  let url := str_filter (fun c => negb ((code c =? 9)%N || (code c =? 10)%N || (code c =? 13)%N)) url in
  let rest := (split_scheme url).2 in
  let rest := if startswith "//" rest then (break_at netloc_end (drop_str 2 rest)).2 else rest in
  let '(rest, fragment) := partition_at "#" rest in
  let '(path, query) := partition_at "?" rest in
  mret {| pu_scheme := parsed.1; pu_netloc := parsed.2;
          pu_path := if among uses_params parsed.1 then strip_params path else path;
          pu_query := query; pu_fragment := fragment |}.

Definition hostname (p : ParseResult) : option string :=
  let hostinfo := after_last "@" (pu_netloc p) in
  let host := if has_char "[" hostinfo then (partition_at "]" (partition_at "[" hostinfo).2).1
              else (partition_at ":" hostinfo).1 in
  if truthy host then
    let '(h, zone) := break_at (Ascii.eqb "%") host in Some (lower h +:+ zone)
  else None.

Definition has_userinfo (p : ParseResult) : bool := has_char "@" (pu_netloc p).

Definition reject_unsafe_origin (name origin : string) : res unit :=
  let cleaned := strip origin in
  _ ← raise_if (negb (truthy cleaned)) (ValueError (name +:+ " must be a non-empty origin"));
  _ ← raise_if (has_char "*" cleaned) (ValueError (name +:+ " rejects wildcard trust"));
  parsed ← parse_url cleaned;
  _ ← raise_if (negb (among ["http"; "https"] (pu_scheme parsed))) (ValueError (name +:+ " must be an absolute http(s) origin"));
  _ ← raise_if (match hostname parsed with Some _ => false | None => true end) (ValueError (name +:+ " must include a hostname"));
  _ ← raise_if (has_userinfo parsed) (ValueError (name +:+ " must not include credentials"));
  _ ← raise_if (truthy (pu_fragment parsed)) (ValueError (name +:+ " must not include a fragment"));
  raise_if (negb (among [""; "/"] (pu_path parsed)) || truthy (pu_query parsed))
    (ValueError (name +:+ " must be an origin (scheme://host[:port] only)")).

Definition reject_malformed_url (name url : string) : res unit :=
  parsed ← parse_url (strip url);
  _ ← raise_if (negb (among ["http"; "https"; "postgresql"; "postgres"] (pu_scheme parsed)))
        (ValueError (name +:+ " must be an absolute URL"));
  _ ← raise_if (match hostname parsed with Some _ => false | None => true end) (ValueError (name +:+ " must include a hostname"));
  raise_if (truthy (pu_fragment parsed)) (ValueError (name +:+ " must not include a fragment")).

Definition reject_enabled_exporter_without_endpoint (export endpoint : string) : res unit :=
  if among [""; "off"; "false"; "0"; "disabled"] (lower (strip export)) then mret tt
  else raise_if (negb (truthy (strip endpoint))) (ValueError "telemetry exporter enabled without explicit endpoint").

Definition reject_plaintext_provider_credential (name : string) (v : option string) (mode : string) : res unit :=
  match v with
  | None => mret tt
  | Some v =>
      if negb (truthy (strip v)) then mret tt
      else
        _ ← raise_if (among ["hosted"; "self_host"] mode &&
                      existsb (fun p => startswith p (strip v)) ["sk-"; "AIza"; "ya29."; "ghp_"; "xox"])
              (ValueError (name +:+ " must not embed plaintext provider credentials in config"));
        raise_if (contains "BEGIN PRIVATE KEY" v || contains "BEGIN RSA PRIVATE KEY" v)
          (ValueError (name +:+ " must not embed plaintext private keys in config"))
  end.

(** ** settings.py *)

(** The settings the rest of the model or the validation reads. *)
Record CoreSettings := {
  env : string;
  database_url : string;
  object_store_endpoint : string;
  oidc_issuer : string;
  oidc_audience : string;
  openbao_addr : string;
  openbao_transit_token : string;
  openbao_transit_token_file : option string;
  allowed_origins : string;
  telemetry_export : string;
  otel_exporter_otlp_endpoint : string;
  provider_api_key : string;
  session_signing_pepper : string;
  tenant_context_signing_key : string;
  oidc_client_id : string;
  oidc_client_secret : string;
  oidc_redirect_uri : string;
}.

Definition is_hosted (s : CoreSettings) : res bool := m ← normalize_mode (env s); mret (String.eqb m "hosted").
Definition is_self_host (s : CoreSettings) : res bool := m ← normalize_mode (env s); mret (String.eqb m "self_host").

(** The field of the file is its text, [None] when it is no file. *)
Definition resolve_transit_token (s : CoreSettings) : string :=
  if truthy (strip (openbao_transit_token s)) then strip (openbao_transit_token s)
  else match openbao_transit_token_file s with Some t => strip t | None => "" end.

Fixpoint each (f : string -> res unit) (l : list string) : res unit :=
  match l with [] => mret tt | x :: l => _ ← f x; each f l end.

Definition validate_runtime (s : CoreSettings) : res unit :=
  _ ← reject_blank "CORE_ENV" (env s);
  mode ← normalize_mode (env s);
  _ ← reject_blank "CORE_OIDC_AUDIENCE" (oidc_audience s);
  _ ← reject_blank "CORE_OIDC_CLIENT_ID" (oidc_client_id s);
  _ ← each (reject_unsafe_origin "CORE_ALLOWED_ORIGINS") (split "," (allowed_origins s));
  _ ← reject_enabled_exporter_without_endpoint (telemetry_export s) (otel_exporter_otlp_endpoint s);
  _ ← reject_plaintext_provider_credential "CORE_PROVIDER_API_KEY"
        (if truthy (provider_api_key s) then Some (provider_api_key s) else None) mode;
  if among ["self_host"; "hosted"] mode then
    _ ← reject_malformed_url "CORE_DATABASE_URL" (database_url s);
    _ ← reject_malformed_url "CORE_OBJECT_STORE_ENDPOINT" (object_store_endpoint s);
    _ ← reject_malformed_url "CORE_OIDC_ISSUER" (oidc_issuer s);
    _ ← reject_malformed_url "CORE_OIDC_REDIRECT_URI" (oidc_redirect_uri s);
    _ ← reject_production_placeholder "CORE_TENANT_CONTEXT_SIGNING_KEY" (tenant_context_signing_key s) mode;
    _ ← reject_production_placeholder "CORE_SESSION_SIGNING_PEPPER" (session_signing_pepper s) mode;
    _ ← raise_if (negb (truthy (strip (oidc_audience s))))
          (ValueError "CORE_OIDC_AUDIENCE must be set when CORE_OIDC_ISSUER is configured");
    if String.eqb mode "self_host" then
      _ ← reject_malformed_url "CORE_OPENBAO_ADDR" (openbao_addr s);
      let token := resolve_transit_token s in
      _ ← reject_production_placeholder "CORE_OPENBAO_TRANSIT_TOKEN" token mode;
      raise_if (among ["root"; "dev-root-token"] (lower (strip token)))
        (ValueError "CORE_OPENBAO_TRANSIT_TOKEN must not be a root/bootstrap token")
    else mret tt
  else mret tt.
End guards.

(** ** Properties *)

Lemma each_Ok f l : each f l = Ok tt <-> forall x, x ∈ l -> f x = Ok tt.
Proof.
  induction l as [|x l IH]; cbn [each]; [by split; [intros _ x Hx%elem_of_nil|]|]. split.
  - intros ([] & Hx & Hl)%bind_Ok y [->|Hy]%elem_of_cons; [done|]. by apply IH.
  - intros Hall. rewrite (Hall x) by by left. cbn [mbind res_bind]. apply IH. intros y Hy. apply Hall. by right.
Qed.

(** What an accepted origin is. *)
Record safe_origin (bracketed : string -> bool) (origin : string) : Prop := {
  so_wildcard : has_char "*" (strip origin) = false;
  so_host : exists p, parse_url bracketed (strip origin) = Ok p /\ among ["http"; "https"] (pu_scheme p) = true /\
    is_Some (hostname p) /\ has_userinfo p = false /\ pu_fragment p = "" /\ pu_query p = "" /\ among [""; "/"] (pu_path p) = true;
}.

Lemma reject_unsafe_origin_Ok bracketed name origin : reject_unsafe_origin bracketed name origin = Ok tt -> safe_origin bracketed origin.
Proof.
  unfold reject_unsafe_origin. intros Ho.
  apply bind_Ok in Ho as ([] & _ & Ho). apply bind_Ok in Ho as ([] & Hw & Ho). apply raise_if_Ok in Hw.
  apply bind_Ok in Ho as (p & Hp & Ho). apply bind_Ok in Ho as ([] & Hs & Ho). apply raise_if_Ok, negb_false_iff in Hs.
  apply bind_Ok in Ho as ([] & Hh & Ho). apply raise_if_Ok in Hh. apply bind_Ok in Ho as ([] & Hu & Ho). apply raise_if_Ok in Hu.
  apply bind_Ok in Ho as ([] & Hf & Ho). apply raise_if_Ok, truthy_false in Hf. apply raise_if_Ok, orb_false_iff in Ho as [Hpa Hq].
  apply negb_false_iff in Hpa. apply truthy_false in Hq. split; [done|]. exists p. split_and!; try done. by destruct (hostname p); [eexists|].
Qed.

(** A secret that is not one of the words a template is filled with, in any
    case and with any blanks around it. *)
Definition filled_in (v : string) : Prop :=
  lower (strip v) ∉ [""; "changeme"; "password"; "secret"; "replace_with_operator_secret"].

Lemma among_elem l s : among l s = true <-> s ∈ l.
Proof.
  unfold among. rewrite existsb_exists. setoid_rewrite String.eqb_eq. setoid_rewrite <- list_elem_of_In.
  split; [by intros (x & Hx & ->)|by exists s].
Qed.

Lemma not_placeholder v : is_placeholder v = false -> filled_in v.
Proof.
  unfold is_placeholder. intros [_ Hp]%orb_false_iff Hin. apply not_true_iff_false in Hp. apply Hp, among_elem.
  change (map lower FORBIDDEN_SECRET_PLACEHOLDERS) with
    [""; "changeme"; "password"; "secret"; "replace_with_operator_secret"; "replace_with_operator_secret"]. set_solver.
Qed.

Lemma normalize_mode_Ok v mode : normalize_mode v = Ok mode ->
  mode = replace_char "-" "_" (lower (strip v)) /\ mode ∈ ["hosted"; "self_host"; "test"; "development"].
Proof.
  unfold normalize_mode. intros Hm. apply bind_Ok in Hm as ([] & _ & Hm). apply bind_Ok in Hm as ([] & Ha & Hm). injection Hm as <-.
  split; [done|]. apply raise_if_Ok, negb_false_iff, among_elem in Ha. exact Ha.
Qed.

(** C38: settings that pass the validation name one of the four runtime modes and
    only safe origins; a deployment mode has no template word for the secrets
    it checks, and a self-hosted one also no root token. *)
Theorem validated_settings bracketed s : validate_runtime bracketed s = Ok tt ->
  let mode := replace_char "-" "_" (lower (strip (env s))) in
  mode ∈ ["hosted"; "self_host"; "test"; "development"] /\
  (forall origin, origin ∈ split "," (allowed_origins s) -> safe_origin bracketed origin) /\
  (mode = "hosted" \/ mode = "self_host" ->
     filled_in (tenant_context_signing_key s) /\ filled_in (session_signing_pepper s)) /\
  (mode = "self_host" -> filled_in (resolve_transit_token s) /\
     lower (strip (resolve_transit_token s)) ∉ ["root"; "dev-root-token"]).
Proof.
  unfold validate_runtime. intros Hv. apply bind_Ok in Hv as (e & _ & Hv). apply bind_Ok in Hv as (mode & Hm & Hv).
  apply bind_Ok in Hv as (a & _ & Hv). apply bind_Ok in Hv as (b & _ & Hv). apply bind_Ok in Hv as ([] & Ho & Hv).
  apply bind_Ok in Hv as ([] & _ & Hv). apply bind_Ok in Hv as ([] & _ & Hv).
  apply normalize_mode_Ok in Hm as [Hmode Hin]. cbv zeta. rewrite <- Hmode. split; [done|]. split.
  { intros origin Hor. eapply reject_unsafe_origin_Ok. by apply (proj1 (each_Ok _ _) Ho). }
  assert (Hp : forall name v, mode = "hosted" \/ mode = "self_host" ->
    reject_production_placeholder name v mode = Ok tt -> filled_in v).
  { intros name v [-> | ->] Hr; by apply raise_if_Ok, not_placeholder in Hr. }
  assert (Ha : mode = "hosted" \/ mode = "self_host" -> among ["self_host"; "hosted"] mode = true) by by intros [-> | ->].
  destruct (among ["self_host"; "hosted"] mode); [|split; [by intros ?%Ha|intros Hs; by discriminate (Ha (or_intror Hs))]].
  repeat (apply bind_Ok in Hv as ([] & ? & Hv)). split; [intros Hd; split; by eapply Hp|].
  intros Hs. assert (Hd : mode = "hosted" \/ mode = "self_host") by by right. rewrite Hs in Hv at 1. cbn [String.eqb Ascii.eqb] in Hv.
  apply bind_Ok in Hv as ([] & _ & Hv). apply bind_Ok in Hv as ([] & Ht & Hv). split; [by eapply Hp|].
  apply raise_if_Ok in Hv. rewrite <- among_elem. by rewrite Hv.
Qed.

(** ** Witness *)

Definition with_env (e : string) (s : CoreSettings) : CoreSettings :=
  {| env := e; database_url := database_url s; object_store_endpoint := object_store_endpoint s;
     oidc_issuer := oidc_issuer s; oidc_audience := oidc_audience s; openbao_addr := openbao_addr s;
     openbao_transit_token := openbao_transit_token s; openbao_transit_token_file := openbao_transit_token_file s;
     allowed_origins := allowed_origins s; telemetry_export := telemetry_export s;
     otel_exporter_otlp_endpoint := otel_exporter_otlp_endpoint s; provider_api_key := provider_api_key s;
     session_signing_pepper := session_signing_pepper s; tenant_context_signing_key := tenant_context_signing_key s;
     oidc_client_id := oidc_client_id s; oidc_client_secret := oidc_client_secret s; oidc_redirect_uri := oidc_redirect_uri s |}.

(** A hosted deployment with the secrets of the source code. *)
Definition hosted_settings : CoreSettings :=
  {| env := " Hosted"; database_url := "postgresql://core@db/memdot"; object_store_endpoint := "http://store:8333";
     oidc_issuer := "https://id.example"; oidc_audience := "memdot-core"; openbao_addr := ""; openbao_transit_token := "";
     openbao_transit_token_file := None; allowed_origins := "https://memdot.example, http://localhost:3000/;x";
     telemetry_export := "off"; otel_exporter_otlp_endpoint := ""; provider_api_key := "";
     session_signing_pepper := "dev-session-pepper-change-me";
     tenant_context_signing_key := "dev-tenant-context-signing-key-change-me"; oidc_client_id := "memdot-core";
     oidc_client_secret := ""; oidc_redirect_uri := "https://memdot.example/api/v1/auth/oidc/callback" |}.

Lemma validated_settings_witness : validate_runtime (fun _ => false) hosted_settings = Ok tt /\
  safe_origin (fun _ => false) "https://memdot.example" /\ filled_in (session_signing_pepper hosted_settings) /\
  is_ok (validate_runtime (fun _ => false) (with_env "staging" hosted_settings)) = false.
Proof.
  assert (Hv : validate_runtime (fun _ => false) hosted_settings = Ok tt) by (vm_compute; reflexivity).
  split; [exact Hv|]. destruct (validated_settings (fun _ => false) hosted_settings Hv) as (_ & Ho & Hs & _).
  split; [apply Ho; vm_compute; by left|]. split; [|vm_compute; reflexivity]. apply Hs. left. vm_compute. reflexivity.
Defined.
