(* ===== verification/Oidc.v ===== *)
(** * The OpenID client (services/core/src/memdot_core/auth/oidc.py)

    The adapter of an issuer: its endpoints, the URL a login starts at, the
    exchange of a code and the validation of an identity token.  HTTP requests
    (httpx) and the decoding of a JWT (PyJWT with the keys of the issuer) are the
    class [Provider]. *)

From Stdlib Require Import Ascii ZArith Lia.
From stdpp Require Import list strings.
From S2P Require Import Prelude PyStr Digest Json Uuid Ledger Store ServiceAuth ExternalAccess.
Open Scope Z_scope.

Record OidcClaims := {
  cl_issuer : string;
  cl_audience : string;
  cl_subject : string;
  cl_email : option string;
  cl_provider : option string;
  cl_nonce : option string;
  cl_expires_at : Z;
  cl_jti : option string;
}.

Definition OidcValidationError (code : string) : exn := Refused "OidcValidationError" code.

(** The exceptions of PyJWT the adapter tells apart. *)
Inductive JwtError :=
| ExpiredSignatureError
| InvalidAudienceError
| InvalidIssuerError
| InvalidSignatureError
| OtherPyJWTError.

(** The JSON body of a GET, that of a POST of a form, and the payload of a token
    decoded for an audience and an issuer. *)
Class Provider := {
  http_get : string -> res json;
  http_post : string -> list (string * string) -> res json;
  jwt_payload : string -> string -> string -> dict + JwtError;
}.

Record OidcIssuerAdapter := {
  oa_issuer : string;
  oa_audience : string;
  oa_hosted_google_only : bool;
  oa_google_issuer_hint : string;
  oa_authorization_endpoint : option string;
  oa_token_endpoint : option string;
}.

(** The adapter [get_oidc_adapter] makes. *)
Definition new_adapter (issuer audience : string) (hosted_google_only : bool) : OidcIssuerAdapter :=
  {| oa_issuer := rstrip_slash issuer; oa_audience := audience; oa_hosted_google_only := hosted_google_only;
     oa_google_issuer_hint := "accounts.google.com"; oa_authorization_endpoint := None; oa_token_endpoint := None |}.

(** ** [urllib.parse.urlencode] *)

Definition upper_hex (n : Z) : ascii := default "0"%char (String.get (Z.to_nat n) "0123456789ABCDEF").

Definition unreserved (c : ascii) : bool :=
  let n := code c in
  ((48 <=? n) && (n <=? 57))%N || ((65 <=? n) && (n <=? 90))%N || ((97 <=? n) && (n <=? 122))%N ||
  Ascii.eqb c "_" || Ascii.eqb c "." || Ascii.eqb c "-" || Ascii.eqb c "~".

Definition percent (b : Z) : string := String "%" (String (upper_hex (b / 16)) (String (upper_hex (b mod 16)) "")).

Definition quote_char (c : ascii) : string :=
  if Ascii.eqb c " " then "+" else if unreserved c then String c "" else join "" (map percent (utf8_char c)).

Definition quote_plus (s : string) : string := flat_str quote_char s.

Definition urlencode (query : list (string * string)) : string :=
  join "&" (map (fun kv => quote_plus kv.1 +:+ "=" +:+ quote_plus kv.2) query).

(** ** The adapter *)

Section adapter.
Context `{Provider}.

(** [body.get(...)] of a body that is no object raises AttributeError. *)
Definition body_of (j : json) : res dict := match j with JObj d => Ok d | _ => Raise (Refused "AttributeError" "") end.

Definition _endpoints (a : OidcIssuerAdapter) : res (string * string) :=
  let known o := match o with Some s => truthy s | None => false end in
  if known (oa_authorization_endpoint a) && known (oa_token_endpoint a)
  then mret (default "" (oa_authorization_endpoint a), default "" (oa_token_endpoint a))
  else
    response ← http_get (oa_issuer a +:+ "/.well-known/openid-configuration");
    body ← body_of response;
    let authorization_endpoint := py_str (dict_get_or "authorization_endpoint" (JStr "") body) in
    let token_endpoint := py_str (dict_get_or "token_endpoint" (JStr "") body) in
    _ ← raise_if (negb (truthy authorization_endpoint) || negb (truthy token_endpoint)) (OidcValidationError "invalid_discovery");
    mret (authorization_endpoint, token_endpoint).

Definition authorization_url (a : OidcIssuerAdapter) (client_id redirect_uri state nonce code_challenge : string) : res string :=
  e ← _endpoints a;
  let query := urlencode
    [("response_type", "code"); ("client_id", client_id); ("redirect_uri", redirect_uri); ("scope", "openid email profile");
     ("state", state); ("nonce", nonce); ("code_challenge", code_challenge); ("code_challenge_method", "S256")] in
  mret (e.1 +:+ "?" +:+ query).

(** [except (httpx.HTTPError, ValueError, TypeError)]. *)
Definition exchange_failed (e : exn) : bool :=
  match e with Refused "HTTPError" _ | ValueError _ | TypeError => true | _ => false end.

Definition exchange_code (a : OidcIssuerAdapter) (code code_verifier client_id client_secret redirect_uri : string) : res string :=
  e ← _endpoints a;
  let answered :=
    response ← http_post e.2
      [("grant_type", "authorization_code"); ("code", code); ("code_verifier", code_verifier); ("client_id", client_id);
       ("client_secret", client_secret); ("redirect_uri", redirect_uri)];
    body ← body_of response;
    mret (py_str (dict_get_or "id_token" (JStr "") body)) in
  id_token ← match answered with
             | Raise e => if exchange_failed e then Raise (OidcValidationError "oidc_code_exchange_failed") else Raise e
             | r => r
             end;
  _ ← raise_if (negb (truthy id_token)) (OidcValidationError "oidc_id_token_missing");
  mret id_token.

Definition _resolve_provider (a : OidcIssuerAdapter) (payload : dict) : option string :=
  if contains (oa_google_issuer_hint a) (py_str (dict_get_or "iss" (JStr "") payload)) then Some "google"
  else match json_or (dict_get "identity_provider" payload) (dict_get "idp" payload) with
       | JNull => None
       | v => Some (py_str v)
       end.

Definition jwt_refusal (e : JwtError) : string :=
  match e with
  | ExpiredSignatureError => "token_expired"
  | InvalidAudienceError => "invalid_audience"
  | InvalidIssuerError => "invalid_issuer"
  | InvalidSignatureError => "invalid_signature"
  | OtherPyJWTError => "invalid_token"
  end.

(** What is read before the replay check: the payload and its subject. *)
Definition open_token (a : OidcIssuerAdapter) (token : string) (expected_nonce : option string) : res (dict * string) :=
  payload ← match jwt_payload token (oa_audience a) (oa_issuer a) with
            | inl d => mret d
            | inr e => Raise (OidcValidationError (jwt_refusal e))
            end;
  let sub := strip (py_str (dict_get_or "sub" (JStr "") payload)) in
  _ ← raise_if (negb (truthy sub)) (OidcValidationError "missing_sub");
  _ ← match expected_nonce with
      | Some nonce => raise_if (negb (bool_decide (dict_get "nonce" payload = JStr nonce))) (OidcValidationError "invalid_nonce")
      | None => mret tt
      end;
  mret (payload, sub).

Definition text_of (v : json) : option string := if py_bool v then Some (py_str v) else None.

(** What follows it. *)
Definition read_claims (a : OidcIssuerAdapter) (payload : dict) (sub jti : string) (current : Z) : res OidcClaims :=
  let provider := _resolve_provider a payload in
  _ ← raise_if (oa_hosted_google_only a && negb (bool_decide (provider = Some "google"))) (OidcValidationError "non_google_provider");
  exp ← json_int (dict_get_or "exp" (JInt 0) payload);
  _ ← match dict_get "nbf" payload with
      | JNull => mret tt
      | v => nbf ← json_int v; raise_if (current <? nbf) (OidcValidationError "token_not_yet_valid")
      end;
  aud ← get_item "aud" payload;
  audience ← match aud with
             | JList [] => Raise (Refused "IndexError" "")
             | JList (x :: _) => mret (py_str x)
             | v => mret (py_str v)
             end;
  iss ← get_item "iss" payload;
  mret {| cl_issuer := py_str iss; cl_audience := audience; cl_subject := sub; cl_email := text_of (dict_get "email" payload);
          cl_provider := provider; cl_nonce := text_of (dict_get "nonce" payload); cl_expires_at := exp;
          cl_jti := if truthy jti then Some jti else None |}.

(** [current] is [int(time.time())]; the set of token identifiers seen is
    returned with what the call added to it. *)
Definition validate_id_token (a : OidcIssuerAdapter) (token : string) (expected_nonce : option string)
    (seen_jti : option (list string)) (current : Z) : res OidcClaims * option (list string) :=
  match open_token a token expected_nonce with
  | Raise e => (Raise e, seen_jti)
  | Ok (payload, sub) =>
      let jti := strip (py_str (dict_get_or "jti" (JStr "") payload)) in
      match seen_jti with
      | Some seen =>
          if truthy jti then
            if existsb (String.eqb jti) seen then (Raise (OidcValidationError "replay_detected"), seen_jti)
            else (read_claims a payload sub jti current, Some (jti :: seen))
          else (read_claims a payload sub jti current, seen_jti)
      | None => (read_claims a payload sub jti current, None)
      end
  end.

Definition fetch_discovery (issuer : string) : res dict :=
  response ← http_get (rstrip_slash issuer +:+ "/.well-known/openid-configuration");
  body_of response.
End adapter.

(** ** Properties *)

Section proofs.
Context `{Provider}.

(** A token is accepted only as what the issuer signed: decoded for the
    adapter's audience and issuer, of a subject, not before its time, and of
    Google where only Google is hosted. *)
Theorem id_token_sound a token nonce seen current c seen' :
  validate_id_token a token nonce seen current = (Ok c, seen') ->
  exists payload, jwt_payload token (oa_audience a) (oa_issuer a) = inl payload /\
    truthy (cl_subject c) = true /\ cl_subject c = strip (py_str (dict_get_or "sub" (JStr "") payload)) /\
    (forall v nbf, dict_lookup "nbf" payload = Some v -> v <> JNull -> json_int v = Ok nbf -> nbf <= current) /\
    (forall n, nonce = Some n -> dict_get "nonce" payload = JStr n) /\
    (oa_hosted_google_only a = true -> cl_provider c = Some "google") /\
    (forall l j, seen = Some l -> cl_jti c = Some j -> j ∉ l /\ seen' = Some (j :: l)).
Proof.
  unfold validate_id_token. intros Hv. destruct (open_token a token nonce) as [[payload sub]|e] eqn:Eo; [|by injection Hv].
  unfold open_token in Eo. apply bind_Ok in Eo as (d & Hd & Eo). destruct (jwt_payload token _ _) as [d'|je] eqn:Ej; [|done].
  injection Hd as ->. apply bind_Ok in Eo as ([] & Hsub & Eo). apply raise_if_Ok in Hsub.
  apply bind_Ok in Eo as ([] & Hn & Eo). injection Eo as -> <-. exists payload. split; [reflexivity|].
  set (jti := strip _) in Hv.
  assert (Hr : read_claims a payload (strip (py_str (dict_get_or "sub" (JStr "") payload))) jti current = Ok c).
  { destruct seen as [l|]; [|by injection Hv]. destruct (truthy jti); [|by injection Hv]. destruct (existsb _ _); by injection Hv. }
  unfold read_claims in Hr. apply bind_Ok in Hr as ([] & Hg & Hr). apply raise_if_Ok in Hg.
  apply bind_Ok in Hr as (exp & Hexp & Hr). apply bind_Ok in Hr as ([] & Hnbf & Hr).
  apply bind_Ok in Hr as (aud & Haud & Hr). apply bind_Ok in Hr as (au & Hau & Hr). apply bind_Ok in Hr as (iss & Hiss & Hr).
  injection Hr as <-. cbn [cl_subject cl_provider cl_jti]. split; [by apply negb_false_iff in Hsub|]. split; [reflexivity|].
  split_and!.
  - intros v nbf Hl Hv0 Hi. unfold dict_get in Hnbf. rewrite Hl in Hnbf. cbn [default] in Hnbf.
    assert (Hx : (n ← json_int v; raise_if (current <? n) (OidcValidationError "token_not_yet_valid")) = Ok ()) by by destruct v.
    rewrite Hi in Hx. cbn [mbind res_bind] in Hx. apply raise_if_Ok in Hx. by apply Z.ltb_ge.
  - intros n ->. apply raise_if_Ok, negb_false_iff, bool_decide_eq_true in Hn. done.
  - intros Hh. rewrite Hh in Hg. cbn [andb] in Hg. by apply negb_false_iff, bool_decide_eq_true in Hg.
  - intros l j -> Hj. destruct (truthy jti); [|done]. injection Hj as <-. destruct (existsb _ _) eqn:Ee; [done|].
    injection Hv as _ <-. split; [|done]. intros Hin. assert (existsb (String.eqb jti) l = true); [|congruence].
    apply existsb_exists. exists jti. split; [by apply list_elem_of_In|apply String.eqb_refl].
Qed.
End proofs.
