(* ===== verification/Auth.v ===== *)
(** * Signing in and out (services/core/src/memdot_core/auth/)

    routes.py: the login of a browser over OpenID, its attestation, its session.
    activation.py and bootstrap.py: the identity behind a login.  sessions.py:
    the material of a session and the encryption of the PKCE verifier.  The SQL
    functions named memdot_auth_ and memdot_oidc_ run with the rights of their
    owner and see every row; what runs in a [tenant_scope] runs under the row
    policies.  The texts of [secrets] are the class [Secrets]. *)

From Stdlib Require Import Ascii ZArith Lia.
From stdpp Require Import base gmap list relations strings.
From S2P Require Import Prelude Float64 PyStr Digest Json Uuid Enums Base64 Ledger Store RequestContext Deletion AuthSnapshot ServiceAuth TenantContext ExternalAccess RowPolicies Errors Policy McpRoutes Isolation WebRoutes ConversationCrypto Config Oidc.
Open Scope Z_scope.

(** [secrets.token_urlsafe(n)] and [secrets.token_hex(n)], by position. *)
Class Secrets := {
  token_urlsafe : nat -> nat -> string;
  token_hex : nat -> nat -> string;
}.

(** ** Sessions (sessions.py) *)

Record SessionMaterial := { sm_session_id : uuid; sm_secret : string; sm_csrf_token : string }.

Record SessionCookieNames := { n_session : string; n_csrf : string; n_oidc_state : string }.

Definition names : SessionCookieNames :=
  {| n_session := "memdot_session"; n_csrf := "memdot_csrf"; n_oidc_state := "memdot_oidc_state" |}.

Definition PKCE_AAD : list Z := utf8 "memdot-oidc-pkce-v1".

Definition require_pepper (pepper : string) : res unit :=
  raise_if (String.length pepper <? 16)%nat (RuntimeError "CORE_SESSION_SIGNING_PEPPER must contain at least 16 characters").

Section sessions.
Context `{Env} `{Secrets} `{Cryptography} (pepper : string).

Definition draw_urlsafe (n : nat) : M string := fun w => Ok (token_urlsafe n (tick w), {| db := db w; tick := S (tick w) |}).
Definition draw_hex (n : nat) : M string := fun w => Ok (token_hex n (tick w), {| db := db w; tick := S (tick w) |}).

Definition new_session_material : M SessionMaterial :=
  session_id ← new_uuid;
  secret ← draw_urlsafe 48;
  csrf_token ← draw_urlsafe 32;
  mret {| sm_session_id := session_id; sm_secret := secret; sm_csrf_token := csrf_token |}.

Definition encrypt_ephemeral_secret (v : string) : M string :=
  _ ← lift (require_pepper pepper);
  nonce ← draw_nonce;
  mret (b64encode (nonce ++ aesgcm_encrypt (sha256 (utf8 pepper)) nonce (utf8 v) PKCE_AAD)).

Definition decrypt_ephemeral_secret (v : string) : res string :=
  _ ← require_pepper pepper;
  raw ← of_option (ValueError "binascii.Error") (b64decode v);
  _ ← raise_if (Z.of_nat (length raw) <? 13) (ValueError "invalid encrypted auth material");
  plaintext ← of_option (Refused "InvalidTag" "") (aesgcm_decrypt (sha256 (utf8 pepper)) (take 12 raw) (drop 12 raw) PKCE_AAD);
  of_option (ValueError "UnicodeDecodeError") (utf8_decode plaintext).
End sessions.

(** ** The SQL functions *)

Section sql.
Context `{Env}.

Definition memdot_oidc_create_challenge (id : uuid) (state_hash nonce_hash verifier : string) (expires_at : Z) : M unit :=
  t ← now;
  add {| OidcLoginChallenge.id := id; OidcLoginChallenge.state_hash := state_hash; OidcLoginChallenge.nonce_hash := nonce_hash;
         OidcLoginChallenge.pkce_verifier_ciphertext := verifier; OidcLoginChallenge.expires_at := expires_at;
         OidcLoginChallenge.consumed_at := None; OidcLoginChallenge.created_at := t |}.

Definition has_state (state_hash : string) (c : OidcLoginChallenge.t) : bool :=
  String.eqb (OidcLoginChallenge.state_hash c) state_hash.

Definition memdot_oidc_load_challenge (state_hash : string) : M (option OidcLoginChallenge.t) := select_opt (has_state state_hash).

Definition consumable (id : uuid) (t : Z) (c : OidcLoginChallenge.t) : bool :=
  same (OidcLoginChallenge.id c) id && match OidcLoginChallenge.consumed_at c with None => true | Some _ => false end &&
  (t <? OidcLoginChallenge.expires_at c).

Definition memdot_oidc_consume_challenge (id : uuid) (t : Z) : M bool :=
  n ← update_where (consumable id t) (OidcLoginChallenge.set_consumed_at (Some t));
  mret (0 <? n).

Definition memdot_oidc_record_replay (id : uuid) (issuer jti : string) (expires_at : Z) : M unit :=
  t ← now;
  add {| OidcTokenReplay.id := id; OidcTokenReplay.issuer := issuer; OidcTokenReplay.jti := jti;
         OidcTokenReplay.expires_at := expires_at; OidcTokenReplay.created_at := t |}.

Definition memdot_auth_find_identity (issuer subject : string) : M (option ExternalIdentity.t) :=
  l ← select (fun e => String.eqb (ExternalIdentity.issuer e) issuer && String.eqb (ExternalIdentity.subject e) subject);
  mret (hd_error l).

Definition memdot_auth_find_actor_for_user (account user : uuid) : M (option Actor.t) :=
  l ← select (fun a => same (Actor.account_id a) account && opt_same (Actor.reference_id a) (Some user) &&
                       String.eqb (Actor.kind a) "user");
  mret (hd_error l).

Definition memdot_auth_bootstrap_exists : M bool :=
  l ← select (fun b => (OperatorBootstrap.singleton_key b =? 1) &&
                       match OperatorBootstrap.revoked_at b with None => true | Some _ => false end);
  mret (match l with [] => false | _ => true end).

(** The rows of a new identity, common to both ways of provisioning one. *)
Definition provision (account user actor : uuid) (status : string) (display_name email : option string)
    (issuer subject : string) (provider : option string) : M unit :=
  t ← now;
  _ ← add {| Account.id := account; Account.account_id := account; Account.status := status; Account.display_name := display_name;
             Account.timezone := None; Account.created_at := t; Account.updated_at := t |};
  _ ← add {| User.id := user; User.account_id := account; User.email := email; User.display_name := display_name; User.created_at := t |};
  member ← new_uuid;
  _ ← add {| AccountMember.id := member; AccountMember.account_id := account; AccountMember.user_id := user;
             AccountMember.role := "owner"; AccountMember.created_at := t |};
  identity ← new_uuid;
  _ ← add {| ExternalIdentity.id := identity; ExternalIdentity.account_id := account; ExternalIdentity.user_id := user;
             ExternalIdentity.issuer := issuer; ExternalIdentity.subject := subject; ExternalIdentity.provider := provider;
             ExternalIdentity.created_at := t |};
  add {| Actor.id := actor; Actor.account_id := account; Actor.kind := "user"; Actor.reference_id := Some user;
         Actor.revoked_at := None; Actor.created_at := t |}.

Definition memdot_auth_provision_hosted (account user actor : uuid) (email : option string) (issuer subject provider : string) : M unit :=
  provision account user actor "pending_attestation" None email issuer subject (Some provider).

Definition memdot_auth_provision_bootstrap (account user actor bootstrap : uuid) (email : option string) (issuer subject : string)
    (provider : option string) : M unit :=
  exists_ ← memdot_auth_bootstrap_exists;
  _ ← guard exists_ (DatabaseError "bootstrap_already_completed");
  _ ← provision account user actor "active" (Some "Operator") email issuer subject provider;
  t ← now;
  add {| OperatorBootstrap.id := bootstrap; OperatorBootstrap.account_id := account; OperatorBootstrap.issuer := issuer;
         OperatorBootstrap.subject := subject; OperatorBootstrap.singleton_key := 1; OperatorBootstrap.completed_at := t;
         OperatorBootstrap.revoked_at := None |}.

(** ** Identities (activation.py, bootstrap.py) *)

Record IdentityLinkResult := { il_account_id : uuid; il_user_id : uuid; il_actor_id : uuid; il_created : bool }.

Definition link_or_create_hosted_identity (claims : OidcClaims) : M IdentityLinkResult :=
  existing ← memdot_auth_find_identity (cl_issuer claims) (cl_subject claims);
  match existing with
  | Some e =>
      actor ← memdot_auth_find_actor_for_user (ExternalIdentity.account_id e) (ExternalIdentity.user_id e);
      match actor with
      | None => raiseM (RuntimeError "actor_missing_for_identity")
      | Some a => mret {| il_account_id := ExternalIdentity.account_id e; il_user_id := ExternalIdentity.user_id e;
                          il_actor_id := Actor.id a; il_created := false |}
      end
  | None =>
      account_id ← new_uuid;
      user_id ← new_uuid;
      actor_id ← new_uuid;
      _ ← memdot_auth_provision_hosted account_id user_id actor_id (cl_email claims) (cl_issuer claims) (cl_subject claims)
            (or_text (cl_provider claims) (Some "google"));
      mret {| il_account_id := account_id; il_user_id := user_id; il_actor_id := actor_id; il_created := true |}
  end.

Record BootstrapResult := { bs_account_id : uuid; bs_user_id : uuid; bs_actor_id : uuid; bs_bootstrap_id : uuid }.

Definition BootstrapReplayError : exn := Refused "BootstrapReplayError" "bootstrap_already_completed".

Definition operator_bootstrap_exists : M bool := memdot_auth_bootstrap_exists.

(** The error of the SQL function becomes the one of the service. *)
Definition rename_replay {A} (m : M A) : M A := fun w =>
  match m w with
  | Raise e => Raise (if bool_decide (e = DatabaseError "bootstrap_already_completed") then BootstrapReplayError else e)
  | r => r
  end.

Definition complete_operator_bootstrap (claims : OidcClaims) : M BootstrapResult :=
  done ← operator_bootstrap_exists;
  _ ← guard done BootstrapReplayError;
  account_id ← new_uuid;
  user_id ← new_uuid;
  actor_id ← new_uuid;
  bootstrap_id ← new_uuid;
  _ ← rename_replay (memdot_auth_provision_bootstrap account_id user_id actor_id bootstrap_id (cl_email claims) (cl_issuer claims)
                       (cl_subject claims) (cl_provider claims));
  mret {| bs_account_id := account_id; bs_user_id := user_id; bs_actor_id := actor_id; bs_bootstrap_id := bootstrap_id |}.

Definition AttestationDeclinedError : exn := Refused "AttestationDeclinedError" "attestation_declined".
Definition AttestationRequiredError : exn := Refused "AttestationRequiredError" "account_missing".

Definition attestation_of (account user : uuid) (r : HostedAdultAttestation.t) : bool :=
  same (HostedAdultAttestation.account_id r) account && same (HostedAdultAttestation.user_id r) user.

Definition record_adult_attestation (account_id user_id : uuid) (confirmed : bool) : M unit :=
  _ ← guard (negb confirmed) AttestationDeclinedError;
  account ← select_opt (fun a => same (Account.id a) account_id);
  match account with
  | None => raiseM AttestationRequiredError
  | Some account =>
      existing ← select_opt (attestation_of account_id user_id);
      _ ← match existing with
          | Some _ => mret tt
          | None =>
              attestation_id ← new_uuid;
              t ← now;
              add {| HostedAdultAttestation.id := attestation_id; HostedAdultAttestation.account_id := account_id;
                     HostedAdultAttestation.user_id := user_id; HostedAdultAttestation.confirmed := true;
                     HostedAdultAttestation.attested_at := t |}
          end;
      t ← now;
      update (Account.id account) (fun a =>
        if String.eqb (Account.status a) (value AccountStatus.ACTIVE) then a
        else Account.set_updated_at t (Account.set_status (value AccountStatus.ACTIVE) a))
  end.
End sql.

(** ** Answers *)

(** A cookie set on the answer, [None] to delete it. *)
Record Cookie := { ck_name : string; ck_value : option string; ck_httponly : bool; ck_secure : bool; ck_max_age : option Z }.

Record AuthAnswer := { au_response : Response; au_cookies : list Cookie }.

Definition _problem (status : Z) (code : string) : AuthAnswer :=
  {| au_response := {| rs_status := status; rs_body := [("type", JStr ("about:memdot/problems/" +:+ code)); ("title", JStr code);
                                                       ("status", JInt status)] |};
     au_cookies := [] |}.

(** FastAPI's answer to an [HTTPException]. *)
Definition http_refusal (status : Z) (code : string) : AuthAnswer :=
  {| au_response := {| rs_status := status; rs_body := [("detail", JObj [("code", JStr code)])] |}; au_cookies := [] |}.

Definition said (status : string) (extra : dict) (cookies : list Cookie) : AuthAnswer :=
  {| au_response := {| rs_status := 200; rs_body := ("status", JStr status) :: extra |}; au_cookies := cookies |}.

Definition delete_cookie (name : string) : Cookie :=
  {| ck_name := name; ck_value := None; ck_httponly := false; ck_secure := false; ck_max_age := Some 0 |}.

(** [settings.env in {"hosted", "self_host", "production"}]. *)
Definition secure (s : CoreSettings) : bool := among ["hosted"; "self_host"; "production"] (env s).

Definition session_cookies (s : CoreSettings) (m : SessionMaterial) : list Cookie :=
  [{| ck_name := n_session names; ck_value := Some (str_uuid (sm_session_id m) +:+ "." +:+ sm_secret m); ck_httponly := true;
      ck_secure := secure s; ck_max_age := Some 86400 |};
   {| ck_name := n_csrf names; ck_value := Some (sm_csrf_token m); ck_httponly := false; ck_secure := secure s;
      ck_max_age := Some 86400 |}].

(** ** Early returns and exceptions *)

(** A step that may answer at once. *)
Definition stop {A} (m : M (AuthAnswer + A)) (k : A -> M AuthAnswer) : M AuthAnswer :=
  r ← m; match r with inl a => mret a | inr x => k x end.

(** [try: m except E as e: return answer]; what it wrote is rolled back. *)
Definition trying {A} (caught : exn -> option AuthAnswer) (m : M A) : M (AuthAnswer + A) := fun w =>
  match m w with
  | Ok (x, w2) => Ok (inr x, w2)
  | Raise e => match caught e with Some a => Ok (inl a, w) | None => Raise e end
  end.

Definition HTTPException (code : string) : exn := Refused "HTTPException" code.

Definition on_http (answer_ : string -> AuthAnswer) (e : exn) : option AuthAnswer :=
  match e with Refused name code => if String.eqb name "HTTPException" then Some (answer_ code) else None | _ => None end.

Definition on_oidc (answer_ : string -> AuthAnswer) (e : exn) : option AuthAnswer :=
  match e with Refused name code => if String.eqb name "OidcValidationError" then Some (answer_ code) else None | _ => None end.

Section routes.
Context `{Env} `{Secrets} `{Cryptography} `{Provider} (key : list Z) (settings : CoreSettings).
Notation pepper := (session_signing_pepper settings).

(** [tenant_scope]: the context is begun, and the rest runs under its policies. *)
Definition in_scope (t : TenantContext) : RequestContext :=
  {| account_id := tc_account_id t; actor_id := tc_actor_id t; user_id := 0; purpose := tc_purpose t; correlation_id := 0;
     session_id := None; scopes := []; eligible_space_ids := []; last_auth_at := None |}.

Definition tenant_scope {A} (t : TenantContext) (m : M A) : M A :=
  nonce ← draw_hex 16;
  _ ← begin_tenant key true nonce t;
  as_context (in_scope t) m.

Definition first_party (account actor : uuid) : TenantContext :=
  {| tc_account_id := account; tc_actor_id := actor; tc_purpose := RequestPurpose.FIRST_PARTY |}.

(** ** Login *)

Definition code_challenge (code_verifier : string) : string := unpad (b64encode (sha256 (utf8 code_verifier))).

Definition oidc_begin (a : OidcIssuerAdapter) : M AuthAnswer := fun w =>
  (state ← draw_urlsafe 32;
   nonce ← draw_urlsafe 32;
   code_verifier ← draw_urlsafe 64;
   id ← new_uuid;
   state_hash ← lift (hash_secret pepper state);
   nonce_hash ← lift (hash_secret pepper nonce);
   verifier ← encrypt_ephemeral_secret pepper code_verifier;
   t ← now;
   _ ← memdot_oidc_create_challenge id state_hash nonce_hash verifier (t + 10 * us_per_minute);
   stop (fun w1 => match trying (on_oidc (http_refusal 503))
                           (lift (authorization_url a (oidc_client_id settings) (oidc_redirect_uri settings) state nonce
                                    (code_challenge code_verifier))) w1 with
                   | Ok (inl r, w2) => Ok (inl r, {| db := db w; tick := tick w2 |})
                   | r => r
                   end)
     (fun url => mret (said "challenge_issued" [("authorization_url", JStr url)]
        [{| ck_name := n_oidc_state names; ck_value := Some state; ck_httponly := true; ck_secure := secure settings;
            ck_max_age := Some 600 |}]))) w.

(** The standing challenge of a state. *)
Definition the_challenge (state cookie_state : string) : M (AuthAnswer + OidcLoginChallenge.t) :=
  if negb (truthy cookie_state) || negb (String.eqb cookie_state state) then mret (inl (_problem 401 "invalid_oidc_state"))
  else
    state_hash ← lift (hash_secret pepper state);
    challenge ← memdot_oidc_load_challenge state_hash;
    match challenge with
    | None => mret (inl (_problem 401 "oidc_challenge_invalid"))
    | Some c =>
        if match OidcLoginChallenge.consumed_at c with Some _ => true | None => false end
        then mret (inl (_problem 401 "oidc_challenge_invalid"))
        else
          t ← now;
          mret (if OidcLoginChallenge.expires_at c <=? t then inl (_problem 401 "oidc_challenge_expired") else inr c)
    end.

(** The claims the code stands for, of the challenge's nonce. *)
Definition token_claims (a : OidcIssuerAdapter) (code : string) (c : OidcLoginChallenge.t) : M (AuthAnswer + OidcClaims) :=
  r ← trying (on_oidc (_problem 401))
        (code_verifier ← lift (decrypt_ephemeral_secret pepper (OidcLoginChallenge.pkce_verifier_ciphertext c));
         id_token ← lift (exchange_code a code code_verifier (oidc_client_id settings) (oidc_client_secret settings)
                            (oidc_redirect_uri settings));
         t ← unix_time;
         lift (fst (validate_id_token a id_token None None t)));
  match r with
  | inl answer_ => mret (inl answer_)
  | inr claims =>
      match cl_nonce claims with
      | Some nonce =>
          nonce_hash ← lift (if truthy nonce then hash_secret pepper nonce else mret "");
          mret (if negb (truthy nonce) || negb (String.eqb nonce_hash (OidcLoginChallenge.nonce_hash c))
                then inl (_problem 401 "invalid_nonce") else inr claims)
      | None => mret (inl (_problem 401 "invalid_nonce"))
      end
  end.

(** [datetime.fromtimestamp(t, tz=UTC)] of seconds within the calendar. *)
Definition fromtimestamp (t : Z) : res Z :=
  if (t <? -62135596800) || (253402300799 <? t) then Raise (ValueError "year is out of range") else Ok (t * 1000000).

Definition on_replay (e : exn) : option AuthAnswer :=
  match e with IntegrityError _ => Some (_problem 401 "replay_detected") | _ => None end.

Definition spend_token (claims : OidcClaims) : M (AuthAnswer + unit) :=
  match cl_jti claims with
  | None => mret (inr tt)
  | Some jti =>
      trying on_replay
        (id ← new_uuid;
         expires_at ← lift (fromtimestamp (cl_expires_at claims));
         memdot_oidc_record_replay id (cl_issuer claims) jti expires_at)
  end.

Definition consume (c : OidcLoginChallenge.t) : M (AuthAnswer + unit) :=
  t ← now;
  consumed ← memdot_oidc_consume_challenge (OidcLoginChallenge.id c) t;
  mret (if (consumed : bool) then inr tt else inl (_problem 401 "oidc_challenge_invalid")).

(** Who logs in: account, user and actor. *)
Definition sign_in (claims : OidcClaims) : M (AuthAnswer + (uuid * uuid * uuid)) :=
  self_host ← lift (is_self_host settings);
  bootstrap ← (if (self_host : bool) then e ← operator_bootstrap_exists; mret (negb e) else (mret false : M bool));
  if (bootstrap : bool) then
    r ← trying (fun e => if bool_decide (e = BootstrapReplayError) then Some (_problem 409 "bootstrap_replay") else None)
          (complete_operator_bootstrap claims);
    mret (match r with inl a => inl a | inr b => inr (bs_account_id b, bs_user_id b, bs_actor_id b) end)
  else
    linked ← link_or_create_hosted_identity claims;
    mret (inr (il_account_id linked, il_user_id linked, il_actor_id linked)).

Definition new_session (m : SessionMaterial) (account user actor : uuid) (secret_hash csrf_hash : string) (expiry : Z * Z)
    (last_auth_at : Z) (rotated_at : option Z) (t : Z) : BrowserSession.t :=
  {| BrowserSession.id := sm_session_id m; BrowserSession.account_id := account; BrowserSession.user_id := user;
     BrowserSession.actor_id := actor; BrowserSession.secret_hash := secret_hash; BrowserSession.csrf_token_hash := csrf_hash;
     BrowserSession.expires_at := expiry.1; BrowserSession.idle_expires_at := expiry.2; BrowserSession.last_auth_at := last_auth_at;
     BrowserSession.rotated_at := rotated_at; BrowserSession.revoked_at := None; BrowserSession.created_at := t |}.

Definition open_session (account user actor : uuid) : M AuthAnswer :=
  material ← new_session_material;
  t ← now;
  _ ← tenant_scope (first_party account actor)
        (secret_hash ← lift (hash_secret pepper (sm_secret material));
         csrf_hash ← lift (hash_secret pepper (sm_csrf_token material));
         t2 ← now;
         add (new_session material account user actor secret_hash csrf_hash (session_expiry t 24 60) t2 None t2));
  mret (said "authenticated" [("account_id", JStr (str_uuid account))]
          (session_cookies settings material ++ [delete_cookie (n_oidc_state names)])).

Definition oidc_callback (a : OidcIssuerAdapter) (code state cookie_state : string) : M AuthAnswer :=
  stop (the_challenge state cookie_state) (fun challenge =>
  stop (token_claims a code challenge) (fun claims =>
  stop (spend_token claims) (fun _ =>
  stop (consume challenge) (fun _ =>
  stop (sign_in claims) (fun who => let '(account, user, actor) := who in open_session account user actor))))).

(** ** Sessions *)

Definition _load_browser_session (rq : WebRequest) : M (TenantContext * BrowserSession.t) :=
  match split_once "." (default "" (wr_cookie rq)) with
  | None => raiseM (HTTPException "session_missing")
  | Some (session_id_str, secret) =>
      match parse_uuid session_id_str with
      | None => raiseM (HTTPException "session_malformed")
      | Some sid =>
          secret_digest ← lift (hash_secret pepper secret);
          found ← (fun w => Ok (memdot_auth_load_session (db w) sid secret_digest, w));
          match found with
          | None => raiseM (HTTPException "session_invalid")
          | Some row =>
              t ← now;
              _ ← guard (negb (is_session_active (s_expires_at row) (s_idle_expires_at row) (s_revoked_at row) t))
                    (HTTPException "session_expired");
              let ctx := first_party (s_account_id row) (s_actor_id row) in
              loaded ← tenant_scope ctx
                         (b ← select_opt (fun b => same (BrowserSession.id b) (s_id row));
                          match b with None => raiseM (HTTPException "session_invalid") | Some b => mret b end);
              mret (ctx, loaded)
          end
      end
  end.

Definition require_csrf (rq : WebRequest) (b : BrowserSession.t) : M unit :=
  let header := default "" (wr_headers rq "x-csrf-token") in
  if negb (truthy header) then raiseM (HTTPException "csrf_failed")
  else ok ← lift (verify_session_secret pepper header (BrowserSession.csrf_token_hash b)); guard (negb ok) (HTTPException "csrf_failed").

Definition require_recent_auth_of (b : BrowserSession.t) (max_age_minutes : Z) : M unit :=
  t ← now;
  guard (negb (recent_auth_satisfied (BrowserSession.last_auth_at b) max_age_minutes t)) (HTTPException "recent_auth_required").

(** The session of a request that changes something. *)
Definition with_session (rq : WebRequest) (k : TenantContext * BrowserSession.t -> M AuthAnswer) : M AuthAnswer :=
  stop (trying (on_http (_problem 401)) (_load_browser_session rq)) (fun s =>
  stop (trying (on_http (fun _ => _problem 403 "csrf_failed")) (require_csrf rq s.2)) (fun _ => k s)).

Definition on_attestation (e : exn) : option AuthAnswer :=
  if bool_decide (e = AttestationDeclinedError) then Some (_problem 403 "attestation_declined")
  else if bool_decide (e = AttestationRequiredError) then Some (_problem 400 "attestation_required") else None.

Definition adult_attestation (confirmed : bool) (rq : WebRequest) : M AuthAnswer :=
  with_session rq (fun s =>
  stop (trying on_attestation
          (tenant_scope s.1 (record_adult_attestation (BrowserSession.account_id s.2) (BrowserSession.user_id s.2) confirmed)))
    (fun _ => mret (said "active" [] []))).

Definition revoke_session (b : BrowserSession.t) : M unit :=
  t ← now;
  _ ← update (BrowserSession.id b) (BrowserSession.set_revoked_at (Some t));
  id ← new_uuid;
  t2 ← now;
  add {| SessionRevocation.id := id; SessionRevocation.account_id := BrowserSession.account_id b;
         SessionRevocation.session_id := BrowserSession.id b; SessionRevocation.revoked_at := t2 |}.

Definition logout (rq : WebRequest) : M AuthAnswer :=
  with_session rq (fun s =>
    _ ← tenant_scope s.1 (revoke_session s.2);
    mret (said "logged_out" [] [delete_cookie (n_session names); delete_cookie (n_csrf names)])).

Definition session_status (rq : WebRequest) : M AuthAnswer :=
  stop (trying (on_http (fun _ => _problem 401 "session_invalid")) (_load_browser_session rq)) (fun s =>
    attested ← tenant_scope s.1
      (select_opt (fun r => attestation_of (BrowserSession.account_id s.2) (BrowserSession.user_id s.2) r &&
                            HostedAdultAttestation.confirmed r));
    t ← now;
    mret {| au_response :=
              {| rs_status := 200;
                 rs_body := [("authenticated", JBool true); ("account_id", JStr (str_uuid (tc_account_id s.1)));
                             ("recent_auth", JBool (recent_auth_satisfied (BrowserSession.last_auth_at s.2) 15 t));
                             ("adult_attested", JBool (match attested with Some _ => true | None => false end))] |};
            au_cookies := [] |}).

Definition rotate_session (rq : WebRequest) : M AuthAnswer :=
  with_session rq (fun s =>
    material ← new_session_material;
    t ← now;
    _ ← tenant_scope s.1
      (_ ← revoke_session s.2;
       secret_hash ← lift (hash_secret pepper (sm_secret material));
       csrf_hash ← lift (hash_secret pepper (sm_csrf_token material));
       t2 ← now;
       add (new_session material (BrowserSession.account_id s.2) (BrowserSession.user_id s.2) (BrowserSession.actor_id s.2)
              secret_hash csrf_hash (session_expiry t 24 60) (BrowserSession.last_auth_at s.2) (Some t2) t2));
    mret (said "rotated" [] (session_cookies settings material))).
End routes.

(** ** What a step preserves *)

Definition preserves (P : World -> Prop) {A} (m : M A) : Prop := forall w x w', P w -> m w = Ok (x, w') -> P w'.

Section preserves.
Context (P : World -> Prop).

Lemma preserves_bind {A B} (m : M A) (k : A -> M B) : preserves P m -> (forall a, preserves P (k a)) -> preserves P (m ≫= k).
Proof. intros Hm Hk w x w' Hw Hb. stepM Hb. eapply Hk; [|exact Hb]. by eapply Hm. Qed.

Lemma preserves_ret {A} (a : A) : preserves P (mret a).
Proof. intros w x w' Hw Hm. by cleanM. Qed.

Lemma preserves_raise {A} e : preserves P (raiseM e : M A).
Proof. intros w x w' Hw Hm. discriminate. Qed.

Lemma preserves_lift {A} (r : res A) : preserves P (lift r).
Proof. intros w x w' Hw Hm. by cleanM. Qed.

Lemma preserves_guard c e : preserves P (guard c e).
Proof. intros w x w' Hw Hm. by cleanM. Qed.

Lemma preserves_stop {A} (m : M (AuthAnswer + A)) k : preserves P m -> (forall a, preserves P (k a)) -> preserves P (stop m k).
Proof. intros Hm Hk. apply preserves_bind; [done|]. intros [r|x]; [apply preserves_ret|apply Hk]. Qed.

Lemma preserves_trying {A} caught (m : M A) : preserves P m -> preserves P (trying caught m).
Proof.
  intros Hm w x w' Hw. unfold trying. destruct (m w) as [[y w2]|e] eqn:E; [intros [= _ <-]; by eapply Hm|].
  destruct (caught e); [by intros [= _ <-]|done].
Qed.

Lemma preserves_rename {A} (m : M A) : preserves P m -> preserves P (rename_replay m).
Proof.
  intros Hm w x w' Hw. unfold rename_replay. destruct (m w) as [[y w2]|e] eqn:E; [intros [= <- <-]; by eapply Hm|].
  intros Hr. exfalso. revert Hr. repeat case_match; done.
Qed.

(** A predicate of one table. *)
Context {R : Type} `{Table R}.

Lemma preserves_keeps {A} (m : M A) : (forall w w', rows (R := R) (db w') = rows (db w) -> P w -> P w') -> keeps R m -> preserves P m.
Proof. intros HP Hk w x w' Hw Hm. eapply HP; [by eapply Hk|done]. Qed.
End preserves.

Create HintDb auth.
#[export] Hint Resolve preserves_ret preserves_raise preserves_lift preserves_guard : auth.
#[export] Hint Extern 2 (preserves _ (_ ≫= _)) => apply preserves_bind; [|intros ?] : auth.
#[export] Hint Extern 1 (preserves _ (stop _ _)) => apply preserves_stop; [|intros ?] : auth.
#[export] Hint Extern 1 (preserves _ (trying _ _)) => apply preserves_trying : auth.
#[export] Hint Extern 1 (preserves _ (rename_replay _)) => apply preserves_rename : auth.
#[export] Hint Extern 3 (preserves _ (match ?x with _ => _ end)) => destruct x : auth.

(** ** The tenant scope *)

Section scope.
Context `{Env} `{Secrets} (key : list Z).

Lemma begin_db t nonce w s w' : begin_tenant key true nonce t w = Ok (s, w') -> db w' = db w.
Proof.
  unfold begin_tenant. intros Hb. draw Hb. step Hb as Hs. cleanM. unfold memdot_begin_tenant_context in Hb.
  step Hb as Hg. cleanM. draw Hb. step Hb as Hg. cleanM. step Hb as Hg. cleanM. step Hb as Hg. cleanM. step Hb as Hg.
  apply select_Ok in Hg as [-> ->]. destruct (keep _ _) as [|act l]; [done|]. step Hb as Hg. cleanM. step Hb as Hg. cleanM.
  assert (Hp : pure_read (authorize_actor t act)); [|by rewrite (Hp _ _ _ Hg)].
  intros v x v' Hm. unfold authorize_actor, check_member, check_grant in Hm.
  destruct (tc_purpose t); try (by cleanM); step Hm as Hk; cleanM; step Hm as Hl; apply select_Ok in Hl as [-> ->];
    [by cleanM|..]; (destruct (latest_grant _); [by cleanM|done]).
Qed.

Lemma tenant_scope_Ok {A} t (m : M A) w x w' : tenant_scope key t m w = Ok (x, w') ->
  exists w1, db w1 = db w /\ as_context (in_scope t) m w1 = Ok (x, w').
Proof.
  unfold tenant_scope. intros Hm. step Hm as Hn. injection Hn as _ <-. step Hm as Hb. apply begin_db in Hb. eexists. split; [|exact Hm]. exact Hb.
Qed.

(** A table no policy opens. *)
Lemma scope_challenges {A} t (m : M A) : keeps OidcLoginChallenge.t m -> keeps OidcLoginChallenge.t (tenant_scope key t m).
Proof.
  intros Hk w x w' (w1 & Hd & Hm)%tenant_scope_Ok. unfold as_context, under_policy in Hm.
  destruct (m _) as [[y w2]|e] eqn:E; [|done]. apply bind_Ok in Hm as (d & Hs & Hm). injection Hm as -> <-. cbn [db].
  apply settle_db_Settled in Hs. apply Hk in E. cbn [db] in E. destruct Hs as [].
  change (rows (R := OidcLoginChallenge.t) d) with (t_oidc_login_challenge d). rewrite <- Hd.
  change (t_oidc_login_challenge (db w2)) with (rows (R := OidcLoginChallenge.t) (db w2)) in sd_oidc_login_challenge.
  rewrite E in sd_oidc_login_challenge.
  change (rows (visible (access (in_scope t) (db w1)) (db w1))) with
    (keep (shown (access (in_scope t) (db w1))) (t_oidc_login_challenge (db w1))) in sd_oidc_login_challenge.
  rewrite settle_same in sd_oidc_login_challenge. by injection sd_oidc_login_challenge as <-.
Qed.
End scope.

(** ** Sessions that ended *)

Notation sessions w := (rows (R := BrowserSession.t) (db w)).
Notation challenges w := (rows (R := OidcLoginChallenge.t) (db w)).

(** From [l] to [l2] no session disappears, and none that is revoked comes back,
    under its identifier. *)
Record tends (l l2 : list BrowserSession.t) : Prop := {
  tn_kept : forall b, b ∈ l -> exists b2, b2 ∈ l2 /\ BrowserSession.id b2 = BrowserSession.id b;
  tn_from : forall b2, b2 ∈ l2 ->
    (exists b, b ∈ l /\ BrowserSession.id b = BrowserSession.id b2 /\
       (is_Some (BrowserSession.revoked_at b) -> is_Some (BrowserSession.revoked_at b2))) \/
    (forall b, b ∈ l -> BrowserSession.id b <> BrowserSession.id b2);
}.

#[export] Instance tends_refl : Reflexive tends.
Proof. intros l. split; [by eauto|]. intros b Hb. left. by exists b. Qed.

#[export] Instance tends_trans : Transitive tends.
Proof.
  intros l m n [K1 F1] [K2 F2]. split.
  - intros b (b2 & Hb2 & Hi)%K1. apply K2 in Hb2 as (b3 & Hb3 & Hi3). exists b3. split; [done|congruence].
  - intros b3 [(b2 & Hb2 & Hi & Hr)|Hn]%F2.
    + destruct (F1 b2 Hb2) as [(b & Hb & Hi2 & Hr2)|Hn]; [left; exists b; split_and!; [done|congruence|by eauto]|].
      right. intros b Hb. rewrite <- Hi. by apply Hn.
    + right. intros b (b2 & Hb2 & Hi)%K1. rewrite <- Hi. by apply Hn.
Qed.

Lemma session_clash a b : BrowserSession.id a = BrowserSession.id b -> clash a b <> None.
Proof. intros He. cbn [clash browser_session_table]. unfold BrowserSession.clash, same. by rewrite bool_decide_eq_true_2. Qed.

Lemma tends_add (b : BrowserSession.t) w u w' : add b w = Ok (u, w') -> tends (sessions w) (sessions w').
Proof.
  intros [Hc ->]%add_Ok. cbn [db]. rewrite rows_set_rows. split.
  - intros x Hx. exists x. split; [by apply elem_of_app; left|done].
  - intros x [Hx| ->%list_elem_of_singleton]%elem_of_app; [left; by exists x|]. right. intros y Hy He.
    by apply (session_clash y b He), Hc.
Qed.

Lemma tends_revoke id t w u w' : update id (BrowserSession.set_revoked_at (Some t)) w = Ok (u, w') -> tends (sessions w) (sessions w').
Proof.
  intros ->%update_Ok. cbn [db]. rewrite rows_set_rows. split.
  - intros x Hx. eexists. split; [by apply list_elem_of_fmap_2|]. by destruct (_ =? _).
  - intros x (y & -> & Hy)%list_elem_of_fmap. left. exists y. split; [done|]. by destruct (_ =? _).
Qed.

Definition all_tends {A} (m : M A) : Prop := forall w x w', m w = Ok (x, w') -> tends (sessions w) (sessions w').

(** A written row clashes with no row it was not shown. *)
Lemma settle_hidden {R} `{Table R} `{Policy R} `{EqDecision R} a (full after l : list R) h r : settle a full after = Ok l ->
  h ∈ full -> shown a h = false -> r ∈ after -> r ∉ keep (shown a) full -> clash h r = None.
Proof.
  unfold settle. case_bool_decide as Ha; [intros _ _ _ Hr Hn; by rewrite Ha in Hr|]. intros Hs Hh Hsh Hr Hn.
  apply bind_Ok in Hs as ([] & _ & Hs). apply bind_Ok in Hs as ([] & Hc & _). apply raise_if_Ok in Hc.
  destruct (clash h r) as [c|] eqn:Ec; [|done]. rewrite <- not_true_iff_false in Hc. exfalso. apply Hc, existsb_exists.
  exists h. split; [apply list_elem_of_In, elem_of_keep; by rewrite Hsh|]. apply existsb_exists. exists r.
  split; [|by rewrite Ec]. apply list_elem_of_In, elem_of_keep. split; [done|]. by rewrite bool_decide_eq_false_2.
Qed.

Section ended.
Context `{Env} `{Secrets} (key : list Z).

(** A run in a scope, on the sessions. *)
Lemma scope_sessions {A} t (m : M A) w x w' : tenant_scope key t m w = Ok (x, w') ->
  let a := access (in_scope t) (db w) in
  exists v v', m v = Ok (x, v') /\ sessions v = keep (shown a) (sessions w) /\ settle a (sessions w) (sessions v') = Ok (sessions w').
Proof.
  intros (w1 & Hd & Hm)%tenant_scope_Ok. unfold as_context, under_policy in Hm. rewrite Hd in Hm.
  destruct (m _) as [[y w2]|e] eqn:E; [|done]. apply bind_Ok in Hm as (d & Hs & Hm). injection Hm as -> <-. cbn [db].
  do 2 eexists. split; [exact E|]. split; [reflexivity|]. exact (settled (R := BrowserSession.t) _ _ _ _ Hs).
Qed.

Lemma scope_tends {A} t (m : M A) : all_tends m -> all_tends (tenant_scope key t m).
Proof.
  intros Ht w x w' (v & v' & Hm & Hv & Hs)%scope_sessions. set (a := access _ _) in *. apply Ht in Hm. rewrite Hv in Hm. destruct Hm as [K F].
  pose proof (settle_Ok _ _ _ _ Hs) as [_ Hl]. split.
  - intros b Hb. destruct (shown a b) eqn:E; [|exists b; split; [apply Hl; by right|done]].
    destruct (K b) as (b2 & Hb2 & Hi); [by apply elem_of_keep|]. exists b2. split; [apply Hl; by left|done].
  - intros b2 [Hb2|[Hb2 _]]%Hl; [|left; by exists b2]. destruct (F b2 Hb2) as [(b & Hb & Hr)|Hn].
    + apply elem_of_keep in Hb as [Hb _]. left. by exists b.
    + right. intros b Hb He. destruct (shown a b) eqn:E; [apply (Hn b); [by apply elem_of_keep|done]|].
      apply (session_clash b b2 He). eapply settle_hidden; [exact Hs|done..|]. intros Hin. by apply (Hn b2).
Qed.

(** The session [sid] is over. *)
Definition over (sid : uuid) (l : list BrowserSession.t) : Prop :=
  (exists b, b ∈ l /\ BrowserSession.id b = sid) /\
  forall b, b ∈ l -> BrowserSession.id b = sid -> is_Some (BrowserSession.revoked_at b).

Lemma over_tends sid l l2 : tends l l2 -> over sid l -> over sid l2.
Proof.
  intros [K F] [(b & Hb & Hi) Hall]. split.
  - destruct (K b Hb) as (b2 & Hb2 & Hi2). exists b2. split; [done|congruence].
  - intros b2 Hb2 Hi2. destruct (F b2 Hb2) as [(b' & Hb' & Hi' & Hr)|Hn]; [apply Hr, Hall; [done|congruence]|].
    exfalso. apply (Hn b Hb). congruence.
Qed.

Lemma over_revoke sid t w u w' : (exists b, b ∈ sessions w /\ BrowserSession.id b = sid) ->
  update sid (BrowserSession.set_revoked_at (Some t)) w = Ok (u, w') -> over sid (sessions w').
Proof.
  intros (b & Hb & Hi) ->%update_Ok. cbn [db]. rewrite rows_set_rows. split.
  - eexists. split; [by apply list_elem_of_fmap_2|]. by destruct (_ =? _).
  - intros x (y & -> & Hy)%list_elem_of_fmap. cbv beta. change (row_id y) with (BrowserSession.id y).
    destruct (Z.eqb_spec (BrowserSession.id y) sid); [by eexists|done].
Qed.

Lemma one_session sid (l : list BrowserSession.t) b c : unique_rows l -> b ∈ l -> c ∈ l ->
  BrowserSession.id b = sid -> BrowserSession.id c = sid -> b = c.
Proof.
  intros Hu Hb Hc Hbi Hci. set (p := fun x => BrowserSession.id x =? sid).
  assert (Hin : forall x, x ∈ l -> BrowserSession.id x = sid -> x ∈ keep p l).
  { intros x Hx Hi. apply elem_of_keep. split; [done|by apply Z.eqb_eq]. }
  destruct (unique_keep p l Hu) as [Hk|(x & Hk & _)].
  { intros y z Hy%Z.eqb_eq Hz%Z.eqb_eq. apply session_clash. congruence. }
  - pose proof (Hin b Hb Hbi) as Hx. rewrite Hk in Hx. by apply elem_of_nil in Hx.
  - pose proof (Hin b Hb Hbi) as Hx. pose proof (Hin c Hc Hci) as Hy. rewrite Hk in Hx, Hy.
    apply list_elem_of_singleton in Hx, Hy. congruence.
Qed.

(** A session a scope ends, when it is seen and the identifiers are unique. *)
Lemma scope_ends {A} t (m : M A) w x w' sid b :
  unique_rows (sessions w) -> tenant_scope key t m w = Ok (x, w') ->
  (forall v y v', (exists b, b ∈ sessions v /\ BrowserSession.id b = sid) -> m v = Ok (y, v') -> over sid (sessions v')) ->
  b ∈ sessions w -> BrowserSession.id b = sid -> shown (access (in_scope t) (db w)) b = true ->
  over sid (sessions w').
Proof.
  intros Hu (v & v' & Hm & Hv & Hs)%scope_sessions Ho Hb Hi Hsh. set (a := access _ _) in *.
  destruct (Ho v x v') as [(b2 & Hb2 & Hi2) Hall]; [exists b; rewrite Hv; split; [by apply elem_of_keep|done]|done|].
  pose proof (settle_Ok _ _ _ _ Hs) as [_ Hl]. split; [exists b2; split; [apply Hl; by left|done]|].
  intros c Hc Hic. apply Hl in Hc as [Hc|[Hc Hhid]]; [by apply Hall|].
  assert (c = b) as ->; [by apply (one_session sid (sessions w))|congruence].
Qed.
End ended.

(** ** What the operations leave alone *)

Section kept.
Context {R : Type} `{Table R}.

Lemma keeps_stop {A} (m : M (AuthAnswer + A)) k : keeps R m -> (forall a, keeps R (k a)) -> keeps R (stop m k).
Proof. intros Hm Hk. apply keeps_bind; [done|]. intros [r|x]; [apply keeps_ret|apply Hk]. Qed.

Lemma keeps_trying {A} caught (m : M A) : keeps R m -> keeps R (trying caught m).
Proof.
  intros Hm w x w'. unfold trying. destruct (m w) as [[y w2]|e] eqn:E; [intros [= _ <-]; by eapply Hm|].
  destruct (caught e); [by intros [= _ <-]|done].
Qed.

Lemma keeps_rename {A} (m : M A) : keeps R m -> keeps R (rename_replay m).
Proof. intros Hm w x w'. unfold rename_replay. destruct (m w) as [[y w2]|e] eqn:E; [intros [= _ <-]; by eapply Hm|done]. Qed.

Lemma keeps_urlsafe `{Secrets} n : keeps R (draw_urlsafe n).
Proof. by intros w x w' [= _ <-]. Qed.

Lemma keeps_draw_nonce `{Cryptography} : keeps R draw_nonce.
Proof. by intros w x w' [= _ <-]. Qed.

Lemma keeps_read {A} (f : World -> A) : keeps R (fun w => Ok (f w, w)).
Proof. by intros w x w' [= _ <-]. Qed.

Lemma keeps_fmap_pair {A B} (f : A -> B) (m : M A) : keeps R m -> keeps R (x ← m; mret (f x)).
Proof. intros Hm. apply keeps_bind; [done|intros ?; apply keeps_ret]. Qed.
End kept.

#[export] Hint Resolve keeps_urlsafe keeps_draw_nonce keeps_read : frame.
#[export] Hint Extern 1 (keeps _ (stop _ _)) => apply keeps_stop; [|intros ?] : frame.
#[export] Hint Extern 1 (keeps _ (trying _ _)) => apply keeps_trying : frame.
#[export] Hint Extern 1 (keeps _ (rename_replay _)) => apply keeps_rename : frame.
#[export] Hint Extern 1 (keeps _ (tenant_scope _ _ _)) => apply scope_challenges : frame.

(** Identities are no sessions and no challenges. *)
Ltac signing_in := unfold sign_in, complete_operator_bootstrap, operator_bootstrap_exists, link_or_create_hosted_identity,
  memdot_auth_provision_bootstrap, memdot_auth_provision_hosted, provision, memdot_auth_bootstrap_exists, memdot_auth_find_identity,
  memdot_auth_find_actor_for_user; frame.

Section all.
Context `{Env} `{Secrets} `{Cryptography} `{Provider} (key : list Z) (settings : CoreSettings).

Lemma all_tends_keeps {A} (m : M A) : keeps BrowserSession.t m -> all_tends m.
Proof. intros Hk w x w' Hm. by rewrite (Hk _ _ _ Hm). Qed.

Lemma all_tends_bind {A B} (m : M A) (k : A -> M B) : all_tends m -> (forall a, all_tends (k a)) -> all_tends (m ≫= k).
Proof. intros Hm Hk w x w' Hb. stepM Hb. etransitivity; [by eapply Hm|by eapply Hk]. Qed.

Lemma all_tends_stop {A} (m : M (AuthAnswer + A)) k : all_tends m -> (forall a, all_tends (k a)) -> all_tends (stop m k).
Proof. intros Hm Hk. apply all_tends_bind; [done|]. intros [r|x]; [apply all_tends_keeps, keeps_ret|apply Hk]. Qed.

Lemma all_tends_trying {A} caught (m : M A) : all_tends m -> all_tends (trying caught m).
Proof.
  intros Hm w x w'. unfold trying. destruct (m w) as [[y w2]|e] eqn:E; [intros [= _ <-]; by eapply Hm|].
  destruct (caught e); [by intros [= _ <-]|done].
Qed.

Lemma all_tends_revoke b : all_tends (revoke_session b).
Proof.
  apply all_tends_bind; [apply all_tends_keeps; frame|intros t]. apply all_tends_bind.
  - intros w u w' Hm. by eapply tends_revoke.
  - intros _. apply all_tends_keeps. frame.
Qed.

Lemma all_tends_add (b : BrowserSession.t) : all_tends (add b).
Proof. intros w u w' Hm. by eapply tends_add. Qed.

Ltac tend := repeat first
  [ apply all_tends_keeps; solve [frame]
  | apply all_tends_stop; [|intros ?] | apply all_tends_trying | apply scope_tends | apply all_tends_revoke | apply all_tends_add
  | apply all_tends_bind; [|intros ?]
  | match goal with |- all_tends (match ?x with _ => _ end) => destruct x end ].

Lemma load_tends rq : all_tends (_load_browser_session key settings rq).
Proof. unfold _load_browser_session. tend. Qed.

Lemma with_session_tends rq k : (forall s, all_tends (k s)) -> all_tends (with_session key settings rq k).
Proof.
  intros Hk. unfold with_session. apply all_tends_stop; [apply all_tends_trying, load_tends|intros s].
  apply all_tends_stop; [|intros _; apply Hk]. apply all_tends_keeps. unfold require_csrf. frame.
Qed.

Lemma open_tends account user actor : all_tends (open_session key settings account user actor).
Proof. unfold open_session, new_session_material. tend. Qed.

Lemma callback_tends a code state cookie : all_tends (oidc_callback key settings a code state cookie).
Proof.
  unfold oidc_callback. repeat (apply all_tends_stop; [|intros ?]).
  - apply all_tends_keeps. unfold the_challenge, memdot_oidc_load_challenge. frame.
  - apply all_tends_keeps. unfold token_claims. frame.
  - apply all_tends_keeps. unfold spend_token, memdot_oidc_record_replay. frame.
  - apply all_tends_keeps. unfold consume, memdot_oidc_consume_challenge. frame.
  - apply all_tends_keeps. signing_in.
  - match goal with who : uuid * uuid * uuid |- _ => destruct who as [[account user] actor] end. apply open_tends.
Qed.
End all.

(** ** Steps *)

Section steps.
Context `{Env} `{Secrets} `{Cryptography} `{Provider} (key : list Z) (settings : CoreSettings).
Notation pepper := (session_signing_pepper settings).

(** What the routes of authentication do, in any order and for any browser. *)
Inductive auth_step : World -> World -> Prop :=
| does_begin a r w w' : oidc_begin settings a w = Ok (r, w') -> auth_step w w'
| does_callback a code state cookie r w w' : oidc_callback key settings a code state cookie w = Ok (r, w') -> auth_step w w'
| does_attest confirmed rq r w w' : adult_attestation key settings confirmed rq w = Ok (r, w') -> auth_step w w'
| does_logout rq r w w' : logout key settings rq w = Ok (r, w') -> auth_step w w'
| does_status rq r w w' : session_status key settings rq w = Ok (r, w') -> auth_step w w'
| does_rotate rq r w w' : rotate_session key settings rq w = Ok (r, w') -> auth_step w w'.

(** A login that begins adds one challenge, or nothing. *)
Lemma begin_adds a w r w' : oidc_begin settings a w = Ok (r, w') ->
  db w' = db w \/ exists c w1 w2, db w1 = db w /\ add (R := OidcLoginChallenge.t) c w1 = Ok (tt, w2) /\ db w' = db w2.
Proof.
  unfold oidc_begin, draw_urlsafe, encrypt_ephemeral_secret, draw_nonce, memdot_oidc_create_challenge. intros Hm.
  step Hm as Hs. injection Hs as _ <-. step Hm as Hn. injection Hn as _ <-. step Hm as Hv. injection Hv as _ <-. draw Hm.
  step Hm as Hs. cleanM. step Hm as Hn. cleanM. step Hm as Hv. step Hv as Hp. cleanM. step Hv as Hd. injection Hd as _ <-. cleanM.
  draw Hm. step Hm as Hc. draw Hc.
  match type of Hc with add ?c ?w1 = Ok (?u, ?w2) => destruct u; unfold stop, mbind, M_bind, trying, lift in Hm end.
  destruct (authorization_url _ _ _ _ _ _) as [url|e].
  - cleanM. right. do 3 eexists. split; [|split; [exact Hc|reflexivity]]. reflexivity.
  - destruct (on_oidc _ e); [|done]. cleanM. by left.
Qed.

Lemma step_tends w w' : auth_step w w' -> tends (sessions w) (sessions w').
Proof.
  assert (Hw : forall rq k r v v', with_session key settings rq k v = Ok (r, v') -> (forall s, all_tends (k s)) -> tends (sessions v) (sessions v')).
  { intros rq k r v v' Hm Hk. by eapply with_session_tends in Hm. }
  destruct 1 as [a r w w' Hm|a code st ck r w w' Hm|c rq r w w' Hm|rq r w w' Hm|rq r w w' Hm|rq r w w' Hm].
  - apply begin_adds in Hm as [->|(c & w1 & w2 & <- & Ha & ->)]; [done|]. apply add_Ok in Ha as [_ ->]. done.
  - by eapply callback_tends.
  - eapply Hw; [exact Hm|]. intros s. apply all_tends_stop; [apply all_tends_trying, scope_tends|intros []]; apply all_tends_keeps;
      [unfold record_adult_attestation|]; frame.
  - eapply Hw; [exact Hm|]. intros s. apply all_tends_bind; [apply scope_tends, all_tends_revoke|intros []; apply all_tends_keeps; frame].
  - revert Hm. unfold session_status. intros Hm.
    assert (Ht : all_tends (session_status key settings rq)); [|by eapply Ht]. unfold session_status.
    apply all_tends_stop; [apply all_tends_trying, load_tends|intros s]. apply all_tends_bind; [apply scope_tends|intros ?]; apply all_tends_keeps; frame.
  - eapply Hw; [exact Hm|]. intros s. apply all_tends_bind; [apply all_tends_keeps; unfold new_session_material; frame|intros m].
    apply all_tends_bind; [apply all_tends_keeps; frame|intros t]. apply all_tends_bind; [|intros []; apply all_tends_keeps; frame].
    apply scope_tends. apply all_tends_bind; [apply all_tends_revoke|intros []]. repeat (apply all_tends_bind; [apply all_tends_keeps; frame|intros ?]).
    apply all_tends_add.
Qed.

(** ** Challenges *)

(** The challenge of a state was consumed. *)
Definition spent (h : string) (l : list OidcLoginChallenge.t) : Prop :=
  exists c, keep (has_state h) l = [c] /\ is_Some (OidcLoginChallenge.consumed_at c).

Lemma spent_keeps {A} h (m : M A) w x w' : keeps OidcLoginChallenge.t m -> m w = Ok (x, w') ->
  spent h (challenges w) -> spent h (challenges w').
Proof. intros Hk Hm. by rewrite (Hk _ _ _ Hm). Qed.

Lemma consume_keep h id t l : keep (has_state h) (map (fun c => if consumable id t c then OidcLoginChallenge.set_consumed_at (Some t) c else c) l) =
  map (fun c => if consumable id t c then OidcLoginChallenge.set_consumed_at (Some t) c else c) (keep (has_state h) l).
Proof.
  unfold keep. induction l as [|c l IH]; [done|]. cbn [map List.filter].
  assert (has_state h (if consumable id t c then OidcLoginChallenge.set_consumed_at (Some t) c else c) = has_state h c) as ->
    by by destruct (consumable id t c).
  destruct (has_state h c); cbn [map]; by rewrite IH.
Qed.

Lemma consume_spent h c w r w' : consume c w = Ok (r, w') -> spent h (challenges w) -> spent h (challenges w').
Proof.
  unfold consume, memdot_oidc_consume_challenge. intros Hm (x & Hk & Hs). draw Hm. step Hm as Hu. cleanM. step Hu as Hx. cleanM.
  injection Hx as _ <-. cbn [db]. rewrite rows_set_rows. cbn [db] in *. exists x. rewrite consume_keep, Hk. cbn [map]. split; [|done].
  unfold consumable. destruct Hs as [t' ->]. by rewrite andb_false_r.
Qed.
End steps.

(** Taking early returns apart. *)
Lemma stop_Ok {A} (m : M (AuthAnswer + A)) k w ans w' : stop m k w = Ok (ans, w') ->
  m w = Ok (inl ans, w') \/ exists x w1, m w = Ok (inr x, w1) /\ k x w1 = Ok (ans, w').
Proof. unfold stop. intros Hm. step Hm as Hr. destruct a as [r|x]; [cleanM; by left|right; by eauto]. Qed.

Lemma trying_Ok {A} caught (m : M A) w r w' : trying caught m w = Ok (r, w') ->
  (exists x, r = inr x /\ m w = Ok (x, w')) \/ (exists e a, r = inl a /\ caught e = Some a /\ w' = w /\ m w = Raise e).
Proof.
  unfold trying. destruct (m w) as [[x w2]|e] eqn:E; [intros [= <- <-]; left; by eauto|].
  destruct (caught e) as [a|] eqn:Ec; [intros [= <- <-]; right; exists e, a; by rewrite Ec|done].
Qed.

Section login.
Context `{Env} `{Secrets} `{Cryptography} `{Provider} (key : list Z) (settings : CoreSettings).
Notation pepper := (session_signing_pepper settings).

Lemma step_spent h w w' : auth_step key settings w w' -> spent h (challenges w) -> spent h (challenges w').
Proof.
  destruct 1 as [a r w w' Hm|a code st ck r w w' Hm|c rq r w w' Hm|rq r w w' Hm|rq r w w' Hm|rq r w w' Hm]; intros Hs.
  - apply begin_adds in Hm as [->|(c & w1 & w2 & Hd & Ha & ->)]; [done|]. rewrite <- Hd in Hs. apply add_Ok in Ha as [Hc ->].
    cbn [db]. rewrite rows_set_rows. destruct Hs as (x & Hk & Hx). exists x. split; [|done]. rewrite keep_app, Hk.
    assert (has_state h c = false) as Hf; [|by unfold keep; cbn [List.filter]; rewrite Hf].
    apply keep_one in Hk as [Hin Hh]. specialize (Hc x Hin). apply not_true_iff_false. unfold has_state in *. intros Hh2%String.eqb_eq.
    apply String.eqb_eq in Hh. cbn [clash oidc_login_challenge_table] in Hc. unfold OidcLoginChallenge.clash, same in Hc.
    rewrite (bool_decide_eq_true_2 (OidcLoginChallenge.state_hash x = _)) in Hc by congruence. by destruct (bool_decide _).
  - unfold oidc_callback in Hm. apply stop_Ok in Hm as [Hm|(x & w1 & Hm1 & Hm)].
    { eapply spent_keeps; [|exact Hm|done]. unfold the_challenge, memdot_oidc_load_challenge. frame. }
    eapply spent_keeps in Hs; [|clear Hm Hs|exact Hm1]; [|unfold the_challenge, memdot_oidc_load_challenge; frame].
    apply stop_Ok in Hm as [Hm|(y & w2 & Hm2 & Hm)]; [eapply spent_keeps; [|exact Hm|done]; unfold token_claims; frame|].
    eapply spent_keeps in Hs; [|clear Hm Hs|exact Hm2]; [|unfold token_claims; frame].
    apply stop_Ok in Hm as [Hm|(z & w3 & Hm3 & Hm)]; [eapply spent_keeps; [|exact Hm|done]; unfold spend_token, memdot_oidc_record_replay; frame|].
    eapply spent_keeps in Hs; [|clear Hm Hs|exact Hm3]; [|unfold spend_token, memdot_oidc_record_replay; frame].
    apply stop_Ok in Hm as [Hm|(u & w4 & Hm4 & Hm)]; [by eapply consume_spent|]. eapply consume_spent in Hs; [|exact Hm4].
    apply stop_Ok in Hm as [Hm|(v & w5 & Hm5 & Hm)]; [eapply spent_keeps; [|exact Hm|done]; signing_in|].
    eapply spent_keeps in Hs; [|clear Hm Hs|exact Hm5]; [|signing_in]. destruct v as [[account user] actor].
    eapply spent_keeps; [|exact Hm|done]. unfold open_session, new_session_material. frame.
  - eapply spent_keeps; [|exact Hm|done]. unfold adult_attestation, with_session, _load_browser_session, require_csrf, record_adult_attestation. frame.
  - eapply spent_keeps; [|exact Hm|done]. unfold logout, with_session, _load_browser_session, require_csrf, revoke_session. frame.
  - eapply spent_keeps; [|exact Hm|done]. unfold session_status, _load_browser_session. frame.
  - eapply spent_keeps; [|exact Hm|done].
    unfold rotate_session, with_session, _load_browser_session, require_csrf, revoke_session, new_session_material. frame.
Qed.

(** A challenge is opened for its own state, while it stands. *)
Lemma the_challenge_Ok state cookie w c w1 : the_challenge settings state cookie w = Ok (inr c, w1) ->
  cookie = state /\ db w1 = db w /\
  (OidcLoginChallenge.consumed_at c = None /\ clock (tick w) < OidcLoginChallenge.expires_at c) /\
  exists h, hash_secret pepper state = Ok h /\ keep (has_state h) (challenges w) = [c].
Proof.
  unfold the_challenge. destruct (negb (truthy cookie) || negb (String.eqb cookie state)) eqn:Ec; [intros Hm; by cleanM|].
  apply orb_false_iff in Ec as [_ Ec]. apply negb_false_iff, String.eqb_eq in Ec as ->. intros Hm. step Hm as Hh. cleanM.
  step Hm as Hs. apply select_opt_Ok in Hs as [Hs ->]. destruct a0 as [x|]; [|by cleanM].
  destruct (OidcLoginChallenge.consumed_at x) eqn:Ex; [by cleanM|]. draw Hm. cleanM.
  match goal with He : inr c = (if ?b then _ else _) |- _ => destruct b eqn:Eb; [done|injection He as <-] end.
  apply Z.leb_gt in Eb. split_and!; eauto.
Qed.

(** What a consumed challenge answers. *)
Lemma spent_refuses a code state cookie h w : hash_secret pepper state = Ok h -> spent h (challenges w) ->
  exists ans, oidc_callback key settings a code state cookie w = Ok (ans, w) /\ rs_status (au_response ans) = 401.
Proof.
  intros Hh (c & Hk & t & Ht). unfold oidc_callback, stop at 1, the_challenge.
  destruct (negb (truthy cookie) || negb (String.eqb cookie state)); [by eexists|].
  unfold lift. rewrite Hh. unfold mbind, M_bind, memdot_oidc_load_challenge, select_opt, select, lift, scalar_one_or_none, mbind, M_bind.
  rewrite Hk, Ht. by eexists.
Qed.
End login.

(** ** One login per challenge *)

Section once.
Context `{Env} `{Secrets} `{Cryptography} `{Provider} (key : list Z) (settings : CoreSettings).
Notation pepper := (session_signing_pepper settings).

(** An early answer of a step is a refusal. *)
Definition denies {A} (m : M (AuthAnswer + A)) : Prop := forall w r w', m w = Ok (inl r, w') -> rs_status (au_response r) <> 200.

Lemma denies_bind {A B} (m : M A) (k : A -> M (AuthAnswer + B)) : (forall a, denies (k a)) -> denies (m ≫= k).
Proof. intros Hk w r w' Hm. stepM Hm. by eapply Hk. Qed.

Lemma denies_answer {A} status code : status <> 200 -> denies (mret (inl (_problem status code)) : M (AuthAnswer + A)).
Proof. intros Hs w r w' Hm. cleanM. by injection H3 as ->. Qed.

Lemma denies_ret {A} (r : AuthAnswer + A) : (forall a, r = inl a -> rs_status (au_response a) <> 200) -> denies (mret r).
Proof. intros Hr w a w' Hm. cleanM. by apply Hr. Qed.

Lemma denies_trying {A} caught (m : M A) : (forall e a, caught e = Some a -> rs_status (au_response a) <> 200) -> denies (trying caught m).
Proof. intros Hc w r w' [(x & [=] & _)|(e & a & [= ->] & Ha & _)]%trying_Ok. by eapply Hc. Qed.

Lemma on_oidc_denies {status} e a : status <> 200 -> on_oidc (_problem status) e = Some a -> rs_status (au_response a) <> 200.
Proof. intros Hs. unfold on_oidc. destruct e; try done. destruct (String.eqb _ _); [|done]. by intros [= <-]. Qed.

Lemma the_challenge_denies state cookie : denies (the_challenge settings state cookie).
Proof.
  unfold the_challenge. destruct (_ || _); [by apply denies_answer|]. apply denies_bind; intros h. apply denies_bind; intros [c|]; [|by apply denies_answer].
  destruct (OidcLoginChallenge.consumed_at c); [by apply denies_answer|]. apply denies_bind; intros t. apply denies_ret. intros a.
  destruct (_ <=? _); [by intros [= <-]|done].
Qed.

Lemma token_claims_denies a code c : denies (token_claims settings a code c).
Proof.
  unfold token_claims. intros w r w' Hm. step Hm as Ht. destruct a0 as [x|claims].
  { cleanM. injection H3 as ->. eapply denies_trying; [|exact Ht]. intros e b. by apply on_oidc_denies. }
  destruct (cl_nonce claims) as [n|]; [|(eapply denies_answer; [|exact Hm]; done)]. step Hm as Hn. cleanM.
  match goal with He : inl r = (if ?b then _ else _) |- _ => destruct b; [injection He as ->|done] end. done.
Qed.

Lemma spend_denies claims : denies (spend_token claims).
Proof.
  unfold spend_token. destruct (cl_jti claims); [|by apply denies_ret]. apply denies_trying. intros e a. unfold on_replay.
  destruct e; try done. by intros [= <-].
Qed.

Lemma consume_denies c : denies (consume c).
Proof. unfold consume. apply denies_bind; intros t. apply denies_bind; intros b. apply denies_ret. intros a. destruct b; [done|by intros [= <-]]. Qed.

Lemma sign_in_denies claims : denies (sign_in settings claims).
Proof.
  unfold sign_in. apply denies_bind; intros sh. apply denies_bind; intros b. destruct b.
  - intros w r w' Hm. step Hm as Ht. cleanM. destruct a as [x|y]; [|done]. injection H3 as ->. eapply denies_trying; [|exact Ht].
    intros e b. cbn beta. case_bool_decide; [by intros [= <-]|done].
  - apply denies_bind; intros l. by apply denies_ret.
Qed.

(** The claims of a login are those of a validated token, of the challenge's nonce. *)
Lemma token_claims_Ok a code c w claims w1 : token_claims settings a code c w = Ok (inr claims, w1) ->
  (exists token t, fst (validate_id_token a token None None t) = Ok claims) /\
  exists nonce, cl_nonce claims = Some nonce /\ hash_secret pepper nonce = Ok (OidcLoginChallenge.nonce_hash c).
Proof.
  unfold token_claims. intros Hm. step Hm as Ht. destruct a0 as [x|cl]; [by cleanM|].
  apply trying_Ok in Ht as [(x & [= <-] & Ht)|(e & b & [=] & _)]. step Ht as Hd. cleanM. step Ht as Hx. cleanM. step Ht as Hu. cleanM.
  destruct (cl_nonce cl) as [n|] eqn:En; [|by cleanM]. step Hm as Hn. cleanM.
  match goal with He : inr claims = (if ?b then _ else _) |- _ => destruct b eqn:Eb; [done|injection He as ->] end.
  apply orb_false_iff in Eb as [Hn1 Hn2]. apply negb_false_iff in Hn1, Hn2. apply String.eqb_eq in Hn2 as <-.
  split; [by eauto|]. exists n. split; [done|]. by rewrite Hn1 in *.
Qed.

(** Consuming the challenge of a state. *)
Lemma consume_Ok h c w u w1 : unique_rows (challenges w) -> keep (has_state h) (challenges w) = [c] ->
  consume c w = Ok (inr u, w1) -> spent h (challenges w1).
Proof.
  intros Hu Hk. unfold consume, memdot_oidc_consume_challenge. intros Hm. draw Hm. step Hm as Hc. cleanM. step Hc as Hx. cleanM.
  injection Hx as <- <-. cbn [db] in *. rewrite rows_set_rows. exists (OidcLoginChallenge.set_consumed_at (Some (clock (tick w))) c).
  split; [|by eexists]. rewrite consume_keep, Hk. cbn [map]. f_equal.
  assert (consumable (OidcLoginChallenge.id c) (clock (tick w)) c = true) as ->; [|done].
  match goal with He : inr u = (if ?b then _ else _) |- _ => destruct b eqn:Eb; [|done] end. apply Z.ltb_lt in Eb.
  destruct (keep (consumable (OidcLoginChallenge.id c) (clock (tick w))) (challenges w)) as [|x l] eqn:El; [done|].
  assert (Hx : x ∈ challenges w /\ consumable (OidcLoginChallenge.id c) (clock (tick w)) x = true).
  { rewrite <- elem_of_keep, El. by left. } destruct Hx as [Hx Hcx]. apply keep_one in Hk as [Hc _].
  assert (x = c) as <-; [|done]. unfold consumable, same in Hcx. split_bool.
  set (p := fun y => bool_decide (OidcLoginChallenge.id y = OidcLoginChallenge.id c)).
  assert (Hp : forall y, y ∈ challenges w -> OidcLoginChallenge.id y = OidcLoginChallenge.id c -> y ∈ keep p (challenges w)).
  { intros y Hy Hi. apply elem_of_keep. split; [done|by apply bool_decide_eq_true]. }
  destruct (unique_keep p _ Hu) as [Hn|(z & Hz & _)].
  { intros y z Hy%bool_decide_eq_true Hz%bool_decide_eq_true. cbn [clash oidc_login_challenge_table]. unfold OidcLoginChallenge.clash, same.
    by rewrite bool_decide_eq_true_2 by congruence. }
  - pose proof (Hp c Hc eq_refl) as Hin. rewrite Hn in Hin. by apply elem_of_nil in Hin.
  - pose proof (Hp c Hc eq_refl) as H1c. assert (H1x : x ∈ keep p (challenges w)) by by apply Hp.
    rewrite Hz in H1c, H1x. apply list_elem_of_singleton in H1c, H1x. congruence.
Qed.
End once.

(** ** Properties *)

Section properties.
Context `{Env} `{Secrets} `{Cryptography} `{Provider} (key : list Z) (settings : CoreSettings).
Notation pepper := (session_signing_pepper settings).

Lemma steps_spent h w w' : rtc (auth_step key settings) w w' -> spent h (challenges w) -> spent h (challenges w').
Proof. induction 1; [done|]. intros Hs. eauto using step_spent. Qed.

(** A login that succeeds spends its challenge. *)
Lemma callback_spends a code state cookie w ans w2 : unique_rows (challenges w) ->
  oidc_callback key settings a code state cookie w = Ok (ans, w2) -> rs_status (au_response ans) = 200 ->
  exists h c claims nonce token t, cookie = state /\ hash_secret pepper state = Ok h /\
    keep (has_state h) (challenges w) = [c] /\
    (OidcLoginChallenge.consumed_at c = None /\ clock (tick w) < OidcLoginChallenge.expires_at c) /\
    fst (validate_id_token a token None None t) = Ok claims /\ cl_nonce claims = Some nonce /\
    hash_secret pepper nonce = Ok (OidcLoginChallenge.nonce_hash c) /\ spent h (challenges w2).
Proof.
  intros Hu Hm Hst. unfold oidc_callback in Hm.
  apply stop_Ok in Hm as [Hm|(c & w1 & Hc & Hm)]; [by apply the_challenge_denies in Hm|].
  apply the_challenge_Ok in Hc as (-> & Hd & Hn & h & Hh & Hk). rewrite <- Hd in Hu, Hk.
  apply stop_Ok in Hm as [Hm|(claims & w3 & Ht & Hm)]; [by apply token_claims_denies in Hm|].
  pose proof Ht as Hkt. apply token_claims_Ok in Ht as ((token & t & Hv) & nonce & Hno & Hnh).
  framed Hkt OidcLoginChallenge.t K1; [unfold token_claims; frame|].
  apply stop_Ok in Hm as [Hm|([] & w4 & Hs & Hm)]; [by apply spend_denies in Hm|].
  framed Hs OidcLoginChallenge.t K2; [unfold spend_token, memdot_oidc_record_replay; frame|].
  apply stop_Ok in Hm as [Hm|([] & w5 & Hcs & Hm)]; [by apply consume_denies in Hm|].
  eapply consume_Ok in Hcs; [|by rewrite K2, K1|by rewrite K2, K1].
  apply stop_Ok in Hm as [Hm|([[account user] actor] & w6 & Hsi & Hm)]; [by apply sign_in_denies in Hm|].
  framed Hsi OidcLoginChallenge.t K3; [signing_in|].
  framed Hm OidcLoginChallenge.t K4; [unfold open_session, new_session_material; frame|].
  exists h, c, claims, nonce, token, t. rewrite Hd in Hk. split_and!; try apply Hn; try done. by rewrite K4, K3.
Qed.

(** C36: a login answers a challenge this service issued for the browser, once:
    when the callback succeeds, the browser's state is that of a challenge not
    yet consumed nor expired and the issuer's token was validated and carries its nonce; and
    whatever login, logout or rotation follows, in any order, a later callback
    with the state is refused and changes nothing. *)
Theorem login_once a code state cookie w ans w2 w3 : unique_rows (challenges w) ->
  oidc_callback key settings a code state cookie w = Ok (ans, w2) -> rs_status (au_response ans) = 200 ->
  rtc (auth_step key settings) w2 w3 ->
  cookie = state /\
  (exists h c claims nonce token t, hash_secret pepper state = Ok h /\ keep (has_state h) (challenges w) = [c] /\
     OidcLoginChallenge.consumed_at c = None /\ clock (tick w) < OidcLoginChallenge.expires_at c /\
     fst (validate_id_token a token None None t) = Ok claims /\
     cl_nonce claims = Some nonce /\ hash_secret pepper nonce = Ok (OidcLoginChallenge.nonce_hash c)) /\
  forall a' code' cookie', exists refused, oidc_callback key settings a' code' state cookie' w3 = Ok (refused, w3) /\
    rs_status (au_response refused) = 401.
Proof.
  intros Hu Hm Hst Hsteps. eapply callback_spends in Hm as (h & c & claims & nonce & token & t & Hc & Hh & Hk & [Hn Hx] & Hv & Hno & Hnh & Hs); [|done..].
  split; [done|]. split; [by exists h, c, claims, nonce, token, t|]. intros a' code' cookie'.
  eapply spent_refuses; [exact Hh|]. by eapply steps_spent.
Qed.

(** ** Sessions *)

(** The session a request loads is the one its cookie names, and its scope
    sees it. *)
Lemma load_Ok rq w s w1 : _load_browser_session key settings rq w = Ok (s, w1) ->
  db w1 = db w /\ s.2 ∈ sessions w /\ shown (access (in_scope s.1) (db w)) s.2 = true /\
  exists sid secret digest, split_once "." (default "" (wr_cookie rq)) = Some (sid, secret) /\
    parse_uuid sid = Some (BrowserSession.id s.2) /\ hash_secret pepper secret = Ok digest.
Proof.
  unfold _load_browser_session. destruct (split_once _ _) as [[sid secret]|]; [|done].
  destruct (parse_uuid sid) as [u|] eqn:Eu; [|done]. intros Hm. step Hm as Hh. cleanM. step Hm as Hf. injection Hf as <- <-.
  destruct (memdot_auth_load_session (db w) u a) as [row|] eqn:El; [|done].
  assert (Hid : s_id row = u).
  { unfold memdot_auth_load_session in El. destruct (keep _ _) as [|b l] eqn:Ek; [done|]. cbn in El. injection El as <-.
    assert (Hb : b ∈ keep (fun b => same (BrowserSession.id b) u && String.eqb (BrowserSession.secret_hash b) a &&
      match BrowserSession.revoked_at b with Some _ => false | None => true end) (sessions w)) by (rewrite Ek; by left).
    apply elem_of_keep in Hb as [_ Hb]. unfold same in Hb. by split_bool. }
  draw Hm. step Hm as Hg. cleanM. step Hm as Hs. cleanM. cbn [fst snd] in *.
  apply tenant_scope_Ok in Hs as (w1 & Hd & Hs). cbn [db] in Hd.
  apply under_policy_read in Hs as [-> Hs].
  2: { intros v y v' Hv. step Hv as Hx. apply select_opt_Ok in Hx as [_ ->]. match goal with o : option BrowserSession.t |- _ => destruct o end; by cleanM. }
  step Hs as Hx. apply select_opt_Ok in Hx as [Hx Hw].
  match type of Hx with match ?o with _ => _ end => destruct o as [b|] end; [|done]. cleanM.
  apply keep_one in Hx as [Hin Hb]. unfold same in Hb. apply bool_decide_eq_true in Hb. rewrite Hd in Hin.
  apply elem_of_keep in Hin as [Hin Hsh]. split_and!; [done|done|done|]. exists sid, secret, a. split; [done|].
  split; [congruence|done].
Qed.

Lemma with_session_Ok rq k w ans w' : with_session key settings rq k w = Ok (ans, w') -> rs_status (au_response ans) = 200 ->
  exists s w0 w1, _load_browser_session key settings rq w = Ok (s, w0) /\ db w1 = db w /\ k s w1 = Ok (ans, w').
Proof.
  unfold with_session. intros Hm Hst. apply stop_Ok in Hm as [Hm|(s & w1 & Hl & Hm)].
  { exfalso. revert Hst. eapply denies_trying; [|exact Hm]. intros e a. unfold on_http. destruct e; try done.
    destruct (String.eqb _ _); [|done]. by intros [= <-]. }
  apply trying_Ok in Hl as [(x & [= <-] & Hl)|(e & b & [=] & _)].
  apply stop_Ok in Hm as [Hm|([] & w2 & Hc & Hm)].
  { exfalso. revert Hst. eapply denies_trying; [|exact Hm]. intros e a. unfold on_http. destruct e; try done.
    destruct (String.eqb _ _); [|done]. by intros [= <-]. }
  apply trying_Ok in Hc as [(x & [= <-] & Hc)|(e & b & [=] & _)].
  assert (db w2 = db w1) as Hd.
  { unfold require_csrf in Hc. destruct (negb _); [done|]. step Hc as Hv. cleanM. by cleanM. }
  destruct (load_Ok _ _ _ _ Hl) as [Hd1 _]. exists s, w1, w2. split_and!; [done|congruence|done].
Qed.

(** A session that is over loads no request. *)
Lemma over_load sid digest d : over sid (rows d) -> memdot_auth_load_session d sid digest = None.
Proof.
  intros [_ Hall]. unfold memdot_auth_load_session. rewrite keep_none; [done|]. intros b Hb. unfold same.
  destruct (bool_decide _) eqn:E; [|done]. apply bool_decide_eq_true in E. destruct (Hall b Hb E) as [t ->]. by rewrite andb_false_r.
Qed.

Lemma steps_over sid w w' : rtc (auth_step key settings) w w' -> over sid (sessions w) -> over sid (sessions w').
Proof. induction 1 as [|x y z Hs _ IH]; [done|]. intros Ho. apply IH. eapply over_tends; [by eapply step_tends|done]. Qed.

(** The session behind a successful logout or rotation is over. *)
Lemma ended_over rq w ans w2 : unique_rows (sessions w) ->
  logout key settings rq w = Ok (ans, w2) \/ rotate_session key settings rq w = Ok (ans, w2) -> rs_status (au_response ans) = 200 ->
  exists sid u secret digest, split_once "." (default "" (wr_cookie rq)) = Some (sid, secret) /\ parse_uuid sid = Some u /\
    hash_secret pepper secret = Ok digest /\ over u (sessions w2).
Proof.
  intros Hu Hm Hst.
  assert (Hrev : forall b v y v', (exists b', b' ∈ sessions v /\ BrowserSession.id b' = BrowserSession.id b) ->
    revoke_session b v = Ok (y, v') -> over (BrowserSession.id b) (sessions v')).
  { intros b v y v' He Hr. unfold revoke_session in Hr. draw Hr. step Hr as Hx. eapply over_revoke in Hx; [|exact He].
    draw Hr. draw Hr. apply add_Ok in Hr as [_ ->]. done. }
  assert (Hs : exists s w0 w1 (m : M unit), _load_browser_session key settings rq w = Ok (s, w0) /\ db w1 = db w /\
    (exists y, tenant_scope key s.1 m w1 = Ok (y, w2)) /\
    forall v y v', (exists b, b ∈ sessions v /\ BrowserSession.id b = BrowserSession.id s.2) -> m v = Ok (y, v') ->
      over (BrowserSession.id s.2) (sessions v')).
  { destruct Hm as [Hm|Hm]; apply with_session_Ok in Hm as (s & w0 & w1 & Hl & Hd & Hm); try done.
    - step Hm as Hx. cleanM. exists s, w0, w1, (revoke_session s.2). split; [done|]. split; [done|]. split; [by eexists|]. intros. by eapply Hrev.
    - step Hm as Hx. unfold new_session_material in Hx. draw Hx. step Hx as H1x. injection H1x as _ <-. step Hx as H1x. injection H1x as _ <-. cleanM.
      draw Hm. step Hm as Hx. cleanM. eexists s, w0, _, _. split; [exact Hl|]. split; [|split; [eexists; exact Hx|]]; [done|].
      intros v y v' He Hv. cbn beta in Hv. step Hv as Hr. eapply Hrev in Hr; [|exact He]. step Hv as Hh. cleanM. step Hv as Hh. cleanM.
      draw Hv. eapply over_tends; [by eapply tends_add|done]. }
  destruct Hs as (s & w0 & w1 & m & Hl & Hd & (y & Hx) & Ho).
  destruct (load_Ok _ _ _ _ Hl) as (_ & Hin & Hsh & sid & secret & digest & Hsp & Hp & Hh).
  exists sid, (BrowserSession.id s.2), secret, digest. split_and!; try done. rewrite <- Hd in Hu, Hin, Hsh.
  by eapply scope_ends.
Qed.

(** C37: after a logout or a rotation the cookie opens nothing: whatever logins,
    logouts and rotations follow, in any order, every request with the cookie
    is refused by the routes of authentication, which change nothing, and by
    every handler that asks for a session. *)
Theorem signed_out_stays_out rq w ans w2 w3 : unique_rows (sessions w) ->
  logout key settings rq w = Ok (ans, w2) \/ rotate_session key settings rq w = Ok (ans, w2) -> rs_status (au_response ans) = 200 ->
  rtc (auth_step key settings) w2 w3 ->
  forall rq', wr_cookie rq' = wr_cookie rq ->
    (forall k, with_session key settings rq' k w3 = Ok (_problem 401 "session_invalid", w3)) /\
    session_status key settings rq' w3 = Ok (_problem 401 "session_invalid", w3) /\
    forall recent body p, exists r, endpoint pepper recent plain rq' body p w3 =
      served (Ok r) p {| db := db w3; tick := S (S (tick w3)) |} /\ refusal r.
Proof.
  intros Hu Hm Hst Hsteps rq' Hck. eapply ended_over in Hm as (sid & u & secret & digest & Hsp & Hp & Hh & Ho); [|done..].
  eapply steps_over in Ho; [|exact Hsteps]. pose proof (over_load u digest _ Ho) as Hl.
  assert (Hload : _load_browser_session key settings rq' w3 = Raise (HTTPException "session_invalid")).
  { unfold _load_browser_session. rewrite Hck, Hsp, Hp. unfold lift, mbind, M_bind. rewrite Hh, Hl. done. }
  split; [|split].
  - intros k. unfold with_session. unfold stop at 1. unfold mbind, M_bind at 1. unfold trying at 1. by rewrite Hload.
  - unfold session_status. unfold stop at 1. unfold mbind, M_bind at 1. unfold trying at 1. by rewrite Hload.
  - intros recent body p. unfold endpoint, entry_check, get_request_context.
    assert (Hn : forall b c t i, load_session_context pepper (wr_cookie rq') (memdot_auth_load_session (db w3)) b c t i = None).
    { intros b c t i. unfold load_session_context. rewrite Hck. destruct (wr_cookie rq) as [ck|]; [|done]. cbn [default] in Hsp.
      cbv beta delta [id] in Hsp. by rewrite Hsp, Hp, Hh, Hl. }
    rewrite Hn. cbn [_require_ctx]. eexists. split; [reflexivity|]. done.
Qed.
End properties.

(** ** Witnesses *)

Lemma unique_one {R} `{Table R} (l : list R) : length l = 1%nat -> unique_rows l.
Proof. destruct l as [|x [|y l]]; try done. intros _. repeat constructor. Qed.

Definition test_secrets : Secrets :=
  {| token_urlsafe := fun _ n => "secret" +:+ str_of_Z (Z.of_nat n); token_hex := fun _ n => "nonce" +:+ str_of_Z (Z.of_nat n) |}.

Definition test_aead : Cryptography :=
  {| aesgcm_encrypt := fun _ _ p _ => p; aesgcm_decrypt := fun _ _ c _ => Some c; token_bytes := fun _ => repeat 0 12; payload_key := "" |}.

(** An issuer that signs the nonce of the first login. *)
Definition test_issuer : Provider :=
  {| http_get := fun _ => Ok (JObj [("authorization_endpoint", JStr "https://id.example/auth"); ("token_endpoint", JStr "https://id.example/token")]);
     http_post := fun _ _ => Ok (JObj [("id_token", JStr "token")]);
     jwt_payload := fun _ aud iss => inl [("iss", JStr iss); ("aud", JStr aud); ("sub", JStr "somebody"); ("exp", JInt 600); ("nonce", JStr "secret1")] |}.

Definition test_adapter : OidcIssuerAdapter := new_adapter "https://id.example/" "memdot-core" false.

Definition world_of {A} (r : res (A * World)) : World := match r with Ok (_, w) => w | Raise _ => empty_world end.
Definition status_of (r : res (AuthAnswer * World)) : Z := match r with Ok (a, _) => rs_status (au_response a) | Raise _ => 500 end.

Notation begins w := (@oidc_begin test_env test_secrets test_aead test_issuer hosted_settings test_adapter w).
Notation calls w := (@oidc_callback test_env test_secrets test_aead test_issuer [] hosted_settings test_adapter "code" "secret0" "secret0" w).
Notation leaves rq w := (@logout test_env test_secrets [] hosted_settings rq w).

Definition begun : World := Eval vm_compute in world_of (begins empty_world).

Lemma login_once_witness : exists ans w2 w3, calls begun = Ok (ans, w2) /\ rs_status (au_response ans) = 200 /\
  begins w2 = Ok w3 /\ exists refused, calls w3.2 = Ok (refused, w3.2) /\ rs_status (au_response refused) = 401.
Proof.
  destruct (calls begun) as [[ans w2]|e] eqn:E; [|vm_compute in E; discriminate E].
  assert (Hst : rs_status (au_response ans) = 200).
  { change (status_of (Ok (ans, w2)) = 200). rewrite <- E. vm_compute. reflexivity. }
  assert (Hw2 : w2 = world_of (calls begun)) by by rewrite E.
  destruct (begins w2) as [[r w3]|e] eqn:E3; [|rewrite Hw2 in E3; vm_compute in E3; discriminate E3].
  exists ans, w2, (r, w3). split; [reflexivity|]. split; [exact Hst|]. split; [exact E3|].
  assert (Hu : unique_rows (challenges begun)) by (apply unique_one; vm_compute; reflexivity).
  destruct (@login_once test_env test_secrets test_aead test_issuer [] hosted_settings test_adapter "code" "secret0" "secret0" begun ans w2 w3
              Hu E Hst (rtc_once _ _ (does_begin _ _ _ _ _ _ E3))) as (_ & _ & Hr).
  exact (Hr test_adapter "code" "secret0").
Defined.

(** The request of the browser that logged in. *)
Definition signed_in : World := Eval vm_compute in world_of (calls begun).

Definition cookie_values (r : res (AuthAnswer * World)) : list (option string) :=
  match r with Ok (a, _) => map ck_value (au_cookies a) | Raise _ => [] end.

Definition session_cookie : option string := Eval vm_compute in mjoin (cookie_values (calls begun) !! 0%nat).

Definition csrf_cookie : option string := Eval vm_compute in mjoin (cookie_values (calls begun) !! 1%nat).

Definition browser (method path : string) : WebRequest :=
  {| wr_method := method; wr_path := path; wr_cookie := session_cookie;
     wr_headers := fun h => if String.eqb h "x-csrf-token" then csrf_cookie else None;
     wr_now := of_int 0; wr_later := of_int 0 |}.

Notation leave := (browser "POST" "/api/v1/auth/logout").
Notation ask := (browser "GET" "/api/v1/auth/session").

Lemma signed_out_stays_out_witness : exists ans w2 r w3, leaves leave signed_in = Ok (ans, w2) /\ rs_status (au_response ans) = 200 /\
  begins w2 = Ok (r, w3) /\ @session_status test_env test_secrets [] hosted_settings ask w3 = Ok (_problem 401 "session_invalid", w3).
Proof.
  destruct (leaves leave signed_in) as [[ans w2]|e] eqn:E; [|vm_compute in E; discriminate E].
  assert (Hst : rs_status (au_response ans) = 200).
  { change (status_of (Ok (ans, w2)) = 200). rewrite <- E. vm_compute. reflexivity. }
  assert (Hw2 : w2 = world_of (leaves leave signed_in)) by by rewrite E.
  destruct (begins w2) as [[r w3]|e] eqn:E3; [|rewrite Hw2 in E3; vm_compute in E3; discriminate E3].
  exists ans, w2, r, w3. split; [reflexivity|]. split; [exact Hst|]. split; [exact E3|].
  assert (Hu : unique_rows (sessions signed_in)) by (apply unique_one; vm_compute; reflexivity).
  exact (proj1 (proj2 (@signed_out_stays_out test_env test_secrets test_aead test_issuer [] hosted_settings leave signed_in ans w2 w3
    Hu (or_introl E) Hst (rtc_once _ _ (does_begin _ _ _ _ _ _ E3)) ask eq_refl))).
Defined.

(** A hosted deployment whose mode is written [Hosted] passes the checks of its
    settings and sets its cookies without the [Secure] attribute. *)
Example hosted_without_secure : is_hosted hosted_settings = Ok true /\ secure hosted_settings = false.
Proof. split; vm_compute; reflexivity. Qed.
