(* ===== verification/NotionHttp.v ===== *)
(** * The Notion provider over HTTP (packages/provider-adapters/)

    notion_http.py: the transport interface, its urllib implementation over a
    parameter for [urlopen], and the emulator of the automated tests.
    notion_adapter.py: the provider in its two modes.  A transport keeps a state
    of its own; the adapter keeps the count of the rate limits it met.  Sleeping
    has no effect on the state. *)

From Stdlib Require Import Ascii ZArith Lia.
From stdpp Require Import base list strings.
From S2P Require Import Prelude PyStr Digest Json Float64 JsonParse Base64 Ledger Store ServiceAuth ExternalAccess RequestContext Deletion ConversationCrypto Conversations Oidc Notion.
Open Scope Z_scope.

(** ** Texts with the default separators *)

(** [json.dumps(v)]. *)
Fixpoint print_spaced (v : json) : string :=
  match v with
  | JList l => "[" +:+ join ", " (map print_spaced l) +:+ "]"
  | JObj d => "{" +:+ join ", " (map (fun kv => let '(k, x) := kv in print_str k +:+ ": " +:+ print_spaced x) d) +:+ "}"
  | v => print v
  end.

(** ** The transports (notion_http.py) *)

Record Reply := { rp_status : Z; rp_headers : list (string * string); rp_raw : list Z }.

(** What an adapter asks of a transport: the answer, and the state after it. *)
Class NotionHttpTransport (T : Type) := {
  request (method path : string) (headers : list (string * string)) (body : option (list Z))
    (query : option (list (string * string))) (t : T) : res Reply * T;
}.

(** [urllib.request.urlopen], its answers and its errors. *)
Inductive UrlopenResult := Opened (r : Reply) | HTTPError (r : Reply) | URLError (name : string).

Class Urllib := {
  urlopen (method url : string) (headers : list (string * string)) (body : option (list Z)) : UrlopenResult;
}.

Record UrllibNotionTransport := { ut_base_url : string }.

Definition lstrip_slash (s : string) : string := lstrip_by (Ascii.eqb "/"%char) s.

Definition url_of (t : UrllibNotionTransport) (path : string) (query : option (list (string * string))) : string :=
  let url := rstrip_slash (ut_base_url t) +:+ "/" +:+ lstrip_slash path in
  match query with Some ((_ :: _) as q) => url +:+ "?" +:+ urlencode q | _ => url end.

(** [str.upper] of ASCII letters; methods have no others. *)
Definition upper (s : string) : string :=
  smap (fun c => if (97 <=? code c)%N && (code c <=? 122)%N then ascii_of_N (code c - 32) else c) s.

#[export] Instance urllib_transport `{Urllib} : NotionHttpTransport UrllibNotionTransport := {
  request method path headers body query t :=
    (match urlopen (upper method) (url_of t path query) headers body with
     | Opened r | HTTPError r => Ok r
     | URLError name => Raise (ValueError ("notion_http_transport_error:" +:+ name))
     end, t);
}.

Record EmulatorNotionTransport := { et_pages : list dict; et_rate_limit_after : option Z; et_calls : Z }.

Definition header (k : string) (headers : list (string * string)) : string := default "" (dict_lookup k headers).

Definition json_reply (status : Z) (headers : list (string * string)) (v : json) : Reply :=
  {| rp_status := status; rp_headers := headers; rp_raw := utf8 (print_spaced v) |}.

Definition raw_reply (status : Z) (text : string) : Reply := {| rp_status := status; rp_headers := []; rp_raw := utf8 (dq text) |}.

Definition rate_limited : Reply :=
  json_reply 429 [("Retry-After", "1")] (JObj [("object", JStr "error"); ("code", JStr "rate_limited"); ("message", JStr "slow down")]).

Definition query_int (k fallback : string) (query : option (list (string * string))) : res Z :=
  of_option (ValueError "invalid literal for int()")
    (py_int (or_text (dict_lookup k (default [] query)) (Some fallback))).

Definition search_pages (pages : list dict) (query : option (list (string * string))) : res Reply :=
  start ← query_int "start_cursor" "0" query;
  page_size ← query_int "page_size" "100" query;
  let chunk := slice start (start + page_size) pages in
  let next_cursor := if start + page_size <? Z.of_nat (length pages) then Some (str_of_Z (start + page_size)) else None in
  mret (json_reply 200 []
    (JObj [("object", JStr "list"); ("results", JList (map JObj chunk));
           ("next_cursor", match next_cursor with Some c => JStr c | None => JNull end);
           ("has_more", JBool (match next_cursor with Some _ => true | None => false end))])).

Definition emulator_answer (pages : list dict) (method path : string) (query : option (list (string * string))) : res Reply :=
  if String.eqb (upper method) "GET" && String.eqb (rstrip_slash path) "search" then search_pages pages query
  else if String.eqb (upper method) "GET" && startswith "pages/" path then
    let page_id := drop_str 6 path in
    mret (match first (fun p => bool_decide (dict_get "id" p = JStr page_id)) pages with
          | None => raw_reply 404 "{'object':'error','code':'object_not_found'}"
          | Some p => json_reply 200 [] (JObj p)
          end)
  else mret (raw_reply 404 "{'object':'error','code':'not_found'}").

#[export] Instance emulator_transport : NotionHttpTransport EmulatorNotionTransport := {
  request method path headers body query t :=
    let t := {| et_pages := et_pages t; et_rate_limit_after := et_rate_limit_after t; et_calls := et_calls t + 1 |} in
    (if match et_rate_limit_after t with Some n => n <? et_calls t | None => false end then mret rate_limited
     else if negb (startswith "Bearer " (header "Authorization" headers))
     then mret (raw_reply 401 "{'object':'error','code':'unauthorized'}")
     else emulator_answer (et_pages t) method path query, t);
}.

(** ** The adapter (notion_adapter.py) *)

Record HttpNotionAdapter (T : Type) := {
  ha_encrypted_token : option (list Z);
  ha_token_nonce : option (list Z);
  ha_mode : string;
  ha_page_size : Z;
  ha_transport : option T;
  ha_rate_limit_hits : Z;
}.
Arguments ha_encrypted_token {T}. Arguments ha_token_nonce {T}. Arguments ha_mode {T}. Arguments ha_page_size {T}.
Arguments ha_transport {T}. Arguments ha_rate_limit_hits {T}.

Section adapter.
Context `{Cryptography} (pepper : string) {T : Type} `{NotionHttpTransport T}.

(** What an adapter does: an answer or an error, and the adapter after it. *)
Definition Act (A : Type) : Type := HttpNotionAdapter T -> res A * HttpNotionAdapter T.

#[local] Instance Act_ret : MRet Act := fun A x a => (Ok x, a).
#[local] Instance Act_bind : MBind Act := fun A B k m a =>
  match m a with (Ok x, a2) => k x a2 | (Raise e, a2) => (Raise e, a2) end.

Definition doing {A} (f : HttpNotionAdapter T -> res A) : Act A := fun a => (f a, a).

Definition http_token (a : HttpNotionAdapter T) : res (option string) :=
  match ha_encrypted_token a, ha_token_nonce a with
  | Some ciphertext, Some nonce => t ← decrypt_token pepper ciphertext nonce; mret (Some t)
  | _, _ => mret None
  end.

Definition with_transport (t : T) (a : HttpNotionAdapter T) : HttpNotionAdapter T :=
  {| ha_encrypted_token := ha_encrypted_token a; ha_token_nonce := ha_token_nonce a; ha_mode := ha_mode a;
     ha_page_size := ha_page_size a; ha_transport := Some t; ha_rate_limit_hits := ha_rate_limit_hits a |}.

Definition rate_limit_sleep_seconds : Act f64 := fun a =>
  let hits := ha_rate_limit_hits a + 1 in
  (Ok (if String.eqb (ha_mode a) "fixture" then 0 else Z.min (fmul (lit 1 4) (of_int hits)) (of_int 2)),
   {| ha_encrypted_token := ha_encrypted_token a; ha_token_nonce := ha_token_nonce a; ha_mode := ha_mode a;
      ha_page_size := ha_page_size a; ha_transport := ha_transport a; ha_rate_limit_hits := hits |}).

Definition _http_headers (a : HttpNotionAdapter T) : res (list (string * string)) :=
  token ← http_token a;
  match token with
  | Some (String _ _ as t) =>
      mret [("Authorization", "Bearer " +:+ t); ("Notion-Version", "2022-06-28"); ("Content-Type", "application/json")]
  | _ => Raise (ValueError "notion_token_missing")
  end.

Definition _transport (a : HttpNotionAdapter T) : res T := of_option (ValueError "notion_http_transport_required") (ha_transport a).

(** [self._transport().request("GET", path, headers=self._http_headers(), query=query)]. *)
Definition get (path : string) (query : option (list (string * string))) : Act Reply := fun a =>
  match _transport a with
  | Raise e => (Raise e, a)
  | Ok t =>
      match _http_headers a with
      | Raise e => (Raise e, a)
      | Ok headers => let '(r, t2) := request "GET" path headers None query t in (r, with_transport t2 a)
      end
  end.

(** A request that meets the rate limit is repeated once. *)
Definition get_twice (path : string) (query : option (list (string * string))) : Act Reply :=
  r ← get path query;
  if rp_status r =? 429 then _ ← rate_limit_sleep_seconds; get path query else mret r.

Definition body_json (r : Reply) : res json :=
  text ← of_option (ValueError "UnicodeDecodeError") (utf8_decode (rp_raw r));
  loads text.

Definition page_ref (item : json) : option NotionPageRef :=
  match item with
  | JObj d =>
      let page_id := py_str (json_or (dict_get "id" d) (JStr "")) in
      Some {| np_id := page_id;
              np_title := match dict_get "properties" d with
                          | JObj props => py_str (json_or (dict_get "title" props) (JStr page_id))
                          | _ => page_id
                          end |}
  | _ => None
  end.

Definition read_list (r : Reply) : res (list NotionPageRef * option string) :=
  _ ← raise_if (400 <=? rp_status r) (ValueError ("notion_list_failed:" +:+ str_of_Z (rp_status r)));
  decoded ← body_json r;
  match decoded with
  | JObj payload =>
      let results := match dict_get_or "results" (JList []) payload with JList l => l | _ => [] end in
      mret (omap page_ref results, match dict_get "next_cursor" payload with JNull => None | v => Some (py_str v) end)
  | _ => Raise (ValueError "notion_list_invalid_payload")
  end.

Definition unsupported {A} (a : HttpNotionAdapter T) : res A := Raise (ValueError ("notion_mode_unsupported:" +:+ ha_mode a)).

Definition fixture_list (cursor : option string) (a : HttpNotionAdapter T) : res (list NotionPageRef * option string) :=
  start ← of_option (ValueError "invalid literal for int()") (py_int (or_text cursor (Some "0")));
  let end_ := start + ha_page_size a in
  mret (slice start end_ FIXTURE_PAGES, if end_ <? Z.of_nat (length FIXTURE_PAGES) then Some (str_of_Z end_) else None).

Definition http_list_pages (cursor : option string) : Act (list NotionPageRef * option string) := fun a =>
  if String.eqb (ha_mode a) "fixture" then
    (r ← doing (fixture_list cursor); _ ← rate_limit_sleep_seconds; mret r) a
  else if negb (String.eqb (ha_mode a) "http") then (unsupported a, a)
  else
    (r ← get_twice "search" (Some [("start_cursor", or_text cursor (Some "0")); ("page_size", str_of_Z (ha_page_size a))]);
     doing (fun _ => read_list r)) a.

Definition fixture_page (notion_page_id : string) : NotionPageSnapshot :=
  let content := "fixture content for " +:+ notion_page_id in
  {| ns_id := notion_page_id;
     ns_title := match first (fun p => String.eqb (np_id p) notion_page_id) FIXTURE_PAGES with
                 | Some p => np_title p | None => notion_page_id end;
     ns_content_text := content; ns_content_sha256 := sha256_str content |}.

Definition read_page (notion_page_id : string) (r : Reply) : res NotionPageSnapshot :=
  _ ← raise_if (400 <=? rp_status r) (ValueError ("notion_fetch_failed:" +:+ str_of_Z (rp_status r)));
  payload ← body_json r;
  let content_text := dumps payload in
  d ← body_of payload;
  mret {| ns_id := notion_page_id; ns_title := py_str (json_or (dict_get "id" d) (JStr notion_page_id));
          ns_content_text := content_text; ns_content_sha256 := sha256_str content_text |}.

Definition http_fetch_page (notion_page_id : string) : Act NotionPageSnapshot := fun a =>
  if String.eqb (ha_mode a) "fixture" then (_ ← rate_limit_sleep_seconds; mret (fixture_page notion_page_id)) a
  else if negb (String.eqb (ha_mode a) "http") then (unsupported a, a)
  else (r ← get_twice ("pages/" +:+ notion_page_id) None; doing (fun _ => read_page notion_page_id r)) a.
End adapter.

Definition emulated_page (p : NotionPageRef) : dict :=
  [("id", JStr (np_id p)); ("object", JStr "page"); ("properties", JObj [("title", JStr (np_title p))])].

Definition default_emulator_adapter `{Cryptography} (pepper token : string) : M (HttpNotionAdapter EmulatorNotionTransport) :=
  '(ciphertext, nonce) ← encrypt_token pepper token;
  mret {| ha_encrypted_token := Some ciphertext; ha_token_nonce := Some nonce; ha_mode := "http"; ha_page_size := 1;
          ha_transport := Some {| et_pages := map emulated_page FIXTURE_PAGES; et_rate_limit_after := None; et_calls := 0 |};
          ha_rate_limit_hits := 0 |}.

(** ** Reading a text with the default separators *)

Section spaced.
Context {A : Type} (f : A -> string) (item : string -> option (A * string)) (close : ascii).
Context (Hclose : close = "]"%char \/ close = "}"%char).

Definition spaced (l : list A) : string := join ", " (map f l).

Definition spaced_tail (l : list A) (s : string) : string :=
  match l with [] => String close s | _ => ", " +:+ (spaced l +:+ String close s) end.

Lemma spaced_cons x l s : spaced (x :: l) +:+ String close s = f x +:+ spaced_tail l s.
Proof. destruct l as [|y l]; [done|]. unfold spaced. simpl. by rewrite !append_assoc. Qed.

Lemma delim_spaced_tail l s : delim (spaced_tail l s).
Proof. destruct l; [by apply delim_close|simpl; tauto]. Qed.

Lemma parse_items_spaced l fuel s :
  (length l <= fuel)%nat -> l <> [] -> Forall (fun x => starts (f x)) l ->
  (forall x t, x ∈ l -> delim t -> item (f x +:+ t) = Some (x, t)) ->
  parse_items item close fuel (spaced l +:+ String close s) = Some (l, s).
Proof.
  revert fuel. induction l as [|x l IH]; intros fuel Hl Hne Hst Hit; [done|].
  destruct fuel as [|fuel]; [cbn in Hl; lia|]. cbn [parse_items]. rewrite spaced_cons.
  rewrite Hit by (by left || by apply delim_spaced_tail). cbn [mbind option_bind].
  apply Forall_cons in Hst as [_ Hst]. destruct l as [|y l].
  - cbn [spaced_tail]. replace (skip_ws (String close s)) with (String close s) by (by destruct Hclose as [->| ->]).
    by rewrite Ascii.eqb_refl.
  - cbn [spaced_tail String.append]. unfold skip_ws at 1. cbn [lstrip_by]. replace (is_ws ",") with false by done.
    replace (Ascii.eqb "," close) with false by (by destruct Hclose as [->| ->]).
    replace (Ascii.eqb "," ",") with true by done. apply Forall_cons in Hst as Hst'. destruct Hst' as [Hy _].
    assert (Hs : skip_ws (String " " (spaced (y :: l) +:+ String close s)) = spaced (y :: l) +:+ String close s).
    { change (skip_ws (String " " (spaced (y :: l) +:+ String close s))) with (skip_ws (spaced (y :: l) +:+ String close s)).
      rewrite spaced_cons. by apply skip_starts. }
    rewrite Hs, IH; [done|cbn in *; lia|done|done|]. intros z t Hz. apply Hit. by right.
Qed.

Lemma length_spaced l x : x ∈ l -> (String.length (f x) <= String.length (spaced l))%nat.
Proof.
  unfold spaced. induction l as [|y l IH]; [by intros ?%elem_of_nil|]. intros [->|Hx]%elem_of_cons.
  - destruct l; [done|]. cbn [map join]. rewrite !length_append. lia.
  - specialize (IH Hx). destruct l as [|z l]; [by apply elem_of_nil in Hx|]. cbn [map join] in *. rewrite !length_append. lia.
Qed.

Lemma length_spaced_count l : Forall (fun x => starts (f x)) l -> (length l <= S (String.length (spaced l)))%nat.
Proof.
  unfold spaced. induction 1 as [|x l Hx Hl IH]; [cbn; lia|]. destruct l as [|y l]; [cbn; lia|].
  cbn [map join length] in *. rewrite !length_append. change (String.length ", ") with 2%nat. lia.
Qed.

(** The bracket, the items and what follows them. *)
Lemma open_spaced l s : Forall (fun x => starts (f x)) l -> l <> [] -> (forall x t, x ∈ l -> head (f x +:+ t) <> Some close) ->
  exists c r, spaced l +:+ String close s = String c r /\ is_ws c = false /\ c <> close.
Proof.
  intros Hst Hne Hh. destruct l as [|x l]; [done|]. specialize (Hh x (spaced_tail l s) ltac:(by left)). rewrite spaced_cons.
  apply Forall_cons in Hst as [Hx _]. destruct (f x) as [|c r]; [done|]. cbn in *. do 2 eexists. split; [reflexivity|].
  split; [done|]. congruence.
Qed.
End spaced.

Definition spaced_item (kv : string * json) : string := print_str kv.1 +:+ ": " +:+ print_spaced kv.2.

Lemma print_spaced_obj d : print_spaced (JObj d) = "{" +:+ spaced spaced_item d +:+ "}".
Proof. unfold spaced. cbn [print_spaced]. do 3 f_equal. by apply map_ext; intros [k v]. Qed.

(** It begins as the compact text does. *)
Lemma print_spaced_head v : wf v -> exists c r r', print_spaced v = String c r /\ print v = String c r'.
Proof.
  intros Hw. destruct (print_head v Hw) as [Hne _]. destruct v; try by cbn [print_spaced]; destruct (print _); [done|eauto].
  all: cbn; eauto.
Qed.

Lemma print_spaced_starts v : wf v -> starts (print_spaced v).
Proof.
  intros Hw. pose proof (print_starts v Hw) as Hs. destruct (print_spaced_head v Hw) as (c & r & r' & -> & E). by rewrite E in Hs.
Qed.

Lemma print_spaced_close v c s : wf v -> delim (String c "") -> head (print_spaced v +:+ s) <> Some c.
Proof.
  intros Hw Hd. pose proof (print_head_close v c s Hw Hd) as Hh. destruct (print_spaced_head v Hw) as (d & r & r' & -> & E).
  by rewrite E in Hh.
Qed.

Lemma parse_member_spaced value kv t :
  wf kv.2 -> (forall t, delim t -> value (print_spaced kv.2 +:+ t) = Some (kv.2, t)) -> delim t ->
  parse_member value (spaced_item kv +:+ t) = Some (kv, t).
Proof.
  intros Hw Hv Ht. destruct kv as [k v]. unfold spaced_item, print_str. cbn [fst snd] in *.
  cbn [String.append]. rewrite !append_assoc. cbn [parse_member]. replace (Ascii.eqb dquote dquote) with true by done.
  cbn [String.append]. rewrite parse_chars_flat. cbn [mbind option_bind].
  change (skip_ws (String ":" (String " " (print_spaced v +:+ t)))) with (String ":" (String " " (print_spaced v +:+ t))). cbv iota.
  change (skip_ws (String " " (print_spaced v +:+ t))) with (skip_ws (print_spaced v +:+ t)).
  rewrite skip_starts by by apply print_spaced_starts. by rewrite (Hv t Ht).
Qed.

(** The brackets around items that parse. *)
Lemma parse_list_spaced n l rest :
  Forall wf l -> (String.length (print_spaced (JList l)) <= S n)%nat ->
  (forall x t, x ∈ l -> delim t -> parse_value n (print_spaced x +:+ t) = Some (x, t)) ->
  parse_value (S n) (print_spaced (JList l) +:+ rest) = Some (JList l, rest).
Proof.
  intros Hw Hlen Hx. cbn [print_spaced] in *. rewrite !append_assoc. cbn [String.append parse_value].
  replace (Ascii.eqb "[" dquote) with false by done. replace (Ascii.eqb "[" "[") with true by done.
  change (join ", " (map print_spaced l)) with (spaced print_spaced l) in *.
  assert (Hst : Forall (fun x => starts (print_spaced x)) l) by (eapply Forall_impl; [exact Hw|apply print_spaced_starts]).
  destruct l as [|y l']; [done|]. set (l := y :: l') in *.
  destruct (open_spaced print_spaced "]" l rest Hst ltac:(done)) as (c & r & Ho & Hc & Hcl).
  { intros x t Hin. apply print_spaced_close; [by eapply Forall_forall in Hw|cbn; tauto]. }
  rewrite !length_append in Hlen. cbn [String.length String.append] in Hlen.
  assert (Hp : parse_items (parse_value n) "]" n (String c r) = Some (l, rest)).
  { rewrite <- Ho. apply parse_items_spaced; [by left| |done|done|exact Hx].
    pose proof (length_spaced_count print_spaced l Hst). lia. }
  rewrite Ho. replace (skip_ws (String c r)) with (String c r) by (unfold skip_ws; cbn; by rewrite Hc).
  cbv zeta. replace (startswith "]" (String c r)) with false; [by rewrite Hp|].
  symmetry. cbn [startswith]. by rewrite (proj2 (Ascii.eqb_neq "]" c)) by congruence.
Qed.

Lemma parse_obj_spaced n d rest :
  wf (JObj d) -> (String.length (print_spaced (JObj d)) <= S n)%nat ->
  (forall kv t, kv ∈ d -> delim t -> parse_value n (print_spaced kv.2 +:+ t) = Some (kv.2, t)) ->
  parse_value (S n) (print_spaced (JObj d) +:+ rest) = Some (JObj d, rest).
Proof.
  intros [Hn Hw]%wf_obj Hlen Hx. rewrite print_spaced_obj in *. rewrite !append_assoc. cbn [String.append parse_value].
  replace (Ascii.eqb "{" dquote) with false by done. replace (Ascii.eqb "{" "[") with false by done.
  replace (Ascii.eqb "{" "{") with true by done.
  assert (Hst : Forall (fun kv => starts (spaced_item kv)) d) by (apply Forall_forall; by intros [k v]).
  destruct d as [|y d']; [done|]. set (d := y :: d') in *.
  destruct (open_spaced spaced_item "}" d rest Hst ltac:(done)) as (c & r & Ho & Hc & Hcl); [by intros [k v]|].
  rewrite !length_append in Hlen. cbn [String.length String.append] in Hlen.
  assert (Hp : parse_items (parse_member (parse_value n)) "}" n (String c r) = Some (d, rest)).
  { rewrite <- Ho. apply parse_items_spaced; [by right| |done|done|].
    - pose proof (length_spaced_count spaced_item d Hst). lia.
    - intros kv t Hin Ht. apply parse_member_spaced; [by eapply Forall_forall in Hw| |done]. intros. by apply Hx. }
  rewrite Ho. replace (skip_ws (String c r)) with (String c r) by (unfold skip_ws; cbn; by rewrite Hc).
  cbv zeta. replace (startswith "}" (String c r)) with false; [rewrite Hp; cbn [mbind option_bind]; by rewrite (dict_of_id d Hn)|].
  symmetry. cbn [startswith]. by rewrite (proj2 (Ascii.eqb_neq "}" c)) by congruence.
Qed.

Lemma parse_value_spaced v n rest :
  wf v -> floats_read v -> (String.length (print_spaced v) <= n)%nat -> delim rest ->
  parse_value n (print_spaced v +:+ rest) = Some (v, rest).
Proof.
  revert n rest. induction v as [|b|z|t|a|l IH|d IH] using json_nested_ind; intros n rest Hw Hf Hn Hr;
    try (by apply parse_value_print);
    (destruct n as [|n]; [exfalso; destruct (print_spaced_head _ Hw) as (c & r & r' & E & _); rewrite E in Hn; cbn in Hn; lia|]).
  - apply parse_list_spaced; [by apply wf_list|done|]. intros x t Hx Ht.
    rewrite Forall_forall in IH. apply wf_list in Hw. rewrite Forall_forall in Hw.
    apply fold_and in Hf. rewrite Forall_forall in Hf. apply IH; [done|by apply Hw|by apply Hf| |done].
    change (print_spaced (JList l)) with ("[" +:+ spaced print_spaced l +:+ "]") in Hn. rewrite !length_append in Hn.
    change (String.length "[") with 1%nat in Hn. pose proof (length_spaced print_spaced l x Hx). lia.
  - apply parse_obj_spaced; [done|done|]. intros kv t Hx Ht.
    rewrite Forall_forall in IH. apply wf_obj in Hw as [_ Hw]. rewrite Forall_forall in Hw.
    apply fold_and in Hf. rewrite Forall_forall in Hf. apply IH; [done|by apply Hw|by apply Hf| |done].
    rewrite print_spaced_obj, !length_append in Hn.
    change (String.length "{") with 1%nat in Hn. pose proof (length_spaced spaced_item d kv Hx) as Hl.
    unfold spaced_item in Hl at 1. rewrite !length_append in Hl. lia.
Qed.

(** [json.loads(json.dumps(v))]. *)
Lemma loads_print_spaced v : wf v -> floats_read v -> loads (print_spaced v) = Ok v.
Proof.
  intros Hw Hf. unfold loads. rewrite <- (append_nil_r (print_spaced v)) at 2.
  rewrite skip_starts by by apply print_spaced_starts. by rewrite parse_value_spaced by (done || lia).
Qed.

(** What a transport prints is what the adapter reads. *)
Lemma body_json_reply status headers v : wf v -> floats_read v -> body_json (json_reply status headers v) = Ok v.
Proof. intros Hw Hf. unfold body_json, json_reply. cbn [rp_raw]. rewrite utf8_decode_utf8. cbn. by apply loads_print_spaced. Qed.

(** ** Pages of a list *)

Lemma slice_range {A} lo hi (l : list A) : 0 <= lo <= hi -> slice lo hi l = take (Z.to_nat (hi - lo)) (drop (Z.to_nat lo) l).
Proof.
  intros Hr. unfold slice. rewrite (proj2 (Z.ltb_ge lo 0)), (proj2 (Z.ltb_ge hi 0)) by lia.
  destruct (decide (Z.of_nat (length l) <= lo)).
  - rewrite !(drop_ge l) by lia. by rewrite !take_nil.
  - replace (Z.to_nat (Z.min lo (Z.of_nat (length l)))) with (Z.to_nat lo) by lia.
    destruct (decide (hi <= Z.of_nat (length l))); [f_equal; lia|]. rewrite !take_ge by (rewrite length_drop; lia). done.
Qed.

Lemma slice_map {A B} (f : A -> B) lo hi l : slice lo hi (map f l) = map f (slice lo hi l).
Proof. unfold slice. rewrite length_map. change (map f) with (fmap (M := list) f). by rewrite fmap_take, fmap_drop. Qed.

Section listing.
Context `{Cryptography} (pepper : string).
Notation adapter := (HttpNotionAdapter EmulatorNotionTransport).

(** An adapter over the emulator, with a token and no rate limit. *)
Record serves (pages : list dict) (a : adapter) : Prop := {
  sv_mode : ha_mode a = "http";
  sv_token : exists t, http_token pepper a = Ok (Some t) /\ t <> "";
  sv_transport : exists e, ha_transport a = Some e /\ et_pages e = pages /\ et_rate_limit_after e = None;
  sv_pages : Forall (fun p => wf (JObj p) /\ floats_read (JObj p)) pages;
}.

(** The page of pages at a cursor. *)
Definition listed (pages : list dict) (size : Z) (cursor : option string) : res (list NotionPageRef * option string) :=
  start ← of_option (ValueError "invalid literal for int()") (py_int (or_text cursor (Some "0")));
  mret (omap page_ref (map JObj (slice start (start + size) pages)),
        if start + size <? Z.of_nat (length pages) then Some (str_of_Z (start + size)) else None).

Lemma or_text_twice o s : truthy s = true -> or_text (Some (or_text o (Some s))) (Some s) = or_text o (Some s).
Proof. intros Hs. unfold or_text. destruct o as [t|]; [destruct (truthy t) eqn:E|]; simpl; rewrite ?E, ?Hs; done. Qed.

Lemma str_of_Z_truthy z : truthy (str_of_Z z) = true.
Proof. apply truthy_true. by destruct (str_of_Z_chars z). Qed.

Lemma or_text_Z z s : or_text (Some (str_of_Z z)) s = str_of_Z z.
Proof. unfold or_text. by rewrite str_of_Z_truthy. Qed.

Lemma search_reads pages (q : list (string * string)) r :
  Forall (fun p => wf (JObj p) /\ floats_read (JObj p)) pages -> search_pages pages (Some q) = Ok r ->
  exists start size, query_int "start_cursor" "0" (Some q) = Ok start /\ query_int "page_size" "100" (Some q) = Ok size /\
    rp_status r = 200 /\
    read_list r = Ok (omap page_ref (map JObj (slice start (start + size) pages)),
                      if start + size <? Z.of_nat (length pages) then Some (str_of_Z (start + size)) else None).
Proof.
  intros Hp Hs. unfold search_pages in Hs. apply bind_Ok in Hs as (start & Hst & Hs). apply bind_Ok in Hs as (size & Hsz & Hs).
  injection Hs as <-. exists start, size. split; [done|]. split; [done|]. split; [done|]. unfold read_list.
  replace (raise_if _ _) with (Ok tt) by done. cbn [mbind res_bind].
  assert (Hc : Forall (fun p => wf (JObj p) /\ floats_read (JObj p)) (slice start (start + size) pages)).
  { unfold slice. by apply Forall_take, Forall_drop. }
  rewrite body_json_reply.
  - by destruct (start + size <? Z.of_nat (length pages)).
  - apply wf_obj. split; [by apply (bool_decide_unpack (NoDup ["object"; "results"; "next_cursor"; "has_more"]))|].
    repeat constructor; [| by destruct (start + size <? Z.of_nat (length pages))]. apply wf_list, Forall_map.
    eapply Forall_impl; [exact Hc|]. by intros p [Hw _].
  - cbn [floats_read map fold_right snd]. split; [done|]. split; [|split; [by destruct (start + size <? _)|done]].
    apply fold_and, Forall_map. eapply Forall_impl; [exact Hc|]. by intros p [_ Hf].
Qed.

Lemma get_emulated pages a q : serves pages a ->
  exists a', get pepper "search" (Some q) a = (search_pages pages (Some q), a') /\ serves pages a' /\ ha_page_size a' = ha_page_size a.
Proof.
  intros [Hmode (t & Ht & Hne) (e & He & Hpg & Hlim) Hp]. unfold get, _transport, _http_headers. rewrite He, Ht. cbn [of_option mbind res_bind].
  destruct t as [|c t]; [done|]. cbn [mret res_ret request emulator_transport]. rewrite Hlim. cbv beta iota zeta.
  change (header "Authorization" _) with ("Bearer " +:+ String c t). cbn [et_pages et_rate_limit_after].
  replace (startswith "Bearer " ("Bearer " +:+ String c t)) with true by (symmetry; apply startswith_spec; eauto). cbn [negb].
  rewrite Hpg. eexists. split; [reflexivity|]. split; [|done]. split; [done|by exists (String c t)|by eexists|done].
Qed.

(** A request to the emulator answers the page at its cursor. *)
Lemma http_lists pages a cursor : serves pages a ->
  exists a', http_list_pages pepper cursor a = (listed pages (ha_page_size a) cursor, a') /\ serves pages a' /\
    ha_page_size a' = ha_page_size a.
Proof.
  intros Hs. unfold http_list_pages. rewrite (sv_mode _ _ Hs). cbn [String.eqb negb]. cbv beta iota.
  set (q := [("start_cursor", _); _]). destruct (get_emulated pages a q Hs) as (a1 & Hg & Hs1 & Hz). exists a1.
  split; [|done]. unfold mbind, Act_bind, get_twice, mbind, Act_bind. rewrite Hg.
  assert (Hst : query_int "start_cursor" "0" (Some q) = of_option (ValueError "invalid literal for int()") (py_int (or_text cursor (Some "0")))).
  { unfold query_int. do 2 f_equal. by apply (or_text_twice cursor "0"). }
  assert (Hsz : query_int "page_size" "100" (Some q) = Ok (ha_page_size a)).
  { unfold query_int. change (dict_lookup "page_size" (default [] (Some q))) with (Some (str_of_Z (ha_page_size a))).
    by rewrite or_text_Z, py_int_str_of_Z. }
  destruct (search_pages pages (Some q)) as [r|e] eqn:E.
  - apply search_reads in E as (start & size & H1 & H2 & Hr & Hl); [|by apply Hs]. rewrite Hr. cbn. unfold doing. rewrite Hl.
    rewrite Hsz in H2. injection H2 as <-. unfold listed. rewrite <- Hst, H1. done.
  - unfold search_pages in E. rewrite Hst, Hsz in E. unfold listed. destruct (of_option _ _); [done|]. by injection E as <-.
Qed.

(** The pages from a cursor on, a call for each. *)
Fixpoint follow (fuel : nat) (cursor : option string) (a : adapter) : res (list NotionPageRef) * adapter :=
  match fuel with
  | O => (Raise (RuntimeError "fuel"), a)
  | S fuel =>
      match http_list_pages pepper cursor a with
      | (Ok (refs, None), a2) => (Ok refs, a2)
      | (Ok (refs, Some c), a2) =>
          match follow fuel (Some c) a2 with (Ok rest, a3) => (Ok (refs ++ rest), a3) | r => r end
      | (Raise e, a2) => (Raise e, a2)
      end
  end.

Lemma follow_from pages a n start cursor : serves pages a -> 1 <= ha_page_size a -> 0 <= start ->
  py_int (or_text cursor (Some "0")) = Some start -> (length (drop (Z.to_nat start) pages) < n)%nat ->
  exists a', follow n cursor a = (Ok (omap page_ref (map JObj (drop (Z.to_nat start) pages))), a') /\ serves pages a'.
Proof.
  revert a start cursor. induction n as [|n IH]; intros a start cursor Hs Hz H0 Hc Hn; [lia|].
  destruct (http_lists pages a cursor Hs) as (a1 & Hl & Hs1 & Hz1). cbn [follow]. rewrite Hl. unfold listed. rewrite Hc. cbn [of_option mbind res_bind mret res_ret].
  rewrite slice_range by lia. replace (start + ha_page_size a - start) with (ha_page_size a) by lia. rewrite length_drop in Hn.
  destruct (Z.ltb_spec (start + ha_page_size a) (Z.of_nat (length pages))) as [Hlt|Hge].
  - destruct (IH a1 (start + ha_page_size a) (Some (str_of_Z (start + ha_page_size a))) Hs1) as (a2 & Hf & Hs2); [lia|lia| |rewrite length_drop; lia|].
    { by rewrite or_text_Z, py_int_str_of_Z. }
    rewrite Hf. exists a2. split; [|done]. f_equal. f_equal. rewrite <- omap_app. f_equal. rewrite <- map_app. f_equal.
    replace (Z.to_nat (start + ha_page_size a)) with (Z.to_nat start + Z.to_nat (ha_page_size a))%nat by lia.
    by rewrite <- drop_drop, take_drop.
  - exists a1. split; [|done]. rewrite take_ge; [done|]. rewrite length_drop. lia.
Qed.

(** Following the cursors of an HTTP adapter, from none on, calls after calls,
    lists every page of the emulator once, in order, and ends: after as many calls as
    there are pages at the latest, whatever the size of a page. *)
Theorem paging_complete pages a : serves pages a -> 1 <= ha_page_size a ->
  exists a', follow (S (length pages)) None a = (Ok (omap page_ref (map JObj pages)), a') /\ serves pages a'.
Proof.
  intros Hs Hz. destruct (follow_from pages a (S (length pages)) 0 None Hs Hz) as (a' & Hf & Hs'); [lia|done|rewrite length_drop; lia|].
  by exists a'.
Qed.

(** Pages that stand for references read back as them. *)
Lemma emulated_refs l : Forall (fun p => np_id p <> "" /\ np_title p <> "") l -> omap page_ref (map JObj (map emulated_page l)) = l.
Proof.
  induction 1 as [|[i t] l [Hi Ht] _ IH]; [done|]. cbn [map]. change (JObj (emulated_page {| np_id := i; np_title := t |}) :: map JObj (map emulated_page l))
    with ([JObj (emulated_page {| np_id := i; np_title := t |})] ++ map JObj (map emulated_page l)).
  rewrite omap_app, IH. cbn in Hi, Ht. destruct i as [|c i]; [done|]. by destruct t as [|d t].
Qed.

Lemma emulated_wf p : wf (JObj (emulated_page p)) /\ floats_read (JObj (emulated_page p)).
Proof.
  split; [|done]. apply wf_obj. split; [by apply (bool_decide_unpack (NoDup ["id"; "object"; "properties"]))|].
  apply Forall_cons. split; [done|]. apply Forall_cons. split; [done|]. apply Forall_cons. split; [|done].
  apply wf_obj. split; [by apply (bool_decide_unpack (NoDup ["title"]))|by repeat constructor].
Qed.

(** The adapter the contract tests build answers every cursor, errors
    included, as the fixture mode does. *)
Theorem emulator_as_fixture `{Env, !AeadLaws} token w a w' cursor (fixture : adapter) :
  default_emulator_adapter pepper token w = Ok (a, w') -> token <> "" ->
  ha_mode fixture = "fixture" -> ha_page_size fixture = 1 ->
  (http_list_pages pepper cursor a).1 = (http_list_pages pepper cursor fixture).1.
Proof.
  intros Hd Hne Hm Hz. unfold default_emulator_adapter in Hd. apply M_bind_Ok in Hd as ([c nonce] & w1 & He & Hd). injection Hd as <- <-.
  set (a := Build_HttpNotionAdapter _ _ _ _ _ _ _).
  assert (Hs : serves (map emulated_page FIXTURE_PAGES) a).
  { split; [done| |by eexists|by constructor; [|constructor; [|constructor]]; apply emulated_wf]. exists token. split; [|done].
    unfold encrypt_token in He. apply M_bind_Ok in He as ([] & w2 & _ & He). apply M_bind_Ok in He as (no & w3 & _ & He). injection He as <- <- _.
    unfold http_token, decrypt_token, a. cbn [ha_encrypted_token ha_token_nonce]. rewrite decrypt_undoes. cbn [of_option mbind res_bind].
    by rewrite utf8_decode_utf8. }
  destruct (http_lists _ a cursor Hs) as (a1 & Hl & _). rewrite Hl. unfold http_list_pages. rewrite Hm, String.eqb_refl.
  unfold mbind, Act_bind, doing, fixture_list, listed. rewrite Hz. cbn [ha_page_size a fst].
  destruct (py_int _) as [start|]; [|done]. cbn [of_option mbind res_bind mret res_ret fst]. do 2 f_equal. rewrite slice_map, emulated_refs; [done|].
  unfold slice. apply Forall_take, Forall_drop. by repeat constructor.
Qed.
End listing.

Section limits.
Context `{Cryptography} (pepper : string).
Notation adapter := (HttpNotionAdapter EmulatorNotionTransport).

(** A request past the limit is repeated once and then fails; the limit is
    counted once. *)
Lemma rate_limit_gives_up (a : adapter) e n t cursor : ha_mode a = "http" -> http_token pepper a = Ok (Some t) -> t <> "" ->
  ha_transport a = Some e -> et_rate_limit_after e = Some n -> n <= et_calls e ->
  exists a', http_list_pages pepper cursor a = (Raise (ValueError "notion_list_failed:429"), a') /\
    ha_rate_limit_hits a' = ha_rate_limit_hits a + 1 /\
    ha_transport a' = Some {| et_pages := et_pages e; et_rate_limit_after := Some n; et_calls := et_calls e + 2 |}.
Proof.
  intros Hm Ht Hne He Hn Hc. destruct t as [|c t]; [done|]. unfold http_list_pages. rewrite Hm. cbn [String.eqb negb]. cbv beta iota.
  unfold mbind, Act_bind, get_twice, mbind, Act_bind, get, _transport, _http_headers. rewrite He, Ht.
  cbn [of_option mbind res_bind mret res_ret request emulator_transport]. rewrite Hn. cbn [et_rate_limit_after et_calls et_pages].
  rewrite (proj2 (Z.ltb_lt _ _)) by lia. cbn [rp_status rate_limited json_reply]. cbn -[Z.add Z.ltb].
  unfold http_token in *. cbn -[Z.add Z.ltb]. rewrite Ht. cbn -[Z.add Z.ltb].
  rewrite (proj2 (Z.ltb_lt _ _)) by lia. cbn -[Z.add Z.ltb]. eexists. split; [reflexivity|]. cbn. split; [done|]. do 2 f_equal. lia.
Qed.

(** The wait between two requests is at most two seconds. *)
Lemma sleep_at_most_two (a : adapter) : exists s a', rate_limit_sleep_seconds a = (Ok s, a') /\ s <= of_int 2.
Proof.
  eexists _, _. split; [reflexivity|]. destruct (String.eqb _ _); [by apply of_int_nonneg|]. lia.
Qed.
End limits.

(** ** Witnesses *)

Definition three_pages : list dict :=
  map emulated_page [{| np_id := "a"; np_title := "First" |}; {| np_id := "b"; np_title := "Second" |}; {| np_id := "c"; np_title := "Third" |}].

Definition two_at_a_time : HttpNotionAdapter EmulatorNotionTransport :=
  {| ha_encrypted_token := Some (1 :: utf8 "token"); ha_token_nonce := Some [0]; ha_mode := "http"; ha_page_size := 2;
     ha_transport := Some {| et_pages := three_pages; et_rate_limit_after := None; et_calls := 0 |}; ha_rate_limit_hits := 0 |}.

Lemma paging_complete_witness : @serves test_crypto "a pepper of sixteen" three_pages two_at_a_time /\
  exists a', @follow test_crypto "a pepper of sixteen" 4 None two_at_a_time = (Ok (omap page_ref (map JObj three_pages)), a') /\ option_map et_calls (ha_transport a') = Some 2.
Proof.
  assert (Hs : @serves test_crypto "a pepper of sixteen" three_pages two_at_a_time).
  { split; [reflexivity| |eexists; split; [reflexivity|split; reflexivity]|].
    - exists "token". split; [vm_compute; reflexivity|discriminate].
    - constructor; [apply emulated_wf|]. constructor; [apply emulated_wf|]. constructor; [apply emulated_wf|constructor]. }
  split; [exact Hs|]. destruct (@paging_complete test_crypto "a pepper of sixteen" three_pages two_at_a_time Hs ltac:(discriminate)) as (a' & Hf & _).
  exists a'. split; [exact Hf|]. apply (f_equal (fun r => option_map et_calls (ha_transport (snd r)))) in Hf. cbv beta in Hf. cbn [snd] in Hf.
  rewrite <- Hf. vm_compute. reflexivity.
Defined.

Definition plain_fixture : HttpNotionAdapter EmulatorNotionTransport :=
  {| ha_encrypted_token := None; ha_token_nonce := None; ha_mode := "fixture"; ha_page_size := 1; ha_transport := None;
     ha_rate_limit_hits := 0 |}.

Lemma emulator_as_fixture_witness : exists a w', @default_emulator_adapter test_crypto "a pepper of sixteen" "token" empty_world = Ok (a, w') /\
  (@http_list_pages test_crypto "a pepper of sixteen" _ _ (Some "1") a).1 = Ok ([{| np_id := "fixture-page-2"; np_title := "Project Notes" |}], None).
Proof.
  destruct (@default_emulator_adapter test_crypto "a pepper of sixteen" "token" empty_world) as [[a w']|e] eqn:E; [|vm_compute in E; discriminate E].
  exists a, w'. split; [reflexivity|].
  rewrite (@emulator_as_fixture test_crypto "a pepper of sixteen" test_env Conversations.test_aead "token" empty_world a w' (Some "1") plain_fixture
             E ltac:(discriminate) eq_refl eq_refl). vm_compute. reflexivity.
Defined.
