(* ===== verification/ModelRouter.v ===== *)
(** * The model router (services/model-router/)

    ports/model.py: requests, budgets and results.  policy.py: what the router
    refuses.  adapters.py: the local adapter.  app.py: the completion handler,
    whose body FastAPI checked.  settings.py: what start-up refuses. *)

From Stdlib Require Import Ascii ZArith Lia.
From stdpp Require Import base list strings.
From S2P Require Import Prelude PyStr Json Float64 Enums ExternalAccess Config.
Open Scope Z_scope.

(** ** Requests (ports/model.py) *)

Record ModelBudget := { mb_max_input_tokens : Z; mb_max_output_tokens : Z; mb_timeout_seconds : f64 }.

Definition default_budget : ModelBudget :=
  {| mb_max_input_tokens := 8192; mb_max_output_tokens := 1024; mb_timeout_seconds := of_int 30 |}.

Record StructuredCompletionRequest := { rq_schema_name : string; rq_payload : dict; rq_budget : ModelBudget }.

Record StructuredCompletionResult := { cr_output : dict; cr_model_id : string; cr_input_tokens : Z; cr_output_tokens : Z }.

(** ** Policy (policy.py) *)

Record RouterPolicy := { po_default_budget : ModelBudget; po_allowed_model_ids : list string }.

Definition DEFAULT_POLICY : RouterPolicy := {| po_default_budget := default_budget; po_allowed_model_ids := ["local-echo-v1"] |}.

Definition validate_request (request : StructuredCompletionRequest) (policy : RouterPolicy) : res unit :=
  let b := rq_budget request in
  let d := po_default_budget policy in
  _ ← raise_if (mb_max_input_tokens d <? mb_max_input_tokens b) (ValueError "input_budget_exceeded");
  _ ← raise_if (mb_max_output_tokens d <? mb_max_output_tokens b) (ValueError "output_budget_exceeded");
  raise_if (mb_timeout_seconds d <? mb_timeout_seconds b) (ValueError "timeout_exceeded").

Definition select_model_id (request : StructuredCompletionRequest) (policy : RouterPolicy) : res string :=
  let requested := py_str (json_or (dict_get "model_id" (rq_payload request)) (JStr "local-echo-v1")) in
  _ ← raise_if (negb (existsb (String.eqb requested) (po_allowed_model_ids policy))) (ValueError "model_not_allowed");
  mret requested.

(** ** The local adapter (adapters.py) *)

Definition complete_structured (request : StructuredCompletionRequest) (policy : RouterPolicy) : res StructuredCompletionResult :=
  _ ← validate_request request policy;
  model_id ← select_model_id request policy;
  let canonical := dumps (JObj (rq_payload request)) in
  mret {| cr_output := [("echo", JObj (rq_payload request)); ("schema", JStr (rq_schema_name request))];
          cr_model_id := model_id;
          cr_input_tokens := Z.max 1 (Z.of_nat (String.length canonical) / 4);
          cr_output_tokens := Z.min (mb_max_output_tokens (rq_budget request)) 64 |}.

(** ** The handler (app.py) *)

Record CompleteBody := {
  cb_schema_name : string; cb_payload : dict; cb_max_input_tokens : Z; cb_max_output_tokens : Z; cb_timeout_seconds : f64;
}.

(** The bounds of the fields. *)
Record body_ok (b : CompleteBody) : Prop := {
  ok_schema : (1 <= String.length (cb_schema_name b) <= 128)%nat;
  ok_input : 256 <= cb_max_input_tokens b <= 65536;
  ok_output : 64 <= cb_max_output_tokens b <= 8192;
  ok_timeout : lit 1 10 <= cb_timeout_seconds b <= of_int 120;
}.

Definition request_of (body : CompleteBody) : StructuredCompletionRequest :=
  {| rq_schema_name := cb_schema_name body; rq_payload := cb_payload body;
     rq_budget := {| mb_max_input_tokens := cb_max_input_tokens body; mb_max_output_tokens := cb_max_output_tokens body;
                     mb_timeout_seconds := cb_timeout_seconds body |} |}.

(** Status and body of the answer. *)
Definition complete (body : CompleteBody) : res (Z * dict) :=
  match complete_structured (request_of body) DEFAULT_POLICY with
  | Ok r => Ok (200, [("output", JObj (cr_output r)); ("modelId", JStr (cr_model_id r)); ("inputTokens", JInt (cr_input_tokens r));
                      ("outputTokens", JInt (cr_output_tokens r))])
  | Raise (ValueError detail) => Ok (422, [("detail", JStr detail)])
  | Raise e => Raise e
  end.

Definition live : dict := [("status", JStr (value HealthStatus.OK))].
Definition ready : dict := [("status", JStr (value HealthStatus.OK)); ("service", JStr "model-router")].

(** ** Settings (settings.py) *)

Record ModelRouterSettings := {
  mr_env : string; mr_tex_enabled : bool; mr_telemetry_export : string; mr_otel_exporter_otlp_endpoint : string; mr_provider_api_key : string;
}.

Definition validate_router (s : ModelRouterSettings) : res unit :=
  _ ← reject_blank "MODEL_ROUTER_ENV" (mr_env s);
  mode ← normalize_mode (mr_env s);
  _ ← raise_if (mr_tex_enabled s && among ["self_host"; "development"; "test"] mode)
        (ValueError "MODEL_ROUTER_TEX_ENABLED must remain false until Phase 7 provider wiring");
  _ ← reject_enabled_exporter_without_endpoint (mr_telemetry_export s) (mr_otel_exporter_otlp_endpoint s);
  reject_plaintext_provider_credential "MODEL_ROUTER_PROVIDER_API_KEY"
    (if truthy (mr_provider_api_key s) then Some (mr_provider_api_key s) else None) mode.

(** ** Properties *)

(** A body that passed is answered: completed within the policy by the model it
    names, or refused with the reason. *)
Theorem router_answers body : body_ok body ->
  exists status answer, complete body = Ok (status, answer) /\
    ((status = 422 /\ exists reason, answer = [("detail", JStr reason)] /\
        (reason = "input_budget_exceeded" /\ 8192 < cb_max_input_tokens body \/
         reason = "output_budget_exceeded" /\ cb_max_input_tokens body <= 8192 /\ 1024 < cb_max_output_tokens body \/
         reason = "timeout_exceeded" /\ of_int 30 < cb_timeout_seconds body \/
         reason = "model_not_allowed" /\ dict_get "model_id" (cb_payload body) <> JStr "local-echo-v1")) \/
     (status = 200 /\ cb_max_input_tokens body <= 8192 /\ cb_max_output_tokens body <= 1024 /\ cb_timeout_seconds body <= of_int 30 /\
      dict_get "modelId" answer = JStr "local-echo-v1" /\
      exists n, dict_get "outputTokens" answer = JInt n /\ 1 <= n <= 64 /\ n <= cb_max_output_tokens body)).
Proof.
  intros Hb. unfold complete, complete_structured, validate_request, select_model_id. cbn [rq_budget request_of rq_payload rq_schema_name
    po_default_budget DEFAULT_POLICY default_budget mb_max_input_tokens mb_max_output_tokens mb_timeout_seconds po_allowed_model_ids].
  destruct (Z.ltb_spec 8192 (cb_max_input_tokens body)); cbn -[of_int dumps py_str]; [do 2 eexists; split; [reflexivity|]; left; eauto 10|].
  destruct (Z.ltb_spec 1024 (cb_max_output_tokens body)); cbn -[of_int dumps py_str]; [do 2 eexists; split; [reflexivity|]; left; eauto 10|].
  destruct (Z.ltb_spec (of_int 30) (cb_timeout_seconds body)); cbn -[of_int dumps py_str]; [do 2 eexists; split; [reflexivity|]; left; eauto 10|].
  set (m := py_str _). destruct (String.eqb_spec m "local-echo-v1") as [Em|Hm]; cbn -[of_int dumps py_str m].
  - do 2 eexists. split; [reflexivity|]. right. rewrite Em. pose proof (ok_output _ Hb). split_and!; try done.
    eexists. split; [reflexivity|]. lia.
  - do 2 eexists. split; [reflexivity|]. left. split; [done|]. eexists. split; [reflexivity|]. right. right. right. split; [done|].
    intros E. apply Hm. unfold m. by rewrite E.
Qed.

(** ** Witnesses *)

Definition small_body (payload : dict) : CompleteBody :=
  {| cb_schema_name := "answer"; cb_payload := payload; cb_max_input_tokens := 256; cb_max_output_tokens := 128; cb_timeout_seconds := of_int 5 |}.

Lemma small_body_ok payload : body_ok (small_body payload).
Proof. split; cbn [cb_schema_name cb_max_input_tokens cb_max_output_tokens cb_timeout_seconds small_body]; vm_compute; lia || (split; discriminate). Qed.

Lemma router_answers_witness : exists answer, complete (small_body [("q", JStr "why")]) = Ok (200, answer) /\
  exists n, dict_get "outputTokens" answer = JInt n /\ 1 <= n <= 64.
Proof.
  destruct (router_answers (small_body [("q", JStr "why")]) (small_body_ok _)) as (status & answer & Hc & Ho).
  exists answer. assert (Hs : status = 200).
  { assert (E : (match complete (small_body [("q", JStr "why")]) with Ok (s, _) => s | Raise _ => 0 end) = 200) by (vm_compute; reflexivity).
    rewrite Hc in E. exact E. }
  destruct Ho as [[Hs' _]|(_ & _ & _ & _ & _ & n & Hn & Hb & _)]; [rewrite Hs in Hs'; discriminate Hs'|].
  rewrite Hs in Hc. split; [exact Hc|]. exists n. split; [exact Hn|exact Hb].
Defined.

Fixpoint repeated (n : nat) : string := match n with O => "" | S n => String "a"%char (repeated n) end.

(** The tokens of a payload are counted but not held against the budget. *)
Example input_budget_not_enforced :
  match complete (small_body [("q", JStr (repeated 4000))]) with
  | Ok (200, answer) => bool_decide (dict_get "inputTokens" answer = JInt 1002)
  | _ => false
  end = true.
Proof. vm_compute. reflexivity. Qed.
