(* ===== verification/Workers.v ===== *)
(** * The workers (services/workers/, packages/provider-adapters/native_text_parser.py)

    ingestion/: the checks of a parse and the pipeline of the workers, over the
    text parser of the adapters.  projections/rebuild.py: the upsert of a
    projection.  settings.py: what start-up refuses. *)

From Stdlib Require Import ZArith Lia.
From stdpp Require Import base list strings.
From S2P Require Import Prelude PyStr Digest Json Uuid Enums Float64 Ledger Store RequestContext Deletion Config Parsers.
Open Scope Z_scope.

(** ** The text parser of the adapters *)

Section parser.
Variable decode : list Z -> string.

(** [native_text_parser.py] differs from the core's parser in its comments. *)
Definition adapter_text_parser : ParserPort :=
  {| port_profile := ParserProfile.NATIVE_TEXT; port_profile_hash := sha256_str "native_text_v1";
     parse content _mime hints run :=
       let lines := keep (fun line => truthy (strip line)) (splitlines (decode content)) in
       let n := Z.of_nat (length lines) in
       Ok {| profile := ParserProfile.NATIVE_TEXT; profile_hash := sha256_str "native_text_v1";
             elements := imap (line_element run hints) lines; page_count := Z.max 1 (n / 40 + 1);
             quality_score := if bool_decide (lines = []) then 0 else one;
             raw_artifact_bytes := utf8 (dumps_flat [("lines", JInt n)]); diagnostics := [] |} |}.

(** ** Normalization (ingestion/normalize.py) *)

Fixpoint worker_element_errors (seen : list uuid) (l : list NormalizedElement) : list string :=
  match l with
  | [] => []
  | e :: l =>
      (if bool_decide (element_id e ∈ seen) then ["duplicate_element_id"] else []) ++
      (if negb (truthy (exact_text e)) && negb (existsb (String.eqb (value (kind e))) ["figure"; "asset"])
       then ["empty_element_text"] else []) ++
      (if order_index e <? 0 then ["invalid_element_order"] else []) ++
      worker_element_errors (element_id e :: seen) l
  end.

Definition worker_validate (result : ParseResult) : list string :=
  worker_element_errors [] (elements result) ++ (if quality_score result <? lit 3 10 then ["quality_below_threshold"] else []).

Definition referential_integrity (l : list NormalizedElement) : bool :=
  forallb (fun e => match parent_element_id e with Some p => bool_decide (p ∈ map element_id l) | None => true end) l.

(** ** The pipeline (ingestion/pipeline.py) *)

Definition worker_select_parser (mime : string) : ParserPort :=
  if startswith "text/" mime || String.eqb mime "application/json" then adapter_text_parser else adapter_text_parser.

Definition run_ingestion_pipeline (revision_id : uuid) (content : list Z) (mime : string) : res (uuid * ParseRunStatus.t * list string) :=
  let parser := worker_select_parser mime in
  let run_id := parse_run_id revision_id (port_profile_hash parser) in
  result ← parse parser content mime [] run_id;
  let errors := worker_validate result in
  mret (if negb (bool_decide (errors = [])) || negb (referential_integrity (elements result))
        then (run_id, ParseRunStatus.FAILED, errors) else (run_id, ParseRunStatus.SUCCEEDED, [])).
End parser.

(** ** Projections (projections/rebuild.py) *)

Definition payload_hash (text : string) : string := sha256_str text.

Section projections.
Context `{Env}.

(** The columns of the conflict clause. *)
Definition projected (account : uuid) (provider surface canonical_type : string) (canonical_id revision : uuid) (p : Projection.t) : bool :=
  same (Projection.account_id p) account && String.eqb (Projection.provider p) provider && String.eqb (Projection.surface p) surface &&
  String.eqb (Projection.canonical_type p) canonical_type && same (Projection.canonical_id p) canonical_id &&
  same (Projection.canonical_revision_id p) revision.

Definition refreshed (digest : string) (t : Z) (p : Projection.t) : Projection.t :=
  Projection.set_tombstoned_at None (Projection.set_indexed_at (Some t) (Projection.set_status "active" (Projection.set_payload_hash digest p))).

Definition upsert_local_lexical_projection (account space : uuid) (canonical_type : string) (canonical_id revision : uuid) (text : string)
    (provider surface profile_version : string) : M uuid :=
  let digest := payload_hash text in
  let key := projected account provider surface canonical_type canonical_id revision in
  projection_id ← new_uuid;
  t ← now;
  existing ← select key;
  _ ← match existing with
      | [] =>
          add {| Projection.id := projection_id; Projection.account_id := account; Projection.space_id := space;
                 Projection.provider := provider; Projection.surface := surface; Projection.profile_version := profile_version;
                 Projection.canonical_type := canonical_type; Projection.canonical_id := canonical_id;
                 Projection.canonical_revision_id := revision;
                 Projection.provider_document_id := Some (canonical_type +:+ ":" +:+ str_uuid canonical_id);
                 Projection.payload_hash := digest; Projection.status := "active"; Projection.indexed_at := Some t;
                 Projection.tombstoned_at := None |}
      | _ :: _ => _ ← update_where key (refreshed digest t); mret tt
      end;
  mret projection_id.
End projections.

(** ** Settings (settings.py) *)

Record WorkersSettings := {
  ws_env : string; ws_hatchet_host : string; ws_telemetry_export : string; ws_otel_exporter_otlp_endpoint : string; ws_provider_api_key : string;
}.

Definition validate_workers (s : WorkersSettings) : res unit :=
  _ ← reject_blank "WORKERS_ENV" (ws_env s);
  mode ← normalize_mode (ws_env s);
  _ ← reject_blank "WORKERS_HATCHET_HOST" (ws_hatchet_host s);
  _ ← reject_enabled_exporter_without_endpoint (ws_telemetry_export s) (ws_otel_exporter_otlp_endpoint s);
  reject_plaintext_provider_credential "WORKERS_PROVIDER_API_KEY"
    (if truthy (ws_provider_api_key s) then Some (ws_provider_api_key s) else None) mode.

(** ** Properties *)

Lemma keep_truthy_strip (decode : list Z -> string) content line :
  line ∈ keep (fun line => truthy (strip line)) (splitlines (decode content)) -> truthy line = true.
Proof. intros [_ Ht]%elem_of_keep. apply truthy_true. intros ->. by vm_compute in Ht. Qed.

Lemma worker_elements_ok seen l :
  NoDup (map element_id l) -> (forall e, e ∈ l -> element_id e ∉ seen) ->
  (forall e, e ∈ l -> truthy (exact_text e) = true /\ 0 <= order_index e) -> worker_element_errors seen l = [].
Proof.
  revert seen. induction l as [|e l IH]; intros seen Hn Hs Hok; [done|]. cbn [worker_element_errors map] in *.
  apply NoDup_cons in Hn as [Hin Hn]. destruct (Hok e ltac:(by left)) as [Ht Ho].
  rewrite bool_decide_false by (apply Hs; by left). rewrite Ht, (proj2 (Z.ltb_ge _ _)) by done. cbn. apply IH; [done| |].
  - intros y Hy [Hq|Hq]%elem_of_cons; [apply Hin; rewrite <- Hq; by apply list_elem_of_fmap_2|]. by apply (Hs y); [right|].
  - intros y Hy. apply Hok. by right.
Qed.

(** The pipeline always returns: it accepts exactly the contents with a line that
    is not blank, whatever their MIME type, under the run identifier of the
    revision; and a repetition returns the same. *)
Theorem pipeline_accepts_text decode revision content mime :
  let lines := keep (fun line => truthy (strip line)) (splitlines (decode content)) in
  let run := parse_run_id revision (sha256_str "native_text_v1") in
  uuid5_distinct run (map element_name (imap (line_element run []) lines)) ->
  run_ingestion_pipeline decode revision content mime =
    Ok (if bool_decide (lines = []) then (run, ParseRunStatus.FAILED, ["quality_below_threshold"])
        else (run, ParseRunStatus.SUCCEEDED, [])).
Proof.
  cbv zeta. intros Hd. unfold run_ingestion_pipeline.
  replace (worker_select_parser decode mime) with (adapter_text_parser decode) by (unfold worker_select_parser; by destruct (_ || _)).
  cbn [parse adapter_text_parser port_profile_hash mbind res_bind mret res_ret]. set (run := parse_run_id _ _) in *.
  set (lines := keep _ _) in *. unfold worker_validate. cbn [elements quality_score].
  assert (He : worker_element_errors [] (imap (line_element run []) lines) = []).
  { apply worker_elements_ok.
    - exact (located_elements_distinct (line_element run []) "line" run lines eq_refl (fun _ _ => eq_refl) (fun _ _ => eq_refl) Hd).
    - intros e _. apply not_elem_of_nil.
    - intros e (i & x & -> & Hx)%elem_of_lookup_imap. cbn [exact_text order_index line_element]. split; [|lia].
      eapply keep_truthy_strip. by eapply list_elem_of_lookup_2. }
  assert (Hr : referential_integrity (imap (line_element run []) lines) = true).
  { unfold referential_integrity. apply forallb_forall. intros e He'. apply list_elem_of_In, elem_of_lookup_imap in He' as (i & x & -> & _). done. }
  rewrite He, Hr. cbn [app negb]. rewrite orb_false_r. destruct (bool_decide_reflect (lines = [])) as [El|El].
  - assert (Hq : (0 <? lit 3 10) = true) by (vm_compute; reflexivity). by rewrite Hq.
  - assert (Hq : (one <? lit 3 10) = false) by (vm_compute; reflexivity). by rewrite Hq.
Qed.

Notation stored w := (rows (R := Projection.t) (db w)).

(** The upsert leaves one active row for the key, of the text, and no other row
    changes; a row that was there keeps its identifier, so what a repetition
    returns names no row. *)
Theorem projection_upsert `{Env} account space canonical_type canonical_id revision text provider surface profile_version w pid w' :
  let key := projected account provider surface canonical_type canonical_id revision in
  unique_rows (stored w) ->
  upsert_local_lexical_projection account space canonical_type canonical_id revision text provider surface profile_version w = Ok (pid, w') ->
  exists p, keep key (stored w') = [p] /\ Projection.payload_hash p = payload_hash text /\ Projection.status p = "active" /\
    Projection.tombstoned_at p = None /\
    Projection.id p = match keep key (stored w) with [] => pid | old :: _ => Projection.id old end /\
    keep (fun r => negb (key r)) (stored w') = keep (fun r => negb (key r)) (stored w).
Proof.
  cbv zeta. intros Hu Hm. set (key := projected _ _ _ _ _ _) in *. unfold upsert_local_lexical_projection in Hm. fold key in Hm.
  apply M_bind_Ok in Hm as (pid' & w1 & Hi & Hm). injection Hi as Hpid <-. apply M_bind_Ok in Hm as (t & w2 & Ht & Hm). injection Ht as _ <-.
  apply M_bind_Ok in Hm as (existing & w3 & Hs & Hm). apply select_Ok in Hs as [-> ->]. cbn [db] in *.
  assert (Hk : forall d t r, key (refreshed d t r) = key r) by done.
  destruct (unique_keep key _ Hu) as [E|(old & E & Hin)].
  { intros a b Ha Hb. unfold key, projected, same in Ha, Hb. repeat (apply andb_prop in Ha as [Ha ?]; apply andb_prop in Hb as [Hb ?]).
    rewrite ?bool_decide_eq_true, ?String.eqb_eq in *. destruct a, b. cbn in *. subst. unfold Projection.clash, same. cbn.
    rewrite !(bool_decide_true _ eq_refl). cbn. by repeat case_bool_decide. }
  - rewrite E in *. apply M_bind_Ok in Hm as ([] & w4 & Ha & Hm). apply M_ret_Ok in Hm as [-> ->]. apply add_Ok in Ha as [_ ->].
    cbn [db]. rewrite rows_set_rows, !keep_app, E. eexists. split.
    + cbn [keep List.filter app]. replace (key _) with true; [reflexivity|]. unfold key, projected, same. cbn. by rewrite !bool_decide_true, !String.eqb_refl by done.
    + cbn. split_and!; try done. replace (key _) with true; [by rewrite app_nil_r|]. unfold key, projected, same. cbn. by rewrite !bool_decide_true, !String.eqb_refl by done.
  - rewrite E in *. apply M_bind_Ok in Hm as ([] & w4 & Ha & Hm). apply M_ret_Ok in Hm as [-> ->]. apply M_bind_Ok in Ha as (n & w5 & Ha & Hm).
    apply M_ret_Ok in Hm as [_ ->]. injection Ha as _ <-. cbn [db]. rewrite rows_set_rows.
    set (d := payload_hash text). set (g := fun r => if key r then refreshed d _ r else r).
    assert (Hg : forall r, key (g r) = key r) by (intros r; unfold g; by destruct (key r) eqn:?).
    exists (g old). rewrite (keep_map key g), E by done. split; [done|]. apply (keep_one key) in E as [_ Hold]. unfold g. rewrite Hold.
    split_and!; try done. fold g. rewrite (keep_map (fun r => negb (key r)) g) by (intros r; by rewrite Hg).
    rewrite <- (map_id (keep (fun r => negb (key r)) (stored w))) at 2. apply map_ext_in. intros r Hr. apply list_elem_of_In, elem_of_keep in Hr as [_ Hr].
    unfold g. by destruct (key r).
Qed.

(** ** Witnesses *)

Lemma pipeline_accepts_text_witness : exists run, run_ingestion_pipeline latin1 7 (utf8 "hi") "application/pdf" = Ok (run, ParseRunStatus.SUCCEEDED, []).
Proof.
  eexists. rewrite (pipeline_accepts_text latin1 7 (utf8 "hi") "application/pdf"); [vm_compute; reflexivity|].
  assert (Hn : exists n, map element_name (imap (line_element (parse_run_id 7 (sha256_str "native_text_v1")) [])
    (keep (fun line => truthy (strip line)) (splitlines (latin1 (utf8 "hi"))))) = [n]) by (eexists; vm_compute; reflexivity).
  destruct Hn as [n Hn]. rewrite Hn. intros a b Ha Hb _. apply list_elem_of_singleton in Ha as ->. apply list_elem_of_singleton in Hb as ->. reflexivity.
Defined.

Notation upserts text w := (@upsert_local_lexical_projection test_env 1 7 "source" 3 4 text "local" "lexical" "v1" w).

Definition projected_once : World := Eval vm_compute in match upserts "first" empty_world with Ok (_, w) => w | Raise _ => empty_world end.

Lemma projection_upsert_witness : exists pid w', upserts "second" projected_once = Ok (pid, w') /\
  exists p, keep (projected 1 "local" "lexical" "source" 3 4) (stored w') = [p] /\ Projection.payload_hash p = payload_hash "second" /\
    Projection.id p <> pid.
Proof.
  destruct (upserts "second" projected_once) as [[pid w']|e] eqn:E; [|vm_compute in E; discriminate E].
  exists pid, w'. split; [reflexivity|].
  assert (Hu : unique_rows (stored projected_once)) by (vm_compute; repeat constructor).
  destruct (projection_upsert 1 7 "source" 3 4 "second" "local" "lexical" "v1" projected_once pid w' Hu E) as (p & Hk & Hp & _ & _ & Hi & _).
  exists p. split; [exact Hk|]. split; [exact Hp|]. rewrite Hi. vm_compute in E. injection E as <- _. vm_compute. discriminate.
Defined.
