(* ===== verification/Providers.v ===== *)
(** * Provider adapters (packages/provider-adapters/)

    openbao_transit.py: the client of a transit cipher, over the parameter for
    [urlopen].  local_lexical_retrieval.py: the substring search of a corpus.
    tex_stub.py: the disabled retrieval provider. *)

From Stdlib Require Import Ascii ZArith Lia.
From stdpp Require Import base list strings.
From S2P Require Import Prelude PyStr Digest Json Uuid Enums Float64 JsonParse Base64 Retrieval RequestContext Document Oidc NotionHttp.
Open Scope Z_scope.

(** ** The standard alphabet of base64 *)

Definition std_char (c : ascii) : ascii := if Ascii.eqb c "-" then "+"%char else if Ascii.eqb c "_" then "/"%char else c.

Definition std_b64encode (l : list Z) : string := smap std_char (b64encode l).

(** Characters outside the alphabet are passed over. *)
Definition std_b64decode (s : string) : option (list Z) :=
  b64decode (str_filter (fun c => negb (Ascii.eqb c "-" || Ascii.eqb c "_")) s).

(** ** The transit client (openbao_transit.py) *)

Record OpenBaoTransitAdapter := { ob_address : string; ob_token : string; ob_mount : string }.

Definition strip_slashes (s : string) : string := rstrip_slash (lstrip_slash s).

Definition new_transit (address token mount : string) : res OpenBaoTransitAdapter :=
  _ ← raise_if (negb (truthy (strip address))) (ValueError "OpenBao address must be non-empty");
  _ ← raise_if (negb (truthy (strip token))) (ValueError "OpenBao transit token must be non-empty");
  _ ← raise_if (existsb (String.eqb (lower (strip token))) ["root"; "replace_with_operator_secret"])
        (ValueError "Refusing root/placeholder OpenBao tokens in application config");
  mret {| ob_address := rstrip_slash address; ob_token := token;
          ob_mount := if truthy (strip_slashes mount) then strip_slashes mount else "transit" |}.

Section transit.
Context `{Urllib} (a : OpenBaoTransitAdapter).

Definition _request (method path : string) (payload : dict) : res dict :=
  raw ← match urlopen method (ob_address a +:+ "/v1/" +:+ path)
                [("Content-Type", "application/json"); ("X-Vault-Token", ob_token a)] (Some (utf8 (print_spaced (JObj payload)))) with
        | Opened r => of_option (ValueError "UnicodeDecodeError") (utf8_decode (rp_raw r))
        | HTTPError r => Raise (RuntimeError ("OpenBao Transit request failed with HTTP " +:+ str_of_Z (rp_status r)))
        | URLError _ => Raise (RuntimeError "OpenBao Transit request failed")
        end;
  parsed ← loads raw;
  match parsed with JObj d => mret d | _ => Raise (RuntimeError "OpenBao Transit returned unexpected payload") end.

(** [data.get("data", {}).get(k)], a text that is not empty. *)
Definition data_text (k : string) (data : dict) (e : exn) : res string :=
  inner ← body_of (dict_get_or "data" (JObj []) data);
  match dict_get k inner with JStr (String _ _ as s) => mret s | _ => Raise e end.

Definition transit_encrypt (plaintext : list Z) (key_name : string) : res (list Z) :=
  data ← _request "POST" (ob_mount a +:+ "/encrypt/" +:+ key_name) [("plaintext", JStr (std_b64encode plaintext))];
  ciphertext ← data_text "ciphertext" data (RuntimeError "OpenBao encrypt response missing ciphertext");
  mret (utf8 ciphertext).

Definition transit_decrypt (ciphertext : list Z) (key_name : string) : res (list Z) :=
  text ← of_option (ValueError "UnicodeDecodeError") (utf8_decode ciphertext);
  data ← _request "POST" (ob_mount a +:+ "/decrypt/" +:+ key_name) [("ciphertext", JStr text)];
  plaintext_b64 ← data_text "plaintext" data (RuntimeError "OpenBao decrypt response missing plaintext");
  of_option (ValueError "binascii.Error") (std_b64decode plaintext_b64).
End transit.

(** ** Lexical retrieval (local_lexical_retrieval.py) *)

Record RetrievalSearchRequest := { sr_query : string; sr_limit : Z }.

Record RetrievalSearchResult := { sx_candidates : list RetrievalCandidate; sx_provider_version : string; sx_circuit_open : bool }.

(** [s.split(":", n)]. *)
Fixpoint split_most (n : nat) (s : string) : list string :=
  match n with
  | O => [s]
  | S n => match split_once ":" s with None => [s] | Some (a, b) => a :: split_most n b end
  end.

Definition uuid_of (s : string) : res uuid := of_option (ValueError "badly formed hexadecimal UUID string") (parse_uuid s).

Definition lexical_candidate (candidate_id text : string) (rank : Z) : res RetrievalCandidate :=
  let parts := split_most 2 candidate_id in
  let canonical_id_raw := default candidate_id (parts !! 1%nat) in
  let revision_id_raw := default canonical_id_raw (parts !! 2%nat) in
  canonical_id ← uuid_of canonical_id_raw;
  revision_id ← uuid_of revision_id_raw;
  mret {| rc_candidate_id := candidate_id; rc_canonical_type := default "unknown" (parts !! 0%nat); rc_canonical_id := canonical_id;
          rc_revision_id := revision_id; rc_space_id := 0; rc_lane := CandidateLane.EXACT; rc_rank := rank; rc_locator := None;
          rc_snippet := Some (take_str 512 text); rc_score_hint := None |}.

Fixpoint lexical_scan (query : string) (limit rank : Z) (corpus : list (string * string)) : res (list RetrievalCandidate) :=
  match corpus with
  | [] => mret []
  | (candidate_id, text) :: rest =>
      if negb (contains query (lower text)) then lexical_scan query limit rank rest
      else
        c ← lexical_candidate candidate_id text rank;
        if limit <=? rank then mret [c] else l ← lexical_scan query limit (rank + 1) rest; mret (c :: l)
  end.

Definition lexical_search (corpus : list (string * string)) (request : RetrievalSearchRequest) : res RetrievalSearchResult :=
  let query := lower (strip (sr_query request)) in
  candidates ← (if truthy query then lexical_scan query (sr_limit request) 1 corpus else mret []);
  mret {| sx_candidates := candidates; sx_provider_version := "local-lexical-v1"; sx_circuit_open := false |}.

(** ** The disabled provider (tex_stub.py) *)

Definition tex_health (enabled : bool) : HealthStatus.t := if enabled then HealthStatus.OK else HealthStatus.UNAVAILABLE.

Definition tex_search (enabled : bool) (request : RetrievalSearchRequest) : RetrievalSearchResult :=
  if enabled then {| sx_candidates := []; sx_provider_version := "tex-stub-v1"; sx_circuit_open := false |}
  else {| sx_candidates := []; sx_provider_version := "tex-disabled-v1"; sx_circuit_open := true |}.

Definition tex_search_or_raise (enabled : bool) (request : RetrievalSearchRequest) : res RetrievalSearchResult :=
  let result := tex_search enabled request in
  _ ← raise_if (sx_circuit_open result) (RuntimeError "tex_circuit_open");
  mret result.

(** ** Properties *)

Lemma decode_std s quad left pads : decode_from quad left pads (smap std_char s) = decode_from quad left pads s.
Proof.
  revert quad left pads. induction s as [|c s IH]; intros quad left pads; [done|]. cbn [smap decode_from].
  assert (Hp : Ascii.eqb (std_char c) "=" = Ascii.eqb c "=") by by destruct c as [[] [] [] [] [] [] [] []].
  assert (Hc : char_sextet (std_char c) = char_sextet c) by by destruct c as [[] [] [] [] [] [] [] []].
  rewrite Hp, Hc. rewrite !IH. destruct (char_sextet c) as [n|]; [|done]. by rewrite !IH.
Qed.

Lemma filter_std s : str_filter (fun c => negb (Ascii.eqb c "-" || Ascii.eqb c "_")) (smap std_char s) = smap std_char s.
Proof.
  induction s as [|c s IH]; [done|]. cbn [smap str_filter]. rewrite IH.
  assert (Hc : negb (Ascii.eqb (std_char c) "-" || Ascii.eqb (std_char c) "_") = true) by by destruct c as [[] [] [] [] [] [] [] []].
  by rewrite Hc.
Qed.

Lemma ascii_std s : str_all (fun c => (code c <? 128)%N) (smap std_char s) = str_all (fun c => (code c <? 128)%N) s.
Proof.
  induction s as [|c s IH]; [done|]. cbn [smap str_all]. rewrite IH. f_equal. by destruct c as [[] [] [] [] [] [] [] []].
Qed.

Lemma std_b64_roundtrip l : Forall is_byte l -> std_b64decode (std_b64encode l) = Some l.
Proof.
  intros Hl. unfold std_b64decode, std_b64encode. rewrite filter_std. transitivity (b64decode (b64encode l)); [|by apply b64decode_encode].
  unfold b64decode. by rewrite ascii_std, decode_std.
Qed.

(** A server that seals texts under a key: what the client is written for. *)
Record seals `{Urllib} (a : OpenBaoTransitAdapter) (key : string) (seal : string -> string) : Prop := {
  sl_encrypt : forall b, urlopen "POST" (ob_address a +:+ "/v1/" +:+ ob_mount a +:+ "/encrypt/" +:+ key)
    [("Content-Type", "application/json"); ("X-Vault-Token", ob_token a)] (Some (utf8 (print_spaced (JObj [("plaintext", JStr b)])))) =
    Opened (json_reply 200 [] (JObj [("data", JObj [("ciphertext", JStr (seal b))])]));
  sl_decrypt : forall b, urlopen "POST" (ob_address a +:+ "/v1/" +:+ ob_mount a +:+ "/decrypt/" +:+ key)
    [("Content-Type", "application/json"); ("X-Vault-Token", ob_token a)] (Some (utf8 (print_spaced (JObj [("ciphertext", JStr (seal b))])))) =
    Opened (json_reply 200 [] (JObj [("data", JObj [("plaintext", JStr b)])]));
  sl_text : forall b, seal b <> "";
}.

Lemma request_reads `{Urllib} a method path payload k v :
  urlopen method (ob_address a +:+ "/v1/" +:+ path) [("Content-Type", "application/json"); ("X-Vault-Token", ob_token a)]
    (Some (utf8 (print_spaced (JObj payload)))) = Opened (json_reply 200 [] (JObj [("data", JObj [(k, JStr v)])])) ->
  _request a method path payload = Ok [("data", JObj [(k, JStr v)])].
Proof.
  intros Hu. unfold _request. rewrite Hu. cbn [rp_raw json_reply]. rewrite utf8_decode_utf8. cbn [of_option mbind res_bind].
  rewrite loads_print_spaced; [done| |done]. apply wf_obj. split; [apply NoDup_singleton|].
  apply Forall_singleton. cbn [snd]. apply wf_obj. split; [apply NoDup_singleton|by apply Forall_singleton].
Qed.

Lemma data_text_one k v e : data_text k [("data", JObj [(k, JStr v)])] e = if truthy v then Ok v else Raise e.
Proof.
  unfold data_text. change (dict_get_or "data" (JObj []) _) with (JObj [(k, JStr v)]). cbn [body_of mbind res_bind mret res_ret].
  unfold dict_get, dict_lookup. cbn. rewrite String.eqb_refl. by destruct v.
Qed.

(** What the client encrypts it decrypts again, except the empty plaintext, which
    a decryption reports as missing. *)
Theorem transit_round_trip `{Urllib} a key seal plaintext : seals a key seal -> Forall is_byte plaintext ->
  exists ciphertext, transit_encrypt a plaintext key = Ok ciphertext /\
    transit_decrypt a ciphertext key =
      if bool_decide (plaintext = []) then Raise (RuntimeError "OpenBao decrypt response missing plaintext") else Ok plaintext.
Proof.
  intros [He Hd Ht] Hb. exists (utf8 (seal (std_b64encode plaintext))). split.
  - unfold transit_encrypt. rewrite (request_reads _ _ _ _ _ _ (He _)). cbn [mbind res_bind]. rewrite data_text_one.
    specialize (Ht (std_b64encode plaintext)). apply truthy_true in Ht. by rewrite Ht.
  - unfold transit_decrypt. rewrite utf8_decode_utf8. cbn [of_option mbind res_bind].
    rewrite (request_reads _ _ _ _ _ _ (Hd _)). cbn [mbind res_bind]. rewrite data_text_one.
    destruct (bool_decide_reflect (plaintext = [])) as [->|Hn]; [done|].
    assert (Htr : truthy (std_b64encode plaintext) = true).
    { apply truthy_true. unfold std_b64encode. destruct plaintext as [|x [|y [|z l]]]; done. }
    rewrite Htr. cbn [mbind res_bind]. by rewrite std_b64_roundtrip.
Qed.

(** The entries of a corpus a query matches. *)
Definition lexical_hits (query : string) (corpus : list (string * string)) : list (string * string) :=
  keep (fun kv => contains query (lower kv.2)) corpus.

(** Their candidates, ranked from [rank] on. *)
Fixpoint ranked (rank : Z) (hits : list (string * string)) : res (list RetrievalCandidate) :=
  match hits with
  | [] => mret []
  | kv :: hits => c ← lexical_candidate kv.1 kv.2 rank; l ← ranked (rank + 1) hits; mret (c :: l)
  end.

Lemma lexical_scan_spec query limit rank corpus :
  lexical_scan query limit rank corpus = ranked rank (take (Z.to_nat (Z.max 1 (limit - rank + 1))) (lexical_hits query corpus)).
Proof.
  revert rank. induction corpus as [|[k t] corpus IH]; intros rank; cbn [lexical_scan]; [by destruct (Z.to_nat _)|].
  unfold lexical_hits, keep. cbn [List.filter snd]. change (List.filter _ corpus) with (lexical_hits query corpus).
  destruct (contains query (lower t)) eqn:E; cbn [negb]; [|apply IH].
  destruct (Z.leb_spec limit rank) as [Hl|Hl].
  - replace (Z.to_nat (Z.max 1 (limit - rank + 1))) with 1%nat by lia. cbn [take ranked fst snd].
    destruct (lexical_candidate k t rank); [|done]. by destruct (lexical_hits query corpus).
  - replace (Z.to_nat (Z.max 1 (limit - rank + 1))) with (S (Z.to_nat (Z.max 1 (limit - (rank + 1) + 1)))) by lia.
    cbn [take ranked fst snd]. by rewrite IH.
Qed.

(** A search answers the first entries of the corpus that hold the query, in
    order, ranked from one: as many as the limit allows, and one at least; a
    blank query finds nothing. *)
Theorem lexical_search_exact corpus request :
  lexical_search corpus request =
    (candidates ← (if truthy (strip (sr_query request))
                   then ranked 1 (take (Z.to_nat (Z.max 1 (sr_limit request))) (lexical_hits (lower (strip (sr_query request))) corpus))
                   else mret []);
     mret {| sx_candidates := candidates; sx_provider_version := "local-lexical-v1"; sx_circuit_open := false |}).
Proof.
  unfold lexical_search. assert (Ht : truthy (lower (strip (sr_query request))) = truthy (strip (sr_query request))) by by destruct (strip _).
  rewrite Ht. destruct (truthy (strip (sr_query request))); [|done]. rewrite lexical_scan_spec. by replace (sr_limit request - 1 + 1) with (sr_limit request) by lia.
Qed.

(** ** Witness *)

(** A transit server that marks the texts it seals. *)
Definition test_transit : Urllib :=
  {| urlopen method url headers body :=
       let asked k := match utf8_decode (default [] body) with
                      | Some text => match loads text with Ok (JObj d) => py_str (dict_get k d) | _ => "" end
                      | None => "" end in
       let answer k v := Opened (json_reply 200 [] (JObj [("data", JObj [(k, JStr v)])])) in
       if endswith "/encrypt/memdot" url then answer "ciphertext" ("vault:v1:" +:+ asked "plaintext")
       else answer "plaintext" (drop_str 9 (asked "ciphertext")) |}.

Definition test_client : OpenBaoTransitAdapter := {| ob_address := "http://bao:8200"; ob_token := "scoped"; ob_mount := "transit" |}.

Lemma transit_round_trip_witness : exists ciphertext,
  @transit_encrypt test_transit test_client (utf8 "secret?") "memdot" = Ok ciphertext /\
  @transit_decrypt test_transit test_client ciphertext "memdot" = Ok (utf8 "secret?").
Proof.
  assert (Hw : forall k v, wf (JObj [(k, JStr v)])).
  { intros k v. apply wf_obj. split; [apply NoDup_singleton|]. by apply Forall_singleton. }
  assert (Hs : @seals test_transit test_client "memdot" (fun b => "vault:v1:" +:+ b)).
  { split; intros b; [| |discriminate]; cbn [urlopen test_transit]; cbv zeta;
      change (default [] (Some (utf8 ?x))) with (utf8 x); rewrite utf8_decode_utf8, (loads_print_spaced _ (Hw _ _) (conj I I)); reflexivity. }
  destruct (@transit_round_trip test_transit test_client "memdot" _ (utf8 "secret?") Hs (utf8_bytes _)) as (c & He & Hd).
  exists c. split; [exact He|exact Hd].
Defined.
